(* ===== verification/_CoqProject ===== *)
-Q . S2P
Prelude.v
VmeBus.v
Tsi148.v
Tsi148Window.v
VmeWindow.v
VmeWindowInv.v
VmeWindowMap.v
Tsi148Dma.v
Tsi148DmaChain.v
VmeIrq.v
VmeIrqInv.v
VmeDma.v
VmeDmaInv.v
VmeUser.v
MttIsa.v
MttObj.v
MttEmu.v
MttEmuInv.v
MttAsm.v
MttAsmSrc.v
MttAsmInv.v
CdcmSem.v
SkelQueue.v
SkelIo.v
SkelDrvr.v
SkelIoctl.v
SkelDrvrInv.v
SkelInstall.v
CdcmMem.v
CvorgHw.v
Clkgen.v
ClkgenInv.v
Cvorg.v
CvorgSeq.v
CvorgSeqInv.v
CvorgIoctl.v
CvorgInv.v
Sis33Dma.v
Sis33Core.v
Sis33Sysfs.v
Sis33Sys.v
Sis33SysInv.v
Sis3300.v
Sis3300Inv.v
Sis3300Cfg.v
Sis3300Fetch.v
Sis3300Runs.v
Sis3320.v
Sis3320Inv.v
Sis3320Fetch.v
Sis3320Runs.v
MttDev.v
MttDevInv.v
MttLib.v
MttLibInv.v
Modulbus.v
Vmodio.v
VmodioInv.v
Vmod.v
VmodInv.v
VmodTtl.v
VmodTtlInv.v
ModPci.v
VmodRuns.v
VmeLib.v
VmeLibInv.v
VmeLibCes.v
VmeLibRuns.v
CtrHw.v
CtrMod.v
CtrHptdc.v
Ctr.v
CtrIoctl.v
CtrIsr.v
CtrInv.v
CtrReach.v
CtrRuns.v
