(* ===== verification/Prelude.v ===== *)
(** * HT-DRV: a verification library for the CERN [ht-drivers] repository

    ** The program

    The repository holds Linux (and LynxOS) drivers for CERN's VME and PCI
    hardware and the tools that go with it.  This library verifies seven parts.
    The first is the VME bridge driver ([vmebridge/driver]): the driver of the
    Tundra TSI148 PCI-VME bridge, on which the other VME drivers are stacked:

    - [tsi148.c], [tsi148.h]: the chip.  Address-modifier and attribute
      conversions, outbound windows, the descriptor chains of the DMA engine,
      interrupt registers, error latches, shutdown.
    - [vme_window.c]: eight hardware windows shared by logical mappings; user
      processes (ioctl, mmap) and kernel clients find, create, release and
      destroy them.
    - [vme_irq.c], [vme_misc.c]: the interrupt handler, the 256-entry vector
      table, the enable mask, bus errors and their handlers.
    - [vme_dma.c]: transfers between buffers and VME, over two channels shared
      by a semaphore and busy flags.
    - [vme_cesif.c]: the CES calls of LynxOS on top of the window manager.
    - [lib/libvmebus.c]: the calls with which a process maps VME windows, on the
      ioctls and [mmap()] of the driver.

    The second is the MTT timing-event generator ([mttn]), whose task processor
    runs sixteen small programs:

    - [tools], [lib/opcodes.c]: an assembler for those programs and an emulator
      for them, with object files in between.
    - [driver/mtt-skel.c]: the driver of the card, on the framework below:
      programs, task blocks, registers, commands.
    - [lib/libmtt.c]: programs loaded, started and unloaded by name.

    The third is the framework on which the drivers of CERN's own modules are
    built ([skel/driver]) and the semaphores it waits on ([cdcm]):

    - [skeldrvr.c], [skeldrvrP.h]: clients with a queue of events each,
      connections of clients to the interrupts of modules, the entry points
      open, close, read, write, select, ioctl, install and uninstall.
    - [skelvme.h]: mapping the address spaces of VME modules and registering
      their handlers with the VME bridge.
    - [cdcm/cdcmTime.c]: LynxOS semaphores emulated on Linux.

    The fourth is a driver built on that framework, for the CVORG two-channel
    function generator ([cvorg/driver]), with the AD9516 that clocks it:

    - [cvorg-skel.c]: waveform sequences, gains, offsets, sampling clock, modes,
      locking of a module by a file, ioctls, reset and interrupts.
    - [clkgen.c], [clkgen.h]: the registers of the clock generator behind a
      serial interface, and the PLL configuration in them.

    The fifth is the driver of the Struck digitizers ([sis33/drivers]), a direct
    client of the bridge:

    - [sis33_core.c], [sis33_sysfs.c]: cards with memory segments; the ioctls
      that acquire and fetch, the attributes, registration.
    - [sis33_dma.c]: access to the registers and the memory of a card, always by
      DMA through [vme_do_dma_kernel()].
    - [sis3300.c], [sis3320.c]: the SIS3300, SIS3320 and SIS3302: configuration,
      events, interrupts, transfers.

    The sixth is the family of VMOD mezzanines and their carriers ([vmod]), on the
    CES calls and the vectors of the bridge as well:

    - [driver/modulbus_register.c], [lunargs.c]: the registry of carriers and the
      tables of modules.
    - [driver/vmodio.c], [driver/mod-pci.c]: a VME and a PCI carrier: addresses of
      slots, interrupts of slots.
    - [driver/vmod12a2drvr.c], [vmod16a2drvr.c], [vmod12e16drvr.c],
      [vmoddordrvr.c]: analog outputs, analog inputs, digital outputs.
    - [driver/vmodttldrvr.c], [lib/libvmodttl.c]: digital lines behind a Z8536,
      and the library for them.

    The seventh is the driver of the VME timing receiver ([ctr/driver_vme]), a
    CTRV, which stamps timing events and interrupts its clients on them:

    - [ctrdrvr.c]: modules with counters, triggers and their configurations;
      clients that connect to objects (CTIM, PTIM) or to interrupt lines; the
      interrupt handler and the queues; open, close, read, write and the ioctls.
    - [common_pci_vme]: the memory map of the card, the packed triggers and
      configurations, the registers of the HPTDC chip behind a JTAG port.

    The window manager programs windows through the register layer; the DMA
    management builds a scatter-gather list that the DMA engine turns into a
    chain; interrupts wake the DMA waiters and record bus errors that ioctls
    and kernel clients read back.  The framework maps its modules through the
    CES calls of the bridge; an interrupt of the bridge puts an event on the
    queue of each connected client and signals its semaphore, on which [read()]
    waits.  The framework calls the driver of the function generator for every
    ioctl of its own, at installation and in the interrupt handler.

    ** Files

    - [Prelude]: machine integers ([u32], [s32], ...: [Z] with the wrap-around
      written out), error numbers, mask and bit lemmas, hint databases [mach]
      and [regs], tactics, and the ownership automaton [own_run] on logs of
      acquisitions and releases.
    - [VmeBus]: the public structures and enumerations ([vmebus.h]).
    - [Tsi148]: the register file, [am_to_attr()], [attr_to_am()], the window
      and DMA attribute words, the 64-bit helpers, [tsi148_quiesce()].
    - [Tsi148Window]: [tsi148_create_window()], [tsi148_get_window_attr()],
      [tsi148_remove_window()]; [outbound_translate] is what the chip does with
      a PCI address.  The class [WindowHw] states what the window manager
      relies on; the instance [tsi148_hw] discharges it.
    - [VmeWindow]: the window table and every operation on it, over any
      [WindowHw].  [kenv] is what the kernel answers in a call (interrupted
      mutex, failed allocation, PCI resource, ioremap).
    - [VmeWindowInv]: the operations as a transition system; structure and
      ownership invariants for every sequence of operations.
    - [VmeWindowMap]: the table and the chip agree, and a mapping reaches the
      VME addresses asked for.
    - [Tsi148Dma], [Tsi148DmaChain]: control words and descriptor chains;
      [walk_chain] is how the chip reads a chain.
    - [VmeIrq], [VmeIrqInv]: interrupts, vectors, bus errors.  [hwin] is what
      the bridge presents in one pass of the handler.
    - [VmeDma], [VmeDmaInv]: a transfer from request to cleanup; the channels
      as an interleaved step system.
    - [VmeUser]: ioctls and the CES calls.
    - [VmeLib]: the user library, on a process with files, pages and a heap;
      [VmeLibInv]: mappings of a process, from its pages to the bus; [VmeLibCes]:
      the CES calls of the library; [VmeLibRuns]: concrete runs.
    - [MttIsa]: the instruction and register tables of the MTT task processor,
      number parsing and printing ([strtoul()], [%X]), name look-up.
    - [MttObj]: object files: [WriteObject()], [ReadObject()], [HexDump()].
    - [MttEmu], [MttEmuInv]: the emulator of the task processor, [Execute()] and
      the commands of [Emulate()].
    - [MttAsm]: the assembler: tokenizer, symbol table, expression stacks,
      [Assemble()], the second pass of [main()].
    - [MttAsmSrc], [MttAsmInv]: source programs, their text and atoms; the
      assembler on them.
    - [MttDev]: the driver: registers and memories of the card, what is kept of a
      module, the ioctls; [MttDevInv]: what each ioctl writes, its locks and
      buffers, the configuration, programs read back as loaded.
    - [MttLib]: the library calls, over the ioctls; [MttLibInv]: the table of
      named programs they implement; the path from an object file to the card.
    - [CdcmSem]: the semaphores, and their runs.
    - [SkelQueue]: the ring of a client, and the interleaving of interrupts and
      readers; its specification is a bounded list.
    - [SkelIo]: raw access to the address spaces of a module, over any [Bus].
    - [SkelDrvr]: the working area, connections, open, close, read, write,
      interrupts; [SkelIoctl]: the ioctls, over any [SkelUser] part.
    - [SkelDrvrInv]: connections and client contexts, proved for every sequence
      of entry points.
    - [SkelInstall]: installing and uninstalling VME modules, over any
      [VmeServices] (the CES calls of the bridge).
    - [CdcmMem]: [cdcm_mem_alloc()] and [cdcm_mem_free()], [sysbrk()] and [sysfree()].
    - [CvorgHw]: registers of the card, user memory and the module lock.
    - [Clkgen], [ClkgenInv]: the AD9516: serial access, dividers, the PLL
      configuration and its checks.
    - [Cvorg]: channels, gains, frequency limits, modes; [play_wv] is what the
      card makes of a channel's blocks and memory.
    - [CvorgSeq], [CvorgSeqInv]: copying a sequence from the user, storing it in
      the card, releasing it.
    - [CvorgIoctl], [CvorgInv]: the ioctls, installation, reset, interrupts, as
      a system of operations.
    - [Sis33Dma]: the DMA requests behind every access to a digitizer, and
      what they do to the words written so far.
    - [Sis33Core]: cards, segments, the ioctls cut at their critical sections,
      over any [sis33_card_ops]; [Sis33Sysfs]: the attributes, registration, the
      numbers of cards.
    - [Sis33Sys], [Sis33SysInv]: tasks, interrupts and cancellations of a card
      interleaved; the class [Sis33Driver] states what a module's operations
      promise, and the invariant is proved from it.
    - [Sis3300], [Sis3300Inv]: the SIS3300, and its instance of [Sis33Driver].
    - [Sis3300Cfg]: the registers hold the configuration; [Sis3300Fetch]: what a
      transfer delivers; [Sis3300Runs]: a concrete card.
    - [Sis3320], [Sis3320Inv], [Sis3320Fetch], [Sis3320Runs]: the same for the
      SIS3320 and the SIS3302, whose memory is behind a paged window.
    - [Modulbus]: the registry, as a partial map of at most 32 names, and the
      tables of modules.
    - [Vmodio], [VmodioInv]: the VME carrier; mappings that searches for others do
      not disturb, boards, vectors and handlers.
    - [Vmod], [VmodInv]: the analog and digital modules.
    - [VmodTtl], [VmodTtlInv]: the TTL module, its chip and its library.
    - [ModPci]: the PCI carrier; [VmodRuns]: concrete carriers and modules.
    - [CtrHw]: the memory map, the packed triggers and configurations; [CtrMod]: a
      module and the accesses to it; [CtrHptdc]: the HPTDC behind its JTAG port.
    - [Ctr]: one module's operations, connections, the interrupt handler, open,
      close, read, write; [CtrIoctl]: the ioctls.
    - [CtrIsr]: what an interrupt delivers; [CtrInv], [CtrReach]: the invariant of
      the connections, per operation and for every run; [CtrRuns]: concrete runs.

    ** What the theorems show

    - Translation: a window programmed into the chip translates exactly its
      range ([create_window_refines]), the table and the chip agree in every
      reachable state
      ([window_table_agrees]), a found mapping reaches the addresses asked for
      ([find_mapping_translates], lemma [find_controller_maps]); so do the addresses
      that the library gives a process ([vme_map_reaches]), until it takes them
      back ([map_unmap_restores], [ces_controller_roundtrip]).
    - Ownership: mutexes, PCI resources, I/O mappings, pages, lists and
      descriptors are given back exactly once on every path
      ([window_ownership], [do_dma_cleans_up], [dma_chain_total]; lemma
      [window_exit_releases_all] for the unload).
    - DMA: the chain is the transfer ([dma_chain_correct]), the page list is
      the buffer (lemma [sg_list_covers_buffer]), requests are validated
      (lemma [dma_setup_validates]); channels are exclusive and
      callers cannot deadlock ([dma_channel_exclusive], [dma_no_deadlock]).
    - Interrupts: the handler calls and counts exactly the enabled raised
      sources ([interrupt_calls], lemma [interrupt_counts]); a bus error is reported once
      (lemma [bus_error_reported_once]), the enable mask agrees with the registers
      (lemma [interrupt_mask_shadow]).
    - Encodings: lemmas for the fields of the attribute words
      ([window_attributes_spec]), the round trip of address modifiers, the DMA
      encodings and the 64-bit helpers.
    - MTT: object files read back as written ([object_roundtrip]); a source program
      assembles to the program it denotes ([assemble_roundtrip]); the emulator stays inside its arrays
      ([emulator_safe]); lemmas for the names ([isa_names_roundtrip]), branches
      on 32-bit results ([branch_follows_result]) and relative waits
      ([relative_wait]).  The settings of the driver are in force on the card
      ([mtt_config_in_force]); the library keeps a table of named programs in the
      card ([mttlib_refines]); an object file arrives there as the words the
      emulator dumps ([object_file_reaches_card]); lemmas for starting tasks
      ([tasks_start_writes]) and the path of a file ([load_task_file]).
    - Framework: a semaphore serves its waiters in order and loses no unit
      ([semaphore_fifo]); the ring is a bounded list ([client_queue_refines]);
      raw blocks move every item once (lemmas [raw_block_read],
      [raw_block_write]); no client context is used after it is freed ([contexts_safe]), an interrupt
      reaches the clients connected to it ([interrupt_delivers]), connecting and
      closing change the lists they should (lemmas
      [connect_disconnect], [close_disconnects]); installing is undone by uninstalling
      ([install_uninstall]) and establishes what [contexts_safe] starts from
      (lemma [install_installed]).
    - Function generator: a loaded sequence is what the card plays
      ([loadseq_plays]) and its memory is given back ([loadseq_releases]); the
      configuration registers agree with the driver's state in every reachable
      state ([cvorg_always_agrees]); a locked module serves its owner only
      ([locked_module_serves_owner]); the gain taken is the nearest
      (lemma [gain_approx_nearest]); a PLL configuration reads back as written
      ([pll_roundtrip]).
    - Digitizers: one acquisition at a time, and none of a segment that is being
      transferred ([sis33_exclusive]); nobody waits for an acquisition that nobody
      makes ([sis33_no_lost_wakeup]); the registers hold the configuration in
      every reachable state ([sis3300_config_in_force]); a transfer delivers the
      samples of its channel and nothing else ([sis3300_fetch_delivers]), page by
      page on a SIS3320 ([sis3320_fetch_delivers]); what is
      accepted fits the memory (lemma [acquire_fits]).
    - VMOD: an output arrives at the VME address of its board, slot and channel
      ([vmod_output_reaches_slot]); a vector runs the handler of its slot
      ([vmodio_interrupt_routed]); the Z8536 holds what the driver's flags say, and
      writes and reads do what they allow ([ttl_config_in_force]); lemmas for the
      registry ([registry_refines]), conversions ([conversion_spec]), what the TTL
      library configures and reads back ([config_reads_back]) and what a PCI
      carrier takes and gives back ([probe_remove]).
    - Timing receiver: the tables name open clients and the hardware interrupts
      for them ([ctr_connections_live]); an interrupt gives each client the events
      it is connected to, with their time stamps ([ctr_interrupt_delivers]); an
      HPTDC command exchanges the registers ([hptdc_command_exchanges]); lemma
      [queue_event_refines] for the ring of a client.

    Where the code departs from what it means to do, the theorem carries the
    condition under which it holds and a lemma next to it evaluates the
    departure: [unaligned_request_uncovered], [wrapped_request_matches],
    [window_end_at_4G], [transfer_to_4G_bug], [unpinned_pages_used],
    [nr_pages_wraps], [dma_exit_with_busy_channel], [request_irq_race],
    [close_disables_others], [jtag_close_frees_twice], [timeout_race],
    [long_write_repeats], [emulation_leaves_handlers], [empty_waveform_leaks],
    [shortage_not_noticed], [dividers_swap_back], [full_waveform_plays_nothing],
    [cancelled_before_start], [started_under_transfer], [cancelled_events],
    [acq_descriptors_wrap], [destroyed_twice], [prevticks_not_relative],
    [two_transfers], [negative_register_commands], [long_program_overwrites],
    [interrupts_only_added], [documented_init_fails], [sparse_board_unserved],
    [unknown_lun_opens], [pattern_overruns], [simpio_unlocked],
    [failed_probe_leaks], [find_controller_unaligned_address],
    [user_find_controller_leaks], [retry_given_up], [interrupt_lost],
    [object_stays], [lines_left], [empty_slot_refused], [object_zero_stays],
    [absent_module_used]
    and others, all listed in the manifest.

    ** Modelling choices, bounds and fuel

    - Integers are [Z]; every C operation that can wrap on [unsigned int] is
      wrapped with [u32], on [int] with [s32].  Pointers handed out by the
      kernel are numbers, NULL is 0; [unsigned long] has 32 bits, as in the
      32-bit kernels the driver is built for.
    - Registers are plain 32-bit memory, except where the code depends on what
      the chip does: the registers of interrupt status and error latches are
      refreshed from [hwin] on every pass of the interrupt handler, and the
      answers to the polls of [tsi148_generate_interrupt()] are an argument.
    - [tsi148_dma_link_add()] loops: the model has fuel [size + 2], one
      iteration per byte at least, and [dma_chain_total] proves that it is
      enough.  The handler's [while] loop runs over the finite list of
      statuses the bridge presents.
    - Code of the kernel (mutexes, allocators, page pinning, PCI mapping,
      user copies) is an argument, with its documented behaviour as the named
      hypotheses [kenv_ok], [answers_ok], [env_ok].
    - Concurrency is modelled where the code relies on it: the DMA channels,
      the semaphores, and the ring of a client between the interrupt handler
      and its readers, where each critical section is one step.  The entry
      points of the framework are interleaved as whole calls, except that a
      [read()] and a [JTAG_OPEN] that wait return later.  The window operations
      are atomic in the model: each holds the mutex of its window, except the
      last step of [__vme_find_mapping()] (see the findings of the manifest).
      The ioctls of a function generator hold the lock of its module and are
      atomic as well.
    - Client contexts are memory blocks with addresses, the lists hold
      addresses, and [None] is an access to a block that was freed or to NULL.
    - The card of a function generator is registers that keep what is written,
      except that read-only registers answer what an argument says and that a
      serial transfer to the AD9516 is seen as pending for some polls; the
      theorems about it assume a [prompt] card (at most two polls), far below the
      driver's own limit.  The reset bit of the FPGA does not clear registers in
      the model.  Memory for waveforms is a store of blocks with addresses, so
      that leaks and stale pointers show.
    - The card of a timing generator is the words last written to it; the
      registers that its processors change answer what an argument [world] says,
      while program memory and relocators keep what is written.  Its ioctls are
      atomic.  The theorems on the library assume that memory for the buffers is
      granted ([me_avail]) and exclude raw words, registers with negative numbers
      and programs that do not fit ([mild]).
    - A digitizer is a function from the words written to its addresses so far
      and the time to the byte at each address, so no answer of it is excluded; a
      DMA transfer is one instant, and the theorems on what is read or written
      assume that the bridge completes it ([no_fault]).  The sections of the
      ioctls under the mutex of the card are single steps of [step33], and so
      are the start of the card, the transfer, the attributes, a cancellation and
      the work of an interrupt.  The exclusion theorems hold for runs in which no
      acquisition ends in the window between its preparation and its start
      ([settled]); the runs that do otherwise are lemmas of [Sis3300Runs].
      Structures have their 32-bit layout.
    - The Z8536 is its registers behind the pointer that the driver moves; what its
      lines show answers an argument [world], what is written to its ports is a
      list.  The ports of the other mezzanines are a log of accesses.  The static
      tables and entry points of the carrier are numbers ([table], [isr], [gas],
      [risr]), and the answers of the kernel while it is set up are [venv].  The
      entry points of the VMOD drivers are atomic; the patterns of the stack that
      the TTL library hands to the driver unset are an argument.
    - The card of a timing receiver is its words: a write stores, reading the
      interrupt sources or the lock of a history clears it, and a fault of an
      address is a bus error.  The HPTDC is the sixteen states of its
      port, moved by what is written to the pins, with an answer of the chip as an
      argument ([cd_chip]).  [ctr_connections_live] excludes objects numbered 0
      and raw writes over the configurations ([legal]), and states that used NULL
      or a wrong index ([crashed]); [ctr_interrupt_delivers] excludes bus errors
      ([calm]).
    - The shift loops, digit loops and list loops of the driver are structural
      or run over finite lists; the remaining ones carry fuel that their
      theorems show is enough.

    ** Not modelled

    Procfs listings and [printk] diagnostics; the PCI probe, char devices and
    module parameters of [vme_bridge.c] (only the initialisation of the
    interrupts is); the listings and the disassembler of the MTT tools, the search for the device in its library; of the
    framework, the PCI modules ([skelpci.h]), the cloning of the description
    tree, the clean-up of dead LynxOS clients and the entry points a driver can
    substitute; the timers and threads of [cdcm]; the user library of the
    function generator; of the digitizers, the read-only attributes, the 32-bit
    compatibility ioctls, open and release, and the module load;
    of the VMOD family, the libraries of one ioctl per call and the adapters to
    DIOAIO, and the character devices; of the timing receiver, the installation
    ([AddModule()], [CtrDrvrInstall()] and their undoing), [select()] and the PCI
    version of the driver, a separate copy; the other drivers of the repository;
    vendored code (the
    XSVF player).

    ** Plan

    Next: the installation of the timing receiver, the clock search of
    [cvorg/ad9516], the PCI modules of the framework. *)

From stdpp Require Export base list gmap.
From Stdlib Require Export ZArith Lia Bool.

Global Open Scope Z_scope.

(** ** Linux error numbers (values of <asm-generic/errno*.h>) *)

Definition EINTR : Z := 4.
Definition ENOMEM : Z := 12.
Definition ENODEV : Z := 19.
Definition EFAULT : Z := 14.
Definition EBUSY : Z := 16.
Definition EINVAL : Z := 22.
Definition EDEADLK : Z := 35.
Definition ETIME : Z := 62.
Definition ERESTARTSYS : Z := 512.
Definition ENOIOCTLCMD : Z := 515.

(** ** Machine integers

    A C [unsigned int] is a [Z] kept in [0, 2^32) by [u32]; a C [int] is a
    [Z] kept in [-2^31, 2^31) by [s32].  Every place where the source can
    wrap around says so by one of these functions. *)

Definition u8 (z : Z) : Z := z mod 2 ^ 8.
Definition u16 (z : Z) : Z := z mod 2 ^ 16.
Definition u32 (z : Z) : Z := z mod 2 ^ 32.
Definition u64 (z : Z) : Z := z mod 2 ^ 64.
Definition s32 (z : Z) : Z := (z + 2 ^ 31) mod 2 ^ 32 - 2 ^ 31.

(** C's one's complement on a 32-bit word. *)
Definition not32 (z : Z) : Z := u32 (Z.lnot z).

(** C's truth value of an integer. *)
Definition truthy (z : Z) : bool := negb (z =? 0).

Definition is_u32 (z : Z) : Prop := 0 <= z < 2 ^ 32.

Declare Scope mach_scope.
Delimit Scope mach_scope with mach.
Notation "a +₃₂ b" := (u32 (a + b)) (at level 50, left associativity) : mach_scope.
Notation "a -₃₂ b" := (u32 (a - b)) (at level 50, left associativity) : mach_scope.
Open Scope mach_scope.

(** ** Hint databases *)

Create HintDb mach discriminated.
Create HintDb regs discriminated.

(** ** Tactics *)

(** Turn the boolean comparisons the models branch on into propositions. *)
Ltac boolp :=
  repeat match goal with
  | H : (_ =? _) = true |- _ => apply Z.eqb_eq in H
  | H : (_ =? _) = false |- _ => apply Z.eqb_neq in H
  | H : (_ <? _) = true |- _ => apply Z.ltb_lt in H
  | H : (_ <? _) = false |- _ => apply Z.ltb_ge in H
  | H : (_ <=? _) = true |- _ => apply Z.leb_le in H
  | H : (_ <=? _) = false |- _ => apply Z.leb_gt in H
  | H : (_ && _) = true |- _ => apply andb_true_iff in H as [? ?]
  | H : (_ && _) = false |- _ => apply andb_false_iff in H
  | H : (_ || _) = true |- _ => apply orb_true_iff in H
  | H : (_ || _) = false |- _ => apply orb_false_iff in H as [? ?]
  | H : negb _ = true |- _ => apply negb_true_iff in H
  | H : negb _ = false |- _ => apply negb_false_iff in H
  end.

(** Case split on the innermost [if]/[match] scrutinee of the goal. *)
Ltac case_goal :=
  match goal with
  | |- context [if ?b then _ else _] =>
      lazymatch b with
      | context [if _ then _ else _] => fail
      | context [match _ with _ => _ end] => fail
      | _ => let E := fresh "E" in destruct b eqn:E
      end
  end.

Ltac case_hyp H :=
  match type of H with
  | context [if ?b then _ else _] =>
      lazymatch b with
      | context [if _ then _ else _] => fail
      | context [match _ with _ => _ end] => fail
      | _ => let E := fresh "E" in destruct b eqn:E
      end
  end.

(** Evaluate the comparisons of constants in the goal. *)
Ltac eval_eqb :=
  repeat match goal with
  | |- context [?a =? ?b] => let v := eval vm_compute in (a =? b) in lazymatch v with true => idtac | false => idtac end; change (a =? b) with v
  end.

(** ** Integers modulo a power of two *)

Lemma u32_range z : is_u32 (u32 z).
Proof. unfold is_u32, u32. apply Z.mod_pos_bound. lia. Qed.

Lemma u32_id z : is_u32 z -> u32 z = z.
Proof. apply Z.mod_small. Qed.

Lemma u32_idemp z : u32 (u32 z) = u32 z.
Proof. apply u32_id, u32_range. Qed.

Lemma u32_add_l a b : u32 (u32 a + b) = u32 (a + b).
Proof. unfold u32. apply Zplus_mod_idemp_l. Qed.

Lemma u32_add_r a b : u32 (a + u32 b) = u32 (a + b).
Proof. unfold u32. apply Zplus_mod_idemp_r. Qed.

Lemma u32_sub_l a b : u32 (u32 a - b) = u32 (a - b).
Proof. unfold u32. apply Zminus_mod_idemp_l. Qed.

Lemma u32_sub_r a b : u32 (a - u32 b) = u32 (a - b).
Proof. unfold u32. apply Zminus_mod_idemp_r. Qed.

Lemma u64_range z : 0 <= u64 z < 2 ^ 64.
Proof. unfold u64. apply Z.mod_pos_bound. lia. Qed.

Lemma s32_range z : - 2 ^ 31 <= s32 z < 2 ^ 31.
Proof. unfold s32. pose proof (Z.mod_pos_bound (z + 2^31) (2^32)). lia. Qed.

Lemma s32_id z : - 2 ^ 31 <= z < 2 ^ 31 -> s32 z = z.
Proof. intros. unfold s32. rewrite Z.mod_small; lia. Qed.

#[export] Hint Resolve u32_range u64_range s32_range : mach.
#[export] Hint Rewrite u32_idemp u32_add_l u32_add_r u32_sub_l u32_sub_r : mach.

(** ** Masks *)

(** A 64 KiB alignment mask on a 32-bit word clears the low 16 bits. *)
Lemma land_low_mask x n : 0 <= n -> Z.land x (2 ^ n - 1) = x mod 2 ^ n.
Proof.
  intros. rewrite <- Z.land_ones by lia. f_equal. rewrite Z.ones_equiv. lia.
Qed.

Lemma testbit_above x w i : 0 <= x < 2 ^ w -> w <= i -> Z.testbit x i = false.
Proof.
  intros Hx Hi. destruct (Z_lt_le_dec w 0).
  { rewrite Z.pow_neg_r in Hx by lia. lia. }
  rewrite <- (Z.mod_small x (2 ^ w)) by lia. apply Z.mod_pow2_bits_high. lia.
Qed.

Lemma land_high_mask x n w :
  0 <= n <= w -> 0 <= x < 2 ^ w -> Z.land x (2 ^ w - 2 ^ n) = x - x mod 2 ^ n.
Proof.
  intros Hn Hx.
  replace (x - x mod 2 ^ n) with (Z.shiftl (Z.shiftr x n) n).
  2:{ rewrite Z.shiftl_mul_pow2, Z.shiftr_div_pow2 by lia.
      pose proof (Z.div_mod x (2 ^ n)). lia. }
  replace (2 ^ w - 2 ^ n) with (Z.shiftl (Z.ones (w - n)) n).
  2:{ rewrite Z.shiftl_mul_pow2, Z.ones_equiv by lia.
      replace (2 ^ w) with (2 ^ (w - n) * 2 ^ n) by (rewrite <- Z.pow_add_r; f_equal; lia). lia. }
  apply Z.bits_inj'. intros i Hi.
  rewrite Z.land_spec, !Z.shiftl_spec by lia.
  destruct (Z_lt_le_dec i n).
  { rewrite !(Z.testbit_neg_r _ (i - n)) by lia. apply andb_false_r. }
  rewrite Z.shiftr_spec by lia. replace (i - n + n) with i by lia.
  destruct (Z_lt_le_dec i w).
  - rewrite Z.ones_spec_low by lia. apply andb_true_r.
  - by rewrite (testbit_above x w i).
Qed.

(** Fields that do not overlap. *)
Lemma lor_add x y k : 0 <= k -> 0 <= y < 2 ^ k -> Z.lor (x * 2 ^ k) y = x * 2 ^ k + y.
Proof.
  intros Hk Hy. rewrite <- Z.add_lor_land. assert (Z.land (x * 2 ^ k) y = 0) as ->; [|lia].
  apply Z.bits_inj'. intros i Hi. rewrite Z.land_spec, Z.bits_0. destruct (Z_lt_le_dec i k).
  - by rewrite Z.mul_pow2_bits_low.
  - rewrite (testbit_above y k i) by lia. apply andb_false_r.
Qed.

(** [land] of a non-negative number stays below either bound. *)
Lemma land_bound_r x m : 0 <= m -> 0 <= Z.land x m <= m.
Proof.
  intros Hm. split; [apply Z.land_nonneg; auto|].
  apply Z.ldiff_le; [exact Hm|].
  apply Z.bits_inj'. intros i Hi. rewrite Z.ldiff_spec, Z.land_spec, Z.bits_0.
  destruct (Z.testbit x i), (Z.testbit m i); reflexivity.
Qed.

(** Testing one bit with a mask. *)
Lemma truthy_land_pow2 x n : 0 <= n -> truthy (Z.land x (2 ^ n)) = Z.testbit x n.
Proof.
  intros Hn. unfold truthy. destruct (Z.testbit x n) eqn:E.
  - apply negb_true_iff, Z.eqb_neq. intros H0.
    assert (Z.testbit (Z.land x (2 ^ n)) n = true) as H1.
    { rewrite Z.land_spec, E, Z.pow2_bits_true by lia. reflexivity. }
    rewrite H0, Z.bits_0 in H1. discriminate.
  - apply negb_false_iff, Z.eqb_eq, Z.bits_inj'. intros i Hi.
    rewrite Z.land_spec, Z.pow2_bits_eqb, Z.bits_0 by lia.
    destruct (Z.eqb_spec n i) as [->|]; [by rewrite E | by rewrite andb_false_r].
Qed.

Lemma testbit_u32 x i : 0 <= i < 32 -> Z.testbit (u32 x) i = Z.testbit x i.
Proof. intros. unfold u32. apply Z.mod_pow2_bits_low. lia. Qed.

Lemma land_lo16 x : Z.land x 0xffff = x mod 2 ^ 16.
Proof. apply (land_low_mask x 16). lia. Qed.

Lemma land_hi16 x : is_u32 x -> Z.land x 0xffff0000 = x - x mod 2 ^ 16.
Proof. intros. apply (land_high_mask x 16 32); [lia | assumption]. Qed.

Lemma truthy_mod0 x : x mod 2 ^ 16 = 0 -> truthy (Z.land x 0xffff) = false.
Proof. intros H. by rewrite land_lo16, H. Qed.

Lemma u64_sub_pair a b : u64 (u64 a + b) = u64 (a + b).
Proof. unfold u64. apply Zplus_mod_idemp_l. Qed.

Lemma u64_add_r a b : u64 (a + u64 b) = u64 (a + b).
Proof. unfold u64. apply Zplus_mod_idemp_r. Qed.

(** Reassembling a 64-bit word from its halves. *)
Lemma u64_halves z : u64 z / 2 ^ 32 * 2 ^ 32 + u32 z = u64 z.
Proof.
  unfold u64, u32. replace (2 ^ 64) with (2 ^ 32 * 2 ^ 32) by reflexivity.
  rewrite <- (Z.mod_mod (z) (2 ^ 32)) by lia.
  pose proof (Z.div_mod (z mod (2 ^ 32 * 2 ^ 32)) (2 ^ 32)) as H.
  assert ((z mod (2 ^ 32 * 2 ^ 32)) mod 2 ^ 32 = z mod 2 ^ 32) as E.
  { rewrite Z.rem_mul_r by lia. rewrite Z.mul_comm, Z.mod_add, Z.mod_mod by lia. reflexivity. }
  rewrite Z.mod_mod by lia. lia.
Qed.

(** ** Kernel objects

    What a driver acquires from the kernel and gives back is a log of events on
    objects (a kind and an index).  The ownership automaton runs on the log:
    acquiring an object that is held (a self-deadlock, a leak) or releasing one
    that is not (a double free, a stray unlock) has no successor. *)

Inductive kev :=
  | Acq (k i : Z)
  | Rel (k i : Z).

Definition own_step (o : option (gset (Z * Z))) (e : kev) : option (gset (Z * Z)) :=
  match o, e with
  | Some s, Acq k i => if decide ((k, i) ∈ s) then None else Some ({[(k, i)]} ∪ s)
  | Some s, Rel k i => if decide ((k, i) ∈ s) then Some (s ∖ {[(k, i)]}) else None
  | None, _ => None
  end.

Definition own_run (l : list kev) (s : gset (Z * Z)) : option (gset (Z * Z)) :=
  foldl own_step (Some s) l.

Lemma own_run_cons e l s : own_run (e :: l) s = foldl own_step (own_step (Some s) e) l.
Proof. done. Qed.

Lemma own_run_app l l' s s' : own_run l s = Some s' -> own_run (l ++ l') s = own_run l' s'.
Proof. unfold own_run. intros H. by rewrite foldl_app, H. Qed.

Lemma own_run_snoc l e s : own_run (l ++ [e]) s = own_step (own_run l s) e.
Proof. unfold own_run. by rewrite foldl_app. Qed.

(** A stretch of a log that takes nothing twice and gives everything back. *)
Definition balanced (l : list kev) : Prop := own_run l ∅ = Some ∅.

Lemma balanced_nil : balanced [].
Proof. done. Qed.

Lemma balanced_app l l' : balanced l -> balanced l' -> balanced (l ++ l').
Proof. unfold balanced. intros H H'. by rewrite (own_run_app l l' ∅ ∅). Qed.

Lemma balanced_pair k i : balanced [Acq k i; Rel k i].
Proof.
  unfold balanced, own_run. cbn. rewrite decide_False by set_solver. cbn. rewrite decide_True by set_solver.
  f_equal. set_solver.
Qed.

(** One object held inside another. *)
Lemma balanced_nest k i k' i' : (k, i) <> (k', i') -> balanced [Acq k i; Acq k' i'; Rel k' i'; Rel k i].
Proof.
  intros Hne. unfold balanced, own_run. cbn. rewrite decide_False by set_solver. cbn. rewrite decide_False by set_solver.
  cbn. rewrite decide_True by set_solver. cbn. rewrite decide_True by set_solver. f_equal. set_solver.
Qed.

#[export] Hint Resolve balanced_nil balanced_app balanced_pair : mach.
