(* ===== verification/VmeBus.v ===== *)
(** * Public data model of the PCI-VME bridge ([vmebridge/driver/vmebus.h])

    The enumerations are the integers the C enumerations name (descriptors are
    copied verbatim from user space, so a field may hold any integer and every
    [switch] has a live [default] branch); the structures are records with the
    source's field names. *)

From S2P Require Import Prelude.

(** ** [enum vme_read_prefetch_size] *)
Definition VME_PREFETCH_2 : Z := 0.
Definition VME_PREFETCH_4 : Z := 1.
Definition VME_PREFETCH_8 : Z := 2.
Definition VME_PREFETCH_16 : Z := 3.

(** ** [enum vme_data_width] *)
Definition VME_D8 : Z := 8.
Definition VME_D16 : Z := 16.
Definition VME_D32 : Z := 32.
Definition VME_D64 : Z := 64.

(** ** [enum vme_2esst_mode] *)
Definition VME_SST160 : Z := 0.
Definition VME_SST267 : Z := 1.
Definition VME_SST320 : Z := 2.

(** ** [enum vme_address_modifier] *)
Definition VME_A64_MBLT : Z := 0x00.
Definition VME_A64_SCT : Z := 0x01.
Definition VME_A64_BLT : Z := 0x03.
Definition VME_A64_LCK : Z := 0x04.
Definition VME_A32_LCK : Z := 0x05.
Definition VME_A32_USER_MBLT : Z := 0x08.
Definition VME_A32_USER_DATA_SCT : Z := 0x09.
Definition VME_A32_USER_PRG_SCT : Z := 0x0a.
Definition VME_A32_USER_BLT : Z := 0x0b.
Definition VME_A32_SUP_MBLT : Z := 0x0c.
Definition VME_A32_SUP_DATA_SCT : Z := 0x0d.
Definition VME_A32_SUP_PRG_SCT : Z := 0x0e.
Definition VME_A32_SUP_BLT : Z := 0x0f.
Definition VME_2e6U : Z := 0x20.
Definition VME_2e3U : Z := 0x21.
Definition VME_A16_USER : Z := 0x29.
Definition VME_A16_LCK : Z := 0x2c.
Definition VME_A16_SUP : Z := 0x2d.
Definition VME_CR_CSR : Z := 0x2f.
Definition VME_A40_SCT : Z := 0x34.
Definition VME_A40_LCK : Z := 0x35.
Definition VME_A40_BLT : Z := 0x37.
Definition VME_A24_USER_MBLT : Z := 0x38.
Definition VME_A24_USER_DATA_SCT : Z := 0x39.
Definition VME_A24_USER_PRG_SCT : Z := 0x3a.
Definition VME_A24_USER_BLT : Z := 0x3b.
Definition VME_A24_SUP_MBLT : Z := 0x3c.
Definition VME_A24_SUP_DATA_SCT : Z := 0x3d.
Definition VME_A24_SUP_PRG_SCT : Z := 0x3e.
Definition VME_A24_SUP_BLT : Z := 0x3f.

(** ** [struct vme_mapping]: a hardware window or a logical mapping on it.
    [kernel_va] is the kernel virtual address, [0] for [NULL]. *)
Record vme_mapping := Vme_mapping {
  window_num : Z;
  kernel_va : Z;
  user_va : Z;
  fd : Z;
  window_enabled : Z;
  data_width : Z;
  am : Z;
  read_prefetch_enabled : Z;
  read_prefetch_size : Z;
  v2esst_mode : Z;
  bcast_select : Z;
  pci_addru : Z;
  pci_addrl : Z;
  sizeu : Z;
  sizel : Z;
  vme_addru : Z;
  vme_addrl : Z;
}.

#[export] Instance vme_mapping_eq_dec : EqDecision vme_mapping.
Proof. solve_decision. Defined.

(** An all-zero descriptor, as [kzalloc] or [memset] leave it. *)
Definition vme_mapping_zero : vme_mapping :=
  Vme_mapping 0 0 0 0 0 0 0 0 0 0 0 0 0 0 0 0 0.

(** ** Field assignments [desc->f = v] *)
Definition set_window_num (v : Z) (d : vme_mapping) : vme_mapping :=
  {| window_num := v; kernel_va := kernel_va d; user_va := user_va d; fd := fd d; window_enabled := window_enabled d; data_width := data_width d; am := am d; read_prefetch_enabled := read_prefetch_enabled d; read_prefetch_size := read_prefetch_size d; v2esst_mode := v2esst_mode d; bcast_select := bcast_select d; pci_addru := pci_addru d; pci_addrl := pci_addrl d; sizeu := sizeu d; sizel := sizel d; vme_addru := vme_addru d; vme_addrl := vme_addrl d |}.
Definition set_kernel_va (v : Z) (d : vme_mapping) : vme_mapping :=
  {| window_num := window_num d; kernel_va := v; user_va := user_va d; fd := fd d; window_enabled := window_enabled d; data_width := data_width d; am := am d; read_prefetch_enabled := read_prefetch_enabled d; read_prefetch_size := read_prefetch_size d; v2esst_mode := v2esst_mode d; bcast_select := bcast_select d; pci_addru := pci_addru d; pci_addrl := pci_addrl d; sizeu := sizeu d; sizel := sizel d; vme_addru := vme_addru d; vme_addrl := vme_addrl d |}.
Definition set_window_enabled (v : Z) (d : vme_mapping) : vme_mapping :=
  {| window_num := window_num d; kernel_va := kernel_va d; user_va := user_va d; fd := fd d; window_enabled := v; data_width := data_width d; am := am d; read_prefetch_enabled := read_prefetch_enabled d; read_prefetch_size := read_prefetch_size d; v2esst_mode := v2esst_mode d; bcast_select := bcast_select d; pci_addru := pci_addru d; pci_addrl := pci_addrl d; sizeu := sizeu d; sizel := sizel d; vme_addru := vme_addru d; vme_addrl := vme_addrl d |}.
Definition set_data_width (v : Z) (d : vme_mapping) : vme_mapping :=
  {| window_num := window_num d; kernel_va := kernel_va d; user_va := user_va d; fd := fd d; window_enabled := window_enabled d; data_width := v; am := am d; read_prefetch_enabled := read_prefetch_enabled d; read_prefetch_size := read_prefetch_size d; v2esst_mode := v2esst_mode d; bcast_select := bcast_select d; pci_addru := pci_addru d; pci_addrl := pci_addrl d; sizeu := sizeu d; sizel := sizel d; vme_addru := vme_addru d; vme_addrl := vme_addrl d |}.
Definition set_am (v : Z) (d : vme_mapping) : vme_mapping :=
  {| window_num := window_num d; kernel_va := kernel_va d; user_va := user_va d; fd := fd d; window_enabled := window_enabled d; data_width := data_width d; am := v; read_prefetch_enabled := read_prefetch_enabled d; read_prefetch_size := read_prefetch_size d; v2esst_mode := v2esst_mode d; bcast_select := bcast_select d; pci_addru := pci_addru d; pci_addrl := pci_addrl d; sizeu := sizeu d; sizel := sizel d; vme_addru := vme_addru d; vme_addrl := vme_addrl d |}.
Definition set_read_prefetch_enabled (v : Z) (d : vme_mapping) : vme_mapping :=
  {| window_num := window_num d; kernel_va := kernel_va d; user_va := user_va d; fd := fd d; window_enabled := window_enabled d; data_width := data_width d; am := am d; read_prefetch_enabled := v; read_prefetch_size := read_prefetch_size d; v2esst_mode := v2esst_mode d; bcast_select := bcast_select d; pci_addru := pci_addru d; pci_addrl := pci_addrl d; sizeu := sizeu d; sizel := sizel d; vme_addru := vme_addru d; vme_addrl := vme_addrl d |}.
Definition set_read_prefetch_size (v : Z) (d : vme_mapping) : vme_mapping :=
  {| window_num := window_num d; kernel_va := kernel_va d; user_va := user_va d; fd := fd d; window_enabled := window_enabled d; data_width := data_width d; am := am d; read_prefetch_enabled := read_prefetch_enabled d; read_prefetch_size := v; v2esst_mode := v2esst_mode d; bcast_select := bcast_select d; pci_addru := pci_addru d; pci_addrl := pci_addrl d; sizeu := sizeu d; sizel := sizel d; vme_addru := vme_addru d; vme_addrl := vme_addrl d |}.
Definition set_v2esst_mode (v : Z) (d : vme_mapping) : vme_mapping :=
  {| window_num := window_num d; kernel_va := kernel_va d; user_va := user_va d; fd := fd d; window_enabled := window_enabled d; data_width := data_width d; am := am d; read_prefetch_enabled := read_prefetch_enabled d; read_prefetch_size := read_prefetch_size d; v2esst_mode := v; bcast_select := bcast_select d; pci_addru := pci_addru d; pci_addrl := pci_addrl d; sizeu := sizeu d; sizel := sizel d; vme_addru := vme_addru d; vme_addrl := vme_addrl d |}.
Definition set_bcast_select (v : Z) (d : vme_mapping) : vme_mapping :=
  {| window_num := window_num d; kernel_va := kernel_va d; user_va := user_va d; fd := fd d; window_enabled := window_enabled d; data_width := data_width d; am := am d; read_prefetch_enabled := read_prefetch_enabled d; read_prefetch_size := read_prefetch_size d; v2esst_mode := v2esst_mode d; bcast_select := v; pci_addru := pci_addru d; pci_addrl := pci_addrl d; sizeu := sizeu d; sizel := sizel d; vme_addru := vme_addru d; vme_addrl := vme_addrl d |}.
Definition set_pci_addru (v : Z) (d : vme_mapping) : vme_mapping :=
  {| window_num := window_num d; kernel_va := kernel_va d; user_va := user_va d; fd := fd d; window_enabled := window_enabled d; data_width := data_width d; am := am d; read_prefetch_enabled := read_prefetch_enabled d; read_prefetch_size := read_prefetch_size d; v2esst_mode := v2esst_mode d; bcast_select := bcast_select d; pci_addru := v; pci_addrl := pci_addrl d; sizeu := sizeu d; sizel := sizel d; vme_addru := vme_addru d; vme_addrl := vme_addrl d |}.
Definition set_pci_addrl (v : Z) (d : vme_mapping) : vme_mapping :=
  {| window_num := window_num d; kernel_va := kernel_va d; user_va := user_va d; fd := fd d; window_enabled := window_enabled d; data_width := data_width d; am := am d; read_prefetch_enabled := read_prefetch_enabled d; read_prefetch_size := read_prefetch_size d; v2esst_mode := v2esst_mode d; bcast_select := bcast_select d; pci_addru := pci_addru d; pci_addrl := v; sizeu := sizeu d; sizel := sizel d; vme_addru := vme_addru d; vme_addrl := vme_addrl d |}.
Definition set_sizeu (v : Z) (d : vme_mapping) : vme_mapping :=
  {| window_num := window_num d; kernel_va := kernel_va d; user_va := user_va d; fd := fd d; window_enabled := window_enabled d; data_width := data_width d; am := am d; read_prefetch_enabled := read_prefetch_enabled d; read_prefetch_size := read_prefetch_size d; v2esst_mode := v2esst_mode d; bcast_select := bcast_select d; pci_addru := pci_addru d; pci_addrl := pci_addrl d; sizeu := v; sizel := sizel d; vme_addru := vme_addru d; vme_addrl := vme_addrl d |}.
Definition set_sizel (v : Z) (d : vme_mapping) : vme_mapping :=
  {| window_num := window_num d; kernel_va := kernel_va d; user_va := user_va d; fd := fd d; window_enabled := window_enabled d; data_width := data_width d; am := am d; read_prefetch_enabled := read_prefetch_enabled d; read_prefetch_size := read_prefetch_size d; v2esst_mode := v2esst_mode d; bcast_select := bcast_select d; pci_addru := pci_addru d; pci_addrl := pci_addrl d; sizeu := sizeu d; sizel := v; vme_addru := vme_addru d; vme_addrl := vme_addrl d |}.
Definition set_vme_addru (v : Z) (d : vme_mapping) : vme_mapping :=
  {| window_num := window_num d; kernel_va := kernel_va d; user_va := user_va d; fd := fd d; window_enabled := window_enabled d; data_width := data_width d; am := am d; read_prefetch_enabled := read_prefetch_enabled d; read_prefetch_size := read_prefetch_size d; v2esst_mode := v2esst_mode d; bcast_select := bcast_select d; pci_addru := pci_addru d; pci_addrl := pci_addrl d; sizeu := sizeu d; sizel := sizel d; vme_addru := v; vme_addrl := vme_addrl d |}.
Definition set_vme_addrl (v : Z) (d : vme_mapping) : vme_mapping :=
  {| window_num := window_num d; kernel_va := kernel_va d; user_va := user_va d; fd := fd d; window_enabled := window_enabled d; data_width := data_width d; am := am d; read_prefetch_enabled := read_prefetch_enabled d; read_prefetch_size := read_prefetch_size d; v2esst_mode := v2esst_mode d; bcast_select := bcast_select d; pci_addru := pci_addru d; pci_addrl := pci_addrl d; sizeu := sizeu d; sizel := sizel d; vme_addru := vme_addru d; vme_addrl := v |}.

(** ** DMA descriptors *)

(** [struct vme_dma_attr] *)
Record vme_dma_attr := Vme_dma_attr {
  da_data_width : Z;
  da_am : Z;
  da_v2esst_mode : Z;
  da_bcast_select : Z;
  da_addru : Z;
  da_addrl : Z;
}.

(** [enum vme_dma_block_size] and [enum vme_dma_backoff]: first and last value *)
Definition VME_DMA_BSIZE_32 : Z := 0.
Definition VME_DMA_BSIZE_4096 : Z := 7.
Definition VME_DMA_BACKOFF_0 : Z := 0.
Definition VME_DMA_BACKOFF_64 : Z := 7.

(** [struct vme_dma_ctrl] *)
Record vme_dma_ctrl := Vme_dma_ctrl {
  vme_block_size : Z;
  vme_backoff_time : Z;
  pci_block_size : Z;
  pci_backoff_time : Z;
}.

(** [enum vme_dma_dir] *)
Definition VME_DMA_TO_DEVICE : Z := 1.
Definition VME_DMA_FROM_DEVICE : Z := 2.

(** [struct vme_dma] *)
Record vme_dma := Vme_dma {
  dma_status : Z;
  dma_length : Z;
  dma_novmeinc : Z;
  dma_dir : Z;
  dma_src : vme_dma_attr;
  dma_dst : vme_dma_attr;
  dma_ctrl : vme_dma_ctrl;
}.

(** ** Bus errors: [struct vme_bus_error] and [struct vme_bus_error_desc] *)
Record vme_bus_error := Vme_bus_error {
  be_address : Z;
  be_am : Z;
}.

Record vme_bus_error_desc := Vme_bus_error_desc {
  bed_error : vme_bus_error;
  bed_valid : Z;
}.
