(* ===== verification/Tsi148.v ===== *)
(** * TSI148 registers and attribute words ([vmebridge/driver/tsi148.{h,c}])

    The Combined Register Group is a map from byte offsets (the layout of
    [struct tsi148_chip]) to 32-bit words; [ioread32be] and [iowrite32be] are
    its accesses.  This file also holds the pure conversions between VME
    address modifiers and the chip's attribute fields, and the 64-bit helpers. *)

From S2P Require Import Prelude VmeBus.

Definition TSI148_NUM_OUT_WINDOWS : Z := 8.
Definition TSI148_NUM_DMA_CHANNELS : Z := 2.

(** ** Register file *)

Abbreviation chip := (gmap Z Z).

Definition ioread32be (r : Z) (c : chip) : Z := default 0 (c !! r).
Definition iowrite32be (v r : Z) (c : chip) : chip := <[r := u32 v]> c.

(** Outbound translation registers, [lcsr.otrans[i]] at 0x100 + 0x20 i. *)
Definition otrans (i : Z) : Z := 0x100 + 0x20 * i.
Definition OTSAU (i : Z) : Z := otrans i + 0x00.
Definition OTSAL (i : Z) : Z := otrans i + 0x04.
Definition OTEAU (i : Z) : Z := otrans i + 0x08.
Definition OTEAL (i : Z) : Z := otrans i + 0x0c.
Definition OTOFU (i : Z) : Z := otrans i + 0x10.
Definition OTOFL (i : Z) : Z := otrans i + 0x14.
Definition OTBS (i : Z) : Z := otrans i + 0x18.
Definition OTAT (i : Z) : Z := otrans i + 0x1c.

Definition VMCTRL : Z := 0x234.
Definition VSTAT : Z := 0x23c.
Definition PSTAT : Z := 0x240.
Definition VEAU : Z := 0x260.
Definition VEAL : Z := 0x264.
Definition VEAT : Z := 0x268.
Definition EDPAT : Z := 0x280.
Definition ITAT (i : Z) : Z := 0x300 + 0x20 * i + 0x18.
Definition CBAU : Z := 0x40c.
Definition CBAL : Z := 0x410.
Definition CRGAT : Z := 0x414.
Definition LMAT : Z := 0x42c.
Definition VICR : Z := 0x440.
Definition INTEN : Z := 0x448.
Definition INTEO : Z := 0x44c.
Definition INTS : Z := 0x450.
Definition INTC : Z := 0x454.
Definition INTM1 : Z := 0x458.
Definition INTM2 : Z := 0x45c.

(** DMA controllers, [lcsr.dma[i]] at 0x500 + 0x80 i. *)
Definition DCTL (i : Z) : Z := 0x500 + 0x80 * i.
Definition DSTA (i : Z) : Z := 0x500 + 0x80 * i + 0x04.
Definition DNLAU (i : Z) : Z := 0x500 + 0x80 * i + 0x38.
Definition DNLAL (i : Z) : Z := 0x500 + 0x80 * i + 0x3c.
Definition DCNT (i : Z) : Z := 0x500 + 0x80 * i + 0x40.

(** ** Field values and masks *)

Definition TSI148_A16 : Z := 0.
Definition TSI148_A24 : Z := 1.
Definition TSI148_A32 : Z := 2.
Definition TSI148_A64 : Z := 4.
Definition TSI148_CRCSR : Z := 5.
Definition TSI148_USER1 : Z := 8.
Definition TSI148_USER2 : Z := 9.
Definition TSI148_USER3 : Z := 10.
Definition TSI148_USER4 : Z := 11.
Definition TSI148_USER : Z := 0.
Definition TSI148_SUPER : Z := 1.
Definition TSI148_DATA : Z := 0.
Definition TSI148_PROG : Z := 1.
Definition TSI148_SCT : Z := 0.
Definition TSI148_BLT : Z := 1.
Definition TSI148_MBLT : Z := 2.
Definition TSI148_2eVME : Z := 3.
Definition TSI148_2eSST : Z := 4.
Definition TSI148_2eSSTB : Z := 5.
Definition TSI148_DW_16 : Z := 0.
Definition TSI148_DW_32 : Z := 1.

Definition OTAT_EN : Z := 2 ^ 31.
Definition OTAT_MRPFD : Z := 2 ^ 18.
Definition OTAT_PFS_SHIFT : Z := 16.
Definition OTAT_PFS_M : Z := 3 * 2 ^ 16.
Definition OTAT_2eSSTM_SHIFT : Z := 11.
Definition OTAT_2eSSTM_M : Z := 7 * 2 ^ 11.
Definition OTAT_TM_SHIFT : Z := 8.
Definition OTAT_TM_M : Z := 7 * 2 ^ 8.
Definition OTAT_DBW_SHIFT : Z := 6.
Definition OTAT_DBW_M : Z := 3 * 2 ^ 6.
Definition OTAT_DBW_16 : Z := 0 * 2 ^ 6.
Definition OTAT_DBW_32 : Z := 1 * 2 ^ 6.
Definition OTAT_SUP : Z := 2 ^ 5.
Definition OTAT_PGM : Z := 2 ^ 4.
Definition OTAT_AMODE_SHIFT : Z := 0.
Definition OTAT_AMODE_M : Z := 0xf.
Definition OTSAL_M : Z := 0xffff * 2 ^ 16.
Definition OTBS_M : Z := 0xfffff.

Definition DSAT_2eSSTM_SHIFT : Z := 11.
Definition DSAT_2eSSTM_M : Z := 3 * 2 ^ 11.
Definition DSAT_TM_SHIFT : Z := 8.
Definition DSAT_TM_M : Z := 7 * 2 ^ 8.
Definition DSAT_DBW_SHIFT : Z := 6.
Definition DSAT_DBW_M : Z := 3 * 2 ^ 6.
Definition DSAT_SUP : Z := 2 ^ 5.
Definition DSAT_PGM : Z := 2 ^ 4.
Definition DSAT_AMODE_SHIFT : Z := 0.
Definition DSAT_AMODE_M : Z := 0xf.

Definition CRGAT_EN : Z := 2 ^ 7.
Definition CRGAT_AS_16 : Z := 0 * 2 ^ 4.
Definition CRGAT_AS_24 : Z := 1 * 2 ^ 4.
Definition CRGAT_AS_32 : Z := 2 * 2 ^ 4.
Definition CRGAT_AS_64 : Z := 4 * 2 ^ 4.
Definition CRGAT_SUPR : Z := 2 ^ 3.
Definition CRGAT_NPRIV : Z := 2 ^ 2.
Definition CRGAT_PGM : Z := 2 ^ 1.
Definition CRGAT_DATA : Z := 2 ^ 0.

(** ** Address modifiers and attributes *)

Record vme_attr := Vme_attr {
  addr_size : Z;
  transfer_mode : Z;
  user_access : Z;
  data_access : Z;
}.

#[export] Instance vme_attr_eq_dec : EqDecision vme_attr.
Proof. solve_decision. Defined.

(** [am_to_attr()]; [None] is the return value [-1]. *)
Definition am_to_attr (a : Z) : option vme_attr :=
  if a =? VME_A16_USER then Some (Vme_attr TSI148_A16 TSI148_SCT TSI148_USER TSI148_DATA)
  else if a =? VME_A16_SUP then Some (Vme_attr TSI148_A16 TSI148_SCT TSI148_SUPER TSI148_DATA)
  else if a =? VME_A24_USER_MBLT then Some (Vme_attr TSI148_A24 TSI148_MBLT TSI148_USER TSI148_DATA)
  else if a =? VME_A24_USER_DATA_SCT then Some (Vme_attr TSI148_A24 TSI148_SCT TSI148_USER TSI148_DATA)
  else if a =? VME_A24_USER_PRG_SCT then Some (Vme_attr TSI148_A24 TSI148_SCT TSI148_USER TSI148_PROG)
  else if a =? VME_A24_USER_BLT then Some (Vme_attr TSI148_A24 TSI148_BLT TSI148_USER TSI148_DATA)
  else if a =? VME_A24_SUP_MBLT then Some (Vme_attr TSI148_A24 TSI148_MBLT TSI148_SUPER TSI148_DATA)
  else if a =? VME_A24_SUP_DATA_SCT then Some (Vme_attr TSI148_A24 TSI148_SCT TSI148_SUPER TSI148_DATA)
  else if a =? VME_A24_SUP_PRG_SCT then Some (Vme_attr TSI148_A24 TSI148_SCT TSI148_SUPER TSI148_PROG)
  else if a =? VME_A24_SUP_BLT then Some (Vme_attr TSI148_A24 TSI148_BLT TSI148_SUPER TSI148_DATA)
  else if a =? VME_A32_USER_MBLT then Some (Vme_attr TSI148_A32 TSI148_MBLT TSI148_USER TSI148_DATA)
  else if a =? VME_A32_USER_DATA_SCT then Some (Vme_attr TSI148_A32 TSI148_SCT TSI148_USER TSI148_DATA)
  else if a =? VME_A32_USER_PRG_SCT then Some (Vme_attr TSI148_A32 TSI148_SCT TSI148_USER TSI148_PROG)
  else if a =? VME_A32_USER_BLT then Some (Vme_attr TSI148_A32 TSI148_BLT TSI148_USER TSI148_DATA)
  else if a =? VME_A32_SUP_MBLT then Some (Vme_attr TSI148_A32 TSI148_MBLT TSI148_SUPER TSI148_DATA)
  else if a =? VME_A32_SUP_DATA_SCT then Some (Vme_attr TSI148_A32 TSI148_SCT TSI148_SUPER TSI148_DATA)
  else if a =? VME_A32_SUP_PRG_SCT then Some (Vme_attr TSI148_A32 TSI148_SCT TSI148_SUPER TSI148_PROG)
  else if a =? VME_A32_SUP_BLT then Some (Vme_attr TSI148_A32 TSI148_BLT TSI148_SUPER TSI148_DATA)
  else if a =? VME_A64_SCT then Some (Vme_attr TSI148_A64 TSI148_SCT TSI148_SUPER TSI148_DATA)
  else if a =? VME_A64_BLT then Some (Vme_attr TSI148_A64 TSI148_BLT TSI148_SUPER TSI148_DATA)
  else if a =? VME_A64_MBLT then Some (Vme_attr TSI148_A64 TSI148_MBLT TSI148_SUPER TSI148_DATA)
  else if a =? VME_CR_CSR then Some (Vme_attr TSI148_CRCSR TSI148_SCT TSI148_USER TSI148_DATA)
  else None.

(** [attr_to_am()]: the in/out parameter [am] keeps its value [am0] when no
    branch assigns it. *)
Definition attr_to_am (a : vme_attr) (am0 : Z) : Z :=
  if addr_size a =? TSI148_A16 then
    if user_access a =? TSI148_USER then VME_A16_USER else VME_A16_SUP
  else if addr_size a =? TSI148_A24 then
    if user_access a =? TSI148_USER then
      if transfer_mode a =? TSI148_SCT then
        if data_access a =? TSI148_DATA then VME_A24_USER_DATA_SCT else VME_A24_USER_PRG_SCT
      else if transfer_mode a =? TSI148_BLT then VME_A24_USER_BLT
      else if transfer_mode a =? TSI148_MBLT then VME_A24_USER_MBLT
      else am0
    else if user_access a =? TSI148_SUPER then
      if transfer_mode a =? TSI148_SCT then
        if data_access a =? TSI148_DATA then VME_A24_SUP_DATA_SCT else VME_A24_SUP_PRG_SCT
      else if transfer_mode a =? TSI148_BLT then VME_A24_SUP_BLT
      else if transfer_mode a =? TSI148_MBLT then VME_A24_SUP_MBLT
      else am0
    else am0
  else if addr_size a =? TSI148_A32 then
    if user_access a =? TSI148_USER then
      if transfer_mode a =? TSI148_SCT then
        if data_access a =? TSI148_DATA then VME_A32_USER_DATA_SCT else VME_A32_USER_PRG_SCT
      else if transfer_mode a =? TSI148_BLT then VME_A32_USER_BLT
      else if transfer_mode a =? TSI148_MBLT then VME_A32_USER_MBLT
      else am0
    else if user_access a =? TSI148_SUPER then
      if transfer_mode a =? TSI148_SCT then
        if data_access a =? TSI148_DATA then VME_A32_SUP_DATA_SCT else VME_A32_SUP_PRG_SCT
      else if transfer_mode a =? TSI148_BLT then VME_A32_SUP_BLT
      else if transfer_mode a =? TSI148_MBLT then VME_A32_SUP_MBLT
      else am0
    else am0
  else if addr_size a =? TSI148_A64 then
    if transfer_mode a =? TSI148_SCT then VME_A64_SCT
    else if transfer_mode a =? TSI148_BLT then VME_A64_BLT
    else if transfer_mode a =? TSI148_MBLT then VME_A64_MBLT
    else am0
  else if addr_size a =? TSI148_CRCSR then VME_CR_CSR
  else am0.

(** ** 64-bit helpers, on [unsigned int] halves, returning [int] *)

Definition sub64hi (lo0 hi0 lo1 hi1 : Z) : Z :=
  if lo0 <? lo1 then s32 (u32 (u32 (hi0 - hi1) - 1)) else s32 (u32 (hi0 - hi1)).

Definition add64hi (lo0 hi0 lo1 hi1 : Z) : Z :=
  if u32 (lo0 + lo1) <? lo1 then s32 (u32 (u32 (hi0 + hi1) + 1)) else s32 (u32 (hi0 + hi1)).

(** ** Attribute words

    The C functions return the attribute word, or [-EINVAL] from the first
    [switch] whose [default] branch is taken. *)

Definition tsi148_setup_window_attributes (v2esst dw a : Z) : Z :=
  if negb ((v2esst =? VME_SST160) || (v2esst =? VME_SST267) || (v2esst =? VME_SST320))
  then - EINVAL else
  let attrs := Z.land (Z.shiftl v2esst OTAT_2eSSTM_SHIFT) OTAT_2eSSTM_M in
  if negb ((dw =? VME_D16) || (dw =? VME_D32)) then - EINVAL else
  let attrs := Z.lor attrs
    (if dw =? VME_D16
     then Z.land (Z.shiftl TSI148_DW_16 OTAT_DBW_SHIFT) OTAT_DBW_M
     else Z.land (Z.shiftl TSI148_DW_32 OTAT_DBW_SHIFT) OTAT_DBW_M) in
  match am_to_attr a with
  | None => - EINVAL
  | Some at4 =>
    let tm := transfer_mode at4 in
    if negb ((tm =? TSI148_SCT) || (tm =? TSI148_BLT) || (tm =? TSI148_MBLT)
             || (tm =? TSI148_2eVME) || (tm =? TSI148_2eSST) || (tm =? TSI148_2eSSTB))
    then - EINVAL else
    let attrs := Z.lor attrs (Z.land (Z.shiftl tm OTAT_TM_SHIFT) OTAT_TM_M) in
    if negb ((user_access at4 =? TSI148_SUPER) || (user_access at4 =? TSI148_USER))
    then - EINVAL else
    let attrs := if user_access at4 =? TSI148_SUPER then Z.lor attrs OTAT_SUP else attrs in
    if negb ((data_access at4 =? TSI148_PROG) || (data_access at4 =? TSI148_DATA))
    then - EINVAL else
    let attrs := if data_access at4 =? TSI148_PROG then Z.lor attrs OTAT_PGM else attrs in
    let sz := addr_size at4 in
    if negb ((sz =? TSI148_A16) || (sz =? TSI148_A24) || (sz =? TSI148_A32)
             || (sz =? TSI148_A64) || (sz =? TSI148_CRCSR) || (sz =? TSI148_USER1)
             || (sz =? TSI148_USER2) || (sz =? TSI148_USER3) || (sz =? TSI148_USER4))
    then - EINVAL else
    Z.lor attrs (Z.land (Z.shiftl sz OTAT_AMODE_SHIFT) OTAT_AMODE_M)
  end.

Definition tsi148_setup_dma_attributes (v2esst dw a : Z) : Z :=
  if negb ((v2esst =? VME_SST160) || (v2esst =? VME_SST267) || (v2esst =? VME_SST320))
  then - EINVAL else
  let attrs := Z.land (Z.shiftl v2esst DSAT_2eSSTM_SHIFT) DSAT_2eSSTM_M in
  if negb ((dw =? VME_D16) || (dw =? VME_D32)) then - EINVAL else
  let attrs := Z.lor attrs
    (if dw =? VME_D16
     then Z.land (Z.shiftl TSI148_DW_16 DSAT_DBW_SHIFT) DSAT_DBW_M
     else Z.land (Z.shiftl TSI148_DW_32 DSAT_DBW_SHIFT) DSAT_DBW_M) in
  match am_to_attr a with
  | None => - EINVAL
  | Some at4 =>
    let tm := transfer_mode at4 in
    if negb ((tm =? TSI148_SCT) || (tm =? TSI148_BLT) || (tm =? TSI148_MBLT)
             || (tm =? TSI148_2eVME) || (tm =? TSI148_2eSST) || (tm =? TSI148_2eSSTB))
    then - EINVAL else
    let attrs := Z.lor attrs (Z.land (Z.shiftl tm DSAT_TM_SHIFT) DSAT_TM_M) in
    if negb ((user_access at4 =? TSI148_SUPER) || (user_access at4 =? TSI148_USER))
    then - EINVAL else
    let attrs := if user_access at4 =? TSI148_SUPER then Z.lor attrs DSAT_SUP else attrs in
    if negb ((data_access at4 =? TSI148_PROG) || (data_access at4 =? TSI148_DATA))
    then - EINVAL else
    let attrs := if data_access at4 =? TSI148_PROG then Z.lor attrs DSAT_PGM else attrs in
    let sz := addr_size at4 in
    if negb ((sz =? TSI148_A16) || (sz =? TSI148_A24) || (sz =? TSI148_A32)
             || (sz =? TSI148_A64) || (sz =? TSI148_CRCSR) || (sz =? TSI148_USER1)
             || (sz =? TSI148_USER2) || (sz =? TSI148_USER3) || (sz =? TSI148_USER4))
    then - EINVAL else
    Z.lor attrs (Z.land (Z.shiftl sz DSAT_AMODE_SHIFT) DSAT_AMODE_M)
  end.

Definition am_to_crgattrs (a : Z) : Z :=
  match am_to_attr a with
  | None => - EINVAL
  | Some at4 =>
    let sz := addr_size at4 in
    if negb ((sz =? TSI148_A16) || (sz =? TSI148_A24) || (sz =? TSI148_A32) || (sz =? TSI148_A64))
    then - EINVAL else
    let attrs :=
      if sz =? TSI148_A16 then CRGAT_AS_16
      else if sz =? TSI148_A24 then CRGAT_AS_24
      else if sz =? TSI148_A32 then CRGAT_AS_32 else CRGAT_AS_64 in
    if negb ((data_access at4 =? TSI148_PROG) || (data_access at4 =? TSI148_DATA))
    then - EINVAL else
    let attrs := Z.lor attrs (if data_access at4 =? TSI148_PROG then CRGAT_PGM else CRGAT_DATA) in
    if negb ((user_access at4 =? TSI148_SUPER) || (user_access at4 =? TSI148_USER))
    then - EINVAL else
    Z.lor attrs (if user_access at4 =? TSI148_SUPER then CRGAT_SUPR else CRGAT_NPRIV)
  end.

(** [tsi148_setup_crg()]: map the register group on the VME bus. *)
Definition tsi148_setup_crg (vme_base a : Z) (c : chip) : Z * chip :=
  let c := iowrite32be 0 CBAU c in
  let c := iowrite32be vme_base CBAL c in
  let attrs := am_to_crgattrs a in
  if attrs <? 0 then (-1, iowrite32be 0 CBAL c)
  else (0, iowrite32be (Z.lor attrs CRGAT_EN) CRGAT c).

Definition tsi148_disable_crg (c : chip) : chip :=
  iowrite32be 0 CBAL (iowrite32be 0 CBAU (iowrite32be 0 CRGAT c)).

(** [tsi148_quiesce()]: every decoder off, errors and interrupts cleared. *)
Definition PCSR_SRTO : Z := 7 * 2 ^ 24.
Definition PCSR_SRTE : Z := 2 ^ 10.
Definition PCSR_DTTE : Z := 2 ^ 9.
Definition PCSR_MRCE : Z := 2 ^ 8.
Definition EDPAT_EDPCL : Z := 2 ^ 29.
Definition VEAT_VESCL : Z := 2 ^ 29.
Definition VICR_IRQC : Z := 2 ^ 15.
Definition VMCTRL_VTON_M : Z := 7 * 2 ^ 8.
Definition VMCTRL_VTON_512 : Z := 7 * 2 ^ 8.
Definition VMCTRL_VREL_M : Z := 3 * 2 ^ 3.
Definition VMCTRL_VREL_T_D_R : Z := 3 * 2 ^ 3.

Definition quiesce_windows (c : chip) : chip :=
  foldl (fun c i => iowrite32be 0 (OTAT i) (iowrite32be 0 (ITAT i) c)) c
        (seqZ 0 TSI148_NUM_OUT_WINDOWS).

Definition quiesce_dma (c : chip) : chip :=
  foldl (fun c i => iowrite32be 0 (DCNT i) (iowrite32be 0 (DNLAL i) (iowrite32be 0 (DNLAU i) c))) c
        (seqZ 0 TSI148_NUM_DMA_CHANNELS).

Definition tsi148_quiesce (c : chip) : chip :=
  let c := quiesce_windows c in
  let c := quiesce_dma c in
  let c := iowrite32be 0 LMAT c in
  let c := tsi148_disable_crg c in
  let c := iowrite32be EDPAT_EDPCL EDPAT c in
  let c := iowrite32be VEAT_VESCL VEAT c in
  let c := iowrite32be (Z.lor (Z.lor (Z.lor PCSR_SRTO PCSR_SRTE) PCSR_DTTE) PCSR_MRCE) PSTAT c in
  let c := iowrite32be VICR_IRQC VICR c in
  let c := iowrite32be 0 INTEO c in
  let c := iowrite32be 0xffffffff INTC c in
  let c := iowrite32be 0xffffffff INTEN c in
  let c := iowrite32be 0 INTM1 c in
  let c := iowrite32be 0 INTM2 c in
  let val := ioread32be VMCTRL c in
  let val := Z.land val (not32 (Z.lor VMCTRL_VTON_M VMCTRL_VREL_M)) in
  let val := Z.lor val (Z.lor VMCTRL_VTON_512 VMCTRL_VREL_T_D_R) in
  iowrite32be val VMCTRL c.

(** [tsi148_init()]: clear board fail and power-up reset. *)
Definition VSTAT_CPURST : Z := 2 ^ 15.
Definition VSTAT_BDFAIL : Z := 2 ^ 14.

Definition tsi148_init (c : chip) : chip :=
  let v := ioread32be VSTAT c in
  let v := Z.land v (not32 VSTAT_BDFAIL) in
  let v := Z.lor v VSTAT_CPURST in
  iowrite32be v VSTAT c.

(** ** Lemmas: the register file *)

Lemma ioread_iowrite_eq v r c : ioread32be r (iowrite32be v r c) = u32 v.
Proof. unfold ioread32be, iowrite32be. by rewrite lookup_insert_eq. Qed.

Lemma ioread_iowrite_ne v r r' c :
  r <> r' -> ioread32be r (iowrite32be v r' c) = ioread32be r c.
Proof. intros. unfold ioread32be, iowrite32be. by rewrite lookup_insert_ne. Qed.

Ltac unfold_regs :=
  unfold OTSAU, OTSAL, OTEAU, OTEAL, OTOFU, OTOFL, OTBS, OTAT, otrans, ITAT,
    VMCTRL, VSTAT, PSTAT, VEAU, VEAL, VEAT, EDPAT, CBAU, CBAL, CRGAT, LMAT, VICR,
    INTEN, INTEO, INTS, INTC, INTM1, INTM2, DCTL, DSTA, DNLAU, DNLAL, DCNT in *.

(** Resolve reads through the writes that precede them; the offsets of two
    different registers differ by [lia]. *)
Ltac io_simpl :=
  repeat first
    [ rewrite ioread_iowrite_eq
    | rewrite ioread_iowrite_ne by (unfold_regs; lia) ].

(** ** Lemmas: attributes *)

Ltac am_cases H :=
  unfold am_to_attr in H;
  repeat (case_hyp H; [boolp; simplify_eq|]); try match goal with E : None = Some _ |- _ => discriminate E end.

(** The supported modifiers, as the list the [switch] names. *)
Definition supported_am : list Z :=
  [VME_A16_USER; VME_A16_SUP;
   VME_A24_USER_MBLT; VME_A24_USER_DATA_SCT; VME_A24_USER_PRG_SCT; VME_A24_USER_BLT;
   VME_A24_SUP_MBLT; VME_A24_SUP_DATA_SCT; VME_A24_SUP_PRG_SCT; VME_A24_SUP_BLT;
   VME_A32_USER_MBLT; VME_A32_USER_DATA_SCT; VME_A32_USER_PRG_SCT; VME_A32_USER_BLT;
   VME_A32_SUP_MBLT; VME_A32_SUP_DATA_SCT; VME_A32_SUP_PRG_SCT; VME_A32_SUP_BLT;
   VME_A64_SCT; VME_A64_BLT; VME_A64_MBLT; VME_CR_CSR].

Lemma am_to_attr_supported a at4 : am_to_attr a = Some at4 -> a ∈ supported_am.
Proof.
  intros H. unfold supported_am.
  am_cases H; apply (bool_decide_unpack _); vm_compute; exact I.
Qed.

(** A property of every supported modifier is checked by evaluation. *)
Lemma forall_supported_am (P : Z -> vme_attr -> bool) :
  forallb (fun a => match am_to_attr a with Some t => P a t | None => true end) supported_am = true ->
  forall a t, am_to_attr a = Some t -> P a t = true.
Proof.
  intros Hall a t H. pose proof (am_to_attr_supported _ _ H) as Hin.
  rewrite forallb_forall in Hall. apply list_elem_of_In in Hin.
  specialize (Hall a Hin). by rewrite H in Hall.
Qed.

Lemma attr_to_am_cancel a t am0 : am_to_attr a = Some t -> attr_to_am t am0 = a.
Proof. intros H. am_cases H; reflexivity. Qed.

(** converting a supported VME address modifier to chip attributes and
    back gives the same modifier, whatever the out-parameter held before. *)
Lemma am_attr_roundtrip a t am0 : am_to_attr a = Some t -> attr_to_am t am0 = a.
Proof. apply attr_to_am_cancel. Qed.

(** The fields of the attribute word that [tsi148_get_window_attr()] extracts. *)
Definition otat_addr_size (w : Z) : Z := Z.shiftr (Z.land w OTAT_AMODE_M) OTAT_AMODE_SHIFT.
Definition otat_transfer_mode (w : Z) : Z := Z.shiftr (Z.land w OTAT_TM_M) OTAT_TM_SHIFT.
Definition otat_user_access (w : Z) : Z := if truthy (Z.land w OTAT_SUP) then TSI148_SUPER else TSI148_USER.
Definition otat_data_access (w : Z) : Z := if truthy (Z.land w OTAT_PGM) then TSI148_PROG else TSI148_DATA.
Definition otat_attr (w : Z) : vme_attr :=
  Vme_attr (otat_addr_size w) (otat_transfer_mode w) (otat_user_access w) (otat_data_access w).
Definition otat_dbw (w : Z) : Z := Z.shiftr (Z.land w OTAT_DBW_M) OTAT_DBW_SHIFT.
Definition otat_2esstm (w : Z) : Z := Z.shiftr (Z.land w OTAT_2eSSTM_M) OTAT_2eSSTM_SHIFT.

Definition dbw_of (dw : Z) : Z := if dw =? VME_D16 then TSI148_DW_16 else TSI148_DW_32.

Lemma window_attributes_fields v dw a t :
  0 <= v <= 2 -> dw = VME_D16 \/ dw = VME_D32 -> am_to_attr a = Some t ->
  let w := tsi148_setup_window_attributes v dw a in
  0 <= w < 2 ^ 14 /\ otat_attr w = t /\ otat_dbw w = dbw_of dw /\ otat_2esstm w = v.
Proof.
  intros Hv Hdw Ha.
  assert (v = 0 \/ v = 1 \/ v = 2) as Hv' by lia.
  refine (_ (forall_supported_am (fun a t =>
    let w := tsi148_setup_window_attributes v dw a in
    (0 <=? w) && (w <? 2 ^ 14) && bool_decide (otat_attr w = t)
    && (otat_dbw w =? dbw_of dw) && (otat_2esstm w =? v)) _ a t Ha)).
  - intros H. simpl in H. cbv zeta. boolp.
    repeat match goal with H : bool_decide _ = true |- _ => apply bool_decide_eq_true in H end.
    repeat split; assumption.
  - clear Ha. destruct Hv' as [-> | [-> | ->]], Hdw as [-> | ->]; vm_compute; reflexivity.
Qed.

Lemma window_attributes_error v dw a :
  tsi148_setup_window_attributes v dw a = - EINVAL <->
  ~ (0 <= v <= 2 /\ (dw = VME_D16 \/ dw = VME_D32) /\ is_Some (am_to_attr a)).
Proof.
  split.
  - intros H (Hv & Hdw & [t Ht]).
    destruct (window_attributes_fields v dw a t Hv Hdw Ht) as [Hr _]. rewrite H in Hr.
    unfold EINVAL in Hr. lia.
  - intros Hn. unfold tsi148_setup_window_attributes.
    destruct (negb _) eqn:Ev; [reflexivity|]. destruct (negb ((dw =? _) || _)) eqn:Ed; [reflexivity|].
    destruct (am_to_attr a) as [t|] eqn:Ea; [|reflexivity].
    destruct Hn. boolp. unfold VME_SST160, VME_SST267, VME_SST320 in *.
    repeat match goal with H : _ \/ _ |- _ => destruct H end; boolp; repeat split; eauto; lia.
Qed.

(** [tsi148_setup_window_attributes()] fails exactly when the 2eSST mode,
    the data width or the address modifier is not one the chip has; otherwise
    the word fits the 14 low bits and each field extracted by
    [tsi148_get_window_attr()] is the one that was asked for. *)
Lemma window_attributes_spec v dw a :
  let w := tsi148_setup_window_attributes v dw a in
  match am_to_attr a with
  | Some t =>
      if decide (0 <= v <= 2 /\ (dw = VME_D16 \/ dw = VME_D32))
      then 0 <= w < 2 ^ 14 /\ otat_attr w = t /\ otat_dbw w = dbw_of dw /\ otat_2esstm w = v
      else w = - EINVAL
  | None => w = - EINVAL
  end.
Proof.
  intros w. destruct (am_to_attr a) as [t|] eqn:Ea; [case_decide as D|].
  - destruct D. apply window_attributes_fields; assumption.
  - apply window_attributes_error. intros (? & ? & ?). apply D. split; assumption.
  - apply window_attributes_error. rewrite Ea. intros (_ & _ & [? ?]). discriminate.
Qed.

Lemma dma_attributes_error v dw a :
  ~ (0 <= v <= 2 /\ (dw = VME_D16 \/ dw = VME_D32) /\ is_Some (am_to_attr a)) ->
  tsi148_setup_dma_attributes v dw a = - EINVAL.
Proof.
  intros Hn. unfold tsi148_setup_dma_attributes.
  destruct (negb _) eqn:Ev; [reflexivity|]. destruct (negb ((dw =? _) || _)) eqn:Ed; [reflexivity|].
  destruct (am_to_attr a) as [t|] eqn:Ea; [|reflexivity].
  destruct Hn. boolp. unfold VME_SST160, VME_SST267, VME_SST320 in *.
  repeat match goal with H : _ \/ _ |- _ => destruct H end; boolp; repeat split; eauto; lia.
Qed.

Lemma dma_attributes_window v dw a :
  tsi148_setup_dma_attributes v dw a = tsi148_setup_window_attributes v dw a.
Proof.
  destruct (decide (0 <= v <= 2)) as [Hv|]; [|symmetry;
    rewrite dma_attributes_error by naive_solver; apply window_attributes_error; naive_solver].
  destruct (decide (dw = VME_D16 \/ dw = VME_D32)) as [Hdw|]; [|symmetry;
    rewrite dma_attributes_error by naive_solver; apply window_attributes_error; naive_solver].
  assert (v = 0 \/ v = 1 \/ v = 2) as Hv' by lia.
  destruct (am_to_attr a) as [t|] eqn:Ea.
  2:{ symmetry. rewrite dma_attributes_error by (rewrite Ea; intros (_ & _ & [? ?]); discriminate).
      apply window_attributes_error. rewrite Ea. intros (_ & _ & [? ?]). discriminate. }
  apply Z.eqb_eq.
  refine (forall_supported_am (fun a _ =>
    tsi148_setup_dma_attributes v dw a =? tsi148_setup_window_attributes v dw a) _ a t Ea).
  destruct Hv' as [-> | [-> | ->]], Hdw as [-> | ->]; vm_compute; reflexivity.
Qed.

(** the DMA source/destination attribute word is the same word as the
    window attribute word, for every argument: the DSAT, DDAT and OTAT
    registers share their layout (the DMA mask of the 2eSST field is narrower
    but no mode uses the extra bit). *)
Lemma dma_attributes_eq_window v dw a :
  tsi148_setup_dma_attributes v dw a = tsi148_setup_window_attributes v dw a.
Proof. apply dma_attributes_window. Qed.

(** ** Lemmas: 64-bit helpers *)

Lemma s32_u32_mod z : u32 (s32 z) = u32 z.
Proof.
  unfold u32, s32. rewrite Zminus_mod_idemp_l. f_equal. lia.
Qed.

Lemma u64_split hi lo : is_u32 lo -> u64 (hi * 2 ^ 32 + lo) / 2 ^ 32 = u32 hi.
Proof.
  unfold is_u32, u64, u32. intros Hlo.
  replace (2 ^ 64) with (2 ^ 32 * 2 ^ 32) by reflexivity.
  rewrite Z.rem_mul_r by lia.
  rewrite (Z.add_comm (hi * _)), Z.mod_add, Z.div_add by lia.
  rewrite (Z.div_small lo) by lia. rewrite (Z.mod_small lo) by lia.
  rewrite Z.add_0_l, (Z.mul_comm (2 ^ 32)), Z.div_add, Z.div_small by lia. lia.
Qed.

Lemma sub64hi_hi lo0 hi0 lo1 hi1 :
  is_u32 lo0 -> is_u32 lo1 ->
  u32 (sub64hi lo0 hi0 lo1 hi1) = u64 ((hi0 * 2 ^ 32 + lo0) - (hi1 * 2 ^ 32 + lo1)) / 2 ^ 32.
Proof.
  unfold is_u32. intros H0 H1. unfold sub64hi.
  case_goal; boolp; rewrite s32_u32_mod, u32_idemp; autorewrite with mach.
  - replace (_ - (_ + lo1)) with ((hi0 - hi1 - 1) * 2 ^ 32 + (lo0 - lo1 + 2 ^ 32)) by lia.
    rewrite u64_split; [reflexivity|unfold is_u32; lia].
  - replace (_ - (_ + lo1)) with ((hi0 - hi1) * 2 ^ 32 + (lo0 - lo1)) by lia.
    rewrite u64_split; [reflexivity|unfold is_u32; lia].
Qed.

Lemma add64hi_hi lo0 hi0 lo1 hi1 :
  is_u32 lo0 -> is_u32 lo1 ->
  u32 (add64hi lo0 hi0 lo1 hi1) = u64 ((hi0 * 2 ^ 32 + lo0) + (hi1 * 2 ^ 32 + lo1)) / 2 ^ 32.
Proof.
  unfold is_u32. intros H0 H1. unfold add64hi.
  assert (u32 (lo0 + lo1) <? lo1 = (2 ^ 32 <=? lo0 + lo1)) as ->.
  { unfold u32. destruct (Z.leb_spec (2 ^ 32) (lo0 + lo1)).
    - rewrite <- (Z.mod_add _ (-1)), Z.mod_small by lia. apply Z.ltb_lt. lia.
    - rewrite Z.mod_small by lia. apply Z.ltb_ge. lia. }
  case_goal; boolp; rewrite s32_u32_mod, u32_idemp; autorewrite with mach.
  - replace (_ + (_ + lo1)) with ((hi0 + hi1 + 1) * 2 ^ 32 + (lo0 + lo1 - 2 ^ 32)) by lia.
    rewrite u64_split; [reflexivity|unfold is_u32; lia].
  - replace (_ + (_ + lo1)) with ((hi0 + hi1) * 2 ^ 32 + (lo0 + lo1)) by lia.
    rewrite u64_split; [reflexivity|unfold is_u32; lia].
Qed.

(** [sub64hi] and [add64hi], read as [unsigned int], are the upper words of
    the 64-bit difference and sum of the two register pairs, for all words. *)
Lemma sub_add_64hi_correct lo0 hi0 lo1 hi1 :
  is_u32 lo0 -> is_u32 hi0 -> is_u32 lo1 -> is_u32 hi1 ->
  u32 (sub64hi lo0 hi0 lo1 hi1)
    = u64 ((hi0 * 2 ^ 32 + lo0) - (hi1 * 2 ^ 32 + lo1)) / 2 ^ 32 /\
  u32 (add64hi lo0 hi0 lo1 hi1)
    = u64 ((hi0 * 2 ^ 32 + lo0) + (hi1 * 2 ^ 32 + lo1)) / 2 ^ 32.
Proof. intros. split; [by apply sub64hi_hi | by apply add64hi_hi]. Qed.

Lemma sub_add_64hi_correct_witness :
  u32 (sub64hi 0 1 1 0) = 0 /\ u32 (add64hi (2 ^ 32 - 1) 0 1 0) = 1.
Proof.
  destruct (sub_add_64hi_correct 0 1 1 0) as [Hs _]; [unfold is_u32; lia..|].
  destruct (sub_add_64hi_correct (2 ^ 32 - 1) 0 1 0) as [_ Ha]; [unfold is_u32; lia..|].
  split; [exact Hs | exact Ha].
Defined.

Lemma am_attr_roundtrip_witness :
  attr_to_am (Vme_attr TSI148_A24 TSI148_BLT TSI148_SUPER TSI148_DATA) (-1) = VME_A24_SUP_BLT.
Proof. apply am_attr_roundtrip. reflexivity. Defined.

(** ** Lemmas: chip shutdown *)

Lemma quiesce_foldl_other (f : Z -> list Z) (l : list Z) r c :
  Forall (fun i => r ∉ f i) l ->
  ioread32be r (foldl (fun c i => foldr (iowrite32be 0) c (f i)) c l) = ioread32be r c.
Proof.
  revert c. induction l as [|i l IH]; intros c Hl; [reflexivity|].
  apply Forall_cons in Hl as [Hi Hl]. simpl. rewrite IH by done. clear IH Hl.
  induction (f i) as [|r' rs IH]; [reflexivity|].
  apply not_elem_of_cons in Hi as [? ?]. simpl. rewrite ioread_iowrite_ne by done. by apply IH.
Qed.

Lemma quiesce_windows_other r c :
  (forall i, 0 <= i < 8 -> r <> OTAT i /\ r <> ITAT i) ->
  ioread32be r (quiesce_windows c) = ioread32be r c.
Proof.
  intros H. unfold quiesce_windows.
  refine (quiesce_foldl_other (fun i => [OTAT i; ITAT i]) _ _ _ _).
  apply Forall_forall. intros i Hi. apply elem_of_seqZ in Hi.
  destruct (H i) as [? ?]; [unfold TSI148_NUM_OUT_WINDOWS in *; lia|].
  rewrite !not_elem_of_cons. split_and!; [done..|apply not_elem_of_nil].
Qed.

Lemma quiesce_dma_other r c :
  (forall i, 0 <= i < 2 -> r <> DCNT i /\ r <> DNLAL i /\ r <> DNLAU i) ->
  ioread32be r (quiesce_dma c) = ioread32be r c.
Proof.
  intros H. unfold quiesce_dma.
  refine (quiesce_foldl_other (fun i => [DCNT i; DNLAL i; DNLAU i]) _ _ _ _).
  apply Forall_forall. intros i Hi. apply elem_of_seqZ in Hi.
  destruct (H i) as (? & ? & ?); [unfold TSI148_NUM_DMA_CHANNELS in *; lia|].
  rewrite !not_elem_of_cons. split_and!; [done..|apply not_elem_of_nil].
Qed.

Lemma quiesce_windows_off c i : 0 <= i < 8 -> ioread32be (OTAT i) (quiesce_windows c) = 0.
Proof.
  intros Hi. unfold quiesce_windows.
  assert (i = 0 \/ i = 1 \/ i = 2 \/ i = 3 \/ i = 4 \/ i = 5 \/ i = 6 \/ i = 7) as Hc by lia.
  cbn [foldl seqZ TSI148_NUM_OUT_WINDOWS Z.to_nat Pos.to_nat Pos.iter_op seq fmap list_fmap
       Init.Nat.add Z.of_nat Z.add Pos.of_succ_nat Pos.succ].
  cbv [seqZ TSI148_NUM_OUT_WINDOWS Z.to_nat Pos.to_nat Pos.iter_op Init.Nat.add seq fmap list_fmap
       Z.add Z.of_nat Pos.of_succ_nat Pos.succ Pos.add foldl].
  repeat destruct Hc as [-> | Hc]; subst; io_simpl; reflexivity.
Qed.

(** after [tsi148_quiesce()] no outbound window decodes (every attribute
    register is zero, whatever the chip held), the CRG image is unmapped, no
    interrupt is routed out, and [tsi148_init()] run again keeps it so. *)
Lemma quiesce_safe c i :
  0 <= i < 8 ->
  let q := tsi148_quiesce c in
  ioread32be (OTAT i) q = 0 /\ ioread32be CRGAT q = 0 /\ ioread32be INTEO q = 0 /\
  ioread32be (OTAT i) (tsi148_init q) = 0.
Proof.
  intros Hi q.
  assert (ioread32be (OTAT i) q = 0) as Hq.
  { unfold q, tsi148_quiesce, tsi148_disable_crg. io_simpl.
    rewrite quiesce_dma_other by (unfold_regs; lia). by apply quiesce_windows_off. }
  split_and!; [exact Hq| | |].
  - unfold q, tsi148_quiesce, tsi148_disable_crg. io_simpl. reflexivity.
  - unfold q, tsi148_quiesce. io_simpl. reflexivity.
  - unfold tsi148_init. io_simpl. exact Hq.
Qed.

Lemma quiesce_safe_witness :
  ioread32be (OTAT 3) (tsi148_quiesce (iowrite32be (2 ^ 31) (OTAT 3) ∅)) = 0.
Proof. apply (quiesce_safe _ 3). lia. Defined.
