(* ===== verification/Tsi148Window.v ===== *)
(** * TSI148 outbound windows ([vmebridge/driver/tsi148.c], window support)

    Programming, reading back and removing one of the eight outbound windows,
    and the interface [WindowHw] through which the window manager
    ([VmeWindow]) uses them.  [outbound_hit]/[outbound_translate] state what
    the chip does with a PCI address (source comments: the low registers hold
    the upper 16 bits of the first and of the last 64 KiB chunk of a window,
    the VME address is the PCI address plus the 64-bit offset). *)

From S2P Require Import Prelude VmeBus Tsi148.

Definition mask64k : Z := not32 0xffff.

(** ** [tsi148_create_window()] *)

Definition window_otat (d : vme_mapping) (attrs : Z) : Z :=
  let otat := Z.lor attrs OTAT_EN in
  if truthy (read_prefetch_enabled d) then
    Z.lor (Z.land otat (not32 OTAT_MRPFD))
          (Z.land (Z.shiftl (read_prefetch_size d) OTAT_PFS_SHIFT) OTAT_PFS_M)
  else Z.lor otat OTAT_MRPFD.

Definition window_align (d : vme_mapping) : vme_mapping :=
  let addr := if truthy (Z.land (vme_addrl d) 0xffff)
              then Z.land (vme_addrl d) mask64k else vme_addrl d in
  let size := if truthy (Z.land (sizel d) 0xffff)
              then Z.land (u32 (u32 (vme_addrl d + sizel d) + 0x10000)) mask64k else sizel d in
  set_sizel size (set_vme_addrl addr d).

Definition window_write_regs (d : vme_mapping) (otat : Z) (c : chip) : chip :=
  let w := window_num d in
  let c := iowrite32be (Z.land (bcast_select d) OTBS_M) (OTBS w) c in
  let c := iowrite32be (Z.land (pci_addrl d) OTSAL_M) (OTSAL w) c in
  let c := iowrite32be (pci_addru d) (OTSAU w) c in
  let oteal := Z.land (u32 (pci_addrl d + sizel d - 1)) mask64k in
  let oteau := u32 (add64hi (pci_addrl d) (pci_addru d) (sizel d) (sizeu d)) in
  let c := iowrite32be oteal (OTEAL w) c in
  let c := iowrite32be oteau (OTEAU w) c in
  let otofl := u32 (vme_addrl d - pci_addrl d) in
  let otofu := u32 (sub64hi (vme_addrl d) (vme_addru d) (pci_addrl d) (pci_addru d)) in
  let c := iowrite32be otofl (OTOFL w) c in
  let c := iowrite32be otofu (OTOFU w) c in
  iowrite32be otat (OTAT w) c.

Definition tsi148_create_window (d : vme_mapping) (c : chip) : Z * vme_mapping * chip :=
  let d := window_align d in
  if truthy (Z.land (pci_addrl d) 0xffff) then (- EINVAL, d, c) else
  let rc := tsi148_setup_window_attributes (v2esst_mode d) (data_width d) (am d) in
  if rc <? 0 then (rc, d, c) else
  (0, set_window_enabled 1 d, window_write_regs d (window_otat d rc) c).

(** ** [tsi148_remove_window()] *)

Definition tsi148_remove_window (d : vme_mapping) (c : chip) : vme_mapping * chip :=
  let w := window_num d in
  let c := iowrite32be 0 (OTAT w) c in
  let c := iowrite32be 0 (OTSAL w) c in
  let c := iowrite32be 0 (OTSAU w) c in
  let c := iowrite32be 0 (OTEAL w) c in
  let c := iowrite32be 0 (OTEAU w) c in
  let c := iowrite32be 0 (OTOFL w) c in
  let c := iowrite32be 0 (OTOFU w) c in
  let c := iowrite32be 0 (OTBS w) c in
  (set_window_enabled 0 d, c).

(** ** [tsi148_get_window_attr()] *)

Definition get_window_flags (otat : Z) (d : vme_mapping) : vme_mapping :=
  let d := if truthy (Z.land otat OTAT_EN) then set_window_enabled 1 d else d in
  let d := if truthy (Z.land otat OTAT_MRPFD) then d else set_read_prefetch_enabled 1 d in
  let d := set_read_prefetch_size (Z.shiftr (Z.land otat OTAT_PFS_M) OTAT_PFS_SHIFT) d in
  let d := set_v2esst_mode (Z.shiftr (Z.land otat OTAT_2eSSTM_M) OTAT_2eSSTM_SHIFT) d in
  let dbw := Z.shiftr (Z.land otat OTAT_DBW_M) OTAT_DBW_SHIFT in
  if dbw =? OTAT_DBW_16 then set_data_width VME_D16 d
  else if dbw =? OTAT_DBW_32 then set_data_width VME_D32 d
  else d.

Definition tsi148_get_window_attr (d : vme_mapping) (c : chip) : vme_mapping :=
  let w := window_num d in
  let otat := ioread32be (OTAT w) c in
  let d := get_window_flags otat d in
  let d := set_bcast_select (s32 (ioread32be (OTBS w) c)) d in
  let at4 := otat_attr otat in
  let d := set_am (attr_to_am at4 (-1)) d in
  let otsal := ioread32be (OTSAL w) c in
  let otsau := ioread32be (OTSAU w) c in
  let oteal := ioread32be (OTEAL w) c in
  let oteau := ioread32be (OTEAU w) c in
  let otofl := ioread32be (OTOFL w) c in
  let otofu := ioread32be (OTOFU w) c in
  let d := set_pci_addrl otsal d in
  let d := set_pci_addru otsau d in
  let d := set_sizel (u32 (oteal - otsal)) d in
  let d := set_sizeu (u32 (sub64hi oteal oteau otsal otsau)) d in
  let d := set_vme_addrl (u32 (otofl + otsal)) d in
  set_vme_addru (if addr_size at4 =? TSI148_A64
                 then u32 (add64hi otofl otofu otsal otsau) else 0) d.

(** ** What the chip does with a PCI address *)

Definition pair64 (hi lo : Z) : Z := hi * 2 ^ 32 + lo.

Definition outbound_hit (c : chip) (w a : Z) : bool :=
  truthy (Z.land (ioread32be (OTAT w) c) OTAT_EN)
  && (pair64 (ioread32be (OTSAU w) c) (ioread32be (OTSAL w) c) <=? a)
  && (a <=? pair64 (ioread32be (OTEAU w) c) (ioread32be (OTEAL w) c) + 0xffff).

Definition outbound_translate (c : chip) (w a : Z) : option Z :=
  if outbound_hit c w a
  then Some (u64 (a + pair64 (ioread32be (OTOFU w) c) (ioread32be (OTOFL w) c)))
  else None.

(** ** The interface used by the window manager *)

(** A 64 KiB aligned window that ends below 4 GiB on the PCI side. *)
Definition window_ok (d : vme_mapping) : Prop :=
  vme_addrl d mod 2 ^ 16 = 0 /\ sizel d mod 2 ^ 16 = 0 /\ pci_addrl d mod 2 ^ 16 = 0 /\
  pci_addru d = 0 /\ sizeu d = 0 /\ 0 < sizel d /\ 0 <= pci_addrl d /\
  pci_addrl d + sizel d < 2 ^ 32 /\ is_u32 (vme_addrl d) /\ is_u32 (vme_addru d).

Class WindowHw (H : Type) := {
  hw_create_window : vme_mapping -> H -> Z * vme_mapping * H;
  hw_remove_window : vme_mapping -> H -> vme_mapping * H;
  hw_get_window_attr : vme_mapping -> H -> vme_mapping;
  hw_translate : H -> Z -> Z -> option Z;
}.

Class WindowHwOk (H : Type) `{WindowHw H} := {
  (** success enables the descriptor and changes nothing else of it *)
  hw_create_desc d h d' h' :
    hw_create_window d h = (0, d', h') -> window_ok d -> d' = set_window_enabled 1 d;
  (** the window number is not changed *)
  hw_create_num d h rc d' h' :
    hw_create_window d h = (rc, d', h') -> window_num d' = window_num d;
  (** failure leaves the chip alone *)
  hw_create_fail d h rc d' h' :
    hw_create_window d h = (rc, d', h') -> rc <> 0 -> h' = h;
  (** the window translates exactly its PCI range onto its VME range *)
  hw_create_translate d h d' h' a :
    hw_create_window d h = (0, d', h') -> window_ok d ->
    hw_translate h' (window_num d) a =
      if decide (pci_addrl d <= a < pci_addrl d + sizel d)
      then Some (u64 (pair64 (vme_addru d) (vme_addrl d) + (a - pci_addrl d))) else None;
  (** other windows are not disturbed *)
  hw_create_frame d h rc d' h' w a :
    hw_create_window d h = (rc, d', h') -> w <> window_num d ->
    hw_translate h' w a = hw_translate h w a;
  (** removal: disabled, nothing translated, frame *)
  hw_remove_desc d h : (hw_remove_window d h).1 = set_window_enabled 0 d;
  hw_remove_translate d h a : hw_translate (hw_remove_window d h).2 (window_num d) a = None;
  hw_remove_frame d h w a :
    w <> window_num d -> hw_translate (hw_remove_window d h).2 w a = hw_translate h w a;
}.

#[export] Instance tsi148_hw : WindowHw chip := {
  hw_create_window := tsi148_create_window;
  hw_remove_window := tsi148_remove_window;
  hw_get_window_attr := tsi148_get_window_attr;
  hw_translate := outbound_translate;
}.

(** ** Lemmas *)

Lemma mask64k_val : mask64k = 0xffff0000.
Proof. reflexivity. Qed.

Lemma window_align_id d :
  vme_addrl d mod 2 ^ 16 = 0 -> sizel d mod 2 ^ 16 = 0 -> window_align d = d.
Proof.
  intros Ha Hs. unfold window_align. rewrite !truthy_mod0 by assumption. by destruct d.
Qed.

Lemma window_otat_enabled d attrs : truthy (Z.land (u32 (window_otat d attrs)) OTAT_EN) = true.
Proof.
  unfold window_otat, OTAT_EN. rewrite truthy_land_pow2, testbit_u32 by lia.
  case_goal; rewrite ?Z.lor_spec, ?Z.land_spec, ?Z.lor_spec, (Z.pow2_bits_true 31) by lia.
  - change (Z.testbit (not32 OTAT_MRPFD) 31) with true. by rewrite orb_true_r.
  - by rewrite orb_true_r.
Qed.

(** Every register of another window, and every register outside the
    outbound block, keeps its value. *)
Lemma window_write_regs_frame d otat c r :
  ~ (otrans (window_num d) <= r < otrans (window_num d) + 0x20) ->
  ioread32be r (window_write_regs d otat c) = ioread32be r c.
Proof. intros Hr. unfold window_write_regs. io_simpl. reflexivity. Qed.

Lemma remove_window_frame d c r :
  ~ (otrans (window_num d) <= r < otrans (window_num d) + 0x20) ->
  ioread32be r (tsi148_remove_window d c).2 = ioread32be r c.
Proof. intros Hr. unfold tsi148_remove_window. simpl. io_simpl. reflexivity. Qed.

Lemma outbound_translate_ext c c' w a :
  (forall r, otrans w <= r < otrans w + 0x20 -> ioread32be r c' = ioread32be r c) ->
  outbound_translate c' w a = outbound_translate c w a.
Proof.
  intros Hr. unfold outbound_translate, outbound_hit.
  rewrite !Hr by (unfold_regs; lia). reflexivity.
Qed.

Lemma otrans_disjoint w w' r :
  w <> w' -> otrans w <= r < otrans w + 0x20 -> ~ (otrans w' <= r < otrans w' + 0x20).
Proof. unfold otrans. lia. Qed.

(** What the registers of a freshly created window hold. *)
Lemma create_window_regs d otat c :
  window_ok d ->
  let w := window_num d in let c' := window_write_regs d otat c in
  ioread32be (OTSAU w) c' = 0 /\ ioread32be (OTSAL w) c' = pci_addrl d /\
  ioread32be (OTEAU w) c' = 0 /\ ioread32be (OTEAL w) c' = pci_addrl d + sizel d - 2 ^ 16 /\
  pair64 (ioread32be (OTOFU w) c') (ioread32be (OTOFL w) c')
    = u64 (pair64 (vme_addru d) (vme_addrl d) - pci_addrl d) /\
  ioread32be (OTAT w) c' = u32 otat.
Proof.
  intros (Ha & Hs & Hp & Hpu & Hsu & Hs0 & Hp0 & Hlt & Hv & Hvu) w c'.
  assert (pci_addrl d <= 2 ^ 32 - 2 * 2 ^ 16) as Hpb.
  { Z.div_mod_to_equations. lia. }
  assert (2 ^ 16 <= sizel d) as Hsb by (Z.div_mod_to_equations; lia).
  subst w c'. unfold window_write_regs. cbv zeta. io_simpl.
  rewrite Hpu, Hsu, mask64k_val. unfold is_u32 in *. autorewrite with mach.
  split_and!.
  - reflexivity.
  - change OTSAL_M with 0xffff0000. rewrite land_hi16, Hp by (unfold is_u32; lia).
    rewrite Z.sub_0_r. apply u32_id. unfold is_u32; lia.
  - rewrite add64hi_hi by (unfold is_u32; lia). unfold u64. rewrite Z.mod_small by lia.
    apply Z.div_small. lia.
  - rewrite (u32_id (_ + _ - 1)) by (unfold is_u32; lia).
    rewrite land_hi16 by (unfold is_u32; lia).
    replace ((pci_addrl d + sizel d - 1) mod 2 ^ 16) with (2 ^ 16 - 1)
      by (Z.div_mod_to_equations; lia).
    rewrite u32_id by (unfold is_u32; lia). lia.
  - unfold pair64. rewrite sub64hi_hi by (unfold is_u32; lia).
    rewrite Z.mul_0_l, Z.add_0_l.
    etrans; [|apply u64_halves]. f_equal. unfold u32.
    replace (vme_addru d * 2 ^ 32 + vme_addrl d - pci_addrl d)
      with ((vme_addrl d - pci_addrl d) + vme_addru d * 2 ^ 32) by lia.
    rewrite Z.mod_add by lia. reflexivity.
  - reflexivity.
Qed.

Lemma create_window_inv d c rc d' c' :
  tsi148_create_window d c = (rc, d', c') ->
  (rc = 0 /\ exists attrs, 0 <= attrs /\
     attrs = tsi148_setup_window_attributes (v2esst_mode d) (data_width d) (am d) /\
     d' = set_window_enabled 1 (window_align d) /\
     c' = window_write_regs (window_align d) (window_otat (window_align d) attrs) c) \/
  (rc < 0 /\ d' = window_align d /\ c' = c).
Proof.
  unfold tsi148_create_window. intros H. case_hyp H; [|case_hyp H]; simplify_eq; boolp.
  - right. unfold EINVAL. split_and!; [lia|done..].
  - right. done.
  - left. split; [done|]. eexists. by split_and!.
Qed.

#[export] Instance tsi148_hw_ok : WindowHwOk chip.
Proof.
  split; simpl; unfold hw_create_window, hw_translate, hw_remove_window; simpl.
  - intros d h d' h' H (Ha & Hs & _). apply create_window_inv in H as [[_ (? & ? & ? & ? & ?)]|[? _]].
    + by rewrite window_align_id in * by done.
    + lia.
  - intros d h rc d' h' H. apply create_window_inv in H as [[_ (? & _ & _ & -> & _)]|(_ & -> & _)];
      reflexivity.
  - intros d h rc d' h' H Hrc. apply create_window_inv in H as [[? _]|(? & ? & ?)]; done.
  - intros d h d' h' a H Hok. apply create_window_inv in H as [[_ (attrs & ? & ? & ? & ->)]|[? _]]; [|lia].
    rewrite window_align_id by apply Hok.
    destruct (create_window_regs d (window_otat d attrs) h Hok) as (E1 & E2 & E3 & E4 & E5 & E6).
    unfold outbound_translate, outbound_hit. rewrite E1, E2, E3, E4, E5, E6.
    rewrite window_otat_enabled. unfold pair64 in *. destruct Hok as (_ & _ & _ & _ & _ & ? & ? & ? & _).
    case_decide as D.
    + rewrite (proj2 (Z.leb_le _ _)) by lia. rewrite (proj2 (Z.leb_le _ _)) by lia. simpl.
      rewrite u64_add_r. do 2 f_equal. lia.
    + case_goal; [|done]. boolp. lia.
  - intros d h rc d' h' w a H Hw. apply create_window_inv in H as [[_ (attrs & ? & ? & ? & ->)]|(_ & _ & ->)]; [|done].
    apply outbound_translate_ext. intros r Hr. apply window_write_regs_frame.
    by apply (otrans_disjoint w).
  - done.
  - intros d h a. unfold outbound_translate, outbound_hit, tsi148_remove_window. simpl. io_simpl. done.
  - intros d h w a Hw. apply outbound_translate_ext. intros r Hr. apply remove_window_frame.
    by apply (otrans_disjoint w).
Qed.

(** The attribute fields below bit 14 survive the enable and prefetch bits. *)
Lemma window_otat_low d attrs i :
  0 <= i < 14 -> Z.testbit (u32 (window_otat d attrs)) i = Z.testbit attrs i.
Proof.
  intros Hi. rewrite testbit_u32 by lia. unfold window_otat.
  assert (Z.testbit OTAT_EN i = false) as He by (apply Z.pow2_bits_false; lia).
  assert (Z.testbit OTAT_MRPFD i = false) as Hm by (apply Z.pow2_bits_false; lia).
  assert (Z.testbit OTAT_PFS_M i = false) as Hp.
  { change OTAT_PFS_M with (Z.shiftl 3 16). rewrite Z.shiftl_spec by lia.
    apply Z.testbit_neg_r. lia. }
  case_goal; rewrite !Z.lor_spec, ?Z.land_spec, ?Z.lor_spec, He, ?Hp, ?Hm.
  - unfold not32. rewrite testbit_u32, Z.lnot_spec, Hm by lia.
    by rewrite andb_true_r, andb_false_r, !orb_false_r.
  - by rewrite !orb_false_r.
Qed.

Lemma window_otat_land d attrs m :
  0 <= m < 2 ^ 14 -> Z.land (u32 (window_otat d attrs)) m = Z.land attrs m.
Proof.
  intros Hm. apply Z.bits_inj'. intros i Hi. rewrite !Z.land_spec.
  destruct (Z_lt_le_dec i 14).
  - by rewrite window_otat_low by lia.
  - by rewrite (testbit_above m 14 i), !andb_false_r by lia.
Qed.

Lemma window_otat_attr d attrs : otat_attr (u32 (window_otat d attrs)) = otat_attr attrs.
Proof.
  unfold otat_attr, otat_addr_size, otat_transfer_mode, otat_user_access, otat_data_access.
  by rewrite !window_otat_land by (vm_compute; split; congruence).
Qed.

(** C13: a window descriptor aligned on 64 KiB with attributes the chip supports
    is accepted; afterwards the chip translates exactly the PCI addresses of the
    window, onto the corresponding VME addresses (64-bit), and no other
    window's translation changes. *)
Theorem create_window_refines d c :
  window_ok d -> 0 <= v2esst_mode d <= 2 ->
  (data_width d = VME_D16 \/ data_width d = VME_D32) -> is_Some (am_to_attr (am d)) ->
  exists c', tsi148_create_window d c = (0, set_window_enabled 1 d, c') /\
  (forall a, outbound_translate c' (window_num d) a =
     if decide (pci_addrl d <= a < pci_addrl d + sizel d)
     then Some (u64 (pair64 (vme_addru d) (vme_addrl d) + (a - pci_addrl d))) else None) /\
  (forall w a, w <> window_num d -> outbound_translate c' w a = outbound_translate c w a).
Proof.
  intros Hok Hv Hdw [t Ht].
  destruct (window_attributes_fields _ _ _ _ Hv Hdw Ht) as [Hr _].
  assert (exists c', tsi148_create_window d c = (0, set_window_enabled 1 d, c')) as [c' Hc].
  { unfold tsi148_create_window. rewrite window_align_id by apply Hok.
    rewrite truthy_mod0 by apply Hok. rewrite (proj2 (Z.ltb_ge _ _)) by lia. eauto. }
  exists c'. split; [exact Hc|]. split.
  - intros a. exact (hw_create_translate d c _ c' a Hc Hok).
  - intros w a Hw. exact (hw_create_frame d c 0 _ c' w a Hc Hw).
Qed.

Definition example_window : vme_mapping :=
  {| window_num := 2; kernel_va := 0; user_va := 0; fd := 0; window_enabled := 0;
     data_width := VME_D32; am := VME_A32_USER_DATA_SCT; read_prefetch_enabled := 1;
     read_prefetch_size := VME_PREFETCH_4; v2esst_mode := VME_SST160; bcast_select := 0;
     pci_addru := 0; pci_addrl := 0x80000000; sizeu := 0; sizel := 0x20000;
     vme_addru := 0; vme_addrl := 0x10000 |}.

Lemma example_window_ok : window_ok example_window.
Proof. unfold window_ok, is_u32. vm_compute. intuition congruence. Qed.

Lemma create_window_refines_witness :
  exists c', tsi148_create_window example_window ∅ = (0, set_window_enabled 1 example_window, c') /\
  outbound_translate c' 2 0x80012345 = Some 0x22345.
Proof.
  destruct (create_window_refines example_window ∅ example_window_ok) as (c' & Hc & Ht & _).
  - vm_compute; split; congruence.
  - right; reflexivity.
  - eexists; reflexivity.
  - exists c'. split; [exact Hc|]. etrans; [exact (Ht 0x80012345)|reflexivity].
Defined.

Lemma get_window_flags_spec otat d0 :
  let r := get_window_flags otat d0 in
  v2esst_mode r = otat_2esstm otat /\
  (truthy (Z.land otat OTAT_EN) = true -> window_enabled r = 1) /\
  data_width r = (if otat_dbw otat =? 0 then VME_D16
                  else if otat_dbw otat =? 64 then VME_D32 else data_width d0).
Proof.
  unfold get_window_flags, otat_2esstm, otat_dbw, OTAT_DBW_16, OTAT_DBW_32. cbv zeta.
  change (0 * 2 ^ 6) with 0. change (1 * 2 ^ 6) with 64.
  repeat case_goal; split_and!; try done; intros; try discriminate; reflexivity.
Qed.

(** reading the attributes back after creation gives the address modifier,
    2eSST mode, start addresses and enable state that were programmed, with two
    departures from the descriptor: the size comes back 64 KiB short (the end
    register names the first address of the last chunk), and a D32 width is
    never recognised, so the field keeps what the caller passed. *)
Lemma window_readback d d0 c c' t :
  window_ok d -> 0 <= v2esst_mode d <= 2 ->
  (data_width d = VME_D16 \/ data_width d = VME_D32) -> am_to_attr (am d) = Some t ->
  tsi148_create_window d c = (0, set_window_enabled 1 d, c') -> window_num d0 = window_num d ->
  let r := tsi148_get_window_attr d0 c' in
  am r = am d /\ v2esst_mode r = v2esst_mode d /\ window_enabled r = 1 /\
  pci_addru r = 0 /\ pci_addrl r = pci_addrl d /\ vme_addrl r = vme_addrl d /\
  vme_addru r = (if addr_size t =? TSI148_A64 then vme_addru d else 0) /\
  sizel r = sizel d - 0x10000 /\ sizeu r = 0 /\
  data_width r = (if data_width d =? VME_D16 then VME_D16 else data_width d0).
Proof.
  intros Hok Hv Hdw Ht Hc Hn.
  destruct (window_attributes_fields _ _ _ _ Hv Hdw Ht) as (_ & Hattr & Hdbw & H2e).
  apply create_window_inv in Hc as [[_ (attrs & _ & Hat & _ & ->)]|[? _]]; [|lia].
  rewrite window_align_id by apply Hok. rewrite <- Hat in *.
  destruct (create_window_regs d (window_otat d attrs) c Hok) as (E1 & E2 & E3 & E4 & E5 & E6).
  destruct Hok as (_ & Hs16 & Hp16 & _ & _ & Hs0 & Hp0 & Hlt & Hv32 & Hvu).
  assert (2 ^ 16 <= sizel d) as Hsb by (clear - Hs0 Hs16; Z.div_mod_to_equations; lia).
  assert (is_u32 (pci_addrl d)) as Hpu by (unfold is_u32; lia).
  intros r. subst r. unfold tsi148_get_window_attr. cbv zeta.
  rewrite Hn, E1, E2, E3, E4, E6, window_otat_attr, Hattr.
  destruct (get_window_flags_spec (u32 (window_otat d attrs)) d0) as (F1 & F2 & F3).
  specialize (F2 (window_otat_enabled d attrs)).
  unfold otat_2esstm in F1, H2e. unfold otat_dbw in F3, Hdbw.
  rewrite window_otat_land in F1, F3 by (vm_compute; split; congruence).
  rewrite H2e in F1. rewrite Hdbw in F3.
  cbn [am v2esst_mode window_enabled pci_addru pci_addrl vme_addrl vme_addru sizel sizeu data_width
       set_vme_addru set_vme_addrl set_sizeu set_sizel set_pci_addru set_pci_addrl set_am set_bcast_select].
  set (ofu := ioread32be (OTOFU _) _) in *. set (ofl := ioread32be (OTOFL _) _) in *.
  assert (is_u32 ofl) as Hofl by (subst ofl; unfold window_write_regs; cbv zeta; io_simpl; apply u32_range).
  rewrite sub64hi_hi, add64hi_hi by (assumption || (unfold is_u32; lia)).
  unfold pair64 in E5. rewrite Z.mul_0_l, !Z.add_0_l, E5.
  split_and!; try assumption; try exact eq_refl.
  - by apply attr_to_am_cancel.
  - assert (u32 ofl = u32 (vme_addrl d - pci_addrl d)) as Eo.
    { subst ofl. unfold window_write_regs. cbv zeta. io_simpl. by autorewrite with mach. }
    rewrite <- u32_add_l, Eo, u32_add_l. rewrite u32_id; [lia|]. unfold is_u32 in *; lia.
  - case_goal; [|done]. rewrite u64_sub_pair.
    replace (_ - _ + _) with (vme_addru d * 2 ^ 32 + vme_addrl d) by lia.
    rewrite u64_split by assumption. by apply u32_id.
  - rewrite u32_id; [lia|]. unfold is_u32. lia.
  - unfold u64. rewrite Z.mod_small by lia. apply Z.div_small. lia.
  - rewrite F3. unfold dbw_of. destruct Hdw as [-> | ->]; reflexivity.
Qed.

Lemma window_readback_witness :
  sizel (tsi148_get_window_attr (set_window_num 2 vme_mapping_zero)
           (tsi148_create_window example_window ∅).2) = 0x10000.
Proof.
  destruct (window_readback example_window (set_window_num 2 vme_mapping_zero) ∅
    (tsi148_create_window example_window ∅).2
    (Vme_attr TSI148_A32 TSI148_SCT TSI148_USER TSI148_DATA) example_window_ok)
    as (_ & _ & _ & _ & _ & _ & _ & Hs & _).
  - vm_compute; split; congruence.
  - right; reflexivity.
  - reflexivity.
  - reflexivity.
  - reflexivity.
  - exact Hs.
Defined.

(** removing a window stops every translation through it, marks the
    descriptor disabled, and leaves the other windows' translations alone. *)
Lemma remove_window_disables d c :
  let (d', c') := tsi148_remove_window d c in
  window_enabled d' = 0 /\
  (forall a, outbound_translate c' (window_num d) a = None) /\
  (forall w a, w <> window_num d -> outbound_translate c' w a = outbound_translate c w a).
Proof.
  pose proof (hw_remove_translate d c) as Ht. pose proof (hw_remove_frame d c) as Hf.
  unfold hw_remove_window, hw_translate, tsi148_hw in *.
  destruct (tsi148_remove_window d c) as [d' c'] eqn:E. injection E as <- _.
  split_and!; [done | exact Ht | intros; by apply Hf].
Qed.

(** A window that ends exactly at 4 GiB gets upper end word 1 (the end address
    is computed without the [- 1] used for the lower word), so it also claims
    addresses above 4 GiB. *)
Example window_end_at_4G :
  let d := set_sizel 0x10000 (set_pci_addrl 0xffff0000 example_window) in
  outbound_hit (tsi148_create_window d ∅).2 2 0x180000000 = true.
Proof. vm_compute. reflexivity. Qed.
