(* ===== verification/VmeWindow.v ===== *)
(** * PCI-VME window manager ([vmebridge/driver/vme_window.c])

    The table of eight hardware windows, the logical mappings on each, and the
    operations the ioctl interface and other drivers call.  The chip is used
    through the interface [WindowHw].  What the kernel answers during a call
    (interrupted mutex, failed allocation, PCI resource, ioremap address) is
    the argument [kenv]; what the driver acquires and releases from the kernel
    (mutexes, PCI resources, I/O mappings, resource names) is recorded in a
    log, on which an ownership automaton is run. *)

From stdpp Require Import strings.
From S2P Require Import Prelude VmeBus Tsi148 Tsi148Window.

(** ** Kernel side *)

(** Kinds of kernel objects: window mutex, ioremap()ed region, PCI bus
    resource, kmalloc()ed resource name; an object is a kind and a window. *)
Definition KLock : Z := 0.
Definition KIomap : Z := 1.
Definition KPci : Z := 2.
Definition KName : Z := 3.

(** The answers of the kernel during one call of the driver. *)
Record kenv := Kenv {
  k_intr : Z -> bool;         (* mutex_lock_interruptible(window i) interrupted *)
  k_name : bool;              (* kmalloc(32) succeeds *)
  k_pci : Z -> Z * Z;         (* pci_bus_alloc_resource size: rc, start *)
  k_ioremap : Z -> Z -> Z;    (* ioremap start size: address or NULL *)
  k_kzalloc : bool;           (* kzalloc(struct mapping) succeeds *)
  k_pid : Z;                  (* task_pid_nr(current) *)
  k_comm : string;            (* current->comm *)
}.

(** ** Data *)

Record resource := Resource {
  rsrc_named : bool;
  rsrc_start : Z;
  rsrc_end : Z;
  rsrc_flags : Z;
}.

Definition resource_zero : resource := Resource false 0 0 0.
Definition IORESOURCE_MEM : Z := 0x200.

(** [struct vme_taskinfo] and [struct mapping]; [m_file] is the [struct file]
    pointer of the owner, [0] (NULL) for the kernel. *)
Record mapping := Mapping {
  m_desc : vme_mapping;
  m_pid : Z;
  m_name : string;
  m_file : Z;
}.

(** [struct window] (the mutex is in the log). *)
Record window := Window {
  w_active : bool;
  w_rsrc : resource;
  w_desc : vme_mapping;
  w_mappings : list mapping;
  w_users : Z;
}.

Definition window_zero : window := Window false resource_zero vme_mapping_zero [] 0.

Definition set_rsrc (r : resource) (w : window) : window :=
  Window (w_active w) r (w_desc w) (w_mappings w) (w_users w).
Definition set_mappings (l : list mapping) (n : Z) (w : window) : window :=
  Window (w_active w) (w_rsrc w) (w_desc w) l n.

Record wstate (H : Type) := Wstate {
  wins : list window;                  (* window_table *)
  whw : H;                             (* the chip *)
  vme_create_on_find_fail : Z;
  vme_destroy_on_remove : Z;
  wlog : list kev;
}.
Arguments Wstate {H}.
Arguments wins {H}.
Arguments whw {H}.
Arguments vme_create_on_find_fail {H}.
Arguments vme_destroy_on_remove {H}.
Arguments wlog {H}.

Section VmeWindow.
Context {H : Type} `{!WindowHw H}.
Implicit Types (st : wstate H) (d : vme_mapping) (w : window).

Definition get_win st (i : Z) : window := default window_zero (wins st !! Z.to_nat i).

Definition set_win (i : Z) w st : wstate H :=
  Wstate (<[Z.to_nat i := w]> (wins st)) (whw st)
    (vme_create_on_find_fail st) (vme_destroy_on_remove st) (wlog st).

Definition set_hw (h : H) st : wstate H :=
  Wstate (wins st) h (vme_create_on_find_fail st) (vme_destroy_on_remove st) (wlog st).

(** The two behaviour flags, set by ioctl. *)
Definition set_create_flag (v : Z) st : wstate H :=
  Wstate (wins st) (whw st) v (vme_destroy_on_remove st) (wlog st).
Definition set_destroy_flag (v : Z) st : wstate H :=
  Wstate (wins st) (whw st) (vme_create_on_find_fail st) v (wlog st).

Definition klog (e : list kev) st : wstate H :=
  Wstate (wins st) (whw st) (vme_create_on_find_fail st) (vme_destroy_on_remove st) (wlog st ++ e).

Definition lock (i : Z) st : wstate H := klog [Acq KLock i] st.
Definition unlock (i : Z) st : wstate H := klog [Rel KLock i] st.

Definition bad_window (i : Z) : bool := (i <? 0) || (TSI148_NUM_OUT_WINDOWS <=? i).

(** ** [vme_get_window_attr()] *)

Definition vme_get_window_attr (k : kenv) d st : Z * vme_mapping * wstate H :=
  let n := window_num d in
  if bad_window n then (- EINVAL, d, st) else
  if k_intr k n then (- ERESTARTSYS, d, st) else
  let st := lock n st in
  let d := w_desc (get_win st n) in
  let d := hw_get_window_attr d (whw st) in
  (0, d, unlock n st).

(** ** [vme_create_window()] *)

(** Rounding of the request.  As in the source, the size is adjusted with the
    difference taken after the address was overwritten. *)
Definition create_align d : vme_mapping :=
  let d :=
    if truthy (Z.land (vme_addrl d) 0xffff) then
      let lowaddr := Z.land (vme_addrl d) mask64k in
      let d := set_vme_addrl lowaddr d in
      set_sizel (u32 (sizel d + u32 (vme_addrl d - lowaddr))) d
    else d in
  if truthy (Z.land (sizel d) 0xffff) then
    set_sizel (Z.land (u32 (sizel d + 0x10000)) mask64k) d
  else d.

(** [out_free]: free the name, if any, and clear the resource. *)
Definition free_rsrc (i : Z) st : wstate H :=
  let w := get_win st i in
  let st := if rsrc_named (w_rsrc w) then klog [Rel KName i] st else st in
  set_win i (set_rsrc resource_zero (get_win st i)) st.

Definition vme_create_window (k : kenv) d st : Z * vme_mapping * wstate H :=
  let n := window_num d in
  if bad_window n then (- EINVAL, d, st) else
  if sizel d =? 0 then (- EINVAL, d, st) else
  let d := create_align d in
  if k_intr k n then (- ERESTARTSYS, d, st) else
  let st := lock n st in
  let w := get_win st n in
  if w_active w then (- EBUSY, d, unlock n st) else
  let st := if k_name k then klog [Acq KName n] st else st in
  let st := set_win n (set_rsrc (Resource (k_name k) 0 (sizel d) IORESOURCE_MEM) w) st in
  let '(rc, start) := k_pci k (sizel d) in
  if truthy rc then (rc, d, unlock n (free_rsrc n st)) else
  let st := klog [Acq KPci n] st in
  let st := set_win n (set_rsrc (Resource (k_name k) start (start + sizel d - 1) IORESOURCE_MEM)
                                (get_win st n)) st in
  let d := set_kernel_va (k_ioremap k start (sizel d)) d in
  if kernel_va d =? 0 then
    (- ENOMEM, d, unlock n (free_rsrc n (klog [Rel KPci n] st)))
  else
  let st := klog [Acq KIomap n] st in
  let d := set_pci_addrl (u32 start) d in
  let '(rc, d, h) := hw_create_window d (whw st) in
  let st := set_hw h st in
  if truthy rc then
    (rc, d, unlock n (free_rsrc n (klog [Rel KPci n] (klog [Rel KIomap n] st))))
  else
  let w := get_win st n in
  let st := set_win n (Window true (w_rsrc w) d (w_mappings w) (w_users w)) st in
  (0, d, unlock n st).

(** ** [vme_destroy_window()] *)

Definition drop_mappings w : window :=
  if 0 <? w_users w
  then set_mappings [] (w_users w - Z.of_nat (length (w_mappings w))) w
  else w.

Definition vme_destroy_window (k : kenv) (n : Z) st : Z * wstate H :=
  if bad_window n then (- EINVAL, st) else
  if k_intr k n then (- ERESTARTSYS, st) else
  let st := lock n st in
  let w := get_win st n in
  if negb (w_active w) then (- EINVAL, unlock n st) else
  let w := drop_mappings w in
  let st := klog [Rel KIomap n] st in
  let d := set_kernel_va 0 (w_desc w) in
  let '(d, h) := hw_remove_window d (whw st) in
  let st := set_hw h st in
  let st := klog [Rel KPci n] st in
  let st := set_win n (Window false (w_rsrc w) d (w_mappings w) (w_users w)) st in
  (0, unlock n (free_rsrc n st)).

(** ** Mappings *)

Definition add_mapping (k : kenv) w d (file : Z) : Z * window :=
  if k_kzalloc k then
    let m := if truthy file then Mapping d (k_pid k) (k_comm k) file
             else Mapping d 0 "kernel" 0 in
    (0, set_mappings (w_mappings w ++ [m]) (w_users w + 1) w)
  else (- ENOMEM, w).

Definition mapping_match d (file : Z) (m : mapping) : bool :=
  (vme_addru (m_desc m) =? vme_addru d) && (vme_addrl (m_desc m) =? vme_addrl d)
  && (sizeu (m_desc m) =? sizeu d) && (sizel (m_desc m) =? sizel d)
  && (kernel_va (m_desc m) =? kernel_va d)
  && (negb (truthy file) || (m_file m =? file)).

(** [list_for_each_entry_safe] with the [return] at the first match. *)
Fixpoint remove_first (p : mapping -> bool) (l : list mapping) : option (list mapping) :=
  match l with
  | [] => None
  | m :: l => if p m then Some l else
      match remove_first p l with Some l' => Some (m :: l') | None => None end
  end.

Definition remove_mapping w d (file : Z) : Z * window :=
  match remove_first (mapping_match d file) (w_mappings w) with
  | Some l => (0, set_mappings l (w_users w - 1) w)
  | None => (- EINVAL, w)
  end.

(** [vme_window_release()]: the close method of the device file. *)
Definition release_window (file : Z) w : window :=
  if negb (w_active w) || (match w_mappings w with [] => true | _ => false end) then w else
  let keep := filter (fun m => m_file m <> file) (w_mappings w) in
  set_mappings keep (w_users w - (Z.of_nat (length (w_mappings w)) - Z.of_nat (length keep))) w.

Fixpoint release_loop (k : kenv) (file : Z) (idx : list Z) st : Z * wstate H :=
  match idx with
  | [] => (0, st)
  | i :: idx =>
      if k_intr k i then (- ERESTARTSYS, st) else
      let st := lock i st in
      let st := set_win i (release_window file (get_win st i)) st in
      release_loop k file idx (unlock i st)
  end.

Definition window_indices : list Z := seqZ 0 TSI148_NUM_OUT_WINDOWS.

Definition vme_window_release (k : kenv) (file : Z) st : Z * wstate H :=
  release_loop k file window_indices st.

(** [find_vme_mapping_from_addr()]: the descriptor found, if any. *)
Fixpoint find_addr_loop (k : kenv) (logaddr : Z) (idx : list Z) st : option vme_mapping * wstate H :=
  match idx with
  | [] => (None, st)
  | i :: idx =>
      if k_intr k i then (None, st) else
      let st := lock i st in
      match list_find (fun m => u32 (kernel_va (m_desc m)) = logaddr) (w_mappings (get_win st i)) with
      | Some (_, m) => (Some (m_desc m), unlock i st)
      | None => find_addr_loop k logaddr idx (unlock i st)
      end
  end.

Definition find_vme_mapping_from_addr (k : kenv) (logaddr : Z) st : option vme_mapping * wstate H :=
  find_addr_loop k logaddr window_indices st.

(** ** Sizing and checking a request *)

Definition is_A24 (a : Z) : bool :=
  (a =? VME_A24_USER_MBLT) || (a =? VME_A24_USER_DATA_SCT) || (a =? VME_A24_USER_PRG_SCT)
  || (a =? VME_A24_USER_BLT) || (a =? VME_A24_SUP_MBLT) || (a =? VME_A24_SUP_DATA_SCT)
  || (a =? VME_A24_SUP_PRG_SCT) || (a =? VME_A24_SUP_BLT).

Definition is_A16 (a : Z) : bool :=
  (a =? VME_A16_USER) || (a =? VME_A16_LCK) || (a =? VME_A16_SUP).

Definition is_A32 (a : Z) : bool :=
  (a =? VME_A32_LCK) || (a =? VME_A32_USER_MBLT) || (a =? VME_A32_USER_DATA_SCT)
  || (a =? VME_A32_USER_PRG_SCT) || (a =? VME_A32_USER_BLT) || (a =? VME_A32_SUP_MBLT)
  || (a =? VME_A32_SUP_DATA_SCT) || (a =? VME_A32_SUP_PRG_SCT) || (a =? VME_A32_SUP_BLT).

Definition is_A40 (a : Z) : bool :=
  (a =? VME_A40_SCT) || (a =? VME_A40_LCK) || (a =? VME_A40_BLT).

Definition vme_optimize_window_size d : vme_mapping :=
  let resize := if is_A24 (am d) then 0x1000000
                else if is_A16 (am d) then 0x10000 else 0 in
  if resize =? 0 then d else
  set_vme_addrl 0 (set_vme_addru 0 (set_sizel resize (set_sizeu 0 d))).

Definition vme_mapping_sanity_check d : Z :=
  let err :=
    if is_A16 (am d) then
      if truthy (vme_addru d) || truthy (Z.land (vme_addrl d) (not32 0xffff)) then 16 else 0
    else if is_A24 (am d) then
      if truthy (vme_addru d) || truthy (Z.land (vme_addrl d) (not32 0xffffff)) then 24 else 0
    else if is_A32 (am d) then
      if truthy (vme_addru d) then 32 else 0
    else if is_A40 (am d) then
      if truthy (Z.land (vme_addru d) (not32 0xff)) then 40 else 0
    else 0 in
  if truthy err then - EINVAL else 0.

(** ** [__vme_find_mapping()] *)

(** The tests that the search loop makes on one window; [false] is a
    [goto try_next]. *)
Definition window_matches w d : bool :=
  w_active w
  && truthy (window_enabled (w_desc w))
  && negb (truthy (vme_addru (w_desc w)) || truthy (sizeu (w_desc w)))
  && negb (negb (am (w_desc w) =? am d) || negb (data_width (w_desc w) =? data_width d))
  && negb ((vme_addrl d <? vme_addrl (w_desc w))
           || (u32 (vme_addrl (w_desc w) + sizel (w_desc w)) <? u32 (vme_addrl d + sizel d)))
  && negb ((am (w_desc w) =? VME_2e6U) && negb (v2esst_mode (w_desc w) =? v2esst_mode d)).

(** The search: an error, or the window found (its mutex still held). *)
Fixpoint find_loop (k : kenv) d (idx : list Z) st : (Z + option Z) * wstate H :=
  match idx with
  | [] => (inr None, st)
  | i :: idx =>
      if k_intr k i then (inl (- ERESTARTSYS), st) else
      let st := lock i st in
      if window_matches (get_win st i) d then (inr (Some i), st)
      else find_loop k d idx (unlock i st)
  end.

(** Address of the mapping inside window [i]. *)
Definition place_mapping w (i : Z) d : vme_mapping :=
  let offset := u32 (vme_addrl d - vme_addrl (w_desc w)) in
  let d := set_kernel_va (kernel_va (w_desc w) + offset) d in
  let d := set_pci_addrl (u32 (pci_addrl (w_desc w) + offset)) d in
  set_window_num i d.

Definition first_unused st : option Z :=
  (fun p => p.2) <$> list_find (fun i => w_active (get_win st i) = false) window_indices.

(** [kc] answers the calls made inside the nested [vme_create_window()]. *)
Definition __vme_find_mapping (k kc : kenv) d (force file : Z) st : Z * vme_mapping * wstate H :=
  let rc := vme_mapping_sanity_check d in
  if truthy rc then (rc, d, st) else
  match find_loop k d window_indices st with
  | (inl rc, st) => (rc, d, st)
  | (inr (Some i), st) =>
      let w := get_win st i in
      let d := place_mapping w i d in
      let '(rc, w) := add_mapping k w d file in
      (rc, d, unlock i (set_win i w st))
  | (inr None, st) =>
      if negb (truthy force) then (- EBUSY, d, st) else
      match first_unused st with
      | None => (- EBUSY, d, st)
      | Some i =>
          let wnd := vme_optimize_window_size (set_window_num i d) in
          let '(rc, wnd, st) := vme_create_window kc wnd st in
          if truthy rc then (rc, d, st) else
          let w := get_win st (window_num wnd) in
          let d := place_mapping w (window_num wnd) d in
          let '(rc, w) := add_mapping k w d file in
          (rc, d, set_win (window_num wnd) w st)
      end
  end.

Definition vme_find_mapping (k kc : kenv) d (force : Z) st : Z * vme_mapping * wstate H :=
  __vme_find_mapping k kc d force 0 st.

(** ** [__vme_release_mapping()] *)

Definition __vme_release_mapping (k kd : kenv) d (force file : Z) st : Z * wstate H :=
  let n := window_num d in
  if bad_window n then (- EINVAL, st) else
  if k_intr k n then (- ERESTARTSYS, st) else
  let st := lock n st in
  let w := get_win st n in
  if negb (w_active w) then (- EINVAL, unlock n st) else
  let '(rc, w) := remove_mapping w d file in
  let st := set_win n w st in
  if truthy rc then (rc, unlock n st) else
  if (w_users w =? 0) && truthy force then vme_destroy_window kd n (unlock n st) else
  (rc, unlock n st).

Definition vme_release_mapping (k kd : kenv) d (force : Z) st : Z * wstate H :=
  __vme_release_mapping k kd d force 0 st.

(** ** mmap *)

Definition PAGE_SHIFT : Z := 12.
Definition PAGE_SIZE : Z := 0x1000.
Definition PAGE_MASK : Z := not32 0xfff.

Definition vme_check_mmap_region st (windownr : Z) (mapping : vme_mapping) (addr size : Z) : bool :=
  let window := w_desc (get_win st windownr) in
  if (addr <? pci_addrl window) || (u32 (pci_addrl window + sizel window) <? u32 (addr + size))
  then false else
  let aligned_start := Z.land (pci_addrl mapping) PAGE_MASK in
  let end_ := u32 (pci_addrl mapping + sizel mapping) in
  let aligned_end :=
    if truthy (Z.land end_ (not32 PAGE_MASK))
    then u32 (Z.land end_ PAGE_MASK + PAGE_SIZE) else end_ in
  (aligned_start =? addr) && (aligned_end =? u32 (addr + size)).

(** [remap] is the result of [vme_remap_pfn_range()] on the region. *)
Fixpoint mmap_loop (k : kenv) (file addr size remap : Z) (idx : list Z) st : Z * wstate H :=
  match idx with
  | [] => (- EINVAL, st)
  | i :: idx =>
      if k_intr k i then (- ERESTARTSYS, st) else
      let st := lock i st in
      let w := get_win st i in
      if w_active w &&
         existsb (fun m => (m_file m =? file) && vme_check_mmap_region st i (m_desc m) addr size)
                 (w_mappings w)
      then (remap, unlock i st)
      else mmap_loop k file addr size remap idx (unlock i st)
  end.

Definition vme_window_mmap (k : kenv) (file vm_pgoff vm_start vm_end remap : Z) st : Z * wstate H :=
  mmap_loop k file (u32 (Z.shiftl vm_pgoff PAGE_SHIFT)) (u32 (vm_end - vm_start)) remap
    window_indices st.

(** ** Module load and unload *)

Definition vme_window_init st : wstate H :=
  foldl (fun st i => let w := get_win st i in
           set_win i (Window false (w_rsrc w) (w_desc w) [] (w_users w)) st)
        st window_indices.

Definition vme_window_exit (k : kenv) st : wstate H :=
  foldl (fun st i => if w_active (get_win st i) then (vme_destroy_window k i st).2 else st)
        st window_indices.

(** The static tables at module load. *)
Definition wstate_boot (h : H) : wstate H :=
  vme_window_init (Wstate (replicate 8 window_zero) h 0 0 []).

End VmeWindow.

(** What window [i] owns between calls. *)
Definition win_owns (i : Z) (w : window) : gset (Z * Z) :=
  if w_active w
  then {[(KIomap, i); (KPci, i)]} ∪ (if rsrc_named (w_rsrc w) then {[(KName, i)]} else ∅)
  else ∅.
