(* ===== verification/VmeWindowInv.v ===== *)
(** * Invariants of the window manager

    Structure and ownership invariants of [VmeWindow], for every sequence of
    operations, every request and every behaviour of the kernel. *)

From stdpp Require Import strings.
From S2P Require Import Prelude VmeBus Tsi148 Tsi148Window VmeWindow.

(** ** Operations as a transition system *)

Inductive wop :=
  | OpGetAttr (k : kenv) (d : vme_mapping)
  | OpCreate (k : kenv) (d : vme_mapping)
  | OpDestroy (k : kenv) (n : Z)
  | OpFind (k kc : kenv) (d : vme_mapping) (force file : Z)
  | OpRelease (k kd : kenv) (d : vme_mapping) (force file : Z)
  | OpClose (k : kenv) (file : Z)
  | OpFindAddr (k : kenv) (logaddr : Z)
  | OpMmap (k : kenv) (file pgoff vstart vend remap : Z)
  | OpSetCreate (v : Z)
  | OpSetDestroy (v : Z)
  | OpExit (k : kenv).

Section Inv.
Context {H : Type} `{!WindowHw H}.
Implicit Types (st : wstate H) (d : vme_mapping) (w : window).

Definition run_op (op : wop) st : wstate H :=
  match op with
  | OpGetAttr k d => (vme_get_window_attr k d st).2
  | OpCreate k d => (vme_create_window k d st).2
  | OpDestroy k n => (vme_destroy_window k n st).2
  | OpFind k kc d force file => (__vme_find_mapping k kc d force file st).2
  | OpRelease k kd d force file => (__vme_release_mapping k kd d force file st).2
  | OpClose k file => (vme_window_release k file st).2
  | OpFindAddr k a => (find_vme_mapping_from_addr k a st).2
  | OpMmap k file pgoff vstart vend remap => (vme_window_mmap k file pgoff vstart vend remap st).2
  | OpSetCreate v => set_create_flag v st
  | OpSetDestroy v => set_destroy_flag v st
  | OpExit k => vme_window_exit k st
  end.

(** The states a loaded driver can be in. *)
Inductive reachable : wstate H -> Prop :=
  | reach_boot h : reachable (wstate_boot h)
  | reach_step op st : reachable st -> reachable (run_op op st).

(** ** The invariants *)

Definition in_table (i : Z) : Prop := 0 <= i < 8.

Definition win_wf w : Prop :=
  w_users w = Z.of_nat (length (w_mappings w)) /\ (w_active w = false -> w_mappings w = []).

Definition struct_ok st : Prop :=
  length (wins st) = 8%nat /\ forall i, in_table i -> win_wf (get_win st i).

(** Objects owned by the table. *)
Definition table_owns st (x : Z * Z) : Prop :=
  in_table x.2 /\ x ∈ win_owns x.2 (get_win st x.2).

(** The log runs, and ends with the table's objects plus those ([L]) held by
    the call in progress. *)
Definition own_ok st (L : gset (Z * Z)) : Prop :=
  exists S, own_run (wlog st) ∅ = Some S /\ (forall x, x ∈ S <-> x ∈ L \/ table_owns st x).

Definition winv st : Prop := struct_ok st /\ own_ok st ∅.

(** ** Table lookups *)

Lemma bad_window_false i : bad_window i = false -> in_table i.
Proof. unfold bad_window, TSI148_NUM_OUT_WINDOWS, in_table. intros. boolp. lia. Qed.

Lemma bad_window_in i : in_table i -> bad_window i = false.
Proof.
  unfold bad_window, TSI148_NUM_OUT_WINDOWS, in_table. intros.
  apply orb_false_iff. split; [apply Z.ltb_ge|apply Z.leb_gt]; lia.
Qed.

Lemma window_indices_in i : i ∈ window_indices -> in_table i.
Proof. intros Hi. apply elem_of_seqZ in Hi. unfold TSI148_NUM_OUT_WINDOWS, in_table in *. lia. Qed.

Lemma window_indices_all : Forall in_table window_indices.
Proof. apply Forall_forall. apply window_indices_in. Qed.

Lemma get_set_win_eq st i w :
  length (wins st) = 8%nat -> in_table i -> get_win (set_win i w st) i = w.
Proof.
  unfold in_table. intros Hl Hi. unfold get_win, set_win. simpl.
  rewrite list_lookup_insert_eq by lia. done.
Qed.

Lemma get_set_win_ne st i j w :
  in_table i -> in_table j -> i <> j -> get_win (set_win i w st) j = get_win st j.
Proof.
  unfold in_table. intros Hi Hj Hne. unfold get_win, set_win. simpl.
  rewrite list_lookup_insert_ne by lia. done.
Qed.

Lemma get_win_klog e st i : get_win (klog e st) i = get_win st i.
Proof. reflexivity. Qed.

Lemma get_win_lock st n i : get_win (lock n st) i = get_win st i.
Proof. reflexivity. Qed.

Lemma get_win_set_hw h st i : get_win (set_hw h st) i = get_win st i.
Proof. reflexivity. Qed.

Lemma struct_set_win st i w : struct_ok st -> in_table i -> win_wf w -> struct_ok (set_win i w st).
Proof.
  intros [Hl Hw] Hi Hwf. split; [simpl; by rewrite length_insert|].
  intros j Hj. destruct (decide (i = j)) as [<-|].
  - by rewrite get_set_win_eq.
  - rewrite get_set_win_ne by done. by apply Hw.
Qed.

Lemma struct_klog e st : struct_ok st -> struct_ok (klog e st).
Proof. done. Qed.

Lemma struct_set_hw h st : struct_ok st -> struct_ok (set_hw h st).
Proof. done. Qed.

(** ** Ownership *)

Lemma elem_of_win_owns k j i w :
  (k, j) ∈ win_owns i w <->
  w_active w = true /\ j = i /\ (k = KIomap \/ k = KPci \/ (k = KName /\ rsrc_named (w_rsrc w) = true)).
Proof.
  unfold win_owns. destruct (w_active w); [|set_solver].
  destruct (rsrc_named (w_rsrc w)); set_solver.
Qed.

Lemma table_owns_spec st k i :
  table_owns st (k, i) <->
  in_table i /\ w_active (get_win st i) = true /\
  (k = KIomap \/ k = KPci \/ (k = KName /\ rsrc_named (w_rsrc (get_win st i)) = true)).
Proof. unfold table_owns. simpl. rewrite elem_of_win_owns. naive_solver. Qed.

Lemma table_owns_set_win st i w k j :
  length (wins st) = 8%nat -> in_table i ->
  table_owns (set_win i w st) (k, j) <->
  (j <> i /\ table_owns st (k, j)) \/ (j = i /\ (k, j) ∈ win_owns i w).
Proof.
  intros Hl Hi. unfold table_owns. simpl. destruct (decide (j = i)) as [->|Hne].
  - rewrite get_set_win_eq by done. naive_solver.
  - split.
    + intros [Hj Hx]. rewrite get_set_win_ne in Hx by done. naive_solver.
    + intros [[_ [Hj Hx]]|[? _]]; [|done]. rewrite get_set_win_ne by done. done.
Qed.

Lemma own_acq st L k i :
  own_ok st L -> (k, i) ∉ L -> ~ table_owns st (k, i) ->
  own_ok (klog [Acq k i] st) ({[(k, i)]} ∪ L).
Proof.
  intros (S & Hr & HS) HL Ht. exists ({[(k, i)]} ∪ S). split.
  - simpl. rewrite own_run_snoc, Hr. simpl. rewrite decide_False; [done|]. rewrite HS. tauto.
  - intros x. change (table_owns (klog [Acq k i] st) x) with (table_owns st x).
    rewrite !elem_of_union, HS. tauto.
Qed.

Lemma own_rel st L k i :
  own_ok st L -> (k, i) ∈ L -> ~ table_owns st (k, i) ->
  own_ok (klog [Rel k i] st) (L ∖ {[(k, i)]}).
Proof.
  intros (S & Hr & HS) HL Ht. exists (S ∖ {[(k, i)]}). split.
  - simpl. rewrite own_run_snoc, Hr. simpl. rewrite decide_True; [done|]. rewrite HS. tauto.
  - intros x. change (table_owns (klog [Rel k i] st) x) with (table_owns st x).
    rewrite !elem_of_difference, HS, elem_of_singleton. split; [tauto|].
    intros [?|Hx]; [tauto|]. split; [tauto|]. intros ->. tauto.
Qed.

(** Replacing a window transfers objects between the call and the table. *)
Lemma own_set_win st L L' i w :
  own_ok st L -> length (wins st) = 8%nat -> in_table i ->
  (forall x, x ∈ L \/ table_owns st x <-> x ∈ L' \/ table_owns (set_win i w st) x) ->
  own_ok (set_win i w st) L'.
Proof.
  intros (S & Hr & HS) Hl Hi Hx. exists S. split; [exact Hr|].
  intros x. rewrite HS. apply Hx.
Qed.

(** ... in particular when the window's own objects do not change. *)
Lemma own_set_win_same st L i w :
  own_ok st L -> length (wins st) = 8%nat -> in_table i ->
  win_owns i w = win_owns i (get_win st i) -> own_ok (set_win i w st) L.
Proof.
  intros HO Hl Hi Hw. eapply own_set_win; [done..|]. intros [k j].
  rewrite table_owns_set_win by done. unfold table_owns. simpl. rewrite Hw.
  destruct (decide (j = i)); naive_solver.
Qed.

Lemma own_ok_ext st L L' : own_ok st L -> (forall x, x ∈ L <-> x ∈ L') -> own_ok st L'.
Proof.
  intros (S & Hr & HS) E. exists S. split; [done|]. intros x. rewrite HS, E. done.
Qed.

Lemma own_set_hw st L h : own_ok st L -> own_ok (set_hw h st) L.
Proof. done. Qed.

Lemma own_lock st i : own_ok st ∅ -> own_ok (lock i st) {[(KLock, i)]}.
Proof.
  intros HO. eapply own_ok_ext; [apply own_acq; [exact HO|set_solver|]|set_solver].
  rewrite table_owns_spec. unfold KLock, KIomap, KPci, KName. lia.
Qed.

Lemma own_unlock st i : own_ok st {[(KLock, i)]} -> own_ok (unlock i st) ∅.
Proof.
  intros HO. eapply own_ok_ext; [apply own_rel; [exact HO|set_solver|]|set_solver].
  rewrite table_owns_spec. unfold KLock, KIomap, KPci, KName. lia.
Qed.

(** Locking and unlocking around a change of a window that keeps its objects. *)
Lemma own_locked_update st i w :
  winv st -> in_table i -> win_wf w -> win_owns i w = win_owns i (get_win st i) ->
  winv (unlock i (set_win i w (lock i st))).
Proof.
  intros [Hs HO] Hi Hwf Hw. split; [apply struct_klog, struct_set_win; done|].
  apply own_unlock, own_set_win_same; [by apply own_lock|apply Hs|done|done].
Qed.

Lemma own_locked_nop st i : winv st -> winv (unlock i (lock i st)).
Proof. intros [Hs HO]. split; [done|]. by apply own_unlock, own_lock. Qed.

(** ** Each operation *)

Lemma win_owns_inactive i w : w_active w = false -> win_owns i w = ∅.
Proof. unfold win_owns. by intros ->. Qed.

Lemma inactive_owns_nothing st k i : w_active (get_win st i) = false -> ~ table_owns st (k, i).
Proof. intros Hw. rewrite table_owns_spec. intros (_ & Ha & _). congruence. Qed.

Lemma win_wf_set_rsrc r w : win_wf w -> win_wf (set_rsrc r w).
Proof. done. Qed.

Lemma free_rsrc_inv st L i :
  struct_ok st -> own_ok st L -> in_table i -> w_active (get_win st i) = false ->
  (rsrc_named (w_rsrc (get_win st i)) = true -> (KName, i) ∈ L) ->
  struct_ok (free_rsrc i st) /\
  own_ok (free_rsrc i st) (if rsrc_named (w_rsrc (get_win st i)) then L ∖ {[(KName, i)]} else L).
Proof.
  intros Hs HO Hi Hw Hn. unfold free_rsrc. destruct (rsrc_named _) eqn:E; rewrite ?get_win_klog.
  - split; [apply struct_set_win; [done..|]; apply (proj2 Hs i Hi)|].
    apply own_set_win_same; [|apply Hs|done|by rewrite !win_owns_inactive].
    apply own_rel; [done|by apply Hn|by apply inactive_owns_nothing].
  - split; [apply struct_set_win; [done..|]; apply (proj2 Hs i Hi)|].
    apply own_set_win_same; [done|apply Hs|done|by rewrite !win_owns_inactive].
Qed.

Lemma vme_get_window_attr_inv k d st : winv st -> winv (vme_get_window_attr k d st).2.
Proof.
  intros Hi. unfold vme_get_window_attr. repeat case_goal; simpl; try done. by apply own_locked_nop.
Qed.

(** The state of [vme_create_window()] once the PCI resource is attached: the
    window is still inactive, and the call holds its mutex, its name if it got
    one, and the objects [L]. *)
Definition creating st (n : Z) (named : bool) (L : gset (Z * Z)) : Prop :=
  struct_ok st /\ in_table n /\ w_active (get_win st n) = false /\
  rsrc_named (w_rsrc (get_win st n)) = named /\
  own_ok st ({[(KLock, n)]} ∪ (if named then {[(KName, n)]} else ∅) ∪ L).

Lemma creating_set_rsrc st n b L s e f :
  creating st n b L -> creating (set_win n (set_rsrc (Resource b s e f) (get_win st n)) st) n b L.
Proof.
  intros (Hs & Hi & Hw & Hn & HO). split_and!.
  - apply struct_set_win; [done..|]. apply (proj2 Hs n Hi).
  - done.
  - rewrite get_set_win_eq by (done || apply Hs). done.
  - rewrite get_set_win_eq by (done || apply Hs). done.
  - apply own_set_win_same; [done|apply Hs|done|by rewrite !win_owns_inactive].
Qed.

Lemma creating_acq st n b L k :
  creating st n b L -> k <> KLock -> k <> KName -> (k, n) ∉ L ->
  creating (klog [Acq k n] st) n b ({[(k, n)]} ∪ L).
Proof.
  intros (Hs & Hi & Hw & Hn & HO) ? ? HL. split_and!; try done.
  eapply own_ok_ext; [apply own_acq; [exact HO| |by apply inactive_owns_nothing]|].
  - destruct b; set_solver.
  - destruct b; set_solver.
Qed.

Lemma creating_rel st n b L k :
  creating st n b L -> k <> KLock -> k <> KName -> (k, n) ∈ L ->
  creating (klog [Rel k n] st) n b (L ∖ {[(k, n)]}).
Proof.
  intros (Hs & Hi & Hw & Hn & HO) ? ? HL. split_and!; try done.
  eapply own_ok_ext; [apply own_rel; [exact HO| |by apply inactive_owns_nothing]|].
  - destruct b; set_solver.
  - destruct b; set_solver.
Qed.

Lemma creating_abort st n b : creating st n b ∅ -> winv (unlock n (free_rsrc n st)).
Proof.
  intros (Hs & Hi & Hw & Hn & HO).
  destruct (free_rsrc_inv st _ n Hs HO Hi Hw) as [Hs' HO'].
  { rewrite Hn. intros ->. set_solver. }
  split; [done|]. apply own_unlock. eapply own_ok_ext; [exact HO'|]. rewrite Hn.
  intros x. destruct b; [|set_solver].
  assert ((KName, n) <> (KLock, n)) by (unfold KName, KLock; congruence). set_solver.
Qed.

Lemma creating_start st n (k : kenv) e :
  winv st -> in_table n -> w_active (get_win st n) = false ->
  let st1 := lock n st in
  let st2 := if k_name k then klog [Acq KName n] st1 else st1 in
  creating (set_win n (set_rsrc (Resource (k_name k) 0 e IORESOURCE_MEM) (get_win st1 n)) st2)
    n (k_name k) ∅.
Proof.
  intros [Hs HO] Hi Hw st1 st2.
  assert (own_ok st2 ({[(KLock, n)]} ∪ (if k_name k then {[(KName, n)]} else ∅) ∪ ∅)) as HO2.
  { subst st2. destruct (k_name k).
    - eapply own_ok_ext; [apply own_acq; [apply own_lock, HO| |by apply inactive_owns_nothing]|].
      + unfold KName, KLock. set_solver.
      + set_solver.
    - eapply own_ok_ext; [apply own_lock, HO|set_solver]. }
  assert (get_win st1 n = get_win st2 n) as E by (subst st2; destruct (k_name k); done).
  assert (struct_ok st2) as Hs2 by (subst st2; destruct (k_name k); done).
  assert (w_active (get_win st2 n) = false) as Hw2 by (rewrite <- E; done).
  split_and!.
  - apply struct_set_win; [done..|]. rewrite E. apply (proj2 Hs2 n Hi).
  - done.
  - rewrite get_set_win_eq by (done || apply Hs2). rewrite E. done.
  - rewrite get_set_win_eq by (done || apply Hs2). done.
  - apply own_set_win_same; [done|apply Hs2|done|]. rewrite E. by rewrite !win_owns_inactive.
Qed.

Lemma creating_commit st n b d :
  creating st n b {[(KIomap, n); (KPci, n)]} ->
  let w := get_win st n in
  winv (unlock n (set_win n (Window true (w_rsrc w) d (w_mappings w) (w_users w)) st)).
Proof.
  intros (Hs & Hi & Hw & Hn & HO) w. split.
  - apply struct_klog, struct_set_win; [done..|]. split; [apply (proj2 Hs n Hi)|done].
  - apply own_unlock. eapply own_set_win; [exact HO|apply Hs|done|]. intros [k j].
    rewrite table_owns_set_win by (done || apply Hs). rewrite elem_of_win_owns. simpl. subst w. rewrite Hn.
    pose proof (inactive_owns_nothing st k n Hw).
    destruct b; destruct (decide (j = n)) as [->|]; set_solver.
Qed.

Lemma vme_create_window_inv k d st : winv st -> winv (vme_create_window k d st).2.
Proof.
  intros Hi. unfold vme_create_window.
  destruct (bad_window _) eqn:Eb; [done|]. apply bad_window_false in Eb.
  destruct (sizel d =? 0); [done|]. destruct (k_intr _ _); [done|]. rewrite get_win_klog.
  destruct (w_active _) eqn:Ea; [by apply own_locked_nop|].
  pose proof (creating_start st _ k (sizel (create_align d)) Hi Eb Ea) as HC. cbv zeta in HC |- *.
  set (st2 := set_win _ _ _) in *. clearbody st2.
  destruct (k_pci k _) as [rc start]. destruct (truthy rc); [by apply (creating_abort _ _ _ HC)|].
  clear rc.
  apply (creating_acq _ _ _ _ KPci) in HC; [|done|done|set_solver].
  apply (creating_set_rsrc _ _ _ _ start (start + sizel (create_align d) - 1) IORESOURCE_MEM) in HC.
  set (st3 := set_win _ _ (klog [Acq KPci _] _)) in *. clearbody st3.
  destruct (kernel_va _ =? 0).
  { apply (creating_abort _ _ (k_name k)).
    apply (creating_rel _ _ _ _ KPci) in HC; [|done|done|set_solver].
    destruct HC as (? & ? & ? & ? & ?); split_and!; try done; eapply own_ok_ext; [done|]; set_solver. }
  apply (creating_acq _ _ _ _ KIomap) in HC; [|done|done|set_solver].
  destruct (hw_create_window _ _) as [[rc d'] h].
  assert (creating (set_hw h (klog [Acq KIomap (window_num d)] st3)) (window_num d) (k_name k)
            {[(KIomap, window_num d); (KPci, window_num d)]}) as HC'.
  { destruct HC as (? & ? & ? & ? & ?). split_and!; try done.
    eapply own_ok_ext; [done|]. set_solver. }
  set (st4 := set_hw _ _) in *. clearbody st4. clear HC.
  destruct (truthy rc); [|by apply (creating_commit _ _ _ _ HC')].
  apply (creating_abort _ _ (k_name k)).
  apply (creating_rel _ _ _ _ KIomap) in HC'; [|done|done|set_solver].
  apply (creating_rel _ _ _ _ KPci) in HC'; [|done|done|set_solver].
  destruct HC' as (? & ? & ? & ? & ?). split_and!; try done. eapply own_ok_ext; [done|]. set_solver.
Qed.

Lemma drop_mappings_wf w : win_wf w -> win_wf (drop_mappings w) /\ w_mappings (drop_mappings w) = [].
Proof.
  intros [Hu Ha]. unfold drop_mappings. destruct (0 <? w_users w) eqn:E; boolp; simpl.
  - split; [|done]. split; simpl; [lia|done].
  - assert (w_mappings w = []) as Hm by (destruct (w_mappings w); [done|simpl in Hu; lia]).
    split; [by split|done].
Qed.

Lemma drop_mappings_rsrc w : w_rsrc (drop_mappings w) = w_rsrc w.
Proof. unfold drop_mappings. by case_goal. Qed.

(** Deactivating a window hands its objects over to the call. *)
Lemma destroying_start st n d :
  winv st -> in_table n -> w_active (get_win st n) = true ->
  let w := drop_mappings (get_win st n) in
  creating (set_win n (Window false (w_rsrc w) d (w_mappings w) (w_users w)) (lock n st)) n
    (rsrc_named (w_rsrc (get_win st n))) {[(KIomap, n); (KPci, n)]}.
Proof.
  intros [Hs HO] Hi Hw w. destruct (drop_mappings_wf (get_win st n)) as [Hwf Hm]; [apply (proj2 Hs n Hi)|].
  assert (win_wf (Window false (w_rsrc w) d (w_mappings w) (w_users w))) as Hwf' by (split; [apply Hwf|done]).
  split_and!.
  - by apply struct_set_win.
  - done.
  - by rewrite get_set_win_eq by (done || apply Hs).
  - rewrite get_set_win_eq by (done || apply Hs). simpl. subst w. by rewrite drop_mappings_rsrc.
  - eapply own_set_win; [apply own_lock, HO|apply Hs|done|]. intros [k j].
    rewrite table_owns_set_win by (done || apply Hs). rewrite elem_of_win_owns, table_owns_spec.
    change (get_win (lock n st) j) with (get_win st j).
    simpl. destruct (decide (j = n)) as [->|].
    + rewrite Hw. destruct (rsrc_named _); set_unfold; intuition congruence.
    + destruct (rsrc_named (w_rsrc (get_win st n))); set_unfold; intuition congruence.
Qed.

Lemma vme_destroy_window_inv k n st : winv st -> winv (vme_destroy_window k n st).2.
Proof.
  intros Hi. unfold vme_destroy_window.
  destruct (bad_window n) eqn:Eb; [done|]. apply bad_window_false in Eb.
  destruct (k_intr k n); [done|]. cbv zeta. rewrite get_win_lock.
  destruct (w_active _) eqn:Ea; simpl; [|by apply own_locked_nop].
  destruct (hw_remove_window _ _) as [d h]. simpl.
  pose proof (destroying_start st n d Hi Eb Ea) as HC. cbv zeta in HC.
  apply (creating_rel _ _ _ _ KIomap) in HC; [|done|done|set_solver].
  apply (creating_rel _ _ _ _ KPci) in HC; [|done|done|set_solver].
  apply (creating_abort _ n (rsrc_named (w_rsrc (get_win st n)))).
  destruct HC as (? & ? & ? & ? & ?). split_and!; try done. eapply own_ok_ext; [done|]. set_solver.
Qed.

(** *** Mappings *)

Lemma add_mapping_wf k w d file rc w' :
  add_mapping k w d file = (rc, w') -> win_wf w -> w_active w = true ->
  win_wf w' /\ w_active w' = true /\ w_rsrc w' = w_rsrc w /\ w_desc w' = w_desc w.
Proof.
  unfold add_mapping. intros E Hwf Ha. destruct (k_kzalloc k); simplify_eq; simpl; [|by split_and!].
  split_and!; try done. split; simpl; [|by rewrite Ha]. rewrite length_app, (proj1 Hwf). simpl. lia.
Qed.

Lemma remove_first_length p l l' : remove_first p l = Some l' -> length l = S (length l').
Proof.
  revert l'. induction l as [|m l IH]; intros l' E; [done|]. simpl in E.
  destruct (p m); simplify_eq; [done|]. destruct (remove_first p l) as [l''|]; simplify_eq.
  simpl. by rewrite (IH l'').
Qed.

Lemma remove_mapping_wf w d file rc w' :
  remove_mapping w d file = (rc, w') -> win_wf w ->
  win_wf w' /\ w_active w' = w_active w /\ w_rsrc w' = w_rsrc w /\ w_desc w' = w_desc w.
Proof.
  unfold remove_mapping. intros E Hwf.
  destruct (remove_first _ _) as [l|] eqn:R; simplify_eq; [|by split_and!]. simpl. split_and!; try done.
  pose proof (remove_first_length _ _ _ R) as Hl. destruct Hwf as [Hu Ha]. split; simpl; [lia|].
  intros Hw. rewrite Ha in Hl by done. done.
Qed.

Lemma win_owns_ext i w w' :
  w_active w' = w_active w -> w_rsrc w' = w_rsrc w -> win_owns i w' = win_owns i w.
Proof. unfold win_owns. by intros -> ->. Qed.

Lemma release_window_wf file w :
  win_wf w -> win_wf (release_window file w) /\ win_owns 0 (release_window file w) = win_owns 0 w /\
  w_active (release_window file w) = w_active w /\ w_rsrc (release_window file w) = w_rsrc w.
Proof.
  intros Hwf. unfold release_window. destruct (negb (w_active w) || _) eqn:E; [by split_and!|]. boolp. split_and!; try done.
  destruct Hwf as [Hu Ha]. split; simpl; [lia|]. intros Hw. by rewrite Ha.
Qed.

Lemma release_loop_inv k file idx st :
  Forall in_table idx -> winv st -> winv (release_loop k file idx st).2.
Proof.
  revert st. induction idx as [|i idx IH]; intros st Hidx Hi; [done|].
  apply Forall_cons in Hidx as [Ht Hidx]. simpl. case_goal; [done|]. apply IH; [done|].
  rewrite get_win_lock. destruct (release_window_wf file (get_win st i)) as (Hwf & _ & Ha & Hr).
  { apply (proj2 (proj1 Hi) i Ht). }
  apply own_locked_update; [done..|]. by apply win_owns_ext.
Qed.

Lemma find_addr_loop_inv k a idx st : winv st -> winv (find_addr_loop k a idx st).2.
Proof.
  revert st. induction idx as [|i idx IH]; intros st Hi; [done|]. simpl. case_goal; [done|].
  destruct (list_find _ _) as [[? ?]|]; [|apply IH]; by apply own_locked_nop.
Qed.

Lemma mmap_loop_inv k file a sz r idx st : winv st -> winv (mmap_loop k file a sz r idx st).2.
Proof.
  revert st. induction idx as [|i idx IH]; intros st Hi; [done|]. simpl. case_goal; [done|].
  case_goal; [|apply IH]; by apply own_locked_nop.
Qed.

(** The search of [__vme_find_mapping()] only takes and drops mutexes; the
    window it finds is the first of the list that matches. *)
Definition same_table st st' : Prop :=
  wins st' = wins st /\ whw st' = whw st /\
  vme_create_on_find_fail st' = vme_create_on_find_fail st /\
  vme_destroy_on_remove st' = vme_destroy_on_remove st.

Lemma same_table_get st st' i : same_table st st' -> get_win st' i = get_win st i.
Proof. intros (E & _). unfold get_win. by rewrite E. Qed.

Lemma find_loop_spec k d idx st r st' :
  find_loop k d idx st = (r, st') -> winv st ->
  same_table st st' /\
  match r with
  | inr (Some i) => i ∈ idx /\ window_matches (get_win st i) d = true /\
                    struct_ok st' /\ own_ok st' {[(KLock, i)]}
  | inr None => winv st' /\ Forall (fun i => window_matches (get_win st i) d = false) idx
  | inl rc => winv st' /\ rc = - ERESTARTSYS
  end.
Proof.
  revert st. induction idx as [|i idx IH]; intros st E Hi; simpl in E; [simplify_eq; done|].
  destruct (k_intr k i); simplify_eq; [done|]. rewrite get_win_lock in E.
  destruct (window_matches (get_win st i) d) eqn:M.
  - simplify_eq. split_and!; try done; [by left|apply Hi|by apply own_lock, Hi].
  - apply IH in E; [|by apply own_locked_nop]. destruct E as [Hst Hr].
    split; [destruct Hst as (? & ? & ? & ?); by split_and!|].
    destruct r as [rc|[j|]]; [done| |].
    + destruct Hr as (? & ? & ? & ?). split_and!; try done. by right.
    + destruct Hr. split; [done|]. by constructor.
Qed.

Lemma first_unused_spec st i :
  first_unused st = Some i -> in_table i /\ w_active (get_win st i) = false.
Proof.
  unfold first_unused. intros E. apply fmap_Some in E as ([n j] & E & ->).
  apply list_find_Some in E as (Hl & Ha & _). split; [|done].
  apply window_indices_in. by apply list_elem_of_lookup_2 in Hl.
Qed.

Lemma window_matches_active w d : window_matches w d = true -> w_active w = true.
Proof. unfold window_matches. intros. by boolp. Qed.

(** *** Successful creation *)

(** Everything a call changes is in window [n]. *)
Definition only_window (n : Z) st st' : Prop :=
  forall j, in_table j -> j <> n -> get_win st' j = get_win st j.

Lemma only_window_set n w st st' :
  in_table n -> only_window n st st' -> only_window n st (set_win n w st').
Proof. intros Hn Ho j Hj Hne. rewrite get_set_win_ne by done. by apply Ho. Qed.

Lemma only_window_free n st st' :
  in_table n -> only_window n st st' -> only_window n st (free_rsrc n st').
Proof.
  intros Hn Ho. unfold free_rsrc. case_goal; apply only_window_set; done.
Qed.

Lemma free_rsrc_active n st :
  length (wins st) = 8%nat -> in_table n -> w_active (get_win (free_rsrc n st) n) = w_active (get_win st n).
Proof. intros Hl Hn. unfold free_rsrc. by case_goal; rewrite get_set_win_eq. Qed.

Lemma free_rsrc_struct n st : struct_ok st -> in_table n -> struct_ok (free_rsrc n st).
Proof.
  intros Hs Hn. unfold free_rsrc.
  case_goal; apply struct_set_win; try done; apply (proj2 Hs n Hn).
Qed.

Context `{!WindowHwOk H}.

Lemma vme_create_window_ok k d st d' st' :
  vme_create_window k d st = (0, d', st') -> struct_ok st ->
  let n := window_num d in
  in_table n /\ sizel d <> 0 /\ w_active (get_win st n) = false /\
  window_num d' = n /\ only_window n st st' /\
  w_active (get_win st' n) = true /\ w_desc (get_win st' n) = d' /\
  w_mappings (get_win st' n) = w_mappings (get_win st n) /\
  w_users (get_win st' n) = w_users (get_win st n) /\
  exists start, k_pci k (sizel (create_align d)) = (0, start) /\
    let d1 := set_pci_addrl (u32 start)
                (set_kernel_va (k_ioremap k start (sizel (create_align d))) (create_align d)) in
    kernel_va d1 <> 0 /\ hw_create_window d1 (whw st) = (0, d', whw st').
Proof.
  unfold vme_create_window. intros E Hs.
  destruct (bad_window _) eqn:Eb; [done|]. apply bad_window_false in Eb.
  destruct (sizel d =? 0) eqn:Ez; [done|]. destruct (k_intr _ _); [done|].
  cbv zeta in E. rewrite get_win_lock in E. destruct (w_active _) eqn:Ea; [done|].
  set (st2 := if k_name k then _ else _) in E.
  assert (struct_ok st2 /\ whw st2 = whw st /\ get_win st2 = get_win st) as (Hs2 & Hh2 & Hg2)
    by (subst st2; destruct (k_name k); done).
  clearbody st2. destruct (k_pci k _) as [rc start].
  destruct (truthy rc) eqn:Er; [by simplify_eq|].
  assert (rc = 0) as -> by (unfold truthy in Er; boolp; done).
  destruct (kernel_va _ =? 0) eqn:Ev; [by simplify_eq|].
  destruct (hw_create_window _ _) as [[rc d1] h] eqn:Eh.
  destruct (truthy rc) eqn:Er2; [by simplify_eq|].
  assert (rc = 0) as -> by (unfold truthy in Er2; boolp; done).
  injection E as <- <-. boolp.
  pose proof (hw_create_num _ _ _ _ _ Eh) as Hnum. simpl in Hnum.
  assert (window_num (create_align d) = window_num d) as Hca.
  { unfold create_align. by repeat case_goal. }
  assert (length (wins st2) = 8%nat) as Hl by apply Hs2.
  cbv zeta. unfold unlock.
  repeat first [rewrite get_win_klog | rewrite get_win_set_hw
               | rewrite get_set_win_eq by (done || (simpl; rewrite ?length_insert; done))].
  simpl. split_and!; try done.
  - by rewrite Hnum.
  - intros j Hj Hne. rewrite get_win_klog, get_set_win_ne by done. rewrite get_win_set_hw, get_win_klog.
    rewrite get_set_win_ne by done. rewrite get_win_klog, get_set_win_ne by done. by rewrite Hg2.
  - exists start. split_and!; try done. by rewrite <- Hh2.
Qed.

Lemma find_mapping_inv k kc d force file st : winv st -> winv (__vme_find_mapping k kc d force file st).2.
Proof.
  intros Hi. unfold __vme_find_mapping. case_goal; [done|].
  destruct (find_loop _ _ _ _) as [r st1] eqn:El.
  destruct (find_loop_spec _ _ _ _ _ _ El Hi) as [Hst Hr]. destruct r as [rc|[i|]]; [apply Hr| |].
  - destruct Hr as (Hin & Hm & Hs & HO). apply window_indices_in in Hin.
    rewrite <- (same_table_get _ st1) in Hm by done. apply window_matches_active in Hm.
    destruct (add_mapping _ _ _ _) as [rc w] eqn:Ea. simpl.
    apply add_mapping_wf in Ea as (Hwf & Ha & Hrs & _); [|apply (proj2 Hs i Hin)|done].
    split; [by apply struct_klog, struct_set_win|]. apply own_unlock, own_set_win_same; try done; [apply Hs|].
    apply win_owns_ext; congruence.
  - destruct Hr as [Hi1 _]. case_goal; [done|].
    destruct (first_unused st1) as [i|] eqn:Ef; [|done].
    destruct (vme_create_window _ _ _) as [[rc wnd] st2] eqn:Ec.
    pose proof (vme_create_window_inv kc (vme_optimize_window_size (set_window_num i d)) st1 Hi1) as Hi2.
    rewrite Ec in Hi2. simpl in Hi2. destruct (truthy rc) eqn:Er; [done|].
    assert (rc = 0) as -> by (unfold truthy in Er; boolp; done).
    apply vme_create_window_ok in Ec as (Hn & _ & _ & Hnum & _ & Hact & _); [|apply Hi1].
    rewrite Hnum. destruct (add_mapping _ _ _ _) as [rc w] eqn:Ea. simpl.
    apply add_mapping_wf in Ea as (Hwf & Ha & Hrs & _); [|apply (proj2 (proj1 Hi2) _ Hn)|done].
    split; [apply struct_set_win; [apply Hi2|done..]|].
    apply own_set_win_same; [apply Hi2|apply Hi2|done|]. apply win_owns_ext; congruence.
Qed.

Lemma release_mapping_inv k kd d force file st :
  winv st -> winv (__vme_release_mapping k kd d force file st).2.
Proof.
  intros Hi. unfold __vme_release_mapping.
  destruct (bad_window _) eqn:Eb; [done|]. apply bad_window_false in Eb.
  destruct (k_intr k _); [done|]. cbv zeta. rewrite get_win_lock.
  destruct (w_active _) eqn:Ea; simpl; [|by apply own_locked_nop].
  destruct (remove_mapping _ _ _) as [rc w] eqn:Er.
  apply remove_mapping_wf in Er as (Hwf & Ha & Hrs & _); [|apply (proj2 (proj1 Hi) _ Eb)].
  assert (winv (unlock (window_num d) (set_win (window_num d) w (lock (window_num d) st)))) as Hi'.
  { apply own_locked_update; try done. apply win_owns_ext; congruence. }
  repeat case_goal; try done. by apply vme_destroy_window_inv.
Qed.

Lemma foldl_inv {A} (P : wstate H -> Prop) (f : wstate H -> A -> wstate H) l st :
  (forall st x, x ∈ l -> P st -> P (f st x)) -> P st -> P (foldl f st l).
Proof.
  revert st. induction l as [|x l IH]; intros st Hf Hp; [done|]. simpl.
  apply IH; [|apply Hf; [by left|done]]. intros st' y Hy. apply Hf. by right.
Qed.

Lemma window_exit_inv k st : winv st -> winv (vme_window_exit k st).
Proof.
  unfold vme_window_exit. apply foldl_inv. intros st' i _ Hi. case_goal; [|done].
  by apply vme_destroy_window_inv.
Qed.

Lemma wstate_boot_inv (h : H) : winv (wstate_boot h).
Proof.
  split.
  - split; [done|]. unfold in_table. intros i Hi.
    assert (i = 0 \/ i = 1 \/ i = 2 \/ i = 3 \/ i = 4 \/ i = 5 \/ i = 6 \/ i = 7) as Hc by lia.
    repeat destruct Hc as [-> | Hc]; subst; done.
  - exists ∅. split; [done|]. intros [k i]. rewrite table_owns_spec. unfold in_table.
    split; [set_solver|]. intros [?|(Hi & Ha & _)]; [set_solver|].
    assert (i = 0 \/ i = 1 \/ i = 2 \/ i = 3 \/ i = 4 \/ i = 5 \/ i = 6 \/ i = 7) as Hc by lia.
    repeat destruct Hc as [-> | Hc]; subst; done.
Qed.

Lemma run_op_inv op st : winv st -> winv (run_op op st).
Proof.
  destruct op; simpl; intros Hi.
  - by apply vme_get_window_attr_inv.
  - by apply vme_create_window_inv.
  - by apply vme_destroy_window_inv.
  - by apply find_mapping_inv.
  - by apply release_mapping_inv.
  - apply release_loop_inv; [apply window_indices_all|done].
  - by apply find_addr_loop_inv.
  - by apply mmap_loop_inv.
  - done.
  - done.
  - by apply window_exit_inv.
Qed.

Lemma reachable_inv st : reachable st -> winv st.
Proof. induction 1; [apply wstate_boot_inv|by apply run_op_inv]. Qed.

(** ** Properties *)

(** in every reachable state, for any requests and any kernel behaviour,
    the user count of a window is the number of its mappings, and an inactive
    window has no mapping. *)
Lemma window_users_count st i :
  reachable st -> in_table i ->
  w_users (get_win st i) = Z.of_nat (length (w_mappings (get_win st i))) /\
  (w_active (get_win st i) = false -> w_mappings (get_win st i) = []).
Proof. intros Hr Hi. apply reachable_inv in Hr as [[_ Hw] _]. by apply Hw. Qed.

(** C14: the driver never locks a mutex it holds, never releases what it does
    not own and never leaks: the whole log of kernel calls of a reachable
    state runs, and what is left acquired is exactly the I/O mapping, the PCI
    resource and the name of each active window (so no mutex). *)
Theorem window_ownership st :
  reachable st ->
  exists S, own_run (wlog st) ∅ = Some S /\
  forall k i, (k, i) ∈ S <->
    in_table i /\ w_active (get_win st i) = true /\
    (k = KIomap \/ k = KPci \/ (k = KName /\ rsrc_named (w_rsrc (get_win st i)) = true)).
Proof.
  intros Hr. apply reachable_inv in Hr as [_ (S & HS & Hx)]. exists S. split; [done|].
  intros k i. rewrite Hx, table_owns_spec. set_solver.
Qed.

(** *** Module unload *)

Lemma destroy_window_inactive k n st :
  struct_ok st -> in_table n -> k_intr k n = false ->
  w_active (get_win (vme_destroy_window k n st).2 n) = false /\
  only_window n st (vme_destroy_window k n st).2 /\ struct_ok (vme_destroy_window k n st).2.
Proof.
  intros Hs Hn Hk. unfold vme_destroy_window. rewrite bad_window_in, Hk by done. cbv zeta.
  rewrite get_win_lock. destruct (w_active (get_win st n)) eqn:Ea; simpl;
    [|split_and!; [exact Ea|intros ? ? ?; reflexivity|exact Hs]].
  destruct (hw_remove_window _ _) as [d h]. simpl.
  destruct (drop_mappings_wf (get_win st n)) as [Hwf Hm]; [apply (proj2 Hs n Hn)|].
  set (w' := Window false _ _ _ _).
  assert (win_wf w') as Hwf' by (split; [apply Hwf|done]).
  assert (length (wins st) = 8%nat) as Hl by apply Hs.
  assert (struct_ok (set_win n w' st)) as Hs' by (by apply struct_set_win).
  split_and!.
  - unfold unlock. rewrite get_win_klog, free_rsrc_active; [|apply Hs'|done].
    rewrite get_set_win_eq; done.
  - apply (only_window_free n st); [done|]. by apply (only_window_set n w' st st).
  - apply struct_klog, free_rsrc_struct; done.
Qed.

Lemma exit_loop_inactive k idx st :
  (forall i, k_intr k i = false) -> struct_ok st -> Forall in_table idx ->
  let st' := foldl (fun st i => if w_active (get_win st i)
                      then (vme_destroy_window k i st).2 else st) st idx in
  forall j, in_table j -> (j ∈ idx \/ w_active (get_win st j) = false) ->
    w_active (get_win st' j) = false.
Proof.
  intros Hk. revert st. induction idx as [|i idx IH]; intros st Hs Hidx st' j Hj Hin.
  - destruct Hin as [Hin|]; [by apply not_elem_of_nil in Hin|done].
  - apply Forall_cons in Hidx as [Hi Hidx]. subst st'. simpl.
    destruct (destroy_window_inactive k i st Hs Hi (Hk i)) as (Hd & Ho & Hs').
    destruct (w_active (get_win st i)) eqn:Ea; apply IH; try done; rewrite elem_of_cons in Hin.
    + destruct (decide (j = i)) as [->|]; [by right|]. rewrite Ho by done. tauto.
    + destruct (decide (j = i)) as [->|]; [by right|]. tauto.
Qed.

(** unloading the module (no pending signal) deactivates every window and
    gives everything back to the kernel: nothing stays acquired. *)
Lemma window_exit_releases_all st k :
  reachable st -> (forall i, k_intr k i = false) ->
  (forall i, in_table i -> w_active (get_win (vme_window_exit k st) i) = false) /\
  own_run (wlog (vme_window_exit k st)) ∅ = Some ∅.
Proof.
  intros Hr Hk. pose proof (reachable_inv st Hr) as Hi.
  assert (forall i, in_table i -> w_active (get_win (vme_window_exit k st) i) = false) as Hall.
  { intros i Hin. apply exit_loop_inactive; [done|apply Hi|apply window_indices_all|done|].
    left. apply elem_of_seqZ. unfold in_table, TSI148_NUM_OUT_WINDOWS in *. lia. }
  split; [exact Hall|]. destruct (window_exit_inv k st Hi) as [_ (S & HS & Hx)].
  rewrite HS. f_equal. apply set_eq. intros [k' i]. rewrite Hx, table_owns_spec.
  split; [|by intros ?%not_elem_of_empty].
  intros [?%not_elem_of_empty|(Hin & Ha & _)]; [done|].
  rewrite (Hall i Hin) in Ha. discriminate.
Qed.

End Inv.

(** ** Concrete instances *)

(** A kernel in which nothing fails: PCI memory at [0x80000000]. *)
Definition kenv_good : kenv :=
  Kenv (fun _ => false) true (fun _ => (0, 0x80000000)) (fun _ _ => 0xf0000000) true 42 "app".

(** A request for [sz] bytes at [addr], A32 single cycles, D32. *)
Definition a32_request (addr sz : Z) : vme_mapping :=
  {| window_num := 0; kernel_va := 0; user_va := 0; fd := 0; window_enabled := 0;
     data_width := VME_D32; am := VME_A32_USER_DATA_SCT; read_prefetch_enabled := 0;
     read_prefetch_size := VME_PREFETCH_2; v2esst_mode := VME_SST160; bcast_select := 0;
     pci_addru := 0; pci_addrl := 0; sizeu := 0; sizel := sz;
     vme_addru := 0; vme_addrl := addr |}.

(** A file mapped 4 KiB at [0x20000] through a window made on demand. *)
Definition one_mapping : wstate chip :=
  run_op (OpFind kenv_good kenv_good (a32_request 0x20000 0x1000) 1 0x55) (wstate_boot ∅).

Lemma one_mapping_reachable : reachable one_mapping.
Proof. apply reach_step, reach_boot. Qed.

Lemma window_users_count_witness : w_users (get_win one_mapping 0) = 1.
Proof.
  destruct (window_users_count one_mapping 0 one_mapping_reachable) as [E _].
  - unfold in_table; lia.
  - exact E.
Defined.

Lemma window_ownership_witness :
  exists S, own_run (wlog one_mapping) ∅ = Some S /\ (KIomap, 0) ∈ S /\ (KLock, 0) ∉ S.
Proof.
  destruct (window_ownership one_mapping one_mapping_reachable) as (S & HS & Hx).
  exists S. split; [exact HS|]. split.
  - apply Hx. split; [unfold in_table; lia|]. split; [reflexivity|left; reflexivity].
  - intros (_ & _ & [E|[E|[E _]]])%Hx; discriminate E.
Defined.

Lemma window_exit_releases_all_witness :
  wlog one_mapping <> [] /\
  own_run (wlog (vme_window_exit kenv_good one_mapping)) ∅ = Some ∅.
Proof.
  split; [discriminate|].
  apply (window_exit_releases_all one_mapping kenv_good one_mapping_reachable (fun _ => eq_refl)).
Defined.
