(* ===== verification/VmeWindowMap.v ===== *)
(** * Mappings reach the right VME addresses

    The window table and the chip agree in every state reached with
    well-formed requests, and a mapping returned by [__vme_find_mapping()]
    translates, through its window, to the VME addresses that were asked for.
    The conditions under which this fails in the source are the examples at
    the end. *)

From stdpp Require Import strings.
From S2P Require Import Prelude VmeBus Tsi148 Tsi148Window VmeWindow VmeWindowInv.

(** ** Well-formed requests and kernel answers *)

Definition req_ok (d : vme_mapping) : Prop :=
  is_u32 (vme_addrl d) /\ is_u32 (vme_addru d) /\ 0 <= sizel d <= 0xffff0000 /\
  sizeu d = 0 /\ pci_addru d = 0.

(** [pci_bus_alloc_resource()] is called with a 64 KiB alignment: a resource it
    grants starts on a 64 KiB boundary and lies below the end of the 32-bit
    PCI memory space. *)
Definition kenv_ok (k : kenv) : Prop :=
  forall size start, 0 < size -> k_pci k size = (0, start) ->
    start mod 2 ^ 16 = 0 /\ 0 <= start /\ start + size < 2 ^ 32.

Definition op_ok (op : wop) : Prop :=
  match op with
  | OpCreate k d => req_ok d /\ kenv_ok k
  | OpFind k kc d _ _ => req_ok d /\ kenv_ok kc
  | _ => True
  end.

Section Map.
Context {H : Type} `{!WindowHw H} `{!WindowHwOk H}.
Implicit Types (st : wstate H) (d : vme_mapping) (w : window).

(** States reached from a chip with no window enabled. *)
Inductive reachable_ok : wstate H -> Prop :=
  | reach_ok_boot h : (forall i a, hw_translate h i a = None) -> reachable_ok (wstate_boot h)
  | reach_ok_step op st : reachable_ok st -> op_ok op -> reachable_ok (run_op op st).

Lemma reachable_ok_reachable st : reachable_ok st -> reachable st.
Proof. induction 1; constructor; done. Qed.

(** ** Agreement of the table with the chip *)

Definition window_translation d (a : Z) : option Z :=
  if decide (pci_addrl d <= a < pci_addrl d + sizel d)
  then Some (u64 (pair64 (vme_addru d) (vme_addrl d) + (a - pci_addrl d))) else None.

Definition win_agree (h : H) (i : Z) w : Prop :=
  if w_active w
  then window_num (w_desc w) = i /\ window_ok (w_desc w) /\
       forall a, hw_translate h i a = window_translation (w_desc w) a
  else forall a, hw_translate h i a = None.

Definition hw_agree st : Prop := forall i, in_table i -> win_agree (whw st) i (get_win st i).

Lemma agree_ext st st' :
  hw_agree st -> whw st' = whw st ->
  (forall i, in_table i -> w_active (get_win st' i) = w_active (get_win st i) /\
                           w_desc (get_win st' i) = w_desc (get_win st i)) -> hw_agree st'.
Proof.
  intros Ha Hh Hg i Hi. destruct (Hg i Hi) as [E1 E2]. specialize (Ha i Hi).
  unfold win_agree in *. by rewrite Hh, E1, E2.
Qed.

Lemma agree_set_win st i w :
  hw_agree st -> struct_ok st -> in_table i ->
  w_active w = w_active (get_win st i) -> w_desc w = w_desc (get_win st i) ->
  hw_agree (set_win i w st).
Proof.
  intros Ha Hs Hi E1 E2. apply (agree_ext st); [done..|]. intros j Hj.
  destruct (decide (i = j)) as [<-|].
  - rewrite get_set_win_eq by (done || apply Hs). done.
  - rewrite get_set_win_ne by done. done.
Qed.

(** ** Rounding a request *)

Lemma create_align_ok d :
  req_ok d -> sizel d <> 0 ->
  let d' := create_align d in
  vme_addrl d' = vme_addrl d - vme_addrl d mod 2 ^ 16 /\
  sizel d' mod 2 ^ 16 = 0 /\ sizel d <= sizel d' <= 0xffff0000 /\
  sizel d' < sizel d + 2 ^ 16 /\
  vme_addru d' = vme_addru d /\ sizeu d' = 0 /\ pci_addru d' = 0 /\ window_num d' = window_num d /\
  am d' = am d.
Proof.
  intros (Hv & Hu & Hs & Hsu & Hpu) Hs0.
  assert (forall e, 0 < sizel e <= 0xffff0000 ->
    let s := if truthy (Z.land (sizel e) 0xffff)
             then Z.land (u32 (sizel e + 0x10000)) mask64k else sizel e in
    s mod 2 ^ 16 = 0 /\ sizel e <= s <= 0xffff0000 /\ s < sizel e + 2 ^ 16) as Hsz.
  { intros e He s. subst s. unfold truthy. rewrite land_lo16. case_goal; boolp.
    - rewrite u32_id by (unfold is_u32; Z.div_mod_to_equations; lia).
      rewrite mask64k_val, land_hi16 by (unfold is_u32; Z.div_mod_to_equations; lia).
      clear - He E. Z.div_mod_to_equations. lia.
    - clear - He E. lia. }
  unfold create_align. cbv zeta. destruct (truthy (Z.land (vme_addrl d) 0xffff)) eqn:E.
  - set (e := set_sizel _ _).
    assert (sizel e = sizel d) as Ee.
    { subst e. simpl. rewrite Z.sub_diag. change (u32 0) with 0. rewrite Z.add_0_r.
      apply u32_id. unfold is_u32. lia. }
    assert (vme_addrl e = vme_addrl d - vme_addrl d mod 2 ^ 16) as Ev.
    { subst e. simpl. rewrite mask64k_val. by apply land_hi16. }
    specialize (Hsz e ltac:(lia)). rewrite Ee in Hsz. cbv zeta in Hsz. rewrite Ee.
    destruct (truthy _); cbn [vme_addrl sizel vme_addru sizeu pci_addru window_num am set_sizel];
      rewrite ?Ee, Ev; destruct Hsz as (? & ? & ?); split_and!; try done; lia.
  - unfold truthy in E. boolp. rewrite land_lo16 in E. specialize (Hsz d ltac:(lia)). cbv zeta in Hsz.
    destruct (truthy _); cbn [vme_addrl sizel vme_addru sizeu pci_addru window_num am set_sizel];
      destruct Hsz as (? & ? & ?); split_and!; try done; lia.
Qed.

Lemma optimize_ok d i : req_ok d -> req_ok (vme_optimize_window_size (set_window_num i d)) /\
  window_num (vme_optimize_window_size (set_window_num i d)) = i.
Proof.
  intros (Hv & Hu & Hs & Hsu & Hpu). unfold vme_optimize_window_size.
  destruct (is_A24 _); [|destruct (is_A16 _)]; simpl; split; try done;
    unfold req_ok, is_u32; simpl; unfold is_u32 in *; split_and!; lia.
Qed.

(** ** Preservation *)

(** States with the same chip, activity and descriptors. *)
Definition keeps st st' : Prop :=
  whw st' = whw st /\ length (wins st') = length (wins st) /\
  forall i, in_table i -> w_active (get_win st' i) = w_active (get_win st i) /\
    w_desc (get_win st' i) = w_desc (get_win st i).

Lemma keeps_refl st : keeps st st.
Proof. done. Qed.

Lemma keeps_klog st st' e : keeps st st' -> keeps st (klog e st').
Proof. done. Qed.

Lemma keeps_set_win st st' i w :
  keeps st st' -> length (wins st) = 8%nat -> in_table i ->
  w_active w = w_active (get_win st' i) -> w_desc w = w_desc (get_win st' i) ->
  keeps st (set_win i w st').
Proof.
  intros (Hh & Hl & Hg) Hl8 Hi E1 E2. split_and!; [done|simpl; by rewrite length_insert|].
  intros j Hj. destruct (decide (i = j)) as [<-|].
  - rewrite get_set_win_eq by (done || lia). rewrite E1, E2. by apply Hg.
  - rewrite get_set_win_ne by done. by apply Hg.
Qed.

Lemma keeps_free_rsrc st st' i :
  keeps st st' -> length (wins st) = 8%nat -> in_table i -> keeps st (free_rsrc i st').
Proof. intros. unfold free_rsrc. case_goal; by apply keeps_set_win. Qed.

Lemma keeps_agree st st' : hw_agree st -> keeps st st' -> hw_agree st'.
Proof. intros Ha (Hh & _ & Hg). by apply (agree_ext st). Qed.

Lemma create_fail_keeps k d st rc d' st' :
  vme_create_window k d st = (rc, d', st') -> rc <> 0 -> struct_ok st -> keeps st st'.
Proof.
  unfold vme_create_window. intros E Hrc [Hl _].
  destruct (bad_window _) eqn:Eb; [by simplify_eq|]. apply bad_window_false in Eb.
  destruct (sizel d =? 0); [by simplify_eq|]. destruct (k_intr _ _); [by simplify_eq|].
  cbv zeta in E. rewrite get_win_lock in E. destruct (w_active _) eqn:Ea; [by simplify_eq|].
  set (st2 := if k_name k then _ else _) in E.
  assert (keeps st st2 /\ get_win st2 = get_win st) as [Hk2 Hg2] by (subst st2; destruct (k_name k); done).
  clearbody st2. set (n := window_num d) in *.
  assert (keeps st (set_win n (set_rsrc (Resource (k_name k) 0 (sizel (create_align d)) IORESOURCE_MEM)
                                 (get_win st n)) st2)) as Hk3.
  { apply keeps_set_win; try done; by rewrite Hg2. }
  set (st3 := set_win _ _ st2) in *. clearbody st3.
  destruct (k_pci k _) as [rc0 start].
  destruct (truthy rc0). { injection E as _ _ <-. by apply keeps_klog, keeps_free_rsrc. }
  set (st4 := set_win _ _ (klog _ st3)) in E.
  assert (keeps st st4) as Hk4 by (subst st4; apply keeps_set_win; done). clearbody st4.
  destruct (kernel_va _ =? 0). { injection E as _ _ <-. by apply keeps_klog, keeps_free_rsrc. }
  destruct (hw_create_window _ _) as [[rc1 d1] h] eqn:Eh.
  destruct (truthy rc1) eqn:Er; [|by simplify_eq].
  injection E as <- _ <-. apply hw_create_fail in Eh; [|done].
  apply keeps_klog, keeps_free_rsrc; [|done..]. destruct Hk4 as (? & ? & ?).
  split_and!; [|done..]. simpl. by rewrite Eh.
Qed.

Lemma create_agree k d st rc d' st' :
  vme_create_window k d st = (rc, d', st') -> winv st -> hw_agree st -> req_ok d -> kenv_ok k ->
  hw_agree st'.
Proof.
  intros E Hi Ha Hd Hk. destruct (decide (rc = 0)) as [->|Hrc].
  2:{ eapply keeps_agree; [done|]. eapply create_fail_keeps; [done..|apply Hi]. }
  apply vme_create_window_ok in E; [|apply Hi].
  destruct E as (Hn & Hs0 & _ & Hnum & Honly & Hact & Hdesc & _ & _ & start & Hp & Hva & Hc).
  destruct (create_align_ok d Hd Hs0) as (Ev & Es & Eb & _ & Eu & Esu & Epu & En & _).
  destruct Hd as (Hv32 & Hu32 & Hs32 & _). unfold is_u32 in *.
  destruct (Hk (sizel (create_align d)) start) as (Hst & Hst0 & Hstlt); [lia|done|].
  set (d1 := set_pci_addrl _ _) in *.
  assert (pci_addrl d1 = start) as Ep by (subst d1; simpl; apply u32_id; unfold is_u32; lia).
  assert (window_ok d1) as Hok.
  { unfold window_ok. rewrite Ep. subst d1. simpl. rewrite Ev, Esu, Epu, Eu. unfold is_u32.
    assert (vme_addrl d mod 2 ^ 16 <= vme_addrl d) by (apply Z.mod_le; lia).
    pose proof (Z.mod_pos_bound (vme_addrl d) (2 ^ 16)).
    split_and!; try done; try lia. rewrite Zminus_mod_idemp_r, Z.sub_diag. done. }
  intros i Hin. destruct (decide (i = window_num d)) as [->|Hne].
  - unfold win_agree. rewrite Hact, Hdesc. split_and!; [done| |].
    + rewrite (hw_create_desc _ _ _ _ Hc Hok). exact Hok.
    + intros a. pose proof (hw_create_translate _ _ _ _ a Hc Hok) as Ht.
      assert (window_num d1 = window_num d) as E1 by (subst d1; simpl; done).
      rewrite E1 in Ht. rewrite Ht.
      unfold window_translation. by rewrite (hw_create_desc _ _ _ _ Hc Hok).
  - specialize (Ha i Hin). unfold win_agree in *. rewrite Honly by done.
    assert (forall a, hw_translate (whw st') i a = hw_translate (whw st) i a) as Ht.
    { intros a. apply (hw_create_frame _ _ _ _ _ i a Hc). subst d1; simpl. by rewrite En. }
    destruct (w_active (get_win st i)); [|intros a; by rewrite Ht].
    destruct Ha as (? & ? & ?). split_and!; try done. intros a. by rewrite Ht.
Qed.

Lemma destroy_agree k n st : winv st -> hw_agree st -> hw_agree (vme_destroy_window k n st).2.
Proof.
  intros Hi Ha. unfold vme_destroy_window.
  destruct (bad_window n) eqn:Eb; [done|]. apply bad_window_false in Eb.
  destruct (k_intr k n); [done|]. cbv zeta. rewrite get_win_lock.
  destruct (w_active (get_win st n)) eqn:Ea; simpl; [|done].
  set (w := drop_mappings _). set (d := set_kernel_va 0 _).
  assert (w_desc w = w_desc (get_win st n)) as Ew by (subst w; unfold drop_mappings; by case_goal).
  pose proof (Ha n Eb) as Hwn. unfold win_agree in Hwn. rewrite Ea in Hwn. destruct Hwn as (Hnum & _).
  assert (window_num d = n) as Ed by (subst d; simpl; by rewrite Ew).
  pose proof (fun a => hw_remove_translate d (whw st) a) as Hr.
  pose proof (fun i a => hw_remove_frame d (whw st) i a) as Hf. rewrite Ed in Hr, Hf.
  destruct (hw_remove_window d (whw st)) as [d' h]. simpl in *.
  assert (length (wins st) = 8%nat) as Hl by apply (proj1 Hi).
  set (st1 := set_win n _ _).
  assert (length (wins st1) = 8%nat) as Hl1 by (subst st1; simpl; by rewrite length_insert).
  apply (keeps_agree st1); [|apply keeps_klog, keeps_free_rsrc; done].
  intros i Hin. subst st1. destruct (decide (i = n)) as [->|].
  - unfold win_agree. rewrite get_set_win_eq by done. exact Hr.
  - unfold win_agree. rewrite get_set_win_ne by done. simpl. specialize (Ha i Hin). unfold win_agree in Ha.
    change (get_win (klog _ _) i) with (get_win st i).
    destruct (w_active (get_win st i)); [|intros a; by rewrite Hf].
    destruct Ha as (? & ? & ?). split_and!; try done. intros a. by rewrite Hf.
Qed.

Lemma same_table_keeps st st' : same_table st st' -> keeps st st'.
Proof.
  intros Hs. destruct (Hs) as (E & Eh & _). split_and!; [done|by rewrite E|].
  intros i _. by rewrite (same_table_get _ st' i Hs).
Qed.

Lemma add_mapping_inv k w d file rc w' :
  add_mapping k w d file = (rc, w') ->
  w_active w' = w_active w /\ w_desc w' = w_desc w /\
  (rc = 0 -> exists m, w_mappings w' = w_mappings w ++ [m] /\ m_desc m = d /\ m_file m = file).
Proof.
  unfold add_mapping. intros E. destruct (k_kzalloc k); [|simplify_eq; done]. simplify_eq.
  split_and!; try done. intros _. eexists. split; [done|]. unfold truthy. case_goal; [done|].
  boolp. subst. done.
Qed.

Lemma remove_mapping_desc w d file rc w' :
  remove_mapping w d file = (rc, w') -> w_active w' = w_active w /\ w_desc w' = w_desc w.
Proof. unfold remove_mapping. intros E. destruct (remove_first _ _); by simplify_eq. Qed.

Lemma find_agree k kc d force file st :
  winv st -> hw_agree st -> req_ok d -> kenv_ok kc ->
  hw_agree (__vme_find_mapping k kc d force file st).2.
Proof.
  intros Hi Ha Hd Hk. unfold __vme_find_mapping. case_goal; [done|].
  destruct (find_loop _ _ _ _) as [r st1] eqn:El.
  destruct (find_loop_spec _ _ _ _ _ _ El Hi) as [Hst Hr]. apply same_table_keeps in Hst.
  pose proof (keeps_agree _ _ Ha Hst) as Ha1. destruct r as [rc|[i|]]; [done| |].
  - destruct Hr as (Hin & _ & Hs & _). apply window_indices_in in Hin.
    destruct (add_mapping _ _ _ _) as [rc w] eqn:Ea. simpl.
    apply add_mapping_inv in Ea as (E1 & E2 & _).
    apply (agree_set_win st1 i w); done.
  - destruct Hr as [Hi1 _]. case_goal; [done|].
    destruct (first_unused st1) as [i|]; [|done].
    destruct (optimize_ok d i Hd) as [Ho _].
    destruct (vme_create_window _ _ _) as [[rc wnd] st2] eqn:Ec.
    pose proof (create_agree _ _ _ _ _ _ Ec Hi1 Ha1 Ho Hk) as Ha2.
    pose proof (vme_create_window_inv kc (vme_optimize_window_size (set_window_num i d)) st1 Hi1) as Hi2.
    rewrite Ec in Hi2. simpl in Hi2. destruct (truthy rc) eqn:Er; [done|].
    assert (rc = 0) as -> by (unfold truthy in Er; boolp; done).
    apply vme_create_window_ok in Ec as (Hn & _ & _ & Hnum & _); [|apply Hi1].
    destruct (add_mapping _ _ _ _) as [rc w] eqn:Ea. simpl.
    apply add_mapping_inv in Ea as (E1 & E2 & _). rewrite Hnum in *.
    apply agree_set_win; [done|apply Hi2|done..].
Qed.

Lemma release_loop_keeps k file idx st st0 :
  Forall in_table idx -> length (wins st0) = 8%nat -> keeps st0 st -> keeps st0 (release_loop k file idx st).2.
Proof.
  intros Hidx Hl. revert st. induction idx as [|i idx IH]; intros st Hk; [done|].
  apply Forall_cons in Hidx as [Hi Hidx]. simpl. case_goal; [done|]. apply IH; [done|].
  apply keeps_klog, keeps_set_win; try done;
    unfold release_window; destruct (negb _ || _); done.
Qed.

Lemma find_addr_keeps k a idx st st0 : keeps st0 st -> keeps st0 (find_addr_loop k a idx st).2.
Proof.
  revert st. induction idx as [|i idx IH]; intros st Hk; [done|]. simpl. case_goal; [done|].
  destruct (list_find _ _) as [[? ?]|]; [done|]. by apply IH.
Qed.

Lemma mmap_keeps k file a sz r idx st st0 :
  keeps st0 st -> keeps st0 (mmap_loop k file a sz r idx st).2.
Proof.
  revert st. induction idx as [|i idx IH]; intros st Hk; [done|]. simpl. case_goal; [done|].
  case_goal; [done|]. by apply IH.
Qed.

Lemma release_agree k kd d force file st :
  winv st -> hw_agree st -> hw_agree (__vme_release_mapping k kd d force file st).2.
Proof.
  intros Hi Ha. unfold __vme_release_mapping.
  destruct (bad_window _) eqn:Eb; [done|]. apply bad_window_false in Eb.
  destruct (k_intr k _); [done|]. cbv zeta. rewrite get_win_lock.
  destruct (w_active (get_win st _)) eqn:Ea; simpl; [|done].
  destruct (remove_mapping _ _ _) as [rc w] eqn:Er.
  pose proof (remove_mapping_desc _ _ _ _ _ Er) as [E1 E2].
  apply remove_mapping_wf in Er as (Hwf & _ & Hrs & _); [|apply (proj2 (proj1 Hi) _ Eb)].
  assert (winv (unlock (window_num d) (set_win (window_num d) w (lock (window_num d) st)))) as Hi'.
  { apply own_locked_update; try done. apply win_owns_ext; congruence. }
  assert (hw_agree (set_win (window_num d) w (lock (window_num d) st))) as Ha'.
  { apply agree_set_win; try done. apply Hi. }
  repeat case_goal; try done. by apply destroy_agree.
Qed.

Lemma exit_agree k idx st :
  winv st -> hw_agree st ->
  hw_agree (foldl (fun st i => if w_active (get_win st i)
                     then (vme_destroy_window k i st).2 else st) st idx).
Proof.
  revert st. induction idx as [|i idx IH]; intros st Hi Ha; [done|]. simpl. apply IH.
  - case_goal; [by apply vme_destroy_window_inv|done].
  - case_goal; [by apply destroy_agree|done].
Qed.

Lemma run_op_agree op st : winv st -> hw_agree st -> op_ok op -> hw_agree (run_op op st).
Proof.
  intros Hi Ha Ho. assert (length (wins st) = 8%nat) as Hl by apply (proj1 Hi).
  destruct op; simpl in *.
  - unfold vme_get_window_attr. by repeat case_goal.
  - destruct Ho. destruct (vme_create_window k d st) as [[rc d'] st'] eqn:E. by eapply create_agree.
  - by apply destroy_agree.
  - destruct Ho. by apply find_agree.
  - by apply release_agree.
  - apply (keeps_agree st); [done|]. apply release_loop_keeps; [apply window_indices_all|done|done].
  - apply (keeps_agree st); [done|]. by apply find_addr_keeps.
  - apply (keeps_agree st); [done|]. by apply mmap_keeps.
  - done.
  - done.
  - by apply exit_agree.
Qed.

Lemma reachable_ok_agree st : reachable_ok st -> hw_agree st.
Proof.
  induction 1 as [h Hh|op st Hr IH Ho].
  - intros i Hi. unfold win_agree.
    assert (w_active (get_win (wstate_boot h) i) = false) as ->; [|done].
    unfold in_table in Hi.
    assert (i = 0 \/ i = 1 \/ i = 2 \/ i = 3 \/ i = 4 \/ i = 5 \/ i = 6 \/ i = 7) as Hc by lia.
    repeat destruct Hc as [-> | Hc]; subst; done.
  - apply run_op_agree; [|done..]. by apply reachable_inv, reachable_ok_reachable.
Qed.

(** ** From a window to a mapping *)

Definition covers w d : Prop :=
  vme_addrl (w_desc w) <= vme_addrl d /\
  vme_addrl d + sizel d <= vme_addrl (w_desc w) + sizel (w_desc w).

Lemma place_translates st i d o :
  hw_agree st -> in_table i -> w_active (get_win st i) = true ->
  vme_addru (w_desc (get_win st i)) = 0 -> covers (get_win st i) d -> is_u32 (vme_addrl d) ->
  0 <= o < sizel d ->
  hw_translate (whw st) i (pci_addrl (place_mapping (get_win st i) i d) + o) = Some (vme_addrl d + o).
Proof.
  intros Ha Hi Hact Hu [Hc1 Hc2] Hv Ho. specialize (Ha i Hi). unfold win_agree in Ha.
  rewrite Hact in Ha. set (w := get_win st i) in *. destruct Ha as (_ & Hok & Ht).
  destruct Hok as (_ & _ & _ & _ & _ & Hs0 & Hp0 & Hlt & Hwv & _). unfold is_u32 in *.
  unfold place_mapping. simpl. rewrite (u32_id (_ - _)) by (unfold is_u32; lia).
  rewrite u32_id by (unfold is_u32; lia). rewrite Ht. unfold window_translation.
  rewrite decide_True by lia. f_equal. unfold u64, pair64. rewrite Hu.
  rewrite Z.mod_small by lia. lia.
Qed.

Lemma window_matches_covers w d :
  window_matches w d = true -> is_u32 (vme_addrl (w_desc w)) -> 0 <= sizel (w_desc w) ->
  is_u32 (vme_addrl d) -> 0 <= sizel d -> vme_addrl d + sizel d < 2 ^ 32 ->
  covers w d /\ vme_addru (w_desc w) = 0.
Proof.
  unfold window_matches, is_u32. intros Hm Hw Hws Hv Hs Hlt.
  apply andb_true_iff in Hm as [Hm _]. apply andb_true_iff in Hm as [Hm Hb].
  apply andb_true_iff in Hm as [Hm _]. apply andb_true_iff in Hm as [_ Hu].
  boolp. unfold truthy in *. boolp. split; [|done]. unfold covers.
  rewrite (u32_id (vme_addrl d + _)) in * by (unfold is_u32; lia).
  assert (u32 (vme_addrl (w_desc w) + sizel (w_desc w)) <= vme_addrl (w_desc w) + sizel (w_desc w))
    by (apply Z.mod_le; lia). lia.
Qed.

(** Requests that the window created for them covers: whole-space windows for
    A16 and A24, a 64 KiB aligned start otherwise. *)
Definition req_fits d : Prop :=
  if is_A24 (am d) then vme_addrl d + sizel d <= 2 ^ 24
  else if is_A16 (am d) then vme_addrl d + sizel d <= 2 ^ 16
  else vme_addrl d mod 2 ^ 16 = 0.

Lemma created_covers k d i st wnd st' :
  vme_create_window k (vme_optimize_window_size (set_window_num i d)) st = (0, wnd, st') ->
  winv st -> req_ok d -> kenv_ok k -> vme_addru d = 0 -> req_fits d ->
  covers (get_win st' i) d /\ vme_addru (w_desc (get_win st' i)) = 0.
Proof.
  intros E Hi Hd Hk Hu0 Hf. destruct (optimize_ok d i Hd) as [Ho Hin].
  apply vme_create_window_ok in E; [|apply Hi]. rewrite Hin in E.
  destruct E as (Hn & Hs0 & _ & Hnum & _ & _ & Hdesc & _ & _ & start & Hp & _ & Hc).
  set (e := vme_optimize_window_size _) in *.
  destruct (create_align_ok e Ho Hs0) as (Ev & Es & Eb & _ & Eu & Esu & Epu & _).
  destruct (Hk (sizel (create_align e)) start) as (Hst & Hst0 & Hstlt);
    [destruct Ho as (_ & _ & ? & _); lia|done|].
  set (d1 := set_pci_addrl _ _) in *.
  assert (vme_addrl e - vme_addrl e mod 2 ^ 16 = vme_addrl (create_align e)) as Ev' by lia.
  assert (window_ok d1) as Hok.
  { destruct Ho as (Hv32 & Hu32 & Hs32 & _). unfold is_u32 in *.
    unfold window_ok. subst d1. simpl. rewrite (u32_id start) by (unfold is_u32; lia).
    rewrite Ev, Esu, Epu, Eu. unfold is_u32.
    assert (vme_addrl e mod 2 ^ 16 <= vme_addrl e) by (apply Z.mod_le; lia).
    pose proof (Z.mod_pos_bound (vme_addrl e) (2 ^ 16)).
    split_and!; try done; try lia. rewrite Zminus_mod_idemp_r, Z.sub_diag. done. }
  unfold covers. rewrite Hdesc, (hw_create_desc _ _ _ _ Hc Hok).
  assert (vme_addrl (set_window_enabled 1 d1) = vme_addrl e - vme_addrl e mod 2 ^ 16) as -> by exact Ev.
  assert (sizel (set_window_enabled 1 d1) = sizel (create_align e)) as -> by reflexivity.
  assert (vme_addru (set_window_enabled 1 d1) = vme_addru e) as -> by exact Eu.
  destruct Hd as (Hv & _ & Hs & _). unfold is_u32 in Hv.
  clear Hc Hok Hdesc Hp. unfold req_fits in Hf. subst e. unfold vme_optimize_window_size in *. cbn [am set_window_num] in *.
  destruct (is_A24 (am d)); [|destruct (is_A16 (am d))]; simpl in *; rewrite ?Z.mod_0_l, ?Hf by lia; lia.
Qed.

(** ** Properties *)

Lemma find_mapping_ok st k kc d force file d' st' :
  reachable_ok st -> req_ok d -> kenv_ok kc -> vme_addru d = 0 -> vme_addrl d + sizel d < 2 ^ 32 ->
  __vme_find_mapping k kc d force file st = (0, d', st') ->
  w_active (get_win st (window_num d')) = true \/ req_fits d ->
  let n := window_num d' in
  in_table n /\
  (exists m, m ∈ w_mappings (get_win st' n) /\ m_desc m = d' /\ m_file m = file) /\
  (forall o, 0 <= o < sizel d ->
     hw_translate (whw st') n (pci_addrl d' + o) = Some (vme_addrl d + o)).
Proof.
  intros Hr Hd Hk Hu Hlt E Hcase.
  pose proof (reachable_inv _ (reachable_ok_reachable _ Hr)) as Hi.
  pose proof (reachable_ok_agree _ Hr) as Ha.
  unfold __vme_find_mapping in E. destruct (truthy (vme_mapping_sanity_check d)) eqn:Es.
  { injection E as E0 _ _. rewrite E0 in Es. done. }
  destruct (find_loop _ _ _ _) as [r st1] eqn:El.
  destruct (find_loop_spec _ _ _ _ _ _ El Hi) as [Hst Hres]. clear El.
  pose proof (keeps_agree _ _ Ha (same_table_keeps _ _ Hst)) as Ha1.
  destruct r as [rc|[i|]].
  - destruct Hres as [_ ->]. unfold ERESTARTSYS in E. simplify_eq.
  - destruct Hres as (Hin & Hm & Hs & _). apply window_indices_in in Hin.
    rewrite <- (same_table_get st st1 i Hst) in Hm.
    pose proof (window_matches_active _ _ Hm) as Hact.
    pose proof (Ha1 i Hin) as Hwi. unfold win_agree in Hwi. rewrite Hact in Hwi.
    destruct Hwi as (_ & (_ & _ & _ & _ & _ & ? & _ & _ & Hw32 & _) & _).
    destruct (window_matches_covers _ _ Hm) as [Hcov Hwu];
      [done|lia|apply Hd|destruct Hd as (_ & _ & ? & _); lia|done|].
    destruct (add_mapping _ _ _ _) as [rc w] eqn:Ea. injection E as -> <- <-.
    apply add_mapping_inv in Ea as (E1 & E2 & Hmap). destruct (Hmap eq_refl) as (m & Em & Hm1 & Hm2).
    cbv zeta. cbn [window_num place_mapping set_window_num].
    split_and!; [done| |].
    + exists m. split; [|done]. unfold unlock. rewrite get_win_klog, get_set_win_eq by (done || apply Hs).
      rewrite Em. apply elem_of_app. right. by left.
    + intros o Ho. change (whw (unlock i (set_win i w st1))) with (whw st1).
      apply place_translates; try done. apply Hd.
  - destruct Hres as [Hi1 _]. destruct (negb (truthy force)); [simplify_eq|].
    destruct (first_unused st1) as [i|] eqn:Ef; [|simplify_eq].
    apply first_unused_spec in Ef as [Hin Hina].
    destruct (vme_create_window _ _ _) as [[rc wnd] st2] eqn:Ec.
    destruct (truthy rc) eqn:Er; [injection E as -> _ _; done|].
    assert (rc = 0) as -> by (unfold truthy in Er; boolp; done).
    destruct (optimize_ok d i Hd) as [Hok Hnum].
    pose proof (create_agree _ _ _ _ _ _ Ec Hi1 Ha1 Hok Hk) as Ha2.
    pose proof (vme_create_window_inv kc (vme_optimize_window_size (set_window_num i d)) st1 Hi1) as Hi2.
    rewrite Ec in Hi2. simpl in Hi2.
    pose proof (vme_create_window_ok _ _ _ _ _ Ec (proj1 Hi1)) as (_ & _ & _ & Hwn & _ & Hact & _).
    rewrite Hnum in Hwn, Hact. rewrite Hwn in E.
    destruct (add_mapping _ _ _ _) as [rc w] eqn:Ea. injection E as -> <- <-.
    apply add_mapping_inv in Ea as (E1 & E2 & Hmap). destruct (Hmap eq_refl) as (m & Em & Hm1 & Hm2).
    cbv zeta in *. cbn [window_num place_mapping set_window_num] in *.
    rewrite (same_table_get _ _ _ Hst) in Hina. destruct Hcase as [?|Hf]; [congruence|].
    destruct (created_covers _ _ _ _ _ _ Ec Hi1 Hd Hk Hu Hf) as [Hcov Hwu].
    split_and!; [done| |].
    + exists m. split; [|done]. rewrite get_set_win_eq by (done || apply Hi2).
      rewrite Em. apply elem_of_app. right. by left.
    + intros o Ho. change (whw (set_win i w st2)) with (whw st2).
      apply place_translates; try done. apply Hd.
Qed.


(** C2: in every state reached with well-formed requests, the chip translates
    exactly what the table says: an active window maps its PCI range onto its
    VME range and nothing else, an inactive one maps nothing. *)
Theorem window_table_agrees st i a :
  reachable_ok st -> in_table i ->
  hw_translate (whw st) i a =
    if w_active (get_win st i) then window_translation (w_desc (get_win st i)) a else None.
Proof.
  intros Hr Hi. pose proof (reachable_ok_agree st Hr i Hi) as Ha. unfold win_agree in Ha.
  destruct (w_active _); [apply Ha|apply Ha].
Qed.

End Map.

(** ** Concrete instances *)

(** A bus with 256 MiB of PCI memory at [0x80000000]. *)
Definition kenv_pci : kenv :=
  Kenv (fun _ => false) true
       (fun size => if size <=? 0x10000000 then (0, 0x80000000) else (- EBUSY, 0))
       (fun _ _ => 0xf0000000) true 42 "app".

Lemma kenv_pci_ok : kenv_ok kenv_pci.
Proof.
  intros size start Hs. unfold kenv_pci, k_pci. case_goal; boolp; [|done].
  intros E1. injection E1 as <-. split; [reflexivity|]. lia.
Qed.

Lemma no_window_translates i a : hw_translate (∅ : chip) i a = None.
Proof. reflexivity. Qed.

Definition demo_request : vme_mapping := a32_request 0x20000 0x1000.

Lemma demo_request_ok : req_ok demo_request.
Proof. unfold req_ok, is_u32, demo_request. simpl. lia. Qed.

Definition demo_find := __vme_find_mapping kenv_pci kenv_pci demo_request 1 0x55 (wstate_boot (∅ : chip)).


Definition demo_state : wstate chip :=
  run_op (OpFind kenv_pci kenv_pci demo_request 1 0x55) (wstate_boot ∅).

Lemma demo_state_reachable : reachable_ok demo_state.
Proof.
  apply reach_ok_step; [apply reach_ok_boot, no_window_translates|].
  split; [apply demo_request_ok|apply kenv_pci_ok].
Qed.

Lemma window_table_agrees_witness :
  hw_translate (whw demo_state) 0 0x80000004 = Some 0x20004.
Proof.
  rewrite (window_table_agrees demo_state 0 0x80000004 demo_state_reachable).
  - vm_compute. reflexivity.
  - unfold in_table. lia.
Defined.

(** ** Where a request is not covered *)

(** [vme_create_window()] overwrites [vme_addrl] before adding the lost bytes
    to the size, so a window created for an unaligned A32 request can end
    before the request does: 32 bytes at [0x1fff0] get the window
    [0x10000-0x1ffff] and their second half is not translated. *)
Lemma unaligned_request_uncovered :
  let '(rc, d', st') := __vme_find_mapping kenv_pci kenv_pci (a32_request 0x1fff0 0x20) 1 0x55
                          (wstate_boot (∅ : chip)) in
  rc = 0 /\ hw_translate (whw st') (window_num d') (pci_addrl d') = Some 0x1fff0 /\
  hw_translate (whw st') (window_num d') (pci_addrl d' + 0x10) = None.
Proof. vm_compute. split_and!; reflexivity. Qed.

(** The search compares 32-bit end addresses: a request that ends at 4 GiB
    wraps to zero and matches a window far below it. *)
Lemma wrapped_request_matches :
  let '(rc, d', st') := __vme_find_mapping kenv_pci kenv_pci (a32_request 0xffff0000 0x10000) 1 0x55
                          demo_find.2 in
  rc = 0 /\ window_num d' = 0 /\ hw_translate (whw st') 0 (pci_addrl d') = None.
Proof. vm_compute. split_and!; reflexivity. Qed.
