(* ===== verification/Tsi148DmaChain.v ===== *)
(** * The DMA descriptor chain is the transfer

    What the chip finds when it walks the chain built by
    [tsi148_dma_setup_chain()]: every byte of the scatter-gather list once and
    in order, against consecutive VME addresses, in descriptors that do not
    cross a block boundary; and the descriptors all go back to the pool. *)

From S2P Require Import Prelude VmeBus Tsi148 Tsi148Dma.

(** ** The chip's view of a chain *)

(** A descriptor moves [seg_len] bytes between the PCI address and the VME
    address. *)
Record segment := Segment { seg_vme : Z; seg_dma : Z; seg_len : Z }.

Definition seg_of_desc (dir : Z) (t : tsi148_dma_desc) : segment :=
  if dir =? VME_DMA_TO_DEVICE then Segment (ddal t) (dsal t) (dcnt t)
  else Segment (dsal t) (ddal t) (dcnt t).

(** The linked-list mode of the chip: follow the next-link address until the
    last-link bit. *)
Fixpoint walk_chain (fuel : nat) (m : gmap Z tsi148_dma_desc) (p : Z) : option (list tsi148_dma_desc) :=
  match fuel with
  | O => None
  | S fuel =>
      match m !! p with
      | None => None
      | Some t =>
          if truthy (Z.land (dnlal t) DNLAL_LLA) then Some [t]
          else cons t <$> walk_chain fuel m (Z.land (dnlal t) DNLAL_DNLAL_M)
      end
  end.

(** Bytes moved, as pairs of a VME and a PCI address. *)
Definition seg_bytes (s : segment) : list (Z * Z) :=
  (fun o => (seg_vme s + o, seg_dma s + o)) <$> seqZ 0 (seg_len s).

(** The bytes the request asks for. *)
Fixpoint sgl_bytes (vme : Z) (sgl : list sg_entry) : list (Z * Z) :=
  match sgl with
  | [] => []
  | (dma, len) :: sgl => seg_bytes (Segment vme dma len) ++ sgl_bytes (vme + len) sgl
  end.

Definition sgl_total (sgl : list sg_entry) : Z := foldr (fun e n => e.2 + n) 0 sgl.

(** A descriptor stays inside one [2^b]-byte block (no constraint for [b = 0]). *)
Definition in_block (b : Z) (s : segment) : Prop :=
  b <> 0 -> seg_vme s / 2 ^ b = (seg_vme s + seg_len s - 1) / 2 ^ b.

(** ** Pieces of one scatter-gather entry *)

(** [segs] cut [size] bytes at [vme]/[dma]; with [inc] the VME address advances. *)
Fixpoint cut (inc : bool) (b vme dma size : Z) (segs : list segment) : Prop :=
  match segs with
  | [] => size = 0
  | s :: segs =>
      seg_vme s = vme /\ seg_dma s = dma /\ 0 < seg_len s <= size /\ in_block b s /\
      cut inc b (if inc then vme + seg_len s else vme) (dma + seg_len s) (size - seg_len s) segs
  end.

Lemma seg_bytes_split v d l1 l2 :
  0 <= l1 -> 0 <= l2 ->
  seg_bytes (Segment v d (l1 + l2)) = seg_bytes (Segment v d l1) ++ seg_bytes (Segment (v + l1) (d + l1) l2).
Proof.
  intros. unfold seg_bytes. simpl. rewrite seqZ_app, fmap_app by lia. f_equal.
  rewrite <- (Z.add_0_r l1) at 1. rewrite Z.add_comm. rewrite <- fmap_add_seqZ, <- list_fmap_compose.
  apply list_fmap_ext. intros _ o _. simpl. f_equal; lia.
Qed.

Lemma cut_bytes b vme dma size segs :
  cut true b vme dma size segs -> flat_map seg_bytes segs = seg_bytes (Segment vme dma size).
Proof.
  revert vme dma size. induction segs as [|[v d l] segs IH]; intros vme dma size; simpl.
  - intros ->. reflexivity.
  - intros (-> & -> & Hl & _ & Hc). rewrite (IH _ _ _ Hc).
    rewrite <- seg_bytes_split by lia. do 2 f_equal. lia.
Qed.

Lemma cut_pci inc b vme dma size segs :
  cut inc b vme dma size segs ->
  flat_map (fun s => seqZ (seg_dma s) (seg_len s)) segs = seqZ dma size.
Proof.
  revert vme dma size. induction segs as [|[v d l] segs IH]; intros vme dma size; simpl.
  - intros ->. reflexivity.
  - intros (-> & -> & Hl & _ & Hc). rewrite (IH _ _ _ Hc), <- seqZ_app by lia. f_equal. lia.
Qed.

Lemma cut_in_block inc b vme dma size segs :
  cut inc b vme dma size segs -> Forall (in_block b) segs.
Proof.
  revert vme dma size. induction segs as [|s segs IH]; intros vme dma size; simpl; [constructor|].
  intros (_ & _ & _ & Hb & Hc). constructor; [done|]. by eapply IH.
Qed.

Lemma cut_fixed b vme dma size segs :
  cut false b vme dma size segs -> Forall (fun s => seg_vme s = vme) segs.
Proof.
  revert dma size. induction segs as [|s segs IH]; intros dma size; simpl; [constructor|].
  intros (Hv & _ & _ & _ & Hc). constructor; [done|]. by eapply IH.
Qed.

(** Distance to the next block boundary. *)
Lemma to_boundary_in_block b vme dma l :
  0 < b -> 0 < l <= 2 ^ b - vme mod 2 ^ b -> in_block b (Segment vme dma l).
Proof.
  intros Hb Hl _. simpl. assert (0 < 2 ^ b) as Hp by (apply Z.pow_pos_nonneg; lia).
  pose proof (Z.div_mod vme (2 ^ b)). pose proof (Z.mod_pos_bound vme (2 ^ b)).
  apply (Z.div_unique _ _ _ (vme mod 2 ^ b + l - 1)); lia.
Qed.

(** ** The chain under construction *)

Section Chain.
Context (d : vme_dma) (sat dat : Z).

(** The contents of a descriptor for [s] whose link word is [n]. *)
Definition node (s : segment) (n : Z) : tsi148_dma_desc :=
  set_dnla 0 n (tsi148_fill_dma_desc d (Tsi148_dma_desc 0 0 0 0 0 0 0 0 0 0)
                  (seg_vme s) (seg_dma s) (seg_len s) sat dat).2.

(** The nodes [ns] hold [segs] and link to each other, the last one to [q]. *)
Fixpoint linked (m : gmap Z tsi148_dma_desc) (ns : list Z) (segs : list segment) (q : Z) : Prop :=
  match ns, segs with
  | [], [] => True
  | p :: ns, s :: segs =>
      m !! p = Some (node s (Z.land (default q (head ns)) DNLAL_DNLAL_M)) /\ linked m ns segs q
  | _, _ => False
  end.

Lemma linked_insert m ns segs q p t : p ∉ ns -> linked m ns segs q -> linked (<[p := t]> m) ns segs q.
Proof.
  revert segs. induction ns as [|x ns IH]; intros [|s segs]; simpl; try done.
  rewrite not_elem_of_cons. intros [Hx Hn] [Hl Hr]. split; [|by apply IH].
  by rewrite lookup_insert_ne.
Qed.

Lemma linked_snoc m ns segs q s q' :
  linked m ns segs q -> m !! q = Some (node s (Z.land q' DNLAL_DNLAL_M)) ->
  linked m (ns ++ [q]) (segs ++ [s]) q'.
Proof.
  revert segs. induction ns as [|x ns IH]; intros [|s' segs]; simpl; try done.
  intros [Hx Hl] Hq. split; [|by apply IH]. rewrite Hx. do 2 f_equal. destruct ns; done.
Qed.

Definition node_addr (p : Z) : Prop := 0 < p < 2 ^ 32 /\ p mod 8 = 0.

(** Addresses the pool grants: 8-byte aligned, as [pci_pool_create()] was asked,
    and not in use. *)
Fixpoint grants (ans : list alloc_answer) : list Z :=
  match ans with
  | [] => []
  | (Some (p, _), _) :: ans => p :: grants ans
  | (None, _) :: ans => grants ans
  end.

Definition answers_ok (ans : list alloc_answer) (m : gmap Z tsi148_dma_desc) : Prop :=
  NoDup (grants ans) /\ Forall node_addr (grants ans) /\ forall p, p ∈ grants ans -> m !! p = None.

(** Ownership of the pool: what the channel lists is what it has taken. *)
Record owned (P0 : gmap Z tsi148_dma_desc) (l : list Z) (st : dstate) : Prop := {
  own_nodup : NoDup (l ++ grants (d_answers st));
  own_addr : Forall node_addr (l ++ grants (d_answers st));
  own_fresh : forall p, p ∈ l ++ grants (d_answers st) -> P0 !! p = None;
  own_frame : forall p, p ∉ l -> d_pool st !! p = P0 !! p;
}.

(** At least [k] allocations of the rest of the call succeed. *)
Definition plenty (k : Z) (st : dstate) : Prop :=
  Forall (fun a : alloc_answer => is_Some a.1 /\ a.2 = true) (d_answers st) /\
  k <= Z.of_nat (length (d_answers st)).

Lemma owned_start m c ans : answers_ok ans m -> owned m [] (Dstate c m ans).
Proof. intros (Hn & Ha & Hf). split; simpl; done. Qed.

Lemma owned_write P0 l st p t :
  p ∈ l -> owned P0 l st -> owned P0 l (set_pool (<[p := t]> (d_pool st)) st).
Proof.
  intros Hp [Hn Ha Hf Hm]. split; simpl; try done. intros q Hq.
  rewrite lookup_insert_ne; [by apply Hm|]. by intros ->.
Qed.

Lemma hwdesc_init_spec ch st P0 :
  owned P0 (ch_hw_desc_list ch) st ->
  exists rc p l st',
    hwdesc_init ch st = (rc, p, set_hw_desc_list l ch, st') /\ owned P0 l st' /\
    d_chip st' = d_chip st /\
    (forall k, 0 <= k -> plenty (1 + k) st -> rc = 0 /\ plenty k st') /\
    ((rc = - ENOMEM /\ l = ch_hw_desc_list ch) \/
     (rc = 0 /\ l = ch_hw_desc_list ch ++ [p] /\ node_addr p /\ p ∉ ch_hw_desc_list ch /\
      exists t, d_pool st' = <[p := t]> (d_pool st))).
Proof.
  intros Ho. destruct st as [c m ans]. unfold hwdesc_init. simpl.
  assert (set_hw_desc_list (ch_hw_desc_list ch) ch = ch) as Hch by (by destruct ch).
  destruct ans as [|[[[p t]|] ok] ans].
  - exists (- ENOMEM), 0, (ch_hw_desc_list ch), (Dstate c m []). rewrite Hch.
    split_and!; try done; [|by left]. intros k Hk [_ Hp]. simpl in Hp. lia.
  - destruct Ho as [Hn Ha Hf Hm]. simpl in *.
    assert (p ∉ ch_hw_desc_list ch) as Hp.
    { intros Hp. apply NoDup_app in Hn as (_ & Hd & _). apply (Hd p Hp). by left. }
    assert (m !! p = None) as Hmp.
    { rewrite Hm by done. apply Hf. apply elem_of_app. right. by left. }
    destruct ok.
    + eexists _, _, _, _. split; [done|]. split.
      * split; simpl; rewrite <- ?app_assoc; try done. intros q Hq.
        rewrite not_elem_of_app in Hq. destruct Hq as [Hq1 Hq2].
        rewrite lookup_insert_ne; [by apply Hm|]. intros ->. apply Hq2. by left.
      * split; [done|]. split.
        { intros k Hk [Hpl Hl]. simpl in *. apply Forall_cons in Hpl as [_ Hpl].
          split; [done|]. split; [done|]. simpl. lia. }
        right. split_and!; try done; [|by eexists].
        rewrite Forall_forall in Ha. apply Ha. apply elem_of_app. right. by left.
    + eexists _, _, (ch_hw_desc_list ch), _. rewrite Hch. split; [done|]. split.
      * simpl. rewrite delete_insert_id by done. split; simpl.
        -- apply NoDup_app in Hn as (? & Hd & Hn). apply NoDup_cons in Hn as [? ?].
           apply NoDup_app. split_and!; try done. intros x Hx Hx'. apply (Hd x Hx). by right.
        -- rewrite Forall_app in Ha |- *. destruct Ha as [? Ha]. apply Forall_cons in Ha. tauto.
        -- intros q Hq. apply Hf. rewrite elem_of_app, elem_of_cons in *. tauto.
        -- done.
      * split; [done|]. split; [|by left]. intros k Hk [Hpl _].
        apply Forall_cons in Hpl as [[_ Hpl] _]. done.
  - exists (- ENOMEM), 0, (ch_hw_desc_list ch), (Dstate c m ans). rewrite Hch. split; [done|].
    split; [|split; [done|split; [|by left]]].
    2:{ intros k Hk [Hpl _]. apply Forall_cons in Hpl as [[[? Hpl] _] _]. done. }
    destruct Ho as [Hn Ha Hf Hm]. simpl in *. by split.
Qed.

Lemma free_all (l : list Z) (m P0 : gmap Z tsi148_dma_desc) :
  (forall p, p ∉ l -> m !! p = P0 !! p) -> (forall p, p ∈ l -> P0 !! p = None) ->
  foldl (fun m p => delete p m) m l = P0.
Proof.
  revert m. induction l as [|x l IH]; intros m Hm Hl; simpl.
  - apply map_eq. intros p. apply Hm. apply not_elem_of_nil.
  - apply IH; [|intros p Hp; apply Hl; by right]. intros p Hp.
    destruct (decide (p = x)) as [->|Hne].
    + rewrite lookup_delete_eq. symmetry. apply Hl. by left.
    + rewrite lookup_delete_ne by done. apply Hm. rewrite elem_of_cons. tauto.
Qed.

Lemma free_chain_owned P0 ch st :
  owned P0 (ch_hw_desc_list ch) st -> d_pool (tsi148_dma_free_chain ch st).2 = P0.
Proof.
  intros [_ _ Hf Hm]. unfold tsi148_dma_free_chain. simpl. apply free_all; [done|].
  intros p Hp. apply Hf. apply elem_of_app. by left.
Qed.

(** ** One scatter-gather entry *)

Definition dir_ok : Prop := dma_dir d = VME_DMA_TO_DEVICE \/ dma_dir d = VME_DMA_FROM_DEVICE.

Lemma fill_node t vme dma len :
  dir_ok -> is_u32 dma ->
  (tsi148_fill_dma_desc d t vme dma len sat dat).2 = node (Segment vme dma len) DNLAL_LLA.
Proof.
  intros Hd Hu. unfold node, tsi148_fill_dma_desc. simpl.
  destruct Hd as [-> | ->]; reflexivity.
Qed.

Lemma set_dnla_node s n n' : set_dnla 0 n' (node s n) = node s n'.
Proof. reflexivity. Qed.

(** All descriptors but [curr] are written. *)
Definition building (P0 : gmap Z tsi148_dma_desc) (l : list Z) (st : dstate) (segs : list segment)
    (curr : Z) : Prop :=
  exists ns, l = ns ++ [curr] /\ owned P0 l st /\ linked (d_pool st) ns segs curr.

(** The chain is closed by a descriptor with the last-link bit. *)
Definition finished (P0 : gmap Z tsi148_dma_desc) (l : list Z) (st : dstate) (segs : list segment) : Prop :=
  exists ns q segs0 s, l = ns ++ [q] /\ segs = segs0 ++ [s] /\ owned P0 l st /\
    linked (d_pool st) ns segs0 q /\ d_pool st !! q = Some (node s DNLAL_LLA).

Lemma building_last P0 ns st curr :
  owned P0 (ns ++ [curr]) st -> curr ∉ ns.
Proof.
  intros [Hn _ _ _]. apply NoDup_app in Hn as (Hn & _). apply NoDup_app in Hn as (_ & Hd & _).
  intros Hc. apply (Hd _ Hc). by left.
Qed.

Lemma building_write P0 l st segs curr s :
  building P0 l st segs curr ->
  finished P0 l (set_pool (<[curr := node s DNLAL_LLA]> (d_pool st)) st) (segs ++ [s]).
Proof.
  intros (ns & -> & Ho & Hl). exists ns, curr, segs, s. split_and!; try done.
  - apply owned_write; [|done]. apply elem_of_app. right. by left.
  - apply linked_insert; [|done]. by apply (building_last P0 ns st).
  - simpl. by rewrite lookup_insert_eq.
Qed.

(** Allocating the next descriptor and linking the current one to it. *)
Lemma finished_extend P0 l st segs curr s :
  building P0 l st segs curr ->
  let st1 := set_pool (<[curr := node s DNLAL_LLA]> (d_pool st)) st in
  forall p t st2,
  owned P0 (l ++ [p]) st2 -> p ∉ l -> d_pool st2 = <[p := t]> (d_pool st1) ->
  building P0 (l ++ [p])
    (set_pool (<[curr := node s (Z.land p DNLAL_DNLAL_M)]> (d_pool st2)) st2) (segs ++ [s]) p.
Proof.
  intros (ns & -> & Ho & Hl) st1 p t st2 Ho2 Hp Hpool.
  assert (curr ∉ ns) as Hc by (by apply (building_last P0 ns st)).
  rewrite not_elem_of_app, list_elem_of_singleton in Hp. destruct Hp as [Hp1 Hp2].
  exists (ns ++ [curr]). split_and!; [done| |].
  - apply owned_write; [|done]. rewrite !elem_of_app, list_elem_of_singleton. tauto.
  - simpl. apply (linked_snoc _ ns segs curr).
    + rewrite Hpool. subst st1. simpl. by do 3 (apply linked_insert; [done|]).
    + by rewrite lookup_insert_eq.
Qed.

(** The length of the next piece. *)
Definition piece (b vme dma dma_end len : Z) : Z :=
  let len := if truthy b then u32 (tsi148_get_bsize b - Z.land vme (tsi148_get_bmask (tsi148_get_bsize b)))
             else len in
  if dma_end <? u32 (dma + len) then u32 (dma_end - dma) else len.

Lemma piece_spec b vme dma dma_end len :
  0 <= b <= 11 -> 0 <= dma < dma_end -> dma_end + 2048 <= 2 ^ 32 -> 0 <= vme ->
  (b = 0 -> len = dma_end - dma) ->
  0 < piece b vme dma dma_end len <= dma_end - dma /\
  (b = 0 -> piece b vme dma dma_end len = dma_end - dma) /\
  in_block b (Segment vme dma (piece b vme dma dma_end len)).
Proof.
  intros Hb Hd He Hv Hl. unfold piece. destruct (truthy b) eqn:Eb; unfold truthy in Eb; boolp.
  2:{ rewrite Hl, u32_id by (unfold is_u32; lia). rewrite (proj2 (Z.ltb_ge _ _)) by lia.
      split_and!; [lia..|]. by intros ?. }
  unfold tsi148_get_bsize, tsi148_get_bmask. rewrite Z.shiftl_1_l, land_low_mask by lia.
  assert (0 < 2 ^ b <= 2 ^ 11) as Hp.
  { split; [apply Z.pow_pos_nonneg; lia|apply Z.pow_le_mono_r; lia]. }
  pose proof (Z.mod_pos_bound vme (2 ^ b) ltac:(lia)) as Hm.
  set (r := vme mod 2 ^ b) in *. change (2 ^ 11) with 2048 in Hp.
  rewrite (u32_id (2 ^ b - r)), (u32_id (dma + _)) by (unfold is_u32; lia).
  case_goal; boolp; rewrite ?u32_id by (unfold is_u32; lia); split_and!; try lia;
    apply to_boundary_in_block; fold r; lia.
Qed.

Section Entry.
Context (P0 : gmap Z tsi148_dma_desc) (numpages index b vme_end dma_end : Z).
Context (Hdir : dir_ok) (Hb : 0 <= b <= 11) (Hend : dma_end + 2048 <= 2 ^ 32) (Hvend : vme_end < 2 ^ 32).

Definition inc : bool := negb (truthy (dma_novmeinc d)).

(** Where the loop stands on the VME side. *)
Definition vme_ok (vme dma : Z) : Prop :=
  0 <= vme < vme_end /\ (inc = true -> vme_end - vme = dma_end - dma).

Definition entry_done (l : list Z) (st : dstate) (segs : list segment) (next : Z) : Prop :=
  if index <? numpages - 1 then building P0 l st segs next else finished P0 l st segs.

Lemma link_loop_exit fuel curr next vme len ch st :
  link_loop numpages index b sat dat vme_end dma_end (S fuel) curr next vme dma_end len ch st
  = Done (0, next, ch, st).
Proof. simpl. by rewrite Z.ltb_irrefl, andb_false_r. Qed.

Lemma link_loop_spec fuel curr next vme dma len ch st segs :
  ch_desc ch = d -> building P0 (ch_hw_desc_list ch) st segs curr ->
  0 <= dma < dma_end -> vme_ok vme dma -> (b = 0 -> len = dma_end - dma) ->
  (Z.to_nat (dma_end - dma) < fuel)%nat ->
  exists rc next' l st',
    link_loop numpages index b sat dat vme_end dma_end fuel curr next vme dma len ch st
      = Done (rc, next', set_hw_desc_list l ch, st') /\ d_chip st' = d_chip st /\
    ch_hw_desc_list ch `prefix_of` l /\
    (forall k, 0 <= k -> plenty (dma_end - dma + k) st -> rc = 0 /\ plenty k st') /\
    ((rc = - ENOMEM /\ owned P0 l st') \/
     (rc = 0 /\ exists segs', cut inc b vme dma (dma_end - dma) segs' /\
        entry_done l st' (segs ++ segs') next')).
Proof.
  revert curr next vme dma len ch st segs.
  induction fuel as [|fuel IH]; intros curr next vme dma len ch st segs Hch Hbld Hd Hv Hlen Hf; [lia|].
  destruct Hv as [Hv1 Hv2].
  destruct (piece_spec b vme dma dma_end len Hb Hd Hend) as (Hp & Hp0 & Hblk); [lia|done|].
  simpl. rewrite (proj2 (Z.ltb_lt _ _) (proj2 Hv1)), (proj2 (Z.ltb_lt _ _) (proj2 Hd)). simpl.
  fold (piece b vme dma dma_end len). set (n := piece b vme dma dma_end len) in *. clearbody n.
  rewrite Hch, fill_node by (done || (unfold is_u32; lia)).
  rewrite (u32_id (dma + n)) by (unfold is_u32; lia).
  set (s := Segment vme dma n) in *.
  pose proof (building_write P0 _ st segs curr s Hbld) as Hfin.
  set (st1 := set_pool _ st) in *.
  set (vme' := if truthy _ then vme else u32 (vme + n)).
  assert (vme' = if inc then vme + n else vme) as Hvme'.
  { subst vme'. unfold inc in *. destruct (truthy (dma_novmeinc d)); simpl in *; [done|].
    specialize (Hv2 eq_refl). rewrite u32_id; [done|unfold is_u32; lia]. }
  clearbody vme'. subst vme'.
  assert (forall segs', cut inc b (if inc then vme + n else vme) (dma + n) (dma_end - (dma + n)) segs' ->
    cut inc b vme dma (dma_end - dma) (s :: segs')) as Hcut.
  { intros segs' Hc. simpl. split_and!; try done; try lia.
    replace (dma_end - dma - n) with (dma_end - (dma + n)) by lia. done. }
  destruct ((index <? numpages - 1) || (dma + n <? dma_end)) eqn:Eg.
  - (* another descriptor is needed *)
    assert (owned P0 (ch_hw_desc_list ch) st1) as Ho1.
    { destruct Hfin as (ns & q & ? & ? & -> & _ & Ho & _). exact Ho. }
    destruct (hwdesc_init_spec ch st1 P0 Ho1) as (rc & p & l & st2 & -> & Ho2 & Hc2 & Hpl2 & Hcase).
    assert (forall k, 0 <= k -> plenty (dma_end - dma + k) st -> rc = 0 /\ plenty (dma_end - (dma + n) + k) st2) as Hpl.
    { intros k Hk [Ha Hl]. apply Hpl2; [lia|]. split; [done|]. simpl. lia. }
    destruct Hcase as [[-> ->]|(-> & -> & Hpa & Hpn & t & Hpool)].
    { simpl. do 4 eexists. split; [done|]. split; [by rewrite Hc2|]. split; [done|].
      split; [intros k Hk Hq; by destruct (Hpl k Hk Hq)|]. by left. }
    simpl. rewrite set_dnla_node.
    pose proof (finished_extend P0 _ st segs curr s Hbld p t st2 Ho2 Hpn Hpool) as Hb2.
    set (st3 := set_pool _ st2) in *.
    destruct (decide (dma + n < dma_end)) as [Hlt|Hge].
    + edestruct (IH p p (if inc then vme + n else vme) (dma + n) n
        (set_hw_desc_list (ch_hw_desc_list ch ++ [p]) ch) st3 (segs ++ [s]))
        as (rc & next' & l & st' & -> & Hc & Hpre & Hpl3 & Hres); try done; try lia.
      * unfold vme_ok. destruct inc; [|split; [done|by intros ?]]. specialize (Hv2 eq_refl). lia.
      * do 4 eexists. split; [done|]. split; [by rewrite Hc; simpl; rewrite Hc2|].
        split; [etrans; [|exact Hpre]; by apply prefix_app_r|].
        split; [intros k Hk Hq; apply Hpl3; [done|]; by apply Hpl|].
        destruct Hres as [?|(-> & segs' & Hcc & He)]; [by left|]. right. split; [done|].
        exists (s :: segs'). split; [by apply Hcut|]. by rewrite <- app_assoc in He.
    + assert (dma + n = dma_end) as Heq by lia. rewrite Heq.
      destruct fuel as [|fuel]; [lia|]. rewrite link_loop_exit.
      do 4 eexists. split; [done|]. split; [by simpl; rewrite Hc2|].
      split; [by apply prefix_app_r|]. split. { intros k Hk Hq. destruct (Hpl k Hk Hq) as [_ [Hq1 Hq2]]. split; [done|]. split; [done|]. simpl. lia. }
      right. split; [done|]. exists [s]. split; [apply Hcut; simpl; lia|]. unfold entry_done.
      apply orb_true_iff in Eg as [->|Eg]; [done|boolp; lia].
  - (* last piece of the last entry *)
    apply orb_false_iff in Eg as [Ei Eg]. boolp. assert (dma + n = dma_end) as Heq by lia. rewrite Heq.
    destruct fuel as [|fuel]; [lia|]. rewrite link_loop_exit.
    exists 0, next, (ch_hw_desc_list ch), st1. split; [by destruct ch|]. split; [done|]. split; [done|].
    split. { intros k Hk [Hq1 Hq2]. split; [done|]. split; [done|]. simpl. lia. }
    right. split; [done|]. exists [s]. split; [apply Hcut; simpl; lia|]. unfold entry_done.
    rewrite (proj2 (Z.ltb_ge _ _)) by lia. done.
Qed.

End Entry.

(** ** The whole list *)

Definition sg_ok (e : sg_entry) : Prop := 0 <= e.1 /\ 0 < e.2 /\ e.1 + e.2 + 2048 <= 2 ^ 32.

(** The VME side of every entry ends below 4 GiB. *)
Fixpoint vme_fits (vme : Z) (sgl : list sg_entry) : Prop :=
  match sgl with
  | [] => True
  | (_, len) :: sgl => vme + len < 2 ^ 32 /\ vme_fits (if inc then vme + len else vme) sgl
  end.

Fixpoint cuts (b vme : Z) (sgl : list sg_entry) (segs : list segment) : Prop :=
  match sgl with
  | [] => segs = []
  | (dma, len) :: sgl =>
      exists s1 s2, segs = s1 ++ s2 /\ cut inc b vme dma len s1 /\
        cuts b (if inc then vme + len else vme) sgl s2
  end.

Lemma sgl_total_pos sgl : Forall sg_ok sgl -> 0 <= sgl_total sgl.
Proof.
  induction 1 as [|[a l] sgl [_ [Hl _]] _ IH]; simpl in *; [lia|].
  unfold sgl_total in *. simpl. lia.
Qed.

Lemma building_curr P0 l st segs curr : building P0 l st segs curr -> node_addr curr.
Proof.
  intros (ns & -> & [_ Ha _ _] & _). rewrite Forall_forall in Ha. apply Ha.
  rewrite !elem_of_app, list_elem_of_singleton. tauto.
Qed.

Lemma link_add_spec P0 numpages i b vme dma len curr ch st segs :
  dir_ok -> 0 <= b <= 11 -> ch_desc ch = d ->
  building P0 (ch_hw_desc_list ch) st segs curr -> sg_ok (dma, len) -> 0 <= vme -> vme + len < 2 ^ 32 ->
  exists rc next' l st',
    tsi148_dma_link_add ch curr vme dma len numpages i b sat dat st
      = Done (rc, next', set_hw_desc_list l ch, st') /\ d_chip st' = d_chip st /\
    ch_hw_desc_list ch `prefix_of` l /\
    (forall k, 0 <= k -> plenty (len + k) st -> rc = 0 /\ plenty k st') /\
    ((rc = - ENOMEM /\ owned P0 l st') \/
     (rc = 0 /\ exists segs', cut inc b vme dma len segs' /\
        entry_done P0 numpages i l st' (segs ++ segs') next')).
Proof.
  intros Hdir Hb Hch Hbld (Hd & Hl & He) Hv Hvl. simpl in *.
  pose proof (building_curr _ _ _ _ _ Hbld) as [Hc0 _]. unfold tsi148_dma_link_add.
  rewrite (proj2 (Z.eqb_neq _ _)) by lia. rewrite !u32_id by (unfold is_u32; lia).
  destruct (link_loop_spec P0 numpages i b (vme + len) (dma + len) Hdir Hb ltac:(lia) ltac:(lia)
    (S (S (Z.to_nat len))) curr 0 vme dma len ch st segs Hch Hbld) as (rc & next & l & st' & Hr);
    [lia|unfold vme_ok; lia|lia|lia|].
  replace (dma + len - dma) with len in Hr by lia. by exists rc, next, l, st'.
Qed.

Lemma sg_loop_spec P0 b numpages sgl i vme curr ch st segs :
  dir_ok -> 0 <= b <= 11 -> ch_desc ch = d ->
  building P0 (ch_hw_desc_list ch) st segs curr -> Forall sg_ok sgl -> 0 <= vme -> vme_fits vme sgl ->
  numpages = i + Z.of_nat (length sgl) -> sgl <> [] ->
  exists rc l st',
    sg_loop sgl numpages i b sat dat curr vme ch st = Done (rc, set_hw_desc_list l ch, st') /\
    d_chip st' = d_chip st /\ ch_hw_desc_list ch `prefix_of` l /\ (plenty (sgl_total sgl) st -> rc = 0) /\
    ((rc = - ENOMEM /\ owned P0 l st') \/
     (rc = 0 /\ exists segs', cuts b vme sgl segs' /\ finished P0 l st' (segs ++ segs'))).
Proof.
  intros Hdir Hb. revert i vme curr ch st segs.
  induction sgl as [|[dma len] sgl IH]; intros i vme curr ch st segs Hch Hbld Hok Hv Hfit Hn Hne; [done|].
  apply Forall_cons in Hok as [Hok1 Hok]. destruct Hfit as [Hf1 Hf2]. simpl.
  destruct (link_add_spec P0 numpages i b vme dma len curr ch st segs Hdir Hb Hch Hbld Hok1 Hv Hf1)
    as (rc & next & l & st1 & -> & Hc1 & Hpre & Hpl & Hres).
  pose proof (sgl_total_pos sgl Hok) as Htot.
  unfold sgl_total in Htot |- *. simpl. fold (sgl_total sgl) in Htot |- *.
  destruct Hres as [[-> Ho]|(-> & segs1 & Hcut & Hdone)].
  { simpl. exists (- ENOMEM), l, st1. split_and!; [done..| |by left]. intros Hp. by apply Hpl in Hp as [? _]. }
  simpl. rewrite Hch. unfold entry_done in Hdone.
  assert ((if truthy (dma_novmeinc d) then vme else u32 (vme + len)) = if inc then vme + len else vme) as ->.
  { unfold inc. destruct (truthy _); simpl; [done|]. apply u32_id. unfold is_u32.
    destruct Hok1 as (_ & ? & _). simpl in *. lia. }
  destruct sgl as [|e sgl].
  - simpl in Hn |- *. rewrite (proj2 (Z.ltb_ge _ _)) in Hdone by lia.
    exists 0, l, st1. split_and!; [done..|]. right. split; [done|].
    exists segs1. split; [|done]. exists segs1, []. rewrite app_nil_r. done.
  - rewrite (proj2 (Z.ltb_lt _ _)) in Hdone by (simpl in Hn; lia).
    destruct (IH (i + 1) (if inc then vme + len else vme) next (set_hw_desc_list l ch) st1 (segs ++ segs1))
      as (rc & l' & st2 & -> & Hc2 & Hpre2 & Hpl2 & Hres); try done.
    { destruct inc; [|done]. destruct Hok1 as (_ & ? & _). simpl in *. lia. }
    { simpl in Hn |- *. lia. }
    exists rc, l', st2. split; [done|]. split; [by rewrite Hc2|]. split; [by etrans|]. split.
    { intros Hp. apply Hpl2. by apply Hpl in Hp as [_ ?]. }
    destruct Hres as [?|(-> & segs2 & Hcuts & Hfin)]; [by left|]. right. split; [done|].
    exists (segs1 ++ segs2). rewrite app_assoc. split; [|done]. by exists segs1, segs2.
Qed.

(** ** Walking a finished chain *)

Lemma node_addr_mask p : node_addr p ->
  Z.land p DNLAL_DNLAL_M = p /\ truthy (Z.land p DNLAL_LLA) = false.
Proof.
  intros [Hp H8]. split.
  - unfold DNLAL_DNLAL_M. change 0xfffffff8 with (2 ^ 32 - 2 ^ 3).
    rewrite land_high_mask by lia. change (2 ^ 3) with 8. lia.
  - unfold DNLAL_LLA, truthy. change 1 with (2 ^ 1 - 1). rewrite land_low_mask by lia.
    change (2 ^ 1) with 2. apply negb_false_iff, Z.eqb_eq. Z.div_mod_to_equations. lia.
Qed.

Lemma walk_chain_S fuel m p :
  walk_chain (S fuel) m p =
    t ← m !! p;
    if truthy (Z.land (dnlal t) DNLAL_LLA) then Some [t]
    else cons t <$> walk_chain fuel m (Z.land (dnlal t) DNLAL_DNLAL_M).
Proof. simpl. by destruct (m !! p). Qed.

Lemma walk_linked m ns segs q s :
  linked m ns segs q -> m !! q = Some (node s DNLAL_LLA) -> Forall node_addr (ns ++ [q]) ->
  exists ts, walk_chain (S (length ns)) m (default q (head ns)) = Some ts /\
    Forall2 (fun s t => exists n, t = node s n) (segs ++ [s]) ts.
Proof.
  revert segs. induction ns as [|p ns IH]; intros [|s0 segs] Hl Hq Ha; try done.
  - exists [node s DNLAL_LLA]. simpl. rewrite Hq. split; [done|]. repeat constructor. by eexists.
  - destruct Hl as [Hp Hl]. apply Forall_cons in Ha as [Hpa Ha].
    destruct (IH segs Hl Hq Ha) as (ts & Hw & Hf). exists (node s0 (Z.land (default q (head ns)) DNLAL_DNLAL_M) :: ts).
    change (default q (head (p :: ns))) with p. rewrite walk_chain_S, Hp. cbn [length mbind option_bind].
    change (dnlal (node s0 (Z.land (default q (head ns)) DNLAL_DNLAL_M)))
      with (Z.land (default q (head ns)) DNLAL_DNLAL_M).
    assert (node_addr (default q (head ns))) as Hx.
    { rewrite Forall_forall in Ha. apply Ha. destruct ns; simpl; by left. }
    destruct (node_addr_mask _ Hx) as [-> Hb]. rewrite (proj1 (node_addr_mask _ Hx)), Hb, Hw.
    split; [done|]. simpl. constructor; [by eexists|done].
Qed.

(** ** What a list of cuts covers *)

Lemma cuts_bytes b vme sgl segs :
  inc = true -> cuts b vme sgl segs -> flat_map seg_bytes segs = sgl_bytes vme sgl.
Proof.
  intros Hi. revert vme segs. induction sgl as [|[a l] sgl IH]; intros vme segs; simpl; [by intros ->|].
  rewrite Hi. intros (s1 & s2 & -> & Hc & Hs). rewrite flat_map_app, (IH _ _ Hs). f_equal.
  by apply (cut_bytes b).
Qed.

Lemma cuts_pci b vme sgl segs :
  cuts b vme sgl segs ->
  flat_map (fun s => seqZ (seg_dma s) (seg_len s)) segs = flat_map (fun e => seqZ e.1 e.2) sgl.
Proof.
  revert vme segs. induction sgl as [|[a l] sgl IH]; intros vme segs; simpl; [by intros ->|].
  intros (s1 & s2 & -> & Hc & Hs). rewrite flat_map_app, (IH _ _ Hs). f_equal.
  by apply (cut_pci inc b vme).
Qed.

Lemma cuts_in_block b vme sgl segs : cuts b vme sgl segs -> Forall (in_block b) segs.
Proof.
  revert vme segs. induction sgl as [|[a l] sgl IH]; intros vme segs; simpl; [by intros ->|].
  intros (s1 & s2 & -> & Hc & Hs). apply Forall_app. split; [by eapply cut_in_block|by eapply IH].
Qed.

Lemma cuts_fixed b vme sgl segs :
  inc = false -> cuts b vme sgl segs -> Forall (fun s => seg_vme s = vme) segs.
Proof.
  intros Hi. revert vme segs. induction sgl as [|[a l] sgl IH]; intros vme segs; simpl; [by intros ->|].
  rewrite Hi. intros (s1 & s2 & -> & Hc & Hs). apply Forall_app.
  split; [by eapply cut_fixed|by eapply IH].
Qed.

Lemma cut_dma_range b vme dma size segs :
  0 <= dma -> dma + size < 2 ^ 32 -> cut inc b vme dma size segs -> Forall (fun s => is_u32 (seg_dma s)) segs.
Proof.
  revert vme dma size. induction segs as [|s segs IH]; intros vme dma size Hd Hs; simpl; [constructor|].
  intros (_ & Hd' & Hl & _ & Hc). constructor; [unfold is_u32; lia|].
  eapply IH; [| |exact Hc]; lia.
Qed.

Lemma cuts_dma_range b vme sgl segs :
  Forall sg_ok sgl -> cuts b vme sgl segs -> Forall (fun s => is_u32 (seg_dma s)) segs.
Proof.
  intros Hok. revert vme segs. induction Hok as [|[a l] sgl (H1 & H2 & H3) _ IH];
    intros vme segs; simpl in *; [by intros ->|].
  intros (s1 & s2 & -> & Hc & Hs). apply Forall_app.
  split; [|by eapply IH]. eapply cut_dma_range; [| |exact Hc]; lia.
Qed.

Lemma seg_of_node s n : dir_ok -> is_u32 (seg_dma s) -> seg_of_desc (dma_dir d) (node s n) = s.
Proof.
  intros Hd Hs. destruct s as [v a l]. unfold seg_of_desc, node, tsi148_fill_dma_desc. simpl in *.
  destruct Hd as [-> | ->]; simpl; by rewrite u32_id.
Qed.

Lemma segs_of_nodes segs ts :
  dir_ok -> Forall (fun s => is_u32 (seg_dma s)) segs ->
  Forall2 (fun s t => exists n, t = node s n) segs ts -> seg_of_desc (dma_dir d) <$> ts = segs.
Proof.
  intros Hd Hu Hf. induction Hf as [|s t segs ts [n ->] _ IH]; [done|].
  apply Forall_cons in Hu as [Hu1 Hu]. by rewrite fmap_cons, seg_of_node, IH.
Qed.

Lemma nodes_attrs segs ts :
  dir_ok -> Forall2 (fun s t => exists n, t = node s n) segs ts ->
  Forall (fun t => dsat t = sat /\ ddat t = dat) ts.
Proof.
  intros Hd Hf. induction Hf as [|s t segs ts [n ->] _ IH]; constructor; [|done].
  unfold node, tsi148_fill_dma_desc. destruct Hd as [-> | ->]; done.
Qed.

End Chain.

(** ** Properties *)

(** The control word of a transfer, field by field, as documented for DCTL. *)
Definition ctl_word (c : vme_dma_ctrl) : Z :=
  vme_block_size c * 2 ^ 12 + vme_backoff_time c * 2 ^ 8 + pci_block_size c * 2 ^ 4 + pci_backoff_time c.

Definition ctl_valid (c : vme_dma_ctrl) : bool :=
  forallb (fun v => (0 <=? v) && (v <=? 7))
    [vme_block_size c; vme_backoff_time c; pci_block_size c; pci_backoff_time c].

Lemma ctl_word_fields a b c e :
  0 <= a <= 7 -> 0 <= b <= 7 -> 0 <= c <= 7 -> 0 <= e <= 7 ->
  Z.lor (Z.lor (Z.lor (Z.land (Z.shiftl a 12) (7 * 2 ^ 12)) (Z.land (Z.shiftl b 8) (7 * 2 ^ 8)))
           (Z.land (Z.shiftl c 4) (7 * 2 ^ 4))) (Z.land (Z.shiftl e 0) 7)
  = a * 2 ^ 12 + b * 2 ^ 8 + c * 2 ^ 4 + e.
Proof.
  intros Ha Hb Hc He. apply Z.eqb_eq.
  assert (forall x, 0 <= x <= 7 -> x ∈ seqZ 0 8) as Hin by (intros; apply elem_of_seqZ; lia).
  assert (forallb (fun a => forallb (fun b => forallb (fun c => forallb (fun e =>
    Z.lor (Z.lor (Z.lor (Z.land (Z.shiftl a 12) (7 * 2 ^ 12)) (Z.land (Z.shiftl b 8) (7 * 2 ^ 8)))
           (Z.land (Z.shiftl c 4) (7 * 2 ^ 4))) (Z.land (Z.shiftl e 0) 7)
     =? a * 2 ^ 12 + b * 2 ^ 8 + c * 2 ^ 4 + e)
    (seqZ 0 8)) (seqZ 0 8)) (seqZ 0 8)) (seqZ 0 8) = true) as Hall by (vm_compute; reflexivity).
  rewrite forallb_forall in Hall. specialize (Hall a (proj1 (list_elem_of_In _ _) (Hin a Ha))).
  rewrite forallb_forall in Hall. specialize (Hall b (proj1 (list_elem_of_In _ _) (Hin b Hb))).
  rewrite forallb_forall in Hall. specialize (Hall c (proj1 (list_elem_of_In _ _) (Hin c Hc))).
  rewrite forallb_forall in Hall. exact (Hall e (proj1 (list_elem_of_In _ _) (Hin e He))).
Qed.

Lemma dma_ctl_word_eq d :
  tsi148_dma_setup_ctl d = if ctl_valid (dma_ctrl d) then ctl_word (dma_ctrl d) else - EINVAL.
Proof.
  destruct (dma_ctrl d) as [a b c e] eqn:Ec.
  unfold tsi148_dma_setup_ctl, ctl_valid, ctl_word. rewrite Ec. cbn [vme_block_size vme_backoff_time pci_block_size pci_backoff_time].
  unfold VME_DMA_BSIZE_32, VME_DMA_BSIZE_4096, VME_DMA_BACKOFF_0, VME_DMA_BACKOFF_64. simpl forallb.
  rewrite andb_true_r.
  destruct (a <? 0) eqn:A1, (7 <? a) eqn:A2, (0 <=? a) eqn:A3, (a <=? 7) eqn:A4; boolp; try lia; try done.
  destruct (b <? 0) eqn:B1, (7 <? b) eqn:B2, (0 <=? b) eqn:B3, (b <=? 7) eqn:B4; boolp; try lia; try done.
  destruct (c <? 0) eqn:C1, (7 <? c) eqn:C2, (0 <=? c) eqn:C3, (c <=? 7) eqn:C4; boolp; try lia; try done.
  destruct (e <? 0) eqn:E1, (7 <? e) eqn:E2, (0 <=? e) eqn:E3, (e <=? 7) eqn:E4; boolp; try lia; try done.
  simpl. by apply ctl_word_fields.
Qed.

Lemma ctl_word_range c : ctl_valid c = true -> 0 <= ctl_word c < 2 ^ 15.
Proof. unfold ctl_valid, ctl_word. simpl. intros Hv. boolp. lia. Qed.

(** The mode bit, cleared by the setup, is not part of the word. *)
Lemma ctl_word_mod c : ctl_valid c = true -> u32 (Z.land (ctl_word c) (not32 DCTL_MOD)) = ctl_word c.
Proof.
  intros Hv. pose proof (ctl_word_range c Hv) as Hr.
  assert (Z.land (ctl_word c) (not32 DCTL_MOD) = ctl_word c) as ->.
  { change (not32 DCTL_MOD) with (Z.lnot DCTL_MOD mod 2 ^ 32).
    rewrite <- Z.land_ones, (Z.land_comm (Z.lnot _)), Z.land_assoc by lia.
    rewrite Z.land_ones, (Z.mod_small (ctl_word c)) by lia.
    apply Z.bits_inj'. intros i Hi. rewrite Z.land_spec, Z.lnot_spec by lia.
    unfold DCTL_MOD. rewrite Z.pow2_bits_eqb by lia.
    destruct (Z.eqb_spec 23 i) as [<-|]; [|apply andb_true_r].
    rewrite (testbit_above (ctl_word c) 15); done. }
  apply u32_id. unfold is_u32. lia.
Qed.

(** the control word carries the four settings in their fields when each is
    in range, and any setting out of range is refused with [-EINVAL]. *)
Lemma dma_ctl_word d :
  tsi148_dma_setup_ctl d = if ctl_valid (dma_ctrl d) then ctl_word (dma_ctrl d) else - EINVAL.
Proof. apply dma_ctl_word_eq. Qed.

(** *** Setting up a chain *)

Definition vme_start (d : vme_dma) : Z :=
  if dma_dir d =? VME_DMA_TO_DEVICE then da_addrl (dma_dst d) else da_addrl (dma_src d).

(** A channel ready for a transfer: a mapped list of non-empty entries, none of
    which touches the last 2 KiB of the PCI space, VME addresses that stay
    below 4 GiB, no descriptor yet, and a pool that grants fresh aligned
    descriptors. *)
Record transfer_ok (ch : dma_channel) (st : dstate) : Prop := {
  tr_dir : dir_ok (ch_desc ch);
  tr_list : ch_hw_desc_list ch = [];
  tr_mapped : ch_sg_mapped ch = Z.of_nat (length (ch_sgl ch));
  tr_sgl : ch_sgl ch <> [];
  tr_entries : Forall sg_ok (ch_sgl ch);
  tr_vme : 0 <= vme_start (ch_desc ch);
  tr_fits : vme_fits (ch_desc ch) (vme_start (ch_desc ch)) (ch_sgl ch);
  tr_pool : answers_ok (d_answers st) (d_pool st);
}.

Lemma bshift_range d : 0 <= tsi148_get_bshift d <= 11.
Proof. unfold tsi148_get_bshift, __tsi148_get_bshift. repeat case_goal; lia. Qed.

Lemma get_vmeaddr_start d : dir_ok d -> get_vmeaddr d = inr (vme_start d).
Proof. unfold get_vmeaddr, vme_start. by intros [-> | ->]. Qed.

Lemma owned_nil P0 st : owned P0 [] st -> d_pool st = P0.
Proof. intros [_ _ _ Hm]. apply map_eq. intros p. apply Hm. apply not_elem_of_nil. Qed.

Lemma finished_set_chip d sat dat P0 l st segs c :
  finished d sat dat P0 l st segs -> finished d sat dat P0 l (set_chip c st) segs.
Proof.
  intros (ns & q & segs0 & s & -> & -> & [Hn Ha Hf Hm] & Hl & Hq). exists ns, q, segs0, s.
  split_and!; done.
Qed.

Lemma setup_chain_spec ch sat dat st :
  transfer_ok ch st ->
  exists rc l st',
    tsi148_dma_setup_chain ch sat dat st = Done (rc, set_hw_desc_list l ch, st') /\
    (plenty (1 + sgl_total (ch_sgl ch)) st -> rc = 0) /\
    ((rc = - ENOMEM /\ l = [] /\ d_pool st' = d_pool st /\ d_chip st' = d_chip st) \/
     (rc = 0 /\ exists segs,
        cuts (ch_desc ch) (tsi148_get_bshift (ch_desc ch)) (vme_start (ch_desc ch)) (ch_sgl ch) segs /\
        finished (ch_desc ch) sat dat (d_pool st) l st' segs /\
        ioread32be (DNLAL (ch_num ch)) (d_chip st') = Z.land (default 0 (head l)) DNLAL_DNLAL_M)).
Proof.
  intros [Hdir Hlist Hmap Hne Hent Hv Hfit Hpool]. unfold tsi148_dma_setup_chain.
  assert (owned (d_pool st) (ch_hw_desc_list ch) st) as Ho0.
  { rewrite Hlist. destruct st. by apply owned_start. }
  pose proof (sgl_total_pos _ Hent) as Htot.
  destruct (hwdesc_init_spec ch st _ Ho0) as (rc & p & l & st1 & -> & Ho1 & Hc1 & Hpl1 & Hcase).
  destruct Hcase as [[-> ->]|(-> & -> & Hpa & _ & t & Hpool1)].
  { simpl. do 3 eexists. split; [done|]. split.
    - intros Hp. apply Hpl1 in Hp as [? _]; done.
    - left. rewrite Hlist in Ho1. split_and!; try done. by apply owned_nil. }
  rewrite Hlist in Ho1 |- *. simpl. rewrite get_vmeaddr_start by done.
  assert (building (ch_desc ch) sat dat (d_pool st) [p] st1 [] p) as Hbld by (by exists []).
  destruct (sg_loop_spec (ch_desc ch) sat dat (d_pool st) (tsi148_get_bshift (ch_desc ch)) (ch_sg_mapped ch)
    (ch_sgl ch) 0 (vme_start (ch_desc ch)) p (set_hw_desc_list [p] ch) st1 [])
    as (rc & l & st2 & -> & Hc2 & [l2 Hpre] & Hpl2 & Hres); try done; [apply bshift_range|].
  simpl in Hpre.
  assert (plenty (1 + sgl_total (ch_sgl ch)) st -> rc = 0) as Hpl.
  { intros Hp. apply Hpl2. by apply Hpl1 in Hp as [_ ?]. }
  destruct Hres as [[-> Ho2]|(-> & segs & Hcuts & Hfin)]; simpl.
  - do 3 eexists. split; [done|]. split; [exact Hpl|]. left. split_and!; [done..| |by simpl; rewrite Hc2].
    apply (free_chain_owned (d_pool st) (set_hw_desc_list l ch) st2 Ho2).
  - do 3 eexists. split; [done|]. split; [done|]. right. split; [done|]. exists segs.
    split; [exact Hcuts|]. split; [by apply finished_set_chip|]. cbn [d_chip set_chip]. rewrite ioread_iowrite_eq, u32_id.
    2:{ unfold DNLAL_DNLAL_M, is_u32. pose proof (land_bound_r p 0xfffffff8). lia. }
    by rewrite Hpre.
Qed.



(** *** The whole setup *)

Definition request_attr (d : vme_dma) : vme_dma_attr :=
  if dma_dir d =? VME_DMA_TO_DEVICE then dma_dst d else dma_src d.

Definition attr_valid (a : vme_dma_attr) : bool :=
  (0 <=? da_v2esst_mode a) && (da_v2esst_mode a <=? 2)
  && ((da_data_width a =? VME_D16) || (da_data_width a =? VME_D32))
  && bool_decide (is_Some (am_to_attr (da_am a))).

Definition request_valid (d : vme_dma) : bool :=
  ((dma_dir d =? VME_DMA_TO_DEVICE) || (dma_dir d =? VME_DMA_FROM_DEVICE))
  && attr_valid (request_attr d) && ctl_valid (dma_ctrl d).

Lemma attr_word_spec a :
  if attr_valid a then 0 <= attr_word a < 2 ^ 29 else attr_word a = - EINVAL.
Proof.
  unfold attr_word. rewrite dma_attributes_window. destruct (attr_valid a) eqn:E; unfold attr_valid in E.
  - apply andb_true_iff in E as [E [t Ht]%bool_decide_eq_true]. boolp.
    destruct (window_attributes_fields (da_v2esst_mode a) (da_data_width a) (da_am a) t) as [Hw _];
      [lia| |done|].
    { match goal with H : _ \/ _ |- _ => destruct H; boolp; tauto end. }
    set (w := tsi148_setup_window_attributes _ _ _) in *. rewrite (proj2 (Z.leb_le _ _)) by lia.
    split; [apply Z.lor_nonneg; split; [lia|done]|]. apply Z.log2_lt_pow2.
    { assert (Z.lor w DSAT_TYP_VME <> 0) by (intros [_ ?]%Z.lor_eq_0_iff; done).
      assert (0 <= Z.lor w DSAT_TYP_VME) by (apply Z.lor_nonneg; split; [lia|done]). lia. }
    rewrite Z.log2_lor by (lia || done). apply Z.max_lub_lt; [|done].
    destruct (decide (w = 0)) as [->|]; [done|]. apply Z.log2_lt_pow2; lia.
  - rewrite (proj2 (window_attributes_error _ _ _)); [done|]. intros (Hv & Hd & Ha).
    rewrite bool_decide_eq_true_2 in E by done. rewrite !(proj2 (Z.leb_le _ _)) in E by lia.
    destruct Hd as [Hd|Hd]; rewrite Hd in E; done.
Qed.

Lemma dma_setup_eq ch st :
  tsi148_dma_setup ch st =
    let d := ch_desc ch in
    if request_valid d then
      tsi148_dma_setup_chain (set_chained 1 ch)
        (if dma_dir d =? VME_DMA_TO_DEVICE then 0 else attr_word (dma_src d))
        (if dma_dir d =? VME_DMA_TO_DEVICE then attr_word (dma_dst d) else 0)
        (set_chip (<[DCTL (ch_num ch) := ctl_word (dma_ctrl d)]> (d_chip st)) st)
    else Done (- EINVAL, ch, st).
Proof.
  unfold tsi148_dma_setup, request_valid, request_attr. cbv zeta. set (d := ch_desc ch).
  pose proof (attr_word_spec (dma_dst d)) as Hdst. pose proof (attr_word_spec (dma_src d)) as Hsrc.
  pose proof (dma_ctl_word_eq d) as Hctl.
  assert (ctl_valid (dma_ctrl d) = true ->
    iowrite32be (Z.land (ctl_word (dma_ctrl d)) (not32 DCTL_MOD)) (DCTL (ch_num ch)) (d_chip st)
    = <[DCTL (ch_num ch) := ctl_word (dma_ctrl d)]> (d_chip st)) as Hw.
  { intros Hv. unfold iowrite32be. f_equal. by apply ctl_word_mod. }
  assert (ctl_valid (dma_ctrl d) = true -> 0 <= ctl_word (dma_ctrl d)) as Hpos
    by (intros Hv; by apply ctl_word_range).
  unfold tsi148_dma_setup_src, tsi148_dma_setup_dst.
  destruct (dma_dir d =? VME_DMA_TO_DEVICE) eqn:E1; [|destruct (dma_dir d =? VME_DMA_FROM_DEVICE) eqn:E2];
    simpl; [| |done].
  - destruct (attr_valid (dma_dst d)); [|by rewrite Hdst].
    rewrite (proj2 (Z.ltb_ge _ _)) by lia. rewrite Hctl. simpl.
    destruct (ctl_valid _) eqn:Ev; [|done]. rewrite (proj2 (Z.ltb_ge _ _)) by auto. by rewrite Hw.
  - destruct (attr_valid (dma_src d)); [|by rewrite Hsrc].
    rewrite (proj2 (Z.ltb_ge _ _)) by lia. simpl. rewrite Hctl.
    destruct (ctl_valid _) eqn:Ev; [|done]. rewrite (proj2 (Z.ltb_ge _ _)) by auto. by rewrite Hw.
Qed.

(** A setup that fails leaves no descriptor; one that succeeds is undone by the
    release of the channel. *)
Lemma dma_setup_total ch st :
  transfer_ok ch st ->
  exists rc ch' st', tsi148_dma_setup ch st = Done (rc, ch', st') /\ ch_num ch' = ch_num ch /\
    ((rc <> 0 /\ ch_hw_desc_list ch' = [] /\ d_pool st' = d_pool st) \/
     (rc = 0 /\ ch_chained ch' = 1 /\ forall c, d_pool (tsi148_dma_release ch' (set_chip c st')).2 = d_pool st)).
Proof.
  intros Ht. rewrite dma_setup_eq. cbv zeta. destruct (request_valid (ch_desc ch)).
  2:{ do 3 eexists. split; [done|]. split; [done|]. left. split_and!; [done|by destruct Ht|done]. }
  match goal with |- context [tsi148_dma_setup_chain _ ?a ?b ?s] =>
    generalize a b; intros sat dat; set (st1 := s) end.
  assert (transfer_ok (set_chained 1 ch) st1) as Ht1 by (destruct Ht; split; done).
  destruct (setup_chain_spec _ sat dat _ Ht1) as (rc & l & st' & -> & _ & Hcase).
  do 3 eexists. split; [done|]. split; [done|].
  destruct Hcase as [(-> & -> & Hp & _)|(-> & segs & _ & Hfin & _)]; [left; done|].
  right. split; [done|]. split; [done|]. intros c.
  destruct (finished_set_chip _ _ _ _ _ _ _ c Hfin) as (ns & q & ? & ? & Hl & _ & Ho & _).
  by apply (free_chain_owned (d_pool st) (set_hw_desc_list l (set_chained 1 ch)) (set_chip c st')).
Qed.

(** [tsi148_dma_setup()] refuses with [-EINVAL], before touching the chip or
    the channel, every request whose direction, address modifier, data width,
    2eSST mode or control settings the chip does not have; otherwise it writes
    the control word with the go bit clear and builds the chain with the
    attribute words of both sides. *)
Lemma dma_setup_validates ch st :
  tsi148_dma_setup ch st =
    let d := ch_desc ch in
    if request_valid d then
      tsi148_dma_setup_chain (set_chained 1 ch)
        (if dma_dir d =? VME_DMA_TO_DEVICE then 0 else attr_word (dma_src d))
        (if dma_dir d =? VME_DMA_TO_DEVICE then attr_word (dma_dst d) else 0)
        (set_chip (<[DCTL (ch_num ch) := ctl_word (dma_ctrl d)]> (d_chip st)) st)
    else Done (- EINVAL, ch, st).
Proof. apply dma_setup_eq. Qed.

(** ** Concrete instances *)

(** 768 bytes in two pages read from [0x10f80] with A32 block transfers. *)
Definition demo_dma : vme_dma :=
  Vme_dma 0 768 0 VME_DMA_FROM_DEVICE
    (Vme_dma_attr VME_D32 VME_A32_USER_BLT VME_SST160 0 0 0x10f80)
    (Vme_dma_attr VME_D32 0 VME_SST160 0 0 0x20e00) (Vme_dma_ctrl 7 0 7 0).

Definition demo_chan : dma_channel := Dma_channel 1 0 demo_dma 0 [(0x20e00, 512); (0x31000, 256)] 2 2 [].

Definition junk : tsi148_dma_desc := Tsi148_dma_desc 1 2 3 4 5 6 7 8 9 10.

Definition demo_answers (n : Z) : list alloc_answer :=
  (fun i => (Some (0x7000 + 0x40 * i, junk), true)) <$> seqZ 0 n.

Definition demo_dstate : dstate := Dstate ∅ ∅ (demo_answers 8).

Lemma demo_transfer_ok : transfer_ok demo_chan demo_dstate.
Proof.
  split; try done; try (by right).
  - repeat constructor; simpl; lia.
  - split_and!; [apply (bool_decide_unpack _); vm_compute; exact I| |].
    + simpl. repeat constructor; simpl; lia.
    + intros p _. apply lookup_empty.
Qed.


Definition demo_chain_result : Z * dma_channel * dstate :=
  match tsi148_dma_setup_chain demo_chan 1 2 demo_dstate with Done r => r | _ => (0, demo_chan, demo_dstate) end.


(** A transfer whose last byte is the last of the 32-bit VME space computes an
    end address of zero: no descriptor is written, the one that the chip will
    read keeps the contents it had in the pool. *)
Lemma transfer_to_4G_unwritten :
  let d := Vme_dma 0 4096 0 VME_DMA_FROM_DEVICE
    (Vme_dma_attr VME_D32 VME_A32_USER_BLT VME_SST160 0 0 0xfffff000)
    (Vme_dma_attr VME_D32 0 VME_SST160 0 0 0x20000) (Vme_dma_ctrl 7 0 7 0) in
  exists ch' st',
    tsi148_dma_setup_chain (Dma_channel 1 0 d 0 [(0x20000, 4096)] 1 1 []) 1 2 demo_dstate
      = Done (0, ch', st') /\ d_pool st' !! 0x7000 = Some junk.
Proof. vm_compute. eexists _, _. split; reflexivity. Qed.

(** The same in a list of two pages fails the assertion of the second call. *)
Lemma transfer_to_4G_bug :
  let d := Vme_dma 0 8192 1 VME_DMA_FROM_DEVICE
    (Vme_dma_attr VME_D32 VME_A32_USER_DATA_SCT VME_SST160 0 0 0xfffff000)
    (Vme_dma_attr VME_D32 0 VME_SST160 0 0 0x20000) (Vme_dma_ctrl 7 0 7 0) in
  tsi148_dma_setup_chain (Dma_channel 1 0 d 0 [(0x20000, 4096); (0x30000, 4096)] 2 2 []) 1 2 demo_dstate
    = Bug.
Proof. vm_compute. reflexivity. Qed.
