(* ===== verification/VmeIrq.v ===== *)
(** * Interrupts and bus errors ([vme_irq.c], [vme_misc.c], inlines of [tsi148.h])

    The vector table, the interrupt statistics, the enable mask and its shadow,
    the last bus error and the list of bus-error handlers.  What the bridge
    presents during one pass of the interrupt handler (interrupt status,
    vectors returned by IACK cycles, latched error address) is the record
    [hwin]; functions called through pointers, wake-ups and interrupt clears
    are the events of a log. *)

From stdpp Require Import strings.
From S2P Require Import Prelude VmeBus Tsi148.

(** ** Data *)

(** [struct vme_irq]; a function or data pointer is a number, 0 is NULL. *)
Record vme_irq := Vme_irq {
  virq_handler : Z;
  virq_arg : Z;
  virq_count : Z;
  virq_name : option string;
}.

Definition vme_irq_zero : vme_irq := Vme_irq 0 0 0 None.
Definition VME_NUM_VECTORS : Z := 256.

(** [enum interrupt_idx] *)
Definition INT_DMA0 : Z := 0.
Definition INT_DMA1 : Z := 1.
Definition INT_MB0 : Z := 2.
Definition INT_MB1 : Z := 3.
Definition INT_MB2 : Z := 4.
Definition INT_MB3 : Z := 5.
Definition INT_LM0 : Z := 6.
Definition INT_LM1 : Z := 7.
Definition INT_LM2 : Z := 8.
Definition INT_LM3 : Z := 9.
Definition INT_IRQ1 : Z := 10.
Definition INT_PERR : Z := 17.
Definition INT_VERR : Z := 18.
Definition INT_SPURIOUS : Z := 19.

(** [struct vme_berr_handler]; [bh_addr] is its own address. *)
Record vme_berr_handler := Vme_berr_handler {
  bh_addr : Z;
  bh_error : vme_bus_error;
  bh_size : Z;
  bh_func : Z;
}.

#[export] Instance vme_bus_error_eq_dec : EqDecision vme_bus_error.
Proof. solve_decision. Defined.

Inductive iev :=
  | EvClear (mask : Z)                      (* interrupt status cleared *)
  | EvWake (channel : Z)                    (* DMA wait queue woken *)
  | EvHandler (handler arg : Z)             (* VME interrupt handler called *)
  | EvBerr (func : Z) (err : vme_bus_error). (* bus-error handler called *)

Record istate := Istate {
  irq_table : list vme_irq;
  int_stats : list Z;
  vme_interrupts_enabled : Z;
  ichip : chip;
  verr_desc : vme_bus_error_desc;
  verr_list : list vme_berr_handler;
  ilog : list iev;
}.

Definition set_irq_table (t : list vme_irq) (st : istate) : istate :=
  Istate t (int_stats st) (vme_interrupts_enabled st) (ichip st) (verr_desc st) (verr_list st) (ilog st).
Definition set_stats (t : list Z) (st : istate) : istate :=
  Istate (irq_table st) t (vme_interrupts_enabled st) (ichip st) (verr_desc st) (verr_list st) (ilog st).
Definition set_enabled (v : Z) (st : istate) : istate :=
  Istate (irq_table st) (int_stats st) v (ichip st) (verr_desc st) (verr_list st) (ilog st).
Definition set_ichip (c : chip) (st : istate) : istate :=
  Istate (irq_table st) (int_stats st) (vme_interrupts_enabled st) c (verr_desc st) (verr_list st) (ilog st).
Definition set_verr_desc (d : vme_bus_error_desc) (st : istate) : istate :=
  Istate (irq_table st) (int_stats st) (vme_interrupts_enabled st) (ichip st) d (verr_list st) (ilog st).
Definition set_verr_list (l : list vme_berr_handler) (st : istate) : istate :=
  Istate (irq_table st) (int_stats st) (vme_interrupts_enabled st) (ichip st) (verr_desc st) l (ilog st).
Definition emit (e : iev) (st : istate) : istate :=
  Istate (irq_table st) (int_stats st) (vme_interrupts_enabled st) (ichip st) (verr_desc st)
    (verr_list st) (ilog st ++ [e]).

(** What the bridge presents during one pass. *)
Record hwin := Hwin {
  hw_raised : Z;
  hw_viack : Z -> Z;
  hw_veau : Z;
  hw_veal : Z;
  hw_veat : Z;
}.

Definition latch (h : hwin) (c : chip) : chip :=
  <[INTS := hw_raised h]> (<[VEAU := hw_veau h]> (<[VEAL := hw_veal h]> (<[VEAT := hw_veat h]> c))).

(** ** Masks *)

Definition INT_DMA_SHIFT : Z := 24.
Definition INT_DMA_M : Z := 3 * 2 ^ 24.
Definition INT_LM_SHIFT : Z := 20.
Definition INT_LM_M : Z := 0xf * 2 ^ 20.
Definition INT_MB_SHIFT : Z := 16.
Definition INT_MB_M : Z := 0xf * 2 ^ 16.
Definition INT_PERR_BIT : Z := 2 ^ 13.
Definition INT_VERR_BIT : Z := 2 ^ 12.
Definition INT_IRQM : Z := 0x7f * 2.
Definition VEAT_VES : Z := 2 ^ 31.
Definition VEAT_AM_SHIFT : Z := 8.
Definition VEAT_AM : Z := 0x3f * 2 ^ 8.
Definition VICR_IRQS : Z := 2 ^ 11.
Definition VICR_IRQL_M : Z := 7 * 2 ^ 8.
Definition VICR_STID_M : Z := 0xff.

(** ** Register accessors of [tsi148.h] *)

Definition tsi148_get_slotnum (c : chip) : Z := Z.land (ioread32be VSTAT c) 0x1f.
Definition tsi148_get_syscon (c : chip) : Z := if truthy (Z.land (ioread32be VSTAT c) 0x100) then 1 else 0.

Definition tsi148_set_interrupts (mask : Z) (c : chip) : Z * chip :=
  let c := iowrite32be mask INTEO c in
  let c := iowrite32be mask INTEN c in
  (if negb (ioread32be INTEO c =? mask) || negb (ioread32be INTEN c =? mask) then -1 else 0, c).

Definition tsi148_get_int_enabled (c : chip) : Z := ioread32be INTEO c.
Definition tsi148_get_int_status (c : chip) : Z := ioread32be INTS c.
Definition tsi148_clear_int (mask : Z) (c : chip) : chip := iowrite32be mask INTC c.
Definition tsi148_iack8 (h : hwin) (irq : Z) : Z := Z.land (u8 (hw_viack h irq)) 0xff.

Definition tsi148_bus_error_chk (clear : Z) (c : chip) : Z * chip :=
  let veat := ioread32be VEAT c in
  if truthy (Z.land veat VEAT_VES)
  then (1, if truthy clear then iowrite32be VEAT_VESCL VEAT c else c)
  else (0, c).

(** ** Errors reported by the bridge *)

Definition reg_join (high low : Z) : Z := Z.lor (Z.shiftl high 32) low.

Definition tsi148_handle_pci_error (c : chip) : chip := iowrite32be EDPAT_EDPCL EDPAT c.

Definition tsi148_handle_vme_error (c : chip) : vme_bus_error * chip :=
  let addru := ioread32be VEAU c in
  let addrl := ioread32be VEAL c in
  let address := reg_join addru addrl in
  let attr := ioread32be VEAT c in
  let a := Z.shiftr (Z.land attr VEAT_AM) VEAT_AM_SHIFT in
  (Vme_bus_error address a, iowrite32be VEAT_VESCL VEAT c).

(** ** Handlers *)

Definition bump (i : Z) (st : istate) : istate :=
  set_stats (alter (fun n => u32 (n + 1)) (Z.to_nat i) (int_stats st)) st.

(** [if (mask & bit) int_stats[i].count++] *)
Definition bump_if (mask bit i : Z) (st : istate) : istate :=
  if truthy (Z.land mask bit) then bump i st else st.

Definition account_dma_interrupt (channel_mask : Z) (st : istate) : istate :=
  let st := bump_if channel_mask 1 INT_DMA0 st in
  bump_if channel_mask 2 INT_DMA1 st.

Definition handle_dma_interrupt (channel_mask : Z) (st : istate) : istate :=
  let st := if truthy (Z.land channel_mask 1) then emit (EvWake 0) st else st in
  let st := if truthy (Z.land channel_mask 2) then emit (EvWake 1) st else st in
  account_dma_interrupt channel_mask st.

Definition handle_pci_error (st : istate) : istate :=
  bump INT_PERR (set_ichip (tsi148_handle_pci_error (ichip st)) st).

Definition vme_berr_match (err : vme_bus_error) (h : vme_berr_handler) : bool :=
  let e := bh_error h in
  (be_am err =? be_am e) && (be_address e <=? be_address err)
  && (be_address err <? u64 (be_address e + bh_size h)).

Definition __vme_dispatch_berr (err : vme_bus_error) (st : istate) : istate :=
  foldl (fun st h => if vme_berr_match err h then emit (EvBerr (bh_func h) err) st else st)
    st (verr_list st).

Definition handle_vme_error (st : istate) : istate :=
  let '(err, c) := tsi148_handle_vme_error (ichip st) in
  let st := set_ichip c st in
  let st := set_verr_desc (Vme_bus_error_desc err 1) st in
  let st := __vme_dispatch_berr err st in
  bump INT_VERR st.

Definition handle_mbox_interrupt (mb_mask : Z) (st : istate) : istate :=
  let st := bump_if mb_mask 1 INT_MB0 st in
  let st := bump_if mb_mask 2 INT_MB1 st in
  let st := bump_if mb_mask 4 INT_MB2 st in
  bump_if mb_mask 8 INT_MB3 st.

Definition handle_lm_interrupt (lm_mask : Z) (st : istate) : istate :=
  let st := bump_if lm_mask 1 INT_LM0 st in
  let st := bump_if lm_mask 2 INT_LM1 st in
  let st := bump_if lm_mask 4 INT_LM2 st in
  bump_if lm_mask 8 INT_LM3 st.

Definition get_virq (st : istate) (vec : Z) : vme_irq := default vme_irq_zero (irq_table st !! Z.to_nat vec).
Definition set_virq (vec : Z) (v : vme_irq) (st : istate) : istate :=
  set_irq_table (<[Z.to_nat vec := v]> (irq_table st)) st.

(** The body of the loop of [handle_vme_interrupt()] for level [i]. *)
Definition vme_level (h : hwin) (irq_mask i : Z) (st : istate) : istate :=
  if truthy (Z.land irq_mask (Z.shiftl 1 i)) then
    let vec := tsi148_iack8 h i in
    let virq := get_virq st vec in
    let st :=
      if truthy (virq_handler virq) then
        let st := set_virq vec (Vme_irq (virq_handler virq) (virq_arg virq)
                                  (s32 (virq_count virq + 1)) (virq_name virq)) st in
        emit (EvHandler (virq_handler virq) (virq_arg virq)) st
      else st in
    bump (INT_IRQ1 + i - 1) st
  else st.

Definition handle_vme_interrupt (h : hwin) (irq_mask : Z) (st : istate) : istate :=
  foldl (fun st i => vme_level h irq_mask i st) st [7; 6; 5; 4; 3; 2; 1].

(** ** [vme_bridge_interrupt()] *)

Definition IRQ_NONE : Z := 0.
Definition IRQ_HANDLED : Z := 1.

(** [if (mask & bits) { f; mask &= ~bits; }] *)
Definition serve (bits : Z) (f : istate -> istate) (p : Z * istate) : Z * istate :=
  let '(mask, st) := p in
  if truthy (Z.land mask bits) then (Z.land mask (not32 bits), f st) else (mask, st).

(** The handlers of one pass; the bits left are only reported. *)
Definition serve_all (h : hwin) (mask : Z) (st : istate) : Z * istate :=
  let '(mask, st) :=
    serve INT_DMA_M (handle_dma_interrupt (Z.shiftr (Z.land mask INT_DMA_M) INT_DMA_SHIFT)) (mask, st) in
  let '(mask, st) := serve INT_PERR_BIT handle_pci_error (mask, st) in
  let '(mask, st) := serve INT_VERR_BIT handle_vme_error (mask, st) in
  let '(mask, st) :=
    serve INT_MB_M (handle_mbox_interrupt (Z.shiftr (Z.land mask INT_MB_M) INT_MB_SHIFT)) (mask, st) in
  let '(mask, st) :=
    serve INT_LM_M (handle_lm_interrupt (Z.shiftr (Z.land mask INT_LM_M) INT_LM_SHIFT)) (mask, st) in
  serve INT_IRQM (handle_vme_interrupt h (Z.land mask INT_IRQM)) (mask, st).

(** The [while] loop; [hs] is what the bridge presents at each read of its
    status, which is zero once they are exhausted. *)
Fixpoint vme_bridge_interrupt (hs : list hwin) (st : istate) : Z * istate :=
  match hs with
  | [] => (IRQ_HANDLED, st)
  | h :: hs =>
      let st := set_ichip (latch h (ichip st)) st in
      let raised := tsi148_get_int_status (ichip st) in
      if raised =? 0 then (IRQ_HANDLED, st) else
      let st := emit (EvClear raised) (set_ichip (tsi148_clear_int raised (ichip st)) st) in
      let mask := Z.land raised (vme_interrupts_enabled st) in
      if mask =? 0 then (IRQ_NONE, bump INT_SPURIOUS st) else
      let '(_, st) := serve_all h mask st in
      vme_bridge_interrupt hs st
  end.

(** ** Enabling and disabling *)

Definition vme_enable_interrupts (mask : Z) (st : istate) : Z * istate :=
  let enabled := tsi148_get_int_enabled (ichip st) in
  let new := Z.lor enabled mask in
  let st := set_enabled new st in
  let '(rc, c) := tsi148_set_interrupts new (ichip st) in
  (rc, set_ichip c st).

Definition vme_disable_interrupts (mask : Z) (st : istate) : Z * istate :=
  let enabled := tsi148_get_int_enabled (ichip st) in
  let new := Z.land enabled (not32 mask) in
  let st := set_enabled new st in
  let '(rc, c) := tsi148_set_interrupts new (ichip st) in
  (rc, set_ichip c st).

(** [vme_bridge_init_interrupts()]: [irq_rc] is the result of the kernel's
    [request_irq()]; the seven VME levels are enabled on the system
    controller only. *)
Definition INT_DMA1_BIT : Z := 2 ^ 25.
Definition INT_DMA0_BIT : Z := 2 ^ 24.
Definition INT_LM3_BIT : Z := 2 ^ 23.
Definition INT_LM2_BIT : Z := 2 ^ 22.
Definition INT_LM1_BIT : Z := 2 ^ 21.
Definition INT_LM0_BIT : Z := 2 ^ 20.
Definition INT_MB3_BIT : Z := 2 ^ 19.
Definition INT_MB2_BIT : Z := 2 ^ 18.
Definition INT_MB1_BIT : Z := 2 ^ 17.
Definition INT_MB0_BIT : Z := 2 ^ 16.
Definition INT_IRQ7_BIT : Z := 2 ^ 7.
Definition INT_IRQ6_BIT : Z := 2 ^ 6.
Definition INT_IRQ5_BIT : Z := 2 ^ 5.
Definition INT_IRQ4_BIT : Z := 2 ^ 4.
Definition INT_IRQ3_BIT : Z := 2 ^ 3.
Definition INT_IRQ2_BIT : Z := 2 ^ 2.
Definition INT_IRQ1_BIT : Z := 2 ^ 1.

Definition init_intmask (syscon : Z) : Z :=
  let intmask := foldl Z.lor 0
    [INT_DMA1_BIT; INT_DMA0_BIT; INT_LM3_BIT; INT_LM2_BIT; INT_LM1_BIT; INT_LM0_BIT;
     INT_MB3_BIT; INT_MB2_BIT; INT_MB1_BIT; INT_MB0_BIT; INT_PERR_BIT; INT_VERR_BIT] in
  if truthy syscon then
    Z.lor intmask (foldl Z.lor 0
      [INT_IRQ7_BIT; INT_IRQ6_BIT; INT_IRQ5_BIT; INT_IRQ4_BIT; INT_IRQ3_BIT; INT_IRQ2_BIT; INT_IRQ1_BIT])
  else intmask.

Definition vme_bridge_init_interrupts (irq_rc syscon : Z) (st : istate) : Z * istate :=
  if truthy irq_rc then (irq_rc, st) else
  let '(rc, st) := vme_enable_interrupts (init_intmask syscon) st in
  if truthy rc then (- ENODEV, st) else (0, st).

(** ** The vector table; [intr] is the result of the interruptible lock. *)

Definition vme_request_irq (intr vec handler arg : Z) (name : option string) (st : istate) : Z * istate :=
  if VME_NUM_VECTORS <=? vec then (- EINVAL, st) else
  if truthy intr then (intr, st) else
  let virq := get_virq st vec in
  if truthy (virq_handler virq) then (- EBUSY, st) else
  (0, set_virq vec (Vme_irq handler arg 0 (Some (default "Unknown"%string name))) st).

Definition vme_free_irq (intr vec : Z) (st : istate) : Z * istate :=
  if VME_NUM_VECTORS <=? vec then (- EINVAL, st) else
  if truthy intr then (intr, st) else
  let virq := get_virq st vec in
  if negb (truthy (virq_handler virq)) then (- EINVAL, st) else
  (0, set_virq vec vme_irq_zero st).

(** ** Bus errors *)

Definition vme_bus_error_check (clear : Z) (st : istate) : Z * istate :=
  let '(r, c) := tsi148_bus_error_chk clear (ichip st) in (r, set_ichip c st).

Definition __vme_bus_error_check_clear (err : vme_bus_error) (st : istate) : Z * istate :=
  let desc := verr_desc st in
  if truthy (bed_valid desc) && (be_am (bed_error desc) =? be_am err)
     && (be_address (bed_error desc) =? be_address err)
  then (1, set_verr_desc (Vme_bus_error_desc (bed_error desc) 0) st)
  else (0, st).

Definition vme_bus_error_check_clear (err : vme_bus_error) (st : istate) : Z * istate :=
  __vme_bus_error_check_clear err st.

(** [kz] is the address [kzalloc()] returns, 0 on failure; an [ERR_PTR] is [inl]. *)
Definition vme_register_berr_handler (kz : Z) (err : vme_bus_error) (size func : Z) (st : istate)
    : (Z + Z) * istate :=
  if size =? 0 then (inl (- EINVAL), st) else
  if kz =? 0 then (inl (- ENOMEM), st) else
  (inr kz, set_verr_list (verr_list st ++ [Vme_berr_handler kz err size func]) st).

Fixpoint del_handler (addr : Z) (l : list vme_berr_handler) : list vme_berr_handler :=
  match l with
  | [] => []
  | h :: l => if bh_addr h =? addr then l else h :: del_handler addr l
  end.

Definition vme_unregister_berr_handler (addr : Z) (st : istate) : istate :=
  set_verr_list (del_handler addr (verr_list st)) st.

(** ** Generating an interrupt

    [vicr] is the register at entry; [polls] are the values it has at each test
    of the wait loop, with the jiffies [schedule_timeout()] leaves after the
    sleep that follows; [last] is its value when tested after the loop. The
    result is the return code and the words written; [None] when the polls do
    not end the loop. *)

Fixpoint wait_iack (polls : list (Z * Z)) : option unit :=
  match polls with
  | [] => None
  | (v, timeout) :: polls =>
      if truthy (Z.land v VICR_IRQS) then
        if timeout =? 0 then Some tt else wait_iack polls
      else Some tt
  end.

Definition tsi148_generate_interrupt (level vector vicr : Z) (polls : list (Z * Z)) (last : Z)
    : option (Z * list Z) :=
  if (level <? 1) || (7 <? level) then Some (- EINVAL, []) else
  if (vector <? 0) || (255 <? vector) then Some (- EINVAL, []) else
  let val := Z.land vicr (not32 VICR_STID_M) in
  let val := Z.lor val (Z.lor (Z.shiftl level 8) vector) in
  match wait_iack polls with
  | None => None
  | Some _ =>
      if truthy (Z.land last VICR_IRQS) then
        let v := Z.land last (not32 (Z.lor VICR_IRQL_M VICR_STID_M)) in
        Some (- ETIME, [u32 val; u32 (Z.lor v VICR_IRQC)])
      else Some (0, [u32 val])
  end.

Definition vme_generate_interrupt := tsi148_generate_interrupt.
