(* ===== verification/VmeIrqInv.v ===== *)
(** * Interrupt dispatch is complete and exact

    One pass of the interrupt handler counts each raised and enabled source
    once, calls the handler of each vector acknowledged, highest level first,
    and records the bus error it latched; the vector table refines a partial
    map; the enable mask in memory and the two enable registers agree in every
    reachable state. *)

From stdpp Require Import strings.
From S2P Require Import Prelude VmeBus Tsi148 VmeIrq.

(** ** Statistics *)

Definition get_stat (st : istate) (j : Z) : Z := default 0 (int_stats st !! Z.to_nat j).

Definition stats_ok (st : istate) : Prop := length (int_stats st) = 20%nat.
Definition stat_idx (j : Z) : Prop := 0 <= j < 20.

(** Interrupt status bit that a counter counts. *)
Definition stat_bit (j : Z) : option Z :=
  if j <? 2 then Some (j + 24)
  else if j <? 6 then Some (j - 2 + 16)
  else if j <? 10 then Some (j - 6 + 20)
  else if j <? 17 then Some (j - 10 + 1)
  else if j =? 17 then Some 13
  else if j =? 18 then Some 12
  else None.

Definition plus_if (b : bool) (n : Z) : Z := if b then u32 (n + 1) else n.

Lemma get_stat_bump i j st :
  stats_ok st -> stat_idx i -> stat_idx j -> get_stat (bump i st) j = plus_if (i =? j) (get_stat st j).
Proof.
  intros Hl Hi Hj. unfold get_stat, bump, plus_if. simpl. unfold stats_ok, stat_idx in *.
  destruct (Z.eqb_spec i j) as [->|Hne].
  - rewrite list_lookup_alter_eq. destruct (lookup_lt_is_Some_2 (int_stats st) (Z.to_nat j)) as [x Hx]; [lia|].
    by rewrite Hx.
  - rewrite list_lookup_alter_ne by lia. done.
Qed.

Lemma stats_ok_bump i st : stats_ok st -> stats_ok (bump i st).
Proof. unfold stats_ok, bump. simpl. by rewrite length_alter. Qed.

Lemma get_stat_bump_if m b i j st :
  stats_ok st -> stat_idx i -> stat_idx j ->
  get_stat (bump_if m b i st) j = plus_if (truthy (Z.land m b) && (i =? j)) (get_stat st j).
Proof. intros. unfold bump_if. destruct (truthy _); [by rewrite get_stat_bump|done]. Qed.

Lemma stats_ok_bump_if m b i st : stats_ok st -> stats_ok (bump_if m b i st).
Proof. intros. unfold bump_if. destruct (truthy _); [by apply stats_ok_bump|done]. Qed.

#[local] Hint Resolve stats_ok_bump stats_ok_bump_if : mach.

Lemma truthy_bit m k b : b = 2 ^ k -> 0 <= k -> truthy (Z.land m b) = Z.testbit m k.
Proof. intros -> Hk. by apply truthy_land_pow2. Qed.

(** Four counters in a row, for the mail boxes and the location monitors. *)
Lemma four_counters m base j st :
  stats_ok st -> 0 <= base <= 16 -> stat_idx j ->
  get_stat (bump_if m 8 (base + 3) (bump_if m 4 (base + 2) (bump_if m 2 (base + 1) (bump_if m 1 base st)))) j
  = plus_if ((base <=? j) && (j <? base + 4) && Z.testbit m (j - base)) (get_stat st j).
Proof.
  intros Hs Hb Hj. unfold stat_idx in *.
  repeat (rewrite get_stat_bump_if; [|eauto 6 with mach|unfold stat_idx; lia|done]).
  rewrite (truthy_bit m 0 1), (truthy_bit m 1 2), (truthy_bit m 2 4), (truthy_bit m 3 8) by (done || lia).
  destruct (Z.leb_spec base j), (Z.ltb_spec j (base + 4)); simpl;
    try (rewrite !(proj2 (Z.eqb_neq _ j)), !andb_false_r by lia; done).
  assert (j = base \/ j = base + 1 \/ j = base + 2 \/ j = base + 3) as Hc by lia.
  destruct Hc as [-> | [-> | [-> | ->]]].
  all: repeat match goal with |- context [?a =? ?b] =>
         first [rewrite (proj2 (Z.eqb_eq a b)) by lia | rewrite (proj2 (Z.eqb_neq a b)) by lia] end.
  all: rewrite ?andb_false_r, ?andb_true_r; unfold plus_if; try done.
  all: rewrite ?Z.sub_diag; try done.
  - by replace (base + 1 - base) with 1 by lia.
  - by replace (base + 2 - base) with 2 by lia.
  - by replace (base + 3 - base) with 3 by lia.
Qed.

Lemma dma_counters m j st :
  stats_ok st -> stat_idx j ->
  get_stat (handle_dma_interrupt m st) j = plus_if ((j <? 2) && Z.testbit m j) (get_stat st j).
Proof.
  intros Hs Hj. unfold handle_dma_interrupt, account_dma_interrupt.
  set (st1 := if truthy (Z.land m 1) then emit _ _ else st).
  assert (stats_ok st1 /\ forall j, get_stat st1 j = get_stat st j) as [Hs1 Hg1]
    by (subst st1; destruct (truthy (Z.land m 1)); split; done).
  set (st2 := if truthy (Z.land m 2) then emit _ _ else st1).
  assert (stats_ok st2 /\ forall j, get_stat st2 j = get_stat st1 j) as [Hs2 Hg2]
    by (subst st2; destruct (truthy (Z.land m 2)); split; done).
  repeat (rewrite get_stat_bump_if; [|eauto with mach|unfold stat_idx, INT_DMA0, INT_DMA1; lia|done]).
  rewrite Hg2, Hg1, (truthy_bit m 0 1), (truthy_bit m 1 2) by done.
  unfold INT_DMA0, INT_DMA1, plus_if. unfold stat_idx in Hj.
  destruct (Z.ltb_spec j 2).
  - assert (j = 0 \/ j = 1) as [-> | ->] by lia; simpl; rewrite ?andb_true_r, ?andb_false_r; done.
  - rewrite !(proj2 (Z.eqb_neq _ j)), !andb_false_r by lia. done.
Qed.

(** ** VME levels *)

Lemma set_virq_stats vec v st : int_stats (set_virq vec v st) = int_stats st.
Proof. done. Qed.

Lemma level_counter h m i j st :
  stats_ok st -> 1 <= i <= 7 -> stat_idx j ->
  stats_ok (vme_level h m i st) /\
  get_stat (vme_level h m i st) j = plus_if (Z.testbit m i && (i + 9 =? j)) (get_stat st j).
Proof.
  intros Hs Hi Hj. unfold vme_level. rewrite Z.shiftl_1_l, truthy_land_pow2 by lia.
  destruct (Z.testbit m i); [|done]. cbv zeta. set (st1 := if truthy _ then _ else st).
  assert (int_stats st1 = int_stats st) as E by (subst st1; by destruct (truthy _)).
  assert (stats_ok st1) as Hs1 by (unfold stats_ok; by rewrite E).
  split; [by apply stats_ok_bump|]. unfold INT_IRQ1.
  rewrite get_stat_bump by (done || (unfold stat_idx; lia)).
  replace (10 + i - 1) with (i + 9) by lia. simpl. unfold get_stat. by rewrite E.
Qed.

Lemma level_counters h m j st :
  stats_ok st -> stat_idx j ->
  stats_ok (handle_vme_interrupt h m st) /\
  get_stat (handle_vme_interrupt h m st) j
  = plus_if ((10 <=? j) && (j <? 17) && Z.testbit m (j - 9)) (get_stat st j).
Proof.
  intros Hs Hj. unfold handle_vme_interrupt.
  assert (forall l st, stats_ok st -> NoDup l -> (forall i, i ∈ l -> 1 <= i <= 7) ->
    stats_ok (foldl (fun st i => vme_level h m i st) st l) /\
    get_stat (foldl (fun st i => vme_level h m i st) st l) j
    = plus_if (bool_decide (j - 9 ∈ l) && Z.testbit m (j - 9)) (get_stat st j)) as Hgen.
  { clear st Hs. induction l as [|i l IH]; intros st Hs Hn Hl; simpl; [done|].
    apply NoDup_cons in Hn as [Hi Hn].
    destruct (level_counter h m i j st Hs) as [Hs1 Hg]; [apply Hl; by left|done|].
    destruct (IH (vme_level h m i st)) as [Hs2 ->]; [done..|intros; apply Hl; by right|].
    split; [done|]. rewrite Hg. destruct (Z.eqb_spec (i + 9) j) as [<-|Hne].
    - replace (i + 9 - 9) with i by lia. rewrite bool_decide_eq_false_2 by done.
      rewrite bool_decide_eq_true_2 by (by left). simpl. by rewrite andb_true_r.
    - rewrite andb_false_r. simpl. f_equal. f_equal. apply bool_decide_ext.
      rewrite elem_of_cons. split; [by right|intros [?|?]; [lia|done]]. }
  destruct (Hgen [7; 6; 5; 4; 3; 2; 1] st Hs) as [Hs' ->].
  - apply (bool_decide_unpack _). vm_compute. exact I.
  - intros i Hi. repeat (apply elem_of_cons in Hi as [->|Hi]; [lia|]). by apply not_elem_of_nil in Hi.
  - split; [done|]. f_equal. f_equal.
    destruct (Z.leb_spec 10 j), (Z.ltb_spec j 17); simpl.
    + apply bool_decide_eq_true. rewrite !elem_of_cons. lia.
    + apply bool_decide_eq_false. rewrite !elem_of_cons, elem_of_nil. lia.
    + apply bool_decide_eq_false. rewrite !elem_of_cons, elem_of_nil. lia.
    + apply bool_decide_eq_false. rewrite !elem_of_cons, elem_of_nil. lia.
Qed.

(** ** One pass *)

Lemma serve_mask bits f m st i :
  0 <= i < 32 ->
  Z.testbit (serve bits f (m, st)).1 i = Z.testbit m i && negb (Z.testbit bits i).
Proof.
  intros Hi. unfold serve. destruct (truthy (Z.land m bits)) eqn:E; simpl.
  - unfold not32. rewrite Z.land_spec, testbit_u32, Z.lnot_spec by lia. done.
  - unfold truthy in E. boolp. assert (Z.testbit (Z.land m bits) i = false) as Hb by (by rewrite E, Z.bits_0).
    rewrite Z.land_spec in Hb. by destruct (Z.testbit m i), (Z.testbit bits i).
Qed.

Lemma serve_run bits f m st :
  (serve bits f (m, st)).2 = if truthy (Z.land m bits) then f st else st.
Proof. unfold serve. by destruct (truthy _). Qed.

(** A handler whose counters are those of [bits] can be run unconditionally. *)
Lemma serve_counters bits f m st j (P : Z -> bool) :
  (Z.land m bits <> 0 -> get_stat (f st) j = plus_if (P j) (get_stat st j)) ->
  (Z.land m bits = 0 -> P j = false) ->
  get_stat (serve bits f (m, st)).2 j = plus_if (P j) (get_stat st j).
Proof.
  intros Hf HP. rewrite serve_run. destruct (truthy _) eqn:E; unfold truthy in E; boolp; [by apply Hf|].
  by rewrite HP.
Qed.

Lemma shifted_mask_bit m w s k :
  0 <= s -> 0 <= w -> 0 <= k < w ->
  Z.testbit (Z.shiftr (Z.land m (Z.ones w * 2 ^ s)) s) k = Z.testbit m (k + s).
Proof.
  intros. rewrite Z.shiftr_spec, Z.land_spec by lia. rewrite <- Z.shiftl_mul_pow2 by lia.
  rewrite Z.shiftl_spec by lia. replace (k + s - s) with k by lia.
  rewrite Z.ones_spec_low by lia. apply andb_true_r.
Qed.

Lemma land_ones_zero m w s k :
  0 <= s -> 0 <= k < w -> Z.land m (Z.ones w * 2 ^ s) = 0 -> Z.testbit m (k + s) = false.
Proof.
  intros Hs Hk E. rewrite <- (shifted_mask_bit m w s k) by lia. rewrite E.
  rewrite Z.shiftr_0_l. apply Z.bits_0.
Qed.

(** The parts of the state that dispatching a bus error leaves alone: all but
    the log. *)
Definition same_but_log (st st' : istate) : Prop :=
  int_stats st' = int_stats st /\ irq_table st' = irq_table st /\ ichip st' = ichip st /\
  verr_desc st' = verr_desc st /\ verr_list st' = verr_list st /\
  vme_interrupts_enabled st' = vme_interrupts_enabled st.

Lemma dispatch_berr_frame err st : same_but_log st (__vme_dispatch_berr err st).
Proof.
  unfold __vme_dispatch_berr. generalize (verr_list st) as l. intros l.
  revert st. induction l as [|h l IH]; intros st; simpl; [done|].
  destruct (vme_berr_match err h); [|apply IH]. exact (IH (emit (EvBerr (bh_func h) err) st)).
Qed.

Lemma serve_stats_ok bits f p :
  stats_ok p.2 -> (stats_ok p.2 -> stats_ok (f p.2)) -> stats_ok (serve bits f p).2.
Proof. destruct p as [m st]. rewrite serve_run. simpl. destruct (truthy _); auto. Qed.

Lemma handle_vme_error_stats st j :
  stats_ok st -> stat_idx j ->
  stats_ok (handle_vme_error st) /\ get_stat (handle_vme_error st) j = plus_if (18 =? j) (get_stat st j).
Proof.
  intros Hs Hj. unfold handle_vme_error. destruct (tsi148_handle_vme_error _) as [err c].
  set (st1 := set_verr_desc _ _). destruct (dispatch_berr_frame err st1) as (E & _).
  assert (stats_ok (__vme_dispatch_berr err st1)) as Hs1 by (unfold stats_ok; by rewrite E).
  split; [by apply stats_ok_bump|]. unfold INT_VERR.
  rewrite get_stat_bump by (done || (unfold stat_idx; lia)). unfold get_stat. by rewrite E.
Qed.

Lemma handle_pci_error_stats st j :
  stats_ok st -> stat_idx j ->
  stats_ok (handle_pci_error st) /\ get_stat (handle_pci_error st) j = plus_if (17 =? j) (get_stat st j).
Proof.
  intros Hs Hj. unfold handle_pci_error. split; [by apply stats_ok_bump|]. unfold INT_PERR.
  rewrite get_stat_bump by (done || (unfold stat_idx; lia)). done.
Qed.

Lemma dma_stats_ok m st : stats_ok st -> stats_ok (handle_dma_interrupt m st).
Proof.
  intros Hs. unfold handle_dma_interrupt, account_dma_interrupt.
  do 2 apply stats_ok_bump_if. by destruct (truthy (Z.land m 1)), (truthy (Z.land m 2)).
Qed.

Lemma mbox_stats_ok m st : stats_ok st -> stats_ok (handle_mbox_interrupt m st).
Proof. intros Hs. by do 4 apply stats_ok_bump_if. Qed.

Lemma lm_stats_ok m st : stats_ok st -> stats_ok (handle_lm_interrupt m st).
Proof. intros Hs. by do 4 apply stats_ok_bump_if. Qed.

(** The counters of each handler, conditioned by the bits it serves. *)
Lemma serve_dma_counters m st j :
  stats_ok st -> stat_idx j ->
  get_stat (serve INT_DMA_M (handle_dma_interrupt (Z.shiftr (Z.land m INT_DMA_M) INT_DMA_SHIFT)) (m, st)).2 j
  = plus_if ((j <? 2) && Z.testbit m (j + 24)) (get_stat st j).
Proof.
  intros Hs Hj. unfold stat_idx in Hj.
  apply (serve_counters _ _ _ _ _ (fun j => (j <? 2) && Z.testbit m (j + 24))).
  - intros _. rewrite dma_counters by done. f_equal. destruct (Z.ltb_spec j 2); [|done]. simpl.
    by apply (shifted_mask_bit m 2 24 j); lia.
  - intros E. destruct (Z.ltb_spec j 2); [|done]. simpl. apply (land_ones_zero m 2 24); [lia..|exact E].
Qed.

Lemma serve_mb_counters m st j :
  stats_ok st -> stat_idx j ->
  get_stat (serve INT_MB_M (handle_mbox_interrupt (Z.shiftr (Z.land m INT_MB_M) INT_MB_SHIFT)) (m, st)).2 j
  = plus_if ((2 <=? j) && (j <? 6) && Z.testbit m (j - 2 + 16)) (get_stat st j).
Proof.
  intros Hs Hj. unfold stat_idx in Hj.
  apply (serve_counters _ _ _ _ _ (fun j => (2 <=? j) && (j <? 6) && Z.testbit m (j - 2 + 16))).
  - intros _. etrans; [apply (four_counters _ 2 j st); (done || lia)|]. f_equal.
    change (2 + 4) with 6. destruct (Z.leb_spec 2 j), (Z.ltb_spec j 6); simpl; try done.
    by apply (shifted_mask_bit m 4 16 (j - 2)); lia.
  - intros E. destruct (Z.leb_spec 2 j), (Z.ltb_spec j 6); simpl; try done.
    apply (land_ones_zero m 4 16); [lia..|exact E].
Qed.

Lemma serve_lm_counters m st j :
  stats_ok st -> stat_idx j ->
  get_stat (serve INT_LM_M (handle_lm_interrupt (Z.shiftr (Z.land m INT_LM_M) INT_LM_SHIFT)) (m, st)).2 j
  = plus_if ((6 <=? j) && (j <? 10) && Z.testbit m (j - 6 + 20)) (get_stat st j).
Proof.
  intros Hs Hj. unfold stat_idx in Hj.
  apply (serve_counters _ _ _ _ _ (fun j => (6 <=? j) && (j <? 10) && Z.testbit m (j - 6 + 20))).
  - intros _. etrans; [apply (four_counters _ 6 j st); (done || lia)|]. f_equal.
    change (6 + 4) with 10. destruct (Z.leb_spec 6 j), (Z.ltb_spec j 10); simpl; try done.
    by apply (shifted_mask_bit m 4 20 (j - 6)); lia.
  - intros E. destruct (Z.leb_spec 6 j), (Z.ltb_spec j 10); simpl; try done.
    apply (land_ones_zero m 4 20); [lia..|exact E].
Qed.

Lemma serve_irq_counters h m st j :
  stats_ok st -> stat_idx j ->
  get_stat (serve INT_IRQM (handle_vme_interrupt h (Z.land m INT_IRQM)) (m, st)).2 j
  = plus_if ((10 <=? j) && (j <? 17) && Z.testbit m (j - 10 + 1)) (get_stat st j).
Proof.
  intros Hs Hj. unfold stat_idx in Hj. replace (j - 10 + 1) with (j - 9) by lia.
  apply (serve_counters _ _ _ _ _ (fun j => (10 <=? j) && (j <? 17) && Z.testbit m (j - 9))).
  - intros _. rewrite (proj2 (level_counters h _ j st Hs Hj)). f_equal.
    destruct (Z.leb_spec 10 j), (Z.ltb_spec j 17); simpl; try done.
    rewrite Z.land_spec. change INT_IRQM with (Z.ones 7 * 2 ^ 1). rewrite <- Z.shiftl_mul_pow2 by lia.
    rewrite Z.shiftl_spec, Z.ones_spec_low by lia. apply andb_true_r.
  - intros E. destruct (Z.leb_spec 10 j), (Z.ltb_spec j 17); simpl; try done.
    replace (j - 9) with (j - 10 + 1) by lia. apply (land_ones_zero m 7 1); [lia..|exact E].
Qed.

Lemma serve_one_counter bit k f m st j :
  bit = 2 ^ k -> 0 <= k -> forall i,
  get_stat (f st) j = plus_if (i =? j) (get_stat st j) ->
  get_stat (serve bit f (m, st)).2 j = plus_if ((i =? j) && Z.testbit m k) (get_stat st j).
Proof.
  intros -> Hk i Hf. rewrite serve_run, truthy_land_pow2 by lia.
  destruct (Z.testbit m k); rewrite ?andb_true_r, ?andb_false_r; done.
Qed.

(** A step of the pass: its counters, and the bits it leaves. *)
Definition serves (bits : Z) (f : Z -> istate -> istate) (P : Z -> Z -> bool) : Prop :=
  forall m st, stats_ok st ->
    let r := serve bits (f m) (m, st) in
    stats_ok r.2 /\
    (forall j, stat_idx j -> get_stat r.2 j = plus_if (P m j) (get_stat st j)) /\
    (forall i, 0 <= i < 32 -> Z.testbit r.1 i = Z.testbit m i && negb (Z.testbit bits i)).

Lemma serves_intro bits f P :
  (forall m st, stats_ok st -> stats_ok (f m st)) ->
  (forall m st j, stats_ok st -> stat_idx j ->
     get_stat (serve bits (f m) (m, st)).2 j = plus_if (P m j) (get_stat st j)) ->
  serves bits f P.
Proof.
  intros Hok Hc m st Hs. split_and!.
  - apply (serve_stats_ok bits (f m) (m, st)); auto.
  - intros j Hj. by apply Hc.
  - intros i Hi. by apply serve_mask.
Qed.

Lemma serves_pci : serves INT_PERR_BIT (fun _ => handle_pci_error) (fun m j => (17 =? j) && Z.testbit m 13).
Proof.
  apply serves_intro.
  - intros m st Hs. by apply (handle_pci_error_stats st 0).
  - intros m st j Hs Hj. apply serve_one_counter; [done|lia|]. by apply handle_pci_error_stats.
Qed.

Lemma serves_vme : serves INT_VERR_BIT (fun _ => handle_vme_error) (fun m j => (18 =? j) && Z.testbit m 12).
Proof.
  apply serves_intro.
  - intros m st Hs. by apply (handle_vme_error_stats st 0).
  - intros m st j Hs Hj. apply serve_one_counter; [done|lia|]. by apply handle_vme_error_stats.
Qed.

Lemma serve_all_stats h mask st :
  stats_ok st ->
  stats_ok (serve_all h mask st).2 /\
  forall j, stat_idx j ->
    get_stat (serve_all h mask st).2 j =
      match stat_bit j with
      | Some k => plus_if (Z.testbit mask k) (get_stat st j)
      | None => get_stat st j
      end.
Proof.
  intros Hs. unfold serve_all.
  destruct (serves_intro INT_DMA_M _ _ (fun m => dma_stats_ok _) serve_dma_counters mask st Hs)
    as (Hs1 & G1 & M1). destruct (serve INT_DMA_M _ _) as [m1 st1]. cbn [fst snd] in Hs1, G1, M1.
  destruct (serves_pci m1 st1 Hs1) as (Hs2 & G2 & M2).
  destruct (serve INT_PERR_BIT _ _) as [m2 st2]. cbn [fst snd] in Hs2, G2, M2.
  destruct (serves_vme m2 st2 Hs2) as (Hs3 & G3 & M3).
  destruct (serve INT_VERR_BIT _ _) as [m3 st3]. cbn [fst snd] in Hs3, G3, M3.
  destruct (serves_intro INT_MB_M _ _ (fun m => mbox_stats_ok _) serve_mb_counters m3 st3 Hs3)
    as (Hs4 & G4 & M4). destruct (serve INT_MB_M _ _) as [m4 st4]. cbn [fst snd] in Hs4, G4, M4.
  destruct (serves_intro INT_LM_M _ _ (fun m => lm_stats_ok _) serve_lm_counters m4 st4 Hs4)
    as (Hs5 & G5 & M5). destruct (serve INT_LM_M _ _) as [m5 st5]. cbn [fst snd] in Hs5, G5, M5.
  destruct (serves_intro INT_IRQM _ _ (fun m st H => proj1 (level_counters h _ 0 st H ltac:(unfold stat_idx; lia)))
    (serve_irq_counters h) m5 st5 Hs5) as (Hs6 & G6 & _).
  split; [exact Hs6|]. intros j Hj. rewrite G6, G5, G4, G3, G2, G1 by done. clear G1 G2 G3 G4 G5 G6.
  unfold stat_idx in Hj. assert (j ∈ seqZ 0 20) as Hin by (apply elem_of_seqZ; lia).
  change (seqZ 0 20) with [0;1;2;3;4;5;6;7;8;9;10;11;12;13;14;15;16;17;18;19] in Hin.
  repeat (apply elem_of_cons in Hin as [->|Hin];
    [rewrite ?M2, ?M1 by lia; cbn -[Z.testbit plus_if get_stat]; rewrite ?M5, ?M4, ?M3, ?M2, ?M1 by lia;
     cbn; rewrite ?andb_true_r; reflexivity|]).
  by apply not_elem_of_nil in Hin.
Qed.

(** ** The vector table as a partial map *)

Definition vec_ok (vec : Z) : Prop := 0 <= vec < VME_NUM_VECTORS.

(** Handler and argument installed for a vector. *)
Definition vec_lookup (st : istate) (vec : Z) : option (Z * Z) :=
  let v := get_virq st vec in
  if truthy (virq_handler v) then Some (virq_handler v, virq_arg v) else None.

Definition table_ok (st : istate) : Prop := length (irq_table st) = 256%nat.

Lemma get_set_virq st vec v w :
  table_ok st -> vec_ok vec -> vec_ok w ->
  get_virq (set_virq vec v st) w = if vec =? w then v else get_virq st w.
Proof.
  unfold table_ok, vec_ok, VME_NUM_VECTORS. intros Hl Hv Hw. unfold get_virq, set_virq. simpl.
  destruct (Z.eqb_spec vec w) as [->|].
  - rewrite list_lookup_insert_eq by lia. done.
  - rewrite list_lookup_insert_ne by lia. done.
Qed.

Lemma table_ok_set vec v st : table_ok st -> table_ok (set_virq vec v st).
Proof. unfold table_ok, set_virq. simpl. by rewrite length_insert. Qed.

Lemma vec_lookup_set st vec v w :
  table_ok st -> vec_ok vec -> vec_ok w ->
  vec_lookup (set_virq vec v st) w =
    if vec =? w then (if truthy (virq_handler v) then Some (virq_handler v, virq_arg v) else None)
    else vec_lookup st w.
Proof.
  intros. unfold vec_lookup. rewrite get_set_virq by done. by destruct (vec =? w).
Qed.

(** ** What one pass leaves alone *)

Record pframe (st st' : istate) : Prop := {
  fr_vec : forall w, vec_ok w -> vec_lookup st' w = vec_lookup st w;
  fr_table : length (irq_table st') = length (irq_table st);
  fr_enabled : vme_interrupts_enabled st' = vme_interrupts_enabled st;
  fr_inteo : ioread32be INTEO (ichip st') = ioread32be INTEO (ichip st);
  fr_inten : ioread32be INTEN (ichip st') = ioread32be INTEN (ichip st);
  fr_list : verr_list st' = verr_list st;
}.

#[export] Instance pframe_refl : Reflexive pframe.
Proof. by split. Qed.

#[export] Instance pframe_trans : Transitive pframe.
Proof.
  intros a b c [V1 T1 E1 O1 N1 L1] [V2 T2 E2 O2 N2 L2]. split; try congruence.
  intros w Hw. by rewrite V2, V1.
Qed.

Lemma pframe_simple st st' :
  irq_table st' = irq_table st -> vme_interrupts_enabled st' = vme_interrupts_enabled st ->
  ichip st' = ichip st -> verr_list st' = verr_list st -> pframe st st'.
Proof.
  intros Ht He Hc Hl. split; rewrite ?Ht, ?He, ?Hc, ?Hl; try done.
  intros w _. unfold vec_lookup, get_virq. by rewrite Ht.
Qed.

Lemma pframe_ichip st c :
  ioread32be INTEO c = ioread32be INTEO (ichip st) -> ioread32be INTEN c = ioread32be INTEN (ichip st) ->
  pframe st (set_ichip c st).
Proof. intros. by split. Qed.

Lemma pframe_bump i st : pframe st (bump i st).
Proof. by apply pframe_simple. Qed.

Lemma pframe_bump_if m b i st : pframe st (bump_if m b i st).
Proof. unfold bump_if. destruct (truthy _); [apply pframe_bump|done]. Qed.

Lemma pframe_emit e st : pframe st (emit e st).
Proof. by apply pframe_simple. Qed.

Lemma pframe_if (b : bool) st st' : pframe st st' -> pframe st (if b then st' else st).
Proof. by destruct b. Qed.

Lemma pframe_dma m st : pframe st (handle_dma_interrupt m st).
Proof.
  unfold handle_dma_interrupt, account_dma_interrupt.
  etrans; [|apply pframe_bump_if]. etrans; [|apply pframe_bump_if].
  etrans; [|apply pframe_if, pframe_emit]. apply pframe_if, pframe_emit.
Qed.

Lemma pframe_four m base st :
  pframe st (bump_if m 8 (base + 3) (bump_if m 4 (base + 2) (bump_if m 2 (base + 1) (bump_if m 1 base st)))).
Proof. do 3 (etrans; [|apply pframe_bump_if]). apply pframe_bump_if. Qed.

Lemma pframe_pci st : pframe st (handle_pci_error st).
Proof.
  unfold handle_pci_error. etrans; [|apply pframe_bump].
  apply pframe_ichip; unfold tsi148_handle_pci_error; io_simpl; done.
Qed.

Lemma pframe_vme st : pframe st (handle_vme_error st).
Proof.
  unfold handle_vme_error, tsi148_handle_vme_error. etrans; [|apply pframe_bump].
  set (c := iowrite32be _ _ _). set (err := Vme_bus_error _ _).
  etrans; [apply (pframe_ichip st c); subst c; io_simpl; done|].
  etrans; [apply (pframe_simple _ (set_verr_desc (Vme_bus_error_desc err 1) (set_ichip c st))); done|].
  destruct (dispatch_berr_frame err (set_verr_desc (Vme_bus_error_desc err 1) (set_ichip c st)))
    as (_ & ? & ? & _ & ? & ?). by apply pframe_simple.
Qed.

Lemma iack_range h i : vec_ok (tsi148_iack8 h i).
Proof.
  unfold tsi148_iack8, vec_ok, VME_NUM_VECTORS.
  pose proof (land_bound_r (u8 (hw_viack h i)) 0xff). lia.
Qed.

Definition level_events (h : hwin) (m : Z) (lk : Z -> option (Z * Z)) (i : Z) : list iev :=
  if Z.testbit m i then
    match lk (tsi148_iack8 h i) with Some (f, a) => [EvHandler f a] | None => [] end
  else [].

Lemma level_spec h m i st :
  table_ok st -> 0 <= i ->
  pframe st (vme_level h m i st) /\
  ilog (vme_level h m i st) = ilog st ++ level_events h m (vec_lookup st) i.
Proof.
  intros Ht Hi. unfold vme_level, level_events. rewrite Z.shiftl_1_l, truthy_land_pow2 by lia.
  destruct (Z.testbit m i); [|by rewrite app_nil_r]. cbv zeta.
  pose proof (iack_range h i) as Hv. set (vec := tsi148_iack8 h i) in *.
  unfold vec_lookup at 1. destruct (truthy (virq_handler (get_virq st vec))) eqn:Eh.
  2:{ rewrite app_nil_r. split; [apply pframe_bump|done]. }
  split; [|done]. etrans; [|apply pframe_bump]. etrans; [|apply pframe_emit].
  split; try done; [|simpl; by rewrite length_insert].
  intros w Hw. rewrite vec_lookup_set by done. simpl. destruct (Z.eqb_spec vec w) as [<-|]; [|done].
  unfold vec_lookup. by rewrite Eh.
Qed.

Lemma levels_spec h m l st :
  table_ok st -> (forall i, i ∈ l -> 0 <= i) ->
  pframe st (foldl (fun st i => vme_level h m i st) st l) /\
  ilog (foldl (fun st i => vme_level h m i st) st l)
  = ilog st ++ flat_map (level_events h m (vec_lookup st)) l.
Proof.
  revert st. induction l as [|i l IH]; intros st Ht Hl; simpl; [by rewrite app_nil_r|].
  destruct (level_spec h m i st Ht) as [Hf Hlog]; [apply Hl; by left|].
  destruct (IH (vme_level h m i st)) as [Hf2 Hlog2].
  { unfold table_ok. by rewrite (fr_table _ _ Hf). }
  { intros. apply Hl. by right. }
  split; [by etrans|]. rewrite Hlog2, Hlog, <- app_assoc. f_equal. f_equal.
  clear - Hf. induction l as [|k l IH]; simpl; [done|]. rewrite IH. f_equal.
  unfold level_events. destruct (Z.testbit m k); [|done].
  by rewrite (fr_vec _ _ Hf _ (iack_range h k)).
Qed.

(** ** Events of one pass *)

Definition wake_events (mask : Z) : list iev :=
  (if Z.testbit mask 24 then [EvWake 0] else []) ++ (if Z.testbit mask 25 then [EvWake 1] else []).

Definition berr_events (err : vme_bus_error) (l : list vme_berr_handler) : list iev :=
  flat_map (fun h => if vme_berr_match err h then [EvBerr (bh_func h) err] else []) l.

(** The error held in the exception registers. *)
Definition latched_error (c : chip) : vme_bus_error :=
  Vme_bus_error (reg_join (ioread32be VEAU c) (ioread32be VEAL c))
                (Z.shiftr (Z.land (ioread32be VEAT c) VEAT_AM) VEAT_AM_SHIFT).

Definition pass_events (h : hwin) (mask : Z) (st : istate) : list iev :=
  wake_events mask
  ++ (if Z.testbit mask 12 then berr_events (latched_error (ichip st)) (verr_list st) else [])
  ++ flat_map (level_events h mask (vec_lookup st)) [7; 6; 5; 4; 3; 2; 1].

(** A step of the pass on the log: what it appends, what it may change. *)
Record quiet (st st' : istate) : Prop := {
  q_frame : pframe st st';
  q_log : ilog st' = ilog st;
  q_desc : verr_desc st' = verr_desc st;
  q_err : latched_error (ichip st') = latched_error (ichip st);
}.

#[export] Instance quiet_refl : Reflexive quiet.
Proof. by split. Qed.

#[export] Instance quiet_trans : Transitive quiet.
Proof. intros a b c [] []. split; [by etrans|congruence..]. Qed.

Lemma quiet_bump_if m b i st : quiet st (bump_if m b i st).
Proof. split; [apply pframe_bump_if|unfold bump_if; by destruct (truthy _)..]. Qed.

Lemma quiet_four m base st :
  quiet st (bump_if m 8 (base + 3) (bump_if m 4 (base + 2) (bump_if m 2 (base + 1) (bump_if m 1 base st)))).
Proof. do 3 (etrans; [|apply quiet_bump_if]). apply quiet_bump_if. Qed.

Lemma quiet_pci st : quiet st (handle_pci_error st).
Proof.
  split; [apply pframe_pci|done..|].
  unfold latched_error, handle_pci_error, tsi148_handle_pci_error. simpl. io_simpl. done.
Qed.

Lemma quiet_serve bits f m st : quiet st (f st) -> quiet st (serve bits f (m, st)).2.
Proof. rewrite serve_run. by destruct (truthy _). Qed.

Lemma dma_events m st :
  pframe st (handle_dma_interrupt m st) /\ verr_desc (handle_dma_interrupt m st) = verr_desc st /\
  ichip (handle_dma_interrupt m st) = ichip st /\
  ilog (handle_dma_interrupt m st) = ilog st ++ (if Z.testbit m 0 then [EvWake 0] else [])
                                             ++ (if Z.testbit m 1 then [EvWake 1] else []).
Proof.
  split; [apply pframe_dma|]. unfold handle_dma_interrupt, account_dma_interrupt, bump_if.
  rewrite (truthy_bit m 0 1), (truthy_bit m 1 2) by done.
  destruct (Z.testbit m 0), (Z.testbit m 1); simpl; rewrite ?app_nil_r, <- ?app_assoc; done.
Qed.

Lemma serve_dma_events m st :
  let r := serve INT_DMA_M (handle_dma_interrupt (Z.shiftr (Z.land m INT_DMA_M) INT_DMA_SHIFT)) (m, st) in
  pframe st r.2 /\ verr_desc r.2 = verr_desc st /\ ichip r.2 = ichip st /\ ilog r.2 = ilog st ++ wake_events m.
Proof.
  cbv zeta. rewrite serve_run. unfold wake_events. destruct (truthy _) eqn:E.
  - destruct (dma_events (Z.shiftr (Z.land m INT_DMA_M) INT_DMA_SHIFT) st) as (H1 & H2 & H3 & H4).
    split_and!; try done. rewrite H4. change INT_DMA_M with (Z.ones 2 * 2 ^ 24). change INT_DMA_SHIFT with 24.
    rewrite (shifted_mask_bit m 2 24 0), (shifted_mask_bit m 2 24 1) by lia. done.
  - unfold truthy in E. boolp.
    pose proof (land_ones_zero m 2 24 0 ltac:(lia) ltac:(lia) E) as B0.
    pose proof (land_ones_zero m 2 24 1 ltac:(lia) ltac:(lia) E) as B1.
    change (0 + 24) with 24 in B0. change (1 + 24) with 25 in B1. rewrite B0, B1, app_nil_r. done.
Qed.

Lemma dispatch_berr_log err st :
  ilog (__vme_dispatch_berr err st) = ilog st ++ berr_events err (verr_list st).
Proof.
  unfold __vme_dispatch_berr, berr_events. generalize (verr_list st) as l. intros l. revert st.
  induction l as [|h l IH]; intros st; simpl; [by rewrite app_nil_r|].
  destruct (vme_berr_match err h); rewrite IH; simpl; rewrite <- ?app_assoc; done.
Qed.

Lemma serve_vme_events m st :
  let r := serve INT_VERR_BIT handle_vme_error (m, st) in
  pframe st r.2 /\
  verr_desc r.2 = (if Z.testbit m 12 then Vme_bus_error_desc (latched_error (ichip st)) 1 else verr_desc st) /\
  ilog r.2 = ilog st ++ if Z.testbit m 12 then berr_events (latched_error (ichip st)) (verr_list st) else [].
Proof.
  cbv zeta. rewrite serve_run, (truthy_bit m 12) by done.
  destruct (Z.testbit m 12); [|by rewrite app_nil_r].
  split; [apply pframe_vme|]. unfold handle_vme_error, tsi148_handle_vme_error.
  fold (latched_error (ichip st)). set (st1 := set_verr_desc _ _).
  destruct (dispatch_berr_frame (latched_error (ichip st)) st1) as (_ & _ & _ & E & _).
  split; [exact E|]. simpl. by rewrite dispatch_berr_log.
Qed.

Lemma levels_same_bits h m m' lk l :
  (forall i, i ∈ l -> Z.testbit m i = Z.testbit m' i) ->
  flat_map (level_events h m lk) l = flat_map (level_events h m' lk) l.
Proof.
  induction l as [|i l IH]; intros Hl; simpl; [done|]. rewrite IH by (intros; apply Hl; by right).
  unfold level_events. by rewrite Hl by (by left).
Qed.

Lemma levels_ext h m lk lk' l :
  (forall w, vec_ok w -> lk w = lk' w) ->
  flat_map (level_events h m lk) l = flat_map (level_events h m lk') l.
Proof.
  intros Hl. induction l as [|i l IH]; simpl; [done|]. rewrite IH. f_equal.
  unfold level_events. destruct (Z.testbit m i); [|done]. by rewrite Hl by apply iack_range.
Qed.

Lemma quiet_mbox m st : quiet st (handle_mbox_interrupt m st).
Proof. apply (quiet_four m 2). Qed.

Lemma quiet_lm m st : quiet st (handle_lm_interrupt m st).
Proof. apply (quiet_four m 6). Qed.

(** Names the result of the next step of the pass, keeping what is known of it
    and of the bits it leaves. *)
Ltac stage m' st' M :=
  match goal with |- context [serve ?b ?f (?m, ?s)] =>
    pose proof (serve_mask b f m s) as M; destruct (serve b f (m, s)) as [m' st'];
    cbn [fst snd] in *
  end.

Lemma serve_irq_events h m st :
  table_ok st ->
  let r := serve INT_IRQM (handle_vme_interrupt h (Z.land m INT_IRQM)) (m, st) in
  pframe st r.2 /\ verr_desc r.2 = verr_desc st /\
  ilog r.2 = ilog st ++ flat_map (level_events h m (vec_lookup st)) [7; 6; 5; 4; 3; 2; 1].
Proof.
  intros Ht. cbv zeta. rewrite serve_run.
  assert (flat_map (level_events h (Z.land m INT_IRQM) (vec_lookup st)) [7; 6; 5; 4; 3; 2; 1]
          = flat_map (level_events h m (vec_lookup st)) [7; 6; 5; 4; 3; 2; 1]) as Hbits.
  { apply levels_same_bits. intros i Hi. rewrite Z.land_spec.
    repeat (apply elem_of_cons in Hi as [->|Hi]; [apply andb_true_r|]). by apply not_elem_of_nil in Hi. }
  destruct (truthy _) eqn:E.
  - destruct (levels_spec h (Z.land m INT_IRQM) [7; 6; 5; 4; 3; 2; 1] st Ht) as [F L].
    { intros i Hi. repeat (apply elem_of_cons in Hi as [->|Hi]; [lia|]). by apply not_elem_of_nil in Hi. }
    split; [exact F|]. rewrite Hbits in L. split; [|exact L].
    unfold handle_vme_interrupt. generalize [7; 6; 5; 4; 3; 2; 1]. clear.
    intros l. revert st. induction l as [|i l IH]; intros st; simpl; [done|]. rewrite IH.
    unfold vme_level. destruct (truthy _); [|done]. by destruct (truthy (virq_handler _)).
  - split; [done|]. split; [done|]. rewrite <- Hbits. unfold truthy in E. boolp. rewrite E.
    simpl. by rewrite app_nil_r.
Qed.

(** The whole pass. *)
Lemma serve_all_log h mask st :
  table_ok st ->
  let st' := (serve_all h mask st).2 in
  pframe st st' /\ ilog st' = ilog st ++ pass_events h mask st /\
  verr_desc st' = if Z.testbit mask 12 then Vme_bus_error_desc (latched_error (ichip st)) 1 else verr_desc st.
Proof.
  intros Ht. unfold serve_all, pass_events. cbv zeta.
  destruct (serve_dma_events mask st) as (F1 & D1 & C1 & L1).
  stage m1 st1 M1.
  pose proof (quiet_serve INT_PERR_BIT _ m1 st1 (quiet_pci st1)) as Q2.
  stage m2 st2 M2.
  destruct (serve_vme_events m2 st2) as (F3 & D3 & L3).
  stage m3 st3 M3.
  pose proof (quiet_serve INT_MB_M _ m3 st3 (quiet_mbox (Z.shiftr (Z.land m3 INT_MB_M) INT_MB_SHIFT) st3)) as Q4.
  stage m4 st4 M4.
  pose proof (quiet_serve INT_LM_M _ m4 st4 (quiet_lm (Z.shiftr (Z.land m4 INT_LM_M) INT_LM_SHIFT) st4)) as Q5.
  stage m5 st5 M5.
  assert (pframe st st5) as F5.
  { etrans; [exact F1|]. etrans; [apply Q2|]. etrans; [exact F3|]. etrans; [apply Q4|apply Q5]. }
  destruct (serve_irq_events h m5 st5) as (F6 & D6 & L6).
  { unfold table_ok. by rewrite (fr_table _ _ F5). }
  assert (Z.testbit m2 12 = Z.testbit mask 12) as B12.
  { rewrite M2, M1 by lia. cbn. by rewrite !andb_true_r. }
  destruct Q2 as [F2 L2 D2 Er2], Q4 as [F4 L4 D4 _], Q5 as [_ L5 D5 _].
  rewrite B12, Er2, C1 in D3, L3. rewrite (fr_list _ _ F2), (fr_list _ _ F1), L2, L1 in L3.
  rewrite D2, D1 in D3. split; [by etrans|]. split; [|congruence].
  rewrite L6, L5, L4, L3, <- !app_assoc. do 3 f_equal.
  rewrite (levels_ext h m5 _ (vec_lookup st)) by (intros; by apply (fr_vec _ _ F5)).
  apply levels_same_bits. intros i Hi.
  repeat (apply elem_of_cons in Hi as [->|Hi];
    [rewrite M5, M4, M3, M2, M1 by lia; cbn; by rewrite !andb_true_r|]). by apply not_elem_of_nil in Hi.
Qed.

(** ** The interrupt handler *)

Definition pass_mask (st : istate) (h : hwin) : Z := Z.land (hw_raised h) (vme_interrupts_enabled st).

(** A pass with something to serve. *)
Definition active_pass (st : istate) (h : hwin) : Prop := hw_raised h <> 0 /\ pass_mask st h <> 0.

Definition hw_error (h : hwin) : vme_bus_error :=
  Vme_bus_error (reg_join (hw_veau h) (hw_veal h)) (Z.shiftr (Z.land (hw_veat h) VEAT_AM) VEAT_AM_SHIFT).

(** Everything a pass is expected to do, in order. *)
Definition expected_events (st : istate) (h : hwin) : list iev :=
  EvClear (hw_raised h) :: wake_events (pass_mask st h)
  ++ (if Z.testbit (pass_mask st h) 12 then berr_events (hw_error h) (verr_list st) else [])
  ++ flat_map (level_events h (pass_mask st h) (vec_lookup st)) [7; 6; 5; 4; 3; 2; 1].

(** The state in which a pass serves its mask. *)
Definition pass_start (h : hwin) (st : istate) : istate :=
  let st := set_ichip (latch h (ichip st)) st in
  emit (EvClear (hw_raised h)) (set_ichip (tsi148_clear_int (hw_raised h) (ichip st)) st).

Ltac latch_simpl :=
  unfold latch, tsi148_clear_int, ioread32be, iowrite32be;
  repeat first [rewrite lookup_insert_eq | rewrite lookup_insert_ne by (unfold_regs; lia)].

Lemma pass_start_frame h st :
  pframe st (pass_start h st) /\ int_stats (pass_start h st) = int_stats st /\
  latched_error (ichip (pass_start h st)) = hw_error h /\ verr_desc (pass_start h st) = verr_desc st.
Proof.
  unfold pass_start, latched_error, hw_error. simpl. split_and!; try done.
  - split; try done; simpl; latch_simpl; done.
  - latch_simpl. done.
Qed.

Lemma bridge_unfold h hs st :
  vme_bridge_interrupt (h :: hs) st =
    if hw_raised h =? 0 then (IRQ_HANDLED, set_ichip (latch h (ichip st)) st)
    else if pass_mask st h =? 0 then (IRQ_NONE, bump INT_SPURIOUS (pass_start h st))
    else vme_bridge_interrupt hs (serve_all h (pass_mask st h) (pass_start h st)).2.
Proof.
  cbn [vme_bridge_interrupt]. unfold tsi148_get_int_status. cbn [ichip set_ichip].
  assert (ioread32be INTS (latch h (ichip st)) = hw_raised h) as -> by (latch_simpl; done).
  destruct (hw_raised h =? 0); [done|]. fold (pass_start h st). unfold pass_mask.
  change (vme_interrupts_enabled (emit _ _)) with (vme_interrupts_enabled st).
  destruct (_ =? 0); [done|]. unfold pass_start.
  by destruct (serve_all _ _ _) as [m st'].
Qed.

Lemma pass_next h st :
  table_ok st -> stats_ok st ->
  let st' := (serve_all h (pass_mask st h) (pass_start h st)).2 in
  pframe st st' /\ stats_ok st' /\
  ilog st' = ilog st ++ expected_events st h /\
  verr_desc st' = (if Z.testbit (pass_mask st h) 12 then Vme_bus_error_desc (hw_error h) 1 else verr_desc st) /\
  (forall j, stat_idx j -> get_stat st' j =
     match stat_bit j with Some k => plus_if (Z.testbit (pass_mask st h) k) (get_stat st j) | None => get_stat st j end).
Proof.
  intros Ht Hs. destruct (pass_start_frame h st) as (F & S & E & D).
  destruct (serve_all_log h (pass_mask st h) (pass_start h st)) as (F' & L' & D').
  { unfold table_ok. by rewrite (fr_table _ _ F). }
  destruct (serve_all_stats h (pass_mask st h) (pass_start h st)) as (Hs' & G).
  { unfold stats_ok. by rewrite S. }
  cbv zeta. split; [by etrans|]. split; [exact Hs'|]. split_and!.
  - rewrite L'. unfold pass_events, expected_events. simpl ilog. rewrite <- app_assoc.
    rewrite E, (fr_list _ _ F), (levels_ext h _ _ (vec_lookup st)) by (intros; by apply (fr_vec _ _ F)). done.
  - by rewrite D', E, D.
  - intros j Hj. rewrite G by done. unfold get_stat. by rewrite S.
Qed.

Lemma pass_mask_frame st st' h : pframe st st' -> pass_mask st' h = pass_mask st h.
Proof. intros F. unfold pass_mask. by rewrite (fr_enabled _ _ F). Qed.

Lemma active_frame st st' hs : pframe st st' -> Forall (active_pass st) hs -> Forall (active_pass st') hs.
Proof.
  intros F Ha. eapply Forall_impl; [exact Ha|]. intros h [H1 H2]. split; [done|]. by rewrite (pass_mask_frame _ _ _ F).
Qed.

Lemma bridge_active h hs st :
  active_pass st h ->
  vme_bridge_interrupt (h :: hs) st = vme_bridge_interrupt hs (serve_all h (pass_mask st h) (pass_start h st)).2.
Proof. intros [H1 H2]. rewrite bridge_unfold, !(proj2 (Z.eqb_neq _ _)) by done. done. Qed.

(** Number of passes whose mask has bit [k]. *)
Definition passes_with (st : istate) (k : Z) (hs : list hwin) : Z :=
  foldr (fun h n => Z.b2z (Z.testbit (pass_mask st h) k) + n) 0 hs.

Lemma passes_with_frame st st' k hs : pframe st st' -> passes_with st' k hs = passes_with st k hs.
Proof.
  intros F. unfold passes_with. induction hs as [|h hs IH]; simpl; [done|].
  by rewrite IH, (pass_mask_frame _ _ _ F).
Qed.

(** ** Properties *)

(** when each status read during an interrupt shows an enabled source, the
    handler answers that it handled the interrupt and, for every source the
    chip has, the counter of that source has grown by the number of reads that
    showed it enabled (as an unsigned int); the spurious counter has not
    moved. *)
Lemma interrupt_counts hs st :
  table_ok st -> stats_ok st -> Forall (active_pass st) hs ->
  (vme_bridge_interrupt hs st).1 = IRQ_HANDLED /\
  forall j, stat_idx j -> is_u32 (get_stat st j) ->
    get_stat (vme_bridge_interrupt hs st).2 j =
      match stat_bit j with Some k => u32 (get_stat st j + passes_with st k hs) | None => get_stat st j end.
Proof.
  intros Ht Hs Ha. revert st Ht Hs Ha. induction hs as [|h hs IH]; intros st Ht Hs Ha.
  { split; [done|]. intros j _ Hu. simpl. destruct (stat_bit j); [|done]. by rewrite Z.add_0_r, u32_id. }
  apply Forall_cons in Ha as [Ha Hrest]. rewrite (bridge_active h hs st Ha).
  destruct (pass_next h st Ht Hs) as (F & Hs' & _ & _ & G). set (st' := (serve_all _ _ _).2) in *.
  destruct (IH st') as [Hr Hc]; [unfold table_ok; by rewrite (fr_table _ _ F)|done|by eapply active_frame|].
  split; [done|]. intros j Hj Hu. specialize (G j Hj).
  assert (is_u32 (get_stat st' j)) as Hu'.
  { rewrite G. destruct (stat_bit j); [|done]. unfold plus_if. case_goal; [apply u32_range|done]. }
  rewrite (Hc j Hj Hu'), G. destruct (stat_bit j) as [k|]; [|done].
  rewrite (passes_with_frame st st') by done. unfold plus_if. simpl.
  destruct (Z.testbit (pass_mask st h) k); simpl; [|done]. rewrite u32_add_l. f_equal. lia.
Qed.


Lemma check_clear_spec err st :
  vme_bus_error_check_clear err st =
    if truthy (bed_valid (verr_desc st)) then
      if decide (err = bed_error (verr_desc st))
      then (1, set_verr_desc (Vme_bus_error_desc (bed_error (verr_desc st)) 0) st) else (0, st)
    else (0, st).
Proof.
  unfold vme_bus_error_check_clear, __vme_bus_error_check_clear.
  destruct (truthy _); [|done]. destruct (bed_error (verr_desc st)) as [a m], err as [a' m']. simpl.
  destruct (Z.eqb_spec m m') as [<-|], (Z.eqb_spec a a') as [<-|]; simpl; case_decide; congruence.
Qed.

#[local] Arguments vme_bus_error_check_clear : simpl never.

(** a bus error latched during an interrupt is reported once by
    [vme_bus_error_check_clear()]: the first check with its address and
    modifier answers 1, the same check again answers 0, and a check for any
    other error answers 0 and leaves it pending. *)
Lemma bus_error_reported_once h st err :
  table_ok st -> stats_ok st -> active_pass st h -> Z.testbit (pass_mask st h) 12 = true ->
  let st1 := (vme_bridge_interrupt [h] st).2 in
  let '(r1, st2) := vme_bus_error_check_clear err st1 in
  let '(r2, st3) := vme_bus_error_check_clear (hw_error h) st2 in
  r1 = (if decide (err = hw_error h) then 1 else 0) /\
  r2 = (if decide (err = hw_error h) then 0 else 1) /\
  (vme_bus_error_check_clear (hw_error h) st3).1 = 0.
Proof.
  intros Ht Hs Ha Hb. cbv zeta. rewrite (bridge_active h [] st Ha). cbn [vme_bridge_interrupt snd].
  destruct (pass_next h st Ht Hs) as (_ & _ & _ & D & _). rewrite Hb in D.
  set (st1 := (serve_all _ _ _).2) in *. rewrite (check_clear_spec err st1), D. simpl.
  destruct (decide (err = hw_error h)) as [->|Hne]; rewrite check_clear_spec; simpl.
  - split_and!; done.
  - rewrite D. simpl. rewrite decide_True by done. split_and!; [done..|]. by rewrite check_clear_spec.
Qed.

(** a status read with no enabled source ends the handler with [IRQ_NONE]
    after clearing it: no handler is called and only the spurious counter
    moves. *)
Lemma interrupt_spurious h hs st :
  stats_ok st -> hw_raised h <> 0 -> pass_mask st h = 0 ->
  let '(rc, st') := vme_bridge_interrupt (h :: hs) st in
  rc = IRQ_NONE /\ ilog st' = ilog st ++ [EvClear (hw_raised h)] /\ irq_table st' = irq_table st /\
  verr_desc st' = verr_desc st /\
  forall j, stat_idx j -> get_stat st' j = plus_if (j =? INT_SPURIOUS) (get_stat st j).
Proof.
  intros Hs Hr Hm. rewrite bridge_unfold, (proj2 (Z.eqb_neq _ _) Hr), Hm. simpl.
  split_and!; try done. intros j Hj.
  rewrite get_stat_bump by (done || (unfold stat_idx, INT_SPURIOUS; lia)). by rewrite Z.eqb_sym.
Qed.

(** *** The vector table refines a partial map *)

Lemma request_irq_lookup st intr vec f a name w :
  table_ok st -> 0 <= vec -> vec_ok w -> (vme_request_irq intr vec f a name st).1 = 0 ->
  vec_lookup (vme_request_irq intr vec f a name st).2 w =
    if vec =? w then (if truthy f then Some (f, a) else None) else vec_lookup st w.
Proof.
  unfold vme_request_irq. intros Ht Hv Hw. destruct (Z.leb_spec VME_NUM_VECTORS vec); [done|].
  destruct (truthy intr) eqn:Ei; simpl; [intros ->; done|].
  destruct (truthy (virq_handler _)); simpl; [done|]. intros _.
  rewrite vec_lookup_set by (done || (unfold vec_ok; lia)). done.
Qed.

(** [vme_request_irq()] succeeds exactly on a vector below 256 that is free
    (when the lock is not interrupted); it then installs the handler and
    argument on that vector only; on a vector in use it answers [-EBUSY] and
    out of range [-EINVAL], changing nothing. *)
Lemma request_irq_spec st vec f a name :
  table_ok st -> 0 <= vec -> f <> 0 ->
  let '(rc, st') := vme_request_irq 0 vec f a name st in
  (VME_NUM_VECTORS <= vec -> rc = - EINVAL /\ st' = st) /\
  (vec < VME_NUM_VECTORS -> forall e, vec_lookup st vec = Some e -> rc = - EBUSY /\ st' = st) /\
  (vec < VME_NUM_VECTORS -> vec_lookup st vec = None ->
     rc = 0 /\ table_ok st' /\
     forall w, vec_ok w -> vec_lookup st' w = if vec =? w then Some (f, a) else vec_lookup st w).
Proof.
  intros Ht Hv Hf. pose proof (request_irq_lookup st 0 vec f a name) as Hl.
  unfold vme_request_irq in *. destruct (Z.leb_spec VME_NUM_VECTORS vec) as [Hle|Hlt].
  { split_and!; intros; try lia; done. }
  simpl in *. unfold vec_lookup at 1 2. destruct (truthy (virq_handler _)) eqn:E; split_and!; intros; try lia; try done.
  split; [done|]. split; [by apply table_ok_set|]. intros w Hw.
  rewrite Hl by done. unfold truthy. by rewrite (proj2 (Z.eqb_neq _ _) Hf).
Qed.

(** [vme_free_irq()] succeeds exactly on a vector in use and removes that
    entry only; so a vector can be requested again after it was freed, and
    freeing it twice fails. *)
Lemma free_irq_spec st vec :
  table_ok st -> 0 <= vec ->
  let '(rc, st') := vme_free_irq 0 vec st in
  (VME_NUM_VECTORS <= vec -> rc = - EINVAL /\ st' = st) /\
  (vec < VME_NUM_VECTORS -> vec_lookup st vec = None -> rc = - EINVAL /\ st' = st) /\
  (vec < VME_NUM_VECTORS -> forall e, vec_lookup st vec = Some e ->
     rc = 0 /\ table_ok st' /\
     forall w, vec_ok w -> vec_lookup st' w = if vec =? w then None else vec_lookup st w).
Proof.
  intros Ht Hv. unfold vme_free_irq. destruct (Z.leb_spec VME_NUM_VECTORS vec) as [Hle|Hlt].
  { split_and!; intros; try lia; done. }
  simpl. unfold vec_lookup at 1 2. destruct (truthy (virq_handler _)) eqn:E; simpl; split_and!; intros; try lia; try done.
  split; [done|]. split; [by apply table_ok_set|]. intros w Hw.
  rewrite vec_lookup_set by (done || (unfold vec_ok; lia)). done.
Qed.

(** *** Enable mask *)

Inductive iop :=
  | IopEnable (mask : Z)
  | IopDisable (mask : Z)
  | IopRequest (intr vec handler arg : Z) (name : option string)
  | IopFree (intr vec : Z)
  | IopInterrupt (hs : list hwin)
  | IopCheck (clear : Z)
  | IopCheckClear (err : vme_bus_error)
  | IopRegister (kz : Z) (err : vme_bus_error) (size func : Z)
  | IopUnregister (addr : Z).

Definition run_iop (op : iop) (st : istate) : istate :=
  match op with
  | IopEnable m => (vme_enable_interrupts m st).2
  | IopDisable m => (vme_disable_interrupts m st).2
  | IopRequest intr vec f a name => (vme_request_irq intr vec f a name st).2
  | IopFree intr vec => (vme_free_irq intr vec st).2
  | IopInterrupt hs => (vme_bridge_interrupt hs st).2
  | IopCheck clear => (vme_bus_error_check clear st).2
  | IopCheckClear err => (vme_bus_error_check_clear err st).2
  | IopRegister kz err size func => (vme_register_berr_handler kz err size func st).2
  | IopUnregister addr => vme_unregister_berr_handler addr st
  end.

Definition iop_ok (op : iop) : Prop :=
  match op with
  | IopEnable m | IopDisable m => is_u32 m
  | IopRequest _ vec _ _ _ | IopFree _ vec => is_u32 vec
  | _ => True
  end.

(** The driver when its probe has run [tsi148_quiesce()] and [tsi148_init()],
    with the static tables; the handler is only registered by
    [vme_bridge_init_interrupts()], after which the driver is running. *)
Definition istate_boot (c : chip) : istate :=
  Istate (replicate 256 vme_irq_zero) (replicate 20 0) 0 (tsi148_init (tsi148_quiesce c))
    (Vme_bus_error_desc (Vme_bus_error 0 0) 0) [] [].

Inductive ireachable : istate -> Prop :=
  | ireach_boot c syscon st :
      vme_bridge_init_interrupts 0 syscon (istate_boot c) = (0, st) -> ireachable st
  | ireach_step op st : ireachable st -> iop_ok op -> ireachable (run_iop op st).

Record iinv (st : istate) : Prop := {
  ii_table : table_ok st;
  ii_stats : stats_ok st;
  ii_inteo : ioread32be INTEO (ichip st) = vme_interrupts_enabled st;
  ii_inten : ioread32be INTEN (ichip st) = vme_interrupts_enabled st;
  ii_u32 : is_u32 (vme_interrupts_enabled st);
}.

Lemma iinv_frame st st' : pframe st st' -> stats_ok st' -> iinv st -> iinv st'.
Proof.
  intros F Hs [T S O N U]. split; try done.
  - unfold table_ok. by rewrite (fr_table _ _ F).
  - by rewrite (fr_inteo _ _ F), (fr_enabled _ _ F).
  - by rewrite (fr_inten _ _ F), (fr_enabled _ _ F).
  - by rewrite (fr_enabled _ _ F).
Qed.

Lemma set_interrupts_spec m st :
  is_u32 m -> iinv st ->
  (tsi148_set_interrupts m (ichip st)).1 = 0 /\
  iinv (set_ichip (tsi148_set_interrupts m (ichip st)).2 (set_enabled m st)).
Proof.
  intros Hm [T S O N U]. unfold tsi148_set_interrupts. cbn [fst snd]. io_simpl. rewrite !u32_id by done.
  rewrite Z.eqb_refl. split; [done|]. split; try done; simpl; io_simpl; by apply u32_id.
Qed.

Lemma lor_u32 a b : is_u32 a -> is_u32 b -> is_u32 (Z.lor a b).
Proof.
  unfold is_u32. intros Ha Hb. split; [apply Z.lor_nonneg; lia|].
  destruct (decide (Z.lor a b = 0)) as [->|Hn]; [lia|].
  assert (0 <= Z.lor a b) by (apply Z.lor_nonneg; lia). apply Z.log2_lt_pow2; [lia|].
  rewrite Z.log2_lor by lia.
  assert (forall x, 0 <= x < 2 ^ 32 -> Z.log2 x < 32) as Hlog.
  { intros x Hx. destruct (decide (x = 0)) as [->|]; [done|]. apply Z.log2_lt_pow2; lia. }
  apply Z.max_lub_lt; by apply Hlog.
Qed.

Lemma land_u32 a b : is_u32 a -> 0 <= b -> is_u32 (Z.land a b).
Proof.
  unfold is_u32. intros Ha Hb. rewrite Z.land_comm. pose proof (land_bound_r b a). lia.
Qed.

Lemma bridge_inv hs st : iinv st -> iinv (vme_bridge_interrupt hs st).2.
Proof.
  revert st. induction hs as [|h hs IH]; intros st Hi; [done|]. rewrite bridge_unfold.
  destruct (pass_start_frame h st) as (F & S & _).
  destruct (hw_raised h =? 0); [|destruct (pass_mask st h =? 0)]; simpl.
  - apply (iinv_frame st); [|apply Hi|done]. apply pframe_ichip; latch_simpl; done.
  - apply (iinv_frame st); [|apply stats_ok_bump; unfold stats_ok; rewrite S; apply Hi|done].
    etrans; [exact F|apply pframe_bump].
  - apply IH. destruct (pass_next h st (ii_table _ Hi) (ii_stats _ Hi)) as (F' & S' & _).
    by apply (iinv_frame st).
Qed.

Lemma run_iop_inv op st : iinv st -> iop_ok op -> iinv (run_iop op st).
Proof.
  intros Hi Hop. destruct op as [m|m|intr vec f a name|intr vec|hs|clear|err|kz err size func|addr]; simpl in *.
  - unfold vme_enable_interrupts, tsi148_get_int_enabled. rewrite (ii_inteo _ Hi).
    apply (set_interrupts_spec (Z.lor (vme_interrupts_enabled st) m) st); [|done]. apply lor_u32; [apply Hi|done].
  - unfold vme_disable_interrupts, tsi148_get_int_enabled. rewrite (ii_inteo _ Hi).
    apply (set_interrupts_spec (Z.land (vme_interrupts_enabled st) (not32 m)) st); [|done].
    apply land_u32; [apply Hi|apply u32_range].
  - unfold vme_request_irq. repeat case_goal; simpl; try done.
    destruct Hi as [T S O N U]. split; try done. by apply table_ok_set.
  - unfold vme_free_irq. repeat case_goal; simpl; try done.
    destruct Hi as [T S O N U]. split; try done. by apply table_ok_set.
  - by apply bridge_inv.
  - unfold vme_bus_error_check, tsi148_bus_error_chk.
    destruct (truthy (Z.land _ VEAT_VES)); [destruct (truthy clear)|]; simpl;
      (apply (iinv_frame st); [apply pframe_ichip; io_simpl; done|apply Hi|done]).
  - unfold vme_bus_error_check_clear, __vme_bus_error_check_clear. case_goal; [|done].
    destruct Hi as [T S O N U]. by split.
  - unfold vme_register_berr_handler. repeat case_goal; simpl; try done.
    destruct Hi as [T S O N U]. by split.
  - destruct Hi as [T S O N U]. by split.
Qed.

Lemma init_intmask_u32 syscon : is_u32 (init_intmask syscon).
Proof. unfold init_intmask. destruct (truthy syscon); vm_compute; split; congruence. Qed.

Lemma boot_inteo c : ioread32be INTEO (ichip (istate_boot c)) = 0.
Proof.
  unfold istate_boot. cbn [ichip]. unfold tsi148_init. io_simpl.
  unfold tsi148_quiesce. io_simpl. reflexivity.
Qed.

Lemma init_interrupts_ok c syscon :
  exists st, vme_bridge_init_interrupts 0 syscon (istate_boot c) = (0, st) /\ iinv st /\
    vme_interrupts_enabled st = init_intmask syscon.
Proof.
  pose proof (init_intmask_u32 syscon) as Hm. pose proof (boot_inteo c) as H0.
  unfold vme_bridge_init_interrupts, vme_enable_interrupts, tsi148_get_int_enabled.
  rewrite H0, Z.lor_0_l. unfold istate_boot in *. cbn [ichip] in *.
  generalize dependent (tsi148_init (tsi148_quiesce c)). generalize dependent (init_intmask syscon).
  intros m Hm q _. unfold tsi148_set_interrupts. io_simpl. rewrite !u32_id, Z.eqb_refl by done. simpl.
  eexists. split; [reflexivity|]. split; [|done].
  split; try done; simpl; io_simpl; by apply u32_id.
Qed.

Lemma ireachable_inv st : ireachable st -> iinv st.
Proof.
  induction 1 as [c syscon st Hb|op st Hr IH Hop]; [|by apply run_iop_inv].
  destruct (init_interrupts_ok c syscon) as (st' & Hb' & Hi & _). congruence.
Qed.

(** in every state the driver reaches, the enable mask the interrupt handler
    filters with is the one both enable registers hold; enabling then answers
    0 and adds exactly the bits asked for, disabling answers 0 and removes
    exactly those. *)
Lemma interrupt_mask_shadow st m :
  ireachable st -> is_u32 m ->
  ioread32be INTEO (ichip st) = vme_interrupts_enabled st /\
  ioread32be INTEN (ichip st) = vme_interrupts_enabled st /\
  (vme_enable_interrupts m st).1 = 0 /\ (vme_disable_interrupts m st).1 = 0 /\
  forall i, 0 <= i < 32 ->
    Z.testbit (vme_interrupts_enabled (vme_enable_interrupts m st).2) i
      = Z.testbit (vme_interrupts_enabled st) i || Z.testbit m i /\
    Z.testbit (vme_interrupts_enabled (vme_disable_interrupts m st).2) i
      = Z.testbit (vme_interrupts_enabled st) i && negb (Z.testbit m i).
Proof.
  intros Hr Hm. pose proof (ireachable_inv st Hr) as Hi. pose proof Hi as [T S O N U].
  split_and!; try done.
  1, 2: unfold vme_enable_interrupts, vme_disable_interrupts, tsi148_get_int_enabled, tsi148_set_interrupts;
    rewrite O; io_simpl; rewrite !u32_id by (apply lor_u32 || (apply land_u32; [|apply u32_range]); done);
    by rewrite Z.eqb_refl.
  intros i Hb. unfold vme_enable_interrupts, vme_disable_interrupts, tsi148_get_int_enabled. rewrite O.
  simpl. split; [apply Z.lor_spec|]. unfold not32. by rewrite Z.land_spec, testbit_u32, Z.lnot_spec by lia.
Qed.

(** *** Bus-error handlers *)

(** a registered handler is called for exactly the errors of its modifier
    in [address, address + size) (with no wrap), after the handlers registered
    before it; unregistering it gives back the list as it was. *)
Lemma berr_handler_registered kz err size func st e :
  kz <> 0 -> 0 < size -> is_u32 size -> 0 <= be_address err -> be_address err + size < 2 ^ 64 ->
  (forall h, h ∈ verr_list st -> bh_addr h <> kz) ->
  let '(r, st1) := vme_register_berr_handler kz err size func st in
  r = inr kz /\
  ilog (__vme_dispatch_berr e st1) =
    ilog (__vme_dispatch_berr e st)
    ++ (if decide (be_am e = be_am err /\ be_address err <= be_address e < be_address err + size)
        then [EvBerr func e] else []) /\
  vme_unregister_berr_handler kz st1 = st.
Proof.
  intros Hk Hs Hu Ha Hw Hfresh. unfold vme_register_berr_handler.
  rewrite !(proj2 (Z.eqb_neq _ _)) by lia. split_and!; [done| |].
  - rewrite !dispatch_berr_log. unfold berr_events. cbn [verr_list set_verr_list ilog].
    rewrite flat_map_app, app_assoc. f_equal. cbn. unfold vme_berr_match. cbn.
    unfold u64. rewrite (Z.mod_small (_ + size)) by lia.
    destruct (Z.eqb_spec (be_am e) (be_am err)), (Z.leb_spec (be_address err) (be_address e)),
      (Z.ltb_spec (be_address e) (be_address err + size)); simpl;
      case_decide; done || lia.
  - unfold vme_unregister_berr_handler. cbn [verr_list set_verr_list].
    assert (del_handler kz (verr_list st ++ [Vme_berr_handler kz err size func]) = verr_list st) as ->.
    { induction (verr_list st) as [|h l IH]; simpl; [by rewrite Z.eqb_refl|].
      rewrite (proj2 (Z.eqb_neq _ _)) by (apply Hfresh; by left). f_equal. apply IH.
      intros h' Hh. apply Hfresh. by right. }
    by destruct st.
Qed.

(** *** Generating an interrupt *)

Lemma wait_iack_ends polls :
  Exists (fun p => Z.testbit p.1 11 = false \/ p.2 = 0) polls -> wait_iack polls = Some tt.
Proof.
  induction 1 as [[v t] polls Hp|[v t] polls _ IH]; cbn [wait_iack fst snd] in *;
    rewrite (truthy_bit v 11) by done.
  - destruct Hp as [-> | ->]; [done|]. by destruct (Z.testbit v 11).
  - destruct (Z.testbit v 11); [|done]. by destruct (t =? 0).
Qed.

(** The request written to VICR: status/ID in bits 0-7, level or'ed into bits
    8-10, the rest unchanged. *)
Lemma vicr_request_bits level vector vicr i :
  1 <= level <= 7 -> 0 <= vector <= 255 -> 0 <= i < 32 ->
  Z.testbit (u32 (Z.lor (Z.land vicr (not32 VICR_STID_M)) (Z.lor (Z.shiftl level 8) vector))) i =
    if i <? 8 then Z.testbit vector i
    else if i <? 11 then Z.testbit vicr i || Z.testbit level (i - 8)
    else Z.testbit vicr i.
Proof.
  intros Hl Hv Hi. rewrite testbit_u32, !Z.lor_spec, Z.land_spec by lia.
  unfold not32. rewrite testbit_u32, Z.lnot_spec, Z.shiftl_spec by lia.
  replace (Z.testbit VICR_STID_M i) with (i <? 8).
  2:{ unfold VICR_STID_M. change 0xff with (Z.ones 8). rewrite Z.testbit_ones_nonneg by lia. done. }
  destruct (Z.ltb_spec i 8); simpl.
  - rewrite andb_false_r, (Z.testbit_neg_r level) by lia. done.
  - rewrite andb_true_r, (testbit_above vector 8 i) by lia. rewrite orb_false_r.
    destruct (Z.ltb_spec i 11); [done|]. rewrite (testbit_above level 3) by lia. apply orb_false_r.
Qed.

Lemma vicr_clear_bits last i :
  0 <= i < 32 ->
  Z.testbit (u32 (Z.lor (Z.land last (not32 (Z.lor VICR_IRQL_M VICR_STID_M))) VICR_IRQC)) i =
    if i <? 11 then false else (i =? 15) || Z.testbit last i.
Proof.
  intros Hi. rewrite testbit_u32, Z.lor_spec, Z.land_spec by lia.
  unfold not32. rewrite testbit_u32, Z.lnot_spec by lia.
  change (Z.lor VICR_IRQL_M VICR_STID_M) with (Z.ones 11). rewrite Z.testbit_ones_nonneg by lia.
  unfold VICR_IRQC. rewrite Z.pow2_bits_eqb, Z.eqb_sym by lia.
  destruct (Z.ltb_spec i 11); simpl.
  - rewrite (proj2 (Z.eqb_neq i 15)), andb_false_r by lia. done.
  - rewrite andb_true_r. apply orb_comm.
Qed.

(** generating an interrupt with a level outside 1-7 or a vector outside
    0-255 is refused before the chip is touched.  Otherwise, once a poll finds
    the request acknowledged or the timeout expired, the call returns: it
    wrote the vector and the level into the interrupt control register, and it
    returns 0 if the request was acknowledged, else [-ETIME] after a second
    write that clears the request, its level and its vector. *)
Lemma generate_interrupt_spec level vector vicr polls last :
  Exists (fun p => Z.testbit p.1 11 = false \/ p.2 = 0) polls ->
  if decide (1 <= level <= 7 /\ 0 <= vector <= 255) then
    exists w ws, tsi148_generate_interrupt level vector vicr polls last =
        Some (if Z.testbit last 11 then - ETIME else 0, w :: ws) /\
      (forall i, 0 <= i < 32 -> Z.testbit w i =
         if i <? 8 then Z.testbit vector i
         else if i <? 11 then Z.testbit vicr i || Z.testbit level (i - 8) else Z.testbit vicr i) /\
      if Z.testbit last 11 then
        exists w2, ws = [w2] /\ forall i, 0 <= i < 32 ->
          Z.testbit w2 i = if i <? 11 then false else (i =? 15) || Z.testbit last i
      else ws = []
  else tsi148_generate_interrupt level vector vicr polls last = Some (- EINVAL, []).
Proof.
  intros Hp. unfold tsi148_generate_interrupt. case_decide as Hd.
  - rewrite !(proj2 (Z.ltb_ge _ _)) by lia. cbn [orb]. rewrite wait_iack_ends by done.
    rewrite (truthy_bit last 11) by done.
    destruct (Z.testbit last 11); (eexists _, _; split; [done|split; [intros; apply vicr_request_bits; lia|]]).
    + eexists. split; [done|]. intros. by apply vicr_clear_bits.
    + done.
  - destruct (Z.ltb_spec level 1), (Z.ltb_spec 7 level); simpl; try done.
    destruct (Z.ltb_spec vector 0), (Z.ltb_spec 255 vector); simpl; try done. lia.
Qed.

(** ** Concrete instances *)

Definition demo_err : vme_bus_error := Vme_bus_error 0x1000 0x09.

(** The driver started on the system controller, a handler on vector 0x42. *)
Definition demo_istate : istate :=
  run_iop (IopRequest 0 0x42 0x1111 0x2222 None)
    (vme_bridge_init_interrupts 0 1 (istate_boot ∅)).2.

(** The bridge raises IRQ 3 (vector 0x42) and a bus error. *)
Definition demo_hw : hwin :=
  Hwin (Z.lor (2 ^ 3) (2 ^ 12)) (fun _ => 0x42) 0 0x1000 (Z.shiftl 0x09 8).

Lemma demo_table_ok : table_ok demo_istate.
Proof. reflexivity. Qed.

Lemma demo_stats_ok : stats_ok demo_istate.
Proof. reflexivity. Qed.

Lemma demo_active : active_pass demo_istate demo_hw.
Proof. split; vm_compute; discriminate. Qed.

Lemma interrupt_counts_witness : get_stat (vme_bridge_interrupt [demo_hw] demo_istate).2 12 = 1.
Proof.
  destruct (interrupt_counts [demo_hw] demo_istate demo_table_ok demo_stats_ok) as [_ Hc].
  - constructor; [exact demo_active|constructor].
  - rewrite (Hc 12); [vm_compute; reflexivity| |]; split; vm_compute; congruence.
Defined.


Lemma bus_error_reported_once_witness :
  (vme_bus_error_check_clear demo_err (vme_bridge_interrupt [demo_hw] demo_istate).2).1 = 1.
Proof.
  pose proof (bus_error_reported_once demo_hw demo_istate demo_err demo_table_ok demo_stats_ok demo_active
    ltac:(vm_compute; reflexivity)) as H. cbv zeta in H.
  destruct (vme_bus_error_check_clear demo_err _) as [r1 st2].
  destruct (vme_bus_error_check_clear (hw_error demo_hw) st2) as [r2 st3].
  destruct H as (-> & _). vm_compute. reflexivity.
Defined.

Lemma interrupt_spurious_witness :
  (vme_bridge_interrupt [Hwin (2 ^ 9) (fun _ => 0) 0 0 0] demo_istate).1 = IRQ_NONE.
Proof.
  pose proof (interrupt_spurious (Hwin (2 ^ 9) (fun _ => 0) 0 0 0) [] demo_istate demo_stats_ok
    ltac:(discriminate) ltac:(vm_compute; reflexivity)) as H.
  destruct (vme_bridge_interrupt _ _) as [rc st']. destruct H as [-> _]. reflexivity.
Defined.

Lemma request_irq_spec_witness :
  (vme_request_irq 0 0x42 0x3333 0 None demo_istate).1 = - EBUSY.
Proof.
  pose proof (request_irq_spec demo_istate 0x42 0x3333 0 None demo_table_ok ltac:(lia) ltac:(lia)) as H.
  destruct (vme_request_irq _ _ _ _ _ _) as [rc st']. destruct H as (_ & H & _).
  destruct (H ltac:(reflexivity) (0x1111, 0x2222) ltac:(vm_compute; reflexivity)) as [-> _]. reflexivity.
Defined.

Lemma free_irq_spec_witness : (vme_free_irq 0 0x42 demo_istate).1 = 0.
Proof.
  pose proof (free_irq_spec demo_istate 0x42 demo_table_ok ltac:(lia)) as H.
  destruct (vme_free_irq _ _ _) as [rc st']. destruct H as (_ & _ & H).
  destruct (H ltac:(reflexivity) (0x1111, 0x2222) ltac:(vm_compute; reflexivity)) as [-> _]. reflexivity.
Defined.

Lemma interrupt_mask_shadow_witness :
  ioread32be INTEO (ichip (vme_bridge_init_interrupts 0 1 (istate_boot ∅)).2) = init_intmask 1.
Proof.
  destruct (init_interrupts_ok ∅ 1) as (st & Hb & _ & He). rewrite Hb.
  destruct (interrupt_mask_shadow st 1 (ireach_boot ∅ 1 st Hb) ltac:(unfold is_u32; lia)) as [H _].
  cbn [snd]. rewrite H. exact He.
Defined.

Lemma berr_handler_registered_witness :
  (vme_register_berr_handler 0x9000 demo_err 0x100 0x7777 demo_istate).1 = inr 0x9000.
Proof.
  pose proof (berr_handler_registered 0x9000 demo_err 0x100 0x7777 demo_istate demo_err
    ltac:(lia) ltac:(lia) ltac:(unfold is_u32; lia) ltac:(simpl; lia) ltac:(simpl; lia)
    ltac:(intros h Hh; apply not_elem_of_nil in Hh; destruct Hh)) as H.
  destruct (vme_register_berr_handler _ _ _ _ _) as [r st1]. destruct H as [-> _]. reflexivity.
Defined.

Lemma generate_interrupt_spec_witness :
  exists ws, tsi148_generate_interrupt 3 0x42 0 [(2 ^ 11, 5); (2 ^ 11, 0)] (2 ^ 11) = Some (- ETIME, ws).
Proof.
  pose proof (generate_interrupt_spec 3 0x42 0 [(2 ^ 11, 5); (2 ^ 11, 0)] (2 ^ 11)
    ltac:(right; left; right; reflexivity)) as H.
  rewrite decide_True in H by lia. destruct H as (w & ws & H & _). exists (w :: ws). exact H.
Defined.

(** ** Installing a handler against an interrupt

    The interrupt handler does not take the lock of the table, and
    [vme_request_irq()] stores the handler before its argument: an interrupt
    between the two stores calls the new handler with the previous (NULL)
    argument. *)
Lemma request_irq_race :
  let after_first_store :=
    set_virq 0x42 (Vme_irq 0x1111 (virq_arg (get_virq (istate_boot ∅) 0x42)) 0 None)
      (vme_bridge_init_interrupts 0 1 (istate_boot ∅)).2 in
  ilog (vme_bridge_interrupt [Hwin (2 ^ 3) (fun _ => 0x42) 0 0 0] after_first_store).2
    = [EvClear (2 ^ 3); EvHandler 0x1111 0].
Proof. vm_compute. reflexivity. Qed.
