(* ===== verification/VmeDma.v ===== *)
(** * DMA transfers ([vmebridge/driver/vme_dma.c])

    A transfer from the request to its cleanup, with every kernel object it
    takes on a log; the scatter-gather list of the pages of a buffer; and the
    queue of tasks that share the two channels. *)

From S2P Require Import Prelude VmeBus Tsi148 Tsi148Dma.

(** ** Pages *)

Definition DMA_PAGE_SHIFT : Z := 12.
Definition DMA_PAGE_SIZE : Z := 0x1000.
Definition offset_in_page (a : Z) : Z := Z.land a 0xfff.

(** A [struct scatterlist] entry: [sg_set_page(page, len, offset)]. *)
Record sg_page := Sg_page { sgp_page : Z; sgp_len : Z; sgp_off : Z }.

(** Entries for pages 1 ... of the loop, with what is left of the buffer. *)
Fixpoint sg_rest (pages : list Z) (length : Z) : list sg_page :=
  match pages with
  | [] => []
  | p :: pages =>
      Sg_page p (if length <? DMA_PAGE_SIZE then length else DMA_PAGE_SIZE) 0
      :: sg_rest pages (u32 (length - DMA_PAGE_SIZE))
  end.

Definition sg_populate (pages : list Z) (uaddr length : Z) : list sg_page :=
  match pages with
  | [] => []
  | [p] => [Sg_page p length (offset_in_page uaddr)]
  | p :: rest =>
      let off := offset_in_page uaddr in
      let len := DMA_PAGE_SIZE - off in
      Sg_page p len off :: sg_rest rest (u32 (length - len))
  end.

Definition dma_nr_pages (uaddr length : Z) : Z :=
  Z.shiftr (u32 (offset_in_page uaddr + length + 0xfff)) DMA_PAGE_SHIFT.

(** ** What the kernel answers during a transfer *)

Record denv := Denv {
  de_acquire : Z + Z;                    (* error, or the channel acquired *)
  de_sgl : bool;                         (* kmalloc of the scatter-gather list *)
  de_pages : bool;                       (* kmalloc of the array of pages *)
  de_gup : Z -> Z;                       (* get_user_pages: pages pinned, or an error *)
  de_virt : bool;                        (* virt_addr_valid *)
  de_page : Z -> Z;                      (* the page of index i of the buffer *)
  de_junk : list sg_page;                (* contents of the fresh list *)
  de_map : list sg_page -> list sg_entry; (* pci_map_sg *)
  de_wait : Z;                           (* wait_event_interruptible *)
  de_status : Z;                         (* DSTA when the transfer has stopped *)
}.

(** Kinds of kernel objects. *)
Definition DChan : Z := 10.
Definition DSgl : Z := 11.
Definition DPages : Z := 12.
Definition DPin : Z := 13.
Definition DMap : Z := 14.

Record xstate := Xstate { x_d : dstate; x_log : list kev }.
Definition xlog (l : list kev) (x : xstate) : xstate := Xstate (x_d x) (x_log x ++ l).
Definition set_x_d (d : dstate) (x : xstate) : xstate := Xstate d (x_log x).

Definition page_list (e : denv) (n : Z) : list Z := de_page e <$> seqZ 0 n.

Definition sgl_fill_user_pages (e : denv) (nr_pages : Z) (x : xstate) : Z * xstate :=
  let ret := de_gup e nr_pages in
  (ret, xlog (Acq DPin <$> page_list e ret) x).

Definition sgl_fill_kernel_pages (e : denv) (nr_pages : Z) : Z :=
  if de_virt e then nr_pages else - EINVAL.

(** [sgl_map_user_pages()]: value returned, the list, state.  The label
    [out_free] returns [nr_pages], whatever happened. *)
Definition sgl_map_user_pages (e : denv) (nr_pages uaddr length to_user : Z) (x : xstate)
    : Z * list sg_page * xstate :=
  if negb (de_pages e) then (- ENOMEM, de_junk e, x) else
  let x := xlog [Acq DPages 0] x in
  let out_free sgl x := (nr_pages, sgl, xlog [Rel DPages 0] x) in
  let populate x := out_free (sg_populate (page_list e nr_pages) uaddr length) x in
  if truthy to_user then
    let '(rc, x) := sgl_fill_user_pages e nr_pages x in
    if (0 <=? rc) && (rc <? nr_pages) then
      out_free (de_junk e) (xlog (Rel DPin <$> page_list e rc) x)
    else if rc <? 0 then out_free (de_junk e) x
    else populate x
  else
    let rc := sgl_fill_kernel_pages e nr_pages in
    if rc <? 0 then out_free (de_junk e) x else populate x.

Definition sgl_unmap_user_pages (sgl : list sg_page) (to_user : Z) (x : xstate) : xstate :=
  if truthy to_user then xlog ((fun s => Rel DPin (sgp_page s)) <$> sgl) x else x.

(** ** [vme_dma_setup()]: rc, channel, list of pages, state *)

Definition set_sg (sgl : list sg_entry) (pages mapped : Z) (ch : dma_channel) : dma_channel :=
  {| ch_busy := ch_busy ch; ch_num := ch_num ch; ch_desc := ch_desc ch;
     ch_chained := ch_chained ch; ch_sgl := sgl; ch_sg_pages := pages;
     ch_sg_mapped := mapped; ch_hw_desc_list := ch_hw_desc_list ch |}.

Definition set_desc (d : vme_dma) (ch : dma_channel) : dma_channel :=
  {| ch_busy := ch_busy ch; ch_num := ch_num ch; ch_desc := d;
     ch_chained := ch_chained ch; ch_sgl := ch_sgl ch; ch_sg_pages := ch_sg_pages ch;
     ch_sg_mapped := ch_sg_mapped ch; ch_hw_desc_list := ch_hw_desc_list ch |}.

Definition host_addr (d : vme_dma) : Z :=
  if dma_dir d =? VME_DMA_TO_DEVICE then da_addrl (dma_src d) else da_addrl (dma_dst d).

Definition vme_dma_setup (e : denv) (ch : dma_channel) (to_user : Z) (x : xstate)
    : outcome (Z * dma_channel * list sg_page * xstate) :=
  let d := ch_desc ch in
  let length := dma_length d in
  let uaddr := host_addr d in
  if u32 (uaddr + length) <? uaddr then Done (- EINVAL, ch, [], x) else
  let nr_pages := dma_nr_pages uaddr length in
  if negb (de_sgl e) then Done (- ENOMEM, ch, [], x) else
  let x := xlog [Acq DSgl 0] x in
  let '(sg_pages, pgs, x) := sgl_map_user_pages e nr_pages uaddr length to_user x in
  if sg_pages <=? 0 then Done (sg_pages, set_sg [] sg_pages 0 ch, [], xlog [Rel DSgl 0] x) else
  let sgl := de_map e pgs in
  let x := xlog [Acq DMap 0] x in
  let ch := set_sg sgl sg_pages (Z.of_nat (List.length sgl)) ch in
  match tsi148_dma_setup ch (x_d x) with
  | Done (rc, ch, ds) =>
      let x := set_x_d ds x in
      if truthy rc then
        let x := xlog [Rel DMap 0] x in
        let x := sgl_unmap_user_pages pgs to_user x in
        Done (rc, ch, pgs, xlog [Rel DSgl 0] x)
      else Done (0, ch, pgs, x)
  | Bug => Bug
  | OutOfFuel => OutOfFuel
  end.

Definition vme_dma_start (ch : dma_channel) (c : chip) : chip := tsi148_dma_start ch c.

(** ** [__vme_do_dma()]: rc, status of the transfer, channel, state *)

Definition __vme_do_dma (e : denv) (ch : dma_channel) (d : vme_dma) (to_user : Z) (x : xstate)
    : outcome (Z * Z * dma_channel * xstate) :=
  let status := dma_status d in
  if dma_length d =? 0 then Done (- EINVAL, status, ch, x) else
  if negb (dma_dir d =? VME_DMA_FROM_DEVICE) && negb (dma_dir d =? VME_DMA_TO_DEVICE)
  then Done (- EINVAL, status, ch, x) else
  if truthy (da_addru (dma_src d)) || truthy (da_addru (dma_dst d))
  then Done (- EINVAL, status, ch, x) else
  match de_acquire e with
  | inl rc => Done (rc, status, ch, x)
  | inr n =>
      let x := xlog [Acq DChan n] x in
      let ch := set_desc d ch in
      match vme_dma_setup e ch to_user x with
      | Done (rc, ch, pgs, x) =>
          if truthy rc then Done (rc, status, ch, xlog [Rel DChan n] x) else
          let x := set_x_d (set_chip (vme_dma_start ch (d_chip (x_d x))) (x_d x)) x in
          let rc := de_wait e in
          let x := if truthy rc
                   then set_x_d (set_chip (tsi148_dma_abort ch (d_chip (x_d x))) (x_d x)) x else x in
          let x := set_x_d (set_chip (<[DSTA (ch_num ch) := de_status e]> (d_chip (x_d x))) (x_d x)) x in
          let status := tsi148_dma_get_status ch (d_chip (x_d x)) in
          let '(ch, ds) := tsi148_dma_release ch (x_d x) in
          let x := set_x_d ds x in
          let x := xlog [Rel DMap 0] x in
          let x := sgl_unmap_user_pages pgs to_user x in
          let x := xlog [Rel DSgl 0] x in
          Done (rc, status, ch, xlog [Rel DChan n] x)
      | Bug => Bug
      | OutOfFuel => OutOfFuel
      end
  end.

Definition vme_do_dma (e : denv) (ch : dma_channel) (d : vme_dma) (x : xstate) := __vme_do_dma e ch d 1 x.
Definition vme_do_dma_kernel (e : denv) (ch : dma_channel) (d : vme_dma) (x : xstate) :=
  __vme_do_dma e ch d 0 x.

(** [vme_dma_ioctl()]: rc, the status copied back if any, channel, state.
    [start]: the command is [VME_IOCTL_START_DMA]; [from], [to]: the copies from
    and to user space succeed. *)
Definition vme_dma_ioctl (start from to : bool) (e : denv) (ch : dma_channel) (d : vme_dma) (x : xstate)
    : outcome (Z * option Z * dma_channel * xstate) :=
  if negb start then Done (- ENOIOCTLCMD, None, ch, x) else
  if negb from then Done (- EFAULT, None, ch, x) else
  match vme_do_dma e ch d x with
  | Done (rc, status, ch, x) =>
      if truthy rc then Done (rc, None, ch, x) else
      if negb to then Done (- EFAULT, None, ch, x) else Done (0, Some status, ch, x)
  | Bug => Bug
  | OutOfFuel => OutOfFuel
  end.

(** ** Sharing the channels

    Tasks in [vme_dma_channel_acquire()] and [vme_dma_channel_release()], and
    the module exit, as interleaved steps.  The section under [dma_lock] is one
    step. *)

(** Where a task is: before the call, sleeping on the semaphore, past it, after
    the second test of [dma_disable], using a channel, with the busy flag
    dropped, or returned. *)
Inductive dpc :=
  | PStart
  | PDown
  | PCheck
  | PFind
  | PHold (ch : nat)
  | PUp
  | PRet (rc : Z)
  (* vme_dma_exit: about to set dma_disable; before and after its i-th down() *)
  | PExit
  | PExitDown (i : nat)
  | PExitUp (i : nat)
  | PExited.

Record cstate := Cstate {
  c_sem : Z;                (* dma_semaphore *)
  c_disable : bool;         (* dma_disable *)
  c_busy : list bool;       (* channels[i].busy *)
  c_tasks : list dpc;
}.

(** [__lock_avail_channel()] *)
Definition __lock_avail_channel (busy : list bool) : option nat * list bool :=
  match list_find (fun b => b = false) busy with
  | Some (i, _) => (Some i, <[i := true]> busy)
  | None => (None, busy)
  end.

(** One step of a task; [signal] says that its sleep is interrupted.  [None]:
    the task is blocked, or has returned. *)
Definition task_step (signal : bool) (pc : dpc) (st : cstate) : option (dpc * cstate) :=
  let sem s := Cstate s (c_disable st) (c_busy st) (c_tasks st) in
  let busy b := Cstate (c_sem st) (c_disable st) b (c_tasks st) in
  match pc with
  | PStart => Some (if c_disable st then PRet (- EBUSY) else PDown, st)
  | PDown =>
      if 0 <? c_sem st then Some (PCheck, sem (c_sem st - 1))
      else if signal then Some (PRet (- EINTR), st) else None
  | PCheck =>
      if c_disable st then Some (PRet (- EBUSY), sem (c_sem st + 1)) else Some (PFind, st)
  | PFind =>
      let '(r, b) := __lock_avail_channel (c_busy st) in
      match r with Some i => Some (PHold i, busy b) | None => Some (PRet (- EDEADLK), busy b) end
  | PHold i => Some (PUp, busy (<[i := false]> (c_busy st)))
  | PUp => Some (PRet 0, sem (c_sem st + 1))
  | PRet _ => None
  | PExit => Some (PExitDown 0, Cstate (c_sem st) true (c_busy st) (c_tasks st))
  | PExitDown i => if 0 <? c_sem st then Some (PExitUp i, sem (c_sem st - 1)) else None
  | PExitUp i => Some (if Nat.ltb i 1 then PExitDown (S i) else PExited, sem (c_sem st + 1))
  | PExited => None
  end.

Definition sys_step (tid : nat) (signal : bool) (st : cstate) : option cstate :=
  pc ← c_tasks st !! tid;
  '(pc', st') ← task_step signal pc st;
  Some (Cstate (c_sem st') (c_disable st') (c_busy st') (<[tid := pc']> (c_tasks st'))).

(** [vme_dma_init()], then any number of callers and of module exits. *)
Definition cstate_boot (tasks : list dpc) : cstate :=
  Cstate TSI148_NUM_DMA_CHANNELS false [false; false] tasks.

Inductive creach (tasks : list dpc) : cstate -> Prop :=
  | creach_boot : creach tasks (cstate_boot tasks)
  | creach_step tid signal st st' :
      creach tasks st -> sys_step tid signal st = Some st' -> creach tasks st'.

Fixpoint run_schedule (sched : list (nat * bool)) (st : cstate) : option cstate :=
  match sched with
  | [] => Some st
  | (tid, signal) :: sched => st' ← sys_step tid signal st; run_schedule sched st'
  end.
