(* ===== verification/VmeDmaInv.v ===== *)
(** * DMA transfers: coverage, cleanup and channel sharing

    The scatter-gather list of a buffer is the buffer; a transfer gives back
    everything it took on every path where the pages of its buffer could be
    pinned; two tasks never use the same channel, the error for "no free
    channel behind the semaphore" cannot happen, and callers cannot deadlock. *)

From S2P Require Import Prelude VmeBus Tsi148 Tsi148Dma Tsi148DmaChain VmeDma.

(** ** The pages of a buffer *)

(** The bytes of an entry, when entry pages are numbered from the first page of
    the buffer at [uaddr]. *)
Definition entry_bytes (uaddr : Z) (s : sg_page) : list Z :=
  seqZ ((uaddr / DMA_PAGE_SIZE + sgp_page s) * DMA_PAGE_SIZE + sgp_off s) (sgp_len s).

Definition entry_in_page (s : sg_page) : Prop :=
  0 < sgp_len s /\ 0 <= sgp_off s /\ sgp_off s + sgp_len s <= DMA_PAGE_SIZE.

Lemma offset_mod a : offset_in_page a = a mod DMA_PAGE_SIZE.
Proof. apply (land_low_mask a 12). lia. Qed.

Lemma sg_rest_covers uaddr (n : nat) i length :
  0 < length < 2 ^ 32 -> DMA_PAGE_SIZE * (Z.of_nat n - 1) < length <= DMA_PAGE_SIZE * Z.of_nat n ->
  flat_map (entry_bytes uaddr) (sg_rest (seqZ i (Z.of_nat n)) length)
    = seqZ ((uaddr / DMA_PAGE_SIZE + i) * DMA_PAGE_SIZE) length /\
  Forall entry_in_page (sg_rest (seqZ i (Z.of_nat n)) length).
Proof.
  unfold DMA_PAGE_SIZE. revert i length. induction n as [|n IH]; intros i length Hl Hn; [lia|].
  rewrite seqZ_cons by lia. replace (Z.pred (Z.of_nat (S n))) with (Z.of_nat n) by lia.
  cbn [sg_rest flat_map]. unfold entry_bytes at 1. cbn [sgp_page sgp_off sgp_len]. unfold DMA_PAGE_SIZE.
  destruct (Z.ltb_spec length 0x1000).
  - destruct n as [|n]; [|lia]. rewrite (seqZ_nil (Z.succ i)) by lia. cbn [sg_rest flat_map].
    rewrite app_nil_r, Z.add_0_r.
    split; [done|]. constructor; [|constructor]. unfold entry_in_page, DMA_PAGE_SIZE. simpl. lia.
  - destruct (decide (n = 0%nat)) as [->|Hn0].
    + assert (length = 0x1000) as -> by lia. rewrite (seqZ_nil (Z.succ i)) by lia. cbn [sg_rest flat_map].
      rewrite app_nil_r, Z.add_0_r.
      split; [done|]. constructor; [|constructor]. unfold entry_in_page, DMA_PAGE_SIZE. simpl. lia.
    + rewrite u32_id by (unfold is_u32; lia).
      destruct (IH (Z.succ i) (length - 0x1000)) as [-> Hf]; [lia..|]. split.
      * rewrite Z.add_0_r.
        replace ((uaddr / 4096 + Z.succ i) * 4096) with ((uaddr / 4096 + i) * 4096 + 4096) by lia.
        rewrite <- seqZ_app by lia. f_equal. lia.
      * constructor; [|done]. unfold entry_in_page, DMA_PAGE_SIZE. simpl. lia.
Qed.

(** The number of pages a buffer touches. *)
Lemma nr_pages_spec uaddr length :
  0 <= uaddr -> 0 < length -> offset_in_page uaddr + length + 0xfff < 2 ^ 32 ->
  0 < dma_nr_pages uaddr length /\
  DMA_PAGE_SIZE * (dma_nr_pages uaddr length - 1) < offset_in_page uaddr + length
    <= DMA_PAGE_SIZE * dma_nr_pages uaddr length.
Proof.
  intros Hu Hl Hs. unfold dma_nr_pages, DMA_PAGE_SHIFT. rewrite offset_mod in *. unfold DMA_PAGE_SIZE in *.
  pose proof (Z.mod_pos_bound uaddr 0x1000 ltac:(lia)) as Hm.
  rewrite u32_id by (unfold is_u32; lia). rewrite Z.shiftr_div_pow2 by lia. change (2 ^ 12) with 0x1000.
  set (x := uaddr mod 0x1000) in *. clearbody x.
  split; [|split]; Z.div_mod_to_equations; lia.
Qed.

Lemma populate_covers uaddr length :
  0 <= uaddr -> 0 < length -> offset_in_page uaddr + length + 0xfff < 2 ^ 32 ->
  let sgl := sg_populate (seqZ 0 (dma_nr_pages uaddr length)) uaddr length in
  flat_map (entry_bytes uaddr) sgl = seqZ uaddr length /\ Forall entry_in_page sgl.
Proof.
  intros Hu Hl Hs. destruct (nr_pages_spec uaddr length Hu Hl Hs) as [Hn Hb].
  rewrite offset_mod in *. set (n := dma_nr_pages uaddr length) in *. clearbody n.
  pose proof (Z.mod_pos_bound uaddr DMA_PAGE_SIZE ltac:(done)) as Hm.
  pose proof (Z.div_mod uaddr DMA_PAGE_SIZE ltac:(done)) as Hdm. cbv zeta.
  rewrite seqZ_cons by lia. destruct (decide (n = 1)) as [->|Hn1].
  - rewrite (seqZ_nil (Z.succ 0)) by lia. cbn [sg_populate flat_map]. rewrite app_nil_r. unfold entry_bytes. cbn [sgp_page sgp_off sgp_len].
    rewrite !offset_mod. split; [f_equal; lia|]. constructor; [|constructor]. unfold entry_in_page.
    cbn [sgp_len sgp_off]. rewrite ?offset_mod. lia.
  - rewrite (seqZ_cons (Z.succ 0)) by lia. unfold sg_populate. cbv zeta. rewrite offset_mod.
    rewrite <- (seqZ_cons (Z.succ 0)) by lia. change (Z.succ 0) with 1.
    unfold DMA_PAGE_SIZE in *. rewrite u32_id by (unfold is_u32; lia).
    replace (Z.pred n) with (Z.of_nat (Z.to_nat (n - 1))) by lia.
    destruct (sg_rest_covers uaddr (Z.to_nat (n - 1)) 1 (length - (4096 - uaddr mod 4096))) as [E Hf];
      unfold DMA_PAGE_SIZE; [lia..|]. cbn [flat_map]. rewrite E. split.
    + unfold entry_bytes, DMA_PAGE_SIZE. cbn [sgp_page sgp_off sgp_len].
      replace ((uaddr / 4096 + 0) * 4096 + uaddr mod 4096) with uaddr by lia.
      replace ((uaddr / 4096 + 1) * 4096) with (uaddr + (4096 - uaddr mod 4096)) by lia.
      rewrite <- seqZ_app by lia. f_equal. lia.
    + constructor; [|done]. unfold entry_in_page, DMA_PAGE_SIZE. simpl. lia.
Qed.

(** the scatter-gather list built for a buffer covers each of its bytes once
    and in order, and each entry is a non-empty part of one page, for every
    buffer that does not reach into the last page of the address space. *)
Lemma sg_list_covers_buffer uaddr length :
  0 <= uaddr -> 0 < length -> offset_in_page uaddr + length + 0xfff < 2 ^ 32 ->
  let sgl := sg_populate (seqZ 0 (dma_nr_pages uaddr length)) uaddr length in
  flat_map (entry_bytes uaddr) sgl = seqZ uaddr length /\ Forall entry_in_page sgl.
Proof. apply populate_covers. Qed.

Lemma sg_list_covers_buffer_witness :
  length (sg_populate (seqZ 0 (dma_nr_pages 0x10f80 0x2100)) 0x10f80 0x2100) = 4%nat /\
  flat_map (entry_bytes 0x10f80) (sg_populate (seqZ 0 (dma_nr_pages 0x10f80 0x2100)) 0x10f80 0x2100)
    = seqZ 0x10f80 0x2100.
Proof.
  split; [vm_compute; reflexivity|].
  apply (sg_list_covers_buffer 0x10f80 0x2100); [lia|lia|vm_compute; reflexivity].
Defined.

(** A length in the last page of the 32-bit range passes the overflow test but
    wraps the page count to zero. *)
Lemma nr_pages_wraps : u32 (0 + 0xfffff800) <? 0 = false /\ dma_nr_pages 0 0xfffff800 = 0.
Proof. split; reflexivity. Qed.

(** ** Cleanup *)

(** The log runs and ends with the objects that satisfy [P]. *)
Definition owns (l : list kev) (P : Z * Z -> Prop) : Prop :=
  exists S, own_run l ∅ = Some S /\ forall x, x ∈ S <-> P x.

Lemma owns_ext l P Q : owns l P -> (forall x, P x <-> Q x) -> owns l Q.
Proof. intros (S & HS & Hx) He. exists S. split; [done|]. intros x. by rewrite Hx. Qed.

Lemma owns_acq l P k i : owns l P -> ~ P (k, i) -> owns (l ++ [Acq k i]) (fun x => x = (k, i) \/ P x).
Proof.
  intros (S & HS & Hx) Hn. exists ({[(k, i)]} ∪ S). split.
  - unfold own_run in *. rewrite foldl_app, HS. simpl. rewrite decide_False; [done|]. by rewrite Hx.
  - intros x. rewrite elem_of_union, elem_of_singleton, Hx. done.
Qed.

Lemma owns_rel l P k i : owns l P -> P (k, i) -> owns (l ++ [Rel k i]) (fun x => x <> (k, i) /\ P x).
Proof.
  intros (S & HS & Hx) Hn. exists (S ∖ {[(k, i)]}). split.
  - unfold own_run in *. rewrite foldl_app, HS. simpl. rewrite decide_True; [done|]. by rewrite Hx.
  - intros x. rewrite elem_of_difference, elem_of_singleton, Hx. tauto.
Qed.

Lemma owns_acq_list l P k ps :
  NoDup ps -> owns l P -> (forall p, ~ P (k, p)) ->
  owns (l ++ (Acq k <$> ps)) (fun x => (x.1 = k /\ x.2 ∈ ps) \/ P x).
Proof.
  intros Hn Ho HP. induction ps as [|p ps IH] using rev_ind.
  - simpl. rewrite app_nil_r. eapply owns_ext; [exact Ho|]. intros x. rewrite elem_of_nil. tauto.
  - apply NoDup_app in Hn as (Hn & Hd & _). rewrite fmap_app, app_assoc. simpl.
    eapply owns_ext; [apply owns_acq; [by apply IH|]|].
    + simpl. intros [[_ Hp]|Hp]; [apply (Hd p Hp); by left|by apply HP in Hp].
    + intros [a b]. simpl. rewrite elem_of_app, list_elem_of_singleton. naive_solver.
Qed.

Lemma owns_rel_list l P k ps :
  NoDup ps -> owns l P -> (forall p, p ∈ ps -> P (k, p)) ->
  owns (l ++ (Rel k <$> ps)) (fun x => ~ (x.1 = k /\ x.2 ∈ ps) /\ P x).
Proof.
  intros Hn Ho HP. induction ps as [|p ps IH] using rev_ind.
  - simpl. rewrite app_nil_r. eapply owns_ext; [exact Ho|]. intros x. rewrite elem_of_nil. tauto.
  - apply NoDup_app in Hn as (Hn & Hd & _). rewrite fmap_app, app_assoc. simpl.
    eapply owns_ext; [apply owns_rel; [apply IH; [done|]|]|].
    + intros q Hq. apply HP. apply elem_of_app. by left.
    + simpl. split; [|apply HP; apply elem_of_app; right; by left].
      intros [_ Hp]. apply (Hd p Hp). by left.
    + intros [a b]. simpl. rewrite elem_of_app, list_elem_of_singleton. naive_solver.
Qed.

Lemma owns_empty l : owns l (fun _ => False) <-> own_run l ∅ = Some ∅.
Proof.
  split.
  - intros (S & HS & Hx). rewrite HS. f_equal. apply set_eq. intros x.
    rewrite Hx. split; [done|]. by intros ?%not_elem_of_empty.
  - intros E. exists ∅. split; [done|]. intros x. split; [by intros ?%not_elem_of_empty|done].
Qed.

(** The kernel can pin the pages of the buffer and maps them onto the bus as a
    list the chip can use. *)
Record env_ok (e : denv) (d : vme_dma) (x : xstate) : Prop := {
  ev_gup : forall n, de_gup e n = n;
  ev_virt : de_virt e = true;
  ev_pages : NoDup (page_list e (dma_nr_pages (host_addr d) (dma_length d)));
  ev_map : forall pgs, pgs <> [] -> de_map e pgs <> [] /\ Forall sg_ok (de_map e pgs) /\
             vme_fits d (vme_start d) (de_map e pgs);
  ev_vme : 0 <= vme_start d;
  ev_pool : answers_ok (d_answers (x_d x)) (d_pool (x_d x));
}.

(** The pages of a populated list are the pages given. *)
Lemma sg_rest_pages pages length : sgp_page <$> sg_rest pages length = pages.
Proof. revert length. induction pages as [|p pages IH]; intros; [done|]. cbn [sg_rest]. by rewrite fmap_cons, IH. Qed.

Lemma populate_pages pages uaddr length : sgp_page <$> sg_populate pages uaddr length = pages.
Proof.
  destruct pages as [|p [|q pages]]; [done..|]. unfold sg_populate. cbv zeta.
  rewrite fmap_cons. f_equal. apply sg_rest_pages.
Qed.

Lemma populate_nonempty e n uaddr length :
  0 < n -> sg_populate (page_list e n) uaddr length <> [].
Proof.
  intros Hn E. apply (f_equal (fmap sgp_page)) in E. rewrite populate_pages in E.
  unfold page_list in E. rewrite seqZ_cons in E by lia. done.
Qed.

(** The objects [P] and, for a user buffer, the pins of [ps]. *)
Definition with_pins (to_user : Z) (ps : list Z) (P : Z * Z -> Prop) : Z * Z -> Prop :=
  fun y => (to_user <> 0 /\ y.1 = DPin /\ y.2 ∈ ps) \/ P y.

(** What [sgl_map_user_pages()] leaves: the pages of the list, pinned if they
    are a user's. *)
Lemma map_user_pages_spec e n uaddr length to_user x P :
  owns (x_log x) P -> (forall p, ~ P (DPin, p)) -> ~ P (DPages, 0) ->
  (forall m, de_gup e m = m) -> de_virt e = true -> NoDup (page_list e n) -> 0 < n ->
  let '(rc, pgs, x') := sgl_map_user_pages e n uaddr length to_user x in
  x_d x' = x_d x /\
  ((rc < 0 /\ owns (x_log x') P) \/
   (rc = n /\ pgs <> [] /\ (sgp_page <$> pgs) = page_list e n /\
    owns (x_log x') (with_pins to_user (page_list e n) P))).
Proof.
  intros Ho Hpin Hpg Hgup Hvirt Hnd Hn. unfold sgl_map_user_pages.
  destruct (de_pages e); cbn [negb]; [|split; [done|left; split; [done|exact Ho]]].
  pose proof (owns_acq _ _ DPages 0 Ho Hpg) as H1. unfold with_pins.
  destruct (truthy to_user) eqn:Eu; unfold truthy in Eu; boolp.
  - unfold sgl_fill_user_pages. rewrite Hgup, Z.ltb_irrefl, andb_false_r.
    rewrite (proj2 (Z.ltb_ge _ _)) by lia. split; [done|]. right. split; [done|].
    split; [by apply populate_nonempty|]. split; [apply populate_pages|]. cbn [x_log xlog].
    pose proof (owns_acq_list _ _ DPin (page_list e n) Hnd H1) as H2.
    eapply owns_ext; [apply owns_rel; [apply H2|]|].
    + intros p [?|?]; [done|by apply (Hpin p)].
    + right. by left.
    + intros [a b]. simpl. split; [naive_solver|].
      intros [(_ & -> & Hb)|Hy]; [split; [done|by left]|].
      split; [intros E; rewrite E in Hy; done|by right; right].
  - unfold sgl_fill_kernel_pages. rewrite Hvirt, (proj2 (Z.ltb_ge _ _)) by lia.
    split; [done|]. right. split; [done|]. split; [by apply populate_nonempty|].
    split; [apply populate_pages|].
    eapply owns_ext; [apply owns_rel; [exact H1|by left]|]. intros y. simpl. split; [naive_solver|].
    intros [[? _]|Hy]; [done|]. split; [intros ->; done|by right].
Qed.

Lemma unmap_owns pgs to_user x P ps :
  owns (x_log x) (with_pins to_user ps P) ->
  (sgp_page <$> pgs) = ps -> NoDup ps -> (forall p, ~ P (DPin, p)) ->
  owns (x_log (sgl_unmap_user_pages pgs to_user x)) P /\
  x_d (sgl_unmap_user_pages pgs to_user x) = x_d x.
Proof.
  intros Ho Hps Hn HP. unfold sgl_unmap_user_pages, with_pins in *. destruct (truthy to_user) eqn:E; unfold truthy in E; boolp.
  - split; [|done]. cbn [x_log xlog].
    replace ((fun s => Rel DPin (sgp_page s)) <$> pgs) with (Rel DPin <$> ps)
      by (rewrite <- Hps; by rewrite <- list_fmap_compose).
    eapply owns_ext; [apply owns_rel_list; [done|exact Ho|]|].
    + intros p Hp. left. done.
    + intros [a b]. simpl. split; [tauto|]. intros Hy. split; [|by right].
      intros [-> _]. by apply (HP b).
  - split; [|done]. eapply owns_ext; [exact Ho|]. intros y. tauto.
Qed.

(** A request whose buffer does not reach the last page of the address space. *)
Definition buffer_ok (d : vme_dma) : Prop :=
  0 <= host_addr d /\ 0 < dma_length d /\ offset_in_page (host_addr d) + dma_length d + 0xfff < 2 ^ 32.

Definition chan_owns (n : Z) : Z * Z -> Prop := fun y => y = (DChan, n).
Definition sgl_owns (n : Z) : Z * Z -> Prop := fun y => y = (DSgl, 0) \/ chan_owns n y.
Definition map_owns (n : Z) : Z * Z -> Prop := fun y => y = (DMap, 0) \/ sgl_owns n y.

Lemma owns_swap l to_user ps P k i :
  owns l (with_pins to_user ps P) -> k <> DPin -> ~ P (k, i) ->
  owns (l ++ [Acq k i]) (with_pins to_user ps (fun y => y = (k, i) \/ P y)).
Proof.
  intros Ho Hk HP. eapply owns_ext; [apply owns_acq; [exact Ho|]|].
  - intros [(_ & ? & _)|?]; done.
  - intros y. unfold with_pins. tauto.
Qed.

Lemma owns_unswap l to_user ps P k i :
  owns l (with_pins to_user ps (fun y => y = (k, i) \/ P y)) -> k <> DPin -> ~ P (k, i) ->
  owns (l ++ [Rel k i]) (with_pins to_user ps P).
Proof.
  intros Ho Hk HP. eapply owns_ext; [apply owns_rel; [exact Ho|right; by left]|].
  intros y. unfold with_pins. split; [tauto|].
  intros Hy. split; [intros ->; destruct Hy as [(_ & ? & _)|?]; done|tauto].
Qed.

Lemma owns_close l P k i : owns l (fun y => y = (k, i) \/ P y) -> ~ P (k, i) -> owns (l ++ [Rel k i]) P.
Proof.
  intros Ho HP. eapply owns_ext; [apply owns_rel; [exact Ho|by left]|].
  intros y. split; [tauto|]. intros Hy. split; [by intros ->|by right].
Qed.

(** Unmapping the list and freeing it, at the end of a transfer. *)
Lemma unmap_all pgs to_user x n ps :
  owns (x_log x) (with_pins to_user ps (map_owns n)) -> (sgp_page <$> pgs) = ps -> NoDup ps ->
  let x' := xlog [Rel DSgl 0] (sgl_unmap_user_pages pgs to_user (xlog [Rel DMap 0] x)) in
  owns (x_log x') (chan_owns n) /\ x_d x' = x_d x.
Proof.
  intros Ho Hps Hn. cbv zeta.
  destruct (unmap_owns pgs to_user (xlog [Rel DMap 0] x) (sgl_owns n) ps) as [Ho2 Hd]; try done.
  - apply owns_unswap; [exact Ho|done|]. unfold sgl_owns, chan_owns. naive_solver.
  - unfold sgl_owns, chan_owns. naive_solver.
  - split; [|exact Hd]. apply owns_close; [exact Ho2|]. unfold chan_owns. naive_solver.
Qed.

Lemma vme_dma_setup_spec e ch to_user x n :
  owns (x_log x) (chan_owns n) -> env_ok e (ch_desc ch) x -> dir_ok (ch_desc ch) ->
  buffer_ok (ch_desc ch) -> ch_hw_desc_list ch = [] ->
  exists rc ch' pgs x', vme_dma_setup e ch to_user x = Done (rc, ch', pgs, x') /\
    ((rc <> 0 /\ owns (x_log x') (chan_owns n) /\ d_pool (x_d x') = d_pool (x_d x)) \/
     (rc = 0 /\ ch_chained ch' = 1 /\
      (forall c, d_pool (tsi148_dma_release ch' (set_chip c (x_d x'))).2 = d_pool (x_d x)) /\
      exists ps, NoDup ps /\ (sgp_page <$> pgs) = ps /\
        owns (x_log x') (with_pins to_user ps (map_owns n)))).
Proof.
  intros Ho [Hgup Hvirt Hnd Hmap Hv Hpool] Hdir (Hh & Hl & Hsz) Hlist. unfold vme_dma_setup.
  set (d := ch_desc ch) in *.
  destruct (_ <? host_addr d); [do 4 eexists; split; [done|]; left; split_and!; done|].
  destruct (de_sgl e); cbn [negb]; [|do 4 eexists; split; [done|]; left; split_and!; done].
  destruct (nr_pages_spec (host_addr d) (dma_length d) Hh Hl Hsz) as [Hn _].
  set (np := dma_nr_pages _ _) in *. clearbody np.
  assert (owns (x_log (xlog [Acq DSgl 0] x)) (sgl_owns n)) as Ho1.
  { apply owns_acq; [exact Ho|]. unfold chan_owns. naive_solver. }
  pose proof (map_user_pages_spec e np (host_addr d) (dma_length d) to_user _ _ Ho1) as Hm.
  destruct (sgl_map_user_pages _ _ _ _ _ _) as [[rc pgs] x1].
  destruct Hm as [Hd1 Hm]; try done; [by intros p [?|?]|by intros [?|?]|].
  destruct Hm as [[Hrc Ho2]|(-> & Hne & Hps & Ho2)].
  { rewrite (proj2 (Z.leb_le _ _)) by lia. do 4 eexists. split; [done|]. left.
    split_and!; [lia| |cbn [x_d xlog]; by rewrite Hd1].
    apply owns_close; [exact Ho2|]. unfold chan_owns. naive_solver. }
  rewrite (proj2 (Z.leb_gt _ _)) by lia. destruct (Hmap pgs Hne) as (Hm1 & Hm2 & Hm3).
  set (ch1 := set_sg _ _ _ ch). cbn [x_d xlog]. rewrite Hd1. cbn [x_d xlog].
  assert (transfer_ok ch1 (x_d x)) as Ht by (split; done).
  destruct (dma_setup_total ch1 (x_d x) Ht) as (rc & ch' & ds & -> & _ & Hcase).
  assert (owns (x_log (set_x_d ds (xlog [Acq DMap 0] x1))) (with_pins to_user (page_list e np) (map_owns n))) as Ho3.
  { apply owns_swap; [exact Ho2|done|]. unfold sgl_owns, chan_owns. naive_solver. }
  destruct Hcase as [(Hrc & _ & Hp)|(-> & Hch & Hp)].
  - unfold truthy. rewrite (proj2 (Z.eqb_neq _ _) Hrc). do 4 eexists. split; [done|]. left.
    destruct (unmap_all pgs to_user _ n _ Ho3 Hps Hnd) as [Ho4 Hd4].
    split; [exact Hrc|]. split; [exact Ho4|]. cbv zeta in Hd4. rewrite Hd4. exact Hp.
  - do 4 eexists. split; [done|]. right. split; [done|]. split; [done|]. split; [exact Hp|].
    by exists (page_list e np).
Qed.

Lemma do_dma_total e ch d to_user x n :
  x_log x = [] -> de_acquire e = inr n -> env_ok e d x -> dir_ok d -> buffer_ok d ->
  ch_hw_desc_list ch = [] ->
  exists rc status ch' x', __vme_do_dma e ch d to_user x = Done (rc, status, ch', x') /\
    own_run (x_log x') ∅ = Some ∅ /\ d_pool (x_d x') = d_pool (x_d x).
Proof.
  intros Hlog Hacq He Hdir Hbuf Hlist. unfold __vme_do_dma.
  rewrite (proj2 (Z.eqb_neq (dma_length d) 0)) by (destruct Hbuf; lia).
  destruct (negb (dma_dir d =? VME_DMA_FROM_DEVICE) && _); [do 4 eexists; split; [done|]; by rewrite Hlog|].
  destruct (truthy (da_addru (dma_src d)) || _); [do 4 eexists; split; [done|]; by rewrite Hlog|].
  rewrite Hacq.
  assert (owns (x_log (xlog [Acq DChan n] x)) (chan_owns n)) as Ho.
  { cbn [x_log xlog]. rewrite Hlog. eapply owns_ext; [apply (owns_acq [] (fun _ => False) DChan n)|];
      [by apply owns_empty|tauto|]. intros y. unfold chan_owns. tauto. }
  destruct (vme_dma_setup_spec e (set_desc d ch) to_user (xlog [Acq DChan n] x) n)
    as (rc & ch' & pgs & x1 & -> & Hcase); try done.
  { destruct He. by split. }
  destruct Hcase as [(Hrc & Ho1 & Hp)|(-> & Hch & Hp & ps & Hnd & Hps & Ho1)].
  - unfold truthy. rewrite (proj2 (Z.eqb_neq _ _) Hrc). do 4 eexists. split; [done|].
    split; [|exact Hp]. apply owns_empty, owns_close; [|tauto].
    eapply owns_ext; [exact Ho1|]. unfold chan_owns. tauto.
  - cbn [truthy Z.eqb negb]. set (x2 := if truthy (de_wait e) then _ else _).
    assert (x_log x2 = x_log x1 /\ exists c, x_d x2 = set_chip c (x_d x1)) as [Hlog2 [c Hd2]]
      by (subst x2; destruct (truthy (de_wait e)); split; try done; by eexists).
    clearbody x2. rewrite Hd2. set (c' := <[_ := _]> _).
    specialize (Hp c'). change (x_d (set_x_d (set_chip c' (set_chip c (x_d x1))) x2)) with (set_chip c' (x_d x1)).
    destruct (tsi148_dma_release ch' (set_chip c' (x_d x1))) as [ch2 ds]. simpl in Hp.
    do 4 eexists. split; [done|].
    destruct (unmap_all pgs to_user (set_x_d ds (set_x_d (set_chip c' (set_chip c (x_d x1))) x2)) n ps)
      as [Ho4 Hd4]; [simpl; by rewrite Hlog2|done..|].
    split; [|cbn [x_d xlog]; cbv zeta in Hd4; cbn [x_d xlog] in Hd4; rewrite Hd4; exact Hp].
    apply owns_empty, owns_close; [|tauto]. eapply owns_ext; [exact Ho4|]. unfold chan_owns. tauto.
Qed.


(** A page-by-page mapping of a buffer at bus address [0x20000]. *)
Definition demo_denv (gup : Z -> Z) : denv :=
  Denv (inr 1) true true gup true (fun i => i) [Sg_page 7 0x1000 0]
    (fun pgs => (fun s => (0x20000 + 0x1000 * sgp_page s, 0x100)) <$> pgs) 0 (2 ^ 25).

Definition demo_xstate : xstate := Xstate (Dstate ∅ ∅ (demo_answers 8)) [].

Lemma demo_env_ok : env_ok
  (Denv (inr 1) true true (fun n => n) true (fun i => i) [] (fun _ => [(0x20000, 0x300)]) 0 (2 ^ 25))
  demo_dma demo_xstate.
Proof.
  split; try done.
  - apply (bool_decide_unpack _). vm_compute. exact I.
  - intros pgs _. split; [done|]. split; [repeat constructor; simpl; lia|]. vm_compute. done.
  - apply demo_transfer_ok.
Qed.


(** When the pages cannot all be pinned, [sgl_map_user_pages()] releases those
    it pinned and computes [-ENOMEM], but returns [nr_pages]: the transfer goes
    on with the unfilled list, and its cleanup releases a page it does not
    hold. *)
Lemma unpinned_pages_used :
  match __vme_do_dma (demo_denv (fun _ => 0)) (Dma_channel 0 1 demo_dma 0 [] 0 0 []) demo_dma 1 demo_xstate with
  | Done (rc, _, _, x') => rc = 0 /\ own_run (x_log x') ∅ = None
  | _ => False
  end.
Proof. vm_compute. split; reflexivity. Qed.

(** ** Sharing the channels *)

Definition count (f : dpc -> Z) (l : list dpc) : Z := foldr (fun pc n => f pc + n) 0 l.

Definition w_hold (i : nat) (pc : dpc) : Z :=
  match pc with PHold j => Z.b2z (Nat.eqb i j) | _ => 0 end.

(** Past the semaphore without holding a channel. *)
Definition w_inside (pc : dpc) : Z :=
  match pc with PCheck | PFind | PUp | PExitUp _ => 1 | _ => 0 end.

Definition hold_ok (pc : dpc) : Prop := match pc with PHold j => (j < 2)%nat | _ => True end.
Definition no_deadlk (pc : dpc) : Prop := match pc with PRet rc => rc <> - EDEADLK | _ => True end.

Lemma count_insert f l i pc pc' :
  l !! i = Some pc -> count f (<[i := pc']> l) = count f l - f pc + f pc'.
Proof.
  revert i. induction l as [|x l IH]; intros [|i] Hl; simplify_eq/=; [lia|].
  rewrite (IH i) by done. lia.
Qed.

Lemma count_nonneg f l : (forall pc, 0 <= f pc) -> 0 <= count f l.
Proof. intros Hf. induction l as [|x l IH]; simpl; [lia|]. specialize (Hf x). lia. Qed.

Lemma count_pos f l i pc : (forall pc, 0 <= f pc) -> l !! i = Some pc -> f pc <= count f l.
Proof.
  intros Hf. revert i. induction l as [|x l IH]; intros [|i] Hl; simplify_eq/=.
  - pose proof (count_nonneg f l Hf). lia.
  - specialize (Hf x). specialize (IH i Hl). lia.
Qed.

Lemma count_two f l i j pc pc' :
  (forall pc, 0 <= f pc) -> i <> j -> l !! i = Some pc -> l !! j = Some pc' -> f pc + f pc' <= count f l.
Proof.
  intros Hf. revert i j. induction l as [|x l IH]; intros [|i] [|j] Hij Hi Hj; simplify_eq/=; try done.
  - pose proof (count_pos f l j pc' Hf Hj). lia.
  - pose proof (count_pos f l i pc Hf Hi). lia.
  - specialize (Hf x). assert (i <> j) as Hne by congruence. pose proof (IH i j Hne Hi Hj). lia.
Qed.

Lemma w_hold_nonneg i pc : 0 <= w_hold i pc.
Proof. destruct pc; simpl; try lia. destruct (Nat.eqb i ch); simpl; lia. Qed.

Lemma w_inside_nonneg pc : 0 <= w_inside pc.
Proof. destruct pc; simpl; lia. Qed.

(** The semaphore counts the free slots; a channel is busy exactly when one
    task holds it. *)
Record cinv (st : cstate) : Prop := {
  ci_sem : 0 <= c_sem st;
  ci_sum : c_sem st + count (w_hold 0) (c_tasks st) + count (w_hold 1) (c_tasks st)
           + count w_inside (c_tasks st) = 2;
  ci_busy : exists b0 b1, c_busy st = [b0; b1] /\ count (w_hold 0) (c_tasks st) = Z.b2z b0 /\
              count (w_hold 1) (c_tasks st) = Z.b2z b1;
  ci_hold : forall i pc, c_tasks st !! i = Some pc -> hold_ok pc;
  ci_ret : forall i pc, c_tasks st !! i = Some pc -> no_deadlk pc;
}.

(** Initial program counters: callers and module exits. *)
Definition fresh_task (pc : dpc) : Prop := pc = PStart \/ pc = PExit.

Lemma cinv_boot tasks : Forall fresh_task tasks -> cinv (cstate_boot tasks).
Proof.
  intros Hf.
  assert (forall f, f PStart = 0 -> f PExit = 0 -> count f tasks = 0) as Hc.
  { intros f H1 H2. induction Hf as [|pc l [-> | ->] _ IH]; simpl; lia. }
  split; simpl.
  - done.
  - rewrite !Hc by done. done.
  - exists false, false. rewrite !Hc by done. done.
  - intros i pc Hi. rewrite Forall_lookup in Hf. by destruct (Hf _ _ Hi) as [-> | ->].
  - intros i pc Hi. rewrite Forall_lookup in Hf. by destruct (Hf _ _ Hi) as [-> | ->].
Qed.

(** The shape of every step: the counts move with the program counter. *)
Lemma cinv_step_aux st tid pc pc' sem dis busy :
  cinv st -> c_tasks st !! tid = Some pc ->
  0 <= sem ->
  sem + w_hold 0 pc' + w_hold 1 pc' + w_inside pc' = c_sem st + w_hold 0 pc + w_hold 1 pc + w_inside pc ->
  (exists b0 b1 b0' b1', c_busy st = [b0; b1] /\ busy = [b0'; b1'] /\
     Z.b2z b0' - Z.b2z b0 = w_hold 0 pc' - w_hold 0 pc /\
     Z.b2z b1' - Z.b2z b1 = w_hold 1 pc' - w_hold 1 pc) ->
  hold_ok pc' -> no_deadlk pc' ->
  cinv (Cstate sem dis busy (<[tid := pc']> (c_tasks st))).
Proof.
  intros [Hs Hsum (b0 & b1 & Hb & H0 & H1) Hh Hr] Ht Hsem Hw (c0 & c1 & c0' & c1' & Hb' & -> & E0 & E1) Hok Hret.
  rewrite Hb in Hb'. injection Hb' as <- <-. split; simpl.
  - done.
  - rewrite !(count_insert _ _ _ _ _ Ht). lia.
  - exists c0', c1'. rewrite !(count_insert _ _ _ _ _ Ht). split; [done|]. lia.
  - intros i q [(-> & -> & _)|[_ Hi]]%list_lookup_insert_Some; [done|by apply (Hh i)].
  - intros i q [(-> & -> & _)|[_ Hi]]%list_lookup_insert_Some; [done|by apply (Hr i)].
Qed.

Ltac same_busy H :=
  destruct (ci_busy _ H) as (?b0 & ?b1 & ?Hb & _ & _); eexists _, _, _, _; split_and!; [done..| |]; simpl; lia.

Lemma cinv_find st tid :
  cinv st -> c_tasks st !! tid = Some PFind ->
  exists i, (__lock_avail_channel (c_busy st)).1 = Some i /\ (i < 2)%nat /\
    cinv (Cstate (c_sem st) (c_disable st) (__lock_avail_channel (c_busy st)).2
            (<[tid := PHold i]> (c_tasks st))).
Proof.
  intros Hi Ht. pose proof Hi as [Hs Hsum (b0 & b1 & Hb & H0 & H1) _ _].
  pose proof (count_pos w_inside _ _ _ w_inside_nonneg Ht) as Hin. simpl in Hin.
  rewrite Hb. unfold __lock_avail_channel. destruct b0, b1; simpl in *; try lia.
  - exists 1%nat. split_and!; [done|lia|]. apply (cinv_step_aux st tid PFind); try done; simpl; try lia.
    exists true, false, true, true. done.
  - exists 0%nat. split_and!; [done|lia|]. apply (cinv_step_aux st tid PFind); try done; simpl; try lia.
    exists false, true, true, true. done.
  - exists 0%nat. split_and!; [done|lia|]. apply (cinv_step_aux st tid PFind); try done; simpl; try lia.
    exists false, false, true, false. done.
Qed.

Lemma cinv_release st tid i :
  cinv st -> c_tasks st !! tid = Some (PHold i) ->
  cinv (Cstate (c_sem st) (c_disable st) (<[i := false]> (c_busy st)) (<[tid := PUp]> (c_tasks st))).
Proof.
  intros Hi Ht. pose proof Hi as [Hs Hsum (b0 & b1 & Hb & H0 & H1) Hh _].
  pose proof (Hh _ _ Ht) as Hlt. simpl in Hlt.
  pose proof (count_pos (w_hold i) _ _ _ (w_hold_nonneg i) Ht) as Hc. simpl in Hc. rewrite Nat.eqb_refl in Hc.
  apply (cinv_step_aux st tid (PHold i)); try done; simpl.
  - destruct i as [|[|i]]; simpl; lia.
  - rewrite Hb. destruct i as [|[|i]]; [| |lia]; simpl in *.
    + exists b0, b1, false, b1. destruct b0; simpl in *; split_and!; try done; lia.
    + exists b0, b1, b0, false. destruct b1; simpl in *; split_and!; try done; lia.
Qed.

Lemma cinv_step st tid signal st' : cinv st -> sys_step tid signal st = Some st' -> cinv st'.
Proof.
  intros Hi. unfold sys_step. destruct (c_tasks st !! tid) as [pc|] eqn:Ht; [|done]. simpl.
  pose proof (ci_sem _ Hi) as Hs.
  destruct pc; simpl; intros E; simplify_eq.
  - destruct (c_disable st); apply (cinv_step_aux st tid PStart); try done; simpl; try lia; same_busy Hi.
  - destruct (Z.ltb_spec 0 (c_sem st)); simplify_eq/=.
    + apply (cinv_step_aux st tid PDown); try done; simpl; try lia; same_busy Hi.
    + destruct signal; simplify_eq/=. apply (cinv_step_aux st tid PDown); try done; simpl; try lia; same_busy Hi.
  - destruct (c_disable st); simplify_eq/=; apply (cinv_step_aux st tid PCheck); try done; simpl; try lia; same_busy Hi.
  - destruct (cinv_find st tid Hi Ht) as (i & Hr & _ & Hc).
    destruct (__lock_avail_channel (c_busy st)) as [r b]. simpl in *. subst r. by simplify_eq/=.
  - by apply cinv_release.
  - apply (cinv_step_aux st tid PUp); try done; simpl; try lia; same_busy Hi.
  - apply (cinv_step_aux st tid PExit); try done; simpl; try lia; same_busy Hi.
  - destruct (Z.ltb_spec 0 (c_sem st)); simplify_eq/=.
    apply (cinv_step_aux st tid (PExitDown i)); try done; simpl; try lia; same_busy Hi.
  - apply (cinv_step_aux st tid (PExitUp i)); try done; simpl; try lia;
      destruct (Nat.ltb i 1); simpl; try lia; try done; same_busy Hi.
Qed.

Lemma creach_inv tasks st : Forall fresh_task tasks -> creach tasks st -> cinv st.
Proof. intros Hf. induction 1; [by apply cinv_boot|by eapply cinv_step]. Qed.

(** C5: however the callers and the module exit interleave, two tasks never hold
    the same channel, a task that holds a channel finds it marked busy, and no
    caller gets [-EDEADLK]: behind the semaphore there is always a free
    channel. *)
Theorem dma_channel_exclusive tasks st :
  Forall fresh_task tasks -> creach tasks st ->
  (forall i j c c', i <> j -> c_tasks st !! i = Some (PHold c) -> c_tasks st !! j = Some (PHold c') -> c <> c') /\
  (forall i c, c_tasks st !! i = Some (PHold c) -> c_busy st !! c = Some true) /\
  (forall i, c_tasks st !! i <> Some (PRet (- EDEADLK))).
Proof.
  intros Hf Hr. pose proof (creach_inv tasks st Hf Hr) as [Hs Hsum (b0 & b1 & Hb & H0 & H1) Hh Hret].
  assert (forall i c, c_tasks st !! i = Some (PHold c) -> (c < 2)%nat /\ c_busy st !! c = Some true) as Hbusy.
  { intros i c Hi. pose proof (Hh _ _ Hi) as Hlt. simpl in Hlt. split; [done|].
    pose proof (count_pos (w_hold c) _ _ _ (w_hold_nonneg c) Hi) as Hc. simpl in Hc. rewrite Nat.eqb_refl in Hc.
    rewrite Hb. destruct c as [|[|c]]; [| |lia]; simpl in *; [destruct b0|destruct b1]; simpl in *; done || lia. }
  split_and!.
  - intros i j c c' Hij Hi Hj <-. destruct (Hbusy i c Hi) as [Hlt _].
    pose proof (count_two (w_hold c) _ i j _ _ (w_hold_nonneg c) Hij Hi Hj) as Hc. simpl in Hc.
    rewrite Nat.eqb_refl in Hc. simpl in Hc.
    destruct c as [|[|c]]; [destruct b0|destruct b1|]; simpl in *; lia.
  - intros i c Hi. by apply (Hbusy i).
  - intros i Hi. apply (Hret _ _ Hi). done.
Qed.

Definition returned (pc : dpc) : bool :=
  match pc with PRet _ | PExited => true | _ => false end.

Lemma count_witness f l : 0 < count f l -> exists i pc, l !! i = Some pc /\ 0 < f pc.
Proof.
  induction l as [|x l IH]; simpl; [lia|]. intros Hc.
  destruct (decide (0 < f x)); [exists 0%nat, x; done|].
  destruct IH as (i & pc & Hi & Hp); [lia|]. by exists (S i), pc.
Qed.

Lemma step_enabled st i pc :
  c_tasks st !! i = Some pc -> is_Some (task_step false pc st) -> is_Some (sys_step i false st).
Proof. intros Hi [[pc' st'] Hs]. unfold sys_step. rewrite Hi. simpl. rewrite Hs. simpl. by eexists. Qed.

(** C18: callers cannot deadlock: as long as a caller or a module exit has not
    returned, some task can take a step, with no signal needed. *)
Theorem dma_no_deadlock tasks st :
  Forall fresh_task tasks -> creach tasks st ->
  (exists i pc, c_tasks st !! i = Some pc /\ returned pc = false) ->
  exists i, is_Some (sys_step i false st).
Proof.
  intros Hf Hr (i & pc & Hi & Hret). pose proof (creach_inv tasks st Hf Hr) as Hinv.
  assert (forall j q, c_tasks st !! j = Some q -> 0 < w_inside q \/ 0 < w_hold 0 q \/ 0 < w_hold 1 q ->
    is_Some (sys_step j false st)) as Hgo.
  { intros j q Hj Hw. apply (step_enabled st j q Hj). destruct q; simpl in *; try lia; try by eexists.
    - destruct (c_disable st); by eexists.
    - destruct (cinv_find st j Hinv Hj) as (c & Hc & _).
      destruct (__lock_avail_channel (c_busy st)) as [r b]. simpl in *. subst r. by eexists. }
  assert (c_sem st <= 0 -> exists j, is_Some (sys_step j false st)) as Hblocked.
  { intros Hs. destruct Hinv as [Hs0 Hsum _ _ _].
    assert (0 < count w_inside (c_tasks st) \/ 0 < count (w_hold 0) (c_tasks st)
            \/ 0 < count (w_hold 1) (c_tasks st)) as Hpos by lia.
    destruct Hpos as [Hp|[Hp|Hp]]; apply count_witness in Hp as (j & q & Hj & Hw);
      exists j; apply (Hgo j q Hj); tauto. }
  destruct pc; try done; try (by exists i; apply (step_enabled st i _ Hi); eexists).
  - destruct (Z.ltb_spec 0 (c_sem st)) as [Hlt|Hle]; [|by apply Hblocked].
    exists i. apply (step_enabled st i _ Hi). simpl. rewrite (proj2 (Z.ltb_lt _ _) Hlt). by eexists.
  - exists i. apply (Hgo i PCheck Hi). simpl. lia.
  - exists i. apply (Hgo i PFind Hi). simpl. lia.
  - destruct (Z.ltb_spec 0 (c_sem st)) as [Hlt|Hle]; [|by apply Hblocked].
    exists i. apply (step_enabled st i _ Hi). simpl. rewrite (proj2 (Z.ltb_lt _ _) Hlt). by eexists.
Qed.

(** *** Concrete schedules *)

Lemma run_schedule_reach tasks sched st st' :
  creach tasks st -> run_schedule sched st = Some st' -> creach tasks st'.
Proof.
  revert st. induction sched as [|[tid sg] sched IH]; intros st Hr E; simpl in E; [by simplify_eq|].
  destruct (sys_step tid sg st) as [st1|] eqn:Es; [|done]. simpl in E.
  apply (IH st1); [by eapply creach_step|done].
Qed.

(** Three callers: two get a channel each, the third waits. *)
Definition demo_tasks : list dpc := [PStart; PStart; PStart].
Definition demo_cstate : cstate :=
  default (cstate_boot demo_tasks)
    (run_schedule ((fun t => (t, false)) <$> [0; 0; 0; 0; 1; 1; 1; 1; 2]%nat) (cstate_boot demo_tasks)).

Lemma demo_fresh : Forall fresh_task demo_tasks.
Proof. repeat constructor. Qed.

Lemma demo_creach : creach demo_tasks demo_cstate.
Proof.
  apply (run_schedule_reach _ ((fun t => (t, false)) <$> [0; 0; 0; 0; 1; 1; 1; 1; 2]%nat) _ _ (creach_boot _)).
  vm_compute. reflexivity.
Qed.

Lemma dma_channel_exclusive_witness :
  c_tasks demo_cstate = [PHold 0; PHold 1; PDown] /\ c_busy demo_cstate !! 1%nat = Some true.
Proof.
  split; [vm_compute; reflexivity|].
  destruct (dma_channel_exclusive demo_tasks demo_cstate demo_fresh demo_creach) as (_ & H & _).
  apply (H 1%nat). vm_compute. reflexivity.
Defined.

Lemma dma_no_deadlock_witness : exists i, is_Some (sys_step i false demo_cstate).
Proof.
  apply (dma_no_deadlock demo_tasks demo_cstate demo_fresh demo_creach).
  exists 2%nat, PDown. split; vm_compute; reflexivity.
Defined.

(** [vme_dma_exit()] takes and gives back the semaphore once per channel instead
    of taking it as many times as there are channels: it can return, and
    destroy the descriptor pool, while a transfer holds a channel. *)
Lemma dma_exit_with_busy_channel :
  exists st, creach [PStart; PExit] st /\ c_tasks st = [PHold 0; PExited].
Proof.
  exists (Cstate 1 true [true; false] [PHold 0; PExited]). split; [|reflexivity].
  apply (run_schedule_reach _ ((fun t => (t, false)) <$> [0; 0; 0; 0; 1; 1; 1; 1; 1]%nat) _ _ (creach_boot _)).
  vm_compute. reflexivity.
Qed.
