(* ===== verification/VmeUser.v ===== *)
(** * Callers of the window manager: ioctls and the CES emulation

    [vme_window_ioctl()] (end of [vme_window.c]) on the window table and the
    bus-error state, and the four entry points of [vme_cesif.c].  What user
    space supplies and whether the copies from and to it succeed is [uenv];
    what is copied back is [uout]. *)

From stdpp Require Import strings.
From S2P Require Import Prelude VmeBus Tsi148 Tsi148Window VmeWindow VmeWindowInv VmeWindowMap VmeIrq.

(** ** ioctl *)

Inductive wcmd :=
  | VME_IOCTL_GET_WINDOW_ATTR
  | VME_IOCTL_CREATE_WINDOW
  | VME_IOCTL_DESTROY_WINDOW
  | VME_IOCTL_FIND_MAPPING
  | VME_IOCTL_RELEASE_MAPPING
  | VME_IOCTL_GET_CREATE_ON_FIND_FAIL
  | VME_IOCTL_SET_CREATE_ON_FIND_FAIL
  | VME_IOCTL_GET_DESTROY_ON_REMOVE
  | VME_IOCTL_SET_DESTROY_ON_REMOVE
  | VME_IOCTL_GET_BUS_ERROR
  | VME_IOCTL_CHECK_CLEAR_BUS_ERROR
  | VME_IOCTL_OTHER.

Record uenv := Uenv {
  u_from : bool;                   (* copy_from_user / get_user succeed *)
  u_to : bool;                     (* copy_to_user / put_user succeed *)
  u_desc : vme_mapping;            (* the struct at arg *)
  u_int : Z;                       (* the int at arg *)
  u_berr : vme_bus_error_desc;     (* the bus-error descriptor at arg *)
}.

Inductive uout :=
  | OutNone
  | OutDesc (d : vme_mapping)
  | OutInt (v : Z)
  | OutBerr (d : vme_bus_error_desc).

Section User.
Context {H : Type} `{!WindowHw H}.
Implicit Types (st : wstate H) (d : vme_mapping).

Record ustate := Ustate { us_w : wstate H; us_i : istate }.

Definition vme_destroy_window_ioctl (u : uenv) (k : kenv) (s : ustate) : Z * ustate :=
  if negb (u_from u) then (- EFAULT, s) else
  let '(rc, st) := vme_destroy_window k (u_int u) (us_w s) in (rc, Ustate st (us_i s)).

Definition vme_bus_error_check_clear_ioctl (u : uenv) (s : ustate) : Z * uout * ustate :=
  if negb (u_from u) then (- EFAULT, OutNone, s) else
  let '(valid, ist) := vme_bus_error_check_clear (bed_error (u_berr u)) (us_i s) in
  let s := Ustate (us_w s) ist in
  if negb (u_to u) then (- EFAULT, OutNone, s) else
  (0, OutBerr (Vme_bus_error_desc (bed_error (u_berr u)) valid), s).

(** [copy_to_user()] of the descriptor at the end of a command. *)
Definition copy_back (u : uenv) (rc : Z) d (s : ustate) : Z * uout * ustate :=
  if truthy rc then (rc, OutNone, s) else
  if negb (u_to u) then (- EFAULT, OutNone, s) else (0, OutDesc d, s).

Definition put_int (u : uenv) (v : Z) (s : ustate) : Z * uout * ustate :=
  if u_to u then (0, OutInt v, s) else (- EFAULT, OutNone, s).

(** [get_user(x, p)]: on a fault the kernel stores 0 in [x]. *)
Definition get_int (u : uenv) (set : Z -> wstate H -> wstate H) (s : ustate) : Z * uout * ustate :=
  if u_from u then (0, OutNone, Ustate (set (u_int u) (us_w s)) (us_i s))
  else (- EFAULT, OutNone, Ustate (set 0 (us_w s)) (us_i s)).

(** [k2] answers the nested calls. *)
Definition vme_window_ioctl (u : uenv) (k k2 : kenv) (file : Z) (cmd : wcmd) (s : ustate) : Z * uout * ustate :=
  match cmd with
  | VME_IOCTL_GET_WINDOW_ATTR =>
      if negb (u_from u) then (- EFAULT, OutNone, s) else
      let '(rc, d, st) := vme_get_window_attr k (u_desc u) (us_w s) in
      copy_back u rc d (Ustate st (us_i s))
  | VME_IOCTL_CREATE_WINDOW =>
      if negb (u_from u) then (- EFAULT, OutNone, s) else
      let '(rc, d, st) := vme_create_window k (u_desc u) (us_w s) in
      copy_back u rc d (Ustate st (us_i s))
  | VME_IOCTL_DESTROY_WINDOW =>
      let '(rc, s) := vme_destroy_window_ioctl u k s in (rc, OutNone, s)
  | VME_IOCTL_FIND_MAPPING =>
      if negb (u_from u) then (- EFAULT, OutNone, s) else
      let '(rc, d, st) :=
        __vme_find_mapping k k2 (u_desc u) (vme_create_on_find_fail (us_w s)) file (us_w s) in
      copy_back u rc d (Ustate st (us_i s))
  | VME_IOCTL_RELEASE_MAPPING =>
      if negb (u_from u) then (- EFAULT, OutNone, s) else
      let '(rc, st) :=
        __vme_release_mapping k k2 (u_desc u) (vme_destroy_on_remove (us_w s)) file (us_w s) in
      (rc, OutNone, Ustate st (us_i s))
  | VME_IOCTL_GET_CREATE_ON_FIND_FAIL => put_int u (vme_create_on_find_fail (us_w s)) s
  | VME_IOCTL_SET_CREATE_ON_FIND_FAIL => get_int u set_create_flag s
  | VME_IOCTL_GET_DESTROY_ON_REMOVE => put_int u (vme_destroy_on_remove (us_w s)) s
  | VME_IOCTL_SET_DESTROY_ON_REMOVE => get_int u set_destroy_flag s
  | VME_IOCTL_GET_BUS_ERROR =>
      let '(v, ist) := vme_bus_error_check 1 (us_i s) in
      put_int u v (Ustate (us_w s) ist)
  | VME_IOCTL_CHECK_CLEAR_BUS_ERROR => vme_bus_error_check_clear_ioctl u s
  | VME_IOCTL_OTHER => (- ENOIOCTLCMD, OutNone, s)
  end.

(** ** CES emulation *)

(** [unsigned long] is 32 bits wide; the error value is [-1]. *)
Definition CES_ERROR : Z := u32 (-1).

Definition controller_desc (vmeaddr len a width rdpref : Z) : vme_mapping :=
  let d := vme_mapping_zero in
  let d := if truthy rdpref
           then set_read_prefetch_size VME_PREFETCH_2 (set_read_prefetch_enabled 1 d) else d in
  let d := set_data_width width d in
  let d := set_bcast_select 0 (set_am a d) in
  let d := set_sizeu 0 (set_sizel len d) in
  set_vme_addru 0 (set_vme_addrl vmeaddr d).

(** [kz]: the descriptor could be allocated. *)
Definition find_controller (kz : bool) (k kc : kenv) (vmeaddr len a size rdpref : Z) st : Z * wstate H :=
  if negb kz then (CES_ERROR, st) else
  let go width :=
    let '(rc, d, st) := vme_find_mapping k kc (controller_desc vmeaddr len a width rdpref) 1 st in
    if truthy rc then (CES_ERROR, st) else (u32 (kernel_va d), st) in
  if size =? 2 then go VME_D16
  else if size =? 4 then go VME_D32
  else (CES_ERROR, st).

Definition return_controller (k1 k kd : kenv) (logaddr : Z) st : Z * wstate H :=
  match find_vme_mapping_from_addr k1 logaddr st with
  | (None, st) => (CES_ERROR, st)
  | (Some d, st) =>
      let '(err, st) := vme_release_mapping k kd d 1 st in
      if truthy err then (CES_ERROR, st) else (0, st)
  end.

End User.

Arguments ustate : clear implicits.

Definition vme_intset (intr vec handler arg : Z) (st : istate) : Z * istate :=
  vme_request_irq intr (u32 vec) handler arg None st.
Definition vme_intclr (intr vec : Z) (st : istate) : Z * istate :=
  vme_free_irq intr (u32 vec) st.

(** ** Every ioctl is a window operation *)

Section Props.
Context {H : Type} `{!WindowHw H}.
Implicit Types (st : wstate H) (d : vme_mapping) (s : ustate H).

Lemma copy_back_state u rc d s : (copy_back u rc d s).2 = s.
Proof. unfold copy_back. by repeat case_goal. Qed.

Lemma put_int_state u v s : (put_int u v s).2 = s.
Proof. unfold put_int. by case_goal. Qed.

(** The window operations a command can amount to. *)
Lemma ioctl_step u k k2 file cmd s :
  let s' := (vme_window_ioctl u k k2 file cmd s).2 in
  us_w s' = us_w s \/ exists op, us_w s' = run_op op (us_w s).
Proof.
  destruct cmd; simpl; unfold vme_destroy_window_ioctl, vme_bus_error_check_clear_ioctl, get_int;
    rewrite ?put_int_state; try (destruct (u_from u); simpl; [|by left]); try (by left).
  - right. exists (OpGetAttr k (u_desc u)). simpl.
    destruct (vme_get_window_attr _ _ _) as [[rc d] st]. by rewrite copy_back_state.
  - right. exists (OpCreate k (u_desc u)). simpl.
    destruct (vme_create_window _ _ _) as [[rc d] st]. by rewrite copy_back_state.
  - right. exists (OpDestroy k (u_int u)). simpl. by destruct (vme_destroy_window _ _ _).
  - right. exists (OpFind k k2 (u_desc u) (vme_create_on_find_fail (us_w s)) file). simpl.
    destruct (__vme_find_mapping _ _ _ _ _ _) as [[rc d] st]. by rewrite copy_back_state.
  - right. exists (OpRelease k k2 (u_desc u) (vme_destroy_on_remove (us_w s)) file). simpl.
    by destruct (__vme_release_mapping _ _ _ _ _ _).
  - destruct (u_from u); right; [by exists (OpSetCreate (u_int u))|by exists (OpSetCreate 0)].
  - destruct (u_from u); right; [by exists (OpSetDestroy (u_int u))|by exists (OpSetDestroy 0)].
  - destruct (vme_bus_error_check 1 (us_i s)). rewrite put_int_state. by left.
  - destruct (vme_bus_error_check_clear _ _). simpl. destruct (u_to u); by left.
Qed.


(** an ioctl keeps the driver in the states whose invariants are proved; a
    command that is not known, or whose argument cannot be read (the flag
    setters apart), changes nothing and reports it. *)
Lemma ioctl_reachable u k k2 file cmd s :
  reachable (us_w s) ->
  let '(rc, out, s') := vme_window_ioctl u k k2 file cmd s in
  reachable (us_w s') /\
  (cmd = VME_IOCTL_OTHER -> rc = - ENOIOCTLCMD /\ s' = s) /\
  (u_from u = false ->
   cmd ∈ [VME_IOCTL_GET_WINDOW_ATTR; VME_IOCTL_CREATE_WINDOW; VME_IOCTL_DESTROY_WINDOW;
          VME_IOCTL_FIND_MAPPING; VME_IOCTL_RELEASE_MAPPING; VME_IOCTL_CHECK_CLEAR_BUS_ERROR] ->
   rc = - EFAULT /\ out = OutNone /\ s' = s).
Proof.
  intros Hr. pose proof (ioctl_step u k k2 file cmd s) as Hs. cbv zeta in Hs.
  destruct (vme_window_ioctl u k k2 file cmd s) as [[rc out] s'] eqn:E. simpl in Hs. split_and!.
  - destruct Hs as [->|[op ->]]; [done|by apply reach_step].
  - intros ->. simpl in E. by simplify_eq.
  - intros Hf Hin. unfold vme_window_ioctl, vme_destroy_window_ioctl, vme_bus_error_check_clear_ioctl in E.
    rewrite Hf in E. simpl in E.
    repeat (apply elem_of_cons in Hin as [->|Hin]; [by simplify_eq|]). by apply not_elem_of_nil in Hin.
Qed.

(** ** Mappings carry the number of their window *)

Definition numbered st : Prop :=
  forall i m, in_table i -> m ∈ w_mappings (get_win st i) -> window_num (m_desc m) = i.

(** No mapping is added. *)
Definition maps_sub st st' : Prop :=
  length (wins st') = length (wins st) /\
  forall i, in_table i -> w_mappings (get_win st' i) ⊆ w_mappings (get_win st i).

Lemma maps_sub_refl st : maps_sub st st.
Proof. done. Qed.

Lemma maps_sub_trans st1 st2 st3 : maps_sub st1 st2 -> maps_sub st2 st3 -> maps_sub st1 st3.
Proof. intros [L1 S1] [L2 S2]. split; [congruence|]. intros i Hi. etrans; [by apply S2|by apply S1]. Qed.

Lemma maps_sub_set_win st st' i w :
  maps_sub st st' -> length (wins st) = 8%nat -> in_table i ->
  w_mappings w ⊆ w_mappings (get_win st i) -> maps_sub st (set_win i w st').
Proof.
  intros [L S] Hl Hi Hw. split; [simpl; by rewrite length_insert|]. intros j Hj.
  destruct (decide (i = j)) as [<-|]; [rewrite get_set_win_eq by (done || congruence); done|].
  rewrite get_set_win_ne by done. by apply S.
Qed.

Lemma maps_sub_free st st' i :
  maps_sub st st' -> length (wins st) = 8%nat -> in_table i -> maps_sub st (free_rsrc i st').
Proof. intros [L S] Hl Hi. unfold free_rsrc. case_goal; apply maps_sub_set_win; try done; by apply S. Qed.

Lemma numbered_sub st st' : numbered st -> maps_sub st st' -> numbered st'.
Proof. intros Hn [_ S] i m Hi Hm. apply Hn; [done|]. by apply S. Qed.

Lemma create_maps_sub k d st : length (wins st) = 8%nat -> maps_sub st (vme_create_window k d st).2.
Proof.
  intros Hl. unfold vme_create_window.
  destruct (bad_window _) eqn:Eb; [done|]. apply bad_window_false in Eb.
  destruct (sizel d =? 0); [done|]. destruct (k_intr _ _); [done|]. cbv zeta. rewrite get_win_lock.
  destruct (w_active _); [done|]. set (n := window_num d) in *.

  set (st2 := if k_name k then _ else _).
  assert (maps_sub st st2) as H2 by (subst st2; by destruct (k_name k)). clearbody st2.
  set (st3 := set_win n _ st2).
  assert (maps_sub st st3) as H3 by (subst st3; by apply maps_sub_set_win). clearbody st3.
  destruct (k_pci k _) as [rc start]. destruct (truthy rc); [by apply (maps_sub_free st)|].
  set (st4 := set_win n _ (klog _ st3)).
  assert (maps_sub st st4) as H4 by (subst st4; apply maps_sub_set_win; try done; by apply H3). clearbody st4.
  destruct (kernel_va _ =? 0); [by apply (maps_sub_free st)|].
  destruct (hw_create_window _ _) as [[rc1 d1] h]. destruct (truthy rc1); [by apply (maps_sub_free st)|].
  simpl. apply (maps_sub_set_win st); try done. by apply H4.
Qed.

Lemma drop_mappings_sub w : w_mappings (drop_mappings w) ⊆ w_mappings w.
Proof. unfold drop_mappings. case_goal; simpl; [apply list_subseteq_nil|done]. Qed.

Lemma destroy_maps_sub k n st : length (wins st) = 8%nat -> maps_sub st (vme_destroy_window k n st).2.
Proof.
  intros Hl. unfold vme_destroy_window. destruct (bad_window n) eqn:Eb; [done|]. apply bad_window_false in Eb.
  destruct (k_intr k n); [done|]. cbv zeta. rewrite get_win_lock.
  destruct (w_active _); simpl; [|done]. destruct (hw_remove_window _ _) as [d h]. simpl.
  apply (maps_sub_free st); [|done..]. apply maps_sub_set_win; try done. apply drop_mappings_sub.
Qed.

Lemma remove_first_sub p l l' : remove_first p l = Some l' -> l' ⊆ l.
Proof.
  revert l'. induction l as [|m l IH]; intros l' E; [done|]. simpl in E. destruct (p m); simplify_eq.
  - intros x Hx. by right.
  - destruct (remove_first p l) as [l2|]; simplify_eq. intros x Hx.
    apply elem_of_cons in Hx as [->|Hx]; [by left|right; by apply (IH l2)].
Qed.

Lemma release_mapping_sub k kd d force file st :
  length (wins st) = 8%nat -> maps_sub st (__vme_release_mapping k kd d force file st).2.
Proof.
  intros Hl. unfold __vme_release_mapping. destruct (bad_window _) eqn:Eb; [done|]. apply bad_window_false in Eb.
  destruct (k_intr k _); [done|]. cbv zeta. rewrite get_win_lock. destruct (w_active _); simpl; [|done].
  destruct (remove_mapping _ _ _) as [rc w] eqn:Er.
  assert (maps_sub st (set_win (window_num d) w (lock (window_num d) st))) as Hs.
  { apply maps_sub_set_win; try done. unfold remove_mapping in Er.
    destruct (remove_first _ _) as [l|] eqn:R; simplify_eq; [by apply remove_first_sub in R|done]. }
  case_goal; [exact Hs|]. case_goal; [|exact Hs].
  apply (maps_sub_trans st (unlock (window_num d) (set_win (window_num d) w (lock (window_num d) st))) _ Hs).
  apply destroy_maps_sub. simpl. by rewrite length_insert.
Qed.

Lemma release_loop_sub k file idx st :
  Forall in_table idx -> length (wins st) = 8%nat -> maps_sub st (release_loop k file idx st).2.
Proof.
  revert st. induction idx as [|i idx IH]; intros st Hidx Hl; [done|].
  apply Forall_cons in Hidx as [Hi Hidx]. simpl. case_goal; [done|].
  set (st1 := unlock i _).
  assert (maps_sub st st1) as H1.
  { subst st1. apply maps_sub_set_win; try done. rewrite get_win_lock.
    unfold release_window. destruct (negb _ || _); [done|]. simpl. intros m Hm.
    by apply list_elem_of_filter in Hm as [_ ?]. }
  eapply maps_sub_trans; [exact H1|]. apply IH; [done|]. destruct H1 as [-> _]. done.
Qed.

Lemma find_addr_sub k a idx st : maps_sub st (find_addr_loop k a idx st).2.
Proof.
  revert st. induction idx as [|i idx IH]; intros st; [done|]. simpl. case_goal; [done|].
  destruct (list_find _ _) as [[? ?]|]; [done|]. exact (IH (unlock i (lock i st))).
Qed.

Lemma mmap_sub k file a sz r idx st : maps_sub st (mmap_loop k file a sz r idx st).2.
Proof.
  revert st. induction idx as [|i idx IH]; intros st; [done|]. simpl. case_goal; [done|].
  case_goal; [done|]. exact (IH (unlock i (lock i st))).
Qed.

Lemma exit_sub k st : length (wins st) = 8%nat -> maps_sub st (vme_window_exit k st).
Proof.
  intros Hl. unfold vme_window_exit.
  apply (foldl_inv (fun st' => maps_sub st st')); [|done].
  intros st1 i _ H1. case_goal; [|done]. eapply maps_sub_trans; [exact H1|]. apply destroy_maps_sub.
  destruct H1 as [-> _]. done.
Qed.


Context `{!WindowHwOk H}.

Lemma numbered_add st i w d k file rc w' :
  numbered st -> length (wins st) = 8%nat -> in_table i ->
  add_mapping k w (place_mapping w i d) file = (rc, w') -> w_mappings w ⊆ w_mappings (get_win st i) ->
  numbered (set_win i w' st).
Proof.
  intros Hn Hl Hi Ha Hsub j m Hj. destruct (decide (i = j)) as [<-|].
  2:{ rewrite get_set_win_ne by done. by apply Hn. }
  rewrite get_set_win_eq by done. unfold add_mapping in Ha.
  destruct (k_kzalloc k); simplify_eq; simpl; [|intros Hm; apply Hn; [done|]; by apply Hsub].
  rewrite elem_of_app, list_elem_of_singleton. intros [Hm| ->]; [apply Hn; [done|]; by apply Hsub|].
  by destruct (truthy file).
Qed.

Lemma find_numbered k kc d force file st :
  winv st -> numbered st -> numbered (__vme_find_mapping k kc d force file st).2.
Proof.
  intros Hi Hn. unfold __vme_find_mapping. case_goal; [done|].
  destruct (find_loop _ _ _ _) as [r st1] eqn:El.
  destruct (find_loop_spec _ _ _ _ _ _ El Hi) as [Hst Hr]. clear El.
  assert (numbered st1) as Hn1.
  { intros i m Hii. rewrite (same_table_get st st1 i Hst). by apply Hn. }
  destruct r as [rc|[i|]]; [done| |].
  - destruct Hr as (Hin & _ & Hs & _). apply window_indices_in in Hin.
    destruct (add_mapping _ _ _ _) as [rc w] eqn:Ea. simpl.
    apply (numbered_add st1 i _ d k file rc w Hn1 (proj1 Hs) Hin Ea). done.
  - destruct Hr as [Hi1 _]. case_goal; [done|]. destruct (first_unused st1) as [i|] eqn:Ef; [|done].
    destruct (vme_create_window _ _ _) as [[rc wnd] st2] eqn:Ec.
    pose proof (create_maps_sub kc (vme_optimize_window_size (set_window_num i d)) st1 (proj1 (proj1 Hi1))) as Hsub.
    rewrite Ec in Hsub. simpl in Hsub. pose proof (numbered_sub _ _ Hn1 Hsub) as Hn2.
    destruct (truthy rc) eqn:Er; [done|]. assert (rc = 0) as -> by (unfold truthy in Er; boolp; done).
    pose proof (vme_create_window_ok _ _ _ _ _ Ec (proj1 Hi1)) as (Ht & _ & _ & Hwn & _).
    destruct (add_mapping _ _ _ _) as [rc w] eqn:Ea. simpl. rewrite <- Hwn in Ht.
    eapply (numbered_add st2 (window_num wnd)); [done| |done|exact Ea|done].
    destruct Hsub as [-> _]. apply Hi1.
Qed.

Lemma run_op_numbered op st : winv st -> numbered st -> numbered (run_op op st).
Proof.
  intros Hi Hn. assert (length (wins st) = 8%nat) as Hl by apply (proj1 Hi). destruct op; simpl.
  - apply (numbered_sub st); [done|]. unfold vme_get_window_attr. by repeat case_goal.
  - apply (numbered_sub st); [done|]. by apply create_maps_sub.
  - apply (numbered_sub st); [done|]. by apply destroy_maps_sub.
  - by apply find_numbered.
  - apply (numbered_sub st); [done|]. by apply release_mapping_sub.
  - apply (numbered_sub st); [done|]. apply release_loop_sub; [apply window_indices_all|done].
  - apply (numbered_sub st); [done|]. apply find_addr_sub.
  - apply (numbered_sub st); [done|]. apply mmap_sub.
  - done.
  - done.
  - apply (numbered_sub st); [done|]. by apply exit_sub.
Qed.

Lemma reachable_numbered st : reachable st -> numbered st.
Proof.
  induction 1 as [h|op st Hr IH]; [|by apply run_op_numbered; [apply reachable_inv|]].
  intros i m Hi Hm. exfalso.
  pose proof (proj2 (proj1 (wstate_boot_inv h)) i Hi) as [_ Ha].
  assert (forallb (fun i => negb (w_active (get_win (wstate_boot h) i))) window_indices = true) as Hall by reflexivity.
  rewrite forallb_forall in Hall. specialize (Hall i). rewrite Ha in Hm; [by apply not_elem_of_nil in Hm|].
  apply negb_true_iff, Hall, list_elem_of_In, elem_of_seqZ. unfold in_table, TSI148_NUM_OUT_WINDOWS in *. lia.
Qed.

(** ** The CES emulation *)

(** The answer of a kernel that delivers no signal. *)
Definition no_signal (k : kenv) : Prop := forall i, k_intr k i = false.

Definition mapped_at (a : Z) (st : wstate H) : Prop :=
  exists i m, in_table i /\ m ∈ w_mappings (get_win st i) /\ u32 (kernel_va (m_desc m)) = a.

Lemma find_addr_loop_spec k a idx st :
  no_signal k ->
  let '(r, st') := find_addr_loop k a idx st in
  same_table st st' /\
  match r with
  | Some d => exists i m, i ∈ idx /\ m ∈ w_mappings (get_win st i) /\ m_desc m = d /\ u32 (kernel_va d) = a
  | None => forall i m, i ∈ idx -> m ∈ w_mappings (get_win st i) -> u32 (kernel_va (m_desc m)) <> a
  end.
Proof.
  intros Hk. revert st. induction idx as [|i idx IH]; intros st; simpl.
  { split; [done|]. intros i m Hi. by apply not_elem_of_nil in Hi. }
  rewrite Hk. destruct (list_find _ _) as [[n m]|] eqn:E.
  - split; [done|]. apply list_find_Some in E as (Hl & Ha & _). exists i, m. split_and!; try done; [by left|].
    by apply list_elem_of_lookup_2 in Hl.
  - apply list_find_None in E. specialize (IH (unlock i (lock i st))).
    destruct (find_addr_loop k a idx (unlock i (lock i st))) as [r st']. destruct IH as [Hs Hr].
    split; [exact Hs|]. destruct r as [d|].
    + destruct Hr as (j & m & Hj & Hm & ?). exists j, m. split; [by right|done].
    + intros j m Hj Hm. apply elem_of_cons in Hj as [->|Hj]; [|by apply (Hr j)].
      rewrite Forall_forall in E. by apply E.
Qed.


Lemma destroy_ok k n st :
  in_table n -> k_intr k n = false -> w_active (get_win st n) = true -> (vme_destroy_window k n st).1 = 0.
Proof.
  intros Hn Hk Ha. unfold vme_destroy_window. rewrite bad_window_in, Hk by done. cbv zeta.
  rewrite get_win_lock, Ha. simpl. by destruct (hw_remove_window _ _).
Qed.

Lemma remove_first_some p l m : m ∈ l -> p m = true -> is_Some (remove_first p l).
Proof.
  induction l as [|x l IH]; intros Hm Hp; [by apply not_elem_of_nil in Hm|]. simpl.
  destruct (p x) eqn:Ex; [by eexists|]. apply elem_of_cons in Hm as [->|Hm]; [congruence|].
  destruct (IH Hm Hp) as [l' ->]. by eexists.
Qed.

Lemma mapping_match_self m : mapping_match (m_desc m) 0 m = true.
Proof. unfold mapping_match. by rewrite !Z.eqb_refl. Qed.

(** Releasing a mapping of the table on behalf of the kernel. *)
Lemma release_mapping_ok k kd i m st :
  winv st -> no_signal k -> no_signal kd -> in_table i -> m ∈ w_mappings (get_win st i) ->
  window_num (m_desc m) = i ->
  let '(rc, st') := vme_release_mapping k kd (m_desc m) 1 st in
  rc = 0 /\ only_window i st st' /\
  S (length (w_mappings (get_win st' i))) = length (w_mappings (get_win st i)) /\
  (w_active (get_win st' i) = true <-> w_mappings (get_win st' i) <> []).
Proof.
  intros [Hs HO] Hk Hkd Hi Hm Hn. pose proof (proj2 Hs i Hi) as [Hu Hina].
  assert (w_active (get_win st i) = true) as Ha.
  { destruct (w_active _) eqn:E; [done|]. rewrite Hina in Hm by done. by apply not_elem_of_nil in Hm. }
  unfold vme_release_mapping, __vme_release_mapping. rewrite Hn, bad_window_in, Hk by done. cbv zeta.
  rewrite get_win_lock, Ha. cbn [negb]. unfold remove_mapping.
  destruct (remove_first_some _ _ m Hm (mapping_match_self m)) as [l Hl]. rewrite Hl. cbn [truthy Z.eqb negb].
  pose proof (remove_first_length _ _ _ Hl) as Hlen. cbn [w_users set_mappings].
  assert (length (wins (lock i st)) = 8%nat) as Hl8 by apply Hs.
  set (w' := set_mappings l _ _). set (st1 := set_win i w' (lock i st)).
  assert (struct_ok st1) as Hs1.
  { apply struct_set_win; [exact Hs|done|]. split; [simpl; lia|]. simpl. by rewrite Ha. }
  assert (get_win st1 i = w') as Hg1 by (by apply get_set_win_eq).
  assert (only_window i st st1) as Ho1 by (apply only_window_set; done).
  rewrite andb_true_r. destruct (Z.eqb_spec (w_users (get_win st i) - 1) 0) as [E0|E0].
  - assert (l = []) as -> by (destruct l; [done|simpl in *; lia]).
    assert (w_active (get_win (unlock i st1) i) = true) as Ha1 by (unfold unlock; rewrite get_win_klog, Hg1; done).
    destruct (destroy_window_inactive kd i (unlock i st1) Hs1 Hi (Hkd i)) as (Hd1 & Hd2 & Hd3).
    pose proof (destroy_ok kd i (unlock i st1) Hi (Hkd i) Ha1) as Hrc.
    destruct (vme_destroy_window kd i (unlock i st1)) as [rc st2]. simpl in *.
    pose proof (proj2 (proj2 Hd3 i Hi) Hd1) as Hmap. rewrite Hmap, Hd1. split_and!; try done.
    intros j Hj Hne. rewrite (Hd2 j Hj Hne). exact (Ho1 j Hj Hne).
  - unfold unlock. rewrite get_win_klog, Hg1. split_and!; try done; simpl.
    rewrite Ha. split; [intros _ ->; simpl in *; lia|done].
Qed.

(** with no signal pending, [return_controller()] of a logical address at
    which something is mapped answers 0 and removes one mapping, leaving the
    other windows alone and destroying the window exactly when this was its
    last mapping; for any other address it fails and changes nothing. *)
Lemma return_controller_spec k1 k kd a st :
  reachable st -> no_signal k1 -> no_signal k -> no_signal kd ->
  let '(rc, st') := return_controller k1 k kd a st in
  (mapped_at a st ->
     rc = 0 /\ exists i, in_table i /\ only_window i st st' /\
       S (length (w_mappings (get_win st' i))) = length (w_mappings (get_win st i)) /\
       (w_active (get_win st' i) = true <-> w_mappings (get_win st' i) <> [])) /\
  (~ mapped_at a st -> rc = CES_ERROR /\ wins st' = wins st /\ whw st' = whw st).
Proof.
  intros Hr Hk1 Hk Hkd. unfold return_controller, find_vme_mapping_from_addr.
  pose proof (find_addr_loop_spec k1 a window_indices st Hk1) as Hf.
  pose proof (find_addr_loop_inv k1 a window_indices st (reachable_inv st Hr)) as Hi1.
  destruct (find_addr_loop k1 a window_indices st) as [[d|] st1]; destruct Hf as [Hst Hf]; simpl in Hi1.
  - destruct Hf as (i & m & Hin & Hm & <- & Ha). apply window_indices_in in Hin.
    pose proof (reachable_numbered st Hr i m Hin Hm) as Hnum.
    rewrite <- (same_table_get st st1 i Hst) in Hm.
    pose proof (release_mapping_ok k kd i m st1 Hi1 Hk Hkd Hin Hm Hnum) as Hrel.
    destruct (vme_release_mapping k kd (m_desc m) 1 st1) as [rc st2]. destruct Hrel as (-> & Ho & Hl & Hact).
    cbn [truthy Z.eqb negb]. split.
    + intros _. split; [done|]. exists i. rewrite <- (same_table_get st st1 i Hst). split_and!; try done; try tauto.
      intros j Hj Hne. rewrite (Ho j Hj Hne). by apply same_table_get.
    + intros Hno. destruct Hno. exists i, m. rewrite <- (same_table_get st st1 i Hst). done.
  - split; [|intros _; split; [done|]; split; apply Hst].
    intros (i & m & Hin & Hm & Ha). exfalso. apply (Hf i m); try done.
    apply elem_of_seqZ. unfold in_table, TSI148_NUM_OUT_WINDOWS in *. lia.
Qed.

#[local] Opaque vme_find_mapping.

Lemma controller_desc_fields vmeaddr len a w rdpref :
  let d := controller_desc vmeaddr len a w rdpref in
  vme_addrl d = vmeaddr /\ vme_addru d = 0 /\ sizel d = len /\ sizeu d = 0 /\ pci_addru d = 0 /\ am d = a.
Proof. cbv zeta. unfold controller_desc. by destruct (truthy rdpref). Qed.

Lemma find_controller_sized k kc vmeaddr len a w rdpref st va st' :
  reachable_ok st -> kenv_ok kc -> is_u32 vmeaddr -> 0 <= len <= 0xffff0000 -> vmeaddr + len < 2 ^ 32 ->
  (if is_A24 a then vmeaddr + len <= 2 ^ 24
   else if is_A16 a then vmeaddr + len <= 2 ^ 16 else vmeaddr mod 2 ^ 16 = 0) ->
  (let '(rc, d, st1) := vme_find_mapping k kc (controller_desc vmeaddr len a w rdpref) 1 st in
   if truthy rc then (CES_ERROR, st1) else (u32 (kernel_va d), st1)) = (va, st') ->
  va <> CES_ERROR ->
  exists d, in_table (window_num d) /\ u32 (kernel_va d) = va /\
    (exists m, m ∈ w_mappings (get_win st' (window_num d)) /\ m_desc m = d /\ m_file m = 0) /\
    forall o, 0 <= o < len -> hw_translate (whw st') (window_num d) (pci_addrl d + o) = Some (vmeaddr + o).
Proof.
  intros Hr Hk Hv Hl Hlt Hfit.
  pose proof (controller_desc_fields vmeaddr len a w rdpref) as Hd. cbv zeta in Hd.
  set (dd := controller_desc vmeaddr len a w rdpref) in *. clearbody dd.
  destruct Hd as (E1 & E2 & E3 & E4 & E5 & E6).
  destruct (vme_find_mapping k kc dd 1 st) as [[rc d] st1] eqn:Em.
  change (__vme_find_mapping k kc dd 1 0 st = (rc, d, st1)) in Em.
  destruct (truthy rc) eqn:Er; intros Ef Hne; injection Ef as <- <-; [by destruct Hne|].
  assert (rc = 0) as -> by (unfold truthy in Er; boolp; done).
  assert (req_ok dd) as Hok.
  { unfold req_ok. rewrite E1, E2, E3, E4, E5. split; [exact Hv|]. unfold is_u32. lia. }
  assert (vme_addrl dd + sizel dd < 2 ^ 32) as Hlt' by (rewrite E1, E3; exact Hlt).
  assert (req_fits dd) as Hfit' by (unfold req_fits; rewrite E1, E3, E6; exact Hfit).
  destruct (find_mapping_ok st k kc dd 1 0 d st1 Hr Hok Hk E2 Hlt' Em (or_intror Hfit')) as (Hin & Hm & Ht).
  rewrite E1, E3 in Ht. exists d. split; [exact Hin|]. split; [reflexivity|]. split; [exact Hm|exact Ht].
Qed.

(** [find_controller()] with a 16- or 32-bit data size, on an address range
    that its window can cover, either fails or returns an address at which the
    kernel owns a mapping, and through the window of that mapping every byte of
    the range reaches the VME address asked for; any other data size fails and
    changes nothing. *)
Lemma find_controller_maps k kc vmeaddr len a size rdpref st va st' :
  reachable_ok st -> kenv_ok kc -> is_u32 vmeaddr -> 0 <= len <= 0xffff0000 -> vmeaddr + len < 2 ^ 32 ->
  (if is_A24 a then vmeaddr + len <= 2 ^ 24
   else if is_A16 a then vmeaddr + len <= 2 ^ 16 else vmeaddr mod 2 ^ 16 = 0) ->
  find_controller true k kc vmeaddr len a size rdpref st = (va, st') ->
  (size <> 2 -> size <> 4 -> va = CES_ERROR /\ st' = st) /\
  (va <> CES_ERROR ->
     exists d, in_table (window_num d) /\ u32 (kernel_va d) = va /\
       (exists m, m ∈ w_mappings (get_win st' (window_num d)) /\ m_desc m = d /\ m_file m = 0) /\
       forall o, 0 <= o < len -> hw_translate (whw st') (window_num d) (pci_addrl d + o) = Some (vmeaddr + o)).
Proof.
  intros Hr Hk Hv Hl Hlt Hfit E.
  destruct (decide (size = 2 \/ size = 4)) as [Hsz|Hsz].
  2:{ unfold find_controller in E. cbn [negb] in E.
      rewrite (proj2 (Z.eqb_neq size 2)), (proj2 (Z.eqb_neq size 4)) in E by tauto.
      injection E as <- <-. split; [done|]. intros Hne. by destruct Hne. }
  split; [tauto|]. intros Hne.
  apply (find_controller_sized k kc vmeaddr len a (if size =? 2 then VME_D16 else VME_D32) rdpref st); try done.
  unfold find_controller in E. cbn [negb] in E. destruct Hsz as [-> | ->]; cbn [Z.eqb Pos.eqb] in E |- *; exact E.
Qed.

End Props.

(** ** Concrete instances *)

Definition demo_ces := find_controller true kenv_pci kenv_pci 0x20000 0x1000 VME_A32_USER_DATA_SCT 4 0
                         (wstate_boot (∅ : chip)).

Lemma ioctl_reachable_witness :
  exists rc out s', vme_window_ioctl (Uenv true true demo_request 0 (Vme_bus_error_desc (Vme_bus_error 0 0) 0))
      kenv_pci kenv_pci 0x55 VME_IOCTL_FIND_MAPPING (Ustate (wstate_boot (∅ : chip)) (Istate [] [] 0 ∅ (Vme_bus_error_desc (Vme_bus_error 0 0) 0) [] []))
    = (rc, out, s') /\ reachable (us_w s').
Proof.
  pose proof (ioctl_reachable (Uenv true true demo_request 0 (Vme_bus_error_desc (Vme_bus_error 0 0) 0))
      kenv_pci kenv_pci 0x55 VME_IOCTL_FIND_MAPPING (Ustate (wstate_boot (∅ : chip)) (Istate [] [] 0 ∅ (Vme_bus_error_desc (Vme_bus_error 0 0) 0) [] []))
      (reach_boot ∅)) as Hx.
  destruct (vme_window_ioctl _ _ _ _ _ _) as [[rc out] s']. exists rc, out, s'. split; [reflexivity|apply Hx].
Defined.

Definition ces_state : wstate chip :=
  run_op (OpFind kenv_pci kenv_pci (controller_desc 0x20000 0x1000 VME_A32_USER_DATA_SCT VME_D32 0) 1 0)
    (wstate_boot ∅).

Lemma ces_mapped : mapped_at 0xf0000000 ces_state.
Proof.
  exists 0. eexists. split; [unfold in_table; lia|]. split; [vm_compute; left|]. vm_compute. reflexivity.
Qed.

Lemma return_controller_spec_witness :
  (return_controller kenv_pci kenv_pci kenv_pci 0xf0000000 ces_state).1 = 0.
Proof.
  pose proof (return_controller_spec kenv_pci kenv_pci kenv_pci 0xf0000000 ces_state
    (reach_step _ _ (reach_boot ∅)) (fun _ => eq_refl) (fun _ => eq_refl) (fun _ => eq_refl)) as Hx.
  destruct (return_controller _ _ _ _ _) as [rc st']. destruct Hx as [Hx _].
  destruct (Hx ces_mapped) as [-> _]. reflexivity.
Defined.

Lemma find_controller_maps_witness :
  demo_ces.1 = 0xf0000000 /\
  exists d, u32 (kernel_va d) = demo_ces.1 /\
    hw_translate (whw demo_ces.2) (window_num d) (pci_addrl d + 4) = Some 0x20004.
Proof.
  split; [vm_compute; reflexivity|].
  destruct (find_controller_maps kenv_pci kenv_pci 0x20000 0x1000 VME_A32_USER_DATA_SCT 4 0
    (wstate_boot (∅ : chip)) demo_ces.1 demo_ces.2
    (reach_ok_boot ∅ no_window_translates) kenv_pci_ok) as [_ Hx].
  - unfold is_u32. lia.
  - lia.
  - lia.
  - reflexivity.
  - unfold demo_ces. destruct (find_controller _ _ _ _ _ _ _ _ _). reflexivity.
  - destruct Hx as (d & _ & Hd & _ & Ht); [vm_compute; discriminate|].
    exists d. split; [exact Hd|]. apply (Ht 4). lia.
Defined.
