(* ===== verification/MttIsa.v ===== *)
(** * The MTT task processor: instruction set and names

    The MTT module of [mttn/] has a processor for timing tasks.  This file
    holds its instruction set ([mttn/lib/opcodes.c], [mttn/include/opcodes.h],
    [asm.h], [mttRegisters.h]), the character classes of the assembler
    ([mttn/tools/asmP.h]), the C library functions the tools use on text, and
    the tables' look-ups by name.  A character is its code (a [Z] below 256), a
    C string a list of non-zero characters; [long] has 32 bits, as on the two
    platforms the tools are built for. *)

From stdpp Require Import strings.
From S2P Require Import Prelude.

(** ** Text *)

Definition text := list Z.

Fixpoint txt (s : string) : text :=
  match s with
  | EmptyString => []
  | String c s => Z.of_N (Ascii.N_of_ascii c) :: txt s
  end.

Definition NL : Z := 10.
Definition SP : Z := 32.

(** [isspace()] in the C locale. *)
Definition isspace (c : Z) : bool := (c =? SP) || ((9 <=? c) && (c <=? 13)).

(** The value of a digit in any base up to 16. *)
Definition digit_val (c : Z) : option Z :=
  if (48 <=? c) && (c <=? 57) then Some (c - 48)
  else if (97 <=? c) && (c <=? 102) then Some (c - 87)
  else if (65 <=? c) && (c <=? 70) then Some (c - 55)
  else None.

Definition digit_in (b c : Z) : option Z :=
  match digit_val c with Some d => if d <? b then Some d else None | None => None end.

Fixpoint skip_spaces (s : text) : text :=
  match s with c :: s' => if isspace c then skip_spaces s' else s | [] => [] end.

(** The digits of base [b] at the front, accumulated, and what follows. *)
Fixpoint parse_digits (b acc : Z) (s : text) : Z * text :=
  match s with
  | c :: s' => match digit_in b c with Some d => parse_digits b (acc * b + d) s' | None => (acc, s) end
  | [] => (acc, s)
  end.

Definition ULONG_MAX : Z := 2 ^ 32 - 1.

Definition starts_digit (b : Z) (s : text) : bool :=
  match s with c :: _ => match digit_in b c with Some _ => true | None => false end | [] => false end.

(** A number after its leading space: sign, prefix of the base, digits; out of
    range gives [ULONG_MAX]. *)
Definition parse_number (s1 : text) : option (Z * text) :=
  let '(neg, s2) :=
    match s1 with
    | c :: s' => if c =? 45 then (true, s') else if c =? 43 then (false, s') else (false, s1)
    | [] => (false, s1)
    end in
  let '(b, s3) :=
    match s2 with
    | z :: x :: s' =>
        if (z =? 48) && ((x =? 120) || (x =? 88)) && starts_digit 16 s' then (16, s')
        else if z =? 48 then (8, s2) else (10, s2)
    | [z] => if z =? 48 then (8, s2) else (10, s2)
    | [] => (10, s2)
    end in
  if negb (starts_digit b s3) then None else
  let '(v, e) := parse_digits b 0 s3 in
  Some (if ULONG_MAX <? v then ULONG_MAX else if neg then u32 (- v) else v, e).

(** [strtoul(s, &end, 0)]: the value and the text at [end], which is [s] itself
    when there is no number. *)
Definition strtoul (s : text) : Z * text := default (0, s) (parse_number (skip_spaces s)).

(** Digits of [n], most significant first, as [printf()] prints them with [%X]
    and, for numbers that are not negative, [%d]; one per unit of fuel. *)
Definition digit_char (d : Z) : Z := if d <? 10 then 48 + d else 55 + d.

Fixpoint to_digits (b : Z) (fuel : nat) (n : Z) : text :=
  match fuel with
  | O => []
  | S fuel => if n <? b then [digit_char n] else to_digits b fuel (n / b) ++ [digit_char (n mod b)]
  end.

(** A 32-bit number has at most 32 digits in any base. *)
Definition print_hex (n : Z) : text := to_digits 16 32 (u32 n).
Definition print_dec (n : Z) : text := to_digits 10 32 (u32 n).

(** ** Character classes ([asmP.h]) *)

Inductive AtomType :=
  | Seperator | Operator | Open | Close | Comment | Numeric | Alpha | Open_index | Close_index
  | Illegal_char | Terminator | Bit | Op_code | Register | Expression | Not_set.

#[export] Instance AtomType_eq_dec : EqDecision AtomType.
Proof. solve_decision. Defined.

Definition atomtype_of (n : Z) : AtomType :=
  nth (Z.to_nat n) [Seperator; Operator; Open; Close; Comment; Numeric; Alpha; Open_index; Close_index;
                    Illegal_char; Terminator; Bit; Op_code; Register; Expression; Not_set] Not_set.

Definition atomhash_table : list Z :=
  [10;9;9;9;9;9;9;9;9;0;0;9;9;0;9;9;9;9;9;9;9;9;9;9;9;9;9;9;9;9;9;9;
   0;1;9;4;9;4;1;9;2;3;1;1;0;1;11;1;5;5;5;5;5;5;5;5;5;5;1;1;1;1;1;1;
   10;6;6;6;6;6;6;6;6;6;6;6;6;6;6;6;6;6;6;6;6;6;6;6;6;6;6;7;9;8;9;6;
   9;6;6;6;6;6;6;6;6;6;6;6;6;6;6;6;6;6;6;6;6;6;6;6;6;6;6;9;9;9;1;9]
  ++ replicate 128 9.

Definition atomhash (c : Z) : AtomType := atomtype_of (nth (Z.to_nat c) atomhash_table 9).

(** [StrToUpper()] *)
Definition upper_char (c : Z) : Z :=
  if decide (atomhash c = Alpha) then if 97 <=? c then c - 32 else c else c.

Definition StrToUpper (s : text) : text := map upper_char s.

(** ** Instructions ([asm.h], [opcodes.h]) *)

Inductive ArgType := AtNothing | AtLiteral | AtAddress | AtRegister.

#[export] Instance ArgType_eq_dec : EqDecision ArgType.
Proof. solve_decision. Defined.

Record OpCode := Opcode {
  op_Name : text;
  op_Number : Z;
  op_Src1 : ArgType;
  op_Src2 : ArgType;
  op_Dest : ArgType;
}.

Record Instruction := Instr {
  i_Dest : Z;     (* unsigned char *)
  i_Src2 : Z;     (* unsigned char *)
  i_Number : Z;   (* unsigned char *)
  i_Crc : Z;      (* unsigned char *)
  i_Src1 : Z;     (* long *)
}.

#[export] Instance Instruction_eq_dec : EqDecision Instruction.
Proof. solve_decision. Defined.

(** Each field holds a value of its C type. *)
Definition inst_ok (i : Instruction) : Prop :=
  0 <= i_Dest i < 256 /\ 0 <= i_Src2 i < 256 /\ 0 <= i_Number i < 256 /\ 0 <= i_Crc i < 256 /\
  - 2 ^ 31 <= i_Src1 i < 2 ^ 31.

Record ProgramBuf := Program_buf {
  LoadAddress : Z;
  InstructionCount : Z;
  Program : list Instruction;
}.

Definition HALT : Z := 0x00.
Definition NOOP : Z := 0x4d.
Definition INT : Z := 0xC1.
Definition WEQV : Z := 0x91.
Definition WEQR : Z := 0x11.
Definition WRLV : Z := 0x92.
Definition WRLR : Z := 0x12.
Definition WORV : Z := 0x93.
Definition WORR : Z := 0x13.
Definition MOVV : Z := 0xe2.
Definition MOVR : Z := 0x62.
Definition MOVIR : Z := 0x64.
Definition MOVRI : Z := 0x65.
Definition ADDV : Z := 0xe6.
Definition ADDR : Z := 0x66.
Definition SUBV : Z := 0xe7.
Definition SUBR : Z := 0x67.
Definition LORV : Z := 0xe8.
Definition LORR : Z := 0x68.
Definition ANDV : Z := 0xe9.
Definition ANDR : Z := 0x69.
Definition XORV : Z := 0xea.
Definition XORR : Z := 0x6a.
Definition LSV : Z := 0xeb.
Definition LSR : Z := 0x6b.
Definition RSV : Z := 0xec.
Definition RSR : Z := 0x6c.
Definition WDOG : Z := 0x34.
Definition JMP : Z := 0x85.
Definition BEQ : Z := 0x86.
Definition BNE : Z := 0x87.
Definition BLT : Z := 0x88.
Definition BGT : Z := 0x89.
Definition BLE : Z := 0x8a.
Definition BGE : Z := 0x8b.
Definition BCR : Z := 0x8c.

Definition InstructionSet : list OpCode := [
  Opcode (txt "HALT") HALT AtNothing AtNothing AtNothing;
  Opcode (txt "NOOP") NOOP AtNothing AtNothing AtNothing;
  Opcode (txt "INT") INT AtLiteral AtNothing AtNothing;
  Opcode (txt "WEQV") WEQV AtLiteral AtRegister AtNothing;
  Opcode (txt "WRLV") WRLV AtLiteral AtRegister AtNothing;
  Opcode (txt "WORV") WORV AtLiteral AtRegister AtNothing;
  Opcode (txt "WEQR") WEQR AtRegister AtRegister AtNothing;
  Opcode (txt "WRLR") WRLR AtRegister AtRegister AtNothing;
  Opcode (txt "WORR") WORR AtRegister AtRegister AtNothing;
  Opcode (txt "MOVV") MOVV AtLiteral AtNothing AtRegister;
  Opcode (txt "MOVR") MOVR AtRegister AtNothing AtRegister;
  Opcode (txt "MOVIR") MOVIR AtRegister AtNothing AtRegister;
  Opcode (txt "MOVRI") MOVRI AtRegister AtRegister AtNothing;
  Opcode (txt "ADDR") ADDR AtRegister AtRegister AtRegister;
  Opcode (txt "SUBR") SUBR AtRegister AtRegister AtRegister;
  Opcode (txt "LORR") LORR AtRegister AtRegister AtRegister;
  Opcode (txt "ANDR") ANDR AtRegister AtRegister AtRegister;
  Opcode (txt "XORR") XORR AtRegister AtRegister AtRegister;
  Opcode (txt "LSR") LSR AtRegister AtRegister AtRegister;
  Opcode (txt "RSR") RSR AtRegister AtRegister AtRegister;
  Opcode (txt "ADDV") ADDV AtLiteral AtRegister AtRegister;
  Opcode (txt "SUBV") SUBV AtLiteral AtRegister AtRegister;
  Opcode (txt "LORV") LORV AtLiteral AtRegister AtRegister;
  Opcode (txt "ANDV") ANDV AtLiteral AtRegister AtRegister;
  Opcode (txt "XORV") XORV AtLiteral AtRegister AtRegister;
  Opcode (txt "LSV") LSV AtLiteral AtRegister AtRegister;
  Opcode (txt "RSV") RSV AtLiteral AtRegister AtRegister;
  Opcode (txt "WDOG") WDOG AtAddress AtNothing AtNothing;
  Opcode (txt "JMP") JMP AtAddress AtNothing AtNothing;
  Opcode (txt "BEQ") BEQ AtAddress AtNothing AtNothing;
  Opcode (txt "BNE") BNE AtAddress AtNothing AtNothing;
  Opcode (txt "BLT") BLT AtAddress AtNothing AtNothing;
  Opcode (txt "BGT") BGT AtAddress AtNothing AtNothing;
  Opcode (txt "BLE") BLE AtAddress AtNothing AtNothing;
  Opcode (txt "BGE") BGE AtAddress AtNothing AtNothing;
  Opcode (txt "BCR") BCR AtAddress AtNothing AtNothing].

Definition find_opcode (n : Z) : option OpCode := snd <$> list_find (fun o => op_Number o = n) InstructionSet.

(** ** Registers *)

Record RegisterDsc := Register_dsc { r_Name : text; r_Start : Z; r_End : Z; r_Offset : Z }.

Definition Regs : list RegisterDsc := [
  Register_dsc (txt "GR") 0 211 1;
  Register_dsc (txt "OUTPUTS") 212 212 0;
  Register_dsc (txt "EVIN") 213 213 0;
  Register_dsc (txt "EVINCNT") 214 214 0;
  Register_dsc (txt "EVOUTCNT") 215 215 0;
  Register_dsc (txt "EVOUTFB") 216 216 0;
  Register_dsc (txt "EVOUTL") 217 217 0;
  Register_dsc (txt "MSMR") 218 218 0;
  Register_dsc (txt "TSYNC") 219 219 0;
  Register_dsc (txt "VMEP2") 220 220 0;
  Register_dsc (txt "EVOUTH") 221 221 0;
  Register_dsc (txt "MSFR") 222 222 0;
  Register_dsc (txt "SYNCFR") 223 223 0;
  Register_dsc (txt "INDEX") 224 224 0;
  Register_dsc (txt "LR") 225 255 1].

(** ** Look-ups by name ([asm.c]) *)

Definition MAX_OP_CODE_STRING_LENGTH : nat := 8.
Definition MAX_REGISTER_STRING_LENGTH : nat := 8.

(** The index in [InstructionSet]. *)
Definition LookUpOpCode (s : text) : option nat :=
  if Nat.leb (length s) MAX_OP_CODE_STRING_LENGTH
  then fst <$> list_find (fun o => op_Name o = StrToUpper s) InstructionSet
  else None.

(** [strncmp(s, name, strlen(name)) == 0] *)
Definition has_prefix (name s : text) : bool := bool_decide (firstn (length name) s = name).

(** The loop over the ranges; [upr] is the name in upper case. *)
Fixpoint range_register (rs : list RegisterDsc) (s upr : text) : option Z :=
  match rs with
  | [] => None
  | r :: rs =>
      if has_prefix (r_Name r) upr then
        if r_Start r <? r_End r then
          if Nat.ltb (length (r_Name r)) (length s) then
            let cp := skipn (length (r_Name r)) s in
            let '(rn, ep) := strtoul cp in
            if negb (bool_decide (cp = ep)) && (r_Offset r <=? rn)
               && (rn <=? r_End r - r_Start r + r_Offset r)
            then Some (r_Start r + rn - r_Offset r)
            else range_register rs s upr
          else range_register rs s upr
        else Some (r_Start r)
      else range_register rs s upr
  end.

Definition LookUpRegister (s : text) : option Z :=
  if Nat.leb (length s) MAX_REGISTER_STRING_LENGTH then
    let upr := StrToUpper s in
    match list_find (fun r => r_Name r = upr) Regs with
    | Some (_, r) => Some (r_Start r)
    | None => range_register Regs s upr
    end
  else None.

(** The emulator's version, without the search for a whole name. *)
Definition StringToReg (s : text) : Z :=
  if Nat.leb (length s) MAX_REGISTER_STRING_LENGTH
  then default 0 (range_register Regs s (StrToUpper s)) else 0.

(** [GetRegisterName()], [RegToString()] *)
Definition GetRegisterName (regnum : Z) : text :=
  match list_find (fun r => r_Start r <= regnum <= r_End r) Regs with
  | Some (_, r) =>
      if r_Start r <? r_End r then r_Name r ++ print_dec (regnum - r_Start r + r_Offset r) else r_Name r
  | None => txt "???"
  end.

(** ** Numbers printed are numbers read *)

Lemma digit_in_char b d : 2 <= b <= 16 -> 0 <= d < b -> digit_in b (digit_char d) = Some d.
Proof.
  intros Hb Hd. unfold digit_in, digit_char, digit_val.
  destruct (Z.ltb_spec d 10).
  - rewrite (proj2 (Z.leb_le 48 (48 + d))), (proj2 (Z.leb_le (48 + d) 57)) by lia. simpl.
    rewrite (proj2 (Z.ltb_lt (48 + d - 48) b)) by lia. f_equal. lia.
  - rewrite (proj2 (Z.leb_gt (55 + d) 57)), (proj2 (Z.leb_gt 97 (55 + d))) by lia.
    rewrite (proj2 (Z.leb_le 48 (55 + d))), (proj2 (Z.leb_le 65 (55 + d))), (proj2 (Z.leb_le (55 + d) 70)) by lia.
    simpl. rewrite (proj2 (Z.ltb_lt (55 + d - 55) b)) by lia. f_equal. lia.
Qed.

Lemma parse_to_digits b fuel n acc rest :
  2 <= b <= 16 -> 0 <= n < b ^ Z.of_nat fuel -> (0 < fuel)%nat ->
  exists m, 0 <= m /\ parse_digits b acc (to_digits b fuel n ++ rest) = parse_digits b (acc * b ^ m + n) rest.
Proof.
  intros Hb. revert n acc rest. induction fuel as [|fuel IH]; intros n acc rest Hn Hf; [lia|]. simpl.
  destruct (Z.ltb_spec n b).
  - exists 1. split; [lia|]. simpl. rewrite digit_in_char by lia. f_equal. lia.
  - assert (0 < fuel)%nat as Hf'.
    { destruct fuel; [|lia]. rewrite Z.pow_1_r in Hn. lia. }
    rewrite Nat2Z.inj_succ, Z.pow_succ_r in Hn by lia.
    rewrite <- app_assoc.
    destruct (IH (n / b) acc ([digit_char (n mod b)] ++ rest)) as (m & Hm & ->); [|done|].
    { split; [apply Z.div_pos; lia|apply Z.div_lt_upper_bound; lia]. }
    exists (Z.succ m). split; [lia|]. simpl.
    rewrite digit_in_char by (done || (apply Z.mod_pos_bound; lia)).
    f_equal. rewrite Z.pow_succ_r by lia. pose proof (Z.div_mod n b). lia.
Qed.

Definition no_digit (b : Z) (s : text) : Prop := starts_digit b s = false.

Lemma parse_digits_stop b acc s : no_digit b s -> parse_digits b acc s = (acc, s).
Proof.
  unfold no_digit. destruct s as [|c s]; [done|]. simpl. by destruct (digit_in b c).
Qed.

Lemma pow_32_digits b : 2 <= b -> 2 ^ 32 <= b ^ Z.of_nat 32.
Proof. intros. change (Z.of_nat 32) with 32. apply Z.pow_le_mono_l. lia. Qed.

Lemma to_digits_cons b fuel n :
  2 <= b -> 0 <= n < b ^ Z.of_nat fuel -> (0 < fuel)%nat ->
  exists d ds, to_digits b fuel n = digit_char d :: ds /\ 0 <= d < b /\ (0 < n -> 0 < d).
Proof.
  intros Hb. revert n. induction fuel as [|fuel IH]; intros n Hn Hf; [lia|]. simpl.
  destruct (Z.ltb_spec n b); [exists n, []; split_and!; [done|lia..]|].
  assert (0 < fuel)%nat as Hf'.
  { destruct fuel; [|lia]. rewrite Z.pow_1_r in Hn. lia. }
  rewrite Nat2Z.inj_succ, Z.pow_succ_r in Hn by lia.
  destruct (IH (n / b)) as (d & ds & -> & Hd & Hp); [|done|].
  { split; [apply Z.div_pos; lia|apply Z.div_lt_upper_bound; lia]. }
  exists d, (ds ++ [digit_char (n mod b)]). split_and!; [done|lia|lia|].
  intros _. apply Hp. apply Z.div_str_pos. lia.
Qed.

(** [strtoul()] reads back a number printed with [0x%X], also after a space. *)
Definition hexnum (n : Z) : text := txt "0x" ++ print_hex n.

Lemma parse_number_hex n rest :
  no_digit 16 rest -> parse_number (hexnum n ++ rest) = Some (u32 n, rest).
Proof.
  intros Hr. unfold hexnum, print_hex. rewrite <- app_assoc. pose proof (u32_range n) as Hu. unfold is_u32 in Hu.
  generalize dependent (u32 n). intros u Hu.
  pose proof (pow_32_digits 16 ltac:(lia)) as H16.
  destruct (to_digits_cons 16 32 u) as (d & ds & E & Hd & _); [lia..|].
  destruct (parse_to_digits 16 32 u 0 rest) as (m & _ & Hp); [lia..|].
  generalize dependent (to_digits 16 32 u). intros t E Hp.
  assert (starts_digit 16 (t ++ rest) = true) as Hs.
  { rewrite E. simpl. by rewrite digit_in_char by lia. }
  change (txt "0x" ++ t ++ rest) with (48 :: 120 :: (t ++ rest)).
  unfold parse_number. cbn -[parse_digits starts_digit ULONG_MAX]. rewrite Hs.
  cbn -[parse_digits starts_digit ULONG_MAX]. rewrite Hs. cbn -[parse_digits ULONG_MAX].
  rewrite Hp, parse_digits_stop by done. rewrite Z.mul_0_l, Z.add_0_l.
  rewrite (proj2 (Z.ltb_ge ULONG_MAX u)) by (unfold ULONG_MAX; lia). done.
Qed.

Lemma strtoul_hex n rest : no_digit 16 rest -> strtoul (hexnum n ++ rest) = (u32 n, rest).
Proof.
  intros Hr. unfold strtoul. change (skip_spaces (hexnum n ++ rest)) with (hexnum n ++ rest).
  by rewrite parse_number_hex.
Qed.

Lemma strtoul_sp_hex n rest : no_digit 16 rest -> strtoul (SP :: hexnum n ++ rest) = (u32 n, rest).
Proof.
  intros Hr. unfold strtoul. change (skip_spaces (SP :: hexnum n ++ rest)) with (hexnum n ++ rest).
  by rewrite parse_number_hex.
Qed.

(** ** Names *)

Definition is_digit (c : Z) : Prop := 48 <= c <= 57.

Lemma StrToUpper_length s : length (StrToUpper s) = length s.
Proof. apply length_map. Qed.

Lemma upper_char_digit c : is_digit (upper_char c) -> upper_char c = c.
Proof.
  unfold upper_char, is_digit. case_decide as H; [|done]. destruct (Z.leb_spec 97 c) as [Hc|]; [|done].
  intros Hd. assert (97 <= c <= 89) by lia. lia.
Qed.

Lemma upper_digits k s u :
  StrToUpper s = u -> Forall is_digit (skipn k u) -> skipn k s = skipn k u.
Proof.
  intros <-. unfold StrToUpper. rewrite skipn_map. generalize (skipn k s). clear.
  intros t. induction t as [|c t IH]; [done|]. simpl. intros [Hc Hs]%Forall_cons.
  rewrite upper_char_digit by done. f_equal. by apply IH.
Qed.

(** The search over ranges sees a name only through its upper case and its
    number. *)
Lemma range_register_upper rs s u :
  StrToUpper s = u ->
  (forall r, r ∈ rs -> r_Start r < r_End r -> skipn (length (r_Name r)) s = skipn (length (r_Name r)) u) ->
  range_register rs s u = range_register rs u u.
Proof.
  intros Hu. assert (length s = length u) as Hl by (by rewrite <- Hu, StrToUpper_length).
  induction rs as [|r rs IH]; intros Hr; [done|]. simpl.
  assert (range_register rs s u = range_register rs u u) as IH'.
  { apply IH. intros r' Hr'. apply Hr. by apply list_elem_of_further. }
  rewrite Hl, IH'. destruct (has_prefix _ _); [|done]. destruct (Z.ltb_spec (r_Start r) (r_End r)); [|done].
  rewrite (Hr r) by (done || apply list_elem_of_here). done.
Qed.

(** Looking a register up by [u] in any case gives [r], by evaluation. *)
Definition register_check (r : Z) : bool :=
  let u := GetRegisterName r in
  Nat.leb (length u) MAX_REGISTER_STRING_LENGTH &&
  match list_find (fun d => r_Name d = u) Regs with
  | Some (_, d) => r_Start d =? r
  | None => forallb (fun c => (48 <=? c) && (c <=? 57)) (skipn 2 u) && bool_decide (range_register Regs u u = Some r)
  end.

Lemma register_check_all : forallb register_check (seqZ 0 256) = true.
Proof. vm_compute. reflexivity. Qed.

Lemma ranges_have_two_letters r : r ∈ Regs -> r_Start r < r_End r -> length (r_Name r) = 2%nat.
Proof.
  intros Hr. assert (forallb (fun r => negb (r_Start r <? r_End r) || Nat.eqb (length (r_Name r)) 2) Regs = true) as Ha
    by (vm_compute; reflexivity).
  rewrite forallb_forall in Ha. apply list_elem_of_In in Hr. apply Ha in Hr. intros Hlt.
  rewrite (proj2 (Z.ltb_lt _ _) Hlt) in Hr. by apply Nat.eqb_eq.
Qed.

Lemma register_name_ok r s :
  0 <= r < 256 -> StrToUpper s = GetRegisterName r -> LookUpRegister s = Some r.
Proof.
  intros Hr Hs. pose proof register_check_all as Hc. rewrite forallb_forall in Hc.
  specialize (Hc r). rewrite <- list_elem_of_In, elem_of_seqZ in Hc. specialize (Hc ltac:(lia)).
  unfold register_check in Hc. unfold LookUpRegister. rewrite <- (StrToUpper_length s), Hs.
  generalize dependent (GetRegisterName r). intros u Hs Hc.
  destruct (Nat.leb (length u) _); [|done]. cbn [andb] in Hc.
  destruct (list_find _ Regs) as [[i d]|].
  - apply Z.eqb_eq in Hc. by f_equal.
  - apply andb_prop in Hc as [Hd Hf]. apply bool_decide_eq_true in Hf. rewrite <- Hf.
    apply range_register_upper; [done|]. intros d Hin Hlt. rewrite (ranges_have_two_letters d Hin Hlt).
    apply upper_digits; [done|]. apply Forall_forall. intros c Hc. rewrite forallb_forall in Hd.
    apply list_elem_of_In in Hc. apply Hd in Hc. apply andb_prop in Hc as [H1 H2].
    apply Z.leb_le in H1, H2. split; lia.
Qed.

Lemma opcode_name_ok i o s :
  InstructionSet !! i = Some o -> StrToUpper s = op_Name o -> LookUpOpCode s = Some i.
Proof.
  intros Hi Hs.
  assert (forallb (fun i => match InstructionSet !! i with
    | Some o => Nat.leb (length (op_Name o)) MAX_OP_CODE_STRING_LENGTH &&
        bool_decide (fst <$> list_find (fun o' => op_Name o' = op_Name o) InstructionSet = Some i)
    | None => true end) (seq 0 36) = true) as Hc by (vm_compute; reflexivity).
  rewrite forallb_forall in Hc. specialize (Hc i). rewrite Hi in Hc.
  apply lookup_lt_Some in Hi as Hlt. change (length InstructionSet) with 36%nat in Hlt.
  rewrite in_seq in Hc. specialize (Hc ltac:(lia)). apply andb_prop in Hc as [H1 H2].
  apply bool_decide_eq_true in H2. unfold LookUpOpCode. rewrite <- (StrToUpper_length s), Hs, H1. exact H2.
Qed.

(** the assembler reads back the names its disassembler prints: each of the
    256 registers and each of the 36 instructions is found under its name, in
    any mix of cases, and an instruction is also found under its number. *)
Lemma isa_names_roundtrip s :
  (forall r, 0 <= r < 256 -> StrToUpper s = GetRegisterName r -> LookUpRegister s = Some r) /\
  (forall i o, InstructionSet !! i = Some o ->
     (StrToUpper s = op_Name o -> LookUpOpCode s = Some i) /\ find_opcode (op_Number o) = Some o).
Proof.
  split; [intros r; apply register_name_ok|]. intros i o Hi. split; [by apply opcode_name_ok|].
  assert (forallb (fun i => match InstructionSet !! i with
    | Some o => match list_find (fun o' => op_Number o' = op_Number o) InstructionSet with
                | Some (j, _) => Nat.eqb i j | None => false end
    | None => true end) (seq 0 36) = true) as Hc by (vm_compute; reflexivity).
  rewrite forallb_forall in Hc. specialize (Hc i). rewrite Hi in Hc.
  apply lookup_lt_Some in Hi as Hlt. change (length InstructionSet) with 36%nat in Hlt.
  rewrite in_seq in Hc. specialize (Hc ltac:(lia)). unfold find_opcode.
  destruct (list_find _ InstructionSet) as [[j o']|] eqn:E; [|done]. apply Nat.eqb_eq in Hc as ->.
  apply list_find_Some in E as (E & _). simpl. congruence.
Qed.

Lemma isa_names_roundtrip_witness :
  LookUpRegister (txt "evOutCnt") = Some 215 /\ LookUpRegister (txt "lr31") = Some 255 /\
  LookUpOpCode (txt "Movir") = Some 11%nat.
Proof.
  split_and!; [apply (isa_names_roundtrip (txt "evOutCnt"))|apply (isa_names_roundtrip (txt "lr31"))
    |apply (isa_names_roundtrip (txt "Movir")) with (o := Opcode (txt "MOVIR") MOVIR AtRegister AtNothing AtRegister)];
    (reflexivity || lia).
Defined.

(** The emulator has no search for a whole name: [EVINCNT] is taken for [EVIN]. *)
Lemma string_to_reg_prefix :
  StringToReg (GetRegisterName 214) = 213 /\ LookUpRegister (GetRegisterName 214) = Some 214.
Proof. vm_compute. split; reflexivity. Qed.

(** The buffer for a register name has 8 bytes; one name needs 9 with its end. *)
Lemma register_name_overflow : length (GetRegisterName 215) = MAX_REGISTER_STRING_LENGTH.
Proof. reflexivity. Qed.
