(* ===== verification/MttObj.v ===== *)
(** * MTT object files ([mttn/tools/asm.c], [emu.c])

    The text form of a program that the assembler writes and that the
    disassembler and the emulator read, and the hexadecimal dump for the VHDL
    simulator.  A file is the list of its characters; memory that the code
    leaves uninitialised is an argument. *)

From stdpp Require Import strings.
From S2P Require Import Prelude MttIsa.

(** ** Writing *)

Definition write_inst (i : Instruction) : text :=
  hexnum (i_Number i) ++ [SP] ++ hexnum (i_Src1 i) ++ [SP] ++ hexnum (i_Src2 i) ++ [SP]
  ++ hexnum (i_Dest i) ++ [SP] ++ hexnum (i_Crc i) ++ [NL].

(** [None]: the count goes past the array of instructions. *)
Definition WriteObject (p : ProgramBuf) : option text :=
  if Z.of_nat (length (Program p)) <? InstructionCount p then None else
  Some (hexnum (LoadAddress p) ++ [SP] ++ hexnum (InstructionCount p) ++ [NL]
        ++ flat_map write_inst (firstn (Z.to_nat (InstructionCount p)) (Program p))).

(** ** Reading *)

(** [fgets()] with room for [k] characters and the terminator. *)
Fixpoint read_line (k : nat) (f : text) : text * text :=
  match k, f with
  | O, _ => ([], f)
  | _, [] => ([], [])
  | S k, c :: f =>
      if c =? NL then ([c], f) else let '(l, r) := read_line k f in (c :: l, r)
  end.

Definition fgets (n : nat) (f : text) : option (text * text) :=
  match f with [] => None | _ => Some (read_line (n - 1) f) end.

Definition read_inst (ln : text) : Instruction :=
  let '(number, ep) := strtoul ln in
  let '(src1, ep) := strtoul ep in
  let '(src2, ep) := strtoul ep in
  let '(dest, ep) := strtoul ep in
  let '(crc, ep) := strtoul ep in
  Instr (u8 dest) (u8 src2) (u8 number) (u8 crc) (s32 src1).

Fixpoint read_program (n : nat) (mem : Instruction) (f : text) : list Instruction :=
  match n with
  | O => []
  | S n =>
      match fgets 128 f with
      | Some (ln, f) => read_inst ln :: read_program n mem f
      | None => mem :: read_program n mem f
      end
  end.

(** [code] and [mem]: the structure before the call, and an instruction of the
    memory that [malloc()] returns. *)
Definition ReadObject (f : text) (code : ProgramBuf) (mem : Instruction) : ProgramBuf :=
  let '(load, count, f) :=
    match fgets 128 f with
    | Some (ln, f) =>
        let '(load, ep) := strtoul ln in
        let '(count, ep) := strtoul ep in
        (load, count, f)
    | None => (LoadAddress code, InstructionCount code, f)
    end in
  Program_buf load count (read_program (Z.to_nat count) mem f).

(** ** The dump for the simulator: two words per instruction *)

Definition hex_word (i : Instruction) : Z :=
  Z.lor (Z.lor (Z.lor (u32 (Z.shiftl (i_Dest i) 24)) (Z.shiftl (i_Src2 i) 16)) (Z.shiftl (i_Number i) 8)) (i_Crc i).

(** [%08X] *)
Definition print_hex8 (n : Z) : text :=
  let d := print_hex n in replicate (8 - length d) 48 ++ d.

Definition HexDump (p : ProgramBuf) : option text :=
  if Z.of_nat (length (Program p)) <? InstructionCount p then None else
  Some (flat_map (fun i => txt "X" ++ [34] ++ print_hex8 (hex_word i) ++ [34; NL]
                        ++ txt "X" ++ [34] ++ print_hex8 (i_Src1 i) ++ [34; NL])
          (firstn (Z.to_nat (InstructionCount p)) (Program p))).

(** ** What is written is what is read *)

Definition program_ok (p : ProgramBuf) : Prop :=
  is_u32 (LoadAddress p) /\ is_u32 (InstructionCount p) /\
  InstructionCount p = Z.of_nat (length (Program p)) /\ Forall inst_ok (Program p).

Lemma read_line_app k l rest :
  NL ∉ l -> (length l < k)%nat -> read_line k (l ++ NL :: rest) = (l ++ [NL], rest).
Proof.
  revert l. induction k as [|k IH]; intros l Hn Hl; [lia|].
  destruct l as [|c l]; [done|]. apply not_elem_of_cons in Hn as [Hc Hn]. simpl.
  rewrite (proj2 (Z.eqb_neq c NL)) by done. rewrite IH; [done|done|simpl in Hl; lia].
Qed.

Lemma to_digits_length b fuel n k :
  2 <= b -> 0 <= n < b ^ Z.of_nat k -> (0 < k)%nat -> (length (to_digits b fuel n) <= k)%nat.
Proof.
  intros Hb. revert n k. induction fuel as [|fuel IH]; intros n k Hn Hk; simpl; [lia|].
  destruct (Z.ltb_spec n b); [simpl; lia|]. rewrite length_app. simpl.
  destruct k as [|k]; [lia|]. destruct k as [|k]; [rewrite Z.pow_1_r in Hn; lia|].
  rewrite Nat2Z.inj_succ, Z.pow_succ_r in Hn by lia.
  assert (length (to_digits b fuel (n / b)) <= S k)%nat; [|lia].
  apply IH; [|lia]. split; [apply Z.div_pos; lia|apply Z.div_lt_upper_bound; lia].
Qed.

Lemma digit_char_lo d : 0 <= d -> 48 <= digit_char d.
Proof. intros. unfold digit_char. destruct (d <? 10); lia. Qed.

Lemma to_digits_lo b fuel n : 2 <= b -> 0 <= n -> Forall (fun c => 48 <= c) (to_digits b fuel n).
Proof.
  intros Hb. revert n. induction fuel as [|fuel IH]; intros n Hn; simpl; [done|].
  destruct (n <? b).
  - constructor; [by apply digit_char_lo|constructor].
  - apply Forall_app. split; [apply IH; apply Z.div_pos; lia|].
    constructor; [apply digit_char_lo; apply Z.mod_pos_bound; lia|constructor].
Qed.

Lemma hexnum_length n : (length (hexnum n) <= 10)%nat.
Proof.
  unfold hexnum, print_hex. rewrite length_app. assert (length (txt "0x") = 2%nat) as -> by reflexivity.
  pose proof (u32_range n). unfold is_u32 in *.
  assert (length (to_digits 16 32 (u32 n)) <= 8)%nat; [|lia].
  apply to_digits_length; [lia| |lia]. change (16 ^ Z.of_nat 8) with (2 ^ 32). lia.
Qed.

Lemma hexnum_no_nl n : NL ∉ hexnum n.
Proof.
  unfold hexnum, print_hex. intros [H|H]%elem_of_app.
  - change (txt "0x") with [48; 120] in H. unfold NL in H. set_solver.
  - pose proof (to_digits_lo 16 32 (u32 n)) as Hf. pose proof (u32_range n) as Hu. unfold is_u32 in Hu.
    rewrite Forall_forall in Hf. specialize (Hf ltac:(lia) ltac:(lia) NL H). unfold NL in Hf. lia.
Qed.

Lemma s32_u32_id z : - 2 ^ 31 <= z < 2 ^ 31 -> s32 (u32 z) = z.
Proof. intros Hz. unfold s32, u32. Z.to_euclidean_division_equations. lia. Qed.

Lemma u8_u32_id z : 0 <= z < 256 -> u8 (u32 z) = z.
Proof. intros Hz. unfold u8, u32. rewrite (Z.mod_small z (2 ^ 32)) by lia. apply Z.mod_small. lia. Qed.

Lemma strtoul_field n rest : strtoul (SP :: hexnum n ++ SP :: rest) = (u32 n, SP :: rest).
Proof. by apply strtoul_sp_hex. Qed.

Lemma read_write_inst i : inst_ok i ->
  exists l, write_inst i = l ++ [NL] /\ NL ∉ l /\ (length l < 127)%nat /\ read_inst (l ++ [NL]) = i.
Proof.
  intros (Hd & Hs2 & Hn & Hc & Hs1).
  exists (hexnum (i_Number i) ++ SP :: hexnum (i_Src1 i) ++ SP :: hexnum (i_Src2 i) ++ SP ::
          hexnum (i_Dest i) ++ SP :: hexnum (i_Crc i)).
  split_and!.
  - unfold write_inst. cbn [app]. by rewrite <- !app_assoc; cbn [app]; rewrite <- !app_assoc; cbn [app];
      rewrite <- !app_assoc; cbn [app]; rewrite <- !app_assoc.
  - rewrite !elem_of_app, !elem_of_cons, !elem_of_app, !elem_of_cons, !elem_of_app, !elem_of_cons, !elem_of_app,
      !elem_of_cons. unfold SP, NL. pose proof (hexnum_no_nl) as H. unfold NL in H.
    intros [?|[?|[?|[?|[?|[?|[?|[?|?]]]]]]]]; (lia || by eapply H).
  - rewrite !length_app; cbn [length]; rewrite !length_app; cbn [length]; rewrite !length_app; cbn [length];
      rewrite !length_app; cbn [length].
    pose proof (hexnum_length (i_Number i)). pose proof (hexnum_length (i_Src1 i)).
    pose proof (hexnum_length (i_Src2 i)). pose proof (hexnum_length (i_Dest i)).
    pose proof (hexnum_length (i_Crc i)). lia.
  - unfold read_inst. rewrite <- !app_assoc; cbn [app]. rewrite strtoul_hex by done.
    rewrite <- !app_assoc; cbn [app]. rewrite strtoul_field. rewrite <- !app_assoc; cbn [app]. rewrite strtoul_field.
    rewrite <- !app_assoc; cbn [app]. rewrite strtoul_field, strtoul_sp_hex by done.
    rewrite !u8_u32_id, s32_u32_id by lia. by destruct i.
Qed.

Lemma fgets_line l rest :
  NL ∉ l -> (length l < 127)%nat -> fgets 128 (l ++ NL :: rest) = Some (l ++ [NL], rest).
Proof.
  intros Hn Hl. unfold fgets. destruct (l ++ NL :: rest) eqn:E; [by destruct l|]. rewrite <- E.
  by rewrite read_line_app.
Qed.

Lemma read_write_program mem ps rest :
  Forall inst_ok ps -> read_program (length ps) mem (flat_map write_inst ps ++ rest) = ps.
Proof.
  induction 1 as [|i ps Hi _ IH]; [done|]. cbn [length flat_map read_program].
  destruct (read_write_inst i Hi) as (l & -> & Hn & Hl & Hr). rewrite <- !app_assoc. cbn [app].
  rewrite fgets_line by done. by rewrite Hr, IH.
Qed.

Lemma object_reads_back p code mem f :
  program_ok p -> WriteObject p = Some f -> ReadObject f code mem = p.
Proof.
  intros (Hl & Hc & Hlen & Hok) Hw. unfold WriteObject in Hw.
  rewrite Hlen, Z.ltb_irrefl, Nat2Z.id, firstn_all in Hw.
  match type of Hw with Some ?x = _ => assert (f = x) as -> by congruence end.
  assert (forall a b : text, a ++ [SP] ++ b ++ [NL] ++ flat_map write_inst (Program p)
    = (a ++ SP :: b) ++ NL :: flat_map write_inst (Program p)) as -> by (intros; by rewrite <- !app_assoc).
  unfold ReadObject. rewrite fgets_line.
  - rewrite <- app_assoc. cbn [app]. rewrite strtoul_hex, strtoul_sp_hex by done.
    rewrite !u32_id by (done || by rewrite <- Hlen). rewrite Nat2Z.id.
    rewrite <- (app_nil_r (flat_map write_inst (Program p))), read_write_program by done.
    rewrite <- Hlen. by destruct p.
  - rewrite elem_of_app, elem_of_cons. intros [H|[H|H]]; [by apply hexnum_no_nl in H|discriminate H|by apply hexnum_no_nl in H].
  - rewrite length_app. cbn [length]. pose proof (hexnum_length (LoadAddress p)).
    pose proof (hexnum_length (Z.of_nat (length (Program p)))). lia.
Qed.

(** C23: for every program (bytes in the byte fields, a 32-bit first source),
    the object file the assembler writes is read back as the same program,
    whatever the reader's memory held. *)
Theorem object_roundtrip p code mem :
  program_ok p -> exists f, WriteObject p = Some f /\ ReadObject f code mem = p.
Proof.
  intros Hp. destruct (WriteObject p) as [f|] eqn:E.
  - exists f. split; [done|]. by eapply object_reads_back.
  - exfalso. unfold WriteObject in E. destruct Hp as (_ & _ & Hc & _). by rewrite Hc, Z.ltb_irrefl in E.
Qed.

Definition demo_program : ProgramBuf :=
  Program_buf 0x100 2 [Instr 225 0 MOVV 0 (- 5); Instr 0 0 HALT 0 0].

Lemma object_roundtrip_witness :
  ReadObject (default [] (WriteObject demo_program)) (Program_buf 7 7 []) (Instr 1 2 3 4 5) = demo_program.
Proof.
  destruct (object_roundtrip demo_program (Program_buf 7 7 []) (Instr 1 2 3 4 5)) as (f & -> & Hf).
  - split_and!; [unfold is_u32; simpl; lia|unfold is_u32; simpl; lia|reflexivity|].
    apply Forall_cons; split; [unfold inst_ok; vm_compute; intuition congruence|].
    apply Forall_cons; split; [unfold inst_ok; vm_compute; intuition congruence|apply Forall_nil_2].
  - exact Hf.
Defined.
