(* ===== verification/MttEmu.v ===== *)
(** * The MTT emulator ([mttn/tools/emu.c])

    The registers, the status word, the program counter and the wait state of
    the emulated processor, [Execute()] and the commands of the emulator.
    [None] is undefined behaviour of the C program: a register number or a
    program counter outside its array, or a shift by a count that is not in
    0..31.  [int] and [long] arithmetic wraps at 32 bits. *)

From stdpp Require Import strings.
From S2P Require Import Prelude MttIsa.

(** ** State *)

Definition GREGS : Z := 224.
Definition REGS : Z := 256.

Definition PsEQ : Z := 1.
Definition PsLT : Z := 2.
Definition PsGT : Z := 4.
Definition PsCR : Z := 8.

Record mstate := Mstate {
  Regm : list Z;
  PSwd : Z;
  Pc : Z;
  waiting : Z;
  waitr : Z;
  regwa : Z;
  regm : list Z;    (* the registers as last shown *)
  Dfs : text;       (* the differences to show *)
}.

Definition set_Regm r st := Mstate r (PSwd st) (Pc st) (waiting st) (waitr st) (regwa st) (regm st) (Dfs st).
Definition set_PSwd p st := Mstate (Regm st) p (Pc st) (waiting st) (waitr st) (regwa st) (regm st) (Dfs st).
Definition set_Pc p st := Mstate (Regm st) (PSwd st) p (waiting st) (waitr st) (regwa st) (regm st) (Dfs st).
Definition set_waiting w st := Mstate (Regm st) (PSwd st) (Pc st) w (waitr st) (regwa st) (regm st) (Dfs st).
Definition set_wait w v r st := Mstate (Regm st) (PSwd st) (Pc st) w v r (regm st) (Dfs st).
Definition set_shown r d st := Mstate (Regm st) (PSwd st) (Pc st) (waiting st) (waitr st) (regwa st) r d.

Definition mstate_boot : mstate := Mstate (replicate 256 0) 0 0 0 0 0 (replicate 256 0) [].

Definition reg (st : mstate) (r : Z) : Z := nth (Z.to_nat r) (Regm st) 0.

(** [Regm[r]] with [r] any [long]. *)
Definition reg_at (st : mstate) (r : Z) : option Z :=
  if (0 <=? r) && (r <? REGS) then Some (reg st r) else None.

Definition set_reg (r v : Z) (st : mstate) : mstate := set_Regm (<[Z.to_nat r := v]> (Regm st)) st.

(** ** [ShowDiffs()] *)

Fixpoint first_diff (i : Z) (old new : list Z) : text :=
  match old, new with
  | o :: old, n :: new =>
      if o =? n then first_diff (i + 1) old new
      else GetRegisterName i ++ txt ":" ++ hexnum o ++ txt "=>" ++ hexnum n
  | _, _ => []
  end.

Definition ShowDiffs (st : mstate) : mstate :=
  let d := first_diff 0 (regm st) (Regm st) in
  let w := if truthy (waiting st)
           then txt "Wait[" ++ GetRegisterName (regwa st) ++ txt "/" ++ hexnum (waitr st) ++ txt "]" else [] in
  set_shown (Regm st) (d ++ w) st.

(** ** [SetPSwd()] *)

Definition SetPSwd (val : Z) (st : mstate) : mstate :=
  let p := 0 in
  let p := if val =? 0 then Z.lor p PsEQ else p in
  let p := if 0 <? val then Z.lor p PsGT else p in
  let p := if val <? 0 then Z.lor p PsLT else p in
  set_PSwd p st.

(** ** [Execute()] *)

Definition next (st : mstate) : mstate := set_Pc (s32 (Pc st + 1)) st.

(** [Regm[dest] = v; SetPSwd(Regm[dest]); ShowDiffs(); Pc++] *)
Definition assign (dest v : Z) (st : mstate) : mstate :=
  let st := set_reg dest v st in
  let st := SetPSwd (reg st dest) st in
  next (ShowDiffs st).

(** The wait instructions: [target] is the value to wait for, stored when the
    wait begins, and [ready] the test that ends it. *)
Definition wait_for (target src2 : Z) (ready : mstate -> bool) (st : mstate) : mstate :=
  let st := if waiting st =? 0 then set_wait 1 target src2 st else st in
  let st := if ready st then next (set_waiting 0 st) else st in
  ShowDiffs st.

Definition branch (taken : bool) (i : Instruction) (st : mstate) : mstate :=
  if taken then set_Pc (i_Src1 i) st else next st.

Definition shift_left (a n : Z) : option Z :=
  if (0 <=? n) && (n <? 32) then Some (s32 (Z.shiftl a n)) else None.

Definition shift_right (a n : Z) : option Z :=
  if (0 <=? n) && (n <? 32) then Some (Z.shiftr a n) else None.

(** The instruction (which WDOG changes) and the state afterwards. *)
Definition Execute (i : Instruction) (st : mstate) : option (Instruction * mstate) :=
  let n := i_Number i in
  let src1 := i_Src1 i in
  let src2 := reg st (i_Src2 i) in
  let ret st := Some (i, st) in
  let flag f := truthy (Z.land (PSwd st) f) in
  if n =? HALT then ret st
  else if n =? NOOP then ret (next st)
  else if n =? INT then ret (next st)
  else if n =? WEQV then ret (wait_for src1 (i_Src2 i) (fun st => reg st (i_Src2 i) =? src1) st)
  else if n =? WEQR then
    r ← reg_at st src1; ret (wait_for r (i_Src2 i) (fun st => reg st (i_Src2 i) =? r) st)
  else if n =? WRLV then ret (wait_for (s32 (src2 + src1)) (i_Src2 i) (fun st => waitr st <=? reg st (i_Src2 i)) st)
  else if n =? WRLR then
    (* the register is only read when the wait begins *)
    r ← (if waiting st =? 0 then reg_at st src1 else Some 0);
    ret (wait_for (s32 (src2 + r)) (i_Src2 i) (fun st => waitr st <=? reg st (i_Src2 i)) st)
  else if n =? WORV then ret (wait_for src1 (i_Src2 i) (fun st => truthy (Z.land (reg st (i_Src2 i)) src1)) st)
  else if n =? WORR then
    r ← reg_at st src1; ret (wait_for r (i_Src2 i) (fun st => truthy (Z.land (reg st (i_Src2 i)) r)) st)
  else if n =? MOVV then ret (assign (i_Dest i) src1 st)
  else if n =? MOVR then r ← reg_at st src1; ret (assign (i_Dest i) r st)
  else if n =? MOVIR then
    let irg := reg st GREGS in
    if (0 <=? irg) && (irg <? REGS) then ret (assign (i_Dest i) (reg st irg) st) else ret (next st)
  else if n =? MOVRI then
    let irg := reg st GREGS in
    if (0 <=? irg) && (irg <? REGS) then ret (assign irg (reg st (i_Dest i)) st) else ret (next st)
  else if n =? ADDR then r ← reg_at st src1; ret (assign (i_Dest i) (s32 (r + src2)) st)
  else if n =? SUBR then r ← reg_at st src1; ret (assign (i_Dest i) (s32 (src2 - r)) st)
  else if n =? LORR then r ← reg_at st src1; ret (assign (i_Dest i) (Z.lor src2 r) st)
  else if n =? ANDR then r ← reg_at st src1; ret (assign (i_Dest i) (Z.land src2 r) st)
  else if n =? XORR then r ← reg_at st src1; ret (assign (i_Dest i) (Z.lxor src2 r) st)
  else if n =? LSR then r ← reg_at st src1; v ← shift_left src2 r; ret (assign (i_Dest i) v st)
  else if n =? RSR then r ← reg_at st src1; v ← shift_right src2 r; ret (assign (i_Dest i) v st)
  else if n =? ADDV then ret (assign (i_Dest i) (s32 (src2 + src1)) st)
  else if n =? SUBV then ret (assign (i_Dest i) (s32 (src2 - src1)) st)
  else if n =? LORV then ret (assign (i_Dest i) (Z.lor src2 src1) st)
  else if n =? ANDV then ret (assign (i_Dest i) (Z.land src2 src1) st)
  else if n =? XORV then ret (assign (i_Dest i) (Z.lxor src2 src1) st)
  else if n =? LSV then v ← shift_left src2 src1; ret (assign (i_Dest i) v st)
  else if n =? RSV then v ← shift_right src2 src1; ret (assign (i_Dest i) v st)
  else if n =? WDOG then Some (Instr (i_Dest i) (i_Src2 i) (u8 (n + 1)) (i_Crc i) src1, next st)
  else if n =? JMP then ret (set_Pc src1 st)
  else if n =? BEQ then ret (branch (flag PsEQ) i st)
  else if n =? BNE then ret (branch (negb (flag PsEQ)) i st)
  else if n =? BLT then ret (branch (flag PsLT) i st)
  else if n =? BGT then ret (branch (flag PsGT) i st)
  else if n =? BLE then ret (branch (flag PsEQ || flag PsLT) i st)
  else if n =? BGE then ret (branch (flag PsEQ || flag PsGT) i st)
  else if n =? BCR then ret (branch (flag PsCR) i st)
  else ret st.

(** ** [Emulate()]: executing at the program counter *)

Definition set_program (l : list Instruction) (p : ProgramBuf) : ProgramBuf :=
  Program_buf (LoadAddress p) (InstructionCount p) l.

(** One round of the execution loop: [Execute(&Program[Pc - LoadAddress])]. *)
Definition exec_step (p : ProgramBuf) (st : mstate) : option (ProgramBuf * mstate) :=
  let pc := s32 (Pc st - LoadAddress p) in
  if (pc <? 0) || (Z.of_nat (length (Program p)) <=? pc) then None else
  i ← Program p !! Z.to_nat pc;
  '(i', st') ← Execute i st;
  Some (set_program (<[Z.to_nat pc := i']> (Program p)) p, set_shown (regm st') [] st').

Fixpoint exec_steps (n : nat) (p : ProgramBuf) (st : mstate) : option (ProgramBuf * mstate) :=
  match n with
  | O => Some (p, st)
  | S n => '(p, st) ← exec_step p st; exec_steps n p st
  end.

(** ** Editing registers

    The commands are lines of input, each with its end; when the input is
    exhausted the emulator waits, which ends a run here.  The result is the
    state and the lines not consumed. *)

Fixpoint EditRegs (lines : list text) (r min max : Z) (st : mstate) : option (mstate * list text) :=
  if (r <? 0) || (REGS <=? r) then None else
  match lines with
  | [] => Some (st, [])
  | ln :: lines =>
      let c := default 0 (head ln) in
      let edit cp :=
        let '(val, ep) := strtoul cp in
        if bool_decide (cp = ep) then st
        else let st := set_shown (<[Z.to_nat r := s32 val]> (regm st)) (Dfs st) st in
             set_reg r (s32 val) st in
      if c =? 46 (* . *) then Some (st, lines)
      else if c =? 47 (* / *) then
        let cp := tail ln in
        let '(v, ep) := strtoul cp in
        let trv := u32 (v + min) in
        if negb (bool_decide (cp = ep)) then
          EditRegs lines (if (trv <? max) && (min <=? trv) then trv else r) min max st
        else if Nat.ltb 1 (length ln) then
          let trv := StringToReg cp in
          EditRegs lines (if (trv <? max) && (min <=? trv) then trv else r) min max st
        else EditRegs lines r min max (edit cp)
      else if c =? NL then EditRegs lines (if max <=? r + 1 then min else r + 1) min max st
      else EditRegs lines r min max (edit ln)
  end.

Definition EditGlobalReg (lines : list text) (r : Z) (st : mstate) : option (mstate * list text) :=
  if GREGS <=? r then Some (st, lines) else EditRegs lines r 0 GREGS st.

Definition EditLocalReg (lines : list text) (r : Z) (st : mstate) : option (mstate * list text) :=
  if (REGS <=? r) || (r <? GREGS) then Some (st, lines) else EditRegs lines r GREGS REGS st.

(** ** The command loop of [Emulate()] *)

Record estate := Estate {
  e_i : Z;             (* the address listed *)
  e_exc : Z;           (* executing *)
  e_p : ProgramBuf;
  e_m : mstate;
}.

Definition in_program (p : ProgramBuf) (pc : Z) : bool :=
  (LoadAddress p <=? u32 pc) && (u32 pc <? u32 (LoadAddress p + InstructionCount p)).

(** One command: the state, the lines left and whether the emulator exits. *)
Definition emu_command (ln : text) (lines : list text) (e : estate) : option (estate * list text * bool) :=
  let '(Estate i exc p m) := e in
  if Z.of_nat (length (Program p)) <=? i then None else
  let c := default 0 (head ln) in
  let cp := tail ln in
  let '(arg, ep) := strtoul cp in
  match atomhash c with
  | Bit => if exc =? 0 then Some (e, lines, true) else Some (Estate i 0 p m, lines, false)
  | Seperator =>
      if c =? NL then
        if exc =? 0 then
          let i := i + 1 in
          Some (Estate (if InstructionCount p <=? i then 0 else i) exc p m, lines, false)
        else '(p, m) ← exec_step p m; Some (Estate i exc p m, lines, false)
      else Some (e, lines, false)
  | Alpha =>
      if c =? 120 (* x *) then
        let cnt := s32 arg in
        let cnt := if cnt <=? 0 then 1 else cnt in
        '(p, m) ← exec_steps (Z.to_nat cnt) p m; Some (Estate i 1 p m, lines, false)
      else if c =? 112 (* p *) then
        let pc := s32 arg in
        if in_program p pc
        then Some (Estate i exc p (set_Pc pc (set_wait (waiting m) 0 (regwa m) m)), lines, false)
        else Some (e, lines, false)
      else if c =? 103 (* g *) then
        '(m, lines) ← EditGlobalReg lines (s32 arg) m; Some (Estate i exc p m, lines, false)
      else if c =? 108 (* l *) then
        '(m, lines) ← EditLocalReg lines (s32 (arg + GREGS)) m; Some (Estate i exc p m, lines, false)
      else Some (e, lines, false)
  | Operator =>
      if c =? 47 (* / *) then
        let pc := s32 arg in
        if negb (bool_decide (cp = ep)) && in_program p pc
        then Some (Estate (s32 (pc - LoadAddress p)) exc p m, lines, false)
        else Some (e, lines, false)
      else Some (e, lines, false)
  | _ => Some (e, lines, false)
  end.

(** The [while] loop, with one unit of fuel per line of input. *)
Fixpoint emu_loop (fuel : nat) (lines : list text) (e : estate) : option estate :=
  match fuel, lines with
  | S fuel, ln :: lines =>
      '(e, lines, exit) ← emu_command ln lines e;
      if exit : bool then Some e else emu_loop fuel lines e
  | _, _ => Some e
  end.

Definition Emulate (lines : list text) (p : ProgramBuf) (m : mstate) : option estate :=
  emu_loop (length lines) lines (Estate 0 0 p (set_Pc (s32 (LoadAddress p)) m)).
