(* ===== verification/MttEmuInv.v ===== *)
(** * The MTT emulator stays inside its arrays and follows the flags

    A checker for programs ([program_safe]) under which every input to the
    emulator is defined; conditional branches against the value computed
    before them; the relative waits. *)

From stdpp Require Import strings.
From S2P Require Import Prelude MttIsa MttEmu.

(** ** The machine's states *)

Definition s32r (z : Z) : Prop := - 2 ^ 31 <= z < 2 ^ 31.

Lemma s32r_s32 z : s32r (s32 z).
Proof. apply s32_range. Qed.

Lemma s32r_sign z : s32r z <-> Z.shiftr z 31 = 0 \/ Z.shiftr z 31 = -1.
Proof.
  unfold s32r. rewrite Z.shiftr_div_pow2 by lia. change (2 ^ 31) with 2147483648.
  pose proof (Z.div_mod z 2147483648). pose proof (Z.mod_pos_bound z 2147483648). lia.
Qed.

Lemma s32r_land a b : s32r a -> s32r b -> s32r (Z.land a b).
Proof. rewrite !s32r_sign, Z.shiftr_land. by intros [-> | ->] [-> | ->]; auto. Qed.

Lemma s32r_lor a b : s32r a -> s32r b -> s32r (Z.lor a b).
Proof. rewrite !s32r_sign, Z.shiftr_lor. by intros [-> | ->] [-> | ->]; auto. Qed.

Lemma s32r_lxor a b : s32r a -> s32r b -> s32r (Z.lxor a b).
Proof. rewrite !s32r_sign, Z.shiftr_lxor. by intros [-> | ->] [-> | ->]; auto. Qed.

Lemma s32r_shiftr a n : 0 <= n -> s32r a -> s32r (Z.shiftr a n).
Proof.
  intros Hn. unfold s32r. rewrite Z.shiftr_div_pow2 by done. intros [Hl Hu].
  assert (0 < 2 ^ n) by (apply Z.pow_pos_nonneg; lia).
  split; [apply Z.div_le_lower_bound; nia|apply Z.div_lt_upper_bound; nia].
Qed.

Record mstate_ok (st : mstate) : Prop := {
  mo_regs : length (Regm st) = 256%nat;
  mo_range : Forall s32r (Regm st);
  mo_flags : PSwd st ∈ [0; PsEQ; PsLT; PsGT];
  mo_pc : s32r (Pc st);
}.

Lemma reg_range st r : mstate_ok st -> s32r (reg st r).
Proof.
  intros Hs. unfold reg. destruct (nth_in_or_default (Z.to_nat r) (Regm st) 0) as [Hin| ->];
    [|unfold s32r; lia].
  pose proof (mo_range _ Hs) as Hr. rewrite Forall_forall in Hr. apply Hr. by apply list_elem_of_In.
Qed.

Lemma reg_set_reg st r r' v :
  mstate_ok st -> 0 <= r < 256 -> 0 <= r' -> reg (set_reg r v st) r' = if r =? r' then v else reg st r'.
Proof.
  intros Hs Hr Hr'. unfold reg, set_reg. simpl. rewrite !nth_lookup.
  destruct (Z.eqb_spec r r') as [->|Hne].
  - rewrite list_lookup_insert_eq; [done|]. rewrite (mo_regs _ Hs). lia.
  - rewrite list_lookup_insert_ne by lia. done.
Qed.

Lemma set_reg_ok r v st : mstate_ok st -> s32r v -> mstate_ok (set_reg r v st).
Proof.
  intros [L R F P] Hv. split; simpl; try done.
  - by rewrite length_insert.
  - by apply Forall_insert.
Qed.

Lemma SetPSwd_ok v st : mstate_ok st -> mstate_ok (SetPSwd v st).
Proof.
  intros [L R F P]. split; try done. unfold SetPSwd. simpl.
  destruct (Z.eqb_spec v 0), (Z.ltb_spec 0 v), (Z.ltb_spec v 0); simpl; try lia;
    rewrite !elem_of_cons; auto.
Qed.

Lemma ShowDiffs_ok st : mstate_ok st -> mstate_ok (ShowDiffs st).
Proof. by intros [L R F P]. Qed.

Lemma set_Pc_ok pc st : mstate_ok st -> s32r pc -> mstate_ok (set_Pc pc st).
Proof. by intros [L R F P] Hp. Qed.

Lemma next_ok st : mstate_ok st -> mstate_ok (next st).
Proof. intros. apply set_Pc_ok; [done|apply s32r_s32]. Qed.

Lemma assign_ok d v st : mstate_ok st -> s32r v -> mstate_ok (assign d v st) /\ Pc (assign d v st) = s32 (Pc st + 1).
Proof.
  intros Hs Hv. split; [|done]. unfold assign. apply next_ok, ShowDiffs_ok, SetPSwd_ok. by apply set_reg_ok.
Qed.

Lemma wait_for_ok t r f st :
  mstate_ok st -> mstate_ok (wait_for t r f st) /\
  (Pc (wait_for t r f st) = Pc st \/ Pc (wait_for t r f st) = s32 (Pc st + 1)).
Proof.
  intros Hs. unfold wait_for.
  set (st1 := if waiting st =? 0 then set_wait 1 t r st else st).
  assert (mstate_ok st1 /\ Pc st1 = Pc st) as [H1 P1].
  { unfold st1. destruct (waiting st =? 0); [|done]. by destruct Hs. }
  destruct (f st1); [|split; [by apply ShowDiffs_ok|by left]].
  split; [|right; simpl; by rewrite P1]. apply ShowDiffs_ok, next_ok. by destruct H1.
Qed.

(** ** Where an instruction may lead *)

Definition takes (n : Z) (l : list Z) : bool := bool_decide (n ∈ l).

Definition waits : list Z := [WEQV; WEQR; WRLV; WRLR; WORV; WORR].
Definition branches : list Z := [BEQ; BNE; BLT; BGT; BLE; BGE; BCR].
Definition register_src1 : list Z := [WEQR; WRLR; WORR; MOVR; ADDR; SUBR; LORR; ANDR; XORR].

Definition known (n : Z) : bool := takes n (op_Number <$> InstructionSet).

Definition pc_after (i : Instruction) (pc : Z) : list Z :=
  let n := i_Number i in
  if negb (known n) || (n =? HALT) then [pc]
  else if n =? JMP then [i_Src1 i]
  else if takes n branches then [i_Src1 i; s32 (pc + 1)]
  else if takes n waits then [pc; s32 (pc + 1)]
  else [s32 (pc + 1)].

(** The operand is a register or a shift count that C defines; a shift by a
    register is never accepted. *)
Definition operand_check (i : Instruction) : bool :=
  let n := i_Number i in
  if takes n register_src1 then (0 <=? i_Src1 i) && (i_Src1 i <? REGS)
  else if takes n [LSV; RSV] then (0 <=? i_Src1 i) && (i_Src1 i <? 32)
  else negb (takes n [LSR; RSR]).

Definition executes_to (i : Instruction) (st : mstate) : Prop :=
  exists i' st', Execute i st = Some (i', st') /\ mstate_ok st' /\ Pc st' ∈ pc_after i (Pc st) /\
    (i' = i \/ i' = Instr (i_Dest i) (i_Src2 i) 0x35 (i_Crc i) (i_Src1 i)).

Lemma executes_ret i st st' :
  Execute i st = Some (i, st') -> mstate_ok st' -> Pc st' ∈ pc_after i (Pc st) -> executes_to i st.
Proof. intros. exists i, st'. auto. Qed.

Lemma reg_at_ok st r : (0 <=? r) && (r <? REGS) = true -> reg_at st r = Some (reg st r).
Proof. unfold reg_at. by intros ->. Qed.

(** One branch of [Execute()]: [assign], [wait_for], a step or a jump. *)
Ltac exec_result :=
  eexists _, _; split; [reflexivity|];
  match goal with
  | |- mstate_ok (assign ?d ?v ?st) /\ _ =>
      let H := fresh in
      assert (mstate_ok (assign d v st) /\ Pc (assign d v st) = s32 (Pc st + 1)) as H;
      [apply assign_ok; [assumption|eauto using s32r_s32, s32r_land, s32r_lor, s32r_lxor]
      |split_and!; [apply H|rewrite (proj2 H); apply list_elem_of_here|by left]]
  | |- mstate_ok (wait_for ?t ?r ?f ?st) /\ _ =>
      let H := fresh in
      pose proof (wait_for_ok t r f st ltac:(assumption)) as H;
      split_and!; [apply H| |by left];
      destruct (proj2 H) as [-> | ->]; [apply list_elem_of_here|apply list_elem_of_further, list_elem_of_here]
  | |- mstate_ok (branch ?b ?i ?st) /\ _ =>
      unfold branch; destruct b;
      [split_and!; [by apply set_Pc_ok|apply list_elem_of_here|by left]
      |split_and!; [by apply next_ok|apply list_elem_of_further, list_elem_of_here|by left]]
  | |- mstate_ok (next ?st) /\ _ =>
      split_and!; [by apply next_ok|apply list_elem_of_here|auto]
  | |- mstate_ok (set_Pc _ _) /\ _ =>
      split_and!; [by apply set_Pc_ok|apply list_elem_of_here|by left]
  | |- mstate_ok _ /\ _ => split_and!; [done|apply list_elem_of_here|by left]
  end.

Lemma shift_left_ok a s : (0 <=? s) && (s <? 32) = true -> exists v, shift_left a s = Some v /\ s32r v.
Proof. intros H. unfold shift_left. rewrite H. eexists. split; [done|apply s32r_s32]. Qed.

Lemma shift_right_ok a s :
  s32r a -> (0 <=? s) && (s <? 32) = true -> exists v, shift_right a s = Some v /\ s32r v.
Proof.
  intros Ha H. unfold shift_right. rewrite H. eexists. split; [done|].
  apply andb_prop in H as [H _]. apply Z.leb_le in H. by apply s32r_shiftr.
Qed.

(** An opcode that is none of the table is not known. *)
Lemma not_known n : Forall (fun o => n <> op_Number o) InstructionSet -> known n = false.
Proof.
  intros Hf. unfold known, takes. apply bool_decide_eq_false. intros (o & -> & Ho)%list_elem_of_fmap.
  rewrite Forall_forall in Hf. by apply (Hf o Ho).
Qed.

Lemma execute_ok i st :
  mstate_ok st -> inst_ok i -> operand_check i = true -> executes_to i st.
Proof.
  intros Hs (Hd & Hs2 & _ & _ & Hs1) Ho. destruct i as [d s2 n c s1]. simpl in *.
  pose proof (fun r => reg_range st r Hs) as Hreg. fold (s32r s1) in Hs1.
  unfold executes_to, Execute. cbn [i_Number i_Src1 i_Src2 i_Dest i_Crc].
  repeat match goal with
  | |- context [if n =? ?X then _ else _] =>
      destruct (Z.eqb_spec n X);
      [subst n; repeat first
         [ rewrite (reg_at_ok st s1 Ho); cbn [mbind option_bind]
         | progress (destruct (shift_left_ok (reg st s2) s1 Ho) as (v & -> & Hv); cbn [mbind option_bind])
         | progress (destruct (shift_right_ok (reg st s2) s1 (Hreg s2) Ho) as (v & -> & Hv); cbn [mbind option_bind])];
       repeat case_match; first [discriminate Ho | exec_result]|]
  end.
  assert (known n = false) as Hk by (apply not_known; repeat (apply Forall_cons; split; [done|]); apply Forall_nil_2).
  eexists _, _. split; [reflexivity|]. split_and!; [done| |by left].
  unfold pc_after. cbn [i_Number]. rewrite Hk. apply list_elem_of_here.
Qed.

(** ** Programs that stay inside themselves *)

Definition inst_check (load count k : Z) (i : Instruction) : bool :=
  operand_check i && forallb (fun pc => (load <=? pc) && (pc <? load + count)) (pc_after i (load + k)).

(** A program that fits the positive [int]s, whose operands are in range and
    whose every instruction leads to an address of the program. *)
Record program_safe (p : ProgramBuf) : Prop := {
  ps_load : 0 <= LoadAddress p;
  ps_fits : LoadAddress p + InstructionCount p <= 2 ^ 31;
  ps_count : InstructionCount p = Z.of_nat (length (Program p));
  ps_insts : forall k i, Program p !! k = Some i ->
    inst_ok i /\ inst_check (LoadAddress p) (InstructionCount p) (Z.of_nat k) i = true;
}.

Definition pc_inside (p : ProgramBuf) (st : mstate) : Prop :=
  LoadAddress p <= Pc st < LoadAddress p + InstructionCount p.

Definition same_layout (p p' : ProgramBuf) : Prop :=
  LoadAddress p' = LoadAddress p /\ InstructionCount p' = InstructionCount p.

Lemma check_succ load count k i pc :
  inst_check load count k i = true -> pc ∈ pc_after i (load + k) -> load <= pc < load + count.
Proof.
  unfold inst_check. intros [_ H]%andb_prop Hin. rewrite forallb_forall in H.
  apply list_elem_of_In in Hin. apply H in Hin. apply andb_prop in Hin as [H1 H2].
  apply Z.leb_le in H1. apply Z.ltb_lt in H2. lia.
Qed.

(** The instruction WDOG leaves behind is not known and leads to itself. *)
Lemma check_wdog load count k i :
  0 <= k < count ->
  inst_check load count k (Instr (i_Dest i) (i_Src2 i) 0x35 (i_Crc i) (i_Src1 i)) = true.
Proof.
  intros Hk. unfold inst_check. set (i' := Instr _ _ _ _ _).
  assert (operand_check i' = true) as -> by reflexivity.
  assert (pc_after i' (load + k) = [load + k]) as -> by reflexivity. cbn [forallb andb].
  rewrite (proj2 (Z.leb_le _ _)), (proj2 (Z.ltb_lt _ _)) by lia. done.
Qed.

Lemma exec_step_safe p st :
  program_safe p -> mstate_ok st -> pc_inside p st ->
  exists p' st', exec_step p st = Some (p', st') /\
    program_safe p' /\ same_layout p p' /\ mstate_ok st' /\ pc_inside p st'.
Proof.
  intros Hp Hs Hpc. pose proof Hp as [Hl Hf Hc Hi]. unfold pc_inside in *. unfold exec_step.
  rewrite s32_id by lia. set (k := Z.to_nat (Pc st - LoadAddress p)).
  rewrite (proj2 (Z.ltb_ge _ _)), (proj2 (Z.leb_gt _ _)) by lia. cbn [orb].
  destruct (lookup_lt_is_Some_2 (Program p) k) as [i Ei]; [lia|]. rewrite Ei. cbn [mbind option_bind].
  destruct (Hi k i Ei) as [Hio Hck]. pose proof Hck as [Ho _]%andb_prop.
  destruct (execute_ok i st Hs Hio Ho) as (i' & st' & -> & Hs' & Hpc' & Hi'). cbn [mbind option_bind].
  eexists _, _. split; [reflexivity|]. split; [|split; [done|split; [by destruct Hs'|]]].
  - assert (forall i2, inst_ok i2 -> inst_check (LoadAddress p) (InstructionCount p) (Z.of_nat k) i2 = true ->
      program_safe (set_program (<[k:=i2]> (Program p)) p)) as Hset.
    { intros i2 H1 H2. split; simpl; [done|done|by rewrite length_insert|].
      intros k' j [(-> & <- & _)|[_ ?]]%list_lookup_insert_Some; [done|by apply Hi]. }
    destruct Hi' as [-> | ->]; apply Hset; [done|done| |apply check_wdog; lia].
    unfold inst_ok in *. simpl in *. lia.
  - simpl. apply (check_succ _ _ (Z.of_nat k) i); [done|].
    replace (LoadAddress p + Z.of_nat k) with (Pc st) by lia. done.
Qed.

Lemma exec_steps_safe n p st :
  program_safe p -> mstate_ok st -> pc_inside p st ->
  exists p' st', exec_steps n p st = Some (p', st') /\
    program_safe p' /\ same_layout p p' /\ mstate_ok st' /\ pc_inside p st'.
Proof.
  revert p st. induction n as [|n IH]; intros p st Hp Hs Hpc; [by exists p, st|]. cbn [exec_steps].
  destruct (exec_step_safe p st Hp Hs Hpc) as (p1 & st1 & -> & Hp1 & [L1 C1] & Hs1 & Hpc1). cbn [mbind option_bind].
  destruct (IH p1 st1 Hp1 Hs1) as (p2 & st2 & -> & Hp2 & [L2 C2] & Hs2 & Hpc2).
  { unfold pc_inside in *. by rewrite L1, C1. }
  exists p2, st2. split_and!; try done; [split; congruence|]. unfold pc_inside in *. by rewrite L1, C1 in Hpc2.
Qed.

(** ** The commands *)

Lemma edit_ok r v st :
  mstate_ok st -> mstate_ok (set_reg r (s32 v) (set_shown (<[Z.to_nat r := s32 v]> (regm st)) (Dfs st) st)).
Proof. intros Hs. apply set_reg_ok; [by destruct Hs|apply s32r_s32]. Qed.

Lemma EditRegs_safe lines r min max st :
  mstate_ok st -> 0 <= min -> min <= r < max -> max <= REGS ->
  exists st' lines', EditRegs lines r min max st = Some (st', lines') /\ mstate_ok st' /\ Pc st' = Pc st /\
    (length lines' <= length lines)%nat /\ lines' `suffix_of` lines.
Proof.
  unfold REGS. revert r st. induction lines as [|ln lines IH]; intros r st Hs Hmin Hr Hmax; simpl;
    unfold REGS; rewrite (proj2 (Z.ltb_ge r 0)), (proj2 (Z.leb_gt 256 r)) by lia; simpl.
  { exists st, []. split_and!; try done. }
  assert (forall r' st', mstate_ok st' -> Pc st' = Pc st -> min <= r' < max ->
    exists st2 lines', EditRegs lines r' min max st' = Some (st2, lines') /\ mstate_ok st2 /\ Pc st2 = Pc st /\
      (length lines' <= S (length lines))%nat /\ lines' `suffix_of` (ln :: lines)) as Hgo.
  { intros r' st' H1 H2 H3. destruct (IH r' st' H1 Hmin H3 Hmax) as (st2 & l & E & ? & ? & ? & Hsuf).
    exists st2, l. split_and!; [done|done|congruence|lia|by apply suffix_cons_r]. }
  set (c := default 0 (head ln)).
  assert (forall cp st', st' = (let '(val, ep) := strtoul cp in if bool_decide (cp = ep) then st
     else set_reg r (s32 val) (set_shown (<[Z.to_nat r := s32 val]> (regm st)) (Dfs st) st)) ->
     mstate_ok st' /\ Pc st' = Pc st) as Hedit.
  { intros cp st' ->. destruct (strtoul cp) as [v ep]. destruct (bool_decide _); [done|].
    split; [by apply edit_ok|done]. }
  destruct (c =? 46).
  { exists st, lines. split_and!; try done; [lia|]. apply suffix_cons_r, suffix_nil || by exists [ln]. }
  destruct (c =? 47); [destruct (strtoul (tail ln)) as [v ep] eqn:Ev; destruct (bool_decide _) eqn:Eb; simpl;
    [destruct (Nat.ltb 1 (length ln))|]|destruct (c =? NL)].
  - apply Hgo; [done|done|]. destruct (Z.ltb_spec (StringToReg (tail ln)) max), (Z.leb_spec min (StringToReg (tail ln)));
      simpl; lia.
  - apply Hgo; [done|done|done].
  - apply Hgo; [done|done|]. destruct (Z.ltb_spec (u32 (v + min)) max), (Z.leb_spec min (u32 (v + min))); simpl; lia.
  - apply Hgo; [done|done|]. destruct (Z.leb_spec max (r + 1)); lia.
  - destruct (Hedit ln _ eq_refl) as [H1 H2]. by apply Hgo.
Qed.

(** The [g] command does not refuse a negative register number. *)
Definition good_line (ln : text) : Prop :=
  default 0 (head ln) = 103 -> 0 <= s32 (strtoul (tail ln)).1.

Record estate_ok (e : estate) : Prop := {
  eo_program : program_safe (e_p e);
  eo_machine : mstate_ok (e_m e);
  eo_pc : pc_inside (e_p e) (e_m e);
  eo_listed : 0 <= e_i e < InstructionCount (e_p e);
}.

Definition emu_next (e : estate) (lines : list text) (r : option (estate * list text * bool)) : Prop :=
  exists e' lines' exit, r = Some (e', lines', exit) /\ estate_ok e' /\ same_layout (e_p e) (e_p e') /\
    lines' `suffix_of` lines.

Lemma emu_next_same e lines e' exit :
  estate_ok e' -> same_layout (e_p e) (e_p e') -> emu_next e lines (Some (e', lines, exit)).
Proof. intros. by exists e', lines, exit. Qed.

Lemma in_program_inside p a :
  program_safe p -> in_program p (s32 a) = true ->
  LoadAddress p <= s32 a < LoadAddress p + InstructionCount p.
Proof.
  intros Hp [H1 H2]%andb_prop. apply Z.leb_le in H1. apply Z.ltb_lt in H2.
  destruct Hp as [Hl Hf Hc _]. rewrite (u32_id (_ + _)) in H2 by (unfold is_u32; lia).
  pose proof (s32_range a) as Hs. unfold u32 in *. destruct (Z.ltb_spec (s32 a) 0).
  - rewrite <- (Z_mod_plus_full _ 1), Z.mod_small in H2 by lia. lia.
  - rewrite Z.mod_small in H1, H2 by lia. lia.
Qed.

Lemma emu_exec e i exc lines n p m :
  e = Estate i exc p m -> estate_ok e ->
  forall exc', emu_next e lines
    ('(p', m') ← exec_steps n p m; Some (Estate i exc' p' m', lines, false)).
Proof.
  intros -> [Hp Hm Hpc Hi] exc'. simpl in *.
  destruct (exec_steps_safe n p m Hp Hm Hpc) as (p' & m' & -> & Hp' & [Hl Hc] & Hm' & Hpc'). cbn [mbind option_bind].
  apply emu_next_same; [|done]. split; simpl; try done; unfold pc_inside in *; by rewrite ?Hl, Hc.
Qed.

Lemma emu_edit e i exc p m min max r lines :
  e = Estate i exc p m -> estate_ok e -> 0 <= min -> min <= r < max -> max <= REGS ->
  emu_next e lines ('(m', lines') ← EditRegs lines r min max m; Some (Estate i exc p m', lines', false)).
Proof.
  intros -> [Hp Hm Hpc Hi] H0 H1 H2. simpl in *.
  destruct (EditRegs_safe lines r min max m Hm H0 H1 H2) as (m' & l' & -> & Hm' & E & _ & Hsuf). cbn [mbind option_bind].
  exists (Estate i exc p m'), l', false. split; [done|]. split; [|done]. split; simpl; try done.
  unfold pc_inside in *. by rewrite E.
Qed.

Lemma emu_command_safe ln lines e :
  estate_ok e -> good_line ln -> emu_next e lines (emu_command ln lines e).
Proof.
  intros He Hg. pose proof He as [Hp Hm Hpc Hi]. destruct e as [i exc p m]. cbn [e_p e_m e_i] in *.
  assert (emu_next (Estate i exc p m) lines (Some (Estate i exc p m, lines, false))) as Hstay
    by (by apply emu_next_same).
  unfold emu_command. pose proof (ps_count _ Hp) as Hc. rewrite (proj2 (Z.leb_gt _ i)) by lia.
  unfold good_line in Hg. destruct (strtoul (tail ln)) as [arg ep]. cbn [fst] in Hg.
  set (c := default 0 (head ln)) in *. destruct (atomhash c); try exact Hstay.
  - (* end of line *)
    destruct (c =? NL); [|exact Hstay]. destruct (exc =? 0).
    + apply emu_next_same; [|done]. split; simpl; try done. destruct (Z.leb_spec (InstructionCount p) (i + 1)); lia.
    + pose proof (emu_exec _ i exc lines 1 p m eq_refl He exc) as H. cbn [exec_steps] in H.
      destruct (exec_step p m) as [[p1 m1]|]; exact H.
  - (* go to an address *)
    destruct (c =? 47); [|exact Hstay]. destruct (negb _); [|exact Hstay]. cbn [andb].
    destruct (in_program p (s32 arg)) eqn:E; [|exact Hstay]. apply in_program_inside in E; [|done].
    apply emu_next_same; [|done]. split; simpl; try done.
    pose proof (ps_load _ Hp). pose proof (ps_fits _ Hp). rewrite s32_id by lia. lia.
  - (* letters *)
    destruct (c =? 120); [by apply (emu_exec _ i exc)|]. destruct (c =? 112).
    { destruct (in_program p (s32 arg)) eqn:E; [|exact Hstay]. apply in_program_inside in E; [|done].
      apply emu_next_same; [|done]. split; simpl; try done. destruct Hm. split; try done. apply s32_range. }
    destruct (Z.eqb_spec c 103) as [Hc3|].
    { specialize (Hg Hc3). unfold EditGlobalReg. destruct (Z.leb_spec GREGS (s32 arg)); [exact Hstay|].
      unfold GREGS in *. apply emu_edit; [done|done|lia|lia|unfold REGS; lia]. }
    destruct (c =? 108); [|exact Hstay]. unfold EditLocalReg, REGS, GREGS.
    destruct (Z.leb_spec 256 (s32 (arg + 224))), (Z.ltb_spec (s32 (arg + 224)) 224); try exact Hstay.
    apply emu_edit; [done|done|lia|lia|unfold REGS; lia].
  - (* . *)
    destruct (exc =? 0); by apply emu_next_same.
Qed.

Lemma emu_loop_safe fuel lines e :
  estate_ok e -> Forall good_line lines ->
  exists e', emu_loop fuel lines e = Some e' /\ estate_ok e' /\ same_layout (e_p e) (e_p e').
Proof.
  revert lines e. induction fuel as [|fuel IH]; intros lines e He Hl; [by exists e|].
  destruct lines as [|ln lines]; [by exists e|]. apply Forall_cons in Hl as [Hln Hl]. cbn [emu_loop].
  destruct (emu_command_safe ln lines e He Hln) as (e1 & l1 & exit & -> & He1 & [L1 C1] & Hsuf).
  cbn [mbind option_bind]. destruct exit; [by exists e1|].
  destruct (IH l1 e1 He1) as (e2 & -> & He2 & [L2 C2]).
  { destruct Hsuf as [k ->]. by apply Forall_app in Hl as [_ Hl]. }
  exists e2. split_and!; [done|done|]. split; congruence.
Qed.

(** C22: whatever is typed at the emulator (a negative [g] command apart), a
    program whose operands and successors are in range never takes it outside
    its arrays: every command is defined, the program counter stays inside the
    program and the registers inside 32 bits, even though WDOG rewrites the
    program. *)
Theorem emulator_safe lines p m :
  program_safe p -> 0 < InstructionCount p -> mstate_ok m -> Forall good_line lines ->
  exists e, Emulate lines p m = Some e /\ mstate_ok (e_m e) /\ pc_inside p (e_m e) /\
    LoadAddress (e_p e) = LoadAddress p /\ InstructionCount (e_p e) = InstructionCount p.
Proof.
  intros Hp Hc Hm Hl. pose proof (ps_load _ Hp). pose proof (ps_fits _ Hp).
  destruct (emu_loop_safe (length lines) lines (Estate 0 0 p (set_Pc (s32 (LoadAddress p)) m)))
    as (e & He & [He1 He2 He3 _] & [Hl1 Hc1]); [|done|].
  - split; simpl; [done|apply set_Pc_ok; [done|apply s32r_s32]| |lia].
    unfold pc_inside. simpl. rewrite s32_id by lia. lia.
  - cbn [e_p] in *. exists e. unfold pc_inside in *. rewrite Hl1, Hc1 in He3. done.
Qed.

(** ** Conditional branches *)

(** The instructions that write [Dest] and set the flags from it. *)
Definition flag_setters : list Z :=
  [MOVV; MOVR; ADDR; SUBR; LORR; ANDR; XORR; LSR; RSR; ADDV; SUBV; LORV; ANDV; XORV; LSV; RSV].

Definition branch_condition (n v : Z) : bool :=
  if n =? BEQ then v =? 0
  else if n =? BNE then negb (v =? 0)
  else if n =? BLT then v <? 0
  else if n =? BGT then 0 <? v
  else if n =? BLE then v <=? 0
  else if n =? BGE then 0 <=? v
  else false.

Lemma assign_flags d v st :
  mstate_ok st -> 0 <= d < 256 ->
  reg (assign d v st) d = v /\
  PSwd (assign d v st) = (if v =? 0 then PsEQ else if v <? 0 then PsLT else PsGT).
Proof.
  intros Hs Hd. unfold assign.
  assert (reg (set_reg d v st) d = v) as Hr by (rewrite reg_set_reg by (done || lia); by rewrite Z.eqb_refl).
  split; [exact Hr|]. cbn -[reg set_reg]. rewrite Hr.
  destruct (Z.eqb_spec v 0), (Z.ltb_spec 0 v), (Z.ltb_spec v 0); try lia; reflexivity.
Qed.

Lemma flag_setter_assigns i st i' st' :
  i_Number i ∈ flag_setters -> Execute i st = Some (i', st') -> exists v, st' = assign (i_Dest i) v st.
Proof.
  destruct i as [d s2 n c s1]. cbn [i_Number i_Dest]. intros Hn E.
  repeat (apply elem_of_cons in Hn as [->|Hn]; [cbn -[assign reg reg_at shift_left shift_right s32] in E;
    repeat match type of E with
    | context [reg_at ?s ?r] => destruct (reg_at s r); cbn -[assign reg shift_left shift_right s32] in E; [|done]
    | context [shift_left ?a ?b] => destruct (shift_left a b); cbn -[assign reg s32] in E; [|done]
    | context [shift_right ?a ?b] => destruct (shift_right a b); cbn -[assign reg s32] in E; [|done]
    end; injection E as _ <-; by eexists|]).
  by apply not_elem_of_nil in Hn.
Qed.

(** The test of a branch on the status word. *)
Definition branch_test (n ps : Z) : bool :=
  let flag f := truthy (Z.land ps f) in
  if n =? BEQ then flag PsEQ
  else if n =? BNE then negb (flag PsEQ)
  else if n =? BLT then flag PsLT
  else if n =? BGT then flag PsGT
  else if n =? BLE then flag PsEQ || flag PsLT
  else if n =? BGE then flag PsEQ || flag PsGT
  else flag PsCR.

Lemma execute_branch b st :
  i_Number b ∈ branches -> Execute b st = Some (b, branch (branch_test (i_Number b) (PSwd st)) b st).
Proof.
  destruct b as [bd bs2 n bc t]. cbn [i_Number]. intros Hb.
  repeat (apply elem_of_cons in Hb as [->|Hb]; [reflexivity|]). by apply not_elem_of_nil in Hb.
Qed.

Lemma branch_test_condition n v :
  branch_test n (if v =? 0 then PsEQ else if v <? 0 then PsLT else PsGT) = branch_condition n v.
Proof.
  unfold branch_test, branch_condition.
  destruct (n =? BEQ), (n =? BNE), (n =? BLT), (n =? BGT), (n =? BLE), (n =? BGE);
    destruct (Z.eqb_spec v 0), (Z.ltb_spec v 0), (Z.ltb_spec 0 v), (Z.leb_spec v 0), (Z.leb_spec 0 v);
    try lia; reflexivity.
Qed.

(** a conditional branch after an instruction that computes a value goes to
    its target exactly when that value satisfies the branch's condition, and
    to the next instruction otherwise; in particular the carry branch is never
    taken. *)
Lemma branch_follows_result i st i' st' b :
  mstate_ok st -> inst_ok i -> i_Number i ∈ flag_setters -> i_Number b ∈ branches ->
  Execute i st = Some (i', st') ->
  Execute b st' = Some (b, set_Pc (if branch_condition (i_Number b) (reg st' (i_Dest i))
                                   then i_Src1 b else s32 (Pc st' + 1)) st').
Proof.
  intros Hs (Hd & _) Hn Hb E. destruct (flag_setter_assigns i st i' st' Hn E) as [v ->].
  destruct (assign_flags (i_Dest i) v st Hs Hd) as [Hr Hf]. rewrite Hr.
  generalize dependent (assign (i_Dest i) v st). intros st' _ _ Hf.
  rewrite execute_branch, Hf, branch_test_condition by done. unfold branch. by destruct (branch_condition _ _).
Qed.

(** ** Relative waits *)

(** [vs] are the values the awaited register has at each execution. *)
Fixpoint run_wait (i : Instruction) (vs : list Z) (st : mstate) : option mstate :=
  match vs with
  | [] => Some st
  | v :: vs => '(_, st) ← Execute i (set_reg (i_Src2 i) v st); run_wait i vs st
  end.

(** Executing the wait once it has begun. *)
Lemma wait_round i v st :
  i_Number i ∈ [WRLV; WRLR] -> mstate_ok st -> inst_ok i -> s32r v -> waiting st = 1 ->
  exists st', Execute i (set_reg (i_Src2 i) v st) = Some (i, st') /\ mstate_ok st' /\
    (if waitr st <=? v then waiting st' = 0 /\ Pc st' = s32 (Pc st + 1)
     else waiting st' = 1 /\ Pc st' = Pc st /\ waitr st' = waitr st).
Proof.
  intros Hn Hs (_ & Hs2 & _) Hv Hw. set (st1 := set_reg (i_Src2 i) v st).
  assert (reg st1 (i_Src2 i) = v) as Hr
    by (unfold st1; rewrite reg_set_reg by (done || lia); by rewrite Z.eqb_refl).
  assert (mstate_ok st1) as Hs1 by (by apply set_reg_ok).
  assert (waiting st1 = 1) as Hw1 by done.
  assert (exists t, Execute i st1 = Some (i, wait_for t (i_Src2 i) (fun st => waitr st <=? reg st (i_Src2 i)) st1))
    as [t ->].
  { destruct i as [d s2 n c s1]. cbn [i_Number] in Hn.
    apply elem_of_cons in Hn as [->|Hn]; [eexists; reflexivity|]. apply list_elem_of_singleton in Hn as ->.
    exists (s32 (reg st1 s2 + 0)). unfold Execute. cbn [i_Number i_Src1 i_Src2]. rewrite Hw1. reflexivity. }
  eexists. split; [reflexivity|]. split; [by apply wait_for_ok|].
  unfold wait_for. rewrite Hw1. cbn [Z.eqb]. rewrite Hr. change (waitr st1) with (waitr st).
  destruct (waitr st <=? v); done.
Qed.

Lemma run_wait_app i vs ws st : run_wait i (vs ++ ws) st = (st1 ← run_wait i vs st; run_wait i ws st1).
Proof.
  revert st. induction vs as [|v vs IH]; intros st; [done|]. cbn [app run_wait].
  destruct (Execute i (set_reg (i_Src2 i) v st)) as [[i' st']|]; [|done]. cbn [mbind option_bind]. apply IH.
Qed.

Lemma wait_holds i vs st goal :
  i_Number i ∈ [WRLV; WRLR] -> mstate_ok st -> inst_ok i -> Forall s32r vs -> Forall (fun w => w < goal) vs ->
  waiting st = 1 -> waitr st = goal ->
  exists st', run_wait i vs st = Some st' /\ mstate_ok st' /\ waiting st' = 1 /\ waitr st' = goal /\ Pc st' = Pc st.
Proof.
  intros Hn Hs Hi Hr Hl Hw Hg. revert st Hs Hw Hg. induction vs as [|v vs IH]; intros st Hs Hw Hg; [by exists st|].
  apply Forall_cons in Hr as [Hv Hr]. apply Forall_cons in Hl as [Hlv Hl]. cbn [run_wait].
  destruct (wait_round i v st Hn Hs Hi Hv Hw) as (st1 & -> & Hs1 & H1). cbn [mbind option_bind].
  rewrite Hg, (proj2 (Z.leb_gt _ _) Hlv) in H1. destruct H1 as (Hw1 & Hp1 & Hg1).
  destruct (IH Hr Hl st1 Hs1 Hw1) as (st2 & -> & ? & ? & ? & Hp2); [congruence|]. exists st2. split_and!; congruence || done.
Qed.

Lemma wait_begins i v0 st inc :
  mstate_ok st -> inst_ok i -> waiting st = 0 -> s32r v0 -> 0 < inc -> s32r (v0 + inc) ->
  (i_Number i = WRLV /\ i_Src1 i = inc) \/
  (i_Number i = WRLR /\ 0 <= i_Src1 i < 256 /\ i_Src1 i <> i_Src2 i /\ reg st (i_Src1 i) = inc) ->
  exists st', Execute i (set_reg (i_Src2 i) v0 st) = Some (i, st') /\ mstate_ok st' /\
    waiting st' = 1 /\ waitr st' = v0 + inc /\ Pc st' = Pc st.
Proof.
  intros Hs (_ & Hs2 & _) Hw Hv Hinc Hgoal Hop. set (st1 := set_reg (i_Src2 i) v0 st).
  assert (mstate_ok st1) as Hs1 by (by apply set_reg_ok).
  assert (reg st1 (i_Src2 i) = v0) as Hr
    by (unfold st1; rewrite reg_set_reg by (done || lia); by rewrite Z.eqb_refl).
  assert (waiting st1 = 0) as Hw1 by done.
  assert (Execute i st1 = Some (i, wait_for (v0 + inc) (i_Src2 i) (fun st => waitr st <=? reg st (i_Src2 i)) st1)) as ->.
  { destruct i as [d s2 n c s1]. cbn [i_Number i_Src1 i_Src2] in *. unfold Execute. cbn [i_Number i_Src1 i_Src2].
    destruct Hop as [[-> ->]|(-> & H1 & Hne & Hi)].
    - rewrite Hr, (s32_id (v0 + inc)) by done. reflexivity.
    - assert (reg st1 s1 = inc) as Hi1
        by (unfold st1; rewrite reg_set_reg, (proj2 (Z.eqb_neq s2 s1)) by (done || lia); done).
      rewrite Hw1, Hr. cbn [Z.eqb]. rewrite (reg_at_ok st1 s1), Hi1 by (unfold REGS; lia). cbn [mbind option_bind].
      rewrite (s32_id (v0 + inc)) by done. reflexivity. }
  eexists. split; [reflexivity|]. split; [by apply wait_for_ok|].
  unfold wait_for. rewrite Hw1. cbn [Z.eqb]. 
  change (reg (set_wait 1 (v0 + inc) (i_Src2 i) st1) (i_Src2 i)) with (reg st1 (i_Src2 i)). rewrite Hr.
  cbn [set_wait waitr]. rewrite (proj2 (Z.leb_gt _ _)) by lia. done.
Qed.

(** a relative wait (WRLV, WRLR) stores its goal, the register's value plus
    the increment, when it is first executed; it then holds the program
    counter for as long as the register stays below the goal, whatever values
    it goes through, and the first value that reaches the goal ends the wait
    and moves on. *)
Lemma relative_wait i v0 vs v st inc :
  mstate_ok st -> inst_ok i -> waiting st = 0 -> Forall s32r (v0 :: vs ++ [v]) -> 0 < inc -> s32r (v0 + inc) ->
  (i_Number i = WRLV /\ i_Src1 i = inc) \/
  (i_Number i = WRLR /\ 0 <= i_Src1 i < 256 /\ i_Src1 i <> i_Src2 i /\ reg st (i_Src1 i) = inc) ->
  Forall (fun w => w < v0 + inc) vs -> v0 + inc <= v ->
  (exists st1, run_wait i (v0 :: vs) st = Some st1 /\ waiting st1 = 1 /\ waitr st1 = v0 + inc /\ Pc st1 = Pc st) /\
  (exists st2, run_wait i (v0 :: vs ++ [v]) st = Some st2 /\ waiting st2 = 0 /\ Pc st2 = s32 (Pc st + 1)).
Proof.
  intros Hs Hi Hw Hr Hinc Hgoal Hop Hlow Hv. apply Forall_cons in Hr as [Hr0 Hr]. apply Forall_app in Hr as [Hrs Hrv].
  apply Forall_cons in Hrv as [Hrv _].
  assert (i_Number i ∈ [WRLV; WRLR]) as Hn.
  { destruct Hop as [[-> _]|[-> _]]; [apply list_elem_of_here|apply list_elem_of_further, list_elem_of_here]. }
  destruct (wait_begins i v0 st inc Hs Hi Hw Hr0 Hinc Hgoal Hop) as (st1 & E1 & Hs1 & Hw1 & Hg1 & Hp1).
  destruct (wait_holds i vs st1 (v0 + inc) Hn Hs1 Hi Hrs Hlow Hw1 Hg1) as (st2 & E2 & Hs2 & Hw2 & Hg2 & Hp2).
  split.
  - exists st2. cbn [run_wait]. rewrite E1. cbn [mbind option_bind]. split_and!; congruence.
  - destruct (wait_round i v st2 Hn Hs2 Hi Hrv Hw2) as (st3 & E3 & _ & H3).
    rewrite Hg2, (proj2 (Z.leb_le _ _) Hv) in H3. exists st3. cbn [run_wait]. rewrite E1. cbn [mbind option_bind].
    rewrite run_wait_app, E2. cbn [mbind option_bind run_wait]. rewrite E3. cbn [mbind option_bind].
    split_and!; [done|apply H3|]. rewrite (proj2 H3). congruence.
Qed.

(** ** Concrete instances *)

(** Count LR1 down from 3: the loop is at 0x101. *)
Definition countdown : ProgramBuf :=
  Program_buf 0x100 4 [Instr 225 0 MOVV 0 3; Instr 225 225 SUBV 0 1; Instr 0 0 BNE 0 0x101; Instr 0 0 HALT 0 0].

Lemma countdown_safe : program_safe countdown.
Proof.
  split; [vm_compute; congruence|vm_compute; congruence|reflexivity|].
  intros k i Hk.
  do 4 (destruct k as [|k]; [injection Hk as <-; split; [unfold inst_ok; vm_compute; intuition congruence|vm_compute; reflexivity]|]).
  discriminate Hk.
Qed.

Lemma mstate_boot_ok : mstate_ok mstate_boot.
Proof.
  split; [reflexivity| |apply list_elem_of_here|unfold s32r; simpl; lia].
  apply Forall_replicate. unfold s32r. lia.
Qed.

Definition demo_input : list text :=
  [txt "x20" ++ [NL]; txt "l2" ++ [NL]; txt "-7" ++ [NL]; txt "." ++ [NL]; txt "p0x102" ++ [NL]; [NL]].

Lemma emulator_safe_witness : exists e, Emulate demo_input countdown mstate_boot = Some e /\ Pc (e_m e) = 0x103.
Proof.
  destruct (emulator_safe demo_input countdown mstate_boot countdown_safe ltac:(reflexivity) mstate_boot_ok)
    as (e & He & _).
  - repeat (apply Forall_cons; split; [intros Hc; vm_compute in Hc; congruence|]). apply Forall_nil_2.
  - exists e. split; [exact He|]. vm_compute in He. injection He as <-. reflexivity.
Defined.

Lemma branch_follows_result_witness :
  exists st', Execute (Instr 225 225 SUBV 0 1) (set_reg 225 1 mstate_boot) = Some (Instr 225 225 SUBV 0 1, st') /\
    Execute (Instr 0 0 BEQ 0 7) st' = Some (Instr 0 0 BEQ 0 7, set_Pc 7 st').
Proof.
  eexists. split; [reflexivity|].
  pose proof (branch_follows_result (Instr 225 225 SUBV 0 1) (set_reg 225 1 mstate_boot) _ _ (Instr 0 0 BEQ 0 7)
    (set_reg_ok 225 1 mstate_boot mstate_boot_ok ltac:(unfold s32r; lia)) ltac:(unfold inst_ok; vm_compute; intuition congruence)
    ltac:(vm_compute; repeat (apply list_elem_of_here || apply list_elem_of_further))
    ltac:(vm_compute; repeat (apply list_elem_of_here || apply list_elem_of_further)) eq_refl) as H.
  exact H.
Defined.

Lemma relative_wait_witness :
  exists st, run_wait (Instr 0 222 WRLV 0 10) [5; 9; -3; 14; 15] mstate_boot = Some st /\ Pc st = 1.
Proof.
  destruct (relative_wait (Instr 0 222 WRLV 0 10) 5 [9; -3; 14] 15 mstate_boot 10 mstate_boot_ok) as (_ & st & H & _ & Hp).
  - unfold inst_ok. vm_compute. intuition congruence.
  - reflexivity.
  - repeat (apply Forall_cons; split; [unfold s32r; lia|]). apply Forall_nil_2.
  - lia.
  - unfold s32r. lia.
  - left. split; reflexivity.
  - repeat (apply Forall_cons; split; [lia|]). apply Forall_nil_2.
  - lia.
  - exists st. split; [exact H|exact Hp].
Defined.

(** ** Departures *)

(** WDOG increments its own opcode: the second time the instruction is not
    known any more and the program stops there. *)
Lemma wdog_stops_the_program :
  let p := Program_buf 0 2 [Instr 0 0 WDOG 0 0; Instr 0 0 JMP 0 0] in
  (snd <$> exec_steps 1 p mstate_boot) ≫= (fun st => Some (Pc st)) = Some 1 /\
  (snd <$> exec_steps 2 p mstate_boot) ≫= (fun st => Some (Pc st)) = Some 0 /\
  (snd <$> exec_steps 3 p mstate_boot) ≫= (fun st => Some (Pc st)) = Some 0 /\
  (snd <$> exec_steps 9 p mstate_boot) ≫= (fun st => Some (Pc st)) = Some 0.
Proof. vm_compute. auto. Qed.

(** MOVRI takes its value from [Dest], a field the assembler leaves at 0 for
    this instruction: its two operands have no effect. *)
Lemma movri_ignores_operands d s2 s2' c s1 s1' st :
  snd <$> Execute (Instr d s2 MOVRI c s1) st = snd <$> Execute (Instr d s2' MOVRI c s1') st.
Proof. unfold Execute. simpl. by destruct ((0 <=? reg st GREGS) && (reg st GREGS <? REGS)). Qed.

(** The [p] command forgets the goal of a wait but not that it is waiting: the
    next relative wait does not compute its own goal and ends at once. *)
Lemma change_pc_spoils_wait :
  let p := Program_buf 0 2 [Instr 0 222 WRLV 0 10; Instr 0 222 WRLV 0 10] in
  let e := Emulate [txt "x" ++ [NL]; txt "p1" ++ [NL]; txt "x" ++ [NL]] p mstate_boot in
  (fun e => Pc (e_m e)) <$> e = Some 2.
Proof. vm_compute. reflexivity. Qed.

(** A negative [g] command reads outside the registers. *)
Lemma negative_register_undefined :
  Emulate [txt "g-1" ++ [NL]] countdown mstate_boot = None.
Proof. vm_compute. reflexivity. Qed.
