(* ===== verification/MttAsm.v ===== *)
(** * The MTT assembler ([mttn/tools/asm.c], [asmP.h])

    From the text of a source file to the text of the object file: the
    tokenizer, the symbol table, the expression stacks, the assembly loop, the
    second pass over forward references.  A run ends with a result, by
    [exit(1)] ([Exit]), or in undefined behaviour ([Undef]: an array overrun, a
    division by zero, a shift out of range).  Characters are 0..255, as where
    [char] is unsigned.  What only serves messages (line
    numbers, positions in the file, listings) is left out, except the column,
    which bounds the tokenizer's loop. *)

From stdpp Require Import strings.
From S2P Require Import Prelude MttIsa MttObj.

(** ** Results *)

Inductive result (A : Type) :=
  | Ok (a : A)
  | Exit
  | Undef
  | NoFuel.
Arguments Ok {A} a.
Arguments Exit {A}.
Arguments Undef {A}.
Arguments NoFuel {A}.

#[export] Instance result_ret : MRet result := fun A a => Ok a.
#[export] Instance result_bind : MBind result := fun A B f m =>
  match m with Ok a => f a | Exit => Exit | Undef => Undef | NoFuel => NoFuel end.

(** ** Operators ([asmP.h]) *)

Inductive OprId :=
  | OprNOOP | OprNE | OprEQ | OprGT | OprGE | OprLT | OprLE | OprAS
  | OprPL | OprMI | OprTI | OprDI | OprAND | OprOR | OprXOR
  | OprNOT | OprNEG | OprLSH | OprRSH | OprINC | OprDECR | OprPOP | OprSTM | OprLBL.

#[export] Instance OprId_eq_dec : EqDecision OprId.
Proof. solve_decision. Defined.

Definition OprNames : list (OprId * text) :=
  [(OprNOOP, txt "?"); (OprNE, txt "!="); (OprEQ, txt "="); (OprGT, txt ">"); (OprGE, txt ">=");
   (OprLT, txt "<"); (OprLE, txt "<="); (OprAS, txt ":="); (OprPL, txt "+"); (OprMI, txt "-");
   (OprTI, txt "*"); (OprDI, txt "/"); (OprAND, txt "&"); (OprOR, txt "!"); (OprXOR, txt "!!");
   (OprNOT, txt "~"); (OprNEG, txt "-~"); (OprLSH, txt "<<"); (OprRSH, txt ">>"); (OprINC, txt "++");
   (OprDECR, txt "--"); (OprPOP, txt ";"); (OprSTM, txt "->"); (OprLBL, txt ":")].

(** ** Atoms *)

Record Atom := Mk_atom { at_Type : AtomType; at_Text : text; at_Value : Z }.

(** A new atom is cleared, so its type is [Seperator]. *)
Definition NewAtom : Atom := Mk_atom Seperator [] 0.

(** [LookUpOperator()]: an unknown operator keeps the value 0. *)
Definition LookUpOperator (s : text) : Z :=
  match list_find (fun p => p.2 = s) OprNames with Some (i, _) => Z.of_nat i | None => 0 end.

Definition opr_of (v : Z) : OprId := nth (Z.to_nat v) (OprNames.*1) OprNOOP.

(** The atom of a word: an instruction, a register or a symbol. *)
Definition word_atom (s : text) : Atom :=
  match LookUpOpCode s with
  | Some i => Mk_atom Op_code s (Z.of_nat i)
  | None => match LookUpRegister s with Some r => Mk_atom Register s r | None => Mk_atom Alpha s 0 end
  end.

(** ** The tokenizer ([GetAtoms()])

    [s] is the source from the current character; past its end the buffer
    holds zeros. *)

Definition cur (s : text) : Z := default 0 (head s).

Definition MAX_ERROR_COUNT : Z := 10.
Definition TEXT : nat := 128.

Fixpoint span (p : Z -> bool) (s : text) : text * text :=
  match s with
  | c :: s' => if p c then let '(w, r) := span p s' in (c :: w, r) else ([], s)
  | [] => ([], [])
  end.

Definition word_char (c : Z) : bool := bool_decide (atomhash c = Alpha) || bool_decide (atomhash c = Numeric).
Definition opr_char (c : Z) : bool := bool_decide (atomhash c = Operator).

(** Separators up to and including a newline: whether there was one, the rest
    and the column. *)
Fixpoint skip_seps (s : text) (pos : Z) : bool * text * Z :=
  match s with
  | c :: s' =>
      if bool_decide (atomhash c = Seperator)
      then if c =? NL then (true, s', 0) else skip_seps s' (pos + 1)
      else (false, s, pos)
  | [] => (false, [], pos)
  end.

(** A comment after its mark: its text, whether a mark closes it, the rest (the
    closing mark is not skipped). *)
Fixpoint comment_text (s : text) : text * bool * text :=
  match s with
  | c :: s' =>
      if bool_decide (atomhash c = Comment) then ([], true, s)
      else if c =? NL then ([], false, s')
      else let '(t, b, r) := comment_text s' in (c :: t, b, r)
  | [] => ([], false, [])
  end.

Fixpoint tokens (fuel : nat) (size : Z) (s : text) (pos errors : Z) : result (list Atom * Z) :=
  match fuel with
  | O => NoFuel
  | S fuel =>
    if size <? pos then Ok ([NewAtom], errors) else
    let emit a r := match r with Ok (l, e) => Ok (a :: l, e) | Exit => Exit | Undef => Undef | NoFuel => NoFuel end in
    match atomhash (cur s) with
    | Numeric =>
        let '(v, e) := strtoul s in
        emit (Mk_atom Numeric [] (s32 v)) (tokens fuel size e (pos + Z.of_nat (length s - length e)) errors)
    | Alpha =>
        let '(w, r) := span word_char s in
        if Nat.leb TEXT (length w) then Undef else
        emit (word_atom w) (tokens fuel size r (pos + Z.of_nat (length w)) errors)
    | Seperator =>
        let '(nl, r, pos) := skip_seps s pos in
        if nl : bool then emit (Mk_atom Seperator [] 0) (tokens fuel size r pos errors)
        else tokens fuel size r pos errors
    | Comment =>
        let '(t, closed, r) := comment_text (tail s) in
        if Nat.leb TEXT (length t) then Undef else
        emit (Mk_atom (if closed : bool then Comment else Seperator) t 0)
             (tokens fuel size r (pos + Z.of_nat (length t)) errors)
    | Operator =>
        let '(w, r) := span opr_char s in
        if Nat.leb TEXT (length w) then Undef else
        emit (Mk_atom Operator w (LookUpOperator w)) (tokens fuel size r (pos + Z.of_nat (length w)) errors)
    | (Open | Close | Open_index | Close_index | Bit) as t =>
        emit (Mk_atom t [] 0) (tokens fuel size (tail s) (pos + 1) errors)
    | Illegal_char =>
        if MAX_ERROR_COUNT <=? errors then Exit else Ok ([NewAtom], errors + 1)
    | _ => Ok ([NewAtom], errors)
    end
  end.

(** [None]: nothing to assemble; [st_size] is the size of the file. *)
Definition GetAtoms (st_size : Z) (buf : text) (errors : Z) : result (option (list Atom) * Z) :=
  if cur buf =? 46 (* . *) then Ok (None, errors) else
  '(l, e) ← tokens (S (S (length buf))) st_size buf 1 errors;
  Ok (Some l, e).

(** ** State of the assembler *)

Record symbol := Symbol { sy_Name : text; sy_Value : Z; sy_Defined : Z }.
Record operand := Operand { or_Sym : option nat; or_Lit : Z }.

Definition SYMBOLS : nat := 1024.
Definition OPERAND_STACK : nat := 64.
Definition OPERATOR_STACK : nat := 32.
Definition FORWARD_REFS : nat := 100.

Record asm := Asm {
  a_errors : Z;
  a_symbols : list symbol;
  a_operands : list operand;      (* the array: values popped stay in it *)
  a_size : nat;                   (* operandStackSize *)
  a_operators : list OprId;       (* top first *)
  a_code : list Instruction;      (* code->Program *)
  a_load : Z;
  a_count : Z;
  a_index : nat;
  a_pc : Z;
  a_inst : nat;                   (* the instruction [inst] points to *)
  a_lit : bool;
  a_sr1 : bool;
  a_sr2 : bool;
  a_dst : bool;
  a_forward : list (nat * nat);   (* instruction, symbol *)
}.

Section Setters.
Variable st : asm.

Definition set_errors v := Asm v (a_symbols st) (a_operands st) (a_size st) (a_operators st) (a_code st) (a_load st)
  (a_count st) (a_index st) (a_pc st) (a_inst st) (a_lit st) (a_sr1 st) (a_sr2 st) (a_dst st) (a_forward st).
Definition set_symbols v := Asm (a_errors st) v (a_operands st) (a_size st) (a_operators st) (a_code st) (a_load st)
  (a_count st) (a_index st) (a_pc st) (a_inst st) (a_lit st) (a_sr1 st) (a_sr2 st) (a_dst st) (a_forward st).
Definition set_operands v n := Asm (a_errors st) (a_symbols st) v n (a_operators st) (a_code st) (a_load st)
  (a_count st) (a_index st) (a_pc st) (a_inst st) (a_lit st) (a_sr1 st) (a_sr2 st) (a_dst st) (a_forward st).
Definition set_operators v := Asm (a_errors st) (a_symbols st) (a_operands st) (a_size st) v (a_code st) (a_load st)
  (a_count st) (a_index st) (a_pc st) (a_inst st) (a_lit st) (a_sr1 st) (a_sr2 st) (a_dst st) (a_forward st).
Definition set_code v := Asm (a_errors st) (a_symbols st) (a_operands st) (a_size st) (a_operators st) v (a_load st)
  (a_count st) (a_index st) (a_pc st) (a_inst st) (a_lit st) (a_sr1 st) (a_sr2 st) (a_dst st) (a_forward st).
Definition set_place load count index pc inst := Asm (a_errors st) (a_symbols st) (a_operands st) (a_size st)
  (a_operators st) (a_code st) load count index pc inst (a_lit st) (a_sr1 st) (a_sr2 st) (a_dst st) (a_forward st).
Definition set_expect l r1 r2 d := Asm (a_errors st) (a_symbols st) (a_operands st) (a_size st) (a_operators st)
  (a_code st) (a_load st) (a_count st) (a_index st) (a_pc st) (a_inst st) l r1 r2 d (a_forward st).
Definition set_forward v := Asm (a_errors st) (a_symbols st) (a_operands st) (a_size st) (a_operators st) (a_code st)
  (a_load st) (a_count st) (a_index st) (a_pc st) (a_inst st) (a_lit st) (a_sr1 st) (a_sr2 st) (a_dst st) v.
End Setters.

Definition set_lit (l : bool) (st : asm) : asm := set_expect st l (a_sr1 st) (a_sr2 st) (a_dst st).

(** [Error()] of a type that is not fatal; the fatal ones are [Exit]. *)
Definition Error (st : asm) : result asm :=
  if MAX_ERROR_COUNT <=? a_errors st then Exit else Ok (set_errors st (a_errors st + 1)).

(** ** Symbols *)

Definition GetSymbol (name : text) (st : asm) : result (nat * asm) :=
  match list_find (fun s => sy_Name s = name) (a_symbols st) with
  | Some (i, _) => Ok (i, st)
  | None =>
      let i := length (a_symbols st) in
      if Nat.leb SYMBOLS i then Exit else Ok (i, set_symbols st (a_symbols st ++ [Symbol name 0 0]))
  end.

Definition sym_value (i : nat) (st : asm) : Z := default 0 (sy_Value <$> a_symbols st !! i).

(** [symbol->Value = v; symbol->Defined = d] where the source sets it. *)
Definition sym_set (i : nat) (v : Z) (d : option Z) (st : asm) : asm :=
  set_symbols st (alter (fun s => Symbol (sy_Name s) v (default (sy_Defined s) d)) i (a_symbols st)).

(** ** Expression stacks *)

Definition PushOperand (o : operand) (st : asm) : result asm :=
  if Nat.ltb (a_size st) OPERAND_STACK
  then Ok (set_operands st (<[a_size st := o]> (a_operands st)) (S (a_size st))) else Exit.

Definition PushOperator (o : OprId) (st : asm) : result asm :=
  if Nat.ltb (length (a_operators st)) OPERATOR_STACK then Ok (set_operators st (o :: a_operators st)) else Exit.

Definition operand_zero : operand := Operand None 0.

Definition PopOperand (st : asm) : result (option operand * asm) :=
  match a_size st with
  | S n => Ok (Some (nth n (a_operands st) operand_zero), set_operands st (a_operands st) n)
  | O => st ← Error st; Ok (None, st)
  end.

Definition ResetStacks (st : asm) : asm := set_operators (set_operands st (a_operands st) 0) [].

Definition GetValue (o : operand) (st : asm) : Z :=
  match or_Sym o with Some i => sym_value i st | None => or_Lit o end.

Definition truth (b : bool) : operand := Operand None (if b then -1 else 0).

Definition lit (z : Z) : operand := Operand None (s32 z).

(** What a binary operator pushes; [None] is undefined in C. *)
Definition binary (o : OprId) (l r : Z) : option (option operand) :=
  match o with
  | OprNE => Some (Some (truth (negb (l =? r))))
  | OprEQ => Some (Some (truth (l =? r)))
  | OprGT => Some (Some (truth (r <? l)))
  | OprGE => Some (Some (truth (r <=? l)))
  | OprLT => Some (Some (truth (l <? r)))
  | OprLE => Some (Some (truth (l <=? r)))
  | OprPL => Some (Some (lit (l + r)))
  | OprMI => Some (Some (lit (l - r)))
  | OprTI => Some (Some (lit (l * r)))
  | OprDI => if (r =? 0) || ((l =? - 2 ^ 31) && (r =? -1)) then None else Some (Some (lit (Z.quot l r)))
  | OprAND => Some (Some (lit (Z.land l r)))
  | OprOR => Some (Some (lit (Z.lor l r)))
  | OprXOR => Some (Some (lit (Z.lxor l r)))
  | OprLSH => if (0 <=? r) && (r <? 32) then Some (Some (lit (Z.shiftl l r))) else None
  | OprRSH => if (0 <=? r) && (r <? 32) then Some (Some (lit (Z.shiftr l r))) else None
  | _ => Some None
  end.

(** [DoExpression()]: the operators are consumed from the top. *)
Fixpoint do_expression (ops : list OprId) (st : asm) : result (Z * asm) :=
  match ops with
  | [] => st ← Error (set_operators st []); Ok (0, st)
  | o :: ops =>
      let st := set_operators st ops in
      match o with
      | OprNOT | OprNEG =>
          '(lo, st) ← PopOperand st;
          match lo with
          | None => Ok (0, st)
          | Some lo =>
              let v := GetValue lo st in
              st ← PushOperand (lit (if decide (o = OprNOT) then Z.lnot v else - v)) st;
              do_expression ops st
          end
      | OprINC | OprDECR =>
          '(lo, st) ← PopOperand st;
          match lo with
          | None => Ok (0, st)
          | Some lo =>
              let v := s32 (GetValue lo st + (if decide (o = OprINC) then 1 else -1)) in
              match or_Sym lo with
              | Some i => st ← PushOperand (lit v) (sym_set i v None st); do_expression ops st
              | None => st ← Error st; do_expression ops st
              end
          end
      | OprPOP =>
          '(ro, st) ← PopOperand st;
          match ro with None => Ok (0, st) | Some ro => Ok (or_Lit ro, st) end
      | OprSTM =>
          if Nat.ltb (a_size st) OPERAND_STACK
          then Ok (or_Lit (nth (a_size st) (a_operands st) operand_zero), st) else Undef
      | OprNOOP | OprLBL => Ok (0, st)
      | _ =>
          '(ro, st) ← PopOperand st;
          match ro with
          | None => Ok (0, st)
          | Some ro =>
              '(lo, st) ← PopOperand st;
              match lo with
              | None => Ok (0, st)
              | Some lo =>
                  if decide (o = OprAS) then
                    match or_Sym lo with
                    | Some i =>
                        st ← PushOperand ro (sym_set i (GetValue ro st) (Some 1) st);
                        do_expression ops st
                    | None => st ← Error st; do_expression ops st
                    end
                  else
                    match binary o (GetValue lo st) (GetValue ro st) with
                    | Some (Some v) => st ← PushOperand v st; do_expression ops st
                    | Some None => do_expression ops st
                    | None => Undef
                    end
              end
          end
      end
  end.

Definition DoExpression (st : asm) : result (Z * asm) := do_expression (a_operators st) st.

(** ** Syntax checks *)

Definition CompareAtomTypes (x y : AtomType) : bool :=
  bool_decide (x = y)
  || bool_decide (x = Not_set) || bool_decide (y = Not_set)
  || (bool_decide (x = Expression) && (bool_decide (y = Numeric) || bool_decide (y = Alpha)))
  || (bool_decide (y = Expression) && (bool_decide (x = Numeric) || bool_decide (x = Alpha)))
  || (bool_decide (x = Seperator) && bool_decide (y = Comment))
  || (bool_decide (y = Seperator) && bool_decide (x = Comment)).

(** Skip separators, but never past the last atom. *)
Fixpoint next_atoms (l : list Atom) : list Atom :=
  match l with
  | a :: ((_ :: _) as l') => if CompareAtomTypes (at_Type a) Seperator then next_atoms l' else l
  | _ => l
  end.

Definition advance (l : list Atom) : list Atom := match l with _ :: ((_ :: _) as l') => l' | _ => l end.

(** The atoms that must follow an instruction, in order. *)
Fixpoint confirm (expect : list AtomType) (l : list Atom) (st : asm) : result asm :=
  match expect with
  | [] => Ok st
  | t :: expect =>
      if CompareAtomTypes (at_Type (default NewAtom (head l))) t
      then confirm expect (match l with _ :: _ :: _ => next_atoms (advance l) | _ => l end) st
      else Error st
  end.

(** [GetConfirm()] on the instruction's atom and those after it. *)
Definition GetConfirm (atoms : list Atom) (o : OpCode) (st : asm) : result asm :=
  let l := bool_decide (op_Src1 o = AtLiteral) || bool_decide (op_Src1 o = AtAddress) in
  let r1 := bool_decide (op_Src1 o = AtRegister) in
  let r2 := bool_decide (op_Src2 o = AtRegister) in
  let d := bool_decide (op_Dest o = AtRegister) in
  let when (b : bool) (t : AtomType) := if b then [t] else [] in
  confirm (when l Expression ++ when r1 Register ++ when r2 Register ++ when d Register)
    (next_atoms (advance atoms)) (set_expect st l r1 r2 d).

(** ** [Assemble()] *)

Definition inst_zero : Instruction := Instr 0 0 0 0 0.

(** A store through [inst]; [None] outside the array. *)
Definition on_inst (f : Instruction -> Instruction) (st : asm) : result asm :=
  if Nat.ltb (a_inst st) (length (a_code st)) then Ok (set_code st (alter f (a_inst st) (a_code st))) else Undef.

Definition set_Src1 (v : Z) (i : Instruction) := Instr (i_Dest i) (i_Src2 i) (i_Number i) (i_Crc i) v.
Definition set_Src2 (v : Z) (i : Instruction) := Instr (i_Dest i) (u8 v) (i_Number i) (i_Crc i) (i_Src1 i).
Definition set_Dest (v : Z) (i : Instruction) := Instr (u8 v) (i_Src2 i) (i_Number i) (i_Crc i) (i_Src1 i).

(** One atom; [prev] is the atom before it and [atoms] starts with it. *)
Definition assemble_atom (prev : option Atom) (atoms : list Atom) (st : asm) : result asm :=
  let a := default NewAtom (head atoms) in
  match at_Type a with
  | Numeric =>
      if a_lit st then st ← on_inst (set_Src1 (at_Value a)) st; Ok (set_lit false st)
      else PushOperand (Operand None (at_Value a)) st
  | Alpha =>
      '(i, st) ← GetSymbol (at_Text a) st;
      if a_lit st then
        let v := sym_value i st in
        st ← on_inst (set_Src1 v) st;
        let st := set_lit false st in
        if v =? 0 then
          let st := set_forward st (a_forward st ++ [(a_inst st, i)]) in
          if Nat.leb FORWARD_REFS (length (a_forward st)) then Exit else Ok st
        else Ok st
      else PushOperand (Operand (Some i) 0) st
  | Operator =>
      let o := opr_of (at_Value a) in
      if decide (o = OprLBL) then
        match prev with
        | None => Undef
        | Some p =>
            match at_Type p with
            | Alpha =>
                '(i, st) ← GetSymbol (at_Text p) st;
                st ← (if negb (sym_value i st =? 0) then Error st else Ok st);
                Ok (sym_set i (a_pc st) (Some 1) st)
            | Numeric =>
                if a_pc st =? 0
                then Ok (set_place st (u32 (at_Value p)) (a_count st) (a_index st) (at_Value p) (a_inst st))
                else Error st
            | _ => Ok st
            end
        end
      else PushOperator o st
  | Op_code =>
      let n := a_index st in
      if Nat.leb (length (a_code st)) n then Undef else
      let st := set_place (set_code st (<[n := inst_zero]> (a_code st))) (a_load st) (a_count st) n (a_pc st) n in
      let o := nth (Z.to_nat (at_Value a)) InstructionSet (Opcode [] 0 AtNothing AtNothing AtNothing) in
      st ← GetConfirm atoms o st;
      st ← on_inst (fun i => Instr (i_Dest i) (i_Src2 i) (op_Number o) (i_Crc i) (i_Src1 i)) st;
      Ok (set_place st (a_load st) (Z.of_nat (S n)) (S n) (s32 (a_pc st + 1)) n)
  | Register =>
      if a_sr1 st then
        st ← on_inst (set_Src1 (at_Value a)) st; Ok (set_expect st (a_lit st) false (a_sr2 st) (a_dst st))
      else if a_sr2 st then
        st ← on_inst (set_Src2 (at_Value a)) st; Ok (set_expect st (a_lit st) (a_sr1 st) false (a_dst st))
      else if a_dst st then
        st ← on_inst (set_Dest (at_Value a)) st; Ok (set_expect st (a_lit st) (a_sr1 st) (a_sr2 st) false)
      else Ok st
  | Open | Open_index => st ← PushOperator OprSTM st; Ok (set_lit false st)
  | Close | Close_index =>
      '(v, st) ← DoExpression st; st ← on_inst (set_Src1 v) st; Ok (set_lit false st)
  | Seperator =>
      let st := ResetStacks st in
      if a_lit st then st ← Error st; Ok (set_lit false st) else Ok st
  | _ => Ok st
  end.

Fixpoint assemble_loop (prev : option Atom) (atoms : list Atom) (st : asm) : result asm :=
  match atoms with
  | [] => Ok st
  | a :: rest => st ← assemble_atom prev atoms st; assemble_loop (Some a) rest st
  end.

(** [mem]: the array of instructions as [malloc()] returned it. *)
Definition Assemble (st_size : Z) (buf : text) (mem : list Instruction) : result asm :=
  '(atoms, e) ← GetAtoms st_size buf 0;
  match atoms with
  | None => Exit
  | Some atoms =>
      let st := Asm e [] (replicate OPERAND_STACK operand_zero) 0 [] mem 0 0 0 0 0 false false false false [] in
      st ← on_inst (fun _ => inst_zero) st;
      assemble_loop None atoms st
  end.

(** ** [main()]: read the source, two passes, write the object *)

(** Characters up to the end of the file, a NUL or a character 255. *)
Fixpoint source_text (f : text) : text :=
  match f with
  | c :: f => if (c =? 255) || (c =? 0) then [] else c :: source_text f
  | [] => []
  end.

Definition count_lines (s : text) : nat := length (filter (fun c => c = NL) s).

(** Pass 2: [forward[i].Inst->Src1 = forward[i].Symb->Value] *)
Definition resolve (st : asm) : asm :=
  set_code st (foldl (fun code f => alter (set_Src1 (sym_value f.2 st)) f.1 code) (a_code st) (a_forward st)).

(** The number of errors, and the program that is written in any case;
    [mem] is an instruction of uninitialised memory. *)
Definition assemble_source (f : text) (mem : Instruction) : result (Z * ProgramBuf) :=
  let source := source_text f in
  st ← Assemble (Z.of_nat (length f)) source (replicate (count_lines source) mem);
  let st := if a_errors st =? 0 then resolve st else st in
  Ok (a_errors st, Program_buf (a_load st) (a_count st) (a_code st)).
