(* ===== verification/MttAsmSrc.v ===== *)
(** * Source programs and their atoms

    Source programs as lines (an optional label, an instruction, its
    operands), the text that spells them, and the program they denote; and
    what [GetAtoms()] makes of that text: the atoms of its lines. *)

From stdpp Require Import strings.
From S2P Require Import Prelude MttIsa MttObj MttAsm.

(** ** Source programs *)

Inductive arg :=
  | ALit (n : Z)
  | AReg (r : Z)
  | ALbl (s : text).

Record line := Line {
  l_label : option text;
  l_op : OpCode;
  l_src1 : option arg;
  l_src2 : option Z;
  l_dest : option Z;
}.

Definition arg_text (a : arg) : text :=
  match a with ALit n => hexnum n | AReg r => GetRegisterName r | ALbl s => s end.

Definition opt_list {A} (o : option A) : list A := match o with Some a => [a] | None => [] end.

Definition line_args (l : line) : list arg :=
  opt_list (l_src1 l) ++ (AReg <$> opt_list (l_src2 l)) ++ (AReg <$> opt_list (l_dest l)).

Definition COLON : Z := 58.

Definition label_text (l : line) : text := match l_label l with Some s => s ++ [COLON] | None => [] end.

Definition line_text (l : line) : text :=
  label_text l ++ SP :: op_Name (l_op l) ++ flat_map (fun a => SP :: arg_text a) (line_args l) ++ [NL].

(** The load address on a line of its own, then the lines. *)
Definition source_of (load : Z) (ls : list line) : text :=
  hexnum load ++ [COLON; NL] ++ flat_map line_text ls.

(** A name the tokenizer reads as a symbol. *)
Definition symbol_ok (s : text) : Prop :=
  atomhash (cur s) = Alpha /\ Forall (fun c => word_char c = true) s /\ (0 < length s < TEXT)%nat /\
  LookUpOpCode s = None /\ LookUpRegister s = None.

Definition reg_ok (t : ArgType) (r : option Z) : Prop :=
  match t, r with AtNothing, None => True | AtRegister, Some r => 0 <= r < 256 | _, _ => False end.

Definition src1_ok (t : ArgType) (a : option arg) : Prop :=
  match t, a with
  | AtNothing, None => True
  | AtRegister, Some (AReg r) => 0 <= r < 256
  | (AtLiteral | AtAddress), Some (ALit n) => - 2 ^ 31 <= n < 2 ^ 31
  | (AtLiteral | AtAddress), Some (ALbl s) => True
  | _, _ => False
  end.

Definition labels (ls : list line) : list text := omap l_label ls.

Definition label_refs (ls : list line) : list text :=
  omap (fun l => match l_src1 l with Some (ALbl s) => Some s | _ => None end) ls.

Definition line_ok (ls : list line) (l : line) : Prop :=
  l_op l ∈ InstructionSet /\
  src1_ok (op_Src1 (l_op l)) (l_src1 l) /\ reg_ok (op_Src2 (l_op l)) (l_src2 l) /\
  reg_ok (op_Dest (l_op l)) (l_dest l) /\
  (forall s, l_label l = Some s -> symbol_ok s) /\
  (forall s, l_src1 l = Some (ALbl s) -> s ∈ labels ls).

(** The limits are those of the assembler's tables. *)
Record source_ok (load : Z) (ls : list line) : Prop := {
  so_lines : Forall (line_ok ls) ls;
  so_labels : NoDup (labels ls);
  so_symbols : (length (labels ls) <= SYMBOLS)%nat;
  so_refs : (length (label_refs ls) < FORWARD_REFS)%nat;
  so_load : 0 <= load;
  so_fits : load + Z.of_nat (length ls) < 2 ^ 31;
}.

(** What a line denotes: the address of a label is that of its line. *)
Definition label_index (ls : list line) (s : text) : option nat := fst <$> list_find (fun l => l_label l = Some s) ls.

Definition label_addr (load : Z) (ls : list line) (s : text) : Z :=
  load + Z.of_nat (default 0%nat (label_index ls s)).

Definition arg_value (load : Z) (ls : list line) (a : arg) : Z :=
  match a with ALit n => n | AReg r => r | ALbl s => label_addr load ls s end.

Definition compile (load : Z) (ls : list line) (l : line) : Instruction :=
  Instr (default 0 (l_dest l)) (default 0 (l_src2 l)) (op_Number (l_op l)) 0
    (default 0 (arg_value load ls <$> l_src1 l)).

(** ** The tokenizer on this text *)

Section Lex.
Variable size : Z.

Definition Lex (s : text) (l : list Atom) : Prop :=
  forall fuel pos, 0 <= pos -> (length s < fuel)%nat -> pos + Z.of_nat (length s) <= size + 1 ->
    tokens fuel size s pos 0 = Ok (l ++ [NewAtom], 0).

Lemma lex_nil : Lex [] [].
Proof. intros [|fuel] pos H0 Hf Hp; simpl in *; [lia|]. by destruct (size <? pos). Qed.

Lemma span_app p w r : Forall (fun c => p c = true) w -> p (cur r) = false \/ r = [] -> span p (w ++ r) = (w, r).
Proof.
  intros Hw Hr. induction Hw as [|c w Hc _ IH]; simpl.
  - destruct r as [|c r]; [done|]. destruct Hr as [Hr|]; [|done]. simpl. unfold cur in Hr. simpl in Hr. by rewrite Hr.
  - by rewrite Hc, IH.
Qed.

(** One round of the loop on a character that is there. *)
Lemma lex_intro s l :
  s <> [] ->
  (forall fuel pos, 0 <= pos -> (length s < S fuel)%nat -> pos + Z.of_nat (length s) <= size + 1 -> size <? pos = false ->
    tokens (S fuel) size s pos 0 = Ok (l ++ [NewAtom], 0)) -> Lex s l.
Proof.
  intros Hs H [|fuel] pos H0 Hf Hp; [lia|]. apply H; [done|done|done|]. apply Z.ltb_ge.
  destruct s; [done|]. simpl in Hp. lia.
Qed.

Lemma lex_num n s l :
  no_digit 16 s -> Lex s l -> Lex (hexnum n ++ s) (Mk_atom Numeric [] (s32 (u32 n)) :: l).
Proof.
  intros Hd Hl. apply lex_intro; [done|]. intros fuel pos H0 Hf Hp Hsz. cbn [tokens]. rewrite Hsz.
  change (atomhash (cur (hexnum n ++ s))) with Numeric. cbv iota zeta. rewrite strtoul_hex by done.
  rewrite length_app in *. change (length (hexnum n)) with (2 + length (print_hex n))%nat in *.
  rewrite Hl by lia. done.
Qed.

Lemma lex_word w s l :
  atomhash (cur w) = Alpha -> Forall (fun c => word_char c = true) w -> (0 < length w < TEXT)%nat ->
  word_char (cur s) = false -> Lex s l -> Lex (w ++ s) (word_atom w :: l).
Proof.
  intros Ha Hw Hlen Hs Hl. apply lex_intro; [destruct w; simpl in *; [lia|done]|].
  intros fuel pos H0 Hf Hp Hsz. cbn [tokens]. rewrite Hsz.
  assert (cur (w ++ s) = cur w) as -> by (destruct w; simpl in *; [lia|done]). rewrite Ha.
  rewrite span_app by auto. rewrite (proj2 (Nat.leb_gt TEXT (length w))) by lia.
  rewrite length_app in *. rewrite Hl by lia. done.
Qed.

Lemma lex_colon s l :
  opr_char (cur s) = false -> Lex s l -> Lex (COLON :: s) (Mk_atom Operator [COLON] 23 :: l).
Proof.
  intros Hs Hl. apply lex_intro; [done|]. intros fuel pos H0 Hf Hp Hsz. cbn [tokens]. rewrite Hsz.
  change (atomhash (cur (COLON :: s))) with Operator. cbv iota zeta.
  change (COLON :: s) with ([COLON] ++ s). rewrite span_app; [|by repeat constructor|by left].
  change (Nat.leb TEXT (length [COLON])) with false. change (LookUpOperator [COLON]) with 23.
  simpl length in *. rewrite Hl by lia. done.
Qed.

Lemma lex_nl s l : Lex s l -> Lex (NL :: s) (Mk_atom Seperator [] 0 :: l).
Proof.
  intros Hl. apply lex_intro; [done|]. intros fuel pos H0 Hf Hp Hsz. cbn [tokens]. rewrite Hsz.
  change (atomhash (cur (NL :: s))) with Seperator. cbv iota zeta. 
  change (skip_seps (NL :: s) pos) with (true, s, 0). cbv iota beta zeta. 
  simpl length in *. rewrite Hl by lia. done.
Qed.

Lemma lex_sp s l : s <> [] -> atomhash (cur s) <> Seperator -> Lex s l -> Lex (SP :: s) l.
Proof.
  intros Hne Hs Hl. apply lex_intro; [done|]. intros fuel pos H0 Hf Hp Hsz. cbn [tokens]. rewrite Hsz.
  change (atomhash (cur (SP :: s))) with Seperator. cbv iota zeta.
  assert (skip_seps (SP :: s) pos = (false, s, pos + 1)) as ->.
  { change (skip_seps (SP :: s) pos) with (skip_seps s (pos + 1)). destruct s as [|c s]; [done|]. cbn [skip_seps].
    by rewrite bool_decide_eq_false_2. }
  simpl length in *. apply Hl; lia.
Qed.
End Lex.

(** ** The atoms of a line *)

Definition arg_atom (a : arg) : Atom :=
  match a with
  | ALit n => Mk_atom Numeric [] n
  | AReg r => Mk_atom Register (GetRegisterName r) r
  | ALbl s => Mk_atom Alpha s 0
  end.

Definition sep_atom : Atom := Mk_atom Seperator [] 0.
Definition colon_atom : Atom := Mk_atom Operator [COLON] 23.

Definition op_index (o : OpCode) : nat := default 0%nat (LookUpOpCode (op_Name o)).
Definition op_atom (o : OpCode) : Atom := Mk_atom Op_code (op_Name o) (Z.of_nat (op_index o)).

Definition label_atoms (l : line) : list Atom :=
  match l_label l with Some s => [Mk_atom Alpha s 0; colon_atom] | None => [] end.

Definition line_atoms (l : line) : list Atom :=
  label_atoms l ++ op_atom (l_op l) :: (arg_atom <$> line_args l) ++ [sep_atom].

(** Names of the tables are words of their kind, by evaluation. *)
Definition word_check (w : text) : bool :=
  bool_decide (atomhash (cur w) = Alpha) && forallb word_char w && Nat.ltb 0 (length w) && Nat.ltb (length w) TEXT.

Lemma word_check_ok w : word_check w = true ->
  atomhash (cur w) = Alpha /\ Forall (fun c => word_char c = true) w /\ (0 < length w < TEXT)%nat.
Proof.
  unfold word_check. intros [[[H1 H2]%andb_prop H3]%andb_prop H4]%andb_prop.
  apply bool_decide_eq_true in H1. apply Nat.ltb_lt in H3, H4. split_and!; [done| |lia|lia].
  apply Forall_forall. rewrite forallb_forall in H2. intros c Hc. apply H2. by apply list_elem_of_In.
Qed.

Lemma register_word r : 0 <= r < 256 ->
  word_check (GetRegisterName r) = true /\ word_atom (GetRegisterName r) = arg_atom (AReg r).
Proof.
  intros Hr.
  assert (forallb (fun r => word_check (GetRegisterName r)
      && match LookUpOpCode (GetRegisterName r) with None => true | Some _ => false end) (seqZ 0 256) = true) as Hc
    by (vm_compute; reflexivity).
  rewrite forallb_forall in Hc. specialize (Hc r). rewrite <- list_elem_of_In, elem_of_seqZ in Hc.
  specialize (Hc ltac:(lia)). apply andb_prop in Hc as [H1 H2]. split; [done|]. unfold word_atom.
  destruct (LookUpOpCode _); [done|]. rewrite (register_name_ok r); [done|done|].
  assert (forallb (fun r => bool_decide (StrToUpper (GetRegisterName r) = GetRegisterName r)) (seqZ 0 256) = true) as Hu
    by (vm_compute; reflexivity).
  rewrite forallb_forall in Hu. specialize (Hu r). rewrite <- list_elem_of_In, elem_of_seqZ in Hu.
  specialize (Hu ltac:(lia)). by apply bool_decide_eq_true in Hu.
Qed.

Definition opcode_check (o : OpCode) : bool :=
  word_check (op_Name o)
  && match LookUpOpCode (op_Name o) with
     | Some i => Nat.eqb i (op_index o) && Nat.ltb i 36
     | None => false
     end.

Lemma opcode_word o : o ∈ InstructionSet ->
  word_check (op_Name o) = true /\ word_atom (op_Name o) = op_atom o /\
  nth (op_index o) InstructionSet (Opcode [] 0 AtNothing AtNothing AtNothing) = o.
Proof.
  intros [i Hi]%list_elem_of_lookup_1.
  assert (forallb opcode_check InstructionSet = true) as Hc by (vm_compute; reflexivity).
  rewrite forallb_forall in Hc. specialize (Hc o). rewrite <- list_elem_of_In in Hc.
  specialize (Hc ltac:(by eapply list_elem_of_lookup_2)).
  apply andb_prop in Hc as [H1 H2]. split; [done|].
  assert (StrToUpper (op_Name o) = op_Name o) as Hup.
  { assert (forallb (fun o => bool_decide (StrToUpper (op_Name o) = op_Name o)) InstructionSet = true) as Hu
      by (vm_compute; reflexivity).
    rewrite forallb_forall in Hu. specialize (Hu o). rewrite <- list_elem_of_In in Hu.
    specialize (Hu ltac:(by eapply list_elem_of_lookup_2)). by apply bool_decide_eq_true in Hu. }
  pose proof (opcode_name_ok i o (op_Name o) Hi Hup) as Hl. unfold word_atom, op_atom, op_index in *.
  rewrite Hl. split; [done|]. cbn [default]. by apply nth_lookup_Some.
Qed.

Definition arg_ok (a : arg) : Prop :=
  match a with ALit n => - 2 ^ 31 <= n < 2 ^ 31 | AReg r => 0 <= r < 256 | ALbl s => symbol_ok s end.

Lemma lex_arg size a s l :
  arg_ok a -> (cur s = SP \/ cur s = NL) -> s <> [] -> Lex size s l ->
  Lex size (arg_text a ++ s) (arg_atom a :: l) /\ arg_text a ++ s <> [] /\
  atomhash (cur (arg_text a ++ s)) <> Seperator.
Proof.
  intros Ha Hs Hne Hl.
  assert (word_char (cur s) = false) as Hw by (by destruct Hs as [-> | ->]).
  assert (forall w, atomhash (cur w) = Alpha -> (0 < length w)%nat ->
    w ++ s <> [] /\ atomhash (cur (w ++ s)) <> Seperator) as Hfirst.
  { intros [|c w]; simpl; [lia|]. unfold cur. simpl. intros E _. split; [done|]. by rewrite E. }
  destruct a as [n|r|t]; simpl in Ha |- *.
  - split; [|by split]. rewrite <- (s32_u32_id n) at 2 by done. apply lex_num; [|done].
    unfold no_digit. destruct s as [|c s]; [done|]. unfold cur in Hs. simpl in Hs |- *.
    by destruct Hs as [-> | ->].
  - destruct (register_word r Ha) as [(H1 & H2 & H3)%word_check_ok Hat].
    assert (Mk_atom Register (GetRegisterName r) r = word_atom (GetRegisterName r)) as -> by done.
    split; [by apply lex_word|apply Hfirst; [done|lia]].
  - destruct Ha as (H1 & H2 & H3 & H4 & H5).
    split; [|apply Hfirst; [done|lia]]. assert (Mk_atom Alpha t 0 = word_atom t) as ->
      by (unfold word_atom; by rewrite H4, H5). by apply lex_word.
Qed.

Lemma lex_args size args s l :
  Forall arg_ok args -> Lex size s l ->
  let t := flat_map (fun a => SP :: arg_text a) args ++ NL :: s in
  Lex size t ((arg_atom <$> args) ++ sep_atom :: l) /\ t <> [] /\ (cur t = SP \/ cur t = NL).
Proof.
  intros Ha Hl. induction Ha as [|a args Ha _ IH]; simpl.
  - split; [by apply lex_nl|split; [done|by right]].
  - destruct IH as (I1 & I2 & I3). rewrite <- app_assoc.
    destruct (lex_arg size a _ _ Ha I3 I2 I1) as (J1 & J2 & J3).
    split; [by apply lex_sp|split; [done|by left]].
Qed.

Lemma lex_line size ln s l :
  l_op ln ∈ InstructionSet -> Forall arg_ok (line_args ln) -> (forall t, l_label ln = Some t -> symbol_ok t) ->
  Lex size s l -> Lex size (line_text ln ++ s) (line_atoms ln ++ l).
Proof.
  intros Ho Ha Hlab Hl. unfold line_text, line_atoms, label_text, label_atoms.
  destruct (opcode_word (l_op ln) Ho) as ((W1 & W2 & W3)%word_check_ok & Hat & _).
  destruct (lex_args size (line_args ln) s l Ha Hl) as (A1 & A2 & A3).
  set (t := flat_map _ _ ++ NL :: s) in *.
  assert (Lex size (op_Name (l_op ln) ++ t) (op_atom (l_op ln) :: (arg_atom <$> line_args ln) ++ sep_atom :: l)) as Hop.
  { rewrite <- Hat. apply lex_word; try done. by destruct A3 as [-> | ->]. }
  assert (cur (op_Name (l_op ln) ++ t) = cur (op_Name (l_op ln))) as Hcur by (destruct (op_Name (l_op ln)); simpl in *; [lia|done]).
  assert (Lex size (SP :: op_Name (l_op ln) ++ t) (op_atom (l_op ln) :: (arg_atom <$> line_args ln) ++ sep_atom :: l)) as Hsp.
  { apply lex_sp; [by destruct (op_Name (l_op ln)); simpl in *; [lia|]|by rewrite Hcur, W1|done]. }
  assert (forall q : text, (q ++ SP :: op_Name (l_op ln) ++ flat_map (fun a => SP :: arg_text a) (line_args ln) ++ [NL]) ++ s
    = q ++ SP :: op_Name (l_op ln) ++ t) as Ht by (intros q; unfold t; rewrite <- app_assoc; simpl; by rewrite <- !app_assoc).
  rewrite Ht. destruct (l_label ln) as [name|] eqn:En; [|simpl; rewrite <- app_assoc; exact Hsp].
  destruct (Hlab name eq_refl) as (S1 & S2 & S3 & S4 & S5). rewrite <- !app_assoc. simpl.
  assert (Mk_atom Alpha name 0 = word_atom name) as -> by (unfold word_atom; by rewrite S4, S5).
  rewrite <- app_assoc. apply lex_word; try done. by apply lex_colon.
Qed.

Lemma lex_lines size ls :
  Forall (fun ln => l_op ln ∈ InstructionSet /\ Forall arg_ok (line_args ln) /\
    (forall t, l_label ln = Some t -> symbol_ok t)) ls ->
  Lex size (flat_map line_text ls) (flat_map line_atoms ls).
Proof.
  induction 1 as [|ln ls (H1 & H2 & H3) _ IH]; [apply lex_nil|]. simpl. by apply lex_line.
Qed.
