(* ===== verification/MttAsmInv.v ===== *)
(** * Assembling a source program gives the program

    The symbol table, the assembly of a line, of a program, and the second
    pass, for the source programs of [MttAsmSrc]: the assembler turns the text
    of a program into the program it denotes, labels used before and after
    their definition included.  Then what the assembler does with some texts
    that are not such programs. *)

From stdpp Require Import strings.
From S2P Require Import Prelude MttIsa MttObj MttAsm MttAsmSrc.


(** ** The symbol table *)

Section Assembly.
Variables (load : Z) (ls : list line).
Hypothesis Hok : source_ok load ls.

(** The value of a symbol when the labels of the first [m] lines are defined. *)
Definition sval (m : nat) (s : text) : Z :=
  match label_index ls s with Some j => if Nat.ltb j m then load + Z.of_nat j else 0 | None => 0 end.

Record sym_inv (m : nat) (tab : list symbol) : Prop := {
  si_nodup : NoDup (sy_Name <$> tab);
  si_labels : forall s, s ∈ sy_Name <$> tab -> s ∈ labels ls;
  si_values : Forall (fun y => sy_Value y = sval m (sy_Name y)) tab;
  si_defined : forall s j, label_index ls s = Some j -> (j < m)%nat -> s ∈ sy_Name <$> tab;
}.

Lemma NoDup_sub_length {A} (l k : list A) : NoDup l -> (forall x, x ∈ l -> x ∈ k) -> (length l <= length k)%nat.
Proof.
  intros Hn Hs. apply List.NoDup_incl_length; [by apply NoDup_ListNoDup|].
  intros x Hx. apply list_elem_of_In, Hs, list_elem_of_In. done.
Qed.

(** [tab'] keeps the names of [tab] at their places. *)
Definition tab_le (tab tab' : list symbol) : Prop := (sy_Name <$> tab) `prefix_of` (sy_Name <$> tab').

Lemma tab_le_lookup tab tab' i s :
  tab_le tab tab' -> (sy_Name <$> tab) !! i = Some s -> (sy_Name <$> tab') !! i = Some s.
Proof. intros [k Hk] Hi. rewrite Hk. by apply lookup_app_l_Some. Qed.

Lemma get_symbol m name st :
  sym_inv m (a_symbols st) -> name ∈ labels ls ->
  exists i tab', GetSymbol name st = Ok (i, set_symbols st tab') /\ sym_inv m tab' /\
    (sy_Name <$> tab') !! i = Some name /\ tab_le (a_symbols st) tab' /\ name ∈ sy_Name <$> tab'.
Proof.
  intros Hi Hname. unfold GetSymbol.
  destruct (list_find (fun s => sy_Name s = name) (a_symbols st)) as [[i y]|] eqn:E.
  - apply list_find_Some in E as (Hy & Hn & _). exists i, (a_symbols st).
    assert ((sy_Name <$> a_symbols st) !! i = Some name) as Hl by (rewrite list_lookup_fmap, Hy; simpl; by rewrite Hn).
    split; [by destruct st|]. split; [done|]. split; [done|]. split; [by exists []; rewrite app_nil_r|].
    by eapply list_elem_of_lookup_2.
  - assert (name ∉ sy_Name <$> a_symbols st) as Hnew.
    { intros (y & -> & Hy)%list_elem_of_fmap. apply list_find_None in E. rewrite Forall_forall in E. by apply (E y). }
    destruct Hi as [N L V D]. set (tab' := a_symbols st ++ [Symbol name 0 0]).
    assert (NoDup (sy_Name <$> tab')) as Hn.
    { unfold tab'. rewrite fmap_app. apply NoDup_app. split_and!; [done| |by apply NoDup_singleton].
      intros s Hs Hs'. simpl in Hs'. apply list_elem_of_singleton in Hs' as ->. done. }
    assert (forall s, s ∈ sy_Name <$> tab' -> s ∈ labels ls) as HL.
    { intros s. unfold tab'. rewrite fmap_app, elem_of_app. intros [Hs|Hs]; [by apply L|].
      simpl in Hs. by apply list_elem_of_singleton in Hs as ->. }
    pose proof (NoDup_sub_length _ _ Hn HL) as Hlen. unfold tab' in Hlen. rewrite fmap_app, length_app, length_fmap in Hlen.
    simpl in Hlen. pose proof (so_symbols _ _ Hok).
    rewrite (proj2 (Nat.leb_gt SYMBOLS (length (a_symbols st)))) by lia.
    exists (length (a_symbols st)), tab'. split_and!.
    + done.
    + split; [done|done| |].
      * apply Forall_app. split; [done|]. apply Forall_cons. split; [|apply Forall_nil_2]. simpl. unfold sval.
        destruct (label_index ls name) as [j|] eqn:Ej; [|done]. destruct (Nat.ltb_spec j m); [|done].
        exfalso. by apply Hnew, (D name j).
      * intros s j Hj Hm. unfold tab'. rewrite fmap_app, elem_of_app. left. by apply (D s j).
    + unfold tab'. rewrite list_lookup_fmap, lookup_app_r, Nat.sub_diag by done. done.
    + unfold tab_le, tab'. rewrite fmap_app. by apply prefix_app_r.
    + unfold tab'. rewrite fmap_app, elem_of_app. right. simpl. apply list_elem_of_here.
Qed.

Lemma sym_value_inv m st i s :
  sym_inv m (a_symbols st) -> (sy_Name <$> a_symbols st) !! i = Some s -> sym_value i st = sval m s.
Proof.
  intros [_ _ V _] Hi. unfold sym_value. rewrite list_lookup_fmap in Hi.
  destruct (a_symbols st !! i) as [y|] eqn:E; [|done]. simpl in *. injection Hi as <-.
  rewrite Forall_forall in V. apply V. by eapply list_elem_of_lookup_2.
Qed.

(** *** Labels *)

Lemma label_index_eq k ln s : ls !! k = Some ln -> l_label ln = Some s -> label_index ls s = Some k.
Proof.
  intros Hk Hs. pose proof (so_labels _ _ Hok) as Hn. unfold label_index.
  destruct (list_find (fun l => l_label l = Some s) ls) as [[j l]|] eqn:E.
  - apply list_find_Some in E as (Hj & Hl & _). simpl. f_equal.
    clear Hok. revert j k Hj Hk Hn. induction ls as [|x xs IH]; intros j k Hj Hk Hn; [done|].
    assert (forall n y, xs !! n = Some y -> l_label y = Some s -> s ∈ labels xs) as Hin.
    { intros n y Hy Hly. apply list_elem_of_omap. exists y. split; [by eapply list_elem_of_lookup_2|done]. }
    destruct j as [|j], k as [|k]; simpl in *; [done| | |].
    + injection Hj as ->. unfold labels in Hn. simpl in Hn. rewrite Hl in Hn. apply NoDup_cons in Hn as [Hn _].
      exfalso. by apply Hn, (Hin k ln).
    + injection Hk as ->. unfold labels in Hn. simpl in Hn. rewrite Hs in Hn. apply NoDup_cons in Hn as [Hn _].
      exfalso. by apply Hn, (Hin j l).
    + f_equal. apply IH; [done|done|]. unfold labels in *. simpl in Hn. destruct (l_label x); [|done].
      by apply NoDup_cons in Hn as [_ Hn].
  - exfalso. apply list_find_None in E. rewrite Forall_forall in E. apply (E ln); [|done].
    by eapply list_elem_of_lookup_2.
Qed.

Lemma label_index_lookup s k : label_index ls s = Some k -> exists ln, ls !! k = Some ln /\ l_label ln = Some s.
Proof.
  unfold label_index. intros H. destruct (list_find _ ls) as [[j l]|] eqn:E; [|done]. simpl in H. injection H as ->.
  apply list_find_Some in E as (Hj & Hl & _). by exists l.
Qed.

Lemma label_index_defined s : s ∈ labels ls -> exists k, label_index ls s = Some k.
Proof.
  unfold labels. intros (l & Hl & Hs)%list_elem_of_omap. apply list_elem_of_lookup in Hl as [k Hk]. exists k.
  by apply (label_index_eq k l).
Qed.

(** A line without a label defines nothing. *)
Lemma sym_inv_skip k ln tab : ls !! k = Some ln -> l_label ln = None -> sym_inv k tab -> sym_inv (S k) tab.
Proof.
  intros Hk Hl [N L V D].
  assert (forall s j, label_index ls s = Some j -> (j < S k)%nat -> (j < k)%nat) as Hlt.
  { intros s j Hj Hjk. destruct (decide (j = k)) as [->|]; [|lia].
    apply label_index_lookup in Hj as (ln' & Hk' & Hl'). congruence. }
  split; [done|done| |].
  - rewrite Forall_forall in V |- *. intros y Hy. rewrite (V y Hy). unfold sval.
    destruct (label_index ls (sy_Name y)) as [j|] eqn:E; [|done].
    destruct (Nat.ltb_spec j k), (Nat.ltb_spec j (S k)); try lia; try done. specialize (Hlt _ _ E). lia.
  - intros s j Hj Hjk. apply (D s j); [done|]. by apply (Hlt s).
Qed.

Lemma sval_before k ln s : ls !! k = Some ln -> l_label ln = Some s -> sval k s = 0.
Proof. intros Hk Hs. unfold sval. rewrite (label_index_eq k ln s Hk Hs). by rewrite Nat.ltb_irrefl. Qed.

Lemma alter_names (i : nat) v d (tab : list symbol) :
  sy_Name <$> alter (fun y => Symbol (sy_Name y) v (default (sy_Defined y) d)) i tab = sy_Name <$> tab.
Proof.
  revert i. induction tab as [|y tab IH]; intros [|i]; simpl; [done|done|done|]. f_equal. apply IH.
Qed.

Lemma sym_inv_define k ln s tab i :
  ls !! k = Some ln -> l_label ln = Some s -> sym_inv k tab -> (sy_Name <$> tab) !! i = Some s ->
  sym_inv (S k) (alter (fun y => Symbol (sy_Name y) (load + Z.of_nat k) 1) i tab).
Proof.
  intros Hk Hs [N L V D] Hi.
  pose proof (alter_names i (load + Z.of_nat k) (Some 1) tab) as Hnames. simpl in Hnames.
  split; rewrite ?Hnames; [done|done| |].
  - apply Forall_lookup. intros j y Hy.
    destruct (decide (j = i)) as [->|Hne].
    + rewrite list_lookup_alter_eq in Hy. destruct (tab !! i) as [y0|] eqn:Ey; [|done]. simpl in Hy. injection Hy as <-.
      simpl. rewrite list_lookup_fmap, Ey in Hi. simpl in Hi. injection Hi as ->. unfold sval.
      rewrite (label_index_eq k ln s Hk Hs). by rewrite (proj2 (Nat.ltb_lt k (S k))) by lia.
    + rewrite list_lookup_alter_ne in Hy by done. rewrite Forall_lookup in V. rewrite (V j y Hy). unfold sval.
      destruct (label_index ls (sy_Name y)) as [q|] eqn:Eq; [|done].
      assert (q <> k).
      { intros ->. apply label_index_lookup in Eq as (ln' & Hk' & Hl'). simplify_eq.
        apply Hne. eapply NoDup_lookup; [exact N| |exact Hi]. rewrite list_lookup_fmap, Hy. simpl. congruence. }
      destruct (Nat.ltb_spec q k), (Nat.ltb_spec q (S k)); lia || done.
  - intros t j Hj Hjk. destruct (decide (j = k)) as [->|]; [|apply (D t j); [done|lia]].
    apply label_index_lookup in Hj as (ln' & Hk' & Hl'). simplify_eq. by eapply list_elem_of_lookup_2.
Qed.

(** ** One line *)

(** The state while line [k] is assembled: [c] is the code, [i] the current
    instruction. *)
Definition mid (k : nat) (c : list Instruction) (tab : list symbol) (ops : list operand) (sz : nat)
    (i : Instruction) (l r1 r2 d : bool) (fw : list (nat * nat)) : asm :=
  Asm 0 tab ops sz [] (<[k := i]> c) load (Z.of_nat (S k)) (S k) (load + Z.of_nat (S k)) k l r1 r2 d fw.

Lemma alter_insert_code f k i (c : list Instruction) : (k < length c)%nat -> alter f k (<[k := i]> c) = <[k := f i]> c.
Proof.
  intros Hk. apply list_eq. intros j. destruct (decide (j = k)) as [->|Hne].
  - rewrite list_lookup_alter_eq, !list_lookup_insert_eq by done. done.
  - by rewrite list_lookup_alter_ne, !list_lookup_insert_ne by done.
Qed.

Section Line.
Variables (k : nat) (c : list Instruction).
Hypothesis Hkc : (k < length c)%nat.

Lemma on_inst_mid f tab ops sz i l r1 r2 d fw :
  on_inst f (mid k c tab ops sz i l r1 r2 d fw) = Ok (mid k c tab ops sz (f i) l r1 r2 d fw).
Proof.
  unfold on_inst, mid. cbn [a_inst a_code]. rewrite length_insert, (proj2 (Nat.ltb_lt k _)) by done.
  unfold set_code. cbn. by rewrite alter_insert_code.
Qed.

(** One operand: read the flags of [mid], then do the store. *)
Ltac atom_step f :=
  unfold assemble_atom; cbn [head default id arg_atom at_Type at_Value];
  repeat match goal with
  | |- context [a_lit (mid ?k ?c ?tab ?ops ?sz ?i ?l ?r1 ?r2 ?d ?fw)] =>
      change (a_lit (mid k c tab ops sz i l r1 r2 d fw)) with l
  | |- context [a_sr1 (mid ?k ?c ?tab ?ops ?sz ?i ?l ?r1 ?r2 ?d ?fw)] =>
      change (a_sr1 (mid k c tab ops sz i l r1 r2 d fw)) with r1
  | |- context [a_sr2 (mid ?k ?c ?tab ?ops ?sz ?i ?l ?r1 ?r2 ?d ?fw)] =>
      change (a_sr2 (mid k c tab ops sz i l r1 r2 d fw)) with r2
  | |- context [a_dst (mid ?k ?c ?tab ?ops ?sz ?i ?l ?r1 ?r2 ?d ?fw)] =>
      change (a_dst (mid k c tab ops sz i l r1 r2 d fw)) with d
  end; cbv iota; rewrite (on_inst_mid f); reflexivity.

Lemma atom_lit prev n rest tab ops sz i r1 r2 d fw :
  assemble_atom prev (arg_atom (ALit n) :: rest) (mid k c tab ops sz i true r1 r2 d fw)
  = Ok (mid k c tab ops sz (set_Src1 n i) false r1 r2 d fw).
Proof. atom_step (set_Src1 n). Qed.

Lemma atom_reg1 prev r rest tab ops sz i r2 d fw :
  assemble_atom prev (arg_atom (AReg r) :: rest) (mid k c tab ops sz i false true r2 d fw)
  = Ok (mid k c tab ops sz (set_Src1 r i) false false r2 d fw).
Proof. atom_step (set_Src1 r). Qed.

Lemma atom_reg2 prev r rest tab ops sz i d fw :
  assemble_atom prev (arg_atom (AReg r) :: rest) (mid k c tab ops sz i false false true d fw)
  = Ok (mid k c tab ops sz (set_Src2 r i) false false false d fw).
Proof. atom_step (set_Src2 r). Qed.

Lemma atom_dest prev r rest tab ops sz i fw :
  assemble_atom prev (arg_atom (AReg r) :: rest) (mid k c tab ops sz i false false false true fw)
  = Ok (mid k c tab ops sz (set_Dest r i) false false false false fw).
Proof. atom_step (set_Dest r). Qed.

(** A label as operand: its address if it is known, else a forward reference. *)
Definition fwd_entry (fw fw' : list (nat * nat)) (tab' : list symbol) (a : option arg) (v : Z) : Prop :=
  (fw' = fw /\ v = default 0 (arg_value load ls <$> a)) \/
  (exists s j, a = Some (ALbl s) /\ fw' = fw ++ [(k, j)] /\ v = 0 /\ (sy_Name <$> tab') !! j = Some s).

Lemma atom_lbl prev s rest tab ops sz i r1 r2 d fw :
  sym_inv (S k) tab -> s ∈ labels ls -> (S (length fw) < FORWARD_REFS)%nat ->
  exists tab' fw' v, assemble_atom prev (arg_atom (ALbl s) :: rest) (mid k c tab ops sz i true r1 r2 d fw)
    = Ok (mid k c tab' ops sz (set_Src1 v i) false r1 r2 d fw') /\
    sym_inv (S k) tab' /\ tab_le tab tab' /\ fwd_entry fw fw' tab' (Some (ALbl s)) v.
Proof.
  intros Hi Hs Hfw. unfold assemble_atom. cbn [head default id arg_atom at_Type at_Text].
  destruct (get_symbol (S k) s (mid k c tab ops sz i true r1 r2 d fw) Hi Hs) as (j & tab' & -> & Hi' & Hj & Hle & _).
  cbn [mbind result_bind]. 
  change (set_symbols (mid k c tab ops sz i true r1 r2 d fw) tab') with (mid k c tab' ops sz i true r1 r2 d fw).
  change (a_lit (mid k c tab' ops sz i true r1 r2 d fw)) with true. cbv iota zeta.
  rewrite (sym_value_inv (S k) (mid k c tab' ops sz i true r1 r2 d fw) j s Hi' Hj). rewrite on_inst_mid. cbn [mbind result_bind].
  destruct (Z.eqb_spec (sval (S k) s) 0) as [E|E].
  - change (a_inst _) with k. change (a_forward (set_lit _ _)) with fw. 
    change (a_forward (set_forward _ (fw ++ [(k, j)]))) with (fw ++ [(k, j)]).
    rewrite length_app, (proj2 (Nat.leb_gt _ _)) by (simpl; lia).
    exists tab', (fw ++ [(k, j)]), 0. rewrite E. split_and!; [done|done|done|]. right. by exists s, j.
  - exists tab', fw, (sval (S k) s). split_and!; [done|done|done|]. left. split; [done|]. simpl.
    unfold sval, label_addr in *. destruct (label_index ls s) as [q|]; [|done]. by destruct (Nat.ltb q (S k)).
Qed.

(** The operands one after the other. *)
Definition has (b : bool) (t : ArgType) : Prop := b = bool_decide (t = AtRegister).

Lemma args_regs prev rest tab ops sz i r2 d fw t2 t3 a2 a3 :
  reg_ok t2 a2 -> reg_ok t3 a3 -> has r2 t2 -> has d t3 -> i_Src2 i = 0 -> i_Dest i = 0 ->
  exists prev', assemble_loop prev ((arg_atom <$> ((AReg <$> opt_list a2) ++ (AReg <$> opt_list a3))) ++ rest)
      (mid k c tab ops sz i false false r2 d fw) =
    assemble_loop prev' rest (mid k c tab ops sz
      (Instr (default 0 a3) (default 0 a2) (i_Number i) (i_Crc i) (i_Src1 i)) false false false false fw).
Proof.
  unfold has. intros H2 H3 E2 E3 I2 I3. destruct i as [d0 s0 n q s1]. simpl in I2, I3. subst d0 s0.
  assert (forall r, 0 <= r < 256 -> u8 r = r) as Hu by (intros r Hr; unfold u8; rewrite Z.mod_small; lia).
  destruct t2, a2 as [x2|]; simpl in H2; try done; destruct t3, a3 as [x3|]; simpl in H3; try done; subst r2 d;
    repeat change (bool_decide (AtNothing = AtRegister)) with false;
    repeat change (bool_decide (AtRegister = AtRegister)) with true;
    cbn [opt_list fmap list_fmap app default]; cbn [assemble_loop].
  - by exists prev.
  - rewrite atom_dest. cbn [mbind result_bind]. eexists. unfold set_Dest. cbn. by rewrite Hu.
  - rewrite atom_reg2. cbn [mbind result_bind]. eexists. unfold set_Src2. cbn. by rewrite Hu.
  - rewrite atom_reg2. cbn [mbind result_bind assemble_loop]. rewrite atom_dest. cbn [mbind result_bind].
    eexists. unfold set_Src2, set_Dest. cbn. by rewrite !Hu.
Qed.

Lemma args_src1 prev rest tab ops sz r2 d fw t a n :
  src1_ok t a -> (forall s, a = Some (ALbl s) -> s ∈ labels ls /\ (S (length fw) < FORWARD_REFS)%nat) ->
  sym_inv (S k) tab ->
  exists prev' tab' fw' v,
    assemble_loop prev ((arg_atom <$> opt_list a) ++ rest)
      (mid k c tab ops sz (Instr 0 0 n 0 0) (bool_decide (t = AtLiteral) || bool_decide (t = AtAddress))
         (bool_decide (t = AtRegister)) r2 d fw) =
    assemble_loop prev' rest (mid k c tab' ops sz (Instr 0 0 n 0 v) false false r2 d fw') /\
    sym_inv (S k) tab' /\ tab_le tab tab' /\ fwd_entry fw fw' tab' a v.
Proof.
  intros Ha Hl Hi.
  assert (tab_le tab tab) as Hrefl by (by exists []; rewrite app_nil_r).
  destruct a as [[x|x|s]|].
  - exists (Some (arg_atom (ALit x))), tab, fw, x.
    destruct t; simpl in Ha; try done; cbn [bool_decide opt_list fmap list_fmap app assemble_loop];
      (split; [|split; [done|split; [done|by left]]]);
      (etrans; [|reflexivity]); rewrite atom_lit; reflexivity.
  - exists (Some (arg_atom (AReg x))), tab, fw, x.
    destruct t; simpl in Ha; try done. cbn [opt_list fmap list_fmap app assemble_loop].
    split; [|split; [done|split; [done|by left]]]. rewrite atom_reg1. reflexivity.
  - assert ((bool_decide (t = AtLiteral) || bool_decide (t = AtAddress)) = true /\ bool_decide (t = AtRegister) = false)
      as [-> ->] by (by destruct t).
    destruct (atom_lbl prev s rest tab ops sz (Instr 0 0 n 0 0) false r2 d fw Hi (proj1 (Hl s eq_refl)) (proj2 (Hl s eq_refl)))
      as (tab' & fw' & v & E & Hi' & Hle & Hf).
    exists (Some (arg_atom (ALbl s))), tab', fw', v. split; [|done]. cbn [opt_list fmap list_fmap app assemble_loop].
    rewrite E. reflexivity.
  - exists prev, tab, fw, 0. destruct t; simpl in Ha; try done. split; [reflexivity|]. split; [done|split; [done|by left]].
Qed.
End Line.

(** *** The operands are what [GetConfirm()] expects *)

Definition expects (t : AtomType) (a : Atom) : Prop :=
  CompareAtomTypes (at_Type a) t = true /\ CompareAtomTypes (at_Type a) Seperator = false.

Lemma next_atoms_stay l rest : Forall (fun a => CompareAtomTypes (at_Type a) Seperator = false) l -> l <> [] ->
  next_atoms (l ++ rest) = l ++ rest.
Proof.
  destruct l as [|a l]; [done|]. intros [Ha _]%Forall_cons _. simpl. destruct (l ++ rest); [done|]. by rewrite Ha.
Qed.

Lemma confirm_ok ex args rest st :
  Forall2 expects ex args -> rest <> [] -> confirm ex (next_atoms (args ++ rest)) st = Ok st.
Proof.
  intros Hf Hr. induction Hf as [|t a ex args [H1 H2] Hf IH]; [done|].
  assert (Forall (fun a => CompareAtomTypes (at_Type a) Seperator = false) (a :: args)) as Hns.
  { apply Forall_cons. split; [done|]. clear -Hf. induction Hf as [|? ? ? ? [_ H] _ IH]; [done|]. by apply Forall_cons. }
  rewrite next_atoms_stay by done. simpl. rewrite H1.
  destruct (args ++ rest) eqn:E; [by destruct args, rest|]. exact IH.
Qed.

Lemma advance_cons a l : l <> [] -> advance (a :: l) = l.
Proof. by destruct l. Qed.

(** What the instruction [o] waits for, given the flags [GetConfirm()] sets. *)
Lemma get_confirm_ok prev_atoms a o ln rest st :
  prev_atoms = a :: (arg_atom <$> line_args ln) ++ sep_atom :: rest -> rest <> [] ->
  l_op ln = o -> src1_ok (op_Src1 o) (l_src1 ln) -> reg_ok (op_Src2 o) (l_src2 ln) -> reg_ok (op_Dest o) (l_dest ln) ->
  GetConfirm prev_atoms o st = Ok (set_expect st
    (bool_decide (op_Src1 o = AtLiteral) || bool_decide (op_Src1 o = AtAddress))
    (bool_decide (op_Src1 o = AtRegister)) (bool_decide (op_Src2 o = AtRegister)) (bool_decide (op_Dest o = AtRegister))).
Proof.
  intros -> Hr <- H1 H2 H3. unfold GetConfirm. rewrite advance_cons by (by destruct (arg_atom <$> line_args ln)).
  apply confirm_ok; [|done]. unfold line_args. rewrite !fmap_app.
  assert (forall t r, reg_ok t r -> Forall2 expects (if bool_decide (t = AtRegister) then [Register] else [])
    (arg_atom <$> (AReg <$> opt_list r))) as Hreg.
  { intros t [r|]; destruct t; simpl; try done; intros _; repeat constructor. }
  assert (forall b (l : list AtomType), (if b : bool then l else []) = (if b then l else [])) as _ by done.
  rewrite app_assoc.
  apply Forall2_app; [|by apply Forall2_app; apply Hreg].
  destruct (l_src1 ln) as [[x|x|x]|], (op_Src1 (l_op ln)); simpl in H1; try done; cbn; repeat constructor.
Qed.

(** *** A whole line *)

Definition start (k : nat) (c : list Instruction) (tab : list symbol) (ops : list operand) (ins : nat)
    (fw : list (nat * nat)) : asm :=
  Asm 0 tab ops 0 [] c load (Z.of_nat k) k (load + Z.of_nat k) ins false false false false fw.

Record code_inv (k : nat) (c : list Instruction) (tab : list symbol) (fw : list (nat * nat)) : Prop := {
  ci_len : (length ls <= length c)%nat;
  ci_code : forall j ln, ls !! j = Some ln -> (j < k)%nat ->
    c !! j = Some (if decide (j ∈ fw.*1) then set_Src1 0 (compile load ls ln) else compile load ls ln);
  ci_fw : forall j i, (j, i) ∈ fw -> (j < k)%nat /\
    exists ln s, ls !! j = Some ln /\ l_src1 ln = Some (ALbl s) /\ (sy_Name <$> tab) !! i = Some s;
  ci_refs : (length fw <= length (label_refs (take k ls)))%nat;
}.

(** The state after a label: its operand is still on the stack. *)
Definition labelled (k : nat) (c : list Instruction) (tab : list symbol) (ops : list operand) (sz ins : nat)
    (fw : list (nat * nat)) : asm :=
  Asm 0 tab ops sz [] c load (Z.of_nat k) k (load + Z.of_nat k) ins false false false false fw.

Lemma atom_symbol prev s rest k c tab ops ins fw :
  sym_inv k tab -> s ∈ labels ls ->
  exists tab' ops', assemble_atom prev (Mk_atom Alpha s 0 :: rest) (start k c tab ops ins fw) =
    Ok (labelled k c tab' ops' 1 ins fw) /\ sym_inv k tab' /\ tab_le tab tab'.
Proof.
  intros Hi Hs. unfold assemble_atom. cbn [head default id at_Type at_Text].
  destruct (get_symbol k s (start k c tab ops ins fw) Hi Hs) as (i & tab1 & -> & Hi1 & _ & Hle1 & _).
  exists tab1, (<[0%nat := Operand (Some i) 0]> ops). done.
Qed.

Lemma atom_colon s rest k ln c tab ops ins fw :
  ls !! k = Some ln -> l_label ln = Some s -> sym_inv k tab ->
  exists tab', assemble_atom (Some (Mk_atom Alpha s 0)) (colon_atom :: rest) (labelled k c tab ops 1 ins fw) =
    Ok (labelled k c tab' ops 1 ins fw) /\ sym_inv (S k) tab' /\ tab_le tab tab'.
Proof.
  intros Hk El Hi.
  assert (s ∈ labels ls) as Hs by (apply list_elem_of_omap; exists ln; split; [by eapply list_elem_of_lookup_2|done]).
  unfold assemble_atom. cbn [head default id colon_atom at_Type at_Value].
  change (opr_of 23) with OprLBL. rewrite decide_True by done. cbn [at_Type at_Text].
  destruct (get_symbol k s (labelled k c tab ops 1 ins fw) Hi Hs) as (i & tab1 & -> & Hi1 & Hn1 & Hle1 & _).
  cbn [mbind result_bind].
  change (set_symbols (labelled k c tab ops 1 ins fw) tab1) with (labelled k c tab1 ops 1 ins fw).
  rewrite (sym_value_inv k (labelled k c tab1 ops 1 ins fw) i s Hi1 Hn1), (sval_before k ln s Hk El). cbn [Z.eqb negb mbind result_bind].
  exists (alter (fun y => Symbol (sy_Name y) (load + Z.of_nat k) 1) i tab1).
  split; [reflexivity|]. split; [by apply (sym_inv_define k ln s)|].
  unfold tab_le in *. pose proof (alter_names i (load + Z.of_nat k) (Some 1) tab1) as Hnames. simpl in Hnames.
  by rewrite Hnames.
Qed.

Lemma label_step prev rest k ln c tab ops ins fw :
  ls !! k = Some ln -> sym_inv k tab ->
  exists prev' tab' ops' sz', assemble_loop prev (label_atoms ln ++ rest) (start k c tab ops ins fw) =
    assemble_loop prev' rest (labelled k c tab' ops' sz' ins fw) /\ sym_inv (S k) tab' /\ tab_le tab tab'.
Proof.
  intros Hk Hi. unfold label_atoms. destruct (l_label ln) as [s|] eqn:El.
  2: { exists prev, tab, ops, 0%nat. split; [done|]. split; [by apply (sym_inv_skip k ln)|].
       exists []. by rewrite app_nil_r. }
  assert (s ∈ labels ls) as Hs.
  { apply list_elem_of_omap. exists ln. split; [by eapply list_elem_of_lookup_2|done]. }
  destruct (atom_symbol prev s (colon_atom :: rest) k c tab ops ins fw Hi Hs) as (tab1 & ops1 & E1 & Hi1 & Hle1).
  destruct (atom_colon s rest k ln c tab1 ops1 ins fw Hk El Hi1) as (tab2 & E2 & Hi2 & Hle2).
  exists (Some colon_atom), tab2, ops1, 1%nat. split; [|split; [done|]].
  - cbn [app assemble_loop]. rewrite E1. cbn [mbind result_bind]. rewrite E2. done.
  - unfold tab_le in *. by etrans.
Qed.

(** The instruction's atom opens the slot [k]. *)
Lemma op_step prev rest k ln c tab ops sz ins fw :
  ls !! k = Some ln -> (k < length c)%nat -> rest <> [] ->
  assemble_atom prev (op_atom (l_op ln) :: (arg_atom <$> line_args ln) ++ sep_atom :: rest)
    (labelled k c tab ops sz ins fw) =
  Ok (mid k c tab ops sz (Instr 0 0 (op_Number (l_op ln)) 0 0)
    (bool_decide (op_Src1 (l_op ln) = AtLiteral) || bool_decide (op_Src1 (l_op ln) = AtAddress))
    (bool_decide (op_Src1 (l_op ln) = AtRegister)) (bool_decide (op_Src2 (l_op ln) = AtRegister))
    (bool_decide (op_Dest (l_op ln) = AtRegister)) fw).
Proof.
  intros Hk Hkc Hr. pose proof (so_lines _ _ Hok) as Hl. rewrite Forall_lookup in Hl.
  destruct (Hl k ln Hk) as (Ho & H1 & H2 & H3 & _). destruct (opcode_word _ Ho) as (_ & _ & Hnth).
  set (atoms := op_atom (l_op ln) :: _). unfold assemble_atom.
  change (default NewAtom (head atoms)) with (op_atom (l_op ln)). cbn [op_atom at_Type at_Value].
  rewrite Nat2Z.id, Hnth. cbn [labelled a_code a_index].
  rewrite (proj2 (Nat.leb_gt _ _)) by done. cbv zeta.
  rewrite (get_confirm_ok atoms (op_atom (l_op ln)) (l_op ln) ln rest) by done.
  cbn [mbind result_bind]. unfold on_inst. cbn [a_inst set_expect set_place set_code a_code].
  rewrite length_insert, (proj2 (Nat.ltb_lt k _)) by done. cbn [mbind result_bind]. unfold mid, set_place, set_code.
  cbn. f_equal. rewrite alter_insert_code by done.
  pose proof (so_load _ _ Hok). pose proof (so_fits _ _ Hok). apply lookup_lt_Some in Hk.
  rewrite s32_id by lia. f_equal; lia.
Qed.

Lemma sep_step prev rest k c tab ops sz i fw :
  assemble_atom prev (sep_atom :: rest) (mid k c tab ops sz i false false false false fw) =
  Ok (start (S k) (<[k := i]> c) tab ops k fw).
Proof. reflexivity. Qed.

Lemma label_refs_take k ln : ls !! k = Some ln ->
  label_refs (take (S k) ls) =
    label_refs (take k ls) ++ match l_src1 ln with Some (ALbl s) => [s] | _ => [] end.
Proof.
  intros Hk. unfold label_refs. rewrite (take_S_r _ _ _ Hk), omap_app. f_equal. simpl.
  by destruct (l_src1 ln) as [[]|].
Qed.

Lemma label_refs_prefix k : (length (label_refs (take k ls)) <= length (label_refs ls))%nat.
Proof.
  assert (label_refs ls = label_refs (take k ls) ++ label_refs (drop k ls)) as ->
    by (unfold label_refs; rewrite <- omap_app; by rewrite take_drop).
  rewrite length_app. lia.
Qed.

(** A new reference has room in the table. *)
Lemma refs_room k ln (fw : list (nat * nat)) s :
  ls !! k = Some ln -> l_src1 ln = Some (ALbl s) -> (length fw <= length (label_refs (take k ls)))%nat ->
  (S (length fw) < FORWARD_REFS)%nat.
Proof.
  intros Hk Hs Hf. pose proof (label_refs_take k ln Hk) as Ht. rewrite Hs in Ht.
  pose proof (label_refs_prefix (S k)) as Hp. rewrite Ht, length_app in Hp. simpl in Hp.
  pose proof (so_refs _ _ Hok). lia.
Qed.

Lemma code_inv_step k ln c tab tab' fw fw' v :
  ls !! k = Some ln -> code_inv k c tab fw -> tab_le tab tab' ->
  fwd_entry k fw fw' tab' (l_src1 ln) v ->
  code_inv (S k) (<[k := set_Src1 v (compile load ls ln)]> c) tab' fw'.
Proof.
  intros Hk [L C F R] Hle Hf. pose proof (lookup_lt_Some _ _ _ Hk) as Hlt.
  assert (k ∉ fw.*1) as Hnew.
  { intros ([j i] & -> & Hj)%list_elem_of_fmap. destruct (F j i Hj). simpl in *. lia. }
  assert (forall j, j <> k -> (j ∈ fw'.*1 <-> j ∈ fw.*1)) as Hother.
  { intros j Hj. destruct Hf as [[-> _]|(s & i & _ & -> & _)]; [done|]. rewrite fmap_app, elem_of_app. simpl.
    rewrite list_elem_of_singleton. naive_solver. }
  split.
  - rewrite length_insert. done.
  - intros j lj Hj Hjk. destruct (decide (j = k)) as [->|Hne].
    + simplify_eq. rewrite list_lookup_insert_eq by lia. f_equal.
      destruct Hf as [[-> ->]|(s & i & Hs & -> & -> & _)].
      * rewrite decide_False by done. done.
      * rewrite decide_True; [done|]. rewrite fmap_app, elem_of_app. right. simpl. apply list_elem_of_here.
    + rewrite list_lookup_insert_ne by done. rewrite (C j lj Hj) by lia. f_equal.
      destruct (decide (j ∈ fw.*1)) as [Hin|Hin].
      * by rewrite decide_True by (by apply Hother).
      * by rewrite decide_False by (by rewrite Hother).
  - assert (forall j i, (j, i) ∈ fw -> (j < S k)%nat /\ exists ln s,
      ls !! j = Some ln /\ l_src1 ln = Some (ALbl s) /\ (sy_Name <$> tab') !! i = Some s) as Hold.
    { intros j i Hj. destruct (F j i Hj) as (H1 & lj & s & H2 & H3 & H4). split; [lia|].
      exists lj, s. split_and!; [done|done|]. by apply (tab_le_lookup tab). }
    intros j i Hj. destruct Hf as [[-> _]|(s & q & Hs & -> & _ & Hq)]; [by apply Hold|].
    apply elem_of_app in Hj as [Hj|Hj]; [by apply Hold|]. apply list_elem_of_singleton in Hj. simplify_eq.
    split; [lia|]. by exists ln, s.
  - rewrite (label_refs_take k ln Hk), length_app.
    destruct Hf as [[-> _]|(s & q & -> & -> & _)]; [lia|]. rewrite length_app. simpl. lia.
Qed.

Lemma line_step prev rest k ln c tab ops ins fw :
  ls !! k = Some ln -> sym_inv k tab -> code_inv k c tab fw -> rest <> [] ->
  exists prev' c' tab' ops' ins' fw',
    assemble_loop prev (line_atoms ln ++ rest) (start k c tab ops ins fw) =
    assemble_loop prev' rest (start (S k) c' tab' ops' ins' fw') /\
    sym_inv (S k) tab' /\ code_inv (S k) c' tab' fw' /\ length c' = length c.
Proof.
  intros Hk Hi Hc Hr. pose proof (so_lines _ _ Hok) as Hl. rewrite Forall_lookup in Hl.
  destruct (Hl k ln Hk) as (_ & H1 & H2 & H3 & _ & H4).
  assert (k < length c)%nat as Hkc by (apply lookup_lt_Some in Hk; pose proof (ci_len _ _ _ _ Hc); lia).
  unfold line_atoms. rewrite <- app_assoc, <- app_comm_cons, <- app_assoc. cbn [app].
  destruct (label_step prev (op_atom (l_op ln) :: (arg_atom <$> line_args ln) ++ sep_atom :: rest)
    k ln c tab ops ins fw Hk Hi) as (p1 & tab1 & ops1 & sz1 & -> & Hi1 & Hle1).
  cbn [assemble_loop]. rewrite op_step by done. cbn [mbind result_bind].
  unfold line_args. rewrite fmap_app, <- app_assoc.
  destruct (args_src1 k c Hkc (Some (op_atom (l_op ln)))
    ((arg_atom <$> ((AReg <$> opt_list (l_src2 ln)) ++ (AReg <$> opt_list (l_dest ln)))) ++ sep_atom :: rest)
    tab1 ops1 sz1 (bool_decide (op_Src2 (l_op ln) = AtRegister)) (bool_decide (op_Dest (l_op ln) = AtRegister))
    fw (op_Src1 (l_op ln)) (l_src1 ln) (op_Number (l_op ln)) H1) as (p2 & tab2 & fw2 & v & -> & Hi2 & Hle2 & Hf);
    [|done|].
  { intros s Hs. split; [by apply H4|]. by apply (refs_room k ln fw s); [done|done|apply (ci_refs _ _ _ _ Hc)]. }
  destruct (args_regs k c Hkc p2 (sep_atom :: rest) tab2 ops1 sz1 (Instr 0 0 (op_Number (l_op ln)) 0 v)
    (bool_decide (op_Src2 (l_op ln) = AtRegister)) (bool_decide (op_Dest (l_op ln) = AtRegister))
    fw2 _ _ _ _ H2 H3 eq_refl eq_refl eq_refl eq_refl) as (p3 & ->).
  cbn [i_Number i_Crc i_Src1 assemble_loop]. rewrite sep_step. cbn [mbind result_bind].
  exists (Some sep_atom), (<[k := set_Src1 v (compile load ls ln)]> c), tab2, ops1, k, fw2. split_and!; [done|done| |].
  - apply (code_inv_step k ln c tab tab2 fw fw2 v); [done|done| |done]. unfold tab_le in *. by etrans.
  - by rewrite length_insert.
Qed.

Lemma lines_step m prev rest k c tab ops ins fw :
  (m + k = length ls)%nat -> sym_inv k tab -> code_inv k c tab fw -> rest <> [] ->
  exists prev' c' tab' ops' ins' fw',
    assemble_loop prev (flat_map line_atoms (drop k ls) ++ rest) (start k c tab ops ins fw) =
    assemble_loop prev' rest (start (length ls) c' tab' ops' ins' fw') /\
    sym_inv (length ls) tab' /\ code_inv (length ls) c' tab' fw' /\ length c' = length c.
Proof.
  revert prev k c tab ops ins fw. induction m as [|m IH]; intros prev k c tab ops ins fw Hm Hi Hc Hr.
  - simpl in Hm. subst k. rewrite drop_all. by exists prev, c, tab, ops, ins, fw.
  - destruct (lookup_lt_is_Some_2 ls k ltac:(lia)) as [ln Hk]. rewrite (drop_S _ _ _ Hk). cbn [flat_map].
    rewrite <- app_assoc.
    destruct (line_step prev (flat_map line_atoms (drop (S k) ls) ++ rest) k ln c tab ops ins fw Hk Hi Hc)
      as (p1 & c1 & tab1 & ops1 & ins1 & fw1 & -> & Hi1 & Hc1 & Hlen1); [by destruct (flat_map _ _), rest|].
    destruct (IH p1 (S k) c1 tab1 ops1 ins1 fw1) as (p2 & c2 & tab2 & ops2 & ins2 & fw2 & E & Hi2 & Hc2 & Hlen2);
      [lia|done|done|done|].
    exists p2, c2, tab2, ops2, ins2, fw2. split_and!; [exact E|done|done|congruence].
Qed.

(** *** Pass 2 *)

Lemma alter_twice_src1 (v : Z) j (c : list Instruction) q :
  alter (set_Src1 v) j c !! q = (if decide (q = j) then set_Src1 v <$> c !! q else c !! q).
Proof.
  destruct (decide (q = j)) as [->|]; [by rewrite list_lookup_alter_eq|by rewrite list_lookup_alter_ne].
Qed.

Lemma set_Src1_twice v w i : set_Src1 v (set_Src1 w i) = set_Src1 v i.
Proof. done. Qed.

(** Every forward reference is to the label its instruction names, so filling
    them in gives the program. *)
Lemma fill_lookup (val : nat -> Z) (fw : list (nat * nat)) (c : list Instruction) (q : nat) :
  (forall j i, (j, i) ∈ fw -> forall i', (j, i') ∈ fw -> val i' = val i) ->
  foldl (fun code f => alter (set_Src1 (val f.2)) f.1 code) c fw !! q =
    match list_find (fun f => f.1 = q) fw with
    | Some (_, f) => set_Src1 (val f.2) <$> c !! q
    | None => c !! q
    end.
Proof.
  revert c. induction fw as [|[j i] fw IH]; intros c H; [done|]. cbn [foldl fst snd].
  rewrite IH by (intros j' a Ha b Hb; apply (H j'); by apply list_elem_of_further).
  rewrite alter_twice_src1. cbn [list_find fst].
  destruct (list_find (fun f => f.1 = q) fw) as [[n [j' i']]|] eqn:E.
  - apply list_find_Some in E as (Hn & Hq & _). simpl in Hq. subst j'. cbn [snd].
    destruct (decide (q = j)) as [->|Hne].
    + rewrite decide_True by done. cbn [snd]. destruct (c !! j); [|done]. simpl.
      rewrite set_Src1_twice. do 2 f_equal. apply (H j); [apply list_elem_of_here|]. apply list_elem_of_further.
      by eapply list_elem_of_lookup_2.
    + rewrite decide_False by done. done.
  - destruct (decide (q = j)) as [->|Hne]; [by rewrite decide_True by done|by rewrite decide_False by done].
Qed.

Lemma resolve_code c tab ops ins fw j ln :
  sym_inv (length ls) tab -> code_inv (length ls) c tab fw -> ls !! j = Some ln ->
  a_code (resolve (start (length ls) c tab ops ins fw)) !! j = Some (compile load ls ln).
Proof.
  intros Hi Hc Hj. pose proof (lookup_lt_Some _ _ _ Hj) as Hlt. destruct Hc as [_ C F _].
  set (st := start (length ls) c tab ops ins fw).
  assert (forall j i lj s, (j, i) ∈ fw -> ls !! j = Some lj -> l_src1 lj = Some (ALbl s) ->
    sym_value i st = label_addr load ls s) as Hval.
  { intros j' i lj s Hin Hlj Hs. destruct (F _ _ Hin) as (_ & l2 & s2 & H1 & H2 & H3).
    assert (l2 = lj) as -> by congruence. assert (s2 = s) as -> by congruence.
    rewrite (sym_value_inv (length ls) st i s Hi H3). unfold sval, label_addr.
    assert (s ∈ labels ls) as Hlab.
    { pose proof (so_lines _ _ Hok) as Hl. rewrite Forall_lookup in Hl. destruct (Hl _ _ H1) as (_ & _ & _ & _ & _ & H). by apply H. }
    destruct (label_index_defined s Hlab) as [q Eq]. rewrite Eq. simpl.
    apply label_index_lookup in Eq as (lq & Hq & _). apply lookup_lt_Some in Hq. by rewrite (proj2 (Nat.ltb_lt q _)). }
  unfold resolve. cbn [a_code set_code]. change (a_code st) with c. change (a_forward st) with fw.
  rewrite (fill_lookup (fun i => sym_value i st)).
  2: { intros a i Ha i' Ha'. destruct (F _ _ Ha) as (_ & la & s & H1 & H2 & _).
       by rewrite (Hval a i la s), (Hval a i' la s). }
  destruct (list_find (fun f => f.1 = j) fw) as [[n [j' i]]|] eqn:E.
  - apply list_find_Some in E as (Hn & Hjj & _). simpl in Hjj. subst j'. cbn [snd].
    assert ((j, i) ∈ fw) as Hin by (by eapply list_elem_of_lookup_2). rewrite (C j ln Hj Hlt).
    rewrite decide_True by (apply list_elem_of_fmap; by exists (j, i)). simpl.
    destruct (F _ _ Hin) as (_ & l2 & s & H1 & H2 & _).
    assert (l2 = ln) as -> by congruence. rewrite (Hval j i ln s) by done.
    unfold compile, set_Src1. rewrite H2. done.
  - rewrite (C j ln Hj Hlt). rewrite decide_False; [done|].
    intros ([a b] & -> & Hab)%list_elem_of_fmap. apply list_find_None in E. rewrite Forall_forall in E.
    by apply (E (a, b)).
Qed.

(** *** The whole source *)

Definition source_atoms : list Atom :=
  Mk_atom Numeric [] load :: colon_atom :: sep_atom :: flat_map line_atoms ls ++ [NewAtom].

Lemma line_args_ok ln : line_ok ls ln -> Forall arg_ok (line_args ln).
Proof.
  intros (_ & H2 & H3 & H4 & _ & H6). unfold line_args.
  assert (forall t r, reg_ok t r -> Forall arg_ok (AReg <$> opt_list r)) as Hr.
  { intros t [r|] Hr; simpl; [|done]. apply Forall_singleton. by destruct t. }
  apply Forall_app; split; [|apply Forall_app; split; eapply Hr; eassumption].
  destruct (l_src1 ln) as [[n|r|s]|]; simpl; [..|done]; apply Forall_singleton; simpl.
  - by destruct (op_Src1 (l_op ln)).
  - by destruct (op_Src1 (l_op ln)).
  - pose proof (so_lines _ _ Hok) as Hf. rewrite Forall_forall in Hf.
    specialize (H6 s eq_refl). apply list_elem_of_omap in H6 as (l2 & Hin & Hlab).
    destruct (Hf l2 Hin) as (_ & _ & _ & _ & H5' & _). by apply H5'.
Qed.

Lemma source_lex : GetAtoms (Z.of_nat (length (source_of load ls))) (source_of load ls) 0 = Ok (Some source_atoms, 0).
Proof.
  pose proof (so_load _ _ Hok). pose proof (so_fits _ _ Hok).
  assert (Lex (Z.of_nat (length (source_of load ls))) (source_of load ls)
    (Mk_atom Numeric [] (s32 (u32 load)) :: colon_atom :: sep_atom :: flat_map line_atoms ls)) as Hl.
  { unfold source_of. apply lex_num; [done|]. cbn [app]. apply lex_colon; [done|]. apply lex_nl, lex_lines.
    pose proof (so_lines _ _ Hok) as Hf. eapply Forall_impl; [exact Hf|].
    intros ln Hln. split; [apply Hln|]. split; [by apply line_args_ok|apply Hln]. }
  rewrite s32_u32_id in Hl by lia. unfold GetAtoms.
  change (cur (source_of load ls) =? 46) with false. cbv iota. 
  rewrite Hl by lia. done.
Qed.

(** The characters of a program, by the words it is made of. *)
Definition plain (s : text) : Prop := Forall (fun c => c <> 0 /\ c <> 255) s.

Lemma plain_word s : Forall (fun c => word_char c = true) s -> plain s.
Proof.
  intros Hs. eapply Forall_impl; [exact Hs|]. intros c Hc. split; intros ->; vm_compute in Hc; discriminate.
Qed.

Lemma plain_source_text s : plain s -> source_text s = s.
Proof.
  induction 1 as [|c s [H1 H2] _ IH]; [done|]. simpl.
  rewrite (proj2 (Z.eqb_neq c 255)), (proj2 (Z.eqb_neq c 0)) by done. simpl. by rewrite IH.
Qed.

Lemma to_digits_hi b fuel n : 2 <= b <= 16 -> 0 <= n -> Forall (fun c => c <= 102) (to_digits b fuel n).
Proof.
  intros Hb. assert (forall d, d < 16 -> digit_char d <= 102) as Hd by (intros d; unfold digit_char; destruct (Z.ltb_spec d 10); lia).
  revert n. induction fuel as [|fuel IH]; intros n Hn; simpl; [done|].
  destruct (Z.ltb_spec n b).
  - constructor; [apply Hd; lia|constructor].
  - apply Forall_app. split; [apply IH; apply Z.div_pos; lia|].
    constructor; [apply Hd; pose proof (Z.mod_pos_bound n b); lia|constructor].
Qed.

Lemma plain_hexnum n : plain (hexnum n).
Proof.
  unfold hexnum, print_hex. pose proof (u32_range n) as Hu. unfold is_u32 in Hu.
  apply Forall_app. split; [by repeat constructor|].
  pose proof (to_digits_lo 16 32 (u32 n) ltac:(lia) ltac:(lia)) as H1.
  pose proof (to_digits_hi 16 32 (u32 n) ltac:(lia) ltac:(lia)) as H2.
  rewrite Forall_forall in H1, H2 |- *. intros c Hc. specialize (H1 c Hc). specialize (H2 c Hc). lia.
Qed.

Lemma plain_source : plain (source_of load ls).
Proof.
  unfold source_of. apply Forall_app. split; [apply plain_hexnum|]. cbn [app].
  apply Forall_cons. split; [done|]. apply Forall_cons. split; [done|].
  pose proof (so_lines _ _ Hok) as Hf.
  apply List.Forall_flat_map. eapply Forall_impl; [exact Hf|]. intros ln Hln. pose proof (line_args_ok ln Hln) as Hargs.
  destruct Hln as (H1 & _ & _ & _ & H5 & _).
  unfold line_text, label_text. destruct (opcode_word (l_op ln) H1) as ((_ & Hop & _)%word_check_ok & _).
  apply Forall_app. split.
  { destruct (l_label ln) as [s|]; [|done]. destruct (H5 s eq_refl) as (_ & Hs & _).
    apply Forall_app. split; [by apply plain_word|by repeat constructor]. }
  apply Forall_cons. split; [done|]. apply Forall_app. split; [by apply plain_word|].
  apply Forall_app. split; [|by repeat constructor].
  apply List.Forall_flat_map. eapply Forall_impl; [exact Hargs|]. intros a Ha. apply Forall_cons. split; [done|].
  destruct a as [n|r|s]; simpl in *; [apply plain_hexnum| |apply plain_word, Ha].
  destruct (register_word r Ha) as [(_ & Hw & _)%word_check_ok _]. by apply plain_word.
Qed.

Lemma count_lines_app s t : count_lines (s ++ t) = (count_lines s + count_lines t)%nat.
Proof.
  unfold count_lines, text in *. rewrite (list.filter_app (fun c => c = NL) s t). apply length_app.
Qed.

Lemma count_lines_line ln : (1 <= count_lines (line_text ln))%nat.
Proof.
  unfold line_text. rewrite app_comm_cons, !app_assoc, count_lines_app. change (count_lines [NL]) with 1%nat. lia.
Qed.

Lemma source_capacity : (S (length ls) <= count_lines (source_of load ls))%nat.
Proof.
  unfold source_of. rewrite !count_lines_app. change (count_lines [COLON; NL]) with 1%nat.
  assert (forall l : list line, (length l <= count_lines (flat_map line_text l))%nat) as Hl; [|specialize (Hl ls); lia].
  induction l as [|ln l IH]; [done|]. simpl. rewrite count_lines_app. pose proof (count_lines_line ln). lia.
Qed.

Lemma assemble_program mem :
  (length ls < length mem)%nat ->
  exists c tab ops ins fw, Assemble (Z.of_nat (length (source_of load ls))) (source_of load ls) mem = Ok (start (length ls) c tab ops ins fw) /\
    sym_inv (length ls) tab /\ code_inv (length ls) c tab fw.
Proof.
  intros Hmem. pose proof (so_load _ _ Hok). pose proof (so_fits _ _ Hok).
  unfold Assemble. rewrite source_lex. cbn [mbind result_bind]. unfold on_inst at 1. cbn [a_inst a_code].
  rewrite (proj2 (Nat.ltb_lt 0 _)) by lia. cbn [mbind result_bind].
  set (c0 := alter (fun _ => inst_zero) 0%nat mem).
  assert (length c0 = length mem) as Hc0 by apply length_alter.
  set (ops := <[0%nat := Operand None load]> (replicate OPERAND_STACK operand_zero)).
  unfold source_atoms. cbn [assemble_loop].
  assert (forall rest, assemble_atom None (Mk_atom Numeric [] load :: rest)
    (Asm 0 [] (replicate OPERAND_STACK operand_zero) 0 [] c0 0 0 0 0 0 false false false false []) =
    Ok (Asm 0 [] ops 1 [] c0 0 0 0 0 0 false false false false [])) as Hnum by done.
  assert (forall rest, assemble_atom (Some (Mk_atom Numeric [] load)) (colon_atom :: rest)
    (Asm 0 [] ops 1 [] c0 0 0 0 0 0 false false false false []) =
    Ok (Asm 0 [] ops 1 [] c0 load 0 0 load 0 false false false false [])) as Hcolon.
  { intros rest. unfold assemble_atom. cbn [head default id colon_atom at_Type at_Value].
    change (opr_of 23) with OprLBL. rewrite decide_True by done. cbn [at_Type a_pc Z.eqb set_place at_Value].
    unfold set_place. cbn. rewrite u32_id; [done|unfold is_u32; lia]. }
  assert (forall prev rest, assemble_atom prev (sep_atom :: rest)
    (Asm 0 [] ops 1 [] c0 load 0 0 load 0 false false false false []) = Ok (start 0 c0 [] ops 0 [])) as Hsep.
  { intros prev rest. unfold start. rewrite Z.add_0_r. done. }
  change (set_code _ c0) with (Asm 0 [] (replicate OPERAND_STACK operand_zero) 0 [] c0 0 0 0 0 0 false false false false []).
  rewrite Hnum. cbn [mbind result_bind]. rewrite Hcolon. cbn [mbind result_bind]. rewrite Hsep. cbn [mbind result_bind].
  destruct (lines_step (length ls) (Some sep_atom) [NewAtom] 0 c0 [] ops 0 []) as
    (p & c & tab & ops' & ins & fw & E & Hi & Hc & Hlen); [lia| | |done|].
  - split; [apply NoDup_nil_2| |apply Forall_nil_2|lia]. intros s Hs. by apply elem_of_nil in Hs.
  - split; [lia|lia| |simpl; lia]. intros j i Hj. by apply elem_of_nil in Hj.
  - rewrite drop_0 in E. rewrite E. exists c, tab, ops', ins, fw. split; [|done]. done.
Qed.

Lemma compile_inst_ok j ln : ls !! j = Some ln -> inst_ok (compile load ls ln).
Proof.
  intros Hj. pose proof (so_load _ _ Hok). pose proof (so_fits _ _ Hok).
  pose proof (so_lines _ _ Hok) as Hl. rewrite Forall_lookup in Hl.
  destruct (Hl j ln Hj) as (Ho & H1 & H2 & H3 & _ & _).
  assert (0 <= op_Number (l_op ln) < 256) as Hn.
  { assert (forallb (fun o => (0 <=? op_Number o) && (op_Number o <? 256)) InstructionSet = true) as Hf
      by (vm_compute; reflexivity).
    rewrite forallb_forall in Hf. specialize (Hf (l_op ln)). rewrite <- list_elem_of_In in Hf.
    specialize (Hf Ho). lia. }
  assert (forall t r, reg_ok t r -> 0 <= default 0 r < 256) as Hr by (intros [] [r|]; simpl; lia || done).
  unfold inst_ok, compile. cbn [i_Dest i_Src2 i_Number i_Crc i_Src1].
  assert (- 2 ^ 31 <= default 0 (arg_value load ls <$> l_src1 ln) < 2 ^ 31); [|by split_and!; (eapply Hr; eassumption) || lia].
  destruct (l_src1 ln) as [[n|r|s]|]; cbn [fmap option_fmap option_map from_option id arg_value].
  - destruct (op_Src1 (l_op ln)); simpl in H1; lia || done.
  - destruct (op_Src1 (l_op ln)); simpl in H1; lia || done.
  - unfold label_addr. destruct (label_index ls s) as [q|] eqn:E; simpl; [|lia].
    apply label_index_lookup in E as (lq & Hq & _). apply lookup_lt_Some in Hq. lia.
  - lia.
Qed.

(** The object file of the source is that of the program it denotes. *)
Lemma assemble_object mem :
  exists p f, assemble_source (source_of load ls) mem = Ok (0, p) /\ WriteObject p = Some f /\
    WriteObject (Program_buf load (Z.of_nat (length ls)) (compile load ls <$> ls)) = Some f.
Proof.
  unfold assemble_source. rewrite (plain_source_text _ plain_source).
  pose proof source_capacity as Hcap.
  destruct (assemble_program (replicate (count_lines (source_of load ls)) mem)) as (c & tab & ops & ins & fw & -> & Hi & Hc).
  { rewrite length_replicate. lia. }
  cbn [mbind result_bind]. change (a_errors (start _ c tab ops ins fw) =? 0) with true. cbv iota zeta.
  pose proof (fun j ln => resolve_code c tab ops ins fw j ln Hi Hc) as Hcode.
  set (st := resolve _) in *. change (a_errors st) with 0. change (a_load st) with load.
  change (a_count st) with (Z.of_nat (length ls)).
  assert (firstn (length ls) (a_code st) = (compile load ls <$> ls)) as Hf.
  { apply list_eq. intros j. rewrite list_lookup_fmap. destruct (ls !! j) as [ln|] eqn:E; simpl.
    - rewrite lookup_take_lt by (by eapply lookup_lt_Some). by apply Hcode.
    - apply lookup_ge_None in E. apply lookup_take_ge. lia. }
  assert (length ls <= length (a_code st))%nat as Hlen.
  { pose proof (f_equal length Hf) as Hl. rewrite length_take, length_fmap in Hl. lia. }
  exists (Program_buf load (Z.of_nat (length ls)) (a_code st)).
  assert (forall code, (length ls <= length code)%nat -> firstn (length ls) code = (compile load ls <$> ls) ->
    WriteObject (Program_buf load (Z.of_nat (length ls)) code) =
    Some (hexnum load ++ [SP] ++ hexnum (Z.of_nat (length ls)) ++ [NL] ++ flat_map write_inst (compile load ls <$> ls))) as Hw.
  { intros code Hl He. unfold WriteObject. cbn [LoadAddress InstructionCount Program].
    rewrite (proj2 (Z.ltb_ge _ _)) by lia. by rewrite Nat2Z.id, He. }
  eexists. split; [done|]. split; [by apply Hw|]. apply Hw; [by rewrite length_fmap|].
  rewrite <- (length_fmap (compile load ls) ls) at 1. apply firstn_all.
Qed.
End Assembly.

(** C21: a source program within the limits of the assembler's tables, its
    labels used before or after their definition, assembles without error, and
    the object file written for it reads back as the program it denotes: one
    instruction per line, each label replaced by the address of its line. *)
Theorem assemble_roundtrip load ls mem code mem' :
  source_ok load ls ->
  exists p f, assemble_source (source_of load ls) mem = Ok (0, p) /\ WriteObject p = Some f /\
    ReadObject f code mem' = Program_buf load (Z.of_nat (length ls)) (compile load ls <$> ls).
Proof.
  intros Hok. destruct (assemble_object load ls Hok mem) as (p & f & Ha & Hw & Hw'). exists p, f.
  split; [done|split; [done|]]. apply object_reads_back; [|done].
  pose proof (so_load _ _ Hok). pose proof (so_fits _ _ Hok).
  unfold program_ok, is_u32. cbn [LoadAddress InstructionCount Program]. rewrite length_fmap.
  split_and!; [lia|lia|lia|lia|done|]. apply Forall_fmap, Forall_lookup. intros j ln Hj. by apply (compile_inst_ok load ls Hok j).
Qed.

(** A loop with a forward and a backward jump. *)
Definition opcode (n : Z) : OpCode :=
  default (Opcode [] 0 AtNothing AtNothing AtNothing) (snd <$> list_find (fun o => op_Number o = n) InstructionSet).

Definition demo_source : list line :=
  [Line None (opcode MOVV) (Some (ALit (-5))) None (Some 225);
   Line (Some (txt "AGAIN")) (opcode JMP) (Some (ALbl (txt "DONE"))) None None;
   Line None (opcode JMP) (Some (ALbl (txt "AGAIN"))) None None;
   Line (Some (txt "DONE")) (opcode HALT) None None None].

Lemma demo_source_ok : source_ok 0x100 demo_source.
Proof.
  split.
  - repeat (apply Forall_cons; split); try apply Forall_nil_2; unfold line_ok;
      (split; [apply list_elem_of_In; vm_compute; intuition congruence|]);
      (split; [vm_compute; intuition congruence|]); (split; [vm_compute; intuition congruence|]);
      (split; [vm_compute; intuition congruence|]); split; simpl; intros s Hs; try discriminate Hs;
      injection Hs as <-; try (apply list_elem_of_In; vm_compute; intuition congruence).
    all: unfold symbol_ok; split; [vm_compute; reflexivity|]; split; [repeat constructor|];
      split; [vm_compute; lia|]; split; vm_compute; reflexivity.
  - apply (bool_decide_unpack _). vm_compute. exact I.
  - vm_compute. lia.
  - vm_compute. lia.
  - lia.
  - simpl. lia.
Qed.

Lemma assemble_roundtrip_witness :
  exists p f, assemble_source (source_of 0x100 demo_source) inst_zero = Ok (0, p) /\ WriteObject p = Some f /\
    ReadObject f (Program_buf 0 0 []) inst_zero =
      Program_buf 0x100 4 [Instr 225 0 MOVV 0 (-5); Instr 0 0 JMP 0 0x103; Instr 0 0 JMP 0 0x101; Instr 0 0 HALT 0 0].
Proof.
  destruct (assemble_roundtrip 0x100 demo_source inst_zero (Program_buf 0 0 []) inst_zero demo_source_ok)
    as (p & f & H1 & H2 & H3).
  exists p, f. split; [exact H1|]. split; [exact H2|]. rewrite H3. vm_compute. reflexivity.
Defined.

(** ** Texts that are not such programs *)

Definition source_lines (l : list String.string) : text := flat_map (fun s => txt s ++ [NL]) l.

(** The number of errors and the instructions written. *)
Definition assembled (l : list String.string) : option (Z * list Instruction) :=
  match assemble_source (source_lines l) inst_zero with
  | Ok (e, p) => Some (e, firstn (Z.to_nat (InstructionCount p)) (Program p))
  | _ => None
  end.

(** An expression is an error as operand although [CompareAtomTypes()] has a
    case for it, and its value is read one slot above the top of the operand
    stack: the last operand popped. *)
Lemma expression_operand_rejected :
  assembled ["MOVV ( 1 + 2 ) LR1"; "HALT"]%string = Some (1, [Instr 225 0 MOVV 0 2; Instr 0 0 HALT 0 0]).
Proof. vm_compute. reflexivity. Qed.

(** A parenthesised expression on a line of its own writes the operand of the
    instruction before it. *)
Lemma expression_overwrites_operand :
  assembled ["MOVV 7 LR1"; "( A := 5 )"; "HALT"]%string = Some (0, [Instr 225 0 MOVV 0 5; Instr 0 0 HALT 0 0]).
Proof. vm_compute. reflexivity. Qed.

(** A label that is never defined is the address 0, without an error. *)
Lemma undefined_label_is_zero :
  assembled ["JMP NOWHERE"; "HALT"]%string = Some (0, [Instr 0 0 JMP 0 0; Instr 0 0 HALT 0 0]).
Proof. vm_compute. reflexivity. Qed.

(** The closing mark of a comment opens the next one: the rest of the line is
    not assembled. *)
Lemma comment_swallows_line :
  assembled ["% comment % MOVV 7 LR1"; "HALT"]%string = Some (0, [Instr 0 0 HALT 0 0]).
Proof. vm_compute. reflexivity. Qed.
