(* ===== verification/CdcmSem.v ===== *)
(** * Semaphores of the LynxOS emulation ([cdcm/cdcmTime.c])

    A semaphore is a count and a FIFO list of waiting tasks, both under one
    spinlock: every critical section is one operation here.  A task that blocks
    in [__cdcm_down_common()] is on the list until [__cdcm_up_waiter()] takes it
    off (it then returns 0), or until it takes itself off on a timeout or a
    signal.  A kernel thread that is being stopped also returns 0, without
    leaving the list. *)

From S2P Require Import Prelude.

Record cdcm_sem := Sem { count : Z; wait_list : list nat }.

Definition cdcm_sem_init (val : Z) : cdcm_sem := Sem val [].

(** [cdcm_down()], [cdcm_down_interruptible()], [cdcm_down_timeout()] up to the
    point where the task has the semaphore ([true]) or waits for it. *)
Definition cdcm_down (task : nat) (sem : cdcm_sem) : bool * cdcm_sem :=
  if 0 <? count sem then (true, Sem (count sem - 1) (wait_list sem))
  else (false, Sem (count sem) (wait_list sem ++ [task])).

Definition cdcm_down_trylock (sem : cdcm_sem) : Z * cdcm_sem :=
  let c := count sem - 1 in
  (if c <? 0 then 1 else 0, if 0 <=? c then Sem c (wait_list sem) else sem).

(** [timed_out:] and [interrupted:]: the waiter takes itself off the list. *)
Definition leave_wait (task : nat) (sem : cdcm_sem) : cdcm_sem :=
  Sem (count sem) (filter (fun t => t <> task) (wait_list sem)).

(** The first waiter, taken off the list; the list is not empty where the code
    calls it. *)
Definition __cdcm_up_waiter (sem : cdcm_sem) : list nat * cdcm_sem :=
  match wait_list sem with
  | t :: l => ([t], Sem (count sem) l)
  | [] => ([], sem)
  end.

(** The tasks woken and the semaphore. *)
Definition __cdcm_up (sem : cdcm_sem) : list nat * cdcm_sem :=
  match wait_list sem with
  | [] => ([], Sem (count sem + 1) [])
  | _ => __cdcm_up_waiter sem
  end.

(** A loop of [n] rounds that wake tasks. *)
Fixpoint rounds (f : cdcm_sem -> list nat * cdcm_sem) (n : nat) (sem : cdcm_sem) : list nat * cdcm_sem :=
  match n with
  | O => ([], sem)
  | S n => let '(w, sem) := f sem in let '(w', sem) := rounds f n sem in (w ++ w', sem)
  end.

Definition ssignal (sem : cdcm_sem) : list nat * cdcm_sem := __cdcm_up sem.
Definition ssignaln (n : nat) (sem : cdcm_sem) : list nat * cdcm_sem := rounds __cdcm_up n sem.

Definition __sreset (sem : cdcm_sem) : list nat * cdcm_sem :=
  if count sem =? 0 then rounds __cdcm_up_waiter (length (wait_list sem)) sem
  else ([], Sem 0 (wait_list sem)).

Definition sreset : cdcm_sem -> list nat * cdcm_sem := __sreset.

Definition __scount (sem : cdcm_sem) : Z :=
  if 0 <? count sem then count sem else -1 * Z.of_nat (length (wait_list sem)).

(** ** Runs

    Any sequence of critical sections of tasks that wait, signal and give up. *)

Inductive sem_op :=
  | Down (task : nat)
  | TryLock (task : nat)
  | Signal (n : nat)          (* [ssignaln()]; 1 is [ssignal()] *)
  | GiveUp (task : nat)       (* a timeout or a signal *)
  | Stopped (task : nat)      (* [kthread_should_stop()] *)
  | Reset.

(** What a step gives the tasks: the semaphore at once, after a wait, or the
    end of a wait without it. *)
Inductive sem_event :=
  | Took (task : nat)
  | Queued (task : nat)
  | Woken (task : nat)
  | Gave_up (task : nat).

(** A task that waits does nothing else: [None] if it does. *)
Definition sem_step (op : sem_op) (sem : cdcm_sem) : option (list sem_event * cdcm_sem) :=
  match op with
  | Down t =>
      if bool_decide (t ∈ wait_list sem) then None else
      let '(got, sem) := cdcm_down t sem in Some ([if got : bool then Took t else Queued t], sem)
  | TryLock t =>
      if bool_decide (t ∈ wait_list sem) then None else
      let '(r, sem) := cdcm_down_trylock sem in Some (if r =? 0 then [Took t] else [], sem)
  | Signal n => let '(w, sem) := ssignaln n sem in Some (Woken <$> w, sem)
  | GiveUp t => if bool_decide (t ∈ wait_list sem) then Some ([Gave_up t], leave_wait t sem) else None
  | Stopped t => if bool_decide (t ∈ wait_list sem) then Some ([Woken t], sem) else None
  | Reset => let '(w, sem) := sreset sem in Some (Woken <$> w, sem)
  end.

Fixpoint sem_run (ops : list sem_op) (sem : cdcm_sem) : option (list sem_event * cdcm_sem) :=
  match ops with
  | [] => Some ([], sem)
  | op :: ops =>
      '(e, sem) ← sem_step op sem; '(e', sem) ← sem_run ops sem; Some (e ++ e', sem)
  end.

(** ** What a run keeps *)

Definition sem_ok (sem : cdcm_sem) : Prop :=
  0 <= count sem /\ NoDup (wait_list sem) /\ (0 < count sem -> wait_list sem = []).

Definition took (l : list sem_event) : list nat := omap (fun e => match e with Took t => Some t | _ => None end) l.
Definition queued (l : list sem_event) : list nat := omap (fun e => match e with Queued t => Some t | _ => None end) l.
Definition woken (l : list sem_event) : list nat := omap (fun e => match e with Woken t => Some t | _ => None end) l.
Definition gave_up (l : list sem_event) : list nat := omap (fun e => match e with Gave_up t => Some t | _ => None end) l.

Definition signals (ops : list sem_op) : nat := sum_list_with (fun op => match op with Signal n => n | _ => 0%nat end) ops.

Definition plain_op (op : sem_op) : Prop := match op with Stopped _ | Reset => False | _ => True end.

(** The account of events [e] between two semaphores, [n] signals given. *)
Record account (n : nat) (sem : cdcm_sem) (e : list sem_event) (sem' : cdcm_sem) : Prop := {
  ac_ok : sem_ok sem';
  ac_count : count sem' + Z.of_nat (length (took e) + length (woken e)) = count sem + Z.of_nat n;
  ac_fifo : (woken e ++ wait_list sem') `sublist_of` (wait_list sem ++ queued e);
  ac_all : wait_list sem ++ queued e ≡ₚ woken e ++ gave_up e ++ wait_list sem';
}.

Lemma woken_fmap w : woken (Woken <$> w) = w /\ took (Woken <$> w) = [] /\ queued (Woken <$> w) = [] /\ gave_up (Woken <$> w) = [].
Proof.
  unfold woken, took, queued, gave_up. induction w as [|t w (I1 & I2 & I3 & I4)]; [done|].
  simpl in *. split_and!; [f_equal|..]; done.
Qed.

Lemma took_app e e' : took (e ++ e') = took e ++ took e'. Proof. apply omap_app. Qed.
Lemma woken_app e e' : woken (e ++ e') = woken e ++ woken e'. Proof. apply omap_app. Qed.
Lemma queued_app e e' : queued (e ++ e') = queued e ++ queued e'. Proof. apply omap_app. Qed.
Lemma gave_up_app e e' : gave_up (e ++ e') = gave_up e ++ gave_up e'. Proof. apply omap_app. Qed.

Lemma account_app n m s e s1 e1 s2 : account n s e s1 -> account m s1 e1 s2 -> account (n + m) s (e ++ e1) s2.
Proof.
  intros [A1 A2 A3 A4] [B1 B2 B3 B4].
  split; rewrite ?took_app, ?woken_app, ?queued_app, ?gave_up_app, ?length_app; [done|lia| |].
  - rewrite <- app_assoc. etrans; [apply sublist_app; [reflexivity|exact B3]|].
    rewrite !app_assoc. by apply sublist_app.
  - rewrite app_assoc, A4. rewrite <- !app_assoc. rewrite B4.
    apply Permutation_app_head. rewrite !app_assoc. do 2 apply Permutation_app_tail.
    apply Permutation_app_comm.
Qed.

Lemma sem_init_ok val : 0 <= val -> sem_ok (cdcm_sem_init val).
Proof. intros H. split; [done|]. split; [apply NoDup_nil_2|done]. Qed.

Lemma account_refl s : sem_ok s -> account 0 s [] s.
Proof. intros H. split; [done|simpl; lia|simpl; by rewrite app_nil_r|simpl; by rewrite app_nil_r]. Qed.

Lemma up_account s : sem_ok s -> let '(w, s') := __cdcm_up s in account 1 s (Woken <$> w) s'.
Proof.
  intros (H1 & H2 & H3). unfold __cdcm_up. destruct (wait_list s) as [|t l] eqn:E.
  - split; simpl; rewrite ?E; [split_and!; simpl; [lia|constructor|done]|lia|done|done].
  - unfold __cdcm_up_waiter. rewrite E. apply NoDup_cons in H2 as [H2 H4].
    assert (count s = 0) as Hc by (destruct (Z.lt_trichotomy (count s) 0) as [|[|H]]; [lia|done|by specialize (H3 H)]).
    split; simpl; rewrite ?E; [split_and!; simpl; [lia|done|lia]|lia|by rewrite app_nil_r|by rewrite app_nil_r].
Qed.

Lemma signal_account n s : sem_ok s -> let '(w, s') := ssignaln n s in account n s (Woken <$> w) s'.
Proof.
  revert s. induction n as [|n IH]; intros s Hs; [by apply account_refl|].
  unfold ssignaln in *. cbn [rounds]. pose proof (up_account s Hs) as Hu. destruct (__cdcm_up s) as [w s1].
  specialize (IH s1 (ac_ok _ _ _ _ Hu)). destruct (rounds __cdcm_up n s1) as [w' s2].
  rewrite fmap_app. by apply (account_app 1 n _ _ s1).
Qed.

Lemma filter_out_perm t (l : list nat) : NoDup l -> t ∈ l -> l ≡ₚ t :: filter (fun x => x <> t) l.
Proof.
  intros Hn. induction l as [|x l IH]; intros Hin; [by apply elem_of_nil in Hin|].
  apply NoDup_cons in Hn as [Hx Hn]. destruct (decide (x = t)) as [->|Hne].
  - rewrite filter_cons_False by (intros ?; done). f_equiv.
    clear IH Hin Hn. induction l as [|y l IH]; [done|]. apply not_elem_of_cons in Hx as [Hy Hx].
    rewrite filter_cons_True by (intros ->; done). by rewrite <- IH.
  - rewrite filter_cons_True by done. rewrite Permutation_swap. f_equiv. apply IH; [done|].
    by apply elem_of_cons in Hin as [->|].
Qed.

Lemma step_account op s e s' :
  plain_op op -> sem_ok s -> sem_step op s = Some (e, s') ->
  account (match op with Signal n => n | _ => 0%nat end) s e s'.
Proof.
  intros Hp Hs Hstep. pose proof Hs as (H1 & H2 & H3). destruct op as [t|t|n|t|t|]; simpl in Hstep; try done.
  - case_bool_decide as Hin; [done|]. unfold cdcm_down in Hstep. destruct (Z.ltb_spec 0 (count s)) as [Hc|Hc]; simplify_eq.
    + rewrite (H3 Hc). split; simpl; rewrite ?(H3 Hc); [split_and!; simpl; [lia|constructor|done]|lia|done|done].
    + split; simpl; [split_and!; simpl; [lia| |lia]|lia|done|done].
      apply NoDup_app. split_and!; [done| |by apply NoDup_singleton]. intros x Hx. by intros ->%list_elem_of_singleton.
  - case_bool_decide as Hin; [done|]. unfold cdcm_down_trylock in Hstep.
    destruct (Z.ltb_spec (count s - 1) 0) as [Hc|Hc], (Z.leb_spec 0 (count s - 1)); try lia; simpl in Hstep; simplify_eq.
    + by apply account_refl.
    + rewrite (H3 ltac:(lia)). split; simpl; rewrite ?(H3 ltac:(lia)); [split_and!; simpl; [lia|constructor|done]|lia|done|done].
  - pose proof (signal_account n s Hs) as Ha. destruct (ssignaln n s) as [w s1]. simplify_eq. done.
  - case_bool_decide as Hin; [|done]. simplify_eq. unfold leave_wait. split; simpl.
    + split_and!; simpl; [lia|by apply NoDup_filter|]. intros Hc. by rewrite (H3 Hc).
    + lia.
    + rewrite app_nil_r. apply sublist_filter.
    + rewrite app_nil_r. by apply filter_out_perm.
Qed.

(** C12: however tasks wait for a semaphore, try it, give up and are signalled:
    none waits while the count is positive, every signal is either still in the
    count or went to exactly one task, waiting tasks are served in the order in
    which they came, and each of them is served, has given up or still waits. *)
Theorem semaphore_fifo ops s e s' :
  Forall plain_op ops -> sem_ok s -> sem_run ops s = Some (e, s') ->
  (0 < count s' -> wait_list s' = []) /\
  count s' + Z.of_nat (length (took e) + length (woken e)) = count s + Z.of_nat (signals ops) /\
  (woken e ++ wait_list s') `sublist_of` (wait_list s ++ queued e) /\
  wait_list s ++ queued e ≡ₚ woken e ++ gave_up e ++ wait_list s'.
Proof.
  intros Hp Hs Hr. assert (account (signals ops) s e s') as [(A1 & A2 & A3) A4 A5 A6]; [|done].
  revert s e Hs Hr. induction Hp as [|op ops Hop _ IH]; intros s e Hs Hr; simpl in Hr.
  - simplify_eq. by apply account_refl.
  - destruct (sem_step op s) as [[e1 s1]|] eqn:E1; [|done]. simpl in Hr.
    destruct (sem_run ops s1) as [[e2 s2]|] eqn:E2; [|done]. simpl in Hr. simplify_eq.
    pose proof (step_account _ _ _ _ Hop Hs E1) as Ha. unfold signals. simpl.
    apply (account_app _ _ _ _ s1); [done|]. apply (IH s1); [apply (ac_ok _ _ _ _ Ha)|done].
Qed.

Definition demo_ops : list sem_op := [Down 1; Down 2; Down 3; Down 4; GiveUp 3; Signal 2; TryLock 1].

Lemma semaphore_fifo_witness :
  exists e, sem_run demo_ops (cdcm_sem_init 1) = Some (e, Sem 0 []) /\ woken e = [2; 4]%nat /\
    0 + Z.of_nat (length (took e) + length (woken e)) = 1 + Z.of_nat 2 /\ (woken e ++ []) `sublist_of` queued e.
Proof.
  exists [Took 1; Queued 2; Queued 3; Queued 4; Gave_up 3; Woken 2; Woken 4].
  assert (sem_run demo_ops (cdcm_sem_init 1) =
    Some ([Took 1; Queued 2; Queued 3; Queued 4; Gave_up 3; Woken 2; Woken 4], Sem 0 [])) as Hr by (vm_compute; reflexivity).
  split; [exact Hr|]. split; [reflexivity|].
  destruct (semaphore_fifo demo_ops (cdcm_sem_init 1) _ _ ltac:(repeat constructor)
    ltac:(split_and!; simpl; [lia|constructor|done]) Hr) as (_ & H2 & H3 & _). split; [exact H2|exact H3].
Defined.

(** A kernel thread that stops stays on the list: the next signal is spent on
    it, and the task behind it goes on waiting. *)
Lemma stopped_waiter_takes_signal :
  sem_run [Down 1; Down 2; Stopped 1; Signal 1] (cdcm_sem_init 0) =
    Some ([Queued 1; Queued 2; Woken 1; Woken 1], Sem 0 [2%nat]).
Proof. vm_compute. reflexivity. Qed.
