(* ===== verification/SkelQueue.v ===== *)
(** * Client queues of the driver framework ([skel/driver/skeldrvr.c])

    Each client of a driver has a ring of events and a semaphore that counts
    them: the interrupt handler puts ([__q_put()]), [read()] waits for the
    semaphore and gets ([__q_get()]).  A full ring drops its oldest event and
    counts it as missed.  The ring refines a bounded list, and the interleaving
    of interrupts and readers never gets from an empty ring, as long as no read
    times out. *)

From S2P Require Import Prelude CdcmSem.

(** ** Events ([include/skel.h]) *)

Record SkelDrvrConnection := Conx { cx_Module : Z; cx_ConMask : Z }.
Record SkelDrvrTime := Time_ { Second : Z; NanoSecond : Z }.
Record SkelDrvrReadBuf := ReadBuf { rb_Connection : SkelDrvrConnection; rb_Time : SkelDrvrTime }.

Definition rb_zero : SkelDrvrReadBuf := ReadBuf (Conx 0 0) (Time_ 0 0).

(** ** The ring ([skelDrvrP.h]) *)

Record SkelDrvrQueue := Queue {
  QueueOff : Z;
  Missed : Z;                          (* U16 *)
  Size : Z;                            (* int *)
  RdPntr : nat;
  WrPntr : nat;
  Entries : list SkelDrvrReadBuf;
}.

Section Queue.

(** Each driver chooses the size of its rings ([skeluser.h]). *)
Variable SkelDrvrQUEUE_SIZE : nat.

(** A cleared structure. *)
Definition queue_zero : SkelDrvrQueue := Queue 0 0 0 0 0 (replicate SkelDrvrQUEUE_SIZE rb_zero).

Definition next_slot (i : nat) : nat := ((i + 1) mod SkelDrvrQUEUE_SIZE)%nat.

(** The ring and semaphore after the event, and the tasks that are woken. *)
Definition __q_put (rb : SkelDrvrReadBuf) (q : SkelDrvrQueue) (s : cdcm_sem) : SkelDrvrQueue * cdcm_sem * list nat :=
  let entries := <[WrPntr q := rb]> (Entries q) in
  let wr := next_slot (WrPntr q) in
  if Size q <? Z.of_nat SkelDrvrQUEUE_SIZE then
    let '(w, s) := ssignal s in (Queue (QueueOff q) (Missed q) (Size q + 1) (RdPntr q) wr entries, s, w)
  else (Queue (QueueOff q) (u16 (Missed q + 1)) (Size q) (next_slot (RdPntr q)) wr entries, s, []).

Definition __q_get (q : SkelDrvrQueue) : SkelDrvrReadBuf * SkelDrvrQueue :=
  (nth (RdPntr q) (Entries q) rb_zero,
   Queue (QueueOff q) (Missed q) (Size q - 1) (next_slot (RdPntr q)) (WrPntr q) (Entries q)).

Definition __reset_queue (q : SkelDrvrQueue) (s : cdcm_sem) : SkelDrvrQueue * cdcm_sem * list nat :=
  let '(w, s) := sreset s in (Queue (QueueOff q) 0 0 0 0 (Entries q), s, w).

(** [client_timeout()] on the queue. *)
Definition client_timeout (q : SkelDrvrQueue) : SkelDrvrQueue :=
  Queue (QueueOff q) 0 0 (RdPntr q) (WrPntr q) (Entries q).

Definition get_queue_size (q : SkelDrvrQueue) : Z := Size q.

Definition get_queue_overflow (q : SkelDrvrQueue) : Z * SkelDrvrQueue :=
  (Missed q, Queue (QueueOff q) 0 (Size q) (RdPntr q) (WrPntr q) (Entries q)).

Definition get_queue_flag (q : SkelDrvrQueue) : Z := QueueOff q.

Definition set_queue_flag (value : Z) (q : SkelDrvrQueue) : SkelDrvrQueue :=
  Queue (if truthy value then 1 else 0) (Missed q) (Size q) (RdPntr q) (WrPntr q) (Entries q).

(** ** What the ring means *)

Definition ring_slot (q : SkelDrvrQueue) (k : nat) : SkelDrvrReadBuf :=
  nth ((RdPntr q + k) mod SkelDrvrQUEUE_SIZE) (Entries q) rb_zero.

(** The events in the ring, oldest first. *)
Definition contents (q : SkelDrvrQueue) : list SkelDrvrReadBuf := ring_slot q <$> seq 0 (Z.to_nat (Size q)).

Record queue_ok (q : SkelDrvrQueue) : Prop := {
  qo_entries : length (Entries q) = SkelDrvrQUEUE_SIZE;
  qo_size : 0 <= Size q <= Z.of_nat SkelDrvrQUEUE_SIZE;
  qo_rd : (RdPntr q < SkelDrvrQUEUE_SIZE)%nat;
  qo_wr : WrPntr q = ((RdPntr q + Z.to_nat (Size q)) mod SkelDrvrQUEUE_SIZE)%nat;
}.

(** A bounded list that drops its oldest element. *)
Definition push (e : SkelDrvrReadBuf) (l : list SkelDrvrReadBuf) : list SkelDrvrReadBuf :=
  if Nat.ltb (length l) SkelDrvrQUEUE_SIZE then l ++ [e] else tail l ++ [e].

Hypothesis Hsize : (0 < SkelDrvrQUEUE_SIZE)%nat.

Lemma contents_length q : 0 <= Size q -> length (contents q) = Z.to_nat (Size q).
Proof. intros _. unfold contents. by rewrite length_fmap, length_seq. Qed.

Lemma queue_zero_ok : queue_ok queue_zero /\ contents queue_zero = [].
Proof.
  split; [|done]. split; simpl; [apply length_replicate|lia|lia|]. by rewrite Nat.mod_0_l by lia.
Qed.

Lemma reset_queue_ok q s : length (Entries q) = SkelDrvrQUEUE_SIZE ->
  let '(q', _, _) := __reset_queue q s in queue_ok q' /\ contents q' = [].
Proof.
  intros Hl. unfold __reset_queue. destruct (sreset s) as [w s']. split; [|done].
  split; simpl; [done|lia|lia|]. by rewrite Nat.mod_0_l by lia.
Qed.

(** Slots of the ring are distinct. *)
Lemma slot_inj a i j : (i < SkelDrvrQUEUE_SIZE)%nat -> (j < SkelDrvrQUEUE_SIZE)%nat ->
  ((a + i) mod SkelDrvrQUEUE_SIZE = (a + j) mod SkelDrvrQUEUE_SIZE)%nat -> i = j.
Proof.
  intros Hi Hj H. pose proof (Nat.div_mod_eq (a + i) SkelDrvrQUEUE_SIZE). pose proof (Nat.div_mod_eq (a + j) SkelDrvrQUEUE_SIZE).
  set (x := ((a + i) / SkelDrvrQUEUE_SIZE)%nat) in *. set (y := ((a + j) / SkelDrvrQUEUE_SIZE)%nat) in *.
  rewrite H in *. clearbody x y. destruct (Nat.lt_trichotomy x y) as [Hxy|[->|Hxy]]; nia.
Qed.

Lemma next_slot_add a k : next_slot ((a + k) mod SkelDrvrQUEUE_SIZE) = ((a + S k) mod SkelDrvrQUEUE_SIZE)%nat.
Proof. unfold next_slot. rewrite Nat.Div0.add_mod_idemp_l. f_equal. lia. Qed.

Lemma get_contents q : queue_ok q -> 0 < Size q ->
  let '(rb, q') := __q_get q in queue_ok q' /\ contents q = rb :: contents q'.
Proof.
  intros [Hl Hs Hr Hw] Hpos. unfold __q_get. split.
  - split; simpl; [done|lia|unfold next_slot; apply Nat.mod_upper_bound; lia|].
    rewrite Hw. unfold next_slot. rewrite Nat.Div0.add_mod_idemp_l. f_equal. lia.
  - unfold contents. simpl. destruct (Z.to_nat (Size q)) as [|n] eqn:E; [lia|].
    replace (Z.to_nat (Size q - 1)) with n by lia. cbn [seq fmap list_fmap]. f_equal.
    + unfold ring_slot. by rewrite Nat.add_0_r, Nat.mod_small by lia.
    + rewrite <- seq_shift. rewrite <- list_fmap_compose. apply list_fmap_ext. intros i k _. unfold ring_slot. simpl.
      unfold next_slot. rewrite Nat.Div0.add_mod_idemp_l. do 2 f_equal. lia.
Qed.

Lemma slot_insert q rb k j : queue_ok q -> (k < SkelDrvrQUEUE_SIZE)%nat -> (j < SkelDrvrQUEUE_SIZE)%nat ->
  nth ((RdPntr q + j) mod SkelDrvrQUEUE_SIZE) (<[((RdPntr q + k) mod SkelDrvrQUEUE_SIZE)%nat := rb]> (Entries q)) rb_zero =
  if decide (j = k) then rb else ring_slot q j.
Proof.
  intros [Hl _ Hr _] Hk Hj. pose proof (Nat.mod_upper_bound (RdPntr q + k) SkelDrvrQUEUE_SIZE ltac:(lia)).
  rewrite nth_lookup. destruct (decide (j = k)) as [->|Hne].
  - by rewrite list_lookup_insert_eq by lia.
  - rewrite list_lookup_insert_ne; [unfold ring_slot; by rewrite nth_lookup|].
    intros E. by apply Hne, (slot_inj (RdPntr q)).
Qed.

Lemma put_contents rb q s : queue_ok q ->
  let '(q', _, _) := __q_put rb q s in queue_ok q' /\ contents q' = push rb (contents q) /\
  Missed q' = (if Size q <? Z.of_nat SkelDrvrQUEUE_SIZE then Missed q else u16 (Missed q + 1)).
Proof.
  intros Hq. pose proof Hq as [Hl Hs Hr Hw]. unfold __q_put, push. rewrite contents_length by lia.
  destruct (Z.ltb_spec (Size q) (Z.of_nat SkelDrvrQUEUE_SIZE)) as [Hlt|Hge].
  - destruct (ssignal s) as [w s']. rewrite (proj2 (Nat.ltb_lt _ _)) by lia. split; [|split; [|done]].
    + split; simpl; [by rewrite length_insert|lia|done|].
      rewrite Hw, next_slot_add. f_equal. lia.
    + unfold contents. simpl. replace (Z.to_nat (Size q + 1)) with (Z.to_nat (Size q) + 1)%nat by lia.
      rewrite seq_app, fmap_app. simpl. f_equal.
      * apply list_fmap_ext. intros i k Hk%lookup_seq. unfold ring_slot at 1. simpl. rewrite Hw, slot_insert by lia || done.
        by rewrite decide_False by lia.
      * unfold ring_slot. simpl. rewrite Hw, slot_insert by lia || done. by rewrite decide_True by done.
  - assert (Size q = Z.of_nat SkelDrvrQUEUE_SIZE) as Hfull by lia.
    rewrite (proj2 (Nat.ltb_ge _ _)) by lia. rewrite Hfull, Nat2Z.id in *.
    replace (RdPntr q + SkelDrvrQUEUE_SIZE)%nat with (RdPntr q + 1 * SkelDrvrQUEUE_SIZE)%nat in Hw by lia.
    rewrite Nat.Div0.mod_add, Nat.mod_small in Hw by lia. split; [|split; [|done]].
    + split; simpl; rewrite ?Hfull, ?Nat2Z.id; [by rewrite length_insert|lia|unfold next_slot; apply Nat.mod_upper_bound; lia|].
      rewrite Hw. unfold next_slot. rewrite Nat.Div0.add_mod_idemp_l.
      replace (RdPntr q + 1 + SkelDrvrQUEUE_SIZE)%nat with (RdPntr q + 1 + 1 * SkelDrvrQUEUE_SIZE)%nat by lia.
      by rewrite Nat.Div0.mod_add.
    + unfold contents. simpl. rewrite Hfull, Nat2Z.id. set (n := (SkelDrvrQUEUE_SIZE - 1)%nat).
      assert (seq 0 SkelDrvrQUEUE_SIZE = seq 0 n ++ [n]) as E1
        by (rewrite <- seq_S; f_equal; unfold n; lia).
      assert (seq 0 SkelDrvrQUEUE_SIZE = 0%nat :: seq 1 n) as E2
        by (change (0%nat :: seq 1 n) with (seq 0 (S n)); f_equal; unfold n; lia).
      rewrite E1 at 1. rewrite E2, fmap_app. cbn [fmap list_fmap tail].
      assert (forall k, (next_slot (RdPntr q) + k) mod SkelDrvrQUEUE_SIZE = (RdPntr q + S k) mod SkelDrvrQUEUE_SIZE)%nat as En.
      { intros k. unfold next_slot. rewrite Nat.Div0.add_mod_idemp_l. f_equal. lia. }
      assert (<[WrPntr q := rb]> (Entries q) = <[((RdPntr q + 0) mod SkelDrvrQUEUE_SIZE)%nat := rb]> (Entries q)) as Ee
        by (by rewrite Hw, Nat.add_0_r, Nat.mod_small by lia).
      f_equal.
      * rewrite <- seq_shift, <- list_fmap_compose. apply list_fmap_ext. intros i k Hk%lookup_seq. simpl in Hk.
        unfold ring_slot at 1. simpl. rewrite En, Ee, slot_insert by (done || unfold n in *; lia).
        by rewrite decide_False by lia.
      * f_equal. unfold ring_slot. simpl. rewrite En, Ee.
        replace ((RdPntr q + S n) mod SkelDrvrQUEUE_SIZE)%nat with ((RdPntr q + 0) mod SkelDrvrQUEUE_SIZE)%nat.
        { rewrite slot_insert by (done || lia). by rewrite decide_True by done. }
        replace (RdPntr q + S n)%nat with (RdPntr q + 0 + 1 * SkelDrvrQUEUE_SIZE)%nat by (unfold n; lia).
        by rewrite Nat.Div0.mod_add.
Qed.
End Queue.

(** ** Interrupts and readers, interleaved

    A [read()] is four critical sections: the test of [QueueOff] under the
    queue's lock, [tswait()] (which ends at once, or by a signal, a timeout or
    [sreset()]), and then [q_get()] or [client_timeout()] under the queue's lock
    again.  Interrupts, other readers of the same client and ioctls come in
    between. *)

Inductive rpc := RIdle | RReady | RWait | RGranted | RExpired.

#[export] Instance rpc_eq_dec : EqDecision rpc.
Proof. solve_decision. Defined.

Record rstate := Rstate { r_q : SkelDrvrQueue; r_sem : cdcm_sem; r_pc : list rpc }.

Inductive ract :=
  | Put (rb : SkelDrvrReadBuf)
  | Begin (t : nat)
  | Tswait (t : nat)
  | Expire (t : nat)
  | Timeout (t : nat)
  | Get (t : nat)
  | SetFlag (v : Z)
  | Overflow.

(** What leaves the driver: an event, or a count of missed ones. *)
Inductive rout := Got (rb : SkelDrvrReadBuf) | Lost (n : Z).

Definition wake (w : list nat) (pc : list rpc) : list rpc := foldr (fun t pc => <[t := RGranted]> pc) pc w.

Section Readers.
Variable SkelDrvrQUEUE_SIZE : nat.

(** The client's [Timeout]: 0 does not wait. *)
Variable ticks : Z.

Definition rstate_boot (n : nat) : rstate :=
  Rstate (queue_zero SkelDrvrQUEUE_SIZE) (cdcm_sem_init 0) (replicate n RIdle).

Definition rstep (a : ract) (st : rstate) : option (rstate * list rout) :=
  let '(Rstate q s pc) := st in
  match a with
  | Put rb => let '(q, s, w) := __q_put SkelDrvrQUEUE_SIZE rb q s in Some (Rstate q s (wake w pc), [])
  | Begin t =>
      match pc !! t with
      | Some RIdle =>
          let '(q, s, w) := if truthy (QueueOff q) then __reset_queue q s else (q, s, []) in
          Some (Rstate q s (<[t := RReady]> (wake w pc)), [])
      | _ => None
      end
  | Tswait t =>
      match pc !! t with
      | Some RReady =>
          if ticks =? 0 then
            let '(r, s) := cdcm_down_trylock s in
            Some (Rstate q s (<[t := if r =? 0 then RGranted else RExpired]> pc), [])
          else let '(got, s) := cdcm_down t s in Some (Rstate q s (<[t := if got : bool then RGranted else RWait]> pc), [])
      | _ => None
      end
  | Expire t =>
      match pc !! t with
      | Some RWait => Some (Rstate q (leave_wait t s) (<[t := RExpired]> pc), [])
      | _ => None
      end
  | Timeout t =>
      match pc !! t with
      | Some RExpired => Some (Rstate (client_timeout q) s (<[t := RIdle]> pc), [])
      | _ => None
      end
  | Get t =>
      match pc !! t with
      | Some RGranted =>
          let '(rb, q) := __q_get SkelDrvrQUEUE_SIZE q in Some (Rstate q s (<[t := RIdle]> pc), [Got rb])
      | _ => None
      end
  | SetFlag v => Some (Rstate (set_queue_flag v q) s pc, [])
  | Overflow => let '(n, q) := get_queue_overflow q in Some (Rstate q s pc, [Lost n])
  end.

Fixpoint rrun (l : list ract) (st : rstate) : option (rstate * list rout) :=
  match l with
  | [] => Some (st, [])
  | a :: l => '(st, o) ← rstep a st; '(st, o') ← rrun l st; Some (st, o ++ o')
  end.

(** ** The specification: one bounded list and a count of what it dropped *)

Record qspec := Qspec { sp_off : bool; sp_list : list SkelDrvrReadBuf; sp_lost : Z }.

Definition spec_step (a : ract) (s : qspec) : option (qspec * list rout) :=
  let '(Qspec off l lost) := s in
  match a with
  | Put rb =>
      Some (Qspec off (push SkelDrvrQUEUE_SIZE rb l) (if Nat.ltb (length l) SkelDrvrQUEUE_SIZE then lost else u16 (lost + 1)), [])
  | Begin _ => Some (if off then Qspec off [] 0 else s, [])
  | Get _ => match l with rb :: l => Some (Qspec off l lost, [Got rb]) | [] => None end
  | SetFlag v => Some (Qspec (truthy v) l lost, [])
  | Overflow => Some (Qspec off l 0, [Lost lost])
  | _ => Some (s, [])
  end.

Fixpoint spec_run (l : list ract) (s : qspec) : option (qspec * list rout) :=
  match l with
  | [] => Some (s, [])
  | a :: l => '(s, o) ← spec_step a s; '(s, o') ← spec_run l s; Some (s, o ++ o')
  end.

(** ** Refinement *)

Definition granted (pc : list rpc) : nat := length (filter (fun p => p = RGranted) pc).

Record rinv (st : rstate) (s : qspec) : Prop := {
  ri_queue : queue_ok SkelDrvrQUEUE_SIZE (r_q st);
  ri_list : contents SkelDrvrQUEUE_SIZE (r_q st) = sp_list s;
  ri_lost : Missed (r_q st) = sp_lost s;
  ri_off : truthy (QueueOff (r_q st)) = sp_off s;
  ri_single : sp_off s = true -> length (r_pc st) = 1%nat;
  ri_sem : sem_ok (r_sem st);
  ri_count : count (r_sem st) + Z.of_nat (granted (r_pc st)) = Size (r_q st);
  ri_wait : forall t, t ∈ wait_list (r_sem st) <-> r_pc st !! t = Some RWait;
  ri_calm : RExpired ∉ r_pc st;
}.

Lemma granted_insert pc t p p' : pc !! t = Some p ->
  (granted (<[t := p']> pc) + (if decide (p = RGranted) then 1 else 0)
   = granted pc + (if decide (p' = RGranted) then 1 else 0))%nat.
Proof.
  unfold granted. revert t. induction pc as [|x pc IH]; intros [|t] H; [done..| |].
  - simpl in H. injection H as ->. simpl. rewrite !filter_cons. by repeat case_decide; simpl; lia.
  - specialize (IH t H). change (<[S t := p']> (x :: pc)) with (x :: <[t := p']> pc). rewrite !filter_cons.
    destruct (decide (x = RGranted)); cbn [length]; lia.
Qed.

Lemma calm_insert (pc : list rpc) t p : RExpired ∉ pc -> p <> RExpired -> RExpired ∉ <[t := p]> pc.
Proof. intros H Hp (i & Hi)%list_elem_of_lookup. apply list_lookup_insert_Some in Hi as [(_ & -> & _)|[_ Hi]]; [done|]. apply H. by eapply list_elem_of_lookup_2. Qed.

Definition calm (n : nat) (a : ract) : Prop :=
  match a with Expire _ => False | SetFlag v => truthy v = false \/ n = 1%nat | _ => True end.

Hypothesis Hsize : (0 < SkelDrvrQUEUE_SIZE)%nat.
Hypothesis Hticks : ticks <> 0.

Lemma wait_insert (wl : list nat) (pc : list rpc) t p :
  (forall u, u ∈ wl <-> pc !! u = Some RWait) -> pc !! t <> Some RWait -> p <> RWait ->
  forall u, u ∈ wl <-> <[t := p]> pc !! u = Some RWait.
Proof.
  intros H Ht Hp u. rewrite H. destruct (decide (u = t)) as [->|Hne]; [|by rewrite list_lookup_insert_ne].
  split; [done|]. intros Hu. apply list_lookup_insert_Some in Hu as [(_ & -> & _)|[? _]]; done.
Qed.

(** An event is put: the ring grows by one entry for the count or for the task
    that is woken; a full ring drops one and signals nobody. *)
Lemma put_refines rb q s pc sp :
  rinv (Rstate q s pc) sp ->
  let '(q', s', w) := __q_put SkelDrvrQUEUE_SIZE rb q s in
  rinv (Rstate q' s' (wake w pc))
    (Qspec (sp_off sp) (push SkelDrvrQUEUE_SIZE rb (sp_list sp))
       (if Nat.ltb (length (sp_list sp)) SkelDrvrQUEUE_SIZE then sp_lost sp else u16 (sp_lost sp + 1))) /\
  length (wake w pc) = length pc.
Proof.
  intros [Hq Hl Hm Ho Hs1 Hsem Hc Hw Hx]. simpl in *. pose proof (put_contents SkelDrvrQUEUE_SIZE Hsize rb q s Hq) as Hput.
  pose proof (qo_size _ _ Hq) as Hsz. rewrite <- Hl, contents_length by lia.
  destruct (__q_put SkelDrvrQUEUE_SIZE rb q s) as [[q' s'] w] eqn:E. destruct Hput as (Hq' & Hl' & Hm').
  assert (Missed q' = if Nat.ltb (Z.to_nat (Size q)) SkelDrvrQUEUE_SIZE then sp_lost sp else u16 (sp_lost sp + 1)) as Hm2.
  { rewrite Hm', Hm. destruct (Z.ltb_spec (Size q) (Z.of_nat SkelDrvrQUEUE_SIZE)).
    - by rewrite (proj2 (Nat.ltb_lt _ _)) by lia.
    - by rewrite (proj2 (Nat.ltb_ge _ _)) by lia. }
  unfold __q_put in E. destruct (Z.ltb_spec (Size q) (Z.of_nat SkelDrvrQUEUE_SIZE)) as [Hlt|Hge].
  - destruct Hsem as (C1 & C2 & C3). unfold ssignal, __cdcm_up in E. destruct (wait_list s) as [|t wl] eqn:Ewl; simplify_eq; simpl.
    + split; [|done]. split; simpl; [done..|apply sem_init_ok; lia|lia| |done].
      intros t. rewrite <- Hw. done.
    + unfold __cdcm_up_waiter in E. rewrite Ewl in E. simplify_eq. simpl. rewrite length_insert. split; [|done].
      assert (pc !! t = Some RWait) as Ht by (apply Hw; apply list_elem_of_here).
      apply NoDup_cons in C2 as [C2 C4].
      assert (count s = 0) as Hc0 by (destruct (Z.lt_trichotomy (count s) 0) as [|[|H]]; [lia|done|by specialize (C3 H)]).
      split; simpl; [done..|by rewrite length_insert|split_and!; simpl; [lia|done|lia]| | |by apply calm_insert].
      * pose proof (granted_insert pc t RWait RGranted Ht) as Hg. simpl in Hg. lia.
      * intros u. destruct (decide (u = t)) as [->|Hne].
        -- split; [done|]. rewrite list_lookup_insert_eq by (by eapply lookup_lt_Some). done.
        -- rewrite list_lookup_insert_ne by done. rewrite <- Hw. rewrite elem_of_cons. naive_solver.
  - simplify_eq. simpl. split; [|done]. split; simpl; [done..|done].
Qed.

Lemma begin_refines t q s pc sp :
  rinv (Rstate q s pc) sp -> pc !! t = Some RIdle ->
  let '(q', s', w) := if truthy (QueueOff q) then __reset_queue q s else (q, s, []) in
  rinv (Rstate q' s' (<[t := RReady]> (wake w pc))) (if sp_off sp then Qspec true [] 0 else sp) /\
  length (<[t := RReady]> (wake w pc)) = length pc.
Proof.
  intros [Hq Hl Hm Ho Hs1 Hsem Hc Hw Hx] Ht. simpl in *. rewrite Ho.
  assert (pc !! t <> Some RWait) as Htw by congruence. destruct (sp_off sp) eqn:Eoff.
  - specialize (Hs1 eq_refl). destruct pc as [|p [|? ?]]; [done| |done]. destruct t; [|done]. simpl in Ht. injection Ht as ->.
    destruct Hsem as (C1 & C2 & C3). change (granted [RIdle]) with 0%nat in Hc.
    assert (wait_list s = []) as Hwl.
    { destruct (wait_list s) as [|u wl]; [done|]. assert ([RIdle] !! u = Some RWait) as Hu by (apply Hw; apply list_elem_of_here).
      by destruct u. }
    pose proof (reset_queue_ok SkelDrvrQUEUE_SIZE Hsize q s (qo_entries _ _ Hq)) as Hr.
    assert (exists q', __reset_queue q s = (q', Sem 0 [], []) /\ Missed q' = 0 /\ QueueOff q' = QueueOff q /\ Size q' = 0) as (q' & E & E1 & E2 & E3).
    { destruct s as [c wl]. simpl in *. subst wl. unfold __reset_queue, sreset, __sreset. simpl.
      destruct (Z.eqb_spec c 0) as [->|_]; simpl; by eexists. }
    rewrite E in *. destruct Hr as [Hr1 Hr2]. simpl. split; [|done].
    split; simpl; [done|done|done|by rewrite E2|done|by apply (sem_init_ok 0)|rewrite E3; done| |].
    + intros u. split; [intros H; by apply elem_of_nil in H|by destruct u].
    + intros H. by apply list_elem_of_singleton in H.
  - simpl. rewrite length_insert. split; [|done]. split; simpl; [done|done|done|by rewrite Eoff|by rewrite Eoff|done| | |by apply calm_insert].
    + pose proof (granted_insert pc t RIdle RReady Ht) as Hg. simpl in Hg. lia.
    + by apply wait_insert.
Qed.

Lemma tswait_refines t q s pc sp :
  rinv (Rstate q s pc) sp -> pc !! t = Some RReady ->
  let '(got, s') := cdcm_down t s in
  rinv (Rstate q s' (<[t := if got : bool then RGranted else RWait]> pc)) sp.
Proof.
  intros [Hq Hl Hm Ho Hs1 Hsem Hc Hw Hx] Ht. simpl in *. destruct Hsem as (C1 & C2 & C3).
  unfold cdcm_down. destruct (Z.ltb_spec 0 (count s)) as [Hpos|Hz].
  - split; simpl; [done..|by rewrite length_insert|split_and!; simpl; [lia|done|rewrite C3 by done; done]| | |by apply calm_insert].
    + pose proof (granted_insert pc t RReady RGranted Ht) as Hg. simpl in Hg. lia.
    + apply wait_insert; [done|congruence|done].
  - assert (t ∉ wait_list s) as Hnew by (rewrite Hw; congruence).
    split; simpl; [done..|by rewrite length_insert|split_and!; simpl; [lia| |lia]| | |by apply calm_insert].
    + apply NoDup_app. split_and!; [done| |by apply NoDup_singleton]. intros x Hin. by intros ->%list_elem_of_singleton.
    + pose proof (granted_insert pc t RReady RWait Ht) as Hg. simpl in Hg. lia.
    + intros u. rewrite elem_of_app, list_elem_of_singleton, Hw. destruct (decide (u = t)) as [->|Hne].
      * rewrite list_lookup_insert_eq by (by eapply lookup_lt_Some). naive_solver.
      * rewrite list_lookup_insert_ne by done. naive_solver.
Qed.

Lemma get_refines t q s pc sp rb q' :
  rinv (Rstate q s pc) sp -> pc !! t = Some RGranted -> __q_get SkelDrvrQUEUE_SIZE q = (rb, q') ->
  exists l, sp_list sp = rb :: l /\ rinv (Rstate q' s (<[t := RIdle]> pc)) (Qspec (sp_off sp) l (sp_lost sp)).
Proof.
  intros [Hq Hl Hm Ho Hs1 Hsem Hc Hw Hx] Ht E. cbn [r_q r_sem r_pc] in *. destruct Hsem as (C1 & C2 & C3).
  pose proof (granted_insert pc t RGranted RIdle Ht) as Hg. simpl in Hg.
  assert (0 < Size q) as Hpos by lia.
  pose proof (get_contents SkelDrvrQUEUE_SIZE Hsize q Hq Hpos) as Hget. rewrite E in Hget.
  destruct Hget as [Hq' Hl']. exists (contents SkelDrvrQUEUE_SIZE q').
  split; [by rewrite <- Hl|]. unfold __q_get in E. simplify_eq.
  split; simpl; [done..|by rewrite length_insert|done|lia| |by apply calm_insert].
  apply wait_insert; [done|congruence|done].
Qed.

Lemma rstep_refines a st sp st' o :
  rinv st sp -> calm (length (r_pc st)) a -> rstep a st = Some (st', o) ->
  exists sp', spec_step a sp = Some (sp', o) /\ rinv st' sp' /\ length (r_pc st') = length (r_pc st).
Proof.
  intros Hi Hcalm Hstep. destruct st as [q s pc], a as [rb|t|t|t|t|t|v|]; simpl in *; try done.
  - pose proof (put_refines rb q s pc sp Hi) as Hput. destruct (__q_put SkelDrvrQUEUE_SIZE rb q s) as [[q' s'] w].
    simplify_eq. destruct sp as [off l lost]. eexists. split; [done|]. exact Hput.
  - destruct (pc !! t) as [[]|] eqn:Et; try done. pose proof (begin_refines t q s pc sp Hi Et) as Hb.
    destruct (if truthy (QueueOff q) then __reset_queue q s else (q, s, [])) as [[q' s'] w]. simplify_eq.
    destruct sp as [off l lost]. eexists. split; [done|]. by destruct off.
  - destruct (pc !! t) as [[]|] eqn:Et; try done. rewrite (proj2 (Z.eqb_neq ticks 0)) in Hstep by done.
    pose proof (tswait_refines t q s pc sp Hi Et) as Hb. destruct (cdcm_down t s) as [got s']. simplify_eq.
    exists sp. destruct sp as [off l lost]. split; [done|]. split; [done|]. simpl. by rewrite length_insert.
  - destruct (pc !! t) as [[]|] eqn:Et; try done. exfalso. apply (ri_calm _ _ Hi). by eapply list_elem_of_lookup_2.
  - destruct (pc !! t) as [[]|] eqn:Et; try done. simplify_eq.
    destruct (get_refines t q s pc sp _ _ Hi Et eq_refl) as (l & El & Hb).
    destruct sp as [off l0 lost]. simpl in El. subst l0. eexists. split; [done|]. split; [exact Hb|]. simpl. by rewrite length_insert.
  - simplify_eq. destruct Hi as [Hq Hl Hm Ho Hs1 Hsem Hc Hw Hx], sp as [off l lost]. simpl in *. eexists. split; [done|].
    split; [|done]. destruct Hq. split; simpl; [by split|done|done|by destruct (truthy v)| |done|done|done|done].
    intros Hv. destruct Hcalm; congruence.
  - simplify_eq. destruct Hi as [Hq Hl Hm Ho Hs1 Hsem Hc Hw Hx], sp as [off l lost]. simpl in *. eexists. split; [by rewrite Hm|].
    split; [|done]. destruct Hq. by split.
Qed.

Lemma rstate_boot_inv n : rinv (rstate_boot n) (Qspec false [] 0).
Proof.
  destruct (queue_zero_ok SkelDrvrQUEUE_SIZE Hsize) as [H1 H2]. unfold rstate_boot.
  split; simpl; [done..|apply sem_init_ok; lia| | |].
  - assert (granted (replicate n RIdle) = 0%nat) as ->; [|done]. unfold granted. by induction n.
  - intros t. split; [intros H; by apply elem_of_nil in H|]. intros [? _]%lookup_replicate. done.
  - intros [? _]%elem_of_replicate. done.
Qed.

Lemma rrun_refines acts st sp st' o :
  rinv st sp -> Forall (calm (length (r_pc st))) acts -> rrun acts st = Some (st', o) ->
  exists sp', spec_run acts sp = Some (sp', o) /\ rinv st' sp'.
Proof.
  revert st sp o. induction acts as [|a acts IH]; intros st sp o Hi Hc Hr; simpl in Hr.
  - simplify_eq. by exists sp.
  - apply Forall_cons in Hc as [Ha Hc]. destruct (rstep a st) as [[st1 o1]|] eqn:E; [|done]. simpl in Hr.
    destruct (rrun acts st1) as [[st2 o2]|] eqn:E2; [|done]. simpl in Hr. simplify_eq.
    destruct (rstep_refines a st sp st1 o1 Hi Ha E) as (sp1 & Hs1 & Hi1 & Hlen).
    destruct (IH st1 sp1 o2) as (sp2 & Hs2 & Hi2); [done|by rewrite Hlen|done|].
    exists sp2. split; [|done]. simpl. rewrite Hs1. simpl. by rewrite Hs2.
Qed.
End Readers.


Definition demo_event (n : Z) : SkelDrvrReadBuf := ReadBuf (Conx 1 1) (Time_ n 0).

(** Two readers and three interrupts on a ring of two. *)
Definition demo_acts : list ract :=
  [Begin 0; Tswait 0; Put (demo_event 1); Put (demo_event 2); Put (demo_event 3); Begin 1; Tswait 1; Overflow; Get 1; Get 0].


(** A read times out, an event comes before [client_timeout()] takes the lock:
    the ring is emptied but not the semaphore, the next read gets at once and
    leaves a size of -1. *)
Lemma timeout_race :
  let acts := [Begin 0; Tswait 0; Expire 0; Put (demo_event 1); Timeout 0; Begin 0; Tswait 0; Get 0] in
  match rrun 32 2000 acts (rstate_boot 32 1) with Some (st, o) => Some (get_queue_size (r_q st), o) | None => None end
  = Some (-1, [Got (demo_event 1)]).
Proof. vm_compute. reflexivity. Qed.

(** With the queue off, a second reader's reset wakes the first one on an empty
    ring: it gets an entry that no interrupt put. *)
Lemma reset_wakes_reader :
  let acts := [SetFlag 1; Begin 0; Tswait 0; Begin 1; Get 0] in
  match rrun 32 2000 acts (rstate_boot 32 2) with Some (st, o) => Some (get_queue_size (r_q st), o) | None => None end
  = Some (-1, [Got rb_zero]).
Proof. vm_compute. reflexivity. Qed.
