(* ===== verification/SkelIo.v ===== *)
(** * Raw access to a module ([RawIo()], [RawIoBlock()] of [skeldrvr.c])

    Debugging access from user space to the address spaces of a module: one
    item, or a block through a kernel buffer of 1024 items.  The module's
    hardware is a [Bus]; user memory is a function from offsets, counted from
    the caller's data pointer, to bytes. *)

From S2P Require Import Prelude.

(** ** The hardware

    [io_read w] and [io_write w] are one native access of [w] bits; the state is
    whatever the device does with it. *)

Class Bus (hw : Type) := {
  io_read : Z -> Z -> hw -> Z * hw;
  io_write : Z -> Z -> Z -> hw -> hw;
}.

(** ** Address spaces ([libinstkernel.c]) *)

Record InsLibAnyAddressSpace := AnyAS {
  as_SpaceNumber : Z;
  as_DataWidth : Z;
  as_WindowSize : Z;
  as_Endian_BIG : bool;
  as_Mapped : Z;
}.

Fixpoint get_addr_space (l : list InsLibAnyAddressSpace) (space_number datawidth : Z) : option InsLibAnyAddressSpace :=
  match l with
  | [] => None
  | a :: l =>
      if (as_SpaceNumber a =? space_number) && ((datawidth =? 0) || (as_DataWidth a =? datawidth))
      then Some a else get_addr_space l space_number datawidth
  end.

Definition InsLibGetAddressSpace l n := get_addr_space l n 0.
Definition InsLibGetAddressSpaceWidth l n w := get_addr_space l n w.

(** ** Requests ([include/skel.h]) *)

Record SkelDrvrRawIoBlock := RawIoBlock_ { ri_SpaceNumber : Z; ri_Offset : Z; ri_DataWidth : Z; ri_Data : Z }.

Record SkelDrvrRawIoTransferBlock := RawIoTransferBlock {
  rt_SpaceNumber : Z;
  rt_Offset : Z;
  rt_DataWidth : Z;
  rt_AddrIncr : Z;
  rt_BytesTr : Z;
}.

Definition ENXIO : Z := 6.

(** ** Bytes *)

(** The [n] bytes of a word, least significant first, and the word of some bytes. *)
Fixpoint le_bytes (n : nat) (v : Z) : list Z :=
  match n with O => [] | S n => v mod 256 :: le_bytes n (v / 256) end.

Fixpoint le_word (l : list Z) : Z := match l with b :: l => b + 256 * le_word l | [] => 0 end.

Definition bswap (n : nat) (v : Z) : Z := le_word (rev (le_bytes n v)).

(** A word of user memory, or of the kernel buffer, is in the order of the CPU. *)
Section RawIo.
Variable cpu_big : bool.

Definition to_mem (n : nat) (v : Z) : list Z := if cpu_big then rev (le_bytes n v) else le_bytes n v.
Definition of_mem (l : list Z) : Z := le_word (if cpu_big then rev l else l).

(** [cdcm_*_to_cpu()] and [cdcm_cpu_to_*()] on [n] bytes. *)
Definition conv (big : bool) (n : nat) (v : Z) : Z := if Bool.eqb big cpu_big then v else bswap n v.

Context {hw : Type} `{Bus hw}.

(** [cdcm_ioreadNNbe()], [cdcm_ioreadNNle()] and the writes. *)
Definition dev_read (big : bool) (w addr : Z) (h : hw) : Z * hw :=
  let '(v, h) := io_read w addr h in (conv big (Z.to_nat (w / 8)) v, h).

Definition dev_write (big : bool) (w addr v : Z) (h : hw) : hw := io_write w addr (conv big (Z.to_nat (w / 8)) v) h.

(** ** One item

    A bus error of the access is an argument.  The result is an error number
    or the request with the data read and the width filled in, and whether the
    access was a bus fault. *)

Definition RawIo (spaces : list InsLibAnyAddressSpace) (riob : SkelDrvrRawIoBlock) (flag : bool) (bus_error : bool)
    (h : hw) : (Z + SkelDrvrRawIoBlock) * bool * hw :=
  match InsLibGetAddressSpaceWidth spaces (ri_SpaceNumber riob) (ri_DataWidth riob) with
  | None => (inl ENXIO, false, h)
  | Some anyas =>
      if truthy (as_WindowSize anyas) && (as_WindowSize anyas <=? ri_Offset riob) then (inl EINVAL, false, h) else
      let width := if ri_DataWidth riob =? 0 then as_DataWidth anyas else ri_DataWidth riob in
      let mmap := as_Mapped anyas + ri_Offset riob in
      let big := as_Endian_BIG anyas in
      let riob := RawIoBlock_ (ri_SpaceNumber riob) (ri_Offset riob) width (ri_Data riob) in
      if negb ((width =? 8) || (width =? 16) || (width =? 32)) then (inl EINVAL, false, h) else
      if bus_error then (inl ENXIO, true, h) else
      if flag then (inr riob, false, dev_write big width mmap (ri_Data riob mod 2 ^ width) h)
      else let '(v, h) := dev_read big width mmap h in
           (inr (RawIoBlock_ (ri_SpaceNumber riob) (ri_Offset riob) width (u32 v)), false, h)
  end.

(** ** A block *)

Definition TRANSFERS : Z := 1024.

(** User memory from the caller's [Data] pointer on. *)
Definition umem := Z -> Z.

Definition copy_from_user (off n : Z) (u : umem) : list Z := u <$> seqZ off n.

Definition copy_to_user (off : Z) (l : list Z) (u : umem) : umem :=
  fun i => if (off <=? i) && (i <? off + Z.of_nat (length l)) then nth (Z.to_nat (i - off)) l 0 else u i.

Record xfer := Xfer {
  x_hw : hw;
  x_user : umem;
  x_kbuf : list Z;
  x_uindx : Z;
  x_kindx : Z;
  x_hskip : Z;
}.

(** The bytes [l] stored in the kernel buffer at [k]. *)
Definition store (k : Z) (l : list Z) (kbuf : list Z) : list Z :=
  take (Z.to_nat k) kbuf ++ l ++ drop (Z.to_nat k + length l) kbuf.

Definition load (k : Z) (n : nat) (kbuf : list Z) : list Z := take n (drop (Z.to_nat k) kbuf).

(** The access of one round; an 8-bit read is from [mmap], not from [mp]. *)
Definition block_access (anyas : InsLibAnyAddressSpace) (flag : bool) (tszbt mmap : Z) (x : xfer) : xfer :=
  let bendf := as_Endian_BIG anyas in
  let mp := mmap + x_hskip x in
  let k := x_kindx x in
  let put v n h := Xfer h (x_user x) (store k (to_mem n v) (x_kbuf x)) (x_uindx x) k (x_hskip x) in
  let out h := Xfer h (x_user x) (x_kbuf x) (x_uindx x) k (x_hskip x) in
  if flag then
    if tszbt =? 16 then out (dev_write bendf 16 mp (of_mem (load k 2 (x_kbuf x))) (x_hw x))
    else if tszbt =? 32 then out (dev_write bendf 32 mp (of_mem (load k 4 (x_kbuf x))) (x_hw x))
    else out (io_write 8 mp (of_mem (load k 1 (x_kbuf x))) (x_hw x))
  else
    if tszbt =? 16 then let '(v, h) := dev_read bendf 16 mp (x_hw x) in put v 2%nat h
    else if tszbt =? 32 then let '(v, h) := dev_read bendf 32 mp (x_hw x) in put v 4%nat h
    else let '(v, h) := io_read 8 mmap (x_hw x) in put v 1%nat h.

(** The indexes after an access, and the flush of a full buffer (when writing,
    the refill). *)
Definition block_flush (flag : bool) (ksize tszby incr : Z) (x : xfer) : xfer :=
  let hskip := s32 (x_hskip x + incr * tszby) in
  let kindx := x_kindx x + tszby in
  if ksize <=? kindx then
    if flag then Xfer (x_hw x) (x_user x) (copy_from_user (x_uindx x) ksize (x_user x)) (x_uindx x + ksize) 0 hskip
    else Xfer (x_hw x) (copy_to_user (x_uindx x) (take (Z.to_nat ksize) (x_kbuf x)) (x_user x)) (x_kbuf x)
           (x_uindx x + ksize) 0 hskip
  else Xfer (x_hw x) (x_user x) (x_kbuf x) (x_uindx x) kindx hskip.

(** [while (tremg-- > 0)] *)
Fixpoint block_loop (tremg : nat) (anyas : InsLibAnyAddressSpace) (flag : bool) (tszbt mmap ksize tszby incr : Z)
    (x : xfer) : xfer :=
  match tremg with
  | O => x
  | S n =>
      block_loop n anyas flag tszbt mmap ksize tszby incr
        (block_flush flag ksize tszby incr (block_access anyas flag tszbt mmap x))
  end.

(** The number of transfers, at least one; [None] is a division by zero. *)
Definition transfers (bytes tszby : Z) : option Z :=
  if tszby =? 0 then None else
  let n := s32 (bytes / u32 tszby) in Some (if n <=? 0 then 1 else n).

(** [sysbrk_ok]: whether the kernel buffer was allocated; [junk] is what it held. *)
Definition RawIoBlock (spaces : list InsLibAnyAddressSpace) (riob : SkelDrvrRawIoTransferBlock) (flag sysbrk_ok : bool)
    (junk : Z -> list Z) (h : hw) (user : umem) : option ((Z + unit) * hw * umem) :=
  match InsLibGetAddressSpace spaces (rt_SpaceNumber riob) with
  | None => Some (inl ENXIO, h, user)
  | Some anyas =>
      if truthy (as_WindowSize anyas) && (as_WindowSize anyas <=? rt_Offset riob) then Some (inl EINVAL, h, user) else
      let tszbt := Z.land (rt_DataWidth riob) 0x3F in
      let tszbt := if tszbt <=? 0 then as_DataWidth anyas else tszbt in
      let tszby := Z.quot tszbt 8 in
      tremg ← transfers (rt_BytesTr riob) tszby;
      let ksize := if tremg <? TRANSFERS then tremg * tszby else TRANSFERS * tszby in
      if negb sysbrk_ok then Some (inl ENOMEM, h, user) else
      let mmap := as_Mapped anyas + rt_Offset riob in
      let kbuf := if flag then copy_from_user 0 ksize user else junk ksize in
      let x := block_loop (Z.to_nat tremg) anyas flag tszbt mmap ksize tszby (rt_AddrIncr riob)
                 (Xfer h user kbuf 0 0 0) in
      let user := if negb flag && truthy (x_kindx x)
                  then copy_to_user (x_uindx x) (take (Z.to_nat (x_kindx x)) (x_kbuf x)) (x_user x) else x_user x in
      Some (inr tt, x_hw x, user)
  end.

(** ** What a block read delivers *)

(** [n] items read one after the other, [step] bytes apart. *)
Fixpoint read_items (n : nat) (big : bool) (w addr step : Z) (h : hw) : list Z * hw :=
  match n with
  | O => ([], h)
  | S n => let '(v, h) := dev_read big w addr h in
           let '(vs, h) := read_items n big w (addr + step) step h in (v :: vs, h)
  end.

Fixpoint write_items (vs : list Z) (big : bool) (w addr step : Z) (h : hw) : hw :=
  match vs with
  | [] => h
  | v :: vs => write_items vs big w (addr + step) step (dev_write big w addr v h)
  end.

Lemma le_bytes_length n v : length (le_bytes n v) = n.
Proof. revert v. induction n as [|n IH]; intros v; simpl; [done|by rewrite IH]. Qed.

Lemma to_mem_length n v : length (to_mem n v) = n.
Proof. unfold to_mem. destruct cpu_big; rewrite ?length_rev; apply le_bytes_length. Qed.

Lemma le_word_bytes n v : 0 <= v < 256 ^ Z.of_nat n -> le_word (le_bytes n v) = v.
Proof.
  revert v. induction n as [|n IH]; intros v Hv.
  - simpl in *. lia.
  - cbn [le_bytes le_word]. rewrite Nat2Z.inj_succ, Z.pow_succ_r in Hv by lia. rewrite IH.
    + pose proof (Z.div_mod v 256). lia.
    + split; [apply Z.div_pos; lia|apply Z.div_lt_upper_bound; lia].
Qed.

Lemma le_bytes_word l : Forall (fun b => 0 <= b < 256) l -> le_bytes (length l) (le_word l) = l.
Proof.
  induction 1 as [|b l Hb _ IH]; [done|]. cbn [length le_word le_bytes].
  replace (b + 256 * le_word l) with (b + le_word l * 256) by lia.
  rewrite Z.mod_add, Z.div_add, Z.mod_small, Z.div_small by lia. by rewrite Z.add_0_l, IH.
Qed.

(** What the driver puts in memory is what the CPU reads there. *)
Lemma of_to_mem n v : 0 <= v < 256 ^ Z.of_nat n -> of_mem (to_mem n v) = v.
Proof. intros Hv. unfold of_mem, to_mem. destruct cpu_big; rewrite ?rev_involutive; by apply le_word_bytes. Qed.

Lemma flat_map_to_mem_length n vs : length (flat_map (to_mem n) vs) = (length vs * n)%nat.
Proof. induction vs as [|v vs IH]; simpl; [done|]. by rewrite length_app, to_mem_length, IH. Qed.

Lemma store_length k l kbuf : 0 <= k -> (Z.to_nat k + length l <= length kbuf)%nat -> length (store k l kbuf) = length kbuf.
Proof. intros H0 H1. unfold store. rewrite !length_app, length_take, length_drop. lia. Qed.

Lemma store_take k l kbuf : 0 <= k -> (Z.to_nat k + length l <= length kbuf)%nat ->
  take (Z.to_nat k + length l) (store k l kbuf) = take (Z.to_nat k) kbuf ++ l.
Proof.
  intros H0 H1. unfold store. rewrite app_assoc, take_app_le by (rewrite length_app, length_take; lia).
  apply take_ge. rewrite length_app, length_take. lia.
Qed.

Lemma copy_to_user_app a b u i :
  copy_to_user (Z.of_nat (length a)) b (copy_to_user 0 a u) i = copy_to_user 0 (a ++ b) u i.
Proof.
  unfold copy_to_user. rewrite length_app.
  destruct (Z.leb_spec (Z.of_nat (length a)) i), (Z.ltb_spec i (Z.of_nat (length a) + Z.of_nat (length b))),
    (Z.leb_spec 0 i), (Z.ltb_spec i (0 + Z.of_nat (length a))), (Z.ltb_spec i (0 + Z.of_nat (length a + length b)));
    simpl; try lia; try done.
  - rewrite app_nth2 by lia. f_equal. lia.
  - rewrite app_nth1 by lia. done.
Qed.

Lemma copy_to_user_ext off l u u' : (forall i, u i = u' i) -> forall i, copy_to_user off l u i = copy_to_user off l u' i.
Proof. intros Hu i. unfold copy_to_user. by rewrite Hu. Qed.

Section Block.
Variables (anyas : InsLibAnyAddressSpace) (tszbt mmap incr : Z) (user : umem) (K : nat).

Definition item : nat := Z.to_nat (tszbt / 8).

Hypothesis Hw : tszbt = 16 \/ tszbt = 32.

Let tszby := tszbt / 8.
Let ksize := Z.of_nat K * tszby.

Lemma item_tszby : Z.of_nat item = tszby /\ (item = 2 \/ item = 4)%nat.
Proof. unfold item, tszby. destruct Hw as [-> | ->]; vm_compute; auto. Qed.

(** The bytes [T] read so far: those flushed to the user and those in the
    buffer. *)
Record read_inv (T : list Z) (k : nat) (x : xfer) : Prop := {
  rd_full : (k < K)%nat;
  rd_kindx : x_kindx x = Z.of_nat k * tszby;
  rd_uindx : 0 <= x_uindx x;
  rd_total : x_uindx x + x_kindx x = Z.of_nat (length T);
  rd_kbuf : length (x_kbuf x) = Z.to_nat ksize;
  rd_part : take (Z.to_nat (x_kindx x)) (x_kbuf x) = drop (Z.to_nat (x_uindx x)) T;
  rd_user : forall i, x_user x i = copy_to_user 0 (take (Z.to_nat (x_uindx x)) T) user i;
}.

Lemma read_access x v h :
  dev_read (as_Endian_BIG anyas) tszbt (mmap + x_hskip x) (x_hw x) = (v, h) ->
  block_access anyas false tszbt mmap x =
    Xfer h (x_user x) (store (x_kindx x) (to_mem item v) (x_kbuf x)) (x_uindx x) (x_kindx x) (x_hskip x).
Proof. intros E. unfold block_access, item. destruct Hw as [-> | ->]; simpl in *; rewrite E; reflexivity. Qed.

Lemma read_round T k x v h :
  read_inv T k x ->
  dev_read (as_Endian_BIG anyas) tszbt (mmap + x_hskip x) (x_hw x) = (v, h) ->
  let x' := block_flush false ksize tszby incr (block_access anyas false tszbt mmap x) in
  exists k', read_inv (T ++ to_mem item v) k' x' /\ x_hw x' = h /\ x_hskip x' = s32 (x_hskip x + incr * tszby).
Proof.
  intros [H1 H2 H3 H4 H5 H6 H7] E. cbv zeta. rewrite (read_access x v h E).
  destruct item_tszby as [Hit Hit2]. pose proof (to_mem_length item v) as Hlen.
  assert (Z.to_nat ksize = K * item)%nat as Hks by (unfold ksize; rewrite <- Hit, <- Nat2Z.inj_mul; apply Nat2Z.id).
  assert (Z.to_nat (x_kindx x) = k * item)%nat as Hki by (rewrite H2, <- Hit, <- Nat2Z.inj_mul; apply Nat2Z.id).
  assert (Z.to_nat (x_kindx x) + length (to_mem item v) <= length (x_kbuf x))%nat as Hfit by (rewrite Hlen, H5, Hks, Hki; nia).
  pose proof (store_length (x_kindx x) (to_mem item v) (x_kbuf x) ltac:(lia) Hfit) as Hsl.
  pose proof (store_take (x_kindx x) (to_mem item v) (x_kbuf x) ltac:(lia) Hfit) as Hst.
  rewrite H6, Hlen in Hst.
  assert (Z.to_nat (x_uindx x) <= length T)%nat as Hut by lia.
  assert (drop (Z.to_nat (x_uindx x)) T ++ to_mem item v = drop (Z.to_nat (x_uindx x)) (T ++ to_mem item v)) as Hd
    by (by rewrite drop_app_le by done).
  unfold block_flush. cbn [x_hw x_user x_kbuf x_uindx x_kindx x_hskip].
  destruct (Z.leb_spec ksize (x_kindx x + tszby)) as [Hfull|Hmore].
  - assert (x_kindx x + tszby = ksize) as Heq by (unfold ksize in *; nia).
    exists 0%nat. split; [|done]. split; cbn [x_hw x_user x_kbuf x_uindx x_kindx x_hskip]; [lia|lia|lia| | | |].
    + rewrite length_app, Hlen. lia.
    + by rewrite Hsl.
    + rewrite drop_ge; [done|]. rewrite length_app, Hlen. lia.
    + intros i. replace (Z.to_nat ksize) with (Z.to_nat (x_kindx x) + item)%nat by lia. rewrite Hst, Hd.
      rewrite (copy_to_user_ext _ _ _ _ H7).
      assert (x_uindx x = Z.of_nat (length (take (Z.to_nat (x_uindx x)) T))) as Hl by (rewrite length_take; lia).
      rewrite Hl at 1. rewrite copy_to_user_app. f_equal.
      rewrite <- (take_app_le T (to_mem item v) (Z.to_nat (x_uindx x))) by done. rewrite take_drop.
      symmetry. apply take_ge. rewrite length_app, Hlen. lia.
  - exists (S k). split; [|done]. split; cbn [x_hw x_user x_kbuf x_uindx x_kindx x_hskip].
    + unfold ksize in Hmore. nia.
    + lia.
    + done.
    + rewrite length_app, Hlen. lia.
    + by rewrite Hsl.
    + rewrite <- Hd, <- Hst. f_equal. lia.
    + intros i. rewrite H7. by rewrite take_app_le by done.
Qed.

Lemma read_loop n T k x :
  read_inv T k x -> 0 <= x_hskip x -> 0 <= incr -> x_hskip x + Z.of_nat n * (incr * tszby) < 2 ^ 31 ->
  let '(vs, h) := read_items n (as_Endian_BIG anyas) tszbt (mmap + x_hskip x) (incr * tszby) (x_hw x) in
  let x' := block_loop n anyas false tszbt mmap ksize tszby incr x in
  exists k', read_inv (T ++ flat_map (to_mem item) vs) k' x' /\ x_hw x' = h /\ length vs = n.
Proof.
  revert T k x. induction n as [|n IH]; intros T k x Hi H0 Hincr Hs; simpl.
  - exists k. by rewrite app_nil_r.
  - destruct (dev_read (as_Endian_BIG anyas) tszbt (mmap + x_hskip x) (x_hw x)) as [v h] eqn:E.
    destruct (read_round T k x v h Hi E) as (k1 & Hi1 & Hh & Hsk).
    assert (0 <= incr * tszby) as Hst by (destruct item_tszby; nia).
    rewrite s32_id in Hsk by nia.
    specialize (IH (T ++ to_mem item v) k1 _ Hi1). rewrite Hh, Hsk in IH.
    specialize (IH ltac:(nia) Hincr ltac:(nia)). replace (mmap + (x_hskip x + incr * tszby)) with (mmap + x_hskip x + incr * tszby) in IH by lia.
    destruct (read_items n _ _ _ _ h) as [vs h']. destruct IH as (k2 & Hi2 & Hh2 & Hl). exists k2.
    simpl. rewrite <- app_assoc in Hi2. split_and!; [done|done|by rewrite Hl].
Qed.

(** *** Writing at most one buffer *)

Variable B : list Z.

Definition user_item (k : nat) : Z := of_mem (take item (drop (k * item) B)).

Lemma write_access k x :
  x_kindx x = Z.of_nat k * tszby -> x_kbuf x = B ->
  block_access anyas true tszbt mmap x =
    Xfer (dev_write (as_Endian_BIG anyas) tszbt (mmap + x_hskip x) (user_item k) (x_hw x))
      (x_user x) B (x_uindx x) (x_kindx x) (x_hskip x).
Proof.
  intros Hk Hb. destruct item_tszby as [Hit _].
  assert (Z.to_nat (x_kindx x) = k * item)%nat as Hn by (rewrite Hk, <- Hit, <- Nat2Z.inj_mul; apply Nat2Z.id).
  unfold block_access, user_item, load. rewrite Hn, Hb. unfold item. destruct Hw as [-> | ->]; reflexivity.
Qed.

Lemma write_loop m k x :
  (m + k = K)%nat -> x_kindx x = Z.of_nat k * tszby -> x_kbuf x = B ->
  0 <= x_hskip x -> 0 <= incr -> x_hskip x + Z.of_nat m * (incr * tszby) < 2 ^ 31 ->
  let x' := block_loop m anyas true tszbt mmap ksize tszby incr x in
  x_hw x' = write_items (user_item <$> seq k m) (as_Endian_BIG anyas) tszbt (mmap + x_hskip x) (incr * tszby) (x_hw x) /\
  x_user x' = x_user x.
Proof.
  revert k x. induction m as [|m IH]; intros k x Hm Hk Hb H0 Hincr Hs; [done|].
  cbn [block_loop seq fmap list_fmap write_items]. rewrite (write_access k x Hk Hb).
  destruct item_tszby as [Hit Hit2]. assert (0 <= incr * tszby) as Hst by nia.
  unfold block_flush. cbn [x_hw x_user x_kbuf x_uindx x_kindx x_hskip]. rewrite s32_id by nia.
  replace (mmap + x_hskip x + incr * tszby) with (mmap + (x_hskip x + incr * tszby)) by lia.
  destruct (Z.leb_spec ksize (x_kindx x + tszby)) as [Hfull|Hmore].
  - assert (m = 0%nat) as -> by (unfold ksize in Hfull; rewrite Hk in Hfull; nia). done.
  - match goal with |- context [block_loop m anyas true tszbt mmap ksize tszby incr ?y] =>
      destruct (IH (S k) y) as [E1 E2]; cbn [x_hw x_user x_kbuf x_uindx x_kindx x_hskip] in *; [lia|lia|done|nia|done|nia|] end.
    by rewrite E1, E2.
Qed.
End Block.

(** ** The calls *)

(** The width of an item: the caller's, or that of the address space. *)
Definition block_width (anyas : InsLibAnyAddressSpace) (riob : SkelDrvrRawIoTransferBlock) : Z :=
  let t := Z.land (rt_DataWidth riob) 0x3F in if t <=? 0 then as_DataWidth anyas else t.

(** A request in the window, for items of 16 or 32 bits. *)
Record block_ok (spaces : list InsLibAnyAddressSpace) (riob : SkelDrvrRawIoTransferBlock) (anyas : InsLibAnyAddressSpace)
    (w n : Z) : Prop := {
  bo_space : InsLibGetAddressSpace spaces (rt_SpaceNumber riob) = Some anyas;
  bo_window : as_WindowSize anyas = 0 \/ rt_Offset riob < as_WindowSize anyas;
  bo_width : block_width anyas riob = w;
  bo_w : w = 16 \/ w = 32;
  bo_count : transfers (rt_BytesTr riob) (w / 8) = Some n;
  bo_incr : 0 <= rt_AddrIncr riob;
  bo_skip : n * (rt_AddrIncr riob * (w / 8)) < 2 ^ 31;
}.

Lemma transfers_pos b t n : transfers b t = Some n -> 1 <= n < 2 ^ 31.
Proof.
  unfold transfers. destruct (t =? 0); [done|]. intros Ht. simplify_eq. pose proof (s32_range (b / u32 t)).
  destruct (Z.leb_spec (s32 (b / u32 t)) 0); lia.
Qed.

(** The prologue of the call: what is left is the loop. *)
Lemma block_prologue spaces riob anyas w n flag junk h user :
  block_ok spaces riob anyas w n ->
  exists K, (if n <? TRANSFERS then n else TRANSFERS) = Z.of_nat K /\ (0 < K)%nat /\
  RawIoBlock spaces riob flag true junk h user =
    let ksize := Z.of_nat K * (w / 8) in
    let x := block_loop (Z.to_nat n) anyas flag w (as_Mapped anyas + rt_Offset riob) ksize (w / 8) (rt_AddrIncr riob)
               (Xfer h user (if flag then copy_from_user 0 ksize user else junk ksize) 0 0 0) in
    Some (inr tt, x_hw x, if negb flag && truthy (x_kindx x)
                  then copy_to_user (x_uindx x) (take (Z.to_nat (x_kindx x)) (x_kbuf x)) (x_user x) else x_user x).
Proof.
  intros [H1 H2 H3 H4 H5 H6 H7]. pose proof (transfers_pos _ _ _ H5) as Hn.
  exists (Z.to_nat (if n <? TRANSFERS then n else TRANSFERS)). unfold TRANSFERS.
  assert (0 < (if n <? 1024 then n else 1024)) as Hpos by (destruct (n <? 1024); lia).
  split; [by rewrite Z2Nat.id by lia|]. split; [lia|]. rewrite Z2Nat.id by lia.
  unfold RawIoBlock. rewrite H1.
  assert (truthy (as_WindowSize anyas) && (as_WindowSize anyas <=? rt_Offset riob) = false) as ->.
  { unfold truthy. destruct H2 as [-> |H2]; [done|]. by rewrite (proj2 (Z.leb_gt _ _)), andb_false_r by done. }
  unfold block_width in H3. cbv zeta. rewrite H3.
  assert (Z.quot w 8 = w / 8) as -> by (by destruct H4 as [-> | ->]).
  rewrite H5. cbn [mbind option_bind]. cbn [negb].
  assert ((if n <? TRANSFERS then n * (w / 8) else TRANSFERS * (w / 8)) = (if n <? 1024 then n else 1024) * (w / 8)) as ->
    by (unfold TRANSFERS; by destruct (n <? 1024)).
  done.
Qed.
End RawIo.

(** a block read of 16- or 32-bit items, of any length, makes the accesses
    one after the other at increasing addresses (or at one address, for a FIFO)
    and leaves in the user's buffer the bytes of the items in order, whatever
    the number of kernel buffers they need. *)
Lemma raw_block_read cpu_big {hw} `{Bus hw} spaces riob anyas w n junk (h : hw) user :
  block_ok spaces riob anyas w n -> (forall k, length (junk k) = Z.to_nat k) ->
  let '(vs, h') := read_items cpu_big (Z.to_nat n) (as_Endian_BIG anyas) w (as_Mapped anyas + rt_Offset riob)
                     (rt_AddrIncr riob * (w / 8)) h in
  exists user', RawIoBlock cpu_big spaces riob false true junk h user = Some (inr tt, h', user') /\
    forall i, user' i = copy_to_user 0 (flat_map (to_mem cpu_big (Z.to_nat (w / 8))) vs) user i.
Proof.
  intros Hok Hjunk. pose proof Hok as [H1 H2 H3 H4 H5 H6 H7]. pose proof (transfers_pos _ _ _ H5) as Hn.
  destruct (block_prologue cpu_big spaces riob anyas w n false junk h user Hok) as (K & HK & HK0 & ->).
  cbv zeta. cbn [negb andb]. set (x0 := Xfer h user _ 0 0 0).
  assert (read_inv w user K [] 0 x0) as Hi0.
  { split; [simpl; lia..|exact (Hjunk _)|reflexivity|]. intros i. unfold copy_to_user.
    match goal with |- _ = if ?b then _ else _ => destruct b eqn:E; [|done] end.
    apply andb_prop in E as [E1%Z.leb_le E2%Z.ltb_lt]. simpl in E2. lia. }
  pose proof (read_loop cpu_big anyas w (as_Mapped anyas + rt_Offset riob) (rt_AddrIncr riob) user K H4 (Z.to_nat n) [] 0 x0
    Hi0 ltac:(simpl; lia) H6 ltac:(simpl; lia)) as Hl.
  unfold x0 at 1 2 in Hl. cbn [x_hskip x_hw] in Hl. rewrite Z.add_0_r in Hl.
  destruct (read_items _ _ _ _ _ _ _) as [vs h']. destruct Hl as (k & [I1 I2 I3 I4 I5 I6 I7] & Hh & _).
  set (x := block_loop _ _ _ _ _ _ _ _ _ _) in *.
  assert (0 <= x_kindx x) as Hk0 by (rewrite I2; clear -H4; destruct H4 as [-> | ->]; [change (16 / 8) with 2|change (32 / 8) with 4]; lia).
  rewrite Hh. eexists. split; [done|]. intros i.
  change (flat_map (to_mem cpu_big (item w)) vs) with (flat_map (to_mem cpu_big (Z.to_nat (w / 8))) vs) in *.
  set (T := flat_map _ vs) in *. unfold truthy. destruct (Z.eqb_spec (x_kindx x) 0) as [E0|E0]; cbn [negb].
  - rewrite I7. rewrite take_ge; [done|]. simpl in *. lia.
  - rewrite (copy_to_user_ext _ _ _ _ I7). rewrite I6.
    assert (x_uindx x = Z.of_nat (length (take (Z.to_nat (x_uindx x)) T))) as Hl by (rewrite length_take; simpl in *; lia).
    rewrite Hl at 1. rewrite copy_to_user_app. by rewrite take_drop.
Qed.

(** a block write of at most 1024 items of 16 or 32 bits writes the items of
    the user's buffer in order, each at its address, and leaves user memory
    alone. *)
Lemma raw_block_write cpu_big {hw} `{Bus hw} spaces riob anyas w n junk (h : hw) user :
  block_ok spaces riob anyas w n -> n <= TRANSFERS ->
  RawIoBlock cpu_big spaces riob true true junk h user =
    Some (inr tt,
      write_items cpu_big (user_item cpu_big w (copy_from_user 0 (n * (w / 8)) user) <$> seq 0 (Z.to_nat n))
        (as_Endian_BIG anyas) w (as_Mapped anyas + rt_Offset riob) (rt_AddrIncr riob * (w / 8)) h,
      user).
Proof.
  intros Hok Hle. pose proof Hok as [H1 H2 H3 H4 H5 H6 H7]. pose proof (transfers_pos _ _ _ H5) as Hn.
  destruct (block_prologue cpu_big spaces riob anyas w n true junk h user Hok) as (K & HK & HK0 & ->).
  assert (K = Z.to_nat n) as -> by (unfold TRANSFERS in *; destruct (Z.ltb_spec n 1024); lia).
  cbv zeta. cbn [negb andb]. rewrite Z2Nat.id by lia. set (x0 := Xfer h user _ 0 0 0).
  destruct (write_loop cpu_big anyas w (as_Mapped anyas + rt_Offset riob) (rt_AddrIncr riob) (Z.to_nat n) H4
    (copy_from_user 0 (n * (w / 8)) user) (Z.to_nat n) 0 x0 ltac:(lia) ltac:(simpl; lia) ltac:(done) ltac:(simpl; lia) H6 ltac:(simpl; lia))
    as [E1 E2].
  rewrite Z2Nat.id in E1, E2 by lia. unfold x0 at 2 3 in E1. cbn [x_hskip x_hw] in E1. rewrite Z.add_0_r in E1.
  rewrite E1, E2. done.
Qed.

(** ** A module for examples: memory that remembers the writes *)

Definition demo_hw : Type := (Z -> Z) * list (Z * Z).

#[export] Instance demo_bus : Bus demo_hw := {
  io_read w a h := (h.1 a, h);
  io_write w a v h := (h.1, h.2 ++ [(a, v)]);
}.

Definition demo_space : InsLibAnyAddressSpace := AnyAS 1 16 0x10000 false 0x1000.
Definition demo_user : umem := fun i => (i / 2) mod 256.

(** 1500 items at one address: two kernel buffers. *)
Definition demo_block (incr bytes : Z) : SkelDrvrRawIoTransferBlock := RawIoTransferBlock 1 0x10 16 incr bytes.

Lemma demo_block_ok incr n : 0 <= incr -> 0 < n < 2000 -> n * (incr * 2) < 2 ^ 31 ->
  block_ok [demo_space] (demo_block incr (2 * n)) demo_space 16 n.
Proof.
  intros Hi Hn Hs. split; simpl; [done|lia|done|by left| |done|change (16 / 8) with 2; lia].
  unfold transfers. change (16 / 8) with 2. cbn [Z.eqb]. change (u32 2) with 2.
  replace (2 * n / 2) with n by (rewrite Z.mul_comm, Z.div_mul; lia). rewrite s32_id by lia.
  by rewrite (proj2 (Z.leb_gt n 0)) by lia.
Qed.

Lemma raw_block_read_witness :
  exists user', RawIoBlock false [demo_space] (demo_block 1 3000) false true (fun k => replicate (Z.to_nat k) 0)
    ((fun a => (a / 2) mod 7), []) (fun _ => 0) = Some (inr tt, ((fun a => (a / 2) mod 7), []), user') /\
    user' 0 = (0x1010 / 2) mod 7 /\ user' 2998 = ((0x1010 + 2998) / 2) mod 7 /\ user' 3000 = 0.
Proof.
  pose proof (raw_block_read false [demo_space] (demo_block 1 3000) demo_space 16 1500
    (fun k => replicate (Z.to_nat k) 0) ((fun a => (a / 2) mod 7), []) (fun _ => 0)
    (demo_block_ok 1 1500 ltac:(lia) ltac:(lia) ltac:(lia)) ltac:(intros; apply length_replicate)) as Hr.
  set (p := read_items _ _ _ _ _ _ _) in Hr.
  assert (p.2 = ((fun a => (a / 2) mod 7), [])) as Hp by (vm_compute; reflexivity).
  assert (nth 0 (flat_map (to_mem false 2) p.1) 0 = (0x1010 / 2) mod 7 /\
    nth 2998 (flat_map (to_mem false 2) p.1) 0 = ((0x1010 + 2998) / 2) mod 7 /\
    length (flat_map (to_mem false 2) p.1) = 3000%nat) as (N1 & N2 & N3) by (vm_compute; split_and!; reflexivity).
  clearbody p. destruct p as [vs h']. simpl in Hp. subst h'. destruct Hr as (user' & E & Hu). exists user'. split; [exact E|].
  rewrite !Hu. unfold copy_to_user. change (Z.to_nat (16 / 8)) with 2%nat. simpl in N1, N2, N3. rewrite N3.
  split_and!; [exact N1|exact N2|reflexivity].
Defined.

Lemma raw_block_write_witness :
  RawIoBlock false [demo_space] (demo_block 1 6) true true (fun k => []) ((fun _ => 0), []) (fun i => i)
  = Some (inr tt, ((fun _ => 0), [(0x1010, 0x100); (0x1012, 0x302); (0x1014, 0x504)]), fun i => i).
Proof.
  rewrite (raw_block_write false [demo_space] (demo_block 1 6) demo_space 16 3 (fun k => []) ((fun _ => 0), []) (fun i => i)
    (demo_block_ok 1 3 ltac:(lia) ltac:(lia) ltac:(lia)) ltac:(unfold TRANSFERS; lia)).
  vm_compute. reflexivity.
Defined.

(** Longer writes repeat: the buffer is refilled before the index into the
    user's data moves on, so the second buffer holds the first one's items. *)
Lemma long_write_repeats :
  let r := RawIoBlock false [demo_space] (demo_block 1 4096) true true (fun k => []) ((fun _ => 0), []) demo_user in
  match r with
  | Some (_, (_, log), _) => option_map snd (log !! 1024%nat) = option_map snd (log !! 0%nat) /\
                             option_map snd (log !! 1025%nat) = Some 0x101
  | None => False
  end.
Proof. vm_compute. split; reflexivity. Qed.

(** An 8-bit block read always reads the first address. *)
Lemma byte_read_same_address :
  match RawIoBlock false [demo_space] (RawIoTransferBlock 1 0 8 1 4) false true (fun k => replicate (Z.to_nat k) 0)
    ((fun a => a mod 16), []) (fun _ => 255) with
  | Some (_, _, user) => user <$> [0; 1; 2; 3] = [0; 0; 0; 0]
  | None => False
  end.
Proof. vm_compute. reflexivity. Qed.

(** A data width below 8 divides by zero. *)
Lemma narrow_width_divides_by_zero :
  RawIoBlock false [demo_space] (RawIoTransferBlock 1 0 4 1 4) false true (fun k => []) ((fun _ => 0), []) (fun _ => 0) = None.
Proof. reflexivity. Qed.
