(* ===== verification/SkelDrvr.v ===== *)
(** * Clients, modules and connections ([skel/driver/skeldrvr.c])

    The working area of a driver: the installed modules, the open clients, and
    per module and interrupt the list of clients connected to it.  Client
    contexts are memory blocks named by addresses (the map [heap]); the lists
    hold addresses, as the code's lists hold pointers, so that a pointer to a
    context that was freed is seen: [None] is undefined behaviour.  What the
    user's part of a driver does is an argument where its result matters; the
    mask it is given by [SkelUserEnableInterrupts()] is kept in [m_hw_ints]. *)

From S2P Require Import Prelude CdcmSem SkelQueue SkelIo.

Definition EBADF : Z := 9.
Definition ENOTTY : Z := 25.
Definition EACCES : Z := 13.

(** ** Structures ([skelDrvrP.h]) *)

Record SkelDrvrClientContext := Ccon {
  cc_Pid : Z;
  cc_Semaphore : cdcm_sem;
  cc_Timeout : Z;
  cc_Timer : Z;
  cc_Queue : SkelDrvrQueue;
  cc_Debug : Z;
  cc_ModuleNumber : Z;
  cc_cdcmf : Z;
}.

Record SkelDrvrModConn := ModConn {
  mc_clients : list (list nat);
  enabled_ints : Z;
}.

Record SkelDrvrModuleContext := Mcon {
  m_ModuleNumber : Z;
  m_InUse : Z;
  m_Semaphore : cdcm_sem;
  m_Timeout : Z;
  m_Connected : SkelDrvrModConn;
  m_Debug : Z;
  m_StandardStatus : Z;
  m_FlashOpen : Z;
  m_spaces : list InsLibAnyAddressSpace;   (* of [Modld] *)
  m_hw_ints : Z;
}.

Record SkelDrvrWorkingArea := Wa_ {
  InstalledModules : nat;
  clients : list nat;
  Modules : list SkelDrvrModuleContext;
  heap : gmap nat SkelDrvrClientContext;
}.

Section Setters.
Definition set_queue (q : SkelDrvrQueue) (s : cdcm_sem) (c : SkelDrvrClientContext) :=
  Ccon (cc_Pid c) s (cc_Timeout c) (cc_Timer c) q (cc_Debug c) (cc_ModuleNumber c) (cc_cdcmf c).
Definition set_timeout v (c : SkelDrvrClientContext) :=
  Ccon (cc_Pid c) (cc_Semaphore c) v (cc_Timer c) (cc_Queue c) (cc_Debug c) (cc_ModuleNumber c) (cc_cdcmf c).
Definition set_timer v (c : SkelDrvrClientContext) :=
  Ccon (cc_Pid c) (cc_Semaphore c) (cc_Timeout c) v (cc_Queue c) (cc_Debug c) (cc_ModuleNumber c) (cc_cdcmf c).
Definition set_debug v (c : SkelDrvrClientContext) :=
  Ccon (cc_Pid c) (cc_Semaphore c) (cc_Timeout c) (cc_Timer c) (cc_Queue c) v (cc_ModuleNumber c) (cc_cdcmf c).
Definition set_module v (c : SkelDrvrClientContext) :=
  Ccon (cc_Pid c) (cc_Semaphore c) (cc_Timeout c) (cc_Timer c) (cc_Queue c) (cc_Debug c) v (cc_cdcmf c).
Definition set_connected v h (m : SkelDrvrModuleContext) :=
  Mcon (m_ModuleNumber m) (m_InUse m) (m_Semaphore m) (m_Timeout m) v (m_Debug m) (m_StandardStatus m) (m_FlashOpen m)
    (m_spaces m) h.
Definition set_status v (m : SkelDrvrModuleContext) :=
  Mcon (m_ModuleNumber m) (m_InUse m) (m_Semaphore m) (m_Timeout m) (m_Connected m) (m_Debug m) v (m_FlashOpen m)
    (m_spaces m) (m_hw_ints m).
Definition set_sem v (m : SkelDrvrModuleContext) :=
  Mcon (m_ModuleNumber m) (m_InUse m) v (m_Timeout m) (m_Connected m) (m_Debug m) (m_StandardStatus m) (m_FlashOpen m)
    (m_spaces m) (m_hw_ints m).
Definition set_flash v (m : SkelDrvrModuleContext) :=
  Mcon (m_ModuleNumber m) (m_InUse m) (m_Semaphore m) (m_Timeout m) (m_Connected m) (m_Debug m) (m_StandardStatus m) v
    (m_spaces m) (m_hw_ints m).
Definition set_modules v (w : SkelDrvrWorkingArea) := Wa_ (InstalledModules w) (clients w) v (heap w).
Definition set_clients v (w : SkelDrvrWorkingArea) := Wa_ (InstalledModules w) v (Modules w) (heap w).
Definition set_heap v (w : SkelDrvrWorkingArea) := Wa_ (InstalledModules w) (clients w) (Modules w) v.
End Setters.

Definition upd_mcon (i : nat) (f : SkelDrvrModuleContext -> SkelDrvrModuleContext) (w : SkelDrvrWorkingArea) :=
  set_modules (alter f i (Modules w)) w.
Definition upd_ccon (c : nat) (f : SkelDrvrClientContext -> SkelDrvrClientContext) (w : SkelDrvrWorkingArea) :=
  set_heap (alter f c (heap w)) w.

Section Skel.
Variables SkelDrvrINTERRUPTS SkelDrvrQUEUE_SIZE : nat.

(** ** Looking up *)

(** The index in [Modules] of an installed module. *)
Definition get_mcon (modnr : Z) (w : SkelDrvrWorkingArea) : option nat :=
  fst <$> list_find (fun m => m_ModuleNumber m = modnr) (take (InstalledModules w) (Modules w)).

(** [list_for_each_entry(entry, &Wa->clients, list)]: every context is read. *)
Fixpoint find_cdcmf (flp : Z) (l : list nat) (h : gmap nat SkelDrvrClientContext) : option (option nat) :=
  match l with
  | [] => Some None
  | c :: l => ccon ← h !! c; if cc_cdcmf ccon =? flp then Some (Some c) else find_cdcmf flp l h
  end.

Definition skel_get_ccon (flp : Z) (w : SkelDrvrWorkingArea) : option (option nat) :=
  find_cdcmf flp (clients w) (heap w).

Definition __get_client (c : nat) (l : list nat) : bool := bool_decide (c ∈ l).

(** [list_del()] of the entry that [__get_client()] finds, the first. *)
Fixpoint list_del (c : nat) (l : list nat) : list nat :=
  match l with [] => [] | x :: l => if Nat.eqb x c then l else x :: list_del c l end.

(** ** Connections *)

(** [conx->Module], or the client's module when it is 0. *)
Definition conx_module (ccon : SkelDrvrClientContext) (conx : SkelDrvrConnection) (w : SkelDrvrWorkingArea) : option nat :=
  if cx_Module conx =? 0 then get_mcon (cc_ModuleNumber ccon) w else get_mcon (cx_Module conx) w.

Definition list_of (j : nat) (m : SkelDrvrModuleContext) : list nat := nth j (mc_clients (m_Connected m)) [].

(** One interrupt of [Connect()]; [alloc]: the link could be allocated. *)
Definition connect_bit (c : nat) (imsk : Z) (j : nat) (alloc : bool) (m : SkelDrvrModuleContext) : SkelDrvrModuleContext :=
  if negb (Z.testbit imsk (Z.of_nat j)) then m else
  let mc := m_Connected m in
  let link := __get_client c (list_of j m) in
  let lists := if link then mc_clients mc
               else if alloc then alter (cons c) j (mc_clients mc) else mc_clients mc in
  if link || alloc then
    let e := Z.lor (enabled_ints mc) imsk in set_connected (ModConn lists e) e m
  else m.

Definition Connect (c : nat) (conx : SkelDrvrConnection) (allocs : nat -> bool) (w : SkelDrvrWorkingArea)
    : option SkelDrvrWorkingArea :=
  ccon ← heap w !! c;
  match conx_module ccon conx w with
  | None => Some w
  | Some i =>
      Some (upd_mcon i (fun m =>
        foldl (fun m j => connect_bit c (cx_ConMask conx) j (allocs j) m) m (seq 0 SkelDrvrINTERRUPTS)) w)
  end.

Definition disconnect_bit (c : nat) (imsk : Z) (j : nat) (m : SkelDrvrModuleContext) : SkelDrvrModuleContext :=
  let mc := m_Connected m in
  if negb (Z.testbit imsk (Z.of_nat j)) || bool_decide (list_of j m = []) then m else
  if negb (__get_client c (list_of j m)) then m else
  let l := list_del c (list_of j m) in
  let lists := <[j := l]> (mc_clients mc) in
  if bool_decide (l = []) then
    let e := Z.land (enabled_ints mc) (not32 imsk) in set_connected (ModConn lists e) e m
  else set_connected (ModConn lists (enabled_ints mc)) (m_hw_ints m) m.

(** The connection is the caller's: an empty mask becomes a full one. *)
Definition DisConnect (c : nat) (conx : SkelDrvrConnection) (w : SkelDrvrWorkingArea)
    : option (SkelDrvrConnection * SkelDrvrWorkingArea) :=
  ccon ← heap w !! c;
  match conx_module ccon conx w with
  | None => Some (conx, w)
  | Some i =>
      let conx := if cx_ConMask conx =? 0 then Conx (cx_Module conx) (not32 (cx_ConMask conx)) else conx in
      Some (conx, upd_mcon i (fun m =>
        foldl (fun m j => disconnect_bit c (cx_ConMask conx) j m) m (seq 0 SkelDrvrINTERRUPTS)) w)
  end.

Fixpoint disconnect_modules (c : nat) (mods : list nat) (conx : SkelDrvrConnection) (w : SkelDrvrWorkingArea)
    : option SkelDrvrWorkingArea :=
  match mods with
  | [] => Some w
  | i :: mods =>
      m ← Modules w !! i;
      '(conx, w) ← DisConnect c (Conx (m_ModuleNumber m) (cx_ConMask conx)) w;
      disconnect_modules c mods conx w
  end.

Definition DisConnectAll (c : nat) (w : SkelDrvrWorkingArea) : option SkelDrvrWorkingArea :=
  disconnect_modules c (seq 0 (InstalledModules w)) (Conx 0 0) w.

(** ** Opening and closing *)

Definition SkelDrvrDEFAULT_CLIENT_TIMEOUT : Z := 2000.

Definition client_zero : SkelDrvrClientContext :=
  Ccon 0 (cdcm_sem_init 0) 0 0 (queue_zero SkelDrvrQUEUE_SIZE) 0 0 0.

Definition client_init (flp pid : Z) (w : SkelDrvrWorkingArea) : SkelDrvrClientContext :=
  let nr := match InstalledModules w, Modules w with S _, m :: _ => m_ModuleNumber m | _, _ => 0 end in
  let ccon := Ccon pid (cdcm_sem_init 0) SkelDrvrDEFAULT_CLIENT_TIMEOUT 0 (cc_Queue client_zero) 0 nr flp in
  let '(q, s, _) := __reset_queue (cc_Queue ccon) (cc_Semaphore ccon) in set_queue q s ccon.

(** What the kernel and the user's part answer during [open()]: the address of
    the new context, whether [SkelUserClientInit()] succeeds, and whether the
    link can be allocated. *)
Record open_env := OpenEnv { oe_block : option nat; oe_pid : Z; oe_user_ok : bool; oe_link : bool }.

(** The result and the working area; [inl] is an error number. *)
Definition SkelDrvrOpen (flp : Z) (e : open_env) (w : SkelDrvrWorkingArea) : (Z + unit) * SkelDrvrWorkingArea :=
  match oe_block e with
  | None => (inl ENOMEM, w)
  | Some c =>
      if negb (oe_user_ok e) then (inl EBADF, w) else
      if negb (oe_link e) then (inl ENOMEM, w) else
      (inr tt, set_clients (c :: clients w) (set_heap (<[c := client_init flp (oe_pid e) w]> (heap w)) w))
  end.

Definition __skel_remove_ccon (c : nat) (w : SkelDrvrWorkingArea) : SkelDrvrWorkingArea :=
  if __get_client c (clients w) then set_clients (list_del c (clients w)) w else w.

Definition __do_close (c : nat) (w : SkelDrvrWorkingArea) : option SkelDrvrWorkingArea :=
  w ← DisConnectAll c w;
  let w := __skel_remove_ccon c w in
  Some (set_heap (delete c (heap w)) w).

Definition SkelDrvrClose (flp : Z) (w : SkelDrvrWorkingArea) : option ((Z + unit) * SkelDrvrWorkingArea) :=
  o ← skel_get_ccon flp w;
  match o with
  | None => Some (inl EBADF, w)
  | Some c => w ← __do_close c w; Some (inr tt, w)
  end.
(** ** Interrupts *)

(** [q_put()] on the context [c]; the tasks woken are left out. *)
Definition q_put (rb : SkelDrvrReadBuf) (c : nat) (w : SkelDrvrWorkingArea) : option SkelDrvrWorkingArea :=
  ccon ← heap w !! c;
  let '(q, s, _) := __q_put SkelDrvrQUEUE_SIZE rb (cc_Queue ccon) (cc_Semaphore ccon) in
  Some (upd_ccon c (set_queue q s) w).

Fixpoint put_queues (rb : SkelDrvrReadBuf) (l : list nat) (w : SkelDrvrWorkingArea) : option SkelDrvrWorkingArea :=
  match l with
  | [] => Some w
  | c :: l => w ← q_put rb c w; put_queues rb l w
  end.

(** One bit at a time: a client gets an event for each of its interrupts. *)
Fixpoint fill_bits (m : SkelDrvrModuleContext) (rb : SkelDrvrReadBuf) (imask : Z) (js : list nat) (w : SkelDrvrWorkingArea)
    : option SkelDrvrWorkingArea :=
  match js with
  | [] => Some w
  | j :: js =>
      let interrupt := Z.land imask (2 ^ Z.of_nat j) in
      if negb (truthy interrupt) || bool_decide (list_of j m = []) then fill_bits m rb imask js w else
      let rbuf := ReadBuf (Conx (cx_Module (rb_Connection rb)) interrupt) (rb_Time rb) in
      w ← put_queues rbuf (list_of j m) w; fill_bits m rb imask js w
  end.

Definition fill_clients_queues (i : nat) (rb : SkelDrvrReadBuf) (imask : Z) (w : SkelDrvrWorkingArea)
    : option SkelDrvrWorkingArea :=
  m ← Modules w !! i; fill_bits m rb imask (seq 0 SkelDrvrINTERRUPTS) w.

(** The user's part reads the interrupt source and the time. *)
Definition IntrHandler (i : nat) (source : Z) (time : SkelDrvrTime) (w : SkelDrvrWorkingArea) : option SkelDrvrWorkingArea :=
  m ← Modules w !! i;
  if negb (truthy source) then Some w else
  fill_clients_queues i (ReadBuf (Conx (m_ModuleNumber m) 0) time) source w.

(** [write()] simulates interrupts. *)
Definition SkelDrvrWrite (conx : SkelDrvrConnection) (utc : SkelDrvrTime) (w : SkelDrvrWorkingArea)
    : option ((Z + unit) * SkelDrvrWorkingArea) :=
  match get_mcon (cx_Module conx) w with
  | None => Some (inl EFAULT, w)
  | Some i => w ← fill_clients_queues i (ReadBuf conx utc) (cx_ConMask conx) w; Some (inr tt, w)
  end.

(** ** Reading

    Up to the point where the call has the semaphore or waits for it; then what
    it does when it has it, and when it gives up. *)

Definition SkelDrvrRead (flp : Z) (task : nat) (w : SkelDrvrWorkingArea)
    : option ((Z + (bool * nat)) * SkelDrvrWorkingArea) :=
  o ← skel_get_ccon flp w;
  match o with
  | None => Some (inl EBADF, w)
  | Some c =>
      ccon ← heap w !! c;
      let '(q, s) := if truthy (QueueOff (cc_Queue ccon))
                     then let '(q, s, _) := __reset_queue (cc_Queue ccon) (cc_Semaphore ccon) in (q, s)
                     else (cc_Queue ccon, cc_Semaphore ccon) in
      let '(got, s) := if cc_Timeout ccon =? 0 then let '(r, s) := cdcm_down_trylock s in (r =? 0, s)
                       else cdcm_down task s in
      Some (inr (got, c), upd_ccon c (set_queue q s) w)
  end.

Definition read_finish (c : nat) (w : SkelDrvrWorkingArea) : option (SkelDrvrReadBuf * SkelDrvrWorkingArea) :=
  ccon ← heap w !! c;
  let '(rb, q) := __q_get SkelDrvrQUEUE_SIZE (cc_Queue ccon) in
  Some (rb, upd_ccon c (set_queue q (cc_Semaphore ccon)) w).

Definition read_give_up (c task : nat) (w : SkelDrvrWorkingArea) : option SkelDrvrWorkingArea :=
  ccon ← heap w !! c;
  Some (upd_ccon c (fun k => set_timer 0 (set_queue (client_timeout (cc_Queue k)) (leave_wait task (cc_Semaphore k)) k)) w).

Definition SkelDrvrSelect (flp : Z) (read : bool) (w : SkelDrvrWorkingArea) : option (Z + nat) :=
  o ← skel_get_ccon flp w;
  match o with
  | None => Some (inl EBADF)
  | Some c => Some (if read then inr c else inl EACCES)
  end.

(** ** The lists asked for by ioctls *)

Definition SkelDrvrCLIENT_CONTEXTS : nat := 16.
Definition SkelDrvrCONNECTIONS : nat := 16.
Definition SkelDrvrMAX_MAPS : nat := 10.

Definition skel_get_client_list (w : SkelDrvrWorkingArea) : option (list Z) :=
  mapM (fun c => cc_Pid <$> heap w !! c) (take SkelDrvrCLIENT_CONTEXTS (clients w)).

(** The connections of the clients of one interrupt's list that have this Pid. *)
Fixpoint fill_client_list (modnr pid : Z) (j : nat) (l : list nat) (h : gmap nat SkelDrvrClientContext)
    (acc : list SkelDrvrConnection) : option (list SkelDrvrConnection * bool) :=
  match l with
  | [] => Some (acc, false)
  | c :: l =>
      ccon ← h !! c;
      if negb (cc_Pid ccon =? pid) then fill_client_list modnr pid j l h acc else
      let acc := acc ++ [Conx modnr (2 ^ Z.of_nat j)] in
      if Nat.leb SkelDrvrCONNECTIONS (length acc) then Some (acc, true) else fill_client_list modnr pid j l h acc
  end.

Fixpoint fill_client_bits (m : SkelDrvrModuleContext) (pid : Z) (js : list nat) (h : gmap nat SkelDrvrClientContext)
    (acc : list SkelDrvrConnection) : option (list SkelDrvrConnection * bool) :=
  match js with
  | [] => Some (acc, false)
  | j :: js =>
      '(acc, full) ← fill_client_list (m_ModuleNumber m) pid j (list_of j m) h acc;
      if full : bool then Some (acc, true) else fill_client_bits m pid js h acc
  end.

Definition skel_fill_client_connections (m : SkelDrvrModuleContext) (pid : Z) (h : gmap nat SkelDrvrClientContext)
    (acc : list SkelDrvrConnection) : option (list SkelDrvrConnection * bool) :=
  fill_client_bits m pid (seq 0 SkelDrvrINTERRUPTS) h acc.

Fixpoint client_connections (ms : list SkelDrvrModuleContext) (pid : Z) (h : gmap nat SkelDrvrClientContext)
    (acc : list SkelDrvrConnection) : option (list SkelDrvrConnection) :=
  match ms with
  | [] => Some acc
  | m :: ms =>
      if negb (truthy (m_InUse m)) then client_connections ms pid h acc else
      '(acc, full) ← skel_fill_client_connections m pid h acc;
      if full : bool then Some acc else client_connections ms pid h acc
  end.

(** [ccn->Pid] 0 is the caller's. *)
Definition skel_get_client_connections (ccon : SkelDrvrClientContext) (pid : Z) (w : SkelDrvrWorkingArea)
    : option (Z * list SkelDrvrConnection) :=
  let pid := if pid =? 0 then cc_Pid ccon else pid in
  l ← client_connections (Modules w) pid (heap w) []; Some (pid, l).

Definition get_module_maps (m : SkelDrvrModuleContext) : list (Z * Z) :=
  (fun a => (as_Mapped a, as_SpaceNumber a)) <$> take SkelDrvrMAX_MAPS (m_spaces m).

(** ** Module lock, status and reset *)

Definition StatusNO_ISR : Z := 0x001.
Definition StatusDISABLED : Z := 0x004.
Definition StatusBUS_FAULT : Z := 0x020.
Definition StatusFLASH_OPEN : Z := 0x040.
Definition StatusEMULATION : Z := 0x080.
Definition StatusNO_HARDWARE : Z := 0x100.

Definition clear_bits (z mask : Z) : Z := Z.land z (not32 mask).

(** The task has the module or waits; a wait can only end by a signal. *)
Definition LockModule (task : nat) (m : SkelDrvrModuleContext) : bool * SkelDrvrModuleContext :=
  let '(got, s) := cdcm_down task (m_Semaphore m) in (got, set_sem s m).

Definition UnLockModule (m : SkelDrvrModuleContext) : list nat * SkelDrvrModuleContext :=
  let '(w, s) := ssignal (m_Semaphore m) in (w, set_sem s m).

(** The tasks woken; the user's part resets the hardware. *)
Definition Reset (m : SkelDrvrModuleContext) : list nat * SkelDrvrModuleContext :=
  let m := set_connected (m_Connected m) (enabled_ints (m_Connected m)) m in
  let '(w1, s) := sreset (m_Semaphore m) in
  let '(w2, s) := ssignal s in
  (w1 ++ w2, set_sem s m).
End Skel.
