(* ===== verification/SkelIoctl.v ===== *)
(** * The ioctl entry point ([SkelDrvrIoctl()] of [skel/driver/skeldrvr.c])

    Each command carries the value its argument points to, [None] for a NULL
    argument.  [None] as a result is undefined behaviour: a NULL pointer is
    dereferenced, or a division by zero.  What a driver's own part does to its
    hardware is the class [SkelUser]; it is taken not to change the framework's
    own structures, and not to replace [RawIo()] ([SkelConf.rawio] is NULL). *)

From S2P Require Import Prelude CdcmSem SkelQueue SkelIo SkelDrvr.

(** ** The user's part of a driver ([skelDrvrP.h])

    [true] is [SkelUserReturnOK]; the module is given by its number. *)

Class SkelUser (hw : Type) := {
  SkelUserHardwareEnable : Z -> Z -> hw -> bool * hw;
  SkelUserHardwareReset : Z -> hw -> hw;
  SkelUserGetHardwareStatus : Z -> hw -> Z * hw;
  SkelUserGetModuleVersion : Z -> hw -> list Z * hw;
  SkelUserJtagReadByte : Z -> hw -> option Z * hw;
  SkelUserJtagWriteByte : Z -> Z -> hw -> bool * hw;
  SkelUserIoctls : Z -> Z -> hw -> bool * hw;
}.

(** ** Commands *)

Inductive skel_cmd :=
  | SET_DEBUG (db : option Z)
  | GET_DEBUG (arg : bool)
  | GET_VERSION (arg : bool)
  | SET_TIMEOUT (lav : option Z)
  | GET_TIMEOUT (arg : bool)
  | SET_QUEUE_FLAG (lav : option Z)
  | GET_QUEUE_FLAG (arg : bool)
  | GET_QUEUE_SIZE (arg : bool)
  | GET_QUEUE_OVERFLOW (arg : bool)
  | SET_MODULE (lav : option Z)
  | GET_MODULE (arg : bool)
  | GET_MODULE_COUNT (arg : bool)
  | GET_MODULE_MAPS (arg : bool)
  | CONNECT (conx : option SkelDrvrConnection) (allocs : nat -> bool)
  | GET_CLIENT_LIST (arg : bool)
  | GET_CLIENT_CONNECTIONS (pid : option Z)
  | ENABLE (lav : option Z)
  | RESET
  | GET_STATUS (arg : bool)
  | JTAG_OPEN (task : nat)
  | JTAG_CLOSE
  | JTAG_READ_BYTE (arg : bool)
  | JTAG_WRITE_BYTE (lav : option Z)
  | RAW (riob : option SkelDrvrRawIoBlock) (flag : bool)
  | RAW_BLOCK (riobt : option SkelDrvrRawIoTransferBlock) (flag : bool) (user : umem)
  | OTHER (ty nr : Z).

(** What a successful call stores for the caller. *)
Inductive skel_out :=
  | ONone
  | OLong (v : Z)
  | OVersion (ver : option (list Z))       (* [None]: the module's version is not written *)
  | OMaps (maps : list (Z * Z))
  | OPids (pids : list Z)
  | OConnections (pid : Z) (l : list SkelDrvrConnection)
  | OStatus (hardware standard : Z)
  | ORaw (riob : SkelDrvrRawIoBlock)
  | OUser (user : umem)
  | OWait (i : nat).                       (* not yet: the task waits for the module's semaphore *)

(** What the surroundings answer: whether the argument's memory is accessible
    for the command ([bounds_ok()]), whether an access is a bus error, whether
    the wait for the module's mutex is interrupted, whether the kernel buffer of
    a block is allocated and what it holds. *)
Record ioctl_env := IoctlEnv {
  ie_bounds_ok : bool;
  ie_bus_error : bool;
  ie_interrupted : bool;
  ie_sysbrk_ok : bool;
  ie_junk : Z -> list Z;
}.

Definition lav_of (arg : option Z) : Z := default 0 arg.

(** The argument pointer of a command. *)
Definition arg_given (cm : skel_cmd) : bool :=
  match cm with
  | SET_DEBUG a | SET_TIMEOUT a | SET_QUEUE_FLAG a | SET_MODULE a | GET_CLIENT_CONNECTIONS a | ENABLE a
  | JTAG_WRITE_BYTE a => bool_decide (is_Some a)
  | GET_DEBUG a | GET_VERSION a | GET_TIMEOUT a | GET_QUEUE_FLAG a | GET_QUEUE_SIZE a | GET_QUEUE_OVERFLOW a
  | GET_MODULE a | GET_MODULE_COUNT a | GET_MODULE_MAPS a | GET_CLIENT_LIST a | GET_STATUS a | JTAG_READ_BYTE a => a
  | CONNECT a _ => bool_decide (is_Some a)
  | RAW a _ => bool_decide (is_Some a)
  | RAW_BLOCK a _ _ => bool_decide (is_Some a)
  | RESET | JTAG_OPEN _ | JTAG_CLOSE => false      (* [_IOC_NONE]: not checked *)
  | OTHER _ _ => true
  end.

(** A value stored through a pointer, which must not be NULL. *)
Definition deref {A} (arg : bool) (a : A) : option A := if arg then Some a else None.

Section Ioctl.
Variables SkelDrvrINTERRUPTS SkelDrvrQUEUE_SIZE : nat.
Variable cpu_big : bool.
Variables SkelUserIoctlFIRST SkelUserIoctlLAST SKELUSER_IOCTL_MAGIC : Z.
Context {hw : Type} `{Bus hw, SkelUser hw}.

Definition is_user_ioctl (ty nr : Z) : bool :=
  (SkelUserIoctlFIRST <=? nr) && (nr <=? SkelUserIoctlLAST) && (ty =? SKELUSER_IOCTL_MAGIC).

(** [update_mcon_status()]; 0 when the mutex was taken. *)
Definition update_mcon_status (interrupted : bool) (flag : Z) (m : SkelDrvrModuleContext)
    : (Z + unit) * SkelDrvrModuleContext :=
  if interrupted then (inl EINTR, m) else (inr tt, set_status (Z.lor (m_StandardStatus m) flag) m).

(** The version read, or none after a bus error; the caller ignores the
    difference. *)
Definition GetVersion (e : ioctl_env) (m : SkelDrvrModuleContext) (h : hw)
    : option (list Z) * SkelDrvrModuleContext * hw :=
  if ie_bus_error e then (None, snd (update_mcon_status (ie_interrupted e) StatusBUS_FAULT m), h)
  else let '(v, h) := SkelUserGetModuleVersion (m_ModuleNumber m) h in (Some v, m, h).

(** The result of a call, the working area and the hardware. *)
Definition ioctl_result : Type := (Z + skel_out) * SkelDrvrWorkingArea * hw.

Definition ok (o : skel_out) (w : SkelDrvrWorkingArea) (h : hw) : option ioctl_result := Some (inr o, w, h).

Definition err (e : Z) (w : SkelDrvrWorkingArea) (h : hw) : option ioctl_result := Some (inl e, w, h).

(** A value stored through [lap] when it is not NULL. *)
Definition get_long (arg : bool) (v : Z) (w : SkelDrvrWorkingArea) (h : hw) : option ioctl_result :=
  if arg then ok (OLong v) w h else err ENOTTY w h.

(** The client's module: [mcon] is dereferenced. *)
Definition with_mcon (mcon : option nat) (w : SkelDrvrWorkingArea)
    (k : nat -> SkelDrvrModuleContext -> option ioctl_result) : option ioctl_result :=
  i ← mcon; m ← Modules w !! i; k i m.

Definition put_mcon (i : nat) (m : SkelDrvrModuleContext) (w : SkelDrvrWorkingArea) : SkelDrvrWorkingArea :=
  upd_mcon i (fun _ => m) w.

(** The commands on the client context. *)
Definition client_cmd (c : nat) (ccon : SkelDrvrClientContext) (cm : skel_cmd) (w : SkelDrvrWorkingArea) (h : hw)
    : option ioctl_result :=
  let q := cc_Queue ccon in
  match cm with
  | SET_DEBUG db => v ← db; ok ONone (upd_ccon c (set_debug v) w) h
  | GET_DEBUG arg => v ← deref arg (cc_Debug ccon); ok (OLong v) w h
  | SET_TIMEOUT lav => ok ONone (upd_ccon c (set_timeout (lav_of lav)) w) h
  | GET_TIMEOUT arg => get_long arg (cc_Timeout ccon) w h
  | SET_QUEUE_FLAG lav => ok ONone (upd_ccon c (set_queue (set_queue_flag (lav_of lav) q) (cc_Semaphore ccon)) w) h
  | GET_QUEUE_FLAG arg => get_long arg (get_queue_flag q) w h
  | GET_QUEUE_SIZE arg => get_long arg (get_queue_size q) w h
  | GET_QUEUE_OVERFLOW arg =>
      if arg then let '(v, q) := get_queue_overflow q in ok (OLong v) (upd_ccon c (set_queue q (cc_Semaphore ccon)) w) h
      else err ENOTTY w h
  | SET_MODULE lav =>
      match get_mcon (lav_of lav) w with
      | None => err ENODEV w h
      | Some _ => ok ONone (upd_ccon c (set_module (lav_of lav)) w) h
      end
  | GET_MODULE arg => get_long arg (cc_ModuleNumber ccon) w h
  | GET_MODULE_COUNT arg => get_long arg (Z.of_nat (InstalledModules w)) w h
  | CONNECT conx allocs =>
      conx ← conx;
      if truthy (cx_ConMask conx) then w ← Connect SkelDrvrINTERRUPTS c conx allocs w; ok ONone w h
      else if cx_Module conx =? 0 then w ← DisConnectAll SkelDrvrINTERRUPTS c w; ok ONone w h
      else '(_, w) ← DisConnect SkelDrvrINTERRUPTS c conx w; ok ONone w h
  | GET_CLIENT_LIST arg => l ← skel_get_client_list w; l ← deref arg l; ok (OPids l) w h
  | GET_CLIENT_CONNECTIONS pid =>
      pid ← pid; '(pid, l) ← skel_get_client_connections SkelDrvrINTERRUPTS ccon pid w; ok (OConnections pid l) w h
  | _ => err ENOTTY w h
  end.

(** The commands on the client's module. *)
Definition module_cmd (e : ioctl_env) (mcon : option nat) (cm : skel_cmd) (w : SkelDrvrWorkingArea) (h : hw)
    : option ioctl_result :=
  match cm with
  | GET_VERSION arg =>
      with_mcon mcon w (fun i m =>
        let '(v, m, h) := GetVersion e m h in
        v ← deref arg v; ok (OVersion v) (put_mcon i m w) h)
  | GET_MODULE_MAPS arg => with_mcon mcon w (fun i m => l ← deref arg (get_module_maps m); ok (OMaps l) w h)
  | ENABLE lav =>
      with_mcon mcon w (fun i m =>
        let '(r, h) := SkelUserHardwareEnable (m_ModuleNumber m) (lav_of lav) h in
        let st := m_StandardStatus m in
        let st := if r : bool then clear_bits st StatusDISABLED else Z.lor st StatusDISABLED in
        ok ONone (put_mcon i (set_status st m) w) h)
  | RESET =>
      with_mcon mcon w (fun i m =>
        ok ONone (put_mcon i (snd (Reset m)) w) (SkelUserHardwareReset (m_ModuleNumber m) h))
  | GET_STATUS arg =>
      with_mcon mcon w (fun i m =>
        let '(st, h) := SkelUserGetHardwareStatus (m_ModuleNumber m) h in
        st ← deref arg st; ok (OStatus st (m_StandardStatus m)) w h)
  | JTAG_OPEN task =>
      with_mcon mcon w (fun i m =>
        let '(got, m) := LockModule task m in
        if got : bool then ok ONone (put_mcon i (set_status (Z.lor (m_StandardStatus m) StatusFLASH_OPEN) m) w) h
        else ok (OWait i) (put_mcon i m w) h)
  | JTAG_CLOSE =>
      with_mcon mcon w (fun i m =>
        let m := set_flash 0 (set_status (clear_bits (m_StandardStatus m) StatusFLASH_OPEN) m) in
        let '(_, m) := Reset m in
        let '(_, m) := UnLockModule m in
        ok ONone (put_mcon i m w) (SkelUserHardwareReset (m_ModuleNumber m) h))
  | JTAG_READ_BYTE arg =>
      with_mcon mcon w (fun i m =>
        if truthy (Z.land (m_StandardStatus m) StatusFLASH_OPEN) then
          match SkelUserJtagReadByte (m_ModuleNumber m) h with
          | (Some b, h) => b ← deref arg b; ok (OLong b) w h
          | (None, h) => err EBUSY w h
          end
        else err EBUSY w h)
  | JTAG_WRITE_BYTE lav =>
      with_mcon mcon w (fun i m =>
        if truthy (Z.land (m_StandardStatus m) StatusFLASH_OPEN) then
          let '(r, h) := SkelUserJtagWriteByte (m_ModuleNumber m) (Z.land (lav_of lav) 0xFF) h in
          if r : bool then ok ONone w h else err EBUSY w h
        else err EBUSY w h)
  | RAW riob flag =>
      with_mcon mcon w (fun i m =>
        riob ← riob;
        let '(r, fault, h) := RawIo cpu_big (m_spaces m) riob flag (ie_bus_error e) h in
        if fault : bool then
          match update_mcon_status (ie_interrupted e) StatusBUS_FAULT m with
          | (inl n, _) => err n w h
          | (inr _, m) => err ENXIO (put_mcon i m w) h
          end
        else match r with inl n => err n w h | inr riob => ok (ORaw riob) w h end)
  | RAW_BLOCK riobt flag user =>
      with_mcon mcon w (fun i m =>
        riobt ← riobt;
        '(r, h, user) ← RawIoBlock cpu_big (m_spaces m) riobt flag (ie_sysbrk_ok e) (ie_junk e) h user;
        match r with inl n => err n w h | inr _ => ok (OUser user) w h end)
  | OTHER ty nr =>
      if is_user_ioctl ty nr then
        match mcon with
        | None => err EINVAL w h
        | Some _ =>
            with_mcon mcon w (fun i m =>
              let '(r, h) := SkelUserIoctls (m_ModuleNumber m) nr h in
              (* the error number is the user's *)
              if r : bool then ok ONone w h else err 0 w h)
        end
      else err ENOTTY w h
  | _ => err ENOTTY w h
  end.

Definition is_client_cmd (cm : skel_cmd) : bool :=
  match cm with
  | SET_DEBUG _ | GET_DEBUG _ | SET_TIMEOUT _ | GET_TIMEOUT _ | SET_QUEUE_FLAG _ | GET_QUEUE_FLAG _ | GET_QUEUE_SIZE _
  | GET_QUEUE_OVERFLOW _ | SET_MODULE _ | GET_MODULE _ | GET_MODULE_COUNT _ | CONNECT _ _ | GET_CLIENT_LIST _
  | GET_CLIENT_CONNECTIONS _ => true
  | _ => false
  end.

Definition SkelDrvrIoctl (flp : Z) (cm : skel_cmd) (e : ioctl_env) (w : SkelDrvrWorkingArea) (h : hw)
    : option ioctl_result :=
  if arg_given cm && negb (ie_bounds_ok e) then err EINVAL w h else
  o ← skel_get_ccon flp w;
  match o with
  | None => err EBADF w h
  | Some c =>
      ccon ← heap w !! c;
      let mcon := get_mcon (cc_ModuleNumber ccon) w in
      if is_client_cmd cm then client_cmd c ccon cm w h else module_cmd e mcon cm w h
  end.

(** [JTAG_OPEN] when the task that waited is woken, and when it is interrupted. *)
Definition jtag_open_finish (i : nat) (w : SkelDrvrWorkingArea) : SkelDrvrWorkingArea :=
  upd_mcon i (fun m => set_status (Z.lor (m_StandardStatus m) StatusFLASH_OPEN) m) w.

Definition jtag_open_give_up (i task : nat) (w : SkelDrvrWorkingArea) : Z * SkelDrvrWorkingArea :=
  (ENOTTY, upd_mcon i (fun m => set_sem (leave_wait task (m_Semaphore m)) m) w).
End Ioctl.
