(* ===== verification/SkelDrvrInv.v ===== *)
(** * The clients of a driver, proved

    What [Connect()], [DisConnect()] and [DisConnectAll()] do to the lists of
    connections, the delivery of an interrupt to every connected client, and the
    memory of the client contexts: in every run of the entry points no list
    holds a context that was freed, and no context is lost. *)

From S2P Require Import Prelude CdcmSem SkelQueue SkelIo SkelDrvr SkelIoctl.

(** ** Generic facts *)

Lemma land_bit a j : Z.land a (2 ^ Z.of_nat j) = if Z.testbit a (Z.of_nat j) then 2 ^ Z.of_nat j else 0.
Proof.
  apply Z.bits_inj'. intros k Hk. rewrite Z.land_spec, Z.pow2_bits_eqb by lia.
  destruct (Z.eqb_spec (Z.of_nat j) k) as [<-|Hne].
  - rewrite andb_true_r. destruct (Z.testbit a (Z.of_nat j)); [by rewrite Z.pow2_bits_true by lia|by rewrite Z.bits_0].
  - rewrite andb_false_r. symmetry. case_match; [|apply Z.bits_0]. by apply Z.pow2_bits_false.
Qed.

Lemma nth_replicate_nil j n : nth j (replicate n ([] : list nat)) [] = [].
Proof. revert j. induction n as [|n IH]; intros [|j]; simpl; [done..|apply IH]. Qed.

(** ** Modules up to their connections *)

(** The fields of a module that connections do not touch. *)
Definition module_frame (m : SkelDrvrModuleContext) :=
  (m_ModuleNumber m, m_InUse m, m_Semaphore m, m_Timeout m, m_Debug m, m_StandardStatus m, m_FlashOpen m, m_spaces m).

Definition wide (n : nat) (m : SkelDrvrModuleContext) : Prop := length (mc_clients (m_Connected m)) = n.

(** A step per interrupt [k] that changes only the list of [k]. *)
Record list_step (n : nat) (f : nat -> SkelDrvrModuleContext -> SkelDrvrModuleContext)
    (g : nat -> list nat -> list nat) : Prop := {
  ls_wide : forall k m, wide n m -> wide n (f k m);
  ls_frame : forall k m, module_frame (f k m) = module_frame m;
  ls_same : forall k m, wide n m -> (k < n)%nat -> list_of k (f k m) = g k (list_of k m);
  ls_other : forall k j m, j <> k -> list_of j (f k m) = list_of j m;
}.

Section Fold.
Context {n : nat} {f : nat -> SkelDrvrModuleContext -> SkelDrvrModuleContext} {g : nat -> list nat -> list nat}.
Hypothesis Hf : list_step n f g.

Lemma fold_wide l m : wide n m -> wide n (foldl (fun m k => f k m) m l).
Proof. revert m. induction l as [|k l IH]; intros m Hm; [done|]. by apply IH, (ls_wide _ _ _ Hf). Qed.

Lemma fold_frame l m : module_frame (foldl (fun m k => f k m) m l) = module_frame m.
Proof. revert m. induction l as [|k l IH]; intros m; [done|]. simpl. by rewrite IH, (ls_frame _ _ _ Hf). Qed.

Lemma fold_other l j m : j ∉ l -> list_of j (foldl (fun m k => f k m) m l) = list_of j m.
Proof.
  revert m. induction l as [|k l IH]; intros m Hj; [done|]. apply not_elem_of_cons in Hj as [Hne Hj].
  simpl. by rewrite (IH _ Hj), (ls_other _ _ _ Hf).
Qed.

Lemma fold_same l j m : wide n m -> NoDup l -> j ∈ l -> (j < n)%nat ->
  list_of j (foldl (fun m k => f k m) m l) = g j (list_of j m).
Proof.
  revert m. induction l as [|k l IH]; intros m Hm Hnd Hj Hlt; [by apply not_elem_of_nil in Hj|].
  apply NoDup_cons in Hnd as [Hk Hnd]. simpl. destruct (decide (j = k)) as [->|Hne].
  - by rewrite (fold_other _ _ _ Hk), (ls_same _ _ _ Hf).
  - apply elem_of_cons in Hj as [?|Hj]; [done|].
    rewrite (IH _ (ls_wide _ _ _ Hf _ _ Hm) Hnd Hj Hlt). by rewrite (ls_other _ _ _ Hf).
Qed.

Lemma fold_lists m j : wide n m ->
  list_of j (foldl (fun m k => f k m) m (seq 0 n)) = if Nat.ltb j n then g j (list_of j m) else list_of j m.
Proof.
  intros Hm. destruct (Nat.ltb_spec j n) as [Hj|Hj].
  - apply fold_same; [done|apply NoDup_seq|apply elem_of_seq; lia|done].
  - apply fold_other. rewrite elem_of_seq. lia.
Qed.
End Fold.

(** ** Lists of clients *)

Lemma get_client_spec c l : __get_client c l = true <-> c ∈ l.
Proof. apply bool_decide_eq_true. Qed.

Lemma filter_notin (c : nat) (l : list nat) : c ∉ l -> filter (fun x => x <> c) l = l.
Proof.
  induction l as [|x l IH]; [done|]. intros [Hx Hl]%not_elem_of_cons. rewrite filter_cons, decide_True by congruence.
  f_equal. by apply IH.
Qed.

Lemma list_del_filter c l : NoDup l -> list_del c l = filter (fun x => x <> c) l.
Proof.
  induction l as [|x l IH]; [done|]. intros [Hx Hl]%NoDup_cons. simpl. rewrite filter_cons.
  destruct (Nat.eqb_spec x c) as [->|Hne]; [rewrite decide_False by (intros []; done)|rewrite decide_True by done].
  - by rewrite filter_notin.
  - f_equal. by apply IH.
Qed.

Lemma list_del_notin c l : c ∉ l -> list_del c l = l.
Proof.
  induction l as [|x l IH]; [done|]. intros [Hx Hl]%not_elem_of_cons. simpl.
  rewrite (proj2 (Nat.eqb_neq x c)) by done. by rewrite IH.
Qed.

Lemma elem_of_list_del c x l : NoDup l -> x ∈ list_del c l <-> x ∈ l /\ x <> c.
Proof. intros H. rewrite list_del_filter by done. rewrite list_elem_of_filter. tauto. Qed.

Lemma list_del_nodup c l : NoDup l -> NoDup (list_del c l).
Proof. intros H. rewrite list_del_filter by done. by apply NoDup_filter. Qed.

(** ** One interrupt of a connection *)

Definition connected_list (c : nat) (imsk : Z) (allocs : nat -> bool) (j : nat) (l : list nat) : list nat :=
  if Z.testbit imsk (Z.of_nat j) && allocs j && negb (__get_client c l) then c :: l else l.

Definition disconnected_list (c : nat) (imsk : Z) (j : nat) (l : list nat) : list nat :=
  if Z.testbit imsk (Z.of_nat j) then list_del c l else l.

Lemma list_of_alter m e h lists j : list_of j (set_connected (ModConn lists e) h m) = nth j lists [].
Proof. done. Qed.

Lemma nth_alter {A} (f : A -> A) k j (l : list A) d : (k < length l)%nat ->
  nth j (alter f k l) d = if decide (j = k) then f (nth k l d) else nth j l d.
Proof.
  intros Hk. rewrite !nth_lookup. case_decide as E; [subst j|].
  - destruct (lookup_lt_is_Some_2 l k Hk) as [x Hx]. by rewrite list_lookup_alter_eq, Hx.
  - by rewrite list_lookup_alter_ne.
Qed.

Lemma connect_step n c imsk allocs :
  list_step n (fun j m => connect_bit c imsk j (allocs j) m) (connected_list c imsk allocs).
Proof.
  split.
  - intros k m Hm. unfold connect_bit, wide. repeat case_match; simpl; rewrite ?length_alter; done.
  - intros k m. unfold connect_bit. repeat case_match; done.
  - intros k m Hm Hk. unfold connect_bit, connected_list. unfold wide in Hm.
    destruct (Z.testbit imsk (Z.of_nat k)); [|done]. destruct (__get_client c (list_of k m)) eqn:E; simpl.
    + by rewrite list_of_alter, andb_false_r.
    + destruct (allocs k); simpl; [|done]. rewrite list_of_alter, nth_alter by lia. by rewrite decide_True.
  - intros k j m Hne. unfold connect_bit. destruct (Z.testbit imsk (Z.of_nat k)); [|done].
    destruct (__get_client c (list_of k m)); [done|]. destruct (allocs k); [|done]. simpl.
    rewrite list_of_alter. unfold list_of. rewrite !nth_lookup. by rewrite list_lookup_alter_ne.
Qed.

Lemma disconnect_step n c imsk : list_step n (disconnect_bit c imsk) (disconnected_list c imsk).
Proof.
  split.
  - intros k m Hm. unfold disconnect_bit, wide. repeat case_match; simpl; rewrite ?length_insert; done.
  - intros k m. unfold disconnect_bit. repeat case_match; done.
  - intros k m Hm Hk. unfold disconnect_bit, disconnected_list. unfold wide in Hm.
    destruct (Z.testbit imsk (Z.of_nat k)); [|done]. simpl. destruct (bool_decide_reflect (list_of k m = [])) as [->|_]; [done|].
    destruct (__get_client c (list_of k m)) eqn:E; simpl.
    + case_bool_decide; rewrite list_of_alter, nth_lookup, list_lookup_insert_eq by lia; done.
    + symmetry. apply list_del_notin. intros Hc%get_client_spec. congruence.
  - intros k j m Hne. unfold disconnect_bit. repeat case_match; try done; rewrite list_of_alter; unfold list_of;
      rewrite !nth_lookup, list_lookup_insert_ne by done; done.
Qed.

(** ** Module numbers *)

Definition numbers (w : SkelDrvrWorkingArea) : list Z := m_ModuleNumber <$> take (InstalledModules w) (Modules w).

Lemma get_mcon_numbers nr w : get_mcon nr w = fst <$> list_find (fun x => x = nr) (numbers w).
Proof.
  unfold get_mcon, numbers. rewrite list_find_fmap. simpl.
  destruct (list_find _ (take _ _)) as [[i m]|] eqn:E; rewrite ?E; unfold compose in *; simpl in *; by rewrite ?E.
Qed.

Lemma get_mcon_Some nr w i : get_mcon nr w = Some i -> numbers w !! i = Some nr.
Proof.
  rewrite get_mcon_numbers. intros H. apply fmap_Some in H as ([i' x] & (Hx & -> & _)%list_find_Some & ->). done.
Qed.

Lemma numbers_lookup w i nr : numbers w !! i = Some nr ->
  (i < InstalledModules w)%nat /\ exists m, Modules w !! i = Some m /\ m_ModuleNumber m = nr.
Proof.
  unfold numbers. intros H. apply list_lookup_fmap_Some in H as (m & -> & H). apply lookup_take_Some in H as [H Hi]. eauto.
Qed.

Lemma get_mcon_lookup nr w i : NoDup (numbers w) -> numbers w !! i = Some nr -> get_mcon nr w = Some i.
Proof.
  intros Hnd Hi. rewrite get_mcon_numbers. apply fmap_Some. exists (i, nr). split; [|done].
  apply list_find_Some. split_and!; [done|done|]. intros k y Hk Hlt ->. pose proof (NoDup_lookup _ _ _ _ Hnd Hi Hk). lia.
Qed.

(** ** What the operations on connections do *)

(** The modules [hit] have [g] applied to each of their lists; nothing else
    changes but the interrupts that are enabled. *)
Record connections_change (n : nat) (hit : nat -> bool) (g : nat -> list nat -> list nat) (w w' : SkelDrvrWorkingArea)
    : Prop := {
  cc_heap : heap w' = heap w;
  cc_clients : clients w' = clients w;
  cc_inst : InstalledModules w' = InstalledModules w;
  cc_frame : module_frame <$> Modules w' = module_frame <$> Modules w;
  cc_wide : Forall (wide n) (Modules w');
  cc_lists : forall i m', Modules w' !! i = Some m' -> exists m, Modules w !! i = Some m /\
    forall j, list_of j m' = if hit i && Nat.ltb j n then g j (list_of j m) else list_of j m;
}.

Lemma change_numbers n hit g w w' : connections_change n hit g w w' -> numbers w' = numbers w.
Proof.
  intros H. unfold numbers. rewrite (cc_inst _ _ _ _ _ H), !fmap_take.
  pose proof (f_equal (fmap (fun t : Z * Z * cdcm_sem * Z * Z * Z * Z * list InsLibAnyAddressSpace =>
    let '(a, _, _, _, _, _, _, _) := t in a)) (cc_frame _ _ _ _ _ H)) as E.
  rewrite <- !list_fmap_compose in E. by f_equal.
Qed.

Lemma change_refl n g w : Forall (wide n) (Modules w) -> connections_change n (fun _ => false) g w w.
Proof. intros H. split; try done. intros i m' Hi. exists m'. done. Qed.

Lemma change_one n f g i w : list_step n f g -> Forall (wide n) (Modules w) ->
  connections_change n (Nat.eqb i) g w (upd_mcon i (fun m => foldl (fun m j => f j m) m (seq 0 n)) w).
Proof.
  intros Hf Hw. unfold upd_mcon. split; try done; simpl.
  - apply list_eq. intros k. rewrite !list_lookup_fmap. destruct (decide (k = i)) as [->|Hne].
    + rewrite list_lookup_alter_eq. destruct (Modules w !! i) as [m|]; [|done]. simpl. f_equal. by rewrite (fold_frame Hf).
    + by rewrite list_lookup_alter_ne by done.
  - apply Forall_lookup. intros k m Hk. rewrite Forall_lookup in Hw. destruct (decide (k = i)) as [->|Hne].
    + rewrite list_lookup_alter_eq in Hk. apply fmap_Some in Hk as (m0 & Hm0 & ->). apply (fold_wide Hf). by eapply Hw.
    + rewrite list_lookup_alter_ne in Hk by done. by eapply Hw.
  - intros k m' Hk. rewrite Forall_lookup in Hw. destruct (Nat.eqb_spec i k) as [<-|Hne]; simpl.
    + rewrite list_lookup_alter_eq in Hk. apply fmap_Some in Hk as (m0 & Hm0 & ->). exists m0. split; [done|].
      intros j. apply (fold_lists Hf). by eapply Hw.
    + rewrite list_lookup_alter_ne in Hk by done. exists m'. done.
Qed.

Lemma change_trans n h1 h2 g w1 w2 w3 : (forall i, h1 i && h2 i = false) ->
  connections_change n h1 g w1 w2 -> connections_change n h2 g w2 w3 ->
  connections_change n (fun i => h1 i || h2 i) g w1 w3.
Proof.
  intros Hd H1 H2. destruct H1 as [A1 B1 C1 D1 E1 F1]. destruct H2 as [A2 B2 C2 D2 E2 F2]. split; try congruence.
  intros i m3 Hi. destruct (F2 _ _ Hi) as (m2 & Hi2 & L2). destruct (F1 _ _ Hi2) as (m1 & Hi1 & L1).
  exists m1. split; [done|]. intros j. rewrite L2, L1. specialize (Hd i). destruct (h1 i), (h2 i), (Nat.ltb j n); done.
Qed.

Lemma change_ext n h1 h2 g w w' : (forall i, (i < length (Modules w))%nat -> h1 i = h2 i) ->
  connections_change n h1 g w w' -> connections_change n h2 g w w'.
Proof.
  intros He [A B C D E F]. split; try done. intros i m' Hi. destruct (F _ _ Hi) as (m & Hm & L). exists m. split; [done|].
  intros j. rewrite L, He by (by eapply lookup_lt_Some). done.
Qed.

Section Connections.
Variable SkelDrvrINTERRUPTS : nat.
Local Notation INTS := SkelDrvrINTERRUPTS.

(** What a connection selects; nothing when the module does not exist. *)
Definition hits (o : option nat) (i : nat) : bool := bool_decide (o = Some i).

Lemma hits_eqb i k : hits (Some i) k = Nat.eqb i k.
Proof. unfold hits. destruct (Nat.eqb_spec i k) as [->|Hne]; [by rewrite bool_decide_true|]. apply bool_decide_false. congruence. Qed.

Lemma connect_change c conx allocs w ccon : Forall (wide INTS) (Modules w) -> heap w !! c = Some ccon ->
  exists w', Connect INTS c conx allocs w = Some w' /\
    connections_change INTS (hits (conx_module ccon conx w)) (connected_list c (cx_ConMask conx) allocs) w w'.
Proof.
  intros Hw Hc. unfold Connect. rewrite Hc. simpl. destruct (conx_module ccon conx w) as [i|].
  - eexists. split; [done|]. apply (change_ext _ (Nat.eqb i)); [intros; by rewrite hits_eqb|].
    by apply (change_one _ (fun j m => connect_bit c (cx_ConMask conx) j (allocs j) m)); [apply connect_step|].
  - exists w. split; [done|]. by apply (change_ext _ (fun _ => false)), change_refl.
Qed.

(** The mask as the code uses it. *)
Definition disconnect_mask (m : Z) : Z := if m =? 0 then not32 m else m.

Lemma disconnect_change c conx w ccon : Forall (wide INTS) (Modules w) -> heap w !! c = Some ccon ->
  exists conx' w', DisConnect INTS c conx w = Some (conx', w') /\
    connections_change INTS (hits (conx_module ccon conx w)) (disconnected_list c (disconnect_mask (cx_ConMask conx))) w w' /\
    (conx_module ccon conx w = None -> conx' = conx) /\
    (is_Some (conx_module ccon conx w) -> cx_ConMask conx' = disconnect_mask (cx_ConMask conx)).
Proof.
  intros Hw Hc. unfold DisConnect, disconnect_mask. rewrite Hc. simpl. destruct (conx_module ccon conx w) as [i|].
  - eexists _, _. split; [done|].
    assert (cx_ConMask (if cx_ConMask conx =? 0 then Conx (cx_Module conx) (not32 (cx_ConMask conx)) else conx) =
      if cx_ConMask conx =? 0 then not32 (cx_ConMask conx) else cx_ConMask conx) as -> by (by case_match).
    split; [|done]. apply (change_ext _ (Nat.eqb i)); [intros; by rewrite hits_eqb|].
    apply change_one; [apply disconnect_step|done].
  - exists conx, w. split; [done|]. split; [by apply (change_ext _ (fun _ => false)), change_refl|].
    split; [done|]. intros [? ?]. done.
Qed.

(** The numbering of the modules, from the description of the driver. *)
Record numbering (w : SkelDrvrWorkingArea) : Prop := {
  nb_distinct : NoDup (numbers w);
  nb_nonzero : 0 ∉ numbers w;
  nb_installed : (0 < InstalledModules w <= length (Modules w))%nat;
}.

Lemma numbering_change n hit g w w' : connections_change n hit g w w' -> numbering w -> numbering w'.
Proof.
  intros H [A B C]. pose proof (change_numbers _ _ _ _ _ H) as E. split; rewrite ?E; [done..|].
  rewrite (cc_inst _ _ _ _ _ H). pose proof (f_equal length (cc_frame _ _ _ _ _ H)) as L. rewrite !length_fmap in L. lia.
Qed.

Lemma installed_number w i : numbering w -> (i < InstalledModules w)%nat ->
  exists m, Modules w !! i = Some m /\ m_ModuleNumber m <> 0 /\ numbers w !! i = Some (m_ModuleNumber m).
Proof.
  intros [A B C] Hi. destruct (lookup_lt_is_Some_2 (Modules w) i ltac:(lia)) as [m Hm].
  assert (numbers w !! i = Some (m_ModuleNumber m)) as E.
  { unfold numbers. by rewrite list_lookup_fmap, lookup_take_lt, Hm by done. }
  exists m. split_and!; [done| |done]. intros E0. rewrite E0 in E. apply B. by eapply list_elem_of_lookup_2.
Qed.

Definition full_mask : Z := 0xFFFFFFFF.

Lemma disconnect_modules_change c ccon mods conx w :
  Forall (wide INTS) (Modules w) -> heap w !! c = Some ccon -> numbering w -> NoDup mods ->
  Forall (fun i => (i < InstalledModules w)%nat) mods -> (cx_ConMask conx = 0 \/ cx_ConMask conx = full_mask) ->
  exists w', disconnect_modules INTS c mods conx w = Some w' /\
    connections_change INTS (fun i => bool_decide (i ∈ mods)) (disconnected_list c full_mask) w w'.
Proof.
  revert conx w. induction mods as [|i mods IH]; intros conx w Hw Hc Hn Hnd Hin Hm.
  - exists w. split; [done|]. by apply (change_ext _ (fun _ => false)), change_refl.
  - apply NoDup_cons in Hnd as [Hi Hnd]. apply Forall_cons in Hin as [Hlt Hin].
    destruct (installed_number w i Hn Hlt) as (m & Hmi & Hm0 & Hnum). cbn [disconnect_modules]. rewrite Hmi. cbn [mbind option_bind].
    set (cx := Conx (m_ModuleNumber m) (cx_ConMask conx)).
    destruct (disconnect_change c cx w ccon Hw Hc) as (cx' & w1 & -> & Hch & _ & Hmask).
    assert (conx_module ccon cx w = Some i) as Ei.
    { unfold conx_module, cx. cbn [cx_Module]. rewrite (proj2 (Z.eqb_neq _ _) Hm0). by apply get_mcon_lookup; [apply Hn|]. }
    assert (disconnect_mask (cx_ConMask cx) = full_mask) as Ef by (unfold cx; cbn [cx_ConMask]; by destruct Hm as [-> | ->]).
    rewrite Ei, Ef in Hch. rewrite Ei, Ef in Hmask. cbn [mbind option_bind].
    destruct (IH cx' w1) as (w' & -> & Hch').
    + apply Hch.
    + by rewrite (cc_heap _ _ _ _ _ Hch).
    + by eapply numbering_change.
    + done.
    + by rewrite (cc_inst _ _ _ _ _ Hch).
    + right. by apply Hmask.
    + exists w'. split; [done|]. eapply change_ext; [|eapply (change_trans _ _ _ _ _ _ _ _ Hch Hch')].
      intros k _. simpl. unfold hits. rewrite <- bool_decide_or. apply bool_decide_ext. rewrite elem_of_cons. naive_solver.
      Unshelve. intros k. unfold hits. rewrite <- bool_decide_and. apply bool_decide_false. intros [[= <-] ?]. done.
Qed.

Lemma full_mask_bit j : (j < 32)%nat -> Z.testbit full_mask (Z.of_nat j) = true.
Proof. intros Hj. change full_mask with (Z.ones 32). apply Z.ones_spec_low. lia. Qed.

(** [DisConnectAll()] takes the client out of every list of every module. *)
Lemma disconnect_all_change c ccon w :
  Forall (wide INTS) (Modules w) -> heap w !! c = Some ccon -> numbering w ->
  exists w', DisConnectAll INTS c w = Some w' /\
    connections_change INTS (fun i => Nat.ltb i (InstalledModules w)) (disconnected_list c full_mask) w w'.
Proof.
  intros Hw Hc Hn. unfold DisConnectAll.
  destruct (disconnect_modules_change c ccon (seq 0 (InstalledModules w)) (Conx 0 0) w) as (w' & -> & Hch);
    [done..|apply NoDup_seq| |by left|].
  - apply Forall_forall. intros i Hi%elem_of_seq. lia.
  - exists w'. split; [done|]. eapply change_ext; [|done]. intros i _. simpl.
    destruct (Nat.ltb_spec i (InstalledModules w)); [apply bool_decide_true|apply bool_decide_false]; rewrite elem_of_seq; lia.
Qed.
End Connections.

(** ** The memory of the client contexts *)

Definition ring_in_bounds (n : nat) (q : SkelDrvrQueue) : Prop :=
  length (Entries q) = n /\ (RdPntr q < n)%nat /\ (WrPntr q < n)%nat.

Section Memory.
Variables SkelDrvrINTERRUPTS SkelDrvrQUEUE_SIZE : nat.
Local Notation INTS := SkelDrvrINTERRUPTS.
Local Notation QSIZE := SkelDrvrQUEUE_SIZE.

(** The contexts allocated are those of the open clients; the lists of
    connections hold open clients, once each; every client has a module. *)
Record skel_ok (w : SkelDrvrWorkingArea) : Prop := {
  so_numbers : numbering w;
  so_wide : Forall (wide INTS) (Modules w);
  so_nodup : NoDup (clients w);
  so_heap : forall c, c ∈ clients w <-> is_Some (heap w !! c);
  so_lists : forall i m j, Modules w !! i = Some m -> NoDup (list_of j m) /\ list_of j m ⊆ clients w;
  so_spare : forall i m j, Modules w !! i = Some m -> (InstalledModules w <= i)%nat -> list_of j m = [];
  so_select : forall c ccon, heap w !! c = Some ccon -> cc_ModuleNumber ccon ∈ numbers w;
  so_ring : forall c ccon, heap w !! c = Some ccon -> ring_in_bounds QSIZE (cc_Queue ccon);
}.

Lemma ok_change hit g w w' : connections_change INTS hit g w w' ->
  (forall j l, NoDup l -> l ⊆ clients w -> NoDup (g j l) /\ g j l ⊆ clients w) ->
  (forall i, hit i = true -> (i < InstalledModules w)%nat) -> skel_ok w -> skel_ok w'.
Proof.
  intros H Hg Hh [A B C D E F G I]. pose proof (change_numbers _ _ _ _ _ H) as Hnum. split.
  - by eapply numbering_change.
  - apply H.
  - by rewrite (cc_clients _ _ _ _ _ H).
  - intros c. by rewrite (cc_clients _ _ _ _ _ H), (cc_heap _ _ _ _ _ H).
  - intros i m' j Hi. destruct (cc_lists _ _ _ _ _ H _ _ Hi) as (m & Hm & L). rewrite L, (cc_clients _ _ _ _ _ H).
    destruct (E i m j Hm). case_match; [by apply Hg|done].
  - intros i m' j Hi Hle. rewrite (cc_inst _ _ _ _ _ H) in Hle. destruct (cc_lists _ _ _ _ _ H _ _ Hi) as (m & Hm & L).
    rewrite L. destruct (hit i) eqn:Ei; [apply Hh in Ei; lia|]. by eapply F.
  - intros c ccon. rewrite (cc_heap _ _ _ _ _ H), Hnum. apply G.
  - intros c ccon. rewrite (cc_heap _ _ _ _ _ H). apply I.
Qed.

Lemma ok_upd_ccon c f w : skel_ok w ->
  (forall k, heap w !! c = Some k -> cc_ModuleNumber (f k) ∈ numbers w /\ ring_in_bounds QSIZE (cc_Queue (f k))) ->
  skel_ok (upd_ccon c f w).
Proof.
  intros [A B C D E F G I] Hf. split; simpl; [by destruct A; split|done|done| |done|done| |].
  - intros c'. rewrite D. destruct (decide (c' = c)) as [->|Hne]; [rewrite lookup_alter_eq|by rewrite lookup_alter_ne].
    by rewrite fmap_is_Some.
  - intros c' ccon H. destruct (decide (c' = c)) as [->|Hne]; [|rewrite lookup_alter_ne in H by done; by eapply G].
    rewrite lookup_alter_eq in H. apply fmap_Some in H as (k & Hk & ->). by apply Hf.
  - intros c' ccon H. destruct (decide (c' = c)) as [->|Hne]; [|rewrite lookup_alter_ne in H by done; by eapply I].
    rewrite lookup_alter_eq in H. apply fmap_Some in H as (k & Hk & ->). by apply Hf.
Qed.

Lemma ok_upd_mcon i f w : skel_ok w ->
  (forall m, Modules w !! i = Some m -> m_Connected (f m) = m_Connected m /\ m_ModuleNumber (f m) = m_ModuleNumber m) ->
  skel_ok (upd_mcon i f w).
Proof.
  intros [A B C D E F G I] Hf.
  assert (numbers (upd_mcon i f w) = numbers w) as Hnum.
  { unfold numbers. simpl. rewrite !fmap_take. f_equal. apply list_eq. intros k. rewrite !list_lookup_fmap.
    destruct (decide (k = i)) as [->|Hne]; [rewrite list_lookup_alter_eq|by rewrite list_lookup_alter_ne].
    destruct (Modules w !! i) as [m|]; [|done]. simpl. by rewrite (proj2 (Hf m eq_refl)). }
  assert (forall k m', Modules (upd_mcon i f w) !! k = Some m' ->
    exists m, Modules w !! k = Some m /\ m_Connected m' = m_Connected m) as Hl.
  { intros k m' H. simpl in H. destruct (decide (k = i)) as [->|Hne].
    - rewrite list_lookup_alter_eq in H. apply fmap_Some in H as (m & Hm & ->). exists m. split; [done|]. by apply Hf.
    - rewrite list_lookup_alter_ne in H by done. by exists m'. }
  assert (forall m m' j, m_Connected m' = m_Connected m -> list_of j m' = list_of j m) as Hlo
    by (intros m m' j Hm; unfold list_of; by rewrite Hm).
  split.
  - destruct A as [A1 A2 A3]. split; rewrite ?Hnum; [done..|]. simpl. by rewrite length_alter.
  - apply Forall_lookup. intros k m' H. destruct (Hl _ _ H) as (m & Hm & Em). unfold wide. rewrite Em.
    rewrite Forall_lookup in B. by eapply B.
  - done.
  - done.
  - intros k m' j H. destruct (Hl _ _ H) as (m & Hm & Em). rewrite (Hlo _ _ _ Em). by eapply E.
  - intros k m' j H. destruct (Hl _ _ H) as (m & Hm & Em). rewrite (Hlo _ _ _ Em). by eapply F.
  - intros c ccon. rewrite Hnum. apply G.
  - intros c ccon. apply I.
Qed.

Lemma hits_installed o i w : (forall k, o = Some k -> (k < InstalledModules w)%nat) -> hits o i = true -> (i < InstalledModules w)%nat.
Proof. unfold hits. intros H Hi%bool_decide_eq_true. by apply H. Qed.

Lemma conx_module_installed ccon conx w i : conx_module ccon conx w = Some i -> (i < InstalledModules w)%nat.
Proof. unfold conx_module. intros H. case_match; apply get_mcon_Some in H; apply numbers_lookup in H as [H _]; done. Qed.

Lemma connected_list_ok c imsk allocs cl : c ∈ cl -> forall j l, NoDup l -> l ⊆ cl ->
  NoDup (connected_list c imsk allocs j l) /\ connected_list c imsk allocs j l ⊆ cl.
Proof.
  intros Hc j l Hl Hs. unfold connected_list. destruct (Z.testbit imsk (Z.of_nat j) && allocs j); simpl; [|done].
  destruct (__get_client c l) eqn:E; simpl; [done|]. split.
  - apply NoDup_cons. split; [|done]. intros H%get_client_spec. congruence.
  - intros x [->|Hx]%elem_of_cons; [done|by apply Hs].
Qed.

Lemma disconnected_list_ok c imsk cl j l : NoDup l -> l ⊆ cl ->
  NoDup (disconnected_list c imsk j l) /\ disconnected_list c imsk j l ⊆ cl.
Proof.
  intros Hl Hs. unfold disconnected_list. case_match; [|done]. split; [by apply list_del_nodup|].
  intros x Hx. apply elem_of_list_del in Hx as [Hx _]; [|done]. by apply Hs.
Qed.

Lemma connect_ok c conx allocs w : skel_ok w -> is_Some (heap w !! c) ->
  exists w', Connect INTS c conx allocs w = Some w' /\ skel_ok w' /\ clients w' = clients w.
Proof.
  intros Hok [ccon Hc]. destruct (connect_change INTS c conx allocs w ccon (so_wide _ Hok) Hc) as (w' & E & H).
  exists w'. split; [done|]. split; [|apply H]. eapply (ok_change _ _ _ _ H); [| |done].
  - apply connected_list_ok. apply (so_heap _ Hok). by exists ccon.
  - intros i. apply hits_installed. apply conx_module_installed.
Qed.

Lemma disconnect_ok c conx w : skel_ok w -> is_Some (heap w !! c) ->
  exists conx' w', DisConnect INTS c conx w = Some (conx', w') /\ skel_ok w' /\ clients w' = clients w.
Proof.
  intros Hok [ccon Hc]. destruct (disconnect_change INTS c conx w ccon (so_wide _ Hok) Hc) as (conx' & w' & E & H & _).
  exists conx', w'. split; [done|]. split; [|apply H]. eapply (ok_change _ _ _ _ H); [| |done].
  - intros j l. apply disconnected_list_ok.
  - intros i. apply hits_installed. apply conx_module_installed.
Qed.

Lemma disconnect_all_ok c w : skel_ok w -> is_Some (heap w !! c) ->
  exists w', DisConnectAll INTS c w = Some w' /\ skel_ok w' /\ clients w' = clients w /\ heap w' = heap w /\
    ((INTS <= 32)%nat -> forall i m j, Modules w' !! i = Some m -> c ∉ list_of j m).
Proof.
  intros Hok [ccon Hc].
  destruct (disconnect_all_change INTS c ccon w (so_wide _ Hok) Hc (so_numbers _ Hok)) as (w' & E & H).
  exists w'. split; [done|]. split; [|split; [apply H|split; [apply H|]]].
  - eapply (ok_change _ _ _ _ H); [intros j l; apply disconnected_list_ok| |done]. intros i. apply Nat.ltb_lt.
  - intros H32 i m j Hi. destruct (cc_lists _ _ _ _ _ H _ _ Hi) as (m0 & Hm0 & L). rewrite L.
    destruct (Nat.ltb_spec i (InstalledModules w)) as [Hin|Hout]; simpl.
    + destruct (Nat.ltb_spec j INTS) as [Hj|Hj].
      * unfold disconnected_list. rewrite full_mask_bit by lia. rewrite elem_of_list_del by (by eapply (so_lists _ Hok)).
        intros [_ ?]. done.
      * pose proof (so_wide _ Hok) as Hw. rewrite Forall_lookup in Hw. specialize (Hw _ _ Hm0). unfold wide in Hw.
        unfold list_of. rewrite nth_overflow by lia. apply not_elem_of_nil.
    + rewrite (so_spare _ Hok _ _ _ Hm0 Hout). apply not_elem_of_nil.
Qed.

(** ** Events on the queues *)

Hypothesis Hqueue : (0 < QSIZE)%nat.

Lemma next_slot_lt i : (next_slot QSIZE i < QSIZE)%nat.
Proof. unfold next_slot. apply Nat.mod_upper_bound. lia. Qed.

Lemma ring_put rb q s : ring_in_bounds QSIZE q -> ring_in_bounds QSIZE (__q_put QSIZE rb q s).1.1.
Proof.
  intros (A & B & C). unfold __q_put. case_match; [destruct (ssignal s)|]; unfold ring_in_bounds; simpl;
    rewrite length_insert; split_and!; try done; apply next_slot_lt.
Qed.

Lemma ring_get q : ring_in_bounds QSIZE q -> ring_in_bounds QSIZE (__q_get QSIZE q).2.
Proof. intros (A & B & C). unfold ring_in_bounds. simpl. split_and!; [done|apply next_slot_lt|done]. Qed.

Lemma ring_reset q s : ring_in_bounds QSIZE q -> ring_in_bounds QSIZE (__reset_queue q s).1.1.
Proof. intros (A & B & C). unfold __reset_queue. destruct (sreset s). unfold ring_in_bounds. simpl. split_and!; [done|lia|lia]. Qed.

(** The context after an event. *)
Definition put_ccon (rb : SkelDrvrReadBuf) (k : SkelDrvrClientContext) : SkelDrvrClientContext :=
  let '(q, s, _) := __q_put QSIZE rb (cc_Queue k) (cc_Semaphore k) in set_queue q s k.

Lemma q_put_upd rb c w : is_Some (heap w !! c) -> q_put QSIZE rb c w = Some (upd_ccon c (put_ccon rb) w).
Proof.
  intros [k Hk]. unfold q_put. rewrite Hk. simpl. destruct (__q_put QSIZE rb (cc_Queue k) (cc_Semaphore k)) as [[q s] wk] eqn:E.
  f_equal. unfold upd_ccon, set_heap. f_equal. apply map_eq. intros x.
  destruct (decide (x = c)) as [->|Hne]; [|by rewrite !lookup_alter_ne by done].
  rewrite !lookup_alter_eq, Hk. simpl. unfold put_ccon. by rewrite E.
Qed.

Lemma put_ccon_ok rb c w : skel_ok w -> skel_ok (upd_ccon c (put_ccon rb) w).
Proof.
  intros Hok. apply ok_upd_ccon; [done|]. intros k Hk. pose proof (ring_put rb _ (cc_Semaphore k) (so_ring _ Hok _ _ Hk)) as Hr.
  revert Hr. unfold put_ccon. destruct (__q_put QSIZE rb (cc_Queue k) (cc_Semaphore k)) as [[q s] wk]. intros Hr.
  split; [exact (so_select _ Hok _ _ Hk)|exact Hr].
Qed.

(** The events [evs c] put on the queue of each client [c]. *)
Record queued_events (evs : nat -> list SkelDrvrReadBuf) (w w' : SkelDrvrWorkingArea) : Prop := {
  qe_ok : skel_ok w';
  qe_clients : clients w' = clients w;
  qe_modules : Modules w' = Modules w;
  qe_inst : InstalledModules w' = InstalledModules w;
  qe_heap : forall c, heap w' !! c = (fun k => foldl (fun k rb => put_ccon rb k) k (evs c)) <$> heap w !! c;
}.

Lemma queued_trans e1 e2 w1 w2 w3 : queued_events e1 w1 w2 -> queued_events e2 w2 w3 ->
  queued_events (fun c => e1 c ++ e2 c) w1 w3.
Proof.
  intros [A1 B1 C1 D1 E1] [A2 B2 C2 D2 E2]. split; try congruence. intros c. rewrite E2, E1.
  destruct (heap w1 !! c); [|done]. simpl. by rewrite foldl_app.
Qed.

Lemma put_queues_spec rb l w : skel_ok w -> NoDup l -> l ⊆ clients w ->
  exists w', put_queues QSIZE rb l w = Some w' /\
    queued_events (fun c => if bool_decide (c ∈ l) then [rb] else []) w w'.
Proof.
  revert w. induction l as [|c l IH]; intros w Hok Hnd Hs.
  - exists w. split; [done|]. split; try done. intros c. simpl. by destruct (heap w !! c).
  - apply NoDup_cons in Hnd as [Hc Hnd]. cbn [put_queues].
    rewrite q_put_upd by (apply (so_heap _ Hok), Hs; set_solver). cbn [mbind option_bind].
    destruct (IH (upd_ccon c (put_ccon rb) w)) as (w' & E & H); [by apply put_ccon_ok|done|simpl; set_solver|].
    exists w'. split; [done|]. destruct H as [A B C D F]. split; try done. intros x. rewrite F. simpl.
    destruct (decide (x = c)) as [->|Hne].
    + rewrite lookup_alter_eq, (bool_decide_false _ Hc), bool_decide_true by set_solver. by destruct (heap w !! c).
    + rewrite lookup_alter_ne by done. f_equal. rewrite (bool_decide_ext (x ∈ c :: l) (x ∈ l)) by set_solver. done.
Qed.

(** The events of an interrupt for the client [c], one per interrupt in order. *)
Definition event (rb : SkelDrvrReadBuf) (j : nat) : SkelDrvrReadBuf :=
  ReadBuf (Conx (cx_Module (rb_Connection rb)) (2 ^ Z.of_nat j)) (rb_Time rb).

Definition events_of (m : SkelDrvrModuleContext) (rb : SkelDrvrReadBuf) (imask : Z) (js : list nat) (c : nat)
    : list SkelDrvrReadBuf :=
  event rb <$> filter (fun j => Z.testbit imask (Z.of_nat j) && bool_decide (c ∈ list_of j m)) js.

Lemma events_of_cons m rb imask j js c : events_of m rb imask (j :: js) c =
  (if Z.testbit imask (Z.of_nat j) && bool_decide (c ∈ list_of j m) then [event rb j] else []) ++ events_of m rb imask js c.
Proof. unfold events_of. rewrite filter_cons. destruct (Z.testbit imask (Z.of_nat j)), (bool_decide (c ∈ list_of j m)); done. Qed.

Lemma queued_ext e1 e2 w w' : (forall c, e1 c = e2 c) -> queued_events e1 w w' -> queued_events e2 w w'.
Proof. intros He [A B C D E]. split; try done. intros c. by rewrite E, He. Qed.

Lemma fill_bits_spec i m rb imask js w : skel_ok w -> Modules w !! i = Some m ->
  exists w', fill_bits QSIZE m rb imask js w = Some w' /\ queued_events (events_of m rb imask js) w w'.
Proof.
  revert w. induction js as [|j js IH]; intros w Hok Hm.
  - exists w. split; [done|]. split; try done. intros c. simpl. by destruct (heap w !! c).
  - cbn [fill_bits]. rewrite land_bit. destruct (Z.testbit imask (Z.of_nat j)) eqn:Ebit.
    + assert (truthy (2 ^ Z.of_nat j) = true) as -> by (unfold truthy; pose proof (Z.pow_pos_nonneg 2 (Z.of_nat j)); lia).
      cbn [negb orb]. destruct (bool_decide_reflect (list_of j m = [])) as [El|_].
      * destruct (IH w Hok Hm) as (w' & E & H). exists w'. split; [done|]. eapply queued_ext; [|done]. intros c. simpl.
        rewrite events_of_cons, Ebit, El, (bool_decide_false (c ∈ [])) by apply not_elem_of_nil. done.
      * destruct (so_lists _ Hok _ _ j Hm) as [Hnd Hs].
        destruct (put_queues_spec (event rb j) (list_of j m) w Hok Hnd Hs) as (w1 & E1 & H1).
        unfold event in E1. rewrite E1. cbn [mbind option_bind].
        destruct (IH w1) as (w' & E & H); [apply H1|by rewrite (qe_modules _ _ _ H1)|].
        exists w'. split; [done|]. eapply queued_ext; [|by eapply queued_trans]. intros c. simpl.
        rewrite events_of_cons, Ebit. done.
    + cbn [truthy Z.eqb negb orb]. destruct (IH w Hok Hm) as (w' & E & H). exists w'. split; [done|].
      eapply queued_ext; [|done]. intros c. by rewrite events_of_cons, Ebit.
Qed.

Lemma put_ccon_contents rb k : queue_ok QSIZE (cc_Queue k) ->
  queue_ok QSIZE (cc_Queue (put_ccon rb k)) /\
  contents QSIZE (cc_Queue (put_ccon rb k)) = push QSIZE rb (contents QSIZE (cc_Queue k)).
Proof.
  intros Hq. pose proof (put_contents QSIZE Hqueue rb _ (cc_Semaphore k) Hq) as H. unfold put_ccon.
  destruct (__q_put QSIZE rb (cc_Queue k) (cc_Semaphore k)) as [[q s] wk]. simpl. tauto.
Qed.

Lemma put_ccons_contents evs k : queue_ok QSIZE (cc_Queue k) ->
  contents QSIZE (cc_Queue (foldl (fun k rb => put_ccon rb k) k evs)) =
  foldl (fun l rb => push QSIZE rb l) (contents QSIZE (cc_Queue k)) evs.
Proof.
  revert k. induction evs as [|e evs IH]; intros k Hk; [done|]. simpl. destruct (put_ccon_contents e k Hk) as [Hk' E].
  by rewrite (IH _ Hk'), E.
Qed.

(** ** Every entry point keeps the invariant *)

Variable cpu_big : bool.
Variables SkelUserIoctlFIRST SkelUserIoctlLAST SKELUSER_IOCTL_MAGIC : Z.
Context {hw : Type} `{Bus hw, SkelUser hw}.

Lemma find_cdcmf_ok flp l h : (forall c, c ∈ l -> is_Some (h !! c)) ->
  exists o, find_cdcmf flp l h = Some o /\ forall c, o = Some c -> c ∈ l.
Proof. clear Hqueue.
  induction l as [|x l IH]; intros Hl; [by exists None|]. simpl. destruct (Hl x ltac:(set_solver)) as [k ->]. simpl.
  case_match; [exists (Some x); split; [done|]; intros c [= ->]; set_solver|].
  destruct IH as (o & -> & Ho); [set_solver|]. exists o. split; [done|]. intros c Hc. apply Ho in Hc. set_solver.
Qed.

Lemma get_ccon_ok flp w : skel_ok w ->
  exists o, skel_get_ccon flp w = Some o /\ forall c, o = Some c -> c ∈ clients w /\ is_Some (heap w !! c).
Proof.
  intros Hok. destruct (find_cdcmf_ok flp (clients w) (heap w)) as (o & E & Ho); [intros c; by apply (so_heap _ Hok)|].
  exists o. split; [done|]. intros c Hc. split; [by apply Ho|]. apply (so_heap _ Hok). by apply Ho.
Qed.

(** A command whose argument may not be NULL has one, and a block of raw
    accesses names a width. *)
Definition cmd_args_ok (cm : skel_cmd) : bool :=
  match cm with
  | SET_DEBUG a | GET_CLIENT_CONNECTIONS a => bool_decide (is_Some a)
  | GET_DEBUG a | GET_VERSION a | GET_MODULE_MAPS a | GET_CLIENT_LIST a | GET_STATUS a | JTAG_READ_BYTE a => a
  | CONNECT a _ => bool_decide (is_Some a)
  | RAW a _ => bool_decide (is_Some a)
  | RAW_BLOCK a _ _ => match a with Some r => 8 <=? Z.land (rt_DataWidth r) 0x3F | None => false end
  | _ => true
  end.

Lemma raw_block_defined spaces r flag sysbrk junk (h : hw) user : 8 <= Z.land (rt_DataWidth r) 0x3F ->
  is_Some (RawIoBlock cpu_big spaces r flag sysbrk junk h user).
Proof.
  intros Hw. unfold RawIoBlock. destruct (InsLibGetAddressSpace _ _) as [a|]; [|by eexists].
  case_match; [by eexists|]. rewrite (proj2 (Z.leb_gt _ _)) by lia. unfold transfers.
  assert (0 < Z.quot (Z.land (rt_DataWidth r) 0x3F) 8) as Hq by (apply Z.quot_str_pos; lia).
  rewrite (proj2 (Z.eqb_neq _ _)) by lia. cbn [mbind option_bind]. case_match; by eexists.
Qed.

Lemma mapM_pids l (h : gmap nat SkelDrvrClientContext) : (forall c, c ∈ l -> is_Some (h !! c)) ->
  is_Some (mapM (fun c => cc_Pid <$> h !! c) l).
Proof.
  intros Hl. apply mapM_is_Some. apply Forall_forall. intros c Hc. apply fmap_is_Some. by apply Hl.
Qed.

Lemma fill_client_list_defined modnr pid j l (h : gmap nat SkelDrvrClientContext) acc :
  (forall c, c ∈ l -> is_Some (h !! c)) -> is_Some (fill_client_list modnr pid j l h acc).
Proof.
  revert acc. induction l as [|c l IH]; intros acc Hl; [by eexists|]. cbn [fill_client_list].
  destruct (Hl c ltac:(set_solver)) as [k ->]. cbn [mbind option_bind].
  assert (forall x, x ∈ l -> is_Some (h !! x)) by set_solver. repeat case_match; auto; by eexists.
Qed.

Lemma fill_client_bits_defined m pid js (h : gmap nat SkelDrvrClientContext) acc :
  (forall j c, c ∈ list_of j m -> is_Some (h !! c)) -> is_Some (fill_client_bits m pid js h acc).
Proof.
  intros Hm. revert acc. induction js as [|j js IH]; intros acc; [by eexists|]. cbn [fill_client_bits].
  destruct (fill_client_list_defined (m_ModuleNumber m) pid j (list_of j m) h acc (Hm j)) as [[acc' full] ->].
  cbn [mbind option_bind]. destruct full; [by eexists|apply IH].
Qed.

Lemma client_connections_defined ms pid (h : gmap nat SkelDrvrClientContext) acc :
  (forall m j c, m ∈ ms -> c ∈ list_of j m -> is_Some (h !! c)) -> is_Some (client_connections INTS ms pid h acc).
Proof.
  revert acc. induction ms as [|m ms IH]; intros acc Hm; [by eexists|]. cbn [client_connections].
  assert (forall m j c, m ∈ ms -> c ∈ list_of j m -> is_Some (h !! c)) as Hms by (intros m' j c Hin; apply Hm, elem_of_cons; by right).
  destruct (negb (truthy (m_InUse m))); [by apply IH|].
  destruct (fill_client_bits_defined m pid (seq 0 INTS) h acc) as [[acc' full] E]; [intros j c; apply Hm, elem_of_cons; by left|].
  unfold skel_fill_client_connections. rewrite E. cbn [mbind option_bind]. destruct full; [by eexists|by apply IH].
Qed.

(** What a call leaves: the invariant and the same clients. *)
Definition kept (w : SkelDrvrWorkingArea) (o : option (ioctl_result (hw := hw))) : Prop :=
  exists r w' h', o = Some (r, w', h') /\ skel_ok w' /\ clients w' = clients w.

Lemma kept_same w r h : skel_ok w -> kept w (Some (r, w, h)).
Proof. intros Hok. by exists r, w, h. Qed.

Lemma kept_ccon w c f r h : skel_ok w ->
  (forall k, heap w !! c = Some k -> cc_ModuleNumber (f k) ∈ numbers w /\ ring_in_bounds QSIZE (cc_Queue (f k))) ->
  kept w (Some (r, upd_ccon c f w, h)).
Proof. intros Hok Hf. eexists _, _, _. split; [done|]. split; [by apply ok_upd_ccon|done]. Qed.

Lemma kept_mcon w i m m' r h : skel_ok w -> Modules w !! i = Some m ->
  m_Connected m' = m_Connected m -> m_ModuleNumber m' = m_ModuleNumber m ->
  kept w (Some (r, put_mcon i m' w, h)).
Proof.
  intros Hok Hm E1 E2. eexists _, _, _. split; [done|]. split; [|done]. apply ok_upd_mcon; [done|]. intros m0 Hm0.
  assert (m0 = m) as -> by congruence. done.
Qed.

Lemma client_cmd_kept c ccon cm w h : skel_ok w -> heap w !! c = Some ccon -> cmd_args_ok cm = true ->
  kept w (client_cmd SkelDrvrINTERRUPTS c ccon cm w h).
Proof.
  intros Hok Hc Ha. assert (is_Some (heap w !! c)) as His by eauto.
  assert (forall k, heap w !! c = Some k -> cc_ModuleNumber k ∈ numbers w /\ ring_in_bounds QSIZE (cc_Queue k)) as Hk
    by (intros k Hk; split; [by eapply (so_select _ Hok)|by eapply (so_ring _ Hok)]).
  pose proof (Hk _ Hc) as [Hsel Hring].
  destruct cm; simpl in Ha; cbn [client_cmd]; try discriminate; try (by apply kept_same);
    try (unfold get_long, ok, err, deref; destruct arg; [|try discriminate]; simpl; by apply kept_same).
  - destruct db; [|by vm_compute in Ha]. apply kept_ccon; [done|]. intros k E. exact (Hk _ E).
  - apply kept_ccon; [done|]. intros k E. exact (Hk _ E).
  - apply kept_ccon; [done|]. intros k E. split; [exact (proj1 (Hk _ E))|exact Hring].
  - destruct arg; [|by apply kept_same]. unfold get_queue_overflow. apply kept_ccon; [done|]. intros k E. split; [exact (proj1 (Hk _ E))|exact Hring].
  - destruct (get_mcon (lav_of lav) w) as [i|] eqn:E; [|by apply kept_same]. apply kept_ccon; [done|].
    intros k Ek. split; [|exact (proj2 (Hk _ Ek))]. apply get_mcon_Some in E. by eapply list_elem_of_lookup_2.
  - destruct conx as [conx|]; [|by vm_compute in Ha]. cbn [mbind option_bind]. destruct (truthy (cx_ConMask conx)); [|case_match].
    + destruct (connect_ok c conx allocs w Hok His) as (w' & -> & Hok' & Hcl). by eexists _, _, _.
    + destruct (disconnect_all_ok c w Hok His) as (w' & -> & Hok' & Hcl & _). by eexists _, _, _.
    + destruct (disconnect_ok c conx w Hok His) as (cx' & w' & -> & Hok' & Hcl). by eexists _, _, _.
  - destruct arg; [|discriminate]. unfold skel_get_client_list.
    destruct (mapM_pids (take SkelDrvrCLIENT_CONTEXTS (clients w)) (heap w)) as [l E].
    { intros x Hx. apply (so_heap _ Hok). eapply elem_of_take in Hx as (i & Hi & _). by eapply list_elem_of_lookup_2. }
    rewrite E. simpl. by apply kept_same.
  - destruct pid as [pid|]; [|by vm_compute in Ha]. cbn [mbind option_bind]. unfold skel_get_client_connections.
    destruct (client_connections_defined (Modules w) (if pid =? 0 then cc_Pid ccon else pid) (heap w) []) as [l E].
    { intros m j x (i & Hi)%list_elem_of_lookup Hx. apply (so_heap _ Hok). by apply (so_lists _ Hok _ _ j Hi). }
    rewrite E. simpl. by apply kept_same.
Qed.

Lemma module_cmd_kept e i cm w h : skel_ok w -> (i < InstalledModules w)%nat -> cmd_args_ok cm = true ->
  kept w (module_cmd cpu_big SkelUserIoctlFIRST SkelUserIoctlLAST SKELUSER_IOCTL_MAGIC e (Some i) cm w h).
Proof.
  intros Hok Hi Ha. destruct (installed_number w i (so_numbers _ Hok) Hi) as (m & Hm & _).
  destruct cm; simpl in Ha; cbn [module_cmd]; unfold with_mcon, ok, err; cbn [mbind option_bind];
    rewrite ?Hm; cbn [mbind option_bind]; try (by apply kept_same).
  - destruct arg; [|discriminate]. unfold GetVersion, update_mcon_status, deref.
    destruct (ie_bus_error e); [destruct (ie_interrupted e)|destruct (SkelUserGetModuleVersion _ h)]; by apply (kept_mcon _ _ m).
  - destruct arg; [|discriminate]. by apply kept_same.
  - destruct (SkelUserHardwareEnable (m_ModuleNumber m) (lav_of lav) h). by apply (kept_mcon _ _ m).
  - unfold Reset. destruct (sreset _) as [w1 s]. destruct (ssignal s) as [w2 s']. by apply (kept_mcon _ _ m).
  - destruct arg; [|discriminate]. destruct (SkelUserGetHardwareStatus (m_ModuleNumber m) h). by apply kept_same.
  - unfold LockModule. destruct (cdcm_down task (m_Semaphore m)) as [got s]. destruct got; by apply (kept_mcon _ _ m).
  - unfold Reset, UnLockModule. cbn [m_Semaphore set_sem set_connected set_flash set_status]. destruct (sreset _) as [w1 s]. destruct (ssignal s) as [w2 s'].
    cbn [m_Semaphore set_sem]. destruct (ssignal s') as [w3 s'']. by apply (kept_mcon _ _ m).
  - case_match; [|by apply kept_same]. destruct arg; [|discriminate]. destruct (SkelUserJtagReadByte (m_ModuleNumber m) h) as [[b|] h'];
      by apply kept_same.
  - case_match; [|by apply kept_same]. destruct (SkelUserJtagWriteByte _ _ h) as [[] h']; by apply kept_same.
  - destruct riob as [riob|]; [|by vm_compute in Ha]. cbn [mbind option_bind].
    destruct (RawIo _ _ _ _ _ _) as [[r fault] h']. unfold update_mcon_status.
    destruct fault; [destruct (ie_interrupted e); [by apply kept_same|by apply (kept_mcon _ _ m)]|].
    destruct r; by apply kept_same.
  - destruct riobt as [riobt|]; [|discriminate]. cbn [mbind option_bind].
    destruct (raw_block_defined (m_spaces m) riobt flag (ie_sysbrk_ok e) (ie_junk e) h user) as [[[r h'] u'] E]; [by apply Z.leb_le|].
    rewrite E. cbn [mbind option_bind]. destruct r; by apply kept_same.
  - destruct (is_user_ioctl _ _ _ ty nr); [|by apply kept_same].
    destruct (SkelUserIoctls (m_ModuleNumber m) nr h) as [[] h']; by apply kept_same.
Qed.

Lemma ioctl_kept flp cm e w h : skel_ok w -> cmd_args_ok cm = true ->
  kept w (SkelDrvrIoctl SkelDrvrINTERRUPTS cpu_big SkelUserIoctlFIRST SkelUserIoctlLAST SKELUSER_IOCTL_MAGIC flp cm e w h).
Proof.
  intros Hok Ha. unfold SkelDrvrIoctl. case_match; [by apply kept_same|].
  destruct (get_ccon_ok flp w Hok) as (o & E & Ho). rewrite E. cbn [mbind option_bind].
  destruct o as [c|]; [|by apply kept_same]. destruct (Ho c eq_refl) as [_ [ccon Hc]]. rewrite Hc. cbn [mbind option_bind].
  destruct (is_client_cmd cm); [by apply client_cmd_kept|].
  pose proof (so_select _ Hok _ _ Hc) as (i & Hi)%list_elem_of_lookup.
  rewrite (get_mcon_lookup _ _ i (nb_distinct _ (so_numbers _ Hok)) Hi). apply module_cmd_kept; [done| |done].
  by apply numbers_lookup in Hi as [Hi _].
Qed.

(** ** Runs of the driver

    The entry points in any order.  A [read()] that waits is in progress until
    it has the semaphore or gives up. *)

Record sys := Sys { s_w : SkelDrvrWorkingArea; s_h : hw; s_reads : list (nat * nat) }.

Inductive sys_op :=
  | SOpen (flp : Z) (e : open_env)
  | SClose (flp : Z)
  | SRead (flp : Z) (task : nat)
  | SReadDone (c task : nat)
  | SReadGiveUp (c task : nat)
  | SWrite (conx : SkelDrvrConnection) (utc : SkelDrvrTime)
  | SSelect (flp : Z) (read : bool)
  | SIntr (i : nat) (source : Z) (time : SkelDrvrTime)
  | SIoctl (flp : Z) (cm : skel_cmd) (e : ioctl_env)
  | SJtagDone (i : nat)
  | SJtagGiveUp (i task : nat).

(** [None]: memory that was freed, or NULL, is accessed. *)
Definition sys_step (op : sys_op) (s : sys) : option sys :=
  let '(Sys w h rd) := s in
  match op with
  | SOpen flp e => let '(_, w) := SkelDrvrOpen QSIZE flp e w in Some (Sys w h rd)
  | SClose flp => '(_, w) ← SkelDrvrClose INTS flp w; Some (Sys w h rd)
  | SRead flp task =>
      '(r, w) ← SkelDrvrRead flp task w;
      Some (Sys w h (match r with inr (_, c) => (c, task) :: rd | inl _ => rd end))
  | SReadDone c task => '(_, w) ← read_finish QSIZE c w; Some (Sys w h (filter (fun p => p <> (c, task)) rd))
  | SReadGiveUp c task => w ← read_give_up c task w; Some (Sys w h (filter (fun p => p <> (c, task)) rd))
  | SWrite conx utc => '(_, w) ← SkelDrvrWrite INTS QSIZE conx utc w; Some (Sys w h rd)
  | SSelect flp read => _ ← SkelDrvrSelect flp read w; Some s
  | SIntr i source time => w ← IntrHandler INTS QSIZE i source time w; Some (Sys w h rd)
  | SIoctl flp cm e =>
      '(_, w, h) ← SkelDrvrIoctl INTS cpu_big SkelUserIoctlFIRST SkelUserIoctlLAST SKELUSER_IOCTL_MAGIC flp cm e w h;
      Some (Sys w h rd)
  | SJtagDone i => Some (Sys (jtag_open_finish i w) h rd)
  | SJtagGiveUp i task => Some (Sys (snd (jtag_open_give_up i task w)) h rd)
  end.

(** What the kernel and the callers guarantee: memory that is allocated is not
    in use, a file that is being read is not closed, only installed modules
    interrupt, and arguments are not NULL. *)
Definition sys_legal (op : sys_op) (s : sys) : Prop :=
  match op with
  | SOpen _ e => forall c, oe_block e = Some c -> heap (s_w s) !! c = None
  | SClose flp => forall c task, (c, task) ∈ s_reads s -> skel_get_ccon flp (s_w s) <> Some (Some c)
  | SReadDone c task | SReadGiveUp c task => (c, task) ∈ s_reads s
  | SIntr i _ _ => (i < InstalledModules (s_w s))%nat
  | SIoctl _ cm _ => cmd_args_ok cm = true
  | _ => True
  end.

Fixpoint sys_run (ops : list sys_op) (s : sys) : option sys :=
  match ops with [] => Some s | op :: ops => s ← sys_step op s; sys_run ops s end.

Fixpoint legal_run (ops : list sys_op) (s : sys) : Prop :=
  match ops with [] => True | op :: ops => sys_legal op s /\ forall s', sys_step op s = Some s' -> legal_run ops s' end.

Record sys_ok (s : sys) : Prop := {
  sy_skel : skel_ok (s_w s);
  sy_reads : forall c task, (c, task) ∈ s_reads s -> c ∈ clients (s_w s);
}.

Lemma open_ok flp e w : skel_ok w -> (forall c, oe_block e = Some c -> heap w !! c = None) ->
  skel_ok (SkelDrvrOpen QSIZE flp e w).2 /\ clients w ⊆ clients (SkelDrvrOpen QSIZE flp e w).2.
Proof.
  intros Hok Hfresh. unfold SkelDrvrOpen. destruct (oe_block e) as [c|]; [|done].
  destruct (negb (oe_user_ok e)); [done|]. destruct (negb (oe_link e)); [done|]. simpl.
  specialize (Hfresh c eq_refl). assert (c ∉ clients w) as Hc by (rewrite (so_heap _ Hok), Hfresh; by apply is_Some_None).
  split; [|set_solver]. destruct Hok as [A B C D E F G I].
  assert (cc_ModuleNumber (client_init QSIZE flp (oe_pid e) w) ∈ numbers w /\
    ring_in_bounds QSIZE (cc_Queue (client_init QSIZE flp (oe_pid e) w))) as [Hsel Hring].
  { unfold client_init. cbn. split.
    - destruct A as [_ _ HA]. unfold numbers. destruct (InstalledModules w) as [|n]; [lia|]. destruct (Modules w) as [|m l]; [simpl in HA; lia|].
      simpl. by left.
    - split_and!; cbn; [by rewrite length_replicate|done|done]. }
  split; simpl; [by destruct A; split|done|by apply NoDup_cons| |intros i m j Hm; destruct (E i m j Hm); split; [done|set_solver]|done| |].
  - intros c'. rewrite elem_of_cons, D. destruct (decide (c' = c)) as [->|Hne].
    + rewrite lookup_insert_eq. naive_solver.
    + rewrite lookup_insert_ne by done. naive_solver.
  - intros c' k. rewrite lookup_insert_Some. intros [[-> <-]|[_ Hk]]; [done|by eapply G].
  - intros c' k. rewrite lookup_insert_Some. intros [[-> <-]|[_ Hk]]; [done|by eapply I].
Qed.

Lemma do_close_ok c w : (INTS <= 32)%nat -> skel_ok w -> c ∈ clients w ->
  exists w', __do_close INTS c w = Some w' /\ skel_ok w' /\ (forall x, x ∈ clients w' <-> x ∈ clients w /\ x <> c).
Proof.
  intros H32 Hok Hc. assert (is_Some (heap w !! c)) as His by (by apply (so_heap _ Hok)).
  destruct (disconnect_all_ok c w Hok His) as (w1 & E & Hok1 & Hcl & Hheap & Hout). unfold __do_close. rewrite E.
  cbn [mbind option_bind]. unfold __skel_remove_ccon. rewrite Hcl, (proj2 (get_client_spec c _) Hc).
  destruct Hok1 as [A B C D E' F G I].
  assert (forall x, x ∈ list_del c (clients w) <-> x ∈ clients w /\ x <> c) as Hdel
    by (intros x; apply elem_of_list_del, (so_nodup _ Hok)).
  eexists. split; [done|]. split; [|done]. split; simpl.
  - by destruct A; split.
  - done.
  - by apply list_del_nodup, (so_nodup _ Hok).
  - intros x. rewrite Hdel, <- Hcl, D. destruct (decide (x = c)) as [->|Hne].
    + rewrite lookup_delete_eq. split; [by intros [_ ?]|by intros []].
    + rewrite lookup_delete_ne by done. naive_solver.
  - intros i m j Hm. destruct (E' i m j Hm) as [Hnd Hs]. split; [done|]. intros x Hx. apply Hdel. split.
    + rewrite <- Hcl. by apply Hs.
    + intros ->. by apply (Hout H32 i m j).
  - done.
  - intros x k. rewrite lookup_delete_Some. intros [_ Hk]. by eapply G.
  - intros x k. rewrite lookup_delete_Some. intros [_ Hk]. by eapply I.
Qed.

Lemma fill_clients_ok i rb imask w : skel_ok w -> (i < InstalledModules w)%nat ->
  exists w', fill_clients_queues INTS QSIZE i rb imask w = Some w' /\ skel_ok w' /\ clients w' = clients w.
Proof.
  intros Hok Hi. destruct (installed_number w i (so_numbers _ Hok) Hi) as (m & Hm & _). unfold fill_clients_queues.
  rewrite Hm. destruct (fill_bits_spec i m rb imask (seq 0 INTS) w Hok Hm) as (w' & E & Hq). simpl. rewrite E.
  exists w'. split; [done|]. split; apply Hq.
Qed.

Lemma sys_step_ok op s : (INTS <= 32)%nat -> sys_ok s -> sys_legal op s -> exists s', sys_step op s = Some s' /\ sys_ok s'.
Proof.
  intros H32 [Hok Hrd] Hl. destruct s as [w h rd]. cbn [s_w s_h s_reads] in *.
  assert (forall w', skel_ok w' -> clients w' = clients w -> sys_ok (Sys w' h rd)) as Hsame.
  { intros w' Hok' Hcl. split; cbn; [done|]. intros c t Hin. rewrite Hcl. by eapply Hrd. }
  assert (forall w' x, skel_ok w' -> clients w' = clients w -> sys_ok (Sys w' h (filter (fun p => p <> x) rd))) as Hfilter.
  { intros w' x Hok' Hcl. split; cbn; [done|]. intros c t [_ Hin]%list_elem_of_filter. rewrite Hcl. by eapply Hrd. }
  destruct op; simpl in Hl; cbn [sys_step].
  - destruct (open_ok flp e w Hok Hl) as [Hok' Hcl]. destruct (SkelDrvrOpen QSIZE flp e w) as [r w']. simpl in *.
    eexists. split; [done|]. split; cbn; [done|]. intros c t Hin. by eapply Hcl, Hrd.
  - unfold SkelDrvrClose. destruct (get_ccon_ok flp w Hok) as (o & E & Ho). rewrite E. cbn [mbind option_bind].
    destruct o as [c|]; [|eexists; split; [done|]; by apply Hsame]. destruct (Ho c eq_refl) as [Hc _].
    destruct (do_close_ok c w H32 Hok Hc) as (w' & -> & Hok' & Hcl). eexists. split; [done|]. split; cbn; [done|].
    intros x t Hin. apply Hcl. split; [by eapply Hrd|]. intros ->. by apply (Hl _ _ Hin).
  - unfold SkelDrvrRead. destruct (get_ccon_ok flp w Hok) as (o & E & Ho). rewrite E. cbn [mbind option_bind].
    destruct o as [c|]; [|eexists; split; [done|]; by apply Hsame]. destruct (Ho c eq_refl) as [Hc [ccon Hk]]. rewrite Hk.
    cbn [mbind option_bind].
    assert (ring_in_bounds QSIZE (cc_Queue ccon)) as Hring by (by eapply (so_ring _ Hok)).
    set (qs := if truthy (QueueOff (cc_Queue ccon)) then _ else _).
    assert (ring_in_bounds QSIZE qs.1) as Hq.
    { unfold qs. case_match; [|done]. pose proof (ring_reset _ (cc_Semaphore ccon) Hring) as Hr.
      destruct (__reset_queue (cc_Queue ccon) (cc_Semaphore ccon)) as [[q s] wk]. done. }
    destruct qs as [q s]. simpl in Hq. set (gs := if cc_Timeout ccon =? 0 then _ else _). destruct gs as [got s'].
    eexists. split; [done|]. split; cbn.
    + apply ok_upd_ccon; [done|]. intros k Ek. split; [exact (so_select _ Hok _ _ Ek)|exact Hq].
    + intros x t [[= -> ->]|Hin]%elem_of_cons; [done|by eapply Hrd].
  - pose proof (Hrd _ _ Hl) as [ccon Hk]%(so_heap _ Hok). unfold read_finish. rewrite Hk. cbn [mbind option_bind].
    pose proof (ring_get _ (so_ring _ Hok _ _ Hk)) as Hg. destruct (__q_get QSIZE (cc_Queue ccon)) as [rb q].
    eexists. split; [done|]. apply Hfilter; [|done]. apply ok_upd_ccon; [done|]. intros k Ek.
    split; [exact (so_select _ Hok _ _ Ek)|exact Hg].
  - pose proof (Hrd _ _ Hl) as [ccon Hk]%(so_heap _ Hok). unfold read_give_up. rewrite Hk. cbn [mbind option_bind].
    eexists. split; [done|]. apply Hfilter; [|done]. apply ok_upd_ccon; [done|]. intros k Ek.
    split; [exact (so_select _ Hok _ _ Ek)|exact (so_ring _ Hok _ _ Ek)].
  - unfold SkelDrvrWrite. destruct (get_mcon (cx_Module conx) w) as [i|] eqn:E.
    + apply get_mcon_Some, numbers_lookup in E as [Hi _].
      destruct (fill_clients_ok i (ReadBuf conx utc) (cx_ConMask conx) w Hok Hi) as (w' & -> & Hok' & Hcl).
      eexists. split; [done|]. by apply Hsame.
    + eexists. split; [done|]. by apply Hsame.
  - unfold SkelDrvrSelect. destruct (get_ccon_ok flp w Hok) as (o & E & Ho). rewrite E. cbn [mbind option_bind].
    destruct o; eexists; (split; [done|]); by apply Hsame.
  - unfold IntrHandler. destruct (installed_number w i (so_numbers _ Hok) Hl) as (m & Hm & _). rewrite Hm.
    cbn [mbind option_bind]. case_match; [eexists; split; [done|]; by apply Hsame|].
    destruct (fill_clients_ok i (ReadBuf (Conx (m_ModuleNumber m) 0) time) source w Hok Hl) as (w' & -> & Hok' & Hcl).
    eexists. split; [done|]. by apply Hsame.
  - destruct (ioctl_kept flp cm e w h Hok Hl) as (r & w' & h' & -> & Hok' & Hcl). eexists. split; [done|]. split; cbn; [done|].
    intros c t Hin. rewrite Hcl. by eapply Hrd.
  - eexists. split; [done|]. apply Hsame; [|done]. by apply ok_upd_mcon.
  - eexists. split; [done|]. apply Hsame; [|done]. by apply ok_upd_mcon.
Qed.

Lemma sys_run_ok ops s : (INTS <= 32)%nat -> sys_ok s -> legal_run ops s -> exists s', sys_run ops s = Some s' /\ sys_ok s'.
Proof.
  intros H32. revert s. induction ops as [|op ops IH]; intros s Hok Hl; [by exists s|]. destruct Hl as [Hop Hl].
  destruct (sys_step_ok op s H32 Hok Hop) as (s1 & E & Hok1). simpl. rewrite E. simpl. by apply IH; [|apply Hl].
Qed.

(** A driver that was just installed: its modules are numbered apart and not
    0, and nobody is connected. *)
Record installed (w : SkelDrvrWorkingArea) : Prop := {
  in_numbers : numbering w;
  in_clients : clients w = [];
  in_heap : heap w = ∅;
  in_lists : Forall (fun m => mc_clients (m_Connected m) = replicate INTS []) (Modules w);
}.

Lemma installed_ok w : installed w -> skel_ok w.
Proof.
  intros [A B C D]. rewrite Forall_lookup in D.
  assert (forall i m j, Modules w !! i = Some m -> list_of j m = []) as Hl
    by (intros i m j Hm; unfold list_of; rewrite (D _ _ Hm); apply nth_replicate_nil).
  split; [done| |rewrite B; constructor| | | | |].
  - apply Forall_lookup. intros i m Hm. unfold wide. rewrite (D _ _ Hm). apply length_replicate.
  - intros c. rewrite B, C. split; [by intros ?%not_elem_of_nil|intros []; done].
  - intros i m j Hm. rewrite (Hl _ _ _ Hm). split; [constructor|apply list_subseteq_nil].
  - intros i m j Hm _. by eapply Hl.
  - intros c k. rewrite C. done.
  - intros c k. rewrite C. done.
Qed.

(** C6: no sequence of opens, closes, reads, interrupts and ioctls from an
    installed driver makes it touch the context of a client that was closed, or a
    NULL pointer; the contexts allocated are at every point those of the open
    clients, the lists of connections hold open clients only, once each, every
    client has an installed module, and the indexes of its ring are in range. *)
Theorem contexts_safe ops w h :
  (INTS <= 32)%nat -> installed w -> legal_run ops (Sys w h []) ->
  exists s, sys_run ops (Sys w h []) = Some s /\ skel_ok (s_w s).
Proof.
  intros H32 Hw Hl. destruct (sys_run_ok ops (Sys w h []) H32) as (s & E & Hok); [|done|].
  - split; [by apply installed_ok|]. intros c t Hin%elem_of_nil. done.
  - exists s. split; [done|]. apply Hok.
Qed.

(** C8: an interrupt of an installed module puts on the queue of every client
    one event for each of the interrupt sources that is raised and that the
    client is connected to, in the order of the sources and stamped with the time
    of the interrupt; it changes nothing of the clients that are not connected to
    any of them. *)
Theorem interrupt_delivers i m source time w :
  skel_ok w -> (i < InstalledModules w)%nat -> Modules w !! i = Some m ->
  exists w', IntrHandler INTS QSIZE i source time w = Some w' /\
    clients w' = clients w /\ Modules w' = Modules w /\
    forall c k, heap w !! c = Some k ->
      let evs := events_of m (ReadBuf (Conx (m_ModuleNumber m) 0) time) source (seq 0 INTS) c in
      exists k', heap w' !! c = Some k' /\ (evs = [] -> k' = k) /\
        (queue_ok QSIZE (cc_Queue k) ->
         contents QSIZE (cc_Queue k') = foldl (fun l rb => push QSIZE rb l) (contents QSIZE (cc_Queue k)) evs).
Proof.
  intros Hok Hi Hm. unfold IntrHandler. rewrite Hm. cbn [mbind option_bind].
  set (rb := ReadBuf (Conx (m_ModuleNumber m) 0) time). destruct (truthy source) eqn:Es; cbn [negb].
  - unfold fill_clients_queues. rewrite Hm. cbn [mbind option_bind].
    destruct (fill_bits_spec i m rb source (seq 0 INTS) w Hok Hm) as (w' & E & Hq). rewrite E. exists w'.
    split; [done|]. split; [apply Hq|]. split; [apply Hq|]. intros c k Hk. cbv zeta.
    exists (foldl (fun k rb => put_ccon rb k) k (events_of m rb source (seq 0 INTS) c)).
    split; [by rewrite (qe_heap _ _ _ Hq), Hk|]. split; [by intros ->|]. apply put_ccons_contents.
  - exists w. split; [done|]. split; [done|]. split; [done|]. intros c k Hk. cbv zeta. exists k. split; [done|]. split; [done|].
    intros _. assert (source = 0) as -> by (unfold truthy in Es; destruct (Z.eqb_spec source 0); done).
    unfold events_of. replace (filter _ (seq 0 INTS)) with (@nil nat); [done|]. symmetry.
    induction (seq 0 INTS) as [|j l IH]; [done|]. rewrite filter_cons, Z.bits_0. simpl. done.
Qed.
End Memory.

(** ** Closing, and disconnecting what was connected *)

Section Closing.
Variables SkelDrvrINTERRUPTS SkelDrvrQUEUE_SIZE : nat.
Local Notation INTS := SkelDrvrINTERRUPTS.

Lemma lists_above w i m j : skel_ok INTS SkelDrvrQUEUE_SIZE w -> Modules w !! i = Some m -> (INTS <= j)%nat -> list_of j m = [].
Proof.
  intros Hok Hm Hj. pose proof (so_wide _ _ _ Hok) as Hw. rewrite Forall_lookup in Hw. specialize (Hw _ _ Hm).
  unfold wide in Hw. unfold list_of. apply nth_overflow. lia.
Qed.

(** [close()] takes the client out of every list of connections, on every
    module, and leaves the other clients of each list in their order; it frees the
    context and touches nothing else of the modules than their connections. *)
Lemma close_disconnects flp c w :
  (INTS <= 32)%nat -> skel_ok INTS SkelDrvrQUEUE_SIZE w -> skel_get_ccon flp w = Some (Some c) ->
  exists w', SkelDrvrClose INTS flp w = Some (inr tt, w') /\
    heap w' = delete c (heap w) /\ clients w' = filter (fun x => x <> c) (clients w) /\
    module_frame <$> Modules w' = module_frame <$> Modules w /\
    forall i m', Modules w' !! i = Some m' -> exists m, Modules w !! i = Some m /\
      forall j, list_of j m' = filter (fun x => x <> c) (list_of j m).
Proof.
  intros H32 Hok Hflp. destruct (get_ccon_ok INTS SkelDrvrQUEUE_SIZE flp w Hok) as (o & E & Ho).
  assert (o = Some c) as -> by congruence. destruct (Ho c eq_refl) as [Hc [ccon Hk]].
  destruct (disconnect_all_change INTS c ccon w (so_wide _ _ _ Hok) Hk (so_numbers _ _ _ Hok)) as (w1 & Ew & Hch).
  unfold SkelDrvrClose. rewrite E. cbn [mbind option_bind]. unfold __do_close. rewrite Ew. cbn [mbind option_bind].
  unfold __skel_remove_ccon. rewrite (cc_clients _ _ _ _ _ Hch), (proj2 (get_client_spec c _) Hc).
  eexists. split; [done|]. cbn [heap clients Modules set_heap set_clients].
  split; [by rewrite (cc_heap _ _ _ _ _ Hch)|]. split; [apply list_del_filter, (so_nodup _ _ _ Hok)|]. split; [apply Hch|].
  intros i m' Hi. destruct (cc_lists _ _ _ _ _ Hch _ _ Hi) as (m & Hm & L). exists m. split; [done|]. intros j. rewrite L.
  destruct (so_lists _ _ _ Hok i m j Hm) as [Hnd _].
  destruct (Nat.ltb_spec i (InstalledModules w)) as [Hin|Hout]; cbn [andb].
  - destruct (Nat.ltb_spec j INTS) as [Hj|Hj].
    + unfold disconnected_list. rewrite full_mask_bit by lia. by apply list_del_filter.
    + by rewrite (lists_above _ _ _ _ Hok Hm Hj).
  - by rewrite (so_spare _ _ _ Hok _ _ _ Hm Hout).
Qed.

Lemma conx_module_change ccon conx hit g w w' : connections_change INTS hit g w w' ->
  conx_module ccon conx w' = conx_module ccon conx w.
Proof. intros H. unfold conx_module. by rewrite !get_mcon_numbers, (change_numbers _ _ _ _ _ H). Qed.

(** disconnecting what was just connected gives back the lists of every
    module, if the client had none of these connections before. *)
Lemma connect_disconnect c conx allocs w ccon :
  skel_ok INTS SkelDrvrQUEUE_SIZE w -> heap w !! c = Some ccon -> cx_ConMask conx <> 0 ->
  (forall i m j, conx_module ccon conx w = Some i -> Modules w !! i = Some m ->
     Z.testbit (cx_ConMask conx) (Z.of_nat j) = true -> c ∉ list_of j m) ->
  exists w1 w2, Connect INTS c conx allocs w = Some w1 /\ DisConnect INTS c conx w1 = Some (conx, w2) /\
    heap w2 = heap w /\ clients w2 = clients w /\
    module_frame <$> Modules w2 = module_frame <$> Modules w /\
    forall i m2, Modules w2 !! i = Some m2 -> exists m, Modules w !! i = Some m /\ forall j, list_of j m2 = list_of j m.
Proof.
  intros Hok Hc Hmask Hfree.
  destruct (connect_change INTS c conx allocs w ccon (so_wide _ _ _ Hok) Hc) as (w1 & E1 & H1).
  assert (heap w1 !! c = Some ccon) as Hc1 by (by rewrite (cc_heap _ _ _ _ _ H1)).
  destruct (disconnect_change INTS c conx w1 ccon (cc_wide _ _ _ _ _ H1) Hc1) as (conx' & w2 & E2 & H2 & _).
  rewrite (conx_module_change _ _ _ _ _ _ H1) in H2.
  assert (disconnect_mask (cx_ConMask conx) = cx_ConMask conx) as Em
    by (unfold disconnect_mask; by rewrite (proj2 (Z.eqb_neq _ _) Hmask)).
  rewrite Em in H2. assert (conx' = conx) as ->.
  { unfold DisConnect in E2. rewrite Hc1 in E2. simpl in E2. destruct (conx_module ccon conx w1); injection E2 as <- _; [|done].
    by rewrite (proj2 (Z.eqb_neq _ _) Hmask). }
  exists w1, w2. split; [done|]. split; [done|]. split; [by rewrite (cc_heap _ _ _ _ _ H2), (cc_heap _ _ _ _ _ H1)|].
  split; [by rewrite (cc_clients _ _ _ _ _ H2), (cc_clients _ _ _ _ _ H1)|].
  split; [by rewrite (cc_frame _ _ _ _ _ H2), (cc_frame _ _ _ _ _ H1)|].
  intros i m2 Hi. destruct (cc_lists _ _ _ _ _ H2 _ _ Hi) as (m1 & Hm1 & L2).
  destruct (cc_lists _ _ _ _ _ H1 _ _ Hm1) as (m & Hm & L1). exists m. split; [done|]. intros j. rewrite L2, L1.
  destruct (hits (conx_module ccon conx w) i) eqn:Eh; cbn [andb]; [|done]. apply bool_decide_eq_true in Eh.
  destruct (Nat.ltb j INTS); [|done]. unfold disconnected_list, connected_list.
  destruct (Z.testbit (cx_ConMask conx) (Z.of_nat j)) eqn:Eb; cbn [andb]; [|done].
  pose proof (Hfree i m j Eh Hm Eb) as Hnot.
  assert (__get_client c (list_of j m) = false) as -> by (by apply bool_decide_false).
  destruct (allocs j); cbn [andb negb]; [cbn [list_del]; by rewrite Nat.eqb_refl|by apply list_del_notin].
Qed.
End Closing.

(** ** Concrete runs *)

Module Concrete.
#[local] Instance unit_bus : Bus unit := {| io_read := fun _ _ h => (0, h); io_write := fun _ _ _ h => h |}.
#[local] Instance unit_user : SkelUser unit := {|
  SkelUserHardwareEnable := fun _ _ h => (true, h);
  SkelUserHardwareReset := fun _ h => h;
  SkelUserGetHardwareStatus := fun _ h => (0, h);
  SkelUserGetModuleVersion := fun _ h => ([], h);
  SkelUserJtagReadByte := fun _ h => (Some 0, h);
  SkelUserJtagWriteByte := fun _ _ h => (true, h);
  SkelUserIoctls := fun _ _ h => (true, h) |}.

Definition module_ex (nr : Z) : SkelDrvrModuleContext :=
  Mcon nr 1 (cdcm_sem_init 1) 0 (ModConn (replicate 4 []) 0) 0 0 0 [] 0.

Definition driver_ex (nrs : list Z) : SkelDrvrWorkingArea := Wa_ (length nrs) [] (module_ex <$> nrs) ∅.

Definition open_ex (c : nat) : open_env := OpenEnv (Some c) 100 true true.
Definition env_ex : ioctl_env := IoctlEnv true false false true (fun _ => []).
Definition connect_ex (m mask : Z) : skel_cmd := CONNECT (Some (Conx m mask)) (fun _ => true).

Local Notation step := (sys_step 4 3 false 0 0 0 (hw := unit)).
Local Notation run := (sys_run 4 3 false 0 0 0 (hw := unit)).

Lemma installed_ex : installed 4 (driver_ex [1; 2]).
Proof.
  split; [|done|done|by repeat constructor]. split; [|intros H; vm_compute in H|cbn; lia].
  - vm_compute. apply NoDup_cons. split; [by intros ?%list_elem_of_singleton|apply NoDup_singleton].
  - repeat (apply elem_of_cons in H as [H|H]; [done|]). by apply not_elem_of_nil in H.
Qed.

(** A client opens, connects, is interrupted, reads and closes. *)
Definition session : list (sys_op) :=
  [SOpen 7 (open_ex 10); SIoctl 7 (connect_ex 1 3) env_ex; SIntr 0 2 (Time_ 5 6); SRead 7 1; SReadDone 10 1; SClose 7].

Lemma contexts_safe_witness :
  exists s, run session (Sys (driver_ex [1; 2]) tt []) = Some s /\ skel_ok 4 3 (s_w s).
Proof.
  apply (contexts_safe 4 3 ltac:(lia) false 0 0 0 session (driver_ex [1; 2]) tt); [lia|apply installed_ex|].
  split; [intros c [= <-]; reflexivity|]. intros s1 [= <-].
  split; [reflexivity|]. intros s2 [= <-].
  split; [vm_compute; lia|]. intros s3 [= <-].
  split; [exact I|]. intros s4 [= <-].
  split; [by left|]. intros s5 [= <-].
  split; [|intros s6 _; exact I]. intros c t Hin. vm_compute in Hin. by apply not_elem_of_nil in Hin.
Defined.

(** The driver with one client connected to the sources 0 and 1 of module 1. *)
Definition connected_ex : SkelDrvrWorkingArea :=
  match run (take 2 session) (Sys (driver_ex [1; 2]) tt []) with Some s => s_w s | None => driver_ex [] end.

Lemma connected_ex_ok : skel_ok 4 3 connected_ex.
Proof.
  destruct (sys_run_ok 4 3 ltac:(lia) false 0 0 0 (take 2 session) (Sys (driver_ex [1; 2]) tt [])) as (s & E & Hs & _).
  - lia.
  - split; [apply installed_ok, installed_ex|]. intros c t Hin%elem_of_nil. done.
  - split; [intros c [= <-]; reflexivity|]. intros s1 [= <-]. split; [reflexivity|]. done.
  - unfold connected_ex. by rewrite E.
Qed.

Lemma interrupt_delivers_witness :
  let rb j := ReadBuf (Conx 1 (2 ^ Z.of_nat j)) (Time_ 5 6) in
  exists w', IntrHandler 4 3 0 6 (Time_ 5 6) connected_ex = Some w' /\
    exists k', heap w' !! 10%nat = Some k' /\ contents 3 (cc_Queue k') = [rb 1%nat].
Proof.
  destruct (interrupt_delivers 4 3 ltac:(lia) 0 (default (module_ex 0) (Modules connected_ex !! 0%nat)) 6 (Time_ 5 6) connected_ex)
    as (w' & E & _ & _ & H); [apply connected_ex_ok|vm_compute; lia|reflexivity|].
  exists w'. split; [done|]. destruct (H 10%nat (client_init 3 7 100 (driver_ex [1; 2]))) as (k' & Ek & _ & Hq); [reflexivity|].
  exists k'. split; [done|]. rewrite Hq; [reflexivity|]. apply (queue_zero_ok 3). lia.
Defined.

Lemma close_disconnects_witness :
  exists w', SkelDrvrClose 4 7 connected_ex = Some (inr tt, w') /\ clients w' = [] /\
    forall m', Modules w' !! 0%nat = Some m' -> list_of 0 m' = [].
Proof.
  destruct (close_disconnects 4 3 7 10 connected_ex ltac:(lia) connected_ex_ok eq_refl) as (w' & E & _ & Hc & _ & Hl).
  exists w'. split; [done|]. split; [by rewrite Hc|]. intros m' Hm. destruct (Hl _ _ Hm) as (m & Hm0 & L).
  rewrite (L 0%nat). vm_compute in Hm0. injection Hm0 as <-. reflexivity.
Defined.

Lemma connect_disconnect_witness :
  exists w1 w2, Connect 4 10 (Conx 2 5) (fun _ => true) connected_ex = Some w1 /\
    DisConnect 4 10 (Conx 2 5) w1 = Some (Conx 2 5, w2) /\ heap w2 = heap connected_ex.
Proof.
  destruct (connect_disconnect 4 3 10 (Conx 2 5) (fun _ => true) connected_ex (client_init 3 7 100 (driver_ex [1; 2])))
    as (w1 & w2 & E1 & E2 & Eh & _); [apply connected_ex_ok|reflexivity|done| |by exists w1, w2].
  intros i m j Hi Hm Hj. vm_compute in Hi. injection Hi as <-. vm_compute in Hm. injection Hm as <-.
  unfold list_of. cbn [mc_clients m_Connected]. intros H. do 5 (destruct j as [|j]; [by apply not_elem_of_nil in H|]).
  by apply not_elem_of_nil in H.
Defined.

(** Two clients, one on source 0 and one on source 1; the second closes. *)
Definition two_clients : list (sys_op) :=
  [SOpen 7 (open_ex 10); SIoctl 7 (connect_ex 1 1) env_ex; SOpen 8 (open_ex 11); SIoctl 8 (connect_ex 1 2) env_ex].

(** A client that closes disables the sources of the other clients: the mask
    taken off [enabled_ints] is the one asked for, not the source whose list
    became empty. *)
Lemma close_disables_others :
  exists s m, run (two_clients ++ [SClose 8]) (Sys (driver_ex [1; 2]) tt []) = Some s /\
    Modules (s_w s) !! 0%nat = Some m /\ list_of 0 m = [10%nat] /\ m_hw_ints m = 0.
Proof. eexists _, _. split; [vm_compute; reflexivity|]. split_and!; reflexivity. Qed.

(** [JTAG_CLOSE] gives the module's semaphore two units: [Reset()] sets it free
    and [UnLockModule()] signals it once more.  Two tasks then both have the
    module. *)
Lemma jtag_close_frees_twice :
  exists s m, run [SOpen 7 (open_ex 10); SIoctl 7 (JTAG_OPEN 1) env_ex; SIoctl 7 JTAG_CLOSE env_ex;
                   SIoctl 7 (JTAG_OPEN 2) env_ex; SIoctl 7 (JTAG_OPEN 3) env_ex] (Sys (driver_ex [1; 2]) tt []) = Some s /\
    Modules (s_w s) !! 0%nat = Some m /\ m_Semaphore m = Sem 0 [].
Proof. eexists _, _. split; [vm_compute; reflexivity|]. split; reflexivity. Qed.

(** A NULL argument is dereferenced: only arguments that are not NULL are
    checked. *)
Lemma null_argument :
  let w := default (Sys (driver_ex []) tt []) (run [SOpen 7 (open_ex 10)] (Sys (driver_ex [1]) tt [])) in
  step (SIoctl 7 (CONNECT None (fun _ => true)) env_ex) w = None /\
  step (SIoctl 7 (RAW None false) env_ex) w = None /\ step (SIoctl 7 (GET_STATUS false) env_ex) w = None.
Proof. vm_compute. auto. Qed.

(** A module whose number is 0 keeps a client that closed: [DisConnectAll()]
    asks for module 0, which stands for the client's own module.  The next
    interrupt writes to the context that was freed. *)
Lemma module_zero_dangles :
  run [SOpen 7 (open_ex 10); SIoctl 7 (SET_MODULE (Some 0)) env_ex; SIoctl 7 (connect_ex 0 1) env_ex;
       SIoctl 7 (SET_MODULE (Some 1)) env_ex; SClose 7; SIntr 1 1 (Time_ 5 6)] (Sys (driver_ex [1; 0]) tt []) = None.
Proof. vm_compute. reflexivity. Qed.

(** A bus error while the version is read is not reported to the caller. *)
Lemma version_error_ignored :
  let w := driver_ex [1] in
  exists w1 w2 h, SkelDrvrOpen 3 7 (open_ex 10) w = (inr tt, w1) /\
    SkelDrvrIoctl 4 false 0 0 0 7 (GET_VERSION true) (IoctlEnv true true false true (fun _ => [])) w1 tt =
      Some (inr (OVersion None), w2, h).
Proof. eexists _, _, _. split; [reflexivity|]. vm_compute. reflexivity. Qed.
End Concrete.
