(* ===== verification/SkelInstall.v ===== *)
(** * Installing and uninstalling the modules ([skeldrvr.c], [skelvme.h])

    The install entry point maps the address spaces of each module of the
    description, registers its interrupt handler and lets the user's part set the
    hardware up; a module that fails gives back what it took, and so does the
    uninstall entry point.  This is the VME build of the framework
    ([CONFIG_BUS_VME] alone), where modules of other buses are refused.  The VME
    bridge and the user's part are the class [VmeServices], with the account of
    what they handed out as [VmeServicesOk]. *)

From S2P Require Import Prelude CdcmSem SkelQueue SkelIo SkelDrvr SkelIoctl SkelDrvrInv.

(** ** The description of a driver ([include/config_data.h]) *)

Inductive InsLibBusType :=
  | InsLibBusTypeNOT_SET | InsLibBusTypeCARRIER | InsLibBusTypeVME | InsLibBusTypePMC | InsLibBusTypePCI.

#[export] Instance InsLibBusType_eq_dec : EqDecision InsLibBusType.
Proof. solve_decision. Defined.

Record InsLibIntrDesc := IntrDesc { IsrFlag : Z; Vector : Z }.

Record InsLibVmeAddressSpace := Vas {
  v_Mapped : Z;
  v_AddressModifier : Z;
  v_WindowSize : Z;
  v_DataWidth : Z;
  v_Endian_BIG : bool;
  v_BaseAddress : Z;
  v_FreeModifierFlag : Z;
}.

Record InsLibModlDesc := Modld_ {
  BusType : InsLibBusType;
  md_ModuleNumber : Z;
  IgnoreErrors : Z;
  Isr : option InsLibIntrDesc;
  ModuleAddress : option (list InsLibVmeAddressSpace);
}.

Record InsLibDrvrDesc := Drvrd_ {
  d_Modules : list InsLibModlDesc;
  ModuleCount : nat;
  DebugFlags : Z;
  EmulationFlags : Z;
}.

(** ** What the bridge and the user's part do

    [None] is the error value of the call. *)

Class VmeServices (st : Type) := {
  find_controller : Z -> Z -> Z -> Z -> st -> option Z * st;
  return_controller : Z -> Z -> st -> bool * st;
  vme_intset : Z -> nat -> st -> bool * st;
  vme_intclr : Z -> st -> bool * st;
  SkelUserModuleInit : Z -> st -> bool * st;
  SkelUserModuleRelease : Z -> st -> st;
}.

(** What the bridge holds for its callers: mapped windows and handlers. *)
Inductive resource := Window (laddr : Z) | Handler (vector : Z).

Class VmeServicesOk (st : Type) `{VmeServices st} := {
  held : st -> list resource;
  find_held : forall v n am dw s,
    match find_controller v n am dw s with
    | (Some a, s') => a <> 0 /\ held s' ≡ₚ Window a :: held s
    | (None, s') => held s' ≡ₚ held s
    end;
  return_held : forall a n s l, held s ≡ₚ Window a :: l ->
    (return_controller a n s).1 = true /\ held (return_controller a n s).2 ≡ₚ l;
  intset_held : forall v i s,
    match vme_intset v i s with
    | (true, s') => held s' ≡ₚ Handler v :: held s
    | (false, s') => held s' ≡ₚ held s
    end;
  intclr_held : forall v s l, held s ≡ₚ Handler v :: l -> (vme_intclr v s).1 = true /\ held (vme_intclr v s).2 ≡ₚ l;
  init_held : forall m s, held (SkelUserModuleInit m s).2 ≡ₚ held s;
  release_held : forall m s, held (SkelUserModuleRelease m s) ≡ₚ held s;
}.

(** ** VME modules ([skelvme.h]) *)

Definition region_is_a_block (vas : InsLibVmeAddressSpace) : bool :=
  bool_decide (v_AddressModifier vas ∈ [0x00; 0x03; 0x08; 0x0b; 0x0c; 0x0f; 0x37; 0x38; 0x3b; 0x3c; 0x3f]).

Definition set_mapped (a : Z) (v : InsLibVmeAddressSpace) : InsLibVmeAddressSpace :=
  Vas a (v_AddressModifier v) (v_WindowSize v) (v_DataWidth v) (v_Endian_BIG v) (v_BaseAddress v) (v_FreeModifierFlag v).

Definition set_big (v : InsLibVmeAddressSpace) : InsLibVmeAddressSpace :=
  Vas (v_Mapped v) (v_AddressModifier v) (v_WindowSize v) (v_DataWidth v) true (v_BaseAddress v) (v_FreeModifierFlag v).

(** A module being installed: [StandardStatus] of its context and its
    description, whose address spaces are written to. *)
Record slot := Slot { sl_status : Z; sl_modld : InsLibModlDesc }.

Definition set_vas (vs : list InsLibVmeAddressSpace) (md : InsLibModlDesc) : InsLibModlDesc :=
  Modld_ (BusType md) (md_ModuleNumber md) (IgnoreErrors md) (Isr md)
    (match ModuleAddress md with Some _ => Some vs | None => None end).

Definition spaces (sl : slot) : list InsLibVmeAddressSpace := default [] (ModuleAddress (sl_modld sl)).

Definition emulated (status : Z) : bool := truthy (Z.land status StatusEMULATION).
Definition no_isr (status : Z) : bool := truthy (Z.land status StatusNO_ISR).

Section Vme.
Context {st : Type} `{VmeServices st}.

(** [do_vme_mapping()] and [map_vmeas()]: whether it worked. *)
Definition map_vmeas (status : Z) (vas : InsLibVmeAddressSpace) (s : st) : bool * Z * InsLibVmeAddressSpace * st :=
  let vas := set_big vas in
  if emulated status then (true, Z.lor status StatusNO_HARDWARE, set_mapped 0 vas, s) else
  if region_is_a_block vas then (true, status, vas, s) else
  match find_controller (v_BaseAddress vas) (v_WindowSize vas) (v_AddressModifier vas) (v_DataWidth vas / 8) s with
  | (None, s) => (false, status, set_mapped 0 vas, s)
  | (Some a, s) => (true, status, set_mapped a vas, s)
  end.

(** The loop over the address spaces, which an error ends. *)
Fixpoint map_spaces (ignore : bool) (status : Z) (vs : list InsLibVmeAddressSpace) (s : st)
    : bool * Z * list InsLibVmeAddressSpace * st :=
  match vs with
  | [] => (true, status, [], s)
  | v :: vs =>
      let '(ok, status, v, s) := map_vmeas status v s in
      if negb ok && negb ignore then (false, status, v :: vs, s) else
      let '(ok, status, vs, s) := map_spaces ignore status vs s in (ok, status, v :: vs, s)
  end.

Fixpoint unmap_vmeas (force : bool) (vs : list InsLibVmeAddressSpace) (s : st) : list InsLibVmeAddressSpace * st :=
  match vs with
  | [] => ([], s)
  | v :: vs =>
      let '(v, s) :=
        if truthy (v_Mapped v) && (force || truthy (v_FreeModifierFlag v)) then
          let '(ok, s) := return_controller (v_Mapped v) (v_WindowSize v) s in
          (if ok then set_mapped 0 v else v, s)
        else (v, s) in
      let '(vs, s) := unmap_vmeas force vs s in (v :: vs, s)
  end.

Definition unmap_slot (force : bool) (sl : slot) (s : st) : slot * st :=
  let '(vs, s) := unmap_vmeas force (spaces sl) s in (Slot (sl_status sl) (set_vas vs (sl_modld sl)), s).

(** [None]: a handler is registered but there is no descriptor. *)
Definition RemoveVmeModule (sl : slot) (s : st) : option (slot * st) :=
  '(sl, s) ←
    (if no_isr (sl_status sl) then Some (sl, s) else
     intrd ← Isr (sl_modld sl);
     let '(ok, s) := vme_intclr (Vector intrd) s in
     Some (if ok then Slot (Z.lor (sl_status sl) StatusNO_ISR) (sl_modld sl) else sl, s));
  Some (unmap_slot true sl s).

(** [mcon] is the index of the module's context, the handler's cookie. *)
Definition AddVmeModule (mcon : nat) (sl : slot) (s : st) : option (bool * slot * st) :=
  let modld := sl_modld sl in
  let ignore := truthy (IgnoreErrors modld) in
  let '(ok, status, vs, s) := map_spaces ignore (sl_status sl) (spaces sl) s in
  let modld := set_vas vs modld in
  if negb ok then '(sl, s) ← RemoveVmeModule (Slot status modld) s; Some (false, sl, s) else
  match Isr modld with
  | Some intrd =>
      if negb (truthy (IsrFlag intrd)) then Some (true, Slot status modld, s) else
      let '(ok, s) := vme_intset (Vector intrd) mcon s in
      if ok : bool then Some (true, Slot (clear_bits status StatusNO_ISR) modld, s) else
      if ignore then Some (true, Slot status modld, s) else
      '(sl, s) ← RemoveVmeModule (Slot status modld) s; Some (false, sl, s)
  | None => Some (true, Slot status modld, s)
  end.

(** The mapped address, and the VME address, of an address space. *)
Definition find_vas (am dw : Z) (modld : InsLibModlDesc) : option InsLibVmeAddressSpace :=
  snd <$> list_find (fun v => v_AddressModifier v = am /\ v_DataWidth v = dw) (default [] (ModuleAddress modld)).

Definition get_vmemap_addr (modld : InsLibModlDesc) (am dw : Z) : Z := default 0 (v_Mapped <$> find_vas am dw modld).

Definition get_vme_addr (modld : InsLibModlDesc) (am dw : Z) : option Z := v_BaseAddress <$> find_vas am dw modld.

(** ** Any module ([skeldrvr.c]) *)

Definition RemoveModule (sl : slot) (s : st) : option (slot * st) :=
  if emulated (sl_status sl) then Some (sl, s) else
  let s := SkelUserModuleRelease (md_ModuleNumber (sl_modld sl)) s in
  match BusType (sl_modld sl) with
  | InsLibBusTypeVME => RemoveVmeModule sl s
  | _ => Some (sl, s)
  end.

Definition unmap_flagged (sl : slot) (s : st) : slot * st :=
  match BusType (sl_modld sl) with InsLibBusTypeVME => unmap_slot false sl s | _ => (sl, s) end.

Definition AddModule (mcon : nat) (sl : slot) (s : st) : option (bool * slot * st) :=
  '(mod_ok, sl, s) ← (match BusType (sl_modld sl) with
                      | InsLibBusTypeVME => AddVmeModule mcon sl s
                      | _ => Some (false, sl, s)
                      end);
  if negb mod_ok then Some (false, sl, s) else
  let '(mod_ok, s) := SkelUserModuleInit (md_ModuleNumber (sl_modld sl)) s in
  if negb mod_ok then '(sl, s) ← RemoveModule sl s; Some (false, sl, s) else
  let '(sl, s) := unmap_flagged sl s in Some (true, sl, s).

(** [StandardStatus] of [set_mcon_defaults()]; the context may have been tried
    for another module, whose status it keeps. *)
Definition default_status (d : InsLibDrvrDesc) (status : Z) : Z :=
  Z.lor (if truthy (EmulationFlags d) then Z.lor status StatusEMULATION else status) StatusNO_ISR.

(** The loop of [modules_install()]: [left] contexts are to be filled, [status]
    is that of the next one.  The contexts filled, and the status of the one that
    was tried last without success. *)
Fixpoint install_loop (d : InsLibDrvrDesc) (modlds : list InsLibModlDesc) (i left_ : nat) (status : Z) (s : st)
    : option (list slot * Z * st) :=
  match left_, modlds with
  | S n, md :: modlds =>
      '(mod_ok, sl, s) ← AddModule i (Slot (default_status d status) md) s;
      if mod_ok : bool then
        '(sls, status, s) ← install_loop d modlds (S i) n 0 s; Some (sl :: sls, status, s)
      else install_loop d modlds i left_ (sl_status sl) s
  | _, _ => Some ([], status, s)
  end.
End Vme.

(** ** The entry points *)

Definition SkelDrvrDEFAULT_MODULE_TIMEOUT : Z := 10.
Definition SkelDrvrDebugFlagEMULATION : Z := 0x100.

(** The working area and the descriptions its modules point to. *)
Record driver := Driver { dr_wa : SkelDrvrWorkingArea; dr_slots : list slot }.

Section Install.
Variables SkelDrvrINTERRUPTS SkelDrvrMODULE_CONTEXTS : nat.
Context {st : Type} `{VmeServices st}.

Definition any_space (v : InsLibVmeAddressSpace) : InsLibAnyAddressSpace :=
  AnyAS (v_AddressModifier v) (v_DataWidth v) (v_WindowSize v) (v_Endian_BIG v) (v_Mapped v).

(** The context of an installed module. *)
Definition mcon_of (d : InsLibDrvrDesc) (sl : slot) : SkelDrvrModuleContext :=
  Mcon (md_ModuleNumber (sl_modld sl)) 1 (ssignal (sreset (cdcm_sem_init 0)).2).2 SkelDrvrDEFAULT_MODULE_TIMEOUT
    (ModConn (replicate SkelDrvrINTERRUPTS []) 0)
    (if truthy (EmulationFlags d) then Z.lor (DebugFlags d) SkelDrvrDebugFlagEMULATION else DebugFlags d)
    (sl_status sl) 0 (any_space <$> spaces sl) 0.

(** A context that is not in use. *)
Definition mcon_zero : SkelDrvrModuleContext :=
  Mcon 0 0 (cdcm_sem_init 0) 0 (ModConn (replicate SkelDrvrINTERRUPTS []) 0) 0 0 0 [] 0.

Definition modules_install (d : InsLibDrvrDesc) (s : st) : option (list slot * st) :=
  if Nat.ltb SkelDrvrMODULE_CONTEXTS (ModuleCount d) then Some ([], s) else
  '(sls, _, s) ← install_loop d (d_Modules d) 0 (ModuleCount d) 0 s; Some (sls, s).

(** [cloned]: the copy of the description, if it could be made. *)
Definition SkelDrvrInstall (cloned : option InsLibDrvrDesc) (wa_alloc : bool) (s : st) : option ((Z + driver) * st) :=
  match cloned with
  | None => Some (inl ENOMEM, s)
  | Some d =>
      if negb wa_alloc then Some (inl ENOMEM, s) else
      if Nat.eqb (ModuleCount d) 0 then Some (inl EINVAL, s) else
      '(sls, s) ← modules_install d s;
      if Nat.eqb (length sls) 0 then Some (inl ENODEV, s) else
      let free := (SkelDrvrMODULE_CONTEXTS - length sls)%nat in
      Some (inr (Driver (Wa_ (length sls) [] ((mcon_of d <$> sls) ++ replicate free mcon_zero) ∅) sls), s)
  end.

Fixpoint modules_uninstall (sls : list slot) (s : st) : option st :=
  match sls with
  | [] => Some s
  | sl :: sls => '(_, s) ← RemoveModule sl s; modules_uninstall sls s
  end.

Definition SkelDrvrUninstall (dr : option driver) (s : st) : option ((Z + unit) * st) :=
  match dr with
  | None => Some (inr tt, s)
  | Some dr =>
      if negb (bool_decide (clients (dr_wa dr) = [])) then Some (inl EBUSY, s) else
      s ← modules_uninstall (dr_slots dr) s; Some (inr tt, s)
  end.

(** ** What a module owns *)

Definition mapped_of (vs : list InsLibVmeAddressSpace) : list resource :=
  Window <$> filter (fun a => a <> 0) (v_Mapped <$> vs).

Definition owned (sl : slot) : list resource :=
  mapped_of (spaces sl) ++
  (if no_isr (sl_status sl) then [] else match Isr (sl_modld sl) with Some d => [Handler (Vector d)] | None => [] end).

Definition unmapped (md : InsLibModlDesc) : Prop := Forall (fun v => v_Mapped v = 0) (default [] (ModuleAddress md)).

(** A handler is registered through a descriptor. *)
Definition slot_ok (sl : slot) : Prop :=
  emulated (sl_status sl) = false /\ (no_isr (sl_status sl) = false -> is_Some (Isr (sl_modld sl))).

Lemma mapped_cons v vs : mapped_of (v :: vs) = (if v_Mapped v =? 0 then [] else [Window (v_Mapped v)]) ++ mapped_of vs.
Proof.
  unfold mapped_of. simpl. rewrite filter_cons. destruct (Z.eqb_spec (v_Mapped v) 0) as [E|E].
  - by rewrite decide_False by (intros E'; done).
  - by rewrite decide_True by done.
Qed.

Lemma spaces_set_vas vs sl : length vs = length (spaces sl) -> default [] (ModuleAddress (set_vas vs (sl_modld sl))) = vs.
Proof. unfold spaces, set_vas. simpl. destruct (ModuleAddress (sl_modld sl)); [done|]. simpl. by destruct vs. Qed.

(** Bits of the status. *)
Lemma no_isr_bit s : no_isr s = Z.testbit s 0. Proof. by apply (truthy_land_pow2 s 0). Qed.
Lemma emulated_bit s : emulated s = Z.testbit s 7. Proof. by apply (truthy_land_pow2 s 7). Qed.

Lemma set_no_isr s : no_isr (Z.lor s StatusNO_ISR) = true /\ emulated (Z.lor s StatusNO_ISR) = emulated s.
Proof. rewrite !no_isr_bit, !emulated_bit, !Z.lor_spec. split; [by rewrite orb_true_r|by rewrite orb_false_r]. Qed.

Lemma clear_no_isr s : no_isr (clear_bits s StatusNO_ISR) = false /\ emulated (clear_bits s StatusNO_ISR) = emulated s.
Proof.
  unfold clear_bits. rewrite !no_isr_bit, !emulated_bit, !Z.land_spec. split; [by rewrite andb_false_r|by rewrite andb_true_r].
Qed.

(** ** What the operations leave held *)

Context `{!VmeServicesOk st}.

Lemma map_vmeas_held status v s : emulated status = false -> v_Mapped v = 0 ->
  let '(ok, status', v', s') := map_vmeas status v s in
  status' = status /\ held s' ≡ₚ mapped_of [v'] ++ held s.
Proof.
  intros He Hv. unfold map_vmeas. rewrite He. destruct (region_is_a_block (set_big v)); [split; [done|]; by rewrite mapped_cons; simpl; rewrite Hv|].
  pose proof (find_held (v_BaseAddress (set_big v)) (v_WindowSize (set_big v)) (v_AddressModifier (set_big v)) (v_DataWidth (set_big v) / 8) s) as Hf.
  destruct (find_controller _ _ _ _ s) as [[a|] s'].
  - destruct Hf as [Ha Hf]. split; [done|]. rewrite mapped_cons. simpl. by rewrite (proj2 (Z.eqb_neq _ _) Ha).
  - split; [done|]. by rewrite mapped_cons.
Qed.

Lemma map_spaces_held ignore status vs s : emulated status = false -> Forall (fun v => v_Mapped v = 0) vs ->
  let '(ok, status', vs', s') := map_spaces ignore status vs s in
  status' = status /\ length vs' = length vs /\ held s' ≡ₚ mapped_of vs' ++ held s.
Proof.
  intros He. revert s. induction vs as [|v vs IH]; intros s Hvs; [done|]. apply Forall_cons in Hvs as [Hv Hvs].
  cbn [map_spaces]. pose proof (map_vmeas_held status v s He Hv) as Hm. destruct (map_vmeas status v s) as [[[ok st'] v'] s'].
  destruct Hm as [-> Hm]. destruct (negb ok && negb ignore).
  - split; [done|]. split; [done|]. rewrite Hm. rewrite !mapped_cons.
    assert (mapped_of vs = mapped_of []) as ->; [|done].
    clear -Hvs. induction Hvs as [|x xs Hx _ IHx]; [done|]. rewrite mapped_cons, Hx. exact IHx.
  - specialize (IH s' Hvs). destruct (map_spaces ignore status vs s') as [[[ok2 st2] vs2] s2]. destruct IH as (-> & Hl & IH).
    split; [done|]. split; [simpl; by rewrite Hl|]. rewrite IH, Hm, !mapped_cons, <- !app_assoc. apply Permutation_app_swap_app.
Qed.

Lemma unmap_vmeas_held force vs s l : held s ≡ₚ mapped_of vs ++ l ->
  let '(vs', s') := unmap_vmeas force vs s in
  length vs' = length vs /\ held s' ≡ₚ mapped_of vs' ++ l /\ (force = true -> mapped_of vs' = []).
Proof.
  revert s l. induction vs as [|v vs IH]; intros s l Hs; [done|]. cbn [unmap_vmeas]. rewrite mapped_cons in Hs.
  destruct (v_Mapped v =? 0) eqn:Ev.
  - assert (truthy (v_Mapped v) = false) as -> by (unfold truthy; by rewrite Ev). cbn [andb].
    specialize (IH s l Hs). destruct (unmap_vmeas force vs s) as [vs' s']. destruct IH as (Hl & Hh & Hf).
    rewrite mapped_cons, Ev. split_and!; [simpl; by rewrite Hl|done|done].
  - assert (truthy (v_Mapped v) = true) as -> by (unfold truthy; by rewrite Ev). cbn [andb]. simpl in Hs.
    destruct (force || truthy (v_FreeModifierFlag v)) eqn:Ef.
    + destruct (return_held (v_Mapped v) (v_WindowSize v) s _ Hs) as [Hr1 Hr2].
      destruct (return_controller (v_Mapped v) (v_WindowSize v) s) as [ok s1]. simpl in Hr1, Hr2. subst ok.
      specialize (IH s1 l Hr2). destruct (unmap_vmeas force vs s1) as [vs' s']. destruct IH as (Hl & Hh & Hf).
      rewrite mapped_cons. simpl. split_and!; [by rewrite Hl|done|done].
    + assert (held s ≡ₚ mapped_of vs ++ Window (v_Mapped v) :: l) as Hs' by (rewrite Hs; apply Permutation_middle).
      specialize (IH s _ Hs'). destruct (unmap_vmeas force vs s) as [vs' s']. destruct IH as (Hl & Hh & Hf).
      rewrite mapped_cons, Ev. apply orb_false_iff in Ef as [-> _]. split_and!; [simpl; by rewrite Hl| |done].
      rewrite Hh. simpl. symmetry. apply Permutation_middle.
Qed.

Lemma owned_spaces status vs md : length vs = length (default [] (ModuleAddress md)) ->
  owned (Slot status (set_vas vs md)) =
  mapped_of vs ++ (if no_isr status then [] else match Isr md with Some d => [Handler (Vector d)] | None => [] end).
Proof. intros Hl. unfold owned, spaces. simpl. destruct (ModuleAddress md); [done|]. simpl. by destruct vs. Qed.

Lemma unmap_slot_held force sl s l : held s ≡ₚ owned sl ++ l ->
  let '(sl', s') := unmap_slot force sl s in
  held s' ≡ₚ owned sl' ++ l /\ sl_status sl' = sl_status sl /\ Isr (sl_modld sl') = Isr (sl_modld sl) /\
  BusType (sl_modld sl') = BusType (sl_modld sl) /\ md_ModuleNumber (sl_modld sl') = md_ModuleNumber (sl_modld sl) /\
  (force = true -> mapped_of (spaces sl') = []).
Proof.
  intros Hs. unfold unmap_slot. unfold owned in Hs. rewrite <- app_assoc in Hs.
  pose proof (unmap_vmeas_held force (spaces sl) s _ Hs) as Hu. destruct (unmap_vmeas force (spaces sl) s) as [vs' s'].
  destruct Hu as (Hl & Hh & Hf). rewrite owned_spaces by done. rewrite <- app_assoc. split_and!; try done.
  intros Hforce. unfold spaces. cbn [sl_modld]. by rewrite spaces_set_vas, Hf.
Qed.

(** What stays the same of a slot. *)
Definition same_module (sl sl' : slot) : Prop :=
  BusType (sl_modld sl') = BusType (sl_modld sl) /\ md_ModuleNumber (sl_modld sl') = md_ModuleNumber (sl_modld sl) /\
  slot_ok sl'.

Lemma remove_vme_held sl s l : slot_ok sl -> held s ≡ₚ owned sl ++ l ->
  exists sl' s', RemoveVmeModule sl s = Some (sl', s') /\ held s' ≡ₚ l /\ owned sl' = [] /\ same_module sl sl'.
Proof.
  intros [He Hisr] Hs. unfold RemoveVmeModule. destruct (no_isr (sl_status sl)) eqn:Hn.
  - cbn [mbind option_bind]. pose proof (unmap_slot_held true sl s l Hs) as Hu. destruct (unmap_slot true sl s) as [sl' s'].
    destruct Hu as (Hh & E1 & E2 & E3 & E4 & Hf). exists sl', s'. split; [done|].
    assert (owned sl' = []) as Eo by (unfold owned; by rewrite (Hf eq_refl), E1, Hn). rewrite Eo in Hh.
    split_and!; try done. split_and!; try done. split; [by rewrite E1|]. by rewrite E1, Hn.
  - destruct (Hisr eq_refl) as [d Hd]. rewrite Hd. cbn [mbind option_bind]. unfold owned in Hs. rewrite Hn, Hd in Hs.
    rewrite <- app_assoc in Hs. assert (held s ≡ₚ Handler (Vector d) :: mapped_of (spaces sl) ++ l) as Hs'
      by (rewrite Hs; symmetry; apply Permutation_middle).
    destruct (intclr_held (Vector d) s _ Hs') as [Hc1 Hc2]. destruct (vme_intclr (Vector d) s) as [ok s1]. simpl in Hc1, Hc2. subst ok.
    cbn [mbind option_bind]. destruct (set_no_isr (sl_status sl)) as [Hn' He'].
    set (sl1 := Slot (Z.lor (sl_status sl) StatusNO_ISR) (sl_modld sl)).
    assert (owned sl1 = mapped_of (spaces sl)) as Eo1 by (unfold owned, sl1; cbn [sl_status]; rewrite Hn'; apply app_nil_r).
    rewrite <- Eo1 in Hc2. pose proof (unmap_slot_held true sl1 s1 l Hc2) as Hu. destruct (unmap_slot true sl1 s1) as [sl' s'].
    destruct Hu as (Hh & E1 & E2 & E3 & E4 & Hf). exists sl', s'. split; [done|].
    assert (owned sl' = []) as Eo by (unfold owned; rewrite (Hf eq_refl), E1; cbn [sl1 sl_status]; by rewrite Hn').
    rewrite Eo in Hh. split_and!; try done. split_and!; try done. split; rewrite E1; cbn [sl1 sl_status]; [congruence|].
    rewrite Hn'. done.
Qed.

Lemma add_vme_held i sl s : emulated (sl_status sl) = false -> no_isr (sl_status sl) = true -> unmapped (sl_modld sl) ->
  exists ok sl' s', AddVmeModule i sl s = Some (ok, sl', s') /\
    held s' ≡ₚ (if ok : bool then owned sl' else []) ++ held s /\ same_module sl sl'.
Proof.
  intros He Hn Hu. unfold AddVmeModule. pose proof (map_spaces_held (truthy (IgnoreErrors (sl_modld sl))) (sl_status sl) (spaces sl) s He Hu) as Hm.
  destruct (map_spaces _ (sl_status sl) (spaces sl) s) as [[[ok status] vs] s1]. destruct Hm as (-> & Hl & Hm).
  set (md := set_vas vs (sl_modld sl)). set (sl1 := Slot (sl_status sl) md).
  assert (owned sl1 = mapped_of vs) as Eo by (unfold sl1, md; rewrite owned_spaces, Hn by done; apply app_nil_r).
  assert (slot_ok sl1) as Hok1 by (split; cbn [sl1 sl_status]; [done|by rewrite Hn]).
  assert (held s1 ≡ₚ owned sl1 ++ held s) as Hm1 by (by rewrite Eo).
  assert (forall s2, held s2 ≡ₚ owned sl1 ++ held s -> exists sl' s', ('(sl, s) ← RemoveVmeModule sl1 s2; Some (false, sl, s)) = Some (false, sl', s') /\
    held s' ≡ₚ held s /\ same_module sl sl') as Hrem.
  { intros s2 H2. destruct (remove_vme_held sl1 s2 (held s) Hok1 H2) as (sl' & s' & -> & Hh & _ & Hsm).
    exists sl', s'. done. }
  assert (exists ok0 sl' s', Some (true, sl1, s1) = Some (ok0, sl', s') /\
    held s' ≡ₚ (if ok0 : bool then owned sl' else []) ++ held s /\ same_module sl sl') as Hplain
    by (by exists true, sl1, s1).
  destruct ok; cbn [negb].
  2:{ destruct (Hrem s1 Hm1) as (sl' & s' & E & Hh & Hsm). by exists false, sl', s'. }
  change (Isr md) with (Isr (sl_modld sl)). destruct (Isr (sl_modld sl)) as [d|] eqn:Ed; [|done].
  destruct (negb (truthy (IsrFlag d))); [done|].
  pose proof (intset_held (Vector d) i s1) as Hi. destruct (vme_intset (Vector d) i s1) as [ok2 s2]. destruct ok2.
  - destruct (clear_no_isr (sl_status sl)) as [Hc Hce]. exists true, (Slot (clear_bits (sl_status sl) StatusNO_ISR) md), s2.
    split; [done|]. split.
    + unfold md. rewrite owned_spaces, Hc, Ed by done. rewrite Hi, Hm. simpl. rewrite <- app_assoc. simpl. apply Permutation_middle.
    + split_and!; try done. split; cbn [sl_status]; [congruence|]. intros _. unfold md. cbn. by rewrite Ed.
  - assert (held s2 ≡ₚ owned sl1 ++ held s) as Hm2 by (by rewrite Hi).
    destruct (truthy (IgnoreErrors (sl_modld sl))); [by exists true, sl1, s2|].
    destruct (Hrem s2 Hm2) as (sl' & s' & E & Hh & Hsm). by exists false, sl', s'.
Qed.

Lemma remove_module_held sl s l : slot_ok sl -> BusType (sl_modld sl) = InsLibBusTypeVME -> held s ≡ₚ owned sl ++ l ->
  exists sl' s', RemoveModule sl s = Some (sl', s') /\ held s' ≡ₚ l /\ emulated (sl_status sl') = false.
Proof.
  intros Hok Hb Hs. unfold RemoveModule. rewrite (proj1 Hok), Hb.
  destruct (remove_vme_held sl (SkelUserModuleRelease (md_ModuleNumber (sl_modld sl)) s) l Hok) as (sl' & s' & E & Hh & _ & (_ & _ & Hsl)).
  - by rewrite release_held.
  - exists sl', s'. split_and!; try done. apply Hsl.
Qed.

(** A module that is installed. *)
Definition installed_slot (sl : slot) : Prop := slot_ok sl /\ BusType (sl_modld sl) = InsLibBusTypeVME.

Lemma add_module_held i sl s : emulated (sl_status sl) = false -> no_isr (sl_status sl) = true -> unmapped (sl_modld sl) ->
  exists ok sl' s', AddModule i sl s = Some (ok, sl', s') /\
    held s' ≡ₚ (if ok : bool then owned sl' else []) ++ held s /\
    (ok = true -> installed_slot sl') /\ emulated (sl_status sl') = false /\
    md_ModuleNumber (sl_modld sl') = md_ModuleNumber (sl_modld sl).
Proof.
  intros He Hn Hu. unfold AddModule.
  destruct (BusType (sl_modld sl)) eqn:Hb; cbn [mbind option_bind negb];
    try (exists false, sl, s; by split_and!).
  destruct (add_vme_held i sl s He Hn Hu) as (ok & sl1 & s1 & E & Hh & (Hb1 & Hn1 & Hok1)). rewrite E. cbn [mbind option_bind].
  destruct ok; cbn [negb].
  2:{ exists false, sl1, s1. split_and!; try done. apply Hok1. }
  pose proof (init_held (md_ModuleNumber (sl_modld sl1)) s1) as Hi.
  destruct (SkelUserModuleInit (md_ModuleNumber (sl_modld sl1)) s1) as [ok2 s2]. simpl in Hi.
  destruct ok2; cbn [negb].
  - unfold unmap_flagged. rewrite Hb1, Hb.
    assert (held s2 ≡ₚ owned sl1 ++ held s) as Hh2 by (by rewrite Hi).
    pose proof (unmap_slot_held false sl1 s2 _ Hh2) as Hun. destruct (unmap_slot false sl1 s2) as [sl3 s3].
    destruct Hun as (Hh3 & E1 & E2 & E3 & E4 & _). exists true, sl3, s3. destruct Hok1 as [Hem Hisr].
    split; [done|]. split; [done|]. split; [|split; [by rewrite E1|congruence]].
    intros _. split; [|congruence]. split; rewrite E1; [done|]. by rewrite E2.
  - unfold RemoveModule. rewrite (proj1 Hok1), Hb1, Hb.
    destruct (remove_vme_held sl1 (SkelUserModuleRelease (md_ModuleNumber (sl_modld sl1)) s2) (held s) Hok1) as (sl4 & s4 & E4 & Hh4 & _ & (_ & Hn4 & Hok4)).
    { by rewrite release_held, Hi. }
    rewrite E4. cbn [mbind option_bind]. exists false, sl4, s4. split_and!; try done; [apply Hok4|congruence].
Qed.

Lemma default_status_bits d status : EmulationFlags d = 0 -> emulated status = false ->
  emulated (default_status d status) = false /\ no_isr (default_status d status) = true.
Proof. intros Hd He. unfold default_status. rewrite Hd. cbn [truthy Z.eqb negb]. destruct (set_no_isr status) as [E1 E2]. by rewrite E1, E2. Qed.

Lemma install_loop_held d modlds i n status s :
  EmulationFlags d = 0 -> Forall unmapped modlds -> emulated status = false ->
  exists sls status' s', install_loop d modlds i n status s = Some (sls, status', s') /\
    held s' ≡ₚ concat (owned <$> sls) ++ held s /\ Forall installed_slot sls /\ (length sls <= n)%nat /\
    (md_ModuleNumber ∘ sl_modld <$> sls) `sublist_of` (md_ModuleNumber <$> modlds).
Proof.
  intros Hd Hun. revert i n status s. induction Hun as [|md modlds Hmd _ IH]; intros i n status s He.
  { exists [], status, s. destruct n; simpl; split_and!; try done; lia. }
  destruct n as [|n]; [exists [], status, s; simpl; split_and!; try done; apply sublist_nil_l|].
  cbn [install_loop]. destruct (default_status_bits d status Hd He) as [He0 Hn0].
  destruct (add_module_held i (Slot (default_status d status) md) s He0 Hn0 Hmd) as (ok & sl & s1 & E & Hh & Hok & Hem & Hnr).
  rewrite E. cbn [mbind option_bind]. destruct ok.
  - destruct (IH (S i) n 0 s1 eq_refl) as (sls & st' & s' & E' & Hh' & Hall & Hlen & Hsub). rewrite E'. cbn [mbind option_bind].
    exists (sl :: sls), st', s'. split; [done|]. split; [|split; [by constructor; [apply Hok|]|split; [simpl; lia|]]].
    + rewrite Hh', Hh. simpl. rewrite !app_assoc. f_equiv. apply Permutation_app_comm.
    + simpl. rewrite Hnr. by constructor.
  - destruct (IH i (S n) (sl_status sl) s1 Hem) as (sls & st' & s' & E' & Hh' & Hall & Hlen & Hsub).
    exists sls, st', s'. split; [done|]. split; [by rewrite Hh', Hh|]. split_and!; try done. by constructor.
Qed.

Lemma modules_uninstall_held sls s l : Forall installed_slot sls -> held s ≡ₚ concat (owned <$> sls) ++ l ->
  exists s', modules_uninstall sls s = Some s' /\ held s' ≡ₚ l.
Proof.
  intros Hall. revert s. induction Hall as [|sl sls [Hok Hb] _ IH]; intros s Hs; [by exists s|].
  simpl in Hs. rewrite <- app_assoc in Hs. cbn [modules_uninstall].
  destruct (remove_module_held sl s _ Hok Hb Hs) as (sl' & s' & -> & Hh & _). cbn [mbind option_bind]. by apply IH.
Qed.

(** The numbers of the modules that were installed. *)
Lemma numbers_installed d sls n :
  numbers (Wa_ (length sls) [] ((mcon_of d <$> sls) ++ replicate n mcon_zero) ∅) = md_ModuleNumber ∘ sl_modld <$> sls.
Proof.
  unfold numbers. cbn [InstalledModules Modules]. rewrite take_app_length' by (by rewrite length_fmap).
  rewrite <- list_fmap_compose. done.
Qed.


(** the working area that a successful install leaves is one from which the
    driver runs safely: the modules installed have different numbers, none 0, no
    client is open and no connection made. *)
Lemma install_installed d s dr s1 :
  EmulationFlags d = 0 -> Forall unmapped (d_Modules d) ->
  NoDup (md_ModuleNumber <$> d_Modules d) -> 0 ∉ md_ModuleNumber <$> d_Modules d ->
  SkelDrvrInstall (Some d) true s = Some (inr dr, s1) ->
  installed SkelDrvrINTERRUPTS (dr_wa dr).
Proof.
  intros Hd Hun Hnd H0. unfold SkelDrvrInstall. cbn [negb]. destruct (Nat.eqb (ModuleCount d) 0); [done|].
  unfold modules_install. destruct (Nat.ltb_spec SkelDrvrMODULE_CONTEXTS (ModuleCount d)) as [Hc|Hc]; [done|].
  destruct (install_loop_held d (d_Modules d) 0 (ModuleCount d) 0 s Hd Hun eq_refl) as (sls & st' & s' & E & _ & _ & Hlen & Hsub).
  rewrite E. cbn [mbind option_bind]. destruct (Nat.eqb_spec (length sls) 0) as [Hz|Hz]; [done|]. intros [= <- <-].
  cbn [dr_wa]. split; [|done|done|].
  - split; rewrite ?numbers_installed.
    + by eapply sublist_NoDup.
    + intros Hin. apply H0. by eapply elem_of_submseteq; [|apply sublist_submseteq].
    + cbn [InstalledModules Modules]. rewrite length_app, length_fmap. lia.
  - cbn [Modules]. apply Forall_app. split; [apply Forall_fmap, Forall_true; done|by apply Forall_replicate].
Qed.
End Install.

(** ** A concrete bridge

    A ledger that maps an address to itself plus a base, and refuses a second
    handler of a vector. *)

Module Ledger.
#[local] Instance resource_eq_dec : EqDecision resource.
Proof. solve_decision. Defined.

Fixpoint give_back (r : resource) (l : list resource) : bool * list resource :=
  match l with
  | [] => (false, [])
  | x :: l => if decide (x = r) then (true, l) else let '(ok, l) := give_back r l in (ok, x :: l)
  end.

#[local] Instance ledger_services : VmeServices (list resource) := {|
  find_controller := fun v _ _ _ s =>
    if v <? 0 then (None, s) else (Some (0xf0000000 + v), Window (0xf0000000 + v) :: s);
  return_controller := fun a _ s => give_back (Window a) s;
  vme_intset := fun v _ s => if decide (Handler v ∈ s) then (false, s) else (true, Handler v :: s);
  vme_intclr := fun v s => give_back (Handler v) s;
  SkelUserModuleInit := fun m s => (negb (m =? 13), s);
  SkelUserModuleRelease := fun _ s => s |}.

Lemma give_back_spec r s l : s ≡ₚ r :: l -> (give_back r s).1 = true /\ (give_back r s).2 ≡ₚ l.
Proof.
  revert l. induction s as [|x s IH]; intros l Hs; [by apply Permutation_nil_cons in Hs|]. simpl.
  destruct (decide (x = r)) as [->|Hne]; [split; [done|]; by apply Permutation_cons_inv in Hs|].
  assert (r ∈ s) as Hr.
  { assert (r ∈ x :: s) as [?|?]%elem_of_cons by (rewrite Hs; by left); [by subst|done]. }
  apply elem_of_Permutation in Hr as [s' Hs']. destruct (IH s' Hs') as [H1 H2].
  destruct (give_back r s) as [ok s2]. simpl in *. split; [done|]. rewrite H2. apply (Permutation_cons_inv (a := r)).
  rewrite <- Hs, Hs'. apply Permutation_swap.
Qed.

#[local] Instance ledger_ok : VmeServicesOk (list resource).
Proof.
  apply (Build_VmeServicesOk _ _ (fun s => s)).
  - intros v n am dw s. cbn. destruct (Z.ltb_spec v 0); [done|]. split; [lia|done].
  - intros a n s l. apply give_back_spec.
  - intros v i s. cbn. by destruct (decide (Handler v ∈ s)).
  - intros v s l. apply give_back_spec.
  - done.
  - done.
Defined.

Definition modld_ex (nr base : Z) : InsLibModlDesc :=
  Modld_ InsLibBusTypeVME nr 0 (Some (IntrDesc 1 (0x60 + nr)))
    (Some [Vas 0 0x39 0x1000 16 false base 0; Vas 0 0x39 0x100 32 false (base + 0x1000) 1; Vas 0 0x0b 0x100 32 false 0 0]).

(** The third module cannot be mapped, the fourth is refused by the user's part. *)
Definition drvr_ex (emulation : Z) : InsLibDrvrDesc :=
  Drvrd_ [modld_ex 1 0x1000; modld_ex 2 0x4000; modld_ex 3 (-2); modld_ex 13 0x8000] 4 0 emulation.

Definition installed_ex : option ((Z + driver) * list resource) := SkelDrvrInstall 4 8 (Some (drvr_ex 0)) true [].

Lemma unmapped_ex e : Forall unmapped (d_Modules (drvr_ex e)).
Proof. repeat constructor. Qed.


Lemma install_installed_witness : exists dr s1,
  installed_ex = Some (inr dr, s1) /\ installed 4 (dr_wa dr).
Proof.
  destruct installed_ex as [[[e|dr] s1]|] eqn:E; [by vm_compute in E| |by vm_compute in E].
  exists dr, s1. split; [done|]. eapply (install_installed 4 8 (drvr_ex 0) []); [done|apply unmapped_ex| | |exact E].
  - vm_compute. repeat (apply NoDup_cons; split; [intros H; repeat (apply elem_of_cons in H as [H|H]; [done|]); by apply not_elem_of_nil in H|]).
    apply NoDup_nil_2.
  - vm_compute. intros H. repeat (apply elem_of_cons in H as [H|H]; [done|]). by apply not_elem_of_nil in H.
Defined.

(** With emulation the handlers are registered but never taken off: after the
    uninstall they would be called with contexts that are gone.  So is the handler
    of the module that the user's part refused. *)
Lemma emulation_leaves_handlers : exists dr s1 s2,
  SkelDrvrInstall 4 8 (Some (drvr_ex 1)) true [] = Some (inr dr, s1) /\
  SkelDrvrUninstall (Some dr) s1 = Some (inr tt, s2) /\ s2 = [Handler 0x6d; Handler 0x63; Handler 0x62; Handler 0x61].
Proof. eexists _, _, _. split; [vm_compute; reflexivity|]. split; vm_compute; reflexivity. Qed.
End Ledger.
