(* ===== verification/CdcmMem.v ===== *)
(** * Kernel memory of the LynxOS emulation ([cdcm/cdcmMem.c], [cdcm/cdcmLynxAPI.c])

    [sysbrk()] and [sysfree()] on Linux, for a machine of 32 bits: the size is
    kept in front of the block, and says which allocator the block goes back
    to. *)

From S2P Require Import Prelude.

Definition MEM_BOUND : Z := 128 * 1024.
Definition header_size : Z := 8.

Inductive allocator := Kmalloc | Vmalloc.

Global Instance allocator_eq_dec : EqDecision allocator.
Proof. solve_decision. Defined.

(** What the header holds, and what was asked from which allocator. *)
Record mem_block := MemBlock { mb_size : Z; mb_flags : Z; mb_from : allocator; mb_bytes : Z }.

Inductive kptr :=
  | PNull
  | PErr (e : Z)          (* [ERR_PTR()] *)
  | PBlock (b : mem_block).

(** [avail]: the allocator finds the memory. *)
Definition cdcm_mem_alloc (size flags : Z) (avail : bool) : kptr :=
  let realsize := u32 (size + header_size) in
  let from := if MEM_BOUND <? realsize then Vmalloc else Kmalloc in
  if avail then PBlock (MemBlock (u32 size) flags from realsize) else PErr (- ENOMEM).

(** The allocator a block is given to; [MEM_BOUND] is unsigned, so the size is
    compared as such. *)
Definition cdcm_mem_free (addr : kptr) : option allocator :=
  match addr with
  | PNull => None
  | PErr e => None               (* reads a header in front of an error: not modelled *)
  | PBlock buf =>
      let realsize := s32 (mb_size buf + header_size) in
      Some (if MEM_BOUND <? u32 realsize then Vmalloc else Kmalloc)
  end.

(** [size] is an [unsigned long], which becomes a [ssize_t]. *)
Definition sysbrk (size : Z) (avail : bool) : kptr := cdcm_mem_alloc (s32 size) 0 avail.
Definition sysfree (cp : kptr) (size : Z) : option allocator := cdcm_mem_free cp.

Definition is_null (p : kptr) : bool := match p with PNull => true | _ => false end.

(** ** Properties *)

Lemma u32_s32 z : u32 (s32 z) = u32 z.
Proof.
  unfold u32, s32. rewrite Zminus_mod_idemp_l. f_equal. lia.
Qed.

(** A block goes back to the allocator it came from, whatever the size it was
    asked for and is freed with, and it has room for its header and for the
    bytes that were asked for, up to eight bytes below 4 GB. *)
Lemma sysbrk_sysfree size size' : 0 <= size < 2 ^ 32 ->
  exists b, sysbrk size true = PBlock b /\ sysfree (sysbrk size true) size' = Some (mb_from b) /\
  (size < 2 ^ 32 - header_size -> mb_bytes b = header_size + size).
Proof.
  intros Hs. unfold sysbrk, cdcm_mem_alloc, sysfree, cdcm_mem_free, header_size in *.
  eexists. split; [done|]. cbn. rewrite u32_s32, u32_s32, u32_add_l, <- (u32_add_l (s32 size)), u32_s32, u32_add_l. split; [done|].
  intros. rewrite u32_id by (unfold is_u32; lia). lia.
Qed.

Lemma sysbrk_sysfree_witness : exists b, sysbrk 200000 true = PBlock b /\ mb_from b = Vmalloc /\
  sysfree (sysbrk 200000 true) 0 = Some (mb_from b) /\ mb_bytes b = header_size + 200000.
Proof.
  destruct (sysbrk_sysfree 200000 0 ltac:(lia)) as (b & Hb & Hf & Hn). exists b. split; [done|].
  split; [by injection Hb as <-|]. split; [done|]. apply Hn. unfold header_size. lia.
Defined.

(** The drivers look for NULL, which is never what they get. *)
Lemma sysbrk_not_null size avail : is_null (sysbrk size avail) = false.
Proof. by destruct avail. Qed.

(** Close to 4 GB the header makes the size wrap around: the block is smaller
    than its own header. *)
Lemma sysbrk_wraps size : 2 ^ 32 - header_size <= size < 2 ^ 32 ->
  exists b, sysbrk size true = PBlock b /\ mb_bytes b < header_size.
Proof.
  intros Hs. eexists. split; [done|]. cbn. unfold header_size in *. rewrite <- u32_add_l, u32_s32, u32_add_l.
  unfold u32. replace (size + 8) with (size + 8 - 2 ^ 32 + 1 * 2 ^ 32) by lia. rewrite Z.mod_add, Z.mod_small by lia. lia.
Qed.
