(* ===== verification/CvorgHw.v ===== *)
(** * The CVORG function generator: registers ([cvorg/driver/cvorg_hw.h], [cvorg_priv.h])

    A card has two channels of 0x200 bytes of registers, an SRAM per channel
    behind an address register that counts up, and a clock generator (AD9516)
    behind a serial interface.  This file is what the driver's accesses do to
    them, as the header describes it: the read-only registers answer from the
    outside ([ro]), everything else is memory. *)

From S2P Require Import Prelude SkelIo.

(** ** Registers *)

Definition CVORG_CHAN1_OFFSET : Z := 0x000.
Definition CVORG_CHAN2_OFFSET : Z := 0x200.
Definition CVORG_INTSR : Z := 0x000.
Definition CVORG_INTEN : Z := 0x004.
Definition CVORG_INTLEVEL : Z := 0x008.
Definition CVORG_INTVECT : Z := 0x00c.
Definition CVORG_VERSION : Z := 0x010.
Definition CVORG_PCB_MSB : Z := 0x014.
Definition CVORG_PCB_LSB : Z := 0x018.
Definition CVORG_TEMP : Z := 0x01C.
Definition CVORG_ADCVAL : Z := 0x020.
Definition CVORG_CTL : Z := 0x024.
Definition CVORG_SAMPFREQ : Z := 0x028.
Definition CVORG_CLKCTL : Z := 0x02C.
Definition CVORG_STATUS : Z := 0x040.
Definition CVORG_CONFIG : Z := 0x044.
Definition CVORG_DACVAL : Z := 0x048.
Definition CVORG_SRAMADDR : Z := 0x04c.
Definition CVORG_SRAMDATA : Z := 0x050.
Definition CVORG_SEQNR : Z := 0x058.
Definition CVORG_DACCORR : Z := 0x05c.

Definition CVORG_INTEN_ENDFUNC : Z := 0x1.
Definition CVORG_INTEN_VALID : Z := 0x3.
Definition CVORG_INTSR_BITMASK : Z := 0x3.
Definition CVORG_INTSR_CHANNEL : Z := 0x80000000.

Definition CVORG_CTL_CHAN_RESET : Z := 0x001.
Definition CVORG_CTL_READADC : Z := 0x002.
Definition CVORG_CTL_ERR_CLEAR : Z := 0x004.
Definition CVORG_CTL_FPGA_RESET : Z := 0x008.
Definition CVORG_CTL_CHAN_START : Z := 0x010.
Definition CVORG_CTL_CHAN_STOP : Z := 0x020.
Definition CVORG_CTL_CHAN_EVSTOP : Z := 0x080.
Definition CVORG_CTL_CHAN_LOADSEQ : Z := 0x100.

Definition CVORG_STATUS_READY : Z := 0x001.
Definition CVORG_STATUS_BUSY : Z := 0x004.
Definition CVORG_STATUS_SRAM_BUSY : Z := 0x008.
Definition CVORG_STATUS_ERR : Z := 0x010.
Definition CVORG_STATUS_ERR_CLK : Z := 0x020.
Definition CVORG_STATUS_ERR_TRIG : Z := 0x040.
Definition CVORG_STATUS_ERR_SYNC : Z := 0x080.
Definition CVORG_STATUS_CLKOK : Z := 0x100.
Definition CVORG_STATUS_STARTABLE : Z := 0x200.

Definition CVORG_CLKCTL_ADDR : Z := 0x3ff00.
Definition CVORG_CLKCTL_RW : Z := 0x40000.
Definition CVORG_CLKCTL_UP2DATE : Z := 0x100000.
Definition CVORG_AD9516_OP_WRITE : Z := 0x70080000.
Definition CVORG_AD9516_OP_READ : Z := 0x700c0000.

(** 512K words of SRAM per channel. *)
Definition CVORG_SRAM_SIZE : Z := 0x200000.

(** ** The card *)

Record cvhw := Cvhw {
  cv_mem : gmap Z Z;             (* registers, by offset *)
  cv_sram : gmap (Z * Z) Z;      (* by channel offset and word *)
  cv_sptr : gmap Z Z;            (* the word the SRAM pointer of a channel is at *)
  cv_spi : gmap Z Z;             (* registers of the clock generator *)
  cv_spi_cmd : Z;                (* the last serial command *)
  cv_ctl : list (Z * Z);         (* commands given to the channels, last first *)
  cv_time : nat;                 (* accesses made *)
}.

Definition rd {K} `{Countable K} (m : gmap K Z) (a : K) : Z := default 0 (m !! a).

(** The channel an offset belongs to, and the register. *)
Definition chan_of (a : Z) : Z := if a <? CVORG_CHAN2_OFFSET then CVORG_CHAN1_OFFSET else CVORG_CHAN2_OFFSET.

Section Card.

(** The read-only registers answer with what the card and the world are doing
    at the time; so does the lock bit of the clock generator.  [spi_ready]: the
    serial transfer has finished by the time of the access. *)
Variable ro : Z -> nat -> Z.
Variable spi_ready : nat -> bool.

Definition read_only (a : Z) : bool :=
  bool_decide (a - chan_of a ∈ [CVORG_INTSR; CVORG_VERSION; CVORG_PCB_MSB; CVORG_PCB_LSB; CVORG_TEMP; CVORG_ADCVAL; CVORG_SAMPFREQ; CVORG_STATUS]).

Definition tick (h : cvhw) : cvhw :=
  Cvhw (cv_mem h) (cv_sram h) (cv_sptr h) (cv_spi h) (cv_spi_cmd h) (cv_ctl h) (S (cv_time h)).

(** The AD9516's status register. *)
Definition AD9516_PLLREADBACK : Z := 0x1F.

(** What the serial interface shows: address and data of the last command, and
    the bit that they are up to date. *)
Definition clkctl_value (h : cvhw) : Z :=
  let addr := Z.land (cv_spi_cmd h) CVORG_CLKCTL_ADDR in
  let reg := Z.shiftr addr 8 in
  let data := if reg =? AD9516_PLLREADBACK then ro AD9516_PLLREADBACK (cv_time h) else rd (cv_spi h) reg in
  if spi_ready (cv_time h) then Z.lor CVORG_CLKCTL_UP2DATE (Z.lor addr (Z.land data 0xff)) else addr.

Definition hw_read (a : Z) (h : cvhw) : Z * cvhw :=
  let ch := chan_of a in
  let reg := a - ch in
  if read_only a then (ro a (cv_time h), tick h) else
  if reg =? CVORG_CLKCTL then (clkctl_value h, tick h) else
  if reg =? CVORG_SRAMDATA then
    let p := rd (cv_sptr h) ch in
    (rd (cv_sram h) (ch, p),
     tick (Cvhw (cv_mem h) (cv_sram h) (<[ch := p + 1]> (cv_sptr h)) (cv_spi h) (cv_spi_cmd h) (cv_ctl h) (cv_time h)))
  else (rd (cv_mem h) a, tick h).

Definition hw_write (a v : Z) (h : cvhw) : cvhw :=
  let ch := chan_of a in
  let reg := a - ch in
  if reg =? CVORG_CLKCTL then
    let spi := if Z.testbit v 18 then cv_spi h
               else <[Z.shiftr (Z.land v CVORG_CLKCTL_ADDR) 8 := Z.land v 0xff]> (cv_spi h) in
    tick (Cvhw (cv_mem h) (cv_sram h) (cv_sptr h) spi v (cv_ctl h) (cv_time h))
  else if reg =? CVORG_SRAMADDR then
    tick (Cvhw (cv_mem h) (cv_sram h) (<[ch := v / 4]> (cv_sptr h)) (cv_spi h) (cv_spi_cmd h) (cv_ctl h) (cv_time h))
  else if reg =? CVORG_SRAMDATA then
    let p := rd (cv_sptr h) ch in
    tick (Cvhw (cv_mem h) (<[(ch, p) := v]> (cv_sram h)) (<[ch := p + 1]> (cv_sptr h)) (cv_spi h) (cv_spi_cmd h) (cv_ctl h) (cv_time h))
  else if reg =? CVORG_CTL then
    tick (Cvhw (cv_mem h) (cv_sram h) (cv_sptr h) (cv_spi h) (cv_spi_cmd h) ((ch, v) :: cv_ctl h) (cv_time h))
  else tick (Cvhw (<[a := v]> (cv_mem h)) (cv_sram h) (cv_sptr h) (cv_spi h) (cv_spi_cmd h) (cv_ctl h) (cv_time h)).

(** ** The driver's accesses ([cvorg_priv.h])

    The registers are big endian, and the accesses that say so carry the value
    itself; [_noswap] accesses carry the word as the CPU has it in memory. *)

Variable cpu_big : bool.

Definition cvorg_readw (offset : Z) (h : cvhw) : Z * cvhw := hw_read offset h.
Definition cvorg_writew (offset value : Z) (h : cvhw) : cvhw := hw_write offset (u32 value) h.

Definition cvorg_rchan (ch offset : Z) (h : cvhw) : Z * cvhw := cvorg_readw (ch + offset) h.
Definition cvorg_wchan (ch offset value : Z) (h : cvhw) : cvhw := cvorg_writew (ch + offset) value h.

Definition cvorg_ochan (ch offset value : Z) (h : cvhw) : cvhw :=
  let '(regval, h) := cvorg_rchan ch offset h in cvorg_wchan ch offset (Z.lor regval value) h.

Definition cvorg_achan (ch offset value : Z) (h : cvhw) : cvhw :=
  let '(regval, h) := cvorg_rchan ch offset h in cvorg_wchan ch offset (Z.land regval value) h.

Definition cvorg_uchan (ch offset value mask : Z) (h : cvhw) : cvhw :=
  cvorg_ochan ch offset value (cvorg_achan ch offset (not32 mask) h).

Definition cvorg_wchan_noswap (ch offset value : Z) (h : cvhw) : cvhw :=
  hw_write (ch + offset) (conv cpu_big true 4 (u32 value)) h.

Definition cvorg_rchan_noswap (ch offset : Z) (h : cvhw) : Z * cvhw :=
  let '(v, h) := hw_read (ch + offset) h in (conv cpu_big true 4 v, h).
End Card.

(** ** Fields of words *)

Lemma land_ones_mod x k m : 0 <= k -> m = Z.ones k -> Z.land x m = x mod 2 ^ k.
Proof. intros Hk ->. by apply Z.land_ones. Qed.

(** The serial command word: operation, address and data. *)
Lemma spi_word op addr data : 0 <= addr < 1024 -> 0 <= data < 256 -> op mod 2 ^ 18 = 0 -> 0 <= op < 2 ^ 31 ->
  let v := Z.lor (Z.lor op (Z.shiftl addr 8)) data in
  u32 v = v /\ Z.land v CVORG_CLKCTL_ADDR = addr * 2 ^ 8 /\ Z.land v 0xff = data /\ Z.testbit v 18 = Z.testbit op 18.
Proof.
  intros Ha Hd Hop Hop2. cbv zeta.
  assert (exists q, op = q * 2 ^ 18) as [q ->] by (exists (op / 2 ^ 18); pose proof (Z.div_mod op (2 ^ 18)); lia).
  clear Hop. rewrite Z.shiftl_mul_pow2 by lia.
  assert (Z.lor (Z.lor (q * 2 ^ 18) (addr * 2 ^ 8)) data = (q * 2 ^ 10 + addr) * 2 ^ 8 + data) as ->.
  { rewrite (lor_add q) by lia. replace (q * 2 ^ 18 + addr * 2 ^ 8) with ((q * 2 ^ 10 + addr) * 2 ^ 8) by lia.
    apply lor_add; lia. }
  split_and!.
  - apply u32_id. unfold is_u32. lia.
  - unfold CVORG_CLKCTL_ADDR. change 0x3ff00 with (Z.shiftl (Z.ones 10) 8). rewrite <- Z.shiftl_mul_pow2 by lia.
    rewrite Z.shiftl_mul_pow2 by lia. rewrite <- (lor_add (q * 2 ^ 10 + addr)), Z.land_lor_distr_l by lia.
    rewrite <- Z.shiftl_mul_pow2, <- Z.shiftl_land by lia.
    rewrite Z.land_ones, Z.add_comm, Z.mod_add, Z.mod_small by lia.
    replace (Z.land data (Z.shiftl (Z.ones 10) 8)) with 0; [by rewrite Z.lor_0_r, Z.shiftl_mul_pow2 by lia|].
    apply Z.bits_inj'. intros i Hi. rewrite Z.bits_0, Z.land_spec, Z.shiftl_spec by lia. destruct (Z_lt_le_dec i 8).
    + rewrite (Z.testbit_neg_r _ (i - 8)) by lia. by rewrite andb_false_r.
    + by rewrite (testbit_above data 8 i) by lia.
  - rewrite (land_ones_mod _ 8) by done || lia. rewrite Z.add_comm, Z.mod_add by lia. apply Z.mod_small. lia.
  - rewrite <- (lor_add (q * 2 ^ 10 + addr)), Z.lor_spec, (testbit_above data 8 18), orb_false_r by lia.
    rewrite (Z.mul_pow2_bits _ 8) by lia. rewrite <- lor_add, Z.lor_spec, (testbit_above addr 10), orb_false_r by lia.
    by rewrite !Z.mul_pow2_bits by lia.
Qed.
