(* ===== verification/Clkgen.v ===== *)
(** * The clock generator of the CVORG ([cvorg/driver/clkgen.c])

    The AD9516 is programmed byte by byte over a serial interface.  A PLL
    configuration is put into the form the chip wants, written, and started; what
    was written can be read back. *)

From S2P Require Import Prelude SkelIo CvorgHw.

(** ** Registers of the AD9516 ([ad9516_priv.h]) *)

Definition AD9516_PDF_CP : Z := 0x10.
Definition AD9516_RCOUNT_LSB : Z := 0x11.
Definition AD9516_RCOUNT_MSB : Z := 0x12.
Definition AD9516_ACOUNT : Z := 0x13.
Definition AD9516_BCOUNT_LSB : Z := 0x14.
Definition AD9516_BCOUNT_MSB : Z := 0x15.
Definition AD9516_PLL1 : Z := 0x16.
Definition AD9516_PLL2 : Z := 0x17.
Definition AD9516_PLL3 : Z := 0x18.
Definition AD9516_PLL4 : Z := 0x19.
Definition AD9516_PLL5 : Z := 0x1A.
Definition AD9516_PLL6 : Z := 0x1B.
Definition AD9516_PLL7 : Z := 0x1C.
Definition AD9516_PLL8 : Z := 0x1D.
Definition AD9516_LVPECL_OUT0 : Z := 0xF0.
Definition AD9516_LVPECL_OUT1 : Z := 0xF1.
Definition AD9516_LVPECL_OUT2 : Z := 0xF2.
Definition AD9516_LVPECL_OUT3 : Z := 0xF3.
Definition AD9516_LVPECL_OUT4 : Z := 0xF4.
Definition AD9516_LVPECL_OUT5 : Z := 0xF5.
Definition AD9516_LVCMOS_OUT6 : Z := 0x140.
Definition AD9516_LVCMOS_OUT7 : Z := 0x141.
Definition AD9516_LVCMOS_OUT8 : Z := 0x142.
Definition AD9516_LVCMOS_OUT9 : Z := 0x143.
Definition AD9516_CMOSDIV3_1 : Z := 0x199.
Definition AD9516_CMOSDIV3_2 : Z := 0x19B.
Definition AD9516_CMOSDIV3_BYPASS : Z := 0x19C.
Definition AD9516_CMOSDIV4_1 : Z := 0x19E.
Definition AD9516_CMOSDIV4_2 : Z := 0x1A0.
Definition AD9516_CMOSDIV4_BYPASS : Z := 0x1A1.
Definition AD9516_VCO_DIVIDER : Z := 0x1E0.
Definition AD9516_INPUT_CLKS : Z := 0x1E1.
Definition AD9516_UPDATE_ALL : Z := 0x232.
Definition AD9516_OSCILLATOR_FREQ : Z := 40000000.
Definition CVORG_AD9516_CALIB_DIVIDER : Z := 2.

Record ad9516_pll := Pll {
  pll_a : Z; pll_b : Z; pll_p : Z; pll_r : Z;
  pll_dvco : Z; pll_d1 : Z; pll_d2 : Z; pll_external : Z;
}.

Definition set_r v (p : ad9516_pll) := Pll (pll_a p) (pll_b p) (pll_p p) v (pll_dvco p) (pll_d1 p) (pll_d2 p) (pll_external p).
Definition set_dvco v (p : ad9516_pll) := Pll (pll_a p) (pll_b p) (pll_p p) (pll_r p) v (pll_d1 p) (pll_d2 p) (pll_external p).
Definition set_ds v1 v2 (p : ad9516_pll) := Pll (pll_a p) (pll_b p) (pll_p p) (pll_r p) (pll_dvco p) v1 v2 (pll_external p).

Section Clkgen.
Variable ro : Z -> nat -> Z.
Variable spi_ready : nat -> bool.
Local Notation readw := (cvorg_readw ro spi_ready).
Local Notation writew := cvorg_writew.

(** ** Serial accesses *)

Definition clkgen_ok (rval addr : Z) : bool :=
  truthy (Z.land rval CVORG_CLKCTL_UP2DATE) && (Z.shiftr (Z.land rval CVORG_CLKCTL_ADDR) 8 =? addr).

(** [n] tries are left. *)
Fixpoint rval_loop (n : nat) (addr val : Z) (h : cvhw) : Z * cvhw :=
  match n with
  | O => (val, h)
  | S n =>
      let '(val, h) := readw CVORG_CLKCTL h in
      if clkgen_ok val addr then (val, h) else rval_loop n addr val h
  end.

Definition clkgen_rval (addr : Z) (h : cvhw) : Z * cvhw :=
  rval_loop 3 addr 0 (writew CVORG_CLKCTL (Z.lor CVORG_AD9516_OP_READ (Z.shiftl addr 8)) h).

Definition clkgen_rd (addr : Z) (h : cvhw) : Z * cvhw :=
  let '(rval, h) := clkgen_rval addr h in (Z.land rval 0xff, h).

Fixpoint check_loop (times : nat) (h : cvhw) : Z * cvhw :=
  match times with
  | O => (-1, h)
  | S times =>
      let '(val, h) := readw CVORG_CLKCTL h in
      if truthy (Z.land val CVORG_CLKCTL_UP2DATE) then (0, h) else check_loop times h
  end.

Definition clkgen_check_write (h : cvhw) : Z * cvhw := check_loop 10 h.

(** A write that does not finish is only printed. *)
Definition clkgen_wr (addr data : Z) (h : cvhw) : cvhw :=
  let h := writew CVORG_CLKCTL (Z.lor (Z.lor CVORG_AD9516_OP_WRITE (Z.shiftl addr 8)) (u8 data)) h in
  snd (clkgen_check_write h).

Definition clkgen_or (addr data : Z) (h : cvhw) : cvhw :=
  let '(v, h) := clkgen_rd addr h in clkgen_wr addr (Z.lor (Z.land v 0xff) (u8 data)) h.

Definition clkgen_and (addr data : Z) (h : cvhw) : cvhw :=
  let '(v, h) := clkgen_rd addr h in clkgen_wr addr (Z.land (Z.land v 0xff) (u8 data)) h.

(** ** Calibration *)

Definition ceil_div (a b : Z) : Z := Z.quot a b + (if truthy (Z.rem a b) then 1 else 0).

(** The time of [calib_vco_sleep()], in tens of ms. *)
Definition calib_interval (r freqref : Z) : Z :=
  let freqref := ceil_div freqref 1000 in
  let interval := s32 (4400 * r * CVORG_AD9516_CALIB_DIVIDER) in
  ceil_div (ceil_div interval freqref) 10.

Definition calib_vco_sleep (r freqref : Z) (h : cvhw) : Z * cvhw :=
  let '(v, h) := clkgen_rd AD9516_PLLREADBACK h in (if truthy (Z.land v 0x40) then 0 else -1, h).

(** ** Reading the configuration *)

Definition clkgen_read_dvco (h : cvhw) : Z * cvhw :=
  let '(dvco, h) := clkgen_rd AD9516_VCO_DIVIDER h in
  let '(inputclks, h) := clkgen_rd AD9516_INPUT_CLKS h in
  let retval := Z.land dvco 0x7 + 2 in
  (if truthy (Z.land inputclks 0x1) then 1 else if 7 <=? retval then 1 else retval, h).

Definition clkgen_read_d (offset nr : Z) (h : cvhw) : Z * cvhw :=
  let '(bypass, h) := clkgen_rd (offset + 3) h in
  let nr := if (1 <=? nr) && (nr <=? 2) then nr else 1 in
  let '(val, h) := clkgen_rd (offset + nr - 1) h in
  let m := Z.shiftr (Z.land val 0xf0) 4 in
  let n := Z.land val 0x0f in
  (if truthy (Z.land bypass (Z.shiftl 1 (4 + (nr - 1)))) then 1 else m + n + 2, h).

Definition clkgen_read_a (h : cvhw) : Z * cvhw :=
  let '(v, h) := clkgen_rd AD9516_ACOUNT h in (Z.land v 0x3f, h).

Definition clkgen_read_b (h : cvhw) : Z * cvhw :=
  let '(lsb, h) := clkgen_rd AD9516_BCOUNT_LSB h in
  let '(msb, h) := clkgen_rd AD9516_BCOUNT_MSB h in
  (Z.lor lsb (Z.shiftl (Z.land msb 0x1f) 8), h).

Definition clkgen_read_r (h : cvhw) : Z * cvhw :=
  let '(lsb, h) := clkgen_rd AD9516_RCOUNT_LSB h in
  let '(msb, h) := clkgen_rd AD9516_RCOUNT_MSB h in
  (Z.lor lsb (Z.shiftl (Z.land msb 0x3f) 8), h).

Definition clkgen_read_p (h : cvhw) : Z * cvhw :=
  let '(v, h) := clkgen_rd AD9516_PLL1 h in
  let prescaler := Z.land v 0x7 in
  (if prescaler =? 5 then 16 else if prescaler =? 6 then 32 else 1, h).

(** [external] is left as it was. *)
Definition get_pll_conf (external : Z) (h : cvhw) : ad9516_pll * cvhw :=
  let '(a, h) := clkgen_read_a h in
  let '(b, h) := clkgen_read_b h in
  let '(r, h) := clkgen_read_r h in
  let '(p, h) := clkgen_read_p h in
  let '(dvco, h) := clkgen_read_dvco h in
  let '(d1, h) := clkgen_read_d AD9516_CMOSDIV3_1 1 h in
  let '(d2, h) := clkgen_read_d AD9516_CMOSDIV3_1 2 h in
  (Pll a b p r dvco d1 d2 external, h).

(** ** Writing the configuration *)

Definition check_pll_dividers (pll : ad9516_pll) : ad9516_pll :=
  let r := if pll_r pll =? 1 then 0 else pll_r pll in
  let dvco := if pll_dvco pll =? 1 then 0 else pll_dvco pll in
  let d1 := if pll_d1 pll =? 1 then 0 else pll_d1 pll in
  let d2 := if pll_d2 pll =? 1 then 0 else pll_d2 pll in
  let pll := set_r r (set_dvco dvco pll) in
  if negb (truthy d1) && negb (truthy d2) then set_ds d1 d2 pll else
  if negb (truthy d1) && truthy d2 then set_ds d2 0 pll else
  if truthy (Z.rem d1 2) && negb (truthy (Z.rem d2 2)) then set_ds d2 d1 pll else set_ds d1 d2 pll.

Definition clkgen_write_a (a : Z) : cvhw -> cvhw := clkgen_wr AD9516_ACOUNT (Z.land a 0x3f).

Definition clkgen_write_b (b : Z) (h : cvhw) : cvhw :=
  clkgen_wr AD9516_BCOUNT_MSB (Z.land (Z.shiftr b 8) 0x3f) (clkgen_wr AD9516_BCOUNT_LSB (Z.land b 0xff) h).

Definition clkgen_write_r (r : Z) (h : cvhw) : cvhw :=
  clkgen_wr AD9516_RCOUNT_MSB (Z.land (Z.shiftr r 8) 0x3f) (clkgen_wr AD9516_RCOUNT_LSB (Z.land r 0xff) h).

Definition clkgen_write_p (p : Z) (h : cvhw) : cvhw :=
  clkgen_or AD9516_PLL1 (if p =? 16 then 0x5 else 0x6) (clkgen_and AD9516_PLL1 (Z.lnot 0x07) h).

(** The configuration is corrected where the chip cannot do it. *)
Definition clkgen_write_dvco (pll : ad9516_pll) (h : cvhw) : ad9516_pll * cvhw :=
  if negb (truthy (pll_dvco pll)) && truthy (pll_external pll) then (pll, clkgen_or AD9516_INPUT_CLKS 0x1 h) else
  let pll := if negb (truthy (pll_dvco pll)) then set_dvco 2 pll else pll in
  let pll := if (2 <=? pll_dvco pll) && (pll_dvco pll <=? 6) then pll else set_dvco 2 pll in
  (pll, clkgen_and AD9516_INPUT_CLKS (Z.lnot 0x1) (clkgen_wr AD9516_VCO_DIVIDER (Z.land (pll_dvco pll - 2) 0x7) h)).

Definition clkgen_write_d (divider nr d : Z) (h : cvhw) : cvhw :=
  if negb ((3 <=? divider) && (divider <=? 4)) then h else
  if negb ((1 <=? nr) && (nr <=? 2)) then h else
  let bypass_addr := if divider =? 3 then AD9516_CMOSDIV3_BYPASS else AD9516_CMOSDIV4_BYPASS in
  let divider_addr := if divider =? 3 then (if nr =? 1 then AD9516_CMOSDIV3_1 else AD9516_CMOSDIV3_2)
                      else (if nr =? 1 then AD9516_CMOSDIV4_1 else AD9516_CMOSDIV4_2) in
  let bypass_mask := if nr =? 1 then 0x10 else 0x20 in
  if negb (truthy d) then clkgen_or bypass_addr bypass_mask h else
  let d := d - 2 in
  let m := u32 (Z.quot d 2 + Z.rem d 2) in
  let n := u32 (Z.quot d 2) in
  clkgen_and bypass_addr (Z.lnot bypass_mask)
    (clkgen_wr divider_addr (Z.lor (Z.shiftl (Z.land m 0xf) 4) (Z.land n 0xf)) h).

(** The configuration as it is applied, and the result of the calibration. *)
Definition clkgen_apply_pll_conf (pll : ad9516_pll) (h : cvhw) : Z * ad9516_pll * cvhw :=
  let pll := check_pll_dividers pll in
  let h := clkgen_wr AD9516_INPUT_CLKS (if truthy (pll_external pll) then 0x9 else 0x2) h in
  let h := clkgen_write_a (pll_a pll) h in
  let h := clkgen_write_b (pll_b pll) h in
  let h := clkgen_write_r (pll_r pll) h in
  let h := clkgen_write_p (pll_p pll) h in
  let '(pll, h) := clkgen_write_dvco pll h in
  let h := clkgen_write_d 3 1 (pll_d1 pll) h in
  let h := clkgen_write_d 3 2 (pll_d2 pll) h in
  let h := clkgen_write_d 4 1 (pll_d1 pll) h in
  let h := clkgen_write_d 4 2 (pll_d2 pll) h in
  let h := clkgen_wr AD9516_PLL3 0x00 h in
  let h := clkgen_wr AD9516_UPDATE_ALL 0x01 h in
  let h := clkgen_wr AD9516_PLL3 0x01 h in
  let h := clkgen_wr AD9516_UPDATE_ALL 0x01 h in
  let '(cal, h) := calib_vco_sleep (pll_r pll) AD9516_OSCILLATOR_FREQ h in
  (cal, pll, h).

Definition clkgen_check_pll (pll : ad9516_pll) : bool :=
  negb ((pll_b pll <? pll_a pll) || (63 <? pll_a pll) || negb ((pll_p pll =? 16) || (pll_p pll =? 32)) ||
        (pll_b pll <=? 0) || (8191 <? pll_b pll) || (pll_r pll <=? 0) || (16383 <? pll_r pll)).

Definition startup_values : list (Z * Z) :=
  [(AD9516_PDF_CP, 0x7c); (AD9516_PLL1, 0x05); (AD9516_PLL2, 0x04); (AD9516_PLL4, 0x00); (AD9516_PLL5, 0x00);
   (AD9516_PLL6, 0xab); (AD9516_PLL7, 0x07); (AD9516_PLL8, 0x00); (AD9516_PLL3, 0x00);
   (AD9516_LVPECL_OUT0, 0x0b); (AD9516_LVPECL_OUT1, 0x0b); (AD9516_LVPECL_OUT2, 0x0b); (AD9516_LVPECL_OUT3, 0x0b);
   (AD9516_LVPECL_OUT4, 0x0b); (AD9516_LVPECL_OUT5, 0x0b); (AD9516_LVCMOS_OUT6, 0x42); (AD9516_LVCMOS_OUT7, 0x42);
   (AD9516_LVCMOS_OUT8, 0x48); (AD9516_LVCMOS_OUT9, 0x48)].

Definition clkgen_startup (h : cvhw) : cvhw := foldl (fun h av => clkgen_wr av.1 av.2 h) h startup_values.
End Clkgen.
