(* ===== verification/ClkgenInv.v ===== *)
(** * Properties of the clock generator ([cvorg/driver/clkgen.c])

    The serial accesses behave as a memory of bytes when a transfer is over by
    the third time the driver asks ([prompt]).  On top of that: the configuration
    written is the one read back, except for the second divider, which is read
    at the wrong register; and what the correction of the dividers does. *)

From S2P Require Import Prelude SkelIo CvorgHw Clkgen.

Definition byte (z : Z) : Z := Z.land z 0xff.

Lemma u8_byte z : u8 z = byte z.
Proof. symmetry. apply (Z.land_ones z 8). lia. Qed.

Lemma byte_mod z : byte z = z mod 256.
Proof. apply (Z.land_ones z 8). lia. Qed.

Lemma byte_range z : 0 <= byte z < 256.
Proof. rewrite byte_mod. apply Z.mod_pos_bound. lia. Qed.

Lemma byte_small z : 0 <= z < 256 -> byte z = z.
Proof. intros. rewrite byte_mod. by apply Z.mod_small. Qed.

Lemma byte_byte z : byte (byte z) = byte z.
Proof. apply byte_small, byte_range. Qed.

Lemma byte_lor a b : byte (Z.lor a b) = Z.lor (byte a) (byte b).
Proof. apply Z.land_lor_distr_l. Qed.

Lemma byte_land_l a b : byte (Z.land a b) = Z.land (byte a) b.
Proof. unfold byte. by rewrite <- !Z.land_assoc, (Z.land_comm b). Qed.

Lemma land_byte a m : 0 <= m < 256 -> Z.land (byte a) m = Z.land a m.
Proof.
  intros Hm. unfold byte. rewrite <- Z.land_assoc. replace (Z.land 255 m) with m; [done|].
  rewrite Z.land_comm. by rewrite (byte_small m Hm : Z.land m 255 = m).
Qed.

Lemma rd_insert (m : gmap Z Z) i j v : rd (<[i := v]> m) j = if i =? j then v else rd m j.
Proof. unfold rd. destruct (Z.eqb_spec i j) as [->|Hij]; [by rewrite lookup_insert_eq|by rewrite lookup_insert_ne]. Qed.

(** ** What the registers say *)

Definition dvco_of (m : gmap Z Z) : Z :=
  if Z.testbit (rd m AD9516_INPUT_CLKS) 0 then 1 else
  let v := rd m AD9516_VCO_DIVIDER mod 8 + 2 in if 7 <=? v then 1 else v.

(** The divider at [reg], bypassed by a bit of [byp]. *)
Definition div_of (m : gmap Z Z) (reg byp bit : Z) : Z :=
  if Z.testbit (rd m byp) bit then 1 else byte (rd m reg) / 16 + rd m reg mod 16 + 2.

(** A counter of two registers, of which the upper one has [w] bits. *)
Definition pair_of (m : gmap Z Z) (lsb msb w : Z) : Z := (rd m msb mod 2 ^ w) * 2 ^ 8 + byte (rd m lsb).

Definition p_of (m : gmap Z Z) : Z :=
  let v := rd m AD9516_PLL1 mod 8 in if v =? 5 then 16 else if v =? 6 then 32 else 1.

(** The word of a divider of 2 to 32. *)
Definition div_word (d : Z) : Z :=
  Z.lor (Z.shiftl (Z.land (u32 (Z.quot (d - 2) 2 + Z.rem (d - 2) 2)) 0xf) 4) (Z.land (u32 (Z.quot (d - 2) 2)) 0xf).

Lemma div_word_value d : 2 <= d <= 32 -> byte (div_word d) / 16 + byte (div_word d) mod 16 + 2 = d.
Proof.
  assert (Forall (fun d => byte (div_word d) / 16 + byte (div_word d) mod 16 + 2 = d) (seqZ 2 31)) as H.
  { apply (bool_decide_unpack _). vm_compute. done. }
  rewrite Forall_forall in H. intros Hd. apply H, elem_of_seqZ. lia.
Qed.

Lemma testbit_byte z i : 0 <= i < 8 -> Z.testbit (byte z) i = Z.testbit z i.
Proof. intros Hi. unfold byte. by rewrite Z.land_spec, (Z.ones_spec_low 8), andb_true_r by lia. Qed.

Section Inv.
Variable ro : Z -> nat -> Z.
Variable spi_ready : nat -> bool.
(** A transfer takes at most two accesses. *)
Hypothesis prompt : forall t, spi_ready t || spi_ready (S t) || spi_ready (S (S t)) = true.
Local Notation clkgen_rd := (clkgen_rd ro spi_ready).
Local Notation clkgen_wr := (clkgen_wr ro spi_ready).
Local Notation clkgen_or := (clkgen_or ro spi_ready).
Local Notation clkgen_and := (clkgen_and ro spi_ready).

(** ** Serial accesses *)

Lemma read_clkctl h : cvorg_readw ro spi_ready CVORG_CLKCTL h = (clkctl_value ro spi_ready h, tick h).
Proof. done. Qed.

Lemma write_clkctl v h : exists h', cvorg_writew CVORG_CLKCTL v h = h' /\ cv_spi_cmd h' = u32 v /\
  cv_spi h' = if Z.testbit (u32 v) 18 then cv_spi h
              else <[Z.shiftr (Z.land (u32 v) CVORG_CLKCTL_ADDR) 8 := Z.land (u32 v) 0xff]> (cv_spi h).
Proof. eexists. split; [done|]. by cbn. Qed.

Lemma clkctl_ready h addr : 0 <= addr < 1024 -> addr <> AD9516_PLLREADBACK ->
  Z.land (cv_spi_cmd h) CVORG_CLKCTL_ADDR = addr * 2 ^ 8 ->
  clkctl_value ro spi_ready h =
    if spi_ready (cv_time h) then Z.lor CVORG_CLKCTL_UP2DATE (Z.lor (addr * 2 ^ 8) (byte (rd (cv_spi h) addr))) else addr * 2 ^ 8.
Proof.
  intros Ha Hne Hc. unfold clkctl_value. rewrite Hc, Z.shiftr_div_pow2, Z.div_mul by lia.
  by rewrite (proj2 (Z.eqb_neq _ _) Hne).
Qed.

Lemma ready_word addr v : 0 <= addr < 1024 -> 0 <= v < 256 ->
  let w := Z.lor CVORG_CLKCTL_UP2DATE (Z.lor (addr * 2 ^ 8) v) in clkgen_ok w addr = true /\ Z.land w 0xff = v.
Proof.
  intros Ha Hv w.
  destruct (spi_word CVORG_CLKCTL_UP2DATE addr v) as (_ & Hadr & Hd & _); [done..|].
  rewrite Z.shiftl_mul_pow2, <- Z.lor_assoc in Hadr, Hd by lia. split; [|done].
  unfold clkgen_ok, w. rewrite Hadr, Z.shiftr_div_pow2, Z.div_mul, Z.eqb_refl, andb_true_r by lia.
  rewrite Z.land_comm, Z.land_lor_distr_r. apply negb_true_iff, Z.eqb_neq. intros [H _]%Z.lor_eq_0_iff. done.
Qed.

Lemma busy_word addr a : 0 <= addr < 1024 -> clkgen_ok (addr * 2 ^ 8) a = false.
Proof.
  intros Ha. unfold clkgen_ok. change CVORG_CLKCTL_UP2DATE with (2 ^ 20).
  by rewrite truthy_land_pow2, (testbit_above _ 18) by lia.
Qed.

(** One of three accesses in a row finds the transfer over. *)
Lemma rval_loop_spec addr v h : 0 <= addr < 1024 -> addr <> AD9516_PLLREADBACK ->
  Z.land (cv_spi_cmd h) CVORG_CLKCTL_ADDR = addr * 2 ^ 8 -> exists w h',
  rval_loop ro spi_ready 3 addr v h = (w, h') /\ Z.land w 0xff = byte (rd (cv_spi h) addr) /\ cv_spi h' = cv_spi h.
Proof.
  intros Ha Hne Hc. pose proof (prompt (cv_time h)) as Hp.
  destruct (ready_word addr (byte (rd (cv_spi h) addr))) as [Hok Hw]; [done|apply byte_range|].
  cbn [rval_loop]. rewrite !read_clkctl, !(clkctl_ready _ addr) by done. cbn [cv_spi cv_time tick].
  destruct (spi_ready (cv_time h)) eqn:E1; [rewrite Hok; eauto|]. rewrite busy_word by done.
  destruct (spi_ready (S (cv_time h))) eqn:E2; [rewrite Hok; eauto|]. rewrite busy_word by done.
  destruct (spi_ready (S (S (cv_time h)))) eqn:E3; [rewrite Hok; eauto|]. done.
Qed.

Lemma clkgen_rd_spec addr h : 0 <= addr < 1024 -> addr <> AD9516_PLLREADBACK ->
  exists h', clkgen_rd addr h = (byte (rd (cv_spi h) addr), h') /\ cv_spi h' = cv_spi h.
Proof.
  intros Ha Hne. unfold clkgen_rd, clkgen_rval.
  destruct (spi_word CVORG_AD9516_OP_READ addr 0) as (Hu & Hadr & _ & Hb); [done..|].
  rewrite Z.lor_0_r in *.
  destruct (write_clkctl (Z.lor CVORG_AD9516_OP_READ (Z.shiftl addr 8)) h) as (h1 & -> & Hcmd & Hspi).
  rewrite Hu in Hcmd, Hspi. rewrite Hb in Hspi. cbn in Hspi.
  destruct (rval_loop_spec addr 0 h1) as (w & h' & -> & Hw & Hs); [done|done|by rewrite Hcmd|].
  exists h'. by rewrite Hw, Hs, Hspi.
Qed.

Lemma rval_loop_spi n addr v h : cv_spi (rval_loop ro spi_ready n addr v h).2 = cv_spi h.
Proof. revert v h. induction n as [|n IH]; intros v h; [done|]. cbn [rval_loop]. rewrite read_clkctl. case_match; [done|]. by rewrite IH. Qed.

Lemma clkgen_rd_spi addr h : 0 <= addr < 1024 -> cv_spi (clkgen_rd addr h).2 = cv_spi h.
Proof.
  intros Ha. unfold clkgen_rd, clkgen_rval.
  destruct (spi_word CVORG_AD9516_OP_READ addr 0) as (Hu & _ & _ & Hb); [done..|]. rewrite Z.lor_0_r in *.
  destruct (write_clkctl (Z.lor CVORG_AD9516_OP_READ (Z.shiftl addr 8)) h) as (h1 & -> & _ & Hspi).
  rewrite Hu, Hb in Hspi. cbn in Hspi. rewrite <- Hspi, <- (rval_loop_spi 3 addr 0 h1). by destruct (rval_loop _ _ _ _ _ _).
Qed.

Lemma check_loop_spi n h : cv_spi (check_loop ro spi_ready n h).2 = cv_spi h.
Proof. revert h. induction n as [|n IH]; intros h; [done|]. cbn [check_loop]. rewrite read_clkctl. case_match; [done|]. by rewrite IH. Qed.

Lemma clkgen_wr_spi addr d h : 0 <= addr < 1024 -> cv_spi (clkgen_wr addr d h) = <[addr := byte d]> (cv_spi h).
Proof.
  intros Ha. unfold clkgen_wr, clkgen_check_write. rewrite check_loop_spi, u8_byte.
  destruct (spi_word CVORG_AD9516_OP_WRITE addr (byte d)) as (Hu & Hadr & Hd & Hb); [done|apply byte_range|done|done|].
  destruct (write_clkctl (Z.lor (Z.lor CVORG_AD9516_OP_WRITE (Z.shiftl addr 8)) (byte d)) h) as (h1 & -> & _ & Hspi).
  by rewrite Hspi, Hu, Hb, Hadr, Hd, Z.shiftr_div_pow2, Z.div_mul by lia.
Qed.

Lemma clkgen_or_spi addr d h : 0 <= addr < 1024 -> addr <> AD9516_PLLREADBACK ->
  cv_spi (clkgen_or addr d h) = <[addr := byte (Z.lor (rd (cv_spi h) addr) d)]> (cv_spi h).
Proof.
  intros Ha Hne. unfold clkgen_or. destruct (clkgen_rd_spec addr h Ha Hne) as (h' & -> & Hs).
  rewrite clkgen_wr_spi, Hs, u8_byte by done. fold (byte (byte (rd (cv_spi h) addr))). by rewrite !byte_lor, !byte_byte.
Qed.

Lemma clkgen_and_spi addr d h : 0 <= addr < 1024 -> addr <> AD9516_PLLREADBACK ->
  cv_spi (clkgen_and addr d h) = <[addr := byte (Z.land (rd (cv_spi h) addr) d)]> (cv_spi h).
Proof.
  intros Ha Hne. unfold clkgen_and. destruct (clkgen_rd_spec addr h Ha Hne) as (h' & -> & Hs).
  rewrite clkgen_wr_spi, Hs, u8_byte by done. fold (byte (byte (rd (cv_spi h) addr))).
  rewrite byte_byte, byte_land_l, byte_byte. f_equal. rewrite land_byte by apply byte_range.
  unfold byte. by rewrite Z.land_assoc.
Qed.
(** ** Reading the configuration *)

Ltac rds := repeat match goal with
  | |- context [Clkgen.clkgen_rd ro spi_ready ?a ?h] =>
      let h' := fresh "h" in let E := fresh "E" in
      destruct (clkgen_rd_spec a h) as (h' & -> & E); [done|done|]; cbn match
  end.

Lemma pair_word lsb msb w : 0 <= w <= 8 -> Z.lor (byte lsb) (Z.shiftl (Z.land (byte msb) (Z.ones w)) 8) = (msb mod 2 ^ w) * 2 ^ 8 + byte lsb.
Proof.
  intros Hw. rewrite land_byte.
  - rewrite Z.land_ones, Z.lor_comm, Z.shiftl_mul_pow2 by lia. apply lor_add; [lia|]. apply byte_range.
  - rewrite Z.ones_equiv. pose proof (Z.pow_le_mono_r 2 w 8). lia.
Qed.

Lemma clkgen_read_dvco_spec h : exists h', clkgen_read_dvco ro spi_ready h = (dvco_of (cv_spi h), h') /\ cv_spi h' = cv_spi h.
Proof.
  unfold clkgen_read_dvco. rds. eexists. split; [f_equal|by rewrite E0, E]. rewrite E. unfold dvco_of.
  rewrite !land_byte by done. change 1 with (2 ^ 0) at 1. rewrite truthy_land_pow2 by lia.
  by rewrite (Z.land_ones _ 3) by lia.
Qed.

Lemma clkgen_read_d_spec off nr h : nr = 1 \/ nr = 2 -> 0x190 <= off < 0x1f0 ->
  exists h', clkgen_read_d ro spi_ready off nr h = (div_of (cv_spi h) (off + nr - 1) (off + 3) (3 + nr), h') /\ cv_spi h' = cv_spi h.
Proof.
  intros Hnr Hoff. unfold clkgen_read_d, AD9516_PLLREADBACK.
  destruct (clkgen_rd_spec (off + 3) h) as (h1 & -> & E1); [lia|unfold AD9516_PLLREADBACK; lia|]. cbn match.
  assert ((if (1 <=? nr) && (nr <=? 2) then nr else 1) = nr) as -> by (destruct Hnr; by subst).
  destruct (clkgen_rd_spec (off + nr - 1) h1) as (h2 & -> & E2); [lia|unfold AD9516_PLLREADBACK; lia|]. cbn match.
  exists h2. split; [f_equal|by rewrite E2, E1]. rewrite E1. unfold div_of.
  rewrite Z.shiftl_1_l, truthy_land_pow2 by lia. replace (4 + (nr - 1)) with (3 + nr) by lia.
  assert (Z.testbit (byte (rd (cv_spi h) (off + 3))) (3 + nr) = Z.testbit (rd (cv_spi h) (off + 3)) (3 + nr)) as ->.
  { unfold byte. rewrite Z.land_spec. destruct Hnr as [->| ->]; cbn; apply andb_true_r. }
  case_match; [done|]. set (v := rd (cv_spi h) (off + nr - 1)).
  rewrite (land_byte v 15), (land_byte v 240), (land_ones_mod v 4 15) by (lia || done). f_equal. f_equal.
  replace (byte v / 16) with (Z.shiftr (byte v) 4) by (rewrite Z.shiftr_div_pow2 by lia; done).
  unfold byte. rewrite !Z.shiftr_land. done.
Qed.

Lemma get_pll_conf_spec ext h : exists h', get_pll_conf ro spi_ready ext h =
  (Pll (rd (cv_spi h) AD9516_ACOUNT mod 64) (pair_of (cv_spi h) AD9516_BCOUNT_LSB AD9516_BCOUNT_MSB 5) (p_of (cv_spi h))
       (pair_of (cv_spi h) AD9516_RCOUNT_LSB AD9516_RCOUNT_MSB 6) (dvco_of (cv_spi h))
       (div_of (cv_spi h) AD9516_CMOSDIV3_1 AD9516_CMOSDIV3_BYPASS 4) (div_of (cv_spi h) (AD9516_CMOSDIV3_1 + 1) AD9516_CMOSDIV3_BYPASS 5)
       ext, h') /\ cv_spi h' = cv_spi h.
Proof.
  unfold get_pll_conf, clkgen_read_a, clkgen_read_b, clkgen_read_r, clkgen_read_p. rds.
  destruct (clkgen_read_dvco_spec h5) as (h6 & -> & E6).
  destruct (clkgen_read_d_spec AD9516_CMOSDIV3_1 1 h6) as (h7 & -> & E7); [by left|done|].
  destruct (clkgen_read_d_spec AD9516_CMOSDIV3_1 2 h7) as (h8 & -> & E8); [by right|done|].
  exists h8. rewrite E8, E7, E6, E4, E3, E2, E1, E0, E. split; [|done].
  rewrite (pair_word _ _ 5), (pair_word _ _ 6), !land_byte, (Z.land_ones _ 6), (Z.land_ones _ 3) by lia. done.
Qed.
(** ** Writing the configuration *)

Definition eff (d : Z) : Z := if d =? 0 then 1 else d.

Lemma div_of_frame m m' reg byp bit : rd m' reg = rd m reg -> Z.testbit (rd m' byp) bit = Z.testbit (rd m byp) bit ->
  div_of m' reg byp bit = div_of m reg byp bit.
Proof. unfold div_of. by intros -> ->. Qed.

Lemma clkgen_write_d_spec divider nr d h reg byp bit :
  (divider = 3 /\ byp = AD9516_CMOSDIV3_BYPASS /\ (nr = 1 /\ bit = 4 /\ reg = AD9516_CMOSDIV3_1 \/ nr = 2 /\ bit = 5 /\ reg = AD9516_CMOSDIV3_2) \/
   divider = 4 /\ byp = AD9516_CMOSDIV4_BYPASS /\ (nr = 1 /\ bit = 4 /\ reg = AD9516_CMOSDIV4_1 \/ nr = 2 /\ bit = 5 /\ reg = AD9516_CMOSDIV4_2)) ->
  d = 0 \/ 2 <= d <= 32 ->
  let m := cv_spi (clkgen_write_d ro spi_ready divider nr d h) in
  div_of m reg byp bit = eff d /\ Z.testbit (rd m byp) bit = (d =? 0) /\
  (forall k, k <> reg -> k <> byp -> rd m k = rd (cv_spi h) k) /\
  (forall i, 0 <= i < 8 -> i <> bit -> Z.testbit (rd m byp) i = Z.testbit (rd (cv_spi h) byp) i).
Proof.
  intros Hwhich Hd m.
  assert (reg <> byp /\ m = (if d =? 0 then <[byp := byte (Z.lor (rd (cv_spi h) byp) (2 ^ bit))]> (cv_spi h)
    else <[byp := byte (Z.land (rd (cv_spi h) byp) (Z.lnot (2 ^ bit)))]>
      (<[reg := byte (div_word d)]> (cv_spi h))))
    as [Hne Hm].
  { subst m. unfold clkgen_write_d, truthy. rewrite negb_involutive.
    destruct Hwhich as [(-> & -> & [(-> & -> & ->)|(-> & -> & ->)])|(-> & -> & [(-> & -> & ->)|(-> & -> & ->)])];
      (split; [done|]); cbn [Z.leb Z.eqb andb negb Z.compare Pos.compare Pos.compare_cont Pos.eqb];
      destruct (d =? 0); rewrite ?clkgen_or_spi, ?clkgen_and_spi, ?clkgen_wr_spi by done; rewrite ?rd_insert; done. }
  assert (0 <= bit < 8) as Hbit by (destruct Hwhich as [(_ & _ & [(_ & -> & _)|(_ & -> & _)])|(_ & _ & [(_ & -> & _)|(_ & -> & _)])]; lia).
  clear Hwhich. clearbody m. subst m. unfold div_of. destruct Hd as [->|Hd].
  - cbn [Z.eqb]. rewrite !rd_insert, Z.eqb_refl, testbit_byte, Z.lor_spec, Z.pow2_bits_true, orb_true_r by lia.
    split_and!; [done|done| |].
    + intros k _ Hk. rewrite rd_insert. by rewrite (proj2 (Z.eqb_neq _ _)) by congruence.
    + intros i Hi Hib. rewrite testbit_byte, Z.lor_spec, Z.pow2_bits_false, orb_false_r by lia. done.
  - rewrite (proj2 (Z.eqb_neq d 0)) by lia. rewrite !rd_insert, !Z.eqb_refl, testbit_byte, Z.land_spec, Z.lnot_spec, Z.pow2_bits_true, andb_false_r by lia.
    rewrite (proj2 (Z.eqb_neq byp reg)) by congruence. unfold eff. rewrite (proj2 (Z.eqb_neq d 0)) by lia. split_and!.
    + rewrite byte_byte. by apply div_word_value.
    + done.
    + intros k Hk1 Hk2. rewrite !rd_insert. by rewrite !(proj2 (Z.eqb_neq _ _)) by congruence.
    + intros i Hi Hib. rewrite testbit_byte, Z.land_spec, Z.lnot_spec, Z.pow2_bits_false, andb_true_r by lia. done.
Qed.

Lemma check_pll_dividers_range pll : 0 <= pll_d1 pll <= 32 -> 0 <= pll_d2 pll <= 32 ->
  let q := check_pll_dividers pll in (pll_d1 q = 0 \/ 2 <= pll_d1 q <= 32) /\ (pll_d2 q = 0 \/ 2 <= pll_d2 q <= 32) /\
  pll_a q = pll_a pll /\ pll_b q = pll_b pll /\ pll_p q = pll_p pll /\ pll_external q = pll_external pll /\
  pll_r q = (if pll_r pll =? 1 then 0 else pll_r pll) /\ pll_dvco q = (if pll_dvco pll =? 1 then 0 else pll_dvco pll).
Proof.
  intros H1 H2. cbv zeta. unfold check_pll_dividers.
  destruct (Z.eqb_spec (pll_d1 pll) 1), (Z.eqb_spec (pll_d2 pll) 1);
    repeat case_match; cbn; split_and!; try done; lia.
Qed.

(** What the VCO divider ends as. *)
Definition fix_dvco (pll : ad9516_pll) : ad9516_pll :=
  if negb (truthy (pll_dvco pll)) && truthy (pll_external pll) then pll else
  if (2 <=? pll_dvco pll) && (pll_dvco pll <=? 6) then pll else set_dvco 2 pll.

Lemma clkgen_write_dvco_spec pll h (inp := if truthy (pll_external pll) then 0x9 else 0x2) :
  rd (cv_spi h) AD9516_INPUT_CLKS = inp ->
  exists h', clkgen_write_dvco ro spi_ready pll h = (fix_dvco pll, h') /\ dvco_of (cv_spi h') = eff (pll_dvco (fix_dvco pll)) /\
  (forall k, k <> AD9516_INPUT_CLKS -> k <> AD9516_VCO_DIVIDER -> rd (cv_spi h') k = rd (cv_spi h) k).
Proof.
  intros Hin. unfold clkgen_write_dvco, fix_dvco.
  destruct (negb (truthy (pll_dvco pll)) && truthy (pll_external pll)) eqn:Eb.
  - eexists. split; [done|]. apply andb_true_iff in Eb as [H0 He]. apply negb_true_iff, negb_false_iff, Z.eqb_eq in H0.
    rewrite clkgen_or_spi by done. unfold dvco_of. rewrite rd_insert, Z.eqb_refl, Hin, H0. subst inp. rewrite He. split; [done|].
    intros k Hk _. rewrite rd_insert. by rewrite (proj2 (Z.eqb_neq _ _)) by congruence.
  - set (p2 := if negb (truthy (pll_dvco pll)) then set_dvco 2 pll else pll).
    assert ((if (2 <=? pll_dvco p2) && (pll_dvco p2 <=? 6) then p2 else set_dvco 2 p2) =
            (if (2 <=? pll_dvco pll) && (pll_dvco pll <=? 6) then pll else set_dvco 2 pll)) as ->.
    { subst p2. unfold truthy. destruct (Z.eqb_spec (pll_dvco pll) 0) as [->|]; done. }
    set (p3 := if (2 <=? pll_dvco pll) && (pll_dvco pll <=? 6) then pll else set_dvco 2 pll).
    assert (2 <= pll_dvco p3 <= 6) as Hr by (subst p3; repeat case_match; cbn; boolp; lia).
    eexists. split; [done|]. rewrite clkgen_and_spi by done. rewrite clkgen_wr_spi by done.
    unfold dvco_of. rewrite !rd_insert. cbn [Z.eqb Pos.eqb AD9516_INPUT_CLKS AD9516_VCO_DIVIDER]. rewrite Hin. split.
    + assert (Z.testbit (byte (Z.land inp (Z.lnot 1))) 0 = false) as -> by (subst inp; by case_match).
      assert (pll_dvco p3 = 2 \/ pll_dvco p3 = 3 \/ pll_dvco p3 = 4 \/ pll_dvco p3 = 5 \/ pll_dvco p3 = 6) as Hp by lia.
      clear -Hp. destruct Hp as [->|[->|[->|[->| ->]]]]; done.
    + intros k H1 H2. rewrite !rd_insert. by rewrite !(proj2 (Z.eqb_neq _ _)) by congruence.
Qed.

Lemma pair_bytes b w : 0 <= w <= 6 -> 0 <= b < 2 ^ (8 + w) ->
  byte (Z.land (Z.shiftr b 8) 0x3f) mod 2 ^ w * 2 ^ 8 + byte (byte (Z.land b 255)) = b.
Proof.
  intros Hw Hb. rewrite Z.pow_add_r in Hb by lia.
  assert (0 <= b / 2 ^ 8 < 2 ^ w) by (split; [apply Z.div_pos; lia|apply Z.div_lt_upper_bound; lia]).
  pose proof (Z.pow_le_mono_r 2 w 6 ltac:(lia) ltac:(lia)).
  assert (byte (Z.land (Z.shiftr b 8) 0x3f) mod 2 ^ w = b / 2 ^ 8) as ->.
  { rewrite (land_ones_mod _ 6), Z.shiftr_div_pow2, (Z.mod_small _ (2 ^ 6)), byte_small by (lia || done). apply Z.mod_small. lia. }
  rewrite byte_byte. fold (byte b). rewrite byte_byte, byte_mod. pose proof (Z.div_mod b 256). change (2 ^ 8) with 256. lia.
Qed.

Lemma prescaler_word p x : p = 16 \/ p = 32 ->
  let v := byte (Z.lor (byte (Z.land x (Z.lnot 0x07))) (if p =? 16 then 0x5 else 0x6)) mod 8 in
  (if v =? 5 then 16 else if v =? 6 then 32 else 1) = p.
Proof.
  intros Hp. cbv zeta. rewrite <- (land_ones_mod _ 3 7) by (lia || done).
  rewrite land_byte, Z.land_lor_distr_l, land_byte, <- Z.land_assoc by lia.
  replace (Z.land (Z.lnot 7) 7) with 0 by done. rewrite Z.land_0_r, Z.lor_0_l. destruct Hp as [-> | ->]; done.
Qed.

(** The counters of the PLL. *)
Lemma write_counters a b r p h (m := cv_spi (clkgen_write_p ro spi_ready p (clkgen_write_r ro spi_ready r (clkgen_write_b ro spi_ready b (clkgen_write_a ro spi_ready a h))))) :
  0 <= a <= 63 -> 0 <= b <= 8191 -> 0 <= r <= 16383 -> p = 16 \/ p = 32 ->
  rd m AD9516_ACOUNT mod 64 = a /\ pair_of m AD9516_BCOUNT_LSB AD9516_BCOUNT_MSB 5 = b /\
  pair_of m AD9516_RCOUNT_LSB AD9516_RCOUNT_MSB 6 = r /\ p_of m = p /\ (forall k, 0x17 <= k -> rd m k = rd (cv_spi h) k).
Proof.
  intros Ha Hb Hr Hp.
  assert (m = <[AD9516_PLL1 := byte (Z.lor (byte (Z.land (rd (cv_spi h) AD9516_PLL1) (Z.lnot 0x07))) (if p =? 16 then 0x5 else 0x6))]>
    (<[AD9516_PLL1 := byte (Z.land (rd (cv_spi h) AD9516_PLL1) (Z.lnot 0x07))]>
    (<[AD9516_RCOUNT_MSB := byte (Z.land (Z.shiftr r 8) 0x3f)]> (<[AD9516_RCOUNT_LSB := byte (Z.land r 0xff)]>
    (<[AD9516_BCOUNT_MSB := byte (Z.land (Z.shiftr b 8) 0x3f)]> (<[AD9516_BCOUNT_LSB := byte (Z.land b 0xff)]>
    (<[AD9516_ACOUNT := byte (Z.land a 0x3f)]> (cv_spi h)))))))) as ->.
  { subst m. unfold clkgen_write_p, clkgen_write_r, clkgen_write_b, clkgen_write_a.
    rewrite clkgen_or_spi, clkgen_and_spi, !clkgen_wr_spi by done. rewrite !rd_insert. done. }
  unfold pair_of, p_of. rewrite !rd_insert.
  cbn [Z.eqb Pos.eqb AD9516_ACOUNT AD9516_BCOUNT_LSB AD9516_BCOUNT_MSB AD9516_RCOUNT_LSB AD9516_RCOUNT_MSB AD9516_PLL1]. split_and!.
  - rewrite (land_ones_mod _ 6), (Z.mod_small a (2 ^ 6)), byte_small by (lia || done). apply Z.mod_small. lia.
  - apply (pair_bytes b 5); lia.
  - apply (pair_bytes r 6); lia.
  - by apply prescaler_word.
  - intros k Hk. rewrite !rd_insert. by rewrite !(proj2 (Z.eqb_neq _ _)) by (unfold AD9516_ACOUNT, AD9516_BCOUNT_LSB, AD9516_BCOUNT_MSB, AD9516_RCOUNT_LSB, AD9516_RCOUNT_MSB, AD9516_PLL1; lia).
Qed.

(** The registers after a configuration has been applied. *)
Lemma apply_registers pll h : clkgen_check_pll pll = true -> 0 <= pll_a pll -> 0 <= pll_d1 pll <= 32 -> 0 <= pll_d2 pll <= 32 ->
  exists cal h', let q := fix_dvco (check_pll_dividers pll) in let m := cv_spi h' in
  clkgen_apply_pll_conf ro spi_ready pll h = (cal, q, h') /\
  rd m AD9516_ACOUNT mod 64 = pll_a pll /\ pair_of m AD9516_BCOUNT_LSB AD9516_BCOUNT_MSB 5 = pll_b pll /\
  pair_of m AD9516_RCOUNT_LSB AD9516_RCOUNT_MSB 6 = pll_r q /\ p_of m = pll_p pll /\ dvco_of m = eff (pll_dvco q) /\
  div_of m AD9516_CMOSDIV3_1 AD9516_CMOSDIV3_BYPASS 4 = eff (pll_d1 q) /\
  div_of m AD9516_CMOSDIV3_2 AD9516_CMOSDIV3_BYPASS 5 = eff (pll_d2 q) /\
  div_of m AD9516_CMOSDIV4_1 AD9516_CMOSDIV4_BYPASS 4 = eff (pll_d1 q) /\
  div_of m AD9516_CMOSDIV4_2 AD9516_CMOSDIV4_BYPASS 5 = eff (pll_d2 q) /\
  Z.testbit (rd m AD9516_CMOSDIV3_BYPASS) 5 = (pll_d2 q =? 0) /\
  rd m (AD9516_CMOSDIV3_1 + 1) = rd (cv_spi h) (AD9516_CMOSDIV3_1 + 1).
Proof.
  intros Hck Ha Hd1 Hd2. destruct (check_pll_dividers_range pll Hd1 Hd2) as (Hq1 & Hq2 & Eqa & Eqb & Eqp & Eqe & Eqr & Eqv).
  unfold clkgen_check_pll in Hck. boolp. destruct_and!.
  unfold clkgen_apply_pll_conf. set (q := check_pll_dividers pll) in *.
  set (h0 := clkgen_write_p _ _ _ _).
  destruct (write_counters (pll_a q) (pll_b q) (pll_r q) (pll_p q) (clkgen_wr AD9516_INPUT_CLKS (if truthy (pll_external q) then 0x9 else 0x2) h))
    as (Ra & Rb & Rr & Rp & Rk); [lia|lia|rewrite Eqr; case_goal; boolp; lia|rewrite Eqp; destruct_or!; boolp; auto|]. fold h0 in Ra, Rb, Rr, Rp, Rk.
  destruct (clkgen_write_dvco_spec q h0) as (h1 & -> & Hdv & Hf1).
  { rewrite Rk, clkgen_wr_spi, rd_insert by done. by destruct (truthy (pll_external q)). }
  assert (pll_d1 (fix_dvco q) = pll_d1 q /\ pll_d2 (fix_dvco q) = pll_d2 q /\ pll_r (fix_dvco q) = pll_r q) as (E1 & E2 & E3).
  { unfold fix_dvco. repeat case_match; done. }
  rewrite E1, E2, E3.
  set (h2 := clkgen_write_d _ _ 3 1 _ _). set (h3 := clkgen_write_d _ _ 3 2 _ _).
  set (h4 := clkgen_write_d _ _ 4 1 _ _). set (h5 := clkgen_write_d _ _ 4 2 _ _).
  destruct (clkgen_write_d_spec 3 1 (pll_d1 q) h1 AD9516_CMOSDIV3_1 AD9516_CMOSDIV3_BYPASS 4) as (D2 & B2 & F2 & G2); [left; split_and!; auto|done|].
  destruct (clkgen_write_d_spec 3 2 (pll_d2 q) h2 AD9516_CMOSDIV3_2 AD9516_CMOSDIV3_BYPASS 5) as (D3 & B3 & F3 & G3); [left; split_and!; auto|done|].
  destruct (clkgen_write_d_spec 4 1 (pll_d1 q) h3 AD9516_CMOSDIV4_1 AD9516_CMOSDIV4_BYPASS 4) as (D4 & B4 & F4 & G4); [right; split_and!; auto|done|].
  destruct (clkgen_write_d_spec 4 2 (pll_d2 q) h4 AD9516_CMOSDIV4_2 AD9516_CMOSDIV4_BYPASS 5) as (D5 & B5 & F5 & G5); [right; split_and!; auto|done|].
  fold h2 in D2, B2, F2, G2. fold h3 in D3, B3, F3, G3. fold h4 in D4, B4, F4, G4. fold h5 in D5, B5, F5, G5.
  clearbody h2 h3 h4 h5. set (h6 := clkgen_wr AD9516_UPDATE_ALL 1 _).
  assert (forall k, k <> AD9516_PLL3 -> k <> AD9516_UPDATE_ALL -> rd (cv_spi h6) k = rd (cv_spi h5) k) as F6.
  { intros k K1 K2. subst h6. rewrite !clkgen_wr_spi, !rd_insert by done. by rewrite !(proj2 (Z.eqb_neq _ _)) by congruence. }
  clearbody h6. unfold calib_vco_sleep. destruct (Clkgen.clkgen_rd ro spi_ready AD9516_PLLREADBACK h6) as [v h7] eqn:E7.
  pose proof (clkgen_rd_spi AD9516_PLLREADBACK h6 ltac:(done)) as E7'. rewrite E7 in E7'. cbn in E7'.
  eexists _, h7. cbv zeta. split; [done|]. rewrite E7'. clear E7 E7' h7 v.
  assert (forall k, k < 0x180 -> k <> AD9516_PLL3 -> rd (cv_spi h6) k = rd (cv_spi h0) k) as Hlow.
  { intros k K1 K2. rewrite F6, F5, F4, F3, F2, Hf1; first [done|intros ->; done]. }
  assert (forall k, k <> AD9516_UPDATE_ALL -> 0x1a2 <= k -> rd (cv_spi h6) k = rd (cv_spi h1) k) as Hhigh.
  { intros k K1 K2. rewrite F6, F5, F4, F3, F2; first [done|intros ->; done]. }
  split_and!; unfold pair_of, p_of, dvco_of; rewrite ?Hlow, ?Hhigh by done.
  - by rewrite <- Eqa, <- Ra.
  - by rewrite <- Eqb, <- Rb.
  - by rewrite <- Rr.
  - by rewrite <- Eqp, <- Rp.
  - by rewrite <- Hdv.
  - rewrite <- D2. apply div_of_frame; rewrite F6, F5, F4 by done; [rewrite F3 by done; done|by apply G3].
  - rewrite <- D3. apply div_of_frame; by rewrite F6, F5, F4 by done.
  - rewrite <- D4. apply div_of_frame; rewrite F6 by done; [by rewrite F5 by done|by apply G5].
  - rewrite <- D5. apply div_of_frame; by rewrite F6 by done.
  - rewrite F6, F5, F4 by done. exact B3.
  - rewrite F6, F5, F4, F3, F2, Hf1, Rk, clkgen_wr_spi, rd_insert by done. done.
Qed.

End Inv.

(** ** The correction of the dividers *)

Definition bypassed (d : Z) : Z := if d =? 1 then 0 else d.

Lemma bypassed_spec d : eff (bypassed d) = eff d /\ bypassed d <> 1 /\ (0 <= d -> 0 <= bypassed d).
Proof. unfold eff, bypassed. destruct (Z.eqb_spec d 1) as [->|]; [done|]. by destruct (d =? 0). Qed.

(** The order of the output dividers. *)
Definition order_dividers (d1 d2 : Z) : Z * Z :=
  if d1 =? 0 then (if d2 =? 0 then (0, 0) else (d2, 0)) else if (d1 mod 2 =? 1) && (d2 mod 2 =? 0) then (d2, d1) else (d1, d2).

Lemma check_pll_dividers_eq pll : 0 <= pll_d1 pll -> 0 <= pll_d2 pll ->
  check_pll_dividers pll =
    let '(d1, d2) := order_dividers (bypassed (pll_d1 pll)) (bypassed (pll_d2 pll)) in
    Pll (pll_a pll) (pll_b pll) (pll_p pll) (bypassed (pll_r pll)) (bypassed (pll_dvco pll)) d1 d2 (pll_external pll).
Proof.
  intros H1%(proj2 (proj2 (bypassed_spec _))) H2%(proj2 (proj2 (bypassed_spec _))).
  unfold check_pll_dividers. fold (bypassed (pll_d1 pll)) (bypassed (pll_d2 pll)) (bypassed (pll_r pll)) (bypassed (pll_dvco pll)).
  generalize dependent (bypassed (pll_d1 pll)). intros d1 H1. generalize dependent (bypassed (pll_d2 pll)). intros d2 H2.
  unfold order_dividers, truthy. rewrite !Z.rem_mod_nonneg, !negb_involutive by lia.
  destruct (Z.eqb_spec d1 0) as [->|N1], (Z.eqb_spec d2 0) as [->|N2]; cbn [negb andb]; try done.
  - assert (d1 mod 2 = 0 \/ d1 mod 2 = 1) as [-> | ->] by (pose proof (Z.mod_pos_bound d1 2); lia); done.
  - assert (d1 mod 2 = 0 \/ d1 mod 2 = 1) as [-> | ->] by (pose proof (Z.mod_pos_bound d1 2); lia); cbn; [done|].
    by case_goal.
Qed.

(** [check_pll_dividers()] keeps what every divider divides by, up to the order
    of the two output dividers, and leaves no divider at 1, so that zero means
    bypassed.  After it the first output divider is never odd with the second
    even or bypassed: the comment in the code asks for the opposite. *)
Lemma dividers_corrected pll (q := check_pll_dividers pll) : 0 <= pll_d1 pll -> 0 <= pll_d2 pll ->
  (eff (pll_d1 q) = eff (pll_d1 pll) /\ eff (pll_d2 q) = eff (pll_d2 pll) \/
   eff (pll_d1 q) = eff (pll_d2 pll) /\ eff (pll_d2 q) = eff (pll_d1 pll)) /\
  eff (pll_r q) = eff (pll_r pll) /\ eff (pll_dvco q) = eff (pll_dvco pll) /\
  pll_a q = pll_a pll /\ pll_b q = pll_b pll /\ pll_p q = pll_p pll /\
  pll_r q <> 1 /\ pll_dvco q <> 1 /\ pll_d1 q <> 1 /\ pll_d2 q <> 1 /\
  (pll_d1 q mod 2 = 1 -> pll_d2 q mod 2 = 0 -> pll_d2 q = 0 /\ eff (pll_d1 pll) = 1).
Proof.
  intros H1 H2. subst q. rewrite check_pll_dividers_eq by done.
  destruct (bypassed_spec (pll_r pll)) as (Er & Nr & _), (bypassed_spec (pll_dvco pll)) as (Ev & Nv & _),
    (bypassed_spec (pll_d1 pll)) as (<- & N1 & P1), (bypassed_spec (pll_d2 pll)) as (<- & N2 & P2).
  specialize (P1 H1). specialize (P2 H2). clear H1 H2.
  revert N1 P1 N2 P2. generalize (bypassed (pll_d1 pll)) (bypassed (pll_d2 pll)). intros d1 d2 N1 P1 N2 P2.
  unfold order_dividers. repeat case_goal; cbn; boolp; subst; split_and!; auto; try lia.
Qed.

(** With the first output divider odd and the second bypassed, the correction
    bypasses the first one; applied once more, it puts them back. *)
Lemma dividers_swap_back pll : 3 <= pll_d1 pll -> pll_d1 pll mod 2 = 1 -> pll_d2 pll = 0 \/ pll_d2 pll = 1 ->
  let q := check_pll_dividers pll in
  pll_d1 q = 0 /\ pll_d2 q = pll_d1 pll /\ pll_d1 (check_pll_dividers q) = pll_d1 pll /\ pll_d2 (check_pll_dividers q) = 0.
Proof.
  intros H1 Hodd H2.
  assert (bypassed (pll_d1 pll) = pll_d1 pll) as Hb by (unfold bypassed; by rewrite (proj2 (Z.eqb_neq _ 1)) by lia).
  assert ((pll_d1 pll =? 0) = false) as H0 by (apply Z.eqb_neq; lia).
  assert (check_pll_dividers pll = Pll (pll_a pll) (pll_b pll) (pll_p pll) (bypassed (pll_r pll)) (bypassed (pll_dvco pll)) 0 (pll_d1 pll) (pll_external pll)) as ->.
  { rewrite check_pll_dividers_eq, Hb by lia.
    assert (bypassed (pll_d2 pll) = 0) as -> by (unfold bypassed; by destruct H2 as [-> | ->]).
    unfold order_dividers. by rewrite H0, Hodd. }
  cbn. split; [done|]. split; [done|]. rewrite check_pll_dividers_eq by (cbn; lia). cbn.
  rewrite Hb. unfold order_dividers. cbn. by rewrite H0.
Qed.

(** ** Calibration *)

(** The driver waits long enough: 4400 cycles of a clock of the reference over
    [2 r] pass in the interval, whatever the counter [r] of 14 bits, when the
    reference is a number of kHz. *)
Lemma calib_interval_enough r k : 0 <= r <= 16383 -> 0 < k <= 10 ^ 6 ->
  4400 * (r * CVORG_AD9516_CALIB_DIVIDER) * 1000 <= calib_interval r (k * 1000) * 10 * (k * 1000).
Proof.
  intros Hr Hk. unfold calib_interval, CVORG_AD9516_CALIB_DIVIDER, ceil_div, truthy.
  rewrite Z.quot_mul, Z.rem_mul by lia. cbn [Z.eqb negb]. rewrite Z.add_0_r, s32_id by lia.
  rewrite (Z.quot_div_nonneg _ k), (Z.rem_mod_nonneg _ k) by lia.
  set (i := 4400 * r * 2 / k + _).
  assert (4400 * r * 2 <= i * k /\ 0 <= i) as [Hi Hi0].
  { subst i. pose proof (Z.div_mod (4400 * r * 2) k). pose proof (Z.mod_pos_bound (4400 * r * 2) k).
    pose proof (Z.div_pos (4400 * r * 2) k). destruct (Z.eqb_spec ((4400 * r * 2) mod k) 0); cbn [negb]; split; nia. }
  clearbody i. rewrite (Z.quot_div_nonneg i), (Z.rem_mod_nonneg i) by lia.
  assert (i <= (i / 10 + (if negb (i mod 10 =? 0) then 1 else 0)) * 10).
  { pose proof (Z.div_mod i 10). pose proof (Z.mod_pos_bound i 10). destruct (Z.eqb_spec (i mod 10) 0); cbn [negb]; lia. }
  nia.
Qed.

(** ** A card *)

Definition card0 : cvhw := Cvhw ∅ ∅ ∅ ∅ 0 [] 0.

(** Every third access is late. *)
Definition mostly (t : nat) : bool := negb (Nat.eqb (Nat.modulo t 3) 0).

Lemma mostly_prompt t : mostly t || mostly (S t) || mostly (S (S t)) = true.
Proof.
  unfold mostly. destruct (Nat.eqb_spec (t mod 3) 0) as [E|]; [|done].
  pose proof (Nat.Div0.div_mod t 3) as Ht. replace (S t) with (1 + (t / 3) * 3)%nat by lia. by rewrite Nat.Div0.mod_add.
Qed.

(** 2.8 GHz over 4, 7 and 20 is 5 MHz. *)
Definition pll_5mhz : ad9516_pll := Pll 0 4375 16 1000 4 7 20 0.


Lemma dividers_corrected_witness : let q := check_pll_dividers pll_5mhz in pll_d1 q = 20 /\ pll_d2 q = 7 /\ pll_d1 q <> 1.
Proof.
  destruct (dividers_corrected pll_5mhz ltac:(done) ltac:(done)) as (_ & _ & _ & _ & _ & _ & _ & _ & H & _).
  split; [done|]. split; [done|exact H].
Defined.
