(* ===== verification/Cvorg.v ===== *)
(** * Channels of the CVORG ([cvorg/driver/cvorg-skel.c])

    The configuration of a channel and how it is put into the registers; gains,
    the limits on the length of a waveform, modes, DAC and ADC. *)

From S2P Require Import Prelude SkelIo CvorgHw Clkgen.

(** ** Constants ([cvorg.h], [cvorg_hw.h]) *)

Definition CVORG_OUT_OFFSET_0V : Z := 0.
Definition CVORG_OUT_OFFSET_2_5V : Z := 1.
Definition CVORG_POSITIVE_PULSE : Z := 0.
Definition CVORG_NEGATIVE_PULSE : Z := 1.

Definition CVORG_CONFIG_MODE : Z := 0xf.
Definition CVORG_CONFIG_SEQREADY : Z := 0x10.
Definition CVORG_CONFIG_OUT_OFFSET : Z := 0x20.
Definition CVORG_CONFIG_INPOL : Z := 0x40.
Definition CVORG_CONFIG_OUT_GAIN_SHIFT : Z := 7.
Definition CVORG_CONFIG_OUT_GAIN_MASK : Z := 0x380.
Definition CVORG_CONFIG_OUT_ENABLE : Z := 0x400.
Definition CVORG_CONFIG_ADCSELECT_SHIFT : Z := 24.
Definition CVORG_CONFIG_ADCSELECT_MASK : Z := 0x7000000.
Definition CVORG_CONFIG_ADCRANGE_SHIFT : Z := 27.
Definition CVORG_CONFIG_ADCRANGE_MASK : Z := 0x18000000.
Definition CVORG_DACVAL_MASK : Z := 0x3fff.
Definition CVORG_DACCORR_GAIN_MASK : Z := 0xffff.
Definition CVORG_DACCORR_OFFSET_SHIFT : Z := 16.
Definition CVORG_DACCORR_OFFSET_MASK : Z := 0x7fff0000.
Definition CVORG_ADCVAL_UP2DATE : Z := 0x80000000.
Definition CVORG_ADCVAL_READVAL : Z := 0xffff.

Definition EAGAIN : Z := 11.
Definition EACCES : Z := 13.
Definition ENOTTY : Z := 25.

(** ** Gains *)

Definition cvorg_gains : list Z := [-22; -16; -10; -4; 2; 8; 14; 20].

Definition cvorg_absdiff (s1 s2 : Z) : Z := if s2 <? s1 then u32 (s1 - s2) else u32 (s2 - s1).

(** The loop of [cvorg_nearest()]: the best difference and value so far. *)
Definition nearest_step (val : Z) (best : Z * Z) (a : Z) : Z * Z :=
  let diff := cvorg_absdiff a val in if diff <? best.1 then (diff, a) else best.

Definition cvorg_nearest (array : list Z) (val : Z) : Z := (foldl (nearest_step val) (2 ^ 32 - 1, hd 0 array) array).2.

Definition cvorg_gain_approx (gain : Z) : Z :=
  if gain <? -22 then -22 else if 20 <? gain then 20 else cvorg_nearest cvorg_gains gain.

Definition cvorg_gain_to_hw (gain : Z) : Z :=
  if gain =? -22 then 0x0 else if gain =? -16 then 0x1 else if gain =? -10 then 0x2 else if gain =? -4 then 0x3
  else if gain =? 2 then 0x4 else if gain =? 8 then 0x5 else if gain =? 14 then 0x6 else 0x7.

Definition cvorg_invalid_gain_offset (gain offset : Z) : bool := (offset =? CVORG_OUT_OFFSET_2_5V) && negb (gain =? 14).

(** ** How short a waveform may be *)

(** Frequency in MHz and number of points. *)
Definition cvorg_freqlimits : list (Z * Z) := [(1, 16); (10, 60); (25, 1250); (50, 3300); (60, 4700); (80, 9300); (100, 23200)].

Definition limit (i : nat) : Z * Z := nth i cvorg_freqlimits (0, 0).

Fixpoint range_loop (n i : nat) (mhz : Z) : option nat :=
  match n with
  | O => None
  | S n => if (mhz <=? (limit (S i)).1) && ((limit i).1 <=? mhz) then Some i else range_loop n (S i) mhz
  end.

Definition cvorg_freqlimit_range (mhz : Z) : nat :=
  match range_loop 6 0 mhz with
  | Some i => i
  | None => if mhz <=? (limit 0).1 then 0%nat else 5%nat
  end.

Definition freq_minimum (mhz : Z) : Z :=
  let i := cvorg_freqlimit_range mhz in
  let '(x1, y1) := limit i in
  let '(x2, y2) := limit (S i) in
  let m := u32 (y2 - y1) / u32 (x2 - x1) in
  if m =? 0 then y2 else u32 (m * (mhz - x1) + y1).

Definition to_mhz (hz : Z) : Z := u32 (hz / 1000000 + (if truthy (hz mod 1000000) then 1 else 0)).

(** The waveform is too short. *)
Definition cvorg_freqlimit_check (length hz : Z) : bool := length <? freq_minimum (to_mhz hz).

(** ** Channels *)

Record cvorg_channel := Chan {
  ch_inpol : Z; ch_outoff : Z; ch_outgain : Z; reg_offset : Z; ch_out_enabled : Z;
}.

Definition set_inpol v c := Chan v (ch_outoff c) (ch_outgain c) (reg_offset c) (ch_out_enabled c).
Definition set_outoff v c := Chan (ch_inpol c) v (ch_outgain c) (reg_offset c) (ch_out_enabled c).
Definition set_outgain v c := Chan (ch_inpol c) (ch_outoff c) v (reg_offset c) (ch_out_enabled c).
Definition set_out_enabled v c := Chan (ch_inpol c) (ch_outoff c) (ch_outgain c) (reg_offset c) v.

Definition cvorg_channel_cfg_init (c : cvorg_channel) : cvorg_channel :=
  Chan CVORG_POSITIVE_PULSE CVORG_OUT_OFFSET_0V 20 (reg_offset c) 0.

Section Channel.
Variable ro : Z -> nat -> Z.
Variable spi_ready : nat -> bool.
Local Notation rchan ch := (cvorg_rchan ro spi_ready (reg_offset ch)).
Local Notation wchan ch := (cvorg_wchan (reg_offset ch)).
Local Notation ochan ch := (cvorg_ochan ro spi_ready (reg_offset ch)).
Local Notation achan ch := (cvorg_achan ro spi_ready (reg_offset ch)).
Local Notation uchan ch := (cvorg_uchan ro spi_ready (reg_offset ch)).

Definition __cvorg_channel_busy (c : cvorg_channel) (h : cvhw) : bool * cvhw :=
  let '(v, h) := rchan c CVORG_STATUS h in (truthy (Z.land v CVORG_STATUS_BUSY), h).

Definition __cvorg_channel_ready (c : cvorg_channel) (h : cvhw) : bool * cvhw :=
  let '(status, h) := rchan c CVORG_STATUS h in
  (truthy (Z.land status CVORG_STATUS_READY) && negb (truthy (Z.land status CVORG_STATUS_BUSY)) &&
   negb (truthy (Z.land status CVORG_STATUS_ERR)) && truthy (Z.land status CVORG_STATUS_CLKOK), h).

Definition __cvorg_channel_clear_errors (c : cvorg_channel) : cvhw -> cvhw := wchan c CVORG_CTL CVORG_CTL_ERR_CLEAR.

(** [n] tries are left. *)
Fixpoint sram_busy_loop (n : nat) (c : cvorg_channel) (h : cvhw) : bool * cvhw :=
  match n with
  | O => (true, h)
  | S n =>
      let '(regval, h) := rchan c CVORG_STATUS h in
      if negb (truthy (Z.land regval CVORG_STATUS_SRAM_BUSY)) then (false, h) else sram_busy_loop n c h
  end.

Definition __cvorg_sram_busy : cvorg_channel -> cvhw -> bool * cvhw := sram_busy_loop 10.

(** ** Putting the configuration into the registers *)

Definition __cvorg_apply_channel_inpol (c : cvorg_channel) : cvhw -> cvhw :=
  if ch_inpol c =? CVORG_NEGATIVE_PULSE then ochan c CVORG_CONFIG CVORG_CONFIG_INPOL
  else achan c CVORG_CONFIG (not32 CVORG_CONFIG_INPOL).

Definition __cvorg_apply_channel_outoff (c : cvorg_channel) : cvhw -> cvhw :=
  if ch_outoff c =? CVORG_OUT_OFFSET_0V then achan c CVORG_CONFIG (not32 CVORG_CONFIG_OUT_OFFSET)
  else ochan c CVORG_CONFIG CVORG_CONFIG_OUT_OFFSET.

Definition __cvorg_apply_channel_outgain (c : cvorg_channel) : cvhw -> cvhw :=
  uchan c CVORG_CONFIG (Z.shiftl (cvorg_gain_to_hw (ch_outgain c)) CVORG_CONFIG_OUT_GAIN_SHIFT) CVORG_CONFIG_OUT_GAIN_MASK.

Definition __cvorg_apply_channel_out_enable (c : cvorg_channel) : cvhw -> cvhw :=
  if truthy (ch_out_enabled c) then ochan c CVORG_CONFIG CVORG_CONFIG_OUT_ENABLE
  else achan c CVORG_CONFIG (not32 CVORG_CONFIG_OUT_ENABLE).

Definition __cvorg_apply_channel_cfg (c : cvorg_channel) (h : cvhw) : cvhw :=
  __cvorg_apply_channel_out_enable c (__cvorg_apply_channel_outgain c
    (__cvorg_apply_channel_outoff c (__cvorg_apply_channel_inpol c h))).

Definition channel_reset (c : cvorg_channel) : cvhw -> cvhw := wchan c CVORG_CTL CVORG_CTL_CHAN_RESET.

Definition cvorg_quiesce_channel (c : cvorg_channel) (h : cvhw) : cvhw :=
  wchan c CVORG_CTL CVORG_CTL_CHAN_STOP (achan c CVORG_CONFIG (not32 CVORG_CONFIG_SEQREADY) h).

(** ** Modes *)

Inductive cvorg_mode := MODE_OFF | MODE_NORMAL | MODE_DAC | MODE_TEST1 | MODE_TEST2 | MODE_TEST3.

Definition mode_code (m : cvorg_mode) : Z :=
  match m with MODE_OFF => 0 | MODE_NORMAL => 1 | MODE_DAC => 2 | MODE_TEST1 => 3 | MODE_TEST2 => 4 | MODE_TEST3 => 5 end.

Definition cvorg_hw_to_mode (regval : Z) : cvorg_mode :=
  if regval =? 0x0 then MODE_OFF else if regval =? 0x1 then MODE_NORMAL else if regval =? 0x3 then MODE_DAC
  else if regval =? 0x8 then MODE_TEST1 else if regval =? 0x9 then MODE_TEST2 else if regval =? 0xa then MODE_TEST3 else MODE_OFF.

Definition cvorg_mode_is_valid (mode : Z) : bool := (0 <=? mode) && (mode <=? 5).

Definition cvorg_mode_to_hw (mode : Z) : Z :=
  if mode =? 0 then 0x0 else if mode =? 1 then 0x1 else if mode =? 2 then 0x3 else if mode =? 3 then 0x8
  else if mode =? 4 then 0x9 else if mode =? 5 then 0xa else 0x1.

Definition cvorg_mode_set (c : cvorg_channel) (mode : Z) (h : cvhw) : cvhw :=
  let '(regval, h) := rchan c CVORG_CONFIG h in
  wchan c CVORG_CONFIG (Z.lor (Z.land regval (not32 CVORG_CONFIG_MODE)) (cvorg_mode_to_hw mode)) h.

Definition cvorg_mode_get (c : cvorg_channel) (h : cvhw) : cvorg_mode * cvhw :=
  let '(reg, h) := rchan c CVORG_CONFIG h in (cvorg_hw_to_mode (Z.land reg CVORG_CONFIG_MODE), h).

(** ** Playing *)

(** The wait gives up silently. *)
Fixpoint startable_loop (n : nat) (c : cvorg_channel) (reg : Z) (h : cvhw) : cvhw :=
  if negb (truthy (Z.land reg CVORG_STATUS_SRAM_BUSY) || negb (truthy (Z.land reg CVORG_STATUS_STARTABLE))) then h else
  match n with
  | O => h
  | S n => let '(reg, h) := rchan c CVORG_STATUS h in startable_loop n c reg h
  end.

Definition cvorg_poll_startable (c : cvorg_channel) (h : cvhw) : cvhw :=
  let '(reg, h) := rchan c CVORG_STATUS h in startable_loop 21 c reg h.

Definition play_wv (c : cvorg_channel) (h : cvhw) : cvhw :=
  let '(_, h) := __cvorg_channel_ready c h in
  let h := uchan c CVORG_CONFIG (Z.lor 0x1 CVORG_CONFIG_SEQREADY) CVORG_CONFIG_MODE h in
  cvorg_poll_startable c (wchan c CVORG_CTL CVORG_CTL_CHAN_LOADSEQ h).
End Channel.
