(* ===== verification/CvorgSeq.v ===== *)
(** * Sequences of waveforms of the CVORG ([cvorg/driver/cvorg-skel.c])

    A sequence is copied from the user, put into the SRAM and the descriptor
    blocks of a channel, and played. *)

From S2P Require Import Prelude SkelIo CvorgHw Cvorg CdcmMem.

Definition CVORG_MAX_SEQUENCES : Z := 26.
Definition CVORG_BLKOFFSET : Z := 0x60.
Definition CVORG_BLKSIZE : Z := 0x10.
Definition CVORG_WFSTART : Z := 0x00.
Definition CVORG_WFLEN : Z := 0x04.
Definition CVORG_WFRECURR : Z := 0x08.
Definition CVORG_WFNEXTBLK : Z := 0x0c.
Definition CVORG_WFNEXTBLK_NEXT_MASK : Z := 0x1f.
Definition CVORG_WFNEXTBLK_LAST : Z := 31.
Definition CVORG_WFNEXTBLK_CONF_GAIN : Z := 0x100.
Definition CVORG_WFNEXTBLK_GAIN_SHIFT : Z := 9.
Definition CVORG_WFNEXTBLK_GAIN_MASK : Z := 0xe00.
Definition sizeof_cvorg_wv : Z := 20.

(** ** Waveforms *)

(** Where the points of a waveform are: nowhere, in an error pointer, in a
    buffer of the driver's (named by the waveform it was allocated for), or
    wherever an uninitialised descriptor points. *)
Inductive form_ptr := FNull | FErr | FBuf (i : nat) | FWild.

(** A descriptor, with the 16-bit points its buffer holds. *)
Record cvorg_wv := Wv {
  recurr : Z; size : Z; dynamic_gain : Z; gain_val : Z;
  form : form_ptr; points : list Z;
}.

Record cvorg_seq := Seq { nr : Z; n_waves : Z; waves : list cvorg_wv }.

Definition set_recurr v w := Wv v (size w) (dynamic_gain w) (gain_val w) (form w) (points w).
Definition set_gain_val v w := Wv (recurr w) (size w) (dynamic_gain w) v (form w) (points w).
Definition set_points v w := Wv (recurr w) (size w) (dynamic_gain w) (gain_val w) (form w) v.

(** ** Points *)

Definition normalize_point (d : Z) : Z :=
  let d := if truthy (Z.land d 0x3) && negb (d =? 0xffff) then u16 (d + 1) else d in Z.land d 0xfffc.

Definition normalize_wv (w : cvorg_wv) : cvorg_wv := set_points (normalize_point <$> points w) w.

Section Words.
(** [Wa->Endian] of the skeleton driver agrees with the CPU. *)
Variable cpu_big : bool.

Definition cvorg_cpu_to_hw (d0 d1 : Z) : Z :=
  let first := conv cpu_big true 2 d0 in
  let second := conv cpu_big true 2 d1 in
  if cpu_big then Z.lor (Z.shiftl second 16) first else Z.lor (Z.shiftl first 16) second.

Definition cvorg_hw_to_cpu (hwval : Z) : Z * Z :=
  let first := if cpu_big then Z.land hwval 0xffff else Z.shiftr hwval 16 in
  let second := if cpu_big then Z.shiftr hwval 16 else Z.land hwval 0xffff in
  (conv cpu_big true 2 first, conv cpu_big true 2 second).

Definition cvorg_cpu_to_hw_single (d0 : Z) : Z :=
  let pointval := conv cpu_big true 2 d0 in if cpu_big then pointval else Z.shiftl pointval 16.
End Words.

(** ** Storing *)

Definition block_offset (blocknr : Z) : Z := CVORG_BLKOFFSET + CVORG_BLKSIZE * blocknr.
Definition prev_block_offset (blocknr : Z) : Z := CVORG_BLKOFFSET + CVORG_BLKSIZE * (blocknr - 1).

(** [size] is signed: 31 bits and the sign. *)
Definition seq_size (s : cvorg_seq) : Z := foldl (fun sz w => s32 (sz + size w)) 0 (waves s).

Section Store.
Variable ro : Z -> nat -> Z.
Variable spi_ready : nat -> bool.
Variable cpu_big : bool.
(** The offset of the channel. *)
Variable ch : Z.
Local Notation rchan := (cvorg_rchan ro spi_ready ch).
Local Notation wchan := (cvorg_wchan ch).
Local Notation ochan := (cvorg_ochan ro spi_ready ch).
Local Notation achan := (cvorg_achan ro spi_ready ch).
Local Notation uchan := (cvorg_uchan ro spi_ready ch).
Local Notation wchan_noswap := (cvorg_wchan_noswap cpu_big ch).

(** Two points a word. *)
Fixpoint sram_points (l : list Z) (h : cvhw) : cvhw :=
  match l with
  | d0 :: d1 :: l => sram_points l (wchan_noswap CVORG_SRAMDATA (cvorg_cpu_to_hw cpu_big d0 d1) h)
  | [d0] => wchan_noswap CVORG_SRAMDATA (cvorg_cpu_to_hw_single cpu_big d0) h
  | [] => h
  end.

Definition __sram (w : cvorg_wv) (dest : Z) (h : cvhw) : cvhw := sram_points (points w) (wchan CVORG_SRAMADDR dest h).

Definition cvorg_wv_mark_prev (prevblock currblock_index : Z) : cvhw -> cvhw :=
  uchan (prevblock + CVORG_WFNEXTBLK) currblock_index CVORG_WFNEXTBLK_NEXT_MASK.

Definition cvorg_wv_mark_last (block : Z) : cvhw -> cvhw :=
  uchan (block + CVORG_WFNEXTBLK) CVORG_WFNEXTBLK_LAST CVORG_WFNEXTBLK_NEXT_MASK.

Definition cvorg_wv_gain_store (block : Z) (w : cvorg_wv) (h : cvhw) : cvorg_wv * cvhw :=
  let offset := block + CVORG_WFNEXTBLK in
  let h := achan offset (not32 CVORG_WFNEXTBLK_CONF_GAIN) h in
  if negb (truthy (dynamic_gain w)) then (w, h) else
  let w := set_gain_val (cvorg_gain_approx (gain_val w)) w in
  let val := cvorg_gain_to_hw (gain_val w) in
  let h := ochan offset CVORG_WFNEXTBLK_CONF_GAIN h in
  (w, uchan offset (Z.shiftl val CVORG_WFNEXTBLK_GAIN_SHIFT) CVORG_WFNEXTBLK_GAIN_MASK h).

Definition cvorg_wv_store (block : Z) (w : cvorg_wv) (h : cvhw) : cvorg_wv * cvhw :=
  let h := wchan (block + CVORG_WFLEN) (size w / 2) h in
  let h := wchan (block + CVORG_WFRECURR) (recurr w) h in
  cvorg_wv_gain_store block w h.

(** One turn of the loop: waveform [i] of [n]. *)
Definition store_step (n i ramaddr : Z) (w : cvorg_wv) (h : cvhw) : cvorg_wv * cvhw :=
  let w := normalize_wv w in
  let h := __sram w ramaddr h in
  let currblock := block_offset i in
  let h := if 0 <? i then cvorg_wv_mark_prev (prev_block_offset i) i h else h in
  let h := wchan (currblock + CVORG_WFSTART) ramaddr h in
  let '(w, h) := cvorg_wv_store currblock w h in
  (w, if i =? n - 1 then cvorg_wv_mark_last currblock h else h).

Fixpoint store_loop (n i ramaddr : Z) (ws : list cvorg_wv) (h : cvhw) : list cvorg_wv * cvhw :=
  match ws with
  | [] => ([], h)
  | w :: ws =>
      let '(w, h) := store_step n i ramaddr w h in
      let '(ws, h) := store_loop n (i + 1) (u32 (ramaddr + size w)) ws h in
      (w :: ws, h)
  end.

(** A sequence of one waveform repeats the waveform. *)
Definition single_recurr (s : cvorg_seq) : cvorg_seq :=
  match waves s with
  | w :: ws => if n_waves s =? 1 then Seq 1 (n_waves s) (set_recurr (u32 (recurr w * nr s)) w :: ws) else s
  | [] => s
  end.

Definition __cvorg_storeseq (s : cvorg_seq) (h : cvhw) : cvorg_seq * cvhw :=
  let s := single_recurr s in
  let h := wchan CVORG_SEQNR (nr s) h in
  let '(ws, h) := store_loop (n_waves s) 0 0 (waves s) h in
  (Seq (nr s) (n_waves s) ws, h).
End Store.

Section Load.
Variable ro : Z -> nat -> Z.
Variable spi_ready : nat -> bool.
Variable cpu_big : bool.
Variable c : cvorg_channel.

(** 0, or the errno. *)
Definition cvorg_storeseq (s : cvorg_seq) (h : cvhw) : Z * cvorg_seq * cvhw :=
  if CVORG_SRAM_SIZE <? seq_size s then (ENOMEM, s, h) else
  if (n_waves s <=? 0) || (CVORG_MAX_SEQUENCES <? n_waves s) then (EINVAL, s, h) else
  let '(busy, h) := __cvorg_sram_busy ro spi_ready c h in
  if busy then (EAGAIN, s, h) else
  let '(s, h) := __cvorg_storeseq ro spi_ready cpu_big (reg_offset c) s h in
  (0, s, h).

Definition __cvorg_loadseq (s : cvorg_seq) (h : cvhw) : Z * cvorg_seq * cvhw :=
  let h := cvorg_quiesce_channel ro spi_ready c h in
  let '(e, s, h) := cvorg_storeseq s h in
  if truthy e then (e, s, h) else (0, s, play_wv ro spi_ready c h).

(** ** What the user asks for *)

(** A waveform in the user's memory; [u_points]: what its form points to. *)
Record user_wv := Uwv { u_recurr : Z; u_size : Z; u_dynamic : Z; u_gain : Z; u_points : Z -> Z }.

Definition cvorg_check_gain_offset_wv (w : user_wv) : bool :=
  truthy (u_dynamic w) && cvorg_invalid_gain_offset (u_gain w) (ch_outoff c).

Definition cvorg_must_check_freqlimit (seq_nr n : Z) : bool := (seq_nr =? 0) || (2 <? n).

Definition cvorg_invalid_freqlimit (seq_nr n : Z) (w : user_wv) (h : cvhw) : bool * cvhw :=
  if negb (cvorg_must_check_freqlimit seq_nr n) || negb (truthy (u_recurr w)) then (false, h) else
  let length := u32 (u_recurr w * u_size w) / 2 in
  let '(sampfreq, h) := cvorg_rchan ro spi_ready (reg_offset c) CVORG_SAMPFREQ h in
  (cvorg_freqlimit_check length sampfreq, h).

(** The checks of waveforms [i] to [i + k - 1]; 0, or the errno. *)
Fixpoint invalid_waves (k : nat) (i : nat) (seq_nr n : Z) (ws : nat -> user_wv) (h : cvhw) : Z * cvhw :=
  match k with
  | O => (0, h)
  | S k =>
      let w := ws i in
      if cvorg_check_gain_offset_wv w then (EINVAL, h) else
      let '(bad, h) := cvorg_invalid_freqlimit seq_nr n w h in
      if bad then (EINVAL, h) else
      let '(f, h) := cvorg_rchan ro spi_ready (reg_offset c) CVORG_SAMPFREQ h in
      if (50000000 <? f) && (u_size w / 2 <? 2) then (EINVAL, h) else invalid_waves k (S i) seq_nr n ws h
  end.

(** [no_waves]: the user's pointer is NULL. *)
Definition cvorg_invalid_seq (seq_nr n : Z) (no_waves : bool) (ws : nat -> user_wv) (h : cvhw) : Z * cvhw :=
  if n =? 0 then (EINVAL, h) else if no_waves then (EINVAL, h) else invalid_waves (Z.to_nat n) 0 seq_nr n ws h.
End Load.

(** ** Copying the sequence *)

Definition KWAVES : Z := 20.
Definition KFORM : Z := 21.
Definition KWILD : Z := 22.
Definition KLOCK : Z := 23.

(** What the copies and allocations of one call meet: a descriptor or its points
    that cannot be read, memory that is short, and the garbage a fresh
    descriptor holds. *)
Record seq_env := SeqEnv {
  se_desc : nat -> option user_wv;   (* the second read of descriptor [i] *)
  se_form_ok : nat -> bool;          (* the points can be read *)
  se_mem : nat -> bool;              (* memory for the points *)
  se_mem_waves : bool;               (* memory for the descriptors *)
  se_garbage : nat -> cvorg_wv;
}.

Definition free_wv (w : cvorg_wv) : list kev :=
  match form w with
  | FNull => []
  | _ => if size w =? 0 then [] else
      match form w with FBuf i => [Rel KFORM (Z.of_nat i)] | _ => [Rel KWILD 0] end
  end.

(** The descriptors themselves are freed too. *)
Definition free_seq (ws : list cvorg_wv) : list kev := flat_map free_wv ws ++ [Rel KWAVES 0].

Definition read_points (u : user_wv) : list Z := (fun i : nat => u_points u (Z.of_nat i)) <$> seq 0 (Z.to_nat (u_size u / 2)).

(** [to] of waveform [i] after [copy_wv_from_user()], the errno, and what was
    allocated.  [None]: the points are copied to an error pointer. *)
Definition copy_wv_from_user (e : seq_env) (i : nat) : option (cvorg_wv * Z * list kev) :=
  match se_desc e i with
  | None => Some (se_garbage e i, EFAULT, [])
  | Some u =>
      if is_null (sysbrk (u_size u) (se_mem e i)) then Some (Wv (u_recurr u) (u_size u) (u_dynamic u) (u_gain u) FNull [], ENOMEM, []) else
      if negb (se_mem e i) then None else
      let w := Wv (u_recurr u) (u_size u) (u_dynamic u) (u_gain u) (FBuf i) [] in
      if negb (se_form_ok e i) then Some (w, EFAULT, [Acq KFORM (Z.of_nat i)])
      else Some (set_points (read_points u) w, 0, [Acq KFORM (Z.of_nat i)])
  end.

(** Descriptors [i] to [i + k - 1]. *)
Fixpoint copy_waves (e : seq_env) (k i : nat) : option (list cvorg_wv * Z * list kev) :=
  match k with
  | O => Some ([], 0, [])
  | S k =>
      '(w, err, log) ← copy_wv_from_user e i;
      if truthy err then Some (w :: (se_garbage e <$> seq (S i) k), err, log) else
      '(ws, err, log') ← copy_waves e k (S i);
      Some (w :: ws, err, log ++ log')
  end.

(** The size of the array of descriptors: it wraps around, and what is copied
    beyond the array is not modelled. *)
Definition waves_bytes (n : Z) : Z := u32 (n * sizeof_cvorg_wv).

Definition seq_init (e : seq_env) (seq_nr n : Z) : option (Z * cvorg_seq * list kev) :=
  if is_null (sysbrk (waves_bytes n) (se_mem_waves e)) then Some (ENOMEM, Seq seq_nr n [], []) else
  if negb (se_mem_waves e) || (waves_bytes n <? n * sizeof_cvorg_wv) then None else
  '(ws, err, log) ← copy_waves e (Z.to_nat n) 0;
  let log := Acq KWAVES 0 :: log in
  Some (if truthy err then (err, Seq seq_nr n ws, log ++ free_seq ws) else (0, Seq seq_nr n ws, log)).

(** The gains that go back to the user, by waveform; [ok]: the user's memory can
    be written.  The size given is that of a pointer: the gain, on a machine of
    32 bits. *)
Fixpoint seq_user_writeback (ok : nat -> bool) (i : nat) (ws : list cvorg_wv) : Z * list (nat * Z) :=
  match ws with
  | [] => (0, [])
  | w :: ws =>
      if negb (truthy (dynamic_gain w)) then seq_user_writeback ok (S i) ws else
      if negb (ok i) then (EFAULT, []) else
      let '(e, l) := seq_user_writeback ok (S i) ws in (e, (i, gain_val w) :: l)
  end.

(** What the user gave: the sequence as it is checked, and as it is copied. *)
Record user_seq := UserSeq {
  us_nr : Z; us_n_waves : Z; us_null : bool;
  us_check : nat -> user_wv;
  us_env : seq_env;
  us_writable : nat -> bool;
}.

Record load_result := LoadResult { lr_errno : Z; lr_gains : list (nat * Z); lr_log : list kev }.

Definition cvorg_loadseq (ro : Z -> nat -> Z) (spi_ready : nat -> bool) (cpu_big : bool) (c : cvorg_channel) (u : user_seq) (h : cvhw)
    : option (load_result * cvhw) :=
  let h := __cvorg_channel_clear_errors c h in
  let '(ready, h) := __cvorg_channel_ready ro spi_ready c h in
  if negb ready then Some (LoadResult EBUSY [] [], h) else
  let '(e, h) := cvorg_invalid_seq ro spi_ready c (us_nr u) (us_n_waves u) (us_null u) (us_check u) h in
  if truthy e then Some (LoadResult e [] [], h) else
  '(e, s, log) ← seq_init (us_env u) (us_nr u) (us_n_waves u);
  if truthy e then Some (LoadResult e [] log, h) else
  let '(e, s, h) := __cvorg_loadseq ro spi_ready cpu_big c s h in
  if truthy e then Some (LoadResult e [] (log ++ free_seq (waves s)), h) else
  let '(e, gains) := seq_user_writeback (us_writable u) 0 (waves s) in
  Some (LoadResult e gains (log ++ free_seq (waves s)), h).
