(* ===== verification/CvorgSeqInv.v ===== *)
(** * Properties of the sequences of the CVORG

    What the card plays after a sequence has been stored, read off its
    descriptor blocks and its SRAM, is the sequence. *)

From S2P Require Import Prelude SkelIo CvorgHw Cvorg CdcmMem CvorgSeq.

(** ** Words and points *)

Definition is_u16 (z : Z) : Prop := 0 <= z < 2 ^ 16.

Definition is_byte (z : Z) : Prop := 0 <= z < 256.

Lemma u16_bytes d : is_u16 d -> exists a0 a1, is_byte a0 /\ is_byte a1 /\ d = a0 + 256 * a1.
Proof.
  intros Hd. exists (d mod 256), (d / 256). unfold is_byte, is_u16 in *. pose proof (Z.div_mod d 256).
  pose proof (Z.mod_pos_bound d 256). split_and!; lia.
Qed.

Lemma le_bytes_cons n a v : is_byte a -> le_bytes (S n) (a + 256 * v) = a :: le_bytes n v.
Proof.
  intros Ha. unfold is_byte in Ha. cbn. rewrite (Z.mul_comm 256), Z.mod_add, Z.mod_small, Z.div_add, Z.div_small by lia. done.
Qed.

Lemma bswap2_bytes a0 a1 : is_byte a0 -> is_byte a1 -> bswap 2 (a0 + 256 * a1) = a1 + 256 * a0.
Proof.
  intros H0 H1. unfold bswap. rewrite le_bytes_cons by done. replace a1 with (a1 + 256 * 0) at 1 by lia.
  rewrite le_bytes_cons by done. cbn. lia.
Qed.

Lemma bswap4_bytes a0 a1 a2 a3 : is_byte a0 -> is_byte a1 -> is_byte a2 -> is_byte a3 ->
  bswap 4 (a0 + 256 * (a1 + 256 * (a2 + 256 * a3))) = a3 + 256 * (a2 + 256 * (a1 + 256 * a0)).
Proof.
  intros H0 H1 H2 H3. unfold bswap. rewrite !le_bytes_cons by done. replace a3 with (a3 + 256 * 0) at 1 by lia.
  rewrite le_bytes_cons by done. cbn. lia.
Qed.

(** What is stored in the SRAM for two points, and for one: the first point is in
    the low half of the word, whatever the CPU. *)
Lemma cpu_to_hw_word big d0 d1 : is_u16 d0 -> is_u16 d1 ->
  conv big true 4 (u32 (cvorg_cpu_to_hw big d0 d1)) = d0 + 2 ^ 16 * d1.
Proof.
  intros (a0 & a1 & A0 & A1 & ->)%u16_bytes (b0 & b1 & B0 & B1 & ->)%u16_bytes.
  unfold cvorg_cpu_to_hw, conv. destruct big; cbn [Bool.eqb].
  - rewrite Z.shiftl_mul_pow2, lor_add by (unfold is_byte in *; lia). rewrite u32_id; [lia|unfold is_u32, is_byte in *; lia].
  - rewrite !bswap2_bytes by done. rewrite Z.shiftl_mul_pow2, lor_add by (unfold is_byte in *; lia).
    rewrite u32_id by (unfold is_u32, is_byte in *; lia).
    replace ((a1 + 256 * a0) * 2 ^ 16 + (b1 + 256 * b0)) with (b1 + 256 * (b0 + 256 * (a1 + 256 * a0))) by lia.
    rewrite bswap4_bytes by done. lia.
Qed.

Lemma cpu_to_hw_single_word big d0 : is_u16 d0 -> conv big true 4 (u32 (cvorg_cpu_to_hw_single big d0)) = d0.
Proof.
  intros Hd. rewrite <- (Z.add_0_r d0) at 2. change 0 with (2 ^ 16 * 0). rewrite <- (cpu_to_hw_word big d0 0) by done.
  f_equal. f_equal. unfold cvorg_cpu_to_hw, cvorg_cpu_to_hw_single, conv. destruct big; [done|]. cbn [Bool.eqb].
  by rewrite Z.lor_0_r.
Qed.

Lemma halves_word a b : is_u16 a -> Z.land (a + 2 ^ 16 * b) 0xffff = a /\ Z.shiftr (a + 2 ^ 16 * b) 16 = b.
Proof.
  intros Ha. unfold is_u16 in Ha. rewrite land_lo16, Z.shiftr_div_pow2, (Z.mul_comm (2 ^ 16)) by lia.
  rewrite Z.mod_add, Z.mod_small, Z.div_add, Z.div_small by lia. split; [done|lia].
Qed.

Lemma conv_conv big v : is_u16 v -> conv big true 2 (conv big true 2 v) = v.
Proof.
  intros (a0 & a1 & A0 & A1 & ->)%u16_bytes. unfold conv. destruct big; cbn [Bool.eqb]; [done|]. by rewrite !bswap2_bytes.
Qed.

Lemma conv_u16 big v : is_u16 v -> is_u16 (conv big true 2 v).
Proof.
  intros (a0 & a1 & A0 & A1 & ->)%u16_bytes. unfold conv. destruct big; cbn [Bool.eqb]; [|rewrite bswap2_bytes by done]; unfold is_u16, is_byte in *; lia.
Qed.

(** The two conversions of the driver undo each other. *)
Lemma hw_to_cpu_to_hw big d0 d1 : is_u16 d0 -> is_u16 d1 -> cvorg_hw_to_cpu big (cvorg_cpu_to_hw big d0 d1) = (d0, d1).
Proof.
  intros H0 H1. pose proof (conv_u16 big d0 H0) as C0. pose proof (conv_u16 big d1 H1) as C1. unfold cvorg_hw_to_cpu, cvorg_cpu_to_hw.
  rewrite !Z.shiftl_mul_pow2, !lor_add by (lia || (unfold is_u16 in *; lia)).
  destruct big; rewrite Z.add_comm, (Z.mul_comm _ (2 ^ 16)).
  - destruct (halves_word _ (conv true true 2 d1) C0) as [-> ->]. by rewrite !conv_conv.
  - destruct (halves_word _ (conv false true 2 d0) C1) as [-> ->]. by rewrite !conv_conv.
Qed.

(** The card takes points of 14 bits: the nearest multiple of four that is not
    above the range, a half going down. *)
Lemma normalize_point_spec d : is_u16 d ->
  normalize_point d = Z.min ((d + 1) / 4 * 4) 0xfffc /\ is_u16 (normalize_point d).
Proof.
  intros Hd. unfold normalize_point, is_u16 in *.
  assert (forall x, 0 <= x < 2 ^ 16 -> Z.land x 0xfffc = x / 4 * 4) as Hl.
  { intros x Hx. change 0xfffc with (Z.shiftl (Z.ones 14) 2). rewrite <- (Z.shiftl_mul_pow2 _ 2), <- (Z.shiftr_div_pow2 _ 2) by lia.
    apply Z.bits_inj'. intros i Hi. rewrite Z.land_spec, !Z.shiftl_spec by lia. destruct (Z_lt_le_dec i 2).
    { rewrite !(Z.testbit_neg_r _ (i - 2)) by lia. apply andb_false_r. }
    rewrite Z.shiftr_spec by lia. replace (i - 2 + 2) with i by lia. destruct (Z_lt_le_dec i 16).
    - rewrite Z.ones_spec_low, andb_true_r by lia. done.
    - rewrite (testbit_above x 16) by lia. done. }
  change 3 with (Z.ones 2). rewrite Z.land_ones by lia. unfold truthy.
  pose proof (Z.div_mod d 4). pose proof (Z.mod_pos_bound d 4). pose proof (Z.div_mod (d + 1) 4). pose proof (Z.mod_pos_bound (d + 1) 4).
  change (2 ^ 2) with 4. destruct (Z.eqb_spec (d mod 4) 0), (Z.eqb_spec d 0xffff); cbn [negb andb].
  - subst. done.
  - rewrite Hl by lia. lia.
  - subst. done.
  - unfold u16. rewrite Z.mod_small, Hl by lia. lia.
Qed.

(** ** The card's registers *)

(** A register that is only memory. *)
Definition plain (off : Z) : Prop :=
  off <> CVORG_CLKCTL /\ off <> CVORG_SRAMADDR /\ off <> CVORG_SRAMDATA /\ off <> CVORG_CTL /\
  off ∉ [CVORG_INTSR; CVORG_VERSION; CVORG_PCB_MSB; CVORG_PCB_LSB; CVORG_TEMP; CVORG_ADCVAL; CVORG_SAMPFREQ; CVORG_STATUS].

(** The offset of a channel. *)
Definition is_chan (ch : Z) : Prop := ch = CVORG_CHAN1_OFFSET \/ ch = CVORG_CHAN2_OFFSET.

Lemma chan_of_off ch off : is_chan ch -> 0 <= off < 0x200 -> chan_of (ch + off) = ch.
Proof.
  unfold chan_of, CVORG_CHAN2_OFFSET, CVORG_CHAN1_OFFSET. intros [-> | ->] Ho.
  - rewrite (proj2 (Z.ltb_lt _ _)) by (unfold CVORG_CHAN1_OFFSET; lia). done.
  - rewrite (proj2 (Z.ltb_ge _ _)) by (unfold CVORG_CHAN2_OFFSET; lia). done.
Qed.

Definition chreg (ch off : Z) (h : cvhw) : Z := rd (cv_mem h) (ch + off).

(** The points of the SRAM: the first of a word is its low half. *)
Definition sram_point (ch : Z) (h : cvhw) (k : Z) : Z :=
  let w := rd (cv_sram h) (ch, k / 2) in if Z.even k then Z.land w 0xffff else Z.shiftr w 16.

Section Registers.
Variable ro : Z -> nat -> Z.
Variable spi_ready : nat -> bool.
Variable cpu_big : bool.
Variable ch : Z.
Hypothesis Hch : is_chan ch.
Local Notation rchan := (cvorg_rchan ro spi_ready ch).
Local Notation wchan := (cvorg_wchan ch).
Local Notation ochan := (cvorg_ochan ro spi_ready ch).
Local Notation achan := (cvorg_achan ro spi_ready ch).
Local Notation uchan := (cvorg_uchan ro spi_ready ch).

(** The SRAM is left alone, and its pointers. *)
Definition same_sram (h h' : cvhw) : Prop := cv_sram h' = cv_sram h /\ cv_sptr h' = cv_sptr h.

Lemma same_sram_trans h1 h2 h3 : same_sram h1 h2 -> same_sram h2 h3 -> same_sram h1 h3.
Proof. unfold same_sram. intros [-> ->] [-> ->]. done. Qed.

Lemma rchan_plain off h : 0 <= off < 0x200 -> plain off -> exists h',
  rchan off h = (chreg ch off h, h') /\ cv_mem h' = cv_mem h /\ same_sram h h'.
Proof.
  intros Ho (P1 & P2 & P3 & P4 & P5). unfold cvorg_rchan, cvorg_readw, hw_read, read_only.
  rewrite chan_of_off by done. replace (ch + off - ch) with off by lia.
  rewrite bool_decide_eq_false_2 by done. rewrite (proj2 (Z.eqb_neq _ _) P1), (proj2 (Z.eqb_neq _ _) P3). eexists. split; [done|]. done.
Qed.

Lemma wchan_plain off v h : 0 <= off < 0x200 -> plain off ->
  cv_mem (wchan off v h) = <[ch + off := u32 v]> (cv_mem h) /\ same_sram h (wchan off v h).
Proof.
  intros Ho (P1 & P2 & P3 & P4 & P5). unfold cvorg_wchan, cvorg_writew, hw_write.
  rewrite chan_of_off by done. replace (ch + off - ch) with off by lia.
  rewrite (proj2 (Z.eqb_neq _ _) P1), (proj2 (Z.eqb_neq _ _) P2), (proj2 (Z.eqb_neq _ _) P3), (proj2 (Z.eqb_neq _ _) P4). done.
Qed.

(** A register changes, and nothing else of the memory. *)
Definition changes (off v : Z) (h h' : cvhw) : Prop :=
  chreg ch off h' = v /\ (forall o, o <> off -> chreg ch o h' = chreg ch o h) /\ same_sram h h'.

Lemma mem_changes off v h h' : cv_mem h' = <[ch + off := v]> (cv_mem h) -> same_sram h h' -> changes off v h h'.
Proof.
  intros Hm Hs. unfold changes, chreg, rd. rewrite Hm. split_and!; [by rewrite lookup_insert_eq| |done].
  intros o Ho. by rewrite lookup_insert_ne by lia.
Qed.

Lemma changes_trans off v1 v2 h1 h2 h3 : changes off v1 h1 h2 -> changes off v2 h2 h3 -> changes off v2 h1 h3.
Proof.
  intros (_ & A2 & A3) (B1 & B2 & B3). split_and!; [done| |by eapply same_sram_trans].
  intros o Ho. by rewrite B2, A2.
Qed.

Lemma wchan_changes off v h : 0 <= off < 0x200 -> plain off -> changes off (u32 v) h (wchan off v h).
Proof. intros Ho Hp. destruct (wchan_plain off v h Ho Hp). by apply mem_changes. Qed.

Lemma rmw_changes off f h : 0 <= off < 0x200 -> plain off ->
  changes off (u32 (f (chreg ch off h))) h (let '(v, h) := rchan off h in wchan off (f v) h).
Proof.
  intros Ho Hp. destruct (rchan_plain off h Ho Hp) as (h' & -> & Hm & Hs).
  destruct (wchan_plain off (f (chreg ch off h)) h' Ho Hp) as [Hm' Hs'].
  apply mem_changes; [by rewrite Hm', Hm|by eapply same_sram_trans].
Qed.

Lemma ochan_changes off v h : 0 <= off < 0x200 -> plain off -> changes off (u32 (Z.lor (chreg ch off h) v)) h (ochan off v h).
Proof. apply (rmw_changes off (fun r => Z.lor r v)). Qed.

Lemma achan_changes off v h : 0 <= off < 0x200 -> plain off -> changes off (u32 (Z.land (chreg ch off h) v)) h (achan off v h).
Proof. apply (rmw_changes off (fun r => Z.land r v)). Qed.

(** The bits of a mask are replaced. *)
Definition update (old v mask : Z) : Z := u32 (Z.lor (Z.land old (not32 mask)) v).

Lemma u32_land_not old mask : u32 (Z.land old (not32 mask)) = Z.land (u32 old) (not32 mask).
Proof.
  unfold not32. apply Z.bits_inj'. intros i Hi. rewrite Z.land_spec. destruct (Z_lt_le_dec i 32).
  - rewrite !testbit_u32, Z.land_spec, testbit_u32 by lia. done.
  - rewrite !(testbit_above (u32 _) 32) by (lia || apply u32_range). done.
Qed.

Lemma u32_lor a b : u32 (Z.lor a b) = Z.lor (u32 a) (u32 b).
Proof.
  apply Z.bits_inj'. intros i Hi. rewrite Z.lor_spec. destruct (Z_lt_le_dec i 32).
  - by rewrite !testbit_u32, Z.lor_spec by lia.
  - by rewrite !(testbit_above (u32 _) 32) by (lia || apply u32_range).
Qed.

Lemma uchan_changes off v mask h : 0 <= off < 0x200 -> plain off ->
  changes off (update (chreg ch off h) v mask) h (uchan off v mask h).
Proof.
  intros Ho Hp. unfold cvorg_uchan. pose proof (achan_changes off (not32 mask) h Ho Hp) as H1.
  pose proof (ochan_changes off v (achan off (not32 mask) h) Ho Hp) as H2.
  replace (update (chreg ch off h) v mask) with (u32 (Z.lor (chreg ch off (achan off (not32 mask) h)) v)); [by eapply changes_trans|].
  destruct H1 as [-> _]. unfold update. by rewrite !u32_lor, u32_idemp.
Qed.

(** Fields of a register after an update. *)
Lemma land_and_bits a b : Z.land a b = a -> forall i, 0 <= i -> Z.testbit b i = false -> Z.testbit a i = false.
Proof. intros H i Hi Hb. rewrite <- H, Z.land_spec, Hb. apply andb_false_r. Qed.

Lemma update_same old v m : is_u32 m -> Z.land v m = v -> Z.land (update old v m) m = v.
Proof.
  intros Hm Hv. unfold update, not32. apply Z.bits_inj'. intros i Hi. rewrite Z.land_spec. destruct (Z_lt_le_dec i 32).
  - rewrite testbit_u32, Z.lor_spec, Z.land_spec, testbit_u32, Z.lnot_spec by lia.
    destruct (Z.testbit m i) eqn:E; cbn; rewrite ?andb_false_r, ?andb_true_r; [done|]. symmetry. by eapply land_and_bits.
  - rewrite (testbit_above m 32) by (lia || done). rewrite andb_false_r. symmetry.
    eapply land_and_bits; [done|done|]. by apply (testbit_above m 32).
Qed.

Lemma update_other old v m m2 : is_u32 m2 -> Z.land v m = v -> Z.land m m2 = 0 -> Z.land (update old v m) m2 = Z.land old m2.
Proof.
  intros Hm Hv Hd. unfold update, not32. apply Z.bits_inj'. intros i Hi. rewrite !Z.land_spec. destruct (Z_lt_le_dec i 32).
  - rewrite testbit_u32, Z.lor_spec, Z.land_spec, testbit_u32, Z.lnot_spec by lia.
    destruct (Z.testbit m2 i) eqn:E; rewrite ?andb_false_r, ?andb_true_r; [|done].
    assert (Z.testbit m i = false) as Em.
    { assert (Z.testbit (Z.land m m2) i = false) as H by (rewrite Hd; apply Z.bits_0). by rewrite Z.land_spec, E, andb_true_r in H. }
    rewrite Em, (land_and_bits v m Hv i Hi Em). cbn. by rewrite andb_true_r, orb_false_r.
  - rewrite (testbit_above m2 32) by (lia || done). by rewrite !andb_false_r.
Qed.

(** ** The SRAM *)

Lemma wchan_sramaddr v h : let h' := wchan CVORG_SRAMADDR v h in
  cv_mem h' = cv_mem h /\ cv_sram h' = cv_sram h /\ rd (cv_sptr h') ch = u32 v / 4.
Proof.
  unfold cvorg_wchan, cvorg_writew, hw_write. rewrite chan_of_off by done.
  replace (ch + CVORG_SRAMADDR - ch) with CVORG_SRAMADDR by lia. cbn. unfold rd. by rewrite lookup_insert_eq.
Qed.

Lemma wchan_sramdata v h : let h' := cvorg_wchan_noswap cpu_big ch CVORG_SRAMDATA v h in
  cv_mem h' = cv_mem h /\ cv_sram h' = <[(ch, rd (cv_sptr h) ch) := conv cpu_big true 4 (u32 v)]> (cv_sram h) /\
  rd (cv_sptr h') ch = rd (cv_sptr h) ch + 1.
Proof.
  unfold cvorg_wchan_noswap, hw_write. rewrite chan_of_off by done.
  replace (ch + CVORG_SRAMDATA - ch) with CVORG_SRAMDATA by lia. cbn. unfold rd. by rewrite lookup_insert_eq.
Qed.

Definition word (h : cvhw) (p : Z) : Z := rd (cv_sram h) (ch, p).

Lemma word_insert (m : gmap (Z * Z) Z) p q v : rd (<[(ch, p) := v]> m) (ch, q) = if decide (p = q) then v else rd m (ch, q).
Proof.
  unfold rd. case_decide as E; [by rewrite E, lookup_insert_eq|]. rewrite lookup_insert_ne; [done|congruence].
Qed.

Lemma sram_point_even h k d0 d1 : is_u16 d0 -> word h k = d0 + 2 ^ 16 * d1 -> sram_point ch h (2 * k) = d0 /\ sram_point ch h (2 * k + 1) = d1.
Proof.
  intros H0 Hw. unfold sram_point. replace (2 * k / 2) with k by (rewrite Z.mul_comm, Z.div_mul; lia).
  replace ((2 * k + 1) / 2) with k by (rewrite Z.mul_comm, Z.add_comm, Z.div_add by lia; done).
  fold (word h k). rewrite Hw. destruct (halves_word d0 d1 H0) as [-> ->]. rewrite Z.even_add, !Z.even_mul. done.
Qed.

(** The points end where the pointer stands, two a word; the words before are
    not touched. *)
Lemma sram_points_spec l : Forall is_u16 l -> forall h, let p := rd (cv_sptr h) ch in let h' := sram_points cpu_big ch l h in
  cv_mem h' = cv_mem h /\ (forall q, q < p -> word h' q = word h q) /\
  (forall k d, l !! k = Some d -> sram_point ch h' (2 * p + Z.of_nat k) = d).
Proof.
  intros Hl. remember (length l) as n eqn:En. revert l En Hl. induction n as [n IH] using lt_wf_ind. intros l En Hl h p.
  destruct l as [|d0 [|d1 l]]; cbn [sram_points]; cbv zeta.
  - split_and!; [done|done|]. intros k d Hk. by rewrite lookup_nil in Hk.
  - apply Forall_cons in Hl as [H0 _].
    destruct (wchan_sramdata (cvorg_cpu_to_hw_single cpu_big d0) h) as (Hm & Hs & Hp). rewrite cpu_to_hw_single_word in Hs by done.
    split_and!; [done| |].
    + intros q Hq. unfold word. rewrite Hs, word_insert, decide_False by lia. done.
    + intros [|k] d [= <-]. rewrite Z.add_0_r. apply (sram_point_even _ p d0 0); [done|].
      unfold word. rewrite Hs, word_insert, decide_True by done. lia.
  - apply Forall_cons in Hl as [H0 Hl]. apply Forall_cons in Hl as [H1 Hl].
    set (h1 := cvorg_wchan_noswap cpu_big ch CVORG_SRAMDATA (cvorg_cpu_to_hw cpu_big d0 d1) h).
    destruct (wchan_sramdata (cvorg_cpu_to_hw cpu_big d0 d1) h) as (Hm & Hs & Hp). fold h1 in Hm, Hs, Hp. rewrite cpu_to_hw_word in Hs by done.
    destruct (IH (length l) ltac:(cbn in En; lia) l eq_refl Hl h1) as (Jm & Jw & Jp). rewrite Hp in Jw, Jp. fold p in Jw, Jp, Hs.
    assert (word (sram_points cpu_big ch l h1) p = d0 + 2 ^ 16 * d1) as Hword.
    { rewrite Jw by lia. unfold word. by rewrite Hs, word_insert, decide_True. }
    split_and!.
    + by rewrite Jm.
    + intros q Hq. rewrite Jw by lia. unfold word. by rewrite Hs, word_insert, decide_False by lia.
    + intros [|[|k]] d Hk.
      * injection Hk as <-. rewrite Z.add_0_r. by eapply sram_point_even.
      * injection Hk as <-. by apply (sram_point_even _ p d0 d1).
      * rewrite <- (Jp k d Hk). f_equal. lia.
Qed.

Lemma __sram_spec w dest h : dest mod 4 = 0 -> is_u32 dest -> Forall is_u16 (points w) -> let h' := __sram cpu_big ch w dest h in
  cv_mem h' = cv_mem h /\ (forall q, q < dest / 4 -> word h' q = word h q) /\
  (forall k d, points w !! k = Some d -> sram_point ch h' (dest / 2 + Z.of_nat k) = d).
Proof.
  intros Hd Hu Hp. unfold __sram. destruct (wchan_sramaddr dest h) as (Hm & Hs & Ha). rewrite u32_id in Ha by done.
  destruct (sram_points_spec (points w) Hp (wchan CVORG_SRAMADDR dest h)) as (Jm & Jw & Jp).
  cbv zeta. rewrite Jm, Hm. rewrite Ha in Jw, Jp. split_and!; [done| |].
  - intros q Hq. rewrite Jw by done. unfold word. by rewrite Hs.
  - intros k d Hk. rewrite <- (Jp k d Hk). f_equal. replace (dest / 2) with (2 * (dest / 4)); [done|].
    pose proof (Z.div_mod dest 4). assert (dest = dest / 4 * 2 * 2) as -> by lia. rewrite Z.div_mul by lia. replace (dest / 4 * 2 * 2) with (dest / 4 * 4) by lia. rewrite Z.div_mul by lia. lia.
Qed.

(** ** What the card plays *)

(** A waveform as the card plays it: how often, with the gain of its own if it
    has one, and the points. *)
Record played := Played { pl_recurr : Z; pl_gain : option Z; pl_points : list Z }.

Definition blk (h : cvhw) (b f : Z) : Z := chreg ch (block_offset b + f) h.

Definition gain_field (r : Z) : option Z :=
  if truthy (Z.land r CVORG_WFNEXTBLK_CONF_GAIN)
  then Some (Z.shiftr (Z.land r CVORG_WFNEXTBLK_GAIN_MASK) CVORG_WFNEXTBLK_GAIN_SHIFT) else None.

Definition blk_next (h : cvhw) (b : Z) : Z := Z.land (blk h b CVORG_WFNEXTBLK) CVORG_WFNEXTBLK_NEXT_MASK.
Definition blk_start (h : cvhw) (b : Z) : Z := Z.land (blk h b CVORG_WFSTART) 0x1fffff / 2.
Definition blk_len (h : cvhw) (b : Z) : Z := Z.land (blk h b CVORG_WFLEN) 0xfffff.

Definition blk_played (h : cvhw) (b : Z) : played :=
  Played (blk h b CVORG_WFRECURR) (gain_field (blk h b CVORG_WFNEXTBLK))
    ((fun k : nat => sram_point ch h (blk_start h b + Z.of_nat k)) <$> seq 0 (Z.to_nat (blk_len h b))).

(** Block after block, until the last one. *)
Fixpoint card_plays (fuel : nat) (h : cvhw) (b : Z) : list played :=
  match fuel with
  | O => []
  | S fuel => blk_played h b :: (if blk_next h b =? CVORG_WFNEXTBLK_LAST then [] else card_plays fuel h (blk_next h b))
  end.

(** ** What is asked for *)

Definition wants (w : cvorg_wv) : played :=
  Played (recurr w) (if truthy (dynamic_gain w) then Some (cvorg_gain_to_hw (cvorg_gain_approx (gain_val w))) else None)
    (normalize_point <$> points w).

(** A descriptor after it was stored. *)
Definition stored_wv (w : cvorg_wv) : cvorg_wv :=
  let w := normalize_wv w in if truthy (dynamic_gain w) then set_gain_val (cvorg_gain_approx (gain_val w)) w else w.

Definition wv_ok (w : cvorg_wv) : Prop :=
  is_u32 (recurr w) /\ size w = 2 * Z.of_nat (length (points w)) /\ Forall is_u16 (points w) /\ size w < 2 ^ 21.

Lemma block_plain b f : 0 <= b < 26 -> f = CVORG_WFSTART \/ f = CVORG_WFLEN \/ f = CVORG_WFRECURR \/ f = CVORG_WFNEXTBLK ->
  0 <= block_offset b + f < 0x200 /\ plain (block_offset b + f).
Proof.
  intros Hb Hf. assert (f = 0 \/ f = 4 \/ f = 8 \/ f = 12) as Hf' by exact Hf. clear Hf.
  unfold plain, block_offset, CVORG_BLKOFFSET, CVORG_BLKSIZE, CVORG_CLKCTL, CVORG_SRAMADDR, CVORG_SRAMDATA, CVORG_CTL,
    CVORG_INTSR, CVORG_VERSION, CVORG_PCB_MSB, CVORG_PCB_LSB, CVORG_TEMP, CVORG_ADCVAL, CVORG_SAMPFREQ, CVORG_STATUS.
  split; [lia|]. split_and!; try lia. intros H. rewrite !elem_of_cons in H. destruct_or!; try lia; by apply elem_of_nil in H.
Qed.

Lemma gain_hw_field g : let v := Z.shiftl (cvorg_gain_to_hw g) CVORG_WFNEXTBLK_GAIN_SHIFT in
  Z.land v CVORG_WFNEXTBLK_GAIN_MASK = v /\ Z.shiftr v CVORG_WFNEXTBLK_GAIN_SHIFT = cvorg_gain_to_hw g.
Proof. unfold cvorg_gain_to_hw. repeat case_goal; done. Qed.

Lemma achan_update off m h : 0 <= off < 0x200 -> plain off -> changes off (update (chreg ch off h) 0 m) h (achan off (not32 m) h).
Proof. intros Ho Hp. unfold update. rewrite Z.lor_0_r. by apply achan_changes. Qed.

Lemma ochan_update off m h : 0 <= off < 0x200 -> plain off -> changes off (update (chreg ch off h) m m) h (ochan off m h).
Proof.
  intros Ho Hp. replace (update (chreg ch off h) m m) with (u32 (Z.lor (chreg ch off h) m)); [by apply ochan_changes|].
  unfold update, not32. apply Z.bits_inj'. intros i Hi. destruct (Z_lt_le_dec i 32).
  - rewrite !testbit_u32, !Z.lor_spec, Z.land_spec, testbit_u32, Z.lnot_spec by lia. by destruct (Z.testbit _ _), (Z.testbit m i).
  - by rewrite !(testbit_above (u32 _) 32) by (lia || apply u32_range).
Qed.

(** The gain of a waveform, and the field of the next block, which it leaves. *)
Lemma gain_store_changes b w h : 0 <= b < 26 ->
  let off := block_offset b + CVORG_WFNEXTBLK in let '(w', h') := cvorg_wv_gain_store ro spi_ready ch (block_offset b) w h in
  exists v, changes off v h h' /\ w' = (if truthy (dynamic_gain w) then set_gain_val (cvorg_gain_approx (gain_val w)) w else w) /\
  gain_field v = (if truthy (dynamic_gain w) then Some (cvorg_gain_to_hw (cvorg_gain_approx (gain_val w))) else None).
Proof.
  intros Hb off. destruct (block_plain b CVORG_WFNEXTBLK Hb) as [Ho Hp]; [auto|]. fold off in Ho, Hp.
  unfold cvorg_wv_gain_store. fold off.
  pose proof (achan_update off CVORG_WFNEXTBLK_CONF_GAIN h Ho Hp) as C1. set (h1 := achan off _ h) in *.
  destruct (truthy (dynamic_gain w)); cbn [negb].
  - pose proof (ochan_update off CVORG_WFNEXTBLK_CONF_GAIN h1 Ho Hp) as C2. set (h2 := ochan off _ h1) in *.
    cbn [gain_val set_gain_val]. destruct (gain_hw_field (cvorg_gain_approx (gain_val w))) as [G1 G2].
    set (v := Z.shiftl _ _) in *. pose proof (uchan_changes off v CVORG_WFNEXTBLK_GAIN_MASK h2 Ho Hp) as C3.
    eexists. split; [eapply changes_trans, C3; by eapply changes_trans|]. split; [done|].
    unfold gain_field. rewrite update_other by done. rewrite update_same by done.
    destruct C2 as (-> & _ & _). rewrite update_same by done. cbn. f_equal. exact G2.
  - eexists. split; [exact C1|]. split; [done|]. unfold gain_field. by rewrite update_same by done.
Qed.

Definition is_field (f : Z) : Prop := f = CVORG_WFSTART \/ f = CVORG_WFLEN \/ f = CVORG_WFRECURR \/ f = CVORG_WFNEXTBLK.

Lemma field_values f : is_field f -> f = 0 \/ f = 4 \/ f = 8 \/ f = 12.
Proof. exact id. Qed.

(** What a step does to the blocks: those fields are as they were. *)
Definition keeps (P : Z -> Z -> Prop) (h h' : cvhw) : Prop :=
  (forall b f, is_field f -> P b f -> blk h' b f = blk h b f) /\ chreg ch CVORG_SEQNR h' = chreg ch CVORG_SEQNR h /\ (forall q, word h' q = word h q).

Lemma changes_keeps b f v h h' : 0 <= b -> is_field f -> changes (block_offset b + f) v h h' ->
  blk h' b f = v /\ keeps (fun b' f' => b' <> b \/ f' <> f) h h'.
Proof.
  intros Hb Hf (C1 & C2 & C3 & _). split; [done|]. split_and!.
  - intros b' f' Hf' Hne. apply C2. apply field_values in Hf, Hf'. unfold block_offset, CVORG_BLKOFFSET, CVORG_BLKSIZE. lia.
  - apply C2. apply field_values in Hf. unfold block_offset, CVORG_BLKOFFSET, CVORG_BLKSIZE, CVORG_SEQNR. lia.
  - intros q. unfold word. by rewrite C3.
Qed.

Lemma keeps_trans (P Q R : Z -> Z -> Prop) h1 h2 h3 : keeps P h1 h2 -> keeps Q h2 h3 -> (forall b f, R b f -> P b f /\ Q b f) -> keeps R h1 h3.
Proof.
  intros (A1 & A2 & A3) (B1 & B2 & B3) HR. split_and!.
  - intros b f Hf H. destruct (HR b f H). by rewrite B1, A1.
  - by rewrite B2, A2.
  - intros q. by rewrite B3, A3.
Qed.

Lemma keeps_same P h : keeps P h h.
Proof. done. Qed.

(** The block of waveform [i]. *)
Lemma wv_store_spec i w h : 0 <= i < 26 -> is_u32 (recurr w) -> 0 <= size w < 2 ^ 21 ->
  let '(w', h') := cvorg_wv_store ro spi_ready ch (block_offset i) w h in
  w' = (if truthy (dynamic_gain w) then set_gain_val (cvorg_gain_approx (gain_val w)) w else w) /\
  blk h' i CVORG_WFLEN = size w / 2 /\ blk h' i CVORG_WFRECURR = recurr w /\
  gain_field (blk h' i CVORG_WFNEXTBLK) = pl_gain (wants w) /\
  keeps (fun b f => b <> i \/ f = CVORG_WFSTART) h h'.
Proof.
  intros Hi Hr Hs. unfold cvorg_wv_store.
  assert (is_field CVORG_WFLEN /\ is_field CVORG_WFRECURR /\ is_field CVORG_WFNEXTBLK) as (F1 & F2 & F3) by (unfold is_field; split_and!; auto).
  destruct (block_plain i _ Hi F1) as [O1 P1]. destruct (block_plain i _ Hi F2) as [O2 P2].
  destruct (changes_keeps i CVORG_WFLEN _ _ _ ltac:(lia) F1 (wchan_changes _ (size w / 2) h O1 P1)) as [V1 K1].
  set (h1 := wchan _ _ h) in *.
  destruct (changes_keeps i CVORG_WFRECURR _ _ _ ltac:(lia) F2 (wchan_changes _ (recurr w) h1 O2 P2)) as [V2 K2].
  set (h2 := wchan _ _ h1) in *.
  pose proof (gain_store_changes i w h2 Hi) as G. cbv zeta in G.
  destruct (cvorg_wv_gain_store ro spi_ready ch (block_offset i) w h2) as [w' h3]. destruct G as (v & C & -> & Hv).
  destruct (changes_keeps i CVORG_WFNEXTBLK _ _ _ ltac:(lia) F3 C) as [V3 K3].
  assert (0 <= size w / 2 < 2 ^ 32) by (split; [apply Z.div_pos|apply Z.div_lt_upper_bound]; lia).
  split_and!; [done| | | |].
  - rewrite (proj1 K3), (proj1 K2), V1 by (done || by right). by apply u32_id.
  - rewrite (proj1 K3), V2 by (done || by right). by apply u32_id.
  - by rewrite V3.
  - eapply (keeps_trans (fun b f => b <> i \/ f <> CVORG_WFRECURR /\ f <> CVORG_WFLEN)); [eapply keeps_trans; [exact K1|exact K2|]|exact K3|].
    + intros b f [?|[? ?]]; auto.
    + intros b f [?| ->]; auto.
Qed.

(** The points of a block that ends below [ra] do not change with the words above. *)
Definition blk_below (h : cvhw) (b ra : Z) : Prop := blk_start h b + blk_len h b <= ra / 2.

Lemma sram_point_word h h' k : word h' (k / 2) = word h (k / 2) -> sram_point ch h' k = sram_point ch h k.
Proof. unfold sram_point, word. by intros ->. Qed.

Lemma blk_played_kept h h' b ra : ra mod 4 = 0 -> blk_below h b ra -> (forall q, q < ra / 4 -> word h' q = word h q) ->
  (forall f, is_field f -> f <> CVORG_WFNEXTBLK -> blk h' b f = blk h b f) ->
  gain_field (blk h' b CVORG_WFNEXTBLK) = gain_field (blk h b CVORG_WFNEXTBLK) ->
  blk_played h' b = blk_played h b /\ blk_below h' b ra.
Proof.
  intros Hra Hbel Hw Hf Hg. unfold blk_played, blk_below, blk_start, blk_len in *.
  rewrite Hg. rewrite !Hf by (done || (unfold is_field; auto)). split; [|done]. f_equal.
  apply list_fmap_ext. intros j k [-> Hk]%lookup_seq. apply sram_point_word, Hw. cbn.
  set (st := Z.land (blk h b CVORG_WFSTART) 2097151 / 2) in *. set (len := Z.land (blk h b CVORG_WFLEN) 1048575) in *.
  assert (ra = ra / 4 * 4) as Er by (pose proof (Z.div_mod ra 4); lia).
  assert (ra / 2 = ra / 4 * 2) as E2.
  { rewrite Er at 1. replace (ra / 4 * 4) with (ra / 4 * 2 * 2) by lia. apply Z.div_mul. lia. }
  apply Z.div_lt_upper_bound; lia.
Qed.

(** Pointing a block to the next one, or not. *)
Lemma mark_spec (cond : bool) b v h : (cond = true -> 0 <= b < 26) -> Z.land v CVORG_WFNEXTBLK_NEXT_MASK = v ->
  let h' := if cond then uchan (block_offset b + CVORG_WFNEXTBLK) v CVORG_WFNEXTBLK_NEXT_MASK h else h in
  keeps (fun b' f => b' <> b \/ f <> CVORG_WFNEXTBLK) h h' /\
  (forall b', gain_field (blk h' b' CVORG_WFNEXTBLK) = gain_field (blk h b' CVORG_WFNEXTBLK)) /\ (cond = true -> blk_next h' b = v).
Proof.
  intros Hb Hv. destruct cond; [|done]. specialize (Hb eq_refl). cbv zeta.
  assert (is_field CVORG_WFNEXTBLK) as F by (unfold is_field; auto). destruct (block_plain b _ Hb F) as [Ho Hp].
  destruct (changes_keeps b _ _ _ _ ltac:(lia) F (uchan_changes _ v CVORG_WFNEXTBLK_NEXT_MASK h Ho Hp)) as [V K].
  split_and!; [done| |].
  - intros b'. destruct (decide (b' = b)) as [->|Hne].
    + rewrite V. unfold gain_field. rewrite !update_other by done. done.
    + by rewrite (proj1 K) by auto.
  - intros _. unfold blk_next. by rewrite V, update_same.
Qed.

Lemma index_field i : 0 <= i < 26 -> Z.land i CVORG_WFNEXTBLK_NEXT_MASK = i.
Proof. intros Hi. unfold CVORG_WFNEXTBLK_NEXT_MASK. rewrite (land_ones_mod _ 5) by (lia || done). apply Z.mod_small. lia. Qed.

Lemma normalized_u16 l : Forall is_u16 l -> Forall is_u16 (normalize_point <$> l).
Proof. intros H. apply Forall_fmap. eapply Forall_impl; [exact H|]. intros d Hd. by apply normalize_point_spec. Qed.

Lemma store_step_spec n i ra w h : 0 <= i < 26 -> wv_ok w -> 0 <= ra -> ra mod 4 = 0 -> ra + size w <= 2 ^ 21 ->
  let '(w', h') := store_step ro spi_ready cpu_big ch n i ra w h in
  w' = stored_wv w /\ chreg ch CVORG_SEQNR h' = chreg ch CVORG_SEQNR h /\
  blk_played h' i = wants w /\ blk_below h' i (ra + size w) /\
  (i = n - 1 -> blk_next h' i = CVORG_WFNEXTBLK_LAST) /\ (0 < i -> blk_next h' (i - 1) = i) /\
  (forall b, 0 <= b < i -> b <> i - 1 -> blk_next h' b = blk_next h b) /\
  (forall b, 0 <= b < i -> blk_below h b ra -> blk_played h' b = blk_played h b /\ blk_below h' b (ra + size w)).
Proof.
  intros Hi (Wr & Wsz & Wp & Ws) Hra0 Hra Hfit. unfold store_step.
  set (wn := normalize_wv w). set (h1 := __sram cpu_big ch wn ra h).
  destruct (__sram_spec wn ra h Hra ltac:(unfold is_u32; lia) (normalized_u16 _ Wp)) as (M1 & W1 & S1). fold h1 in M1, W1, S1.
  assert (forall b f, blk h1 b f = blk h b f) as B1 by (intros; unfold blk, chreg; by rewrite M1).
  destruct (mark_spec (0 <? i) (i - 1) i h1 ltac:(lia) (index_field i Hi)) as (K2 & G2 & N2).
  unfold cvorg_wv_mark_prev. change (prev_block_offset i) with (block_offset (i - 1)). set (h2 := if 0 <? i then _ else h1) in *.
  assert (is_field CVORG_WFSTART /\ is_field CVORG_WFNEXTBLK) as [F1 F4] by (unfold is_field; split_and!; auto).
  destruct (block_plain i _ Hi F1) as [Ho Hp].
  destruct (changes_keeps i _ _ _ _ ltac:(lia) F1 (wchan_changes _ ra h2 Ho Hp)) as [V3 K3]. rewrite u32_id in V3 by (unfold is_u32; lia).
  set (h3 := wchan _ ra h2) in *.
  pose proof (wv_store_spec i wn h3 Hi Wr ltac:(cbn; lia)) as St.
  destruct (cvorg_wv_store ro spi_ready ch (block_offset i) wn h3) as [w4 h4]. destruct St as (-> & L4 & R4 & G4 & K4).
  destruct (mark_spec (i =? n - 1) i CVORG_WFNEXTBLK_LAST h4 ltac:(lia) ltac:(done)) as (K5 & G5 & N5).
  unfold cvorg_wv_mark_last. set (h5 := if i =? n - 1 then _ else h4) in *. clearbody h5 h3 h2 h1.
  assert (forall q, word h5 q = word h1 q) as W5.
  { intros q. by rewrite (proj2 (proj2 K5)), (proj2 (proj2 K4)), (proj2 (proj2 K3)), (proj2 (proj2 K2)). }
  assert (blk h5 i CVORG_WFSTART = ra) as E1 by (rewrite (proj1 K5), (proj1 K4), V3; (done || by right)).
  assert (blk h5 i CVORG_WFLEN = size w / 2) as E2 by (rewrite (proj1 K5), L4; unfold is_field; (by auto || by right)).
  assert (blk h5 i CVORG_WFRECURR = recurr w) as E3 by (rewrite (proj1 K5), R4; unfold is_field; (by auto || by right)).
  assert (size w / 2 = Z.of_nat (length (points w))) as Elen by (rewrite Wsz, Z.mul_comm, Z.div_mul by lia; done).
  assert (blk_len h5 i = Z.of_nat (length (points w))) as Eblen.
  { unfold blk_len. rewrite E2, Elen, (land_ones_mod _ 20) by (lia || done). apply Z.mod_small. lia. }
  assert (blk_start h5 i <= ra / 2 /\ (points w = [] \/ blk_start h5 i = ra / 2)) as [Est Est'].
  { unfold blk_start. rewrite E1, (land_ones_mod _ 21) by (lia || done). destruct (decide (ra = 2 ^ 21)) as [->|].
    - split; [done|]. left. apply length_zero_iff_nil. lia.
    - rewrite Z.mod_small by lia. split; [lia|by right]. }
  split_and!.
  - done.
  - by rewrite (proj1 (proj2 K5)), (proj1 (proj2 K4)), (proj1 (proj2 K3)), (proj1 (proj2 K2)); unfold chreg; rewrite M1.
  - unfold blk_played. rewrite E3, G5, G4, Eblen, Nat2Z.id. unfold wants. f_equal.
    destruct Est' as [->|Est']; [done|]. apply list_eq. intros k. rewrite list_lookup_fmap.
    destruct (decide (k < length (points w))%nat) as [Hk|Hk].
    + rewrite lookup_seq_lt by done. cbn. destruct (lookup_lt_is_Some_2 (points w) k Hk) as [d Hd].
      assert ((normalize_point <$> points w) !! k = Some (normalize_point d)) as Hn by (by rewrite list_lookup_fmap, Hd).
      rewrite Hn. f_equal. rewrite (sram_point_word h1 h5) by done. rewrite Est'. by apply S1.
    + rewrite lookup_seq_ge, lookup_ge_None_2 by (rewrite ?length_fmap; lia). done.
  - unfold blk_below. rewrite Eblen, Wsz, (Z.mul_comm 2), Z.div_add by lia. lia.
  - intros Hn. apply N5. by apply Z.eqb_eq.
  - intros Hpos. unfold blk_next. rewrite (proj1 K5), (proj1 K4), (proj1 K3) by (done || left; lia). apply N2. by apply Z.ltb_lt.
  - intros b Hb Hne. unfold blk_next. by rewrite (proj1 K5), (proj1 K4), (proj1 K3), (proj1 K2), B1 by (done || left; lia).
  - intros b Hb Hbel.
    assert (forall f, is_field f -> f <> CVORG_WFNEXTBLK -> blk h5 b f = blk h b f) as Hfs.
    { intros f Hf Hne. by rewrite (proj1 K5), (proj1 K4), (proj1 K3), (proj1 K2), B1 by (done || (left; lia) || by right). }
    destruct (blk_played_kept h h5 b ra Hra Hbel) as [Q1 Q2]; [intros q Hq; by rewrite W5, W1|done| |].
    + by rewrite (proj1 K5), (proj1 K4), (proj1 K3), G2, B1 by (done || left; lia).
    + split; [done|]. unfold blk_below in *. pose proof (Z.div_le_mono ra (ra + size w) 2). lia.
Qed.

(** All waveforms but the last fill whole words of the SRAM. *)
Fixpoint aligned (ws : list cvorg_wv) : Prop :=
  match ws with [] => True | w :: ws => (ws <> [] -> size w mod 4 = 0) /\ aligned ws end.

Definition total (ws : list cvorg_wv) : Z := foldr (fun w s => size w + s) 0 ws.

Lemma total_nonneg ws : Forall wv_ok ws -> 0 <= total ws.
Proof. induction 1 as [|w ws (_ & Hs & _) _ IH]; unfold total in *; cbn; lia. Qed.

Lemma stored_size w : size (stored_wv w) = size w.
Proof. unfold stored_wv. by destruct (truthy _). Qed.

Lemma store_loop_spec n ws : Forall wv_ok ws -> aligned ws -> n <= 26 -> forall i ra h, 0 <= i -> i + Z.of_nat (length ws) = n ->
  0 <= ra -> (ws <> [] -> ra mod 4 = 0) -> ra + total ws <= 2 ^ 21 ->
  let '(ws', h') := store_loop ro spi_ready cpu_big ch n i ra ws h in
  ws' = stored_wv <$> ws /\ chreg ch CVORG_SEQNR h' = chreg ch CVORG_SEQNR h /\
  (forall k w, ws !! k = Some w -> blk_played h' (i + Z.of_nat k) = wants w /\
     blk_next h' (i + Z.of_nat k) = if i + Z.of_nat k =? n - 1 then CVORG_WFNEXTBLK_LAST else i + Z.of_nat k + 1) /\
  (ws <> [] -> 0 < i -> blk_next h' (i - 1) = i) /\
  (forall b, 0 <= b < i -> b <> i - 1 \/ ws = [] -> blk_next h' b = blk_next h b) /\
  (forall b, 0 <= b < i -> blk_below h b ra -> blk_played h' b = blk_played h b).
Proof.
  intros Hok Hal Hn. induction Hok as [|w ws Hw Hok IH]; intros i ra h Hi Hlen Hra Hra4 Hfit; cbn [store_loop].
  { by split_and!. }
  destruct Hal as [Hw4 Hal'].
  cbn [length] in Hlen. cbn [total foldr] in Hfit. fold (total ws) in Hfit. pose proof (total_nonneg ws Hok) as Ht.
  assert (0 <= size w) as Hsz by (destruct Hw as (_ & -> & _); lia).
  pose proof (store_step_spec n i ra w h ltac:(lia) Hw Hra (Hra4 ltac:(done)) ltac:(lia)) as St.
  destruct (store_step ro spi_ready cpu_big ch n i ra w h) as [w' h1]. destruct St as (-> & Sq & Pi & Bi & Li & Ni & Nb & Pb).
  rewrite stored_size, u32_id by (unfold is_u32; lia).
  pose proof (IH Hal' (i + 1) (ra + size w) h1 ltac:(lia) ltac:(lia) ltac:(lia)) as J. clear IH.
  destruct (store_loop ro spi_ready cpu_big ch n (i + 1) (ra + size w) ws h1) as [ws' h2].
  destruct J as (-> & Sq2 & Pk & Nk & Nb2 & Pb2); [|lia|].
  { intros Hne. rewrite Z.add_mod, Hra4, Hw4 by (done || lia). done. }
  split_and!.
  - done.
  - by rewrite Sq2.
  - intros [|k] v Hk.
    + injection Hk as <-. rewrite Z.add_0_r. split; [rewrite Pb2 by (lia || done); done|].
      destruct (Z.eqb_spec i (n - 1)) as [E|E].
      * destruct ws; [|cbn in Hlen; lia]. rewrite Nb2 by (lia || by right). by apply Li.
      * replace i with (i + 1 - 1) at 1 by lia. apply Nk; [|lia]. intros ->. cbn in Hlen. lia.
    + replace (i + Z.of_nat (S k)) with (i + 1 + Z.of_nat k) by lia. by apply Pk.
  - intros _ Hpos. rewrite Nb2 by lia. by apply Ni.
  - intros b Hb [Hne|Hne]; [|done]. rewrite Nb2 by lia. by apply Nb.
  - intros b Hb Hbel. destruct (Pb b Hb Hbel) as [P1 P2]. rewrite Pb2 by (lia || done). done.
Qed.

Lemma card_plays_spec n ws h i fuel : 0 <= i -> i + Z.of_nat (length ws) = n -> n <= 26 -> (length ws <= fuel)%nat -> ws <> [] ->
  (forall k w, ws !! k = Some w -> blk_played h (i + Z.of_nat k) = wants w /\
     blk_next h (i + Z.of_nat k) = if i + Z.of_nat k =? n - 1 then CVORG_WFNEXTBLK_LAST else i + Z.of_nat k + 1) ->
  card_plays fuel h i = wants <$> ws.
Proof.
  intros Hi Hlen Hn Hf Hne H. revert i fuel Hi Hlen Hf Hne H. induction ws as [|w ws IH]; intros i fuel Hi Hlen Hf Hne H; [done|].
  destruct fuel as [|fuel]; [cbn in Hf; lia|]. cbn [length] in *. cbn [card_plays]. rewrite fmap_cons.
  destruct (H 0%nat w eq_refl) as [Hp Hx]. rewrite Z.add_0_r in Hp, Hx. rewrite Hp, Hx. f_equal.
  destruct (Z.eqb_spec i (n - 1)) as [E|E].
  - destruct ws; [done|cbn in Hlen; lia].
  - unfold CVORG_WFNEXTBLK_LAST in *. rewrite (proj2 (Z.eqb_neq _ _)) by lia. apply IH; try lia.
    + intros ->. cbn in Hlen. lia.
    + intros k v Hk. destruct (H (S k) v Hk) as [H1 H2]. replace (i + 1 + Z.of_nat k) with (i + Z.of_nat (S k)) by lia. done.
Qed.

(** A sequence the driver accepts, with waveforms of whole points that fill
    whole words, but for the last. *)
Definition seq_ok (s : cvorg_seq) : Prop :=
  is_u32 (nr s) /\ n_waves s = Z.of_nat (length (waves s)) /\ 1 <= n_waves s <= 26 /\ Forall wv_ok (waves s) /\ aligned (waves s) /\
  total (waves s) <= CVORG_SRAM_SIZE.

Lemma single_recurr_ok s : seq_ok s -> seq_ok (single_recurr s) /\ waves (single_recurr s) <> [].
Proof.
  intros (Hnr & Hn & Hb & Hok & Hal & Ht). unfold single_recurr. destruct s as [nr0 n0 [|w ws]]; cbn in *; [lia|].
  destruct (n0 =? 1); [|done]. split; [|done]. split_and!; cbn; try done; try lia.
  apply Forall_cons in Hok as [(Hr & Hs & Hp & Hz) Hok]. apply Forall_cons. split; [|done].
  split_and!; [apply u32_range|done..].
Qed.

(** What the card plays once a sequence has been stored is the sequence: from
    block 0, in order, each waveform with its number of turns, its own gain if it
    has one, and its points rounded to what the card takes; as many times as
    asked for.  A sequence of one waveform is played once, with its turns
    multiplied.  Whatever the blocks held before, and on CPUs of both kinds. *)
Lemma storeseq_plays s h : seq_ok s ->
  let '(s', h') := __cvorg_storeseq ro spi_ready cpu_big ch s h in
  chreg ch CVORG_SEQNR h' = nr (single_recurr s) /\
  card_plays 26 h' 0 = wants <$> waves (single_recurr s) /\
  waves s' = stored_wv <$> waves (single_recurr s).
Proof.
  intros Hs. destruct (single_recurr_ok s Hs) as [(Hnr & Hn & Hb & Hok & Hal & Ht) Hne]. unfold __cvorg_storeseq.
  set (t := single_recurr s) in *. unfold CVORG_SRAM_SIZE in Ht.
  assert (plain CVORG_SEQNR) as Hp.
  { unfold plain. split_and!; try done. intros H. vm_compute in H. by apply (bool_decide_unpack _) in H || set_solver. }
  destruct (wchan_changes CVORG_SEQNR (nr t) h ltac:(done) Hp) as (Hq & _ & _). rewrite u32_id in Hq by done.
  pose proof (store_loop_spec (n_waves t) (waves t) Hok Hal ltac:(lia) 0 0 (wchan CVORG_SEQNR (nr t) h) ltac:(lia) ltac:(lia) ltac:(lia) ltac:(done) ltac:(lia)) as J.
  destruct (store_loop ro spi_ready cpu_big ch (n_waves t) 0 0 (waves t) _) as [ws' h']. destruct J as (-> & Hq' & Hk & _).
  split_and!; [by rewrite Hq'| |done].
  eapply card_plays_spec; [lia| |apply Hb|lia|done|exact Hk]. lia.
Qed.
End Registers.

(** ** Playing *)

Lemma config_plain : 0 <= CVORG_CONFIG < 0x200 /\ plain CVORG_CONFIG.
Proof. split; [done|]. unfold plain. split_and!; try done. intros H. vm_compute in H. set_solver. Qed.

Section Quiet.
Variable ro : Z -> nat -> Z.
Variable spi_ready : nat -> bool.
Variable c : cvorg_channel.
Hypothesis Hch : is_chan (reg_offset c).

(** The stored sequence is left alone. *)
Definition quiet (h h' : cvhw) : Prop := keeps (reg_offset c) (fun b _ => 0 <= b) h h'.

Lemma quiet_trans h1 h2 h3 : quiet h1 h2 -> quiet h2 h3 -> quiet h1 h3.
Proof. intros H1 H2. eapply keeps_trans; [exact H1|exact H2|auto]. Qed.

Lemma same_quiet h h' : cv_mem h' = cv_mem h -> cv_sram h' = cv_sram h -> quiet h h'.
Proof. intros Hm Hs. unfold quiet, keeps, blk, chreg, word. by rewrite Hm, Hs. Qed.

Lemma config_quiet v h h' : changes (reg_offset c) CVORG_CONFIG v h h' -> quiet h h'.
Proof.
  intros (_ & Ho & Hs & _). split_and!.
  - intros b f Hf Hb. apply Ho. apply field_values in Hf. unfold block_offset, CVORG_BLKOFFSET, CVORG_BLKSIZE, CVORG_CONFIG. lia.
  - by apply Ho.
  - intros q. unfold word. by rewrite Hs.
Qed.

Lemma status_quiet h : quiet h (cvorg_rchan ro spi_ready (reg_offset c) CVORG_STATUS h).2.
Proof.
  unfold cvorg_rchan, cvorg_readw, hw_read, read_only. rewrite chan_of_off by done.
  replace (reg_offset c + CVORG_STATUS - reg_offset c) with CVORG_STATUS by lia. by apply same_quiet.
Qed.

Lemma ctl_quiet v h : quiet h (cvorg_wchan (reg_offset c) CVORG_CTL v h).
Proof.
  unfold cvorg_wchan, cvorg_writew, hw_write. rewrite chan_of_off by done.
  replace (reg_offset c + CVORG_CTL - reg_offset c) with CVORG_CTL by lia. by apply same_quiet.
Qed.

Lemma uchan_config_quiet v m h : quiet h (cvorg_uchan ro spi_ready (reg_offset c) CVORG_CONFIG v m h).
Proof. destruct config_plain as [Ho Hp]. exact (config_quiet _ _ _ (uchan_changes _ _ _ Hch _ _ _ _ Ho Hp)). Qed.

Lemma ready_quiet h : quiet h (__cvorg_channel_ready ro spi_ready c h).2.
Proof.
  unfold __cvorg_channel_ready. pose proof (status_quiet h) as H. by destruct (cvorg_rchan _ _ _ _ h).
Qed.

Lemma startable_quiet n chreg h : quiet h (startable_loop ro spi_ready n c chreg h).
Proof.
  revert chreg h. induction n as [|n IH]; intros chreg h; cbn [startable_loop]; case_goal; try by apply keeps_same.
  pose proof (status_quiet h) as H. destruct (cvorg_rchan _ _ _ _ h) as [chreg' h']. eapply quiet_trans; [exact H|apply IH].
Qed.

Lemma poll_quiet h : quiet h (cvorg_poll_startable ro spi_ready c h).
Proof.
  unfold cvorg_poll_startable. pose proof (status_quiet h) as H2.
  destruct (cvorg_rchan _ _ _ _ h) as [chreg h3]. eapply quiet_trans; [exact H2|apply startable_quiet].
Qed.

Lemma play_wv_quiet h : quiet h (play_wv ro spi_ready c h).
Proof.
  unfold play_wv. pose proof (ready_quiet h) as H1. destruct (__cvorg_channel_ready _ _ _ h) as [r h1]. cbn in H1.
  eapply quiet_trans; [exact H1|]. eapply quiet_trans; [apply uchan_config_quiet|]. eapply quiet_trans; [apply ctl_quiet|]. apply poll_quiet.
Qed.

Lemma quiet_plays h h' fuel : quiet h h' -> forall b, 0 <= b -> card_plays (reg_offset c) fuel h' b = card_plays (reg_offset c) fuel h b.
Proof.
  intros (Hb & _ & Hw). assert (forall b f, 0 <= b -> is_field f -> blk (reg_offset c) h' b f = blk (reg_offset c) h b f) as Hf by auto.
  assert (forall b, 0 <= b -> blk_played (reg_offset c) h' b = blk_played (reg_offset c) h b /\ blk_next (reg_offset c) h' b = blk_next (reg_offset c) h b) as Hp.
  { intros b Hb0. unfold blk_played, blk_next, blk_start, blk_len. rewrite !Hf by (done || (unfold is_field; auto)). split; [|done].
    f_equal. apply list_fmap_ext. intros j k _. apply sram_point_word, Hw. }
  induction fuel as [|fuel IH]; intros b Hb0; [done|]. cbn [card_plays]. destruct (Hp b Hb0) as [-> ->]. f_equal.
  case_goal; [done|]. apply IH. unfold blk_next. apply Z.land_nonneg. by right.
Qed.
End Quiet.

(** What the driver copied of the user's sequence, if all could be read. *)
Definition copied (u : user_seq) : option cvorg_seq :=
  match copy_waves (us_env u) (Z.to_nat (us_n_waves u)) 0 with
  | Some (ws, 0, _) => Some (Seq (us_nr u) (us_n_waves u) ws)
  | _ => None
  end.

(** ** Memory *)

(** Objects of one kind, acquired and then released in the same order. *)
Definition acqs (k : Z) (ids : list nat) : list kev := (fun i : nat => Acq k (Z.of_nat i)) <$> ids.
Definition rels (k : Z) (ids : list nat) : list kev := (fun i : nat => Rel k (Z.of_nat i)) <$> ids.

Lemma acqs_run k ids : NoDup ids -> forall s, (forall i, i ∈ ids -> (k, Z.of_nat i) ∉ s) -> exists s',
  own_run (acqs k ids) s = Some s' /\ forall x, x ∈ s' <-> x ∈ s \/ exists i, i ∈ ids /\ x = (k, Z.of_nat i).
Proof.
  induction 1 as [|i ids Hi Hnd IH]; intros s Hs.
  - exists s. split; [done|]. intros x. split; [by left|]. intros [?|(i & Hi & _)]; [done|]. by apply elem_of_nil in Hi.
  - unfold acqs in *. rewrite fmap_cons, own_run_cons. cbn [own_step]. rewrite decide_False by (apply Hs; left).
    destruct (IH ({[(k, Z.of_nat i)]} ∪ s)) as (s' & Hr & Hx).
    { intros j Hj. rewrite elem_of_union, elem_of_singleton. intros [[= ->%Nat2Z.inj]|Hin]; [done|]. eapply Hs; [by right|done]. }
    exists s'. split; [done|]. intros x. rewrite Hx, elem_of_union, elem_of_singleton. split.
    + intros [[->|?]|(j & Hj & ->)]; [right; exists i; by split; [left|]|by left|right; exists j; by split; [right|]].
    + intros [?|(j & [->|Hj]%elem_of_cons & ->)]; [by left; right|by left; left|right; by exists j].
Qed.

Lemma rels_run k ids : NoDup ids -> forall s, (forall i, i ∈ ids -> (k, Z.of_nat i) ∈ s) -> exists s',
  own_run (rels k ids) s = Some s' /\ forall x, x ∈ s' <-> x ∈ s /\ ~ exists i, i ∈ ids /\ x = (k, Z.of_nat i).
Proof.
  induction 1 as [|i ids Hi Hnd IH]; intros s Hs.
  - exists s. split; [done|]. intros x. split; [|by intros [? _]]. intros Hx. split; [done|]. intros (i & Hi & _). by apply elem_of_nil in Hi.
  - unfold rels in *. rewrite fmap_cons, own_run_cons. cbn [own_step]. rewrite decide_True by (apply Hs; left).
    destruct (IH (s ∖ {[(k, Z.of_nat i)]})) as (s' & Hr & Hx).
    { intros j Hj. rewrite elem_of_difference, elem_of_singleton. split; [apply Hs; by right|]. intros [= ->%Nat2Z.inj]. done. }
    exists s'. split; [done|]. intros x. rewrite Hx, elem_of_difference, elem_of_singleton. split.
    + intros [[H1 H2] H3]. split; [done|]. intros (j & [->|Hj]%elem_of_cons & ->); [done|]. apply H3. by exists j.
    + intros [H1 H2]. split_and!; [done| |].
      * intros ->. apply H2. exists i. by split; [left|].
      * intros (j & Hj & ->). apply H2. exists j. by split; [right|].
Qed.

(** The whole of an allocation, and of its release. *)
Lemma alloc_free_run ids : NoDup ids -> own_run (Acq KWAVES 0 :: acqs KFORM ids ++ rels KFORM ids ++ [Rel KWAVES 0]) ∅ = Some ∅.
Proof.
  intros Hnd. rewrite own_run_cons. cbn [own_step]. rewrite decide_False by set_solver.
  change (own_run (acqs KFORM ids ++ rels KFORM ids ++ [Rel KWAVES 0]) ({[(KWAVES, 0)]} ∪ ∅) = Some ∅).
  destruct (acqs_run KFORM ids Hnd ({[(KWAVES, 0)]} ∪ ∅)) as (s1 & H1 & X1).
  { intros i _. rewrite elem_of_union, elem_of_singleton. by intros [[=]|?%elem_of_empty]. }
  rewrite (own_run_app _ _ _ _ H1).
  destruct (rels_run KFORM ids Hnd s1) as (s2 & H2 & X2).
  { intros i Hi. apply X1. right. by exists i. }
  rewrite (own_run_app _ _ _ _ H2). unfold own_run. cbn.
  assert (forall x, x ∈ s2 <-> x = (KWAVES, 0)) as Hs2.
  { intros x. rewrite X2, X1, elem_of_union, elem_of_singleton. split.
    - intros [[[?|?%elem_of_empty]|?] ?]; done.
    - intros ->. split; [by left; left|]. intros (i & _ & [=]). }
  rewrite decide_True by (by apply Hs2). f_equal. apply set_eq. intros x. rewrite elem_of_difference, Hs2, elem_of_singleton. set_solver.
Qed.

(** Fresh descriptors happen to hold no pointer, and no waveform is empty. *)
Definition tame (e : seq_env) : Prop :=
  (forall j, form (se_garbage e j) = FNull) /\ (forall j u, se_desc e j = Some u -> u_size u <> 0).

Lemma copy_waves_log e : tame e -> forall k i ws err log, copy_waves e k i = Some (ws, err, log) ->
  exists m, log = acqs KFORM (seq i m) /\ flat_map free_wv ws = rels KFORM (seq i m).
Proof.
  intros [Hg Hs]. assert (forall (js : list nat), flat_map free_wv (se_garbage e <$> js) = []) as Hgs.
  { induction js as [|j js IHj]; [done|]. cbn. rewrite IHj. unfold free_wv. by rewrite Hg. }
  induction k as [|k IH]; intros i ws err log; cbn [copy_waves].
  { intros [= <- <- <-]. by exists 0%nat. }
  unfold copy_wv_from_user. destruct (se_desc e i) as [u|] eqn:Eu; cbn.
  - specialize (Hs i u Eu). rewrite sysbrk_not_null. destruct (se_mem e i); [|done]. cbn.
    destruct (se_form_ok e i); cbn.
    + destruct (copy_waves e k (S i)) as [[[ws' err'] log']|] eqn:Ec; [|done]. cbn. intros [= <- <- <-].
      destruct (IH _ _ _ _ Ec) as (m & -> & Hm). exists (S m). split; [done|]. cbn [flat_map]. rewrite Hm.
      unfold free_wv. cbn. by rewrite (proj2 (Z.eqb_neq _ _)).
    + intros [= <- <- <-]. exists 1%nat. split; [done|]. cbn [flat_map]. rewrite Hgs. unfold free_wv. cbn. by rewrite (proj2 (Z.eqb_neq _ _)).
  - intros [= <- <- <-]. exists 0%nat. split; [done|]. cbn [flat_map]. rewrite Hgs. unfold free_wv. by rewrite Hg.
Qed.

Lemma free_wv_ext w w' : form w' = form w -> size w' = size w -> free_wv w' = free_wv w.
Proof. unfold free_wv. by intros -> ->. Qed.

Section Load.
Variable ro : Z -> nat -> Z.
Variable spi_ready : nat -> bool.
Variable cpu_big : bool.
Variable c : cvorg_channel.

Lemma store_loop_frees ch n ws : forall i ra h, flat_map free_wv (store_loop ro spi_ready cpu_big ch n i ra ws h).1 = flat_map free_wv ws.
Proof.
  induction ws as [|w ws IH]; intros i ra h; [done|]. cbn [store_loop].
  destruct (store_step ro spi_ready cpu_big ch n i ra w h) as [w' h1] eqn:E.
  specialize (IH (i + 1) (u32 (ra + size w')) h1). destruct (store_loop ro spi_ready cpu_big ch n (i + 1) (u32 (ra + size w')) ws h1) as [ws' h2].
  cbn in IH |- *. rewrite IH. f_equal. revert E. unfold store_step, cvorg_wv_store, cvorg_wv_gain_store.
  destruct (truthy (dynamic_gain (normalize_wv w))); cbn; intros [= <- _]; by apply free_wv_ext.
Qed.

Lemma loadseq_frees s h : flat_map free_wv (waves (__cvorg_loadseq ro spi_ready cpu_big c s h).1.2) = flat_map free_wv (waves s).
Proof.
  unfold __cvorg_loadseq, cvorg_storeseq. destruct (_ <? _); [done|]. destruct (_ || _); [done|].
  destruct (__cvorg_sram_busy ro spi_ready c _) as [[] h1]; [done|]. unfold __cvorg_storeseq.
  pose proof (store_loop_frees (reg_offset c) (n_waves (single_recurr s)) (waves (single_recurr s)) 0 0
    (cvorg_wchan (reg_offset c) CVORG_SEQNR (nr (single_recurr s)) h1)) as H.
  destruct (store_loop _ _ _ _ _ _ _ _ _) as [ws h2]. cbn in H |- *. rewrite H.
  unfold single_recurr. destruct (waves s) as [|w ws'] eqn:Ew; [by rewrite Ew|]. case_goal; [done|by rewrite Ew].
Qed.

Lemma seq_init_log e seq_nr n rc s log : tame e -> seq_init e seq_nr n = Some (rc, s, log) -> exists m,
  if truthy rc then log = [] /\ rc = ENOMEM \/ log = Acq KWAVES 0 :: acqs KFORM (seq 0 m) ++ rels KFORM (seq 0 m) ++ [Rel KWAVES 0]
  else log = Acq KWAVES 0 :: acqs KFORM (seq 0 m) /\ flat_map free_wv (waves s) = rels KFORM (seq 0 m).
Proof.
  intros Ht. unfold seq_init. rewrite sysbrk_not_null. case_goal; [done|].
  destruct (copy_waves e (Z.to_nat n) 0) as [[[ws err] l]|] eqn:Ec; [|done]. cbn.
  destruct (copy_waves_log e Ht _ _ _ _ _ Ec) as (m & -> & Hm).
  destruct (truthy err) eqn:Et; intros [= <- <- <-]; exists m.
  - rewrite Et. right. unfold free_seq. by rewrite Hm.
  - done.
Qed.

Lemma seq_init_total e seq_nr n : (forall i, se_mem e i = true) -> se_mem_waves e = true -> 0 <= n -> n * sizeof_cvorg_wv < 2 ^ 32 ->
  is_Some (seq_init e seq_nr n).
Proof.
  intros Hmem Hw Hn0 Hn. unfold seq_init. rewrite sysbrk_not_null, Hw. cbn [negb orb].
  assert ((waves_bytes n <? n * sizeof_cvorg_wv) = false) as ->.
  { unfold waves_bytes. rewrite u32_id by (unfold is_u32, sizeof_cvorg_wv in *; lia). apply Z.ltb_irrefl. }
  assert (is_Some (copy_waves e (Z.to_nat n) 0)) as [[[ws err] log] ->]; [|done].
  generalize 0%nat. induction (Z.to_nat n) as [|k IH]; intros i; [done|]. cbn [copy_waves].
  assert (is_Some (copy_wv_from_user e i)) as [[[w err] log] ->].
  { unfold copy_wv_from_user. destruct (se_desc _ i); [|done]. rewrite sysbrk_not_null, Hmem. cbn. by destruct (se_form_ok _ i). }
  cbn. destruct (truthy err); [done|]. destruct (IH (S i)) as [[[ws' err'] log'] ->]. done.
Qed.


End Load.

(** ** An example, and what goes wrong *)

(** A card that is ready, at 1 MHz. *)
Definition ready_card (a : Z) (t : nat) : Z :=
  if a =? CVORG_STATUS then 0x301 else if a =? CVORG_SAMPFREQ then 1000000 else 0.

Definition chan_a : cvorg_channel := Chan 0 0 20 CVORG_CHAN1_OFFSET 0.
Definition blank_card : cvhw := Cvhw ∅ ∅ ∅ ∅ 0 [] 0.

(** Two waveforms: four points at the gain of the channel, played twice, and
    three points at 13 dB. *)
Definition user_waves (i : nat) : user_wv :=
  match i with O => Uwv 2 8 0 0 (fun k => 1000 * (k + 1)) | _ => Uwv 1 6 1 13 (fun k => 65533 + k) end.

Definition garbage_wv (f : form_ptr) : cvorg_wv := Wv 0 100 0 0 f [].

Definition env_of (desc : nat -> option user_wv) (f : form_ptr) : seq_env :=
  SeqEnv desc (fun _ => true) (fun _ => true) true (fun _ => garbage_wv f).

Definition user0 : user_seq := UserSeq 3 2 false user_waves (env_of (fun i => Some (user_waves i)) FNull) (fun _ => true).

Definition seq0 : cvorg_seq := Seq 3 2
  [Wv 2 8 0 0 (FBuf 0) [1000; 2000; 3000; 4000]; Wv 1 6 1 13 (FBuf 1) [65533; 65534; 65535]].


Lemma user0_tame : tame (us_env user0).
Proof. split; [done|]. intros [|j] v [= <-]; done. Qed.


(** When the second descriptor cannot be read, what the fresh array holds there
    is freed as if it were a waveform: with a pointer in it, that is not the
    driver's to free. *)
Definition user_bad : user_seq :=
  UserSeq 3 2 false user_waves (env_of (fun i => match i with O => Some (user_waves 0) | _ => None end) FWild) (fun _ => true).

Lemma garbage_is_freed : exists r h',
  cvorg_loadseq ready_card (fun _ => true) false chan_a user_bad blank_card = Some (r, h') /\ lr_errno r = EFAULT /\
  Rel KWILD 0 ∈ lr_log r /\ own_run (lr_log r) ∅ = None.
Proof. eexists _, _. split; [by vm_compute|]. split; [done|]. split; [|by vm_compute]. cbn. repeat (left || right). Qed.

(** A waveform of no bytes passes the checks below 50 MHz, and its buffer, which
    still has a header, is never freed. *)
Definition user_empty : user_seq :=
  let ws := fun _ => Uwv 0 0 0 0 (fun _ => 0) in UserSeq 1 1 false ws (env_of (fun i => Some (ws i)) FNull) (fun _ => true).

Lemma empty_waveform_leaks : exists r h',
  cvorg_loadseq ready_card (fun _ => true) false chan_a user_empty blank_card = Some (r, h') /\ lr_errno r = 0 /\
  own_run (lr_log r) ∅ = Some {[(KFORM, 0)]}.
Proof. eexists _, _. split; [by vm_compute|]. split; [done|]. by vm_compute. Qed.

(** Memory that is short is not noticed: the error pointer is used. *)
Lemma shortage_not_noticed e seq_nr n : se_mem_waves e = false -> seq_init e seq_nr n = None.
Proof. intros H. unfold seq_init. rewrite sysbrk_not_null, H. done. Qed.

(** The size of the array of descriptors wraps around: 214748365 waveforms get
    four bytes. *)
Lemma descriptors_wrap : waves_bytes 214748365 = 4.
Proof. done. Qed.

(** So does the length that is checked: 2^16 turns of 2^15 points count as none. *)
Lemma turns_wrap : u32 (2 ^ 16 * 2 ^ 16) / 2 = 0.
Proof. done. Qed.

(** A waveform that fills the SRAM passes the check of the size, and its length
    has no bit left in the register. *)
Lemma full_waveform_plays_nothing : let w := Wv 1 CVORG_SRAM_SIZE 0 0 (FBuf 0) [] in
  CVORG_SRAM_SIZE <? seq_size (Seq 1 1 [w]) = false /\
  blk_len 0 (cvorg_wv_store (fun _ _ => 0) (fun _ => true) 0 (block_offset 0) w blank_card).2 0 = 0.
Proof. by vm_compute. Qed.
