(* ===== verification/CvorgIoctl.v ===== *)
(** * The CVORG module: reset, ioctls, ownership ([cvorg/driver/cvorg-skel.c])

    What the driver keeps of a module, the ioctls on it with their locking, and
    the functions the skeleton driver calls when a module or a client comes and
    goes. *)

From S2P Require Import Prelude SkelIo CvorgHw Clkgen Cvorg CdcmMem CvorgSeq.

Record cvorg := Cv {
  cv_hw_rev : Z;
  cv_owner : option Z;          (* the file that locked the module *)
  cv_pll : ad9516_pll;
  cv_chan0 : cvorg_channel;
  cv_chan1 : cvorg_channel;
}.

Definition cvorg_get_channel (n : Z) (c : cvorg) : cvorg_channel := if n =? 0 then cv_chan0 c else cv_chan1 c.

Definition put_channel (n : Z) (ch : cvorg_channel) (c : cvorg) : cvorg :=
  if n =? 0 then Cv (cv_hw_rev c) (cv_owner c) (cv_pll c) ch (cv_chan1 c)
  else Cv (cv_hw_rev c) (cv_owner c) (cv_pll c) (cv_chan0 c) ch.

Definition set_owner o c := Cv (cv_hw_rev c) o (cv_pll c) (cv_chan0 c) (cv_chan1 c).
Definition set_pll p c := Cv (cv_hw_rev c) (cv_owner c) p (cv_chan0 c) (cv_chan1 c).

Definition __cvorg_check_perm (c : cvorg) (file : Z) : bool :=
  match cv_owner c with Some o => negb (o =? file) | None => false end.

(** A module: what the driver keeps and the card. *)
Record cdev := Dev { d_cvorg : cvorg; d_hw : cvhw }.

(** ** Commands *)

Inductive cvcmd :=
  | IOCGCHANNEL | IOCSCHANNEL (v : Z)
  | IOCGOUTOFFSET | IOCSOUTOFFSET (v : Z)
  | IOCGINPOLARITY | IOCSINPOLARITY (v : Z)
  | IOCGPLL | IOCSPLL (p : ad9516_pll)
  | IOCGSRAM (address : Z) | IOCSSRAM (address d0 d1 : Z)
  | IOCSTRIGGER (v : Z)
  | IOCSLOADSEQ (u : user_seq)
  | IOCGCHANSTAT | IOCGSAMPFREQ
  | IOCTUNLOCK_FORCE | IOCTUNLOCK | IOCTLOCK
  | IOCGMODE | IOCSMODE (v : Z)
  | IOCGOUTGAIN | IOCSOUTGAIN (v : Z)
  | IOCGADC_READ (channel range : Z)
  | IOCGDAC_VAL | IOCSDAC_VAL (v : Z)
  | IOCGDAC_GAIN | IOCSDAC_GAIN (v : Z)
  | IOCGDAC_OFFSET | IOCSDAC_OFFSET (v : Z)
  | IOCGTEMPERATURE
  | IOCSOUT_ENABLE (v : Z)
  | IOCGPCB_ID
  | IOC_other (nr : Z).

Definition _IOC_NR (cm : cvcmd) : Z :=
  match cm with
  | IOCGCHANNEL => 11 | IOCSCHANNEL _ => 12
  | IOCGOUTOFFSET => 13 | IOCSOUTOFFSET _ => 53
  | IOCGINPOLARITY => 14 | IOCSINPOLARITY _ => 54
  | IOCGPLL => 15 | IOCSPLL _ => 55
  | IOCGSRAM _ => 16 | IOCSSRAM _ _ _ => 56
  | IOCSTRIGGER _ => 57 | IOCSLOADSEQ _ => 58
  | IOCGCHANSTAT => 19 | IOCGSAMPFREQ => 20
  | IOCTUNLOCK_FORCE => 21 | IOCTUNLOCK => 61 | IOCTLOCK => 62
  | IOCGMODE => 23 | IOCSMODE _ => 63
  | IOCGOUTGAIN => 24 | IOCSOUTGAIN _ => 64
  | IOCGADC_READ _ _ => 65
  | IOCGDAC_VAL => 26 | IOCSDAC_VAL _ => 66
  | IOCGDAC_GAIN => 27 | IOCSDAC_GAIN _ => 67
  | IOCGDAC_OFFSET => 28 | IOCSDAC_OFFSET _ => 68
  | IOCGTEMPERATURE => 29 | IOCSOUT_ENABLE _ => 70 | IOCGPCB_ID => 31
  | IOC_other nr => nr
  end.

Definition CVORG_IOCTL_NO_LOCKING : Z := 10.
Definition CVORG_IOCTL_LOCKING : Z := 50.

(** What an ioctl leaves in the user's argument. *)
Inductive cvout :=
  | ONone | OZ (v : Z) | OPll (p : ad9516_pll) | OSram (d0 d1 : Z) | OGains (l : list (nat * Z)).

(** The result: [SkelUserReturnOK], or [SkelUserReturnFAILED] and the like with
    the errno. *)
Inductive uret := UOk (o : cvout) | UErr (e : Z).

Section Ioctl.
Variable ro : Z -> nat -> Z.
Variable spi_ready : nat -> bool.
Variable cpu_big : bool.
Local Notation rchan ch := (cvorg_rchan ro spi_ready (reg_offset ch)).
Local Notation wchan ch := (cvorg_wchan (reg_offset ch)).
Local Notation uchan ch := (cvorg_uchan ro spi_ready (reg_offset ch)).
Local Notation busy := (__cvorg_channel_busy ro spi_ready).

(** ** PLL *)

Definition CVORG_FREQ_DIV : Z := 10000.

Definition pll_div (freq d : Z) : Z := if truthy d then Z.quot freq d else freq.

(** The frequency a configuration gives, in units of 10 kHz. *)
Definition pll_freq (pll : ad9516_pll) : Z :=
  let n := u32 (pll_p pll * pll_b pll + pll_a pll) in
  let freq := s32 (u32 (AD9516_OSCILLATOR_FREQ / CVORG_FREQ_DIV * n)) in
  pll_div (pll_div (pll_div (pll_div freq (pll_r pll)) (pll_dvco pll)) (pll_d1 pll)) (pll_d2 pll).

Definition read_sampfreq (h : cvhw) : Z * cvhw :=
  let '(v, h) := cvorg_readw ro spi_ready CVORG_SAMPFREQ h in (v / CVORG_FREQ_DIV, h).

(** [n] tries are left. *)
Fixpoint sampfreq_loop (n : nat) (freq sampfreq : Z) (h : cvhw) : Z * cvhw :=
  if negb (1 <? cvorg_absdiff sampfreq freq) then (0, h) else
  match n with
  | O => (ETIME, h)
  | S n => let '(sampfreq, h) := read_sampfreq h in sampfreq_loop n freq sampfreq h
  end.

Definition cvorg_poll_sampfreq (pll : ad9516_pll) (h : cvhw) : Z * cvhw :=
  if truthy (pll_external pll) then (0, h) else
  let '(sampfreq, h) := read_sampfreq h in sampfreq_loop 100 (pll_freq pll) sampfreq h.

Definition cvorg_pll_cfg_init : ad9516_pll := Pll 0 4375 16 1000 2 14 1 0.

(** The PLL as it was corrected stays in the module's data. *)
Definition __cvorg_apply_pll (pll : ad9516_pll) (h : cvhw) : Z * ad9516_pll * cvhw :=
  let '(cal, pll, h) := clkgen_apply_pll_conf ro spi_ready pll h in
  if truthy cal then (EAGAIN, pll, h) else
  let '(e, h) := cvorg_poll_sampfreq pll h in (e, pll, h).

Definition __cvorg_busy (c : cvorg) (h : cvhw) : bool * cvhw :=
  let '(b, h) := busy (cv_chan0 c) h in
  if b then (true, h) else busy (cv_chan1 c) h.

Definition gs_pll_ioctl (set : option ad9516_pll) (d : cdev) : uret * cdev :=
  let c := d_cvorg d in
  match set with
  | None => (UOk (OPll (cv_pll c)), d)
  | Some pll =>
      let '(b, h) := __cvorg_busy c (d_hw d) in
      if b then (UErr EBUSY, Dev c h) else
      if negb (clkgen_check_pll pll) then (UErr EINVAL, Dev c h) else
      let '(e, pll', h) := __cvorg_apply_pll pll h in
      (* the ioctl's argument keeps what the user gave *)
      (if truthy e then UErr e else UOk (OPll pll), Dev (set_pll pll' c) h)
  end.

(** ** Channels *)

(** Puts a channel back with its configuration in the registers. *)
Definition with_channel (n : Z) (f : cvorg_channel -> cvhw -> uret * cvorg_channel * cvhw) (d : cdev) : uret * cdev :=
  let '(r, ch, h) := f (cvorg_get_channel n (d_cvorg d)) (d_hw d) in (r, Dev (put_channel n ch (d_cvorg d)) h).

Definition gs_outoff_ioctl (set : option Z) (ch : cvorg_channel) (h : cvhw) : uret * cvorg_channel * cvhw :=
  match set with
  | None => (UOk (OZ (ch_outoff ch)), ch, h)
  | Some offset =>
      if cvorg_invalid_gain_offset (ch_outgain ch) offset then (UErr EINVAL, ch, h) else
      let ch := set_outoff (if offset =? CVORG_OUT_OFFSET_2_5V then CVORG_OUT_OFFSET_2_5V else CVORG_OUT_OFFSET_0V) ch in
      (UOk ONone, ch, __cvorg_apply_channel_outoff ro spi_ready ch h)
  end.

Definition gs_inpol_ioctl (set : option Z) (ch : cvorg_channel) (h : cvhw) : uret * cvorg_channel * cvhw :=
  match set with
  | None => (UOk (OZ (ch_inpol ch)), ch, h)
  | Some polarity =>
      let '(b, h) := busy ch h in
      if b then (UErr EBUSY, ch, h) else
      let ch := set_inpol (if truthy polarity then CVORG_NEGATIVE_PULSE else CVORG_POSITIVE_PULSE) ch in
      (UOk ONone, ch, __cvorg_apply_channel_inpol ro spi_ready ch h)
  end.

Definition s_trig_ioctl (trig : Z) (ch : cvorg_channel) (h : cvhw) : uret * cvorg_channel * cvhw :=
  if trig =? 0 then (UOk ONone, ch, wchan ch CVORG_CTL CVORG_CTL_CHAN_START h) else
  if trig =? 1 then (UOk ONone, ch, wchan ch CVORG_CTL CVORG_CTL_CHAN_STOP h) else
  if trig =? 2 then (UOk ONone, ch, wchan ch CVORG_CTL CVORG_CTL_CHAN_EVSTOP h) else (UErr EINVAL, ch, h).

Definition gs_sram_ioctl (address : Z) (set : option (Z * Z)) (ch : cvorg_channel) (h : cvhw) : uret * cvorg_channel * cvhw :=
  let '(b, h) := if set then busy ch h else (false, h) in
  if b then (UErr EBUSY, ch, h) else
  if CVORG_SRAM_SIZE <=? address then (UErr EINVAL, ch, h) else
  let '(sb, h) := __cvorg_sram_busy ro spi_ready ch h in
  if sb then (UErr EAGAIN, ch, h) else
  let h := wchan ch CVORG_SRAMADDR (Z.land address (not32 0x3)) h in
  match set with
  | None =>
      let '(rval, h) := cvorg_rchan_noswap ro spi_ready cpu_big (reg_offset ch) CVORG_SRAMDATA h in
      let '(d0, d1) := cvorg_hw_to_cpu cpu_big rval in (UOk (OSram d0 d1), ch, h)
  | Some (d0, d1) => (UOk ONone, ch, cvorg_wchan_noswap cpu_big (reg_offset ch) CVORG_SRAMDATA (cvorg_cpu_to_hw cpu_big d0 d1) h)
  end.

(** The bits of the status the user sees, and where they come from. *)
Definition chanstat_bits : list (Z * Z) :=
  [(CVORG_STATUS_READY, 0x1); (CVORG_STATUS_BUSY, 0x2); (CVORG_STATUS_SRAM_BUSY, 0x80); (CVORG_STATUS_ERR, 0x4);
   (CVORG_STATUS_ERR_CLK, 0x10); (CVORG_STATUS_ERR_TRIG, 0x20); (CVORG_STATUS_ERR_SYNC, 0x40);
   (CVORG_STATUS_CLKOK, 0x8); (CVORG_STATUS_STARTABLE, 0x100)].

Definition cvorg_g_chanstat (ch : cvorg_channel) (h : cvhw) : uret * cvorg_channel * cvhw :=
  let '(val, h) := rchan ch CVORG_STATUS h in
  let status := foldl (fun s b => if truthy (Z.land val b.1) then Z.lor s b.2 else s) 0 chanstat_bits in
  let '(val, h) := rchan ch CVORG_CONFIG h in
  (UOk (OZ (if truthy (Z.land val CVORG_CONFIG_OUT_ENABLE) then Z.lor status 0x200 else status)), ch, h).

Definition cvorg_gs_mode_ioctl (set : option Z) (ch : cvorg_channel) (h : cvhw) : uret * cvorg_channel * cvhw :=
  match set with
  | None => let '(m, h) := cvorg_mode_get ro spi_ready ch h in (UOk (OZ (mode_code m)), ch, h)
  | Some v =>
      if negb (cvorg_mode_is_valid v) then (UErr EINVAL, ch, h) else (UOk ONone, ch, cvorg_mode_set ro spi_ready ch v h)
  end.

Definition cvorg_gs_outgain_ioctl (set : option Z) (ch : cvorg_channel) (h : cvhw) : uret * cvorg_channel * cvhw :=
  match set with
  | None => (UOk (OZ (ch_outgain ch)), ch, h)
  | Some outgain =>
      let gain := cvorg_gain_approx outgain in
      let '(b, h) := busy ch h in
      if b then (UErr EBUSY, ch, h) else
      if cvorg_invalid_gain_offset gain (ch_outoff ch) then (UErr EINVAL, ch, h) else
      let ch := set_outgain gain ch in
      (UOk (OZ gain), ch, __cvorg_apply_channel_outgain ro spi_ready ch h)
  end.

(** ** ADC and DAC *)

Definition cvorg_adc_channel_to_hw (channel reg : Z) : option Z :=
  if (0 <=? channel) && (channel <=? 3)
  then Some (Z.lor (Z.land reg (not32 CVORG_CONFIG_ADCSELECT_MASK)) (Z.shiftl (channel + 1) CVORG_CONFIG_ADCSELECT_SHIFT)) else None.

Definition adc_range_code (range : Z) : option Z :=
  if range =? 0 then Some 0x0 else if range =? 1 then Some 0x2 else if range =? 2 then Some 0x1 else if range =? 3 then Some 0x3 else None.

Definition cvorg_adc_range_to_hw (range reg : Z) : option Z :=
  val ← adc_range_code range;
  Some (Z.lor (Z.land reg (not32 CVORG_CONFIG_ADCRANGE_MASK)) (Z.shiftl val CVORG_CONFIG_ADCRANGE_SHIFT)).

Fixpoint adc_loop (n : nat) (ch : cvorg_channel) (reg : Z) (h : cvhw) : option Z * cvhw :=
  if truthy (Z.land reg CVORG_ADCVAL_UP2DATE) then (Some reg, h) else
  match n with
  | O => (None, h)
  | S n => let '(reg, h) := rchan ch CVORG_ADCVAL h in adc_loop n ch reg h
  end.

Definition cvorg_adc_read_ioctl (channel range : Z) (ch : cvorg_channel) (h : cvhw) : uret * cvorg_channel * cvhw :=
  let '(b, h) := busy ch h in
  if b then (UErr EBUSY, ch, h) else
  match cvorg_adc_channel_to_hw channel 0 with
  | None => (UErr EINVAL, ch, h)
  | Some reg =>
      match cvorg_adc_range_to_hw range reg with
      | None => (UErr EINVAL, ch, h)
      | Some reg =>
          let h := uchan ch CVORG_CONFIG reg (Z.lor CVORG_CONFIG_ADCSELECT_MASK CVORG_CONFIG_ADCRANGE_MASK) h in
          let h := wchan ch CVORG_CTL CVORG_CTL_READADC h in
          let '(reg, h) := rchan ch CVORG_ADCVAL h in
          let '(v, h) := adc_loop 11 ch reg h in
          match v with
          | Some v => (UOk (OZ (Z.land v CVORG_ADCVAL_READVAL)), ch, h)
          | None => (UErr EAGAIN, ch, h)
          end
      end
  end.

Definition cvorg_dac_val_ioctl (set : option Z) (ch : cvorg_channel) (h : cvhw) : uret * cvorg_channel * cvhw :=
  match set with
  | Some v => (UOk ONone, ch, wchan ch CVORG_DACVAL (Z.land v CVORG_DACVAL_MASK) h)
  | None => let '(v, h) := rchan ch CVORG_DACVAL h in (UOk (OZ v), ch, h)
  end.

Definition cvorg_dac_gain_ioctl (set : option Z) (ch : cvorg_channel) (h : cvhw) : uret * cvorg_channel * cvhw :=
  match set with
  | Some v => (UOk ONone, ch, uchan ch CVORG_DACCORR (Z.land v CVORG_DACCORR_GAIN_MASK) CVORG_DACCORR_GAIN_MASK h)
  | None => let '(v, h) := rchan ch CVORG_DACCORR h in (UOk (OZ (u16 (Z.land v CVORG_DACCORR_GAIN_MASK))), ch, h)
  end.

Definition s16 (z : Z) : Z := (z + 2 ^ 15) mod 2 ^ 16 - 2 ^ 15.

(** The sign of what is read goes into a variable that is not used any more. *)
Definition cvorg_dac_offset_ioctl (set : option Z) (ch : cvorg_channel) (h : cvhw) : uret * cvorg_channel * cvhw :=
  match set with
  | Some offset =>
      if negb ((offset <=? 2 ^ 14 - 1) && (- 2 ^ 14 <=? offset)) then (UErr EINVAL, ch, h) else
      (UOk ONone, ch, uchan ch CVORG_DACCORR (Z.shiftl (Z.land offset 0x7fff) CVORG_DACCORR_OFFSET_SHIFT) CVORG_DACCORR_OFFSET_MASK h)
  | None =>
      let '(regval, h) := rchan ch CVORG_DACCORR h in
      let regval := Z.shiftr (Z.land regval CVORG_DACCORR_OFFSET_MASK) CVORG_DACCORR_OFFSET_SHIFT in
      let val := u16 (s16 regval) in
      (UOk (OZ (s16 val)), ch, h)
  end.

Definition cvorg_out_enable_ioctl (enable : Z) (ch : cvorg_channel) (h : cvhw) : uret * cvorg_channel * cvhw :=
  let ch := set_out_enabled (if truthy enable then 1 else 0) ch in
  (UOk ONone, ch, __cvorg_apply_channel_out_enable ro spi_ready ch h).

(** ** The card *)

Definition cvorg_g_sampfreq (d : cdev) : uret * cdev :=
  let '(v, h) := cvorg_readw ro spi_ready CVORG_SAMPFREQ (d_hw d) in (UOk (OZ v), Dev (d_cvorg d) h).

Definition cvorg_get_temperature (d : cdev) : uret * cdev :=
  let '(regtemp, h) := cvorg_readw ro spi_ready CVORG_TEMP (d_hw d) in
  let temp := Z.shiftr (Z.land regtemp 0x7ff) 4 in
  (UOk (OZ (if truthy (Z.land regtemp 0x800) then - temp else temp)), Dev (d_cvorg d) h).

Definition cvorg_get_pcb_id (d : cdev) : uret * cdev :=
  let '(msb, h) := cvorg_readw ro spi_ready CVORG_PCB_MSB (d_hw d) in
  let '(lsb, h) := cvorg_readw ro spi_ready CVORG_PCB_LSB h in
  (UOk (OZ (Z.lor (Z.shiftl msb 32) lsb)), Dev (d_cvorg d) h).

Definition cvorg_lock (file : Z) (d : cdev) : uret * cdev := (UOk ONone, Dev (set_owner (Some file) (d_cvorg d)) (d_hw d)).
Definition cvorg_unlock (d : cdev) : uret * cdev := (UOk ONone, Dev (set_owner None (d_cvorg d)) (d_hw d)).

(** The number of the client's channel is that of the skeleton's context. *)
Definition gs_channel_ioctl (set : option Z) (ChannelNr : Z) : uret * Z :=
  match set with
  | Some v => if (v <=? 2) && (1 <=? v) then (UOk ONone, v - 1) else (UErr EINVAL, ChannelNr)
  | None => (UOk (OZ (ChannelNr + 1)), ChannelNr)
  end.

(** The [switch], for a client of channel [n].  [None]: see [seq_init]. *)
Definition cvorg_dispatch (file n : Z) (cm : cvcmd) (d : cdev) : option (uret * Z * cdev * list kev) :=
  let on f := let '(r, d) := with_channel n f d in Some (r, n, d, []) in
  let mod_ (x : uret * cdev) := let '(r, d) := x in Some (r, n, d, []) in
  match cm with
  | IOCSCHANNEL v => let '(r, n) := gs_channel_ioctl (Some v) n in Some (r, n, d, [])
  | IOCGCHANNEL => let '(r, n) := gs_channel_ioctl None n in Some (r, n, d, [])
  | IOCSOUTOFFSET v => on (gs_outoff_ioctl (Some v))
  | IOCGOUTOFFSET => on (gs_outoff_ioctl None)
  | IOCSINPOLARITY v => on (gs_inpol_ioctl (Some v))
  | IOCGINPOLARITY => on (gs_inpol_ioctl None)
  | IOCSTRIGGER v => on (s_trig_ioctl v)
  | IOCSPLL p => mod_ (gs_pll_ioctl (Some p) d)
  | IOCGPLL => mod_ (gs_pll_ioctl None d)
  | IOCSSRAM a d0 d1 => on (gs_sram_ioctl a (Some (d0, d1)))
  | IOCGSRAM a => on (gs_sram_ioctl a None)
  | IOCSLOADSEQ u =>
      '(r, h) ← cvorg_loadseq ro spi_ready cpu_big (cvorg_get_channel n (d_cvorg d)) u (d_hw d);
      Some (if truthy (lr_errno r) then UErr (lr_errno r) else UOk (OGains (lr_gains r)), n, Dev (d_cvorg d) h, lr_log r)
  | IOCGCHANSTAT => on cvorg_g_chanstat
  | IOCGSAMPFREQ => mod_ (cvorg_g_sampfreq d)
  | IOCTLOCK => mod_ (cvorg_lock file d)
  | IOCTUNLOCK | IOCTUNLOCK_FORCE => mod_ (cvorg_unlock d)
  | IOCSMODE v => on (cvorg_gs_mode_ioctl (Some v))
  | IOCGMODE => on (cvorg_gs_mode_ioctl None)
  | IOCSOUTGAIN v => on (cvorg_gs_outgain_ioctl (Some v))
  | IOCGOUTGAIN => on (cvorg_gs_outgain_ioctl None)
  | IOCGADC_READ c r => on (cvorg_adc_read_ioctl c r)
  | IOCSDAC_VAL v => on (cvorg_dac_val_ioctl (Some v))
  | IOCGDAC_VAL => on (cvorg_dac_val_ioctl None)
  | IOCSDAC_GAIN v => on (cvorg_dac_gain_ioctl (Some v))
  | IOCGDAC_GAIN => on (cvorg_dac_gain_ioctl None)
  | IOCSDAC_OFFSET v => on (cvorg_dac_offset_ioctl (Some v))
  | IOCGDAC_OFFSET => on (cvorg_dac_offset_ioctl None)
  | IOCGTEMPERATURE => mod_ (cvorg_get_temperature d)
  | IOCSOUT_ENABLE v => on (cvorg_out_enable_ioctl v)
  | IOCGPCB_ID => mod_ (cvorg_get_pcb_id d)
  | IOC_other _ => Some (UErr ENOTTY, n, d, [])
  end.

(** [intr]: the wait for the lock is interrupted. *)
Definition SkelUserIoctls (file n : Z) (intr : bool) (cm : cvcmd) (d : cdev) : option (uret * Z * cdev * list kev) :=
  if CVORG_IOCTL_NO_LOCKING <? _IOC_NR cm then
    if intr then Some (UErr EINTR, n, d, []) else
    if (CVORG_IOCTL_LOCKING <? _IOC_NR cm) && __cvorg_check_perm (d_cvorg d) file
    then Some (UErr EACCES, n, d, [Acq KLOCK 0; Rel KLOCK 0]) else
    '(r, n, d, log) ← cvorg_dispatch file n cm d;
    Some (r, n, d, Acq KLOCK 0 :: log ++ [Rel KLOCK 0])
  else cvorg_dispatch file n cm d.

(** ** Reset *)

Definition disable_interrupts (h : cvhw) : cvhw :=
  snd (cvorg_readw ro spi_ready CVORG_INTSR (cvorg_writew CVORG_INTEN 0 h)).

(** Vector and level of the module's interrupt, if it has one. *)
Definition config_interrupts (isr : option (Z * Z)) (h : cvhw) : cvhw :=
  match isr with
  | None => disable_interrupts h
  | Some (vector, level) => cvorg_writew CVORG_INTLEVEL level (cvorg_writew CVORG_INTVECT vector h)
  end.

Definition enable_interrupts (h : cvhw) : cvhw := cvorg_writew CVORG_INTEN (Z.land CVORG_INTEN_ENDFUNC CVORG_INTEN_VALID) h.

Definition cvorg_cfg_init (c : cvorg) : cvorg :=
  Cv (cv_hw_rev c) (cv_owner c) cvorg_pll_cfg_init (cvorg_channel_cfg_init (cv_chan0 c)) (cvorg_channel_cfg_init (cv_chan1 c)).

(** A PLL that does not lock is only printed. *)
Definition __cvorg_apply_cfg (d : cdev) : cdev :=
  let c := d_cvorg d in
  let '(_, pll, h) := clkgen_apply_pll_conf ro spi_ready (cv_pll c) (d_hw d) in
  let h := __cvorg_apply_channel_cfg ro spi_ready (cv_chan0 c) h in
  let h := __cvorg_apply_channel_cfg ro spi_ready (cv_chan1 c) h in
  Dev (set_pll pll c) h.

Definition __cvorg_reset (isr : option (Z * Z)) (d : cdev) : cdev :=
  let h := cvorg_writew CVORG_CTL CVORG_CTL_FPGA_RESET (d_hw d) in
  let h := channel_reset (cv_chan0 (d_cvorg d)) h in
  let h := channel_reset (cv_chan1 (d_cvorg d)) h in
  let c := cvorg_cfg_init (d_cvorg d) in
  let h := clkgen_startup ro spi_ready h in
  let d := __cvorg_apply_cfg (Dev c h) in
  Dev (d_cvorg d) (enable_interrupts (config_interrupts isr (d_hw d))).

Definition SkelUserHardwareReset (isr : option (Z * Z)) (d : cdev) : cdev * list kev :=
  (__cvorg_reset isr d, [Acq KLOCK 0; Rel KLOCK 0]).

(** ** Modules *)

Definition CVORG_VERSION_FW_MASK : Z := 0xffff.
Definition CVORG_VERSION_FW_SHIFT : Z := 16.

(** Units of the revision, most significant first. *)
Definition SkelUserGetModuleVersion (h : cvhw) : list Z * cvhw :=
  let '(ver, h) := cvorg_readw ro spi_ready CVORG_VERSION h in
  ((fun s => Z.land (Z.shiftr ver s) 0xf) <$> [12; 8; 4; 0], h).

(** [buserr]: reading the card gives a bus error. *)
Definition cvorg_version_check (buserr : bool) (h : cvhw) : Z * bool * cvhw :=
  let '(val, h) := if buserr then (0xffffffff, h) else cvorg_readw ro spi_ready CVORG_VERSION h in
  (Z.land val CVORG_VERSION_FW_MASK, negb (Z.land (Z.shiftr val CVORG_VERSION_FW_SHIFT) 0xff =? 71), h).

Definition cvorg_init_channel (index : Z) : cvorg_channel :=
  Chan 0 0 0 (if index =? 0 then CVORG_CHAN1_OFFSET else CVORG_CHAN2_OFFSET) 0.

Definition KCVORG : Z := 24.

(** The module, or the errno; and what was allocated.  [None]: an error pointer
    is cleared. *)
Definition SkelUserModuleInit (sizeof_cvorg : Z) (mem mapped buserr : bool) (isr : option (Z * Z)) (h : cvhw)
    : option ((Z + cdev) * cvhw * list kev) :=
  if is_null (sysbrk sizeof_cvorg mem) then Some (inl ENOMEM, h, []) else
  if negb mem then None else
  if negb mapped then Some (inl EINVAL, h, [Acq KCVORG 0; Rel KCVORG 0]) else
  let '(rev, absent, h) := cvorg_version_check buserr h in
  if absent then Some (inl ENODEV, h, [Acq KCVORG 0; Rel KCVORG 0]) else
  let c := Cv rev None (Pll 0 0 0 0 0 0 0 0) (cvorg_init_channel 0) (cvorg_init_channel 1) in
  let '(d, log) := SkelUserHardwareReset isr (Dev c h) in
  Some (inr d, d_hw d, Acq KCVORG 0 :: log).

Definition SkelUserModuleRelease (d : option cdev) (h : cvhw) : cvhw * list kev :=
  match d with
  | None => (h, [])
  | Some d =>
      let h := cvorg_quiesce_channel ro spi_ready (cv_chan0 (d_cvorg d)) h in
      let h := cvorg_quiesce_channel ro spi_ready (cv_chan1 (d_cvorg d)) h in
      (disable_interrupts h, [Rel KCVORG 0])
  end.

(** The lock of each module is taken in turn. *)
Definition release_owner (file : Z) (d : cdev) : cdev :=
  if bool_decide (cv_owner (d_cvorg d) = Some file) then Dev (set_owner None (d_cvorg d)) (d_hw d) else d.

Definition SkelUserClientRelease (file : Z) (modules : list (option cdev)) : list (option cdev) :=
  (fun m : option cdev => release_owner file <$> m) <$> modules.

(** ** Interrupts *)

Fixpoint first_set_bit (n : nat) (i : Z) (mask : Z) : Z :=
  match n with
  | O => 0
  | S n => if truthy (Z.land (Z.shiftl 1 i) mask) then Z.shiftl 1 i else first_set_bit n (i + 1) mask
  end.

Definition get_first_set_bit (mask : Z) : Z := first_set_bit 2 0 mask.

(** Whether the interrupt was the card's, the element of [channels] that is
    looked up, and the source. *)
Definition cvorg_isr (h : cvhw) : option (Z * Z) * cvhw :=
  let '(mask, h) := cvorg_readw ro spi_ready CVORG_INTSR h in
  if negb (truthy (Z.land mask CVORG_INTSR_BITMASK)) then (None, h)
  else (Some (Z.land mask CVORG_INTSR_CHANNEL, get_first_set_bit mask), h).
End Ioctl.
