(* ===== verification/CvorgInv.v ===== *)
(** * Properties of the CVORG module ([cvorg/driver/cvorg-skel.c])

    The configuration register of each channel agrees with what the driver keeps
    of the channel, whatever ioctls are made ([cvorg_agrees]); a locked module
    serves its owner; gains and limits. *)

From Stdlib Require Import Sorted.
From S2P Require Import Prelude SkelIo CvorgHw Clkgen Cvorg CdcmMem CvorgSeq CvorgSeqInv CvorgIoctl.

(** ** The configuration register is left alone *)

(** Polarity, offset, gain and output: the bits of the driver's own. *)
Definition CFG_MASK : Z := 0x7e0.

Definition cfg_bits (o : Z) (h : cvhw) : Z := Z.land (rd (cv_mem h) (o + CVORG_CONFIG)) CFG_MASK.

Create HintDb cvkeep discriminated.

Section Keep.
(** The channel that is watched. *)
Variable o : Z.
Hypothesis Ho : is_chan o.

Definition ck (h h' : cvhw) : Prop := cfg_bits o h' = cfg_bits o h.

Lemma ck_refl h : ck h h.
Proof. done. Qed.

Lemma ck_trans h1 h2 h3 : ck h1 h2 -> ck h2 h3 -> ck h1 h3.
Proof. unfold ck. intros -> ->. done. Qed.

Variable ro : Z -> nat -> Z.
Variable spi_ready : nat -> bool.
Variable cpu_big : bool.

Lemma hw_read_mem a h : cv_mem (hw_read ro spi_ready a h).2 = cv_mem h.
Proof. unfold hw_read. repeat case_goal; done. Qed.

Lemma hw_write_mem a v h : cv_mem (hw_write a v h) = cv_mem h \/ cv_mem (hw_write a v h) = <[a := v]> (cv_mem h).
Proof. unfold hw_write. repeat case_goal; auto. Qed.

Lemma readw_ck a h : ck h (cvorg_readw ro spi_ready a h).2.
Proof. unfold ck, cfg_bits, cvorg_readw. by rewrite hw_read_mem. Qed.

Lemma write_ck a v h : a <> o + CVORG_CONFIG -> ck h (hw_write a v h).
Proof.
  intros Ha. unfold ck, cfg_bits. destruct (hw_write_mem a v h) as [-> | ->]; [done|]. unfold rd. by rewrite lookup_insert_ne.
Qed.

Lemma rchan_ck c off h : ck h (cvorg_rchan ro spi_ready c off h).2.
Proof. apply readw_ck. Qed.

Lemma rchan_noswap_ck c off h : ck h (cvorg_rchan_noswap ro spi_ready cpu_big c off h).2.
Proof. unfold cvorg_rchan_noswap. pose proof (readw_ck (c + off) h) as H. unfold cvorg_readw in H. by destruct (hw_read _ _ _ h). Qed.

(** Another register of a channel. *)
Definition elsewhere (c off : Z) : Prop := is_chan c /\ 0 <= off < 0x200 /\ (c <> o \/ off <> CVORG_CONFIG).

Lemma elsewhere_ne c off : elsewhere c off -> c + off <> o + CVORG_CONFIG.
Proof.
  intros (Hc & Hoff & Hne). unfold is_chan, CVORG_CHAN1_OFFSET, CVORG_CHAN2_OFFSET, CVORG_CONFIG in *. lia.
Qed.

Lemma wchan_ck c off v h : elsewhere c off -> ck h (cvorg_wchan c off v h).
Proof. intros H. by apply write_ck, elsewhere_ne. Qed.

Lemma wchan_noswap_ck c off v h : elsewhere c off -> ck h (cvorg_wchan_noswap cpu_big c off v h).
Proof. intros H. by apply write_ck, elsewhere_ne. Qed.

Lemma rmw_ck c off f h : elsewhere c off -> ck h (let '(v, h) := cvorg_rchan ro spi_ready c off h in cvorg_wchan c off (f v) h).
Proof.
  intros H. pose proof (rchan_ck c off h) as H1. destruct (cvorg_rchan ro spi_ready c off h) as [v h1].
  eapply ck_trans; [exact H1|by apply wchan_ck].
Qed.

Lemma ochan_ck c off v h : elsewhere c off -> ck h (cvorg_ochan ro spi_ready c off v h).
Proof. apply (rmw_ck c off (fun r => Z.lor r v)). Qed.

Lemma achan_ck c off v h : elsewhere c off -> ck h (cvorg_achan ro spi_ready c off v h).
Proof. apply (rmw_ck c off (fun r => Z.land r v)). Qed.

Lemma uchan_ck c off v m h : elsewhere c off -> ck h (cvorg_uchan ro spi_ready c off v m h).
Proof. intros H. unfold cvorg_uchan. eapply ck_trans; [by apply achan_ck|by apply ochan_ck]. Qed.

(** Other bits of the register itself. *)
Lemma update_disjoint old v m m2 : is_u32 m2 -> Z.land v m2 = 0 -> Z.land m m2 = 0 -> Z.land (update old v m) m2 = Z.land old m2.
Proof.
  intros Hm Hv Hd.
  assert (forall x i, Z.land x m2 = 0 -> Z.testbit m2 i = true -> Z.testbit x i = false) as Hb.
  { intros x i Hx Hi. assert (Z.testbit (Z.land x m2) i = false) as H by (rewrite Hx; apply Z.bits_0). by rewrite Z.land_spec, Hi, andb_true_r in H. }
  unfold update, not32. apply Z.bits_inj'. intros i Hi. rewrite !Z.land_spec. destruct (Z_lt_le_dec i 32).
  - rewrite testbit_u32, Z.lor_spec, Z.land_spec, testbit_u32, Z.lnot_spec by lia.
    destruct (Z.testbit m2 i) eqn:E; rewrite ?andb_false_r, ?andb_true_r; [|done].
    rewrite (Hb m i Hd E), (Hb v i Hv E). cbn. by rewrite andb_true_r, orb_false_r.
  - rewrite (testbit_above m2 32) by (lia || done). by rewrite !andb_false_r.
Qed.

Lemma uchan_config_ck c v m h : is_chan c -> Z.land v CFG_MASK = 0 -> Z.land m CFG_MASK = 0 ->
  ck h (cvorg_uchan ro spi_ready c CVORG_CONFIG v m h).
Proof.
  intros Hc Hv Hm. destruct (decide (c = o)) as [->|Hne]; [|by apply uchan_ck; split_and!; auto].
  destruct config_plain as [P1 P2]. destruct (uchan_changes ro spi_ready o Ho _ v m h P1 P2) as [Hr _].
  unfold ck, cfg_bits. unfold chreg in Hr. rewrite Hr. by apply update_disjoint.
Qed.

Lemma rmw_config_ck c f h : is_chan c -> (forall r, Z.land (u32 (f r)) CFG_MASK = Z.land r CFG_MASK) ->
  ck h (let '(v, h) := cvorg_rchan ro spi_ready c CVORG_CONFIG h in cvorg_wchan c CVORG_CONFIG (f v) h).
Proof.
  intros Hc Hf. destruct (decide (c = o)) as [->|Hne]; [|by apply rmw_ck; split_and!; auto].
  destruct config_plain as [P1 P2]. destruct (rmw_changes ro spi_ready o Ho _ f h P1 P2) as [Hr _].
  unfold ck, cfg_bits. unfold chreg in Hr. rewrite Hr. apply Hf.
Qed.

Lemma achan_config_ck c m h : is_chan c -> Z.land m CFG_MASK = 0 -> ck h (cvorg_achan ro spi_ready c CVORG_CONFIG (not32 m) h).
Proof.
  intros Hc Hm. apply (rmw_config_ck c (fun r => Z.land r (not32 m))); [done|]. intros r.
  rewrite <- (Z.lor_0_r (Z.land r _)). fold (update r 0 m). by apply update_disjoint.
Qed.

Hint Resolve readw_ck rchan_ck rchan_noswap_ck wchan_ck wchan_noswap_ck ochan_ck achan_ck uchan_ck uchan_config_ck achan_config_ck : cvkeep.
Hint Extern 1 (elsewhere _ _) => solve [split_and!; [assumption || by left|done..| by right] | split_and!; [by right|done..| by right]] : cvkeep.
Hint Extern 1 (is_chan _) => assumption : cvkeep.
Hint Extern 1 (elsewhere _ _) => assumption : cvkeep.
Hint Extern 1 (_ = _ :> Z) => reflexivity : cvkeep.

(** Follow the state through a function. *)
Ltac ck_end :=
  first [ match goal with |- ck ?h ?h => apply ck_refl end
        | assumption
        | match goal with H : ck ?x ?b |- ck _ ?b => eapply ck_trans; [|exact H]; clear H; ck_end end
        | eapply ck_trans; [|solve [eauto 3 with cvkeep]]; ck_end ].

Ltac ck_step :=
  match goal with
  | |- context [match ?x with (_, _) => _ end] =>
      lazymatch x with
      | context [match _ with _ => _ end] => fail
      | _ =>
          lazymatch type of x with
          | (?A * cvhw)%type =>
              let H := fresh "K" in
              eassert (ck _ x.2) as H by (solve [eauto 3 with cvkeep]);
              let h' := fresh "h" in destruct x as [? h']; cbn [snd] in H
          | _ => destruct x
          end
      end
  | |- context [match ?x with Some _ => _ | None => _ end] => is_var x; destruct x
  | |- context [if ?b then _ else _] =>
      lazymatch b with context [match _ with _ => _ end] => fail | _ => destruct b end
  end.

Ltac ck_all := intros; repeat ck_step; cbn [snd fst]; ck_end.

(** ** The clock generator *)

Lemma writew_ck a v h : a <> o + CVORG_CONFIG -> ck h (cvorg_writew a v h).
Proof. apply write_ck. Qed.

Lemma clkctl_ck v h : ck h (cvorg_writew CVORG_CLKCTL v h).
Proof. apply write_ck. unfold is_chan, CVORG_CHAN1_OFFSET, CVORG_CHAN2_OFFSET, CVORG_CLKCTL, CVORG_CONFIG in *. lia. Qed.
Hint Resolve clkctl_ck : cvkeep.

Lemma rval_loop_ck n addr v h : ck h (rval_loop ro spi_ready n addr v h).2.
Proof. revert v h. induction n as [|n IH]; intros v h; cbn [rval_loop]; [apply ck_refl|]. ck_all. Qed.
Hint Resolve rval_loop_ck : cvkeep.

Lemma clkgen_rval_ck a h : ck h (clkgen_rval ro spi_ready a h).2.
Proof. unfold clkgen_rval. ck_all. Qed.
Hint Resolve clkgen_rval_ck : cvkeep.

Lemma clkgen_rd_ck a h : ck h (clkgen_rd ro spi_ready a h).2.
Proof. unfold clkgen_rd. ck_all. Qed.
Hint Resolve clkgen_rd_ck : cvkeep.

Lemma check_loop_ck n h : ck h (check_loop ro spi_ready n h).2.
Proof. revert h. induction n as [|n IH]; intros h; cbn [check_loop]; [apply ck_refl|]. ck_all. Qed.
Hint Resolve check_loop_ck : cvkeep.

Lemma clkgen_wr_ck a v h : ck h (clkgen_wr ro spi_ready a v h).
Proof. unfold clkgen_wr, clkgen_check_write. ck_all. Qed.
Hint Resolve clkgen_wr_ck : cvkeep.

Lemma clkgen_or_ck a v h : ck h (clkgen_or ro spi_ready a v h).
Proof. unfold clkgen_or. ck_all. Qed.

Lemma clkgen_and_ck a v h : ck h (clkgen_and ro spi_ready a v h).
Proof. unfold clkgen_and. ck_all. Qed.
Hint Resolve clkgen_or_ck clkgen_and_ck : cvkeep.

Lemma clkgen_write_dvco_ck pll h : ck h (clkgen_write_dvco ro spi_ready pll h).2.
Proof. unfold clkgen_write_dvco. ck_all. Qed.

Lemma clkgen_write_d_ck dv n d h : ck h (clkgen_write_d ro spi_ready dv n d h).
Proof. unfold clkgen_write_d. ck_all. Qed.
Hint Resolve clkgen_write_dvco_ck clkgen_write_d_ck : cvkeep.

Lemma calib_ck r f h : ck h (calib_vco_sleep ro spi_ready r f h).2.
Proof. unfold calib_vco_sleep. ck_all. Qed.
Hint Resolve calib_ck : cvkeep.

Lemma clkgen_apply_ck pll h : ck h (clkgen_apply_pll_conf ro spi_ready pll h).2.
Proof.
  unfold clkgen_apply_pll_conf, clkgen_write_a, clkgen_write_b, clkgen_write_r, clkgen_write_p. ck_all.
Qed.
Hint Resolve clkgen_apply_ck : cvkeep.

Lemma clkgen_startup_ck h : ck h (clkgen_startup ro spi_ready h).
Proof.
  unfold clkgen_startup. generalize startup_values. intros l. revert h. induction l as [|[a v] l IH]; intros h; cbn [foldl]; [apply ck_refl|].
  eapply ck_trans; [apply clkgen_wr_ck|apply IH].
Qed.
Hint Resolve clkgen_startup_ck : cvkeep.

(** ** Sequences *)

Section Seq.
Variable c : cvorg_channel.
Hypothesis Hc : is_chan (reg_offset c).

Lemma busy_ck h : ck h (__cvorg_channel_busy ro spi_ready c h).2.
Proof. unfold __cvorg_channel_busy. ck_all. Qed.

Lemma ready_ck h : ck h (__cvorg_channel_ready ro spi_ready c h).2.
Proof. unfold __cvorg_channel_ready. ck_all. Qed.
Hint Resolve busy_ck ready_ck : cvkeep.

Lemma sram_busy_loop_ck n h : ck h (sram_busy_loop ro spi_ready n c h).2.
Proof. revert h. induction n as [|n IH]; intros h; cbn [sram_busy_loop]; [apply ck_refl|]. ck_all. Qed.
Hint Resolve sram_busy_loop_ck : cvkeep.

Lemma sram_busy_ck h : ck h (__cvorg_sram_busy ro spi_ready c h).2.
Proof. apply sram_busy_loop_ck. Qed.

Lemma clear_errors_ck h : ck h (__cvorg_channel_clear_errors c h).
Proof. unfold __cvorg_channel_clear_errors. ck_all. Qed.

Hint Resolve sram_busy_ck clear_errors_ck : cvkeep.

Lemma quiesce_ck h : ck h (cvorg_quiesce_channel ro spi_ready c h).
Proof. unfold cvorg_quiesce_channel. ck_all. Qed.

Lemma sram_points_ck l h : ck h (sram_points cpu_big (reg_offset c) l h).
Proof.
  remember (length l) as n eqn:En. revert l En h. induction n as [n IH] using lt_wf_ind. intros l En h.
  destruct l as [|d0 [|d1 l]]; cbn [sram_points]; [apply ck_refl|ck_all|].
  eapply ck_trans; [|apply (IH (length l)); [cbn in En; lia|done]]. ck_all.
Qed.
Hint Resolve quiesce_ck sram_points_ck : cvkeep.

Lemma store_step_ck n i ra w h : 0 <= i < 26 -> ck h (store_step ro spi_ready cpu_big (reg_offset c) n i ra w h).2.
Proof.
  intros Hi.
  assert (forall b f, 0 <= b < 26 -> is_field f -> elsewhere (reg_offset c) (block_offset b + f)) as He.
  { intros b f Hb Hf. apply field_values in Hf. split_and!; [done| | |];
      unfold block_offset, CVORG_BLKOFFSET, CVORG_BLKSIZE, CVORG_CONFIG; lia. }
  assert (is_field CVORG_WFSTART /\ is_field CVORG_WFLEN /\ is_field CVORG_WFRECURR /\ is_field CVORG_WFNEXTBLK) as (F1 & F2 & F3 & F4)
    by (unfold is_field; split_and!; auto).
  pose proof (He i _ Hi F1) as E1. pose proof (He i _ Hi F2) as E2. pose proof (He i _ Hi F3) as E3. pose proof (He i _ Hi F4) as E4.
  unfold store_step. set (h1 := __sram _ _ _ _ h). assert (ck h h1) as K1 by (subst h1; unfold __sram; ck_all). clearbody h1.
  set (h2 := if 0 <? i then _ else h1). assert (ck h1 h2) as K2.
  { subst h2. destruct (Z.ltb_spec 0 i); [|apply ck_refl]. unfold cvorg_wv_mark_prev. change (prev_block_offset i) with (block_offset (i - 1)).
    apply uchan_ck, He; [lia|done]. }
  clearbody h2. unfold cvorg_wv_store, cvorg_wv_gain_store, cvorg_wv_mark_last. clear He. ck_all.
Qed.

Lemma store_loop_ck n ws : forall i ra h, 0 <= i -> i + Z.of_nat (length ws) <= 26 ->
  ck h (store_loop ro spi_ready cpu_big (reg_offset c) n i ra ws h).2.
Proof.
  induction ws as [|w ws IH]; intros i ra h Hi Hl; cbn [store_loop]; [apply ck_refl|]. cbn [length] in Hl.
  pose proof (store_step_ck n i ra w h ltac:(lia)) as K1. destruct (store_step _ _ _ _ n i ra w h) as [w' h1].
  pose proof (IH (i + 1) (u32 (ra + size w')) h1 ltac:(lia) ltac:(lia)) as K2. destruct (store_loop _ _ _ _ n (i + 1) _ ws h1) as [ws' h2].
  eapply ck_trans; [exact K1|exact K2].
Qed.

Lemma single_recurr_length s : length (waves (single_recurr s)) = length (waves s).
Proof. unfold single_recurr. destruct (waves s) as [|w ws] eqn:E; [by rewrite E|]. case_goal; [done|by rewrite E]. Qed.

Lemma startable_loop_ck n r h : ck h (startable_loop ro spi_ready n c r h).
Proof. revert r h. induction n as [|n IH]; intros r h; cbn [startable_loop]; case_goal; try apply ck_refl. ck_all. Qed.
Hint Resolve startable_loop_ck : cvkeep.

Lemma play_wv_ck h : ck h (play_wv ro spi_ready c h).
Proof. unfold play_wv, cvorg_poll_startable. ck_all. Qed.

Lemma loadseq_inner_ck s h : (length (waves s) <= Z.to_nat (n_waves s))%nat -> ck h (__cvorg_loadseq ro spi_ready cpu_big c s h).2.
Proof.
  intros Hn. unfold __cvorg_loadseq, cvorg_storeseq. set (h0 := cvorg_quiesce_channel _ _ _ h).
  assert (ck h h0) as K0 by (subst h0; ck_all). clearbody h0.
  destruct (CVORG_SRAM_SIZE <? _); [exact K0|]. destruct ((_ <=? 0) || _) eqn:Eb; [exact K0|].
  pose proof (sram_busy_ck h0) as K1. destruct (__cvorg_sram_busy _ _ _ h0) as [[] h1]; [eapply ck_trans; [exact K0|exact K1]|].
  unfold __cvorg_storeseq. set (t := single_recurr s).
  assert (ck h1 (cvorg_wchan (reg_offset c) CVORG_SEQNR (nr t) h1)) as K2 by ck_all.
  pose proof (store_loop_ck (n_waves t) (waves t) 0 0 (cvorg_wchan (reg_offset c) CVORG_SEQNR (nr t) h1) ltac:(lia)) as K3.
  destruct (store_loop _ _ _ _ (n_waves t) 0 0 (waves t) _) as [ws h2]. cbn [snd fst truthy Z.eqb negb].
  apply orb_false_iff in Eb as [_ Eb]. apply Z.ltb_ge in Eb.
  assert (ck h h2) as K4.
  { eapply ck_trans; [exact K0|]. eapply ck_trans; [exact K1|]. eapply ck_trans; [exact K2|]. apply K3.
    subst t. rewrite single_recurr_length. unfold CVORG_MAX_SEQUENCES in Eb. lia. }
  eapply ck_trans; [exact K4|]. apply play_wv_ck.
Qed.

Lemma invalid_waves_ck k i nr n ws h : ck h (invalid_waves ro spi_ready c k i nr n ws h).2.
Proof.
  revert i h. induction k as [|k IH]; intros i h; cbn [invalid_waves]; [apply ck_refl|].
  unfold cvorg_invalid_freqlimit. ck_all.
Qed.
Hint Resolve invalid_waves_ck : cvkeep.

Lemma copy_waves_length e k : forall i ws err log, copy_waves e k i = Some (ws, err, log) -> length ws = k.
Proof.
  induction k as [|k IH]; intros i ws err log; cbn [copy_waves]; [by intros [= <- _ _]|].
  destruct (copy_wv_from_user e i) as [[[w e1] l1]|]; [|done]. cbn. case_goal.
  - intros [= <- _ _]. cbn. by rewrite length_fmap, length_seq.
  - destruct (copy_waves e k (S i)) as [[[ws' e2] l2]|] eqn:Ec; [|done]. cbn. intros [= <- _ _]. cbn. f_equal. by eapply IH.
Qed.

Lemma loadseq_ck u h r h' : cvorg_loadseq ro spi_ready cpu_big c u h = Some (r, h') -> ck h h'.
Proof.
  unfold cvorg_loadseq. set (h0 := __cvorg_channel_clear_errors c h). assert (ck h h0) as K0 by (subst h0; ck_all). clearbody h0.
  pose proof (ready_ck h0) as K1. destruct (__cvorg_channel_ready ro spi_ready c h0) as [ready h1]. cbn [snd] in K1.
  assert (ck h h1) as K2 by (by eapply ck_trans). clear K0 K1. case_goal; [by intros [= _ <-]|].
  assert (ck h1 (cvorg_invalid_seq ro spi_ready c (us_nr u) (us_n_waves u) (us_null u) (us_check u) h1).2) as K3 by (unfold cvorg_invalid_seq; ck_all).
  destruct (cvorg_invalid_seq _ _ _ _ _ _ _ h1) as [e1 h2]. cbn [snd] in K3.
  assert (ck h h2) as K4 by (by eapply ck_trans). clear K2 K3. case_goal; [by intros [= _ <-]|].
  unfold seq_init. rewrite sysbrk_not_null. case_goal; [done|].
  destruct (copy_waves _ _ _) as [[[ws err] log]|] eqn:Ec; [|done]. apply copy_waves_length in Ec. cbn [mbind option_bind].
  destruct (truthy err) eqn:Et; cbn match; [rewrite Et; by intros [= _ <-]|]. cbn [truthy Z.eqb negb].
  pose proof (loadseq_inner_ck (Seq (us_nr u) (us_n_waves u) ws) h2) as K5.
  destruct (__cvorg_loadseq _ _ _ c _ h2) as [[e3 s'] h3]. cbn [snd waves n_waves] in K5. rewrite Ec in K5.
  assert (ck h h3) as K6 by (eapply ck_trans; [exact K4|by apply K5]).
  case_goal; [by intros [= _ <-]|]. destruct (seq_user_writeback _ _ _). by intros [= _ <-].
Qed.

(** ** Ioctls that leave the driver's bits alone *)

Definition idle (x : uret * cvorg_channel * cvhw) (h : cvhw) : Prop := x.1.2 = c /\ ck h x.2.

Ltac idle_all := unfold idle; repeat ck_step; cbn [snd fst]; (split; [done|ck_end]).

Lemma trig_idle v h : idle (s_trig_ioctl v c h) h.
Proof. unfold s_trig_ioctl. idle_all. Qed.

Lemma sram_idle a set h : idle (gs_sram_ioctl ro spi_ready cpu_big a set c h) h.
Proof.
  unfold gs_sram_ioctl. destruct set as [[d0 d1]|]; cbn match; idle_all.
Qed.

Lemma chanstat_idle h : idle (cvorg_g_chanstat ro spi_ready c h) h.
Proof. unfold cvorg_g_chanstat. idle_all. Qed.

Lemma mode_set_ck v h : ck h (cvorg_mode_set ro spi_ready c v h).
Proof.
  apply (rmw_config_ck (reg_offset c) (fun r => Z.lor (Z.land r (not32 CVORG_CONFIG_MODE)) (cvorg_mode_to_hw v))); [done|].
  intros r. fold (update r (cvorg_mode_to_hw v) CVORG_CONFIG_MODE). apply update_disjoint; [done| |done].
  unfold cvorg_mode_to_hw. repeat case_goal; done.
Qed.
Hint Resolve mode_set_ck : cvkeep.

Lemma mode_idle set h : idle (cvorg_gs_mode_ioctl ro spi_ready set c h) h.
Proof. unfold cvorg_gs_mode_ioctl, cvorg_mode_get. destruct set; idle_all. Qed.

Lemma adc_loop_ck n r h : ck h (adc_loop ro spi_ready n c r h).2.
Proof. revert r h. induction n as [|n IH]; intros r h; cbn [adc_loop]; case_goal; try apply ck_refl. ck_all. Qed.
Hint Resolve adc_loop_ck : cvkeep.

Lemma adc_bits channel range v v' : cvorg_adc_channel_to_hw channel 0 = Some v -> cvorg_adc_range_to_hw range v = Some v' -> Z.land v' CFG_MASK = 0.
Proof.
  unfold cvorg_adc_channel_to_hw, cvorg_adc_range_to_hw. case_goal; [|done]. boolp. intros [= <-].
  assert (channel = 0 \/ channel = 1 \/ channel = 2 \/ channel = 3) as Hch by lia.
  destruct (adc_range_code range) as [r|] eqn:Er; [|done]. cbn. intros [= <-].
  assert (r = 0 \/ r = 1 \/ r = 2 \/ r = 3) as Hr.
  { unfold adc_range_code in Er. repeat case_match; try done; injection Er as <-; auto. }
  destruct Hch as [-> |[-> |[-> | ->]]]; destruct Hr as [-> |[-> |[-> | ->]]]; reflexivity.
Qed.

Lemma adc_idle channel range h : idle (cvorg_adc_read_ioctl ro spi_ready channel range c h) h.
Proof.
  unfold cvorg_adc_read_ioctl. pose proof (busy_ck h) as K. destruct (__cvorg_channel_busy _ _ c h) as [[] h1]; [done|].
  destruct (cvorg_adc_channel_to_hw channel 0) as [v|] eqn:E1; [|done].
  destruct (cvorg_adc_range_to_hw range v) as [v'|] eqn:E2; [|done]. cbn [snd] in K.
  pose proof (adc_bits _ _ _ _ E1 E2) as Hv.
  set (h2 := cvorg_uchan _ _ _ _ _ _ h1). assert (ck h h2) as K2 by (eapply ck_trans; [exact K|by apply uchan_config_ck]). clearbody h2.
  clear E1 E2 Hv. idle_all.
Qed.

Lemma dac_val_idle set h : idle (cvorg_dac_val_ioctl ro spi_ready set c h) h.
Proof. unfold cvorg_dac_val_ioctl. destruct set; idle_all. Qed.

Lemma dac_gain_idle set h : idle (cvorg_dac_gain_ioctl ro spi_ready set c h) h.
Proof. unfold cvorg_dac_gain_ioctl. destruct set; idle_all. Qed.

Lemma dac_offset_idle set h : idle (cvorg_dac_offset_ioctl ro spi_ready set c h) h.
Proof. unfold cvorg_dac_offset_ioctl. destruct set; idle_all. Qed.
End Seq.
End Keep.

(** ** The configuration of a channel *)

(** What the register should hold of the driver's bits. *)
Definition config_word (c : cvorg_channel) : Z :=
  Z.lor (Z.lor (if ch_inpol c =? CVORG_NEGATIVE_PULSE then CVORG_CONFIG_INPOL else 0)
               (if ch_outoff c =? CVORG_OUT_OFFSET_0V then 0 else CVORG_CONFIG_OUT_OFFSET))
        (Z.lor (Z.shiftl (cvorg_gain_to_hw (ch_outgain c)) CVORG_CONFIG_OUT_GAIN_SHIFT)
               (if truthy (ch_out_enabled c) then CVORG_CONFIG_OUT_ENABLE else 0)).

(** The values the driver keeps; with the offset of 2.5 V the gain is 14 dB. *)
Definition chan_ok (c : cvorg_channel) : Prop :=
  ch_inpol c ∈ [0; 1] /\ ch_outoff c ∈ [0; 1] /\ ch_outgain c ∈ cvorg_gains /\ ch_out_enabled c ∈ [0; 1] /\
  (ch_outoff c = CVORG_OUT_OFFSET_2_5V -> ch_outgain c = 14).

Lemma gain_to_hw_cases g : cvorg_gain_to_hw g ∈ [0; 1; 2; 3; 4; 5; 6; 7].
Proof. unfold cvorg_gain_to_hw. repeat case_goal; apply (bool_decide_unpack _); done. Qed.

Definition put_bits (w v m : Z) : Z := Z.lor (Z.land w (Z.lnot m)) v.

Ltac gain_cases g :=
  let H := fresh in pose proof (gain_to_hw_cases g) as H; revert H; generalize (cvorg_gain_to_hw g);
  intros ? H; repeat (apply elem_of_cons in H as [->|H]); [..|by apply elem_of_nil in H].

Lemma word_inpol v c : config_word (set_inpol v c) = put_bits (config_word c) (if v =? CVORG_NEGATIVE_PULSE then CVORG_CONFIG_INPOL else 0) CVORG_CONFIG_INPOL.
Proof.
  unfold config_word. cbn [ch_inpol ch_outoff ch_outgain ch_out_enabled set_inpol].
  gain_cases (ch_outgain c); destruct (v =? _), (ch_inpol c =? _), (ch_outoff c =? _), (truthy _); reflexivity.
Qed.

Lemma word_outoff v c : config_word (set_outoff v c) = put_bits (config_word c) (if v =? CVORG_OUT_OFFSET_0V then 0 else CVORG_CONFIG_OUT_OFFSET) CVORG_CONFIG_OUT_OFFSET.
Proof.
  unfold config_word. cbn [ch_inpol ch_outoff ch_outgain ch_out_enabled set_outoff].
  gain_cases (ch_outgain c); destruct (v =? _), (ch_inpol c =? _), (ch_outoff c =? _), (truthy _); reflexivity.
Qed.

Lemma word_outgain v c : config_word (set_outgain v c) =
  put_bits (config_word c) (Z.shiftl (cvorg_gain_to_hw v) CVORG_CONFIG_OUT_GAIN_SHIFT) CVORG_CONFIG_OUT_GAIN_MASK.
Proof.
  unfold config_word. cbn [ch_inpol ch_outoff ch_outgain ch_out_enabled set_outgain].
  gain_cases v; gain_cases (ch_outgain c); destruct (ch_inpol c =? _), (ch_outoff c =? _), (truthy _); reflexivity.
Qed.

Lemma word_out_enabled v c : config_word (set_out_enabled v c) = put_bits (config_word c) (if truthy v then CVORG_CONFIG_OUT_ENABLE else 0) CVORG_CONFIG_OUT_ENABLE.
Proof.
  unfold config_word. cbn [ch_inpol ch_outoff ch_outgain ch_out_enabled set_out_enabled].
  gain_cases (ch_outgain c); destruct (ch_inpol c =? _), (ch_outoff c =? _), (truthy (ch_out_enabled c)), (truthy v); reflexivity.
Qed.

Lemma update_bits old v m : Z.land v m = v -> Z.land m CFG_MASK = m ->
  Z.land (update old v m) CFG_MASK = put_bits (Z.land old CFG_MASK) v m.
Proof.
  intros Hv Hm. unfold update, put_bits, not32. apply Z.bits_inj'. intros i Hi.
  rewrite Z.lor_spec, !Z.land_spec, Z.lnot_spec by lia.
  assert (Z.testbit CFG_MASK i = false -> Z.testbit v i = false) as Hvi.
  { intros E. rewrite <- Hv, <- Hm, !Z.land_spec, E, !andb_false_r. done. }
  destruct (Z_lt_le_dec i 32).
  - rewrite testbit_u32, Z.lor_spec, Z.land_spec, testbit_u32, Z.lnot_spec by lia.
    destruct (Z.testbit CFG_MASK i) eqn:E; [by rewrite !andb_true_r|]. rewrite Hvi by done. by rewrite !andb_false_r.
  - assert (Z.testbit CFG_MASK i = false) as E by (apply (testbit_above _ 32); [by unfold CFG_MASK|lia]).
    rewrite Hvi, E by done. by rewrite !andb_false_r.
Qed.

Section Apply.
Variable ro : Z -> nat -> Z.
Variable spi_ready : nat -> bool.
Variable cpu_big : bool.

(** A step that puts bits into the register of channel [o], and leaves the other. *)
Definition puts (o v m : Z) (h h' : cvhw) : Prop :=
  cfg_bits o h' = put_bits (cfg_bits o h) v m /\ forall o', is_chan o' -> o' <> o -> ck o' h h'.

Lemma uchan_puts o v m h : is_chan o -> Z.land v m = v -> Z.land m CFG_MASK = m ->
  puts o v m h (cvorg_uchan ro spi_ready o CVORG_CONFIG v m h).
Proof.
  intros Ho Hv Hm. destruct config_plain as [P1 P2]. split.
  - destruct (uchan_changes ro spi_ready o Ho _ v m h P1 P2) as [Hr _]. unfold cfg_bits. unfold chreg in Hr. rewrite Hr. by apply update_bits.
  - intros o' Ho' Hne. apply uchan_ck; [done|]. split_and!; [done|done|done|]. left. congruence.
Qed.

Lemma achan_puts o m h : is_chan o -> Z.land m CFG_MASK = m -> puts o 0 m h (cvorg_achan ro spi_ready o CVORG_CONFIG (not32 m) h).
Proof.
  intros Ho Hm. destruct config_plain as [P1 P2]. split.
  - destruct (achan_update ro spi_ready o Ho _ m h P1 P2) as [Hr _]. unfold cfg_bits. unfold chreg in Hr. rewrite Hr. by apply update_bits.
  - intros o' Ho' Hne. apply achan_ck; [done|]. split_and!; [done|done|done|]. left. congruence.
Qed.

Lemma ochan_puts o m h : is_chan o -> Z.land m CFG_MASK = m -> puts o m m h (cvorg_ochan ro spi_ready o CVORG_CONFIG m h).
Proof.
  intros Ho Hm. destruct config_plain as [P1 P2]. split.
  - destruct (ochan_update ro spi_ready o Ho _ m h P1 P2) as [Hr _]. unfold cfg_bits. unfold chreg in Hr. rewrite Hr.
    apply update_bits; [apply Z.land_diag|done].
  - intros o' Ho' Hne. apply ochan_ck; [done|]. split_and!; [done|done|done|]. left. congruence.
Qed.

Variable c : cvorg_channel.
Hypothesis Hc : is_chan (reg_offset c).

Lemma apply_inpol_puts h : puts (reg_offset c) (if ch_inpol c =? CVORG_NEGATIVE_PULSE then CVORG_CONFIG_INPOL else 0) CVORG_CONFIG_INPOL h
  (__cvorg_apply_channel_inpol ro spi_ready c h).
Proof. unfold __cvorg_apply_channel_inpol. case_goal; [by apply ochan_puts|by apply achan_puts]. Qed.

Lemma apply_outoff_puts h : puts (reg_offset c) (if ch_outoff c =? CVORG_OUT_OFFSET_0V then 0 else CVORG_CONFIG_OUT_OFFSET) CVORG_CONFIG_OUT_OFFSET h
  (__cvorg_apply_channel_outoff ro spi_ready c h).
Proof. unfold __cvorg_apply_channel_outoff. case_goal; [by apply achan_puts|by apply ochan_puts]. Qed.

Lemma gain_shift_mask g : Z.land (Z.shiftl (cvorg_gain_to_hw g) CVORG_CONFIG_OUT_GAIN_SHIFT) CVORG_CONFIG_OUT_GAIN_MASK =
  Z.shiftl (cvorg_gain_to_hw g) CVORG_CONFIG_OUT_GAIN_SHIFT.
Proof. gain_cases g; reflexivity. Qed.

Lemma apply_outgain_puts h : puts (reg_offset c) (Z.shiftl (cvorg_gain_to_hw (ch_outgain c)) CVORG_CONFIG_OUT_GAIN_SHIFT) CVORG_CONFIG_OUT_GAIN_MASK h
  (__cvorg_apply_channel_outgain ro spi_ready c h).
Proof. apply uchan_puts; [done|apply gain_shift_mask|done]. Qed.

Lemma apply_out_enable_puts h : puts (reg_offset c) (if truthy (ch_out_enabled c) then CVORG_CONFIG_OUT_ENABLE else 0) CVORG_CONFIG_OUT_ENABLE h
  (__cvorg_apply_channel_out_enable ro spi_ready c h).
Proof. unfold __cvorg_apply_channel_out_enable. case_goal; [by apply ochan_puts|by apply achan_puts]. Qed.

(** Applying everything makes the register agree, whatever it held. *)
Lemma apply_cfg_word h : cfg_bits (reg_offset c) (__cvorg_apply_channel_cfg ro spi_ready c h) = config_word c /\
  forall o', is_chan o' -> o' <> reg_offset c -> ck o' h (__cvorg_apply_channel_cfg ro spi_ready c h).
Proof.
  unfold __cvorg_apply_channel_cfg.
  destruct (apply_inpol_puts h) as [B1 K1]. set (h1 := __cvorg_apply_channel_inpol _ _ _ h) in *.
  destruct (apply_outoff_puts h1) as [B2 K2]. set (h2 := __cvorg_apply_channel_outoff _ _ _ h1) in *.
  destruct (apply_outgain_puts h2) as [B3 K3]. set (h3 := __cvorg_apply_channel_outgain _ _ _ h2) in *.
  destruct (apply_out_enable_puts h3) as [B4 K4]. split.
  - rewrite B4, B3, B2, B1. unfold config_word, cfg_bits. set (x := rd _ _). clearbody x. clear.
    unfold put_bits. set (w := Z.land x CFG_MASK).
    assert (forall a b g e, Z.lor (Z.land (Z.lor (Z.land (Z.lor (Z.land (Z.lor (Z.land w (Z.lnot CVORG_CONFIG_INPOL)) a) (Z.lnot CVORG_CONFIG_OUT_OFFSET)) b)
      (Z.lnot CVORG_CONFIG_OUT_GAIN_MASK)) g) (Z.lnot CVORG_CONFIG_OUT_ENABLE)) e =
      Z.lor (Z.lor (Z.lor (Z.land a (Z.lnot 0x7a0)) (Z.land b (Z.lnot 0x780))) (Z.land g (Z.lnot 0x400))) e) as Hgen.
    { intros a b g e. rewrite !Z.land_lor_distr_l, <- !Z.land_assoc. subst w. rewrite <- !Z.land_assoc.
      replace (Z.land CFG_MASK _) with 0 by reflexivity. rewrite Z.land_0_r, Z.lor_0_l. done. }
    rewrite Hgen. gain_cases (ch_outgain c); destruct (ch_inpol c =? _), (ch_outoff c =? _), (truthy _); reflexivity.
  - intros o' Ho' Hne. eapply ck_trans; [by apply K1|]. eapply ck_trans; [by apply K2|]. eapply ck_trans; [by apply K3|by apply K4].
Qed.
End Apply.

(** ** The invariant *)

Definition chan_agrees (c : cvorg_channel) (h : cvhw) : Prop := chan_ok c /\ cfg_bits (reg_offset c) h = config_word c.

(** Each channel has its own registers, sane values, and the register says what
    the driver believes. *)
Definition cvorg_agrees (d : cdev) : Prop :=
  reg_offset (cv_chan0 (d_cvorg d)) = CVORG_CHAN1_OFFSET /\ reg_offset (cv_chan1 (d_cvorg d)) = CVORG_CHAN2_OFFSET /\
  chan_agrees (cv_chan0 (d_cvorg d)) (d_hw d) /\ chan_agrees (cv_chan1 (d_cvorg d)) (d_hw d).

(** Nothing of either configuration register changed. *)
Definition ck2 (h h' : cvhw) : Prop := forall o, is_chan o -> ck o h h'.

Lemma agrees_ck2 c c' h h' : ck2 h h' -> cv_chan0 c' = cv_chan0 c -> cv_chan1 c' = cv_chan1 c ->
  cvorg_agrees (Dev c h) -> cvorg_agrees (Dev c' h').
Proof.
  intros Hk E0 E1 (O0 & O1 & (A1 & A2) & (B1 & B2)). unfold cvorg_agrees, chan_agrees. cbn in *. rewrite E0, E1.
  split_and!; try done.
  - rewrite (Hk (reg_offset (cv_chan0 c))); [done|by left].
  - rewrite (Hk (reg_offset (cv_chan1 c))); [done|by right].
Qed.

(** What an ioctl on a channel may do. *)
Definition op_ok (f : cvorg_channel -> cvhw -> uret * cvorg_channel * cvhw) : Prop :=
  forall c h, is_chan (reg_offset c) -> chan_agrees c h -> let '(_, c', h') := f c h in
  reg_offset c' = reg_offset c /\ chan_agrees c' h' /\ forall o, is_chan o -> o <> reg_offset c -> ck o h h'.

Lemma with_channel_agrees n f d : op_ok f -> cvorg_agrees d -> cvorg_agrees (with_channel n f d).2.
Proof.
  intros Hf (O0 & O1 & A & B). unfold with_channel, cvorg_get_channel, put_channel. case_goal.
  - specialize (Hf _ _ (or_introl O0) A). destruct (f _ _) as [[r c'] h']. destruct Hf as (R & A' & K). cbn. unfold cvorg_agrees. cbn.
    rewrite R. split_and!; try done. split; [apply B|]. destruct B as [_ B]. rewrite <- B. apply K; [by right|]. by rewrite O0, O1.
  - specialize (Hf _ _ (or_intror O1) B). destruct (f _ _) as [[r c'] h']. destruct Hf as (R & B' & K). cbn. unfold cvorg_agrees. cbn.
    rewrite R. split_and!; try done. split; [apply A|]. destruct A as [_ A]. rewrite <- A. apply K; [by left|]. by rewrite O0, O1.
Qed.

(** An operation that leaves the channel and the registers alone. *)
Lemma op_ok_ck f : (forall c h, is_chan (reg_offset c) -> let '(_, c', h') := f c h in c' = c /\ ck2 h h') -> op_ok f.
Proof.
  intros H c h Hc (A & B). specialize (H c h Hc). destruct (f c h) as [[r c'] h']. destruct H as [-> K].
  split_and!; [done| |auto]. split; [done|]. by rewrite (K (reg_offset c)).
Qed.

(** An operation that sets one of the values and applies it. *)
Lemma op_put c c' h h' v m : chan_agrees c h -> chan_ok c' -> reg_offset c' = reg_offset c -> puts (reg_offset c') v m h h' ->
  config_word c' = put_bits (config_word c) v m ->
  reg_offset c' = reg_offset c /\ chan_agrees c' h' /\ forall o, is_chan o -> o <> reg_offset c -> ck o h h'.
Proof.
  intros (A & B) Hok Hr (P1 & P2) Hw. rewrite Hr in *. split_and!; [done| |done]. split; [done|]. by rewrite Hr, P1, B, Hw.
Qed.

Lemma chan_agrees_ck c h h' : is_chan (reg_offset c) -> ck2 h h' -> chan_agrees c h -> chan_agrees c h'.
Proof. intros Hc K (A & B). split; [done|]. by rewrite (K _ Hc). Qed.

Lemma nearest_gain l val : l <> [] -> cvorg_nearest l val ∈ l.
Proof.
  unfold cvorg_nearest. intros Hl. assert (forall l' best, best.2 ∈ l -> l' ⊆ l -> (foldl (nearest_step val) best l').2 ∈ l) as H.
  { induction l' as [|a l' IH]; intros best Hb Hs; [done|]. cbn. apply IH; [|set_solver]. unfold nearest_step. case_goal; [set_solver|done]. }
  apply H; [|done]. destruct l; [done|]. cbn. left.
Qed.

Lemma gain_approx_gain g : cvorg_gain_approx g ∈ cvorg_gains.
Proof.
  unfold cvorg_gain_approx. case_goal; [apply (bool_decide_unpack _); done|]. case_goal; [apply (bool_decide_unpack _); done|].
  by apply nearest_gain.
Qed.

Section Ops.
Variable ro : Z -> nat -> Z.
Variable spi_ready : nat -> bool.
Variable cpu_big : bool.

Lemma outoff_op set : op_ok (gs_outoff_ioctl ro spi_ready set).
Proof.
  destruct set as [v|]; [|by apply op_ok_ck]. intros c h Hc Hag. unfold gs_outoff_ioctl.
  destruct (cvorg_invalid_gain_offset (ch_outgain c) v) eqn:Ei; [by split_and!|].
  set (v' := if v =? CVORG_OUT_OFFSET_2_5V then _ else _).
  eapply op_put; [exact Hag| |done|by apply apply_outoff_puts|apply word_outoff].
  destruct Hag as [(H1 & H2 & H3 & H4 & H5) _]. split_and!; try done; cbn [ch_inpol ch_outoff ch_outgain ch_out_enabled set_outoff].
  - subst v'. case_goal; [right; left|left].
  - intros Hv. unfold cvorg_invalid_gain_offset in Ei. subst v'. destruct (v =? CVORG_OUT_OFFSET_2_5V); [|done].
    cbn in Ei. by apply negb_false_iff, Z.eqb_eq in Ei.
Qed.

Lemma busy_ck2 c h : is_chan (reg_offset c) -> ck2 h (__cvorg_channel_busy ro spi_ready c h).2.
Proof. intros Hc o Ho. by apply busy_ck. Qed.

Lemma inpol_op set : op_ok (gs_inpol_ioctl ro spi_ready set).
Proof.
  destruct set as [v|]; [|by apply op_ok_ck]. intros c h Hc Hag. unfold gs_inpol_ioctl.
  pose proof (busy_ck2 c h Hc) as K. destruct (__cvorg_channel_busy _ _ c h) as [[] h1]; cbn in K.
  - split_and!; [done|by eapply chan_agrees_ck|auto].
  - set (c' := set_inpol (if truthy v then CVORG_NEGATIVE_PULSE else CVORG_POSITIVE_PULSE) c).
    edestruct (op_put c c' h1 (__cvorg_apply_channel_inpol ro spi_ready c' h1)) as (P1 & P2 & P3).
    + by eapply chan_agrees_ck.
    + destruct Hag as [(H1 & H2 & H3 & H4 & H5) _]. split_and!; try done. cbn [ch_inpol set_inpol c']. case_goal; [right; left|left].
    + done.
    + by apply apply_inpol_puts.
    + apply word_inpol.
    + split_and!; [done|done|]. intros o Ho Hne. eapply ck_trans; [by apply K|by apply P3].
Qed.

Lemma outgain_op set : op_ok (cvorg_gs_outgain_ioctl ro spi_ready set).
Proof.
  destruct set as [v|]; [|by apply op_ok_ck]. intros c h Hc Hag. unfold cvorg_gs_outgain_ioctl.
  pose proof (busy_ck2 c h Hc) as K. destruct (__cvorg_channel_busy _ _ c h) as [[] h1]; cbn in K.
  { split_and!; [done|by eapply chan_agrees_ck|auto]. }
  destruct (cvorg_invalid_gain_offset _ _) eqn:Ei.
  { split_and!; [done|by eapply chan_agrees_ck|auto]. }
  set (c' := set_outgain (cvorg_gain_approx v) c).
  edestruct (op_put c c' h1 (__cvorg_apply_channel_outgain ro spi_ready c' h1)) as (P1 & P2 & P3).
  - by eapply chan_agrees_ck.
  - destruct Hag as [(H1 & H2 & H3 & H4 & H5) _]. split_and!; try done; cbn [ch_inpol ch_outoff ch_outgain ch_out_enabled set_outgain c']; [apply gain_approx_gain|].
    intros Ho. unfold cvorg_invalid_gain_offset in Ei. rewrite Ho in Ei. cbn in Ei. by apply negb_false_iff, Z.eqb_eq in Ei.
  - done.
  - by apply apply_outgain_puts.
  - apply word_outgain.
  - split_and!; [done|done|]. intros o Ho Hne. eapply ck_trans; [by apply K|by apply P3].
Qed.

Lemma out_enable_op v : op_ok (cvorg_out_enable_ioctl ro spi_ready v).
Proof.
  intros c h Hc Hag. unfold cvorg_out_enable_ioctl.
  eapply op_put; [exact Hag| |done|by apply apply_out_enable_puts|apply word_out_enabled].
  destruct Hag as [(H1 & H2 & H3 & H4 & H5) _]. split_and!; try done. cbn [ch_inpol ch_outoff ch_outgain ch_out_enabled set_inpol set_out_enabled]. case_goal; [right; left|left].
Qed.

Lemma op_idle f : (forall o c h, is_chan o -> is_chan (reg_offset c) -> idle o c (f c h) h) -> op_ok f.
Proof.
  intros H. apply op_ok_ck. intros c h Hc. destruct (f c h) as [[r c'] h'] eqn:E. split.
  - destruct (H (reg_offset c) c h Hc Hc) as [H1 _]. by rewrite E in H1.
  - intros o Ho. destruct (H o c h Ho Hc) as [_ H2]. by rewrite E in H2.
Qed.

Lemma readw_ck2 a h : ck2 h (cvorg_readw ro spi_ready a h).2.
Proof. intros o Ho. apply readw_ck. Qed.

Lemma sampfreq_loop_ck2 n f s h : ck2 h (sampfreq_loop ro spi_ready n f s h).2.
Proof.
  revert s h. induction n as [|n IH]; intros s h; cbn [sampfreq_loop]; case_goal; try by intros o Ho.
  unfold read_sampfreq. pose proof (readw_ck2 CVORG_SAMPFREQ h) as K. destruct (cvorg_readw _ _ _ h) as [v h1].
  intros o Ho. eapply ck_trans; [by apply K|by apply IH].
Qed.

Lemma pll_agrees set d : cvorg_agrees d -> cvorg_agrees (gs_pll_ioctl ro spi_ready set d).2.
Proof.
  intros Hag. destruct set as [pll|]; [|done]. unfold gs_pll_ioctl, __cvorg_busy.
  pose proof Hag as (O0 & O1 & _). destruct d as [c h]. cbn [d_cvorg d_hw] in *.
  pose proof (busy_ck2 (cv_chan0 c) h (or_introl O0)) as K1. destruct (__cvorg_channel_busy _ _ (cv_chan0 c) h) as [b1 h1]. cbn [snd] in K1.
  assert (exists b h2, (if b1 then (true, h1) else __cvorg_channel_busy ro spi_ready (cv_chan1 c) h1) = (b, h2) /\ ck2 h h2) as (b & h2 & -> & K2).
  { destruct b1; [by eexists _, _|]. pose proof (busy_ck2 (cv_chan1 c) h1 (or_intror O1)) as K.
    destruct (__cvorg_channel_busy _ _ (cv_chan1 c) h1) as [b2 h2]. eexists _, _. split; [done|]. intros o Ho. eapply ck_trans; [by apply K1|by apply K]. }
  assert (forall c' h', ck2 h2 h' -> cv_chan0 c' = cv_chan0 c -> cv_chan1 c' = cv_chan1 c -> cvorg_agrees (Dev c' h')) as Hend.
  { intros c' h' K E0 E1. eapply agrees_ck2; [|done|done|exact Hag]. intros o Ho. eapply ck_trans; [by apply K2|by apply K]. }
  destruct b; [by apply Hend|]. case_goal; [by apply Hend|].
  assert (ck2 h2 (__cvorg_apply_pll ro spi_ready pll h2).2) as K3.
  { intros o Ho. unfold __cvorg_apply_pll. pose proof (clkgen_apply_ck o Ho ro spi_ready pll h2) as K.
    destruct (clkgen_apply_pll_conf ro spi_ready pll h2) as [[cal pll'] h3]. case_goal; [exact K|].
    unfold cvorg_poll_sampfreq. case_goal; [exact K|]. unfold read_sampfreq.
    pose proof (readw_ck2 CVORG_SAMPFREQ h3 o Ho) as K'. destruct (cvorg_readw _ _ _ h3) as [v h4].
    pose proof (sampfreq_loop_ck2 100 (pll_freq pll') (v / CVORG_FREQ_DIV) h4 o Ho) as K''. destruct (sampfreq_loop _ _ _ _ _ h4).
    eapply ck_trans; [exact K|]. by eapply ck_trans. }
  destruct (__cvorg_apply_pll ro spi_ready pll h2) as [[e pll'] h3]. case_goal; by apply Hend.
Qed.

Lemma trig_op v : op_ok (s_trig_ioctl v).
Proof. apply op_idle. intros. by apply trig_idle. Qed.

Lemma sram_op a set : op_ok (gs_sram_ioctl ro spi_ready cpu_big a set).
Proof. apply op_idle. intros. by apply sram_idle. Qed.

Lemma chanstat_op : op_ok (cvorg_g_chanstat ro spi_ready).
Proof. apply op_idle. intros. by apply chanstat_idle. Qed.

Lemma mode_op set : op_ok (cvorg_gs_mode_ioctl ro spi_ready set).
Proof. apply op_idle. intros. by apply mode_idle. Qed.

Lemma adc_op ch r : op_ok (cvorg_adc_read_ioctl ro spi_ready ch r).
Proof. apply op_idle. intros. by apply adc_idle. Qed.

Lemma dac_ops set : op_ok (cvorg_dac_val_ioctl ro spi_ready set) /\ op_ok (cvorg_dac_gain_ioctl ro spi_ready set) /\
  op_ok (cvorg_dac_offset_ioctl ro spi_ready set).
Proof. split_and!; apply op_idle; intros; [by apply dac_val_idle|by apply dac_gain_idle|by apply dac_offset_idle]. Qed.

Lemma dispatch_agrees file n cm d r n' d' log : cvorg_agrees d ->
  cvorg_dispatch ro spi_ready cpu_big file n cm d = Some (r, n', d', log) -> cvorg_agrees d'.
Proof.
  intros Hag.
  assert (forall f, op_ok f -> (let '(r, d) := with_channel n f d in Some (r, n, d, [])) = Some (r, n', d', log) -> cvorg_agrees d') as Hon.
  { intros f Hf. pose proof (with_channel_agrees n f d Hf Hag) as H. destruct (with_channel n f d). by intros [= _ _ <- _]. }
  assert (forall x : uret * cdev, cvorg_agrees x.2 -> (let '(r, d) := x in Some (r, n, d, [])) = Some (r, n', d', log) -> cvorg_agrees d') as Hmod.
  { intros [r1 d1] H. by intros [= _ _ <- _]. }
  assert (forall a k, cvorg_agrees (let '(v, h) := cvorg_readw ro spi_ready a (d_hw d) in (UOk (OZ (k v)), Dev (d_cvorg d) h) : uret * cdev).2) as Hrd.
  { intros a k. pose proof (readw_ck2 a (d_hw d)) as K. destruct (cvorg_readw _ _ a _). destruct d. by eapply agrees_ck2. }
  assert (cvorg_agrees (Dev (set_owner (Some file) (d_cvorg d)) (d_hw d)) /\ cvorg_agrees (Dev (set_owner None (d_cvorg d)) (d_hw d))) as [Hl Hu] by done.
  destruct cm; cbn [cvorg_dispatch gs_channel_ioctl];
    try (apply Hon; first [apply outoff_op|apply inpol_op|apply sram_op|apply trig_op|apply chanstat_op|apply mode_op|apply outgain_op|apply adc_op|apply dac_ops|apply out_enable_op]);
    try (by apply Hmod).
  - by intros [= _ _ <- _].
  - case_goal; by intros [= _ _ <- _].
  - apply Hmod, pll_agrees, Hag.
  - destruct (cvorg_loadseq _ _ _ _ _ _) as [[r1 h1]|] eqn:El; [|done]. cbn. intros [= _ _ <- _].
    destruct d as [c h]. eapply agrees_ck2; [|done|done|exact Hag]. intros o Ho.
    refine (loadseq_ck o Ho ro spi_ready cpu_big _ _ _ _ _ _ El).
    destruct Hag as (O0 & O1 & _). unfold cvorg_get_channel. case_goal; [by left|by right].
  - by intros [= _ _ <- _].
Qed.

Lemma ioctl_agrees file n intr cm d r n' d' log : cvorg_agrees d ->
  SkelUserIoctls ro spi_ready cpu_big file n intr cm d = Some (r, n', d', log) -> cvorg_agrees d'.
Proof.
  intros Hag. unfold SkelUserIoctls. case_goal; [|by apply dispatch_agrees]. case_goal; [by intros [= _ _ <- _]|].
  case_goal; [by intros [= _ _ <- _]|]. destruct (cvorg_dispatch _ _ _ _ _ _ _) as [[[[r1 n1] d1] l1]|] eqn:Ed; [|done].
  cbn. intros [= _ _ <- _]. by eapply dispatch_agrees.
Qed.

(** ** Reset *)

Lemma writew_ck2 a v h : a <> CVORG_CONFIG -> a <> CVORG_CHAN2_OFFSET + CVORG_CONFIG -> ck2 h (cvorg_writew a v h).
Proof. intros H1 H2 o [-> | ->]; by apply write_ck. Qed.

Lemma disable_ck2 h : ck2 h (disable_interrupts ro spi_ready h).
Proof.
  unfold disable_interrupts. intros o Ho. eapply ck_trans; [by apply (writew_ck2 CVORG_INTEN 0 h)|]. by apply readw_ck2.
Qed.

Lemma interrupts_ck2 isr h : ck2 h (enable_interrupts (config_interrupts ro spi_ready isr h)).
Proof.
  intros o Ho. unfold enable_interrupts. eapply ck_trans; [|by apply writew_ck2]. unfold config_interrupts.
  destruct isr as [[v l]|]; [|by apply disable_ck2]. eapply ck_trans; [by apply (writew_ck2 CVORG_INTVECT v h)|by apply writew_ck2].
Qed.

Lemma default_ok c : chan_ok (cvorg_channel_cfg_init c).
Proof. unfold chan_ok. cbn. split_and!; try done; apply (bool_decide_unpack _); done. Qed.

(** After a reset the registers agree, whatever they and the driver's data held. *)
Lemma reset_agrees isr d : reg_offset (cv_chan0 (d_cvorg d)) = CVORG_CHAN1_OFFSET -> reg_offset (cv_chan1 (d_cvorg d)) = CVORG_CHAN2_OFFSET ->
  cvorg_agrees (__cvorg_reset ro spi_ready isr d).
Proof.
  intros O0 O1. unfold __cvorg_reset, __cvorg_apply_cfg. set (c := cvorg_cfg_init (d_cvorg d)). set (h0 := clkgen_startup _ _ _). clearbody h0.
  assert (reg_offset (cv_chan0 c) = CVORG_CHAN1_OFFSET /\ reg_offset (cv_chan1 c) = CVORG_CHAN2_OFFSET /\ chan_ok (cv_chan0 c) /\ chan_ok (cv_chan1 c))
    as (R0 & R1 & Q0 & Q1) by (split_and!; [done|done|apply default_ok..]).
  clearbody c. cbn [d_cvorg d_hw].
  destruct (clkgen_apply_pll_conf ro spi_ready (cv_pll c) h0) as [[cal pll] h1].
  destruct (apply_cfg_word ro spi_ready (cv_chan0 c) (or_introl R0) h1) as [B0 _].
  set (h2 := __cvorg_apply_channel_cfg ro spi_ready (cv_chan0 c) h1) in *.
  destruct (apply_cfg_word ro spi_ready (cv_chan1 c) (or_intror R1) h2) as [B1 K1].
  set (h3 := __cvorg_apply_channel_cfg ro spi_ready (cv_chan1 c) h2) in *.
  cbn [d_cvorg d_hw]. unfold cvorg_agrees, chan_agrees. cbn [d_cvorg d_hw set_pll cv_chan0 cv_chan1]. split_and!; try done.
  - rewrite (interrupts_ck2 isr h3 _ (or_introl R0)). rewrite <- B0. apply K1; [by left|]. by rewrite R0, R1.
  - by rewrite (interrupts_ck2 isr h3 _ (or_intror R1)).
Qed.
End Ops.

(** ** Histories *)

(** What clients do to a module: ioctls, resets, and going away. *)
Inductive cvact :=
  | ActIoctl (file n : Z) (intr : bool) (cm : cvcmd)
  | ActReset (isr : option (Z * Z))
  | ActRelease (file : Z).

Definition cvorg_do ro spi_ready cpu_big (a : cvact) (d : cdev) : option cdev :=
  match a with
  | ActIoctl file n intr cm => '(_, _, d, _) ← SkelUserIoctls ro spi_ready cpu_big file n intr cm d; Some d
  | ActReset isr => Some (fst (SkelUserHardwareReset ro spi_ready isr d))
  | ActRelease file => Some (release_owner file d)
  end.

Definition cvorg_run ro spi_ready cpu_big (l : list cvact) (d : cdev) : option cdev :=
  foldl (fun od a => d ← od; cvorg_do ro spi_ready cpu_big a d) (Some d) l.

Lemma run_none ro spi_ready cpu_big l : foldl (fun od a => d ← od; cvorg_do ro spi_ready cpu_big a d) None l = None.
Proof. induction l; done. Qed.

(** C27: From the moment a module has been initialised, whatever its clients do, the
    configuration register of each channel holds the polarity, the offset, the
    gain and the output bit the driver keeps for it; the values are the ones the
    driver means; and a channel with the offset of 2.5 V has the gain of 14 dB
    that this offset needs. *)
Theorem cvorg_always_agrees ro spi_ready cpu_big sz mapped buserr isr h d h' log l d' :
  SkelUserModuleInit ro spi_ready sz true mapped buserr isr h = Some (inr d, h', log) ->
  cvorg_run ro spi_ready cpu_big l d = Some d' -> cvorg_agrees d'.
Proof.
  intros Hinit Hrun.
  assert (cvorg_agrees d) as Hd.
  { revert Hinit. unfold SkelUserModuleInit. rewrite sysbrk_not_null. cbn [negb]. case_goal; [done|].
    destruct (cvorg_version_check _ _ _ _) as [[rev absent] h1]. case_goal; [done|]. cbn. intros [= <- _ _]. by apply reset_agrees. }
  clear Hinit. revert d Hd Hrun. induction l as [|a l IH]; intros d Hd; [by intros [= <-]|].
  unfold cvorg_run. cbn [foldl mbind option_bind]. destruct (cvorg_do ro spi_ready cpu_big a d) as [d1|] eqn:E; [|by rewrite run_none].
  intros Hr. apply (IH d1); [|exact Hr]. destruct a as [file n intr cm|isr'|file]; cbn in E.
  - destruct (SkelUserIoctls _ _ _ _ _ _ _ _) as [[[[r n1] d2] l2]|] eqn:Ei; [|done]. injection E as <-. by eapply ioctl_agrees.
  - injection E as <-. destruct Hd as (O0 & O1 & _). by apply reset_agrees.
  - injection E as <-. unfold release_owner. case_goal; [|done]. destruct d. by eapply agrees_ck2.
Qed.

(** ** Ownership *)

Lemma dispatch_owner ro spi_ready cpu_big file n cm d r n' d' log :
  cvorg_dispatch ro spi_ready cpu_big file n cm d = Some (r, n', d', log) ->
  cm <> IOCTLOCK -> cm <> IOCTUNLOCK -> cm <> IOCTUNLOCK_FORCE -> cv_owner (d_cvorg d') = cv_owner (d_cvorg d).
Proof.
  assert (forall f, (let '(r, d) := with_channel n f d in Some (r, n, d, [])) = Some (r, n', d', log) -> cv_owner (d_cvorg d') = cv_owner (d_cvorg d)) as Hon.
  { intros f. unfold with_channel. destruct (f _ _) as [[r1 c1] h1]. intros [= _ _ <- _]. cbn. unfold put_channel. by case_goal. }
  assert (forall x : uret * cdev, cv_owner (d_cvorg x.2) = cv_owner (d_cvorg d) -> (let '(r, d) := x in Some (r, n, d, [])) = Some (r, n', d', log) ->
    cv_owner (d_cvorg d') = cv_owner (d_cvorg d)) as Hmod.
  { intros [r1 d1] H. by intros [= _ _ <- _]. }
  destruct cm; cbn [cvorg_dispatch gs_channel_ioctl]; try (intros H _ _ _; revert H; apply Hon); try done.
  - by intros [= _ _ <- _].
  - case_goal; by intros [= _ _ <- _].
  - intros H _ _ _. revert H. apply Hmod. done.
  - intros H _ _ _. revert H. apply Hmod. unfold gs_pll_ioctl. destruct (__cvorg_busy _ _ _ _) as [[] h1]; [done|].
    case_goal; [done|]. destruct (__cvorg_apply_pll _ _ _ _) as [[e pll'] h2]. by case_goal.
  - destruct (cvorg_loadseq _ _ _ _ _ _) as [[r1 h1]|]; [|done]. cbn. by intros [= _ _ <- _].
  - intros H _ _ _. revert H. apply Hmod. unfold cvorg_g_sampfreq. by destruct (cvorg_readw _ _ _ _).
  - intros H _ _ _. revert H. apply Hmod. unfold cvorg_get_temperature. by destruct (cvorg_readw _ _ _ _).
  - intros H _ _ _. revert H. apply Hmod. unfold cvorg_get_pcb_id. destruct (cvorg_readw _ _ _ _) as [m h1]. by destruct (cvorg_readw _ _ _ h1).
  - by intros [= _ _ <- _].
Qed.

Lemma dispatch_log ro spi_ready cpu_big file n cm d r n' d' log :
  cvorg_dispatch ro spi_ready cpu_big file n cm d = Some (r, n', d', log) -> _IOC_NR cm <> 58 -> log = [].
Proof.
  destruct cm; cbn [cvorg_dispatch gs_channel_ioctl _IOC_NR]; try done;
    try (destruct (with_channel _ _ _); by intros [= _ _ _ <-]); try by intros [= _ _ _ <-].
  - case_goal; by intros [= _ _ _ <-].
  - destruct (gs_pll_ioctl _ _ _ _). by intros [= _ _ _ <-].
Qed.

(** C32: A module that a file has locked serves that file: from any other one, the
    ioctls that change something are refused without touching the module or its
    card, no ioctl takes the ownership away but the one that is meant to force
    it, and the lock of the module is always given back. *)
Theorem locked_module_serves_owner ro spi_ready cpu_big f g n cm d r n' d' log : cv_owner (d_cvorg d) = Some f -> g <> f ->
  SkelUserIoctls ro spi_ready cpu_big g n false cm d = Some (r, n', d', log) ->
  (CVORG_IOCTL_LOCKING < _IOC_NR cm -> r = UErr EACCES /\ d' = d /\ n' = n) /\
  (cm <> IOCTUNLOCK_FORCE -> cv_owner (d_cvorg d') = Some f) /\
  own_run log ∅ = Some ∅.
Proof.
  intros Hf Hg. unfold SkelUserIoctls, __cvorg_check_perm. rewrite Hf, (proj2 (Z.eqb_neq f g)) by done. cbn [negb]. rewrite andb_true_r.
  unfold CVORG_IOCTL_LOCKING, CVORG_IOCTL_NO_LOCKING.
  destruct (Z.ltb_spec 10 (_IOC_NR cm)) as [H10|H10].
  - destruct (Z.ltb_spec 50 (_IOC_NR cm)) as [H50|H50]; [by intros [= <- <- <- <-]|].
    destruct (cvorg_dispatch _ _ _ _ _ _ _) as [[[[r1 n1] d1] l1]|] eqn:E; [|done]. cbn. intros [= <- <- <- <-].
    rewrite (dispatch_log _ _ _ _ _ _ _ _ _ _ _ E) by lia. split_and!; [lia| |done].
    intros Hne. rewrite <- Hf. eapply dispatch_owner; [exact E|..|done]; intros ->; cbn in H50; lia.
  - intros E. rewrite (dispatch_log _ _ _ _ _ _ _ _ _ _ _ E) by lia. split_and!; [lia| |done].
    intros Hne. rewrite <- Hf. eapply dispatch_owner; [exact E|..|done]; intros ->; cbn in H10; lia.
Qed.

(** When the owner goes away, no module is left locked by it, and the modules of
    others stay locked. *)
Lemma client_release_owner file modules i d : SkelUserClientRelease file modules !! i = Some (Some d) ->
  cv_owner (d_cvorg d) <> Some file /\
  exists d0, modules !! i = Some (Some d0) /\ (cv_owner (d_cvorg d0) <> Some file -> d = d0).
Proof.
  unfold SkelUserClientRelease. rewrite list_lookup_fmap. destruct (modules !! i) as [[d0|]|]; [|done|done]. cbn.
  intros [= <-]. unfold release_owner. case_bool_decide as E; cbn; (split; [done|]); exists d0; (split; [done|]); [by intros ?|done].
Qed.

(** ** Gains *)

Lemma absdiff_spec a b : Z.abs (a - b) < 2 ^ 32 -> cvorg_absdiff a b = Z.abs (a - b).
Proof. intros Ha. unfold cvorg_absdiff. case_goal; boolp; rewrite u32_id by (unfold is_u32; lia); lia. Qed.

(** What the search keeps, over values in ascending order: the first of the
    values nearest to [val], or the start when none is nearer. *)
Lemma nearest_fold val l : forall best, StronglySorted Z.lt l -> (forall x, x ∈ l -> Z.abs (x - val) < 2 ^ 32) ->
  let r := foldl (nearest_step val) best l in
  r.1 <= best.1 /\ (forall x, x ∈ l -> r.1 <= Z.abs (x - val)) /\
  (r = best \/
   r.2 ∈ l /\ r.1 = Z.abs (r.2 - val) /\ r.1 < best.1 /\ forall x, x ∈ l -> Z.abs (x - val) = r.1 -> r.2 <= x).
Proof.
  induction l as [|a l IH]; intros best Hs Hd; cbn [foldl].
  { split_and!; [lia|by intros x Hx%elem_of_nil|by left]. }
  apply StronglySorted_inv in Hs as [Hs Ha]. rewrite Forall_forall in Ha.
  specialize (IH (nearest_step val best a) Hs ltac:(intros x Hx; apply Hd; by right)).
  cbn zeta in *. set (r := foldl _ _ l) in *. destruct IH as (Hle & Hall & Hr).
  unfold nearest_step in Hle, Hr. rewrite absdiff_spec in Hle, Hr by (apply Hd; by left).
  destruct (Z.ltb_spec (Z.abs (a - val)) best.1) as [Hlt|Hge]; cbn [fst snd] in *.
  - split_and!; [lia|intros x [->|Hx]%elem_of_cons; auto|right].
    destruct Hr as [->|(Hin & Hv & Hl & Ht)]; cbn [fst snd].
    + split_and!; [by left|done|done|]. intros x [->|Hx]%elem_of_cons _; [lia|]. apply Ha in Hx. lia.
    + split_and!; [by right|done|lia|]. intros x [->|Hx]%elem_of_cons Hxe; [lia|by apply Ht].
  - split_and!; [lia|intros x [->|Hx]%elem_of_cons; [lia|auto]|].
    destruct Hr as [->|(Hin & Hv & Hl & Ht)]; [by left|right].
    split_and!; [by right|done|lia|]. intros x [->|Hx]%elem_of_cons Hxe; [lia|by apply Ht].
Qed.

(** The gain the driver takes is the card's nearest one to what was asked for;
    of two that are as near, the lower. *)
Lemma gain_approx_nearest g : - 2 ^ 31 <= g < 2 ^ 31 ->
  cvorg_gain_approx g ∈ cvorg_gains /\
  forall x, x ∈ cvorg_gains -> Z.abs (cvorg_gain_approx g - g) <= Z.abs (x - g) /\
    (Z.abs (cvorg_gain_approx g - g) = Z.abs (x - g) -> cvorg_gain_approx g <= x).
Proof.
  intros Hg. split; [apply gain_approx_gain|]. unfold cvorg_gain_approx.
  assert (forall x, x ∈ cvorg_gains -> -22 <= x <= 20) as Hr.
  { intros x Hx. repeat (apply elem_of_cons in Hx as [->|Hx]; [lia|]). by apply elem_of_nil in Hx. }
  destruct (Z.ltb_spec g (-22)); [intros x Hx%Hr; lia|]. destruct (Z.ltb_spec 20 g); [intros x Hx%Hr; lia|].
  assert (forall x, x ∈ cvorg_gains -> Z.abs (x - g) < 2 ^ 32 - 1) as Hd by (intros x Hx%Hr; lia).
  destruct (nearest_fold g cvorg_gains (2 ^ 32 - 1, hd 0 cvorg_gains)) as (_ & Hall & [E|(_ & Hv & _ & Ht)]).
  - by repeat constructor.
  - intros x Hx. specialize (Hd x Hx). lia.
  - exfalso. pose proof (Hall 2 ltac:(by do 4 right; left)) as H2. rewrite E in H2. cbn [fst] in H2. lia.
  - intros x Hx. fold (cvorg_nearest cvorg_gains g) in *. rewrite <- Hv. specialize (Hall x Hx).
    split; [lia|]. intros Heq. apply Ht; [done|lia].
Qed.

(** ** Shortest waveforms *)

Definition interpolated (mhz m : Z) : bool :=
  let i := cvorg_freqlimit_range mhz in
  let '(x1, y1) := limit i in let '(x2, y2) := limit (S i) in
  ((m - y1) * (x2 - x1) <=? (y2 - y1) * (mhz - x1)) && ((y2 - y1) * (mhz - x1) <=? (m - y1 + (mhz - x1)) * (x2 - x1)).

Lemma to_mhz_spec hz : is_u32 hz -> hz <= to_mhz hz * 1000000 < hz + 1000000 /\ 0 <= to_mhz hz <= 4295.
Proof.
  intros Hz. unfold is_u32 in Hz. unfold to_mhz, truthy. pose proof (Z.div_mod hz 1000000). pose proof (Z.mod_pos_bound hz 1000000).
  assert (0 <= hz / 1000000 <= 4294) by (split; [apply Z.div_pos; lia|]; apply Z.lt_succ_r, Z.div_lt_upper_bound; lia).
  destruct (Z.eqb_spec (hz mod 1000000) 0); cbn [negb]; rewrite u32_id by (unfold is_u32; lia); lia.
Qed.

(** The shortest length allowed at a frequency, rounded up to MHz, is on the line
    between the two frequencies of the table around it, or below it by less than
    a point for each MHz above the lower one; it grows with the frequency. *)
Lemma freq_minimum_spec mhz : 1 <= mhz <= 4295 -> interpolated mhz (freq_minimum mhz) = true /\
  (mhz < 4295 -> freq_minimum mhz <= freq_minimum (mhz + 1)).
Proof.
  intros Hm.
  assert (Forall (fun z => interpolated z (freq_minimum z) = true /\ (z < 4295 -> freq_minimum z <= freq_minimum (z + 1))) (seqZ 1 4295)) as H.
  { apply (bool_decide_unpack _). by vm_compute. }
  rewrite Forall_forall in H. apply H, elem_of_seqZ. lia.
Qed.

(** The slope is a whole number: at 10 and 25 MHz the minimum is below the table. *)
Lemma limits_rounded_down : freq_minimum 10 = 52 /\ freq_minimum 25 = 1245 /\ limit 1 = (10, 60) /\ limit 2 = (25, 1250).
Proof. done. Qed.

(** ** Corrections of the DAC *)

(** An offset below zero is read back without its sign. *)
Lemma dac_offset_sign ro spi_ready c h v : is_chan (reg_offset c) -> - 2 ^ 14 <= v < 0 ->
  let '(r1, _, h1) := cvorg_dac_offset_ioctl ro spi_ready (Some v) c h in
  let '(r2, _, _) := cvorg_dac_offset_ioctl ro spi_ready None c h1 in r1 = UOk ONone /\ r2 = UOk (OZ (v + 2 ^ 15)).
Proof.
  intros Hc Hv. unfold cvorg_dac_offset_ioctl.
  assert ((v <=? 2 ^ 14 - 1) && (- 2 ^ 14 <=? v) = true) as -> by (apply andb_true_iff; split; apply Z.leb_le; lia). cbn [negb].
  assert (0 <= CVORG_DACCORR < 0x200 /\ plain CVORG_DACCORR) as [P1 P2].
  { split; [done|]. unfold plain. split_and!; try done. intros H. vm_compute in H. set_solver. }
  set (x := Z.shiftl (Z.land v 32767) CVORG_DACCORR_OFFSET_SHIFT).
  destruct (uchan_changes ro spi_ready (reg_offset c) Hc CVORG_DACCORR x CVORG_DACCORR_OFFSET_MASK h P1 P2) as [Hr _].
  set (h1 := cvorg_uchan _ _ _ _ _ _ h) in *.
  destruct (rchan_plain ro spi_ready (reg_offset c) Hc CVORG_DACCORR h1 P1 P2) as (h2 & -> & _). rewrite Hr.
  assert (Z.land v 32767 = v + 2 ^ 15) as Ev.
  { rewrite (land_ones_mod _ 15) by (lia || done). rewrite <- (Z.mod_small (v + 2 ^ 15) (2 ^ 15)) by lia.
    rewrite <- (Z.mod_add v 1) by lia. f_equal; lia. }
  rewrite update_same; [|done|].
  - subst x. rewrite Z.shiftr_shiftl_l, Z.sub_diag, Z.shiftl_0_r, Ev by done. split; [done|]. f_equal. f_equal.
    assert (s16 (v + 2 ^ 15) = v + 2 ^ 15) as Es by (unfold s16; rewrite Z.mod_small by lia; lia).
    rewrite Es. unfold u16. rewrite Z.mod_small by lia. exact Es.
  - subst x. change CVORG_DACCORR_OFFSET_MASK with (Z.shiftl (Z.ones 15) CVORG_DACCORR_OFFSET_SHIFT).
    rewrite <- Z.shiftl_land. f_equal. rewrite <- Z.land_assoc. by rewrite Z.land_diag.
Qed.

(** ** A module *)

(** A card whose clock locks, at 100 MHz. *)
Definition good_card (a : Z) (t : nat) : Z :=
  if a =? CVORG_VERSION then 0x470012 else if a =? AD9516_PLLREADBACK then 0x40 else
  if (a =? CVORG_STATUS) || (a =? CVORG_CHAN2_OFFSET + CVORG_STATUS) then 0x301 else if a =? CVORG_SAMPFREQ then 100000000 else 0.

Definition ready (t : nat) : bool := true.

(** The first client sets the gain and the offset of channel A, and output and
    polarity of channel B. *)
Definition acts0 : list cvact :=
  [ActIoctl 1 0 false (IOCSOUTGAIN 13); ActIoctl 1 0 false (IOCSOUTOFFSET 1); ActIoctl 1 1 false (IOCSOUT_ENABLE 5);
   ActIoctl 1 1 false (IOCSINPOLARITY 1); ActIoctl 1 0 false (IOCSOUTGAIN 2); ActIoctl 1 0 false (IOCSMODE 3)].

Definition module0 : option cdev :=
  match SkelUserModuleInit good_card ready 132 true true false None (Cvhw ∅ ∅ ∅ ∅ 0 [] 0) with
  | Some (inr d, _, _) => Some d
  | _ => None
  end.

Lemma cvorg_always_agrees_witness : exists d d',
  module0 = Some d /\ cvorg_run good_card ready false acts0 d = Some d' /\ cvorg_agrees d' /\
  ch_outgain (cv_chan0 (d_cvorg d')) = 14 /\ cfg_bits 0 (d_hw d') = 0x320 /\ cfg_bits 0x200 (d_hw d') = 0x7c0.
Proof.
  destruct (SkelUserModuleInit good_card ready 132 true true false None (Cvhw ∅ ∅ ∅ ∅ 0 [] 0)) as [[[[e|d] h1] log]|] eqn:E;
    [by vm_compute in E| |by vm_compute in E].
  assert (module0 = Some d) as Em by (unfold module0; by rewrite E).
  assert (exists d', (d ← module0; cvorg_run good_card ready false acts0 d) = Some d' /\
    ch_outgain (cv_chan0 (d_cvorg d')) = 14 /\ cfg_bits 0 (d_hw d') = 0x320 /\ cfg_bits 0x200 (d_hw d') = 0x7c0) as (d' & H).
  { eexists. split; [by vm_compute|]. by vm_compute. }
  rewrite Em in H. destruct H as (Hr & H1 & H2 & H3). exists d, d'. split_and!; try done.
  exact (cvorg_always_agrees good_card ready false 132 true false None _ d h1 log acts0 d' E Hr).
Defined.

Definition locked_module : cdev := Dev (Cv 0x12 (Some 1) cvorg_pll_cfg_init chan_a chan_a) blank_card.

Lemma locked_module_serves_owner_witness :
  SkelUserIoctls good_card ready false 2 0 false (IOCSOUTGAIN 13) locked_module =
    Some (UErr EACCES, 0, locked_module, [Acq KLOCK 0; Rel KLOCK 0]) /\
  (CVORG_IOCTL_LOCKING < _IOC_NR (IOCSOUTGAIN 13) -> UErr EACCES = UErr EACCES /\ locked_module = locked_module /\ 0 = 0).
Proof.
  assert (SkelUserIoctls good_card ready false 2 0 false (IOCSOUTGAIN 13) locked_module =
    Some (UErr EACCES, 0, locked_module, [Acq KLOCK 0; Rel KLOCK 0])) as H by (by vm_compute).
  split; [exact H|]. apply (locked_module_serves_owner good_card ready false 1 2 0 (IOCSOUTGAIN 13) locked_module _ _ _ _ eq_refl ltac:(done) H).
Defined.

Lemma gain_approx_nearest_witness : cvorg_gain_approx 11 = 8 /\ Z.abs (cvorg_gain_approx 11 - 11) <= Z.abs (14 - 11).
Proof.
  split; [done|]. apply (gain_approx_nearest 11); [lia|]. apply (bool_decide_unpack _). by vm_compute.
Defined.

(** A module that has no interrupt has its interrupts disabled, and then enabled. *)
Lemma reset_enables_interrupts : exists d, module0 = Some d /\ rd (cv_mem (d_hw d)) CVORG_INTEN = CVORG_INTEN_ENDFUNC /\
  cv_mem (d_hw d) !! CVORG_INTVECT = None.
Proof. eexists. split; [by vm_compute|]. by vm_compute. Qed.
