(* ===== verification/Sis33Dma.v ===== *)
(** * VME accesses of the SIS33xx digitizers ([sis33/drivers/sis33_dma.c])

    Every access to a digitizer is a DMA transfer of the bridge.  The requests
    are the ones [vme_do_dma()] of [VmeDma] takes; what the transfer does on the
    bus is [bus_dma]: the card is a function from the words written to it so far
    and the time to the byte at each VME address. *)

From S2P Require Import Prelude VmeBus Tsi148 Tsi148Dma Tsi148DmaChain VmeDma.

(** [enum vme_dma_block_size] *)
Definition VME_DMA_BSIZE_64 : Z := 1.
Definition VME_DMA_BSIZE_2048 : Z := 6.

(** ** Big-endian words *)

Definition be32_to_cpu (l : list Z) : Z := foldl (fun v b => 256 * v + b) 0 l.
Definition cpu_to_be32 (v : Z) : list Z :=
  [u8 (Z.shiftr v 24); u8 (Z.shiftr v 16); u8 (Z.shiftr v 8); u8 v].

(** [n] words in place. *)
Fixpoint be_words (n : nat) (l : list Z) : list Z :=
  match n with O => [] | S n => be32_to_cpu (take 4 l) :: be_words n (drop 4 l) end.

(** ** Requests *)

(** [__sis33_dma()] *)
Definition sis33_block_desc (vme_addr am addr size : Z) : vme_dma :=
  Vme_dma 0 (u32 size) 0 VME_DMA_FROM_DEVICE
    (Vme_dma_attr VME_D32 am 0 0 0 vme_addr) (Vme_dma_attr 0 0 0 0 0 addr)
    (Vme_dma_ctrl VME_DMA_BSIZE_2048 VME_DMA_BACKOFF_0 VME_DMA_BSIZE_2048 VME_DMA_BACKOFF_0).

Definition sis33_word_ctrl : vme_dma_ctrl :=
  Vme_dma_ctrl VME_DMA_BSIZE_64 VME_DMA_BACKOFF_0 VME_DMA_BSIZE_64 VME_DMA_BACKOFF_0.

Definition sis33_read_desc (vme_addr addr : Z) : vme_dma :=
  Vme_dma 0 4 0 VME_DMA_FROM_DEVICE
    (Vme_dma_attr VME_D32 VME_A32_USER_DATA_SCT 0 0 0 vme_addr) (Vme_dma_attr 0 0 0 0 0 addr) sis33_word_ctrl.

Definition sis33_write_desc (vme_addr addr : Z) : vme_dma :=
  Vme_dma 0 4 0 VME_DMA_TO_DEVICE
    (Vme_dma_attr 0 0 0 0 0 addr) (Vme_dma_attr VME_D32 VME_A32_USER_DATA_SCT 0 0 0 vme_addr) sis33_word_ctrl.

(** The checks of [__vme_do_dma()], [vme_dma_setup()] and [tsi148_dma_setup()]
    before anything is acquired or transferred. *)
Definition dma_refused (d : vme_dma) : bool :=
  (dma_length d =? 0) || truthy (da_addru (dma_src d)) || truthy (da_addru (dma_dst d))
  || (u32 (host_addr d + dma_length d) <? host_addr d) || negb (request_valid d).

(** ** Transfers *)

(** Words written to the bus so far, oldest first, and the number of transfers. *)
Record vbus := Vbus { hist : list (Z * Z); now : nat }.

(** A register whose low half sets bits and whose high half clears them. *)
Definition jk (r v : Z) : Z := Z.land (Z.lor r (Z.land v 0xffff)) (Z.lnot (Z.shiftr v 16)).

Lemma jk_bit r v i : 0 <= i < 16 ->
  Z.testbit (jk r v) i = (Z.testbit r i || Z.testbit v i) && negb (Z.testbit v (i + 16)).
Proof.
  intros Hi. unfold jk. rewrite Z.land_spec, Z.lor_spec, Z.lnot_spec, Z.shiftr_spec by lia. f_equal.
  change 0xffff with (Z.ones 16). by rewrite Z.land_spec, Z.ones_spec_low, andb_true_r by lia.
Qed.

(** A register that keeps what is written to it. *)
Definition last_write (a : Z) (h : list (Z * Z)) : Z := foldl (fun r w => if w.1 =? a then w.2 else r) 0 h.

Lemma last_write_snoc a h w : last_write a (h ++ [w]) = if w.1 =? a then w.2 else last_write a h.
Proof. unfold last_write. by rewrite foldl_snoc. Qed.


Section Card.
Variable card : list (Z * Z) -> nat -> Z -> Z.   (* the byte at a VME address *)
Variable dma_rc : nat -> Z.                      (* what the bridge answers to each transfer *)
Variable junk : nat -> list Z.                   (* a buffer no transfer has filled *)
Variable kbuf : nat -> Z.                        (* addresses of the kernel buffers *)

Definition card_bytes (b : vbus) (addr n : Z) : list Z := (fun i => card (hist b) (now b) (addr + i)) <$> seqZ 0 n.

(** [vme_do_dma()] and [vme_do_dma_kernel()]: rc, the bytes that end up in the
    buffer, and the bus.  [out] is what the buffer holds before. *)
Definition bus_dma (d : vme_dma) (out : list Z) (b : vbus) : Z * list Z * vbus :=
  let tick h := Vbus h (S (now b)) in
  if dma_refused d then (- EINVAL, out, tick (hist b)) else
  let rc := dma_rc (now b) in
  if truthy rc then (rc, out, tick (hist b)) else
  if dma_dir d =? VME_DMA_FROM_DEVICE
  then (0, card_bytes b (da_addrl (dma_src d)) (dma_length d), tick (hist b))
  else (0, out, tick (hist b ++ [(da_addrl (dma_dst d), be32_to_cpu out)])).

Definition sis33_dma_read_mblt (vme_addr size : Z) (b : vbus) : Z * list Z * vbus :=
  bus_dma (sis33_block_desc vme_addr VME_A32_USER_MBLT (kbuf (now b)) size) (junk (now b)) b.

Definition sis33_dma_read_mblt_user (vme_addr addr size : Z) (b : vbus) : Z * list Z * vbus :=
  bus_dma (sis33_block_desc vme_addr VME_A32_USER_MBLT addr size) (junk (now b)) b.

Definition sis33_dma_read32be_blt (vme_addr elems : Z) (b : vbus) : Z * list Z * vbus :=
  let '(rc, l, b) :=
    bus_dma (sis33_block_desc vme_addr VME_A32_USER_BLT (kbuf (now b)) (u32 (elems * 4))) (junk (now b)) b in
  (rc, be_words (Z.to_nat elems) l, b).

(** A read cannot fail: the value is then whatever was on the stack. *)
Definition sis33_dma_read (vme_addr : Z) (b : vbus) : Z * vbus :=
  let '(_, l, b) := bus_dma (sis33_read_desc vme_addr (kbuf (now b))) (junk (now b)) b in
  (be32_to_cpu (take 4 l), b).

Definition sis33_dma_write (vme_addr val : Z) (b : vbus) : vbus :=
  snd (bus_dma (sis33_write_desc vme_addr (kbuf (now b))) (cpu_to_be32 val) b).

(** ** What a transfer does when the bridge does its part *)

Definition word_at (b : vbus) (addr : Z) : Z := be32_to_cpu (card_bytes b addr 4).
Definition ticked (b : vbus) : vbus := Vbus (hist b) (S (now b)).
Definition wrote (addr val : Z) (b : vbus) : vbus := Vbus (hist b ++ [(addr, val)]) (S (now b)).

Hypothesis no_fault : forall n, dma_rc n = 0.
Hypothesis kbuf_ok : forall n, 0 <= kbuf n < 2 ^ 31.

Lemma block_accepted va am addr size :
  am = VME_A32_USER_MBLT \/ am = VME_A32_USER_BLT -> 0 < size -> 0 <= addr -> addr + size < 2 ^ 32 ->
  dma_refused (sis33_block_desc va am addr size) = false.
Proof.
  intros Ham Hs Ha Hf. unfold dma_refused. replace (request_valid _) with true by (by destruct Ham as [-> | ->]).
  cbn [dma_length dma_src dma_dst da_addru sis33_block_desc host_addr dma_dir da_addrl negb].
  change (host_addr _) with addr. rewrite (u32_id size) by (unfold is_u32; lia).
  rewrite (u32_id (addr + size)) by (unfold is_u32; lia).
  destruct (Z.eqb_spec size 0); [lia|]. destruct (Z.ltb_spec (addr + size) addr); [lia|]. done.
Qed.

Lemma word_accepted va addr : 0 <= addr < 2 ^ 31 ->
  dma_refused (sis33_read_desc va addr) = false /\ dma_refused (sis33_write_desc va addr) = false.
Proof.
  intros Ha. unfold dma_refused. rewrite !orb_false_iff. split_and!; try done; apply Z.ltb_ge.
  - change (host_addr _) with addr. change (dma_length _) with 4. rewrite u32_id; [lia|unfold is_u32; lia].
  - change (host_addr _) with addr. change (dma_length _) with 4. rewrite u32_id; [lia|unfold is_u32; lia].
Qed.

Lemma dma_from d out b : dma_refused d = false -> dma_dir d = VME_DMA_FROM_DEVICE ->
  bus_dma d out b = (0, card_bytes b (da_addrl (dma_src d)) (dma_length d), ticked b).
Proof. intros Hr Hd. unfold bus_dma. by rewrite Hr, no_fault, Hd. Qed.

Lemma card_bytes_length b addr n : length (card_bytes b addr n) = Z.to_nat n.
Proof. unfold card_bytes. by rewrite length_fmap, length_seqZ. Qed.

Lemma dma_read_spec va b : sis33_dma_read va b = (word_at b va, ticked b).
Proof.
  unfold sis33_dma_read. destruct (word_accepted va (kbuf (now b)) (kbuf_ok _)) as [Hr _].
  rewrite dma_from by done. by rewrite take_ge by (rewrite card_bytes_length; done).
Qed.

Lemma be32_cpu v : is_u32 v -> be32_to_cpu (cpu_to_be32 v) = v.
Proof.
  intros Hv. unfold be32_to_cpu, cpu_to_be32, u8, is_u32 in *. cbn [foldl].
  rewrite !Z.shiftr_div_pow2 by lia.
  pose proof (Z.div_mod v (2 ^ 8)). pose proof (Z.div_mod (v / 2 ^ 8) (2 ^ 8)). pose proof (Z.div_mod (v / 2 ^ 16) (2 ^ 8)).
  replace (v / 2 ^ 16) with (v / 2 ^ 8 / 2 ^ 8) in * by (rewrite Z.div_div by lia; done).
  replace (v / 2 ^ 24) with (v / 2 ^ 8 / 2 ^ 8 / 2 ^ 8) by (rewrite !Z.div_div by lia; done).
  rewrite (Z.mod_small (v / 2 ^ 8 / 2 ^ 8 / 2 ^ 8)).
  2:{ rewrite !Z.div_div by lia. split; [apply Z.div_pos; lia|apply Z.div_lt_upper_bound; lia]. }
  lia.
Qed.

Lemma dma_write_spec va v b : is_u32 v -> sis33_dma_write va v b = wrote va v b.
Proof.
  intros Hv. unfold sis33_dma_write, bus_dma. destruct (word_accepted va (kbuf (now b)) (kbuf_ok _)) as [_ ->].
  rewrite no_fault. cbn -[be32_to_cpu cpu_to_be32]. by rewrite be32_cpu.
Qed.

Lemma be_words_bytes n b addr :
  be_words n (card_bytes b addr (4 * Z.of_nat n)) = (fun i => word_at b (addr + 4 * Z.of_nat i)) <$> seq 0 n.
Proof.
  revert addr. induction n as [|n IH]; intros addr; [done|]. cbn [be_words].
  assert (card_bytes b addr (4 * Z.of_nat (S n)) = card_bytes b addr 4 ++ card_bytes b (addr + 4) (4 * Z.of_nat n)) as ->.
  { unfold card_bytes. replace (4 * Z.of_nat (S n)) with (4 + 4 * Z.of_nat n) by lia.
    rewrite seqZ_app by lia. rewrite fmap_app. f_equal.
    rewrite (Z.add_comm 0 4), <- (fmap_add_seqZ 4 0 (4 * Z.of_nat n)). rewrite <- list_fmap_compose. apply list_fmap_ext. intros i x _. cbn. f_equal. lia. }
  rewrite take_app_length' by (by rewrite card_bytes_length). rewrite drop_app_length' by (by rewrite card_bytes_length).
  cbn [seq fmap list_fmap]. rewrite IH. f_equal; [unfold word_at; do 2 f_equal; lia|].
  rewrite <- fmap_S_seq, <- list_fmap_compose. apply list_fmap_ext. intros i x _. cbn -[Z.of_nat Z.mul]. f_equal. lia.
Qed.

Lemma dma_blt_spec va n b : 0 < n -> n < 2 ^ 28 ->
  sis33_dma_read32be_blt va n b = (0, (fun i => word_at b (va + 4 * Z.of_nat i)) <$> seq 0 (Z.to_nat n), ticked b).
Proof.
  intros Hn Hm. unfold sis33_dma_read32be_blt. pose proof (kbuf_ok (now b)).
  rewrite (u32_id (n * 4)) by (unfold is_u32; lia).
  rewrite dma_from by (try done; apply block_accepted; auto; lia).
  cbn [dma_length sis33_block_desc dma_src da_addrl]. rewrite (u32_id (n * 4)) by (unfold is_u32; lia).
  do 2 f_equal. rewrite <- be_words_bytes. do 2 f_equal. lia.
Qed.

Lemma dma_mblt_spec va n b : 0 < n < 2 ^ 31 -> sis33_dma_read_mblt va n b = (0, card_bytes b va n, ticked b).
Proof.
  intros Hn. unfold sis33_dma_read_mblt. pose proof (kbuf_ok (now b)).
  rewrite dma_from by (try done; apply block_accepted; auto; lia).
  cbn [dma_length sis33_block_desc dma_src da_addrl]. by rewrite (u32_id n) by (unfold is_u32; lia).
Qed.

Lemma dma_mblt_user_spec va addr n b : 0 < n -> 0 <= addr -> addr + n < 2 ^ 32 ->
  sis33_dma_read_mblt_user va addr n b = (0, card_bytes b va n, ticked b).
Proof.
  intros Hn Ha Hf. unfold sis33_dma_read_mblt_user.
  rewrite dma_from by (try done; apply block_accepted; auto).
  cbn [dma_length sis33_block_desc dma_src da_addrl]. by rewrite (u32_id n) by (unfold is_u32; lia).
Qed.
End Card.
