(* ===== verification/Sis33Core.v ===== *)
(** * The core of the SIS33xx digitizer drivers ([sis33_core.c], [sis33_sysfs.c])

    A card with its configuration and memory segments, the two ioctls that
    acquire and fetch, the attributes in sysfs, and the numbering and
    registration of cards.  What a particular module does is behind the
    operations of [sis33_card_ops], over its private data [P].

    The mutex of a card makes each section under it one step; the ioctls are cut
    at the points where they hold no lock, and [Sis33Sys] interleaves the pieces. *)

From S2P Require Import Prelude SkelIo.

Definition ENODATA : Z := 61.
Definition SIS33_MAX_DEVICES : Z := 32.
Definition SIS33_ACQF_DONTWAIT : Z := 1.
Definition SIS33_ACQF_TIMEOUT : Z := 2.
Definition SIS33_TRIGGER_STOP : Z := 0.
Definition SIS33_TRIGGER_START : Z := 1.
Definition SIS33_CLKSRC_INTERNAL : Z := 0.
Definition SIS33_CLKSRC_EXTERNAL : Z := 1.

(** ** Data ([sis33core.h], [sis33.h]) *)

Record sis33_cfg := Cfg {
  start_delay : Z;
  stop_delay : Z;
  start_auto : Z;
  stop_auto : Z;
  trigger_ext_en : Z;
  clksrc : Z;
  clkfreq : Z;
  ev_tstamp_divider : Z;
}.

Record sis33_event := Event { ev_nr_samples : Z; ev_first_samp : Z }.

(** A pointer that may be NULL or an error. *)
Inductive cptr (A : Type) := CNull | CErr (e : Z) | CPtr (a : A).
Arguments CNull {A}.
Arguments CErr {A} e.
Arguments CPtr {A} a.

Record sis33_segment := Segment {
  acquiring : bool;
  transferring : bool;
  nr_samp_per_ev : Z;
  nr_events : Z;
  events : cptr (list sis33_event);
  prevticks : cptr (list Z);
  endtime : Z;
}.

Definition segment_zero : sis33_segment := Segment false false 0 0 CNull CNull 0.

Record sis33_channel := Channel { show_attrs : Z; offset : Z }.

Record sis33_acq_desc := AcqDesc { d_segment : Z; d_nr_events : Z; d_ev_length : Z; d_flags : Z; d_timeout : Z }.
Record sis33_acq := Acq33 {
  acq_data : Z; acq_size : Z; acq_nr_samples : Z; acq_prevticks : Z; acq_first_samp : Z; acq_be : Z }.
Definition sizeof_sis33_acq : Z := 44.
Record sis33_acq_list := AcqList {
  l_segment : Z; l_channel : Z; l_n_acqs : Z; l_flags : Z; l_timeout : Z; l_endtime : Z }.

(** [struct sis33_card], less the kernel objects in it. *)
Record sis33_card (P : Type) := Card {
  number : Z;
  cfg : sis33_cfg;
  id : Z;
  major_rev : Z;
  minor_rev : Z;
  max_nr_events : Z;
  max_delay : Z;
  ev_tstamp_divider_max : Z;
  n_channels : Z;
  channels : list sis33_channel;
  ev_lengths : list Z;
  freqs : list Z;
  n_segments_max : Z;
  n_segments_min : Z;
  n_segments : Z;
  segments : list sis33_segment;
  curr_segment : Z;
  private_data : P;
}.
Arguments Card {P}. Arguments number {P}. Arguments cfg {P}. Arguments id {P}. Arguments major_rev {P}.
Arguments minor_rev {P}. Arguments max_nr_events {P}. Arguments max_delay {P}. Arguments ev_tstamp_divider_max {P}.
Arguments n_channels {P}. Arguments channels {P}. Arguments ev_lengths {P}. Arguments freqs {P}.
Arguments n_segments_max {P}. Arguments n_segments_min {P}. Arguments n_segments {P}. Arguments segments {P}.
Arguments curr_segment {P}. Arguments private_data {P}.

(** What ends a wait for an acquisition. *)
Inductive wake := Completed | Signalled | TimedOut.

(** [struct sis33_card_ops]; [None] is a NULL operation.  [completed] is the
    state of the completion the driver waits on. *)
Record sis33_card_ops (P : Type) := CardOps {
  conf_acq : option (sis33_card P -> sis33_cfg -> Z * sis33_card P);
  conf_ev : option (sis33_card P -> sis33_acq_desc -> Z * sis33_card P);
  conf_channels : option (sis33_card P -> Z * sis33_card P);
  fetch : option (sis33_card P -> Z -> Z -> list sis33_acq -> Z -> umem ->
                  option (Z * list sis33_acq * umem * sis33_card P));
  trigger : option (sis33_card P -> Z -> Z * sis33_card P);
  acq_start : option (sis33_card P -> sis33_card P);
  acq_wait : option (wake -> Z);
  acq_cancel : option (sis33_card P -> Z * sis33_card P);
  config_init : option (sis33_card P -> sis33_card P);
  completed : P -> bool;
}.
Arguments CardOps {P}. Arguments conf_acq {P}. Arguments conf_ev {P}. Arguments conf_channels {P}. Arguments fetch {P}.
Arguments trigger {P}. Arguments acq_start {P}. Arguments acq_wait {P}. Arguments acq_cancel {P}. Arguments config_init {P}.
Arguments completed {P}.

(** ** Updates *)

Section Updates.
Context {P : Type}.
Implicit Type c : sis33_card P.

Definition set_cfg33 v c := Card (number c) v (id c) (major_rev c) (minor_rev c) (max_nr_events c) (max_delay c)
  (ev_tstamp_divider_max c) (n_channels c) (channels c) (ev_lengths c) (freqs c) (n_segments_max c) (n_segments_min c)
  (n_segments c) (segments c) (curr_segment c) (private_data c).
Definition set_channels v c := Card (number c) (cfg c) (id c) (major_rev c) (minor_rev c) (max_nr_events c) (max_delay c)
  (ev_tstamp_divider_max c) (n_channels c) v (ev_lengths c) (freqs c) (n_segments_max c) (n_segments_min c)
  (n_segments c) (segments c) (curr_segment c) (private_data c).
Definition set_n_segments v c := Card (number c) (cfg c) (id c) (major_rev c) (minor_rev c) (max_nr_events c) (max_delay c)
  (ev_tstamp_divider_max c) (n_channels c) (channels c) (ev_lengths c) (freqs c) (n_segments_max c) (n_segments_min c)
  v (segments c) (curr_segment c) (private_data c).
Definition set_segments v c := Card (number c) (cfg c) (id c) (major_rev c) (minor_rev c) (max_nr_events c) (max_delay c)
  (ev_tstamp_divider_max c) (n_channels c) (channels c) (ev_lengths c) (freqs c) (n_segments_max c) (n_segments_min c)
  (n_segments c) v (curr_segment c) (private_data c).
Definition set_curr_segment v c := Card (number c) (cfg c) (id c) (major_rev c) (minor_rev c) (max_nr_events c) (max_delay c)
  (ev_tstamp_divider_max c) (n_channels c) (channels c) (ev_lengths c) (freqs c) (n_segments_max c) (n_segments_min c)
  (n_segments c) (segments c) v (private_data c).
Definition set_priv (v : P) c := Card (number c) (cfg c) (id c) (major_rev c) (minor_rev c) (max_nr_events c) (max_delay c)
  (ev_tstamp_divider_max c) (n_channels c) (channels c) (ev_lengths c) (freqs c) (n_segments_max c) (n_segments_min c)
  (n_segments c) (segments c) (curr_segment c) v.

Definition get_segment (i : Z) c : sis33_segment := nth (Z.to_nat i) (segments c) segment_zero.
Definition upd_segment (i : Z) (f : sis33_segment -> sis33_segment) c : sis33_card P :=
  set_segments (alter f (Z.to_nat i) (segments c)) c.
End Updates.

Definition set_acquiring v s := Segment v (transferring s) (nr_samp_per_ev s) (nr_events s) (events s) (prevticks s) (endtime s).
Definition set_transferring v s := Segment (acquiring s) v (nr_samp_per_ev s) (nr_events s) (events s) (prevticks s) (endtime s).
Definition set_nr_samp v s := Segment (acquiring s) (transferring s) v (nr_events s) (events s) (prevticks s) (endtime s).
Definition set_nr_events v s := Segment (acquiring s) (transferring s) (nr_samp_per_ev s) v (events s) (prevticks s) (endtime s).
Definition set_events v s := Segment (acquiring s) (transferring s) (nr_samp_per_ev s) (nr_events s) v (prevticks s) (endtime s).
Definition set_prevticks v s := Segment (acquiring s) (transferring s) (nr_samp_per_ev s) (nr_events s) (events s) v (endtime s).
Definition set_endtime v s := Segment (acquiring s) (transferring s) (nr_samp_per_ev s) (nr_events s) (events s) (prevticks s) v.

Definition l_set_endtime v l := AcqList (l_segment l) (l_channel l) (l_n_acqs l) (l_flags l) (l_timeout l) v.

(** ** Checks *)

Section Core.
Context {P : Type}.
Variable ops : sis33_card_ops P.
Implicit Type c : sis33_card P.

Definition sis33_is_acquiring c : bool := existsb acquiring (take (Z.to_nat (n_segments c)) (segments c)).
Definition sis33_is_transferring c : bool := existsb transferring (take (Z.to_nat (n_segments c)) (segments c)).

Definition sis33_segment_max_nr_samples c : Z :=
  s32 (hd 0 (ev_lengths c) `quot` u32 (n_segments c `quot` n_segments_min c)).

Definition sis33_value_is_in_array (array : list Z) (value : Z) : bool := existsb (Z.eqb value) array.

(** [None]: an element past the end of the array is read. *)
Fixpoint sis33_check_acq_buffers (minsize : Z) (acqs : list sis33_acq) (n : nat) : option Z :=
  match n with
  | O => Some 0
  | S n =>
      match acqs with
      | [] => None
      | a :: acqs =>
          if (acq_size a =? 0) || negb (acq_size a =? minsize) then Some (- EINVAL)
          else sis33_check_acq_buffers minsize acqs n
      end
  end.

Definition acq_minsize (s : sis33_segment) : Z := u32 (nr_samp_per_ev s * 2).

Definition flags_of (f : Z) : Z := Z.land f (Z.lor SIS33_ACQF_DONTWAIT SIS33_ACQF_TIMEOUT).
Definition dontwait (f : Z) : bool := truthy (Z.land (flags_of f) SIS33_ACQF_DONTWAIT).
Definition timed (f : Z) : bool := truthy (Z.land (flags_of f) SIS33_ACQF_TIMEOUT).

(** ** Acquiring ([sis33_acq_start_ioctl()]) *)

(** The section under the mutex: 0, or the error. *)
Definition acquire_locked (d : sis33_acq_desc) c : Z * sis33_card P :=
  if max_nr_events c <? d_nr_events d then (- EINVAL, c) else
  if n_segments c <=? d_segment d then (- EINVAL, c) else
  if negb (sis33_value_is_in_array (ev_lengths c) (d_ev_length d)) then (- EINVAL, c) else
  if u32 (sis33_segment_max_nr_samples c) <? u32 (d_nr_events d * d_ev_length d) then (- EINVAL, c) else
  if transferring (get_segment (d_segment d) c) || sis33_is_acquiring c then (- EBUSY, c) else
  match conf_ev ops with
  | None => (- EINVAL, c)
  | Some conf_ev =>
      let '(ret, c) := conf_ev c d in
      if truthy ret then (ret, c) else
      let c := upd_segment (d_segment d) (fun s => set_nr_samp (d_ev_length d) (set_acquiring true s)) c in
      (0, set_curr_segment (d_segment d) c)
  end.

(** Up to the section: an error if the ioctl ends before it. *)
Definition acquire_enter (readable intr : bool) (d : sis33_acq_desc) : option Z :=
  if negb readable then Some (- EFAULT) else
  if dontwait (d_flags d) && timed (d_flags d) then Some (- EINVAL) else
  if intr then Some (- EINTR) else None.

(** After it, without the mutex. *)
Definition acquire_start c : Z + sis33_card P :=
  match acq_start ops with None => inl (- EINVAL) | Some start => inr (start c) end.

(** The wait at the end: an error at once, no wait, or what the wait returns. *)
Inductive waiting := WNow (ret : Z) | WFor (timeout : bool).

Definition acquire_wait (d : sis33_acq_desc) : waiting :=
  match acq_wait ops with
  | None => WNow (- EINVAL)
  | Some _ => if timed (d_flags d) then WFor true else if dontwait (d_flags d) then WNow 0 else WFor false
  end.

Definition waited (w : wake) : Z := match acq_wait ops with Some f => f w | None => - EINVAL end.

(** ** Fetching ([sis33_fetch_ioctl()]) *)

(** The size of the copy of the caller's descriptors. *)
Definition acqs_bytes (n : Z) : Z := u32 (n * sizeof_sis33_acq).

(** Up to the first section.  The copy holds as many descriptors as fit. *)
Definition fetch_enter (readable mem acqs_readable intr : bool) (l : sis33_acq_list) : option Z :=
  if negb readable then Some (- EFAULT) else
  if dontwait (l_flags l) && timed (l_flags l) then Some (- EINVAL) else
  if l_n_acqs l =? 0 then Some (- EINVAL) else
  if negb mem then Some (- ENOMEM) else
  if negb acqs_readable then Some (- EFAULT) else
  if intr then Some (- EINTR) else None.

Definition acqs_copied (user : nat -> sis33_acq) (l : sis33_acq_list) : list sis33_acq :=
  user <$> seq 0 (Z.to_nat (acqs_bytes (l_n_acqs l) / sizeof_sis33_acq)).

(** The section: what the ioctl does next. *)
Inductive fetch_next :=
  | FErr (ret : Z)          (* leave with an error *)
  | FWait (timeout : bool)  (* the segment is being acquired: wait *)
  | FGo (n : Z) (l : sis33_acq_list).

Definition fetch_ready (acqs : list sis33_acq) (l : sis33_acq_list) c : option (fetch_next * sis33_card P) :=
  let s := get_segment (l_segment l) c in
  if acquiring s || transferring s then Some (FErr (- EBUSY), c) else
  let n := s32 (Z.min (nr_events s) (l_n_acqs l)) in
  if n =? 0 then Some (FErr (- ENODATA), c) else
  ret ← sis33_check_acq_buffers (acq_minsize s) acqs (Z.to_nat n);
  if truthy ret then Some (FErr ret, c) else
  Some (FGo n (l_set_endtime (endtime s) l), upd_segment (l_segment l) (set_transferring true) c).

Definition fetch_locked (acqs : list sis33_acq) (l : sis33_acq_list) c : option (fetch_next * sis33_card P) :=
  if (n_segments c <=? l_segment l) || (n_channels c <=? l_channel l) then Some (FErr (- EINVAL), c) else
  if acquiring (get_segment (l_segment l) c) then
    match acq_wait ops with
    | None => Some (FErr (- EINVAL), c)
    | Some _ =>
        if timed (l_flags l) then Some (FWait true, c)
        else if dontwait (l_flags l) then Some (FErr (- EBUSY), c) else Some (FWait false, c)
    end
  else fetch_ready acqs l c.

(** The transfer, without the mutex: the value of [.fetch]. *)
Definition fetch_run (l : sis33_acq_list) (n : Z) (acqs : list sis33_acq) (u : umem) c
    : option (Z * list sis33_acq * umem * sis33_card P) :=
  match fetch ops with
  | None => Some (- EINVAL, acqs, u, c)
  | Some f => f c (l_segment l) (l_channel l) acqs n u
  end.

Definition fetch_finish (l : sis33_acq_list) c : sis33_card P := upd_segment (l_segment l) (set_transferring false) c.

(** The copies back, and the value of the ioctl. *)
Definition fetch_leave (ret : Z) (list_ok acqs_ok : bool) : Z :=
  if ret <? 0 then ret else if negb list_ok then - EFAULT else if negb acqs_ok then - EFAULT else ret.
End Core.
