(* ===== verification/Sis33Sysfs.v ===== *)
(** * Attributes and registration of SIS33xx cards ([sis33_sysfs.c], [sis33_core.c])

    The writable attributes, each one section under the card's mutex (a trigger
    takes none); the numbers of the cards, in a mask shared by the drivers; and
    a card from its creation to its end, with the kernel objects it takes on a
    log. *)

From S2P Require Import Prelude Sis33Core.

(** ** Numbers from user space

    What is written to an attribute: whether it starts with a digit, what
    [simple_strtol()] makes of it and where it stops, and its length. *)
Record attr_buf := AttrBuf { b_digit : bool; b_value : Z; b_endp : Z; b_count : Z }.

Definition sis33_getval (b : attr_buf) : Z + Z :=
  if negb (b_digit b) then inl (- EINVAL) else
  if b_endp b + 1 <? b_count b then inl (- EINVAL) else inr (s32 (b_value b)).

Definition sis33_getuval (b : attr_buf) : Z + Z :=
  if negb (b_digit b) then inl (- EINVAL) else
  if b_endp b + 1 <? b_count b then inl (- EINVAL) else inr (u32 (b_value b)).

Definition set_start_delay v f := Cfg v (stop_delay f) (start_auto f) (stop_auto f) (trigger_ext_en f) (clksrc f) (clkfreq f) (ev_tstamp_divider f).
Definition set_stop_delay v f := Cfg (start_delay f) v (start_auto f) (stop_auto f) (trigger_ext_en f) (clksrc f) (clkfreq f) (ev_tstamp_divider f).
Definition set_start_auto v f := Cfg (start_delay f) (stop_delay f) v (stop_auto f) (trigger_ext_en f) (clksrc f) (clkfreq f) (ev_tstamp_divider f).
Definition set_stop_auto v f := Cfg (start_delay f) (stop_delay f) (start_auto f) v (trigger_ext_en f) (clksrc f) (clkfreq f) (ev_tstamp_divider f).
Definition set_trigger_ext_en v f := Cfg (start_delay f) (stop_delay f) (start_auto f) (stop_auto f) v (clksrc f) (clkfreq f) (ev_tstamp_divider f).
Definition set_clksrc v f := Cfg (start_delay f) (stop_delay f) (start_auto f) (stop_auto f) (trigger_ext_en f) v (clkfreq f) (ev_tstamp_divider f).
Definition set_clkfreq v f := Cfg (start_delay f) (stop_delay f) (start_auto f) (stop_auto f) (trigger_ext_en f) (clksrc f) v (ev_tstamp_divider f).
Definition set_ev_tstamp_divider v f := Cfg (start_delay f) (stop_delay f) (start_auto f) (stop_auto f) (trigger_ext_en f) (clksrc f) (clkfreq f) v.

(** [__roundup_pow_of_two()], on a 32-bit [unsigned long] other than 0. *)
Definition fls_long (n : Z) : Z := if n =? 0 then 0 else Z.log2 n + 1.
Definition roundup_pow_of_two (n : Z) : Z := Z.shiftl 1 (fls_long (n - 1)).

Section Sysfs.
Context {P : Type}.
Variable ops : sis33_card_ops P.
Implicit Type c : sis33_card P.

(** The configuration is applied, and kept if that succeeded. *)
Definition apply_cfg (new : sis33_cfg) (count : Z) c : Z * sis33_card P :=
  match conf_acq ops with
  | None => (- EINVAL, c)
  | Some conf =>
      let '(ret, c) := conf c new in
      if truthy ret then (ret, c) else (count, set_cfg33 new c)
  end.

(** [intr]: the wait for the mutex is interrupted. *)
Definition __sis33_conf_store_int (intr : bool) (b : attr_buf) (set : Z -> sis33_cfg -> sis33_cfg) (bool_ : bool) c : Z * sis33_card P :=
  match sis33_getval b with
  | inl ret => (ret, c)
  | inr val =>
      if intr then (- EINTR, c) else
      if sis33_is_acquiring c then (- EBUSY, c) else
      apply_cfg (set (if bool_ then (if truthy val then 1 else 0) else val) (cfg c)) (b_count b) c
  end.

Definition sis33_conf_store_bool intr b set c := __sis33_conf_store_int intr b set true c.
Definition sis33_conf_store_int intr b set c := __sis33_conf_store_int intr b set false c.

Definition sis33_store_start_auto intr b c := sis33_conf_store_bool intr b set_start_auto c.
Definition sis33_store_stop_auto intr b c := sis33_conf_store_bool intr b set_stop_auto c.
Definition sis33_store_trigger_ext intr b c := sis33_conf_store_bool intr b set_trigger_ext_en c.

(** The limit is unsigned, so is the comparison with it. *)
Definition sis33_store_start_delay intr b c : Z * sis33_card P :=
  match sis33_getval b with
  | inl ret => (ret, c)
  | inr val => if (val <? 0) || (max_delay c <? u32 val) then (- EINVAL, c) else sis33_conf_store_int intr b set_start_delay c
  end.

Definition sis33_store_stop_delay intr b c : Z * sis33_card P :=
  match sis33_getval b with
  | inl ret => (ret, c)
  | inr val => if (val <? 0) || (max_delay c <? u32 val) then (- EINVAL, c) else sis33_conf_store_int intr b set_stop_delay c
  end.

Definition sis33_store_ts_div intr b c : Z * sis33_card P :=
  match sis33_getval b with
  | inl ret => (ret, c)
  | inr val => if (val <=? 0) || (ev_tstamp_divider_max c <? val) then (- EINVAL, c)
               else sis33_conf_store_int intr b set_ev_tstamp_divider c
  end.

Definition sis33_store_n_segments (intr : bool) b c : Z * sis33_card P :=
  match sis33_getval b with
  | inl ret => (ret, c)
  | inr segments =>
      if segments <? n_segments_min c then (- EINVAL, c) else
      if intr then (- EINTR, c) else
      if sis33_is_acquiring c || sis33_is_transferring c then (- EBUSY, c) else
      let n := roundup_pow_of_two segments in
      let n := if n =? 0 then 1 else if n_segments_max c <? n then n_segments_max c else n in
      (b_count b, set_n_segments n c)
  end.

Definition sis33_store_clk_src (intr : bool) b c : Z * sis33_card P :=
  match sis33_getval b with
  | inl ret => (ret, c)
  | inr v =>
      if negb (v =? SIS33_CLKSRC_INTERNAL) && negb (v =? SIS33_CLKSRC_EXTERNAL) then (- EINVAL, c) else
      if intr then (- EINTR, c) else
      if sis33_is_acquiring c then (- EBUSY, c) else apply_cfg (set_clksrc v (cfg c)) (b_count b) c
  end.

Definition sis33_store_clk_freq (intr : bool) b c : Z * sis33_card P :=
  match sis33_getuval b with
  | inl ret => (ret, c)
  | inr v =>
      if intr then (- EINTR, c) else
      if sis33_is_acquiring c then (- EBUSY, c) else
      if negb (sis33_value_is_in_array (freqs c) v) then (- EINVAL, c) else
      apply_cfg (set_clkfreq v (cfg c)) (b_count b) c
  end.

Definition sis33_store_trigger b c : Z * sis33_card P :=
  match sis33_getval b with
  | inl ret => (ret, c)
  | inr val =>
      match trigger ops with
      | None => (- EINVAL, c)
      | Some f => let '(ret, c) := f c (u32 val) in (if truthy ret then ret else b_count b, c)
      end
  end.

Definition sis33_store_acq_cancel b c : Z * sis33_card P :=
  match acq_cancel ops with
  | None => (- EINVAL, c)
  | Some f => let '(ret, c) := f c in (if truthy ret then ret else b_count b, c)
  end.

(** [__chan_offset_store()] of channel [i], under the mutex. *)
Definition set_offset (v : Z) (ch : sis33_channel) : sis33_channel := Channel (show_attrs ch) v.

Definition chan_offset_store (intr : bool) (i : nat) b c : Z * sis33_card P :=
  if intr then (- EINTR, c) else
  match sis33_getuval b with
  | inl ret => (ret, c)
  | inr v =>
      if sis33_is_acquiring c then (- EBUSY, c) else
      let orig := offset (nth i (channels c) (Channel 0 0)) in
      let c := set_channels (alter (set_offset (Z.land v 0xffff)) i (channels c)) c in
      match conf_channels ops with
      | None => (- EINVAL, c)
      | Some f =>
          let '(ret, c) := f c in
          if truthy ret then (ret, set_channels (alter (set_offset orig) i (channels c)) c) else (b_count b, c)
      end
  end.

(** ** Registration ([sis33_card_register()], [sis33_card_free()])

    Objects of the kernel: the character device, the device in sysfs, and the
    files. *)
Definition KCdev : Z := 60.
Definition KDevice : Z := 61.
Definition KFiles : Z := 62.

(** What registration leaves in the card: the owner of the character device is
    set, the files exist. *)
Record registration := Registration { cdev_owner : bool; sysfs_files_created : bool }.

(** [cdev_rc], [device_rc]: what the kernel answers. *)
Definition sis33_create_cdev (cdev_rc device_rc : Z) : Z * registration * list kev :=
  let r := Registration true false in
  if truthy cdev_rc then (cdev_rc, r, []) else
  if truthy device_rc then (device_rc, r, [Acq KCdev 0; Rel KCdev 0]) else (0, r, [Acq KCdev 0; Acq KDevice 0]).

Definition sis33_destroy_cdev : list kev := [Rel KDevice 0; Rel KCdev 0].

Definition sis33_card_register (cdev_rc device_rc files_rc : Z) c : Z * sis33_card P * registration * list kev :=
  let none := Registration false false in
  let c := match config_init ops with Some f => f c | None => c end in
  let '(error, c) := match conf_acq ops with Some f => f c (cfg c) | None => (0, c) end in
  if truthy error then (error, c, none, []) else
  let '(error, c) := match conf_channels ops with Some f => f c | None => (0, c) end in
  if truthy error then (error, c, none, []) else
  let '(error, r, log) := sis33_create_cdev cdev_rc device_rc in
  if truthy error then (error, c, r, log) else
  if truthy files_rc then (files_rc, c, r, log ++ sis33_destroy_cdev) else
  (0, c, Registration true true, log ++ [Acq KFiles 0]).

Definition sis33_card_free (number : Z) (r : registration) (lock : Z) : Z * list kev :=
  (Z.land lock (not32 (Z.shiftl 1 number)),
   (if sysfs_files_created r then [Rel KFiles 0] else []) ++ (if cdev_owner r then sis33_destroy_cdev else [])).
End Sysfs.

(** ** Numbers of cards *)

(** [__sis33_card_lock()]: the number, and the mask with it; or the error. *)
Definition __sis33_card_lock (idx lock : Z) : Z + Z * Z :=
  let take i := inr (i, Z.lor lock (u32 (Z.shiftl 1 i))) in
  if idx =? -1 then
    match list_find (fun i => Z.testbit lock i = false) (seqZ 0 SIS33_MAX_DEVICES) with
    | Some (_, i) => take i
    | None => inl (- ENODEV)
    end
  else if Z.testbit lock idx then inl (- EBUSY) else take idx.

(** [sis33_card_create()]: the error, or the number of the card and the mask. *)
Definition sis33_card_create (idx : Z) (mem : bool) (lock : Z) : Z + Z * Z :=
  if SIS33_MAX_DEVICES <=? idx then inl (- EINVAL) else
  if negb mem then inl (- ENOMEM) else __sis33_card_lock idx lock.
