(* ===== verification/Sis33Sys.v ===== *)
(** * Acquisitions and transfers of a SIS33xx card, interleaved

    The ioctls of any number of tasks, the attributes, the interrupts and the
    cancellations of one card as a step system: one step is a section under the
    mutex, or what a task does between two of them.  The operations of the
    module are any that keep the laws of [Sis33Driver]; [Sis3300] has an instance.

    In every state reached, one segment at most is being acquired, a segment is
    not acquired while it is transferred, one task transfers it, and nobody
    waits for an acquisition that nobody makes.  All of it holds as long as no
    acquisition is cancelled, or ended by the card, in the window between the
    section of [sis33_acq_start_ioctl()] and the start of the card. *)

From S2P Require Import Prelude SkelIo Sis33Core Sis33Sysfs.

(** ** Tasks *)

Inductive tpc :=
  | TAcquire (d : sis33_acq_desc)            (* before the mutex *)
  | TArm (d : sis33_acq_desc)                (* acquiring is set, the card not started *)
  | TAcqWait (timeout : bool)
  | TFetch (user : nat -> sis33_acq) (l : sis33_acq_list)
  | TFetchWait (timeout : bool) (acqs : list sis33_acq) (l : sis33_acq_list)
  | TFetchAgain (acqs : list sis33_acq) (l : sis33_acq_list)
  | TTransfer (n : Z) (acqs : list sis33_acq) (l : sis33_acq_list)
  | TFinish (ret : Z) (acqs : list sis33_acq) (l : sis33_acq_list)
  | TRet (ret : Z).

(** [sis33_do_ioctl()]: where a caller starts. *)
Inductive sis33_cmd := SIS33_IOC_FETCH | SIS33_IOC_ACQUIRE | SIS33_IOC_OTHER.

Definition sis33_do_ioctl (cm : sis33_cmd) (d : sis33_acq_desc) (user : nat -> sis33_acq) (l : sis33_acq_list) : tpc :=
  match cm with
  | SIS33_IOC_FETCH => TFetch user l
  | SIS33_IOC_ACQUIRE => TAcquire d
  | SIS33_IOC_OTHER => TRet (- 25)   (* ENOTTY *)
  end.

(** What the kernel answers in a step: copies, allocation, interruption. *)
Record answers := Answers { a_list : bool; a_mem : bool; a_acqs : bool; a_intr : bool }.

(** The attributes that change the card. *)
Inductive store_op :=
  | SStartAuto | SStopAuto | STriggerExt | SStartDelay | SStopDelay | STsDiv | SNSegments | SClkSrc | SClkFreq
  | SOffset (i : nat).

Inductive act :=
  | ARun (t : nat) (a : answers)
  | AWake (t : nat) (w : wake)
  | AStore (o : store_op) (intr : bool) (b : attr_buf)
  | ATrigger (b : attr_buf)
  | ACancel
  | AInterrupt.

Section Sys.
Context {P : Type}.
Variable ops : sis33_card_ops P.
Variable irq : sis33_card P -> sis33_card P.   (* the interrupt work of the driver *)

Record sys33 := Sys33 { s_card : sis33_card P; s_user : umem; s_tasks : list tpc }.

Definition run_store (o : store_op) (intr : bool) (b : attr_buf) (c : sis33_card P) : Z * sis33_card P :=
  match o with
  | SStartAuto => sis33_store_start_auto ops intr b c
  | SStopAuto => sis33_store_stop_auto ops intr b c
  | STriggerExt => sis33_store_trigger_ext ops intr b c
  | SStartDelay => sis33_store_start_delay ops intr b c
  | SStopDelay => sis33_store_stop_delay ops intr b c
  | STsDiv => sis33_store_ts_div ops intr b c
  | SNSegments => sis33_store_n_segments intr b c
  | SClkSrc => sis33_store_clk_src ops intr b c
  | SClkFreq => sis33_store_clk_freq ops intr b c
  | SOffset i => chan_offset_store ops intr i b c
  end.

Definition may_wake (timeout : bool) (w : wake) (c : sis33_card P) : bool :=
  match w with Completed => completed ops (private_data c) | Signalled => true | TimedOut => timeout end.

Definition after_fetch (r : fetch_next) (acqs : list sis33_acq) (l : sis33_acq_list) : tpc :=
  match r with FErr ret => TRet ret | FWait b => TFetchWait b acqs l | FGo n l => TTransfer n acqs l end.

(** A step of a task that runs: where it is then, the card and user memory. *)
Definition task33 (a : answers) (pc : tpc) (c : sis33_card P) (u : umem) : option (tpc * sis33_card P * umem) :=
  match pc with
  | TAcquire d =>
      match acquire_enter (a_list a) (a_intr a) d with
      | Some e => Some (TRet e, c, u)
      | None => let '(ret, c) := acquire_locked ops d c in Some (if truthy ret then TRet ret else TArm d, c, u)
      end
  | TArm d =>
      match acquire_start ops c with
      | inl e => Some (TRet e, c, u)
      | inr c => Some (match acquire_wait ops d with WNow r => TRet r | WFor b => TAcqWait b end, c, u)
      end
  | TFetch user l =>
      match fetch_enter (a_list a) (a_mem a) (a_acqs a) (a_intr a) l with
      | Some e => Some (TRet e, c, u)
      | None =>
          let acqs := acqs_copied user l in
          '(r, c) ← fetch_locked ops acqs l c; Some (after_fetch r acqs l, c, u)
      end
  | TFetchAgain acqs l =>
      if a_intr a then Some (TRet (- EINTR), c, u) else
      '(r, c) ← fetch_ready acqs l c; Some (after_fetch r acqs l, c, u)
  | TTransfer n acqs l =>
      '(ret, acqs, u, c) ← fetch_run ops l n acqs u c; Some (TFinish ret acqs l, c, u)
  | TFinish ret _ l => Some (TRet (fetch_leave ret (a_list a) (a_acqs a)), fetch_finish l c, u)
  | TAcqWait _ | TFetchWait _ _ _ | TRet _ => None
  end.

(** A wait that ends. *)
Definition woken (w : wake) (pc : tpc) (c : sis33_card P) : option tpc :=
  match pc with
  | TAcqWait b => if may_wake b w c then Some (TRet (waited ops w)) else None
  | TFetchWait b acqs l =>
      if may_wake b w c then Some (if truthy (waited ops w) then TRet (waited ops w) else TFetchAgain acqs l) else None
  | _ => None
  end.

Definition step33 (x : act) (st : sys33) : option sys33 :=
  let c := s_card st in
  let card c := Some (Sys33 c (s_user st) (s_tasks st)) in
  match x with
  | ARun t a =>
      pc ← s_tasks st !! t;
      '(pc, c, u) ← task33 a pc c (s_user st);
      Some (Sys33 c u (<[t := pc]> (s_tasks st)))
  | AWake t w =>
      pc ← s_tasks st !! t;
      pc ← woken w pc c;
      Some (Sys33 c (s_user st) (<[t := pc]> (s_tasks st)))
  | AStore o intr b => card (snd (run_store o intr b c))
  | ATrigger b => card (snd (sis33_store_trigger ops b c))
  | ACancel => match acq_cancel ops with Some f => card (snd (f c)) | None => card c end
  | AInterrupt => card (irq c)
  end.

(** The window in which an acquisition must not end. *)
Definition arming (pc : tpc) : bool := match pc with TArm _ => true | _ => false end.
Definition settled (x : act) (st : sys33) : bool :=
  match x with ACancel | AInterrupt => negb (existsb arming (s_tasks st)) | _ => true end.

(** A task that has just called, with the unsigned numbers of its request. *)
Definition fresh33 (pc : tpc) : bool :=
  match pc with
  | TAcquire d => (0 <=? d_segment d) && (0 <=? d_nr_events d) && (0 <=? d_ev_length d)
  | TFetch _ l => (0 <=? l_segment l) && (0 <=? l_channel l)
  | TRet _ => true
  | _ => false
  end.

(** A registered card that does nothing yet, and tasks that have just called. *)
Definition booted33 (st : sys33) : Prop :=
  let c := s_card st in
  0 < n_segments_min c <= n_segments c /\ n_segments c <= n_segments_max c <= Z.of_nat (length (segments c)) /\
  Forall (fun s => acquiring s = false /\ transferring s = false) (segments c) /\
  0 <= curr_segment c < Z.of_nat (length (segments c)) /\ forallb fresh33 (s_tasks st) = true.

Inductive reach33 (st0 : sys33) : sys33 -> Prop :=
  | reach33_boot : booted33 st0 -> reach33 st0 st0
  | reach33_step x st st' : reach33 st0 st -> settled x st = true -> step33 x st = Some st' -> reach33 st0 st'.

Fixpoint run33 (l : list act) (st : sys33) : option sys33 :=
  match l with [] => Some st | x :: l => st ← step33 x st; run33 l st end.
End Sys.
Arguments Sys33 {P}.
Arguments s_card {P}.
Arguments s_user {P}.
Arguments s_tasks {P}.
