(* ===== verification/Sis33SysInv.v ===== *)
(** * Exclusion and wake-ups of a SIS33xx card

    The invariant of the step system of [Sis33Sys], proved against the laws a
    driver's operations keep, and the two runs that break it. *)

From S2P Require Import Prelude SkelIo Sis33Core Sis33Sysfs Sis33Sys.

(** ** Counting tasks *)

Fixpoint tally (f : tpc -> bool) (l : list tpc) : Z :=
  match l with [] => 0 | pc :: l => (if f pc then 1 else 0) + tally f l end.

Lemma tally_nonneg f l : 0 <= tally f l.
Proof. induction l as [|pc l IH]; cbn [tally]; [lia|]. destruct (f pc); lia. Qed.

Lemma tally_insert f l t pc pc' : l !! t = Some pc ->
  tally f (<[t := pc']> l) = tally f l - (if f pc then 1 else 0) + (if f pc' then 1 else 0).
Proof.
  revert t. induction l as [|x l IH]; intros [|t] H; simpl in H |- *; simplify_eq; [lia|].
  rewrite (IH t H). lia.
Qed.

Lemma tally_elem f l t pc : l !! t = Some pc -> f pc = true -> 1 <= tally f l.
Proof.
  revert t. induction l as [|x l IH]; intros [|t] H Hf; simpl in H |- *; simplify_eq.
  - rewrite Hf. pose proof (tally_nonneg f l). lia.
  - specialize (IH t H Hf). destruct (f x); lia.
Qed.

Lemma tally_two f l t t' pc pc' : l !! t = Some pc -> l !! t' = Some pc' -> f pc = true -> f pc' = true ->
  t <> t' -> 2 <= tally f l.
Proof.
  revert t t'. induction l as [|x l IH]; intros [|t] [|t'] H H' Hf Hf' Hne; simpl in H, H' |- *; simplify_eq.
  - rewrite Hf. pose proof (tally_elem f l t' pc' H' Hf'). lia.
  - rewrite Hf'. pose proof (tally_elem f l t pc H Hf). lia.
  - specialize (IH t t' H H' Hf Hf' ltac:(congruence)). destruct (f x); lia.
Qed.

Lemma tally_zero f l : tally f l = 0 <-> existsb f l = false.
Proof.
  induction l as [|x l IH]; cbn [tally existsb]; [done|]. pose proof (tally_nonneg f l). rewrite orb_false_iff, <- IH.
  destruct (f x); intuition lia.
Qed.

(** ** Segments *)

Definition seg (i : nat) (l : list sis33_segment) : sis33_segment := nth i l segment_zero.

Lemma seg_alter_eq i f l : (i < length l)%nat -> seg i (alter f i l) = f (seg i l).
Proof.
  intros H. unfold seg. destruct (lookup_lt_is_Some_2 l i H) as [s Hs].
  rewrite (nth_lookup_Some l i _ s Hs). apply nth_lookup_Some. by rewrite list_lookup_alter_eq, Hs.
Qed.

Lemma seg_alter_ne i j f l : i <> j -> seg j (alter f i l) = seg j l.
Proof. intros H. unfold seg. rewrite !nth_lookup, list_lookup_alter_ne by done. done. Qed.

Lemma acquiring_taken n l i : (i < n)%nat -> acquiring (seg i l) = true -> existsb acquiring (take n l) = true.
Proof.
  intros Hi Ha. apply existsb_exists. exists (seg i l). split; [|done].
  assert (i < length l)%nat as Hl.
  { destruct (Nat.lt_ge_cases i (length l)) as [|Hge]; [done|]. unfold seg in Ha. rewrite nth_overflow in Ha by done. discriminate. }
  apply list_elem_of_In, (list_elem_of_lookup_2 _ i). rewrite lookup_take_lt by done.
  destruct (lookup_lt_is_Some_2 l i Hl) as [s Hs]. rewrite Hs. unfold seg. by rewrite (nth_lookup_Some l i _ s Hs).
Qed.

(** ** The laws of a driver *)

Section Laws.
Context {P : Type}.
Implicit Type c : sis33_card P.

Definition shape c := (n_segments c, n_segments_min c, n_segments_max c, curr_segment c).

(** The flags of the segments, and which is current, stay. *)
Record flags_kept c c' : Prop := {
  fk_shape : shape c' = shape c;
  fk_length : length (segments c') = length (segments c);
  fk_acquiring i : acquiring (seg i (segments c')) = acquiring (seg i (segments c));
  fk_transferring i : transferring (seg i (segments c')) = transferring (seg i (segments c));
}.

Definition stop_current c : sis33_card P := upd_segment (curr_segment c) (set_acquiring false) c.

Lemma flags_kept_refl c : flags_kept c c.
Proof. by split. Qed.

Lemma flags_kept_trans c1 c2 c3 : flags_kept c1 c2 -> flags_kept c2 c3 -> flags_kept c1 c3.
Proof. intros [H1 H2 H3 H4] [G1 G2 G3 G4]. split; congruence. Qed.

(** *** Composing operations *)

Lemma kept_priv p c : flags_kept c (set_priv p c).
Proof. by split. Qed.

Lemma kept_upd i f c : (forall s, acquiring (f s) = acquiring s /\ transferring (f s) = transferring s) ->
  flags_kept c (upd_segment i f c).
Proof.
  intros Hf. unfold upd_segment. split; cbn [segments set_segments]; [done|apply length_alter|..];
    intros j; unfold seg; rewrite !nth_lookup;
    (destruct (decide (Z.to_nat i = j)) as [<-|]; [rewrite list_lookup_alter_eq|by rewrite list_lookup_alter_ne]);
    destruct (segments c !! Z.to_nat i); cbn; [apply Hf|done|apply Hf|done].
Qed.

Lemma stop_flags c j :
  acquiring (seg j (segments (stop_current c))) =
    (if decide (j = Z.to_nat (curr_segment c)) then false else acquiring (seg j (segments c))) /\
  transferring (seg j (segments (stop_current c))) = transferring (seg j (segments c)).
Proof.
  unfold stop_current, upd_segment. cbn [segments set_segments]. unfold seg. rewrite !nth_lookup.
  destruct (decide _) as [->|Hne]; [rewrite list_lookup_alter_eq|by rewrite list_lookup_alter_ne by done].
  by destruct (segments c !! _).
Qed.

Lemma stop_kept c c' : flags_kept c c' -> flags_kept (stop_current c) (stop_current c').
Proof.
  intros [Hs Hl Ha Ht]. split.
  - exact Hs.
  - unfold stop_current, upd_segment. cbn [segments set_segments]. by rewrite !length_alter.
  - intros i. destruct (stop_flags c i) as [-> _], (stop_flags c' i) as [-> _]. rewrite Ha.
    unfold shape in Hs. by injection Hs as _ _ _ ->.
  - intros i. destruct (stop_flags c i) as [_ ->], (stop_flags c' i) as [_ ->]. apply Ht.
Qed.

Lemma stop_stop c : flags_kept (stop_current c) (stop_current (stop_current c)).
Proof.
  split; try done.
  - unfold stop_current, upd_segment. cbn [segments set_segments]. by rewrite !length_alter.
  - intros i. destruct (stop_flags (stop_current c) i) as [-> _], (stop_flags c i) as [-> _]. cbn. by destruct (decide _).
  - intros i. by destruct (stop_flags (stop_current c) i) as [_ ->].
Qed.

Definition quiet33 (ops : sis33_card_ops P) c c' : Prop :=
  flags_kept c c' /\ completed ops (private_data c') = completed ops (private_data c).

(** Nothing happens, or the acquisition ends. *)
Definition ends33 (ops : sis33_card_ops P) c c' : Prop :=
  quiet33 ops c c' \/ (flags_kept (stop_current c) c' /\ completed ops (private_data c') = true).

Lemma quiet33_refl ops c : quiet33 ops c c.
Proof. split; [apply flags_kept_refl|done]. Qed.

Lemma quiet33_trans ops c1 c2 c3 : quiet33 ops c1 c2 -> quiet33 ops c2 c3 -> quiet33 ops c1 c3.
Proof. intros [H1 E1] [H2 E2]. split; [by eapply flags_kept_trans|congruence]. Qed.

Lemma ends33_quiet ops c c' : quiet33 ops c c' -> ends33 ops c c'.
Proof. by left. Qed.

Lemma ends33_trans ops c1 c2 c3 : ends33 ops c1 c2 -> ends33 ops c2 c3 -> ends33 ops c1 c3.
Proof.
  intros [H1|[H1 E1]] [H2|[H2 E2]].
  - left. by eapply quiet33_trans.
  - right. split; [|done]. eapply flags_kept_trans; [by apply stop_kept, H1|done].
  - right. destruct H2 as [H2 E2]. split; [by eapply flags_kept_trans|congruence].
  - right. split; [|done]. eapply flags_kept_trans; [apply stop_stop|].
    eapply flags_kept_trans; [by apply stop_kept|done].
Qed.

Class Sis33Driver (ops : sis33_card_ops P) (irq : sis33_card P -> sis33_card P) : Prop := {
  law_conf_ev f c d : conf_ev ops = Some f -> quiet33 ops c (f c d).2;
  law_conf_acq f c g : conf_acq ops = Some f -> quiet33 ops c (f c g).2;
  law_conf_channels f c : conf_channels ops = Some f -> quiet33 ops c (f c).2;
  law_trigger f c v : trigger ops = Some f -> quiet33 ops c (f c v).2;
  law_fetch f c i ch acqs n u ret acqs' u' c' : fetch ops = Some f ->
    f c i ch acqs n u = Some (ret, acqs', u', c') -> quiet33 ops c c';
  law_start f c : acq_start ops = Some f -> flags_kept c (f c);
  law_cancel f c : acq_cancel ops = Some f -> ends33 ops c (f c).2;
  law_irq c : ends33 ops c (irq c);
}.
End Laws.

(** ** The invariant *)

(** The segment a task transfers. *)
Definition uses (i : nat) (pc : tpc) : bool :=
  match pc with TTransfer _ _ l | TFinish _ _ l => Nat.eqb (Z.to_nat (l_segment l)) i | _ => false end.

Definition waits33 (pc : tpc) : bool := match pc with TAcqWait _ | TFetchWait _ _ _ => true | _ => false end.

(** Requests name segments of the card, once they have been checked. *)
Definition named (n : nat) (pc : tpc) : Prop :=
  match pc with
  | TAcquire d | TArm d => 0 <= d_segment d
  | TFetch _ l => 0 <= l_segment l
  | TFetchWait _ _ l | TFetchAgain _ l | TTransfer _ _ l | TFinish _ _ l => 0 <= l_segment l < Z.of_nat n
  | _ => True
  end.

Section Inv.
Context {P : Type} (ops : sis33_card_ops P) (irq : sis33_card P -> sis33_card P) `{!Sis33Driver ops irq}.
Implicit Type st : sys33 (P := P).

Definition current (c : sis33_card P) : sis33_segment := seg (Z.to_nat (curr_segment c)) (segments c).

Record card_ok (c : sis33_card P) : Prop := {
  co_n : 0 < n_segments_min c <= n_segments c /\ n_segments c <= n_segments_max c <= Z.of_nat (length (segments c));
  co_curr : 0 <= curr_segment c < Z.of_nat (length (segments c));
  co_acq i : acquiring (seg i (segments c)) = true ->
    i = Z.to_nat (curr_segment c) /\ curr_segment c < n_segments c /\ transferring (seg i (segments c)) = false;
}.

Record inv33 st : Prop := {
  in_card : card_ok (s_card st);
  in_uses i : tally (uses i) (s_tasks st) = if transferring (seg i (segments (s_card st))) then 1 else 0;
  in_arm : tally arming (s_tasks st) <= 1;
  in_arming t d : s_tasks st !! t = Some (TArm d) ->
    Z.to_nat (d_segment d) = Z.to_nat (curr_segment (s_card st)) /\ acquiring (current (s_card st)) = true;
  in_waits t pc : s_tasks st !! t = Some pc -> waits33 pc = true ->
    completed ops (private_data (s_card st)) = true \/ acquiring (current (s_card st)) = true;
  in_named t pc : s_tasks st !! t = Some pc -> named (length (segments (s_card st))) pc;
}.

Lemma shape_eq (c c' : sis33_card P) : shape c' = shape c ->
  n_segments c' = n_segments c /\ n_segments_min c' = n_segments_min c /\ n_segments_max c' = n_segments_max c /\
  curr_segment c' = curr_segment c.
Proof. unfold shape. intros H. injection H as -> -> -> ->. done. Qed.

Lemma card_ok_kept c c' : flags_kept c c' -> card_ok c -> card_ok c'.
Proof.
  intros [(E1 & E2 & E3 & E4)%shape_eq Hl Ha Ht] [Hn Hc Hx]. split; rewrite ?Hl, ?E1, ?E2, ?E3, ?E4; [lia..|].
  intros i. rewrite Ha, Ht. apply Hx.
Qed.

Lemma current_kept c c' : flags_kept c c' -> acquiring (current c') = acquiring (current c).
Proof. intros [(_ & _ & _ & E)%shape_eq Hl Ha Ht]. unfold current. by rewrite E, Ha. Qed.

Lemma no_acquiring c : card_ok c -> sis33_is_acquiring c = false -> forall i, acquiring (seg i (segments c)) = false.
Proof.
  intros [Hn Hc Hx] H i. destruct (acquiring (seg i (segments c))) eqn:E; [|done]. exfalso.
  destruct (Hx i E) as (-> & Hlt & _). unfold sis33_is_acquiring in H.
  by rewrite (acquiring_taken (Z.to_nat (n_segments c)) (segments c) (Z.to_nat (curr_segment c))) in H by (done || lia).
Qed.

(** A task moves on, the flags stay. *)
Lemma inv_task st t pc pc' c' u' :
  inv33 st -> s_tasks st !! t = Some pc -> flags_kept (s_card st) c' ->
  completed ops (private_data c') = completed ops (private_data (s_card st)) \/ acquiring (current c') = true ->
  (forall i, uses i pc' = uses i pc) -> arming pc' = false ->
  (waits33 pc' = true -> completed ops (private_data c') = true \/ acquiring (current c') = true) ->
  named (length (segments c')) pc' ->
  inv33 (Sys33 c' u' (<[t := pc']> (s_tasks st))).
Proof.
  intros [Hc Hu Ha Har Hw Hn] Ht Hk Hd Hus Harm Hwt Hnm. pose proof (current_kept _ _ Hk) as Hcur.
  pose proof (card_ok_kept _ _ Hk Hc) as Hok. destruct Hk as [Hs Hl Hka Hkt]. pose proof (shape_eq _ _ Hs) as (_ & _ & _ & Ec).
  split; cbn [s_card s_tasks].
  - done.
  - intros i. rewrite (tally_insert _ _ _ _ _ Ht), Hus, Hu, Hkt. lia.
  - rewrite (tally_insert _ _ _ _ _ Ht), Harm. destruct (arming pc); lia.
  - intros j d [(_ & -> & _)|[Hne Hj]]%list_lookup_insert_Some; [done|]. rewrite Ec, Hcur. by apply (Har j).
  - intros j x [(_ & <- & _)|[Hne Hj]]%list_lookup_insert_Some Hwx; [by apply Hwt|].
    rewrite Hcur in *. destruct (Hw j x Hj Hwx); [|by right]. destruct Hd as [->|]; auto.
  - intros j x [(_ & <- & _)|[Hne Hj]]%list_lookup_insert_Some; [done|]. rewrite Hl. by apply (Hn j).
Qed.

(** The card changes, the flags and the tasks stay. *)
Lemma inv_card st c' :
  inv33 st -> flags_kept (s_card st) c' ->
  completed ops (private_data c') = completed ops (private_data (s_card st)) ->
  inv33 (Sys33 c' (s_user st) (s_tasks st)).
Proof.
  intros [Hc Hu Ha Har Hw Hn] Hk Hd. pose proof (current_kept _ _ Hk) as Hcur.
  pose proof (card_ok_kept _ _ Hk Hc) as Hok. destruct Hk as [Hs Hl Hka Hkt]. pose proof (shape_eq _ _ Hs) as (_ & _ & _ & Ec).
  split; cbn [s_card s_tasks].
  - done.
  - intros i. by rewrite Hu, Hkt.
  - done.
  - intros j d Hj. rewrite Ec, Hcur. by apply (Har j).
  - intros j x Hj Hwx. rewrite Hcur, Hd. by apply (Hw j x).
  - intros j x Hj. rewrite Hl. by apply (Hn j).
Qed.

(** An acquisition ends while no task is about to start one. *)
Lemma inv_stop st c' :
  inv33 st -> flags_kept (stop_current (s_card st)) c' -> completed ops (private_data c') = true ->
  existsb arming (s_tasks st) = false -> inv33 (Sys33 c' (s_user st) (s_tasks st)).
Proof.
  intros [Hc Hu Ha Har Hw Hn] [Hs Hl Hka Hkt] Hd Hna. pose proof (shape_eq _ _ Hs) as (E1 & E2 & E3 & Ec).
  cbn in E1, E2, E3, Ec. assert (length (segments c') = length (segments (s_card st))) as Hl'.
  { rewrite Hl. unfold stop_current, upd_segment, set_segments. cbn [segments]. by rewrite length_alter. }
  destruct Hc as [Hcn Hcc Hca]. split; cbn [s_card s_tasks].
  - split; rewrite ?Hl', ?E1, ?E2, ?E3, ?Ec; try lia. intros i. rewrite Hka, Hkt.
    destruct (stop_flags (s_card st) i) as [-> ->]. destruct (decide _); [done|]. intros Hi. by specialize (Hca i Hi).
  - intros i. rewrite Hu, Hkt. by destruct (stop_flags (s_card st) i) as [_ ->].
  - done.
  - intros j d Hj. exfalso. assert (tally arming (s_tasks st) = 0) as H0 by (by apply tally_zero).
    pose proof (tally_elem arming _ j (TArm d) Hj eq_refl). lia.
  - intros. by left.
  - intros j x Hj. rewrite Hl'. by apply (Hn j).
Qed.

(** *** Attributes *)

Lemma set_cfg_kept g (c : sis33_card P) : flags_kept c (set_cfg33 g c).
Proof. by split. Qed.

Lemma set_channels_kept l (c : sis33_card P) : flags_kept c (set_channels l c).
Proof. by split. Qed.

#[local] Notation quiet33 := (quiet33 ops).

Lemma apply_cfg_quiet g n c : quiet33 c (apply_cfg ops g n c).2.
Proof.
  unfold apply_cfg. destruct (conf_acq ops) as [f|] eqn:E; [|apply (quiet33_refl ops)].
  pose proof (law_conf_acq f c g E) as [H1 H2]. destruct (f c g) as [ret c1]. cbn [snd] in H1, H2.
  case_goal; [by split|]. split; [|done]. eapply flags_kept_trans; [exact H1|apply set_cfg_kept].
Qed.

Lemma conf_store_quiet intr b set b' c : quiet33 c (__sis33_conf_store_int ops intr b set b' c).2.
Proof.
  unfold __sis33_conf_store_int. destruct (sis33_getval b); [apply (quiet33_refl ops)|].
  do 2 (case_goal; [apply (quiet33_refl ops)|]). apply apply_cfg_quiet.
Qed.

Lemma offset_store_quiet intr i b c : quiet33 c (chan_offset_store ops intr i b c).2.
Proof.
  unfold chan_offset_store. case_goal; [apply (quiet33_refl ops)|]. destruct (sis33_getuval b); [apply (quiet33_refl ops)|].
  case_goal; [apply (quiet33_refl ops)|]. cbv zeta. set (c0 := set_channels _ c).
  destruct (conf_channels ops) as [f|] eqn:E1; [|split; [apply set_channels_kept|done]].
  pose proof (law_conf_channels f c0 E1) as [H1 H2]. destruct (f c0) as [ret c1]. cbn [snd] in H1, H2.
  assert (flags_kept c c1) as H3 by (eapply flags_kept_trans; [apply set_channels_kept|exact H1]).
  case_goal; [|by split]. split; [|done]. eapply flags_kept_trans; [exact H3|apply set_channels_kept].
Qed.

Lemma trigger_quiet b c : quiet33 c (sis33_store_trigger ops b c).2.
Proof.
  unfold sis33_store_trigger. destruct (sis33_getval b) as [|v]; [apply (quiet33_refl ops)|].
  destruct (trigger ops) as [f|] eqn:E; [|apply (quiet33_refl ops)].
  pose proof (law_trigger f c (u32 v) E) as H. by destruct (f c (u32 v)).
Qed.

Lemma store_quiet o intr b c : o <> SNSegments -> quiet33 c (run_store ops o intr b c).2.
Proof.
  intros Ho. destruct o; try done; cbn [run_store];
    unfold sis33_store_start_auto, sis33_store_stop_auto, sis33_store_trigger_ext, sis33_store_start_delay,
      sis33_store_stop_delay, sis33_store_ts_div, sis33_store_clk_src, sis33_store_clk_freq, sis33_conf_store_bool,
      sis33_conf_store_int;
    repeat match goal with |- context [match sis33_getval b with _ => _ end] => destruct (sis33_getval b) eqn:? end;
    try destruct (sis33_getuval b); try apply conf_store_quiet; try apply offset_store_quiet;
    repeat case_goal; try apply (quiet33_refl ops); try apply apply_cfg_quiet; apply conf_store_quiet.
Qed.

Lemma roundup_ge n : 0 < n -> n <= roundup_pow_of_two n.
Proof.
  intros Hn. unfold roundup_pow_of_two, fls_long. destruct (Z.eqb_spec (n - 1) 0) as [E|E].
  - rewrite Z.shiftl_mul_pow2 by lia. lia.
  - pose proof (Z.log2_spec (n - 1) ltac:(lia)). rewrite Z.shiftl_mul_pow2 by (pose proof (Z.log2_nonneg (n - 1)); lia).
    rewrite Z.add_1_r. lia.
Qed.

Lemma n_segments_store intr b c : card_ok c ->
  let c' := (sis33_store_n_segments intr b c).2 in
  c' = c \/ exists n, n_segments_min c <= n <= n_segments_max c /\ c' = set_n_segments n c /\ sis33_is_acquiring c = false.
Proof.
  intros [Hn _ _]. cbv zeta. unfold sis33_store_n_segments. destruct (sis33_getval b) as [|v]; [by left|].
  case_goal; [by left|]. case_goal; [by left|]. destruct (sis33_is_acquiring c); [by left|].
  case_goal; [by left|]. right. boolp. pose proof (roundup_ge v ltac:(lia)).
  eexists. split; [|split; [reflexivity|done]]. repeat case_goal; boolp; lia.
Qed.

Lemma inv_n_segments st n : inv33 st -> n_segments_min (s_card st) <= n <= n_segments_max (s_card st) ->
  sis33_is_acquiring (s_card st) = false ->
  inv33 (Sys33 (set_n_segments n (s_card st)) (s_user st) (s_tasks st)).
Proof.
  intros [Hc Hu Ha Har Hw Hn] Hr Hna. pose proof (no_acquiring _ Hc Hna) as Hno. destruct Hc as [Hcn Hcc Hca].
  split; try done. split; cbn; try lia. intros i Hi. fold (seg i (segments (s_card st))) in *. by rewrite Hno in Hi.
Qed.

Lemma inv_quiet st c' : inv33 st -> quiet33 (s_card st) c' -> inv33 (Sys33 c' (s_user st) (s_tasks st)).
Proof. intros Hi [Hk Hd]. by apply inv_card. Qed.

Lemma inv_store st o intr b : inv33 st -> inv33 (Sys33 (run_store ops o intr b (s_card st)).2 (s_user st) (s_tasks st)).
Proof.
  intros Hi. destruct o; try by apply inv_quiet, store_quiet.
  cbn [run_store]. destruct (n_segments_store intr b (s_card st) (in_card _ Hi)) as [->|(n & Hn & -> & Ha)].
  - by destruct st.
  - by apply inv_n_segments.
Qed.

(** *** Acquiring *)

Definition begin_acq (d : sis33_acq_desc) (c : sis33_card P) : sis33_card P :=
  set_curr_segment (d_segment d)
    (upd_segment (d_segment d) (fun s => set_nr_samp (d_ev_length d) (set_acquiring true s)) c).

Lemma acquire_locked_spec d c :
  let r := acquire_locked ops d c in
  (r.1 <> 0 /\ quiet33 c r.2) \/
  (r.1 = 0 /\ sis33_is_acquiring c = false /\ transferring (get_segment (d_segment d) c) = false /\
   d_segment d < n_segments c /\ exists c1, quiet33 c c1 /\ r.2 = begin_acq d c1).
Proof.
  cbv zeta. unfold acquire_locked. pose proof (quiet33_refl ops c) as Hr.
  case_goal; [by left|]. destruct (Z.leb_spec (n_segments c) (d_segment d)) as [|Hlt]; [by left|].
  do 2 (case_goal; [by left|]). case_goal; [by left|]. boolp.
  destruct (conf_ev ops) as [f|] eqn:Ef; [|by left]. pose proof (law_conf_ev f c d Ef) as Hk.
  destruct (f c d) as [ret c1]. cbn [snd] in Hk. destruct (truthy ret) eqn:Et.
  - left. split; [|done]. cbn [fst]. intros ->. done.
  - right. split_and!; try done. by exists c1.
Qed.

Lemma begin_seg d (c c1 : sis33_card P) i : quiet33 c c1 -> 0 <= d_segment d < Z.of_nat (length (segments c)) ->
  acquiring (seg i (segments (begin_acq d c1))) =
    (if decide (i = Z.to_nat (d_segment d)) then true else acquiring (seg i (segments c))) /\
  transferring (seg i (segments (begin_acq d c1))) = transferring (seg i (segments c)).
Proof.
  intros [[Hs Hl Ha Ht] _] Hd. unfold begin_acq, upd_segment. cbn [segments set_curr_segment set_segments].
  rewrite <- Ha, <- Ht. destruct (decide _) as [->|Hne].
  - rewrite seg_alter_eq by (rewrite Hl; lia). done.
  - by rewrite seg_alter_ne by done.
Qed.

Lemma inv_acquire st t d c1 u' :
  inv33 st -> s_tasks st !! t = Some (TAcquire d) -> quiet33 (s_card st) c1 ->
  sis33_is_acquiring (s_card st) = false -> transferring (get_segment (d_segment d) (s_card st)) = false ->
  d_segment d < n_segments (s_card st) ->
  inv33 (Sys33 (begin_acq d c1) u' (<[t := TArm d]> (s_tasks st))).
Proof.
  intros [Hc Hu Ha Har Hw Hn] Ht Hq Hna Htr Hlt. pose proof (no_acquiring _ Hc Hna) as Hno.
  destruct Hc as [Hcn Hcc Hca]. pose proof (Hn t _ Ht) as Hd. cbn [named] in Hd.
  assert (0 <= d_segment d < Z.of_nat (length (segments (s_card st)))) as Hds by lia.
  pose proof (fun i => begin_seg d _ c1 i Hq Hds) as Hb. destruct Hq as [[Hs Hl Hka Hkt] Hdone].
  pose proof (shape_eq _ _ Hs) as (E1 & E2 & E3 & E4).
  assert (length (segments (begin_acq d c1)) = length (segments (s_card st))) as Hl'.
  { unfold begin_acq, upd_segment. cbn. by rewrite length_alter. }
  assert (acquiring (current (begin_acq d c1)) = true) as Hcur.
  { unfold current. destruct (Hb (Z.to_nat (curr_segment (begin_acq d c1)))) as [-> _]. cbn. by rewrite decide_True. }
  assert (forall j d', s_tasks st !! j = Some (TArm d') -> False) as Hnoarm.
  { intros j d' Hj. destruct (Har j d' Hj) as [_ Hx]. unfold current in Hx. by rewrite Hno in Hx. }
  split; cbn [s_card s_tasks].
  - split; rewrite ?Hl'; cbn [begin_acq set_curr_segment upd_segment set_segments n_segments n_segments_min n_segments_max curr_segment];
      rewrite ?E1, ?E2, ?E3; [lia..|].
    intros i. destruct (Hb i) as [-> ->]. destruct (decide _) as [->|]; [|by rewrite Hno].
    intros _. split_and!; [done|done|exact Htr].
  - intros i. rewrite (tally_insert _ _ _ _ _ Ht), Hu. destruct (Hb i) as [_ ->]. cbn [uses]. lia.
  - rewrite (tally_insert _ _ _ _ _ Ht). cbn [arming]. assert (tally arming (s_tasks st) = 0) as ->; [|lia].
    apply tally_zero. apply not_true_is_false. intros (x & Hin & Hx)%existsb_exists. destruct x as [|d'| | | | | | |]; try done.
    apply list_elem_of_In, list_elem_of_lookup in Hin as [j Hj]. by apply (Hnoarm j d').
  - intros j d' [(_ & E & _)|[Hne Hj]]%list_lookup_insert_Some; [|by destruct (Hnoarm j d')].
    injection E as ->. by split.
  - intros j x Hj Hwx. by right.
  - intros j x [(_ & <- & _)|[Hne Hj]]%list_lookup_insert_Some; [done|]. rewrite Hl'. by apply (Hn j).
Qed.

(** *** Fetching *)

Lemma fetch_ready_spec acqs l (c : sis33_card P) r c' : fetch_ready acqs l c = Some (r, c') ->
  (exists e, r = FErr e /\ c' = c) \/
  (exists n l', r = FGo n l' /\ l_segment l' = l_segment l /\ c' = upd_segment (l_segment l) (set_transferring true) c /\
     acquiring (get_segment (l_segment l) c) = false /\ transferring (get_segment (l_segment l) c) = false).
Proof.
  unfold fetch_ready. case_goal; [intros [= <- <-]; left; eauto|]. boolp. case_goal; [intros [= <- <-]; left; eauto|].
  destruct (sis33_check_acq_buffers _ _ _) as [ret|]; cbn [mbind option_bind]; [|done].
  case_goal; intros [= <- <-]; [left; eauto|]. right. do 2 eexists. split_and!; [reflexivity|done|reflexivity|done|done].
Qed.

Lemma fetch_locked_spec acqs l (c : sis33_card P) r c' : fetch_locked ops acqs l c = Some (r, c') ->
  (exists e, r = FErr e /\ c' = c) \/
  (exists b, r = FWait b /\ c' = c /\ l_segment l < n_segments c /\ acquiring (get_segment (l_segment l) c) = true) \/
  (l_segment l < n_segments c /\ fetch_ready acqs l c = Some (r, c')).
Proof.
  unfold fetch_locked. case_goal; [intros [= <- <-]; left; eauto|]. boolp.
  case_goal; [|intros Hx; right; right; split; [lia|done]].
  destruct (acq_wait ops); [|intros [= <- <-]; left; eauto].
  repeat case_goal; intros [= <- <-]; [right; left|left; by eexists|right; left]; eexists; split_and!; try done; lia.
Qed.

Lemma transfer_seg i j v (c : sis33_card P) : 0 <= i < Z.of_nat (length (segments c)) ->
  acquiring (seg j (segments (upd_segment i (set_transferring v) c))) = acquiring (seg j (segments c)) /\
  transferring (seg j (segments (upd_segment i (set_transferring v) c))) =
    (if decide (j = Z.to_nat i) then v else transferring (seg j (segments c))).
Proof.
  intros Hi. unfold upd_segment, set_segments. cbn [segments]. destruct (decide _) as [->|Hne].
  - by rewrite seg_alter_eq by lia.
  - by rewrite seg_alter_ne by done.
Qed.

(** A task takes a segment ([v] true) or gives it back. *)
Lemma inv_transfer st t pc pc' l v u' :
  inv33 st -> s_tasks st !! t = Some pc -> 0 <= l_segment l < Z.of_nat (length (segments (s_card st))) ->
  arming pc' = false -> waits33 pc' = false -> named (length (segments (s_card st))) pc' ->
  (forall i, uses i pc' = if decide (i = Z.to_nat (l_segment l)) then v else uses i pc) ->
  (forall i, uses i pc = true -> i = Z.to_nat (l_segment l)) ->
  uses (Z.to_nat (l_segment l)) pc = negb v ->
  transferring (seg (Z.to_nat (l_segment l)) (segments (s_card st))) = negb v ->
  (v = true -> acquiring (seg (Z.to_nat (l_segment l)) (segments (s_card st))) = false) ->
  inv33 (Sys33 (upd_segment (l_segment l) (set_transferring v) (s_card st)) u' (<[t := pc']> (s_tasks st))).
Proof.
  intros [Hc Hu Ha Har Hw Hn] Ht Hl Harm Hwt Hnm Hus' Hus Hsame Htr Hacq. destruct Hc as [Hcn Hcc Hca].
  pose proof (fun j => transfer_seg (l_segment l) j v (s_card st) Hl) as Hseg.
  assert (length (segments (upd_segment (l_segment l) (set_transferring v) (s_card st))) = length (segments (s_card st))) as Hlen.
  { unfold upd_segment. cbn. by rewrite length_alter. }
  split; cbn [s_card s_tasks].
  - split; rewrite ?Hlen; cbn [upd_segment set_segments n_segments n_segments_min n_segments_max curr_segment]; [lia..|].
    intros i. destruct (Hseg i) as [-> ->]. intros Hi. specialize (Hca i Hi) as (-> & ? & ?). split_and!; [done..|].
    destruct (decide _) as [E|]; [|done]. destruct v; [|done]. rewrite E in Hi. by rewrite Hacq in Hi.
  - intros i. rewrite (tally_insert _ _ _ _ _ Ht), Hu, Hus'. destruct (Hseg i) as [_ ->].
    destruct (decide (i = Z.to_nat (l_segment l))) as [->|Hne].
    + rewrite Hsame, Htr. destruct v; cbn [negb]; lia.
    + destruct (uses i pc) eqn:E; [by apply Hus in E|]. lia.
  - rewrite (tally_insert _ _ _ _ _ Ht), Harm. destruct (arming pc); lia.
  - intros j d [(_ & -> & _)|[Hne Hj]]%list_lookup_insert_Some; [done|]. destruct (Har j d Hj) as [H1 H2].
    split; [done|]. unfold current in *. cbn [curr_segment upd_segment set_segments]. by destruct (Hseg (Z.to_nat (curr_segment (s_card st)))) as [-> _].
  - intros j x [(_ & -> & _)|[Hne Hj]]%list_lookup_insert_Some Hwx; [congruence|].
    destruct (Hw j x Hj Hwx) as [H|H]; [by left|right]. unfold current in *. cbn [curr_segment upd_segment set_segments].
    by destruct (Hseg (Z.to_nat (curr_segment (s_card st)))) as [-> _].
  - intros j x [(_ & <- & _)|[Hne Hj]]%list_lookup_insert_Some; rewrite Hlen; [done|]. by apply (Hn j).
Qed.

(** *** Every step *)

(** The side conditions of [inv_task] that hold of themselves. *)
Ltac moves := try first [done | apply flags_kept_refl | by left].

Lemma inv_return st t pc e u' : inv33 st -> s_tasks st !! t = Some pc -> (forall i, uses i pc = false) ->
  inv33 (Sys33 (s_card st) u' (<[t := TRet e]> (s_tasks st))).
Proof.
  intros Hi Ht Hu. apply (inv_task st t pc); moves.
Qed.

Lemma inv_fetch st t pc acqs l r c' u' : inv33 st -> s_tasks st !! t = Some pc -> (forall i, uses i pc = false) ->
  0 <= l_segment l < Z.of_nat (length (segments (s_card st))) ->
  fetch_ready acqs l (s_card st) = Some (r, c') -> inv33 (Sys33 c' u' (<[t := after_fetch r acqs l]> (s_tasks st))).
Proof.
  intros Hi Ht Hu Hl [(e & -> & ->)|(n & l' & -> & El & -> & Ha & Htr)]%fetch_ready_spec; [by apply (inv_return st t pc)|].
  cbn [after_fetch]. apply (inv_transfer st t pc _ _ true); try done.
  - cbn [named]. by rewrite El.
  - intros i. cbn [uses]. rewrite El, Hu. destruct (decide _) as [->|]; [apply Nat.eqb_refl|]. by apply Nat.eqb_neq.
  - intros i. by rewrite Hu.
Qed.

Lemma inv_run st t a pc c' u' pc0 : inv33 st -> s_tasks st !! t = Some pc0 ->
  task33 ops a pc0 (s_card st) (s_user st) = Some (pc, c', u') ->
  inv33 (Sys33 c' u' (<[t := pc]> (s_tasks st))).
Proof.
  intros Hi Ht Hs. pose proof (in_named _ Hi t _ Ht) as Hn. destruct pc0 as [d|d|b|user l|b acqs l|acqs l|n acqs l|ret acqs l|ret]; cbn [task33] in Hs; try done.
  - destruct (acquire_enter _ _ _) as [e|]; [simplify_eq; by apply (inv_return st t (TAcquire d))|].
    pose proof (acquire_locked_spec d (s_card st)) as Ha. destruct (acquire_locked ops d (s_card st)) as [ret c1].
    cbn [fst snd] in Ha. destruct Ha as [(Hr & Hk & Hd)|(-> & Hna & Htr & Hlt & c2 & Hq & ->)].
    + assert (truthy ret = true) as E by (unfold truthy; by destruct (Z.eqb_spec ret 0)). rewrite E in Hs. simplify_eq.
      apply (inv_task st t (TAcquire d)); moves.
    + cbn in Hs. simplify_eq. by apply inv_acquire.
  - unfold acquire_start in Hs. destruct (acq_start ops) as [f|] eqn:Ef; simplify_eq.
    2:{ by apply (inv_return st t (TArm d)). }
    pose proof (law_start f (s_card st) Ef) as Hk. destruct (in_arming _ Hi t d Ht) as [_ Hcur].
    rewrite <- (current_kept _ _ Hk) in Hcur. unfold acquire_wait.
    destruct (acq_wait ops); repeat case_goal; apply (inv_task st t (TArm d)); moves; by right.
  - destruct (fetch_enter _ _ _ _ _) as [e|]; [simplify_eq; by apply (inv_return st t (TFetch user l))|].
    destruct (fetch_locked _ _ _ _) as [[r c1]|] eqn:Ef; cbn [mbind option_bind] in Hs; [|done]. simplify_eq.
    pose proof (co_n _ (in_card _ Hi)) as Hco. cbn [named] in Hn.
    apply fetch_locked_spec in Ef as [(e & -> & ->)|[(b & -> & -> & Hlt & Hacq)|[Hlt Hr]]].
    + by apply (inv_return st t (TFetch user l)).
    + apply (inv_task st t (TFetch user l)); moves; [|cbn [after_fetch named]; lia].
      intros _. right. unfold current. by destruct (co_acq _ (in_card _ Hi) _ Hacq) as (<- & _ & _).
    + apply (inv_fetch st t (TFetch user l)); try done. lia.
  - case_hyp Hs; [simplify_eq; by apply (inv_return st t (TFetchAgain acqs l))|].
    destruct (fetch_ready _ _ _) as [[r c1]|] eqn:Ef; cbn [mbind option_bind] in Hs; [|done]. simplify_eq.
    by apply (inv_fetch st t (TFetchAgain acqs l)).
  - unfold fetch_run in Hs. destruct (fetch ops) as [f|] eqn:Ef.
    2:{ cbn in Hs. simplify_eq. apply (inv_task st t (TTransfer n acqs l)); moves. }
    destruct (f _ _ _ _ _ _) as [[[[ret acqs'] u1] c1]|] eqn:E; cbn [mbind option_bind] in Hs; [|done]. simplify_eq.
    destruct (law_fetch f _ _ _ _ _ _ _ _ _ _ Ef E) as [Hk Hd]. apply (inv_task st t (TTransfer n acqs l)); moves.
    cbn [named]. by rewrite (fk_length _ _ Hk).
  - simplify_eq. apply (inv_transfer st t (TFinish ret acqs l) _ _ false); try done.
    + intros i. cbn [uses]. destruct (decide _) as [->|]; [done|]. symmetry. by apply Nat.eqb_neq.
    + intros i H. cbn [uses] in H. by apply Nat.eqb_eq in H.
    + cbn [uses negb]. apply Nat.eqb_refl.
    + pose proof (in_uses _ Hi (Z.to_nat (l_segment l))) as Hx.
      pose proof (tally_elem (uses (Z.to_nat (l_segment l))) _ t _ Ht (Nat.eqb_refl _)).
      cbn [negb]. destruct (transferring _); [done|lia].
Qed.

Lemma inv_wake st t w pc pc0 : inv33 st -> s_tasks st !! t = Some pc0 -> woken ops w pc0 (s_card st) = Some pc ->
  inv33 (Sys33 (s_card st) (s_user st) (<[t := pc]> (s_tasks st))).
Proof.
  intros Hi Ht Hs. pose proof (in_named _ Hi t _ Ht) as Hn.
  destruct pc0; cbn [woken] in Hs; try done; case_hyp Hs; simplify_eq; [by apply (inv_return st t (TAcqWait timeout))|].
  case_goal; [by eapply inv_return|]. eapply inv_task; moves.
Qed.

Lemma inv_step x st st' : inv33 st -> settled x st = true -> step33 ops irq x st = Some st' -> inv33 st'.
Proof.
  intros Hi Hset Hs. destruct x as [t a|t w|o intr b|b| |]; cbn [step33] in Hs.
  - destruct (s_tasks st !! t) as [pc0|] eqn:Ht; cbn [mbind option_bind] in Hs; [|done].
    destruct (task33 _ _ _ _ _) as [[[pc c'] u']|] eqn:E; cbn [mbind option_bind] in Hs; [|done].
    simplify_eq. by apply (inv_run st t a pc c' u' pc0).
  - destruct (s_tasks st !! t) as [pc0|] eqn:Ht; cbn [mbind option_bind] in Hs; [|done].
    destruct (woken _ _ _ _) as [pc|] eqn:E; cbn [mbind option_bind] in Hs; [|done]. simplify_eq. by eapply inv_wake.
  - simplify_eq. by apply inv_store.
  - simplify_eq. by apply inv_quiet, trigger_quiet.
  - apply negb_true_iff in Hset. destruct (acq_cancel ops) as [f|] eqn:Ef; simplify_eq; [|by destruct st].
    destruct (law_cancel f (s_card st) Ef) as [[Hk Hd]|[Hk Hd]]; [by apply inv_card|by apply inv_stop].
  - apply negb_true_iff in Hset. simplify_eq.
    destruct (law_irq (s_card st)) as [[Hk Hd]|[Hk Hd]]; [by apply inv_card|by apply inv_stop].
Qed.

Lemma tally_fresh f l : (forall pc, fresh33 pc = true -> f pc = false) -> forallb fresh33 l = true -> tally f l = 0.
Proof.
  intros Hf H. apply tally_zero, not_true_is_false. intros (x & Hin & Hx)%existsb_exists.
  rewrite forallb_forall in H. specialize (H x Hin). by rewrite Hf in Hx.
Qed.

Lemma boot_inv st : booted33 st -> inv33 st.
Proof.
  destruct st as [c u ts]. intros (Hn1 & Hn2 & Hseg & Hcur & Hts). cbn [s_card s_tasks] in *.
  assert (forall i, acquiring (seg i (segments c)) = false /\ transferring (seg i (segments c)) = false) as Hz.
  { intros i. unfold seg. destruct (nth_in_or_default i (segments c) segment_zero) as [Hin| ->]; [|done].
    rewrite Forall_forall in Hseg. by apply Hseg, list_elem_of_In. }
  assert (forall t pc, ts !! t = Some pc -> fresh33 pc = true) as Hfr.
  { intros t pc Ht. rewrite forallb_forall in Hts. by apply Hts, list_elem_of_In, (list_elem_of_lookup_2 _ t). }
  split; cbn [s_card s_tasks].
  - split; [lia|lia|]. intros i Hi. by rewrite (proj1 (Hz i)) in Hi.
  - intros i. rewrite (proj2 (Hz i)). apply tally_fresh; [|done]. by intros [].
  - rewrite tally_fresh; [lia|by intros []|done].
  - intros t d Ht. by apply Hfr in Ht.
  - intros t pc Ht%Hfr Hw. by destruct pc.
  - intros t pc Ht%Hfr. destruct pc; try done; cbn in Ht |- *; boolp; lia.
Qed.

Lemma reach_inv st0 st : reach33 ops irq st0 st -> inv33 st.
Proof. induction 1 as [Hb|x st st' Hr IH Hset Hs]; [by apply boot_inv|by eapply inv_step]. Qed.

(** C33: In every state of a card reached with no acquisition ended in the window
    before its start, one segment at most is being acquired; no task transfers
    that segment, and no two transfer the same one; and the task about to start
    the card is alone, for the current segment, which is being acquired. *)
Theorem sis33_exclusive st0 st : reach33 ops irq st0 st ->
  let c := s_card st in
  (forall i, acquiring (seg i (segments c)) = true ->
     i = Z.to_nat (curr_segment c) /\ transferring (seg i (segments c)) = false /\
     forall t pc, s_tasks st !! t = Some pc -> uses i pc = false) /\
  (forall i t t' pc pc', s_tasks st !! t = Some pc -> s_tasks st !! t' = Some pc' ->
     uses i pc = true -> uses i pc' = true -> t = t') /\
  (forall t d, s_tasks st !! t = Some (TArm d) ->
     d_segment d = curr_segment c /\ acquiring (current c) = true /\
     forall t' pc, s_tasks st !! t' = Some pc -> arming pc = true -> t' = t).
Proof.
  intros Hi%reach_inv. cbv zeta. destruct Hi as [Hc Hu Ha Har Hw Hn]. split_and!.
  - intros i Hi. destruct (co_acq _ Hc i Hi) as (E & _ & Htr). split_and!; try done. intros t pc Ht.
    destruct (uses i pc) eqn:Eu; [|done]. pose proof (tally_elem _ _ t pc Ht Eu). rewrite Hu, Htr in *. lia.
  - intros i t t' pc pc' Ht Ht' Hp Hp'. destruct (decide (t = t')) as [|Hne]; [done|].
    pose proof (tally_two _ _ t t' pc pc' Ht Ht' Hp Hp' Hne) as H2. rewrite Hu in H2. destruct (transferring _); lia.
  - intros t d Ht. destruct (Har t d Ht) as [E Hcur]. pose proof (co_curr _ Hc). split_and!; [|done|].
    + pose proof (Hn t _ Ht) as Hd. cbn [named] in Hd. lia.
    + intros t' pc Ht' Hp. destruct (decide (t' = t)) as [|Hne]; [done|].
      pose proof (tally_two arming _ t' t pc (TArm d) Ht' Ht Hp eq_refl Hne). lia.
Qed.

End Inv.
