(* ===== verification/Sis3300.v ===== *)
(** * The SIS3300 digitizer ([sis33/drivers/sis3300.c], [sis3300.h])

    Configuration, acquisition, interrupts and transfers of a SIS3300 card, as
    operations of [sis33_card_ops].  The private data of the card hold the bus
    of [Sis33Dma]; a transfer is served from caches of the event directory, the
    time stamps and the samples, which are filled once per acquisition. *)

From S2P Require Import Prelude VmeBus SkelIo Sis33Dma Sis33Core.

(** ** Registers *)

Definition SIS3300_FW : Z := 0x4.
Definition FW_MODID : Z := 0xffff0000.
Definition FW_MODID_SHIFT : Z := 16.
Definition FW_MAJOR : Z := 0xff00.
Definition FW_MAJOR_SHIFT : Z := 8.
Definition FW_MINOR : Z := 0x00ff.
Definition SIS3300_INTCONF : Z := 0x8.
Definition INTCONF_ROAK : Z := 0x1000.
Definition INTCONF_ENABLE : Z := 0x800.
Definition INTCONF_LEVEL_MASK : Z := 0x7.
Definition INTCONF_LEVEL_SHIFT : Z := 8.
Definition INTCONF_VECTOR_MASK : Z := 0xff.
Definition SIS3300_INTCTL : Z := 0xc.
Definition INTCTL_EN_EV : Z := 0x1.
Definition INTCTL_DI_EV : Z := 0x10000.
Definition INTCTL_CL_EV : Z := 0x100000.
Definition INTCTL_ST_EV : Z := 0x10000000.
Definition INTCTL_EN_LEV : Z := 0x2.
Definition INTCTL_DI_LEV : Z := 0x20000.
Definition INTCTL_CL_LEV : Z := 0x200000.
Definition INTCTL_ST_LEV : Z := 0x20000000.
Definition INTCTL_ST_MASK : Z := 0xb0000000.
Definition SIS3300_ACQ : Z := 0x10.
Definition ACQ_EN_AUTOST : Z := 0x10.
Definition ACQ_EN_MEV : Z := 0x20.
Definition ACQ_EN_STARTD : Z := 0x40.
Definition ACQ_EN_STOPD : Z := 0x80.
Definition ACQ_EN_FPANEL : Z := 0x100.
Definition ACQ_CLKSRC_SHIFT : Z := 12.
Definition ACQ_DISARM1 : Z := 0x10000.
Definition ACQ_BUSY : Z := 0x10000.
Definition ACQ_DISARM2 : Z := 0x20000.
Definition ACQ_DI_AUTOST : Z := 0x100000.
Definition ACQ_DI_MEV : Z := 0x200000.
Definition ACQ_DI_STARTD : Z := 0x400000.
Definition ACQ_DI_STOPD : Z := 0x800000.
Definition ACQ_DI_FPANEL : Z := 0x1000000.
Definition ACQ_CL_CLKSRC : Z := 0x70000000.
Definition SIS3300_CLKSRC_EXT : Z := 0x6.
Definition SIS3300_EXT_START_DELAY : Z := 0x14.
Definition SIS3300_EXT_STOP_DELAY : Z := 0x18.
Definition SIS3300_MAX_DELAY : Z := 0xffff.
Definition SIS3300_TSTAMP_PREDIV : Z := 0x1c.
Definition SIS3300_TSTAMP_PREDIV_MASK : Z := 0xffff.
Definition SIS3300_RESET : Z := 0x20.
Definition SIS3300_START_SAMP : Z := 0x30.
Definition SIS3300_STOP_SAMP : Z := 0x34.
Definition SIS3300_EV_TSTAMP (nr : Z) : Z := Z.shiftl 0x1000 nr.
Definition SIS3300_EV_TSTAMP_MASK : Z := 0x00ffffff.
Definition SIS3300_GALL (reg : Z) : Z := 0x100000 + reg.
Definition EV_CONF : Z := 0x0.
Definition EV_CONF_EN_WRAP_MODE : Z := 0x8.
Definition EV_CONF_EV_LEN_MAP : Z := 0x100000.
Definition EV_DIR (bank : Z) : Z := 0x101000 + bank * 0x1000.
Definition EV_DIR_WRAP : Z := 0x80000.
Definition EV_DIR_ADDR_MASK : Z := 0x1ffff.
Definition EV_COUNTER (bank : Z) : Z := 0x200010 + bank * 0x4.
Definition ADC0_DATA_MASK : Z := 0xfff0000.
Definition ADC0_DATA_SHIFT : Z := 16.
Definition ADC1_DATA_MASK : Z := 0xfff.
Definition ADC1_DATA_SHIFT : Z := 0.
Definition MEMBANK (bank chan : Z) : Z := 0x400000 + bank * 0x200000 + (chan / 2) * 0x80000.

(** ** Constants of the driver *)

Definition SIS3300_MAX_NR_EVENTS : Z := 1024.
Definition SIS3300_NR_CHANNELS : Z := 8.
Definition SIS3300_NR_ADCGROUPS : nat := 4.
Definition SIS3300_MAX_NR_SEGMENTS : Z := 2.

Definition sis3300_ev_lengths : list Z := [131072; 16384; 4096; 2048; 1024; 512; 256; 128].
Definition sis3300_ev_length_bits : list Z := [0; 1; 2; 3; 4; 5; 6; 7].
Definition sis3300_08_ev_lengths : list Z := [131072; 32768; 16384; 8192; 4096; 2048; 1024; 512; 256; 128].
Definition sis3300_08_ev_length_bits : list Z :=
  [0; Z.lor EV_CONF_EV_LEN_MAP 1; 1; Z.lor EV_CONF_EV_LEN_MAP 2; 2; 3; 4; 5; 6; 7].
Definition sis3300_freqs : list Z := [100000000; 50000000; 25000000; 12500000; 6250000; 3125000].
Definition sis3300_freq_bits : list Z := [0; 1; 2; 3; 4; 5].

(** The entry of [bits] at the first [v] of [vals], or the default. *)
Fixpoint bits_of (vals bits : list Z) (v default : Z) : Z :=
  match vals, bits with
  | x :: vals, b :: bits => if x =? v then b else bits_of vals bits v default
  | _, _ => default
  end.

(** ** The card *)

Record sis3300 := S3300 {
  vme_base : Z;
  req_events : Z;
  completion : bool;
  sampcache : list (list (option (list Z)));
  bus : vbus;
}.

Definition set_bus v s := S3300 (vme_base s) (req_events s) (completion s) (sampcache s) v.
Definition set_req_events v s := S3300 (vme_base s) v (completion s) (sampcache s) (bus s).
Definition set_completion v s := S3300 (vme_base s) (req_events s) v (sampcache s) (bus s).
Definition set_sampcache v s := S3300 (vme_base s) (req_events s) (completion s) v (bus s).

Definition card33 := sis33_card sis3300.
Definition upd_priv (f : sis3300 -> sis3300) (c : card33) : card33 := set_priv (f (private_data c)) c.

Section Sis3300.
Variable card : list (Z * Z) -> nat -> Z -> Z.
Variable dma_rc : nat -> Z.
Variable junk : nat -> list Z.
Variable kbuf : nat -> Z.
Variable cpu_big : bool.
Variable put_ok : Z -> bool.         (* the user address can be written *)
Variable mem_ok : nat -> nat -> bool. (* allocations, by time and place *)
Variable clock : nat -> Z.           (* [do_gettimeofday()] *)

Definition sis3300_readw (off : Z) (c : card33) : Z * card33 :=
  let s := private_data c in
  let '(v, b) := sis33_dma_read card dma_rc junk kbuf (u32 (vme_base s + off)) (bus s) in
  (v, set_priv (set_bus b s) c).

Definition sis3300_writew (off val : Z) (c : card33) : card33 :=
  let s := private_data c in
  set_priv (set_bus (sis33_dma_write card dma_rc kbuf (u32 (vme_base s + off)) val (bus s)) s) c.

Definition sis3300_rev (c : card33) : Z := Z.lor (Z.shiftl (major_rev c) 8) (minor_rev c).

(** ** Configuration *)

Definition sis3300_get_clk_bits (freq : Z) : Z := bits_of sis3300_freqs sis3300_freq_bits freq 0.

Definition sis3300_acq_clk (src freq : Z) : Z :=
  let val := if src =? SIS33_CLKSRC_INTERNAL then sis3300_get_clk_bits freq
             else if src =? SIS33_CLKSRC_EXTERNAL then SIS3300_CLKSRC_EXT
             else SIS3300_CLKSRC_EXT in
  Z.shiftl val ACQ_CLKSRC_SHIFT.

Definition acq_word (g : sis33_cfg) : Z :=
  let sel (b : Z) (en di : Z) := if truthy b then en else di in
  Z.lor (Z.lor (Z.lor (Z.lor (sis3300_acq_clk (clksrc g) (clkfreq g))
    (sel (start_auto g) ACQ_EN_AUTOST ACQ_DI_AUTOST))
    (sel (trigger_ext_en g) ACQ_EN_FPANEL ACQ_DI_FPANEL))
    (sel (start_delay g) ACQ_EN_STARTD ACQ_DI_STARTD))
    (sel (stop_delay g) ACQ_EN_STOPD ACQ_DI_STOPD).

Definition sis3300_conf_acq (c : card33) (g : sis33_cfg) : Z * card33 :=
  let c := sis3300_writew SIS3300_ACQ ACQ_CL_CLKSRC c in
  let c := sis3300_writew SIS3300_ACQ (acq_word g) c in
  let c := sis3300_writew SIS3300_EXT_START_DELAY (u32 (start_delay g)) c in
  let c := sis3300_writew SIS3300_EXT_STOP_DELAY (u32 (stop_delay g)) c in
  (0, sis3300_writew SIS3300_TSTAMP_PREDIV (u32 (ev_tstamp_divider g)) c).

Definition sis3300_get_ev_len_bits (c : card33) (length : Z) : Z :=
  if 0x0308 <=? sis3300_rev c then bits_of sis3300_08_ev_lengths sis3300_08_ev_length_bits length (Z.lor EV_CONF_EV_LEN_MAP 2)
  else bits_of sis3300_ev_lengths sis3300_ev_length_bits length 3.

Definition sis3300_conf_ev (c : card33) (d : sis33_acq_desc) : Z * card33 :=
  let c := sis3300_writew SIS3300_ACQ (if d_nr_events d =? 1 then ACQ_DI_MEV else ACQ_EN_MEV) c in
  let c := upd_priv (set_req_events (s32 (d_nr_events d))) c in
  let val := if truthy (stop_auto (cfg c)) then 0 else EV_CONF_EN_WRAP_MODE in
  (0, sis3300_writew (SIS3300_GALL EV_CONF) (Z.lor val (sis3300_get_ev_len_bits c (d_ev_length d))) c).

(** ** The event directory *)

Definition sis3300_process_raw_event (nr_samp raw event_nr : Z) : sis33_event :=
  let next_sample := u32 (Z.land raw EV_DIR_ADDR_MASK - event_nr * nr_samp) in
  if truthy (Z.land raw EV_DIR_WRAP) then Event (s32 nr_samp) (s32 next_sample) else Event (s32 next_sample) 0.

(** rc and the events. *)
Definition sis3300_read_events_dir (i n : Z) (c : card33) : Z * list sis33_event * card33 :=
  let s := private_data c in
  let '(rc, raw, b) := sis33_dma_read32be_blt card dma_rc junk kbuf (u32 (vme_base s + EV_DIR i)) n (bus s) in
  let c := set_priv (set_bus b s) c in
  if truthy rc then (rc, [], c)
  else (0, imap (fun k w => sis3300_process_raw_event (nr_samp_per_ev (get_segment i c)) w (Z.of_nat k)) raw, c).

Definition sis3300_evcache_free (i : Z) (c : card33) : card33 := upd_segment i (set_events CNull) c.

(** [kcalloc()] fails on a size that does not fit in a word. *)
Definition kcalloc_ok (n size : Z) (site : nat) (c : card33) : bool :=
  (n * size <? 2 ^ 32) && mem_ok (now (bus (private_data c))) site.
Definition kmalloc_ok (site : nat) (c : card33) : bool := mem_ok (now (bus (private_data c))) site.

Definition sis3300_evcache_get (i : Z) (c : card33) : (Z + list sis33_event) * card33 :=
  let s := get_segment i c in
  match events s with
  | CPtr l => (inr l, c)
  | _ =>
      if negb (kcalloc_ok (nr_events s) 8 0 c) then (inl (- ENOMEM), c) else
      if negb (kmalloc_ok 1 c) then (inl (- ENOMEM), sis3300_evcache_free i c) else
      let '(err, evs, c) := sis3300_read_events_dir i (nr_events s) c in
      if truthy err then (inl err, sis3300_evcache_free i c) else (inr evs, upd_segment i (set_events (CPtr evs)) c)
  end.

(** ** Samples *)

Definition sis3300_fill_bouncebuf (i chan size : Z) (c : card33) : Z * list Z * card33 :=
  let s := private_data c in
  let '(rc, l, b) := sis33_dma_read_mblt card dma_rc junk kbuf (u32 (vme_base s + MEMBANK i chan)) size (bus s) in
  (rc, l, set_priv (set_bus b s) c).

Definition cache_at (i g : Z) (s : sis3300) : option (list Z) :=
  match sampcache s !! Z.to_nat i with Some l => match l !! Z.to_nat g with Some x => x | None => None end | None => None end.
Definition set_cache (i g : Z) (v : option (list Z)) (s : sis3300) : sis3300 :=
  set_sampcache (alter (fun l => <[Z.to_nat g := v]> l) (Z.to_nat i) (sampcache s)) s.

Definition sis3300_sampcache_free (i : Z) (s : sis3300) : sis3300 :=
  set_sampcache (<[Z.to_nat i := replicate SIS3300_NR_ADCGROUPS None]> (sampcache s)) s.

Definition sis3300_sampcache_get (i chan : Z) (c : card33) : (Z + list Z) * card33 :=
  match cache_at i (chan / 2) (private_data c) with
  | Some l => (inr l, c)
  | None =>
      let s := get_segment i c in
      let n := u32 (nr_events s * nr_samp_per_ev s) in
      let bouncesize := s32 (n * 4) in
      if negb (kmalloc_ok 2 c) then (inl (- ENOMEM), c) else
      let '(err, l, c) := sis3300_fill_bouncebuf i chan bouncesize c in
      if truthy err then (inl err, c) else
      let words := be_words (Z.to_nat n) l in
      (inr words, upd_priv (set_cache i (chan / 2) (Some words)) c)
  end.

(** ** Time stamps *)

Definition sis3300_pt_cache_free (i : Z) (c : card33) : card33 := upd_segment i (set_prevticks CNull) c.

Definition sis3300_fill_pt_cache (i n : Z) (c : card33) : Z * list Z * card33 :=
  let s := private_data c in
  let '(rc, l, b) := sis33_dma_read32be_blt card dma_rc junk kbuf (u32 (vme_base s + SIS3300_EV_TSTAMP i)) n (bus s) in
  let c := set_priv (set_bus b s) c in
  if truthy rc then (rc, [], c) else (0, (fun w => Z.land w SIS3300_EV_TSTAMP_MASK) <$> l, c).

Definition sis3300_pt_cache_get (i : Z) (c : card33) : (Z + list Z) * card33 :=
  let s := get_segment i c in
  match prevticks s with
  | CPtr l => (inr l, c)
  | _ =>
      if negb (kmalloc_ok 3 c) then (inl (- ENOMEM), c) else
      let '(err, l, c) := sis3300_fill_pt_cache i (nr_events s) c in
      if truthy err then (inl err, c) else (inr l, upd_segment i (set_prevticks (CPtr l)) c)
  end.

(** ** Transfers *)

Definition adc_sample (chan w : Z) : Z :=
  if truthy (Z.land chan 1) then u16 (Z.shiftr (Z.land w ADC1_DATA_MASK) ADC1_DATA_SHIFT)
  else u16 (Z.shiftr (Z.land w ADC0_DATA_MASK) ADC0_DATA_SHIFT).

(** [left] samples to user memory at [dst]; [None]: past the end of the buffer. *)
Fixpoint put_samples (chan : Z) (raw : list Z) (left dst : Z) (u : umem) : option (Z * umem) :=
  if left <=? 0 then Some (0, u) else
  match raw with
  | [] => None
  | w :: raw =>
      if negb (put_ok dst) then Some (- EFAULT, u) else
      put_samples chan raw (left - 1) (dst + 2) (copy_to_user dst (to_mem cpu_big 2 (adc_sample chan w)) u)
  end.

Definition sis3300_read_event (a : sis33_acq) (chan : Z) (raw : list Z) (ticks : Z) (e : sis33_event) (u : umem)
    : option (Z * sis33_acq * umem) :=
  let a := Acq33 (acq_data a) (acq_size a) (u32 (ev_nr_samples e)) ticks (u32 (ev_first_samp e)) 0 in
  '(ret, u) ← put_samples chan raw (acq_nr_samples a) (acq_data a) u;
  Some (ret, a, u).

(** Events [k], [k + 1] ... of the [n] asked for: the value, the descriptors. *)
Fixpoint fetch_events (chan nr_samp : Z) (n k : nat) (buf : list Z) (pt : list Z) (evs : list sis33_event)
    (acqs : list sis33_acq) (u : umem) : option (Z * list sis33_acq * umem) :=
  match n with
  | O => Some (Z.of_nat k, acqs, u)
  | S n =>
      match acqs, pt !! k, evs !! k with
      | a :: acqs, Some ticks, Some e =>
          '(ret, a, u) ← sis3300_read_event a chan (drop (k * Z.to_nat nr_samp) buf) ticks e u;
          if truthy ret then Some (ret, a :: acqs, u) else
          '(ret, acqs, u) ← fetch_events chan nr_samp n (S k) buf pt evs acqs u;
          Some (ret, a :: acqs, u)
      | _, _, _ => None
      end
  end.

Definition sis3300_fetch (c : card33) (i chan : Z) (acqs : list sis33_acq) (n : Z) (u : umem)
    : option (Z * list sis33_acq * umem * card33) :=
  match sis3300_evcache_get i c with
  | (inl err, c) => Some (err, acqs, u, c)
  | (inr evs, c) =>
      match sis3300_sampcache_get i chan c with
      | (inl err, c) => Some (err, acqs, u, c)
      | (inr buf, c) =>
          match sis3300_pt_cache_get i c with
          | (inl err, c) => Some (err, acqs, u, c)
          | (inr pt, c) =>
              '(ret, acqs, u) ← fetch_events chan (nr_samp_per_ev (get_segment i c)) (Z.to_nat n) 0 buf pt evs acqs u;
              Some (ret, acqs, u, c)
          end
      end
  end.

(** ** Acquisition *)

Definition sis3300_trigger (c : card33) (t : Z) : Z * card33 :=
  if t =? SIS33_TRIGGER_START then (0, sis3300_writew SIS3300_START_SAMP 1 c)
  else if t =? SIS33_TRIGGER_STOP then (0, sis3300_writew SIS3300_STOP_SAMP 1 c)
  else (- EINVAL, c).

Definition sis3300_acq_start (c : card33) : card33 :=
  let i := curr_segment c in
  let c := sis3300_evcache_free i c in
  let c := upd_priv (sis3300_sampcache_free i) c in
  let c := sis3300_pt_cache_free i c in
  let c := upd_priv (set_completion false) c in
  let c := sis3300_writew SIS3300_ACQ (u32 (Z.shiftl 1 i)) c in
  if truthy (start_auto (cfg c)) then sis3300_writew SIS3300_START_SAMP 1 c else c.

Definition sis3300_finish_acquisition (c : card33) : card33 :=
  let i := curr_segment c in
  let c := upd_segment i (set_endtime (clock (now (bus (private_data c))))) c in
  let c := sis3300_writew SIS3300_ACQ (Z.lor ACQ_DISARM1 ACQ_DISARM2) c in
  let c := upd_segment i (set_acquiring false) c in
  upd_priv (set_completion true) c.

(** [wait < 0], 0 or more, by what ended the wait. *)
Definition sis3300_acq_wait (w : wake) : Z :=
  match w with Completed => 0 | Signalled => - EINTR | TimedOut => - ETIME end.

(** [segment->nr_events] is unsigned: the test for a negative number is lost. *)
Definition sis3300_acq_cancel (c : card33) : Z * card33 :=
  let i := curr_segment c in
  if acquiring (get_segment i c) then
    let '(curr_event, c) := sis3300_readw (EV_COUNTER i) c in
    let '(reg, c) := sis3300_readw SIS3300_ACQ c in
    let c := sis3300_finish_acquisition c in
    let n := u32 (if truthy (Z.land reg ACQ_BUSY) then s32 curr_event - 1 else s32 curr_event) in
    (0, upd_segment i (set_nr_events (if n <? 0 then 0 else n)) c)
  else (0, c).

Definition sis3300_config_init (c : card33) : card33 :=
  set_channels ((fun ch => Channel 0 (offset ch)) <$> channels c)
    (set_cfg33 (Cfg 0 0 1 1 1 SIS33_CLKSRC_INTERNAL 100000000 1) c).

Definition sis3300_ops : sis33_card_ops sis3300 :=
  CardOps (Some sis3300_conf_acq) (Some sis3300_conf_ev) None (Some sis3300_fetch) (Some sis3300_trigger)
    (Some sis3300_acq_start) (Some sis3300_acq_wait) (Some sis3300_acq_cancel) (Some sis3300_config_init) completion.

(** ** Interrupts *)

(** An event has been acquired. *)
Definition irq_ev (curr_event : Z) (c : card33) : card33 :=
  let i := curr_segment c in
  let c := sis3300_writew SIS3300_INTCTL (Z.lor INTCTL_DI_EV INTCTL_CL_EV) c in
  let '(reg, c) := sis3300_readw SIS3300_ACQ c in
  let req := req_events (private_data c) in
  let event_threshold := if truthy (Z.land reg ACQ_BUSY) then s32 (req + 1) else req in
  let c := if (event_threshold <=? s32 curr_event) && acquiring (get_segment i c)
           then sis3300_finish_acquisition (upd_segment i (set_nr_events (u32 req)) c) else c in
  sis3300_writew SIS3300_INTCTL INTCTL_EN_EV c.

(** The last event, or the end of the bank. *)
Definition irq_lev (curr_event : Z) (c : card33) : card33 :=
  let i := curr_segment c in
  let c := sis3300_writew SIS3300_INTCTL (Z.lor INTCTL_DI_LEV INTCTL_CL_LEV) c in
  let c := if acquiring (get_segment i c)
           then sis3300_finish_acquisition (upd_segment i (set_nr_events curr_event) c) else c in
  sis3300_writew SIS3300_INTCTL INTCTL_EN_LEV c.

Definition sis3300_do_irq (status : Z) (c : card33) : card33 :=
  let '(curr_event, c) := sis3300_readw (EV_COUNTER (curr_segment c)) c in
  let c := if truthy (Z.land status INTCTL_ST_EV) then irq_ev curr_event c else c in
  if truthy (Z.land status INTCTL_ST_LEV) then irq_lev curr_event c else c.

(** [rounds] rounds of the loop, or fewer. *)
Fixpoint sis3300_irq_work (rounds : nat) (c : card33) : card33 :=
  match rounds with
  | O => c
  | S rounds =>
      let '(reg, c) := sis3300_readw SIS3300_INTCTL c in
      let status := Z.land reg INTCTL_ST_MASK in
      if truthy status then sis3300_irq_work rounds (sis3300_do_irq status c) else c
  end.

(** ** Installation *)

(** [irq_rc]: the answer of [vme_request_irq()]. *)
Definition sis3300_request_irq (irq_rc vector level : Z) (c : card33) : Z * card33 :=
  let vector := Z.land vector INTCONF_VECTOR_MASK in
  let level := Z.land level INTCONF_LEVEL_MASK in
  if truthy irq_rc then (irq_rc, c) else
  let reg := Z.lor (Z.lor (Z.lor INTCONF_ENABLE INTCONF_ROAK) (Z.shiftl level INTCONF_LEVEL_SHIFT)) vector in
  let c := sis3300_writew SIS3300_INTCONF reg c in
  let c := sis3300_writew SIS3300_INTCTL INTCTL_EN_EV c in
  (0, sis3300_writew SIS3300_INTCTL INTCTL_EN_LEV c).

Definition set_ids (i major minor : Z) (c : card33) : card33 :=
  Card (number c) (cfg c) i major minor (max_nr_events c) (max_delay c) (ev_tstamp_divider_max c) (n_channels c)
    (channels c) (ev_lengths c) (freqs c) (n_segments_max c) (n_segments_min c) (n_segments c) (segments c)
    (curr_segment c) (private_data c).

Definition sis3300_device_init (irq_rc vector level : Z) (c : card33) : Z * card33 :=
  let '(reg, c) := sis3300_readw SIS3300_FW c in
  let c := set_ids (Z.shiftr (Z.land reg FW_MODID) FW_MODID_SHIFT) (Z.shiftr (Z.land reg FW_MAJOR) FW_MAJOR_SHIFT)
             (Z.land reg FW_MINOR) c in
  if negb (id c =? 0x3300) then (- ENODEV, c) else
  let c := sis3300_writew SIS3300_RESET 1 c in
  let c := upd_priv (set_completion false) c in
  sis3300_request_irq irq_rc vector level c.

Definition sis3300_free_irq (c : card33) : card33 :=
  let '(reg, c) := sis3300_readw SIS3300_INTCONF c in
  let c := sis3300_writew SIS3300_INTCONF (Z.land reg (not32 INTCONF_ENABLE)) c in
  sis3300_writew SIS3300_INTCTL 0 c.

(** The module-specific part of the card, as [sis3300_probe()] fills it in. *)
Definition sis3300_card (num base : Z) (b : vbus) : card33 :=
  Card num (Cfg 0 0 0 0 0 0 0 0) 0 0 0 0 0 0 0 [] [] [] 0 0 0 [] 0
    (S3300 base 0 false (replicate 2 (replicate SIS3300_NR_ADCGROUPS None)) b).

Definition sis3300_describe (c : card33) : card33 :=
  Card (number c) (cfg c) (id c) (major_rev c) (minor_rev c) SIS3300_MAX_NR_EVENTS SIS3300_MAX_DELAY
    SIS3300_TSTAMP_PREDIV_MASK SIS3300_NR_CHANNELS (replicate 8 (Channel 0 0))
    (if 0x0308 <=? sis3300_rev c then sis3300_08_ev_lengths else sis3300_ev_lengths) sis3300_freqs
    SIS3300_MAX_NR_SEGMENTS SIS3300_MAX_NR_SEGMENTS 2 (replicate 2 segment_zero) 0 (private_data c).
End Sis3300.
