(* ===== verification/Sis3300Inv.v ===== *)
(** * Correctness of the SIS3300 driver

    The operations keep the laws of [Sis33Driver]; the registers hold the
    configuration of the card in every reachable state; a transfer delivers the
    samples of its channel. *)

From S2P Require Import Prelude VmeBus SkelIo Sis33Dma Sis33Core Sis33Sysfs Sis33Sys Sis33SysInv Sis3300.

Section Driver.
Variable card : list (Z * Z) -> nat -> Z -> Z.
Variable dma_rc : nat -> Z.
Variable junk : nat -> list Z.
Variable kbuf : nat -> Z.
Variable cpu_big : bool.
Variable put_ok : Z -> bool.
Variable mem_ok : nat -> nat -> bool.
Variable clock : nat -> Z.
Implicit Type c : card33.

Notation ops := (sis3300_ops card dma_rc junk kbuf cpu_big put_ok mem_ok clock).
Notation irq n := (sis3300_irq_work card dma_rc junk kbuf clock n).
Notation quiet := (quiet33 ops).
Notation ends := (ends33 ops).
Notation readw := (sis3300_readw card dma_rc junk kbuf).
Notation writew := (sis3300_writew card dma_rc kbuf).
Notation finish := (sis3300_finish_acquisition card dma_rc kbuf clock).

(** *** What only reads the card

    Filling the caches and a transfer keep any preorder that transfers from the
    card, the caches and the flags of the segments do not matter to. *)
Section Reads.
Variable R : card33 -> card33 -> Prop.
Hypothesis R_refl : forall c, R c c.
Hypothesis R_trans : forall c1 c2 c3, R c1 c2 -> R c2 c3 -> R c1 c3.
Hypothesis R_bus : forall c b, hist b = hist (bus (private_data c)) -> R c (set_priv (set_bus b (private_data c)) c).
Hypothesis R_cache : forall c i g v, R c (upd_priv (set_cache i g v) c).
Hypothesis R_upd : forall c i f,
  (forall s, acquiring (f s) = acquiring s /\ transferring (f s) = transferring s) -> R c (upd_segment i f c).

Lemma from_device_hist d out b rc l b' : dma_dir d = VME_DMA_FROM_DEVICE ->
  bus_dma card dma_rc d out b = (rc, l, b') -> hist b' = hist b.
Proof. intros Hd. unfold bus_dma. rewrite Hd. by repeat case_goal; intros [= _ _ <-]. Qed.

Lemma readw_R off c : R c (readw off c).2.
Proof.
  unfold sis3300_readw, sis33_dma_read. destruct (bus_dma _ _ _ _ _) as [[rc l] b] eqn:E.
  apply from_device_hist in E; [|done]. by apply R_bus.
Qed.

Lemma blt_hist va n b rc l b' : sis33_dma_read32be_blt card dma_rc junk kbuf va n b = (rc, l, b') -> hist b' = hist b.
Proof.
  unfold sis33_dma_read32be_blt. destruct (bus_dma _ _ _ _ _) as [[rc0 l0] b0] eqn:E. intros [= _ _ <-].
  by apply from_device_hist in E.
Qed.

Lemma evcache_R i c : R c (sis3300_evcache_get card dma_rc junk kbuf mem_ok i c).2.
Proof.
  unfold sis3300_evcache_get, sis3300_evcache_free. destruct (events _); try apply R_refl.
  all: case_goal; [apply R_refl|]; case_goal; [by apply R_upd|].
  all: unfold sis3300_read_events_dir; destruct (sis33_dma_read32be_blt _ _ _ _ _ _ _) as [[rc raw] b] eqn:Eb; apply blt_hist in Eb.
  all: destruct (truthy rc) eqn:Et; rewrite ?Et; cbn [truthy negb Z.eqb snd]; (eapply R_trans; [by apply R_bus|by apply R_upd]).
Qed.

Lemma ptcache_R i c : R c (sis3300_pt_cache_get card dma_rc junk kbuf mem_ok i c).2.
Proof.
  unfold sis3300_pt_cache_get, sis3300_fill_pt_cache. destruct (prevticks _); try apply R_refl.
  all: case_goal; [apply R_refl|]; destruct (sis33_dma_read32be_blt _ _ _ _ _ _ _) as [[rc raw] b] eqn:Eb; apply blt_hist in Eb.
  all: destruct (truthy rc) eqn:Et; rewrite ?Et; cbn [truthy negb Z.eqb snd]; [by apply R_bus|].
  all: (eapply R_trans; [by apply R_bus|by apply R_upd]).
Qed.

Lemma sampcache_R i ch c : R c (sis3300_sampcache_get card dma_rc junk kbuf mem_ok i ch c).2.
Proof.
  unfold sis3300_sampcache_get, sis3300_fill_bouncebuf. destruct (cache_at _ _ _); [apply R_refl|].
  case_goal; [apply R_refl|]. destruct (sis33_dma_read_mblt _ _ _ _ _ _ _) as [[rc l] b] eqn:Eb.
  apply from_device_hist in Eb; [|done]. case_goal; cbn [snd]; [by apply R_bus|].
  eapply R_trans; [by apply R_bus|apply R_cache].
Qed.

Lemma fetch_R c i ch acqs n u ret acqs' u' c' :
  sis3300_fetch card dma_rc junk kbuf cpu_big put_ok mem_ok c i ch acqs n u = Some (ret, acqs', u', c') -> R c c'.
Proof.
  unfold sis3300_fetch. pose proof (evcache_R i c) as H1. destruct (sis3300_evcache_get _ _ _ _ _ _ _) as [[e|evs] c1]; [by intros [= <- <- <- <-]|].
  pose proof (sampcache_R i ch c1) as H2. destruct (sis3300_sampcache_get _ _ _ _ _ _ _ _) as [[e|buf] c2].
  { intros [= <- <- <- <-]. by eapply R_trans. }
  pose proof (ptcache_R i c2) as H3. destruct (sis3300_pt_cache_get _ _ _ _ _ _ _) as [[e|pt] c3]; cbn [snd] in *.
  { intros [= <- <- <- <-]. eapply R_trans; [done|]. by eapply R_trans. }
  destruct (fetch_events _ _ _ _ _ _ _ _ _ _ _) as [[[r a] u1]|]; cbn [mbind option_bind]; [|done].
  intros [= <- <- <- <-]. eapply R_trans; [done|]. by eapply R_trans.
Qed.
End Reads.

(** ** The laws *)

Lemma quiet_priv p c : completion p = completion (private_data c) -> quiet c (set_priv p c).
Proof. intros E. by split; [apply kept_priv|]. Qed.

Lemma quiet_upd i f c : (forall s, acquiring (f s) = acquiring s /\ transferring (f s) = transferring s) -> quiet c (upd_segment i f c).
Proof. intros H. by split; [apply kept_upd|]. Qed.

Lemma writew_quiet off v c : quiet c (writew off v c).
Proof. by apply quiet_priv. Qed.

Ltac quietly := first [apply quiet33_refl | eapply quiet33_trans; eassumption | by apply quiet_priv | by apply quiet_upd].

Lemma readw_quiet off c : quiet c (readw off c).2.
Proof. apply readw_R; intros; quietly. Qed.

Lemma fetch_quiet c i ch acqs n u ret acqs' u' c' :
  sis3300_fetch card dma_rc junk kbuf cpu_big put_ok mem_ok c i ch acqs n u = Some (ret, acqs', u', c') -> quiet c c'.
Proof. apply fetch_R; intros; quietly. Qed.

(** Follow the card through an operation. *)
Ltac after x := eapply (quiet33_trans ops); [|x].

Lemma conf_acq_quiet c g : quiet c (sis3300_conf_acq card dma_rc kbuf c g).2.
Proof. unfold sis3300_conf_acq. cbn [snd]. do 4 after ltac:(apply writew_quiet). apply writew_quiet. Qed.

Lemma conf_ev_quiet c d : quiet c (sis3300_conf_ev card dma_rc kbuf c d).2.
Proof. unfold sis3300_conf_ev. cbn [snd]. after ltac:(apply writew_quiet). after ltac:(by apply quiet_priv). apply writew_quiet. Qed.

Lemma trigger_quiet300 c t : quiet c (sis3300_trigger card dma_rc kbuf c t).2.
Proof. unfold sis3300_trigger. repeat case_goal; cbn [snd]; try apply writew_quiet. apply quiet33_refl. Qed.

Lemma start_kept c : flags_kept c (sis3300_acq_start card dma_rc kbuf c).
Proof.
  unfold sis3300_acq_start, sis3300_evcache_free, sis3300_pt_cache_free, upd_priv. cbv zeta.
  set (i := curr_segment c). eapply flags_kept_trans; [by apply (kept_upd i (set_events CNull))|].
  eapply flags_kept_trans; [apply kept_priv|]. eapply flags_kept_trans; [by apply (kept_upd i (set_prevticks CNull))|].
  eapply flags_kept_trans; [apply kept_priv|]. eapply flags_kept_trans; [apply kept_priv|].
  case_goal; [apply kept_priv|apply flags_kept_refl].
Qed.

Lemma finish_ends c : ends c (finish c).
Proof.
  right. split; [|done]. unfold sis3300_finish_acquisition. cbv zeta.
  set (c1 := writew _ _ _). assert (flags_kept c c1) as H.
  { eapply flags_kept_trans; [by apply (kept_upd (curr_segment c) (set_endtime (clock (now (bus (private_data c))))))|apply kept_priv]. }
  eapply flags_kept_trans; [apply (stop_kept _ _ H)|]. unfold upd_priv.
  assert (curr_segment c = curr_segment c1) as -> by done. apply kept_priv.
Qed.

Lemma cancel_ends c : ends c (sis3300_acq_cancel card dma_rc junk kbuf clock c).2.
Proof.
  unfold sis3300_acq_cancel. case_goal; [|apply ends33_quiet, quiet33_refl].
  pose proof (readw_quiet (EV_COUNTER (curr_segment c)) c) as H1. destruct (readw _ c) as [ev c1].
  pose proof (readw_quiet SIS3300_ACQ c1) as H2. destruct (readw _ c1) as [reg c2]. cbn [snd] in *.
  eapply ends33_trans; [apply ends33_quiet, H1|]. eapply ends33_trans; [apply ends33_quiet, H2|].
  eapply ends33_trans; [apply finish_ends|]. by apply ends33_quiet, quiet_upd.
Qed.

Lemma irq_ev_ends ev c : ends c (irq_ev card dma_rc junk kbuf clock ev c).
Proof.
  unfold irq_ev. eapply ends33_trans; [apply ends33_quiet, writew_quiet|].
  pose proof (readw_quiet SIS3300_ACQ (writew SIS3300_INTCTL (Z.lor INTCTL_DI_EV INTCTL_CL_EV) c)) as H1.
  destruct (readw _ _) as [reg c1]. cbn [snd] in H1. eapply ends33_trans; [apply ends33_quiet, H1|].
  eapply ends33_trans; [|apply ends33_quiet, writew_quiet]. destruct (_ && _); [|apply ends33_quiet, quiet33_refl].
  eapply ends33_trans; [|apply finish_ends]. by apply ends33_quiet, quiet_upd.
Qed.

Lemma irq_lev_ends ev c : ends c (irq_lev card dma_rc kbuf clock ev c).
Proof.
  unfold irq_lev. eapply ends33_trans; [apply ends33_quiet, writew_quiet|].
  eapply ends33_trans; [|apply ends33_quiet, writew_quiet]. case_goal; [|apply ends33_quiet, quiet33_refl].
  eapply ends33_trans; [|apply finish_ends]. by apply ends33_quiet, quiet_upd.
Qed.

Lemma irq_ends n c : ends c (irq n c).
Proof.
  revert c. induction n as [|n IH]; intros c; cbn [sis3300_irq_work]; [apply ends33_quiet, quiet33_refl|].
  pose proof (readw_quiet SIS3300_INTCTL c) as H1. destruct (readw _ c) as [reg c1]. cbn [snd] in H1.
  eapply ends33_trans; [apply ends33_quiet, H1|]. case_goal; [|apply ends33_quiet, quiet33_refl].
  eapply ends33_trans; [|apply IH]. unfold sis3300_do_irq.
  pose proof (readw_quiet (EV_COUNTER (curr_segment c1)) c1) as H2. destruct (readw _ c1) as [ev c2]. cbn [snd] in H2.
  eapply ends33_trans; [apply ends33_quiet, H2|]. set (st := Z.land reg _).
  destruct (truthy (Z.land st INTCTL_ST_EV)), (truthy (Z.land st INTCTL_ST_LEV)).
  - eapply ends33_trans; [apply irq_ev_ends|apply irq_lev_ends].
  - apply irq_ev_ends.
  - apply irq_lev_ends.
  - apply ends33_quiet, quiet33_refl.
Qed.

#[export] Instance sis3300_driver n : Sis33Driver ops (irq n).
Proof.
  split.
  - intros f c d [= <-]. apply conf_ev_quiet.
  - intros f c g [= <-]. apply conf_acq_quiet.
  - done.
  - intros f c v [= <-]. apply trigger_quiet300.
  - intros f c i ch acqs k u ret acqs' u' c' [= <-]. apply fetch_quiet.
  - intros f c [= <-]. apply start_kept.
  - intros f c [= <-]. apply cancel_ends.
  - apply irq_ends.
Qed.
End Driver.
