(* ===== verification/Sis3300Cfg.v ===== *)
(** * The configuration of a SIS3300 card

    The acquisition register sets bits with its lower half and clears them with
    its upper half ([acq_reg]); the other registers keep what is written.  In
    every state the card reaches they say what the driver believes. *)

From S2P Require Import Prelude VmeBus SkelIo Sis33Dma Sis33Core Sis33Sysfs Sis33Sys Sis33SysInv Sis3300 Sis3300Inv.

(** ** The registers, from the words written *)

Definition acq_reg (base : Z) (h : list (Z * Z)) : Z :=
  foldl (fun r w => if w.1 =? base + SIS3300_ACQ then jk r w.2 else r) 0 h.

Lemma acq_reg_snoc base h w :
  acq_reg base (h ++ [w]) = if w.1 =? base + SIS3300_ACQ then jk (acq_reg base h) w.2 else acq_reg base h.
Proof. unfold acq_reg. by rewrite foldl_snoc. Qed.

(** The registers hold the configuration [g]. *)
Record holds (g : sis33_cfg) (base : Z) (h : list (Z * Z)) : Prop := {
  ho_clk i : 12 <= i < 15 -> Z.testbit (acq_reg base h) i = Z.testbit (sis3300_acq_clk (clksrc g) (clkfreq g)) i;
  ho_start : Z.testbit (acq_reg base h) 4 = truthy (start_auto g);
  ho_trig : Z.testbit (acq_reg base h) 8 = truthy (trigger_ext_en g);
  ho_startd : Z.testbit (acq_reg base h) 6 = truthy (start_delay g);
  ho_stopd : Z.testbit (acq_reg base h) 7 = truthy (stop_delay g);
  ho_start_delay : last_write (base + SIS3300_EXT_START_DELAY) h = u32 (start_delay g);
  ho_stop_delay : last_write (base + SIS3300_EXT_STOP_DELAY) h = u32 (stop_delay g);
  ho_prediv : last_write (base + SIS3300_TSTAMP_PREDIV) h = u32 (ev_tstamp_divider g);
}.

(** ** Writing the configuration *)

Lemma bits_of_range bits default n vals v : 0 <= default < n -> Forall (fun b => 0 <= b < n) bits ->
  0 <= bits_of vals bits v default < n.
Proof.
  intros Hd. revert vals. induction bits as [|b bits IH]; intros [|x vals] H; cbn; try done.
  apply Forall_cons in H as [Hb H]. case_goal; [done|by apply IH].
Qed.

Lemma acq_clk_range src freq : exists k, 0 <= k < 7 /\ sis3300_acq_clk src freq = Z.shiftl k 12.
Proof.
  unfold sis3300_acq_clk, ACQ_CLKSRC_SHIFT. eexists. split; [|reflexivity].
  repeat case_goal; try (unfold SIS3300_CLKSRC_EXT; lia).
  pose proof (bits_of_range sis3300_freq_bits 0 6 sis3300_freqs freq). unfold sis3300_get_clk_bits.
  destruct H; [lia|repeat constructor; lia|lia].
Qed.

(** The word written to the acquisition register, after the clock bits were cleared. *)
Lemma acq_word_bits g r :
  let r' := jk (jk r ACQ_CL_CLKSRC) (acq_word g) in
  (forall i, 12 <= i < 15 -> Z.testbit r' i = Z.testbit (sis3300_acq_clk (clksrc g) (clkfreq g)) i) /\
  Z.testbit r' 4 = truthy (start_auto g) /\ Z.testbit r' 8 = truthy (trigger_ext_en g) /\
  Z.testbit r' 6 = truthy (start_delay g) /\ Z.testbit r' 7 = truthy (stop_delay g).
Proof.
  cbv zeta. unfold acq_word. destruct (acq_clk_range (clksrc g) (clkfreq g)) as (k & Hk & ->).
  assert (k = 0 \/ k = 1 \/ k = 2 \/ k = 3 \/ k = 4 \/ k = 5 \/ k = 6) as Hc by lia. clear Hk.
  split.
  - intros i Hi. assert (i = 12 \/ i = 13 \/ i = 14) as Hci by lia. clear Hi.
    rewrite !jk_bit by lia.
    destruct Hci as [->|[->| ->]]; destruct (Z.testbit r _); destruct Hc as [->|[->|[->|[->|[->|[->| ->]]]]]];
      destruct (truthy (start_auto g)), (truthy (trigger_ext_en g)), (truthy (start_delay g)), (truthy (stop_delay g)); reflexivity.
  - rewrite !jk_bit by lia.
    split_and!; destruct (Z.testbit r _); destruct Hc as [->|[->|[->|[->|[->|[->| ->]]]]]];
      destruct (truthy (start_auto g)), (truthy (trigger_ext_en g)), (truthy (start_delay g)), (truthy (stop_delay g)); reflexivity.
Qed.

Section Config.
Variable card : list (Z * Z) -> nat -> Z -> Z.
Variable dma_rc : nat -> Z.
Variable junk : nat -> list Z.
Variable kbuf : nat -> Z.
Variable cpu_big : bool.
Variable put_ok : Z -> bool.
Variable mem_ok : nat -> nat -> bool.
Variable clock : nat -> Z.
Hypothesis no_fault : forall n, dma_rc n = 0.
Hypothesis kbuf_ok : forall n, 0 <= kbuf n < 2 ^ 31.
Implicit Type c : card33.

Notation ops := (sis3300_ops card dma_rc junk kbuf cpu_big put_ok mem_ok clock).
Notation readw := (sis3300_readw card dma_rc junk kbuf).
Notation writew := (sis3300_writew card dma_rc kbuf).

Definition base33 c : Z := vme_base (private_data c).
Definition hist33 c : list (Z * Z) := hist (bus (private_data c)).

(** The registers of the card fit below 4 GiB. *)
Definition base_ok c : Prop := 0 <= base33 c /\ base33 c + 2 ^ 23 <= 2 ^ 32.

Lemma writew_hist off v c : base_ok c -> 0 <= off < 2 ^ 23 -> is_u32 v ->
  writew off v c = set_priv (set_bus (wrote (base33 c + off) v (bus (private_data c))) (private_data c)) c.
Proof.
  intros [Hb Hb'] Ho Hv. unfold sis3300_writew. rewrite dma_write_spec by done. unfold base33 in *.
  by rewrite u32_id by (unfold is_u32; lia).
Qed.

Definition cfg_agrees c : Prop := holds (cfg c) (base33 c) (hist33 c).

Lemma conf_acq_holds c g : base_ok c -> holds g (base33 c) (hist33 (sis3300_conf_acq card dma_rc kbuf c g).2).
Proof.
  intros Hb. unfold sis3300_conf_acq. cbn [snd].
  assert (is_u32 (acq_word g)) as Hw.
  { unfold acq_word. destruct (acq_clk_range (clksrc g) (clkfreq g)) as (k & Hk & ->).
    assert (k = 0 \/ k = 1 \/ k = 2 \/ k = 3 \/ k = 4 \/ k = 5 \/ k = 6) as Hc by lia.
    destruct Hc as [->|[->|[->|[->|[->|[->| ->]]]]]];
      destruct (truthy (start_auto g)), (truthy (trigger_ext_en g)), (truthy (start_delay g)), (truthy (stop_delay g)); by vm_compute. }
  rewrite !writew_hist; try done; try apply u32_range.
  unfold hist33, base33. cbn [private_data set_priv bus set_bus hist wrote vme_base].
  set (h := hist (bus (private_data c))). set (b := vme_base (private_data c)).
  unfold SIS3300_EXT_START_DELAY, SIS3300_EXT_STOP_DELAY, SIS3300_TSTAMP_PREDIV, SIS3300_ACQ.
  assert (forall x y : Z, x <> y -> (b + x =? b + y) = false) as Hne by (intros; apply Z.eqb_neq; lia).
  destruct (acq_word_bits g (acq_reg b h)) as (W1 & W2 & W3 & W4 & W5).
  split; rewrite ?acq_reg_snoc, ?last_write_snoc; cbn [fst snd]; unfold SIS3300_EXT_START_DELAY, SIS3300_EXT_STOP_DELAY, SIS3300_TSTAMP_PREDIV, SIS3300_ACQ;
    rewrite ?Z.eqb_refl, ?Hne by done; done.
Qed.

(** ** Everything else leaves those bits alone *)

(** A write that does not touch the configuration. *)
Definition CFG_BITS : Z := 0x71d071d0.
Definition harmless (b : Z) (w : Z * Z) : Prop :=
  w.1 <> b + SIS3300_EXT_START_DELAY /\ w.1 <> b + SIS3300_EXT_STOP_DELAY /\ w.1 <> b + SIS3300_TSTAMP_PREDIV /\
  (w.1 = b + SIS3300_ACQ -> Z.land w.2 CFG_BITS = 0).

Lemma land_zero_bit v m i : Z.land v m = 0 -> Z.testbit m i = true -> Z.testbit v i = false.
Proof.
  intros Hx Hi. assert (Z.testbit (Z.land v m) i = false) as H by (rewrite Hx; apply Z.bits_0).
  by rewrite Z.land_spec, Hi, andb_true_r in H.
Qed.

Lemma harmless_bit v r i : Z.land v CFG_BITS = 0 -> i ∈ [4; 6; 7; 8; 12; 13; 14] -> Z.testbit (jk r v) i = Z.testbit r i.
Proof.
  intros Hv Hi. assert (0 <= i < 16 /\ Z.testbit CFG_BITS i = true /\ Z.testbit CFG_BITS (i + 16) = true) as (H1 & H2 & H3).
  { repeat (apply elem_of_cons in Hi as [->|Hi]; [done|]). by apply elem_of_nil in Hi. }
  rewrite jk_bit by done. by rewrite (land_zero_bit v _ _ Hv H2), (land_zero_bit v _ _ Hv H3), orb_false_r, andb_true_r.
Qed.

Lemma holds_snoc g b h w : harmless b w -> holds g b h -> holds g b (h ++ [w]).
Proof.
  intros (N1 & N2 & N3 & Ha) [H1 H2 H3 H4 H5 H6 H7 H8].
  assert (forall i, i ∈ [4; 6; 7; 8; 12; 13; 14] -> Z.testbit (acq_reg b (h ++ [w])) i = Z.testbit (acq_reg b h) i) as Hbit.
  { intros i Hi. rewrite acq_reg_snoc. destruct (Z.eqb_spec w.1 (b + SIS3300_ACQ)) as [E|]; [|done].
    by apply harmless_bit; [apply Ha|]. }
  split; rewrite ?last_write_snoc, ?(proj2 (Z.eqb_neq _ _)) by done; try done.
  - intros i Hi. rewrite <- H1 by done. apply Hbit. assert (i = 12 \/ i = 13 \/ i = 14) as [->|[->| ->]] by lia; set_solver.
  - rewrite <- H2. apply Hbit. set_solver.
  - rewrite <- H3. apply Hbit. set_solver.
  - rewrite <- H4. apply Hbit. set_solver.
  - rewrite <- H5. apply Hbit. set_solver.
Qed.

Lemma holds_app g b h ws : Forall (harmless b) ws -> holds g b h -> holds g b (h ++ ws).
Proof.
  intros Hw. revert h. induction Hw as [|w ws Hh _ IH]; intros h H; [by rewrite app_nil_r|].
  replace (h ++ w :: ws) with ((h ++ [w]) ++ ws) by (by rewrite <- app_assoc). by apply IH, holds_snoc.
Qed.

(** What an operation that is not a change of configuration does. *)
Definition aside c c' : Prop :=
  cfg c' = cfg c /\ base33 c' = base33 c /\ length (segments c') = length (segments c) /\ curr_segment c' = curr_segment c /\
  exists ws, hist33 c' = hist33 c ++ ws /\ Forall (harmless (base33 c)) ws.

Lemma aside_refl c : aside c c.
Proof. split_and!; try done. exists []. by rewrite app_nil_r. Qed.

Lemma aside_trans c1 c2 c3 : aside c1 c2 -> aside c2 c3 -> aside c1 c3.
Proof.
  intros (A1 & A2 & A3 & A4 & ws1 & E1 & H1) (B1 & B2 & B3 & B4 & ws2 & E2 & H2). split_and!; try congruence.
  exists (ws1 ++ ws2). rewrite E2, E1, app_assoc. split; [done|]. apply Forall_app. split; [done|by rewrite <- A2].
Qed.

Lemma aside_agrees c c' : aside c c' -> cfg_agrees c -> cfg_agrees c'.
Proof. intros (E1 & E2 & _ & _ & ws & E3 & Hw) H. unfold cfg_agrees. rewrite E1, E2, E3. by apply holds_app. Qed.

Lemma aside_base c c' : aside c c' -> base_ok c -> base_ok c'.
Proof. intros (_ & E & _). unfold base_ok. by rewrite E. Qed.

Lemma aside_priv p c : vme_base p = base33 c -> hist (bus p) = hist33 c -> aside c (set_priv p c).
Proof. intros E1 E2. split_and!; try done. exists []. by rewrite app_nil_r. Qed.

Lemma aside_upd i f c : aside c (upd_segment i f c).
Proof.
  unfold aside. split_and!; try done.
  - unfold upd_segment. cbn [segments set_segments]. apply length_alter.
  - exists []. by rewrite app_nil_r.
Qed.

Ltac aside_prim :=
  first [apply aside_refl | eapply aside_trans; eassumption | by apply aside_priv | by apply aside_upd].

Lemma aside_readw off c : aside c (readw off c).2.
Proof. apply readw_R; intros; aside_prim. Qed.

Lemma aside_fetch c i ch acqs n u ret acqs' u' c' :
  sis3300_fetch card dma_rc junk kbuf cpu_big put_ok mem_ok c i ch acqs n u = Some (ret, acqs', u', c') -> aside c c'.
Proof. apply fetch_R; intros; aside_prim. Qed.

(** Where the driver may write, and what. *)
Definition write_ok (off v : Z) : Prop :=
  0 <= off < 2 ^ 23 /\ is_u32 v /\
  (off =? SIS3300_EXT_START_DELAY) || (off =? SIS3300_EXT_STOP_DELAY) || (off =? SIS3300_TSTAMP_PREDIV) = false /\
  (off =? SIS3300_ACQ) && negb (Z.land v CFG_BITS =? 0) = false.

Lemma aside_writew off v c : base_ok c -> write_ok off v -> aside c (writew off v c).
Proof.
  intros Hb (Ho & Hv & Hn & Ha). rewrite writew_hist by done. split_and!; try done.
  exists [(base33 c + off, v)]. split; [done|]. apply Forall_singleton. boolp. unfold harmless. cbn [fst snd].
  split_and!; lia.
Qed.

(** ** The operations *)

Lemma write_ok_other off v :
  0 <= off < 2 ^ 23 -> is_u32 v -> off <> SIS3300_EXT_START_DELAY -> off <> SIS3300_EXT_STOP_DELAY ->
  off <> SIS3300_TSTAMP_PREDIV -> off <> SIS3300_ACQ -> write_ok off v.
Proof. intros. split_and!; try lia; done. Qed.

(** A composition of steps, from the last one. *)
Ltac aside_last x := eapply aside_trans; [|x].
Ltac aside_write := apply aside_writew; [|by vm_compute].

Lemma aside_conf_ev c d : base_ok c -> aside c (sis3300_conf_ev card dma_rc kbuf c d).2.
Proof.
  intros Hb. unfold sis3300_conf_ev. cbn [snd]. set (c1 := writew SIS3300_ACQ _ c).
  assert (aside c c1) as H1 by (apply aside_writew; [done|by case_goal; vm_compute]).
  set (c2 := upd_priv _ c1). assert (aside c c2) as H2 by (eapply aside_trans; [exact H1|by apply aside_priv]).
  eapply aside_trans; [exact H2|]. apply aside_writew; [by apply (aside_base c)|]. apply write_ok_other; try done.
  set (bits := sis3300_get_ev_len_bits c2 _). assert (0 <= bits < 2 ^ 21) as Hr.
  { unfold bits, sis3300_get_ev_len_bits. case_goal.
    - apply bits_of_range; [by vm_compute|]. repeat constructor; by vm_compute.
    - apply bits_of_range; [by vm_compute|]. repeat constructor; by vm_compute. }
  case_goal; unfold is_u32; [rewrite Z.lor_0_l; lia|].
  split; [apply Z.lor_nonneg; unfold EV_CONF_EN_WRAP_MODE; lia|].
  apply (Z.le_lt_trans _ (EV_CONF_EN_WRAP_MODE + bits)); [|unfold EV_CONF_EN_WRAP_MODE; lia].
  rewrite <- Z.add_lor_land. pose proof (Z.land_nonneg EV_CONF_EN_WRAP_MODE bits). unfold EV_CONF_EN_WRAP_MODE in *. lia.
Qed.

Lemma aside_trigger c t : base_ok c -> aside c (sis3300_trigger card dma_rc kbuf c t).2.
Proof. intros Hb. unfold sis3300_trigger. repeat case_goal; cbn [snd]; try aside_write; try done. apply aside_refl. Qed.

Lemma aside_start c : base_ok c -> 0 <= curr_segment c < 2 -> aside c (sis3300_acq_start card dma_rc kbuf c).
Proof.
  intros Hb Hc. unfold sis3300_acq_start. cbv zeta. set (i := curr_segment c) in *.
  set (c1 := upd_priv (set_completion false) _). assert (aside c c1) as H1.
  { aside_last ltac:(by apply aside_priv). aside_last ltac:(apply aside_upd). aside_last ltac:(by apply aside_priv). apply aside_upd. }
  set (c2 := writew _ _ c1). assert (aside c c2) as H2.
  { eapply aside_trans; [exact H1|]. apply aside_writew; [by apply (aside_base c)|].
    assert (i = 0 \/ i = 1) as [-> | ->] by lia; by vm_compute. }
  case_goal; [|done]. eapply aside_trans; [exact H2|]. aside_write. by apply (aside_base c).
Qed.

Lemma aside_finish c : base_ok c -> aside c (sis3300_finish_acquisition card dma_rc kbuf clock c).
Proof.
  intros Hb. unfold sis3300_finish_acquisition. cbv zeta. aside_last ltac:(by apply aside_priv).
  aside_last ltac:(apply aside_upd). eapply aside_trans; [apply (aside_upd (curr_segment c) (set_endtime (clock (now (bus (private_data c))))))|].
  by aside_write.
Qed.

Lemma aside_cancel c : base_ok c -> aside c (sis3300_acq_cancel card dma_rc junk kbuf clock c).2.
Proof.
  intros Hb. unfold sis3300_acq_cancel. case_goal; [|apply aside_refl].
  pose proof (aside_readw (EV_COUNTER (curr_segment c)) c) as H1. destruct (readw _ c) as [ev c1].
  pose proof (aside_readw SIS3300_ACQ c1) as H2. destruct (readw _ c1) as [reg c2]. cbn [snd] in *.
  assert (aside c c2) as H3 by (by eapply aside_trans).
  eapply aside_trans; [exact H3|]. eapply aside_trans; [apply aside_finish; by apply (aside_base c)|]. apply aside_upd.
Qed.

Lemma aside_irq_ev ev c : base_ok c -> aside c (irq_ev card dma_rc junk kbuf clock ev c).
Proof.
  intros Hb. unfold irq_ev. set (c0 := writew _ _ c). assert (aside c c0) as H0 by (by aside_write).
  pose proof (aside_readw SIS3300_ACQ c0) as H1. destruct (readw _ c0) as [reg c1]. cbn [snd] in H1.
  assert (aside c c1) as H2 by (by eapply aside_trans). assert (base_ok c1) as Hb1 by (by apply (aside_base c)).
  set (c2 := if _ && _ then _ else c1). assert (aside c1 c2) as H3.
  { unfold c2. destruct (_ && _); [|apply aside_refl].
    eapply aside_trans; [apply (aside_upd (curr_segment c) (set_nr_events (u32 (req_events (private_data c1)))))|by apply aside_finish]. }
  eapply aside_trans; [exact H2|]. eapply aside_trans; [exact H3|]. aside_write. by apply (aside_base c1).
Qed.

Lemma aside_irq_lev ev c : base_ok c -> aside c (irq_lev card dma_rc kbuf clock ev c).
Proof.
  intros Hb. unfold irq_lev. set (c0 := writew _ _ c). assert (aside c c0) as H0 by (by aside_write).
  assert (base_ok c0) as Hb0 by (by apply (aside_base c)). set (c2 := if acquiring _ then _ else c0).
  assert (aside c0 c2) as H3.
  { unfold c2. case_goal; [|apply aside_refl].
    eapply aside_trans; [apply (aside_upd (curr_segment c) (set_nr_events ev))|by apply aside_finish]. }
  eapply aside_trans; [exact H0|]. eapply aside_trans; [exact H3|]. aside_write. by apply (aside_base c0).
Qed.

Lemma aside_irq n c : base_ok c -> aside c (sis3300_irq_work card dma_rc junk kbuf clock n c).
Proof.
  revert c. induction n as [|n IH]; intros c Hb; cbn [sis3300_irq_work]; [apply aside_refl|].
  pose proof (aside_readw SIS3300_INTCTL c) as H1. destruct (readw _ c) as [reg c1]. cbn [snd] in H1.
  case_goal; [|done]. eapply aside_trans; [exact H1|]. set (st := Z.land reg _).
  assert (aside c1 (sis3300_do_irq card dma_rc junk kbuf clock st c1)) as H2.
  { unfold sis3300_do_irq. pose proof (aside_readw (EV_COUNTER (curr_segment c1)) c1) as H2. destruct (readw _ c1) as [ev c2].
    cbn [snd] in H2. eapply aside_trans; [exact H2|]. assert (base_ok c2) as Hb2 by (by apply (aside_base c1); [|apply (aside_base c)]).
    pose proof (aside_irq_ev ev c2 Hb2) as H3. assert (base_ok (irq_ev card dma_rc junk kbuf clock ev c2)) as Hb3 by (by apply (aside_base c2)).
    destruct (truthy (Z.land st INTCTL_ST_EV)), (truthy (Z.land st INTCTL_ST_LEV)).
    - eapply aside_trans; [exact H3|by apply aside_irq_lev].
    - exact H3.
    - by apply aside_irq_lev.
    - apply aside_refl. }
  eapply aside_trans; [exact H2|]. apply IH. apply (aside_base c1); [done|by apply (aside_base c)].
Qed.

(** ** Every step *)

Notation irq n := (sis3300_irq_work card dma_rc junk kbuf clock n).

Record in_force c : Prop := {
  if_agrees : cfg_agrees c;
  if_base : base_ok c;
  if_two : length (segments c) = 2%nat;
}.

Lemma aside_in_force c c' : aside c c' -> in_force c -> in_force c'.
Proof.
  intros H [H1 H2 H3]. split; [by apply (aside_agrees c)|by apply (aside_base c)|].
  destruct H as (_ & _ & E & _). by rewrite E.
Qed.

Lemma in_force_fields c c' : cfg c' = cfg c -> private_data c' = private_data c -> length (segments c') = length (segments c) ->
  in_force c -> in_force c'.
Proof.
  intros E1 E2 E3 [H1 H2 H3]. unfold cfg_agrees, base_ok, base33, hist33 in *. split.
  - unfold cfg_agrees, base33, hist33. by rewrite E1, E2.
  - unfold base_ok, base33. by rewrite E2.
  - by rewrite E3.
Qed.

Lemma in_force_apply g n c : in_force c -> in_force (apply_cfg ops g n c).2.
Proof.
  intros [H1 H2 H3]. unfold apply_cfg. cbn [conf_acq sis3300_ops]. pose proof (conf_acq_holds c g H2) as Hh.
  assert (base33 (sis3300_conf_acq card dma_rc kbuf c g).2 = base33 c) as Eb by (unfold sis3300_conf_acq; done).
  assert (segments (sis3300_conf_acq card dma_rc kbuf c g).2 = segments c) as Es by (unfold sis3300_conf_acq; done).
  assert ((sis3300_conf_acq card dma_rc kbuf c g).1 = 0) as Er by done.
  destruct (sis3300_conf_acq _ _ _ c g) as [ret c1]. cbn [fst snd] in *. rewrite Er. cbn [truthy Z.eqb negb snd].
  split.
  - change (holds g (base33 c1) (hist33 c1)). by rewrite Eb.
  - change (base_ok c1). unfold base_ok. by rewrite Eb.
  - change (length (segments c1) = 2%nat). by rewrite Es.
Qed.

Lemma in_force_store o intr b c : in_force c -> in_force (run_store ops o intr b c).2.
Proof.
  intros Hi.
  assert (forall set b', in_force (__sis33_conf_store_int ops intr b set b' c).2) as Hc.
  { intros set b'. unfold __sis33_conf_store_int. destruct (sis33_getval b); [done|]. do 2 (case_goal; [done|]). by apply in_force_apply. }
  destruct o; cbn [run_store];
    unfold sis33_store_start_auto, sis33_store_stop_auto, sis33_store_trigger_ext, sis33_store_start_delay,
      sis33_store_stop_delay, sis33_store_ts_div, sis33_store_clk_src, sis33_store_clk_freq, sis33_conf_store_bool,
      sis33_conf_store_int, sis33_store_n_segments, chan_offset_store; try apply Hc;
    repeat match goal with |- context [match sis33_getval b with _ => _ end] => destruct (sis33_getval b) eqn:? end;
    try destruct (sis33_getuval b); try done;
    repeat (case_goal; try done); try apply Hc; try (by apply in_force_apply); by apply (in_force_fields c).
Qed.

Lemma in_force_run a pc c u pc' c' u' : in_force c -> 0 <= curr_segment c < Z.of_nat (length (segments c)) ->
  task33 ops a pc c u = Some (pc', c', u') -> in_force c'.
Proof.
  intros Hi Hcur Hs. rewrite (if_two _ Hi) in Hcur. pose proof (if_base _ Hi) as Hb.
  destruct pc as [d|d|b|user l|b acqs l|acqs l|n acqs l|ret acqs l|ret]; cbn [task33] in Hs; try done.
  - destruct (acquire_enter _ _ _) as [e|]; [by simplify_eq|].
    assert (in_force (acquire_locked ops d c).2) as H; [|by destruct (acquire_locked ops d c); simplify_eq].
    unfold acquire_locked. repeat (case_goal; [done|]). cbn [conf_ev sis3300_ops].
    pose proof (aside_in_force _ _ (aside_conf_ev c d Hb) Hi) as H1. destruct (sis3300_conf_ev _ _ _ c d) as [ret c1].
    cbn [snd] in H1. case_goal; [done|]. apply (in_force_fields c1); try done. unfold upd_segment. cbn. apply length_alter.
  - cbn [acquire_start acq_start sis3300_ops] in Hs. simplify_eq. eapply aside_in_force; [|exact Hi]. by apply aside_start.
  - destruct (fetch_enter _ _ _ _ _); [by simplify_eq|]. destruct (fetch_locked _ _ _ _) as [[r c1]|] eqn:Ef; cbn [mbind option_bind] in Hs; [|done].
    simplify_eq. apply fetch_locked_spec in Ef as [(e & _ & ->)|[(b & _ & -> & _)|[_ Hr]]]; [done..|].
    apply fetch_ready_spec in Hr as [(e & _ & ->)|(n & l' & _ & _ & -> & _)]; [done|]. eapply aside_in_force; [apply aside_upd|done].
  - case_hyp Hs; [by simplify_eq|]. destruct (fetch_ready _ _ _) as [[r c1]|] eqn:Ef; cbn [mbind option_bind] in Hs; [|done].
    simplify_eq. apply fetch_ready_spec in Ef as [(e & _ & ->)|(n & l' & _ & _ & -> & _)]; [done|]. eapply aside_in_force; [apply aside_upd|done].
  - unfold fetch_run in Hs. cbn [fetch sis3300_ops] in Hs.
    destruct (sis3300_fetch _ _ _ _ _ _ _ _ _ _ _ _ _) as [[[[ret acqs'] u1] c1]|] eqn:E; cbn [mbind option_bind] in Hs; [|done].
    simplify_eq. eapply aside_in_force; [by eapply aside_fetch|done].
  - simplify_eq. eapply aside_in_force; [apply aside_upd|done].
Qed.

Lemma in_force_step n x st st' : inv33 ops st -> in_force (s_card st) -> step33 ops (irq n) x st = Some st' -> in_force (s_card st').
Proof.
  intros Hv Hi Hs. pose proof (co_curr _ (in_card _ _ Hv)) as Hcur. pose proof (if_base _ Hi) as Hb.
  destruct x as [t a|t w|o intr b|b| |]; cbn [step33] in Hs.
  - destruct (s_tasks st !! t) as [pc0|] eqn:Ht; cbn [mbind option_bind] in Hs; [|done].
    destruct (task33 _ _ _ _ _) as [[[pc c'] u']|] eqn:E; cbn [mbind option_bind] in Hs; [|done].
    simplify_eq. by eapply in_force_run.
  - destruct (s_tasks st !! t) as [pc0|] eqn:Ht; cbn [mbind option_bind] in Hs; [|done].
    destruct (woken _ _ _ _) as [pc|] eqn:E; cbn [mbind option_bind] in Hs; [|done]. by simplify_eq.
  - simplify_eq. by apply in_force_store.
  - simplify_eq. unfold sis33_store_trigger. destruct (sis33_getval b) as [|v]; [done|]. cbn [trigger sis3300_ops s_card].
    pose proof (aside_in_force _ _ (aside_trigger (s_card st) (u32 v) Hb) Hi) as H. by destruct (sis3300_trigger _ _ _ _ _).
  - cbn [acq_cancel sis3300_ops] in Hs. simplify_eq. eapply aside_in_force; [by apply aside_cancel|done].
  - simplify_eq. eapply aside_in_force; [by apply aside_irq|done].
Qed.


(** Registration applies the configuration. *)
Lemma registered_in_force cdev device files c : base_ok c -> length (segments c) = 2%nat ->
  in_force (sis33_card_register ops cdev device files c).1.1.2.
Proof.
  intros Hb Hl. unfold sis33_card_register. cbn [config_init conf_acq conf_channels sis3300_ops].
  set (c0 := sis3300_config_init c). pose proof (conf_acq_holds c0 (cfg c0) Hb) as Hh.
  assert (cfg (sis3300_conf_acq card dma_rc kbuf c0 (cfg c0)).2 = cfg c0) as Eg by done.
  assert (base33 (sis3300_conf_acq card dma_rc kbuf c0 (cfg c0)).2 = base33 c) as Eb by done.
  assert (segments (sis3300_conf_acq card dma_rc kbuf c0 (cfg c0)).2 = segments c) as Es by done.
  assert ((sis3300_conf_acq card dma_rc kbuf c0 (cfg c0)).1 = 0) as Er by done.
  destruct (sis3300_conf_acq _ _ _ c0 _) as [ret c1]. cbn [fst snd] in *. rewrite Er.
  assert (in_force c1) as H1.
  { split; unfold cfg_agrees, base_ok; rewrite ?Eg, ?Eb, ?Es; try done. }
  cbn [truthy Z.eqb negb]. destruct (sis33_create_cdev cdev device) as [[error r] log]. repeat case_goal; done.
Qed.
End Config.
