(* ===== verification/Sis3300Fetch.v ===== *)
(** * Transfers of a SIS3300 card

    A transfer delivers, for each event, the samples of its channel out of the
    words the card interleaves for a pair of channels, with the length, the
    first sample and the time of the event.  Then the acquisitions that fit the
    memory of a segment, and the departures of the driver. *)

From S2P Require Import Prelude VmeBus SkelIo Sis33Dma Sis33Core Sis33Sysfs Sis33Sys Sis33SysInv Sis3300 Sis3300Inv Sis3300Cfg.

(** ** User memory *)

Lemma copied_in dst l u a : dst <= a < dst + Z.of_nat (length l) -> copy_to_user dst l u a = nth (Z.to_nat (a - dst)) l 0.
Proof.
  intros H. unfold copy_to_user. rewrite (proj2 (Z.leb_le dst a)), (proj2 (Z.ltb_lt a _)) by lia. done.
Qed.

Lemma copied_out dst l u a : a < dst \/ dst + Z.of_nat (length l) <= a -> copy_to_user dst l u a = u a.
Proof.
  intros H. unfold copy_to_user. destruct (Z.leb_spec dst a), (Z.ltb_spec a (dst + Z.of_nat (length l))); try done. lia.
Qed.

Lemma to_mem_two big v : length (to_mem big 2 v) = 2%nat.
Proof. by destruct big. Qed.

(** The 16-bit word of user memory at [a]. *)
Definition user16 (big : bool) (u : umem) (a : Z) : Z := of_mem big [u a; u (a + 1)].

Lemma user16_ext big u u' a : u' a = u a -> u' (a + 1) = u (a + 1) -> user16 big u' a = user16 big u a.
Proof. unfold user16. by intros -> ->. Qed.

Lemma user16_copied big u a v : 0 <= v < 2 ^ 16 -> user16 big (copy_to_user a (to_mem big 2 v) u) a = v.
Proof.
  intros Hv. unfold user16. rewrite !copied_in by (rewrite to_mem_two; lia).
  rewrite Z.sub_diag. replace (a + 1 - a) with 1 by lia.
  assert (le_word (le_bytes 2 v) = v) as H.
  { cbn. pose proof (Z.div_mod v 256). pose proof (Z.div_mod (v / 256) 256). rewrite (Z.div_small (v / 256) 256) in * by
      (split; [apply Z.div_pos; lia|apply Z.div_lt_upper_bound; lia]). lia. }
  by destruct big.
Qed.

Lemma nth_dropped (m j : nat) (l : list Z) : nth j (drop m l) 0 = nth (m + j) l 0.
Proof. by rewrite !nth_lookup, lookup_drop. Qed.

Section Fetch.
Variable cpu_big : bool.
Variable put_ok : Z -> bool.

Lemma adc_sample_range chan w : 0 <= adc_sample chan w < 2 ^ 16.
Proof. unfold adc_sample, u16. case_goal; apply Z.mod_pos_bound; lia. Qed.

Lemma put_samples_spec chan raw : forall left dst u,
  0 <= left <= Z.of_nat (length raw) -> (forall j, 0 <= j < left -> put_ok (dst + 2 * j) = true) ->
  exists u', put_samples cpu_big put_ok chan raw left dst u = Some (0, u') /\
    (forall j, 0 <= j < left -> user16 cpu_big u' (dst + 2 * j) = adc_sample chan (nth (Z.to_nat j) raw 0)) /\
    (forall a, a < dst \/ dst + 2 * left <= a -> u' a = u a).
Proof.
  induction raw as [|w raw IH]; intros left dst u Hl Hp; cbn [put_samples length] in *.
  - assert (left = 0) as -> by lia. exists u. cbn. split_and!; [done|lia|done].
  - destruct (Z.leb_spec left 0) as [H0|H0]; [exists u; split_and!; [done|lia|done]|].
    assert (put_ok dst = true) as -> by (replace dst with (dst + 2 * 0) by lia; apply Hp; lia). cbn [negb].
    set (u1 := copy_to_user dst _ u).
    destruct (IH (left - 1) (dst + 2) u1) as (u' & -> & Hu & Hf); [lia| |].
    { intros j Hj. replace (dst + 2 + 2 * j) with (dst + 2 * (j + 1)) by lia. apply Hp. lia. }
    exists u'. split_and!; [done| |].
    + intros j Hj. destruct (decide (j = 0)) as [->|Hne].
      * rewrite Z.mul_0_r, Z.add_0_r. change (nth (Z.to_nat 0) (w :: raw) 0) with w.
        transitivity (user16 cpu_big u1 dst); [apply user16_ext; apply Hf; lia|apply user16_copied, adc_sample_range].
      * replace (dst + 2 * j) with (dst + 2 + 2 * (j - 1)) by lia. rewrite Hu by lia.
        by replace (Z.to_nat j) with (S (Z.to_nat (j - 1))) by lia.
    + intros a Ha. rewrite Hf by lia. unfold u1. apply copied_out. rewrite to_mem_two. lia.
Qed.

(** What the descriptor of an event becomes. *)
Definition delivered (ticks : Z) (e : sis33_event) (a : sis33_acq) : sis33_acq :=
  Acq33 (acq_data a) (acq_size a) (u32 (ev_nr_samples e)) ticks (u32 (ev_first_samp e)) 0.

(** Event [k] is in the user's buffer: [nr_samp] words of [buf] per event. *)
Definition event_in (chan nr_samp : Z) (buf : list Z) (k : nat) (e : sis33_event) (a : sis33_acq) (u : umem) : Prop :=
  forall j, 0 <= j < ev_nr_samples e ->
    user16 cpu_big u (acq_data a + 2 * j) = adc_sample chan (nth (k * Z.to_nat nr_samp + Z.to_nat j) buf 0).

Definition room (nr_samp : Z) (a : sis33_acq) (x : Z) : Prop := acq_data a <= x < acq_data a + 2 * nr_samp.

(** The buffers can be written and do not overlap. *)
Definition buffers_ok (nr_samp : Z) (acqs : list sis33_acq) : Prop :=
  (forall a x, a ∈ acqs -> room nr_samp a x -> put_ok x = true) /\
  (forall i j a a' x, acqs !! i = Some a -> acqs !! j = Some a' -> room nr_samp a x -> room nr_samp a' x -> i = j).

Lemma buffers_ok_tail nr_samp a acqs : buffers_ok nr_samp (a :: acqs) -> buffers_ok nr_samp acqs.
Proof.
  intros [H1 H2]. split.
  - intros b x Hb. apply H1. by right.
  - intros i j b b' x Hi Hj Hb Hb'. specialize (H2 (S i) (S j) b b' x Hi Hj Hb Hb'). lia.
Qed.

Lemma fetch_events_spec chan nr_samp buf pt evs : forall n k acqs u,
  0 < nr_samp < 2 ^ 31 -> (n <= length acqs)%nat -> (k + n <= length evs)%nat -> length pt = length evs ->
  length buf = (length evs * Z.to_nat nr_samp)%nat ->
  (forall e, e ∈ take n (drop k evs) -> 0 <= ev_nr_samples e <= nr_samp) ->
  buffers_ok nr_samp (take n acqs) ->
  exists u', fetch_events cpu_big put_ok chan nr_samp n k buf pt evs acqs u =
      Some (Z.of_nat (k + n), zip_with (fun a te => delivered te.1 te.2 a) (take n acqs) (zip (drop k pt) (drop k evs)) ++ drop n acqs, u') /\
    (forall m a e, (m < n)%nat -> acqs !! m = Some a -> evs !! (k + m)%nat = Some e -> event_in chan nr_samp buf (k + m) e a u') /\
    (forall x, (forall a, a ∈ take n acqs -> ~ room nr_samp a x) -> u' x = u x).
Proof.
  induction n as [|n IH]; intros k acqs u Hs Hla Hle Hpt Hbuf Hev Hok.
  { exists u. cbn [fetch_events take zip_with]. rewrite Nat.add_0_r, drop_0. split_and!; [done|lia|done]. }
  destruct acqs as [|a acqs]; cbn [length] in Hla; [lia|]. cbn [fetch_events].
  destruct (lookup_lt_is_Some_2 evs k ltac:(lia)) as [e He]. destruct (lookup_lt_is_Some_2 pt k ltac:(lia)) as [t Ht].
  rewrite He, Ht. cbn [take] in Hok.
  assert (0 <= ev_nr_samples e <= nr_samp) as Hn.
  { apply Hev. rewrite (drop_S evs e k He). cbn [take]. by left. }
  unfold sis3300_read_event. cbn [acq_nr_samples acq_data]. rewrite (u32_id (ev_nr_samples e)) by (unfold is_u32; lia).
  destruct (put_samples_spec chan (drop (k * Z.to_nat nr_samp) buf) (ev_nr_samples e) (acq_data a) u) as (u1 & -> & Hu1 & Hf1).
  { rewrite length_drop, Hbuf. nia. }
  { intros j Hj. destruct Hok as [Hw _]. apply (Hw a); [by left|]. unfold room. lia. }
  cbn [mbind option_bind truthy Z.eqb negb].
  destruct (IH (S k) acqs u1) as (u' & -> & Hu & Hf); try lia.
  { intros e' He'. apply Hev. rewrite (drop_S evs e k He). cbn [take]. by right. }
  { by eapply buffers_ok_tail. }
  cbn [mbind option_bind]. exists u'. split_and!.
  - rewrite (drop_S evs e k He), (drop_S pt t k Ht). cbn [zip_with take drop app].
    rewrite Nat.add_succ_comm. unfold delivered at 2. cbn [fst snd]. rewrite (u32_id (ev_nr_samples e)) by (unfold is_u32; lia). done.
  - intros [|m] b e' Hm Hb He'.
    + cbn in Hb. rewrite Nat.add_0_r in *. simplify_eq. intros j Hj. rewrite <- nth_dropped, <- Hu1 by done.
      assert (forall x, room nr_samp b x -> u' x = u1 x) as Hin.
      { intros x Hx. apply Hf. intros a' Ha' Hr. apply list_elem_of_lookup in Ha' as [q Hq].
        destruct Hok as [_ Hd]. specialize (Hd 0%nat (S q) b a' x eq_refl Hq Hx Hr). lia. }
      apply user16_ext; apply Hin; unfold room; lia.
    + cbn in Hb. rewrite <- Nat.add_succ_comm in He'. rewrite <- Nat.add_succ_comm. apply Hu; [lia|done|done].
  - intros x Hx. rewrite Hf; [|intros a' Ha'; apply Hx; by right]. apply Hf1.
    destruct (decide (room nr_samp a x)) as [Hr|Hr]; [exfalso; by apply (Hx a); [left|]|]. unfold room in Hr. lia.
Qed.
End Fetch.

(** ** A transfer from empty caches *)

Section Deliver.
Variable card : list (Z * Z) -> nat -> Z -> Z.
Variable dma_rc : nat -> Z.
Variable junk : nat -> list Z.
Variable kbuf : nat -> Z.
Variable cpu_big : bool.
Variable put_ok : Z -> bool.
Variable mem_ok : nat -> nat -> bool.
Hypothesis no_fault : forall n, dma_rc n = 0.
Hypothesis kbuf_ok : forall n, 0 <= kbuf n < 2 ^ 31.
Hypothesis memory : forall n k, mem_ok n k = true.
Implicit Type c : card33.

(** [n] words of the card from [addr] on. *)
Definition bus_words (b : vbus) (addr : Z) (n : nat) : list Z := (fun k : nat => word_at card b (addr + 4 * Z.of_nat k)) <$> seq 0 n.

(** The events and the time stamps of segment [i], read at [b]. *)
Definition card_events (i : Z) (b : vbus) c : list sis33_event :=
  let s := get_segment i c in
  imap (fun k w => sis3300_process_raw_event (nr_samp_per_ev s) w (Z.of_nat k))
    (bus_words b (base33 c + EV_DIR i) (Z.to_nat (nr_events s))).
Definition card_ticks (i : Z) (b : vbus) c : list Z :=
  (fun w => Z.land w SIS3300_EV_TSTAMP_MASK) <$>
    bus_words b (base33 c + SIS3300_EV_TSTAMP i) (Z.to_nat (nr_events (get_segment i c))).

Definition filled (i : Z) c : Prop :=
  let s := get_segment i c in
  0 <= i < 2 /\ (Z.to_nat i < length (segments c))%nat /\ base_ok c /\
  0 < nr_events s <= 1024 /\ 0 < nr_samp_per_ev s /\ nr_events s * nr_samp_per_ev s <= 2 ^ 17.

Definition tick_bus c : card33 := set_priv (set_bus (ticked (bus (private_data c))) (private_data c)) c.

Lemma get_upd i f c : (Z.to_nat i < length (segments c))%nat -> get_segment i (upd_segment i f c) = f (get_segment i c).
Proof. intros H. by apply (seg_alter_eq (Z.to_nat i) f (segments c)). Qed.

Lemma evcache_get_spec i c : filled i c -> events (get_segment i c) = CNull ->
  let evs := card_events i (bus (private_data c)) c in
  sis3300_evcache_get card dma_rc junk kbuf mem_ok i c = (inr evs, upd_segment i (set_events (CPtr evs)) (tick_bus c)).
Proof.
  intros (Hi & Hl & [Hb Hb'] & Hn & Hs & Hm) He. cbv zeta. unfold sis3300_evcache_get. rewrite He.
  unfold kcalloc_ok, kmalloc_ok. rewrite !memory, andb_true_r. rewrite (proj2 (Z.ltb_lt _ _)) by lia. cbn [negb].
  unfold sis3300_read_events_dir. unfold base33 in Hb, Hb'.
  rewrite (u32_id (vme_base (private_data c) + EV_DIR i)) by (unfold is_u32, EV_DIR; lia).
  by rewrite dma_blt_spec by (try done; lia).
Qed.

Lemma pt_cache_get_spec i c : filled i c -> prevticks (get_segment i c) = CNull ->
  let l := card_ticks i (bus (private_data c)) c in
  sis3300_pt_cache_get card dma_rc junk kbuf mem_ok i c = (inr l, upd_segment i (set_prevticks (CPtr l)) (tick_bus c)).
Proof.
  intros (Hi & Hl & [Hb Hb'] & Hn & Hs & Hm) He. cbv zeta. unfold sis3300_pt_cache_get. rewrite He.
  unfold kmalloc_ok. rewrite !memory. cbn [negb]. unfold sis3300_fill_pt_cache. unfold base33 in Hb, Hb'.
  assert (SIS3300_EV_TSTAMP i < 2 ^ 14 /\ 0 <= SIS3300_EV_TSTAMP i) as [Hr Hr'] by (assert (i = 0 \/ i = 1) as [-> | ->] by lia; by vm_compute).
  rewrite (u32_id (vme_base (private_data c) + SIS3300_EV_TSTAMP i)) by (unfold is_u32; lia).
  by rewrite dma_blt_spec by (try done; lia).
Qed.

Lemma sampcache_get_spec i chan c : filled i c -> 0 <= chan < 8 -> cache_at i (chan / 2) (private_data c) = None ->
  let s := get_segment i c in
  let l := bus_words (bus (private_data c)) (base33 c + MEMBANK i chan) (Z.to_nat (nr_events s * nr_samp_per_ev s)) in
  sis3300_sampcache_get card dma_rc junk kbuf mem_ok i chan c = (inr l, upd_priv (set_cache i (chan / 2) (Some l)) (tick_bus c)).
Proof.
  intros (Hi & Hl & [Hb Hb'] & Hn & Hs & Hm) Hc He. cbv zeta. unfold sis3300_sampcache_get. rewrite He.
  unfold kmalloc_ok. rewrite !memory. cbn [negb]. unfold sis3300_fill_bouncebuf. unfold base33 in Hb, Hb'.
  set (n := nr_events (get_segment i c) * nr_samp_per_ev (get_segment i c)) in *.
  assert (0 < n) as H0 by (unfold n; nia).
  assert (0 <= chan / 2 < 4) as Hg by (split; [apply Z.div_pos|apply Z.div_lt_upper_bound]; lia).
  rewrite (u32_id n) by (unfold is_u32; lia). rewrite (s32_id (n * 4)) by lia.
  rewrite (u32_id (vme_base (private_data c) + MEMBANK i chan)) by (unfold is_u32, MEMBANK; lia).
  rewrite dma_mblt_spec by (try done; lia). cbn [truthy Z.eqb negb].
  replace (n * 4) with (4 * Z.of_nat (Z.to_nat n)) by lia. by rewrite be_words_bytes.
Qed.

End Deliver.

(** ** The memory of a segment *)

(** What the driver accepts fits in the memory of the segment: one of two banks
    of 128 Kwords, with [n_segments] 2 and an event length of the card. *)
Lemma acquire_fits card dma_rc junk kbuf cpu_big put_ok mem_ok clock d (c c' : card33) :
  let ops := sis3300_ops card dma_rc junk kbuf cpu_big put_ok mem_ok clock in
  max_nr_events c = SIS3300_MAX_NR_EVENTS -> (ev_lengths c = sis3300_ev_lengths \/ ev_lengths c = sis3300_08_ev_lengths) ->
  n_segments c = 2 -> n_segments_min c = 2 -> 0 <= d_nr_events d -> acquire_locked ops d c = (0, c') ->
  0 < d_ev_length d /\ d_nr_events d * d_ev_length d <= 2 ^ 17.
Proof.
  cbv zeta. intros Hm Hl Hn Hmin Hd. unfold acquire_locked.
  case_goal; [done|]. case_goal; [done|]. destruct (sis33_value_is_in_array _ _) eqn:Hv; cbn [negb]; [|done].
  unfold sis33_value_is_in_array in Hv. apply existsb_exists in Hv as (x & Hin & Hx). apply Z.eqb_eq in Hx. subst x.
  assert (0 < d_ev_length d <= 2 ^ 17) as Hr.
  { assert (Forall (fun v => 0 < v <= 2 ^ 17) (ev_lengths c)) as Hf by (destruct Hl as [-> | ->]; repeat constructor; lia).
    rewrite Forall_forall in Hf. by apply Hf, list_elem_of_In. }
  assert (sis33_segment_max_nr_samples c = 2 ^ 17) as Hs.
  { unfold sis33_segment_max_nr_samples. rewrite Hn, Hmin. by destruct Hl as [-> | ->]. }
  rewrite Hs. boolp. rewrite Hm in *. unfold SIS3300_MAX_NR_EVENTS in *.
  rewrite (u32_id (d_nr_events d * d_ev_length d)) by (unfold is_u32; nia). change (u32 (2 ^ 17)) with (2 ^ 17).
  case_goal; [done|]. boolp. intros _. lia.
Qed.
