(* ===== verification/Sis3300Runs.v ===== *)
(** * Runs of a SIS3300 card

    A concrete card, on which the theorems on the digitizers are applied, and
    the runs in which the drivers depart from what they promise. *)

From S2P Require Import Prelude VmeBus SkelIo Sis33Dma Sis33Core Sis33Sysfs Sis33Sys Sis33SysInv Sis3300 Sis3300Inv Sis3300Cfg Sis3300Fetch.

(** ** Runs of the step system *)

(** A run in which no acquisition ends before its start. *)
Fixpoint ok_run {P} (ops : sis33_card_ops P) irq (l : list act) (st : sys33 (P := P)) : option sys33 :=
  match l with
  | [] => Some st
  | x :: l => if settled x st then st ← step33 ops irq x st; ok_run ops irq l st else None
  end.

Lemma ok_run_reach {P} (ops : sis33_card_ops P) irq st0 l : forall st st',
  reach33 ops irq st0 st -> ok_run ops irq l st = Some st' -> reach33 ops irq st0 st'.
Proof.
  induction l as [|x l IH]; intros st st' Hr H; cbn [ok_run] in H; [by simplify_eq|].
  case_hyp H; [|done]. destruct (step33 ops irq x st) as [st1|] eqn:Es; cbn [mbind option_bind] in H; [|done].
  eapply IH; [|exact H]. by eapply reach33_step.
Qed.

Module Concrete.

(** A card at 16 MiB: one event of 100 samples, the last event interrupt
    pending, and in every other place the address itself, byte by byte. *)
Definition base : Z := 2 ^ 24.
Definition regs : list (Z * Z) :=
  [(base + SIS3300_FW, 0x33000307); (base + SIS3300_INTCTL, INTCTL_ST_LEV); (base + EV_COUNTER 0, 1);
   (base + SIS3300_ACQ, 0); (base + EV_DIR 0, 100)].
Definition word_of (a : Z) : option Z :=
  match list_find (fun r => r.1 = a) regs with Some (_, r) => Some r.2 | None => None end.
Definition card (_ : list (Z * Z)) (_ : nat) (a : Z) : Z :=
  match word_of (a - a mod 4) with Some v => nth (Z.to_nat (a mod 4)) (cpu_to_be32 v) 0 | None => a mod 256 end.

Definition dma_rc (_ : nat) : Z := 0.
Definition junk (_ : nat) : list Z := [].
Definition kbuf (_ : nat) : Z := 4096.
Definition put_ok (_ : Z) : bool := true.
Definition mem_ok (_ _ : nat) : bool := true.
Definition clock (n : nat) : Z := Z.of_nat n.

Notation ops := (sis3300_ops card dma_rc junk kbuf false put_ok mem_ok clock).
Notation irq := (sis3300_irq_work card dma_rc junk kbuf clock 1).

Lemma no_fault n : dma_rc n = 0.
Proof. done. Qed.
Lemma kbuf_ok n : 0 <= kbuf n < 2 ^ 31.
Proof. by vm_compute. Qed.
Lemma memory n k : mem_ok n k = true.
Proof. done. Qed.

(** The card once it has been probed and registered. *)
Definition probed : card33 :=
  sis3300_describe (snd (sis3300_device_init card dma_rc junk kbuf 0 0x40 3 (sis3300_card 0 base (Vbus [] 0)))).
Definition registered : card33 := (sis33_card_register ops 0 0 0 probed).1.1.2.

Definition all_ok : answers := Answers true true true false.
Definition desc : sis33_acq_desc := AcqDesc 0 1 128 0 0.
Definition alist (n : Z) : sis33_acq_list := AcqList 0 0 n 0 0 0.
Definition acq0 : sis33_acq := Acq33 0x1000 256 0 0 0 0.
Definition no_user : umem := fun _ => 0.

Definition boot : sys33 := Sys33 registered no_user [TAcquire desc; TFetch (fun _ => acq0) (alist 1)].

Lemma booted : booted33 boot.
Proof. split_and!; try by vm_compute. repeat constructor. Qed.

Lemma probed_base : base_ok probed.
Proof. by vm_compute. Qed.

Lemma registered_ok : in_force registered.
Proof. by apply (registered_in_force card dma_rc junk kbuf false put_ok mem_ok clock no_fault kbuf_ok 0 0 0 probed probed_base). Qed.

(** The state after a run; what a run reaches. *)
Definition after (l : list act) : sys33 := default boot (ok_run ops irq l boot).

Lemma after_reach l : is_Some (ok_run ops irq l boot) -> reach33 ops irq boot (after l).
Proof.
  intros [st H]. unfold after. rewrite H. cbn [default]. eapply ok_run_reach; [|exact H]. apply reach33_boot, booted.
Qed.

(** Acquire: enter and start; task 1 waits for the acquisition to fetch it. *)
Definition acquiring_run : list act := [ARun 0 all_ok; ARun 0 all_ok; ARun 1 all_ok].
Definition transferring_run : list act :=
  acquiring_run ++ [AInterrupt; AWake 0 Completed; AWake 1 Completed; ARun 1 all_ok].

Lemma sis33_exclusive_witness :
  transferring (seg 0 (segments (s_card (after transferring_run)))) = true /\
  forall t t' pc pc', s_tasks (after transferring_run) !! t = Some pc -> s_tasks (after transferring_run) !! t' = Some pc' ->
    uses 0 pc = true -> uses 0 pc' = true -> t = t'.
Proof.
  split; [by vm_compute|]. assert (reach33 ops irq boot (after transferring_run)) as Hr by (apply after_reach; eexists; by vm_compute).
  destruct (sis33_exclusive ops irq boot _ Hr) as (_ & H & _). intros t t' pc pc'. apply (H 0%nat).
Defined.



(** The acquisition has ended: segment 0 holds its event. *)
Definition acquired : card33 := s_card (after (acquiring_run ++ [AInterrupt])).

Lemma acquired_filled : filled 0 acquired.
Proof. split_and!; try by vm_compute. vm_compute. lia. Qed.

Lemma one_buffer n a : buffers_ok put_ok n [a].
Proof.
  split; [done|]. intros i j b b' x Hi Hj _ _. apply lookup_lt_Some in Hi, Hj. cbn [length] in *. lia.
Qed.


(** ** Departures *)

(** A run with no regard to the window before the start of the card. *)
Definition any_run (l : list act) : sys33 := default boot (run33 ops irq l boot).

(** An acquisition cancelled in the window: its task waits, and nothing is being
    acquired that would wake it up. *)
Lemma cancelled_before_start :
  let st := any_run [ARun 0 all_ok; ACancel; ARun 0 all_ok] in
  s_tasks st !! 0%nat = Some (TAcqWait false) /\ acquiring (current (s_card st)) = false /\
  step33 ops irq (AWake 0 Completed) st = None.
Proof. by vm_compute. Qed.

(** The segment can be taken for a transfer before its task starts the card,
    which then acquires into it and drops its caches. *)
Lemma started_under_transfer :
  let st := any_run [ARun 0 all_ok; ACancel; ARun 1 all_ok; ARun 0 all_ok] in
  transferring (current (s_card st)) = true /\ s_tasks st !! 0%nat = Some (TAcqWait false) /\
  existsb (uses 0) (s_tasks st) = true.
Proof. by vm_compute. Qed.

(** Cancelled while the module is busy with its first event, the counter at 0:
    the segment has 2^32 - 1 events, which no transfer can serve. *)
Definition busy (_ : list (Z * Z)) (_ : nat) (a : Z) : Z :=
  if a - a mod 4 =? base + SIS3300_ACQ then nth (Z.to_nat (a mod 4)) (cpu_to_be32 ACQ_BUSY) 0 else 0.

Definition cancelled : card33 :=
  snd (sis3300_acq_cancel busy dma_rc junk kbuf clock (s_card (any_run [ARun 0 all_ok; ARun 0 all_ok]))).

Lemma cancelled_events :
  nr_events (get_segment 0 cancelled) = 2 ^ 32 - 1 /\
  match sis3300_fetch busy dma_rc junk kbuf false put_ok mem_ok cancelled 0 0 [acq0] 1 no_user with
  | Some (ret, _, _, _) => ret = - ENOMEM
  | None => False
  end.
Proof. by vm_compute. Qed.

(** As many descriptors as make 2^32 bytes eleven times: none is copied, and the
    check of the buffers reads past the copy. *)
Lemma acq_descriptors_wrap :
  acqs_copied (fun _ => acq0) (alist (2 ^ 30)) = [] /\
  fetch_locked ops (acqs_copied (fun _ => acq0) (alist (2 ^ 30))) (alist (2 ^ 30)) acquired = None.
Proof. by vm_compute. Qed.

(** An event that ends where the bank does, with no wrap flag: its length is
    negative, and the transfer reads past the buffer. *)
Lemma event_at_end_of_bank :
  ev_nr_samples (sis3300_process_raw_event 128 0x20000 1023) = -130944 /\
  sis3300_read_event false put_ok acq0 0 (replicate 128 0) 0 (sis3300_process_raw_event 128 0x20000 1023) no_user = None.
Proof. by vm_compute. Qed.

(** A registration that fails after the character device: what it has destroyed
    is destroyed again with the card. *)
Lemma destroyed_twice :
  let '(error, _, r, log) := sis33_card_register ops 0 0 (- ENOMEM) probed in
  error = - ENOMEM /\ log ++ snd (sis33_card_free 0 r 1) =
    [Acq KCdev 0; Acq KDevice 0; Rel KDevice 0; Rel KCdev 0; Rel KDevice 0; Rel KCdev 0].
Proof. by vm_compute. Qed.

(** Not even added, destroyed. *)
Lemma destroyed_never_created :
  let '(error, _, r, log) := sis33_card_register ops (- ENOMEM) 0 0 probed in
  error = - ENOMEM /\ log ++ snd (sis33_card_free 0 r 1) = [Rel KDevice 0; Rel KCdev 0].
Proof. by vm_compute. Qed.
End Concrete.

(** Transfers that fail go unnoticed: the configuration counts as applied. *)
Lemma conf_acq_unnoticed card dma_rc kbuf c g :
  (forall n, dma_rc n = - EINVAL) -> (sis3300_conf_acq card dma_rc kbuf c g).1 = 0 /\
  hist33 (sis3300_conf_acq card dma_rc kbuf c g).2 = hist33 c.
Proof.
  intros Hf. split; [done|]. unfold sis3300_conf_acq. cbn [snd].
  assert (forall off v c0, hist33 (sis3300_writew card dma_rc kbuf off v c0) = hist33 c0) as Hw; [|by rewrite !Hw].
  intros off v c0. unfold hist33, sis3300_writew, sis33_dma_write, bus_dma. rewrite Hf. by case_goal.
Qed.
