(* ===== verification/Sis3320.v ===== *)
(** * The SIS3320 and SIS3302 digitizers ([sis33/drivers/sis3320.c], [sis3320.h])

    The same operations as [Sis3300] for the cards with 32 Msamples per channel.
    Their memory is seen through a window of 8 MiB whose page the driver selects
    and remembers; the samples go by DMA straight into the user's buffers, and
    the directory of events is read when an acquisition ends. *)

From S2P Require Import Prelude VmeBus SkelIo Sis33Dma Sis33Core.

(** ** Registers *)

Definition SIS3320_FW : Z := 0x004.
Definition FW_MODID : Z := 0xffff0000.
Definition FW_MODID_SHIFT : Z := 16.
Definition FW_MAJOR : Z := 0xff00.
Definition FW_MAJOR_SHIFT : Z := 8.
Definition FW_MINOR : Z := 0x00ff.
Definition SIS3320_INTCONF : Z := 0x008.
Definition INTCONF_ROAK : Z := 0x1000.
Definition INTCONF_ENABLE : Z := 0x800.
Definition INTCONF_LEVEL_MASK : Z := 0x7.
Definition INTCONF_LEVEL_SHIFT : Z := 8.
Definition INTCONF_VECTOR_MASK : Z := 0xff.
Definition SIS3320_INTCTL : Z := 0x00c.
Definition INTCTL_EN_LEV : Z := 0x2.
Definition INTCTL_DICL_LEV : Z := 0x20000.
Definition INTCTL_ST_LEV : Z := 0x2000000.
Definition SIS3320_ACQ : Z := 0x010.
Definition ACQ_EN_AUTOST : Z := 0x10.
Definition ACQ_EN_MEV : Z := 0x20.
Definition ACQ_EN_FPANEL : Z := 0x100.
Definition ACQ_EN_CLKSRC_SHIFT : Z := 12.
Definition ACQ_DI_AUTOST : Z := 0x100000.
Definition ACQ_DI_MEV : Z := 0x200000.
Definition ACQ_CL_CLKSRC : Z := 0x70000000.
Definition CLKSRC_EXT : Z := 0x6.
Definition SIS3320_EXT_START_DELAY : Z := 0x014.
Definition SIS3320_EXT_STOP_DELAY : Z := 0x018.
Definition SIS3320_MAX_DELAY : Z := 0xffffff.
Definition SIS3320_NR_EVENTS : Z := 0x020.
Definition SIS3320_EV_COUNTER : Z := 0x024.
Definition EV_COUNTER_MASK : Z := 0xfffff.
Definition SIS3320_ADC_MEM_PAGE : Z := 0x034.
Definition ADC_MEM_PAGE_MASK : Z := 0x7.
Definition SIS3320_PAGESIZE_SAMPLES : Z := 0x400000.
Definition SIS3320_PAGESIZE : Z := 0x800000.
Definition SIS3320_PAGEMASK : Z := SIS3320_PAGESIZE - 1.
Definition SIS3320_PAGESHIFT : Z := 23.
Definition SIS3320_DAC_CTL : Z := 0x050.
Definition DAC_CTL_SELECT_SHIFT : Z := 4.
Definition DAC_CTL_BUSY : Z := 0x8000.
Definition DACCMD_LOAD_SH : Z := 0x1.
Definition DACCMD_LOAD_DAC : Z := 0x2.
Definition SIS3320_DAC_DATA : Z := 0x054.
Definition DAC_DATA_WR : Z := 0x0000ffff.
Definition SIS3320_RESET : Z := 0x400.
Definition SIS3320_ARM : Z := 0x410.
Definition SIS3320_DISARM : Z := 0x414.
Definition SIS3320_START_SAMP : Z := 0x418.
Definition SIS3320_STOP_SAMP : Z := 0x41c.
Definition SIS3302_TSTAMP_CLEAR : Z := 0x42c.
Definition SIS3302_TSTAMP_DIR : Z := 0x10000.
Definition SIS3302_TSTAMP_UPPER_MASK : Z := 0xffff.
Definition SIS3320_G (grp : Z) : Z := 0x2000000 + (grp - 1) * 0x800000.
Definition SIS3320_GREG (grp reg : Z) : Z := SIS3320_G grp + reg.
Definition SIS3320_GALL (reg : Z) : Z := 0x1000000 + reg.
Definition EV_CONF : Z := 0x00.
Definition EV_EN_WRAP_MODE : Z := 0x10.
Definition EV_EN_SAMPLEN_STOP : Z := 0x20.
Definition SAMP_LEN : Z := 0x04.
Definition SAMP_STADDR : Z := 0x08.
Definition SPI_REG : Z := 0x40.
Definition SPI_REG_DATA_MASK : Z := 0xff.
Definition SPI_REG_DATA_SHIFT : Z := 0.
Definition SPI_REG_ADDR_MASK : Z := 0x1fff.
Definition SPI_REG_ADDR_SHIFT : Z := 8.
Definition SPI_REG_RD : Z := 0x200000.
Definition SPI_REG_SEL : Z := 0x400000.
Definition SPI_REG_BUSY : Z := 0x800000.
Definition AD9230_AIN_CONFIG : Z := 0x0f.
Definition AD9230_DEVICE_UPDATE : Z := 0xff.
Definition SIS3320_EV_DIR (n : Z) : Z := 0x2010000 + (n / 2) * 0x800000 + (n mod 2) * 0x8000.
Definition EV_DIR_WRAP : Z := 0x10000000.
Definition EV_DIR_ADDR : Z := 0x1ffffff.
Definition SIS3320_MEM_ADC (num : Z) : Z := 0x4000000 + num * 0x800000.

(** ** Constants of the driver *)

Definition SIS3320_MAX_NR_EVENTS : Z := 512.
Definition SIS3320_NR_CHANNELS : Z := 8.
Definition SIS3320_MAX_NR_SEGMENTS : Z := 2.

Definition sis3320_ev_lengths : list Z :=
  [33554432; 16777216; 4194304; 1048576; 262144; 65536; 16384; 4096; 1024; 512; 256; 128; 64].
Definition sis3320_ev_length_bits : list Z := [0; 0; 1; 2; 3; 4; 5; 6; 7; 8; 9; 10; 11].
Definition sis3320_200_freqs : list Z := [200000000; 100000000; 50000000].
Definition sis3320_200_freq_bits : list Z := [0; 1; 2].
Definition sis3320_250_freqs : list Z := [250000000; 200000000; 100000000; 50000000].
Definition sis3320_250_freq_bits : list Z := [7; 0; 1; 2].
Definition sis3302_freqs : list Z := [100000000; 50000000; 25000000; 10000000; 1000000].
Definition sis3302_freq_bits : list Z := [0; 1; 2; 3; 4].

(** The entry of [bits] at the first [v] of [vals], or the default. *)
Fixpoint bits_at (vals bits : list Z) (v default : Z) : Z :=
  match vals, bits with
  | x :: vals, b :: bits => if x =? v then b else bits_at vals bits v default
  | _, _ => default
  end.

(** ** The card *)

Record sis3320 := S3320 { sis_base : Z; sis_version : Z; sis_completion : bool; curr_page : Z; sis_bus : vbus }.

Definition set_sis_bus v s := S3320 (sis_base s) (sis_version s) (sis_completion s) (curr_page s) v.
Definition set_sis_version v s := S3320 (sis_base s) v (sis_completion s) (curr_page s) (sis_bus s).
Definition set_sis_completion v s := S3320 (sis_base s) (sis_version s) v (curr_page s) (sis_bus s).
Definition set_curr_page v s := S3320 (sis_base s) (sis_version s) (sis_completion s) v (sis_bus s).

Definition card20 := sis33_card sis3320.
Definition upd20 (f : sis3320 -> sis3320) (c : card20) : card20 := set_priv (f (private_data c)) c.

Section Sis3320.
Variable card : list (Z * Z) -> nat -> Z -> Z.
Variable dma_rc : nat -> Z.
Variable junk : nat -> list Z.
Variable kbuf : nat -> Z.
Variable mem_ok : nat -> nat -> bool. (* allocations, by time and place *)
Variable clock : nat -> Z.           (* [do_gettimeofday()] *)
Implicit Type c : card20.

Definition sis3320_readw (off : Z) c : Z * card20 :=
  let s := private_data c in
  let '(v, b) := sis33_dma_read card dma_rc junk kbuf (u32 (sis_base s + off)) (sis_bus s) in
  (v, set_priv (set_sis_bus b s) c).

Definition sis3320_writew (off val : Z) c : card20 :=
  let s := private_data c in
  set_priv (set_sis_bus (sis33_dma_write card dma_rc kbuf (u32 (sis_base s + off)) val (sis_bus s)) s) c.

Definition version c : Z := sis_version (private_data c).

(** ** Events *)

(** The initial address of the segment, in samples. *)
Definition sis3320_get_segment_base c (segment : Z) : Z :=
  Z.land (u32 (segment * (hd 0 (ev_lengths c) `quot` n_segments c))) 0x01fffffc.

Definition sis3320_process_event (i : Z) (reg event_nr : Z) c : sis33_event :=
  let nr_samp := nr_samp_per_ev (get_segment i c) in
  let next_sample := u32 (Z.land reg EV_DIR_ADDR - event_nr * nr_samp - sis3320_get_segment_base c i) in
  let next_sample := Z.land next_sample 0xfffffffc in
  if truthy (Z.land reg EV_DIR_WRAP) then Event (s32 nr_samp) (s32 next_sample) else Event (s32 next_sample) 0.

Definition sis3320_read_events_dir (i channel n : Z) c : Z * list sis33_event * card20 :=
  let s := private_data c in
  let '(ret, raw, b) := sis33_dma_read32be_blt card dma_rc junk kbuf (u32 (sis_base s + SIS3320_EV_DIR channel)) n (sis_bus s) in
  let c := set_priv (set_sis_bus b s) c in
  if truthy ret then (ret, [], c) else (0, imap (fun k w => sis3320_process_event i w (Z.of_nat k) c) raw, c).

(** The directories of the channels, one after the other. *)
Fixpoint read_dirs (i n : Z) (chs : list Z) c : Z * list sis33_event * card20 :=
  match chs with
  | [] => (0, [], c)
  | ch :: chs =>
      let '(ret, evs, c) := sis3320_read_events_dir i ch n c in
      if truthy ret then (ret, [], c) else
      let '(ret, more, c) := read_dirs i n chs c in (ret, evs ++ more, c)
  end.

Definition alloc_ok (n size : Z) (site : nat) c : bool :=
  (n * size <? 2 ^ 32) && mem_ok (now (sis_bus (private_data c))) site.

Definition sis3320_read_segment (i : Z) c : card20 :=
  let c := match events (get_segment i c) with
           | CPtr _ => upd_segment i (fun s => set_nr_events 0 (set_events CNull s)) c
           | _ => c
           end in
  let '(v, c) := sis3320_readw SIS3320_EV_COUNTER c in
  let n := Z.land v EV_COUNTER_MASK in
  let c := upd_segment i (set_nr_events n) c in
  if n =? 0 then c else
  if negb (alloc_ok n 4 0 c) then upd_segment i (set_events (CErr (- ENOMEM))) c else
  if negb (alloc_ok (u32 (n * n_channels c)) 8 1 c) then upd_segment i (set_events (CErr (- ENOMEM))) c else
  let '(ret, evs, c) := read_dirs i n (seqZ 0 (n_channels c)) c in
  if truthy ret then upd_segment i (fun s => set_nr_events 0 (set_events CNull s)) c
  else upd_segment i (set_events (CPtr evs)) c.

(** ** Time stamps of the SIS3302 *)

(** In place: element 0 is itself the first to change. *)
Definition sis3302_pt_cache_normalize (l : list Z) (n : nat) : list Z :=
  foldl (fun l i => <[i := u64 (nth i l 0 - nth 0 l 0)]> l) l (seq 0 n).

Fixpoint sis3302_pt_cache_fill (raw : list Z) (n : nat) : list Z :=
  match n with
  | O => []
  | S n =>
      Z.lor (Z.shiftl (Z.land (nth 0 raw 0) SIS3302_TSTAMP_UPPER_MASK) 32) (nth 1 raw 0)
        :: sis3302_pt_cache_fill (drop 2 raw) n
  end.

Definition sis3302_pt_cache_rawfill (n : Z) c : Z * list Z * card20 :=
  let s := private_data c in
  let '(rc, raw, b) := sis33_dma_read32be_blt card dma_rc junk kbuf (u32 (sis_base s + SIS3302_TSTAMP_DIR)) n (sis_bus s) in
  (rc, raw, set_priv (set_sis_bus b s) c).

Definition sis3320_read_prevticks (i : Z) c : card20 :=
  let n := nr_events (get_segment i c) in
  if negb (version c =? 3302) || (n =? 0) then c else
  let c := upd_segment i (set_prevticks CNull) c in
  if negb (alloc_ok n 8 2 c) then upd_segment i (set_prevticks (CErr (- ENOMEM))) c else
  if negb (alloc_ok n 8 3 c) then upd_segment i (set_prevticks (CErr (- ENOMEM))) c else
  let '(err, raw, c) := sis3302_pt_cache_rawfill (n * 2) c in
  if truthy err then c else
  let n := Z.to_nat n in
  upd_segment i (set_prevticks (CPtr (sis3302_pt_cache_normalize (sis3302_pt_cache_fill raw n) n))) c.

(** ** Interrupts and installation *)

Definition sis3320_acq_complete c : card20 :=
  upd20 (set_sis_completion true) (upd_segment (curr_segment c) (set_acquiring false) c).

Definition sis3320_irq_work c : card20 :=
  let '(status, c) := sis3320_readw SIS3320_INTCTL c in
  if truthy (Z.land status INTCTL_ST_LEV) then
    let c := sis3320_writew SIS3320_INTCTL INTCTL_DICL_LEV c in
    let i := curr_segment c in
    let c := upd_segment i (set_endtime (clock (now (sis_bus (private_data c))))) c in
    let c := sis3320_read_segment i c in
    let c := sis3320_read_prevticks i c in
    let c := sis3320_acq_complete c in
    sis3320_writew SIS3320_INTCTL INTCTL_EN_LEV c
  else c.

(** [n] polls at most. *)
Fixpoint poll_clear (n : nat) (off mask : Z) c : card20 :=
  match n with
  | O => c
  | S n => let '(v, c) := sis3320_readw off c in if truthy (Z.land v mask) then poll_clear n off mask c else c
  end.

Definition sis3320_spi_sleep (spi : Z) c : card20 := poll_clear 3 spi SPI_REG_BUSY c.

Definition spi_word (second_adc : bool) (addr data : Z) : Z :=
  Z.lor (Z.lor (if second_adc then SPI_REG_SEL else 0) (Z.shiftl addr SPI_REG_ADDR_SHIFT)) (Z.shiftl data SPI_REG_DATA_SHIFT).

Definition sis3320_spi_write (group adc addr data : Z) c : card20 :=
  let spi := SIS3320_GREG group SPI_REG in
  let second := adc =? 2 in
  let reg := spi_word second (Z.land addr SPI_REG_ADDR_MASK) (Z.land data SPI_REG_DATA_MASK) in
  let c := sis3320_writew spi (Z.land reg (not32 SPI_REG_RD)) c in
  let c := sis3320_spi_sleep spi c in
  let c := sis3320_writew spi (spi_word second AD9230_DEVICE_UPDATE 1) c in
  sis3320_spi_sleep spi c.

Definition sis3320_spi_write_both (group addr data : Z) c : card20 :=
  foldl (fun c adc => sis3320_spi_write group adc addr data c) c [1; 2].
Definition sis3320_spi_write_all (addr data : Z) c : card20 :=
  foldl (fun c group => sis3320_spi_write_both group addr data c) c [1; 2; 3; 4].

(** [irq_rc]: the answer of [vme_request_irq()]. *)
Definition sis3320_request_irq (irq_rc vector level : Z) c : Z * card20 :=
  let vector := Z.land vector INTCONF_VECTOR_MASK in
  let level := Z.land level INTCONF_LEVEL_MASK in
  if truthy irq_rc then (irq_rc, c) else
  let reg := Z.lor (Z.lor (Z.lor INTCONF_ENABLE INTCONF_ROAK) (Z.shiftl level INTCONF_LEVEL_SHIFT)) vector in
  let c := sis3320_writew SIS3320_INTCONF reg c in
  (0, sis3320_writew SIS3320_INTCTL INTCTL_EN_LEV c).

Definition sis3320_free_irq c : card20 :=
  let '(reg, c) := sis3320_readw SIS3320_INTCONF c in
  let c := sis3320_writew SIS3320_INTCONF (Z.land reg (not32 INTCONF_ENABLE)) c in
  sis3320_writew SIS3320_INTCTL 0 c.

Definition set_ids20 (i major minor : Z) c : card20 :=
  Card (number c) (cfg c) i major minor (max_nr_events c) (max_delay c) (ev_tstamp_divider_max c) (n_channels c)
    (channels c) (ev_lengths c) (freqs c) (n_segments_max c) (n_segments_min c) (n_segments c) (segments c)
    (curr_segment c) (private_data c).

Definition sis3320_device_init (irq_rc vector level : Z) c : Z * card20 :=
  let '(reg, c) := sis3320_readw SIS3320_FW c in
  let c := set_ids20 (Z.shiftr (Z.land reg FW_MODID) FW_MODID_SHIFT) (Z.shiftr (Z.land reg FW_MAJOR) FW_MAJOR_SHIFT)
             (Z.land reg FW_MINOR) c in
  let found :=
    if id c =? 0x3320 then Some (if 0x20 <=? major_rev c then 250 else 200)
    else if id c =? 0x3302 then Some 3302 else None in
  match found with
  | None => (- ENODEV, c)
  | Some v =>
      let c := upd20 (set_sis_version v) c in
      let c := sis3320_writew SIS3320_RESET 1 c in
      let c := sis3320_writew SIS3320_ADC_MEM_PAGE 0 c in
      let c := upd20 (set_curr_page 0) c in
      let c := if version c =? 250 then sis3320_spi_write_all AD9230_AIN_CONFIG 0x2 c else c in
      let c := upd20 (set_sis_completion false) c in
      sis3320_request_irq irq_rc vector level c
  end.

(** ** Configuration *)

Definition sis3320_get_clk_bits c (freq : Z) : Z :=
  if version c =? 3302 then bits_at sis3302_freqs sis3302_freq_bits freq 0
  else if version c =? 250 then bits_at sis3320_250_freqs sis3320_250_freq_bits freq 7
  else bits_at sis3320_200_freqs sis3320_200_freq_bits freq 0.

Definition sis3320_acq_clk c (src freq : Z) : Z :=
  if src =? SIS33_CLKSRC_INTERNAL then Z.shiftl (sis3320_get_clk_bits c freq) ACQ_EN_CLKSRC_SHIFT
  else if src =? SIS33_CLKSRC_EXTERNAL then Z.shiftl CLKSRC_EXT ACQ_EN_CLKSRC_SHIFT
  else Z.shiftl CLKSRC_EXT ACQ_EN_CLKSRC_SHIFT.

Definition sis3320_get_ev_length (size : Z) : Z := bits_at sis3320_ev_lengths sis3320_ev_length_bits size 6.

(** The part of the acquisition register that [conf_acq] and [conf_ev] share. *)
Definition acq_word20 c (g : sis33_cfg) : Z :=
  Z.lor (Z.lor (sis3320_acq_clk c (clksrc g) (clkfreq g))
    (if truthy (start_auto g) then ACQ_EN_AUTOST else ACQ_DI_AUTOST))
    (if truthy (trigger_ext_en g) then ACQ_EN_FPANEL else 0).

Definition sis3320_conf_acq c (g : sis33_cfg) : Z * card20 :=
  let c := sis3320_writew SIS3320_ACQ ACQ_CL_CLKSRC c in
  let c := sis3320_writew SIS3320_ACQ (acq_word20 c g) c in
  let c := sis3320_writew SIS3320_EXT_START_DELAY (u32 (start_delay g)) c in
  (0, sis3320_writew SIS3320_EXT_STOP_DELAY (u32 (stop_delay g)) c).

Definition sis3320_conf_ev c (d : sis33_acq_desc) : Z * card20 :=
  let g := cfg c in
  let val := Z.lor (if d_nr_events d =? 1 then ACQ_DI_MEV else ACQ_EN_MEV) (acq_word20 c g) in
  let c := sis3320_writew SIS3320_ACQ val c in
  let c := sis3320_writew SIS3320_NR_EVENTS (d_nr_events d) c in
  let val := if truthy (stop_auto g) then EV_EN_SAMPLEN_STOP else 0 in
  let val := if negb (d_ev_length d =? hd 0 (ev_lengths c))
             then Z.lor (Z.lor val EV_EN_WRAP_MODE) (sis3320_get_ev_length (d_ev_length d)) else val in
  let c := sis3320_writew (SIS3320_GALL EV_CONF) val c in
  let c := if truthy (stop_auto g)
           then sis3320_writew (SIS3320_GALL SAMP_LEN) (Z.land (u32 (d_ev_length d - 4)) 0x01fffffc) c else c in
  (0, sis3320_writew (SIS3320_GALL SAMP_STADDR) (sis3320_get_segment_base c (d_segment d)) c).

(** *** Offsets of the channels *)

Definition sis3320_dac_write (val : Z) c : card20 := sis3320_writew SIS3320_DAC_DATA (Z.land val DAC_DATA_WR) c.
Definition sis3320_dac_poll c : card20 := poll_clear 1000 SIS3320_DAC_CTL DAC_CTL_BUSY c.
Definition sis3320_dac_shift c : card20 := sis3320_dac_poll (sis3320_writew SIS3320_DAC_CTL DACCMD_LOAD_SH c).
Definition sis3320_dac_load c : card20 := sis3320_dac_poll (sis3320_writew SIS3320_DAC_CTL DACCMD_LOAD_DAC c).
Definition sis3320_dac_cmd_channel (cmd channel : Z) c : card20 :=
  sis3320_dac_poll (sis3320_writew SIS3320_DAC_CTL (Z.lor cmd (Z.shiftl channel DAC_CTL_SELECT_SHIFT)) c).

Definition channel_offset c (i : Z) : Z := offset (nth (Z.to_nat i) (channels c) (Channel 0 0)).

Definition __sis3320_apply_channels_offset c : card20 :=
  foldl (fun c i =>
    let c := sis3320_dac_write (channel_offset c i) c in
    let c := sis3320_dac_cmd_channel DACCMD_LOAD_SH i c in
    sis3320_dac_cmd_channel DACCMD_LOAD_DAC i c) c (seqZ 0 SIS3320_NR_CHANNELS).

(** Daisy-chained: the last first. *)
Definition __sis3320_apply_channels_offset_daisychain c : card20 :=
  foldl (fun c i =>
    let c := sis3320_dac_write (channel_offset c (SIS3320_NR_CHANNELS - 1 - i)) c in
    sis3320_dac_load (sis3320_dac_shift c)) c (seqZ 0 SIS3320_NR_CHANNELS).

Definition sis3320_apply_channels_offset c : card20 :=
  if (version c =? 3302) || (version c =? 250) then __sis3320_apply_channels_offset c
  else __sis3320_apply_channels_offset_daisychain c.

Definition sis3320_conf_channels c : Z * card20 := (0, sis3320_apply_channels_offset c).

(** ** Transfers *)

Definition sis3320_put_page (page : Z) c : card20 :=
  let page := Z.land page ADC_MEM_PAGE_MASK in
  if page =? curr_page (private_data c) then c
  else sis3320_writew SIS3320_ADC_MEM_PAGE page (upd20 (set_curr_page page) c).

Definition sis3320_get_offset (i event_nr : Z) c : Z * card20 :=
  let event_size := u32 (nr_samp_per_ev (get_segment i c) * 2) in
  let membase := u32 (sis3320_get_segment_base c i * 2) in
  let offset := u32 (membase + event_nr * event_size) in
  (Z.land offset SIS3320_PAGEMASK, sis3320_put_page (Z.shiftr offset SIS3320_PAGESHIFT) c).

(** A DMA transfer into user memory. *)
Definition read_user (off addr size : Z) c (u : umem) : Z * umem * card20 :=
  let s := private_data c in
  let '(rc, l, b) := sis33_dma_read_mblt_user card dma_rc junk (u32 (sis_base s + off)) addr size (sis_bus s) in
  (rc, if truthy rc then u else copy_to_user addr l u, set_priv (set_sis_bus b s) c).

(** Pages [page], [page + 1] ... of an event, [n] of them, to [addr]. *)
Fixpoint read_pages (n : nat) (page channel addr : Z) c (u : umem) : Z * umem * card20 :=
  match n with
  | O => (0, u, c)
  | S n =>
      let c := sis3320_put_page page c in
      let '(rc, u, c) := read_user (SIS3320_MEM_ADC channel) addr SIS3320_PAGESIZE c u in
      if truthy rc then (rc, u, c) else read_pages n (u32 (page + 1)) channel (u32 (addr + SIS3320_PAGESIZE)) c u
  end.

Definition sis3320_get_data_bigpage (i channel event_nr : Z) (a : sis33_acq) c (u : umem) : Z * umem * card20 :=
  let nr_samp := nr_samp_per_ev (get_segment i c) in
  let page0 := Z.shiftr (u32 (u32 (sis3320_get_segment_base c i + event_nr * nr_samp) * 2)) SIS3320_PAGESHIFT in
  read_pages (Z.to_nat (nr_samp `quot` SIS3320_PAGESIZE_SAMPLES)) page0 channel (acq_data a) c u.

Definition sis3320_get_data_smallpage (i channel event_nr : Z) (a : sis33_acq) c (u : umem) : Z * umem * card20 :=
  let '(offset, c) := sis3320_get_offset i event_nr c in
  read_user (SIS3320_MEM_ADC channel + offset) (acq_data a) (acq_size a) c u.

Definition sis3320_get_data (i channel event_nr : Z) (a : sis33_acq) c (u : umem) : Z * umem * card20 :=
  if nr_samp_per_ev (get_segment i c) <=? SIS3320_PAGESIZE_SAMPLES
  then sis3320_get_data_smallpage i channel event_nr a c u
  else sis3320_get_data_bigpage i channel event_nr a c u.

Definition sis3320_get_event (s : sis33_segment) (evs : list sis33_event) (channel event_nr : Z) : option sis33_event :=
  evs !! Z.to_nat (channel * nr_events s + event_nr).

(** The ticks of an event, or the error. *)
Definition event_ticks (s : sis33_segment) (event_nr : Z) : option (Z + Z) :=
  match prevticks s with
  | CNull => Some (inr 0)
  | CErr e => Some (inl e)
  | CPtr l => t ← l !! Z.to_nat event_nr; Some (inr t)
  end.

(** [None]: outside an array. *)
Definition sis3320_read_event (i channel event_nr : Z) (a : sis33_acq) c (u : umem)
    : option (Z * sis33_acq * umem * card20) :=
  let s := get_segment i c in
  match events s with
  | CNull => Some (- ENODATA, a, u, c)
  | CErr e => Some (if nr_events s =? 0 then - ENODATA else e, a, u, c)
  | CPtr evs =>
      if nr_events s =? 0 then Some (- ENODATA, a, u, c) else
      t ← event_ticks s event_nr;
      match t with
      | inl e => Some (e, a, u, c)
      | inr ticks =>
          e ← sis3320_get_event s evs channel event_nr;
          let a := Acq33 (acq_data a) (acq_size a) (u32 (ev_nr_samples e)) ticks (u32 (ev_first_samp e)) 1 in
          let '(ret, u, c) := sis3320_get_data i channel event_nr a c u in
          Some (ret, a, u, c)
      end
  end.

(** Events [k], [k + 1] ... of the [n] asked for. *)
Fixpoint fetch_events20 (n k : nat) (i channel : Z) (acqs : list sis33_acq) c (u : umem)
    : option (Z * list sis33_acq * umem * card20) :=
  match n with
  | O => Some (Z.of_nat k, acqs, u, c)
  | S n =>
      match acqs with
      | [] => None
      | a :: acqs =>
          '(ret, a, u, c) ← sis3320_read_event i channel (Z.of_nat k) a c u;
          if truthy ret then Some (ret, a :: acqs, u, c) else
          '(ret, acqs, u, c) ← fetch_events20 n (S k) i channel acqs c u;
          Some (ret, a :: acqs, u, c)
      end
  end.

Definition sis3320_fetch c (i channel : Z) (acqs : list sis33_acq) (n : Z) (u : umem)
    : option (Z * list sis33_acq * umem * card20) := fetch_events20 (Z.to_nat n) 0 i channel acqs c u.

(** ** Acquisition *)

Definition sis3320_trigger c (t : Z) : Z * card20 :=
  if t =? SIS33_TRIGGER_START then (0, sis3320_writew SIS3320_START_SAMP 1 c)
  else if t =? SIS33_TRIGGER_STOP then (0, sis3320_writew SIS3320_STOP_SAMP 1 c)
  else (- EINVAL, c).

Definition sis3320_acq_start c : card20 :=
  let c := upd20 (set_sis_completion false) c in
  let c := if version c =? 3302 then sis3320_writew SIS3302_TSTAMP_CLEAR 1 c else c in
  sis3320_writew SIS3320_ARM 1 c.

Definition sis3320_acq_wait (w : wake) : Z :=
  match w with Completed => 0 | Signalled => - EINTR | TimedOut => - ETIME end.

Definition sis3320_acq_cancel c : Z * card20 := (0, sis3320_acq_complete (sis3320_writew SIS3320_DISARM 1 c)).

Definition sis3320_config_init c : card20 :=
  let '(freq, off) := if version c =? 200 then (200000000, 0x99f2)
                      else if version c =? 3302 then (100000000, 0x91be) else (250000000, 0x8dd6) in
  set_channels ((fun _ => Channel 1 off) <$> channels c) (set_cfg33 (Cfg 0 0 1 1 1 SIS33_CLKSRC_INTERNAL freq 1) c).

Definition sis3320_ops : sis33_card_ops sis3320 :=
  CardOps (Some sis3320_conf_acq) (Some sis3320_conf_ev) (Some sis3320_conf_channels) (Some sis3320_fetch)
    (Some sis3320_trigger) (Some sis3320_acq_start) (Some sis3320_acq_wait) (Some sis3320_acq_cancel)
    (Some sis3320_config_init) sis_completion.

(** The module-specific part of the card, as [sis3320_probe()] fills it in. *)
Definition sis3320_card (num base : Z) (b : vbus) : card20 :=
  Card num (Cfg 0 0 0 0 0 0 0 0) 0 0 0 0 0 0 0 [] [] [] 0 0 0 [] 0 (S3320 base 0 false 0 b).

Definition sis3320_describe c : card20 :=
  Card (number c) (cfg c) (id c) (major_rev c) (minor_rev c) SIS3320_MAX_NR_EVENTS SIS3320_MAX_DELAY 1
    SIS3320_NR_CHANNELS (replicate 8 (Channel 0 0)) sis3320_ev_lengths
    (if version c =? 3302 then sis3302_freqs else if version c =? 250 then sis3320_250_freqs else sis3320_200_freqs)
    SIS3320_MAX_NR_SEGMENTS 1 2 (replicate 2 segment_zero) 0 (private_data c).
End Sis3320.
