(* ===== verification/Sis3320Inv.v ===== *)
(** * The SIS3320 keeps the laws of a digitizer driver

    The instance of [Sis33Driver] for the operations of [Sis3320], so that
    exclusion and wake-ups hold for it as for any other card. *)

From S2P Require Import Prelude VmeBus SkelIo Sis33Dma Sis33Core Sis33Sysfs Sis33Sys Sis33SysInv Sis3320.

Section Driver.
Variable card : list (Z * Z) -> nat -> Z -> Z.
Variable dma_rc : nat -> Z.
Variable junk : nat -> list Z.
Variable kbuf : nat -> Z.
Variable mem_ok : nat -> nat -> bool.
Variable clock : nat -> Z.
Implicit Type c : card20.

Notation ops := (sis3320_ops card dma_rc junk kbuf).
Notation irq := (sis3320_irq_work card dma_rc junk kbuf mem_ok clock).
Notation quiet := (quiet33 ops).
Notation ends := (ends33 ops).
Notation readw := (sis3320_readw card dma_rc junk kbuf).
Notation writew := (sis3320_writew card dma_rc kbuf).

Lemma quiet20_priv p c : sis_completion p = sis_completion (private_data c) -> quiet c (set_priv p c).
Proof. intros E. by split; [apply kept_priv|]. Qed.

Lemma quiet20_upd i f c : (forall s, acquiring (f s) = acquiring s /\ transferring (f s) = transferring s) -> quiet c (upd_segment i f c).
Proof. intros H. by split; [apply kept_upd|]. Qed.

Lemma writew20_quiet off v c : quiet c (writew off v c).
Proof. by apply quiet20_priv. Qed.

Lemma readw20_quiet off c : quiet c (readw off c).2.
Proof. unfold sis3320_readw. destruct (sis33_dma_read _ _ _ _ _ _). by apply quiet20_priv. Qed.

(** Follow the card through an operation. *)
Ltac after x := eapply (quiet33_trans ops); [|x].
Ltac after_write := after ltac:(apply writew20_quiet).

Lemma poll20_quiet n off mask c : quiet c (poll_clear card dma_rc junk kbuf n off mask c).
Proof.
  revert c. induction n as [|n IH]; intros c; cbn [poll_clear]; [apply quiet33_refl|].
  pose proof (readw20_quiet off c) as H. destruct (readw off c) as [v c1]. case_goal; [|done].
  eapply (quiet33_trans ops); [exact H|apply IH].
Qed.

Lemma foldl_quiet {A} (f : card20 -> A -> card20) l c : (forall c x, quiet c (f c x)) -> quiet c (foldl f c l).
Proof.
  intros Hf. revert c. induction l as [|x l IH]; intros c; cbn; [apply quiet33_refl|].
  eapply (quiet33_trans ops); [apply Hf|apply IH].
Qed.

(** ** Configuration *)

Lemma conf_acq20_quiet c g : quiet c (sis3320_conf_acq card dma_rc kbuf c g).2.
Proof. unfold sis3320_conf_acq. cbn [snd]. do 3 after_write. apply writew20_quiet. Qed.

Lemma conf_ev20_quiet c d : quiet c (sis3320_conf_ev card dma_rc kbuf c d).2.
Proof.
  unfold sis3320_conf_ev. cbn [snd]. after_write. case_goal; [after_write|]; do 2 after_write; apply writew20_quiet.
Qed.

Lemma conf_channels20_quiet c : quiet c (sis3320_conf_channels card dma_rc junk kbuf c).2.
Proof.
  unfold sis3320_conf_channels, sis3320_apply_channels_offset. cbn [snd].
  assert (forall off v n o m c0, quiet c0 (poll_clear card dma_rc junk kbuf n o m (writew off v c0))) as Hp.
  { intros. eapply (quiet33_trans ops); [apply writew20_quiet|apply poll20_quiet]. }
  case_goal; apply foldl_quiet; intros c0 i.
  - after ltac:(apply Hp). after ltac:(apply Hp). apply writew20_quiet.
  - after ltac:(apply Hp). after ltac:(apply Hp). apply writew20_quiet.
Qed.

Lemma trigger20_quiet c t : quiet c (sis3320_trigger card dma_rc kbuf c t).2.
Proof. unfold sis3320_trigger. repeat case_goal; cbn [snd]; try apply writew20_quiet. apply quiet33_refl. Qed.

(** ** Transfers *)

Lemma put_page_quiet page c : quiet c (sis3320_put_page card dma_rc kbuf page c).
Proof.
  unfold sis3320_put_page. case_goal; [apply quiet33_refl|]. after_write. by apply quiet20_priv.
Qed.

Lemma read_user_quiet off addr size c u : quiet c (read_user card dma_rc junk off addr size c u).2.
Proof. unfold read_user. destruct (sis33_dma_read_mblt_user _ _ _ _ _ _ _) as [[rc l] b]. by apply quiet20_priv. Qed.

Lemma read_pages_quiet n page ch addr c u : quiet c (read_pages card dma_rc junk kbuf n page ch addr c u).2.
Proof.
  revert page addr c u. induction n as [|n IH]; intros page addr c u; cbn [read_pages]; [apply quiet33_refl|].
  set (c1 := sis3320_put_page _ _ _ page c). assert (quiet c c1) as H1 by apply put_page_quiet.
  pose proof (read_user_quiet (SIS3320_MEM_ADC ch) addr SIS3320_PAGESIZE c1 u) as H2.
  destruct (read_user _ _ _ _ _ _ c1 u) as [[rc u1] c2]. cbn [snd] in H2.
  assert (quiet c c2) as H3 by (by eapply (quiet33_trans ops)). case_goal; [done|].
  eapply (quiet33_trans ops); [exact H3|apply IH].
Qed.

Lemma get_data_quiet i ch k a c u : quiet c (sis3320_get_data card dma_rc junk kbuf i ch k a c u).2.
Proof.
  unfold sis3320_get_data. case_goal; [|apply read_pages_quiet].
  unfold sis3320_get_data_smallpage, sis3320_get_offset. eapply (quiet33_trans ops); [apply put_page_quiet|apply read_user_quiet].
Qed.

Lemma read_event20_quiet i ch k a c u ret a' u' c' :
  sis3320_read_event card dma_rc junk kbuf i ch k a c u = Some (ret, a', u', c') -> quiet c c'.
Proof.
  unfold sis3320_read_event. destruct (events _) as [|e|evs]; [by intros [= _ _ _ <-]..|].
  case_goal; [by intros [= _ _ _ <-]|]. destruct (event_ticks _ _) as [[e|t]|]; cbn [mbind option_bind]; [by intros [= _ _ _ <-]| |done].
  destruct (sis3320_get_event _ _ _ _) as [e|]; cbn [mbind option_bind]; [|done].
  set (a1 := Acq33 _ _ _ _ _ _). pose proof (get_data_quiet i ch k a1 c u) as H.
  destruct (sis3320_get_data _ _ _ _ _ _ _ _ _ _) as [[r u1] c1]. by intros [= _ _ _ <-].
Qed.

Lemma fetch20_quiet n i ch acqs c u : forall k ret acqs' u' c',
  fetch_events20 card dma_rc junk kbuf n k i ch acqs c u = Some (ret, acqs', u', c') -> quiet c c'.
Proof.
  revert acqs c u. induction n as [|n IH]; intros acqs c u k ret acqs' u' c'; cbn [fetch_events20].
  { intros [= _ _ _ <-]. apply quiet33_refl. }
  destruct acqs as [|a acqs]; [done|].
  destruct (sis3320_read_event _ _ _ _ _ _ _ _ _ _) as [[[[r a1] u1] c1]|] eqn:E; cbn [mbind option_bind]; [|done].
  apply read_event20_quiet in E. case_goal; [by intros [= _ _ _ <-]|].
  destruct (fetch_events20 _ _ _ _ _ _ _ _ _ _ _) as [[[[r2 a2] u2] c2]|] eqn:E2; cbn [mbind option_bind]; [|done].
  intros [= _ _ _ <-]. eapply (quiet33_trans ops); [exact E|]. by eapply IH.
Qed.

(** ** The end of an acquisition *)

Lemma read_dirs_quiet i n chs c : quiet c (read_dirs card dma_rc junk kbuf i n chs c).2.
Proof.
  revert c. induction chs as [|ch chs IH]; intros c; cbn [read_dirs]; [apply quiet33_refl|].
  assert (quiet c (sis3320_read_events_dir card dma_rc junk kbuf i ch n c).2) as H.
  { unfold sis3320_read_events_dir. destruct (sis33_dma_read32be_blt _ _ _ _ _ _ _) as [[r raw] b].
    case_goal; by apply quiet20_priv. }
  destruct (sis3320_read_events_dir _ _ _ _ _ _ _ _) as [[r evs] c1]. cbn [snd] in H. case_goal; [done|].
  specialize (IH c1). destruct (read_dirs _ _ _ _ _ _ _ c1) as [[r2 more] c2]. cbn [snd] in *. by eapply (quiet33_trans ops).
Qed.

Lemma read_segment_quiet i c : quiet c (sis3320_read_segment card dma_rc junk kbuf mem_ok i c).
Proof.
  unfold sis3320_read_segment. set (c0 := match events _ with CPtr _ => _ | _ => c end).
  assert (quiet c c0) as H0 by (unfold c0; destruct (events _); try apply quiet33_refl; by apply quiet20_upd).
  eapply (quiet33_trans ops); [exact H0|]. pose proof (readw20_quiet SIS3320_EV_COUNTER c0) as H1.
  destruct (readw _ c0) as [v c1]. cbn [snd] in H1. eapply (quiet33_trans ops); [exact H1|].
  set (c2 := upd_segment i (set_nr_events _) c1). eapply (quiet33_trans ops); [by apply (quiet20_upd i (set_nr_events (Z.land v EV_COUNTER_MASK)))|].
  fold c2. case_goal; [apply quiet33_refl|]. do 2 (case_goal; [by apply quiet20_upd|]).
  match goal with |- context [read_dirs _ _ _ _ ?i' ?n ?l c2] => pose proof (read_dirs_quiet i' n l c2) as H2; destruct (read_dirs card dma_rc junk kbuf i' n l c2) as [[r evs] c3] end.
  cbn [snd] in H2. eapply (quiet33_trans ops); [exact H2|]. case_goal; by apply quiet20_upd.
Qed.

Lemma read_prevticks_quiet i c : quiet c (sis3320_read_prevticks card dma_rc junk kbuf mem_ok i c).
Proof.
  unfold sis3320_read_prevticks. case_goal; [apply quiet33_refl|].
  set (c1 := upd_segment i (set_prevticks CNull) c). eapply (quiet33_trans ops); [by apply (quiet20_upd i (set_prevticks CNull))|].
  fold c1. do 2 (case_goal; [by apply quiet20_upd|]). unfold sis3302_pt_cache_rawfill.
  destruct (sis33_dma_read32be_blt _ _ _ _ _ _ _) as [[r raw] b]. set (c2 := set_priv _ c1).
  assert (quiet c1 c2) as H by (by apply quiet20_priv). case_goal; [done|].
  eapply (quiet33_trans ops); [exact H|by apply quiet20_upd].
Qed.

Lemma complete_ends c : ends c (sis3320_acq_complete c).
Proof. right. split; [|done]. unfold sis3320_acq_complete. apply kept_priv. Qed.

Lemma irq20_ends c : ends c (irq c).
Proof.
  unfold sis3320_irq_work. pose proof (readw20_quiet SIS3320_INTCTL c) as H1. destruct (readw _ c) as [st c1]. cbn [snd] in H1.
  eapply ends33_trans; [apply ends33_quiet, H1|]. case_goal; [|apply ends33_quiet, quiet33_refl].
  set (c2 := writew SIS3320_INTCTL INTCTL_DICL_LEV c1). eapply ends33_trans; [apply ends33_quiet, (writew20_quiet SIS3320_INTCTL INTCTL_DICL_LEV)|].
  fold c2. eapply ends33_trans; [|apply ends33_quiet, writew20_quiet]. eapply ends33_trans; [|apply complete_ends]. apply ends33_quiet.
  after ltac:(apply read_prevticks_quiet). after ltac:(apply read_segment_quiet). by apply quiet20_upd.
Qed.

Lemma start20_kept c : flags_kept c (sis3320_acq_start card dma_rc kbuf c).
Proof.
  unfold sis3320_acq_start. eapply flags_kept_trans; [|apply kept_priv].
  case_goal; [eapply flags_kept_trans; [|apply kept_priv]|]; apply kept_priv.
Qed.

#[export] Instance sis3320_driver : Sis33Driver ops irq.
Proof.
  split.
  - intros f c d [= <-]. apply conf_ev20_quiet.
  - intros f c g [= <-]. apply conf_acq20_quiet.
  - intros f c [= <-]. apply conf_channels20_quiet.
  - intros f c v [= <-]. apply trigger20_quiet.
  - intros f c i ch acqs k u ret acqs' u' c' [= <-]. apply fetch20_quiet.
  - intros f c [= <-]. apply start20_kept.
  - intros f c [= <-]. eapply ends33_trans; [apply ends33_quiet, writew20_quiet|apply complete_ends].
  - apply irq20_ends.
Qed.
End Driver.
