(* ===== verification/Sis3320Fetch.v ===== *)
(** * Transfers of a SIS3320 card

    Whatever page the window of the card shows, a transfer delivers the samples
    of its events: byte for byte the memory of the channel from the start of the
    segment and the event on. *)

From S2P Require Import Prelude VmeBus SkelIo Sis33Dma Sis33Core Sis33Sysfs Sis33Sys Sis33SysInv Sis3320 Sis3320Inv.

(** ** User memory *)

Definition in_user (dst n x : Z) : Prop := dst <= x < dst + n.

Lemma copied_byte dst l u j : 0 <= j < Z.of_nat (length l) -> copy_to_user dst l u (dst + j) = nth (Z.to_nat j) l 0.
Proof.
  intros H. unfold copy_to_user. rewrite (proj2 (Z.leb_le dst _)), (proj2 (Z.ltb_lt (dst + j) _)) by lia.
  cbn [andb]. do 2 f_equal. lia.
Qed.

Lemma copied_aside dst l u x : ~ in_user dst (Z.of_nat (length l)) x -> copy_to_user dst l u x = u x.
Proof.
  unfold in_user, copy_to_user. intros H. destruct (Z.leb_spec dst x), (Z.ltb_spec x (dst + Z.of_nat (length l))); try done. lia.
Qed.

Section Fetch.
Variable card : list (Z * Z) -> nat -> Z -> Z.
Variable dma_rc : nat -> Z.
Variable junk : nat -> list Z.
Variable kbuf : nat -> Z.
Hypothesis no_fault : forall n, dma_rc n = 0.
Hypothesis kbuf_ok : forall n, 0 <= kbuf n < 2 ^ 31.

(** The memory of each channel, in bytes, seen through the window at the page
    last selected. *)
Variable base : Z.
Variable mem : Z -> Z -> Z.
Definition page_reg (h : list (Z * Z)) : Z := Z.land (last_write (base + SIS3320_ADC_MEM_PAGE) h) ADC_MEM_PAGE_MASK.
Hypothesis base_fits : 0 <= base /\ base + 2 ^ 27 <= 2 ^ 32.
Hypothesis window : forall h t ch off, 0 <= ch < 8 -> 0 <= off < SIS3320_PAGESIZE ->
  card h t (base + SIS3320_MEM_ADC ch + off) = mem ch (page_reg h * SIS3320_PAGESIZE + off).
Implicit Type c : card20.

Notation put_page := (sis3320_put_page card dma_rc kbuf).

(** The driver remembers the page. *)
Definition paged c : Prop :=
  let s := private_data c in sis_base s = base /\ curr_page s = page_reg (hist (sis_bus s)).

(** What a transfer leaves alone. *)
Definition frame c c' : Prop := segments c' = segments c /\ ev_lengths c' = ev_lengths c /\ n_segments c' = n_segments c.

Lemma frame_trans c1 c2 c3 : frame c1 c2 -> frame c2 c3 -> frame c1 c3.
Proof. unfold frame. intros (-> & -> & ->) (-> & -> & ->). done. Qed.

Lemma page_below p : 0 <= p < 8 -> Z.land p ADC_MEM_PAGE_MASK = p.
Proof. intros H. unfold ADC_MEM_PAGE_MASK. change 7 with (Z.ones 3). rewrite Z.land_ones by lia. by apply Z.mod_small. Qed.

Lemma put_page_spec p c : paged c -> 0 <= p < 8 ->
  paged (put_page p c) /\ frame c (put_page p c) /\ page_reg (hist (sis_bus (private_data (put_page p c)))) = p.
Proof.
  intros [Hb Hp] Hr. unfold sis3320_put_page. rewrite page_below by done.
  destruct (Z.eqb_spec p (curr_page (private_data c))) as [->|Hne]; [done|].
  unfold sis3320_writew, upd20. cbn [private_data set_priv set_curr_page sis_base sis_bus]. rewrite Hb.
  rewrite (u32_id (base + SIS3320_ADC_MEM_PAGE)) by (unfold is_u32, SIS3320_ADC_MEM_PAGE; lia).
  rewrite dma_write_spec by (try done; unfold is_u32; lia).
  assert (page_reg (hist (wrote (base + SIS3320_ADC_MEM_PAGE) p (sis_bus (private_data c)))) = p) as Hpr.
  { unfold page_reg, wrote. cbn [hist]. rewrite last_write_snoc. cbn [fst snd]. rewrite Z.eqb_refl. by apply page_below. }
  split; [|by split]. split; [exact Hb|]. exact (eq_sym Hpr).
Qed.

(** ** One transfer *)

Notation read_user := (read_user card dma_rc junk).

Lemma read_user_spec ch off addr size c u :
  paged c -> 0 <= ch < 8 -> 0 <= off -> 0 < size -> off + size <= SIS3320_PAGESIZE -> 0 <= addr -> addr + size < 2 ^ 32 ->
  exists u' c', read_user (SIS3320_MEM_ADC ch + off) addr size c u = (0, u', c') /\ paged c' /\ frame c c' /\
    (forall j, 0 <= j < size ->
       u' (addr + j) = mem ch (page_reg (hist (sis_bus (private_data c))) * SIS3320_PAGESIZE + off + j)) /\
    (forall x, ~ in_user addr size x -> u' x = u x).
Proof.
  intros [Hb Hp] Hc Ho Hs Hos Ha Has. unfold Sis3320.read_user. rewrite Hb. unfold SIS3320_PAGESIZE in *.
  rewrite (u32_id (base + _)) by (unfold is_u32, SIS3320_MEM_ADC; lia). rewrite dma_mblt_user_spec by done.
  cbn [truthy Z.eqb negb]. set (b := sis_bus (private_data c)).
  assert (length (card_bytes card b (base + (SIS3320_MEM_ADC ch + off)) size) = Z.to_nat size) as Hl by apply card_bytes_length.
  do 2 eexists. split; [reflexivity|]. split_and!; try done.
  - intros j Hj. rewrite copied_byte by (rewrite Hl; lia). unfold card_bytes.
    rewrite nth_lookup, list_lookup_fmap, (lookup_seqZ_lt 0 size) by lia. cbn [fmap option_fmap option_map default].
    change (Datatypes.id ?x) with x. replace (0 + Z.of_nat (Z.to_nat j)) with j by lia.
    replace (base + (SIS3320_MEM_ADC ch + off) + j) with (base + SIS3320_MEM_ADC ch + (off + j)) by lia.
    unfold SIS3320_PAGESIZE in window. rewrite window by lia. f_equal. unfold SIS3320_PAGESIZE. lia.
  - intros x Hx. apply copied_aside. rewrite Hl, Z2Nat.id by lia. done.
Qed.

Lemma read_pages_spec ch : forall n page addr c u,
  paged c -> 0 <= ch < 8 -> 0 <= page -> page + Z.of_nat n <= 8 -> 0 <= addr -> addr + Z.of_nat n * SIS3320_PAGESIZE < 2 ^ 32 ->
  exists u' c', read_pages card dma_rc junk kbuf n page ch addr c u = (0, u', c') /\ paged c' /\ frame c c' /\
    (forall j, 0 <= j < Z.of_nat n * SIS3320_PAGESIZE -> u' (addr + j) = mem ch (page * SIS3320_PAGESIZE + j)) /\
    (forall x, ~ in_user addr (Z.of_nat n * SIS3320_PAGESIZE) x -> u' x = u x).
Proof.
  induction n as [|n IH]; intros page addr c u Hp Hc Hg Hgn Ha Han; cbn [read_pages].
  { exists u, c. split_and!; try done. intros j Hj. lia. }
  destruct (put_page_spec page c Hp ltac:(lia)) as (Hp1 & Hf1 & Hr). set (c1 := put_page page c) in *.
  destruct (read_user_spec ch 0 addr SIS3320_PAGESIZE c1 u) as (u2 & c2 & E & Hp2 & Hf2 & Hu & Hx);
    try done; try (unfold SIS3320_PAGESIZE in *; lia).
  rewrite Z.add_0_r in E. rewrite E, Hr in *. cbn [truthy Z.eqb negb].
  unfold SIS3320_PAGESIZE in *. rewrite (u32_id (page + 1)), (u32_id (addr + _)) by (unfold is_u32; lia).
  destruct (IH (page + 1) (addr + 0x800000) c2 u2) as (u3 & c3 & -> & Hp3 & Hf3 & Hu3 & Hx3); try done; try lia.
  exists u3, c3. split_and!; try done; try (eapply frame_trans; [exact Hf1|by eapply frame_trans]); [..].
  - intros j Hj. destruct (Z.lt_ge_cases j 0x800000) as [Hlt|Hge].
    + rewrite Hx3 by (unfold in_user; lia). rewrite Hu by lia. f_equal. lia.
    + replace (addr + j) with (addr + 0x800000 + (j - 0x800000)) by lia. rewrite Hu3 by lia. f_equal. lia.
  - intros x Hout. unfold in_user in *. rewrite Hx3 by (unfold in_user; lia). apply Hx. unfold in_user. lia.
Qed.

(** ** One event *)

(** A segment that has been acquired, in a card with 32 Msamples a channel. *)
Definition filled20 (i : Z) c : Prop :=
  let s := get_segment i c in
  0 <= i < n_segments c /\ (n_segments c = 1 \/ n_segments c = 2) /\ ev_lengths c = sis3320_ev_lengths /\
  nr_samp_per_ev s ∈ sis3320_ev_lengths /\ 0 < nr_events s /\ nr_events s * nr_samp_per_ev s <= 2 ^ 25 `div` n_segments c.

Lemma filled20_frame i c c' : frame c c' -> filled20 i c -> filled20 i c' /\ get_segment i c' = get_segment i c.
Proof. intros (E1 & E2 & E3) H. unfold filled20, get_segment in *. by rewrite E1, E2, E3. Qed.

(** The first byte of an event in the memory of a channel. *)
Definition event_start (i k : Z) c : Z := 2 * (sis3320_get_segment_base c i + k * nr_samp_per_ev (get_segment i c)).

Lemma segment_base_spec i c : filled20 i c ->
  sis3320_get_segment_base c i = i * (2 ^ 25 `div` n_segments c).
Proof.
  intros (Hi & Hn & He & _). unfold sis3320_get_segment_base. rewrite He. destruct Hn as [Hn|Hn]; rewrite Hn in *.
  - assert (i = 0) as -> by lia. done.
  - assert (i = 0 \/ i = 1) as [-> | ->] by lia; done.
Qed.

(** Events are aligned: with the pages, or inside one. *)
Lemma event_placed i k c : filled20 i c -> 0 <= k < nr_events (get_segment i c) ->
  let nr := nr_samp_per_ev (get_segment i c) in
  0 < nr <= 2 ^ 25 /\ 0 <= event_start i k c /\ event_start i k c + 2 * nr <= 2 ^ 26 /\
  (if nr <=? SIS3320_PAGESIZE_SAMPLES
   then event_start i k c mod SIS3320_PAGESIZE + 2 * nr <= SIS3320_PAGESIZE
   else exists p, nr = p * SIS3320_PAGESIZE_SAMPLES /\ event_start i k c mod SIS3320_PAGESIZE = 0).
Proof.
  intros Hf Hk. cbv zeta. unfold event_start. rewrite (segment_base_spec i c Hf).
  destruct Hf as (Hi & Hn & He & Hnr & Hev & Hfit). set (nr := nr_samp_per_ev (get_segment i c)) in *.
  set (ne := nr_events (get_segment i c)) in *.
  assert (0 < nr <= 2 ^ 25) as Hr.
  { assert (Forall (fun v => 0 < v <= 2 ^ 25) sis3320_ev_lengths) as HF by (repeat constructor; lia).
    rewrite Forall_forall in HF. by apply HF. }
  assert (0 <= i * (2 ^ 25 `div` n_segments c) /\ i * (2 ^ 25 `div` n_segments c) + 2 ^ 25 `div` n_segments c <= 2 ^ 25) as Hseg.
  { destruct Hn as [Hn|Hn]; rewrite Hn in *; rewrite ?Z.div_1_r; change (2 ^ 25 `div` 2) with (2 ^ 24); nia. }
  assert (k * nr + nr <= ne * nr) as Hkn by nia. split_and!; try lia.
  assert (exists q, i * (2 ^ 25 `div` n_segments c) = q * nr) as [q Hq].
  { assert (Forall (fun v => 2 ^ 25 mod v = 0) sis3320_ev_lengths) as H25 by (by repeat constructor).
    assert (Forall (fun v => v <= 2 ^ 24 -> 2 ^ 24 mod v = 0) sis3320_ev_lengths) as H24 by (repeat constructor; lia).
    rewrite Forall_forall in H25, H24. specialize (H25 nr Hnr). specialize (H24 nr Hnr).
    destruct Hn as [Hn|Hn]; rewrite Hn in *.
    - exists 0. assert (i = 0) as -> by lia. done.
    - change (2 ^ 25 `div` 2) with (2 ^ 24) in *. exists (i * (2 ^ 24 / nr)).
      assert (nr <= 2 ^ 24) as Hle by nia. specialize (H24 Hle). pose proof (Z.div_mod (2 ^ 24) nr). nia. }
  replace (2 * (i * (2 ^ 25 `div` n_segments c) + k * nr)) with (2 * nr * (q + k)) by lia.
  assert (Forall (fun v => if v <=? SIS3320_PAGESIZE_SAMPLES then SIS3320_PAGESIZE_SAMPLES mod v = 0
                           else v mod SIS3320_PAGESIZE_SAMPLES = 0) sis3320_ev_lengths) as HP by (by repeat constructor).
  rewrite Forall_forall in HP. specialize (HP nr Hnr). unfold SIS3320_PAGESIZE, SIS3320_PAGESIZE_SAMPLES in *.
  destruct (Z.leb_spec nr 0x400000) as [Hle|Hgt].
  - set (p := 0x400000 / nr). assert (0x400000 = nr * p) as Hp by (pose proof (Z.div_mod 0x400000 nr); unfold p; lia).
    replace 0x800000 with (2 * nr * p) by lia. assert (0 < p) by nia.
    rewrite Z.mul_mod_distr_l by lia. pose proof (Z.mod_pos_bound (q + k) p). nia.
  - exists (nr / 0x400000). pose proof (Z.div_mod nr 0x400000). split; [lia|].
    replace (2 * nr * (q + k)) with (nr / 0x400000 * (q + k) * 0x800000) by lia. apply Z.mod_mul. lia.
Qed.

Lemma get_data_spec i ch k a c u :
  filled20 i c -> paged c -> 0 <= ch < 8 -> 0 <= k < nr_events (get_segment i c) ->
  let nr := nr_samp_per_ev (get_segment i c) in
  acq_size a = 2 * nr -> 0 <= acq_data a -> acq_data a + 2 * nr < 2 ^ 32 ->
  exists u' c', sis3320_get_data card dma_rc junk kbuf i ch k a c u = (0, u', c') /\ paged c' /\ frame c c' /\
    (forall j, 0 <= j < 2 * nr -> u' (acq_data a + j) = mem ch (event_start i k c + j)) /\
    (forall x, ~ in_user (acq_data a) (2 * nr) x -> u' x = u x).
Proof.
  cbv zeta. intros Hf Hp Hc Hk Hs Ha Han. destruct (event_placed i k c Hf Hk) as (Hr & Hl & Hl2 & Hal).
  assert (0 <= sis3320_get_segment_base c i) as Hsb.
  { rewrite (segment_base_spec i c Hf). destruct Hf as (Hi & [Hn|Hn] & _); rewrite Hn; (apply Z.mul_nonneg_nonneg; [lia|done]). }
  set (nr := nr_samp_per_ev (get_segment i c)) in *. unfold event_start in *. fold nr in Hl, Hl2, Hal |- *.
  set (sb := sis3320_get_segment_base c i) in *. set (L := 2 * (sb + k * nr)) in *. unfold sis3320_get_data. fold nr.
  assert (0 <= k * nr) as Hkn by nia.
  assert (L mod SIS3320_PAGESIZE = Z.land L SIS3320_PAGEMASK) as Hmask.
  { change SIS3320_PAGEMASK with (Z.ones 23). by rewrite Z.land_ones by lia. }
  assert (Z.shiftr L SIS3320_PAGESHIFT = L / SIS3320_PAGESIZE) as Hsh.
  { unfold SIS3320_PAGESHIFT. by rewrite Z.shiftr_div_pow2 by lia. }
  assert (L = SIS3320_PAGESIZE * (L / SIS3320_PAGESIZE) + L mod SIS3320_PAGESIZE) as Hdm by (apply Z.div_mod; done).
  unfold SIS3320_PAGESIZE in Hdm, Hmask, Hsh, Hal |- *.
  pose proof (Z.mod_pos_bound L 0x800000 ltac:(lia)) as Hmb. assert (0 <= L / 0x800000 < 8) as Hpg by lia.
  destruct (nr <=? SIS3320_PAGESIZE_SAMPLES).
  - unfold sis3320_get_data_smallpage, sis3320_get_offset. fold nr sb.
    rewrite (u32_id (nr * 2)) by (unfold is_u32; lia). rewrite (u32_id (sb * 2)) by (unfold is_u32; lia).
    replace (sb * 2 + k * (nr * 2)) with L by (unfold L; lia). rewrite (u32_id L) by (unfold is_u32; lia).
    rewrite Hsh, <- Hmask. destruct (put_page_spec (L / 0x800000) c Hp Hpg) as (Hp1 & Hf1 & Hr1).
    set (c1 := put_page _ c) in *.
    destruct (read_user_spec ch (L mod 0x800000) (acq_data a) (acq_size a) c1 u) as (u2 & c2 & -> & Hp2 & Hf2 & Hu & Hx);
      try done; try (unfold SIS3320_PAGESIZE; lia).
    rewrite Hr1, Hs in *. exists u2, c2. split_and!; try done; [by eapply frame_trans|].
    intros j Hj. rewrite Hu by done. f_equal. unfold SIS3320_PAGESIZE. lia.
  - destruct Hal as (p & Hnr & Hz). unfold sis3320_get_data_bigpage. fold nr sb. unfold SIS3320_PAGESIZE_SAMPLES in *.
    rewrite (u32_id (sb + k * nr)) by (unfold is_u32, L in *; lia). replace ((sb + k * nr) * 2) with L by (unfold L; lia).
    rewrite (u32_id L) by (unfold is_u32; lia). rewrite Hsh.
    assert (nr `quot` 0x400000 = p) as -> by (rewrite Hnr, Z.quot_mul; lia).
    destruct (read_pages_spec ch (Z.to_nat p) (L / 0x800000) (acq_data a) c u) as (u2 & c2 & -> & Hp2 & Hf2 & Hu & Hx);
      try done; try (unfold SIS3320_PAGESIZE; lia).
    rewrite Z2Nat.id in * by lia. unfold SIS3320_PAGESIZE in *. exists u2, c2. split_and!; try done.
    + intros j Hj. rewrite Hu by lia. f_equal. lia.
    + intros x Hout. apply Hx. by replace (p * 0x800000) with (2 * nr) by lia.
Qed.
(** ** A transfer *)

(** What the descriptor of an event becomes. *)
Definition delivered20 (ticks : Z) (e : sis33_event) (a : sis33_acq) : sis33_acq :=
  Acq33 (acq_data a) (acq_size a) (u32 (ev_nr_samples e)) ticks (u32 (ev_first_samp e)) 1.

(** The buffers fit their events and the address space, and are apart. *)
Definition buffers20 (nr : Z) (acqs : list sis33_acq) : Prop :=
  (forall a, a ∈ acqs -> acq_size a = 2 * nr /\ 0 <= acq_data a /\ acq_data a + 2 * nr < 2 ^ 32) /\
  (forall i j a a' x, acqs !! i = Some a -> acqs !! j = Some a' ->
     in_user (acq_data a) (2 * nr) x -> in_user (acq_data a') (2 * nr) x -> i = j).

Lemma buffers20_tail nr a acqs : buffers20 nr (a :: acqs) -> buffers20 nr acqs.
Proof.
  intros [H1 H2]. split.
  - intros b Hb. apply H1. by right.
  - intros i j b b' x Hi Hj Hb Hb'. specialize (H2 (S i) (S j) b b' x Hi Hj Hb Hb'). lia.
Qed.

(** The segment has its directory of events and, on a SIS3302, its time stamps. *)
Definition directory (i : Z) c (evs : list sis33_event) (ticks : Z -> Z) : Prop :=
  let s := get_segment i c in
  events s = CPtr evs /\ Z.of_nat (length evs) = SIS3320_NR_CHANNELS * nr_events s /\
  forall k, 0 <= k < nr_events s -> event_ticks s k = Some (inr (ticks k)).

Lemma read_event20_spec i ch k a c u evs ticks :
  filled20 i c -> paged c -> 0 <= ch < 8 -> 0 <= k < nr_events (get_segment i c) -> directory i c evs ticks ->
  let nr := nr_samp_per_ev (get_segment i c) in
  acq_size a = 2 * nr -> 0 <= acq_data a -> acq_data a + 2 * nr < 2 ^ 32 ->
  exists e u' c', evs !! Z.to_nat (ch * nr_events (get_segment i c) + k) = Some e /\
    sis3320_read_event card dma_rc junk kbuf i ch k a c u = Some (0, delivered20 (ticks k) e a, u', c') /\
    paged c' /\ frame c c' /\
    (forall j, 0 <= j < 2 * nr -> u' (acq_data a + j) = mem ch (event_start i k c + j)) /\
    (forall x, ~ in_user (acq_data a) (2 * nr) x -> u' x = u x).
Proof.
  cbv zeta. intros Hf Hp Hc Hk (He & Hl & Ht) Hs Ha Han. unfold sis3320_read_event. rewrite He.
  rewrite (proj2 (Z.eqb_neq _ 0)) by lia. rewrite (Ht k Hk). cbn [mbind option_bind].
  destruct (lookup_lt_is_Some_2 evs (Z.to_nat (ch * nr_events (get_segment i c) + k))) as [e Hev].
  { unfold SIS3320_NR_CHANNELS in Hl. nia. }
  unfold sis3320_get_event. rewrite Hev. cbn [mbind option_bind]. set (a' := Acq33 _ _ _ _ _ _).
  destruct (get_data_spec i ch k a' c u Hf Hp Hc Hk Hs Ha Han) as (u' & c' & -> & Hp' & Hf' & Hu & Hx).
  exists e, u', c'. by split_and!.
Qed.

Lemma fetch_events20_spec i ch evs ticks : forall n k acqs c u,
  filled20 i c -> paged c -> 0 <= ch < 8 -> directory i c evs ticks ->
  Z.of_nat (k + n) <= nr_events (get_segment i c) -> (n <= length acqs)%nat ->
  let nr := nr_samp_per_ev (get_segment i c) in
  buffers20 nr (take n acqs) ->
  exists acqs' u' c',
    fetch_events20 card dma_rc junk kbuf n k i ch acqs c u = Some (Z.of_nat (k + n), acqs', u', c') /\ paged c' /\ frame c c' /\
    (forall m a, (m < n)%nat -> acqs !! m = Some a -> exists e,
       evs !! Z.to_nat (ch * nr_events (get_segment i c) + Z.of_nat (k + m)) = Some e /\
       acqs' !! m = Some (delivered20 (ticks (Z.of_nat (k + m))) e a) /\
       forall j, 0 <= j < 2 * nr -> u' (acq_data a + j) = mem ch (event_start i (Z.of_nat (k + m)) c + j)) /\
    (forall x, (forall a, a ∈ take n acqs -> ~ in_user (acq_data a) (2 * nr) x) -> u' x = u x).
Proof.
  induction n as [|n IH]; intros k acqs c u Hf Hp Hc Hd Hk Hl; cbv zeta; intros Hb.
  { exists acqs, u, c. cbn [fetch_events20]. rewrite Nat.add_0_r. split_and!; try done. intros m a Hm. lia. }
  destruct acqs as [|a acqs]; cbn [length] in Hl; [lia|]. cbn [fetch_events20]. cbn [take] in Hb.
  destruct (proj1 Hb a) as (Ha1 & Ha2 & Ha3); [by left|].
  destruct (read_event20_spec i ch (Z.of_nat k) a c u evs ticks Hf Hp Hc ltac:(lia) Hd Ha1 Ha2 Ha3)
    as (e & u1 & c1 & He & -> & Hp1 & Hf1 & Hu1 & Hx1).
  cbn [mbind option_bind truthy Z.eqb negb]. destruct (filled20_frame i c c1 Hf1 Hf) as [Hf1' Hs1].
  assert (forall m, event_start i m c1 = event_start i m c) as Hes.
  { intros m. unfold event_start. rewrite Hs1. unfold sis3320_get_segment_base. destruct Hf1 as (_ & -> & ->). done. }
  assert (directory i c1 evs ticks) as Hd1 by (unfold directory; by rewrite Hs1).
  destruct (IH (S k) acqs c1 u1) as (acqs' & u2 & c2 & -> & Hp2 & Hf2 & Hm & Hx2); rewrite ?Hs1; try done; try lia.
  { by eapply buffers20_tail. }
  rewrite Hs1 in *. cbn [mbind option_bind]. do 3 eexists. split_and!.
  - by rewrite Nat.add_succ_comm.
  - done.
  - by eapply frame_trans.
  - intros [|m] b Hlt Hlk; cbn in Hlk.
    + simplify_eq. rewrite Nat.add_0_r. exists e. split_and!; [done|done|]. intros j Hj. rewrite Hx2; [by apply Hu1|].
      intros b' Hb' Hin. apply list_elem_of_lookup in Hb' as [q Hq]. destruct Hb as [_ Hap].
      specialize (Hap 0%nat (S q) b b' (acq_data b + j) eq_refl Hq). discriminate Hap; [unfold in_user; lia|exact Hin].
    + destruct (Hm m b ltac:(lia) Hlk) as (e' & He' & Hl' & Hu'). rewrite Nat.add_succ_comm in He', Hl', Hu'.
      exists e'. split_and!; [done|done|]. intros j Hj. by rewrite Hu', Hes.
  - intros x Hout. rewrite Hx2; [|intros b Hin; apply Hout; by right]. apply Hx1, Hout. by left.
Qed.

(** C37: Whatever page the window shows, a transfer of the first [n] events of a segment
    of a SIS3320 fills in each descriptor from the directory of the channel, puts
    into each buffer the samples of its event, byte for byte the memory of the
    channel from the event's start on, and changes no other byte of user memory;
    the driver still knows the page of the window. *)
Theorem sis3320_fetch_delivers i chan acqs n c u evs ticks :
  let nr := nr_samp_per_ev (get_segment i c) in
  filled20 i c -> paged c -> 0 <= chan < 8 -> directory i c evs ticks ->
  0 < n <= nr_events (get_segment i c) -> (Z.to_nat n <= length acqs)%nat ->
  buffers20 nr (take (Z.to_nat n) acqs) ->
  exists acqs' u' c',
    sis3320_fetch card dma_rc junk kbuf c i chan acqs n u = Some (n, acqs', u', c') /\ paged c' /\
    (forall k a, 0 <= k < n -> acqs !! Z.to_nat k = Some a -> exists e,
       evs !! Z.to_nat (chan * nr_events (get_segment i c) + k) = Some e /\
       acqs' !! Z.to_nat k = Some (delivered20 (ticks k) e a) /\
       forall j, 0 <= j < 2 * nr ->
         u' (acq_data a + j) = mem chan (2 * (i * (2 ^ 25 `div` n_segments c) + k * nr) + j)) /\
    (forall x, (forall a, a ∈ take (Z.to_nat n) acqs -> ~ in_user (acq_data a) (2 * nr) x) -> u' x = u x).
Proof.
  cbv zeta. intros Hf Hp Hc Hd Hn Hl Hb.
  destruct (fetch_events20_spec i chan evs ticks (Z.to_nat n) 0 acqs c u Hf Hp Hc Hd ltac:(lia) Hl Hb)
    as (acqs' & u' & c' & E & Hp' & _ & Hm & Hx).
  rewrite Nat.add_0_l, Z2Nat.id in E by lia. exists acqs', u', c'. split_and!; [done|done| |done].
  intros k a Hk Ha. destruct (Hm (Z.to_nat k) a ltac:(lia) Ha) as (e & He & Ha' & Hu).
  rewrite Nat.add_0_l, Z2Nat.id in He, Ha', Hu by lia. exists e. split_and!; [done|done|].
  intros j Hj. rewrite Hu by done. unfold event_start. by rewrite (segment_base_spec i c Hf).
Qed.
End Fetch.
