(* ===== verification/Sis3320Runs.v ===== *)
(** * Runs of a SIS3302 card

    A concrete card with memory behind the window, on which the theorem on
    transfers is applied, and the runs in which [sis3320.c] departs from what it
    promises. *)

From S2P Require Import Prelude VmeBus SkelIo Sis33Dma Sis33Core Sis33Sysfs Sis33Sys Sis33SysInv Sis3320 Sis3320Inv Sis3320Fetch.

Module Concrete20.

(** The memory of the channels, any function. *)
Definition mem (ch x : Z) : Z := (x / 2 + 16 * ch) mod 256.

(** A SIS3302 that has acquired two events of 128 samples into segment 1: each
    one filled its room and wrapped. *)
Definition base : Z := 0x30000000.
Definition dir_entry (k : Z) : Z := EV_DIR_WRAP + 2 ^ 24 + 128 * k + 8.
Definition dir_words (ch : Z) : list (Z * Z) :=
  [(base + SIS3320_EV_DIR ch, dir_entry 0); (base + SIS3320_EV_DIR ch + 4, dir_entry 1)].
Definition regs : list (Z * Z) :=
  [(base + SIS3320_FW, 0x33021234); (base + SIS3320_INTCTL, INTCTL_ST_LEV); (base + SIS3320_EV_COUNTER, 2);
   (base + SIS3302_TSTAMP_DIR + 4, 1000); (base + SIS3302_TSTAMP_DIR + 12, 1500)] ++ mjoin (dir_words <$> seqZ 0 8).
Definition word_of (a : Z) : Z :=
  match list_find (fun r => r.1 = a) regs with Some (_, r) => r.2 | None => 0 end.
Definition card (h : list (Z * Z)) (_ : nat) (a : Z) : Z :=
  let x := a - (base + 0x4000000) in
  if (0 <=? x) && (x <? 0x4000000) then mem (x / 0x800000) (page_reg base h * 0x800000 + x mod 0x800000)
  else nth (Z.to_nat (a mod 4)) (cpu_to_be32 (word_of (a - a mod 4))) 0.

Definition dma_rc (_ : nat) : Z := 0.
Definition junk (_ : nat) : list Z := [].
Definition kbuf (_ : nat) : Z := 4096.
Definition mem_ok (_ _ : nat) : bool := true.
Definition clock (n : nat) : Z := Z.of_nat n.

Notation ops := (sis3320_ops card dma_rc junk kbuf).
Notation irq := (sis3320_irq_work card dma_rc junk kbuf mem_ok clock).

Lemma no_fault20 n : dma_rc n = 0.
Proof. done. Qed.
Lemma kbuf20_ok n : 0 <= kbuf n < 2 ^ 31.
Proof. by vm_compute. Qed.
Lemma base_fits : 0 <= base /\ base + 2 ^ 27 <= 2 ^ 32.
Proof. by vm_compute. Qed.

Lemma window h t ch off : 0 <= ch < 8 -> 0 <= off < SIS3320_PAGESIZE ->
  card h t (base + SIS3320_MEM_ADC ch + off) = mem ch (page_reg base h * SIS3320_PAGESIZE + off).
Proof.
  intros Hc Ho. unfold SIS3320_PAGESIZE in *. unfold card.
  replace (base + SIS3320_MEM_ADC ch + off - (base + 0x4000000)) with (off + ch * 0x800000) by (unfold SIS3320_MEM_ADC; lia).
  rewrite (proj2 (Z.leb_le 0 _)), (proj2 (Z.ltb_lt _ 0x4000000)) by lia. cbn [andb].
  rewrite Z.div_add, Z.mod_add, (Z.div_small off), (Z.mod_small off) by lia. done.
Qed.

(** The card once it has been probed and registered, and after an acquisition. *)
Definition probed : card20 :=
  sis3320_describe (snd (sis3320_device_init card dma_rc junk kbuf 0 0x40 3 (sis3320_card 0 base (Vbus [] 0)))).
Definition registered : card20 := (sis33_card_register ops 0 0 0 probed).1.1.2.

Definition all_ok : answers := Answers true true true false.
Definition desc (seg nr len : Z) : sis33_acq_desc := AcqDesc seg nr len 0 0.
Definition acq0 : sis33_acq := Acq33 0x1000 256 0 0 0 0.
Definition acq1 : sis33_acq := Acq33 0x2000 256 0 0 0 0.
Definition no_user : umem := fun _ => 0.

Definition run_of (ts : list tpc) (l : list act) (c : card20) : option sys33 := run33 ops irq l (Sys33 c no_user ts).
Definition card_of (st : option sys33) : card20 := match st with Some st => s_card st | None => registered end.

Definition acquired : card20 := card_of (run_of [TAcquire (desc 1 2 128)] [ARun 0 all_ok; ARun 0 all_ok; AInterrupt] registered).

Lemma acquired20_filled : filled20 1 acquired.
Proof. split_and!; try by vm_compute. - by right; vm_compute. - vm_compute. repeat (first [left; reflexivity | right]). Qed.

Definition evs : list sis33_event := match events (get_segment 1 acquired) with CPtr l => l | _ => [] end.
Definition ticks (k : Z) : Z := if k =? 0 then 0 else 1500.

Lemma acquired_directory : directory 1 acquired evs ticks.
Proof.
  split_and!; [by vm_compute..|]. intros k Hk.
  assert (nr_events (get_segment 1 acquired) = 2) as Hn by (by vm_compute). rewrite Hn in Hk.
  assert (k = 0 \/ k = 1) as [-> | ->] by lia; by vm_compute.
Qed.

Lemma two_buffers : buffers20 128 [acq0; acq1].
Proof.
  split.
  - intros a Ha. apply elem_of_cons in Ha as [->|Ha]; [by vm_compute|]. apply list_elem_of_singleton in Ha as ->. by vm_compute.
  - intros i j a a' x Hi Hj Ha Ha'. destruct i as [|[|i]], j as [|[|j]]; cbn in Hi, Hj; try done; simplify_eq;
      unfold in_user in *; cbn in *; lia.
Qed.

Lemma sis3320_fetch_delivers_witness :
  exists acqs' u' c',
    sis3320_fetch card dma_rc junk kbuf acquired 1 3 [acq0; acq1] 2 no_user = Some (2, acqs', u', c') /\
    acqs' !! 1%nat = Some (Acq33 0x2000 256 128 1500 8 1) /\
    u' (0x2000 + 255) = mem 3 (2 * (2 ^ 24 + 128) + 255).
Proof.
  assert (paged base acquired) as Hp by (by vm_compute).
  assert (nr_samp_per_ev (get_segment 1 acquired) = 128) as Hs by (by vm_compute).
  assert (nr_events (get_segment 1 acquired) = 2) as Hn by (by vm_compute).
  assert (n_segments acquired = 2) as Hg by (by vm_compute).
  assert (evs !! 7%nat = Some (Event 128 8)) as Hev by (by vm_compute).
  pose proof two_buffers as Hb. rewrite <- Hs in Hb.
  destruct (sis3320_fetch_delivers card dma_rc junk kbuf no_fault20 kbuf20_ok base mem base_fits window 1 3 [acq0; acq1] 2
    acquired no_user evs ticks acquired20_filled Hp ltac:(lia) acquired_directory ltac:(lia) ltac:(done) Hb)
    as (acqs' & u' & c' & Hf & _ & Hd & _).
  exists acqs', u', c'. split; [exact Hf|]. destruct (Hd 1 acq1 ltac:(lia) eq_refl) as (e & He & Ha & Hu).
  rewrite Hn in He. change (Z.to_nat (3 * 2 + 1)) with 7%nat in He. rewrite Hev in He. injection He as <-.
  rewrite Hs, Hg in Hu. split; [exact Ha|]. exact (Hu 255 ltac:(lia)).
Defined.

(** ** Departures *)

(** The times are meant to count from the first event: the first is cleared
    before it is subtracted from the others. *)
Lemma prevticks_not_relative : sis3302_pt_cache_normalize [1000; 1500; 2100] 3 = [0; 1500; 2100].
Proof. by vm_compute. Qed.

(** A cancelled acquisition leaves the events of the one before it: a transfer
    announces 128 samples in a buffer of 64. *)
Lemma cancelled_keeps_events :
  let c := card_of (run_of [TAcquire (desc 1 1 64)] [ARun 0 all_ok; ARun 0 all_ok; ACancel] acquired) in
  let a := Acq33 0x1000 128 0 0 0 0 in
  match run_of [TFetch (fun _ => a) (AcqList 1 0 1 0 0 0)] [ARun 0 all_ok; ARun 0 all_ok] c with
  | Some st => (fun pc => match pc with TFinish ret [a'] _ => (ret, acq_size a', acq_nr_samples a') | _ => (0, 0, 0) end) <$> s_tasks st
                = [(1, 128, 128)]
  | None => False
  end.
Proof. by vm_compute. Qed.

(** Two segments are transferred at once, each with its own page in mind. *)
Lemma two_transfers :
  let c := card_of (run_of [TAcquire (desc 0 2 128)] [ARun 0 all_ok; ARun 0 all_ok; AInterrupt] acquired) in
  let user := fun k : nat => if Nat.eqb k 0 then acq0 else acq1 in
  match run_of [TFetch user (AcqList 0 0 2 0 0 0); TFetch user (AcqList 1 0 2 0 0 0)] [ARun 0 all_ok; ARun 1 all_ok] c with
  | Some st => existsb (uses 0) (s_tasks st) = true /\ existsb (uses 1) (s_tasks st) = true
  | None => False
  end.
Proof. by vm_compute. Qed.

(** 256 events of 16 Msamples are none in 32 bits: they are accepted. *)
Lemma samples_wrap : (acquire_locked ops (desc 0 256 16777216) registered).1 = 0.
Proof. by vm_compute. Qed.

(** Once enabled the front panel stays enabled: no write clears its bit. *)
Lemma front_panel_stays r on off : truthy (trigger_ext_en on) = true ->
  Z.testbit (jk (jk (jk r (acq_word20 registered on)) ACQ_CL_CLKSRC) (acq_word20 registered off)) 8 = true.
Proof.
  intros Hon. rewrite !jk_bit by lia.
  assert (forall g, exists k, 0 <= k < 8 /\ sis3320_acq_clk registered (clksrc g) (clkfreq g) = Z.shiftl k 12) as Hclk.
  { intros g. unfold sis3320_acq_clk, sis3320_get_clk_bits. assert (version registered = 3302) as -> by (by vm_compute).
    change (3302 =? 3302) with true. cbv iota. repeat case_goal; eexists; (split; [|reflexivity]); try (unfold CLKSRC_EXT; lia).
    generalize (clkfreq g). intros f. unfold sis3302_freqs, sis3302_freq_bits. cbn [bits_at]. repeat case_goal; lia. }
  destruct (Hclk on) as (k1 & Hk1 & E1), (Hclk off) as (k2 & Hk2 & E2). unfold acq_word20. rewrite E1, E2, Hon.
  assert (k1 = 0 \/ k1 = 1 \/ k1 = 2 \/ k1 = 3 \/ k1 = 4 \/ k1 = 5 \/ k1 = 6 \/ k1 = 7) as H1 by lia.
  assert (k2 = 0 \/ k2 = 1 \/ k2 = 2 \/ k2 = 3 \/ k2 = 4 \/ k2 = 5 \/ k2 = 6 \/ k2 = 7) as H2 by lia.
  destruct H1 as [->|[->|[->|[->|[->|[->|[->| ->]]]]]]], H2 as [->|[->|[->|[->|[->|[->|[->| ->]]]]]]];
    destruct (truthy (start_auto on)), (truthy (start_auto off)), (truthy (trigger_ext_en off)); destruct (Z.testbit r 8); reflexivity.
Qed.
End Concrete20.
