(* ===== verification/MttDev.v ===== *)
(** * The MTT driver ([mttn/driver/mtt-skel.c])

    The part of the MTT driver that the skeleton framework calls: registers and
    memory map of the card ([mttn/include/mtthard.h]), what the driver keeps of
    a module ([mtt_priv.h]), the ioctls ([mtt.h], [skeluser_ioctl.h]), reset,
    initialisation and interrupts.  Structures have their 32-bit layout. *)

From S2P Require Import Prelude SkelIo CdcmMem MttIsa MttObj.

(** ** The card *)

Definition MTT_INTSR : Z := 0x000.
Definition MTT_INTEN : Z := 0x004.
Definition MTT_INTR : Z := 0x008.
Definition MTT_VHDL : Z := 0x00c.
Definition MTT_STATUS : Z := 0x010.
Definition MTT_COMMAND : Z := 0x014.
Definition MTT_COMMAND_VAL : Z := 0x018.
Definition MTT_SEC : Z := 0x01c.
Definition MTT_MSEC : Z := 0x020.
Definition MTT_TASKS_START : Z := 0x024.
Definition MTT_TASKS_STOP : Z := 0x028.
Definition MTT_TASKS_CURR : Z := 0x02c.
Definition MTT_TASKS : Z := 0x030.
Definition MTT_REV_PRIO : Z := 1251465263.

Definition MttDrvrTASKS : Z := 16.
Definition MttDrvrTASK_MASK : Z := 0xFFFF.
Definition MttDrvrINSTRUCTIONS : Z := 4096.
Definition MttDrvrGRAM_SIZE : Z := 224.
Definition MttDrvrLRAM_SIZE : Z := 32.
Definition MttDrvrIntMASK : Z := 0x03FFFFFF.
Definition MttDrvrNameSIZE : nat := 32.
Definition MttDrvrTBFbits : Z := 6.

Definition MttDrvrCommandRESET : Z := 0.
Definition MttDrvrCommandENABLE : Z := 1.
Definition MttDrvrCommandEXTERNAL_1KHZ : Z := 2.
Definition MttDrvrCommandUTC_SENDING_ON : Z := 3.
Definition MttDrvrCommandSET_UTC : Z := 4.
Definition MttDrvrCommandSET_OUT_DELAY : Z := 5.
Definition MttDrvrCommandSET_SYNC_PERIOD : Z := 6.
Definition MttDrvrCommandSEND_EVENT : Z := 7.
Definition MttDrvrCommandSEND_EVENT_LOW : Z := 9.

Definition MttDrvrStatusENABLED : Z := 0x01.
Definition MttDrvrStatusUTC_SET : Z := 0x02.
Definition MttDrvrStatusUTC_SENDING_ON : Z := 0x04.
Definition MttDrvrStatusBUS_FAULT : Z := 0x100.
Definition MttDrvrStatusFLASH_OPEN : Z := 0x200.
Definition MttDrvrTaskStatusRUNNING : Z := 0x20.
Definition MttDrvrIntPPS : Z := 0x1000000.

Definition MttDrvrTBFLoadAddress : Z := 0x01.
Definition MttDrvrTBFInstructionCount : Z := 0x02.
Definition MttDrvrTBFPcStart : Z := 0x04.
Definition MttDrvrTBFPcOffset : Z := 0x08.
Definition MttDrvrTBFPc : Z := 0x10.
Definition MttDrvrTBFName : Z := 0x20.
Definition MttDrvrTBFAll : Z := 0x3F.

(** Offsets of the arrays of [MttDrvrMap]: the task control blocks, the global
    registers, the local registers of each task, the program memory. *)
Definition map_Tasks (i : Z) : Z := u32 (0x30 + 16 * i).
Definition map_PcOffset (i : Z) : Z := u32 (map_Tasks i + 4).
Definition map_GlobalMem (i : Z) : Z := u32 (0x130 + 4 * i).
Definition map_LocalMem (task i : Z) : Z := u32 (0x4B0 + 128 * task + 4 * i).
Definition map_ProgramMem (i : Z) : Z := u32 (0xCB0 + 8 * i).
Definition map_size : Z := 0xCB0 + 8 * MttDrvrINSTRUCTIONS.

(** Words as last written, by offset, all writes made, last first, what was
    written to the JTAG port, and the number of accesses made. *)
Record mtthw := Mtthw {
  mt_mem : gmap Z Z;
  mt_writes : list (Z * Z);
  mt_jtag : list Z;
  mt_time : nat;
}.

Definition mt_word (h : mtthw) (a : Z) : Z := default 0 (mt_mem h !! a).

(** Program memory and the relocators are written by software only. *)
Definition mt_keeps (a : Z) : bool :=
  (map_ProgramMem 0 <=? a) || ((MTT_TASKS <=? a) && (a <? map_GlobalMem 0) && (a mod 16 =? 4)).

Section Driver.

(** What the card answers for a register or a memory word that its processors
    or the timing inputs change, at a time and given what was last written. *)
Variable world : nat -> Z -> Z -> Z.
Variable cpu_big : bool.

Definition mt_read (a : Z) (h : mtthw) : Z * mtthw :=
  (u32 (if mt_keeps a then mt_word h a else world (mt_time h) a (mt_word h a)),
   Mtthw (mt_mem h) (mt_writes h) (mt_jtag h) (S (mt_time h))).

Definition mt_write (a v : Z) (h : mtthw) : mtthw :=
  Mtthw (<[a := u32 v]> (mt_mem h)) ((a, u32 v) :: mt_writes h) (mt_jtag h) (S (mt_time h)).

(** ** Access ([cdcm_ioread32be()], [cdcm_iowrite32be()]: the value itself) *)

Definition mtt_writew (offset value : Z) (h : mtthw) : mtthw := mt_write offset value h.
Definition mtt_readw (offs : Z) (h : mtthw) : Z * mtthw := mt_read offs h.

Definition mtt_writes (offset value : Z) (h : mtthw) : mtthw :=
  Mtthw (mt_mem h) (mt_writes h) (u16 value :: mt_jtag h) (S (mt_time h)).
Definition mtt_reads (offs : Z) (h : mtthw) : Z * mtthw :=
  (u16 (world (mt_time h) (- 1 - offs) (default 0 (head (mt_jtag h)))),
   Mtthw (mt_mem h) (mt_writes h) (mt_jtag h) (S (mt_time h))).

Definition __mtt_orw (offset value : Z) (h : mtthw) : mtthw :=
  let '(regval, h) := mtt_readw offset h in
  mtt_writew offset (Z.lor regval value) h.

Fixpoint mtt_iowritew_r (to : Z) (from : list Z) (h : mtthw) : mtthw :=
  match from with
  | [] => h
  | v :: from => mtt_iowritew_r (u32 (to + 4)) from (mtt_writew to v h)
  end.

Fixpoint mtt_ioreadw_r (from : Z) (count : nat) (h : mtthw) : list Z * mtthw :=
  match count with
  | O => ([], h)
  | S count =>
      let '(v, h) := mtt_readw from h in
      let '(l, h) := mtt_ioreadw_r (u32 (from + 4)) count h in
      (v :: l, h)
  end.

(** [Fields] of [MttDrvrInstruction]: the four bytes of an [Instruction] as the
    CPU reads them as one word. *)
Definition Fields (i : Instruction) : Z := of_mem cpu_big [i_Dest i; i_Src2 i; i_Number i; i_Crc i].

Definition of_Fields (f srce1 : Z) : Instruction :=
  match to_mem cpu_big 4 f with
  | [d; s2; n; c] => Instr d s2 n c (s32 srce1)
  | _ => Instr 0 0 0 0 0
  end.

(** [cdcm_iowrite32()], [cdcm_ioread32()]: the word as it lies in memory. *)
Fixpoint __mtt_set_program (to : Z) (from : list Instruction) (h : mtthw) : mtthw :=
  match from with
  | [] => h
  | i :: from =>
      let h := mt_write to (conv cpu_big true 4 (Fields i)) h in
      let h := mtt_writew (u32 (to + 4)) (i_Src1 i) h in
      __mtt_set_program (u32 (to + 8)) from h
  end.

Fixpoint __mtt_get_program (from : Z) (elems : nat) (h : mtthw) : list Instruction * mtthw :=
  match elems with
  | O => ([], h)
  | S elems =>
      let '(f, h) := mt_read from h in
      let '(s, h) := mtt_readw (u32 (from + 4)) h in
      let '(l, h) := __mtt_get_program (u32 (from + 8)) elems h in
      (of_Fields (conv cpu_big true 4 f) s :: l, h)
  end.

(** ** What the driver keeps ([mtt_priv.h]) *)

Record mtt_task := Mtt_task {
  t_LoadAddress : Z;
  t_InstructionCount : Z;
  t_PcStart : Z;
  t_PcOffset : Z;
  t_Pc : Z;
  t_Name : list Z;       (* MttDrvrNameSIZE characters *)
}.

Record udata := Udata {
  EnabledOutput : Z;
  CableId : Z;
  External1KHZ : Z;
  UtcSending : Z;
  OutputDelay : Z;
  SyncPeriod : Z;
  BusError : Z;
  FlashOpen : Z;
  Tasks : list mtt_task;
}.

Definition set_EnabledOutput v u := Udata v (CableId u) (External1KHZ u) (UtcSending u) (OutputDelay u) (SyncPeriod u) (BusError u) (FlashOpen u) (Tasks u).
Definition set_CableId v u := Udata (EnabledOutput u) v (External1KHZ u) (UtcSending u) (OutputDelay u) (SyncPeriod u) (BusError u) (FlashOpen u) (Tasks u).
Definition set_External1KHZ v u := Udata (EnabledOutput u) (CableId u) v (UtcSending u) (OutputDelay u) (SyncPeriod u) (BusError u) (FlashOpen u) (Tasks u).
Definition set_UtcSending v u := Udata (EnabledOutput u) (CableId u) (External1KHZ u) v (OutputDelay u) (SyncPeriod u) (BusError u) (FlashOpen u) (Tasks u).
Definition set_OutputDelay v u := Udata (EnabledOutput u) (CableId u) (External1KHZ u) (UtcSending u) v (SyncPeriod u) (BusError u) (FlashOpen u) (Tasks u).
Definition set_SyncPeriod v u := Udata (EnabledOutput u) (CableId u) (External1KHZ u) (UtcSending u) (OutputDelay u) v (BusError u) (FlashOpen u) (Tasks u).
Definition set_BusError v u := Udata (EnabledOutput u) (CableId u) (External1KHZ u) (UtcSending u) (OutputDelay u) (SyncPeriod u) v (FlashOpen u) (Tasks u).
Definition set_FlashOpen v u := Udata (EnabledOutput u) (CableId u) (External1KHZ u) (UtcSending u) (OutputDelay u) (SyncPeriod u) (BusError u) v (Tasks u).
Definition set_Tasks v u := Udata (EnabledOutput u) (CableId u) (External1KHZ u) (UtcSending u) (OutputDelay u) (SyncPeriod u) (BusError u) (FlashOpen u) v.

Definition no_task : mtt_task := Mtt_task 0 0 0 0 0 (replicate MttDrvrNameSIZE 0).
Definition zero_udata : udata := Udata 0 0 0 0 0 0 0 0 (replicate 16 no_task).

(** Locks and buffers, for the log of what is taken and given back. *)
Definition KUDATA : Z := 0.      (* udata->lock *)
Definition KTASK : Z := 1.       (* the lock of a task *)
Definition KIOLOCK : Z := 2.     (* the spinlock on the registers *)
Definition KMEM : Z := 3.        (* the module's data *)
Definition KBOUNCE : Z := 4.     (* the buffer of a transfer *)

(** A module: the driver's data, the card, and the log. *)
Record mdev := Mdev { md_u : udata; md_hw : mtthw; md_log : list kev }.

Definition on_u (f : udata -> udata) (d : mdev) : mdev := Mdev (f (md_u d)) (md_hw d) (md_log d).
Definition on_hw (f : mtthw -> mtthw) (d : mdev) : mdev := Mdev (md_u d) (f (md_hw d)) (md_log d).
Definition logged (l : list kev) (d : mdev) : mdev := Mdev (md_u d) (md_hw d) (md_log d ++ l).

(** A function that reads the card. *)
Definition read_hw {A} (f : mtthw -> A * mtthw) (d : mdev) : A * mdev :=
  let '(v, h) := f (md_hw d) in (v, Mdev (md_u d) h (md_log d)).

(** What the surroundings answer to a call: whether memory is found, whether
    the card is accessible, what an argument buffer that nobody filled holds. *)
Record menv := Menv { me_avail : bool; me_bus_error : bool; me_junk : Z; me_compile_time : Z }.

(** ** Commands and registers *)

Definition mtt_orw (offset value : Z) (d : mdev) : mdev :=
  logged [Rel KIOLOCK 0] (on_hw (__mtt_orw offset value) (logged [Acq KIOLOCK 0] d)).

Definition __mtt_cmd (cmd val : Z) (h : mtthw) : mtthw :=
  mtt_writew MTT_COMMAND cmd (mtt_writew MTT_COMMAND_VAL val h).

Definition mtt_cmd (cmd val : Z) (d : mdev) : mdev :=
  logged [Rel KIOLOCK 0] (on_hw (__mtt_cmd cmd val) (logged [Acq KIOLOCK 0] d)).

(** [true]: the card answered. *)
Definition mtt_ping (e : menv) (d : mdev) : bool * mdev :=
  if me_bus_error e then (false, on_u (set_BusError 1) d)
  else let '(_, d) := read_hw (mtt_readw MTT_VHDL) d in (true, d).

Definition mtt_get_status (d : mdev) : Z * mdev :=
  let '(ret, d) := read_hw (mtt_readw MTT_STATUS) d in
  let ret := if truthy (FlashOpen (md_u d)) then Z.lor ret MttDrvrStatusFLASH_OPEN else ret in
  if truthy (BusError (md_u d)) then (Z.lor ret MttDrvrStatusBUS_FAULT, on_u (set_BusError 0) d) else (ret, d).

(** Seconds and milliseconds. *)
Definition mtt_set_utc (second : Z) (d : mdev) : mdev :=
  logged [Rel KIOLOCK 0] (on_hw (__mtt_cmd MttDrvrCommandSET_UTC second) (logged [Acq KIOLOCK 0] d)).

Definition mtt_get_utc (d : mdev) : (Z * Z) * mdev :=
  let d := logged [Acq KIOLOCK 0] d in
  let '(ms, d) := read_hw (mtt_readw MTT_MSEC) d in
  let '(s, d) := read_hw (mtt_readw MTT_SEC) d in
  ((s, ms), logged [Rel KIOLOCK 0] d).

(** [mtt_gs_utc_skel()], read: seconds and "nanoseconds". *)
Definition mtt_gs_utc_skel (d : mdev) : (Z * Z) * mdev :=
  let '((s, ms), d) := mtt_get_utc d in ((s, u32 (ms * 1000)), d).

Definition SkelUserGetUtc (d : mdev) : (Z * Z) * mdev := mtt_gs_utc_skel d.

Definition print_int (v : Z) : text := if s32 v <? 0 then 45 :: print_dec (- s32 v) else print_dec v.

Definition MttGetModuleVersion (e : menv) (d : mdev) : option text * mdev :=
  let '(ok, d) := mtt_ping e d in
  if ok then let '(v, d) := read_hw (mtt_readw MTT_VHDL) d in (Some (print_int v), d) else (None, d).

(** ** Reset, interrupts, initialisation *)

Definition __mtt_quiesce (h : mtthw) : mtthw := snd (mtt_readw MTT_INTSR (mtt_writew MTT_INTEN 0 h)).

Definition mtt_shift_intr_level (level : Z) : Z := if level =? 3 then 0x300 else 0x200.

(** [isr]: vector and level of the module's interrupt, if it has one. *)
Definition mtt_reset (isr : option (Z * Z)) (d : mdev) : mdev :=
  let d := logged [Acq KIOLOCK 0] d in
  let d := on_hw __mtt_quiesce d in
  let d := on_hw (__mtt_cmd MttDrvrCommandRESET 1) d in
  let d := logged [Rel KIOLOCK 0] d in
  match isr with
  | Some (vector, level) => on_hw (mtt_writew MTT_INTR (Z.lor vector (mtt_shift_intr_level level))) d
  | None => d
  end.

Definition cmd_if (v cmd val : Z) (d : mdev) : mdev := if truthy v then mtt_cmd cmd val d else d.

Definition udata_set_defaults (d : mdev) : mdev :=
  let d := on_u (fun u => set_BusError 0 (set_UtcSending 0 (set_FlashOpen 0 u))) d in
  let u := md_u d in
  let d := cmd_if (EnabledOutput u) MttDrvrCommandENABLE 1 d in
  let d := cmd_if (External1KHZ u) MttDrvrCommandEXTERNAL_1KHZ 1 d in
  let d := cmd_if (SyncPeriod u) MttDrvrCommandSET_SYNC_PERIOD (SyncPeriod u) d in
  cmd_if (OutputDelay u) MttDrvrCommandSET_OUT_DELAY (OutputDelay u) d.

Definition MttHardwareReset (isr : option (Z * Z)) (d : mdev) : mdev := udata_set_defaults (mtt_reset isr d).

Definition MttGetInterruptSource (d : mdev) : (Z * (Z * Z)) * mdev :=
  let '(src, d) := read_hw (mtt_readw MTT_INTSR) d in
  let '(t, d) := mtt_gs_utc_skel d in
  ((src, t), d).

Definition MttEnableInterrupts (mask : Z) (d : mdev) : mdev := mtt_orw MTT_INTEN (Z.land mask MttDrvrIntMASK) d.

Definition MttJtagReadByte (d : mdev) : Z * mdev := read_hw (mtt_reads 0) d.
Definition MttJtagWriteByte (val : Z) (d : mdev) : mdev := on_hw (mtt_writes 0 val) d.

(** Whether the driver's data was made, the data, the card and the log;
    [None]: the code clears the memory that was not found.  [sizeof_udata]: its
    size; [iomap], [jtag]: the two address spaces are mapped. *)
Definition MttModuleInit (sizeof_udata : Z) (avail iomap jtag : bool) (isr : option (Z * Z)) (h : mtthw)
    : option (bool * mdev) :=
  match sysbrk sizeof_udata avail with
  | PNull => Some (false, Mdev zero_udata h [])
  | PErr _ => None
  | PBlock _ =>
      let d := Mdev zero_udata h [Acq KMEM 0] in
      if negb iomap || negb jtag then Some (false, logged [Rel KMEM 0] d)
      else Some (true, MttHardwareReset isr d)
  end.

Definition MttModuleRelease (d : mdev) : mdev := logged [Rel KMEM 0] (on_hw __mtt_quiesce d).

(** ** Structures of the ioctls ([mtt.h]) *)

Record MttDrvrTaskBlock := TaskBlock { tb_Pc : Z; tb_PcOffset : Z; tb_TaskStatus : Z; tb_ProcessorStatus : Z }.

Record MttDrvrTaskBuf := TaskBuf {
  tk_Task : Z;
  tk_Fields : Z;
  tk_LoadAddress : Z;
  tk_InstructionCount : Z;
  tk_PcStart : Z;
  tk_ControlBlock : MttDrvrTaskBlock;
  tk_Name : list Z;
}.

Inductive mttcmd :=
  | MTT_IOCSCABLEID (v : Z) | MTT_IOCGCABLEID
  | MTT_IOCSUTC_SENDING (v : Z)
  | MTT_IOCSEXT_1KHZ (v : Z)
  | MTT_IOCSOUT_DELAY (v : Z) | MTT_IOCGOUT_DELAY
  | MTT_IOCSOUT_ENABLE (v : Z)
  | MTT_IOCSSYNC_PERIOD (v : Z) | MTT_IOCGSYNC_PERIOD
  | MTT_IOCSUTC (second millisecond : Z) | MTT_IOCGUTC
  | MTT_IOCSSEND_EVENT (frame priority : Z)
  | MTT_IOCSTASKS_START (v : Z)
  | MTT_IOCSTASKS_STOP (v : Z)
  | MTT_IOCSTASKS_CONT (v : Z)
  | MTT_IOCGTASKS_CURR
  | MTT_IOCSTCB (t : MttDrvrTaskBuf) | MTT_IOCGTCB (t : MttDrvrTaskBuf)
  | MTT_IOCSGRVAL (regnum regval : Z) | MTT_IOCGGRVAL (regnum : Z)
  | MTT_IOCSTRVAL (task regmask : Z) (regvals : list Z) | MTT_IOCGTRVAL (task : Z)
  | MTT_IOCSPROGRAM (load count : Z) (program : list Instruction) | MTT_IOCGPROGRAM (load count : Z)
  | MTT_IOCGSTATUS
  | MTT_IOCRAW_WRITE (size offset : Z) (words : list Z) | MTT_IOCRAW_READ (size offset : Z)
  | MTT_IOCGVERSION
  | MTT_IOC_other (nr : Z).

(** What an ioctl stores for the caller. *)
Inductive mttout :=
  | MNone
  | MVal (v : Z)
  | MTime (second millisecond : Z)
  | MTcb (t : MttDrvrTaskBuf)
  | MRegs (task regmask : Z) (regvals : list Z)
  | MProgram (l : list Instruction)
  | MWords (l : list Z)
  | MVersion (vhdl drvr : Z).

Inductive mttres := MOk (o : mttout) | MErr (errno : Z) | MNotImplemented.

Definition WITHIN_RANGE (min arg max : Z) : bool := (arg <=? max) && (min <=? arg).

(** [strncpy(dst, src, n)] into [n] characters. *)
Fixpoint c_chars (s : list Z) : list Z :=
  match s with [] => [] | c :: s => if c =? 0 then [] else c :: c_chars s end.
Definition strncpy (n : nat) (src : list Z) : list Z :=
  let s := firstn n (c_chars src) in s ++ replicate (n - length s) 0.

(** The locked sections. *)
Definition locked (k i : Z) (f : mdev -> mdev) (d : mdev) : mdev := logged [Rel k i] (f (logged [Acq k i] d)).

(** ** Ioctls on the module's data *)

Definition bool_of (v : Z) : Z := if truthy v then 1 else 0.

Definition mtt_gs_cableid_ioctl (set : option Z) (d : mdev) : mttres * mdev :=
  match set with
  | Some v => (MOk MNone, on_u (set_CableId (s32 v)) d)
  | None => (MOk (MVal (u32 (CableId (md_u d)))), d)
  end.

Definition mtt_utc_sending_ioctl (v : Z) (d : mdev) : mttres * mdev :=
  (MOk MNone, mtt_cmd MttDrvrCommandUTC_SENDING_ON (bool_of v) (on_u (set_UtcSending (bool_of v)) d)).

Definition mtt_ext_1khz_ioctl (v : Z) (d : mdev) : mttres * mdev :=
  (MOk MNone, mtt_cmd MttDrvrCommandEXTERNAL_1KHZ (bool_of v) (on_u (set_External1KHZ (bool_of v)) d)).

Definition mtt_gs_out_delay_ioctl (set : option Z) (d : mdev) : mttres * mdev :=
  match set with
  | Some v => (MOk MNone, mtt_cmd MttDrvrCommandSET_OUT_DELAY v (on_u (set_OutputDelay (s32 v)) d))
  | None => (MOk (MVal (u32 (OutputDelay (md_u d)))), d)
  end.

Definition mtt_out_enable_ioctl (v : Z) (d : mdev) : mttres * mdev :=
  (MOk MNone, mtt_cmd MttDrvrCommandENABLE (bool_of v) (on_u (set_EnabledOutput (bool_of v)) d)).

Definition mtt_gs_sync_period_ioctl (set : option Z) (d : mdev) : mttres * mdev :=
  match set with
  | Some v => (MOk MNone, mtt_cmd MttDrvrCommandSET_SYNC_PERIOD v (on_u (set_SyncPeriod (s32 v)) d))
  | None => (MOk (MVal (u32 (SyncPeriod (md_u d)))), d)
  end.

Definition mtt_gs_utc_ioctl (set : option Z) (d : mdev) : mttres * mdev :=
  match set with
  | Some second => (MOk MNone, mtt_set_utc second d)
  | None => let '((s, ms), d) := mtt_get_utc d in (MOk (MTime s ms), d)
  end.

Definition mtt_supports_prio (d : mdev) : bool * mdev :=
  let '(v, d) := read_hw (mtt_readw MTT_VHDL) d in (MTT_REV_PRIO <=? v, d).

Definition mtt_send_event_ioctl (frame priority : Z) (d : mdev) : mttres * mdev :=
  if negb (WITHIN_RANGE 0 priority 1) then (MErr EINVAL, d) else
  let '(low, d) := if truthy priority then mtt_supports_prio d else (false, d) in
  (MOk MNone, mtt_cmd (if low then MttDrvrCommandSEND_EVENT_LOW else MttDrvrCommandSEND_EVENT) frame d).

(** ** Tasks *)

Definition task_at (i : Z) (u : udata) : mtt_task := nth (Z.to_nat i) (Tasks u) no_task.

Definition start_task (i : Z) (d : mdev) : mdev :=
  locked KUDATA 0 (fun d =>
    let d := on_hw (mtt_writew MTT_TASKS_STOP (2 ^ i)) d in
    let d := locked KTASK i (fun d => on_hw (mtt_writew (map_Tasks i) (t_PcStart (task_at i (md_u d)))) d) d in
    on_hw (mtt_writew MTT_TASKS_START (2 ^ i)) d) d.

Definition mtt_tasks_start_ioctl (v : Z) (d : mdev) : mttres * mdev :=
  if Z.land v MttDrvrTASK_MASK =? 0 then (MErr EINVAL, d) else
  (MOk MNone, fold_left (fun d i => if Z.testbit v i then start_task i d else d) (seqZ 0 MttDrvrTASKS) d).

Definition mtt_gs_tasks_ioctl (set : option Z) (reg : Z) (d : mdev) : mttres * mdev :=
  match set with
  | Some v =>
      let mask := Z.land v MttDrvrTASK_MASK in
      if mask =? 0 then (MErr EINVAL, d) else (MOk MNone, locked KUDATA 0 (on_hw (mtt_writew reg mask)) d)
  | None =>
      let '(v, d) := read_hw (mtt_readw reg) (logged [Acq KUDATA 0] d) in
      (MOk (MVal (Z.land v MttDrvrTASK_MASK)), logged [Rel KUDATA 0] d)
  end.

Definition put_task (i : Z) (f : mtt_task -> mtt_task) (u : udata) : udata :=
  set_Tasks (alter f (Z.to_nat i) (Tasks u)) u.

Definition __mtt_set_tcb (t : MttDrvrTaskBuf) (action : Z) (d : mdev) : mdev :=
  let i := tk_Task t - 1 in
  let cb := tk_ControlBlock t in
  let upd f := on_u (put_task i f) in
  if action =? MttDrvrTBFLoadAddress then
    upd (fun l => Mtt_task (tk_LoadAddress t) (t_InstructionCount l) (t_PcStart l) (t_PcOffset l) (t_Pc l) (t_Name l)) d
  else if action =? MttDrvrTBFInstructionCount then
    upd (fun l => Mtt_task (t_LoadAddress l) (tk_InstructionCount t) (t_PcStart l) (t_PcOffset l) (t_Pc l) (t_Name l)) d
  else if action =? MttDrvrTBFPcStart then
    upd (fun l => Mtt_task (t_LoadAddress l) (t_InstructionCount l) (tk_PcStart t) (t_PcOffset l) (t_Pc l) (t_Name l)) d
  else if action =? MttDrvrTBFPcOffset then
    on_hw (mtt_writew (map_PcOffset i) (tb_PcOffset cb))
      (upd (fun l => Mtt_task (t_LoadAddress l) (t_InstructionCount l) (t_PcStart l) (tb_PcOffset cb) (t_Pc l) (t_Name l)) d)
  else if action =? MttDrvrTBFPc then
    on_hw (mtt_writew (map_Tasks i) (tb_Pc cb))
      (upd (fun l => Mtt_task (t_LoadAddress l) (t_InstructionCount l) (t_PcStart l) (t_PcOffset l) (tb_Pc cb) (t_Name l)) d)
  else if action =? MttDrvrTBFName then
    upd (fun l => Mtt_task (t_LoadAddress l) (t_InstructionCount l) (t_PcStart l) (t_PcOffset l) (t_Pc l) (strncpy MttDrvrNameSIZE (tk_Name t))) d
  else d.

Definition set_fields (t : MttDrvrTaskBuf) (d : mdev) : mdev :=
  fold_left (fun d i => if Z.testbit (tk_Fields t) i then __mtt_set_tcb t (2 ^ i) d else d) (seqZ 0 MttDrvrTBFbits) d.

Definition __mtt_get_tcb (t : MttDrvrTaskBuf) (d : mdev) : MttDrvrTaskBuf * mdev :=
  let i := tk_Task t - 1 in
  let l := task_at i (md_u d) in
  let '(w, d) := read_hw (mtt_ioreadw_r (map_Tasks i) 4) d in
  (TaskBuf (tk_Task t) MttDrvrTBFAll (t_LoadAddress l) (t_InstructionCount l) (t_PcStart l)
     (TaskBlock (nth 0 w 0) (nth 1 w 0) (nth 2 w 0) (nth 3 w 0)) (strncpy MttDrvrNameSIZE (t_Name l)), d).

Definition mtt_gs_tcb_ioctl (set : bool) (t : MttDrvrTaskBuf) (d : mdev) : mttres * mdev :=
  if negb (WITHIN_RANGE 1 (tk_Task t) MttDrvrTASKS) then (MErr EINVAL, d) else
  let i := tk_Task t - 1 in
  if set then (MOk MNone, locked KTASK i (set_fields t) d)
  else let '(t, d) := __mtt_get_tcb t (logged [Acq KTASK i] d) in (MOk (MTcb t), logged [Rel KTASK i] d).

(** ** Registers of the task processors *)

(** [regnum] is an [int]. *)
Definition mtt_gs_grval_ioctl (regnum : Z) (set : option Z) (d : mdev) : mttres * mdev :=
  let regnum := s32 regnum in
  if MttDrvrGRAM_SIZE <=? regnum then (MErr EINVAL, d) else
  match set with
  | Some v => (MOk MNone, locked KUDATA 0 (on_hw (mtt_writew (map_GlobalMem regnum) v)) d)
  | None =>
      let '(v, d) := read_hw (mtt_readw (map_GlobalMem regnum)) (logged [Acq KUDATA 0] d) in
      (MOk (MVal v), logged [Rel KUDATA 0] d)
  end.

(** The loop over the mask returns in its first round. *)
Definition mtt_gs_trval_ioctl (task : Z) (set : option (Z * list Z)) (d : mdev) : mttres * mdev :=
  let task := s32 task in
  if negb (WITHIN_RANGE 1 task MttDrvrTASKS) then (MErr EINVAL, d) else
  match set with
  | Some (regmask, vals) =>
      match filter (fun i => Z.testbit regmask i = true) (seqZ 0 MttDrvrLRAM_SIZE) with
      | i :: _ => (MOk MNone, locked KUDATA 0 (on_hw (mtt_writew (map_LocalMem (task - 1) i) (nth (Z.to_nat i) vals 0))) d)
      | [] => (MErr EINVAL, d)
      end
  | None =>
      let '(l, d) := read_hw (mtt_ioreadw_r (map_LocalMem (task - 1) 0) (Z.to_nat MttDrvrLRAM_SIZE)) (logged [Acq KUDATA 0] d) in
      (MOk (MRegs task 0xffffffff l), logged [Rel KUDATA 0] d)
  end.

(** ** Blocks of words and programs, through a buffer of the kernel

    [None] as a result: memory that is not there is used, be it the error
    pointer of a failed [sysbrk()] or what lies past the buffer. *)

Definition bounce_room (b : mem_block) (bytes : Z) : bool := header_size + bytes <=? mb_bytes b.

Definition __mtt_io (e : menv) (u_addr : option (list Z)) (ioaddr size : Z) (d : mdev) : option (mttres * mdev) :=
  match sysbrk size (me_avail e) with
  | PNull => Some (MErr ENOMEM, d)
  | PErr _ => None
  | PBlock b =>
      if negb (bounce_room b (u32 size)) then None else
      let d := logged [Acq KBOUNCE 0] d in
      let count := u32 size / 4 in
      match u_addr with
      | Some l =>
          if Z.of_nat (length l) <? count then Some (MErr EFAULT, logged [Rel KBOUNCE 0] d) else
          let d := locked KUDATA 0 (on_hw (mtt_iowritew_r ioaddr (firstn (Z.to_nat count) l))) d in
          Some (MOk MNone, logged [Rel KBOUNCE 0] d)
      | None =>
          let '(l, d) := read_hw (mtt_ioreadw_r ioaddr (Z.to_nat count)) (logged [Acq KUDATA 0] d) in
          Some (MOk (MWords l), logged [Rel KUDATA 0; Rel KBOUNCE 0] d)
      end
  end.

Definition mtt_rawio_ioctl (e : menv) (size offset : Z) (words : option (list Z)) (d : mdev) : option (mttres * mdev) :=
  __mtt_io e words (u32 (4 * offset)) (s32 (size * 4)) d.

(** [u_prog]: what the caller's pointer points to, to be loaded; [None]: the
    program is read. *)
Definition mtt_gs_program (e : menv) (u_prog : option (list Instruction)) (io_prog elems : Z) (d : mdev)
    : option (mttres * mdev) :=
  let size := s32 (elems * 8) in
  match sysbrk size (me_avail e) with
  | PNull => Some (MErr ENOMEM, d)
  | PErr _ => None
  | PBlock b =>
      if negb (bounce_room b (u32 size)) then None else
      let d := logged [Acq KBOUNCE 0] d in
      match u_prog with
      | Some l =>
          if 8 * Z.of_nat (length l) <? u32 size then Some (MErr EFAULT, logged [Rel KBOUNCE 0] d) else
          if negb (bounce_room b (8 * elems)) then None else
          let d := locked KUDATA 0 (on_hw (__mtt_set_program io_prog (firstn (Z.to_nat elems) l))) d in
          Some (MOk MNone, logged [Rel KBOUNCE 0] d)
      | None =>
          if negb (bounce_room b (8 * elems)) then None else
          let '(l, d) := read_hw (__mtt_get_program io_prog (Z.to_nat elems)) (logged [Acq KUDATA 0] d) in
          Some (MOk (MProgram l), logged [Rel KUDATA 0; Rel KBOUNCE 0] d)
      end
  end.

Definition mtt_gs_program_ioctl (e : menv) (load count : Z) (prog : option (list Instruction)) (d : mdev)
    : option (mttres * mdev) :=
  mtt_gs_program e prog (map_ProgramMem load) count d.

(** ** Status and version *)

Definition mtt_status_ioctl (e : menv) (d : mdev) : mttres * mdev :=
  let '(ok, d) := mtt_ping e d in
  if ok then let '(v, d) := mtt_get_status d in (MOk (MVal v), d) else (MErr 6 (* ENXIO *), d).

Definition mtt_version_ioctl (e : menv) (d : mdev) : mttres * mdev :=
  let '(ok, d) := mtt_ping e d in
  if ok then let '(v, d) := read_hw (mtt_readw MTT_VHDL) d in (MOk (MVersion v (me_compile_time e)), d)
  else (MErr 6, d).

(** ** The dispatcher *)

Definition MttUserIoctls (e : menv) (cm : mttcmd) (d : mdev) : option (mttres * mdev) :=
  match cm with
  | MTT_IOCSCABLEID v => Some (mtt_gs_cableid_ioctl (Some v) d)
  | MTT_IOCGCABLEID => Some (mtt_gs_cableid_ioctl None d)
  | MTT_IOCSUTC_SENDING v => Some (mtt_utc_sending_ioctl v d)
  | MTT_IOCSEXT_1KHZ v => Some (mtt_ext_1khz_ioctl v d)
  | MTT_IOCSOUT_DELAY v => Some (mtt_gs_out_delay_ioctl (Some v) d)
  | MTT_IOCGOUT_DELAY => Some (mtt_gs_out_delay_ioctl None d)
  | MTT_IOCSOUT_ENABLE v => Some (mtt_out_enable_ioctl v d)
  | MTT_IOCSSYNC_PERIOD v => Some (mtt_gs_sync_period_ioctl (Some v) d)
  | MTT_IOCGSYNC_PERIOD => Some (mtt_gs_sync_period_ioctl None d)
  | MTT_IOCSUTC s _ => Some (mtt_gs_utc_ioctl (Some s) d)
  | MTT_IOCGUTC => Some (mtt_gs_utc_ioctl None d)
  | MTT_IOCSSEND_EVENT frame priority => Some (mtt_send_event_ioctl frame priority d)
  | MTT_IOCSTASKS_START v => Some (mtt_tasks_start_ioctl v d)
  | MTT_IOCSTASKS_STOP v => Some (mtt_gs_tasks_ioctl (Some v) MTT_TASKS_STOP d)
  | MTT_IOCSTASKS_CONT v => Some (mtt_gs_tasks_ioctl (Some v) MTT_TASKS_START d)
  | MTT_IOCGTASKS_CURR => Some (mtt_gs_tasks_ioctl None MTT_TASKS_CURR d)
  | MTT_IOCSTCB t => Some (mtt_gs_tcb_ioctl true t d)
  | MTT_IOCGTCB t => Some (mtt_gs_tcb_ioctl false t d)
  | MTT_IOCSGRVAL n v => Some (mtt_gs_grval_ioctl n (Some v) d)
  | MTT_IOCGGRVAL n => Some (mtt_gs_grval_ioctl n None d)
  | MTT_IOCSTRVAL task mask vals => Some (mtt_gs_trval_ioctl task (Some (mask, vals)) d)
  | MTT_IOCGTRVAL task => Some (mtt_gs_trval_ioctl task None d)
  | MTT_IOCSPROGRAM load count prog => mtt_gs_program_ioctl e load count (Some prog) d
  | MTT_IOCGPROGRAM load count => mtt_gs_program_ioctl e load count None d
  | MTT_IOCGSTATUS => Some (mtt_status_ioctl e d)
  | MTT_IOCRAW_WRITE size offset words => mtt_rawio_ioctl e size offset (Some words) d
  | MTT_IOCRAW_READ size offset => mtt_rawio_ioctl e size offset None d
  | MTT_IOCGVERSION => Some (mtt_version_ioctl e d)
  | MTT_IOC_other _ => Some (MNotImplemented, d)
  end.

(** ** The call as a process makes it on Linux

    The argument is copied into the kernel only when the command's number says
    that the driver reads it ([skeluser_ioctl.h], [cdcm/cdcmDrvr.c]);
    [MTT_IOCSOUT_ENABLE] says that the driver only writes it. *)

Definition ioc_write (cm : mttcmd) : bool :=
  match cm with
  | MTT_IOCGCABLEID | MTT_IOCGOUT_DELAY | MTT_IOCSOUT_ENABLE _ | MTT_IOCGSYNC_PERIOD | MTT_IOCGUTC | MTT_IOCGTASKS_CURR
  | MTT_IOCGSTATUS | MTT_IOCGVERSION => false
  | _ => true
  end.

(** The argument of the driver's handler. *)
Definition copied_in (e : menv) (cm : mttcmd) : mttcmd :=
  if ioc_write cm then cm else
  match cm with MTT_IOCSOUT_ENABLE _ => MTT_IOCSOUT_ENABLE (me_junk e) | _ => cm end.

(** The value the call returns: not negative when [SkelUserReturnOK]. *)
Definition mtt_ioctl (e : menv) (cm : mttcmd) (d : mdev) : option (option mttout * mdev) :=
  match MttUserIoctls e (copied_in e cm) d with
  | None => None
  | Some (MOk o, d) => Some (Some o, d)
  | Some (_, d) => Some (None, d)
  end.

End Driver.
