(* ===== verification/MttDevInv.v ===== *)
(** * The MTT driver: what its ioctls touch and leave

    Locks and buffers are given back on every path, the card is configured as
    the driver believes, programs read back as they were loaded, and every ioctl
    writes only the part of the card it is about. *)

From S2P Require Import Prelude SkelIo CdcmMem MttIsa MttObj MttDev.

(** ** What an operation writes *)

(** From [h] to [h'] only words at the addresses [P] were written. *)
Definition writes_only (P : Z -> Prop) (h h' : mtthw) : Prop :=
  exists l, mt_writes h' = l ++ mt_writes h /\ Forall (fun w => P (fst w)) l /\
  forall a, ~ P a -> mt_word h' a = mt_word h a.

Lemma writes_only_refl P h : writes_only P h h.
Proof. exists []. split_and!; [done|constructor|done]. Qed.

Lemma writes_only_trans P h1 h2 h3 : writes_only P h1 h2 -> writes_only P h2 h3 -> writes_only P h1 h3.
Proof.
  intros (l1 & E1 & F1 & M1) (l2 & E2 & F2 & M2). exists (l2 ++ l1). split_and!.
  - by rewrite E2, E1, app_assoc.
  - by apply Forall_app.
  - intros a Ha. by rewrite M2, M1.
Qed.

Lemma writes_only_weaken (P Q : Z -> Prop) h h' : (forall a, P a -> Q a) -> writes_only P h h' -> writes_only Q h h'.
Proof.
  intros HPQ (l & E & F & M). exists l. split_and!; [done| |].
  - eapply Forall_impl; [exact F|]. intros w. apply HPQ.
  - intros a Ha. apply M. intros Hp. by apply Ha, HPQ.
Qed.

#[export] Instance writes_only_preorder P : PreOrder (writes_only P).
Proof. split; [intros h; apply writes_only_refl|intros h1 h2 h3; apply writes_only_trans]. Qed.

Lemma mt_word_write a v h b : mt_word (mt_write a v h) b = if b =? a then u32 v else mt_word h b.
Proof.
  unfold mt_word, mt_write. cbn. destruct (Z.eqb_spec b a) as [->|Hb].
  - by rewrite lookup_insert_eq.
  - by rewrite lookup_insert_ne.
Qed.

Lemma write_writes (P : Z -> Prop) a v h : P a -> writes_only P h (mt_write a v h).
Proof.
  intros Ha. exists [(a, u32 v)]. split_and!; [done|by repeat constructor|].
  intros b Hb. rewrite mt_word_write. destruct (Z.eqb_spec b a) as [->|]; done.
Qed.

(** Only the time differs. *)
Definition same_card (h h' : mtthw) : Prop :=
  mt_mem h' = mt_mem h /\ mt_writes h' = mt_writes h /\ mt_jtag h' = mt_jtag h.

#[export] Instance same_card_preorder : PreOrder same_card.
Proof. split; [by intros h|]. intros h1 h2 h3 (? & ? & ?) (? & ? & ?). split_and!; congruence. Qed.

Lemma same_card_word h h' a : same_card h h' -> mt_word h' a = mt_word h a.
Proof. intros (E & _). unfold mt_word. by rewrite E. Qed.

Lemma same_card_writes P h h' : same_card h h' -> writes_only P h h'.
Proof.
  intros Hs. exists []. split_and!; [apply Hs|constructor|]. intros a _. by apply same_card_word.
Qed.

Section Card.
Variable world : nat -> Z -> Z -> Z.
Variable cpu_big : bool.

Lemma mt_read_same a h : same_card h (snd (mt_read world a h)).
Proof. done. Qed.

Lemma mtt_ioreadw_r_same n : forall a h, same_card h (snd (mtt_ioreadw_r world a n h)).
Proof.
  induction n as [|n IH]; intros a h; [done|]. cbn -[mtt_readw].
  pose proof (mt_read_same a h) as H1. unfold mtt_readw. destruct (mt_read world a h) as [v h1].
  specialize (IH (u32 (a + 4)) h1). destruct (mtt_ioreadw_r world _ n h1) as [l h2]. cbn in *. by etrans.
Qed.

Lemma mtt_ioreadw_r_length n : forall a h, length (fst (mtt_ioreadw_r world a n h)) = n.
Proof.
  induction n as [|n IH]; intros a h; [done|]. cbn -[mtt_readw]. destruct (mtt_readw world a h) as [v h1].
  specialize (IH (u32 (a + 4)) h1). destruct (mtt_ioreadw_r world _ n h1) as [l h2]. cbn in *. by f_equal.
Qed.

Lemma get_program_same n : forall a h, same_card h (snd (__mtt_get_program world cpu_big a n h)).
Proof.
  induction n as [|n IH]; intros a h; [done|]. cbn -[mtt_readw mt_read]. unfold mtt_readw.
  pose proof (mt_read_same a h) as H1. destruct (mt_read world a h) as [f h1].
  pose proof (mt_read_same (u32 (a + 4)) h1) as H2. destruct (mt_read world _ h1) as [s h2].
  specialize (IH (u32 (a + 8)) h2). destruct (__mtt_get_program world cpu_big _ n h2) as [l h3]. cbn in *.
  etrans; [exact H1|]. by etrans.
Qed.

(** ** Programs *)

(** The bytes of an instruction in the order of memory make the word of the
    hexadecimal dump. *)
Lemma hex_word_bytes i : inst_ok i -> hex_word i = le_word [i_Crc i; i_Number i; i_Src2 i; i_Dest i].
Proof.
  intros (Hd & Hs & Hn & Hc & _). unfold hex_word. cbn [le_word].
  rewrite !Z.shiftl_mul_pow2 by lia. rewrite u32_id by (unfold is_u32; lia).
  rewrite (lor_add _ (i_Src2 i * 2 ^ 16) 24) by lia.
  replace (i_Dest i * 2 ^ 24 + i_Src2 i * 2 ^ 16) with ((i_Dest i * 2 ^ 8 + i_Src2 i) * 2 ^ 16) by lia.
  rewrite lor_add by lia.
  replace ((i_Dest i * 2 ^ 8 + i_Src2 i) * 2 ^ 16 + i_Number i * 2 ^ 8)
    with (((i_Dest i * 2 ^ 8 + i_Src2 i) * 2 ^ 8 + i_Number i) * 2 ^ 8) by lia.
  rewrite lor_add by lia. lia.
Qed.

Lemma inst_bytes i : inst_ok i -> Forall (fun b => 0 <= b < 256) [i_Dest i; i_Src2 i; i_Number i; i_Crc i].
Proof. intros (Hd & Hs & Hn & Hc & _). by do 4 (apply Forall_cons; split; [lia|]). Qed.

Lemma le_bytes_word4 a b c d : Forall (fun b => 0 <= b < 256) [a; b; c; d] -> le_bytes 4 (le_word [a; b; c; d]) = [a; b; c; d].
Proof. apply (le_bytes_word [a; b; c; d]). Qed.

(** The word in the card's memory, and the instruction it is read back as,
    whatever the byte order of the CPU. *)
Lemma Fields_hex_word i : inst_ok i -> conv cpu_big true 4 (Fields cpu_big i) = hex_word i.
Proof.
  intros Hi. pose proof (inst_bytes i Hi) as Hb. rewrite hex_word_bytes by done. unfold conv, Fields, of_mem.
  destruct cpu_big; [done|]. unfold bswap. cbn [Bool.eqb].
  by rewrite (le_bytes_word4 _ _ _ _ Hb).
Qed.

Lemma of_Fields_hex_word i s : inst_ok i -> s32 s = i_Src1 i -> of_Fields cpu_big (conv cpu_big true 4 (hex_word i)) s = i.
Proof.
  intros Hi Hs. pose proof (inst_bytes i Hi) as Hb. rewrite hex_word_bytes by done. unfold of_Fields, conv, to_mem.
  apply Forall_reverse in Hb as Hr. cbn in Hr.
  destruct cpu_big; cbn [Bool.eqb].
  - rewrite (le_bytes_word4 _ _ _ _ Hr). cbn. rewrite Hs. by destruct i.
  - unfold bswap. rewrite (le_bytes_word4 _ _ _ _ Hr). cbn [rev app].
    rewrite (le_bytes_word4 _ _ _ _ Hb). rewrite Hs. by destruct i.
Qed.

Lemma hex_word_range i : inst_ok i -> is_u32 (hex_word i).
Proof. intros Hi. rewrite hex_word_bytes by done. destruct Hi as (Hd & Hs & Hn & Hc & _). unfold is_u32. cbn [le_word]. lia. Qed.

(** The program [l] lies in the card's memory from instruction [at_] on. *)
Fixpoint holds_program (h : mtthw) (at_ : Z) (l : list Instruction) : Prop :=
  match l with
  | [] => True
  | i :: l =>
      mt_word h (0xCB0 + 8 * at_) = hex_word i /\ mt_word h (0xCB0 + 8 * at_ + 4) = u32 (i_Src1 i) /\
      holds_program h (at_ + 1) l
  end.

Lemma holds_program_frame h h' at_ l :
  (forall a, 0xCB0 + 8 * at_ <= a < 0xCB0 + 8 * (at_ + Z.of_nat (length l)) -> mt_word h' a = mt_word h a) ->
  holds_program h at_ l -> holds_program h' at_ l.
Proof.
  revert at_. induction l as [|i l IH]; intros at_ Hf; [done|]. cbn [holds_program length] in *. intros (E1 & E2 & E3).
  split_and!; [by rewrite Hf by lia|by rewrite Hf by lia|]. apply IH; [|done]. intros a Ha. apply Hf. lia.
Qed.

(** Instructions within the program memory. *)
Definition in_memory (at_ : Z) (l : list Instruction) : Prop :=
  0 <= at_ /\ at_ + Z.of_nat (length l) <= MttDrvrINSTRUCTIONS.

Definition program_words (at_ n : Z) (a : Z) : Prop := 0xCB0 + 8 * at_ <= a < 0xCB0 + 8 * (at_ + n).

Lemma map_ProgramMem_in at_ : 0 <= at_ <= MttDrvrINSTRUCTIONS -> map_ProgramMem at_ = 0xCB0 + 8 * at_.
Proof. intros H. unfold map_ProgramMem. apply u32_id. unfold is_u32, MttDrvrINSTRUCTIONS in *. lia. Qed.

Lemma u32_map_next at_ k : 0 <= at_ < MttDrvrINSTRUCTIONS -> 0 <= k <= 8 -> u32 (0xCB0 + 8 * at_ + k) = 0xCB0 + 8 * at_ + k.
Proof. intros H Hk. apply u32_id. unfold is_u32, MttDrvrINSTRUCTIONS in *. lia. Qed.

Lemma set_program_spec l : forall at_ h, in_memory at_ l -> Forall inst_ok l ->
  let h' := __mtt_set_program cpu_big (0xCB0 + 8 * at_) l h in
  holds_program h' at_ l /\ writes_only (program_words at_ (Z.of_nat (length l))) h h'.
Proof.
  induction l as [|i l IH]; intros at_ h [H0 H1] Hl; [split; [done|apply writes_only_refl]|].
  apply Forall_cons in Hl as [Hi Hl]. cbn [length] in *. cbn -[mt_write mtt_writew]. unfold mtt_writew.
  rewrite !u32_map_next by (unfold MttDrvrINSTRUCTIONS in *; lia). rewrite Fields_hex_word by done.
  set (h1 := mt_write (0xCB0 + 8 * at_ + 4) (i_Src1 i) (mt_write (0xCB0 + 8 * at_) (hex_word i) h)).
  replace (0xCB0 + 8 * at_ + 8) with (0xCB0 + 8 * (at_ + 1)) by lia.
  destruct (IH (at_ + 1) h1) as [IH1 IH2]; [split; lia|done|]. split_and!; [| |done|].
  - destruct IH2 as (_ & _ & _ & M). rewrite M by (unfold program_words; lia). unfold h1. rewrite !mt_word_write.
    rewrite (proj2 (Z.eqb_neq (0xCB0 + 8 * at_) (0xCB0 + 8 * at_ + 4))), Z.eqb_refl by lia. by apply u32_id, hex_word_range.
  - destruct IH2 as (_ & _ & _ & M). rewrite M by (unfold program_words; lia). unfold h1. by rewrite mt_word_write, Z.eqb_refl.
  - transitivity h1.
    + unfold h1. etrans; apply write_writes; unfold program_words; lia.
    + eapply writes_only_weaken; [|exact IH2]. unfold program_words. lia.
Qed.

Lemma mt_read_program a h : 0xCB0 <= a -> fst (mt_read world a h) = u32 (mt_word h a).
Proof.
  intros Ha. unfold mt_read, mt_keeps. cbn [fst].
  rewrite (proj2 (Z.leb_le (map_ProgramMem 0) a)) by done. done.
Qed.

Lemma get_program_spec l : forall at_ h, in_memory at_ l -> Forall inst_ok l -> holds_program h at_ l ->
  fst (__mtt_get_program world cpu_big (0xCB0 + 8 * at_) (length l) h) = l.
Proof.
  induction l as [|i l IH]; intros at_ h [H0 H1] Hl Hh; [done|].
  apply Forall_cons in Hl as [Hi Hl]. cbn [length holds_program] in *. destruct Hh as (E1 & E2 & E3).
  cbn -[mt_read mtt_readw]. unfold mtt_readw.
  rewrite !u32_map_next by (unfold MttDrvrINSTRUCTIONS in *; lia).
  pose proof (mt_read_program (0xCB0 + 8 * at_) h ltac:(lia)) as R1. pose proof (mt_read_same (0xCB0 + 8 * at_) h) as S1.
  destruct (mt_read world _ h) as [f h1]. cbn [fst snd] in R1, S1.
  pose proof (mt_read_program (0xCB0 + 8 * at_ + 4) h1 ltac:(lia)) as R2. pose proof (mt_read_same (0xCB0 + 8 * at_ + 4) h1) as S2.
  destruct (mt_read world _ h1) as [s h2]. cbn [fst snd] in R2, S2.
  replace (0xCB0 + 8 * at_ + 8) with (0xCB0 + 8 * (at_ + 1)) by lia.
  assert (holds_program h2 (at_ + 1) l) as E3'.
  { eapply holds_program_frame; [|exact E3]. intros a _. rewrite (same_card_word h1 h2) by done. by rewrite (same_card_word h h1). }
  specialize (IH (at_ + 1) h2 ltac:(split; lia) Hl E3').
  destruct (__mtt_get_program world cpu_big _ _ h2) as [l' h3]. cbn [fst] in *. subst l' f s. f_equal.
  rewrite (same_card_word h h1) by done. rewrite E1, E2, u32_idemp, u32_id by (by apply hex_word_range).
  apply of_Fields_hex_word; [done|]. apply s32_u32_id. apply Hi.
Qed.

(** ** The part of the card and the locks of an ioctl *)

(** From [d] to [d'] only words at [P] are written, and what is taken is given
    back. *)
Definition tidy (P : Z -> Prop) (d d' : mdev) : Prop :=
  writes_only P (md_hw d) (md_hw d') /\ exists l, md_log d' = md_log d ++ l /\ balanced l.

Lemma tidy_refl P d : tidy P d d.
Proof. split; [apply writes_only_refl|]. exists []. by rewrite app_nil_r. Qed.

Lemma tidy_trans P d1 d2 d3 : tidy P d1 d2 -> tidy P d2 d3 -> tidy P d1 d3.
Proof.
  intros [W1 (l1 & E1 & B1)] [W2 (l2 & E2 & B2)]. split; [by etrans|]. exists (l1 ++ l2).
  split; [by rewrite E2, E1, app_assoc|by apply balanced_app].
Qed.

#[export] Instance tidy_preorder P : PreOrder (tidy P).
Proof. split; [intros d; apply tidy_refl|intros d1 d2 d3; apply tidy_trans]. Qed.

Lemma tidy_weaken (P Q : Z -> Prop) d d' : (forall a, P a -> Q a) -> tidy P d d' -> tidy Q d d'.
Proof. intros HPQ [W L]. split; [by eapply writes_only_weaken|done]. Qed.

Lemma tidy_u P f d : tidy P d (on_u f d).
Proof. split; [apply writes_only_refl|]. exists []. by rewrite app_nil_r. Qed.

Lemma tidy_hw P f d : writes_only P (md_hw d) (f (md_hw d)) -> tidy P d (on_hw f d).
Proof. intros W. split; [done|]. exists []. by rewrite app_nil_r. Qed.

Lemma tidy_write (P : Z -> Prop) a v d : P a -> tidy P d (on_hw (mtt_writew a v) d).
Proof. intros Ha. by apply tidy_hw, write_writes. Qed.

Lemma tidy_read {A} P (f : mtthw -> A * mtthw) d : (forall h, same_card h (snd (f h))) -> tidy P d (snd (read_hw f d)).
Proof.
  intros Hf. unfold read_hw. specialize (Hf (md_hw d)). destruct (f (md_hw d)) as [v h]. split.
  - by apply same_card_writes.
  - exists []. by rewrite app_nil_r.
Qed.

(** Held for the length of an access. *)
Lemma tidy_locked P k i f d : (forall d, md_log (f d) = md_log d) ->
  (forall d, writes_only P (md_hw d) (md_hw (f d))) -> tidy P d (locked k i f d).
Proof.
  intros Hl Hw. split; [apply (Hw (logged [Acq k i] d))|]. exists [Acq k i; Rel k i].
  split; [|apply balanced_pair]. unfold locked. cbn. rewrite Hl. cbn. by rewrite <- app_assoc.
Qed.

Lemma tidy_read_locked {A} P k i (f : mtthw -> A * mtthw) d : (forall h, same_card h (snd (f h))) ->
  tidy P d (logged [Rel k i] (snd (read_hw f (logged [Acq k i] d)))).
Proof.
  intros Hf. unfold read_hw. specialize (Hf (md_hw d)). cbn. destruct (f (md_hw d)) as [v h]. split.
  - by apply same_card_writes.
  - exists [Acq k i; Rel k i]. split; [|apply balanced_pair]. cbn. by rewrite <- app_assoc.
Qed.

Definition command_words (a : Z) : Prop := a = MTT_COMMAND \/ a = MTT_COMMAND_VAL.

Lemma tidy_cmd cmd val d : tidy command_words d (mtt_cmd cmd val d).
Proof.
  apply (tidy_locked command_words KIOLOCK 0 (on_hw (__mtt_cmd cmd val))); [done|]. intros d'. cbn. unfold __mtt_cmd.
  etrans; apply write_writes; unfold command_words; auto.
Qed.

Lemma tidy_ping P e d : tidy P d (snd (mtt_ping world e d)).
Proof.
  unfold mtt_ping. destruct (me_bus_error e); [apply tidy_u|].
  pose proof (tidy_read P (mtt_readw world MTT_VHDL) d (mt_read_same MTT_VHDL)) as H.
  by destruct (read_hw _ d) as [v d'].
Qed.

(** The words an ioctl may write.  A block of words goes anywhere, and so do
    programs that do not fit their place. *)
Definition touched (cm : mttcmd) (a : Z) : Prop :=
  match cm with
  | MTT_IOCSUTC_SENDING _ | MTT_IOCSEXT_1KHZ _ | MTT_IOCSOUT_DELAY _ | MTT_IOCSOUT_ENABLE _ | MTT_IOCSSYNC_PERIOD _
  | MTT_IOCSUTC _ _ | MTT_IOCSSEND_EVENT _ _ => command_words a
  | MTT_IOCSTASKS_START _ => a = MTT_TASKS_STOP \/ a = MTT_TASKS_START \/ exists i, 0 <= i < MttDrvrTASKS /\ a = map_Tasks i
  | MTT_IOCSTASKS_STOP _ => a = MTT_TASKS_STOP
  | MTT_IOCSTASKS_CONT _ => a = MTT_TASKS_START
  | MTT_IOCSTCB t => 1 <= tk_Task t <= MttDrvrTASKS /\ (a = map_Tasks (tk_Task t - 1) \/ a = map_PcOffset (tk_Task t - 1))
  | MTT_IOCSGRVAL n _ => s32 n < MttDrvrGRAM_SIZE /\ a = map_GlobalMem (s32 n)
  | MTT_IOCSTRVAL task _ _ =>
      1 <= s32 task <= MttDrvrTASKS /\ exists i, 0 <= i < MttDrvrLRAM_SIZE /\ a = map_LocalMem (s32 task - 1) i
  | MTT_IOCSPROGRAM load count prog =>
      in_memory load (firstn (Z.to_nat count) prog) -> Forall inst_ok (firstn (Z.to_nat count) prog) ->
      program_words load (Z.of_nat (length (firstn (Z.to_nat count) prog))) a
  | MTT_IOCRAW_WRITE _ _ _ => True
  | _ => False
  end.

Lemma tidy_start_task i d : 0 <= i < MttDrvrTASKS ->
  tidy (fun a => a = MTT_TASKS_STOP \/ a = MTT_TASKS_START \/ exists i, 0 <= i < MttDrvrTASKS /\ a = map_Tasks i) d (start_task i d).
Proof.
  intros Hi. unfold start_task, locked. split; cbn -[mtt_writew].
  - etrans; [|etrans]; apply write_writes; naive_solver.
  - exists [Acq KUDATA 0; Acq KTASK i; Rel KTASK i; Rel KUDATA 0]. split; [|by apply balanced_nest].
    by rewrite <- !app_assoc.
Qed.

Lemma tidy_fold {A} P (f : mdev -> A -> mdev) l : (forall x d, x ∈ l -> tidy P d (f d x)) -> forall d, tidy P d (fold_left f l d).
Proof.
  induction l as [|x l IH]; intros Hf d; [apply tidy_refl|]. cbn. transitivity (f d x).
  - apply Hf. left.
  - apply IH. intros y d' Hy. apply Hf. by right.
Qed.

Lemma fold_log {A} (f : mdev -> A -> mdev) l : (forall x d, md_log (f d x) = md_log d) -> forall d, md_log (fold_left f l d) = md_log d.
Proof. intros Hf. induction l as [|x l IH]; intros d; [done|]. cbn. by rewrite IH. Qed.

Lemma fold_writes {A} P (f : mdev -> A -> mdev) l : (forall x d, writes_only P (md_hw d) (md_hw (f d x))) ->
  forall d, writes_only P (md_hw d) (md_hw (fold_left f l d)).
Proof. intros Hf. induction l as [|x l IH]; intros d; [apply writes_only_refl|]. cbn. etrans; [apply Hf|apply IH]. Qed.

Lemma set_tcb_writes t action d :
  writes_only (fun a => a = map_Tasks (tk_Task t - 1) \/ a = map_PcOffset (tk_Task t - 1)) (md_hw d) (md_hw (__mtt_set_tcb t action d)) /\
  md_log (__mtt_set_tcb t action d) = md_log d.
Proof.
  unfold __mtt_set_tcb. repeat case_goal; cbn -[mtt_writew];
    (split; [first [apply writes_only_refl | apply write_writes; tauto]|done]).
Qed.

Lemma set_fields_log t d : md_log (set_fields t d) = md_log d.
Proof. apply fold_log. intros x d'. case_goal; [apply set_tcb_writes|done]. Qed.

Lemma set_fields_writes t d :
  writes_only (fun a => a = map_Tasks (tk_Task t - 1) \/ a = map_PcOffset (tk_Task t - 1)) (md_hw d) (md_hw (set_fields t d)).
Proof. apply fold_writes. intros x d'. case_goal; [apply set_tcb_writes|apply writes_only_refl]. Qed.

Lemma iowritew_r_log to l d : md_log (on_hw (mtt_iowritew_r to l) d) = md_log d.
Proof. done. Qed.

Lemma iowritew_r_writes l : forall to h, writes_only (fun _ => True) h (mtt_iowritew_r to l h).
Proof.
  induction l as [|v l IH]; intros to h; [apply writes_only_refl|]. cbn -[mtt_writew]. etrans; [|apply IH]. by apply write_writes.
Qed.

Lemma set_program_writes l : forall to h, writes_only (fun _ => True) h (__mtt_set_program cpu_big to l h).
Proof.
  induction l as [|i l IH]; intros to h; [apply writes_only_refl|]. cbn -[mtt_writew mt_write]. etrans; [|apply IH].
  etrans; by apply write_writes.
Qed.

Lemma balanced_bounce k i : KBOUNCE <> k -> balanced ([Acq KBOUNCE 0] ++ [Acq k i; Rel k i] ++ [Rel KBOUNCE 0]).
Proof. intros Hk. apply balanced_nest. congruence. Qed.

(** Blocks and programs. *)
Lemma tidy_block (P : Z -> Prop) f d : (forall d, md_log (f d) = md_log d) -> (forall d, writes_only P (md_hw d) (md_hw (f d))) ->
  tidy P d (logged [Rel KBOUNCE 0] (locked KUDATA 0 f (logged [Acq KBOUNCE 0] d))).
Proof.
  intros Hl Hw. split; [apply (Hw (logged [Acq KUDATA 0] (logged [Acq KBOUNCE 0] d)))|].
  exists [Acq KBOUNCE 0; Acq KUDATA 0; Rel KUDATA 0; Rel KBOUNCE 0]. split; [|by apply balanced_nest].
  unfold locked. cbn. rewrite Hl. cbn. by rewrite <- !app_assoc.
Qed.

Lemma tidy_block_read {A} P (f : mtthw -> A * mtthw) d : (forall h, same_card h (snd (f h))) ->
  tidy P d (logged [Rel KUDATA 0; Rel KBOUNCE 0] (snd (read_hw f (logged [Acq KUDATA 0] (logged [Acq KBOUNCE 0] d))))).
Proof.
  intros Hf. unfold read_hw. specialize (Hf (md_hw d)). cbn. destruct (f (md_hw d)) as [v h]. split.
  - by apply same_card_writes.
  - exists [Acq KBOUNCE 0; Acq KUDATA 0; Rel KUDATA 0; Rel KBOUNCE 0]. split; [|by apply balanced_nest]. cbn. by rewrite <- !app_assoc.
Qed.

Lemma tidy_no_copy P d : tidy P d (logged [Rel KBOUNCE 0] (logged [Acq KBOUNCE 0] d)).
Proof.
  split; [apply writes_only_refl|]. exists [Acq KBOUNCE 0; Rel KBOUNCE 0]. split; [|apply balanced_pair]. cbn. by rewrite <- app_assoc.
Qed.

Lemma tidy_set_cmd P f cmd val d : (forall a, command_words a -> P a) -> tidy P d (mtt_cmd cmd val (on_u f d)).
Proof. intros HP. transitivity (on_u f d); [apply tidy_u|]. eapply tidy_weaken; [exact HP|apply tidy_cmd]. Qed.

Lemma tidy_get_utc P d : tidy P d (snd (mtt_get_utc world d)).
Proof.
  unfold mtt_get_utc, read_hw. cbn -[mtt_readw].
  pose proof (mt_read_same MTT_MSEC (md_hw d)) as H1. unfold mtt_readw. destruct (mt_read world MTT_MSEC (md_hw d)) as [ms h1].
  cbn -[mt_read]. pose proof (mt_read_same MTT_SEC h1) as H2. destruct (mt_read world MTT_SEC h1) as [s h2]. cbn in *. split; cbn.
  - apply same_card_writes. by etrans.
  - exists [Acq KIOLOCK 0; Rel KIOLOCK 0]. split; [by rewrite <- app_assoc|apply balanced_pair].
Qed.

Lemma tidy_send_event frame priority d : tidy command_words d (snd (mtt_send_event_ioctl world frame priority d)).
Proof.
  unfold mtt_send_event_ioctl. case_goal; [apply tidy_refl|]. unfold mtt_supports_prio. case_goal; [|apply tidy_cmd].
  pose proof (tidy_read command_words (mtt_readw world MTT_VHDL) d (mt_read_same MTT_VHDL)) as H.
  destruct (read_hw _ d) as [v d1]. cbn [snd] in *. etrans; [exact H|apply tidy_cmd].
Qed.

Lemma tidy_tasks_start v d : tidy (touched (MTT_IOCSTASKS_START v)) d (snd (mtt_tasks_start_ioctl v d)).
Proof.
  unfold mtt_tasks_start_ioctl. case_goal; [apply tidy_refl|]. apply tidy_fold. intros i d' Hi%elem_of_seqZ.
  case_goal; [|apply tidy_refl]. apply tidy_start_task. lia.
Qed.

Lemma tidy_gs_tasks set reg d : tidy (fun a => set <> None /\ a = reg) d (snd (mtt_gs_tasks_ioctl world set reg d)).
Proof.
  unfold mtt_gs_tasks_ioctl. destruct set as [v|].
  - case_goal; [apply tidy_refl|]. apply tidy_locked; [done|]. intros d'. by apply write_writes.
  - pose proof (tidy_read_locked (fun a => None <> @None Z /\ a = reg) KUDATA 0 (mtt_readw world reg) d (mt_read_same reg)) as H.
    by destruct (read_hw _ _) as [v d'].
Qed.

Lemma tidy_tcb (set : bool) t d : tidy (touched (if set then MTT_IOCSTCB t else MTT_IOCGTCB t)) d (snd (mtt_gs_tcb_ioctl world set t d)).
Proof.
  unfold mtt_gs_tcb_ioctl, WITHIN_RANGE. destruct (negb (_ && _)) eqn:E; [apply tidy_refl|]. boolp. destruct set.
  - apply tidy_locked; [apply set_fields_log|]. intros d'. eapply writes_only_weaken; [|apply set_fields_writes].
    intros a Ha. by split; [lia|].
  - pose proof (tidy_read_locked (touched (MTT_IOCGTCB t)) KTASK (tk_Task t - 1) (mtt_ioreadw_r world (map_Tasks (tk_Task t - 1)) 4) d
      (mtt_ioreadw_r_same 4 _)) as Ht.
    unfold __mtt_get_tcb. by destruct (read_hw _ _) as [v d'].
Qed.

Lemma tidy_grval n set d : tidy (fun a => set <> None /\ s32 n < MttDrvrGRAM_SIZE /\ a = map_GlobalMem (s32 n)) d (snd (mtt_gs_grval_ioctl world n set d)).
Proof.
  unfold mtt_gs_grval_ioctl. case_goal; [apply tidy_refl|]. boolp. destruct set as [v|].
  - apply tidy_locked; [done|]. intros d'. by apply write_writes.
  - match goal with |- tidy ?P _ _ =>
      pose proof (tidy_read_locked P KUDATA 0 (mtt_readw world (map_GlobalMem (s32 n))) d (mt_read_same _)) as Ht end.
    by destruct (read_hw _ _) as [v d'].
Qed.

Lemma tidy_trval task set d :
  tidy (fun a => set <> None /\ 1 <= s32 task <= MttDrvrTASKS /\
          exists i, 0 <= i < MttDrvrLRAM_SIZE /\ a = map_LocalMem (s32 task - 1) i) d (snd (mtt_gs_trval_ioctl world task set d)).
Proof.
  unfold mtt_gs_trval_ioctl, WITHIN_RANGE. destruct (negb (_ && _)) eqn:E; [apply tidy_refl|]. boolp. destruct set as [[mask vals]|].
  - destruct (filter _ _) as [|i l] eqn:Ef; [apply tidy_refl|]. apply tidy_locked; [done|]. intros d'. apply write_writes.
    assert (i ∈ seqZ 0 MttDrvrLRAM_SIZE) as Hi.
    { eapply proj2, list_elem_of_filter. rewrite Ef. left. }
    apply elem_of_seqZ in Hi. split_and!; [done|lia..|]. exists i. split; [lia|done].
  - match goal with |- tidy ?P _ _ =>
      pose proof (tidy_read_locked P KUDATA 0 (mtt_ioreadw_r world (map_LocalMem (s32 task - 1) 0) (Z.to_nat MttDrvrLRAM_SIZE)) d (mtt_ioreadw_r_same _ _)) as Ht end.
    by destruct (read_hw _ _) as [v d'].
Qed.

Lemma tidy_io e u_addr ioaddr size d r d' :
  __mtt_io world e u_addr ioaddr size d = Some (r, d') -> tidy (fun _ => u_addr <> None) d d'.
Proof.
  unfold __mtt_io. destruct (sysbrk size _); [intros [= _ <-]; apply tidy_refl|done|].
  case_goal; [done|]. destruct u_addr as [l|].
  - case_goal; intros [= _ <-]; [apply tidy_no_copy|]. apply tidy_block; [done|]. intros d1.
    eapply writes_only_weaken; [|apply iowritew_r_writes]. done.
  - intros H. pose proof (tidy_block_read (fun _ => None <> @None (list Z)) (mtt_ioreadw_r world ioaddr (Z.to_nat (u32 size / 4))) d (mtt_ioreadw_r_same _ _)) as Ht.
    destruct (read_hw _ _) as [v d1]. by injection H as _ <-.
Qed.

Lemma tidy_program e u_prog load count d r d' :
  mtt_gs_program_ioctl world cpu_big e load count u_prog d = Some (r, d') ->
  tidy (fun a => match u_prog with Some p => touched (MTT_IOCSPROGRAM load count p) a | None => False end) d d'.
Proof.
  unfold mtt_gs_program_ioctl, mtt_gs_program. destruct (sysbrk _ _); [intros [= _ <-]; apply tidy_refl|done|].
  case_goal; [done|]. destruct u_prog as [l|].
  - case_goal; [intros [= _ <-]; apply tidy_no_copy|]. case_goal; intros [= _ <-].
    apply tidy_block; [done|]. intros d1. cbn [on_hw md_hw touched]. set (p := firstn _ l).
    destruct (decide (in_memory load p /\ Forall inst_ok p)) as [[Hm Hp]|Hn].
    + eapply writes_only_weaken; [|rewrite map_ProgramMem_in by (destruct Hm; lia); by apply set_program_spec]. by intros.
    + eapply writes_only_weaken; [|apply set_program_writes]. intros a _ Hm Hp. exfalso. by apply Hn.
  - case_goal; [done|]. intros H.
    pose proof (tidy_block_read (fun _ => False) (__mtt_get_program world cpu_big (map_ProgramMem load) (Z.to_nat count)) d (get_program_same _ _)) as Ht.
    destruct (read_hw _ _) as [v d1]. by injection H as _ <-.
Qed.

Lemma tidy_status P e d : tidy P d (snd (mtt_status_ioctl world e d)) /\ tidy P d (snd (mtt_version_ioctl world e d)).
Proof.
  unfold mtt_status_ioctl, mtt_version_ioctl. pose proof (tidy_ping P e d) as H. destruct (mtt_ping world e d) as [[] d1]; [|done].
  cbn [snd] in H. split; (etrans; [exact H|]).
  - unfold mtt_get_status. pose proof (tidy_read P (mtt_readw world MTT_STATUS) d1 (mt_read_same MTT_STATUS)) as H1.
    destruct (read_hw _ d1) as [v d2]. cbn [snd] in H1. case_goal; [|done]. case_goal; (etrans; [exact H1|apply tidy_u]) || exact H1.
  - pose proof (tidy_read P (mtt_readw world MTT_VHDL) d1 (mt_read_same MTT_VHDL)) as H1. by destruct (read_hw _ d1) as [v d2].
Qed.

(** Every ioctl gives back what it takes, and writes its own part of the card. *)
Lemma ioctl_tidy e cm d r d' : MttUserIoctls world cpu_big e cm d = Some (r, d') -> tidy (touched cm) d d'.
Proof.
  assert (forall x : mttres * mdev, tidy (touched cm) d (snd x) -> Some x = Some (r, d') -> tidy (touched cm) d d') as Hs.
  { intros x Hx [= ->]. done. }
  destruct cm; cbn [MttUserIoctls]; try apply Hs; cbn [touched]; try apply tidy_refl; try (by apply tidy_set_cmd).
  - apply tidy_u.
  - apply tidy_cmd.
  - unfold mtt_gs_utc_ioctl. pose proof (tidy_get_utc (fun _ => False) d). by destruct (mtt_get_utc world d) as [[s ms] d1].
  - apply tidy_send_event.
  - apply tidy_tasks_start.
  - eapply tidy_weaken; [|apply tidy_gs_tasks]. naive_solver.
  - eapply tidy_weaken; [|apply tidy_gs_tasks]. naive_solver.
  - eapply tidy_weaken; [|apply tidy_gs_tasks]. naive_solver.
  - apply (tidy_tcb true).
  - apply (tidy_tcb false).
  - eapply tidy_weaken; [|apply tidy_grval]. naive_solver.
  - eapply tidy_weaken; [|apply tidy_grval]. naive_solver.
  - eapply tidy_weaken; [|apply tidy_trval]. naive_solver.
  - eapply tidy_weaken; [|apply tidy_trval]. naive_solver.
  - apply tidy_program.
  - apply tidy_program.
  - apply tidy_status.
  - intros H. eapply tidy_weaken; [|by eapply tidy_io]. done.
  - intros H. eapply tidy_weaken; [|by eapply tidy_io]. naive_solver.
  - apply tidy_status.
Qed.

(** ** The configuration of the card

    What the commands given to the card have set, last command first: the value
    register, and the setting of each command since the last reset. *)

Definition command_step (w : Z * Z) (st : Z * (Z -> Z)) : Z * (Z -> Z) :=
  let '(a, v) := w in
  let '(val, set) := st in
  if a =? MTT_COMMAND then
    (val, if v =? MttDrvrCommandRESET then fun _ => 0 else fun c => if c =? v then val else set c)
  else if a =? MTT_COMMAND_VAL then (v, set)
  else (val, set).

Definition settings (h : mtthw) : Z -> Z := snd (fold_right command_step (0, fun _ => 0) (mt_writes h)).

Lemma settings_frame (P : Z -> Prop) h h' c : writes_only P h h' -> ~ P MTT_COMMAND -> settings h' c = settings h c.
Proof.
  intros (l & E & F & _) Hn. unfold settings. rewrite E, fold_right_app. clear E.
  generalize (fold_right command_step (0, fun _ : Z => 0) (mt_writes h)). intros st.
  induction F as [|[a v] l Ha _ IH]; [done|]. cbn -[MTT_COMMAND MTT_COMMAND_VAL].
  destruct (fold_right command_step st l) as [val set]. cbn [fst snd] in *.
  destruct (Z.eqb_spec a MTT_COMMAND) as [->|]; [done|]. by destruct (a =? MTT_COMMAND_VAL).
Qed.

Lemma settings_same h h' c : same_card h h' -> settings h' c = settings h c.
Proof. intros H. apply (settings_frame (fun _ => False)); [by apply same_card_writes|tauto]. Qed.

Lemma settings_cmd cmd val h c : is_u32 cmd -> settings (__mtt_cmd cmd val h) c =
  if cmd =? MttDrvrCommandRESET then 0 else if c =? cmd then u32 val else settings h c.
Proof.
  intros Hc. unfold settings, __mtt_cmd, mtt_writew, mt_write. cbn.
  destruct (fold_right command_step _ (mt_writes h)) as [v set]. rewrite (u32_id cmd) by done.
  destruct (Z.eqb_spec cmd MttDrvrCommandRESET); [done|]. cbn. by destruct (c =? cmd).
Qed.

(** The card is set as the driver's data says. *)
Record in_force (d : mdev) : Prop := {
  if_enable : settings (md_hw d) MttDrvrCommandENABLE = EnabledOutput (md_u d);
  if_1khz : settings (md_hw d) MttDrvrCommandEXTERNAL_1KHZ = External1KHZ (md_u d);
  if_utc : settings (md_hw d) MttDrvrCommandUTC_SENDING_ON = UtcSending (md_u d);
  if_delay : settings (md_hw d) MttDrvrCommandSET_OUT_DELAY = u32 (OutputDelay (md_u d));
  if_sync : settings (md_hw d) MttDrvrCommandSET_SYNC_PERIOD = u32 (SyncPeriod (md_u d));
  if_bits : forall v, v ∈ [EnabledOutput (md_u d); External1KHZ (md_u d); UtcSending (md_u d)] -> v = 0 \/ v = 1;
}.

(** The fields of the configuration. *)
Definition config (u : udata) : list Z := [EnabledOutput u; External1KHZ u; UtcSending u; OutputDelay u; SyncPeriod u].

Definition config_commands : list Z :=
  [MttDrvrCommandENABLE; MttDrvrCommandEXTERNAL_1KHZ; MttDrvrCommandUTC_SENDING_ON; MttDrvrCommandSET_OUT_DELAY; MttDrvrCommandSET_SYNC_PERIOD].

Lemma in_force_same d d' : config (md_u d') = config (md_u d) ->
  (forall c, c ∈ config_commands -> settings (md_hw d') c = settings (md_hw d) c) -> in_force d -> in_force d'.
Proof.
  intros [= E1 E2 E3 E4 E5] Hc [H1 H2 H3 H4 H5 H6].
  split; rewrite ?E1, ?E2, ?E3, ?E4, ?E5, ?Hc; try done; by repeat constructor.
Qed.

Lemma read_hw_u {A} (f : mtthw -> A * mtthw) d : md_u (snd (read_hw f d)) = md_u d.
Proof. unfold read_hw. by destruct (f (md_hw d)). Qed.

Lemma fold_u {A B} (g : udata -> B) (f : mdev -> A -> mdev) l : (forall x d, g (md_u (f d x)) = g (md_u d)) ->
  forall d, g (md_u (fold_left f l d)) = g (md_u d).
Proof. intros Hf. induction l as [|x l IH]; intros d; [done|]. cbn. by rewrite IH. Qed.

(** What sets a configuration field. *)
Definition configures (cm : mttcmd) : bool :=
  match cm with
  | MTT_IOCSUTC_SENDING _ | MTT_IOCSEXT_1KHZ _ | MTT_IOCSOUT_DELAY _ | MTT_IOCSOUT_ENABLE _ | MTT_IOCSSYNC_PERIOD _ => true
  | _ => false
  end.

Ltac see_reads :=
  cbv zeta; repeat match goal with
  | |- context [read_hw ?f ?d] =>
      let E := fresh "E" in pose proof (read_hw_u f d) as E; destruct (read_hw f d) as [? ?]; cbn [snd] in E; cbv beta iota zeta
  end.

Lemma ioctl_config e cm d r d' : configures cm = false ->
  MttUserIoctls world cpu_big e cm d = Some (r, d') -> config (md_u d') = config (md_u d).
Proof.
  intros Hc.
  assert (forall x : mttres * mdev, config (md_u (snd x)) = config (md_u d) -> Some x = Some (r, d') -> config (md_u d') = config (md_u d)) as Hs.
  { intros x Hx [= ->]. done. }
  destruct cm; cbn [MttUserIoctls configures] in *; try done; try apply Hs; try done.
  - unfold mtt_send_event_ioctl, mtt_supports_prio. case_goal; [done|].
    destruct (truthy priority); see_reads; cbn in *; congruence.
  - unfold mtt_tasks_start_ioctl. case_goal; [done|]. apply (fold_u config). intros x d1. by case_goal.
  - unfold mtt_gs_tasks_ioctl. by case_goal.
  - unfold mtt_gs_tasks_ioctl. by case_goal.
  - unfold mtt_gs_tcb_ioctl. case_goal; [done|]. unfold locked, logged, set_fields. cbn [md_u snd].
    etrans; [apply (fold_u config)|done]. intros x d1. case_goal; [|done]. unfold __mtt_set_tcb. by repeat case_goal.
  - unfold mtt_gs_tcb_ioctl, __mtt_get_tcb. case_goal; [done|]. see_reads. cbn in *. congruence.
  - unfold mtt_gs_grval_ioctl. by case_goal.
  - unfold mtt_gs_grval_ioctl. case_goal; [done|]. see_reads. cbn in *. congruence.
  - unfold mtt_gs_trval_ioctl. case_goal; [done|]. by destruct (filter _ _).
  - unfold mtt_gs_trval_ioctl. case_goal; [done|]. see_reads. cbn in *. congruence.
  - unfold mtt_gs_program_ioctl, mtt_gs_program. destruct (sysbrk _ _); [by intros [= _ <-]|done|].
    repeat case_goal; try done; by intros [= _ <-].
  - unfold mtt_gs_program_ioctl, mtt_gs_program. destruct (sysbrk _ _); [by intros [= _ <-]|done|].
    repeat case_goal; try done. see_reads. intros [= _ <-]. cbn in *. congruence.
  - unfold mtt_status_ioctl, mtt_ping, mtt_get_status. case_goal; [done|]. see_reads.
    repeat case_goal; unfold config; cbn in *; congruence.
  - unfold mtt_rawio_ioctl, __mtt_io. destruct (sysbrk _ _); [by intros [= _ <-]|done|].
    repeat case_goal; try done; by intros [= _ <-].
  - unfold mtt_rawio_ioctl, __mtt_io. destruct (sysbrk _ _); [by intros [= _ <-]|done|].
    repeat case_goal; try done. see_reads. intros [= _ <-]. cbn in *. congruence.
  - unfold mtt_version_ioctl, mtt_ping. case_goal; [done|]. see_reads. cbn in *; congruence.
Qed.

(** Offsets within the map. *)
Lemma map_Tasks_in i : 0 <= i < MttDrvrTASKS -> map_Tasks i = 0x30 + 16 * i /\ map_PcOffset i = 0x34 + 16 * i.
Proof.
  intros Hi. unfold MttDrvrTASKS in Hi. assert (map_Tasks i = 0x30 + 16 * i) as E.
  { unfold map_Tasks. apply u32_id. unfold is_u32. lia. }
  split; [done|]. unfold map_PcOffset. rewrite E, u32_id by (unfold is_u32; lia). lia.
Qed.

Lemma map_GlobalMem_in i : 0 <= i < MttDrvrGRAM_SIZE -> map_GlobalMem i = 0x130 + 4 * i.
Proof. intros Hi. unfold MttDrvrGRAM_SIZE in Hi. unfold map_GlobalMem. apply u32_id. unfold is_u32. lia. Qed.

Lemma map_LocalMem_in task i : 0 <= task < MttDrvrTASKS -> 0 <= i < MttDrvrLRAM_SIZE -> map_LocalMem task i = 0x4B0 + 128 * task + 4 * i.
Proof.
  intros Ht Hi. unfold MttDrvrLRAM_SIZE, MttDrvrTASKS in *. unfold map_LocalMem. apply u32_id. unfold is_u32. lia.
Qed.

(** Ioctls that stay in the part of the card they are about: no block of raw
    words, no global register with a negative number, no program that does not
    fit. *)
Definition mild (cm : mttcmd) : Prop :=
  match cm with
  | MTT_IOCRAW_WRITE _ _ _ => False
  | MTT_IOCSGRVAL n _ => 0 <= s32 n
  | MTT_IOCSPROGRAM load count prog =>
      in_memory load (firstn (Z.to_nat count) prog) /\ Forall inst_ok (firstn (Z.to_nat count) prog)
  | _ => True
  end.

Definition commands (cm : mttcmd) : bool :=
  match cm with MTT_IOCSUTC _ _ | MTT_IOCSSEND_EVENT _ _ => true | _ => configures cm end.

(** Where a mild ioctl writes that gives no command. *)
Lemma mild_touched cm a : mild cm -> commands cm = false -> touched cm a ->
  a = MTT_TASKS_STOP \/ a = MTT_TASKS_START \/
  (exists i, 0 <= i < MttDrvrTASKS /\ (a = 0x30 + 16 * i \/ a = 0x34 + 16 * i)) \/ 0x130 <= a.
Proof.
  intros Hm Hc Ht. destruct cm; try discriminate; cbn [mild touched] in *; try tauto.
  - destruct Ht as [?|[?|(i & Hi & ->)]]; [tauto|tauto|]. right. right. left. exists i. split; [done|].
    left. by apply map_Tasks_in.
  - destruct Ht as [H1 H2]. right. right. left. exists (tk_Task t - 1). split; [lia|].
    destruct (map_Tasks_in (tk_Task t - 1)) as [E1 E2]; [lia|]. by rewrite E1, E2 in H2.
  - destruct Ht as [H1 ->]. rewrite map_GlobalMem_in by lia. right. right. right. lia.
  - destruct Ht as (H1 & i & Hi & ->). rewrite map_LocalMem_in by lia. right. right. right. lia.
  - destruct Hm as [H1 H2]. specialize (Ht H1 H2). unfold program_words, in_memory in *. right. right. right. lia.
Qed.

Lemma mild_command cm : mild cm -> commands cm = false -> ~ touched cm MTT_COMMAND.
Proof.
  intros Hm Hc Ht. destruct (mild_touched cm MTT_COMMAND Hm Hc Ht) as [H|[H|[(i & Hi & H)|H]]];
    unfold MTT_COMMAND, MTT_TASKS_STOP, MTT_TASKS_START in H; lia.
Qed.

(** ** Configuration commands keep the card in step *)

Lemma cmd_hw cmd val d : md_hw (mtt_cmd cmd val d) = __mtt_cmd cmd val (md_hw d).
Proof. done. Qed.

Lemma bool_of_bit v : bool_of v = 0 \/ bool_of v = 1.
Proof. unfold bool_of. case_goal; auto. Qed.

Lemma u32_bool_of v : u32 (bool_of v) = bool_of v.
Proof. by destruct (bool_of_bit v) as [-> | ->]. Qed.

Ltac after_cmd := cbn [md_u md_hw on_u logged on_hw locked mtt_cmd]; rewrite settings_cmd by (vm_compute; intuition congruence); eval_eqb; cbn [config_commands].

Lemma in_force_configure e cm d r d' : configures cm = true ->
  MttUserIoctls world cpu_big e cm d = Some (r, d') -> in_force d -> in_force d'.
Proof.
  intros Hc H [H1 H2 H3 H4 H5 H6].
  destruct cm; try discriminate; cbn [MttUserIoctls mtt_utc_sending_ioctl mtt_ext_1khz_ioctl mtt_gs_out_delay_ioctl mtt_out_enable_ioctl mtt_gs_sync_period_ioctl] in H;
    injection H as _ <-; (split; [after_cmd; try done..|]);
    cbn [md_u on_u logged on_hw mtt_cmd set_UtcSending set_External1KHZ set_OutputDelay set_EnabledOutput set_SyncPeriod
         UtcSending External1KHZ OutputDelay EnabledOutput SyncPeriod] in *; rewrite ?u32_bool_of, ?u32_s32; try done.
  all: intros x; rewrite !elem_of_cons; intros Hx.
  all: pose proof (bool_of_bit v) as Hb; repeat destruct Hx as [-> | Hx]; try done; try (apply H6; rewrite !elem_of_cons; tauto).
  all: by apply elem_of_nil in Hx.
Qed.

(** The others leave it alone. *)
Lemma in_force_other e cm d r d' : mild cm -> configures cm = false ->
  MttUserIoctls world cpu_big e cm d = Some (r, d') -> in_force d -> in_force d'.
Proof.
  intros Hm Hc H Hi. apply in_force_same with d; [by eapply ioctl_config| |done]. intros c Hcc.
  destruct (commands cm) eqn:E.
  - assert (forall cmd val d1, same_card (md_hw d) (md_hw d1) -> cmd = MttDrvrCommandSET_UTC \/ cmd = MttDrvrCommandSEND_EVENT \/ cmd = MttDrvrCommandSEND_EVENT_LOW ->
        settings (md_hw (mtt_cmd cmd val d1)) c = settings (md_hw d) c) as Hcmd.
    { intros cmd val d1 Hs Hd. rewrite cmd_hw, settings_cmd by (destruct Hd as [->|[->| ->]]; vm_compute; intuition congruence).
      rewrite <- (settings_same (md_hw d) (md_hw d1) c Hs).
      unfold config_commands in Hcc. rewrite !elem_of_cons in Hcc.
      destruct Hd as [->|[->| ->]]; destruct Hcc as [->|[->|[->|[->|[->|Hn]]]]]; done || by apply elem_of_nil in Hn. }
    destruct cm; try discriminate; cbn [MttUserIoctls] in H.
    + injection H as _ <-. apply (Hcmd MttDrvrCommandSET_UTC second d); [done|auto].
    + injection H as H. unfold mtt_send_event_ioctl, mtt_supports_prio in H. case_hyp H; [by injection H as _ <-|].
      destruct (truthy priority).
      * pose proof (tidy_refl (fun _ => False) d). unfold read_hw in H.
        pose proof (mt_read_same MTT_VHDL (md_hw d)) as Hs. unfold mtt_readw in H.
        destruct (mt_read world MTT_VHDL (md_hw d)) as [v h1]. cbn [snd] in Hs. injection H as _ <-.
        apply Hcmd; [done|]. case_goal; auto.
      * injection H as _ <-. apply Hcmd; [done|]. auto.
  - apply ioctl_tidy in H as [Hw _]. eapply settings_frame; [exact Hw|by apply mild_command].
Qed.

(** ** Reset and every sequence of calls *)

Lemma cmd_if_settings v cmd val d c : is_u32 cmd -> cmd <> MttDrvrCommandRESET ->
  settings (md_hw (cmd_if v cmd val d)) c = if truthy v && (c =? cmd) then u32 val else settings (md_hw d) c.
Proof.
  intros Hc Hr. unfold cmd_if. destruct (truthy v); [|done]. rewrite cmd_hw, settings_cmd by done.
  by rewrite (proj2 (Z.eqb_neq cmd MttDrvrCommandRESET)).
Qed.

Lemma cmd_if_u v cmd val d : md_u (cmd_if v cmd val d) = md_u d.
Proof. unfold cmd_if. by case_goal. Qed.

Lemma reset_settings isr d c : settings (md_hw (mtt_reset world isr d)) c = 0.
Proof.
  unfold mtt_reset. destruct isr as [[vector level]|]; cbn [md_hw on_hw logged].
  - erewrite (settings_frame (fun a => a = MTT_INTR)); [|by apply write_writes|done].
    by rewrite settings_cmd by (vm_compute; intuition congruence).
  - by rewrite settings_cmd by (vm_compute; intuition congruence).
Qed.

Lemma reset_u isr d : md_u (mtt_reset world isr d) = md_u d.
Proof. unfold mtt_reset. by destruct isr as [[vector level]|]. Qed.

(** A reset brings the card and the data in step, whatever the card was set to. *)
Lemma in_force_reset isr d : (forall v, v ∈ [EnabledOutput (md_u d); External1KHZ (md_u d)] -> v = 0 \/ v = 1) ->
  in_force (MttHardwareReset world isr d).
Proof.
  intros Hb. unfold MttHardwareReset, udata_set_defaults.
  assert (forall v, (if truthy v then u32 v else 0) = u32 v) as Hv.
  { intros v. unfold truthy. by destruct (Z.eqb_spec v 0) as [->|]. }
  assert (forall v, v = 0 \/ v = 1 -> (if truthy v then u32 1 else 0) = v) as Hbit by (by intros v [-> | ->]).
  pose proof (reset_u isr d) as Eu.
  split; rewrite ?cmd_if_settings by (vm_compute; intuition congruence); rewrite ?cmd_if_u; eval_eqb;
    rewrite ?andb_true_r, ?andb_false_r; cbn [md_u md_hw on_u]; rewrite ?reset_settings; rewrite ?Eu;
    cbn [EnabledOutput External1KHZ UtcSending OutputDelay SyncPeriod set_BusError set_UtcSending set_FlashOpen]; try done.
  - apply Hbit, Hb. left.
  - apply Hbit, Hb. right. left.
  - intros v [->|[->|[->|Hn]%elem_of_cons]%elem_of_cons]%elem_of_cons; [apply Hb; left|apply Hb; right; left|by left|].
    by apply elem_of_nil in Hn.
Qed.

Lemma tidy_cmd_if P v cmd val d : (forall a, command_words a -> P a) -> tidy P d (cmd_if v cmd val d).
Proof. intros HP. unfold cmd_if. case_goal; [|apply tidy_refl]. eapply tidy_weaken; [exact HP|apply tidy_cmd]. Qed.

Lemma tidy_reset isr d : tidy (fun _ => True) d (MttHardwareReset world isr d).
Proof.
  unfold MttHardwareReset, udata_set_defaults. transitivity (mtt_reset world isr d).
  - transitivity (locked KIOLOCK 0 (fun d => on_hw (__mtt_cmd MttDrvrCommandRESET 1) (on_hw (__mtt_quiesce world) d)) d).
    + apply tidy_locked; [done|]. intros d1. cbn [md_hw on_hw]. unfold __mtt_cmd, __mtt_quiesce.
      etrans; [|etrans; by apply write_writes].
      etrans; [|apply same_card_writes, mt_read_same]. by apply write_writes.
    + unfold mtt_reset. destruct isr as [[vector level]|]; [|apply tidy_refl]. by apply tidy_write.
  - etrans; [apply tidy_u|]. do 3 (etrans; [by apply tidy_cmd_if|]). by apply tidy_cmd_if.
Qed.

(** The calls of the framework, any number of them in any order: mild ioctls,
    resets, the interrupt handler's part, enabling interrupts, the version, the
    JTAG port. *)
Inductive mtt_step (isr : option (Z * Z)) : mdev -> mdev -> Prop :=
  | step_ioctl e cm r d d' : mild cm -> MttUserIoctls world cpu_big e cm d = Some (r, d') -> mtt_step isr d d'
  | step_reset d : mtt_step isr d (MttHardwareReset world isr d)
  | step_enable mask d : mtt_step isr d (MttEnableInterrupts world mask d)
  | step_source d : mtt_step isr d (snd (MttGetInterruptSource world d))
  | step_version e d : mtt_step isr d (snd (MttGetModuleVersion world e d))
  | step_jtag_read d : mtt_step isr d (snd (MttJtagReadByte world d))
  | step_jtag_write v d : mtt_step isr d (MttJtagWriteByte v d).

Lemma tidy_source P d : tidy P d (snd (MttGetInterruptSource world d)) /\ md_u (snd (MttGetInterruptSource world d)) = md_u d.
Proof.
  unfold MttGetInterruptSource, mtt_gs_utc_skel. pose proof (tidy_read P (mtt_readw world MTT_INTSR) d (mt_read_same MTT_INTSR)) as H.
  pose proof (read_hw_u (mtt_readw world MTT_INTSR) d) as E. destruct (read_hw _ d) as [src d1]. cbn [snd] in *.
  pose proof (tidy_get_utc P d1) as H1. assert (md_u (snd (mtt_get_utc world d1)) = md_u d1) as E1 by done.
  destruct (mtt_get_utc world d1) as [[s ms] d2]. cbn [snd] in *. split; [by etrans|congruence].
Qed.

Lemma tidy_version P e d : tidy P d (snd (MttGetModuleVersion world e d)) /\ config (md_u (snd (MttGetModuleVersion world e d))) = config (md_u d).
Proof.
  unfold MttGetModuleVersion. pose proof (tidy_ping P e d) as H.
  assert (config (md_u (snd (mtt_ping world e d))) = config (md_u d)) as E by (unfold mtt_ping; by destruct (me_bus_error e)).
  destruct (mtt_ping world e d) as [[] d1]; [|done]. cbn [snd] in *.
  pose proof (tidy_read P (mtt_readw world MTT_VHDL) d1 (mt_read_same MTT_VHDL)) as H1.
  pose proof (read_hw_u (mtt_readw world MTT_VHDL) d1) as E1. destruct (read_hw _ d1) as [v d2]. cbn [snd] in *.
  split; [by etrans|]. by rewrite E1.
Qed.

Lemma step_in_force isr d d' : mtt_step isr d d' -> in_force d -> in_force d'.
Proof.
  destruct 1 as [e cm r d d' Hm H|d|mask d|d|e d|d|v d]; intros Hi.
  - destruct (configures cm) eqn:Hc; [by eapply in_force_configure|by eapply in_force_other].
  - apply in_force_reset. intros v Hv. destruct Hi as [_ _ _ _ _ H6]. apply H6. rewrite !elem_of_cons in *. tauto.
  - apply in_force_same with d; [done| |done]. intros c _. unfold MttEnableInterrupts, mtt_orw. cbn [md_hw on_hw logged].
    unfold __mtt_orw. pose proof (mt_read_same MTT_INTEN (md_hw d)) as Hs. unfold mtt_readw.
    destruct (mt_read world MTT_INTEN (md_hw d)) as [x h1]. cbn [snd] in Hs. rewrite <- (settings_same _ _ c Hs).
    eapply (settings_frame (fun a => a = MTT_INTEN)); [by apply write_writes|done].
  - destruct (tidy_source (fun _ => False) d) as [[Hw _] E].
    apply in_force_same with d; [by rewrite E| |done]. intros c _. eapply settings_frame; [exact Hw|tauto].
  - destruct (tidy_version (fun _ => False) e d) as [[Hw _] E].
    apply in_force_same with d; [done| |done]. intros c _. eapply settings_frame; [exact Hw|tauto].
  - by apply in_force_same with d.
  - by apply in_force_same with d.
Qed.

Lemma step_log isr d d' : mtt_step isr d d' -> exists l, md_log d' = md_log d ++ l /\ balanced l.
Proof.
  destruct 1 as [e cm r d d' Hm H|d|mask d|d|e d|d|v d].
  - by apply ioctl_tidy in H as [_ H].
  - apply tidy_reset.
  - exists [Acq KIOLOCK 0; Rel KIOLOCK 0]. split; [|apply balanced_pair]. cbn. by rewrite <- app_assoc.
  - by destruct (tidy_source (fun _ => False) d) as [[_ H] _].
  - by destruct (tidy_version (fun _ => False) e d) as [[_ H] _].
  - exists []. by rewrite app_nil_r.
  - exists []. by rewrite app_nil_r.
Qed.

(** ** What the library calls *)

(** The kernel buffer of a program that fits the card. *)
Lemma program_bounce n : 0 <= n <= MttDrvrINSTRUCTIONS ->
  u32 (s32 (n * 8)) = 8 * n /\ exists b, sysbrk (s32 (n * 8)) true = PBlock b /\ bounce_room b (8 * n) = true.
Proof.
  intros Hn. unfold MttDrvrINSTRUCTIONS in Hn.
  assert (u32 (s32 (n * 8)) = 8 * n) as En by (rewrite u32_s32, u32_id by (unfold is_u32; lia); lia).
  split; [done|]. eexists. split; [done|]. unfold bounce_room. cbn [mb_bytes]. apply Z.leb_le.
  rewrite (s32_id (s32 (n * 8))) by apply s32_range. rewrite <- u32_add_l, En.
  rewrite u32_id by (unfold is_u32, header_size; lia). unfold header_size. lia.
Qed.

(** A program is put where the map says, and read back as it is there. *)
Lemma set_program_ioctl e load prog d : me_avail e = true -> in_memory load prog -> Forall inst_ok prog ->
  exists d', MttUserIoctls world cpu_big e (MTT_IOCSPROGRAM load (Z.of_nat (length prog)) prog) d = Some (MOk MNone, d') /\
  md_u d' = md_u d /\ holds_program (md_hw d') load prog /\
  writes_only (program_words load (Z.of_nat (length prog))) (md_hw d) (md_hw d').
Proof.
  intros Ha Hm Hp. pose proof Hm as [H0 H1].
  destruct (program_bounce (Z.of_nat (length prog))) as (En & b & Eb & Er); [lia|].
  cbn [MttUserIoctls]. unfold mtt_gs_program_ioctl, mtt_gs_program. rewrite Ha, Eb, En, Er. cbn [negb].
  rewrite (proj2 (Z.ltb_ge _ _)) by lia. rewrite map_ProgramMem_in by lia. rewrite Nat2Z.id, firstn_all.
  eexists. split; [done|]. split; [done|]. by apply set_program_spec.
Qed.

Lemma get_program_ioctl e load prog d : me_avail e = true -> in_memory load prog -> Forall inst_ok prog ->
  holds_program (md_hw d) load prog ->
  exists d', MttUserIoctls world cpu_big e (MTT_IOCGPROGRAM load (Z.of_nat (length prog))) d = Some (MOk (MProgram prog), d') /\
  md_u d' = md_u d /\ same_card (md_hw d) (md_hw d').
Proof.
  intros Ha Hm Hp Hh. pose proof Hm as [H0 H1].
  destruct (program_bounce (Z.of_nat (length prog))) as (En & b & Eb & Er); [lia|].
  cbn [MttUserIoctls]. unfold mtt_gs_program_ioctl, mtt_gs_program. rewrite Ha, Eb, En, Er. cbn [negb].
  rewrite map_ProgramMem_in by lia. rewrite Nat2Z.id. unfold read_hw. cbn [md_hw logged].
  pose proof (get_program_spec prog load (md_hw d) Hm Hp Hh) as Eg.
  pose proof (get_program_same (length prog) (0xCB0 + 8 * load) (md_hw d)) as Es.
  destruct (__mtt_get_program world cpu_big _ _ (md_hw d)) as [l h1]. cbn [fst snd] in *. subst l.
  eexists. split; [done|]. by split.
Qed.

(** Starting tasks: each one of the mask, lowest first, is stopped, set to its
    first instruction, and started; nothing else is written. *)
Definition start_writes (u : udata) (i : Z) : list (Z * Z) :=
  [(MTT_TASKS_START, 2 ^ i); (map_Tasks i, u32 (t_PcStart (task_at i u))); (MTT_TASKS_STOP, 2 ^ i)].

Lemma start_task_writes i d : 0 <= i < MttDrvrTASKS ->
  mt_writes (md_hw (start_task i d)) = start_writes (md_u d) i ++ mt_writes (md_hw d) /\ md_u (start_task i d) = md_u d.
Proof.
  intros Hi. split; [|done]. unfold start_task, locked, start_writes. cbn.
  assert (u32 (2 ^ i) = 2 ^ i) as ->; [|done]. apply u32_id. unfold is_u32, MttDrvrTASKS in *. split; [apply Z.pow_nonneg; lia|].
  apply Z.pow_lt_mono_r; lia.
Qed.

Lemma tasks_start_writes v d : Z.land v MttDrvrTASK_MASK <> 0 ->
  let d' := snd (mtt_tasks_start_ioctl v d) in
  mt_writes (md_hw d') =
    flat_map (start_writes (md_u d)) (rev (filter (fun i => Z.testbit v i = true) (seqZ 0 MttDrvrTASKS))) ++ mt_writes (md_hw d).
Proof.
  intros Hv. unfold mtt_tasks_start_ioctl. rewrite (proj2 (Z.eqb_neq _ _) Hv). cbn [snd].
  assert (forall l, (forall i, i ∈ l -> 0 <= i < MttDrvrTASKS) -> forall d,
    mt_writes (md_hw (fold_left (fun d i => if Z.testbit v i then start_task i d else d) l d)) =
    flat_map (start_writes (md_u d)) (rev (filter (fun i => Z.testbit v i = true) l)) ++ mt_writes (md_hw d)) as H.
  { induction l as [|i l IH]; intros Hl d1; [done|]. cbn [fold_left].
    rewrite IH by (intros j Hj; apply Hl; by right). rewrite filter_cons.
    destruct (Z.testbit v i) eqn:E; [rewrite decide_True by done|by rewrite decide_False].
    destruct (start_task_writes i d1) as [-> ->]; [apply Hl; left|].
    cbn [rev]. rewrite flat_map_app, <- app_assoc. cbn [flat_map]. by rewrite app_nil_r. }
  apply H. intros i Hi%elem_of_seqZ. lia.
Qed.
End Card.


(** ** Runs *)

Module MttDevRuns.

(** A card whose registers answer what was written, and surroundings that fail
    nothing. *)
Definition plain (t : nat) (a v : Z) : Z := v.
Definition blank : mtthw := Mtthw ∅ [] [] 0.
Definition fine : menv := Menv true false 0 0.

Definition dev_after (cms : list mttcmd) (d : mdev) : mdev :=
  fold_left (fun d cm => match MttUserIoctls plain false fine cm d with Some (_, d) => d | None => d end) cms d.

Definition started : mdev := match MttModuleInit plain 1000 true true true (Some (0x80, 2)) blank with Some (_, d) => d | None => Mdev zero_udata blank [] end.

Definition configured : mdev := dev_after [MTT_IOCSOUT_DELAY 5; MTT_IOCSOUT_ENABLE 7] started.


(** The number of a global register is checked as an [int]: a large one reaches
    the command register, here with a reset that the driver does not know of. *)
Lemma negative_register_commands :
  let d := dev_after [MTT_IOCSGRVAL (2 ^ 32 - 71) MttDrvrCommandRESET] configured in
  settings (md_hw d) MttDrvrCommandENABLE = 0 /\ EnabledOutput (md_u d) = 1.
Proof. vm_compute. split; reflexivity. Qed.

(** The argument of [MTT_IOCSOUT_ENABLE] does not reach the driver. *)
Lemma out_enable_argument_lost :
  EnabledOutput (md_u (match mtt_ioctl plain false fine (MTT_IOCSOUT_ENABLE 1) started with Some (_, d) => d | None => started end)) = 0.
Proof. reflexivity. Qed.

(** Only the first register of a mask is written. *)
Lemma one_register_of_mask :
  let d := dev_after [MTT_IOCSTRVAL 3 6 [10; 11; 12]] started in
  mt_word (md_hw d) (map_LocalMem 2 1) = 11 /\ mt_word (md_hw d) (map_LocalMem 2 2) = 0.
Proof. vm_compute. split; reflexivity. Qed.

(** A program that is too long for the memory is taken. *)
Lemma program_past_memory :
  let d := dev_after [MTT_IOCSPROGRAM 4095 2 [Instr 1 2 3 4 5; Instr 6 7 8 9 10]] started in
  mt_word (md_hw d) map_size = 0x06070809.
Proof. vm_compute. reflexivity. Qed.

(** Interrupts can be enabled, but not disabled one by one; a reset leaves all
    of them disabled. *)
Lemma interrupts_only_added :
  let d := MttEnableInterrupts plain 4 (MttEnableInterrupts plain 3 started) in
  mt_word (md_hw d) MTT_INTEN = 7 /\ mt_word (md_hw (MttHardwareReset plain None d)) MTT_INTEN = 0.
Proof. vm_compute. split; reflexivity. Qed.

(** Half a second is half a million "nanoseconds". *)
Lemma utc_in_microseconds t : fst (SkelUserGetUtc (fun _ a _ => if a =? MTT_MSEC then 500 else t) started) = (u32 t, 500000).
Proof. unfold SkelUserGetUtc, mtt_gs_utc_skel, mtt_get_utc. cbn. by rewrite u32_idemp || reflexivity. Qed.

End MttDevRuns.
