(* ===== verification/MttLib.v ===== *)
(** * The MTT library ([mttn/lib/libmtt.c])

    What a process calls to load programs into the tasks of a module by name, to
    start and stop them and to see their registers.  Each function is a
    sequence of ioctls on the driver ([MttDev]); [None] as a result is undefined
    behaviour.  Strings of callers are lists of non-zero characters. *)

From stdpp Require Import strings.
From S2P Require Import Prelude SkelIo CdcmMem MttIsa MttObj MttDev.

Definition MttLibMIN_NAME_SIZE : nat := 3.
Definition MttLibMAX_NAME_SIZE : nat := 32.
Definition MttLibTASKS : Z := 16.
Definition MttLibTASK_SIZE : Z := 4096 / MttLibTASKS.
Definition MttLibLocalREGISTERS : Z := 32.
Definition MttLibGlobalREGISTERS : Z := 224.
Definition LN : nat := 128.

Inductive MttLibError :=
  | MttLibErrorNONE | MttLibErrorINIT | MttLibErrorOPEN | MttLibErrorIO | MttLibErrorSYS | MttLibErrorPATH | MttLibErrorFILE
  | MttLibErrorREAD | MttLibErrorNOMEM | MttLibErrorNORELO | MttLibErrorTOOBIG | MttLibErrorEMPTY | MttLibErrorFULL
  | MttLibErrorNOLOAD | MttLibErrorISLOAD | MttLibErrorNAME | MttLibErrorLREG | MttLibErrorGREG.

#[export] Instance MttLibError_eq_dec : EqDecision MttLibError.
Proof. solve_decision. Defined.

(** Some functions return the error where their caller expects a value. *)
Definition err_value (err : MttLibError) : Z :=
  match err with
  | MttLibErrorNONE => 0 | MttLibErrorINIT => 1 | MttLibErrorOPEN => 2 | MttLibErrorIO => 3 | MttLibErrorSYS => 4
  | MttLibErrorPATH => 5 | MttLibErrorFILE => 6 | MttLibErrorREAD => 7 | MttLibErrorNOMEM => 8 | MttLibErrorNORELO => 9
  | MttLibErrorTOOBIG => 10 | MttLibErrorEMPTY => 11 | MttLibErrorFULL => 12 | MttLibErrorNOLOAD => 13
  | MttLibErrorISLOAD => 14 | MttLibErrorNAME => 15 | MttLibErrorLREG => 16 | MttLibErrorGREG => 17
  end.

(** The globals of the library. *)
Record mttlib := Mttlib {
  l_mtt : bool;           (* the driver is open *)
  l_objdir : text;
  l_connected : Z;
  l_noqueueflag : Z;
  l_timeout : Z;
  l_first_task : Z;
  l_last_task : Z;
  l_max_size : Z;
}.

Definition lib_start : mttlib := Mttlib false [] 0 0 200 1 MttLibTASKS MttLibTASK_SIZE.

(** ** Names *)

Definition isalpha (c : Z) : bool := ((65 <=? c) && (c <=? 90)) || ((97 <=? c) && (c <=? 122)).
Definition isalnum (c : Z) : bool := isalpha c || ((48 <=? c) && (c <=? 57)).

Definition name_char (c : Z) : bool := (c =? 95) || (c =? 46) || isalnum c.

(** The checks of a task name; [None] is NULL. *)
Definition name_ok (name : option text) : bool :=
  match name with
  | None | Some [] => false
  | Some (c :: cs) =>
      let n := c :: cs in
      Nat.ltb (length n) MttLibMAX_NAME_SIZE && negb (bool_decide (n = txt "ALL")) && isalpha c && forallb name_char cs
      && Nat.leb MttLibMIN_NAME_SIZE (length n)
  end.

(** [strlen()], [strcmp()] on the name of a task block: undefined when its end
    is looked for past its 32 characters.  [strncmp()] stops there. *)
Definition strlen_name (a : list Z) : option Z :=
  let s := c_chars a in if Nat.ltb (length s) MttLibMAX_NAME_SIZE then Some (Z.of_nat (length s)) else None.

Definition strcmp_name (name : text) (a : list Z) : option bool :=
  let s := c_chars a in
  if Nat.ltb (length s) MttLibMAX_NAME_SIZE then Some (bool_decide (name = s))
  else if bool_decide (firstn (length s) name = s) then None else Some false.

Definition strncmp_name (a : list Z) (name : text) : bool :=
  bool_decide (firstn MttLibMAX_NAME_SIZE (c_chars a) = firstn MttLibMAX_NAME_SIZE name).

(** ** Calls *)

(** A computation on the driver. *)
Definition run (A : Type) : Type := mdev -> option (A * mdev).
Definition rret {A} (a : A) : run A := fun d => Some (a, d).
Definition rbind {A B} (m : run A) (k : A -> run B) : run B :=
  fun d => match m d with Some (a, d) => k a d | None => None end.
Definition defined {A} (o : option A) : run A := fun d => match o with Some a => Some (a, d) | None => None end.

Notation "'let!' x := m 'in' k" := (rbind m (fun x => k)) (at level 200, x name, m at level 100, k at level 200).

Definition with_task (n : Z) (t : MttDrvrTaskBuf) : MttDrvrTaskBuf :=
  TaskBuf n (tk_Fields t) (tk_LoadAddress t) (tk_InstructionCount t) (tk_PcStart t) (tk_ControlBlock t) (tk_Name t).

Section Library.
Variable world : nat -> Z -> Z -> Z.
Variable cpu_big : bool.
Variable e : menv.

(** [None]: the call returns a negative value. *)
Definition ioctl (cm : mttcmd) : run (option mttout) := mtt_ioctl world cpu_big e cm.

(** The task block [n], with what the last one left in the buffer; [None] when
    the call fails. *)
Definition get_tcb (n : Z) (tbuf : MttDrvrTaskBuf) : run (option MttDrvrTaskBuf) :=
  let! o := ioctl (MTT_IOCGTCB (with_task n tbuf)) in
  rret (match o with Some (MTcb t) => Some t | _ => None end).

(** [for (i = first_task - 1; i < last_task; i++)]: the indices. *)
Definition task_indices (L : mttlib) : list Z := seqZ (l_first_task L - 1) (l_last_task L - l_first_task L + 1).

(** The loop over the tasks: [body] returns from the function, or goes on;
    [io] is what a failing call returns. *)
Fixpoint scan {R} (io : R) (body : Z -> MttDrvrTaskBuf -> run (option R)) (idx : list Z) (tbuf : MttDrvrTaskBuf)
    : run (option R * MttDrvrTaskBuf) :=
  match idx with
  | [] => rret (None, tbuf)
  | i :: idx =>
      let! o := get_tcb (i + 1) tbuf in
      match o with
      | None => rret (Some io, tbuf)
      | Some t =>
          let! r := body i t in
          match r with Some r => rret (Some r, t) | None => scan io body idx t end
      end
  end.

(** The loop that looks for a task by its name, and what it then does. *)
Definition for_named {R} (L : mttlib) (io none : R) (name : text) (act : Z -> MttDrvrTaskBuf -> run R) (tbuf : MttDrvrTaskBuf) : run R :=
  let! r := scan io (fun i t =>
      let! same := defined (strcmp_name name (tk_Name t)) in
      if same : bool then let! r := act i t in rret (Some r) else rret None) (task_indices L) tbuf in
  rret (default none (fst r)).

(** Success or [MttLibErrorIO]. *)
Definition io_error (o : option mttout) : MttLibError := match o with Some _ => MttLibErrorNONE | None => MttLibErrorIO end.

(** ** Programs *)

(** [mem_ok]: [malloc()] succeeds; [mem]: what the memory it returns holds. *)
Definition MttLibReadObject (f : text) (code : ProgramBuf) (mem_ok : bool) (mem : Instruction) : option (MttLibError * ProgramBuf) :=
  match fgets LN f with
  | None => Some (MttLibErrorREAD, code)
  | Some _ =>
      let p := ReadObject f code mem in
      if negb mem_ok then Some (MttLibErrorNOMEM, Program_buf (LoadAddress p) (InstructionCount p) (Program code))
      else if 2 ^ 32 <=? 8 * InstructionCount p then None
      else Some (MttLibErrorNONE, p)
  end.

(** The program of a task, with its place. *)
Definition MttLibReadTaskObject (L : mttlib) (name : option text) (mem_ok : bool) (tbuf : MttDrvrTaskBuf)
    : run (MttLibError + ProgramBuf) :=
  if negb (l_mtt L) then rret (inl MttLibErrorINIT) else
  if negb (name_ok name) then rret (inl MttLibErrorNAME) else
  let! r := scan (inl MttLibErrorIO) (fun _ t =>
      rret (if strncmp_name (tk_Name t) (default [] name) then Some (inr t) else None)) (task_indices L) tbuf in
  match fst r with
  | None => rret (inl MttLibErrorNOLOAD)
  | Some (inl err) => rret (inl err)
  | Some (inr t) =>
      if tk_InstructionCount t =? 0 then rret (inl MttLibErrorEMPTY) else
      if negb mem_ok then rret (inl MttLibErrorNOMEM) else
      let! o := ioctl (MTT_IOCGPROGRAM (tk_LoadAddress t) (tk_InstructionCount t)) in
      rret (match o with
            | Some (MProgram l) => inr (Program_buf (tk_LoadAddress t) (tk_InstructionCount t) l)
            | _ => inl MttLibErrorIO
            end)
  end.

(** The loop for [tcnt] free tasks in a row: how many were found, the first and
    the last task looked at, and the buffer. *)
Fixpoint find_slots (tcnt : Z) (idx : list Z) (tval ftn tn : Z) (tbuf : MttDrvrTaskBuf)
    : run (option (Z * Z * Z * MttDrvrTaskBuf)) :=
  match idx with
  | [] => rret (Some (tval, ftn, tn, tbuf))
  | i :: idx =>
      let tn := i + 1 in
      let! o := get_tcb tn tbuf in
      match o with
      | None => rret None
      | Some t =>
          let! len := defined (strlen_name (tk_Name t)) in
          if len =? 0 then
            let! _ := ioctl (MTT_IOCSTASKS_STOP (2 ^ i)) in
            let ftn := if tval =? 0 then tn else ftn in
            let tval := tval + 1 in
            if tcnt <=? tval then rret (Some (tval, ftn, tn, t)) else find_slots tcnt idx tval ftn tn t
          else find_slots tcnt idx 0 ftn tn t
      end
  end.

(** The task block of a loaded program. *)
Definition loaded_tcb (name : text) (load count i : Z) (tbuf : MttDrvrTaskBuf) : MttDrvrTaskBuf :=
  let cb := tk_ControlBlock tbuf in
  TaskBuf i MttDrvrTBFAll load count 0 (TaskBlock 0 load (tb_TaskStatus cb) (tb_ProcessorStatus cb))
    (strncpy MttLibMAX_NAME_SIZE name).

Fixpoint set_slots (name : text) (load count : Z) (n : nat) (i : Z) (tbuf : MttDrvrTaskBuf) : run MttLibError :=
  match n with
  | O => rret MttLibErrorNONE
  | S n =>
      let tbuf := loaded_tcb name load count i tbuf in
      let! o := ioctl (MTT_IOCSTCB tbuf) in
      match o with Some _ => set_slots name load count n (i + 1) tbuf | None => rret MttLibErrorIO end
  end.

(** How many tasks a program takes. *)
Definition tasks_needed (L : mttlib) (count : Z) : Z := count / u32 (l_max_size L + 1) + 1.

(** The error and the caller's structure, in which the place is stored. *)
Definition MttLibLoadTaskObject (L : mttlib) (name : option text) (pbf : ProgramBuf) (tbuf : MttDrvrTaskBuf)
    : run (MttLibError * ProgramBuf) :=
  let fail err := rret (err, pbf) in
  if negb (l_mtt L) then fail MttLibErrorINIT else
  if negb (name_ok name) then fail MttLibErrorNAME else
  if negb (LoadAddress pbf =? 0) then fail MttLibErrorNORELO else
  if InstructionCount pbf =? 0 then fail MttLibErrorEMPTY else
  let nm := default [] name in
  if u32 (l_max_size L + 1) =? 0 then fun _ => None else
  let tcnt := tasks_needed L (InstructionCount pbf) in
  let! r := scan MttLibErrorIO (fun _ t =>
      rret (if strncmp_name (tk_Name t) nm then Some MttLibErrorISLOAD else None)) (task_indices L) tbuf in
  match r with
  | (Some err, _) => fail err
  | (None, tbuf) =>
      let! s := find_slots tcnt (task_indices L) 0 0 0 tbuf in
      match s with
      | None => fail MttLibErrorIO
      | Some (tval, ftn, tn, tbuf) =>
          if tval =? 0 then fail MttLibErrorNOMEM else
          let load := u32 (l_max_size L * (tn - 1)) in
          let pbf := Program_buf load (InstructionCount pbf) (Program pbf) in
          let! o := ioctl (MTT_IOCSPROGRAM load (InstructionCount pbf) (Program pbf)) in
          match o with
          | None => rret (MttLibErrorIO, pbf)
          | Some _ =>
              let! err := set_slots nm load (InstructionCount pbf) (Z.to_nat tval) ftn tbuf in
              rret (err, pbf)
          end
      end
  end.

(** [file]: the contents of the file with a name; the path must fit [fname]. *)
Definition MttLibLoadTask (L : mttlib) (file : text -> option text) (name : option text) (mem_ok : bool) (mem : Instruction)
    (tbuf : MttDrvrTaskBuf) : run MttLibError :=
  if negb (l_mtt L) then rret MttLibErrorINIT else
  if negb (name_ok name) then rret MttLibErrorNAME else
  let fname := l_objdir L ++ default [] name in
  if Nat.leb LN (length fname) then fun _ => None else
  match file fname with
  | None => rret MttLibErrorFILE
  | Some f =>
      let! r := defined (MttLibReadObject f (Program_buf 0 0 []) mem_ok mem) in
      match r with
      | (MttLibErrorNONE, pbf) => let! r := MttLibLoadTaskObject L name pbf tbuf in rret (fst r)
      | (err, _) => rret err
      end
  end.

(** [tbuf.Name] cleared. *)
Definition no_name (t : MttDrvrTaskBuf) : MttDrvrTaskBuf :=
  TaskBuf (tk_Task t) (tk_Fields t) (tk_LoadAddress t) (tk_InstructionCount t) (tk_PcStart t) (tk_ControlBlock t)
    (replicate MttLibMAX_NAME_SIZE 0).

(** The loop of [MttLibUnloadTask()], which counts the calls that failed. *)
Fixpoint unload_tasks (name : text) (all : bool) (idx : list Z) (err : Z) (tbuf : MttDrvrTaskBuf) : run (option Z) :=
  match idx with
  | [] => rret (Some err)
  | i :: idx =>
      let! o := get_tcb (i + 1) tbuf in
      match o with
      | None => rret None
      | Some t =>
          let! same := if all then rret true else defined (strcmp_name name (tk_Name t)) in
          if same : bool then
            let! o1 := ioctl (MTT_IOCSTASKS_STOP (2 ^ i)) in
            let t := no_name t in
            let! o2 := ioctl (MTT_IOCSTCB t) in
            let failed o := match o with Some _ => 0 | None => -1 end in
            unload_tasks name all idx (err + failed o1 + failed o2) t
          else unload_tasks name all idx err t
      end
  end.

Definition MttLibUnloadTask (L : mttlib) (name : text) (tbuf : MttDrvrTaskBuf) : run MttLibError :=
  if negb (l_mtt L) then rret MttLibErrorINIT else
  let all := bool_decide (name = txt "ALL") in
  let! r := unload_tasks name all (task_indices L) 0 tbuf in
  rret (match r with
        | None => MttLibErrorIO
        | Some err => if (err <? 0) && negb all then MttLibErrorNOLOAD else MttLibErrorNONE
        end).

Definition MttLibUnloadTasks (L : mttlib) (tbuf : MttDrvrTaskBuf) : run MttLibError := MttLibUnloadTask L (txt "ALL") tbuf.

(** ** Tasks *)

(** The names stored for the caller, by index; an empty one for no task. *)
Fixpoint list_tasks (shown : MttDrvrTaskBuf -> bool) (idx : list Z) (tbuf : MttDrvrTaskBuf) : run (option (list (Z * text))) :=
  match idx with
  | [] => rret (Some [])
  | i :: idx =>
      let! o := get_tcb (i + 1) tbuf in
      match o with
      | None => rret None
      | Some t =>
          let! len := defined (strlen_name (tk_Name t)) in
          let! rest := list_tasks shown idx t in
          rret (match rest with
                | None => None
                | Some l => Some ((i, if truthy len && shown t then c_chars (tk_Name t) else []) :: l)
                end)
      end
  end.

Definition names_or (L : mttlib) (shown : MttDrvrTaskBuf -> bool) (tbuf : MttDrvrTaskBuf) : run (MttLibError + list (Z * text)) :=
  if negb (l_mtt L) then rret (inl MttLibErrorINIT) else
  let! r := list_tasks shown (task_indices L) tbuf in
  rret (match r with None => inl MttLibErrorIO | Some l => inr l end).

Definition MttLibGetLoadedTasks (L : mttlib) (tbuf : MttDrvrTaskBuf) := names_or L (fun _ => true) tbuf.
Definition MttLibGetRunningTasks (L : mttlib) (tbuf : MttDrvrTaskBuf) :=
  names_or L (fun t => truthy (Z.land (tb_TaskStatus (tk_ControlBlock t)) MttDrvrTaskStatusRUNNING)) tbuf.

Definition MttLibSetTaskRegister (L : mttlib) (name : text) (treg val : Z) (junk : list Z) (tbuf : MttDrvrTaskBuf) : run MttLibError :=
  if negb (l_mtt L) then rret MttLibErrorINIT else
  if MttLibLocalREGISTERS <=? treg then rret MttLibErrorLREG else
  for_named L MttLibErrorIO MttLibErrorNOLOAD name (fun i _ =>
    let! o := ioctl (MTT_IOCSTRVAL (i + 1) (2 ^ treg) (<[Z.to_nat treg := val]> junk)) in rret (io_error o)) tbuf.

Definition MttLibGetTaskRegister (L : mttlib) (name : text) (treg : Z) (tbuf : MttDrvrTaskBuf) : run (MttLibError + Z) :=
  if negb (l_mtt L) then rret (inl MttLibErrorINIT) else
  if MttLibLocalREGISTERS <=? treg then rret (inl MttLibErrorLREG) else
  for_named L (inl MttLibErrorIO) (inl MttLibErrorNOLOAD) name (fun i _ =>
    let! o := ioctl (MTT_IOCGTRVAL (i + 1)) in
    rret (match o with Some (MRegs _ _ l) => inr (nth (Z.to_nat treg) l 0) | _ => inl MttLibErrorIO end)) tbuf.

Definition MttLibGetTaskRegisters (L : mttlib) (name : text) (tbuf : MttDrvrTaskBuf) : run (MttLibError + list Z) :=
  if negb (l_mtt L) then rret (inl MttLibErrorINIT) else
  for_named L (inl MttLibErrorIO) (inl MttLibErrorNOLOAD) name (fun i _ =>
    let! o := ioctl (MTT_IOCGTRVAL (i + 1)) in
    rret (match o with Some (MRegs _ _ l) => inr l | _ => inl MttLibErrorIO end)) tbuf.

(** The three functions that give a mask with one task to the driver. *)
Definition task_call (cm : Z -> mttcmd) (L : mttlib) (name : text) (tbuf : MttDrvrTaskBuf) : run MttLibError :=
  if negb (l_mtt L) then rret MttLibErrorINIT else
  for_named L MttLibErrorIO MttLibErrorNOLOAD name (fun i _ => let! o := ioctl (cm (2 ^ i)) in rret (io_error o)) tbuf.

Definition MttLibStartTask := task_call MTT_IOCSTASKS_START.
Definition MttLibStopTask := task_call MTT_IOCSTASKS_STOP.
Definition MttLibContinueTask := task_call MTT_IOCSTASKS_CONT.

Definition MttLibGetTaskStatus (L : mttlib) (name : text) (tbuf : MttDrvrTaskBuf) : run Z :=
  if negb (l_mtt L) then rret 0 else
  for_named L (err_value MttLibErrorIO) 0 name (fun _ t => rret (tb_TaskStatus (tk_ControlBlock t))) tbuf.

Definition MttLibGetTcbNum (L : mttlib) (name : text) (tbuf : MttDrvrTaskBuf) : run Z :=
  if negb (l_mtt L) then rret 0 else
  for_named L (err_value MttLibErrorIO) 0 name (fun i _ => rret (i + 1)) tbuf.

(** ** The module *)

Definition __send_event (L : mttlib) (frame priority : Z) : run MttLibError :=
  if negb (l_mtt L) then rret MttLibErrorINIT else
  let! o := ioctl (MTT_IOCSSEND_EVENT frame priority) in rret (io_error o).

Definition MttLibSendEvent (L : mttlib) (frame : Z) : run MttLibError := __send_event L (s32 frame) 0.
Definition MttLibSendEventPrio (L : mttlib) (frame priority : Z) : run MttLibError := __send_event L (s32 frame) priority.

Definition MttLibGetStatus (L : mttlib) : run Z :=
  if negb (l_mtt L) then rret 0 else
  let! o := ioctl MTT_IOCGSTATUS in rret (match o with Some (MVal v) => v | _ => 0 end).

Definition MttSetGlobalRegister (L : mttlib) (greg val : Z) : run MttLibError :=
  if negb (l_mtt L) then rret MttLibErrorINIT else
  if MttLibGlobalREGISTERS <=? greg then rret MttLibErrorGREG else
  let! o := ioctl (MTT_IOCSGRVAL greg val) in rret (io_error o).

Definition MttGetGlobalRegister (L : mttlib) (greg : Z) : run (MttLibError + Z) :=
  if negb (l_mtt L) then rret (inl MttLibErrorINIT) else
  if MttLibGlobalREGISTERS <=? greg then rret (inl MttLibErrorGREG) else
  let! o := ioctl (MTT_IOCGGRVAL greg) in
  rret (match o with Some (MVal v) => inr v | _ => inl MttLibErrorIO end).

Definition MttLibGetHandle (L : mttlib) : bool := l_mtt L.

Definition MttLibSetTaskRange (first last isize : Z) (L : mttlib) : MttLibError * mttlib :=
  if (first <? 1) || (MttDrvrTASKS <? first) || (last <=? first) || (MttDrvrTASKS <? last) then (MttLibErrorNOLOAD, L)
  else (MttLibErrorNONE,
        Mttlib (l_mtt L) (l_objdir L) (l_connected L) (l_noqueueflag L) (l_timeout L) (s32 first) (s32 last) (s32 isize)).

Definition MttLibGetTaskRange (L : mttlib) : Z * Z * Z := (u32 (l_first_task L), u32 (l_last_task L), u32 (l_max_size L)).

(** ** Waiting for interrupts

    What is asked of the framework, with what it answers: the calls that succeed
    and the masks that successive [read()]s return, [None] for a timeout. *)

Record wait_env := WaitEnv { w_connect : bool; w_queue : bool; w_timeout : bool; w_reads : list (option Z) }.

Inductive wait_call := WConnect (module mask : Z) | WQueueFlag (flag : Z) | WTimeout (timeout : Z).

(** The reads until one that counts; [None] when they go on for ever. *)
Fixpoint wait_reads (mask : Z) (rs : list (option Z)) : option Z :=
  match rs with
  | [] => None
  | None :: _ => Some 0
  | Some con :: rs => if (mask =? 0) || truthy (Z.land mask con) then Some con else wait_reads mask rs
  end.

Definition set_connected v L := Mttlib (l_mtt L) (l_objdir L) v (l_noqueueflag L) (l_timeout L) (l_first_task L) (l_last_task L) (l_max_size L).
Definition set_noqueueflag v L := Mttlib (l_mtt L) (l_objdir L) (l_connected L) v (l_timeout L) (l_first_task L) (l_last_task L) (l_max_size L).
Definition set_timeout v L := Mttlib (l_mtt L) (l_objdir L) (l_connected L) (l_noqueueflag L) v (l_first_task L) (l_last_task L) (l_max_size L).
Definition set_mtt v L := Mttlib v (l_objdir L) (l_connected L) (l_noqueueflag L) (l_timeout L) (l_first_task L) (l_last_task L) (l_max_size L).
Definition set_objdir v L := Mttlib (l_mtt L) v (l_connected L) (l_noqueueflag L) (l_timeout L) (l_first_task L) (l_last_task L) (l_max_size L).

(** The value, the library's state and the calls made. *)
Definition MttLibWait (mask noqueue tmo : Z) (w : wait_env) (L : mttlib) : option (Z * mttlib * list wait_call) :=
  if negb (l_mtt L) then Some (0, L, []) else
  let connect := negb (Z.land mask (l_connected L) =? mask) in
  let calls := if connect then [WConnect 1 mask] else [] in
  if connect && negb (w_connect w) then Some (0, L, calls) else
  let L := if connect then set_connected (Z.lor (l_connected L) mask) L else L in
  let queue := negb (noqueue =? l_noqueueflag L) in
  let calls := calls ++ if queue then [WQueueFlag noqueue] else [] in
  if queue && negb (w_queue w) then Some (err_value MttLibErrorIO, L, calls) else
  let L := if queue then set_noqueueflag noqueue L else L in
  let time := negb (tmo =? l_timeout L) in
  let calls := calls ++ if time then [WTimeout (l_timeout L)] else [] in
  if time && negb (w_timeout w) then Some (err_value MttLibErrorIO, L, calls) else
  let L := if time then set_timeout tmo L else L in
  match wait_reads mask (w_reads w) with
  | Some v => Some (v, L, calls)
  | None => None
  end.

(** ** Initialisation *)

(** The directory of the object files; [None]: [objdir] overflows. *)
Definition object_dir (default_path : text) (path : option text) : option (MttLibError + text) :=
  match path with
  | None => Some (inr default_path)
  | Some [] => Some (inl MttLibErrorPATH)
  | Some p =>
      if Nat.leb LN (length p) then None
      else if bool_decide (last p = Some 47) then Some (inr p)
      else if Nat.leb LN (length p + 1) then None
      else Some (inr (p ++ [47]))
  end.

(** What the surroundings answer: the device opens, the time of day. *)
Record init_env := InitEnv { ie_open : bool; ie_time : option Z; ie_wait : wait_env }.

(** The error, the library's state, and the calls of [MttLibWait()]. *)
Definition MttLibInit (default_path : text) (sysldr : bool) (path : option text) (ie : init_env) (L : mttlib)
    : run (MttLibError * mttlib * list wait_call) :=
  let! dir := defined (object_dir default_path path) in
  match dir with
  | inl err => rret (err, L, [])
  | inr dir =>
      let L := set_mtt false (set_objdir dir L) in
      if negb (ie_open ie) then rret (MttLibErrorOPEN, L, []) else
      let opened := set_mtt true L in
      let! st := ioctl MTT_IOCGSTATUS in
      match st with
      | Some (MVal stat) =>
          let need bit := sysldr || (Z.land stat bit =? 0) in
          let! enb := if need MttDrvrStatusENABLED then (let! o := ioctl (MTT_IOCSOUT_ENABLE 1) in rret (io_error o)) else rret MttLibErrorNONE in
          if negb (bool_decide (enb = MttLibErrorNONE)) then rret (enb, L, []) else
          let! u :=
            (if need MttDrvrStatusUTC_SET then
               let! w := defined (MttLibWait MttDrvrIntPPS 0 200 (ie_wait ie) opened) in
               let '(msk, waited, calls) := w in
               if truthy (Z.land msk MttDrvrIntPPS) then
                 match ie_time ie with
                 | Some tim => let! o := ioctl (MTT_IOCSUTC (u32 (tim + 1)) 0) in rret (io_error o, waited, calls)
                 | None => rret (MttLibErrorSYS, waited, calls)
                 end
               else rret (MttLibErrorIO, waited, calls)
             else rret (MttLibErrorNONE, opened, [])) in
          let '(err, opened, calls) := u in
          if negb (bool_decide (err = MttLibErrorNONE)) then rret (err, set_mtt false opened, calls) else
          let! autc := if need MttDrvrStatusUTC_SENDING_ON then (let! o := ioctl (MTT_IOCSUTC_SENDING 1) in rret (io_error o)) else rret MttLibErrorNONE in
          if negb (bool_decide (autc = MttLibErrorNONE)) then rret (autc, set_mtt false opened, calls)
          else rret (MttLibErrorNONE, opened, calls)
      | _ => rret (MttLibErrorIO, L, [])
      end
  end.

End Library.

(** ** Registers by name *)

Inductive MttLibRegType := MttLibRegTypeNONE | MttLibRegTypeGLOBAL | MttLibRegTypeLOCAL.

#[export] Instance MttLibRegType_eq_dec : EqDecision MttLibRegType.
Proof. solve_decision. Defined.

Definition GLOBALS : Z := 224.

(** [LorG] of a register range. *)
Definition r_LorG (r : RegisterDsc) : MttLibRegType := if r_Start r <? GLOBALS then MttLibRegTypeGLOBAL else MttLibRegTypeLOCAL.

(** [StrToUpper()] of the library: up to a space, in place. *)
Fixpoint upper_word (s : text) : text :=
  match s with
  | [] => []
  | c :: s => if c =? SP then [] else (if (97 <=? c) && (c <=? 122) then c - 32 else c) :: upper_word s
  end.

(** The loop over the ranges, with the name as [StrToUpper()] left it; the
    register, and its type when it is stored. *)
Fixpoint lib_register (rs : list RegisterDsc) (name upr : text) : Z * option MttLibRegType :=
  match rs with
  | [] => (0, None)
  | r :: rs =>
      if has_prefix (r_Name r) upr then
        if r_Start r <? r_End r then
          if Nat.ltb (length (r_Name r)) (length name) then
            let cp := skipn (length (r_Name r)) name in
            let '(rn, ep) := strtoul cp in
            if negb (bool_decide (cp = ep)) && (r_Offset r <=? rn) && (rn <=? r_End r - r_Start r + r_Offset r) then
              let rg := r_Start r + rn - r_Offset r in
              (if bool_decide (r_LorG r = MttLibRegTypeLOCAL) then rg - GLOBALS else rg, Some (r_LorG r))
            else lib_register rs name upr
          else lib_register rs name upr
        else (r_Start r, None)
      else lib_register rs name upr
  end.

(** [None]: the copy of the name overflows its nine characters. *)
Definition MttLibStringToReg (name : option text) : option (Z * option MttLibRegType) :=
  match name with
  | None => Some (0, None)
  | Some n =>
      let upr := upper_word n in
      if Nat.leb (length upr) MAX_REGISTER_STRING_LENGTH
      then Some (lib_register Regs (upr ++ skipn (length upr) n) upr) else None
  end.

Definition MttLibRegToString (regnum : Z) (lorg : MttLibRegType) : text :=
  GetRegisterName (if bool_decide (lorg = MttLibRegTypeLOCAL) then regnum + GLOBALS else regnum).
