(* ===== verification/MttLibInv.v ===== *)
(** * The MTT library: programs by name

    The library keeps programs in tasks that it finds by name.  Seen from the
    caller, that is a table of sixteen slots with a name and a program each; the
    ioctls, the task blocks and the program memory of the card implement it. *)

From stdpp Require Import strings.
From S2P Require Import Prelude SkelIo CdcmMem MttIsa MttObj MttDev MttDevInv MttLib.

(** ** The table *)

Notation slot_t := (option (text * list Instruction)) (only parsing).
Notation table := (list (option (text * list Instruction))) (only parsing).

Definition slot (s : table) (i : Z) : slot_t := nth (Z.to_nat i) s None.
Definition slot_name (o : slot_t) : text := match o with Some (n, _) => n | None => [] end.

Definition tasks : list Z := seqZ 0 16.

(** The first slot with a name; the empty name finds a free slot. *)
Definition find_task (s : table) (name : text) : option Z := find (fun i => bool_decide (slot_name (slot s i) = name)) tasks.

Inductive libop :=
  | OpLoad (name : text) (prog : list Instruction)
  | OpUnload (name : text)
  | OpRead (name : text)
  | OpStart (name : text)
  | OpStop (name : text)
  | OpContinue (name : text)
  | OpSetRegister (name : text) (treg val : Z)
  | OpSetGlobal (greg val : Z)
  | OpSendEvent (frame priority : Z)
  | OpLoaded.

Inductive libres := RErr (err : MttLibError) | RProgram (p : ProgramBuf) | RNames (l : list (Z * text)).

(** What the calls mean on the table. *)
Definition spec_load (name : text) (prog : list Instruction) (s : table) : MttLibError * table :=
  if negb (name_ok (Some name)) then (MttLibErrorNAME, s) else
  match prog with
  | [] => (MttLibErrorEMPTY, s)
  | _ =>
      match find_task s name, find_task s [] with
      | Some _, _ => (MttLibErrorISLOAD, s)
      | None, None => (MttLibErrorNOMEM, s)
      | None, Some i => (MttLibErrorNONE, <[Z.to_nat i := Some (name, prog)]> s)
      end
  end.

Definition spec_unload (name : text) (s : table) : table :=
  (fun o => if bool_decide (name = txt "ALL") || bool_decide (slot_name o = name) then None else o) <$> s.

Definition spec_read (name : text) (s : table) : libres :=
  if negb (name_ok (Some name)) then RErr MttLibErrorNAME else
  match find_task s name with
  | Some i => match slot s i with
              | Some (_, prog) => RProgram (Program_buf (256 * i) (Z.of_nat (length prog)) prog)
              | None => RErr MttLibErrorEMPTY
              end
  | None => RErr MttLibErrorNOLOAD
  end.

Definition spec_named (name : text) (s : table) : MttLibError :=
  match find_task s name with Some _ => MttLibErrorNONE | None => MttLibErrorNOLOAD end.

Definition spec_op (op : libop) (s : table) : libres * table :=
  match op with
  | OpLoad name prog => let '(err, s) := spec_load name prog s in (RErr err, s)
  | OpUnload name => (RErr MttLibErrorNONE, spec_unload name s)
  | OpRead name => (spec_read name s, s)
  | OpStart name | OpStop name | OpContinue name => (RErr (spec_named name s), s)
  | OpSetRegister name treg _ => (RErr (if MttLibLocalREGISTERS <=? treg then MttLibErrorLREG else spec_named name s), s)
  | OpSetGlobal greg _ => (RErr (if MttLibGlobalREGISTERS <=? greg then MttLibErrorGREG else MttLibErrorNONE), s)
  | OpSendEvent _ priority => (RErr (if WITHIN_RANGE 0 priority 1 then MttLibErrorNONE else MttLibErrorIO), s)
  | OpLoaded => (RNames ((fun i => (i, slot_name (slot s i))) <$> tasks), s)
  end.

(** Programs that fit one task; register numbers are not negative. *)
Definition op_ok (op : libop) : Prop :=
  match op with
  | OpLoad _ prog => Z.of_nat (length prog) <= MttLibTASK_SIZE /\ Forall inst_ok prog
  | OpSetRegister _ treg _ => 0 <= treg
  | OpSetGlobal greg _ => 0 <= greg
  | _ => True
  end.

(** ** Names in task blocks *)

Lemma c_chars_no_zero s : Forall (fun c => c <> 0) (c_chars s).
Proof.
  induction s as [|c s IH]; [constructor|]. cbn [c_chars]. destruct (Z.eqb_spec c 0); [constructor|]. by constructor.
Qed.

Lemma c_chars_app_zero s r : Forall (fun c => c <> 0) s -> c_chars (s ++ 0 :: r) = s.
Proof. induction 1 as [|c s Hc _ IH]; [done|]. cbn [app c_chars]. rewrite (proj2 (Z.eqb_neq c 0)) by done. by rewrite IH. Qed.

Lemma c_chars_id s : Forall (fun c => c <> 0) s -> c_chars s = s.
Proof. induction 1 as [|c s Hc _ IH]; [done|]. cbn [c_chars]. rewrite (proj2 (Z.eqb_neq c 0)) by done. by rewrite IH. Qed.

Lemma c_chars_strncpy n s : (length (c_chars s) < n)%nat -> c_chars (strncpy n s) = c_chars s.
Proof.
  intros Hn. unfold strncpy. rewrite (firstn_all2 (c_chars s)) by lia.
  destruct (n - length (c_chars s))%nat as [|k] eqn:E; [lia|]. apply c_chars_app_zero, c_chars_no_zero.
Qed.

Lemma name_ok_chars n : name_ok (Some n) = true -> Forall (fun c => c <> 0) n /\ (0 < length n < 32)%nat.
Proof.
  unfold name_ok. destruct n as [|c cs]; [done|]. rewrite !andb_true_iff. intros ((((Hl & _) & Ha) & Hc) & _).
  apply Nat.ltb_lt in Hl. unfold MttLibMAX_NAME_SIZE in Hl. split; [|cbn in *; lia]. constructor.
  - unfold isalpha in Ha. intros ->. done.
  - rewrite forallb_forall in Hc. apply Forall_forall. intros x Hx ->. apply list_elem_of_In in Hx. by apply Hc in Hx.
Qed.

(** ** The table in the module *)

(** The name of a task, by index. *)
Definition task_name (d : mdev) (i : Z) : text := c_chars (t_Name (task_at i (md_u d))).

(** What slot [i] holds, if anything, is in the task block and in the program
    memory of task [i], and its relocator is set to it. *)
Definition slot_ok (d : mdev) (i : Z) (o : slot_t) : Prop :=
  task_name d i = slot_name o /\
  match o with
  | None => True
  | Some (name, prog) =>
      let t := task_at i (md_u d) in
      t_LoadAddress t = 256 * i /\ t_InstructionCount t = Z.of_nat (length prog) /\ t_PcStart t = 0 /\
      (0 < length prog <= 256)%nat /\ Forall inst_ok prog /\ name_ok (Some name) = true /\
      holds_program (md_hw d) (256 * i) prog /\ mt_word (md_hw d) (0x34 + 16 * i) = 256 * i
  end.

(** No name is longer than it may be, so that every name in the blocks ends. *)
Record implements (d : mdev) (s : table) : Prop := {
  im_tasks : length (Tasks (md_u d)) = 16%nat;
  im_slots : length s = 16%nat;
  im_ok : forall i, 0 <= i < 16 -> slot_ok d i (slot s i);
}.

(** Only time passes. *)
Definition same_dev (d d' : mdev) : Prop := md_u d' = md_u d /\ same_card (md_hw d) (md_hw d').

#[export] Instance same_dev_preorder : PreOrder same_dev.
Proof. split; [by intros d|]. intros d1 d2 d3 [E1 H1] [E2 H2]. split; [congruence|by etrans]. Qed.

(** Words that no program and no relocator is in. *)
Definition harmless (a : Z) : Prop := a < 0xCB0 /\ forall i, 0 <= i < 16 -> a <> 0x34 + 16 * i.

Lemma slot_frame d d' i o : 0 <= i < 16 -> task_at i (md_u d') = task_at i (md_u d) ->
  (forall a, program_words (256 * i) 256 a \/ a = 0x34 + 16 * i -> mt_word (md_hw d') a = mt_word (md_hw d) a) ->
  slot_ok d i o -> slot_ok d' i o.
Proof.
  intros Hi Ht Hw [Hn Ho]. unfold slot_ok, task_name in *. rewrite Ht. split; [done|].
  destruct o as [[name prog]|]; [|done]. destruct Ho as (H1 & H2 & H3 & H4 & H5 & H6 & H7 & H8). split_and!; try done; try lia.
  - eapply holds_program_frame; [|exact H7]. intros a Ha. apply Hw. left. unfold program_words. lia.
  - rewrite Hw by (by right). done.
Qed.

Lemma implements_frame d d' s : md_u d' = md_u d -> writes_only harmless (md_hw d) (md_hw d') -> implements d s -> implements d' s.
Proof.
  intros Hu (l & _ & _ & Hw) [H1 H2 H3]. split; [by rewrite Hu|done|]. intros i Hi.
  apply slot_frame with d; [done|by rewrite Hu| |by apply H3]. intros a Ha. apply Hw. unfold harmless, program_words in *.
  intros [Hl Hn]. destruct Ha as [Ha| ->]; [lia|]. by apply (Hn i Hi).
Qed.

Lemma implements_same d d' s : same_dev d d' -> implements d s -> implements d' s.
Proof. intros [Hu Hs]. apply implements_frame; [done|by apply same_card_writes]. Qed.

Lemma name_bound d s i : implements d s -> 0 <= i < 16 -> (length (task_name d i) < 32)%nat.
Proof.
  intros [_ _ H] Hi. destruct (H i Hi) as [-> Ho]. destruct (slot s i) as [[name prog]|]; [|cbn; lia].
  destruct Ho as (_ & _ & _ & _ & _ & Hn & _). apply name_ok_chars in Hn. cbn. lia.
Qed.

Lemma find_task_name d s name : implements d s ->
  find_task s name = find (fun i => bool_decide (task_name d i = name)) tasks.
Proof.
  intros [_ _ H]. unfold find_task.
  assert (forall i, i ∈ tasks -> slot_name (slot s i) = task_name d i) as Hn.
  { intros i Hi%elem_of_seqZ. symmetry. apply H. lia. }
  induction tasks as [|i l IH]; [done|]. cbn [find]. rewrite Hn by left. rewrite IH; [done|]. intros j Hj. apply Hn. by right.
Qed.

(** Sequencing. *)
Lemma rbind_some {A B} (m : run A) (k : A -> run B) d a d' : m d = Some (a, d') -> rbind m k d = k a d'.
Proof. unfold rbind. by intros ->. Qed.

Lemma rbind_rret {A B} (a : A) (k : A -> run B) d : rbind (rret a) k d = k a d.
Proof. done. Qed.

Lemma rbind_defined {A B} (o : option A) (k : A -> run B) d a : o = Some a -> rbind (defined o) k d = k a d.
Proof. by intros ->. Qed.

Lemma rbind_assoc {A B C} (m : run A) (k : A -> run B) (k' : B -> run C) d :
  rbind (rbind m k) k' d = rbind m (fun a => rbind (k a) k') d.
Proof. unfold rbind. by destruct (m d) as [[a d']|]. Qed.

Section Calls.
Variable world : nat -> Z -> Z -> Z.
Variable cpu_big : bool.
Variable e : menv.
Hypothesis memory : me_avail e = true.

(** The library as it starts, with the driver open. *)
Variable L : mttlib.
Hypothesis L_open : l_mtt L = true.
Hypothesis L_first : l_first_task L = 1.
Hypothesis L_last : l_last_task L = 16.
Hypothesis L_size : l_max_size L = 256.

Lemma task_indices_all : task_indices L = tasks.
Proof. unfold task_indices. by rewrite L_first, L_last. Qed.

(** A task block read for task [i]. *)
Definition tcb_of (d : mdev) (i : Z) (t : MttDrvrTaskBuf) : Prop :=
  let l := task_at i (md_u d) in
  tk_Task t = i + 1 /\ tk_Fields t = MttDrvrTBFAll /\ tk_LoadAddress t = t_LoadAddress l /\
  tk_InstructionCount t = t_InstructionCount l /\ tk_PcStart t = t_PcStart l /\
  tk_Name t = strncpy 32 (t_Name l) /\ tb_PcOffset (tk_ControlBlock t) = u32 (mt_word (md_hw d) (0x34 + 16 * i)).

Lemma relocator_kept i h : 0 <= i < 16 -> fst (mt_read world (0x34 + 16 * i) h) = u32 (mt_word h (0x34 + 16 * i)).
Proof.
  intros Hi. unfold mt_read, mt_keeps, MTT_TASKS. cbn [fst].
  rewrite (proj2 (Z.leb_le 0x030 (0x34 + 16 * i))) by lia.
  rewrite (proj2 (Z.ltb_lt (0x34 + 16 * i) (map_GlobalMem 0))) by (change (map_GlobalMem 0) with 0x130; lia).
  replace ((0x34 + 16 * i) mod 16) with 4 by (rewrite Z.mul_comm, Z.mod_add by lia; done). by rewrite Z.eqb_refl, orb_true_r.
Qed.

Lemma get_tcb_ok i tbuf d : 0 <= i < 16 ->
  exists t d', get_tcb world cpu_big e (i + 1) tbuf d = Some (Some t, d') /\ tcb_of d i t /\ same_dev d d'.
Proof.
  intros Hi. unfold get_tcb, rbind, ioctl, mtt_ioctl. cbn [copied_in ioc_write MttUserIoctls].
  unfold mtt_gs_tcb_ioctl, WITHIN_RANGE, with_task, MttDrvrTASKS. cbn [tk_Task].
  rewrite (proj2 (Z.leb_le (i + 1) 16)), (proj2 (Z.leb_le 1 (i + 1))) by lia. cbn [andb negb].
  unfold __mtt_get_tcb, read_hw. cbn [tk_Task]. replace (i + 1 - 1) with i by lia.
  destruct (map_Tasks_in i) as [E1 E2]; [unfold MttDrvrTASKS; lia|]. rewrite E1. cbn [md_hw logged md_u].
  cbn -[mt_read strncpy Z.mul Z.add]. unfold mtt_readw.
  assert (forall k, 0 <= k <= 16 -> u32 (48 + 16 * i + k) = 48 + 16 * i + k) as Hu.
  { intros k Hk. apply u32_id. unfold is_u32. lia. }
  pose proof (mt_read_same world (48 + 16 * i) (md_hw d)) as S1. destruct (mt_read world (48 + 16 * i) (md_hw d)) as [w0 h0].
  cbn [snd] in S1. rewrite (Hu 4) by lia.
  pose proof (relocator_kept i h0 Hi) as R2. pose proof (mt_read_same world (48 + 16 * i + 4) h0) as S2.
  replace (0x34 + 16 * i) with (48 + 16 * i + 4) in R2 by lia.
  destruct (mt_read world (48 + 16 * i + 4) h0) as [w1 h1]. cbn [fst snd] in R2, S2.
  pose proof (mt_read_same world (u32 (48 + 16 * i + 4 + 4)) h1) as S3. destruct (mt_read world _ h1) as [w2 h2]. cbn [snd] in S3.
  pose proof (mt_read_same world (u32 (u32 (48 + 16 * i + 4 + 4) + 4)) h2) as S4. destruct (mt_read world _ h2) as [w3 h3]. cbn [snd] in S4.
  eexists _, _. split; [done|]. split.
  - unfold tcb_of. cbn -[strncpy Z.mul Z.add]. split_and!; try done. rewrite R2.
    rewrite (same_card_word (md_hw d) h0) by done. do 2 f_equal. lia.
  - split; [done|]. cbn. etrans; [exact S1|]. etrans; [exact S2|]. by etrans.
Qed.

Lemma tcb_same d d' i t : same_dev d d' -> tcb_of d' i t -> tcb_of d i t.
Proof.
  intros [Hu Hs] (H1 & H2 & H3 & H4 & H5 & H6 & H7). unfold tcb_of. rewrite <- Hu.
  split_and!; try done. by rewrite H7, (same_card_word _ _ _ Hs).
Qed.

(** The name in a block that was read. *)
Lemma tcb_name d s i t : implements d s -> 0 <= i < 16 -> tcb_of d i t -> c_chars (tk_Name t) = task_name d i.
Proof.
  intros Him Hi (_ & _ & _ & _ & _ & -> & _). apply c_chars_strncpy. by apply (name_bound d s).
Qed.

Lemma tcb_strcmp d s i t name : implements d s -> 0 <= i < 16 -> tcb_of d i t ->
  strcmp_name name (tk_Name t) = Some (bool_decide (name = task_name d i)).
Proof.
  intros Him Hi Ht. unfold strcmp_name. rewrite (tcb_name d s i t) by done.
  rewrite (proj2 (Nat.ltb_lt _ MttLibMAX_NAME_SIZE)) by (by apply (name_bound d s)). done.
Qed.

Lemma tcb_strncmp d s i t name : implements d s -> 0 <= i < 16 -> tcb_of d i t -> (length name < 32)%nat ->
  strncmp_name (tk_Name t) name = bool_decide (task_name d i = name).
Proof.
  intros Him Hi Ht Hn. unfold strncmp_name. rewrite (tcb_name d s i t) by done.
  pose proof (name_bound d s i Him Hi). unfold MttLibMAX_NAME_SIZE. by rewrite !firstn_all2 by lia.
Qed.

Lemma tcb_strlen d s i t : implements d s -> 0 <= i < 16 -> tcb_of d i t ->
  strlen_name (tk_Name t) = Some (Z.of_nat (length (task_name d i))).
Proof.
  intros Him Hi Ht. unfold strlen_name. rewrite (tcb_name d s i t) by done.
  by rewrite (proj2 (Nat.ltb_lt _ MttLibMAX_NAME_SIZE)) by (by apply (name_bound d s)).
Qed.

(** ** The loops over the tasks *)

Definition named (d : mdev) (name : text) (i : Z) : bool := bool_decide (task_name d i = name).

Lemma task_name_same d d' i : same_dev d d' -> task_name d' i = task_name d i.
Proof. intros [Hu _]. unfold task_name. by rewrite Hu. Qed.

Lemma find_same d d' name idx : same_dev d d' -> find (named d' name) idx = find (named d name) idx.
Proof.
  intros Hs. induction idx as [|i idx IH]; [done|]. cbn [find]. unfold named at 1 3. by rewrite (task_name_same d d' i Hs), IH.
Qed.

Lemma find_in_tasks f i : find f tasks = Some i -> 0 <= i < 16 /\ f i = true.
Proof.
  intros H. apply find_some in H as [Hi Hf]. split; [|done]. apply list_elem_of_In, elem_of_seqZ in Hi. lia.
Qed.

(** Up to the first task with a name. *)
Lemma scan_name {R} (io : R) name (f : MttDrvrTaskBuf -> R) s idx : (length name < 32)%nat -> (forall i, i ∈ idx -> 0 <= i < 16) ->
  forall tbuf d, implements d s -> exists t' d',
  scan world cpu_big e io (fun _ t => rret (if strncmp_name (tk_Name t) name then Some (f t) else None)) idx tbuf d =
    Some ((match find (named d name) idx with Some _ => Some (f t') | None => None end, t'), d') /\
  same_dev d d' /\ forall i, find (named d name) idx = Some i -> tcb_of d i t'.
Proof.
  intros Hn. induction idx as [|i idx IH]; intros Hidx tbuf d Him.
  - exists tbuf, d. by split_and!.
  - destruct (get_tcb_ok i tbuf d) as (t & d1 & E & Ht & Hs); [apply Hidx; left|].
    cbn [scan find]. unfold rbind at 1. rewrite E. unfold rbind, rret at 1. cbn beta iota.
    rewrite (tcb_strncmp d s i t name) by (done || (apply Hidx; left)). fold (named d name i).
    destruct (named d name i).
    + exists t, d1. split_and!; [done|done|]. by intros j [= <-].
    + destruct (IH ltac:(intros j Hj; apply Hidx; by right) t d1 (implements_same d d1 s Hs Him)) as (t' & d' & E' & Hs' & Ht').
      rewrite (find_same d d1 name idx Hs) in E', Ht'. exists t', d'. split_and!; [done|by etrans|].
      intros j Hj. eapply tcb_same; [exact Hs|]. by apply Ht'.
Qed.

(** The first task with a name is acted upon. *)
Lemma for_named_spec {R} (io none : R) name act tbuf d s : implements d s ->
  exists t' d1, same_dev d d1 /\
  match find (named d name) tasks with
  | Some i => tcb_of d i t' /\ for_named world cpu_big e L io none name act tbuf d = act i t' d1
  | None => for_named world cpu_big e L io none name act tbuf d = Some (none, d1)
  end.
Proof.
  intros Him. unfold for_named. rewrite task_indices_all.
  assert (forall i, i ∈ tasks -> 0 <= i < 16) as Hidx by (intros i Hi%elem_of_seqZ; lia).
  assert (forall {A} (m : run A) d, (let! r := m in rret r) d = m d) as Hret.
  { intros A m d1. unfold rbind, rret. by destruct (m d1) as [[? ?]|]. }
  revert tbuf d Him Hidx. induction tasks as [|i idx IH]; intros tbuf d Him Hidx.
  - exists tbuf, d. done.
  - destruct (get_tcb_ok i tbuf d) as (t & d1 & E & Ht & Hs); [apply Hidx; left|].
    cbn [scan find]. rewrite rbind_assoc, (rbind_some _ _ _ _ _ E). cbn beta iota. rewrite !rbind_assoc.
    rewrite (rbind_defined _ _ _ _ (tcb_strcmp d s i t name Him (Hidx i ltac:(left)) Ht)).
    unfold named at 1. rewrite (bool_decide_ext (task_name d i = name) (name = task_name d i)) by done.
    case_bool_decide.
    + exists t, d1. split; [done|]. split; [done|]. rewrite !rbind_assoc. unfold rbind, rret. by destruct (act i t d1) as [[r d2]|].
    + destruct (IH t d1 (implements_same d d1 s Hs Him) ltac:(intros j Hj; apply Hidx; by right)) as (t' & d' & Hs' & H').
      rewrite (find_same d d1 name idx Hs) in H'. exists t', d'. split; [by etrans|]. rewrite rbind_rret.
      destruct (find (named d name) idx) as [j|].
      * destruct H' as [Ht' H']. split; [by eapply tcb_same|]. exact H'.
      * exact H'.
Qed.

(** ** Calls that leave programs and names alone *)

Definition mild_dev (d d' : mdev) : Prop := md_u d' = md_u d /\ writes_only harmless (md_hw d) (md_hw d').

Lemma mild_dev_implements d d' s : mild_dev d d' -> implements d s -> implements d' s.
Proof. intros [Hu Hw]. by apply implements_frame. Qed.

Lemma same_dev_mild d d' : same_dev d d' -> mild_dev d d'.
Proof. intros [Hu Hs]. split; [done|by apply same_card_writes]. Qed.

#[local] Instance mild_dev_preorder : PreOrder mild_dev.
Proof.
  split; [intros d; split; [done|apply writes_only_refl]|]. intros d1 d2 d3 [E1 H1] [E2 H2]. split; [congruence|by etrans].
Qed.

Lemma task_mask i : 0 <= i < 16 -> Z.land (2 ^ i) MttDrvrTASK_MASK = 2 ^ i /\ 2 ^ i <> 0 /\ forall j, 0 <= j -> Z.testbit (2 ^ i) j = (i =? j).
Proof.
  intros Hi. split_and!.
  - change MttDrvrTASK_MASK with (2 ^ 16 - 1). rewrite land_low_mask by lia. apply Z.mod_small. split; [apply Z.pow_nonneg; lia|].
    apply Z.pow_lt_mono_r; lia.
  - apply Z.pow_nonzero; lia.
  - intros j Hj. apply Z.pow2_bits_eqb. lia.
Qed.

(** Words of the map that are harmless. *)
Lemma harmless_word a : 0 <= a < 0x30 \/ 0x130 <= a < 0xCB0 \/ (exists i, 0 <= i < 16 /\ a = 0x30 + 16 * i) -> harmless a.
Proof. unfold harmless. intros [H|[H|(i & Hi & ->)]]; (split; [lia|]); intros j Hj; lia. Qed.

Lemma ioctl_harmless cm d o d' : (forall a, touched cm a -> harmless a) ->
  MttUserIoctls world cpu_big e cm d = Some (MOk o, d') -> md_u d' = md_u d -> mild_dev d d'.
Proof.
  intros Ht H Hu. split; [done|]. apply ioctl_tidy in H as [Hw _]. by eapply writes_only_weaken.
Qed.

(** Tasks are stopped, started and continued. *)
Definition task_command (cm : Z -> mttcmd) : Prop :=
  cm = MTT_IOCSTASKS_START \/ cm = MTT_IOCSTASKS_STOP \/ cm = MTT_IOCSTASKS_CONT.

Lemma task_command_ok cm i d : task_command cm -> 0 <= i < 16 ->
  exists d', ioctl world cpu_big e (cm (2 ^ i)) d = Some (Some MNone, d') /\ mild_dev d d'.
Proof.
  intros Hcm Hi. destruct (task_mask i Hi) as (Em & Hnz & _).
  assert (exists d', MttUserIoctls world cpu_big e (cm (2 ^ i)) d = Some (MOk MNone, d') /\ md_u d' = md_u d) as (d' & E & Hu).
  { destruct Hcm as [->|[->| ->]]; cbn [MttUserIoctls].
    - unfold mtt_tasks_start_ioctl. rewrite Em, (proj2 (Z.eqb_neq _ _) Hnz). eexists. split; [done|].
      apply (fold_u id). intros x d1. by case_goal.
    - unfold mtt_gs_tasks_ioctl. rewrite Em, (proj2 (Z.eqb_neq _ _) Hnz). by eexists.
    - unfold mtt_gs_tasks_ioctl. rewrite Em, (proj2 (Z.eqb_neq _ _) Hnz). by eexists. }
  exists d'. split.
  - unfold ioctl, mtt_ioctl. destruct Hcm as [->|[->| ->]]; cbn [copied_in ioc_write]; by rewrite E.
  - eapply ioctl_harmless; [|exact E|done]. intros a Ha. apply harmless_word.
    destruct Hcm as [->|[->| ->]]; cbn [touched] in Ha; unfold MTT_TASKS_STOP, MTT_TASKS_START in Ha; [|lia..].
    destruct Ha as [->|[->|(j & Hj & ->)]]; [lia..|]. right. right. exists j. split; [done|]. by apply map_Tasks_in.
Qed.

(** A free task is stopped and taken. *)
Lemma find_slots_one s idx : (forall i, i ∈ idx -> 0 <= i < 16) -> forall ftn tn tbuf d, implements d s ->
  exists t' d', mild_dev d d' /\
  match find (named d []) idx with
  | Some i => find_slots world cpu_big e 1 idx 0 ftn tn tbuf d = Some (Some (1, i + 1, i + 1, t'), d') /\ tcb_of d i t'
  | None => exists ftn' tn', find_slots world cpu_big e 1 idx 0 ftn tn tbuf d = Some (Some (0, ftn', tn', t'), d')
  end.
Proof.
  induction idx as [|i idx IH]; intros Hidx ftn tn tbuf d Him.
  - exists tbuf, d. split; [done|]. by exists ftn, tn.
  - assert (0 <= i < 16) as Hi by (apply Hidx; left).
    destruct (get_tcb_ok i tbuf d Hi) as (t & d1 & E & Ht & Hs).
    cbn [find_slots find]. rewrite (rbind_some _ _ _ _ _ E). cbn beta iota zeta.
    rewrite (rbind_defined _ _ _ _ (tcb_strlen d s i t Him Hi Ht)). unfold named at 1.
    destruct (task_name d i) as [|c n] eqn:En.
    + cbn [length]. change (Z.of_nat 0 =? 0) with true. change (0 =? 0) with true. cbn iota. rewrite bool_decide_true by done.
      destruct (task_command_ok MTT_IOCSTASKS_STOP i d1) as (d2 & E2 & Hm); [by right; left|done|].
      rewrite (rbind_some _ _ _ _ _ E2). exists t, d2. split; [etrans; [by apply same_dev_mild|done]|]. done.
    + rewrite (proj2 (Z.eqb_neq (Z.of_nat (length (c :: n))) 0)) by (cbn; lia). rewrite bool_decide_false by done.
      destruct (IH ltac:(intros j Hj; apply Hidx; by right) ftn (i + 1) t d1 (implements_same d d1 s Hs Him)) as (t' & d' & Hm & H').
      rewrite (find_same d d1 [] idx Hs) in H'. exists t', d'. split; [etrans; [by apply same_dev_mild|done]|].
      destruct (find (named d []) idx) as [j|]; [|done]. destruct H' as [H' Ht']. split; [done|]. by eapply tcb_same.
Qed.

(** ** A task block is set *)

Lemma put_task_twice i f g u : put_task i f (put_task i g u) = put_task i (f ∘ g) u.
Proof.
  unfold put_task, set_Tasks. cbn [Tasks EnabledOutput CableId External1KHZ UtcSending OutputDelay SyncPeriod BusError FlashOpen].
  f_equal. generalize (Z.to_nat i). intros n. generalize (Tasks u). intros l. revert n.
  induction l as [|x l IH]; intros [|n]; cbn; [done..|]. f_equal. apply IH.
Qed.

(** All the fields at once. *)
Lemma set_fields_all t d : tk_Fields t = MttDrvrTBFAll ->
  let i := tk_Task t - 1 in
  let cb := tk_ControlBlock t in
  set_fields t d =
    Mdev (put_task i (fun _ => Mtt_task (tk_LoadAddress t) (tk_InstructionCount t) (tk_PcStart t) (tb_PcOffset cb) (tb_Pc cb) (strncpy 32 (tk_Name t))) (md_u d))
      (mtt_writew (map_Tasks i) (tb_Pc cb) (mtt_writew (map_PcOffset i) (tb_PcOffset cb) (md_hw d))) (md_log d).
Proof.
  intros HF. unfold set_fields. rewrite HF. change (seqZ 0 MttDrvrTBFbits) with [0; 1; 2; 3; 4; 5]. cbn [fold_left].
  repeat match goal with |- context [Z.testbit MttDrvrTBFAll ?b] => change (Z.testbit MttDrvrTBFAll b) with true end. cbn iota.
  unfold __mtt_set_tcb. eval_eqb. cbn iota. unfold on_u, on_hw. cbn [md_u md_hw md_log]. f_equal. by rewrite !put_task_twice.
Qed.

Lemma task_at_put i j f u : 0 <= i -> 0 <= j -> (Z.to_nat i < length (Tasks u))%nat ->
  task_at j (put_task i f u) = if j =? i then f (task_at i u) else task_at j u.
Proof.
  intros Hi Hj Hl. unfold task_at, put_task. cbn [Tasks set_Tasks]. rewrite !nth_lookup.
  destruct (Z.eqb_spec j i) as [->|Hn].
  - rewrite list_lookup_alter_eq. destruct (lookup_lt_is_Some_2 _ _ Hl) as [x ->]. done.
  - rewrite list_lookup_alter_ne by lia. done.
Qed.

Lemma put_task_length i f u : length (Tasks (put_task i f u)) = length (Tasks u).
Proof. apply length_alter. Qed.

(** The effect of storing a task block. *)
Lemma stcb_ok i t d : 0 <= i < 16 -> tk_Task t = i + 1 -> tk_Fields t = MttDrvrTBFAll -> length (Tasks (md_u d)) = 16%nat ->
  exists d', ioctl world cpu_big e (MTT_IOCSTCB t) d = Some (Some MNone, d') /\ length (Tasks (md_u d')) = 16%nat /\
  (forall j, 0 <= j -> task_at j (md_u d') =
     if j =? i then Mtt_task (tk_LoadAddress t) (tk_InstructionCount t) (tk_PcStart t) (tb_PcOffset (tk_ControlBlock t))
                      (tb_Pc (tk_ControlBlock t)) (strncpy 32 (tk_Name t))
     else task_at j (md_u d)) /\
  forall a, mt_word (md_hw d') a =
    if a =? 0x30 + 16 * i then u32 (tb_Pc (tk_ControlBlock t))
    else if a =? 0x34 + 16 * i then u32 (tb_PcOffset (tk_ControlBlock t)) else mt_word (md_hw d) a.
Proof.
  intros Hi Ht HF Hl. unfold ioctl, mtt_ioctl. cbn [copied_in ioc_write MttUserIoctls].
  unfold mtt_gs_tcb_ioctl, WITHIN_RANGE, MttDrvrTASKS. rewrite Ht.
  rewrite (proj2 (Z.leb_le (i + 1) 16)), (proj2 (Z.leb_le 1 (i + 1))) by lia. cbn [andb negb].
  unfold locked. rewrite set_fields_all by done. rewrite Ht. replace (i + 1 - 1) with i by lia.
  eexists. split; [done|]. cbn [md_u md_hw logged].
  destruct (map_Tasks_in i) as [E1 E2]; [unfold MttDrvrTASKS; lia|]. rewrite E1, E2. split_and!.
  - by rewrite put_task_length.
  - intros j Hj. rewrite task_at_put by lia. by destruct (j =? i).
  - intros a. unfold mtt_writew. by rewrite !mt_word_write.
Qed.

(** ** Each operation *)

Lemma slot_update i j o s : 0 <= i < 16 -> 0 <= j -> length s = 16%nat -> slot (<[Z.to_nat i := o]> s) j = if j =? i then o else slot s j.
Proof.
  intros Hi Hj Hl. unfold slot. rewrite !nth_lookup. destruct (Z.eqb_spec j i) as [->|Hn].
  - rewrite list_lookup_insert_eq by lia. done.
  - by rewrite list_lookup_insert_ne by lia.
Qed.

(** A program is put in a task that was free: its block, its name, its words. *)
Lemma put_program s i name prog tbuf d : implements d s -> 0 <= i < 16 -> name_ok (Some name) = true ->
  (0 < length prog <= 256)%nat -> Forall inst_ok prog ->
  exists d1 d2, ioctl world cpu_big e (MTT_IOCSPROGRAM (256 * i) (Z.of_nat (length prog)) prog) d = Some (Some MNone, d1) /\
  set_slots world cpu_big e name (256 * i) (Z.of_nat (length prog)) 1 (i + 1) tbuf d1 = Some (MttLibErrorNONE, d2) /\
  implements d2 (<[Z.to_nat i := Some (name, prog)]> s).
Proof.
  intros Him Hi Hn Hlen Hp.
  assert (in_memory (256 * i) prog) as Hmem by (unfold in_memory, MttDrvrINSTRUCTIONS; lia).
  destruct (set_program_ioctl world cpu_big e (256 * i) prog d memory Hmem Hp) as (d1 & E1 & Hu & Hh & (_ & _ & _ & Hw)).
  pose proof (im_tasks d s Him) as Hl. rewrite <- Hu in Hl.
  set (t := loaded_tcb name (256 * i) (Z.of_nat (length prog)) (i + 1) tbuf).
  destruct (stcb_ok i t d1) as (d2 & E2 & Hl2 & Ht2 & Hw2); [done..|].
  exists d1, d2. split_and!.
  { unfold ioctl, mtt_ioctl. cbn [copied_in ioc_write]. by rewrite E1. }
  { cbn [set_slots]. fold t. by rewrite (rbind_some _ _ _ _ _ E2). }
  split; [done|rewrite length_insert; apply Him|]. intros j Hj. rewrite slot_update by (lia || apply Him).
  destruct (name_ok_chars name Hn) as [Hc Hnl]. destruct (Z.eqb_spec j i) as [->|Hji].
  - unfold slot_ok, task_name. rewrite Ht2, Z.eqb_refl by lia. cbn -[strncpy Z.mul Z.add]. split.
    + rewrite !c_chars_strncpy; rewrite ?c_chars_strncpy; rewrite c_chars_id by done; unfold MttLibMAX_NAME_SIZE; lia || done.
    + split_and!; try done; try lia.
      * eapply holds_program_frame; [|exact Hh]. intros a Ha. rewrite Hw2.
        by rewrite (proj2 (Z.eqb_neq a (0x30 + 16 * i))), (proj2 (Z.eqb_neq a (0x34 + 16 * i))) by lia.
      * rewrite Hw2, (proj2 (Z.eqb_neq (0x34 + 16 * i) (0x30 + 16 * i))), Z.eqb_refl by lia.
        cbn -[Z.mul]. apply u32_id. unfold is_u32. lia.
  - apply slot_frame with d; [done| | |by apply Him].
    + rewrite Ht2, (proj2 (Z.eqb_neq j i)), Hu by lia. done.
    + intros a Ha. unfold program_words in Ha. rewrite Hw2.
      rewrite (proj2 (Z.eqb_neq a (0x30 + 16 * i))), (proj2 (Z.eqb_neq a (0x34 + 16 * i))) by lia.
      apply Hw. unfold program_words. lia.
Qed.

Lemma load_refines name prog s d tbuf : implements d s -> Z.of_nat (length prog) <= MttLibTASK_SIZE -> Forall inst_ok prog ->
  exists pbf d', MttLibLoadTaskObject world cpu_big e L (Some name) (Program_buf 0 (Z.of_nat (length prog)) prog) tbuf d =
    Some ((fst (spec_load name prog s), pbf), d') /\ implements d' (snd (spec_load name prog s)).
Proof.
  intros Him Hlen Hp. change MttLibTASK_SIZE with 256 in Hlen. unfold MttLibLoadTaskObject, spec_load, tasks_needed. rewrite L_open, L_size. cbn [negb LoadAddress InstructionCount Program default].
  destruct (name_ok (Some name)) eqn:Hn; cbn [negb]; [|by eexists _, d].
  change (0 =? 0) with true. cbn [negb]. destruct prog as [|i0 prog0] eqn:Ep; [by eexists _, d|]. rewrite <- Ep in *.
  assert (0 < length prog <= 256)%nat as Hl by (rewrite Ep in *; cbn in *; lia).
  rewrite (proj2 (Z.eqb_neq (Z.of_nat (length prog)) 0)) by lia. change (u32 (256 + 1) =? 0) with false. cbn iota zeta.
  change (u32 (256 + 1)) with 257. rewrite Z.div_small by lia. rewrite task_indices_all.
  destruct (name_ok_chars name Hn) as [_ Hnl].
  assert (forall i, i ∈ tasks -> 0 <= i < 16) as Hidx by (intros i Hi%elem_of_seqZ; lia).
  destruct (scan_name MttLibErrorIO name (fun _ => MttLibErrorISLOAD) s tasks ltac:(lia) Hidx tbuf d Him) as (t1 & d1 & E1 & Hs1 & _).
  cbn [id]. rewrite (rbind_some _ _ _ _ _ E1). rewrite (find_task_name d s name Him). fold (named d name).
  destruct (find (named d name) tasks) as [k|]; [by eexists _, d1; split; [done|]; by eapply implements_same|].
  pose proof (implements_same d d1 s Hs1 Him) as Him1.
  destruct (find_slots_one s tasks Hidx 0 0 t1 d1 Him1) as (t2 & d2 & Hm2 & H2).
  rewrite (find_task_name d1 s [] Him1). fold (named d1 []).
  pose proof (mild_dev_implements d1 d2 s Hm2 Him1) as Him2.
  destruct (find (named d1 []) tasks) as [i|] eqn:Ef.
  - destruct H2 as [E2 _]. apply find_in_tasks in Ef as [Hi _]. rewrite (rbind_some _ _ _ _ _ E2). cbn iota zeta.
    change (1 =? 0) with false. cbn iota. replace (256 * (i + 1 - 1)) with (256 * i) by lia.
    rewrite (u32_id (256 * i)) by (unfold is_u32; lia).
    destruct (put_program s i name prog t2 d2) as (d3 & d4 & E3 & E4 & Him4); [done..|].
    cbn [InstructionCount Program]. rewrite (rbind_some _ _ _ _ _ E3). cbn iota. change (Z.to_nat 1) with 1%nat.
    rewrite (rbind_some _ _ _ _ _ E4). by eexists _, d4.
  - destruct H2 as (ftn & tn & E2). rewrite (rbind_some _ _ _ _ _ E2). by eexists _, d2.
Qed.

Definition res_of (r : MttLibError + ProgramBuf) : libres := match r with inl err => RErr err | inr p => RProgram p end.

Lemma read_refines name s d tbuf : implements d s ->
  exists r d', MttLibReadTaskObject world cpu_big e L (Some name) true tbuf d = Some (r, d') /\
  res_of r = spec_read name s /\ implements d' s.
Proof.
  intros Him. unfold MttLibReadTaskObject, spec_read. rewrite L_open. cbn [negb default].
  destruct (name_ok (Some name)) eqn:Hn; cbn [negb]; [|by eexists _, d].
  destruct (name_ok_chars name Hn) as [_ Hnl]. rewrite task_indices_all.
  assert (forall i, i ∈ tasks -> 0 <= i < 16) as Hidx by (intros i Hi%elem_of_seqZ; lia).
  destruct (scan_name (inl MttLibErrorIO) name (@inr MttLibError MttDrvrTaskBuf) s tasks ltac:(lia) Hidx tbuf d Him) as (t & d1 & E1 & Hs1 & Ht).
  cbn [id]. rewrite (rbind_some _ _ _ _ _ E1). cbn [fst]. rewrite (find_task_name d s name Him). fold (named d name).
  pose proof (implements_same d d1 s Hs1 Him) as Him1.
  destruct (find (named d name) tasks) as [i|] eqn:Ef; [|by eexists _, d1].
  destruct (Ht i eq_refl) as (H1 & H2 & H3 & H4 & _). apply find_in_tasks in Ef as [Hi Hf].
  destruct (im_ok d s Him i Hi) as [Hname Ho]. unfold named in Hf. apply bool_decide_eq_true in Hf.
  destruct (slot s i) as [[name' prog]|]; cbn [slot_name] in Hname; [|rewrite <- Hf, Hname in Hnl; cbn in Hnl; lia].
  destruct Ho as (O1 & O2 & _ & O4 & O5 & _ & O7 & _). rewrite H3, H4, O1, O2.
  rewrite (proj2 (Z.eqb_neq (Z.of_nat (length prog)) 0)) by lia.
  assert (in_memory (256 * i) prog) as Hmem by (unfold in_memory, MttDrvrINSTRUCTIONS; lia).
  destruct (get_program_ioctl world cpu_big e (256 * i) prog d1 memory Hmem O5) as (d2 & E2 & Hs2).
  { eapply holds_program_frame; [|exact O7]. intros a _. destruct Hs1 as [_ Hs1]. by apply same_card_word. }
  assert (ioctl world cpu_big e (MTT_IOCGPROGRAM (256 * i) (Z.of_nat (length prog))) d1 = Some (Some (MProgram prog), d2)) as E2'.
  { unfold ioctl, mtt_ioctl. cbn [copied_in ioc_write]. by rewrite E2. }
  rewrite (rbind_some _ _ _ _ _ E2'). eexists _, d2. split_and!; [done|done|]. by eapply implements_same.
Qed.

(** What is found by name is one call on its task. *)
Lemma named_call_refines name s d tbuf (act : Z -> MttDrvrTaskBuf -> run MttLibError) : implements d s ->
  (forall i t d, 0 <= i < 16 -> exists d', act i t d = Some (MttLibErrorNONE, d') /\ mild_dev d d') ->
  exists d', for_named world cpu_big e L MttLibErrorIO MttLibErrorNOLOAD name act tbuf d = Some (spec_named name s, d') /\ implements d' s.
Proof.
  intros Him Hact. destruct (for_named_spec MttLibErrorIO MttLibErrorNOLOAD name act tbuf d s Him) as (t & d1 & Hs & H).
  unfold spec_named. rewrite (find_task_name d s name Him). fold (named d name).
  pose proof (implements_same d d1 s Hs Him) as Him1. destruct (find (named d name) tasks) as [i|] eqn:Ef.
  - apply find_in_tasks in Ef as [Hi _]. destruct H as [_ ->]. destruct (Hact i t d1 Hi) as (d2 & -> & Hm).
    exists d2. split; [done|]. by eapply mild_dev_implements.
  - rewrite H. by exists d1.
Qed.

Lemma task_call_refines cm name s d tbuf : task_command cm -> implements d s ->
  exists d', task_call world cpu_big e cm L name tbuf d = Some (spec_named name s, d') /\ implements d' s.
Proof.
  intros Hcm Him. unfold task_call. rewrite L_open. cbn [negb]. apply named_call_refines; [done|].
  intros i t d1 Hi. destruct (task_command_ok cm i d1 Hcm Hi) as (d2 & E2 & Hm).
  rewrite (rbind_some _ _ _ _ _ E2). by exists d2.
Qed.

Lemma set_register_refines name treg val junk s d tbuf : 0 <= treg -> implements d s ->
  exists d', MttLibSetTaskRegister world cpu_big e L name treg val junk tbuf d =
    Some (if MttLibLocalREGISTERS <=? treg then MttLibErrorLREG else spec_named name s, d') /\ implements d' s.
Proof.
  intros Ht Him. unfold MttLibSetTaskRegister. rewrite L_open. cbn [negb].
  destruct (Z.leb_spec MttLibLocalREGISTERS treg) as [|Hlt]; [by exists d|]. unfold MttLibLocalREGISTERS in Hlt.
  apply named_call_refines; [done|]. intros i t d1 Hi.
  set (cm := MTT_IOCSTRVAL (i + 1) (2 ^ treg) (<[Z.to_nat treg := val]> junk)).
  assert (s32 (i + 1) = i + 1) as Es by (apply s32_id; lia).
  assert (exists d2, MttUserIoctls world cpu_big e cm d1 = Some (MOk MNone, d2) /\ md_u d2 = md_u d1) as (d2 & E2 & Hu).
  { cbn [MttUserIoctls cm]. unfold mtt_gs_trval_ioctl. rewrite Es. unfold WITHIN_RANGE, MttDrvrTASKS.
    rewrite (proj2 (Z.leb_le (i + 1) 16)), (proj2 (Z.leb_le 1 (i + 1))) by lia. cbn [andb negb].
    destruct (filter _ _) as [|k l] eqn:Ef; [|by eexists].
    exfalso. assert (treg ∈ filter (fun j => Z.testbit (2 ^ treg) j = true) (seqZ 0 MttDrvrLRAM_SIZE)) as Hin.
    { apply list_elem_of_filter. split; [by rewrite Z.pow2_bits_true|]. apply elem_of_seqZ. unfold MttDrvrLRAM_SIZE. lia. }
    rewrite Ef in Hin. by apply elem_of_nil in Hin. }
  assert (ioctl world cpu_big e cm d1 = Some (Some MNone, d2)) as E2' by (unfold ioctl, mtt_ioctl; cbn [copied_in ioc_write cm]; by rewrite E2).
  rewrite (rbind_some _ _ _ _ _ E2'). exists d2. split; [done|]. eapply ioctl_harmless; [|exact E2|done].
  intros a Ha. cbn [touched cm] in Ha. rewrite Es in Ha. destruct Ha as (_ & k & Hk & ->). apply harmless_word.
  rewrite map_LocalMem_in by (unfold MttDrvrTASKS; lia). unfold MttDrvrLRAM_SIZE in Hk. lia.
Qed.

Lemma set_global_refines greg val s d : 0 <= greg -> implements d s ->
  exists d', MttSetGlobalRegister world cpu_big e L greg val d =
    Some (if MttLibGlobalREGISTERS <=? greg then MttLibErrorGREG else MttLibErrorNONE, d') /\ implements d' s.
Proof.
  intros Hg Him. unfold MttSetGlobalRegister. rewrite L_open. cbn [negb].
  destruct (Z.leb_spec MttLibGlobalREGISTERS greg) as [|Hlt]; [by exists d|]. unfold MttLibGlobalREGISTERS in Hlt.
  assert (s32 greg = greg) as Es by (apply s32_id; lia).
  assert (exists d2, MttUserIoctls world cpu_big e (MTT_IOCSGRVAL greg val) d = Some (MOk MNone, d2) /\ md_u d2 = md_u d) as (d2 & E2 & Hu).
  { cbn [MttUserIoctls]. unfold mtt_gs_grval_ioctl. rewrite Es. unfold MttDrvrGRAM_SIZE.
    rewrite (proj2 (Z.leb_gt 224 greg)) by lia. by eexists. }
  assert (ioctl world cpu_big e (MTT_IOCSGRVAL greg val) d = Some (Some MNone, d2)) as E2' by (unfold ioctl, mtt_ioctl; cbn [copied_in ioc_write]; by rewrite E2).
  rewrite (rbind_some _ _ _ _ _ E2'). exists d2. split; [done|]. eapply mild_dev_implements; [|exact Him].
  eapply ioctl_harmless; [|exact E2|done]. intros a Ha. cbn [touched] in Ha. rewrite Es in Ha. destruct Ha as [_ ->].
  apply harmless_word. rewrite map_GlobalMem_in by (unfold MttDrvrGRAM_SIZE; lia). lia.
Qed.

Lemma send_event_refines frame priority s d : implements d s ->
  exists d', __send_event world cpu_big e L frame priority d =
    Some (if WITHIN_RANGE 0 priority 1 then MttLibErrorNONE else MttLibErrorIO, d') /\ implements d' s.
Proof.
  intros Him. unfold __send_event. rewrite L_open. cbn [negb].
  assert (exists d2, MttUserIoctls world cpu_big e (MTT_IOCSSEND_EVENT frame priority) d =
    Some (if WITHIN_RANGE 0 priority 1 then MOk MNone else MErr EINVAL, d2) /\ md_u d2 = md_u d) as (d2 & E2 & Hu).
  { cbn [MttUserIoctls]. unfold mtt_send_event_ioctl. destruct (WITHIN_RANGE 0 priority 1); cbn [negb]; [|by eexists].
    unfold mtt_supports_prio. destruct (truthy priority); [|by eexists].
    pose proof (read_hw_u (mtt_readw world MTT_VHDL) d) as Hr. destruct (read_hw _ d) as [v d1]. by eexists. }
  assert (ioctl world cpu_big e (MTT_IOCSSEND_EVENT frame priority) d =
    Some (if WITHIN_RANGE 0 priority 1 then Some MNone else None, d2)) as E2'.
  { unfold ioctl, mtt_ioctl. cbn [copied_in ioc_write]. rewrite E2. by destruct (WITHIN_RANGE 0 priority 1). }
  rewrite (rbind_some _ _ _ _ _ E2'). exists d2. split; [by destruct (WITHIN_RANGE 0 priority 1)|].
  eapply mild_dev_implements; [|exact Him]. split; [done|]. apply ioctl_tidy in E2 as [Hw _].
  eapply writes_only_weaken; [|exact Hw]. intros a Ha. apply harmless_word.
  cbn [touched] in Ha. unfold command_words, MTT_COMMAND, MTT_COMMAND_VAL in Ha. lia.
Qed.

(** The names of all the tasks. *)
Lemma list_tasks_refines s idx : (forall i, i ∈ idx -> 0 <= i < 16) -> forall tbuf d, implements d s ->
  exists d', list_tasks world cpu_big e (fun _ => true) idx tbuf d = Some (Some ((fun i => (i, slot_name (slot s i))) <$> idx), d') /\ implements d' s.
Proof.
  induction idx as [|i idx IH]; intros Hidx tbuf d Him; [by exists d|].
  assert (0 <= i < 16) as Hi by (apply Hidx; left). destruct (get_tcb_ok i tbuf d Hi) as (t & d1 & E & Ht & Hs).
  cbn [list_tasks]. rewrite (rbind_some _ _ _ _ _ E). cbn iota.
  rewrite (rbind_defined _ _ _ _ (tcb_strlen d s i t Him Hi Ht)).
  destruct (IH ltac:(intros j Hj; apply Hidx; by right) t d1 (implements_same d d1 s Hs Him)) as (d2 & E2 & Him2).
  rewrite (rbind_some _ _ _ _ _ E2). exists d2. split; [|done]. unfold rret. rewrite fmap_cons, (tcb_name d s i t) by done.
  destruct (im_ok d s Him i Hi) as [<- _]. rewrite andb_true_r. by destruct (task_name d i) as [|c n].
Qed.

(** ** Unloading *)

Lemma implements_ext d s s' : implements d s -> length s' = 16%nat -> (forall i, 0 <= i < 16 -> slot s' i = slot s i) -> implements d s'.
Proof. intros [H1 H2 H3] Hl He. split; [done|done|]. intros i Hi. rewrite He by done. by apply H3. Qed.

Lemma task_cleared i : c_chars (strncpy 32 (replicate i 0)) = [].
Proof. by destruct i. Qed.

(** A task whose block is stored again without its name. *)
Lemma clear_slot s i t d : implements d s -> 0 <= i < 16 -> tcb_of d i t ->
  exists d', ioctl world cpu_big e (MTT_IOCSTCB (no_name t)) d = Some (Some MNone, d') /\ implements d' (<[Z.to_nat i := None]> s).
Proof.
  intros Him Hi (H1 & H2 & H3 & H4 & H5 & H6 & H7).
  destruct (stcb_ok i (no_name t) d) as (d' & E & Hl & Ht & Hw); [done..|apply Him|].
  exists d'. split; [done|]. split; [done|rewrite length_insert; apply Him|]. intros j Hj. rewrite slot_update by (lia || apply Him).
  destruct (Z.eqb_spec j i) as [->|Hji].
  - split; [|done]. unfold task_name. rewrite Ht, Z.eqb_refl by lia. apply task_cleared.
  - apply slot_frame with d; [done| | |by apply Him].
    + by rewrite Ht, (proj2 (Z.eqb_neq j i)) by lia.
    + intros a Ha. unfold program_words in Ha. rewrite Hw.
      by rewrite (proj2 (Z.eqb_neq a (0x30 + 16 * i))), (proj2 (Z.eqb_neq a (0x34 + 16 * i))) by lia.
Qed.

(** What unloading leaves of the slots [idx]. *)
Definition unloaded (name : text) (idx : list Z) (s s' : table) : Prop :=
  length s' = 16%nat /\ forall j, 0 <= j < 16 ->
  slot s' j = if bool_decide (j ∈ idx) && (bool_decide (name = txt "ALL") || bool_decide (slot_name (slot s j) = name)) then None else slot s j.

Lemma unload_loop name idx : (forall i, i ∈ idx -> 0 <= i < 16) -> NoDup idx -> forall s tbuf d, implements d s ->
  exists d' s', unload_tasks world cpu_big e name (bool_decide (name = txt "ALL")) idx 0 tbuf d = Some (Some 0, d') /\
  implements d' s' /\ unloaded name idx s s'.
Proof.
  intros Hidx Hnd. induction Hnd as [|i idx Hni Hnd IH]; intros s tbuf d Him.
  { exists d, s. split_and!; [done|done|]. split; [apply Him|]. done. }
  assert (0 <= i < 16) as Hi by (apply Hidx; left). destruct (get_tcb_ok i tbuf d Hi) as (t & d1 & E & Ht & Hs).
  assert (forall j, j ∈ idx -> 0 <= j < 16) as Hidx' by (intros j Hj; apply Hidx; by right).
  pose proof (implements_same d d1 s Hs Him) as Him1.
  set (all := bool_decide (name = txt "ALL")) in *. set (hit := all || bool_decide (slot_name (slot s i) = name)).
  assert ((if all then rret true else defined (strcmp_name name (tk_Name t))) d1 = Some (hit, d1)) as Eh.
  { subst hit. destruct all; [done|]. rewrite (tcb_strcmp d s i t name) by done. unfold defined. cbn [orb].
    destruct (im_ok d s Him i Hi) as [-> _]. by rewrite (bool_decide_ext (name = _) (slot_name (slot s i) = name)). }
  cbn [unload_tasks]. rewrite (rbind_some _ _ _ _ _ E). cbn iota. rewrite (rbind_some _ _ _ _ _ Eh).
  destruct hit eqn:Ehit; subst hit.
  - destruct (task_command_ok MTT_IOCSTASKS_STOP i d1) as (d2 & E2 & Hm2); [by right; left|done|].
    rewrite (rbind_some _ _ _ _ _ E2). cbn zeta. pose proof (mild_dev_implements d1 d2 s Hm2 Him1) as Him2.
    assert (tcb_of d2 i t) as Ht2.
    { destruct Hs as [Hu Hs]. destruct Hm2 as [Hu2 (_ & _ & _ & Hw)]. destruct Ht as (H1 & H2 & H3 & H4 & H5 & H6 & H7).
      unfold tcb_of. rewrite Hu2, Hu. split_and!; try done. rewrite Hw by (unfold harmless; intros [_ Hh]; by apply (Hh i Hi)).
      by rewrite (same_card_word _ _ _ Hs). }
    destruct (clear_slot s i t d2 Him2 Hi Ht2) as (d3 & E3 & Him3). rewrite (rbind_some _ _ _ _ _ E3).
    change (0 + 0 + 0) with 0. destruct (IH Hidx' (<[Z.to_nat i := None]> s) (no_name t) d3 Him3) as (d4 & s' & E4 & Him4 & Hl4 & H4).
    exists d4, s'. split_and!; [done|done|]. split; [done|]. intros j Hj. rewrite H4 by done. fold all. rewrite slot_update by (lia || apply Him).
    destruct (Z.eqb_spec j i) as [->|Hji].
    + rewrite (bool_decide_true (i ∈ i :: idx)) by left. rewrite Ehit. by rewrite bool_decide_false.
    + rewrite (bool_decide_ext (j ∈ i :: idx) (j ∈ idx)) by (rewrite elem_of_cons; tauto). done.
  - destruct (IH Hidx' s t d1 Him1) as (d4 & s' & E4 & Him4 & Hl4 & H4).
    exists d4, s'. split_and!; [done|done|]. split; [done|]. intros j Hj. rewrite H4 by done. fold all.
    destruct (Z.eqb_spec j i) as [->|Hji].
    + rewrite Ehit. by rewrite !andb_false_r.
    + rewrite (bool_decide_ext (j ∈ i :: idx) (j ∈ idx)) by (rewrite elem_of_cons; tauto). done.
Qed.

Lemma unload_refines name s d tbuf : implements d s ->
  exists d', MttLibUnloadTask world cpu_big e L name tbuf d = Some (MttLibErrorNONE, d') /\ implements d' (spec_unload name s).
Proof.
  intros Him. unfold MttLibUnloadTask. rewrite L_open, task_indices_all. cbn [negb]. cbn zeta.
  destruct (unload_loop name tasks) with (s := s) (tbuf := tbuf) (d := d) as (d' & s' & E & Him' & Hl & Hs'); [|apply NoDup_seqZ|done|].
  { intros i Hi%elem_of_seqZ. lia. }
  rewrite (rbind_some _ _ _ _ _ E). exists d'. split; [done|]. eapply implements_ext; [exact Him'| |].
  - unfold spec_unload. rewrite length_fmap. apply Him.
  - intros i Hi. rewrite Hs' by done. rewrite bool_decide_true by (apply elem_of_seqZ; lia). cbn [andb].
    unfold slot, spec_unload. rewrite !nth_lookup, list_lookup_fmap.
    destruct (lookup_lt_is_Some_2 s (Z.to_nat i)) as [o Ho]; [rewrite (im_slots d s Him); lia|]. rewrite Ho. done.
Qed.

(** ** All operations *)

Definition run_op (tbuf : MttDrvrTaskBuf) (junk : list Z) (op : libop) : run libres :=
  match op with
  | OpLoad name prog =>
      let! r := MttLibLoadTaskObject world cpu_big e L (Some name) (Program_buf 0 (Z.of_nat (length prog)) prog) tbuf in rret (RErr (fst r))
  | OpUnload name => let! r := MttLibUnloadTask world cpu_big e L name tbuf in rret (RErr r)
  | OpRead name => let! r := MttLibReadTaskObject world cpu_big e L (Some name) true tbuf in rret (res_of r)
  | OpStart name => let! r := MttLibStartTask world cpu_big e L name tbuf in rret (RErr r)
  | OpStop name => let! r := MttLibStopTask world cpu_big e L name tbuf in rret (RErr r)
  | OpContinue name => let! r := MttLibContinueTask world cpu_big e L name tbuf in rret (RErr r)
  | OpSetRegister name treg val => let! r := MttLibSetTaskRegister world cpu_big e L name treg val junk tbuf in rret (RErr r)
  | OpSetGlobal greg val => let! r := MttSetGlobalRegister world cpu_big e L greg val in rret (RErr r)
  | OpSendEvent frame priority => let! r := MttLibSendEventPrio world cpu_big e L frame priority in rret (RErr r)
  | OpLoaded =>
      let! r := MttLibGetLoadedTasks world cpu_big e L tbuf in
      rret (match r with inl err => RErr err | inr l => RNames l end)
  end.

Lemma op_refines tbuf junk op s d : op_ok op -> implements d s ->
  exists d', run_op tbuf junk op d = Some (fst (spec_op op s), d') /\ implements d' (snd (spec_op op s)).
Proof.
  intros Hop Him. destruct op as [name prog|name|name|name|name|name|name treg val|greg val|frame priority|]; cbn [run_op spec_op fst snd op_ok] in *.
  - destruct Hop as [Hl Hp]. destruct (load_refines name prog s d tbuf Him Hl Hp) as (pbf & d' & E & H).
    rewrite (rbind_some _ _ _ _ _ E). exists d'. by destruct (spec_load name prog s).
  - destruct (unload_refines name s d tbuf Him) as (d' & E & H). rewrite (rbind_some _ _ _ _ _ E). by exists d'.
  - destruct (read_refines name s d tbuf Him) as (r & d' & E & Hr & H). rewrite (rbind_some _ _ _ _ _ E), Hr. by exists d'.
  - destruct (task_call_refines MTT_IOCSTASKS_START name s d tbuf) as (d' & E & H); [by left|done|].
    rewrite (rbind_some _ _ _ _ _ E). by exists d'.
  - destruct (task_call_refines MTT_IOCSTASKS_STOP name s d tbuf) as (d' & E & H); [by right; left|done|].
    rewrite (rbind_some _ _ _ _ _ E). by exists d'.
  - destruct (task_call_refines MTT_IOCSTASKS_CONT name s d tbuf) as (d' & E & H); [by right; right|done|].
    rewrite (rbind_some _ _ _ _ _ E). by exists d'.
  - destruct (set_register_refines name treg val junk s d tbuf Hop Him) as (d' & E & H). rewrite (rbind_some _ _ _ _ _ E). by exists d'.
  - destruct (set_global_refines greg val s d Hop Him) as (d' & E & H). rewrite (rbind_some _ _ _ _ _ E). by exists d'.
  - destruct (send_event_refines (s32 frame) priority s d Him) as (d' & E & H).
    unfold MttLibSendEventPrio. rewrite (rbind_some _ _ _ _ _ E). by exists d'.
  - unfold MttLibGetLoadedTasks, names_or. rewrite L_open, task_indices_all. cbn [negb].
    destruct (list_tasks_refines s tasks) with (tbuf := tbuf) (d := d) as (d' & E & H); [|done|].
    { intros i Hi%elem_of_seqZ. lia. }
    rewrite rbind_assoc, (rbind_some _ _ _ _ _ E). by exists d'.
Qed.

(** Any number of them. *)
Fixpoint run_ops (ops : list (MttDrvrTaskBuf * list Z * libop)) (d : mdev) : option (list libres * mdev) :=
  match ops with
  | [] => Some ([], d)
  | (tbuf, junk, op) :: ops =>
      match run_op tbuf junk op d with
      | None => None
      | Some (r, d) => match run_ops ops d with Some (rs, d) => Some (r :: rs, d) | None => None end
      end
  end.
End Calls.

Fixpoint spec_ops (ops : list libop) (s : table) : list libres * table :=
  match ops with
  | [] => ([], s)
  | op :: ops => let '(r, s) := spec_op op s in let '(rs, s) := spec_ops ops s in (r :: rs, s)
  end.

(** The library with the driver open, and a module after its initialisation. *)
Definition library : mttlib := set_mtt true lib_start.


(** ** From the assembler's file to the card *)

(** A file written by the assembler is loaded as its program. *)
Lemma load_task_file world cpu_big e L file name p f mem tbuf d :
  l_mtt L = true -> name_ok (Some name) = true -> (length (l_objdir L ++ name) < LN)%nat ->
  program_ok p -> 8 * InstructionCount p < 2 ^ 32 -> WriteObject p = Some f -> file (l_objdir L ++ name) = Some f ->
  MttLibLoadTask world cpu_big e L file (Some name) true mem tbuf d =
  (let! r := MttLibLoadTaskObject world cpu_big e L (Some name) p tbuf in rret (fst r)) d.
Proof.
  intros HL Hn Hlen Hp Hc Hf Hfile. unfold MttLibLoadTask. rewrite HL, Hn. cbn [negb].
  change (default [] (Some name)) with name. rewrite (proj2 (Nat.leb_gt LN _)) by done. rewrite Hfile.
  pose proof (object_reads_back p (Program_buf 0 0 []) mem f Hp Hf) as Hr.
  assert (MttLibReadObject f (Program_buf 0 0 []) true mem = Some (MttLibErrorNONE, p)) as E.
  { unfold MttLibReadObject. rewrite Hr. destruct (fgets LN f) eqn:Eg.
    - cbn [negb]. by rewrite (proj2 (Z.leb_gt (2 ^ 32) _)) by done.
    - unfold fgets in Eg. destruct f; [|done]. exfalso. unfold WriteObject in Hf. case_hyp Hf; [done|]. injection Hf as Hf.
      unfold hexnum in Hf. cbn in Hf. done. }
  by rewrite (rbind_defined _ _ _ _ E).
Qed.

(** ** A module after its initialisation is an empty table *)

Lemma fresh_implements world sizeof_udata avail iomap jtag isr h d :
  MttModuleInit world sizeof_udata avail iomap jtag isr h = Some (true, d) -> implements d (replicate 16 None).
Proof.
  unfold MttModuleInit. destruct (sysbrk _ _); [done|done|]. intros Hi. case_hyp Hi; [done|]. injection Hi as <-.
  assert (Tasks (md_u (MttHardwareReset world isr (Mdev zero_udata h [Acq KMEM 0]))) = replicate 16 no_task) as Et.
  { unfold MttHardwareReset, udata_set_defaults. rewrite !cmd_if_u. cbn [md_u on_u Tasks set_BusError set_UtcSending set_FlashOpen].
    by rewrite reset_u. }
  split; [by rewrite Et|done|]. intros i Hi. unfold slot_ok, task_name, task_at, slot. rewrite Et, !nth_lookup, !lookup_replicate_2 by lia.
  done.
Qed.

(** ** The words the card executes *)

(** [n] instructions of the card's program memory, two words each. *)
Fixpoint card_words (h : mtthw) (at_ : Z) (n : nat) : list Z :=
  match n with
  | O => []
  | S n => mt_word h (0xCB0 + 8 * at_) :: mt_word h (0xCB0 + 8 * at_ + 4) :: card_words h (at_ + 1) n
  end.

(** A line of the dump that the simulator of the card reads. *)
Definition dump_word (w : Z) : text := txt "X" ++ [34] ++ print_hex8 w ++ [34; NL].

Lemma dump_word_u32 w : dump_word (u32 w) = dump_word w.
Proof. unfold dump_word, print_hex8, print_hex. by rewrite u32_idemp. Qed.

Lemma dump_of_card h l : forall at_, holds_program h at_ l ->
  flat_map dump_word (card_words h at_ (length l)) =
  flat_map (fun i => txt "X" ++ [34] ++ print_hex8 (hex_word i) ++ [34; NL] ++ txt "X" ++ [34] ++ print_hex8 (i_Src1 i) ++ [34; NL]) l.
Proof.
  induction l as [|i l IH]; intros at_ Hh; [done|]. cbn [holds_program length card_words flat_map] in *. destruct Hh as (E1 & E2 & E3).
  rewrite E1, E2, dump_word_u32, (IH (at_ + 1)) by done. unfold dump_word. by rewrite <- !app_assoc.
Qed.

(** C24: an object file of the assembler, loaded by name when a task is free,
    puts into the program memory of that task exactly the words of the dump that
    the assembler writes for the simulator of the card, whatever the byte order
    of the CPU, and the task's name and place are set. *)
Theorem object_file_reaches_card world cpu_big e file name p f mem tbuf d s i :
  me_avail e = true -> implements d s -> name_ok (Some name) = true -> find_task s name = None -> find_task s [] = Some i ->
  program_ok p -> LoadAddress p = 0 -> 0 < InstructionCount p <= MttLibTASK_SIZE ->
  WriteObject p = Some f -> file name = Some f ->
  exists d', MttLibLoadTask world cpu_big e library file (Some name) true mem tbuf d = Some (MttLibErrorNONE, d') /\
  HexDump p = Some (flat_map dump_word (card_words (md_hw d') (256 * i) (Z.to_nat (InstructionCount p)))) /\
  find_task (<[Z.to_nat i := Some (name, Program p)]> s) name = Some i /\
  implements d' (<[Z.to_nat i := Some (name, Program p)]> s).
Proof.
  intros He Him Hn Hnew Hfree Hp Hla Hc Hf Hfile. change MttLibTASK_SIZE with 256 in Hc.
  destruct (name_ok_chars name Hn) as [_ Hnl].
  rewrite (load_task_file world cpu_big e library file name p f mem tbuf d) by (done || (cbn; unfold LN; lia) || lia).
  pose proof Hp as (_ & _ & Hlen & Hok). destruct p as [la cnt prog]. cbn [LoadAddress InstructionCount Program] in *. subst la cnt.
  destruct (load_refines world cpu_big e He library eq_refl eq_refl eq_refl eq_refl name prog s d tbuf Him) as (pbf & d' & E & Him'); [by change MttLibTASK_SIZE with 256; lia|done|].
  unfold spec_load in E, Him'. rewrite Hn in E, Him'. cbn [negb] in E, Him'. rewrite Hnew, Hfree in E, Him'.
  destruct prog as [|i0 prog0] eqn:Ep; [cbn in Hc; lia|]. rewrite <- Ep in *. cbn [fst snd] in E, Him'.
  rewrite (rbind_some _ _ _ _ _ E). apply find_in_tasks in Hfree as Hi. destruct Hi as [Hi _].
  exists d'. split_and!; [done| | |done].
  - pose proof (im_ok d' _ Him' i Hi) as [_ Ho]. rewrite slot_update, Z.eqb_refl in Ho by (lia || apply Him).
    destruct Ho as (_ & _ & _ & _ & _ & _ & Hh & _). unfold HexDump. cbn [Program InstructionCount].
    rewrite Z.ltb_irrefl, Nat2Z.id, firstn_all. by rewrite (dump_of_card (md_hw d') prog (256 * i) Hh).
  - unfold find_task in *. assert (forall j, j ∈ tasks -> 0 <= j < 16) as Hidx by (intros j Hj%elem_of_seqZ; lia).
    clear - Hnew Hfree Hi Him Hidx. induction tasks as [|j l IH]; [done|]. cbn [find] in *.
    assert (0 <= j < 16) as Hj by (apply Hidx; left). rewrite slot_update by (lia || apply Him).
    destruct (Z.eqb_spec j i) as [->|Hji]; [by rewrite bool_decide_true|].
    destruct (bool_decide (slot_name (slot s j) = name)) eqn:E1; [done|].
    destruct (bool_decide (slot_name (slot s j) = [])) eqn:E2; [congruence|].
    apply IH; [done|done|]. intros k Hk. apply Hidx. by right.
Qed.

(** ** Runs *)

Module MttLibRuns.
Import MttDevRuns.

Definition buf0 : MttDrvrTaskBuf := TaskBuf 0 0 0 0 0 (TaskBlock 0 0 0 0) [].
Definition junk0 : list Z := replicate 32 0.

Definition calls (ops : list libop) : list (MttDrvrTaskBuf * list Z * libop) := (fun op => (buf0, junk0, op)) <$> ops.

Definition results (ops : list libop) : option (list libres) := fst <$> run_ops plain false fine library (calls ops) started.

Definition prog1 : list Instruction := [Instr 225 0 MOVV 0 (-5); Instr 0 0 HALT 0 0].
Definition prog2 : list Instruction := [Instr 0 0 NOOP 7 0].

Definition demo_ops : list libop :=
  [OpLoad (txt "one") prog1; OpLoad (txt "two") prog2; OpStart (txt "one"); OpUnload (txt "two"); OpRead (txt "one"); OpRead (txt "two")].


(** The file of the assembler's demonstration program. *)
Definition demo_files (path : text) : option text := WriteObject (Program_buf 0 2 prog1).

Lemma object_file_reaches_card_witness : exists d',
  MttLibLoadTask plain false fine library demo_files (Some (txt "demo")) true (Instr 9 9 9 9 9) buf0 started = Some (MttLibErrorNONE, d') /\
  HexDump (Program_buf 0 2 prog1) = Some (flat_map dump_word (card_words (md_hw d') 0 2)).
Proof.
  destruct (object_file_reaches_card plain false fine demo_files (txt "demo") (Program_buf 0 2 prog1) (default [] (WriteObject (Program_buf 0 2 prog1)))
    (Instr 9 9 9 9 9) buf0 started (replicate 16 None) 0) as (d' & E & H & _).
  - reflexivity.
  - apply (fresh_implements plain 1000 true true true (Some (0x80, 2)) blank). vm_compute. reflexivity.
  - vm_compute. reflexivity.
  - vm_compute. reflexivity.
  - vm_compute. reflexivity.
  - split_and!; [vm_compute; intuition congruence|vm_compute; intuition congruence|reflexivity|].
    apply Forall_cons. split; [unfold inst_ok; vm_compute; intuition congruence|].
    apply Forall_cons. split; [unfold inst_ok; vm_compute; intuition congruence|apply Forall_nil_2].
  - reflexivity.
  - split; vm_compute; congruence.
  - vm_compute. reflexivity.
  - vm_compute. reflexivity.
  - exists d'. split; [exact E|exact H].
Defined.

(** A program too long for one task is put at the place of its last task, and
    goes on over the next one, which stays loaded. *)
Definition long_prog : list Instruction := replicate 300 (Instr 1 2 3 4 5).

Lemma long_program_overwrites :
  results [OpLoad (txt "one") prog1; OpLoad (txt "two") prog2; OpLoad (txt "three") prog1; OpUnload (txt "one"); OpUnload (txt "two");
           OpLoad (txt "long") long_prog; OpRead (txt "three")] =
  Some [RErr MttLibErrorNONE; RErr MttLibErrorNONE; RErr MttLibErrorNONE; RErr MttLibErrorNONE; RErr MttLibErrorNONE; RErr MttLibErrorNONE;
        RProgram (Program_buf 512 2 [Instr 1 2 3 4 5; Instr 1 2 3 4 5])].
Proof. vm_compute. reflexivity. Qed.

(** The number of tasks a program needs is counted with one instruction too
    many in each. *)
Lemma tasks_needed_short : tasks_needed library 513 = 2 /\ 2 * MttLibTASK_SIZE < 513.
Proof. vm_compute. split; reflexivity. Qed.

(** Unloading what is not loaded is a success. *)
Lemma unload_unknown_succeeds : results [OpUnload (txt "nobody"); OpStart (txt "nobody")] = Some [RErr MttLibErrorNONE; RErr MttLibErrorNOLOAD].
Proof. vm_compute. reflexivity. Qed.

(** The timeout asked for takes effect in the next call that changes it. *)
Lemma wait_sends_old_timeout :
  MttLibWait 1 0 50 (WaitEnv true true true [Some 1]) library =
  Some (1, set_timeout 50 (set_connected 1 library), [WConnect 1 1; WTimeout 200]).
Proof. vm_compute. reflexivity. Qed.

(** A failing call to the driver is returned as interrupts 1 and 2. *)
Lemma wait_error_is_mask : fst <$> (fst <$> MttLibWait 4 1 200 (WaitEnv true false true []) library) = Some 3.
Proof. vm_compute. reflexivity. Qed.

(** The local register INDEX is found under the number of all the registers,
    and its type is not stored. *)
Lemma index_register_number : MttLibStringToReg (Some (txt "INDEX")) = Some (224, None) /\ MttLibRegToString 0 MttLibRegTypeLOCAL = txt "INDEX".
Proof. vm_compute. split; reflexivity. Qed.

(** Another register is found by the front of its name; a long name overflows
    its copy. *)
Lemma register_name_flaws :
  MttLibStringToReg (Some (txt "EVINCNT")) = Some (213, None) /\ MttLibRegToString 214 MttLibRegTypeGLOBAL = txt "EVINCNT" /\
  MttLibStringToReg (Some (txt "EVOUTCNTX")) = None.
Proof. vm_compute. split_and!; reflexivity. Qed.

End MttLibRuns.
