(* ===== verification/Modulbus.v ===== *)
(** * MODULbus carriers and mezzanines

    [vmod/driver/modulbus_register.c]: the registry in which a carrier driver
    publishes its entry points under its name.  [vmod/driver/lunargs.c]: the
    table of mezzanine modules that a mezzanine driver reads from its module
    parameters, asking the carriers for addresses. *)

From stdpp Require Import strings.
From S2P Require Import Prelude.

(** ** The registry *)

Definition DRIVER_NAME_MAX_LENGTH : nat := 128.
Definition REGISTER_SIZE : Z := 32.

(** The entry points are addresses of functions. *)
Record register_entry := Register_entry {
  name : string;
  get_address_space : Z;
  register_isr : Z;
}.

Definition no_entry : register_entry := Register_entry EmptyString 0 0.

(** [reg_log]: the mutex. *)
Record registry := Registry { cregister : list register_entry; used_entries : Z; reg_log : list kev }.

Definition KREGISTER : Z := 0.

Definition empty_registry : registry := Registry (replicate 32 no_entry) 0 [].

Definition reg_event (e : kev) (r : registry) : registry := Registry (cregister r) (used_entries r) (reg_log r ++ [e]).

(** [for (i = 0; i < n; i++) if (f(a[i])) return i; return -1;] *)
Fixpoint find_index {A} (f : A -> bool) (l : list A) (i : Z) : Z :=
  match l with
  | [] => -1
  | x :: l => if f x then i else find_index f l (i + 1)
  end.

Definition in_use (r : registry) : list register_entry := firstn (Z.to_nat (used_entries r)) (cregister r).

Definition find_carrier_index (nm : string) (r : registry) : Z :=
  find_index (fun e => bool_decide (name e = nm)) (in_use r) 0.

(** [snprintf(dst, n, "%s", s)] *)
Definition snprintf_s (n : nat) (s : string) : string := String.substring 0 (n - 1) s.

Definition modulbus_carrier_register (nm : string) (gas risr : Z) (r : registry) : Z * registry :=
  if REGISTER_SIZE <=? used_entries r then (-1, r) else
  if (DRIVER_NAME_MAX_LENGTH <? String.length nm)%nat then (-1, r) else
  let r := reg_event (Acq KREGISTER 0) r in
  if 0 <=? find_carrier_index nm r then (-1, reg_event (Rel KREGISTER 0) r) else
  let this := Register_entry (snprintf_s DRIVER_NAME_MAX_LENGTH nm) gas risr in
  let r := Registry (<[Z.to_nat (used_entries r) := this]> (cregister r)) (used_entries r + 1) (reg_log r) in
  (0, reg_event (Rel KREGISTER 0) r).

(** [for (i = idx; i < used_entries; i++) cregister[i] = cregister[i+1];] *)
Fixpoint move_down (n : nat) (i : nat) (l : list register_entry) : list register_entry :=
  match n with
  | O => l
  | S n => move_down n (S i) (<[i := nth (S i) l no_entry]> l)
  end.

Definition modulbus_carrier_unregister (nm : string) (r : registry) : Z * registry :=
  let r := reg_event (Acq KREGISTER 0) r in
  let idx := find_carrier_index nm r in
  if idx <? 0 then (-1, reg_event (Rel KREGISTER 0) r) else
  let used := used_entries r - 1 in
  let r := Registry (move_down (Z.to_nat (used - idx)) (Z.to_nat idx) (cregister r)) used (reg_log r) in
  (0, reg_event (Rel KREGISTER 0) r).

Definition carrier_entry (f : register_entry -> Z) (carrier : string) (r : registry) : Z :=
  match find (fun e => bool_decide (carrier = name e)) (in_use r) with
  | Some e => f e
  | None => 0
  end.

Definition modulbus_carrier_as_entry (carrier : string) (r : registry) : Z := carrier_entry get_address_space carrier r.
Definition modulbus_carrier_isr_entry (carrier : string) (r : registry) : Z := carrier_entry register_isr carrier r.

(** ** Mezzanine modules ([lunargs.c]) *)

Definition VMOD_MAX_BOARDS : Z := 64.

Record carrier_as := Carrier_as { as_address : Z; as_width : Z; as_size : Z; as_is_big_endian : Z }.

Record vmod_dev := Vmod_dev {
  lun : Z;
  carrier_name : string;
  carrier_lun : Z;
  slot : Z;
  address : Z;
  is_big_endian : Z;
}.

Record vmod_devices := Vmod_devices { num_modules : Z; module : list vmod_dev }.

Definition no_vmod : vmod_dev := Vmod_dev 0 EmptyString 0 0 0 0.
Definition no_vmods : vmod_devices := Vmod_devices 0 (replicate 64 no_vmod).

(** The module parameters; each [num_...] is the length of its list. *)
Record vmod_params := Vmod_params {
  p_lun : list Z;
  p_carrier : list string;
  p_carrier_number : list Z;
  p_slot : list Z;
}.

Section Params.

(** [gas f as board position space]: the call of the entry point [f]; [None] is
    a negative answer. *)
Variable gas : Z -> Z -> Z -> Z -> option carrier_as.

Definition set_module_params (r : registry) (lun : Z) (cname : string) (carrier_lun slot : Z) : option vmod_dev :=
  if lun <? 0 then None else
  let entry := modulbus_carrier_as_entry cname r in
  if entry =? 0 then None else
  a ← gas entry carrier_lun slot 1;
  Some (Vmod_dev lun cname carrier_lun slot (as_address a) (as_is_big_endian a)).

Fixpoint params_loop (r : registry) (p : vmod_params) (n : nat) (i : nat) (devs : vmod_devices) : Z * vmod_devices :=
  match n with
  | O => (0, Vmod_devices (Z.of_nat i) (module devs))
  | S n =>
      match set_module_params r (nth i (p_lun p) 0) (nth i (p_carrier p) EmptyString) (nth i (p_carrier_number p) 0) (nth i (p_slot p) 0) with
      | None => (-1, devs)
      | Some m => params_loop r p n (S i) (Vmod_devices (num_modules devs) (<[i := m]> (module devs)))
      end
  end.

Definition read_params (r : registry) (p : vmod_params) (devs : vmod_devices) : Z * vmod_devices :=
  let num_lun := length (p_lun p) in
  if negb (num_lun =? length (p_carrier p))%nat || negb (num_lun =? length (p_carrier_number p))%nat
     || negb (num_lun =? length (p_slot p))%nat || (VMOD_MAX_BOARDS <=? Z.of_nat num_lun)
  then (-1, devs)
  else params_loop r p num_lun 0 devs.

End Params.

Definition lun_to_index (devs : vmod_devices) (l : Z) : Z :=
  find_index (fun m => l =? lun m) (firstn (Z.to_nat (num_modules devs)) (module devs)) 0.

(** ** The open calls of the mezzanine drivers

    [idx < 0] is asked of an [unsigned int]: it is never true.  The result is
    the index of the module that the file will use. *)
Definition vmod_open (errno : Z) (devs : vmod_devices) (minor : Z) : Z * option Z :=
  let idx := u32 (lun_to_index devs minor) in
  if idx <? 0 then (- errno, None) else (0, Some idx).

(** The module behind an index; [None] is an access outside the table. *)
Definition module_at (devs : vmod_devices) (idx : Z) : option vmod_dev :=
  if (0 <=? idx) && (idx <? VMOD_MAX_BOARDS) then module devs !! Z.to_nat idx else None.

(** ** Loops *)

Lemma nth_in {A} (l : list A) i d : (i < length l)%nat -> l !! i = Some (nth i l d).
Proof. intros Hi. destruct (nth_lookup_or_length l i d); [done|lia]. Qed.

Lemma find_index_found {A} (f : A -> bool) l : forall i, 0 <= i -> 
  match find_index f l i with
  | r => (r = -1 /\ Forall (fun x => f x = false) l) \/
         (exists j x, r = i + Z.of_nat j /\ l !! j = Some x /\ f x = true /\ Forall (fun x => f x = false) (firstn j l))
  end.
Proof.
  induction l as [|x l IH]; intros i Hi; cbn; [left; done|].
  destruct (f x) eqn:E.
  - right. exists 0%nat, x. cbn. split_and!; try done; lia.
  - destruct (IH (i + 1) ltac:(lia)) as [[-> Hf]|(j & y & -> & Hj & Hy & Hf)]; [left; split; [done|by constructor]|].
    right. exists (S j), y. split; [lia|]. split; [done|]. split; [done|]. cbn. by constructor.
Qed.

Lemma find_index_none {A} (f : A -> bool) l i : 0 <= i -> find_index f l i < 0 <-> Forall (fun x => f x = false) l.
Proof.
  intros Hi. destruct (find_index_found f l i Hi) as [[-> Hf]|(j & x & -> & Hj & Hx & _)]; [split; [done|lia]|].
  split; [lia|]. intros H. rewrite Forall_lookup in H. by rewrite (H j x Hj) in Hx.
Qed.

(** A module is found by its number, when no two share one. *)
Lemma lun_to_index_found devs i m : NoDup (lun <$> firstn (Z.to_nat (num_modules devs)) (module devs)) ->
  firstn (Z.to_nat (num_modules devs)) (module devs) !! i = Some m -> lun_to_index devs (lun m) = Z.of_nat i.
Proof.
  intros Hd Hi. unfold lun_to_index. destruct (find_index_found (fun x => lun m =? lun x) (firstn (Z.to_nat (num_modules devs)) (module devs)) 0 ltac:(lia)) as [[_ Hf]|(j & y & -> & Hj & Hy & _)].
  - rewrite Forall_lookup in Hf. pose proof (Hf i m Hi) as H. cbn in H. by rewrite Z.eqb_refl in H.
  - apply Z.eqb_eq in Hy. replace (0 + Z.of_nat j) with (Z.of_nat j) by lia. f_equal. eapply NoDup_lookup; [exact Hd|by rewrite list_lookup_fmap, Hj|by rewrite list_lookup_fmap, Hi; cbn; rewrite Hy].
Qed.

(** ** The registry is a partial map of at most 32 names *)

Definition reg_ok (r : registry) : Prop :=
  length (cregister r) = 32%nat /\ 0 <= used_entries r <= REGISTER_SIZE /\
  NoDup (name <$> in_use r) /\ Forall (fun e => (String.length (name e) < DRIVER_NAME_MAX_LENGTH)%nat) (in_use r).

Definition published (r : registry) (nm : string) : option (Z * Z) :=
  (fun e => (get_address_space e, register_isr e)) <$> find (fun e => bool_decide (nm = name e)) (in_use r).

Lemma carrier_entries nm r : 
  modulbus_carrier_as_entry nm r = default 0 (fst <$> published r nm) /\ modulbus_carrier_isr_entry nm r = default 0 (snd <$> published r nm).
Proof. unfold modulbus_carrier_as_entry, modulbus_carrier_isr_entry, carrier_entry, published. by destruct (find _ _). Qed.

Lemma empty_registry_ok : reg_ok empty_registry.
Proof. split_and!; [done|cbn; unfold REGISTER_SIZE; lia..|constructor|constructor]. Qed.

Lemma in_use_length r : reg_ok r -> length (in_use r) = Z.to_nat (used_entries r).
Proof. intros (Hl & Hu & _). unfold in_use, REGISTER_SIZE in *. rewrite length_take. lia. Qed.

Lemma find_in_use nm l : find (fun e => bool_decide (nm = name e)) l = None <-> Forall (fun e => bool_decide (name e = nm) = false) l.
Proof.
  induction l as [|e l IH]; cbn; [done|]. destruct (decide (nm = name e)) as [->|Hne].
  - rewrite bool_decide_true by done. split; [done|]. intros H. apply Forall_cons in H as [H _]. by rewrite bool_decide_true in H.
  - rewrite bool_decide_false by done. rewrite IH, Forall_cons. rewrite (bool_decide_false (name e = nm)) by congruence. tauto.
Qed.

Lemma find_index_published nm r : find_carrier_index nm r < 0 <-> published r nm = None.
Proof.
  unfold find_carrier_index, published. rewrite find_index_none, fmap_None, find_in_use by lia. done.
Qed.

Lemma find_app {A} (f : A -> bool) l l' : find f (l ++ l') = match find f l with Some x => Some x | None => find f l' end.
Proof. induction l as [|x l IH]; cbn; [done|]. by destruct (f x). Qed.

Lemma substring_all s n : (String.length s < n)%nat -> snprintf_s n s = s.
Proof.
  intros H. unfold snprintf_s. assert (String.length s <= n - 1)%nat as Hl by lia. clear H.
  generalize dependent (n - 1)%nat. induction s as [|c s IH]; intros m Hl; [by destruct m|].
  destruct m as [|m]; cbn in *; [lia|]. by rewrite IH by lia.
Qed.

Lemma register_spec nm gas risr r : reg_ok r -> (String.length nm < DRIVER_NAME_MAX_LENGTH)%nat ->
  let '(rc, r') := modulbus_carrier_register nm gas risr r in
  reg_ok r' /\ (exists l, reg_log r' = reg_log r ++ l /\ balanced l) /\
  if bool_decide (used_entries r < REGISTER_SIZE /\ published r nm = None)
  then rc = 0 /\ used_entries r' = used_entries r + 1 /\ forall n, published r' n = if bool_decide (n = nm) then Some (gas, risr) else published r n
  else rc = -1 /\ used_entries r' = used_entries r /\ forall n, published r' n = published r n.
Proof.
  intros Hr Hn. pose proof Hr as (Hl & Hu & Hd & Hs). pose proof (in_use_length r Hr) as Hlen.
  change REGISTER_SIZE with 32 in *. unfold modulbus_carrier_register. change REGISTER_SIZE with 32. destruct (Z.leb_spec 32 (used_entries r)) as [Hfull|Hroom].
  { rewrite bool_decide_false by lia. split; [done|]. split; [exists []; rewrite app_nil_r; done|done]. }
  destruct (Nat.ltb_spec DRIVER_NAME_MAX_LENGTH (String.length nm)) as [|_]; [lia|].
  change (find_carrier_index nm (reg_event _ r)) with (find_carrier_index nm r).
  assert (forall e1 e2, (exists l, (reg_log r ++ [e1]) ++ [e2] = reg_log r ++ l /\ l = [e1; e2])) as Hlog.
  { intros. exists [e1; e2]. by rewrite <- app_assoc. }
  destruct (Z.leb_spec 0 (find_carrier_index nm r)) as [Hin|Hout].
  - rewrite bool_decide_false by (rewrite <- find_index_published; lia). split; [done|]. split; [|done].
    cbn. destruct (Hlog (Acq KREGISTER 0) (Rel KREGISTER 0)) as (l & -> & ->). eexists. split; [done|apply balanced_pair].
  - apply find_index_published in Hout. rewrite bool_decide_true by done. cbn.
    rewrite substring_all by done. set (e := Register_entry nm gas risr).
    set (r' := reg_event _ _). assert (in_use r' = in_use r ++ [e]) as Euse.
    { unfold in_use. cbn. rewrite insert_take_drop by lia. replace (Z.to_nat (used_entries r + 1)) with (S (Z.to_nat (used_entries r))) by lia.
      rewrite take_app_ge by (rewrite length_take; lia). rewrite length_take.
      replace (S _ - _)%nat with 1%nat by lia. done. }
    assert (forall n, published r' n = if bool_decide (n = nm) then Some (gas, risr) else published r n) as Hpub.
    { intros n. unfold published. rewrite Euse, find_app. cbn. case_bool_decide as E1; [|by destruct (find _ _)].
      subst n. unfold published in Hout. by destruct (find _ (in_use r)). }
    split; [|split; [|done]].
    + split_and!; [by (unfold r'; cbn; rewrite length_insert)|unfold r'; change REGISTER_SIZE with 32; cbn; lia..| |].
      * rewrite Euse, fmap_app. apply NoDup_app. split; [done|]. split; [|apply NoDup_singleton].
        intros x Hx%list_elem_of_fmap Hx'. apply list_elem_of_singleton in Hx'. destruct Hx as (y & -> & Hy).
        unfold published in Hout. apply fmap_None, find_in_use in Hout. rewrite Forall_forall in Hout.
        pose proof (Hout y Hy) as H. cbn in Hx'. by rewrite bool_decide_true in H.
      * rewrite Euse. apply Forall_app. split; [done|by constructor].
    + unfold r'. cbn. destruct (Hlog (Acq KREGISTER 0) (Rel KREGISTER 0)) as (l & -> & ->). eexists. split; [done|apply balanced_pair].
Qed.

Lemma move_down_lookup n : forall i l j, (i + n < length l)%nat ->
  move_down n i l !! j = if bool_decide (i <= j < i + n)%nat then l !! S j else l !! j.
Proof.
  induction n as [|n IH]; intros i l j Hl; cbn.
  - by rewrite bool_decide_false by lia.
  - rewrite IH by (rewrite length_insert; lia). destruct (decide (j = i)) as [->|Hj].
    + rewrite bool_decide_false, bool_decide_true by lia. rewrite list_lookup_insert_eq by lia.
      destruct (lookup_lt_is_Some_2 l (S i)) as [x Hx]; [lia|]. by rewrite (nth_lookup_Some _ _ _ _ Hx).
    + repeat case_bool_decide; rewrite ?list_lookup_insert_ne by lia; done || lia.
Qed.

Lemma move_down_length n : forall i l, length (move_down n i l) = length l.
Proof. induction n as [|n IH]; intros i l; cbn; [done|]. by rewrite IH, length_insert. Qed.

Lemma unregister_spec nm r : reg_ok r ->
  let '(rc, r') := modulbus_carrier_unregister nm r in
  reg_ok r' /\ (exists l, reg_log r' = reg_log r ++ l /\ balanced l) /\
  match published r nm with
  | None => rc = -1 /\ used_entries r' = used_entries r /\ forall n, published r' n = published r n
  | Some _ => rc = 0 /\ used_entries r' = used_entries r - 1 /\ forall n, published r' n = if bool_decide (n = nm) then None else published r n
  end.
Proof.
  intros Hr. pose proof Hr as (Hl & Hu & Hd & Hs). pose proof (in_use_length r Hr) as Hlen.
  change REGISTER_SIZE with 32 in *. unfold modulbus_carrier_unregister.
  change (find_carrier_index nm (reg_event _ r)) with (find_carrier_index nm r).
  assert (forall (r' : registry), reg_log r' = (reg_log r ++ [Acq KREGISTER 0]) ++ [Rel KREGISTER 0] -> exists l, reg_log r' = reg_log r ++ l /\ balanced l) as Hlog.
  { intros r' ->. exists [Acq KREGISTER 0; Rel KREGISTER 0]. split; [by rewrite <- app_assoc|apply balanced_pair]. }
  destruct (Z.ltb_spec (find_carrier_index nm r) 0) as [Hout|Hin].
  { apply find_index_published in Hout. rewrite Hout. split; [done|]. split; [by apply Hlog|done]. }
  assert (exists i e, find_carrier_index nm r = Z.of_nat i /\ in_use r !! i = Some e /\ name e = nm) as (i & e & -> & Hi & He).
  { unfold find_carrier_index in *. destruct (find_index_found (fun e => bool_decide (name e = nm)) (in_use r) 0 ltac:(lia)) as [[E _]|(j & x & -> & Hj & Hx & _)]; [lia|].
    exists j, x. apply bool_decide_eq_true in Hx. split_and!; [lia|done..]. }
  rewrite Nat2Z.id. pose proof (lookup_lt_Some _ _ _ Hi) as Hil.
  set (r' := reg_event (Rel KREGISTER 0) _). assert (in_use r' = delete i (in_use r)) as Euse.
  { unfold in_use, r'. cbn. apply list_eq. intros j. destruct (decide (j < Z.to_nat (used_entries r - 1))%nat) as [Hj|Hj].
    - rewrite lookup_take_lt by lia. rewrite move_down_lookup by lia. destruct (decide (j < i)%nat) as [Hji|Hji].
      + rewrite bool_decide_false by lia. rewrite list_lookup_delete_lt by lia. by rewrite lookup_take_lt by lia.
      + rewrite bool_decide_true by lia. rewrite list_lookup_delete_ge by lia. by rewrite lookup_take_lt by lia.
    - rewrite lookup_take_ge by lia. symmetry. apply lookup_ge_None. rewrite length_delete by (eexists; exact Hi).
      fold (in_use r). lia. }
  assert (published r nm <> None) as Hpub by (rewrite <- find_index_published; unfold find_carrier_index in *;
    destruct (find_index_found (fun e => bool_decide (name e = nm)) (in_use r) 0 ltac:(lia)) as [[_ Hf]|(j & x & -> & _)]; [|lia];
    rewrite Forall_lookup in Hf; pose proof (Hf i e Hi) as H; cbn in H; by rewrite bool_decide_true in H).
  destruct (published r nm) as [p|] eqn:Ep; [|done].
  assert (in_use r = take i (in_use r) ++ e :: drop (S i) (in_use r)) as Esplit by (symmetry; by apply take_drop_middle).
  assert (delete i (in_use r) = take i (in_use r) ++ drop (S i) (in_use r)) as Edel by apply delete_take_drop.
  assert (sublist (in_use r') (in_use r)) as Hsub by (rewrite Euse; apply sublist_delete).
  split; [|split; [by apply Hlog|]].
  - split_and!; [by (unfold r'; cbn; rewrite move_down_length)|unfold r'; change REGISTER_SIZE with 32; cbn; lia..| |].
    + rewrite Euse, Edel, fmap_app. rewrite Esplit, fmap_app, fmap_cons in Hd. apply NoDup_app in Hd as (H1 & H2 & H3).
      apply NoDup_cons in H3 as [_ H3]. apply NoDup_app. split_and!; [done| |done]. intros x Hx Hx'. apply (H2 x Hx). by right.
    + rewrite Euse, Edel. rewrite Esplit in Hs. apply Forall_app in Hs as [H1 H2]. apply Forall_cons in H2 as [_ H2]. by apply Forall_app.
  - split; [done|]. split; [done|]. intros n. unfold published. rewrite Euse, Edel.
    rewrite Esplit, fmap_app, fmap_cons in Hd. apply NoDup_app in Hd as (_ & H2 & H3). apply NoDup_cons in H3 as [H3 _].
    rewrite (f_equal (find (fun e => bool_decide (n = name e))) Esplit), !find_app. cbn. rewrite He.
    destruct (decide (n = nm)) as [En|En]; [rewrite !(bool_decide_true (n = nm)) by done|rewrite !(bool_decide_false (n = nm)) by done; done].
    subst n. rewrite (proj2 (find_in_use nm (take i (in_use r)))).
    2:{ apply Forall_forall. intros x Hx. apply bool_decide_false. intros E. apply (H2 (name x)); [by apply list_elem_of_fmap_2|]. rewrite He, E. left. }
    rewrite (proj2 (find_in_use nm (drop (S i) (in_use r)))); [done|].
    apply Forall_forall. intros x Hx. apply bool_decide_false. intros E. apply H3. rewrite He, <- E. by apply list_elem_of_fmap_2.
Qed.

Inductive regop :=
  | OpRegister (nm : string) (gas risr : Z)
  | OpUnregister (nm : string).

Definition run_regop (op : regop) (r : registry) : Z * registry :=
  match op with
  | OpRegister nm gas risr => modulbus_carrier_register nm gas risr r
  | OpUnregister nm => modulbus_carrier_unregister nm r
  end.

(** What the operations are on the map of published names. *)
Definition spec_regop (op : regop) (m : gmap string (Z * Z)) : Z * gmap string (Z * Z) :=
  match op with
  | OpRegister nm gas risr =>
      if bool_decide (Z.of_nat (size m) < REGISTER_SIZE /\ m !! nm = None) then (0, <[nm := (gas, risr)]> m) else (-1, m)
  | OpUnregister nm => match m !! nm with Some _ => (0, delete nm m) | None => (-1, m) end
  end.

(** The longest name that the table holds has 127 characters. *)
Definition regop_ok (op : regop) : Prop :=
  match op with
  | OpRegister nm _ _ => (String.length nm < DRIVER_NAME_MAX_LENGTH)%nat
  | OpUnregister _ => True
  end.

Definition implements_map (r : registry) (m : gmap string (Z * Z)) : Prop :=
  reg_ok r /\ used_entries r = Z.of_nat (size m) /\ forall n, published r n = m !! n.

Lemma regop_refines op r m : regop_ok op -> implements_map r m ->
  fst (run_regop op r) = fst (spec_regop op m) /\ implements_map (snd (run_regop op r)) (snd (spec_regop op m)) /\
  exists l, reg_log (snd (run_regop op r)) = reg_log r ++ l /\ balanced l.
Proof.
  intros Hop (Hr & Hu & Hp). destruct op as [nm gas risr|nm]; cbn [run_regop spec_regop].
  - pose proof (register_spec nm gas risr r Hr Hop) as H. destruct (modulbus_carrier_register nm gas risr r) as [rc r'].
    destruct H as (Hr' & Hlog & H). rewrite Hu, Hp in H. destruct (bool_decide (Z.of_nat (size m) < REGISTER_SIZE /\ m !! nm = None)) eqn:E.
    + apply bool_decide_eq_true in E as [_ E]. destruct H as (-> & Hu' & Hp'). split; [done|]. split; [|done]. split; [done|]. cbn. split.
      * rewrite map_size_insert_None by done. lia.
      * intros n. rewrite Hp'. case_bool_decide as En; [by subst; rewrite lookup_insert_eq|]. by rewrite lookup_insert_ne, Hp by congruence.
    + destruct H as (-> & Hu' & Hp'). split; [done|]. split; [|done]. split; [done|]. cbn. split; [lia|]. intros n. by rewrite Hp', Hp.
  - pose proof (unregister_spec nm r Hr) as H. destruct (modulbus_carrier_unregister nm r) as [rc r'].
    destruct H as (Hr' & Hlog & H). rewrite Hp in H. destruct (m !! nm) as [p|] eqn:E; destruct H as (-> & Hu' & Hp').
    + split; [done|]. split; [|done]. split; [done|]. cbn. split.
      * rewrite map_size_delete_Some by (by rewrite E). assert (size m <> 0%nat) by (apply (map_size_ne_0_lookup_2 m nm); by rewrite E). lia.
      * intros n. rewrite Hp'. case_bool_decide as En; [by subst; rewrite lookup_delete_eq|]. by rewrite lookup_delete_ne, Hp by congruence.
    + split; [done|]. split; [|done]. split; [done|]. cbn. split; [lia|]. intros n. by rewrite Hp', Hp.
Qed.

Lemma registry_refines ops r m : Forall regop_ok ops -> implements_map r m ->
  let r' := fold_left (fun r op => snd (run_regop op r)) ops r in
  let m' := fold_left (fun m op => snd (spec_regop op m)) ops m in
  implements_map r' m' /\ exists l, reg_log r' = reg_log r ++ l /\ balanced l.
Proof.
  revert r m. induction ops as [|op ops IH]; intros r m Ho Hm; cbn.
  { split; [done|]. exists []. by rewrite app_nil_r. }
  apply Forall_cons in Ho as [Hop Ho]. destruct (regop_refines op r m Hop Hm) as (_ & Hm' & l & El & Hl).
  destruct (IH _ _ Ho Hm') as (Hm2 & l2 & El2 & Hl2). split; [done|]. exists (l ++ l2).
  split; [by rewrite El2, El, app_assoc|by apply balanced_app].
Qed.

(** ** Runs *)

Module ModulbusRuns.

(** A name of 128 characters passes the check and loses its last one: it is
    registered and cannot be found. *)
Definition long_name : string := String.concat EmptyString (replicate 128 "x"%string).

Lemma name_of_128_truncated :
  let '(rc, r) := modulbus_carrier_register long_name 1 2 empty_registry in
  rc = 0 /\ modulbus_carrier_as_entry long_name r = 0 /\ fst (modulbus_carrier_unregister long_name r) = -1.
Proof. vm_compute. split_and!; reflexivity. Qed.

(** A module number that no module has is opened all the same. *)
Lemma unknown_lun_opens : vmod_open ENODEV no_vmods 5 = (0, Some (2 ^ 32 - 1)) /\ module_at no_vmods (2 ^ 32 - 1) = None.
Proof. vm_compute. split; reflexivity. Qed.

End ModulbusRuns.
