(* ===== verification/Vmodio.v ===== *)
(** * The VMOD/IO carrier ([vmod/driver/vmodio.c])

    A VME board with four slots for mezzanines.  The driver maps each board
    through the CES calls of the bridge, requests the four interrupt vectors of
    each board, and serves the mezzanine drivers through its two entry points in
    the registry of carriers: the address of a slot, and the handler of a slot. *)

From stdpp Require Import strings.
From S2P Require Import Prelude VmeBus Tsi148 Tsi148Window VmeWindow VmeIrq VmeUser Modulbus.

Definition VMODIO_SLOTS : Z := 4.
Definition VMODIO_SLOT0 : Z := 0x0000.
Definition VMODIO_SLOT1 : Z := 0x0200.
Definition VMODIO_SLOT2 : Z := 0x0400.
Definition VMODIO_SLOT3 : Z := 0x0600.
Definition VMODIO_WINDOW_LENGTH : Z := 0x800.
Definition VMODIO_DATA_SIZE : Z := 2.
Definition VMODIO_ADDRESS_MODIFIER : Z := 0x29.
Definition MAX_DEVICES : Z := 16.
Definition VMODIO_NAME : string := "vmodio".

(** [struct vmodio] and [struct mz_callback]. *)
Record vmodio := Vmodio { vi_lun : Z; vi_vme_addr : Z; vi_vaddr : Z; vi_irq : list Z }.
Record mz_callback := Mz_callback { mz_call : Z; mz_dev : Z }.

Definition no_vmodio : vmodio := Vmodio 0 0 0 [0; 0; 0; 0].

(** The static tables of the driver. *)
Record vmodio_st := Vmodio_st {
  irq_to_lun : list Z;
  lun_slot_to_irq : list (list Z);
  device_table : list vmodio;
  devices : Z;
  mezzanines_callback : list (list mz_callback);
}.

Definition vmodio_boot : vmodio_st :=
  Vmodio_st (replicate 16 0) (replicate 16 (replicate 4 0)) (replicate 16 no_vmodio) 0 (replicate 16 (replicate 4 (Mz_callback 0 0))).

Definition set_irq_to_lun (n l : Z) (v : vmodio_st) : vmodio_st :=
  Vmodio_st (<[Z.to_nat n := l]> (irq_to_lun v)) (lun_slot_to_irq v) (device_table v) (devices v) (mezzanines_callback v).
Definition set_slot_irq (l i irq : Z) (v : vmodio_st) : vmodio_st :=
  Vmodio_st (irq_to_lun v) (alter <[Z.to_nat i := irq]> (Z.to_nat l) (lun_slot_to_irq v)) (device_table v) (devices v) (mezzanines_callback v).
Definition set_device (d : Z) (x : vmodio) (v : vmodio_st) : vmodio_st :=
  Vmodio_st (irq_to_lun v) (lun_slot_to_irq v) (<[Z.to_nat d := x]> (device_table v)) (devices v) (mezzanines_callback v).
Definition set_devices (n : Z) (v : vmodio_st) : vmodio_st :=
  Vmodio_st (irq_to_lun v) (lun_slot_to_irq v) (device_table v) n (mezzanines_callback v).
Definition set_callback (b i : Z) (c : mz_callback) (v : vmodio_st) : vmodio_st :=
  Vmodio_st (irq_to_lun v) (lun_slot_to_irq v) (device_table v) (devices v) (alter <[Z.to_nat i := c]> (Z.to_nat b) (mezzanines_callback v)).
Definition clear_irqs (v : vmodio_st) : vmodio_st :=
  Vmodio_st (replicate 16 (-1)) (replicate 16 (replicate 4 (-1))) (device_table v) (devices v) (mezzanines_callback v).

Definition device_at (d : Z) (v : vmodio_st) : vmodio := nth (Z.to_nat d) (device_table v) no_vmodio.

(** ** Vectors and slots *)

Definition vmodio_irq_shift (base_irq slot : Z) : Z :=
  s32 (base_irq - (0xe - Z.land (Z.lnot (Z.shiftl 1 slot)) 0xf)).

Definition upper_nibble_of (byte : Z) : Z := Z.land 0xf (Z.shiftr byte 4).

Definition interrupt_to_slot : list Z := [-1; -1; -1; -1; -1; -1; -1; 3; -1; -1; -1; 2; -1; 1; 0; -1].

Definition irq_to_slot (tmp : Z) : Z := nth (Z.to_nat (Z.land tmp 0xf)) interrupt_to_slot (-1).

Definition lun_to_dev (l : Z) (v : vmodio_st) : option vmodio :=
  find (fun dev => vi_lun dev =? l) (firstn (Z.to_nat (devices v)) (device_table v)).

Definition vmodio_offsets : list Z := [VMODIO_SLOT0; VMODIO_SLOT1; VMODIO_SLOT2; VMODIO_SLOT3].

(** ** The entry points for mezzanine drivers *)

Definition vmodio_get_address_space (v : vmodio_st) (board_number board_position address_space_number : Z) : option carrier_as :=
  if negb (address_space_number =? 1) then None else
  dev ← lun_to_dev board_number v;
  if (board_position <? 0) || (VMODIO_SLOTS <=? board_position) then None else
  Some (Carrier_as (u32 (vi_vaddr dev + nth (Z.to_nat board_position) vmodio_offsets 0)) 16 0x200 1).

Definition within_bounds (v : vmodio_st) (board position : Z) : bool :=
  (0 <=? board) && (board <? devices v) && (0 <=? position) && (position <? VMODIO_SLOTS).

Definition vmodio_register_isr (callback dev board_number board_position : Z) (v : vmodio_st) : Z * vmodio_st :=
  if negb (within_bounds v board_number board_position) then (-1, v)
  else (0, set_callback board_number board_position (Mz_callback callback dev) v).

Definition mz_entry (v : vmodio_st) (b i : Z) : mz_callback :=
  nth (Z.to_nat i) (nth (Z.to_nat b) (mezzanines_callback v) []) (Mz_callback 0 0).

Section Driver.
Context {H : Type} `{!WindowHw H}.

(** [&device_table], [vmodio_interrupt()] and the two entry points. *)
Variables (table isr gas risr : Z).

(** [&device_table[d].irq[i]]; [struct vmodio] has 28 bytes. *)
Definition irq_cell (d i : Z) : Z := u32 (table + 28 * d + 12 + 4 * i).

Definition irq_read (p : Z) (v : vmodio_st) : option Z :=
  let o := u32 (p - table) in
  if o mod 28 <? 12 then None else
  dev ← device_table v !! Z.to_nat (o / 28);
  vi_irq dev !! Z.to_nat ((o mod 28 - 12) / 4).

(** ** The interrupt handler *)

(** [cb callback dev]: what the callback of a mezzanine answers. The calls made
    are the third component. *)
Definition vmodio_interrupt (cb : Z -> Z -> Z) (irq_id : Z) (v : vmodio_st) : option (Z * list (Z * Z)) :=
  irqno ← irq_read irq_id v;
  let carrier_number := nth (Z.to_nat (upper_nibble_of irqno)) (irq_to_lun v) (-1) in
  let board_position := irq_to_slot irqno in
  if negb (within_bounds v carrier_number board_position) then Some (IRQ_NONE, []) else
  let entry := mz_entry v carrier_number board_position in
  if mz_call entry =? 0 then Some (IRQ_NONE, []) else
  if cb (mz_call entry) (mz_dev entry) <? 0 then Some (IRQ_NONE, [(mz_call entry, mz_dev entry)])
  else Some (IRQ_HANDLED, [(mz_call entry, mz_dev entry)]).

(** ** Initialisation *)

(** The driver, the registry of carriers, the windows and the vectors. *)
Record vsys := Vsys { vs_v : vmodio_st; vs_r : registry; vs_w : wstate H; vs_i : istate }.

Definition on_v (f : vmodio_st -> vmodio_st) (s : vsys) : vsys := Vsys (f (vs_v s)) (vs_r s) (vs_w s) (vs_i s).
Definition with_w (w : wstate H) (s : vsys) : vsys := Vsys (vs_v s) (vs_r s) w (vs_i s).
Definition with_i (i : istate) (s : vsys) : vsys := Vsys (vs_v s) (vs_r s) (vs_w s) i.
Definition with_r (r : registry) (s : vsys) : vsys := Vsys (vs_v s) r (vs_w s) (vs_i s).

(** What the kernel answers while device [d] is set up: the allocation of the
    descriptor, the calls of the window manager, and the lock of the vector
    table for each slot. *)
Record venv := Venv { ve_kz : Z -> bool; ve_k : Z -> kenv; ve_kc : Z -> kenv; ve_intr : Z -> Z -> Z }.

Definition vmodio_map (e : venv) (d base_address : Z) (s : vsys) : Z * vsys :=
  let '(va, w) := find_controller (ve_kz e d) (ve_k e d) (ve_kc e d) base_address VMODIO_WINDOW_LENGTH
                    VMODIO_ADDRESS_MODIFIER VMODIO_DATA_SIZE 0 (vs_w s) in
  (va, with_w w s).

(** The body of the loop over the slots; [None] is a write outside
    [lun_slot_to_irq[]]. *)
Fixpoint slots_loop (e : venv) (d l base_irq : Z) (idx : list Z) (s : vsys) : option (Z * vsys) :=
  match idx with
  | [] => Some (0, s)
  | i :: idx =>
      let slot_irq := vmodio_irq_shift base_irq i in
      let dev := device_at d (vs_v s) in
      let s := on_v (set_device d (Vmodio (vi_lun dev) (vi_vme_addr dev) (vi_vaddr dev) (<[Z.to_nat i := slot_irq]> (vi_irq dev)))) s in
      if (l <? 0) || (MAX_DEVICES <=? l) then None else
      let s := on_v (set_slot_irq l i slot_irq) s in
      let '(ret, ist) := vme_request_irq (ve_intr e d i) (u32 slot_irq) isr (irq_cell d i) (Some VMODIO_NAME) (vs_i s) in
      let s := with_i ist s in
      if ret <? 0 then Some (-1, s) else slots_loop e d l base_irq idx s
  end.

Definition device_init (e : venv) (d l base_address base_irq : Z) (s : vsys) : option (Z * vsys) :=
  let dev := device_at d (vs_v s) in
  let s := on_v (set_device d (Vmodio l base_address (vi_vaddr dev) (vi_irq dev))) s in
  let '(va, s) := vmodio_map e d base_address s in
  let s := on_v (set_device d (Vmodio l base_address va (vi_irq dev))) s in
  if va =? CES_ERROR then Some (-1, s) else
  let s := on_v (set_irq_to_lun (upper_nibble_of base_irq) l) s in
  slots_loop e d l base_irq [0; 1; 2; 3] s.

(** The module parameters. *)
Record vmodio_params := Vmodio_params { vp_lun : list Z; vp_base_address : list Z; vp_irq : list Z }.

Fixpoint devices_loop (e : venv) (p : vmodio_params) (n : nat) (d : Z) (s : vsys) : option (bool * vsys) :=
  match n with
  | O => Some (true, s)
  | S n =>
      let at_ l := nth (Z.to_nat d) l 0 in
      match device_init e d (at_ (vp_lun p)) (at_ (vp_base_address p)) (at_ (vp_irq p)) s with
      | None => None
      | Some (rc, s) =>
          if truthy rc then Some (false, s)
          else devices_loop e p n (d + 1) (on_v (set_devices (devices (vs_v s) + 1)) s)
      end
  end.

Definition vmodio_init (e : venv) (p : vmodio_params) (s : vsys) : option (Z * vsys) :=
  let s := on_v clear_irqs s in
  let nlun := Z.of_nat (length (vp_lun p)) in
  if MAX_DEVICES <=? nlun then Some (-1, s) else
  if negb (length (vp_lun p) =? length (vp_base_address p))%nat || negb (length (vp_lun p) =? length (vp_irq p))%nat then Some (-1, s) else
  let '(rc, r) := modulbus_carrier_register VMODIO_NAME gas risr (vs_r s) in
  let s := with_r r s in
  if truthy rc then Some (-1, s) else
  let s := on_v (set_devices 0) s in
  match devices_loop e p (length (vp_lun p)) 0 s with
  | None => None
  | Some (true, s) => Some (0, s)
  | Some (false, s) => Some (-1, with_r (snd (modulbus_carrier_unregister VMODIO_NAME (vs_r s))) s)
  end.

(** [intr i j]: the answers of the lock. *)
Definition vmodio_exit (intr : Z -> Z -> Z) (s : vsys) : vsys :=
  let irqs := concat (imap (fun i l => imap (fun j irq => (Z.of_nat i, Z.of_nat j, irq)) l) (lun_slot_to_irq (vs_v s))) in
  let ist := fold_left (fun ist x => let '(i, j, irq) := x in
    if 0 <=? irq then snd (vme_free_irq (intr i j) (u32 irq) ist) else ist) irqs (vs_i s) in
  with_r (snd (modulbus_carrier_unregister VMODIO_NAME (vs_r s))) (with_i ist s).

End Driver.

Arguments vsys : clear implicits.
