(* ===== verification/VmodioInv.v ===== *)
(** * The VMOD/IO carrier: slots reach VME, vectors reach callbacks

    Mappings are not disturbed by the search for others, so after the
    initialisation of the driver every slot of every board is reached at the
    address the carrier gives for it, and each of its vectors runs the callback
    registered for it. *)

From stdpp Require Import strings.
From S2P Require Import Prelude VmeBus Tsi148 Tsi148Window VmeWindow VmeWindowInv VmeWindowMap VmeIrq VmeIrqInv VmeUser Modulbus Vmodio.

(** ** Mappings stay while others are searched *)

Section Windows.
Context {H : Type} `{!WindowHw H} `{!WindowHwOk H}.
Implicit Types (st : wstate H) (d : vme_mapping).

Lemma create_frame k d st : length (wins st) = 8%nat -> only_window (window_num d) st (vme_create_window k d st).2.
Proof.
  intros Hl. unfold vme_create_window. set (n := window_num d).
  destruct (bad_window n) eqn:Eb; [done|]. apply bad_window_false in Eb.
  destruct (sizel d =? 0); [done|]. destruct (k_intr k n); [done|].
  destruct (w_active _); [done|].
  set (st2 := if k_name k then _ else _).
  assert (only_window n st st2) as H2 by (subst st2; by destruct (k_name k)). clearbody st2.
  destruct (k_pci k _) as [rc start]. destruct (truthy rc).
  { by apply (only_window_free n st), only_window_set. }
  destruct (kernel_va _ =? 0).
  { apply (only_window_free n st); [done|]. apply (only_window_set n _ st); [done|]. by apply (only_window_set n _ st). }
  destruct (hw_create_window _ _) as [[rc1 d1] h]. destruct (truthy rc1).
  - apply (only_window_free n st); [done|]. apply (only_window_set n _ st); [done|]. by apply (only_window_set n _ st).
  - apply (only_window_set n _ st); [done|]. apply (only_window_set n _ st); [done|]. by apply (only_window_set n _ st).
Qed.

(** Window [i] holds the mapping [m]. *)
Definition holds st (i : Z) (m : mapping) : Prop := in_table i /\ m ∈ w_mappings (get_win st i).

Lemma find_keeps_mappings st k kc d force file i m : winv st -> holds st i m ->
  let st' := (__vme_find_mapping k kc d force file st).2 in
  holds st' i m /\ w_active (get_win st' i) = w_active (get_win st i) /\ w_desc (get_win st' i) = w_desc (get_win st i).
Proof.
  intros Hi [Hin Hm]. unfold __vme_find_mapping, holds. destruct (truthy (vme_mapping_sanity_check d)); [done|].
  destruct (find_loop k d window_indices st) as [r st1] eqn:El. destruct (find_loop_spec _ _ _ _ _ _ El Hi) as [Hst Hr].
  pose proof (same_table_get _ _ i Hst) as Hg. destruct r as [rc|[j|]]; cbn [snd]; [by rewrite Hg| |].
  - destruct Hr as (Hj & _ & Hs & _). apply window_indices_in in Hj.
    destruct (add_mapping k _ _ file) as [rc w] eqn:Ea. cbn [snd]. unfold unlock. rewrite get_win_klog.
    destruct (decide (j = i)) as [->|Hne]; [|rewrite get_set_win_ne by done; by rewrite Hg].
    rewrite get_set_win_eq by (done || apply Hs). pose proof (add_mapping_inv _ _ _ _ _ _ Ea) as (E1 & E2 & E3).
    rewrite E1, E2, Hg. split; [|done]. split; [done|]. unfold add_mapping in Ea.
    destruct (k_kzalloc k); [|injection Ea as _ <-; by rewrite Hg]. injection Ea as _ <-. cbn. rewrite Hg. apply elem_of_app. by left.
  - destruct Hr as [Hi1 _]. destruct (negb (truthy force)); [cbn; by rewrite Hg|].
    destruct (first_unused st1) as [j|] eqn:Ef; [|cbn; by rewrite Hg]. apply first_unused_spec in Ef as [Hj Hja].
    assert (i <> j) as Hne.
    { intros ->. rewrite Hg in Hja. destruct Hi as [[_ Hwf] _]. destruct (Hwf j Hin) as [_ Hw]. rewrite (Hw Hja) in Hm. by apply elem_of_nil in Hm. }
    set (e := vme_optimize_window_size _). assert (window_num e = j) as Hnum.
    { unfold e, vme_optimize_window_size. by destruct (_ =? 0). }
    pose proof (create_frame kc e st1 (proj1 (proj1 Hi1))) as Hf. rewrite Hnum in Hf.
    destruct (vme_create_window kc e st1) as [[rc wnd] st2] eqn:Ec. cbn [snd] in Hf.
    assert (get_win st2 i = get_win st i) as Hg2 by (rewrite Hf by done; exact Hg).
    destruct (truthy rc) eqn:Er; cbn [snd]; [by rewrite Hg2|].
    assert (rc = 0) as -> by (unfold truthy in Er; boolp; done).
    apply vme_create_window_ok in Ec as (_ & _ & _ & Hwn & _); [|apply Hi1]. rewrite Hwn, Hnum.
    destruct (add_mapping k _ _ file) as [rc w]. cbn [snd]. by rewrite get_set_win_ne, Hg2 by done.
Qed.

(** [va .. va + len - 1] reaches VME at [base]. *)
Definition mapped_range st (va base len : Z) : Prop :=
  exists i m, holds st i m /\ u32 (kernel_va (m_desc m)) = va /\
  forall o, 0 <= o < len -> hw_translate (whw st) i (pci_addrl (m_desc m) + o) = Some (base + o).

Definition reaches st (a v : Z) : Prop :=
  exists i m o, holds st i m /\ u32 (kernel_va (m_desc m) + o) = a /\
  hw_translate (whw st) i (pci_addrl (m_desc m) + o) = Some v.

Lemma mapped_range_reaches st va base len o : mapped_range st va base len -> 0 <= o < len -> reaches st (u32 (va + o)) (base + o).
Proof.
  intros (i & m & Hm & <- & Ht) Ho. exists i, m, o. split; [done|]. split; [by rewrite u32_add_l|by apply Ht].
Qed.

Lemma find_keeps_range st k kc d force file va base len : reachable_ok st -> req_ok d -> kenv_ok kc ->
  mapped_range st va base len -> mapped_range (__vme_find_mapping k kc d force file st).2 va base len.
Proof.
  intros Hr Hd Hk (i & m & Hm & Hva & Ht). pose proof (reachable_inv _ (reachable_ok_reachable _ Hr)) as Hi.
  destruct (find_keeps_mappings st k kc d force file i m Hi Hm) as (Hm' & Ea & Ed). exists i, m. split; [done|]. split; [done|].
  set (st' := (__vme_find_mapping k kc d force file st).2) in *.
  assert (reachable_ok st') as Hr' by exact (reach_ok_step (OpFind k kc d force file) st Hr (conj Hd Hk)).
  destruct Hm as [Hin Hm]. assert (w_active (get_win st i) = true) as Hact.
  { destruct (w_active (get_win st i)) eqn:E; [done|]. destruct (proj2 (proj1 Hi) i Hin) as [_ Hw]. rewrite (Hw E) in Hm. by apply elem_of_nil in Hm. }
  pose proof (reachable_ok_agree _ Hr i Hin) as H1. pose proof (reachable_ok_agree _ Hr' i Hin) as H2.
  unfold win_agree in H1, H2. rewrite Ea, Hact, Ed in H2. rewrite Hact in H1. destruct H1 as (_ & _ & H1), H2 as (_ & _ & H2).
  intros o Ho. rewrite H2, <- H1. by apply Ht.
Qed.

(** ** [find_controller()] *)

Lemma controller_desc_ok vmeaddr len a w rdpref : is_u32 vmeaddr -> 0 <= len <= 0xffff0000 -> req_ok (controller_desc vmeaddr len a w rdpref).
Proof.
  intros Hv Hl. destruct (controller_desc_fields vmeaddr len a w rdpref) as (E1 & E2 & E3 & E4 & E5 & _).
  unfold req_ok. rewrite E1, E2, E3, E4, E5. unfold is_u32 in *. lia.
Qed.

Lemma find_controller_keeps kz k kc vmeaddr len a rdpref st : reachable_ok st -> kenv_ok kc -> is_u32 vmeaddr -> 0 <= len <= 0xffff0000 ->
  reachable_ok (find_controller kz k kc vmeaddr len a 2 rdpref st).2 /\
  forall va base n, mapped_range st va base n -> mapped_range (find_controller kz k kc vmeaddr len a 2 rdpref st).2 va base n.
Proof.
  intros Hr Hk Hv Hl. pose proof (controller_desc_ok vmeaddr len a VME_D16 rdpref Hv Hl) as Hd.
  unfold find_controller. destruct kz; [|done]. cbn [negb]. change (2 =? 2) with true. cbv iota.
  set (d := controller_desc vmeaddr len a VME_D16 rdpref) in *. clearbody d.
  unfold vme_find_mapping. pose proof (find_keeps_range st k kc d 1 0) as Hkeep.
  assert (reachable_ok (__vme_find_mapping k kc d 1 0 st).2) as Hr' by exact (reach_ok_step (OpFind k kc d 1 0) st Hr (conj Hd Hk)).
  destruct (__vme_find_mapping k kc d 1 0 st) as [[rc d'] st']. cbn [snd] in *.
  destruct (truthy rc); cbn [snd]; (split; [exact Hr'|]); intros va base n Hm; exact (Hkeep va base n Hr Hd Hk Hm).
Qed.

#[local] Opaque vme_find_mapping controller_desc.

Lemma find_controller_range k kc vmeaddr len rdpref st : reachable_ok st -> kenv_ok kc -> 0 <= vmeaddr -> 0 <= len -> vmeaddr + len <= 2 ^ 16 ->
  let '(va, st') := find_controller true k kc vmeaddr len VMODIO_ADDRESS_MODIFIER 2 rdpref st in
  va <> CES_ERROR -> mapped_range st' va vmeaddr len.
Proof.
  intros Hr Hk Hv Hl Hfit. destruct (find_controller _ _ _ _ _ _ _ _ _) as [va st'] eqn:E. intros Hne.
  unfold find_controller in E. cbn [negb] in E. change (2 =? 2) with true in E. cbv iota in E.
  destruct (find_controller_sized k kc vmeaddr len VMODIO_ADDRESS_MODIFIER VME_D16 rdpref st va st') as (d & Hin & Hva & (m & Hm & Ed & _) & Ht); try done.
  - unfold is_u32. lia.
  - lia.
  - lia.
  - exists (window_num d), m. subst d. by split_and!.
Qed.

End Windows.

(** ** The tables of the driver *)

Definition grid {A} (l : list (list A)) : Prop := length l = 16%nat /\ Forall (fun r => length r = 4%nat) l.

Definition shape (v : vmodio_st) : Prop :=
  length (irq_to_lun v) = 16%nat /\ length (device_table v) = 16%nat /\ grid (lun_slot_to_irq v) /\ grid (mezzanines_callback v) /\
  Forall (fun dev => length (vi_irq dev) = 4%nat) (device_table v).

Lemma grid_replicate {A} (x : A) : grid (replicate 16 (replicate 4 x)).
Proof. split; [done|]. by apply Forall_replicate. Qed.

Lemma grid_alter {A} i j (x : A) l : grid l -> grid (alter <[i := x]> j l).
Proof.
  intros [Hl Hf]. split; [by rewrite length_alter|]. apply Forall_alter; [done|]. intros r _ Hr. by rewrite length_insert.
Qed.

Lemma shape_set_device d x v : shape v -> length (vi_irq x) = 4%nat -> shape (set_device d x v).
Proof.
  intros (H1 & H2 & H3 & H4 & H5) Hx. split_and!; [done|cbn; by rewrite length_insert|done|done|]. cbn. by apply Forall_insert.
Qed.

Lemma shape_set_slot l i x v : shape v -> shape (set_slot_irq l i x v).
Proof. intros (H1 & H2 & H3 & H4 & H5). split_and!; cbn; try done; by apply grid_alter. Qed.

Lemma shape_set_lun n l v : shape v -> shape (set_irq_to_lun n l v).
Proof. intros (H1 & H2 & H3 & H4 & H5). split_and!; cbn; try done; by rewrite length_insert. Qed.

Lemma shape_set_callback b i c v : shape v -> shape (set_callback b i c v).
Proof. intros (H1 & H2 & H3 & H4 & H5). split_and!; cbn; try done; by apply grid_alter. Qed.

Lemma shape_device d v : shape v -> length (vi_irq (device_at d v)) = 4%nat.
Proof.
  intros (_ & _ & _ & _ & Hf). unfold device_at. destruct (device_table v !! Z.to_nat d) as [x|] eqn:E.
  - rewrite (nth_lookup_Some _ _ _ _ E). by eapply (Forall_lookup_1 _ _ _ _ Hf).
  - by rewrite nth_overflow by (by apply lookup_ge_None).
Qed.

(** ** Boards *)

Section Boards.
Context {H : Type} `{!WindowHw H} `{!WindowHwOk H}.
Variables (table isr gas risr : Z).
Hypothesis isr_nz : isr <> 0.
Variable e : venv.
Hypothesis kc_ok : forall d, kenv_ok (ve_kc e d).
Hypothesis intr_ok : forall d i, ve_intr e d i <= 0.
Implicit Types (s : vsys H).

(** A vector base the slots of one board can share. *)
Definition irq_base (irq : Z) : Prop := 0 <= irq < 256 /\ irq mod 16 = 14.

(** The bases below 256 whose low four bits are 14. *)
Definition bases : list Z := (fun k => 16 * k + 14) <$> seqZ 0 16.

Lemma irq_base_in irq : irq_base irq -> irq ∈ bases.
Proof.
  intros [Hr Hm]. apply list_elem_of_fmap. exists (irq / 16). split; [|apply elem_of_seqZ]; Z.to_euclidean_division_equations; lia.
Qed.

Lemma irq_shift_spec irq j : irq_base irq -> 0 <= j < 4 ->
  let v := vmodio_irq_shift irq j in
  0 <= v < 256 /\ upper_nibble_of v = upper_nibble_of irq /\ irq_to_slot v = j /\ 0 <= upper_nibble_of irq < 16.
Proof.
  intros Hb%irq_base_in Hj.
  assert (forallb (fun irq => forallb (fun j => let v := vmodio_irq_shift irq j in
    (0 <=? v) && (v <? 256) && (upper_nibble_of v =? upper_nibble_of irq) && (irq_to_slot v =? j) &&
    (0 <=? upper_nibble_of irq) && (upper_nibble_of irq <? 16)) [0; 1; 2; 3]) bases = true) as Hc by (vm_compute; reflexivity).
  rewrite forallb_forall in Hc. specialize (Hc irq (proj1 (list_elem_of_In _ _) Hb)). rewrite forallb_forall in Hc.
  assert (In j [0; 1; 2; 3]) as Hin by (cbn; lia). specialize (Hc j Hin). cbv zeta in Hc. boolp. cbv zeta. lia.
Qed.

Definition board_ok s (d l base irq : Z) : Prop :=
  (exists va, device_table (vs_v s) !! Z.to_nat d = Some (Vmodio l base va (vmodio_irq_shift irq <$> [0; 1; 2; 3])) /\
     mapped_range (vs_w s) va base VMODIO_WINDOW_LENGTH) /\
  irq_to_lun (vs_v s) !! Z.to_nat (upper_nibble_of irq) = Some l /\
  forall j, 0 <= j < 4 -> vec_lookup (vs_i s) (vmodio_irq_shift irq j) = Some (isr, irq_cell table d j).

Lemma request_kept intr vec a name st w x : table_ok st -> 0 <= vec -> vec_ok w -> intr <= 0 ->
  let '(ret, st') := vme_request_irq intr vec isr a name st in
  table_ok st' /\ (ret <? 0 = false -> vec_ok vec /\ (vec_lookup st' w = if vec =? w then Some (isr, a) else vec_lookup st w) /\
  (vec_lookup st w = Some x -> vec_lookup st' w = Some x)).
Proof.
  intros Ht Hv Hw Hi. pose proof (request_irq_lookup st intr vec isr a name w Ht Hv Hw) as Hl.
  assert (truthy isr = true) as Hisr by (unfold truthy; by rewrite (proj2 (Z.eqb_neq _ _) isr_nz)). rewrite Hisr in Hl.
  unfold vme_request_irq in *. destruct (Z.leb_spec VME_NUM_VECTORS vec) as [Hle|Hlt]; [by split|].
  destruct (truthy intr) eqn:Ei; [split; [done|]; intros Hn; boolp; unfold truthy in Ei; boolp; lia|].
  unfold vec_lookup in Hl at 2. destruct (truthy (virq_handler (get_virq st vec))) eqn:Eh; [by split|].
  split; [by apply table_ok_set|]. intros _. specialize (Hl eq_refl). cbn [snd] in Hl.
  split; [unfold vec_ok; lia|]. rewrite Hl. split; [done|]. intros Hx.
  destruct (Z.eqb_spec vec w) as [->|]; [|done]. unfold vec_lookup in Hx. by rewrite Eh in Hx.
Qed.

Lemma slots_loop_spec d l irq idx : (forall j, j ∈ idx -> 0 <= j < 4) -> irq_base irq -> 0 <= d < 16 -> forall s s',
  shape (vs_v s) -> table_ok (vs_i s) ->
  slots_loop table isr e d l irq idx s = Some (0, s') ->
  shape (vs_v s') /\ table_ok (vs_i s') /\ (idx <> [] -> 0 <= l < 16) /\
  vs_r s' = vs_r s /\ vs_w s' = vs_w s /\ irq_to_lun (vs_v s') = irq_to_lun (vs_v s) /\ devices (vs_v s') = devices (vs_v s) /\
  mezzanines_callback (vs_v s') = mezzanines_callback (vs_v s) /\
  (forall d', 0 <= d' -> d' <> d -> device_table (vs_v s') !! Z.to_nat d' = device_table (vs_v s) !! Z.to_nat d') /\
  (exists irqs, device_at d (vs_v s') = Vmodio (vi_lun (device_at d (vs_v s))) (vi_vme_addr (device_at d (vs_v s))) (vi_vaddr (device_at d (vs_v s))) irqs /\
     irqs = fold_left (fun x j => <[Z.to_nat j := vmodio_irq_shift irq j]> x) idx (vi_irq (device_at d (vs_v s)))) /\
  (forall w x, vec_ok w -> vec_lookup (vs_i s) w = Some x -> vec_lookup (vs_i s') w = Some x) /\
  (forall j, j ∈ idx -> vec_lookup (vs_i s') (vmodio_irq_shift irq j) = Some (isr, irq_cell table d j)).
Proof.
  intros Hidx Hirq Hd. induction idx as [|i idx IH]; intros s s' Hs Ht E; cbn [slots_loop] in E.
  { injection E as <-. split_and!; try done.
    - exists (vi_irq (device_at d (vs_v s))). split; [by destruct (device_at d (vs_v s))|done].
    - intros j Hj. by apply elem_of_nil in Hj. }
  destruct ((l <? 0) || (MAX_DEVICES <=? l)) eqn:El; [done|]. change MAX_DEVICES with 16 in El. boolp.
  assert (0 <= i < 4) as Hi by (apply Hidx; left).
  destruct (irq_shift_spec irq i Hirq Hi) as (Hv & _). set (irq_i := vmodio_irq_shift irq i) in *.
  set (dev := Vmodio _ _ _ _) in E. set (s1 := on_v _ (on_v _ s)) in E.
  assert (shape (vs_v s1)) as Hs1.
  { apply shape_set_slot, shape_set_device; [done|]. cbn. by rewrite length_insert, shape_device. }
  change (vs_i s1) with (vs_i s) in E. rewrite (u32_id irq_i) in E by (unfold is_u32; lia).
  pose proof (request_kept (ve_intr e d i) irq_i (irq_cell table d i) (Some VMODIO_NAME) (vs_i s)) as Hreq.
  destruct (vme_request_irq _ _ _ _ _ _) as [ret ist] eqn:Er.
  assert (vec_ok irq_i) as Hvi by (unfold vec_ok, VME_NUM_VECTORS; lia).
  assert (table_ok ist) as Hti by (apply (Hreq irq_i (0, 0)); [done|lia|done|done]).
  destruct (ret <? 0) eqn:Eret; [by injection E|].
  destruct (IH ltac:(intros j Hj; apply Hidx; by right) (with_i ist s1) s' Hs1 Hti E) as (G1 & G2 & _ & G4 & G5 & G6 & G7 & G8 & G9 & (irqs & G10 & G11) & G12 & G13).
  assert (device_at d (vs_v s1) = dev) as Hdev.
  { unfold device_at, s1. cbn. erewrite nth_lookup_Some; [reflexivity|]. apply list_lookup_insert_eq. destruct Hs as (_ & -> & _). lia. }
  change (vs_v (with_i ist s1)) with (vs_v s1) in *. rewrite Hdev in G10, G11.
  split_and!; try done.
  - intros d' Hd' Hne. rewrite G9 by done. cbn. by rewrite list_lookup_insert_ne by lia.
  - exists irqs. split; [exact G10|]. rewrite G11. done.
  - intros w x Hw Hx. apply G12; [done|]. apply (Hreq w x); [done|lia|done|done|done|done].
  - intros j [->|Hj]%elem_of_cons; [|by apply G13]. apply G12; [done|].
    fold irq_i. destruct (Hreq irq_i (0, 0)) as [_ Hq]; [done|lia|done|done|].
    destruct (Hq eq_refl) as (_ & Hq' & _). cbn [vs_i with_i]. by rewrite Hq', Z.eqb_refl.
Qed.

Lemma fill_irqs f (l : list Z) : length l = 4%nat ->
  fold_left (fun x j => <[Z.to_nat j := f j]> x) [0; 1; 2; 3] l = f <$> [0; 1; 2; 3].
Proof. destruct l as [|a [|b [|c [|d [|]]]]]; done. Qed.

(** A base address whose window lies in the 64 KiB of A16. *)
Definition base_ok (base : Z) : Prop := 0 <= base /\ base + VMODIO_WINDOW_LENGTH <= 2 ^ 16.

#[local] Opaque find_controller.

Lemma device_init_spec d l base irq s s' : 0 <= d < 16 -> irq_base irq -> base_ok base ->
  shape (vs_v s) -> table_ok (vs_i s) -> reachable_ok (vs_w s) ->
  device_init table isr e d l base irq s = Some (0, s') ->
  shape (vs_v s') /\ table_ok (vs_i s') /\ reachable_ok (vs_w s') /\ 0 <= l < 16 /\
  vs_r s' = vs_r s /\ devices (vs_v s') = devices (vs_v s) /\ mezzanines_callback (vs_v s') = mezzanines_callback (vs_v s) /\
  board_ok s' d l base irq /\
  forall d' l' base' irq', 0 <= d' -> d' <> d -> irq_base irq' -> upper_nibble_of irq' <> upper_nibble_of irq ->
    board_ok s d' l' base' irq' -> board_ok s' d' l' base' irq'.
Proof.
  intros Hd Hirq [Hb0 Hb1] Hs Ht Hr E. change VMODIO_WINDOW_LENGTH with 0x800 in *.
  destruct (irq_shift_spec irq 0 Hirq ltac:(lia)) as (_ & _ & _ & Hnib).
  unfold device_init, vmodio_map in E. cbn [vs_w on_v] in E. change VMODIO_DATA_SIZE with 2 in E. change VMODIO_WINDOW_LENGTH with 0x800 in E.
  destruct (find_controller_keeps (ve_kz e d) (ve_k e d) (ve_kc e d) base 0x800 VMODIO_ADDRESS_MODIFIER 0 (vs_w s) Hr (kc_ok d)) as [Hr' Hkeep]; [unfold is_u32; lia|lia|].
  assert (ve_kz e d = false -> (find_controller (ve_kz e d) (ve_k e d) (ve_kc e d) base 0x800 VMODIO_ADDRESS_MODIFIER 2 0 (vs_w s)).1 = CES_ERROR) as Hkz.
  { intros ->. reflexivity. }
  pose proof (find_controller_range (ve_k e d) (ve_kc e d) base 0x800 0 (vs_w s) Hr (kc_ok d) Hb0 ltac:(lia) Hb1) as Hrange.
  destruct (ve_kz e d); [|destruct (find_controller false _ _ _ _ _ _ _ _) as [va w]; cbn in Hkz; rewrite (Hkz eq_refl), Z.eqb_refl in E; discriminate E].
  destruct (find_controller true _ _ _ _ _ _ _ _) as [va w] eqn:Ef. cbn [snd fst] in *.
  destruct (Z.eqb_spec va CES_ERROR) as [|Hva]; [discriminate E|]. specialize (Hrange Hva).
  pose proof (shape_device d _ Hs) as Hlen. set (dev := device_at d (vs_v s)) in *.
  set (s1 := on_v (set_irq_to_lun _ _) _) in E.
  assert (shape (vs_v s1)) as Hs1 by (apply shape_set_lun, shape_set_device; [by apply shape_set_device|done]).
  assert (device_at d (vs_v s1) = Vmodio l base va (vi_irq dev)) as Hdev.
  { unfold device_at, s1. cbn. erewrite nth_lookup_Some; [reflexivity|]. apply list_lookup_insert_eq. rewrite length_insert. destruct Hs as (_ & -> & _). lia. }
  destruct (slots_loop_spec d l irq [0; 1; 2; 3] ltac:(intros j Hj%list_elem_of_In; cbn in Hj; lia) Hirq Hd s1 s' Hs1 Ht E)
    as (G1 & G2 & G3 & G4 & G5 & G6 & G7 & G8 & G9 & (irqs & G10 & G11) & G12 & G13).
  rewrite Hdev in G10, G11. cbn [vi_irq vi_lun vi_vme_addr vi_vaddr] in G10, G11. rewrite (fill_irqs (vmodio_irq_shift irq)) in G11 by done.
  split_and!; try done; try (apply G3; done).
  - by rewrite G5.
  - split_and!.
    + exists va. split; [|by rewrite G5]. destruct G1 as (_ & L & _). destruct (lookup_lt_is_Some_2 (device_table (vs_v s')) (Z.to_nat d)) as [x Hx]; [lia|].
      rewrite Hx. f_equal. rewrite <- G11, <- G10. unfold device_at. by rewrite (nth_lookup_Some _ _ _ _ Hx).
    + rewrite G6. cbn. apply list_lookup_insert_eq. destruct Hs as (-> & _). lia.
    + intros j Hj. apply G13, list_elem_of_In. cbn. lia.
  - intros d' l' base' irq' Hd' Hne Hirq' Hnib' ((va' & Hx & Hm) & Hl & Hv). split_and!.
    + exists va'. split; [rewrite G9 by done; cbn; by rewrite !list_lookup_insert_ne by lia|]. rewrite G5. by apply Hkeep.
    + destruct (irq_shift_spec irq' 0 Hirq' ltac:(lia)) as (_ & _ & _ & Hn'). rewrite G6. cbn. by rewrite list_lookup_insert_ne by lia.
    + intros j Hj. destruct (irq_shift_spec irq' j Hirq' Hj) as (Hv' & _). apply G12; [unfold vec_ok, VME_NUM_VECTORS; lia|]. by apply Hv.
Qed.

(** ** The whole initialisation *)

Definition at_ (d : Z) (l : list Z) : Z := nth (Z.to_nat d) l 0.

Definition params_ok (p : vmodio_params) : Prop :=
  Forall base_ok (vp_base_address p) /\ Forall irq_base (vp_irq p) /\ NoDup (upper_nibble_of <$> vp_irq p) /\ NoDup (vp_lun p) /\
  length (vp_base_address p) = length (vp_lun p) /\ length (vp_irq p) = length (vp_lun p).

Definition board_at s (p : vmodio_params) (d : Z) : Prop := board_ok s d (at_ d (vp_lun p)) (at_ d (vp_base_address p)) (at_ d (vp_irq p)).

Definition sane s : Prop := shape (vs_v s) /\ table_ok (vs_i s) /\ reachable_ok (vs_w s).

Lemma at_lookup d l : 0 <= d < Z.of_nat (length l) -> l !! Z.to_nat d = Some (at_ d l).
Proof. intros Hd. apply nth_in. lia. Qed.

Lemma params_at p d : params_ok p -> 0 <= d < Z.of_nat (length (vp_lun p)) -> base_ok (at_ d (vp_base_address p)) /\ irq_base (at_ d (vp_irq p)).
Proof.
  intros (Hb & Hi & _ & _ & E1 & E2) Hd. split.
  - eapply (Forall_lookup_1 _ _ _ _ Hb), at_lookup. lia.
  - eapply (Forall_lookup_1 _ _ _ _ Hi), at_lookup. lia.
Qed.

Lemma params_distinct p d d' : params_ok p -> 0 <= d < Z.of_nat (length (vp_lun p)) -> 0 <= d' < Z.of_nat (length (vp_lun p)) -> d' <> d ->
  upper_nibble_of (at_ d' (vp_irq p)) <> upper_nibble_of (at_ d (vp_irq p)) /\ at_ d' (vp_lun p) <> at_ d (vp_lun p).
Proof.
  intros (_ & _ & Hn & Hl & E1 & E2) Hd Hd' Hne. split; intros E; apply Hne.
  - assert (Z.to_nat d' = Z.to_nat d); [|lia]. eapply (NoDup_lookup _ _ _ _ Hn); rewrite list_lookup_fmap, at_lookup by lia; cbn; by rewrite ?E.
  - assert (Z.to_nat d' = Z.to_nat d); [|lia]. eapply (NoDup_lookup _ _ _ _ Hl); rewrite at_lookup by lia; by rewrite ?E.
Qed.

Lemma devices_loop_spec p n d s s' : params_ok p -> 0 <= d -> d + Z.of_nat n <= Z.of_nat (length (vp_lun p)) -> d + Z.of_nat n <= 16 ->
  sane s -> devices (vs_v s) = d -> (forall k, 0 <= k < d -> board_at s p k) ->
  devices_loop table isr e p n d s = Some (true, s') ->
  sane s' /\ vs_r s' = vs_r s /\ mezzanines_callback (vs_v s') = mezzanines_callback (vs_v s) /\
  devices (vs_v s') = d + Z.of_nat n /\ (forall k, 0 <= k < d + Z.of_nat n -> board_at s' p k).
Proof.
  intros Hp. revert d s. induction n as [|n IH]; intros d s Hd Hlen H16 (Hs & Ht & Hr) Hdev Hk E; cbn [devices_loop] in E.
  { injection E as <-. rewrite Z.add_0_r. by split_and!. }
  cbv zeta in E. destruct (device_init table isr e d _ _ _ s) as [[rc s1]|] eqn:Ei; [|done].
  destruct (truthy rc) eqn:Erc; [done|]. assert (rc = 0) as -> by (unfold truthy in Erc; boolp; done).
  destruct (params_at p d Hp ltac:(lia)) as [Hb Hi].
  destruct (device_init_spec d _ _ _ s s1 ltac:(lia) Hi Hb Hs Ht Hr Ei) as (G1 & G2 & G3 & G4 & G5 & G6 & G7 & G8 & G9).
  destruct (IH (d + 1) (on_v (set_devices (devices (vs_v s1) + 1)) s1)) as (F1 & F2 & F3 & F4 & F5); try done; try lia.
  - cbn. lia.
  - intros k Hk'. change (board_at s1 p k). destruct (decide (k = d)) as [->|Hne]; [exact G8|].
    destruct (params_distinct p d k Hp ltac:(lia) ltac:(lia) Hne) as [Hn _]. destruct (params_at p k Hp ltac:(lia)) as [_ Hik].
    apply G9; try done; try lia. by apply Hk; lia.
  - split_and!; [done|by rewrite F2|by rewrite F3|lia|]. intros k Hk'. apply F5. lia.
Qed.

(** After a successful initialisation every board is set up. *)
Lemma init_spec p s s' : params_ok p -> sane s -> vmodio_init table isr gas risr e p s = Some (0, s') ->
  sane s' /\ devices (vs_v s') = Z.of_nat (length (vp_lun p)) /\ devices (vs_v s') < 16 /\
  mezzanines_callback (vs_v s') = mezzanines_callback (vs_v s) /\
  modulbus_carrier_register VMODIO_NAME gas risr (vs_r s) = (0, vs_r s') /\
  forall k, 0 <= k < Z.of_nat (length (vp_lun p)) -> board_at s' p k.
Proof.
  intros Hp (Hs & Ht & Hr) E. unfold vmodio_init in E. cbv zeta in E. cbn [vs_r on_v] in E. change MAX_DEVICES with 16 in E.
  destruct (Z.leb_spec 16 (Z.of_nat (length (vp_lun p)))) as [|Hn]; [done|].
  destruct (negb _ || negb _); [done|].
  destruct (modulbus_carrier_register VMODIO_NAME gas risr (vs_r s)) as [rc r] eqn:Ereg.
  destruct (truthy rc) eqn:Erc; [done|]. assert (rc = 0) as -> by (unfold truthy in Erc; boolp; done).
  destruct (devices_loop _ _ _ _ _ _ _) as [[[] s1]|] eqn:El; [|done|done]. injection E as ->.
  apply (devices_loop_spec p _ 0) in El as (F1 & F2 & F3 & F4 & F5); try done; try lia.
  - split; [done|]. split; [done|]. split; [lia|]. split; [by rewrite F3|]. split; [by rewrite F2|done].
  - split; [|done]. destruct Hs as (H1 & H2 & H3 & H4 & H5). split_and!; cbn; try done. apply grid_replicate.
Qed.

End Boards.

(** ** Handlers of the slots *)

Section Routes.
Context {H : Type} `{!WindowHw H} `{!WindowHwOk H}.
Variable table : Z.
Implicit Types (s : vsys H) (v : vmodio_st).

(** A call of [vmodio_register_isr()]: callback, device, board and slot. *)
Notation registration := (Z * Z * Z * Z)%type (only parsing).

Definition register_one v (c : registration) : vmodio_st := let '(f, dev, b, i) := c in snd (vmodio_register_isr f dev b i v).

Definition last_registered (l j : Z) (calls : list registration) (first : mz_callback) : mz_callback :=
  fold_left (fun acc c => let '(f, dev, b, i) := c in if (b =? l) && (i =? j) then Mz_callback f dev else acc) calls first.

Lemma mz_entry_set v b i c l j : shape v -> 0 <= b < 16 -> 0 <= i < 4 -> 0 <= l -> 0 <= j ->
  mz_entry (set_callback b i c v) l j = if (b =? l) && (i =? j) then c else mz_entry v l j.
Proof.
  intros (_ & _ & _ & [Hl Hf] & _) Hb Hi Hl0 Hj0. unfold mz_entry. cbn.
  destruct (lookup_lt_is_Some_2 (mezzanines_callback v) (Z.to_nat b)) as [r Hr]; [lia|].
  pose proof (Forall_lookup_1 _ _ _ _ Hf Hr) as Hlr. cbn in Hlr.
  destruct (Z.eqb_spec b l) as [->|Hbl]; cbn [andb].
  - rewrite (nth_lookup_Some (alter _ _ _) _ _ (<[Z.to_nat i := c]> r)) by (rewrite list_lookup_alter_eq, Hr; done).
    rewrite (nth_lookup_Some (mezzanines_callback v) _ _ r) by done. destruct (Z.eqb_spec i j) as [->|Hij].
    + apply nth_lookup_Some, list_lookup_insert_eq. lia.
    + rewrite !nth_lookup, list_lookup_insert_ne by lia. done.
  - rewrite (nth_lookup (alter _ _ _)), list_lookup_alter_ne, <- nth_lookup by lia. done.
Qed.

Lemma register_one_spec v c : shape v -> 0 <= devices v <= 16 ->
  shape (register_one v c) /\ devices (register_one v c) = devices v /\ irq_to_lun (register_one v c) = irq_to_lun v /\
  device_table (register_one v c) = device_table v /\
  forall l j, 0 <= l < devices v -> 0 <= j < 4 -> mz_entry (register_one v c) l j = last_registered l j [c] (mz_entry v l j).
Proof.
  intros Hs Hd. destruct c as [[[f dev] b] i]. unfold register_one, vmodio_register_isr, within_bounds. change VMODIO_SLOTS with 4. cbn [last_registered fold_left].
  destruct ((0 <=? b) && (b <? devices v) && (0 <=? i) && (i <? 4)) eqn:E; cbn [negb snd].
  - boolp. split; [by apply shape_set_callback|]. split_and!; try done. intros l j Hl Hj. by rewrite mz_entry_set by (done || lia).
  - split_and!; try done. intros l j Hl Hj. destruct (Z.eqb_spec b l) as [->|]; [|done]. destruct (Z.eqb_spec i j) as [->|]; [|done].
    exfalso. repeat (apply andb_false_iff in E as [E|E]); boolp; lia.
Qed.

Lemma register_all_spec calls : forall v, shape v -> 0 <= devices v <= 16 ->
  let v' := fold_left register_one calls v in
  devices v' = devices v /\ irq_to_lun v' = irq_to_lun v /\ device_table v' = device_table v /\
  forall l j, 0 <= l < devices v -> 0 <= j < 4 -> mz_entry v' l j = last_registered l j calls (mz_entry v l j).
Proof.
  induction calls as [|c calls IH]; intros v Hs Hd; [done|]. cbn [fold_left].
  destruct (register_one_spec v c Hs Hd) as (Hs' & Ed & Ei & Et & Em).
  destruct (IH (register_one v c) Hs' ltac:(lia)) as (F1 & F2 & F3 & F4).
  split_and!; [congruence..|]. intros l j Hl Hj. rewrite F4, Em by lia. done.
Qed.

Lemma irq_read_cell v d j l base va irq : 0 <= d < 16 -> 0 <= j < 4 ->
  device_table v !! Z.to_nat d = Some (Vmodio l base va (vmodio_irq_shift irq <$> [0; 1; 2; 3])) ->
  irq_read table (irq_cell table d j) v = Some (vmodio_irq_shift irq j).
Proof.
  intros Hd Hj E. unfold irq_read, irq_cell. rewrite u32_sub_l. replace (table + 28 * d + 12 + 4 * j - table) with (28 * d + 12 + 4 * j) by lia.
  rewrite u32_id by (unfold is_u32; lia). assert ((28 * d + 12 + 4 * j) mod 28 = 12 + 4 * j) as -> by (Z.to_euclidean_division_equations; lia).
  assert ((28 * d + 12 + 4 * j) / 28 = d) as -> by (Z.to_euclidean_division_equations; lia).
  destruct (Z.ltb_spec (12 + 4 * j) 12); [lia|]. rewrite E. cbn [mbind option_bind vi_irq].
  assert ((12 + 4 * j - 12) / 4 = j) as -> by (Z.to_euclidean_division_equations; lia).
  rewrite list_lookup_fmap. assert ([0; 1; 2; 3] !! Z.to_nat j = Some j) as ->; [|done].
  assert (j = 0 \/ j = 1 \/ j = 2 \/ j = 3) as [->|[->|[->| ->]]] by lia; done.
Qed.

End Routes.

(** C39: after a successful initialisation with module numbers below the number
    of boards, vector bases that end in 14 and have distinct upper halves, and
    any registrations of handlers, the bridge calls the driver for each vector
    of each slot with an argument for which the driver runs the handler
    registered last for that slot of that board, and no other. *)
Theorem vmodio_interrupt_routed {H : Type} `{!WindowHw H} `{!WindowHwOk H} (table isr gas risr : Z) e p (s s' : vsys H) calls cb d j :
  isr <> 0 -> (forall i, kenv_ok (ve_kc e i)) -> (forall i k, ve_intr e i k <= 0) ->
  params_ok p -> Forall (fun l => 0 <= l < Z.of_nat (length (vp_lun p))) (vp_lun p) -> sane s ->
  vmodio_init table isr gas risr e p s = Some (0, s') ->
  0 <= d < Z.of_nat (length (vp_lun p)) -> 0 <= j < VMODIO_SLOTS ->
  let l := at_ d (vp_lun p) in
  let m := last_registered l j calls (mz_entry (vs_v s) l j) in
  vec_lookup (vs_i s') (vmodio_irq_shift (at_ d (vp_irq p)) j) = Some (isr, irq_cell table d j) /\
  vmodio_interrupt table cb (irq_cell table d j) (fold_left register_one calls (vs_v s')) =
    Some (if mz_call m =? 0 then (IRQ_NONE, [])
          else (if cb (mz_call m) (mz_dev m) <? 0 then IRQ_NONE else IRQ_HANDLED, [(mz_call m, mz_dev m)])).
Proof.
  intros Hisr Hkc Hintr Hp Hl Hs E Hd Hj l m. change VMODIO_SLOTS with 4 in Hj.
  destruct (init_spec table isr gas risr Hisr e Hkc Hintr p s s' Hp Hs E) as (Hs' & En & Hlt & Em & _ & Hb).
  destruct (Hb d Hd) as ((va & Ht & _) & Hlun & Hv). destruct (params_at p d Hp Hd) as [_ Hirq].
  destruct (irq_shift_spec (at_ d (vp_irq p)) j Hirq Hj) as (_ & Hnib & Hslot & _).
  destruct (register_all_spec calls (vs_v s') (proj1 Hs') ltac:(lia)) as (F1 & F2 & F3 & F4).
  assert (0 <= l < Z.of_nat (length (vp_lun p))) as Hl' by (eapply (Forall_lookup_1 _ _ _ _ Hl), at_lookup; lia).
  split; [by apply Hv|]. unfold vmodio_interrupt. erewrite irq_read_cell by (rewrite ?F3; done || lia). cbn [mbind option_bind].
  rewrite Hnib, Hslot, F2. fold l in Hlun. rewrite (nth_lookup_Some _ _ _ _ Hlun).
  unfold within_bounds. change VMODIO_SLOTS with 4. rewrite F1, En, !(proj2 (Z.leb_le _ _)), !(proj2 (Z.ltb_lt _ _)) by lia. cbn [negb andb].
  assert (mz_entry (vs_v s') l j = mz_entry (vs_v s) l j) as Emz by (unfold mz_entry; by rewrite Em).
  rewrite F4 by lia. rewrite Emz. fold m. destruct (mz_call m =? 0); [done|]. by destruct (cb _ _ <? 0).
Qed.
