(* ===== verification/Vmod.v ===== *)
(** * Mezzanine drivers

    [vmod/driver/vmod12a2drvr.c], [vmod16a2drvr.c] (analog outputs),
    [vmod12e16drvr.c] (analog inputs) and [vmoddordrvr.c] (digital outputs), and
    their user libraries [vmod/lib].  A driver finds its module in the table of
    [Modulbus], and writes the registers at the address the carrier gave. *)

From stdpp Require Import strings.
From S2P Require Import Prelude Modulbus.

Definition ENOTTY : Z := 25.
Definition EIO : Z := 5.

(** Accesses to a mezzanine; [be]: the word is byte-swapped for a big-endian
    card. *)
Inductive ioev :=
  | W16 (a v : Z) (be : bool)
  | W8 (a v : Z)
  | R16 (a : Z) (be : bool).

(** ** Analog outputs with 12 bits *)

Definition VMOD_12A2_CHANNEL0 : Z := 0x0.
Definition VMOD_12A2_CHANNEL1 : Z := 0x2.

Definition vmod12a2_offsets : list Z := [VMOD_12A2_CHANNEL0; VMOD_12A2_CHANNEL1].

Definition vmod12a2_open : vmod_devices -> Z -> Z * option Z := vmod_open ENODEV.

(** [None] is a module outside the table. *)
Definition vmod12a2_do_iocput (devs : vmod_devices) (idx : Z) (channel value : Z) : option (Z * list ioev) :=
  let channel := u32 channel in
  if negb (channel =? 0) && negb (channel =? 1) then Some (- EINVAL, []) else
  dev ← module_at devs idx;
  Some (0, [W16 (u32 (address dev + nth (Z.to_nat channel) vmod12a2_offsets 0)) (u16 value) true]).

Inductive vmod12a2_cmd := VMOD12A2_IOCPUT (channel value : Z) | VMOD12A2_OTHER.

(** [from]: the argument could be copied from user space. *)
Definition vmod12a2_ioctl (from : bool) (cm : vmod12a2_cmd) (devs : vmod_devices) (idx : Z) : option (Z * list ioev) :=
  match cm with
  | VMOD12A2_IOCPUT channel value => if negb from then Some (- EINVAL, []) else vmod12a2_do_iocput devs idx channel value
  | VMOD12A2_OTHER => Some (- ENOTTY, [])
  end.

(** ** Analog outputs with 16 bits *)

Definition VMOD16A2_DAC0IN : Z := 0x00.
Definition VMOD16A2_DAC1IN : Z := 0x02.
Definition VMOD16A2_LDAC0 : Z := 0x04.
Definition VMOD16A2_LDAC1 : Z := 0x06.

Definition vmod16a2_open : vmod_devices -> Z -> Z * option Z := vmod_open EINVAL.

Definition vmod16a2_do_output (devs : vmod_devices) (idx : Z) (channel value : Z) : option (Z * list ioev) :=
  dev ← module_at devs idx;
  let put off := W16 (u32 (address dev + off)) (u16 value) true in
  if s32 channel =? 0 then Some (0, [put VMOD16A2_DAC0IN; put VMOD16A2_LDAC0])
  else if s32 channel =? 1 then Some (0, [put VMOD16A2_DAC1IN; put VMOD16A2_LDAC1])
  else Some (- EINVAL, []).

Inductive vmod16a2_cmd := VMOD16A2_IOCPUT (channel value : Z) | VMOD16A2_OTHER.

Definition vmod16a2_ioctl (from : bool) (cm : vmod16a2_cmd) (devs : vmod_devices) (idx : Z) : option (Z * list ioev) :=
  match cm with
  | VMOD16A2_IOCPUT channel value => if negb from then Some (- EINVAL, []) else vmod16a2_do_output devs idx channel value
  | VMOD16A2_OTHER => Some (- ENOTTY, [])
  end.

(** ** Analog inputs *)

Definition VMOD_12E16_CONTROL : Z := 0x00.
Definition VMOD_12E16_ADC_DATA : Z := 0x00.
Definition VMOD_12E16_ADC_RDY : Z := 0x04.
Definition VMOD_12E16_INTERRUPT : Z := 0x06.
Definition VMOD_12E16_ADC_DATA_MASK : Z := 0x0fff.
Definition VMOD_12E16_ADC_INTERRUPT_MASK : Z := Z.shiftl 1 15.
Definition VMOD_12E16_RDY_BIT : Z := Z.shiftl 1 15.
Definition VMOD_12E16_CONVERSION_TIME : Z := 2.
Definition VMOD_12E16_MAX_CONVERSION_TIME : Z := 30.

Definition vmod12e16_open : vmod_devices -> Z -> Z * option Z := vmod_open ENODEV.

(** [device_list[i].config] points to module [i] of the table. *)
Definition vmod12e16_dev (devs : vmod_devices) (idx : Z) : option vmod_dev :=
  if idx <? num_modules devs then module_at devs idx else None.

Definition KCONVERSION : Z := 0.    (* the semaphore of a device *)

Section Adc.

(** What a 16-bit read answers, given the accesses so far. *)
Variable world : list ioev -> Z -> Z.

(** The loop that waits for the end of a conversion; the fuel is shown to be
    enough. The first component is the data, or [None] after the timeout. *)
Fixpoint wait_conversion (fuel : nat) (us_elapsed regs : Z) (log : list ioev) : option (option Z * list ioev) :=
  match fuel with
  | O => None
  | S fuel =>
      if VMOD_12E16_MAX_CONVERSION_TIME <=? us_elapsed then Some (None, log) else
      let ready := u32 (regs + VMOD_12E16_ADC_RDY) in
      let r := world log ready in
      let log := log ++ [R16 ready true] in
      if Z.land r VMOD_12E16_RDY_BIT =? 0 then
        let data := u32 (regs + VMOD_12E16_ADC_DATA) in
        Some (Some (Z.land (world log data) VMOD_12E16_ADC_DATA_MASK), log ++ [R16 data true])
      else wait_conversion fuel (us_elapsed + VMOD_12E16_CONVERSION_TIME) regs log
  end.

Record vmod12e16_conversion := Conversion { amplification : Z; channel : Z; data : Z }.

(** [intr]: the wait for the semaphore was interrupted. The results are the
    return value, the structure, the accesses and the semaphore. *)
Definition do_conversion (intr : bool) (devs : vmod_devices) (idx : Z) (c : vmod12e16_conversion) (log : list ioev)
  : option (Z * vmod12e16_conversion * list ioev * list kev) :=
  dev ← vmod12e16_dev devs idx;
  let regs := address dev in
  if intr then Some (- ERESTARTSYS, c, log, []) else
  let log := log ++ [W16 (u32 (regs + VMOD_12E16_INTERRUPT)) VMOD_12E16_ADC_INTERRUPT_MASK true] in
  if negb (Z.land (amplification c) (Z.lnot (Z.shiftl 1 2 - 1)) =? 0) || negb (Z.land (channel c) (Z.lnot (Z.shiftl 1 4 - 1)) =? 0)
  then Some (- EINVAL, c, log, [Acq KCONVERSION idx; Rel KCONVERSION idx]) else
  let log := log ++ [W16 (u32 (regs + VMOD_12E16_CONTROL)) (u16 (Z.lor (Z.shiftl (amplification c) 4) (channel c))) true] in
  '(res, log) ← wait_conversion 16 0 regs log;
  match res with
  | Some d => Some (0, Conversion (amplification c) (channel c) d, log, [Acq KCONVERSION idx; Rel KCONVERSION idx])
  | None => Some (- ETIME, c, log, [Acq KCONVERSION idx; Rel KCONVERSION idx])
  end.

Inductive vmod12e16_cmd := VMOD12E16_IOCCONVERT (c : vmod12e16_conversion) | VMOD12E16_OTHER.

(** [to]: the structure could be copied back; then it is the second result. *)
Definition vmod12e16_ioctl (from to intr : bool) (cm : vmod12e16_cmd) (devs : vmod_devices) (idx : Z) (log : list ioev)
  : option (Z * option vmod12e16_conversion * list ioev * list kev) :=
  match cm with
  | VMOD12E16_IOCCONVERT c =>
      if negb from then Some (- EINVAL, None, log, []) else
      '(err, c, log, sem) ← do_conversion intr devs idx c log;
      if truthy err then Some (err, None, log, sem)
      else if negb to then Some (- EINVAL, None, log, sem)
      else Some (0, Some c, log, sem)
  | VMOD12E16_OTHER => Some (- ENOTTY, None, log, [])
  end.

(** [vmod/lib/libvmod12e16.c]: the value is stored only on success. *)
Definition vmod12e16_convert (from to intr : bool) (channel factor : Z) (devs : vmod_devices) (idx : Z) (log : list ioev)
  : option (Z * option Z * list ioev * list kev) :=
  '(err, c, log, sem) ← vmod12e16_ioctl from to intr (VMOD12E16_IOCCONVERT (Conversion factor channel 0)) devs idx log;
  Some (if err =? 0 then 0 else -1, option_map data c, log, sem).

End Adc.

(** ** Digital outputs *)

Definition VMODDOR_MAX_DEVICES : Z := 16.

Record vmoddor_dev := Vmoddor_dev {
  dor_lun : Z;
  dor_cname : string;
  dor_carrier : Z;
  dor_slot : Z;
  dor_is_big_endian : Z;
  handle : Z;
}.

Definition no_vmoddor : vmoddor_dev := Vmoddor_dev 0 EmptyString 0 0 0 0.

Definition vmoddor_dev_of (mod_ : vmod_dev) : vmoddor_dev :=
  Vmoddor_dev (lun mod_) (carrier_name mod_) (carrier_lun mod_) (slot mod_) (is_big_endian mod_) (address mod_).

(** The table of the driver has 16 entries, the parameters up to 63: [None] is
    a write past its end. [params]: [read_params()]; [chrdev] and [cdev]: the
    registration of the character device. *)
Definition vmoddor_init (params : Z * vmod_devices) (chrdev cdev_alloc cdev_add : bool) : option (Z * list vmoddor_dev) :=
  let table := replicate 16 no_vmoddor in
  let '(err, devs) := params in
  if truthy err then Some (-1, table) else
  if negb chrdev || negb cdev_alloc || negb cdev_add then Some (-1, table) else
  if VMODDOR_MAX_DEVICES <? num_modules devs then None else
  let mods := firstn (Z.to_nat (num_modules devs)) (module devs) in
  Some (0, (vmoddor_dev_of <$> mods) ++ drop (length mods) table).

Definition vmoddor_write_word (pd : vmoddor_dev) (offset value : Z) : ioev :=
  W16 (u32 (handle pd + offset)) (u16 value) (truthy (dor_is_big_endian pd)).

Definition vmoddor_write_byte (pd : vmoddor_dev) (offset value : Z) : ioev := W8 (u32 (handle pd + offset)) (u8 value).

Definition vmoddor_write_4bits (pd : vmoddor_dev) (offset value : Z) : ioev := vmoddor_write_byte pd offset (Z.land value 0xf).

Record vmoddor_arg := Vmoddor_arg { dor_data : Z; dor_size : Z; dor_offset : Z }.

Inductive vmoddor_cmd := VMODDOR_WRITE (val : vmoddor_arg) | VMODDOR_OTHER.

(** The device is the entry with the minor number as its index. *)
Definition vmoddor_ioctl (from : bool) (cm : vmoddor_cmd) (table : list vmoddor_dev) (minor : Z) : option (Z * list ioev) :=
  pd ← table !! Z.to_nat minor;
  match cm with
  | VMODDOR_WRITE val =>
      if negb from then Some (- EIO, []) else
      let size := u16 (dor_size val) in
      let offset := u16 (dor_offset val) in
      if size =? 16 then
        if negb (offset =? 0) then Some (- EINVAL, []) else Some (0, [vmoddor_write_word pd 0 (dor_data val)])
      else if size =? 8 then
        if 1 <? offset then Some (- EINVAL, []) else Some (0, [vmoddor_write_byte pd offset (Z.land (dor_data val) 0xff)])
      else if size =? 4 then
        if (offset <? 2) || (5 <? offset) then Some (- EINVAL, []) else Some (0, [vmoddor_write_4bits pd offset (Z.land (dor_data val) 0xff)])
      else Some (- EINVAL, [])
  | VMODDOR_OTHER => Some (- EINVAL, [])
  end.
