(* ===== verification/VmodInv.v ===== *)
(** * Mezzanine drivers: from a module number to a VME address

    The parameters of a mezzanine driver name a carrier, a board and a slot; the
    module that a user opens by its number is then reached through the registry,
    the carrier and the window manager at the VME address of that slot.  And a
    conversion ends in bounded time with what the converter said. *)

From stdpp Require Import strings.
From S2P Require Import Prelude VmeBus Tsi148 Tsi148Window VmeWindow VmeWindowInv VmeWindowMap VmeIrq VmeIrqInv VmeUser Modulbus Vmodio VmodioInv Vmod.

(** ** The table of modules *)

Section Params.
Variable gas : Z -> Z -> Z -> Z -> option carrier_as.

Lemma params_loop_spec r p n : forall i devs devs', (i + n <= length (module devs))%nat ->
  params_loop gas r p n i devs = (0, devs') ->
  num_modules devs' = Z.of_nat (i + n) /\ length (module devs') = length (module devs) /\
  (forall k, (k < i)%nat -> module devs' !! k = module devs !! k) /\
  forall k, (i <= k < i + n)%nat -> exists m, module devs' !! k = Some m /\
    set_module_params gas r (nth k (p_lun p) 0) (nth k (p_carrier p) EmptyString) (nth k (p_carrier_number p) 0) (nth k (p_slot p) 0) = Some m.
Proof.
  induction n as [|n IH]; intros i devs devs' Hl E; cbn [params_loop] in E.
  { injection E as <-. cbn. split_and!; [lia|done|done|lia]. }
  destruct (set_module_params _ _ _ _ _ _) as [m|] eqn:Em; [|done].
  apply IH in E as (F1 & F2 & F3 & F4); [|cbn; rewrite length_insert; lia]. cbn in F2, F3. rewrite length_insert in F2.
  split_and!; [lia|done| |].
  - intros k Hk. rewrite F3 by lia. by rewrite list_lookup_insert_ne by lia.
  - intros k Hk. destruct (decide (k = i)) as [->|Hne]; [|apply F4; lia].
    exists m. split; [|done]. rewrite F3 by lia. apply list_lookup_insert_eq. lia.
Qed.

Lemma read_params_spec r p devs : read_params gas r p no_vmods = (0, devs) ->
  num_modules devs = Z.of_nat (length (p_lun p)) /\ length (module devs) = 64%nat /\ num_modules devs < 64 /\
  forall k, (k < length (p_lun p))%nat -> exists m, module devs !! k = Some m /\
    set_module_params gas r (nth k (p_lun p) 0) (nth k (p_carrier p) EmptyString) (nth k (p_carrier_number p) 0) (nth k (p_slot p) 0) = Some m.
Proof.
  unfold read_params. intros E. change VMOD_MAX_BOARDS with 64 in E. destruct (_ || _) eqn:Ec; [done|]. boolp.
  apply params_loop_spec in E as (F1 & F2 & _ & F4); [|cbn; lia]. cbn in F2.
  split_and!; [done|done|lia|]. intros k Hk. apply F4. lia.
Qed.

(** Every module that was read is opened by its number. *)
Lemma module_opens errno r p devs k : read_params gas r p no_vmods = (0, devs) -> NoDup (p_lun p) -> (k < length (p_lun p))%nat ->
  exists m, vmod_open errno devs (nth k (p_lun p) 0) = (0, Some (Z.of_nat k)) /\ module_at devs (Z.of_nat k) = Some m /\
    Z.of_nat k < num_modules devs /\
    set_module_params gas r (nth k (p_lun p) 0) (nth k (p_carrier p) EmptyString) (nth k (p_carrier_number p) 0) (nth k (p_slot p) 0) = Some m.
Proof.
  intros E Hd Hk. destruct (read_params_spec r p devs E) as (F1 & F2 & F3 & F4). destruct (F4 k Hk) as (m & Hm & Hset).
  exists m. assert (Z.of_nat k < num_modules devs) as Hkn by lia.
  assert (forall i mi, firstn (Z.to_nat (num_modules devs)) (module devs) !! i = Some mi -> lun mi = nth i (p_lun p) 0 /\ (i < length (p_lun p))%nat) as Hluns.
  { intros i mi Hi. apply lookup_take_Some in Hi as [Hi Hlt]. destruct (F4 i ltac:(lia)) as (mi' & Hi' & Hs). rewrite Hi in Hi'. injection Hi' as <-.
    split; [|lia]. unfold set_module_params in Hs. destruct (_ <? 0); [done|]. destruct (_ =? 0); [done|].
    destruct (gas _ _ _ _); [|done]. by injection Hs as <-. }
  assert (firstn (Z.to_nat (num_modules devs)) (module devs) !! k = Some m) as Hkm by (rewrite lookup_take_lt by lia; done).
  split_and!; [|by unfold module_at; rewrite (proj2 (Z.leb_le _ _)), (proj2 (Z.ltb_lt _ _)), Nat2Z.id by (change VMOD_MAX_BOARDS with 64; lia)|done|done].
  unfold vmod_open. rewrite <- (proj1 (Hluns k m Hkm)), (lun_to_index_found devs k m); [| |done].
  2:{ apply NoDup_alt. intros i j x Hi Hj. rewrite list_lookup_fmap in Hi, Hj.
    destruct (firstn _ _ !! i) as [mi|] eqn:Ei; [|done]. destruct (firstn _ _ !! j) as [mj|] eqn:Ej; [|done]. cbn in Hi, Hj.
    destruct (Hluns i mi Ei) as [Li Bi], (Hluns j mj Ej) as [Lj Bj].
    apply (NoDup_lookup _ i j x Hd); rewrite (nth_in _ _ 0) by done; congruence. }
  rewrite u32_id by (unfold is_u32; lia). destruct (Z.ltb_spec (Z.of_nat k) 0); [lia|done].
Qed.

End Params.

(** ** Analog outputs on a VMOD/IO carrier *)

Section Carrier.
Context {H : Type} `{!WindowHw H} `{!WindowHwOk H}.
Variables (table isr gas risr : Z).
Hypothesis isr_nz : isr <> 0.
Variable e : venv.
Hypothesis kc_ok : forall d, kenv_ok (ve_kc e d).
Hypothesis intr_ok : forall d i, ve_intr e d i <= 0.
Implicit Types (s : vsys H).

(** A call of the entry point at [f]: the one of this carrier, or another. *)
Definition call_gas s (other : Z -> Z -> Z -> Z -> option carrier_as) (f b i n : Z) : option carrier_as :=
  if f =? gas then vmodio_get_address_space (vs_v s) b i n else other f b i n.

Lemma board_found s p d : board_at table isr s p d -> params_ok p -> 0 <= d < Z.of_nat (length (vp_lun p)) ->
  devices (vs_v s) = Z.of_nat (length (vp_lun p)) -> (forall k, 0 <= k < Z.of_nat (length (vp_lun p)) -> board_at table isr s p k) ->
  exists va irqs, lun_to_dev (at_ d (vp_lun p)) (vs_v s) = Some (Vmodio (at_ d (vp_lun p)) (at_ d (vp_base_address p)) va irqs) /\
    mapped_range (vs_w s) va (at_ d (vp_base_address p)) VMODIO_WINDOW_LENGTH.
Proof.
  intros ((va & Ht & Hm) & _) Hp Hd Hn Hall. exists va, (vmodio_irq_shift (at_ d (vp_irq p)) <$> [0; 1; 2; 3]). split; [|done].
  unfold lun_to_dev. rewrite Hn. set (l := firstn _ _). assert (l !! Z.to_nat d = Some (Vmodio (at_ d (vp_lun p)) (at_ d (vp_base_address p)) va (vmodio_irq_shift (at_ d (vp_irq p)) <$> [0; 1; 2; 3]))) as Hl.
  { unfold l. rewrite lookup_take_lt by lia. exact Ht. }
  assert (forall k x, l !! k = Some x -> vi_lun x = at_ (Z.of_nat k) (vp_lun p) /\ Z.of_nat k < Z.of_nat (length (vp_lun p))) as Hluns.
  { intros k x Hk. apply lookup_take_Some in Hk as [Hk Hlt]. destruct (Hall (Z.of_nat k) ltac:(lia)) as ((va' & Hx & _) & _).
    rewrite Nat2Z.id, Hk in Hx. injection Hx as ->. split; [done|lia]. }
  destruct (find (fun dev => vi_lun dev =? at_ d (vp_lun p)) l) as [x|] eqn:Ef.
  - apply find_some in Ef as [Hin%list_elem_of_In Hx%Z.eqb_eq]. apply list_elem_of_lookup in Hin as [k Hk].
    destruct (Hluns k x Hk) as [Hlk Hkn]. destruct (decide (Z.of_nat k = d)) as [<-|Hne]; [rewrite Nat2Z.id in Hl; congruence|].
    destruct (params_distinct p d (Z.of_nat k) Hp Hd ltac:(lia) Hne) as [_ Hdist]. congruence.
  - apply find_none with (x := Vmodio (at_ d (vp_lun p)) (at_ d (vp_base_address p)) va (vmodio_irq_shift (at_ d (vp_irq p)) <$> [0; 1; 2; 3])) in Ef.
    + cbn in Ef. by rewrite Z.eqb_refl in Ef.
    + apply list_elem_of_In. by eapply list_elem_of_lookup_2.
Qed.

(** A register of a module in a slot of a board. *)
Lemma module_reaches p s s' other q devs k d : params_ok p -> sane s -> reg_ok (vs_r s) ->
  vmodio_init table isr gas risr e p s = Some (0, s') ->
  read_params (call_gas s' other) (vs_r s') q no_vmods = (0, devs) -> NoDup (p_lun q) -> (k < length (p_lun q))%nat ->
  nth k (p_carrier q) EmptyString = VMODIO_NAME -> 0 <= d < Z.of_nat (length (vp_lun p)) -> nth k (p_carrier_number q) 0 = at_ d (vp_lun p) ->
  let j := nth k (p_slot q) 0 in
  0 <= j < VMODIO_SLOTS /\
  exists m, (forall errno, vmod_open errno devs (nth k (p_lun q) 0) = (0, Some (Z.of_nat k))) /\ module_at devs (Z.of_nat k) = Some m /\
    Z.of_nat k < num_modules devs /\ is_big_endian m = 1 /\
    forall off, 0 <= off < 0x200 -> reaches (vs_w s') (u32 (address m + off)) (at_ d (vp_base_address p) + 0x200 * j + off).
Proof.
  intros Hp Hs Hreg Ei Er Hnd Hk Hc Hd Hl j.
  destruct (init_spec table isr gas risr isr_nz e kc_ok intr_ok p s s' Hp Hs Ei) as (Hs' & En & Hlt & _ & Ereg & Hb).
  destruct (board_found s' p d (Hb d Hd) Hp Hd En Hb) as (va & irqs & Hdev & Hm).
  destruct (module_opens (call_gas s' other) ENODEV (vs_r s') q devs k Er Hnd Hk) as (m & _ & Hat & Hkn & Hset).
  assert (modulbus_carrier_as_entry VMODIO_NAME (vs_r s') = gas) as Hgas.
  { pose proof (register_spec VMODIO_NAME gas risr (vs_r s) Hreg ltac:(unfold DRIVER_NAME_MAX_LENGTH; cbn; lia)) as Hr. rewrite Ereg in Hr.
    destruct Hr as (_ & _ & Hr). destruct (bool_decide _); [|by destruct Hr]. destruct Hr as (_ & _ & Hr).
    destruct (carrier_entries VMODIO_NAME (vs_r s')) as [-> _]. by rewrite Hr, bool_decide_true. }
  unfold set_module_params in Hset. rewrite Hc, Hl, Hgas in Hset. fold j in Hset. destruct (nth k (p_lun q) 0 <? 0); [done|].
  destruct (gas =? 0); [done|]. unfold call_gas in Hset. rewrite Z.eqb_refl in Hset. unfold vmodio_get_address_space in Hset.
  change VMODIO_SLOTS with 4 in *. cbn [negb Z.eqb Pos.eqb] in Hset. rewrite Hdev in Hset. cbn [mbind option_bind vi_vaddr] in Hset.
  destruct ((j <? 0) || (4 <=? j)) eqn:Ej; [done|]. boolp.
  assert (nth (Z.to_nat j) vmodio_offsets 0 = 0x200 * j) as Eoff by (assert (j = 0 \/ j = 1 \/ j = 2 \/ j = 3) as [->|[->|[->| ->]]] by lia; done).
  rewrite Eoff in Hset. cbn [mbind option_bind as_address as_is_big_endian] in Hset. injection Hset as <-.
  split; [lia|]. eexists. split; [|split; [exact Hat|]].
  { intros errno. destruct (module_opens (call_gas s' other) errno (vs_r s') q devs k Er Hnd Hk) as (m' & Ho & _). exact Ho. }
  split; [done|]. split; [done|]. intros off Hoff. cbn [address]. rewrite u32_add_l.
  rewrite <- Z.add_assoc, <- (Z.add_assoc (at_ _ _)). apply (mapped_range_reaches _ _ _ VMODIO_WINDOW_LENGTH); [done|]. change VMODIO_WINDOW_LENGTH with 0x800. lia.
Qed.

End Carrier.

(** C38: after a successful initialisation of the carrier and of the parameters
    of a mezzanine driver, with distinct module numbers, the module of every
    number in a slot of a board opens, and an output to one of its two channels
    is one write (12 bits), or one write of the value and one of the load
    register (16 bits), at addresses that the bridge translates to the VME
    address of the board plus 0x200 per slot plus the register of the channel. *)
Theorem vmod_output_reaches_slot {H : Type} `{!WindowHw H} `{!WindowHwOk H} (table isr gas risr : Z) e p (s s' : vsys H) other q devs k d :
  isr <> 0 -> (forall i, kenv_ok (ve_kc e i)) -> (forall i n, ve_intr e i n <= 0) ->
  params_ok p -> sane s -> reg_ok (vs_r s) ->
  vmodio_init table isr gas risr e p s = Some (0, s') ->
  read_params (call_gas gas s' other) (vs_r s') q no_vmods = (0, devs) -> NoDup (p_lun q) -> (k < length (p_lun q))%nat ->
  nth k (p_carrier q) EmptyString = VMODIO_NAME -> 0 <= d < Z.of_nat (length (vp_lun p)) -> nth k (p_carrier_number q) 0 = at_ d (vp_lun p) ->
  let slot_address := at_ d (vp_base_address p) + 0x200 * nth k (p_slot q) 0 in
  vmod12a2_open devs (nth k (p_lun q) 0) = (0, Some (Z.of_nat k)) /\
  vmod16a2_open devs (nth k (p_lun q) 0) = (0, Some (Z.of_nat k)) /\
  forall channel value, channel = 0 \/ channel = 1 ->
    (exists a, vmod12a2_ioctl true (VMOD12A2_IOCPUT channel value) devs (Z.of_nat k) = Some (0, [W16 a (u16 value) true]) /\
       reaches (vs_w s') a (slot_address + 2 * channel)) /\
    (exists a b, vmod16a2_ioctl true (VMOD16A2_IOCPUT channel value) devs (Z.of_nat k) = Some (0, [W16 a (u16 value) true; W16 b (u16 value) true]) /\
       reaches (vs_w s') a (slot_address + 2 * channel) /\ reaches (vs_w s') b (slot_address + 4 + 2 * channel)).
Proof.
  intros Hisr Hkc Hintr Hp Hs Hreg Ei Er Hnd Hk Hc Hd Hl slot_address.
  destruct (module_reaches table isr gas risr Hisr e Hkc Hintr p s s' other q devs k d Hp Hs Hreg Ei Er Hnd Hk Hc Hd Hl)
    as (Hj & m & Hopen & Hat & _ & _ & Hreach).
  split; [apply Hopen|]. split; [apply Hopen|]. intros channel value Hch.
  assert (forall off, 0 <= off < 0x200 -> reaches (vs_w s') (u32 (address m + off)) (slot_address + off)) as Hr by apply Hreach.
  destruct Hch as [-> | ->]; split.
  - exists (u32 (address m + 0)). split; [cbn; unfold vmod12a2_do_iocput; by rewrite Hat|]. by apply Hr.
  - exists (u32 (address m + 0)), (u32 (address m + 4)). split; [cbn; unfold vmod16a2_do_output; by rewrite Hat|].
    split; [by apply Hr|]. rewrite Z.add_0_r. by apply Hr.
  - exists (u32 (address m + 2)). split; [cbn; unfold vmod12a2_do_iocput; by rewrite Hat|]. by apply Hr.
  - exists (u32 (address m + 2)), (u32 (address m + 6)). split; [cbn; unfold vmod16a2_do_output; by rewrite Hat|].
    split; [by apply Hr|]. replace (slot_address + 4 + 2 * 1) with (slot_address + 6) by lia. by apply Hr.
Qed.

(** ** Analog inputs *)

Section Adc.
Variable world : list ioev -> Z -> Z.

Definition polls (n : nat) (regs : Z) : list ioev := replicate n (R16 (u32 (regs + VMOD_12E16_ADC_RDY)) true).

(** Poll [n] after [log] finds the converter busy. *)
Definition busy (log : list ioev) (regs : Z) (n : nat) : Prop :=
  Z.land (world (log ++ polls n regs) (u32 (regs + VMOD_12E16_ADC_RDY))) VMOD_12E16_RDY_BIT <> 0.

Lemma polls_S n regs log : (log ++ [R16 (u32 (regs + VMOD_12E16_ADC_RDY)) true]) ++ polls n regs = log ++ polls (S n) regs.
Proof. by rewrite <- app_assoc. Qed.

Definition value_read (log : list ioev) (regs : Z) : Z := Z.land (world log (u32 (regs + VMOD_12E16_ADC_DATA))) VMOD_12E16_ADC_DATA_MASK.

Lemma wait_conversion_spec regs m : forall fuel log us, (m < fuel)%nat -> us + 2 * Z.of_nat m = 30 ->
  (exists n, (n < m)%nat /\ (forall i, (i < n)%nat -> busy log regs i) /\ ~ busy log regs n /\
     wait_conversion world fuel us regs log =
       Some (Some (value_read (log ++ polls (S n) regs) regs), (log ++ polls (S n) regs) ++ [R16 (u32 (regs + VMOD_12E16_ADC_DATA)) true])) \/
  ((forall i, (i < m)%nat -> busy log regs i) /\ wait_conversion world fuel us regs log = Some (None, log ++ polls m regs)).
Proof.
  induction m as [|m IH]; intros [|fuel] log us Hf Hus; try lia; cbn [wait_conversion]; change VMOD_12E16_MAX_CONVERSION_TIME with 30.
  - right. destruct (Z.leb_spec 30 us); [|lia]. split; [lia|]. by rewrite app_nil_r.
  - destruct (Z.leb_spec 30 us); [lia|]. set (ready := u32 (regs + VMOD_12E16_ADC_RDY)).
    set (log1 := log ++ [R16 ready true]).
    assert (log1 = log ++ polls 1 regs) as E1 by done.
    destruct (Z.eqb_spec (Z.land (world log ready) VMOD_12E16_RDY_BIT) 0) as [Hr|Hb].
    + left. exists 0%nat. split; [lia|]. split; [lia|]. split; [unfold busy; rewrite app_nil_r; intros Hn; by apply Hn|done].
    + assert (busy log regs 0) as Hb0 by (unfold busy; by rewrite app_nil_r).
      assert (forall i, busy log1 regs i -> busy log regs (S i)) as Hs by (intros i; unfold busy, log1, ready; by rewrite polls_S).
      assert (forall i, busy log regs (S i) -> busy log1 regs i) as Hs' by (intros i; unfold busy, log1, ready; by rewrite polls_S).
      destruct (IH fuel log1 (us + 2) ltac:(lia) ltac:(lia)) as [(n & Hn & Hall & Hnot & E)|[Hall E]].
      * left. exists (S n). split; [lia|]. split; [intros [|i] Hi; [done|apply Hs, Hall; lia]|]. split; [intros Hb'; by apply Hnot, Hs'|].
        change VMOD_12E16_CONVERSION_TIME with 2. rewrite E. unfold log1, ready. by rewrite polls_S.
      * right. split; [intros [|i] Hi; [done|apply Hs, Hall; lia]|].
        change VMOD_12E16_CONVERSION_TIME with 2. rewrite E. unfold log1, ready. by rewrite polls_S.
Qed.

(** A conversion with valid arguments ends: with the data the converter gives
    after the first of at most fifteen polls that finds it ready, or with a
    timeout when all fifteen find it busy.  The semaphore is given back. *)
Lemma conversion_spec devs idx m c log : vmod12e16_dev devs idx = Some m -> 0 <= amplification c < 4 -> 0 <= channel c < 16 ->
  let regs := address m in
  let log1 := log ++ [W16 (u32 (regs + VMOD_12E16_INTERRUPT)) 0x8000 true; W16 (u32 (regs + VMOD_12E16_CONTROL)) (16 * amplification c + channel c) true] in
  exists rc c' log' sem, do_conversion world false devs idx c log = Some (rc, c', log', sem) /\ balanced sem /\
  ((rc = 0 /\ exists n, (n < 15)%nat /\ (forall i, (i < n)%nat -> busy log1 regs i) /\ ~ busy log1 regs n /\
      data c' = value_read (log1 ++ polls (S n) regs) regs /\ 0 <= data c' < 4096) \/
   (rc = - ETIME /\ c' = c /\ (forall i, (i < 15)%nat -> busy log1 regs i) /\ log' = log1 ++ polls 15 regs)).
Proof.
  intros Hm Ha Hc regs log1. unfold do_conversion. rewrite Hm. cbn [mbind option_bind]. fold regs.
  assert (forall x k, 0 < k -> 0 <= x < 2 ^ k -> Z.land x (Z.lnot (Z.shiftl 1 k - 1)) = 0) as Hmask.
  { intros x k Hk Hx. rewrite Z.shiftl_1_l, <- Z.ldiff_land.
    replace (2 ^ k - 1) with (Z.ones k) by (rewrite Z.ones_equiv; lia). apply Z.ldiff_ones_r_low; [lia|].
    destruct (Z.eq_dec x 0) as [->|]; [cbn; lia|]. apply Z.log2_lt_pow2; lia. }
  rewrite (Hmask (amplification c) 2), (Hmask (channel c) 4) by lia. cbn [negb orb Z.eqb].
  assert (u16 (Z.lor (Z.shiftl (amplification c) 4) (channel c)) = 16 * amplification c + channel c) as ->.
  { rewrite Z.shiftl_mul_pow2, lor_add by lia. unfold u16. rewrite Z.mod_small by lia. lia. }
  rewrite <- app_assoc. change ([?a] ++ [?b]) with [a; b]. change VMOD_12E16_ADC_INTERRUPT_MASK with 0x8000. cbn [app]. fold log1.
  destruct (wait_conversion_spec regs 15 16 log1 0 ltac:(lia) ltac:(lia)) as [(n & Hn & Hall & Hnot & ->)|[Hall ->]]; cbn [mbind option_bind].
  - do 4 eexists. split; [reflexivity|]. split; [apply balanced_pair|]. left. split; [done|]. exists n. split_and!; try done.
    + apply Z.land_nonneg. right. done.
    + cbn [data]. pose proof (land_bound_r (world (log1 ++ polls (S n) regs) (u32 (regs + VMOD_12E16_ADC_DATA))) VMOD_12E16_ADC_DATA_MASK ltac:(done)) as Hb.
      unfold value_read. change VMOD_12E16_ADC_DATA_MASK with 4095 in *. lia.
  - do 4 eexists. split; [reflexivity|]. split; [apply balanced_pair|]. right. by split_and!.
Qed.

End Adc.
