(* ===== verification/VmodTtl.v ===== *)
(** * The VMOD-TTL driver and library

    [vmod/driver/vmodttldrvr.c] drives twenty digital lines behind a Zilog Z8536
    ([cio8536.h]): ports A and B of eight bits and port C, which the driver uses
    for a strobe.  [vmod/lib/libvmodttl.c] is its user library.

    The registers of the Z8536 share one address: in state 0 a write selects a
    register, in state 1 a write or a read goes to it, and either returns to
    state 0, where a read is of the register selected last.  Setting bit 0 of
    MICR enters the reset state, which a write with this bit clear leaves. *)

From stdpp Require Import strings.
From S2P Require Import Prelude Modulbus Vmod.

(** ** The chip *)

Definition VMODTTL_PORTC : Z := 0.
Definition VMODTTL_PORTB : Z := 2.
Definition VMODTTL_PORTA : Z := 4.
Definition VMODTTL_CONTROL : Z := 6.

Definition MICR : Z := 0x00.
Definition MCCR : Z := 0x01.
Definition RESET : Z := 0x01.
Definition NV : Z := 0x20.
Definition MIE : Z := 0x80.
Definition PAE : Z := 0x04.
Definition PCE : Z := 0x10.
Definition PBE : Z := 0x80.
Definition PMSR_A : Z := 0x20.
Definition PMSR_B : Z := 0x28.
Definition PCSR_A : Z := 0x08.
Definition PCSR_B : Z := 0x09.
Definition CLEAR_IP_IUS : Z := 0x20.
Definition CLEAR_IE : Z := 0xe0.
Definition DPPR_A : Z := 0x22.
Definition DPPR_B : Z := 0x2a.
Definition DPPR_C : Z := 0x05.
Definition DDR_A : Z := 0x23.
Definition DDR_B : Z := 0x2b.
Definition DDR_C : Z := 0x06.
Definition SIOCR_A : Z := 0x24.
Definition SIOCR_B : Z := 0x2c.
Definition SIOCR_C : Z := 0x07.

Inductive cio_state := State0 | State1 | ResetState.

(** What leaves the card: values on a port, and the time they stay. *)
Inductive portev := PortW (port v : Z) | Delay (us : Z).

Record cio := Cio {
  c_state : cio_state;
  c_pointer : Z;
  c_regs : gmap Z Z;
  c_ports : list portev;
  c_time : nat;
}.

Definition cio_reg (r : Z) (c : cio) : Z := default 0 (c_regs c !! r).

Definition cio_write (off v : Z) (c : cio) : cio :=
  let v := u8 v in
  if off =? VMODTTL_CONTROL then
    match c_state c with
    | State0 => Cio State1 (Z.land v 0x3f) (c_regs c) (c_ports c) (c_time c)
    | State1 =>
        if (c_pointer c =? MICR) && Z.testbit v 0 then Cio ResetState 0 {[ MICR := RESET ]} (c_ports c) (c_time c)
        else Cio State0 (c_pointer c) (<[c_pointer c := v]> (c_regs c)) (c_ports c) (c_time c)
    | ResetState =>
        if Z.testbit v 0 then c else Cio State0 MICR {[ MICR := v ]} (c_ports c) (c_time c)
    end
  else Cio (c_state c) (c_pointer c) (c_regs c) (c_ports c ++ [PortW off v]) (c_time c).

Definition cio_delay (us : Z) (c : cio) : cio := Cio (c_state c) (c_pointer c) (c_regs c) (c_ports c ++ [Delay us]) (c_time c).

Section Chip.

(** What the lines of a port, and the upper byte of any word, are at a time. *)
Variable world : nat -> Z -> Z.

Definition cio_read (off : Z) (c : cio) : Z * cio :=
  let w := u16 (world (c_time c) off) in
  if off =? VMODTTL_CONTROL then
    let st := match c_state c with ResetState => ResetState | _ => State0 end in
    (Z.lor (Z.land w 0xff00) (cio_reg (c_pointer c) c), Cio st (c_pointer c) (c_regs c) (c_ports c) (S (c_time c)))
  else (w, Cio (c_state c) (c_pointer c) (c_regs c) (c_ports c) (S (c_time c))).

(** ** The device *)

Definition A_CHAN_OUT : Z := 0x01.
Definition B_CHAN_OUT : Z := 0x02.
Definition C_CHAN_OUT : Z := 0x04.
Definition VMODTTL_O : Z := 0x08.
Definition A_CHAN_IN : Z := 0x00.
Definition B_CHAN_IN : Z := 0x00.
Definition A_CHAN_OPEN_COLLECTOR : Z := 0x01.
Definition B_CHAN_OPEN_COLLECTOR : Z := 0x02.
Definition C_CHAN_OPEN_COLLECTOR : Z := 0x04.
Definition DEFAULT_DELAY : Z := 1.
Definition NR_BITS : nat := 8.

Record vmodttl_pattern := Pattern { p_port : Z; p_pos : Z; p_ptr : Z; p_pmr : Z; p_ppr : Z }.

Record vmodttlconfig := Ttlconfig {
  cf_io_flag : Z;
  cf_us_pulse : Z;
  cf_open_collector : Z;
  cf_invert : Z;
  cf_pattern_mode_a : Z;
  cf_pattern_mode_b : Z;
  cf_bit_pattern_a : list vmodttl_pattern;
  cf_bit_pattern_b : list vmodttl_pattern;
}.

Definition no_pattern : vmodttl_pattern := Pattern 0 0 0 0 0.
Definition no_config : vmodttlconfig := Ttlconfig 0 0 0 0 0 0 (replicate NR_BITS no_pattern) (replicate NR_BITS no_pattern).

Record vmodttl_dev := Vmodttl_dev {
  OpenCount : Z;
  io_flag : Z;
  us_pulse : Z;
  open_collector : Z;
  ioconfig : vmodttlconfig;
  t_config : vmod_dev;
  t_chip : cio;
  t_log : list kev;
}.

Definition KTTL : Z := 0.       (* vmodttl_spinlock *)

Definition on_chip (f : cio -> cio) (d : vmodttl_dev) : vmodttl_dev :=
  Vmodttl_dev (OpenCount d) (io_flag d) (us_pulse d) (open_collector d) (ioconfig d) (t_config d) (f (t_chip d)) (t_log d).
Definition ttl_log (e : kev) (d : vmodttl_dev) : vmodttl_dev :=
  Vmodttl_dev (OpenCount d) (io_flag d) (us_pulse d) (open_collector d) (ioconfig d) (t_config d) (t_chip d) (t_log d ++ [e]).
Definition set_open_count (n : Z) (d : vmodttl_dev) : vmodttl_dev :=
  Vmodttl_dev n (io_flag d) (us_pulse d) (open_collector d) (ioconfig d) (t_config d) (t_chip d) (t_log d).
Definition set_modes (flag pulse oc : Z) (d : vmodttl_dev) : vmodttl_dev :=
  Vmodttl_dev (OpenCount d) flag pulse oc (ioconfig d) (t_config d) (t_chip d) (t_log d).
Definition set_ioconfig (c : vmodttlconfig) (d : vmodttl_dev) : vmodttl_dev :=
  Vmodttl_dev (OpenCount d) (io_flag d) (us_pulse d) (open_collector d) c (t_config d) (t_chip d) (t_log d).

(** Of the two accessors the one that delivers the word to the card is used. *)
Definition vmodttl_write_word (offset value : Z) (d : vmodttl_dev) : vmodttl_dev := on_chip (cio_write offset (u16 value)) d.

Definition vmodttl_read_word (offset : Z) (d : vmodttl_dev) : Z * vmodttl_dev :=
  let '(v, c) := cio_read offset (t_chip d) in (v, on_chip (fun _ => c) d).

(** Select a register, then write it. *)
Definition put_reg (d : vmodttl_dev) (x : Z * Z) : vmodttl_dev :=
  vmodttl_write_word VMODTTL_CONTROL x.2 (vmodttl_write_word VMODTTL_CONTROL x.1 d).

(** ** Configuration *)

Definition has (x m : Z) : bool := Z.land x m =? m.

(** Direction and polarity of a port. *)
Definition port_regs (ddr dppr : Z) (oc out inv : bool) : list (Z * Z) :=
  if oc then
    if out then [(ddr, 0x00); (dppr, 0x00)] else [(ddr, 0xff); (dppr, if inv then 0xff else 0x00)]
  else
    [(ddr, if out then 0x00 else 0xff); (dppr, if inv then 0xff else 0x00)].

Definition def_io_regs (flag oc : Z) : list (Z * Z) :=
  let inv := truthy (Z.land flag VMODTTL_O) in
  [(MCCR, 0)] ++
  [(PCSR_A, CLEAR_IE); (PCSR_A, CLEAR_IP_IUS); (PMSR_A, 0x14)] ++
  port_regs DDR_A DPPR_A (has oc A_CHAN_OPEN_COLLECTOR) (truthy (Z.land flag A_CHAN_OUT)) inv ++
  [(SIOCR_A, 0x00)] ++
  [(PCSR_B, CLEAR_IE); (PCSR_B, CLEAR_IP_IUS); (PMSR_B, 0x14)] ++
  port_regs DDR_B DPPR_B (has oc B_CHAN_OPEN_COLLECTOR) (truthy (Z.land flag B_CHAN_OUT)) inv ++
  [(SIOCR_B, 0x00)] ++
  (if has oc C_CHAN_OPEN_COLLECTOR then [(DDR_C, 0x00); (DPPR_C, 0x00)]
   else [(DDR_C, 0x00); (DPPR_C, if inv then 0x0f else 0x00)]) ++
  [(SIOCR_C, 0x00)].

Definition vmodttl_def_io (d : vmodttl_dev) : vmodttl_dev :=
  let d := fold_left put_reg (def_io_regs (io_flag d) (open_collector d)) d in
  let d := vmodttl_write_word VMODTTL_CONTROL MCCR d in
  let '(r, d) := vmodttl_read_word VMODTTL_CONTROL d in
  let tmp := u8 (Z.lor (Z.lor (Z.lor r PAE) PBE) PCE) in
  let d := vmodttl_write_word VMODTTL_CONTROL MCCR d in
  vmodttl_write_word VMODTTL_CONTROL tmp d.

Definition vmodttl_default (d : vmodttl_dev) : vmodttl_dev :=
  let d := ttl_log (Acq KTTL 0) d in
  let '(_, d) := vmodttl_read_word VMODTTL_CONTROL d in
  let d := put_reg d (MCCR, 0) in
  let d := vmodttl_write_word VMODTTL_CONTROL MICR d in
  let '(_, d) := vmodttl_read_word VMODTTL_CONTROL d in
  let d := put_reg d (MICR, 0) in
  let d := put_reg d (MICR, RESET) in
  let d := vmodttl_write_word VMODTTL_CONTROL 0 d in
  let d := vmodttl_def_io d in
  let d := vmodttl_write_word VMODTTL_CONTROL MICR d in
  let '(r, d) := vmodttl_read_word VMODTTL_CONTROL d in
  let i := Z.lor (Z.lor r MIE) NV in
  let d := put_reg d (MICR, i) in
  ttl_log (Rel KTTL 0) d.

Definition vmodttl_config (conf : vmodttlconfig) (d : vmodttl_dev) : Z * vmodttl_dev :=
  let d := ttl_log (Acq KTTL 0) d in
  if (A_CHAN_OUT + B_CHAN_OUT + C_CHAN_OUT <? cf_io_flag conf) || (cf_io_flag conf <? 0)
  then (- EINVAL, ttl_log (Rel KTTL 0) d) else
  let pulse := if cf_us_pulse conf <? DEFAULT_DELAY then DEFAULT_DELAY else cf_us_pulse conf in
  let flag := if truthy (cf_invert conf) then Z.lor (cf_io_flag conf) VMODTTL_O else cf_io_flag conf in
  let d := set_modes flag pulse (cf_open_collector conf) d in
  (0, ttl_log (Rel KTTL 0) (vmodttl_def_io d)).

(** ** Input and output *)

Definition VMOD_TTL_CHANNEL_A : Z := 0.
Definition VMOD_TTL_CHANNEL_B : Z := 1.
Definition VMOD_TTL_CHANNELS_AB : Z := 2.

(** The pulse on port C. *)
Definition strobe (v : Z) (d : vmodttl_dev) : vmodttl_dev :=
  let d := vmodttl_write_word VMODTTL_PORTC v d in
  let d := on_chip (cio_delay (us_pulse d)) d in
  vmodttl_write_word VMODTTL_PORTC 0 d.

Definition vmodttl_read_chan (dev : Z) (d : vmodttl_dev) : Z * vmodttl_dev :=
  let d := ttl_log (Acq KTTL 0) d in
  let '(val, sv, d) :=
    if dev =? VMOD_TTL_CHANNEL_A then let '(v, d) := vmodttl_read_word VMODTTL_PORTA d in (v, 0x04, d)
    else if dev =? VMOD_TTL_CHANNEL_B then let '(v, d) := vmodttl_read_word VMODTTL_PORTB d in (v, 0x08, d)
    else if dev =? VMOD_TTL_CHANNELS_AB then
      let '(va, d) := vmodttl_read_word VMODTTL_PORTA d in
      let '(vb, d) := vmodttl_read_word VMODTTL_PORTB d in
      (Z.land va 0x00ff + Z.shiftl (Z.land vb 0x00ff) 8, 0, d)
    else (0, 0, d) in
  (val, ttl_log (Rel KTTL 0) (strobe sv d)).

(** Read MCCR. *)
Definition get_mccr (d : vmodttl_dev) : Z * vmodttl_dev :=
  vmodttl_read_word VMODTTL_CONTROL (vmodttl_write_word VMODTTL_CONTROL MCCR d).

Definition vmodttl_write_chan (dev val : Z) (d : vmodttl_dev) : Z * vmodttl_dev :=
  let data := u16 val in
  if (dev <? VMOD_TTL_CHANNEL_A) || (VMOD_TTL_CHANNELS_AB <? dev) then (- EINVAL, d) else
  let d := ttl_log (Acq KTTL 0) d in
  let a_in := Z.land (io_flag d) A_CHAN_OUT =? A_CHAN_IN in
  let b_in := Z.land (io_flag d) B_CHAN_OUT =? B_CHAN_IN in
  let done sv d := (0, ttl_log (Rel KTTL 0) (strobe sv d)) in
  if dev =? VMOD_TTL_CHANNEL_A then
    if a_in then (- EIO, ttl_log (Rel KTTL 0) d) else
    let '(tmp, d) := get_mccr (vmodttl_write_word VMODTTL_PORTA data d) in
    done 0x01 (put_reg d (MCCR, Z.lor tmp PAE))
  else if dev =? VMOD_TTL_CHANNEL_B then
    if b_in then (- EIO, ttl_log (Rel KTTL 0) d) else
    let '(tmp, d) := get_mccr (vmodttl_write_word VMODTTL_PORTB data d) in
    done 0x02 (put_reg d (MCCR, Z.lor tmp PBE))
  else
    if b_in || a_in then (- EIO, ttl_log (Rel KTTL 0) d) else
    let '(_, d) := get_mccr (vmodttl_write_word VMODTTL_PORTA (Z.land data 0xff) d) in
    let '(tmp, d) := get_mccr (vmodttl_write_word VMODTTL_PORTB (Z.land (Z.shiftr data 8) 0xff) d) in
    done 0x03 (put_reg d (MCCR, Z.lor (Z.lor tmp PAE) PBE)).

(** ** The ioctls *)

Inductive ttlcmd :=
  | VMODTTL_CONFIG (conf : vmodttlconfig)
  | VMODTTL_READ_CONFIG
  | VMODTTL_SIMPIO
  | VMODTTL_PATTERN (buf : vmodttl_pattern)
  | VMODTTL_READ_CHAN (dev : Z)
  | VMODTTL_WRITE_CHAN (dev val : Z)
  | VMODTTL_OTHER.

Inductive ttlout := TNone | TConfig (c : vmodttlconfig) | TVal (v : Z).

(** [from] and [to]: the argument could be copied; [None] is a write outside
    the patterns of port A. *)
Definition vmodttl_dev_ioctl (from to : bool) (cm : ttlcmd) (d : vmodttl_dev) : option (Z * ttlout * vmodttl_dev) :=
  match cm with
  | VMODTTL_CONFIG conf =>
      if negb from then Some (- EFAULT, TNone, d) else
      let '(ret, d) := vmodttl_config conf (set_ioconfig conf d) in
      Some (ret, TNone, d)
  | VMODTTL_READ_CONFIG => if negb to then Some (- EFAULT, TNone, d) else Some (0, TConfig (ioconfig d), d)
  | VMODTTL_SIMPIO => Some (0, TNone, vmodttl_def_io d)
  | VMODTTL_PATTERN buf =>
      if negb from then Some (- EFAULT, TNone, d) else
      let c := ioconfig d in
      if Z.of_nat NR_BITS <=? u8 (p_pos buf) then None else
      let pa := <[Z.to_nat (u8 (p_pos buf)) := buf]> (cf_bit_pattern_a c) in
      Some (0, TNone, set_ioconfig (Ttlconfig (cf_io_flag c) (cf_us_pulse c) (cf_open_collector c) (cf_invert c)
                                      (cf_pattern_mode_a c) (cf_pattern_mode_b c) pa (cf_bit_pattern_b c)) d)
  | VMODTTL_READ_CHAN dev =>
      if negb from then Some (- EIO, TNone, d) else
      if VMOD_TTL_CHANNELS_AB <? Z.land dev 0x00ff then Some (- EINVAL, TNone, d) else
      let '(val, d) := vmodttl_read_chan dev d in
      if negb to then Some (- EFAULT, TNone, d) else Some (0, TVal val, d)
  | VMODTTL_WRITE_CHAN dev val =>
      if negb from then Some (- EIO, TNone, d) else
      let '(ret, d) := vmodttl_write_chan dev val d in Some (ret, TNone, d)
  | VMODTTL_OTHER => Some (- EINVAL, TNone, d)
  end.

(** ** The devices of the driver *)

Definition VMODTTL_MAX_BOARDS : Z := 64.

(** [pvmodttlDv[]]: one pointer per minor number. *)
Notation ttls := (list (option vmodttl_dev)) (only parsing).

Definition ttl_at (t : ttls) (minor : Z) : option vmodttl_dev := default None (t !! Z.to_nat minor).
Definition ttl_set (minor : Z) (d : vmodttl_dev) (t : ttls) : ttls := <[Z.to_nat minor := Some d]> t.

(** [None]: a NULL pointer is used. *)
Definition vmodttl_drv_open (minor : Z) (t : ttls) : option ttls :=
  d ← ttl_at t minor; Some (ttl_set minor (set_open_count (OpenCount d + 1) d) t).

Definition vmodttl_drv_release (minor : Z) (t : ttls) : option ttls :=
  d ← ttl_at t minor; Some (ttl_set minor (set_open_count (OpenCount d - 1) d) t).

Definition vmodttl_ioctl (from to : bool) (minor : Z) (cm : ttlcmd) (t : ttls) : option (Z * ttlout * ttls) :=
  d ← ttl_at t minor;
  '(ret, out, d) ← vmodttl_dev_ioctl from to cm d;
  Some (ret, out, ttl_set minor d t).

Definition KPD : Z := 1.         (* a device *)
Definition KMESSAGES : Z := 2.   (* its list of messages *)
Definition KCDEV : Z := 3.
Definition KREGION : Z := 4.

(** The loop of [vmodttl_init()] over the modules; [alloc i]: the two
    allocations; [chip l]: the chip of module [l] as it is found. [None] is a
    write outside the table. *)
Fixpoint ttl_init_loop (alloc : nat -> bool * bool) (chip : Z -> cio) (mods : list vmod_dev) (i : nat) (t : ttls) (log : list kev)
  : option (bool * ttls * list kev) :=
  match mods with
  | [] => Some (true, t, log)
  | m :: mods =>
      if negb (fst (alloc i)) then Some (false, t, log) else
      if (lun m <? 0) || (VMODTTL_MAX_BOARDS <=? lun m) then None else
      let log := log ++ [Acq KPD (lun m)] in
      let pd := Vmodttl_dev 0 0 0 0 no_config m (chip (lun m)) [] in
      let t := ttl_set (lun m) pd t in
      if negb (snd (alloc i)) then Some (false, t, log) else
      let log := log ++ [Acq KMESSAGES (lun m)] in
      ttl_init_loop alloc chip mods (S i) (ttl_set (lun m) (vmodttl_default pd) t) log
  end.

(** On a failure in the loop the devices made so far stay allocated: the loop
    that should free them counts from [k = 0] while [k < k]. *)
Definition vmodttl_init (params : Z * vmod_devices) (chrdev cdev_add : bool) (alloc : nat -> bool * bool) (chip : Z -> cio)
  : option (Z * vmod_devices * ttls * list kev) :=
  let t := replicate 64 None in
  let '(err, devs) := params in
  if truthy err then Some (-1, devs, t, []) else
  if negb chrdev then Some (-1, devs, t, []) else
  let log := [Acq KREGION 0] in
  if negb cdev_add then Some (-1, devs, t, log ++ [Rel KREGION 0]) else
  let log := log ++ [Acq KCDEV 0] in
  '(ok, t, log) ← ttl_init_loop alloc chip (firstn (Z.to_nat (num_modules devs)) (module devs)) 0 t log;
  if ok : bool then Some (0, devs, t, log) else Some (-1, devs, t, log ++ [Rel KCDEV 0; Rel KREGION 0]).

(** [register_module_isr()]: the entry point and its arguments, if the carrier
    has one. *)
Definition register_module_isr (r : registry) (m : vmod_dev) (handler : Z) : option (Z * (Z * Z * Z)) :=
  let risr := modulbus_carrier_isr_entry (carrier_name m) r in
  if risr =? 0 then None else Some (risr, (handler, carrier_lun m, slot m)).

Definition unregister_module_isr (r : registry) (m : vmod_dev) : option (Z * (Z * Z * Z)) := register_module_isr r m 0.

(** The devices are looked for at the indices below the number of modules. The
    list of messages is empty, and its head is not freed. The second component
    is the handlers taken off. *)
Definition vmodttl_exit (r : registry) (devs : vmod_devices) (t : ttls) : list kev * list (option (Z * (Z * Z * Z))) :=
  let found := flat_map (fun i => match default None (t !! i) with Some d => [(Z.of_nat i, d)] | None => [] end)
                 (seq 0 (Z.to_nat (num_modules devs))) in
  (map (fun x => Rel KPD x.1) found ++ [Rel KCDEV 0; Rel KREGION 0], map (fun x => unregister_module_isr r (t_config x.2)) found).


(** ** The library *)

Definition CHAN_IN : Z := 0.
Definition CHAN_A : Z := 0.
Definition CHAN_B : Z := 1.
Definition NUM_BITS : Z := 8.

Definition OFF : Z := 0.
Definition ANY : Z := 1.
Definition ZERO : Z := 2.
Definition ONE : Z := 3.
Definition ONE_TO_ZERO : Z := 4.
Definition ZERO_TO_ONE : Z := 5.

(** [struct vmodttl_config]. *)
Record ttl_conf := Ttl_conf {
  dir_a : Z;
  dir_b : Z;
  inverting_logic : Z;
  conf_us_pulse : Z;
  mode_a : Z;
  mode_b : Z;
  mode_c : Z;
  pattern_mode_a : Z;
  pattern_mode_b : Z;
  conf_pattern_a : list Z;
  conf_pattern_b : list Z;
}.

(** The open files of the process and the devices behind them. *)
Record ttllib := Ttllib { luns_to_fd : list Z; k_files : gmap Z Z; k_ttls : list (option vmodttl_dev) }.

Definition set_fd (l fd : Z) (s : ttllib) : ttllib := Ttllib (<[Z.to_nat l := fd]> (luns_to_fd s)) (k_files s) (k_ttls s).
Definition set_files (f : gmap Z Z) (s : ttllib) : ttllib := Ttllib (luns_to_fd s) f (k_ttls s).
Definition set_ttls (t : list (option vmodttl_dev)) (s : ttllib) : ttllib := Ttllib (luns_to_fd s) (k_files s) t.

Definition fd_of (l : Z) (s : ttllib) : option Z := if (l <? 0) || (VMODTTL_MAX_BOARDS <=? l) then None else luns_to_fd s !! Z.to_nat l.

(** The calls of the C library: -1 on an error. *)
Definition sys_ioctl (fd : Z) (cm : ttlcmd) (s : ttllib) : option (Z * ttlout * ttllib) :=
  match k_files s !! fd with
  | None => Some (-1, TNone, s)
  | Some minor =>
      '(ret, out, t) ← vmodttl_ioctl true true minor cm (k_ttls s);
      Some (if ret <? 0 then -1 else ret, out, set_ttls t s)
  end.

(** [newfd]: what [open()] of the device file gives. *)
Definition vmodttl_open (l : Z) (newfd : option Z) (s : ttllib) : option (Z * ttllib) :=
  fd ← fd_of l s;
  if truthy fd then Some (fd, s) else
  match newfd with
  | None => Some (-1, s)
  | Some fd =>
      t ← vmodttl_drv_open l (k_ttls s);
      Some (0, set_fd l fd (set_files (<[fd := l]> (k_files s)) (set_ttls t s)))
  end.

Definition vmodttl_close (l : Z) (s : ttllib) : option (Z * ttllib) :=
  fd ← fd_of l s;
  match k_files s !! fd with
  | None => Some (-1, set_fd l 0 s)
  | Some minor =>
      t ← vmodttl_drv_release minor (k_ttls s);
      Some (0, set_fd l 0 (set_files (delete fd (k_files s)) (set_ttls t s)))
  end.

Definition vmodttl_write (l chan val : Z) (s : ttllib) : option (Z * ttllib) :=
  fd ← fd_of l s;
  '(ret, _, s) ← sys_ioctl fd (VMODTTL_WRITE_CHAN chan val) s;
  Some (if truthy ret then -1 else 0, s).

(** The second component is stored in [*val]. *)
Definition vmodttl_read (l chan : Z) (s : ttllib) : option (Z * option Z * ttllib) :=
  fd ← fd_of l s;
  '(ret, out, s) ← sys_ioctl fd (VMODTTL_READ_CHAN chan) s;
  if truthy ret then Some (-1, None, s) else
  let v := match out with TVal v => v | _ => 0 end in
  Some (0, Some (if chan =? VMOD_TTL_CHANNELS_AB then Z.land v 0xffff else Z.land v 0x00ff), s).

Definition vmodttl_get_from_bit_pattern (pmr ptr ppr : Z) : Z :=
  if (pmr =? 0) && (ptr =? 1) && (ppr =? 0) then ANY
  else if (pmr =? 1) && (ptr =? 0) && (ppr =? 0) then ZERO
  else if (pmr =? 1) && (ptr =? 0) && (ppr =? 1) then ONE
  else if (pmr =? 1) && (ptr =? 1) && (ppr =? 0) then ONE_TO_ZERO
  else if (pmr =? 1) && (ptr =? 1) && (ppr =? 1) then ZERO_TO_ONE
  else OFF.

(** The registers [pmr], [ptr] and [ppr] of a pattern. *)
Definition vmodttl_get_bit_pattern (bit_pattern : Z) : Z * Z * Z :=
  if bit_pattern =? ANY then (0, 1, 0)
  else if bit_pattern =? ZERO then (1, 0, 0)
  else if bit_pattern =? ONE then (1, 0, 1)
  else if bit_pattern =? ONE_TO_ZERO then (1, 1, 0)
  else if bit_pattern =? ZERO_TO_ONE then (1, 1, 1)
  else (0, 0, 0).

Definition vmodttl_set_pattern (l port pos bit_pattern : Z) (s : ttllib) : option (Z * ttllib) :=
  if (port <? VMOD_TTL_CHANNEL_A) || (VMOD_TTL_CHANNEL_B <? port) then Some (-1, s) else
  if (pos <? 0) || (NUM_BITS <=? pos) then Some (-1, s) else
  let '(pmr, ptr, ppr) := vmodttl_get_bit_pattern bit_pattern in
  fd ← fd_of l s;
  '(ret, _, s) ← sys_ioctl fd (VMODTTL_PATTERN (Pattern port pos ptr pmr ppr)) s;
  Some (if truthy ret then -1 else 0, s).

(** The loop of [vmodttl_io_config()] over the bits: both ports get the pattern
    of port A. *)
Fixpoint patterns_loop (l : Z) (conf : ttl_conf) (idx : list nat) (s : ttllib) : option ttllib :=
  match idx with
  | [] => Some s
  | i :: idx =>
      let p := nth i (conf_pattern_a conf) 0 in
      '(_, s) ← (if dir_a conf =? CHAN_IN then vmodttl_set_pattern l CHAN_A (Z.of_nat i) p s else Some (0, s));
      '(_, s) ← (if dir_b conf =? CHAN_IN then vmodttl_set_pattern l CHAN_B (Z.of_nat i) p s else Some (0, s));
      patterns_loop l conf idx s
  end.

(** [junk]: the patterns in the structure on the stack, which are not set. *)
Definition vmodttl_io_config (l : Z) (conf : ttl_conf) (junk : vmodttlconfig) (s : ttllib) : option (Z * ttllib) :=
  fd ← fd_of l s;
  let io_config := Z.land (dir_a conf) 0x01 + Z.shiftl (Z.land (dir_b conf) 0x01) 1 in
  let oc := mode_a conf + Z.shiftl (Z.land (mode_b conf) 0x01) 1 + Z.shiftl (Z.land (mode_c conf) 0x01) 2 in
  let c := Ttlconfig io_config (conf_us_pulse conf) oc (inverting_logic conf) (pattern_mode_a conf) (pattern_mode_b conf)
             (cf_bit_pattern_a junk) (cf_bit_pattern_b junk) in
  '(ret, _, s) ← sys_ioctl fd (VMODTTL_CONFIG c) s;
  if ret <? 0 then Some (ret, s) else
  s ← patterns_loop l conf (seq 0 NR_BITS) s;
  Some (0, s).

Definition decode_pattern (p : vmodttl_pattern) : Z := vmodttl_get_from_bit_pattern (p_pmr p) (p_ptr p) (p_ppr p).

(** [junk]: the structure on the stack, read when the ioctl fails. *)
Definition vmodttl_read_config (l : Z) (junk : vmodttlconfig) (s : ttllib) : option (Z * ttl_conf * ttllib) :=
  fd ← fd_of l s;
  '(ret, out, s) ← sys_ioctl fd VMODTTL_READ_CONFIG s;
  let c := match out with TConfig c => c | _ => junk end in
  let conf := Ttl_conf (Z.land (cf_io_flag c) 0x01) (Z.land (Z.shiftr (cf_io_flag c) 1) 0x01) (cf_invert c) (cf_us_pulse c)
    (Z.land (cf_open_collector c) 0x01) (Z.land (Z.shiftr (cf_open_collector c) 1) 0x01) (Z.land (Z.shiftr (cf_open_collector c) 2) 0x01)
    (cf_pattern_mode_a c) (cf_pattern_mode_b c) (decode_pattern <$> cf_bit_pattern_a c) (decode_pattern <$> cf_bit_pattern_b c) in
  Some (ret, conf, s).

Definition vmodttl_io_chan_config (l chan : Z) (conf : ttl_conf) (junk1 junk2 : vmodttlconfig) (s : ttllib) : option (Z * ttllib) :=
  '(_, c, s) ← vmodttl_read_config l junk1 s;
  if chan =? VMOD_TTL_CHANNEL_A then
    vmodttl_io_config l (Ttl_conf (dir_a conf) (dir_b c) (inverting_logic c) (conf_us_pulse c) (mode_a conf) (mode_b c) (mode_c c)
      (pattern_mode_a conf) (pattern_mode_b c) (conf_pattern_a conf) (conf_pattern_b c)) junk2 s
  else if chan =? VMOD_TTL_CHANNEL_B then
    vmodttl_io_config l (Ttl_conf (dir_a c) (dir_b conf) (inverting_logic c) (conf_us_pulse c) (mode_a c) (mode_b conf) (mode_c c)
      (pattern_mode_a c) (pattern_mode_b conf) (conf_pattern_a c) (conf_pattern_b conf)) junk2 s
  else if chan =? VMOD_TTL_CHANNELS_AB then vmodttl_io_config l conf junk2 s
  else Some (-1, s).

End Chip.
