(* ===== verification/VmodTtlInv.v ===== *)
(** * The VMOD-TTL driver keeps its chip configured

    Whatever state the chip is found in, initialisation leaves its pointer in
    state 0 and its registers as the driver's flags say; every ioctl keeps them
    so, drives the ports it should, and ends each strobe.  The library's
    configuration reads back. *)

From stdpp Require Import strings.
From S2P Require Import Prelude Modulbus Vmod VmodTtl.

(** ** Words and bytes *)

Lemma u8_u16 x : u8 (u16 x) = u8 x.
Proof. unfold u8, u16. change (2 ^ 16) with (2 ^ 8 * 2 ^ 8). rewrite Z.rem_mul_r by lia. rewrite Z.mul_comm, Z.mod_add by lia. apply Z.mod_mod. lia. Qed.

Lemma u8_id x : 0 <= x < 256 -> u8 x = x.
Proof. apply Z.mod_small. Qed.

Lemma u8_land_ff x : u8 (Z.land x 0xff) = u8 x.
Proof. change 0xff with (Z.ones 8). rewrite Z.land_ones by lia. apply Z.mod_mod. lia. Qed.

Lemma u8_bit0 x : Z.testbit (u8 x) 0 = Z.testbit x 0.
Proof. apply Z.mod_pow2_bits_low. lia. Qed.

(** The upper byte of a word does not reach a register. *)
Lemma u8_low w x : u8 (Z.lor (Z.land w 0xff00) x) = u8 x.
Proof.
  unfold u8. rewrite <- !(Z.land_ones _ 8) by lia. rewrite Z.land_lor_distr_l, <- Z.land_assoc.
  change (Z.land 0xff00 (Z.ones 8)) with 0. by rewrite Z.land_0_r, Z.lor_0_l.
Qed.

(** ** Writing a register *)

Section Chip.
Variable world : nat -> Z -> Z.
Implicit Types (d : vmodttl_dev) (c : cio).

(** Only the chip differs, and these words reached the ports. *)
Definition moves (l : list portev) d d' : Prop :=
  exists c, d' = on_chip (fun _ => c) d /\ c_ports c = c_ports (t_chip d) ++ l.

Lemma moves_refl d : moves [] d d.
Proof. exists (t_chip d). rewrite app_nil_r. by destruct d. Qed.

Lemma moves_trans l l' d1 d2 d3 : moves l d1 d2 -> moves l' d2 d3 -> moves (l ++ l') d1 d3.
Proof. intros (c1 & -> & E1) (c2 & -> & E2). exists c2. split; [done|]. cbn in *. by rewrite E2, E1, app_assoc. Qed.

Lemma moves_write v d : moves [] d (vmodttl_write_word VMODTTL_CONTROL v d).
Proof.
  eexists. split; [reflexivity|]. unfold cio_write. rewrite Z.eqb_refl, app_nil_r.
  destruct (c_state _); [done|by destruct (_ && _)|by destruct (Z.testbit _ _)].
Qed.

Lemma moves_read off d : moves [] d (snd (vmodttl_read_word world off d)).
Proof.
  unfold vmodttl_read_word. destruct (cio_read world off (t_chip d)) as [v c] eqn:E. eexists. split; [reflexivity|].
  unfold cio_read in E. rewrite app_nil_r. by destruct (off =? VMODTTL_CONTROL); injection E as <- <-.
Qed.

Definition ready d : Prop := c_state (t_chip d) = State0.

Lemma pointer_bits r : 0 <= r < 64 -> Z.land r 63 = r.
Proof. intros Hr. change 63 with (Z.ones 6). rewrite Z.land_ones by lia. by apply Z.mod_small. Qed.

Lemma put_reg_spec d r v : ready d -> 0 <= r < 64 -> (r = MICR -> Z.testbit v 0 = false) ->
  let d' := put_reg d (r, v) in
  ready d' /\ moves [] d d' /\ c_regs (t_chip d') = <[r := u8 v]> (c_regs (t_chip d)).
Proof.
  intros Hr Hx Hv. cbv zeta.
  split_and!; [|apply (moves_trans [] [] _ (vmodttl_write_word VMODTTL_CONTROL r d)); apply moves_write|];
    unfold ready in *; unfold put_reg, vmodttl_write_word, cio_write; cbn; rewrite Hr; cbn; rewrite !u8_u16, (u8_id r), pointer_bits by lia;
    (destruct (Z.eqb_spec r MICR) as [E|E]; cbn [andb]; [|done]);
    by rewrite <- Z.bit0_odd, u8_bit0, Hv.
Qed.

(** A register in reach of the pointer, and a byte that does not reset. *)
Definition plain_write (x : Z * Z) : Prop := 0 < x.1 < 64 /\ 0 <= x.2 < 256.

Lemma put_regs_spec l : forall d, ready d -> Forall plain_write l ->
  let d' := fold_left put_reg l d in
  ready d' /\ moves [] d d' /\ c_regs (t_chip d') = fold_left (fun m x => <[x.1 := x.2]> m) l (c_regs (t_chip d)).
Proof.
  induction l as [|[r v] l IH]; intros d Hr Hl; [split_and!; [done|apply moves_refl|done]|]. apply Forall_cons in Hl as [[Hx Hv] Hl]. cbn [fold_left fst snd] in *.
  destruct (put_reg_spec d r v Hr) as (Hr' & Hc & E); [lia|unfold MICR; lia|]. destruct (IH _ Hr' Hl) as (F1 & F2 & F3).
  split; [done|]. split; [by apply (moves_trans [] [] _ (put_reg d (r, v)))|]. by rewrite F3, E, u8_id.
Qed.

(** The last write to a register. *)
Definition last_write (r : Z) (l : list (Z * Z)) (old : Z) : Z := fold_left (fun v x => if x.1 =? r then x.2 else v) l old.

Lemma last_write_reg r l (m : gmap Z Z) : default 0 (fold_left (fun m x => <[x.1 := x.2]> m) l m !! r) = last_write r l (default 0 (m !! r : option Z)).
Proof.
  revert m. induction l as [|x l IH]; intros m; [done|]. cbn. rewrite IH. f_equal.
  destruct (Z.eqb_spec x.1 r) as [->|Hne]; [by rewrite lookup_insert_eq|by rewrite lookup_insert_ne].
Qed.

(** Select MCCR or MICR and read it. *)
Lemma select_read d r : ready d -> 0 <= r < 64 ->
  let d1 := vmodttl_write_word VMODTTL_CONTROL r d in
  let '(v, d2) := vmodttl_read_word world VMODTTL_CONTROL d1 in
  ready d2 /\ moves [] d d2 /\ c_regs (t_chip d2) = c_regs (t_chip d) /\ exists w, v = Z.lor (Z.land w 0xff00) (cio_reg r (t_chip d)).
Proof.
  intros Hr Hx. cbv zeta. destruct (vmodttl_read_word world _ _) as [v d2] eqn:E.
  assert (moves [] d d2) as Hm.
  { apply (moves_trans [] [] _ (vmodttl_write_word VMODTTL_CONTROL r d)); [apply moves_write|].
    replace d2 with (snd (vmodttl_read_word world VMODTTL_CONTROL (vmodttl_write_word VMODTTL_CONTROL r d))) by by rewrite E. apply moves_read. }
  unfold ready in *. unfold vmodttl_read_word, vmodttl_write_word, cio_write, cio_read in E. cbn in E. rewrite Hr in E. cbn in E.
  rewrite u8_u16, (u8_id r), pointer_bits in E by lia. injection E as <- <-. split_and!; [done|done|done|by eexists].
Qed.

Lemma port_regs_plain ddr dppr oc out inv : 0 < ddr < 64 -> 0 < dppr < 64 -> Forall plain_write (port_regs ddr dppr oc out inv).
Proof. intros H1 H2. unfold port_regs. destruct oc, out, inv; repeat constructor; cbn; lia. Qed.

Lemma def_io_plain flag oc : Forall plain_write (def_io_regs flag oc).
Proof.
  unfold def_io_regs. repeat (apply Forall_app; split); try (apply port_regs_plain; unfold DDR_A, DPPR_A, DDR_B, DPPR_B; lia);
    [| | | | |destruct (has _ _); [|destruct (truthy _)]|]; repeat constructor; cbn; unfold MCCR, PCSR_A, CLEAR_IE, CLEAR_IP_IUS, PMSR_A, SIOCR_A, PCSR_B, PMSR_B, SIOCR_B, SIOCR_C, DDR_C, DPPR_C; cbn; lia.
Qed.

(** ** The configuration in the chip *)

Definition direction (flag out : Z) : Z := if truthy (Z.land flag out) then 0x00 else 0xff.

Definition polarity (flag oc out m : Z) : Z :=
  if has oc m && truthy (Z.land flag out) then 0x00 else if truthy (Z.land flag VMODTTL_O) then 0xff else 0x00.

Definition port_values (flag oc : Z) : list (Z * Z) :=
  [(DDR_A, direction flag A_CHAN_OUT); (DPPR_A, polarity flag oc A_CHAN_OUT A_CHAN_OPEN_COLLECTOR); (PMSR_A, 0x14); (SIOCR_A, 0);
   (DDR_B, direction flag B_CHAN_OUT); (DPPR_B, polarity flag oc B_CHAN_OUT B_CHAN_OPEN_COLLECTOR); (PMSR_B, 0x14); (SIOCR_B, 0);
   (DDR_C, 0); (DPPR_C, if negb (has oc C_CHAN_OPEN_COLLECTOR) && truthy (Z.land flag VMODTTL_O) then 0x0f else 0); (SIOCR_C, 0)].

(** All ports enabled; interrupts enabled without a vector. *)
Definition MCCR_VALUE : Z := 0x94.
Definition MICR_VALUE : Z := 0xa0.

Definition ports_in_force d : Prop :=
  (forall x, x ∈ port_values (io_flag d) (open_collector d) -> cio_reg x.1 (t_chip d) = x.2) /\ cio_reg MCCR (t_chip d) = MCCR_VALUE.

Definition in_force d : Prop := ready d /\ ports_in_force d /\ cio_reg MICR (t_chip d) = MICR_VALUE.

Lemma port_values_written flag oc old x : x ∈ port_values flag oc -> last_write x.1 (def_io_regs flag oc) old = x.2.
Proof.
  intros Hx. unfold port_values, direction, polarity in Hx. unfold def_io_regs, port_regs.
  destruct (truthy (Z.land flag A_CHAN_OUT)), (truthy (Z.land flag B_CHAN_OUT)), (truthy (Z.land flag VMODTTL_O)), (has oc A_CHAN_OPEN_COLLECTOR),
    (has oc B_CHAN_OPEN_COLLECTOR), (has oc C_CHAN_OPEN_COLLECTOR);
    repeat (apply elem_of_cons in Hx as [->|Hx]; [reflexivity|]); by apply elem_of_nil in Hx.
Qed.

Lemma def_io_others flag oc old : last_write MCCR (def_io_regs flag oc) old = 0 /\ last_write MICR (def_io_regs flag oc) old = old.
Proof.
  unfold def_io_regs, port_regs.
  destruct (truthy (Z.land flag A_CHAN_OUT)), (truthy (Z.land flag B_CHAN_OUT)), (truthy (Z.land flag VMODTTL_O)), (has oc A_CHAN_OPEN_COLLECTOR),
    (has oc B_CHAN_OPEN_COLLECTOR), (has oc C_CHAN_OPEN_COLLECTOR); split; reflexivity.
Qed.

Lemma port_values_keys flag oc x : x ∈ port_values flag oc -> x.1 <> MCCR /\ x.1 <> MICR.
Proof.
  intros Hx. unfold port_values in Hx. repeat (apply elem_of_cons in Hx as [->|Hx]; [by split|]). by apply elem_of_nil in Hx.
Qed.

Lemma reg_insert r v c c' : c_regs c' = <[r := v]> (c_regs c) -> forall q, cio_reg q c' = if q =? r then v else cio_reg q c.
Proof.
  intros E q. unfold cio_reg. rewrite E. destruct (Z.eqb_spec q r) as [->|]; [by rewrite lookup_insert_eq|by rewrite lookup_insert_ne].
Qed.

Lemma moves_fields l d d' : moves l d d' -> io_flag d' = io_flag d /\ open_collector d' = open_collector d /\ us_pulse d' = us_pulse d /\
  t_log d' = t_log d /\ ioconfig d' = ioconfig d /\ c_ports (t_chip d') = c_ports (t_chip d) ++ l.
Proof. by intros (c & -> & E). Qed.

Lemma def_io_spec d : ready d -> let d' := vmodttl_def_io world d in
  ready d' /\ moves [] d d' /\ ports_in_force d' /\ cio_reg MICR (t_chip d') = cio_reg MICR (t_chip d).
Proof.
  intros Hr. unfold vmodttl_def_io. destruct (put_regs_spec (def_io_regs (io_flag d) (open_collector d)) d Hr (def_io_plain _ _)) as (Hr1 & Hc1 & E1).
  set (d1 := fold_left _ _ _) in *. pose proof (select_read d1 MCCR Hr1 ltac:(unfold MCCR; lia)) as H2. cbv zeta in H2 |- *.
  destruct (vmodttl_read_word world VMODTTL_CONTROL _) as [v d2]. destruct H2 as (Hr2 & Hc2 & E2 & w & ->).
  assert (cio_reg MCCR (t_chip d1) = 0) as E0 by (unfold cio_reg; rewrite E1, last_write_reg; apply def_io_others).
  rewrite E0. assert (u8 (Z.lor (Z.lor (Z.lor (Z.lor (Z.land w 65280) 0) PAE) PBE) PCE) = MCCR_VALUE) as -> by (rewrite <- !Z.lor_assoc; apply u8_low).
  destruct (put_reg_spec d2 MCCR MCCR_VALUE Hr2) as (Hr3 & Hc3 & E3); [unfold MCCR; lia|done|].
  set (d3 := put_reg d2 _) in *. change (vmodttl_write_word _ MCCR_VALUE _) with d3.
  assert (moves [] d d3) as Hc by exact (moves_trans [] [] _ _ _ Hc1 (moves_trans [] [] _ _ _ Hc2 Hc3)).
  split; [done|]. split; [done|]. pose proof (reg_insert _ _ _ _ E3) as Hreg. change (u8 MCCR_VALUE) with MCCR_VALUE in Hreg.
  assert (forall r, cio_reg r (t_chip d2) = last_write r (def_io_regs (io_flag d) (open_collector d)) (cio_reg r (t_chip d))) as Hlast
    by (intros r; unfold cio_reg; by rewrite E2, E1, last_write_reg).
  destruct (moves_fields _ _ _ Hc) as (Ef & Eo & _). split; [split|].
  - rewrite Ef, Eo. intros x Hx. destruct (port_values_keys _ _ _ Hx) as [Hk _]. rewrite Hreg, (proj2 (Z.eqb_neq _ _) Hk), Hlast.
    by apply port_values_written.
  - by rewrite Hreg, Z.eqb_refl.
  - rewrite Hreg. change (MICR =? MCCR) with false. cbv iota. rewrite Hlast. apply def_io_others.
Qed.

(** ** Initialisation *)

(** In whatever state the chip is, it leaves it for state 0. *)
Lemma wake_spec d : ready (put_reg (snd (vmodttl_read_word world VMODTTL_CONTROL d)) (MCCR, 0)).
Proof.
  unfold ready, put_reg, vmodttl_read_word, vmodttl_write_word, cio_read, cio_write. destruct d as [? ? ? ? ? ? [st ptr regs ports time] ?].
  by destruct st.
Qed.

Lemma moves_log l d d' e : moves l d d' -> moves l (ttl_log e d) (ttl_log e d').
Proof. intros (c & -> & E). by exists c. Qed.

Lemma default_spec d : let d' := vmodttl_default world d in
  in_force d' /\ t_log d' = t_log d ++ [Acq KTTL 0; Rel KTTL 0] /\ c_ports (t_chip d') = c_ports (t_chip d) /\
  io_flag d' = io_flag d /\ open_collector d' = open_collector d /\ us_pulse d' = us_pulse d /\ ioconfig d' = ioconfig d.
Proof.
  unfold vmodttl_default. set (d0 := ttl_log (Acq KTTL 0) d). cbv zeta. pose proof (wake_spec d0) as Hr1.
  pose proof (moves_read VMODTTL_CONTROL d0) as M0. destruct (vmodttl_read_word world VMODTTL_CONTROL d0) as [v0 d1]. cbn [snd] in Hr1, M0.
  assert (moves [] d1 (put_reg d1 (MCCR, 0))) as M1 by exact (moves_trans [] [] _ _ _ (moves_write MCCR d1) (moves_write 0 _)).
  set (d2 := put_reg d1 (MCCR, 0)) in *. pose proof (select_read d2 MICR Hr1 ltac:(unfold MICR; lia)) as H3. cbv zeta in H3.
  destruct (vmodttl_read_word world VMODTTL_CONTROL (vmodttl_write_word VMODTTL_CONTROL MICR d2)) as [v1 d3]. destruct H3 as (Hr3 & M3 & _).
  destruct (put_reg_spec d3 MICR 0 Hr3) as (Hr4 & M4 & _); [unfold MICR; lia|done|]. set (d4 := put_reg d3 (MICR, 0)) in *. clearbody d4.
  assert (moves [] d4 (put_reg d4 (MICR, RESET))) as M5 by exact (moves_trans [] [] _ _ _ (moves_write MICR d4) (moves_write RESET _)).
  assert (c_state (t_chip (put_reg d4 (MICR, RESET))) = ResetState) as Hr5.
  { unfold ready in Hr4. unfold put_reg, vmodttl_write_word, cio_write. cbn. by rewrite Hr4. }
  set (d5 := put_reg d4 (MICR, RESET)) in *. clearbody d5. pose proof (moves_write 0 d5) as M6.
  assert (ready (vmodttl_write_word VMODTTL_CONTROL 0 d5) /\ cio_reg MICR (t_chip (vmodttl_write_word VMODTTL_CONTROL 0 d5)) = 0) as [Hr6 E6].
  { unfold ready, cio_reg, vmodttl_write_word, cio_write. cbn. by rewrite Hr5. }
  set (d6 := vmodttl_write_word VMODTTL_CONTROL 0 d5) in *. destruct (def_io_spec d6 Hr6) as (Hr7 & M7 & Hp & E7). set (d7 := vmodttl_def_io world d6) in *.
  pose proof (select_read d7 MICR Hr7 ltac:(unfold MICR; lia)) as H8. cbv zeta in H8.
  destruct (vmodttl_read_word world VMODTTL_CONTROL (vmodttl_write_word VMODTTL_CONTROL MICR d7)) as [v2 d8]. destruct H8 as (Hr8 & M8 & E8 & w & ->).
  rewrite E7, E6, Z.lor_0_r. set (i := Z.lor (Z.lor (Z.land w 65280) MIE) NV).
  assert (u8 i = MICR_VALUE) as Ei by (unfold i; rewrite <- Z.lor_assoc; apply u8_low).
  destruct (put_reg_spec d8 MICR i Hr8) as (Hr9 & M9 & E9); [unfold MICR; lia| |].
  { intros _. unfold i. rewrite !Z.lor_spec, Z.land_spec. by rewrite andb_false_r. }
  set (d9 := put_reg d8 (MICR, i)) in *. clearbody d9.
  assert (moves [] d0 d9) as M.
  { refine (moves_trans [] [] _ _ _ M0 (moves_trans [] [] _ _ _ M1 (moves_trans [] [] _ _ _ M3 (moves_trans [] [] _ _ _ M4 (moves_trans [] [] _ _ _ M5
      (moves_trans [] [] _ _ _ M6 (moves_trans [] [] _ _ _ M7 (moves_trans [] [] _ _ _ M8 M9)))))))). }
  destruct (moves_fields _ _ _ M) as (F1 & F2 & F3 & F4 & F5 & F6). rewrite app_nil_r in F6.
  destruct (moves_fields _ _ _ (moves_trans [] [] _ _ _ M8 M9)) as (G1 & G2 & _).
  pose proof (reg_insert _ _ _ _ E9) as Hreg. rewrite Ei in Hreg.
  split_and!; try done; [split; [done|]; split; [split|]|cbn; rewrite F4; cbn; by rewrite <- app_assoc].
  - change (io_flag (ttl_log _ d9)) with (io_flag d9). change (open_collector (ttl_log _ d9)) with (open_collector d9). rewrite G1, G2.
    intros x Hx. destruct (port_values_keys _ _ _ Hx) as [_ Hk]. change (t_chip (ttl_log _ d9)) with (t_chip d9).
    rewrite Hreg, (proj2 (Z.eqb_neq _ _) Hk). unfold cio_reg. rewrite E8. by apply Hp.
  - change (t_chip (ttl_log _ d9)) with (t_chip d9). rewrite Hreg. change (MCCR =? MICR) with false. cbv iota. unfold cio_reg. rewrite E8. apply Hp.
  - change (t_chip (ttl_log _ d9)) with (t_chip d9). by rewrite Hreg, Z.eqb_refl.
Qed.

(** ** Input and output *)

(** The registers keep their values. *)
Definition stays (l : list portev) d d' : Prop :=
  moves l d d' /\ (ready d -> ready d') /\ forall r, cio_reg r (t_chip d') = cio_reg r (t_chip d).

Lemma stays_trans l l' d1 d2 d3 : stays l d1 d2 -> stays l' d2 d3 -> stays (l ++ l') d1 d3.
Proof.
  intros (M1 & R1 & E1) (M2 & R2 & E2). split; [by eapply moves_trans|]. split; [tauto|]. intros r. by rewrite E2.
Qed.

Lemma write_port_stays off v d : off <> VMODTTL_CONTROL -> stays [PortW off (u8 v)] d (vmodttl_write_word off v d).
Proof.
  intros Hne. unfold vmodttl_write_word, cio_write. rewrite u8_u16, (proj2 (Z.eqb_neq _ _) Hne).
  split; [by eexists|]. by destruct d as [? ? ? ? ? ? [? ? ? ? ?] ?].
Qed.

Definition pulse (us v : Z) : list portev := [PortW VMODTTL_PORTC v; Delay us; PortW VMODTTL_PORTC 0].

Lemma strobe_stays v d : 0 <= v < 256 -> stays (pulse (us_pulse d) v) d (strobe v d).
Proof.
  intros Hv. unfold strobe, pulse. rewrite <- (u8_id v) by done. cbv zeta.
  apply (stays_trans [PortW VMODTTL_PORTC (u8 v)] [Delay (us_pulse d); PortW VMODTTL_PORTC 0] _ (vmodttl_write_word VMODTTL_PORTC v d)).
  { rewrite (u8_id v) by done. rewrite <- (u8_id v) at 1 by done. by apply write_port_stays. }
  rewrite (u8_id v) by done. set (d1 := vmodttl_write_word VMODTTL_PORTC v d).
  apply (stays_trans [Delay (us_pulse d)] [PortW VMODTTL_PORTC (u8 0)] _ (on_chip (cio_delay (us_pulse d1)) d1)); [|by apply write_port_stays].
  split; [by eexists|]. by split.
Qed.

Lemma read_port off d : off <> VMODTTL_CONTROL ->
  fst (vmodttl_read_word world off d) = u16 (world (c_time (t_chip d)) off) /\ stays [] d (snd (vmodttl_read_word world off d)) /\
  c_time (t_chip (snd (vmodttl_read_word world off d))) = S (c_time (t_chip d)).
Proof.
  intros Hne. unfold vmodttl_read_word, cio_read. rewrite (proj2 (Z.eqb_neq _ _) Hne). cbn.
  split; [done|]. split; [|done]. split; [eexists; split; [done|by rewrite app_nil_r]|]. by split.
Qed.

Lemma get_mccr_stays d : ready d ->
  let '(tmp, d') := get_mccr world d in stays [] d d' /\ exists w, tmp = Z.lor (Z.land w 0xff00) (cio_reg MCCR (t_chip d)).
Proof.
  intros Hr. unfold get_mccr. pose proof (select_read d MCCR Hr ltac:(unfold MCCR; lia)) as H1. cbv zeta in H1.
  destruct (vmodttl_read_word world _ _) as [v d']. destruct H1 as (Hr' & M & E & Hw). split; [|done].
  split; [done|]. split; [done|]. intros r. unfold cio_reg. by rewrite E.
Qed.

(** Enabling ports that are enabled. *)
Lemma enable_stays d w b : ready d -> cio_reg MCCR (t_chip d) = MCCR_VALUE -> Z.lor MCCR_VALUE b = MCCR_VALUE ->
  stays [] d (put_reg d (MCCR, Z.lor (Z.lor (Z.land w 0xff00) (cio_reg MCCR (t_chip d))) b)).
Proof.
  intros Hr Hm Hb. rewrite Hm, <- Z.lor_assoc, Hb.
  destruct (put_reg_spec d MCCR (Z.lor (Z.land w 65280) MCCR_VALUE) Hr) as (Hr' & M & E); [unfold MCCR; lia|done|].
  rewrite u8_low in E. change (u8 MCCR_VALUE) with MCCR_VALUE in E. split; [done|]. split; [done|]. intros r.
  rewrite (reg_insert _ _ _ _ E). destruct (Z.eqb_spec r MCCR) as [->|]; done.
Qed.

(** What a write to a channel does: the result and the words on the ports. *)
Definition write_result (flag us dev val : Z) : Z * list portev :=
  let a := truthy (Z.land flag A_CHAN_OUT) in
  let b := truthy (Z.land flag B_CHAN_OUT) in
  if dev =? VMOD_TTL_CHANNEL_A then if a then (0, PortW VMODTTL_PORTA (u8 val) :: pulse us 0x01) else (- EIO, [])
  else if dev =? VMOD_TTL_CHANNEL_B then if b then (0, PortW VMODTTL_PORTB (u8 val) :: pulse us 0x02) else (- EIO, [])
  else if dev =? VMOD_TTL_CHANNELS_AB then
    if a && b then (0, PortW VMODTTL_PORTA (u8 val) :: PortW VMODTTL_PORTB (u8 (Z.shiftr val 8)) :: pulse us 0x03) else (- EIO, [])
  else (- EINVAL, []).

(** [d'] keeps the settings of [d], the locks are given back and these words
    reached the ports. *)
Definition step_ok d d' (l : list portev) : Prop :=
  in_force d' /\ c_ports (t_chip d') = c_ports (t_chip d) ++ l /\ exists k, t_log d' = t_log d ++ k /\ balanced k.

Lemma in_force_stays l d d' : in_force d -> stays l d d' -> in_force d'.
Proof.
  intros (Hr & [Hp Hm] & Hi) (M & R & E). destruct (moves_fields _ _ _ M) as (E1 & E2 & _).
  split; [by apply R|]. split; [split|].
  - intros x Hx. rewrite E1, E2 in Hx. rewrite E. by apply Hp.
  - by rewrite E.
  - by rewrite E.
Qed.

Lemma locked_step l d d' : in_force d -> stays l (ttl_log (Acq KTTL 0) d) d' -> step_ok d (ttl_log (Rel KTTL 0) d') l.
Proof.
  intros Hf Hs. pose proof (in_force_stays l (ttl_log (Acq KTTL 0) d) d' Hf Hs) as Hf'. destruct Hs as (M & _).
  destruct (moves_fields _ _ _ M) as (_ & _ & _ & E4 & _ & E6). split; [exact Hf'|]. split; [exact E6|].
  exists [Acq KTTL 0; Rel KTTL 0]. split; [cbn; rewrite E4; cbn; by rewrite <- app_assoc|apply balanced_pair].
Qed.

(** Write a port, then enable it. *)
Lemma put_port off v b d : off <> VMODTTL_CONTROL -> in_force d -> Z.lor MCCR_VALUE b = MCCR_VALUE ->
  let '(tmp, d') := get_mccr world (vmodttl_write_word off v d) in
  stays [PortW off (u8 v)] d d' /\ stays [PortW off (u8 v)] d (put_reg d' (MCCR, Z.lor tmp b)).
Proof.
  intros Hne Hf Hb. pose proof (write_port_stays off v d Hne) as H1. set (d1 := vmodttl_write_word off v d) in *.
  pose proof (in_force_stays _ _ _ Hf H1) as Hf1. pose proof (get_mccr_stays d1 (proj1 Hf1)) as H2.
  destruct (get_mccr world d1) as [tmp d2]. destruct H2 as (H2 & w & ->). pose proof (in_force_stays _ _ _ Hf1 H2) as Hf2.
  pose proof (stays_trans [PortW off (u8 v)] [] _ _ _ H1 H2) as H12. split; [exact H12|].
  rewrite <- (proj2 (proj2 H2) MCCR). apply (stays_trans [PortW off (u8 v)] [] _ _ _ H12). by apply enable_stays; [apply Hf2|apply Hf2|].
Qed.

Lemma write_chan_spec d dev val : in_force d ->
  let '(rc, d') := vmodttl_write_chan world dev val d in
  rc = fst (write_result (io_flag d) (us_pulse d) dev val) /\ step_ok d d' (snd (write_result (io_flag d) (us_pulse d) dev val)).
Proof.
  intros Hf. assert (step_ok d d []) as Hid by (split; [done|]; rewrite app_nil_r; split; [done|]; exists []; by rewrite app_nil_r).
  set (d0 := ttl_log (Acq KTTL 0) d). assert (in_force d0) as Hf0 by exact Hf.
  assert (step_ok d (ttl_log (Rel KTTL 0) d0) []) as Hio.
  { apply locked_step; [done|]. split; [apply moves_refl|]. by split. }
  assert (forall d1 l v, 0 <= v < 256 -> stays l d0 d1 -> step_ok d (ttl_log (Rel KTTL 0) (strobe v d1)) (l ++ pulse (us_pulse d) v)) as Hdone.
  { intros d1 l v Hv Hs. apply locked_step; [done|]. apply (stays_trans l _ _ d1); [exact Hs|].
    destruct Hs as (M & _). destruct (moves_fields _ _ _ M) as (_ & _ & E & _). replace (us_pulse d) with (us_pulse d1) by exact E. by apply strobe_stays. }
  unfold vmodttl_write_chan, write_result. change VMOD_TTL_CHANNEL_A with 0. change VMOD_TTL_CHANNEL_B with 1. change VMOD_TTL_CHANNELS_AB with 2.
  cbv zeta. fold d0. change (io_flag d0) with (io_flag d). unfold truthy. change A_CHAN_IN with 0. change B_CHAN_IN with 0.
  destruct ((dev <? 0) || (2 <? dev)) eqn:Edev.
  { rewrite !(proj2 (Z.eqb_neq _ _)) by (apply orb_true_iff in Edev as [?|?]; boolp; lia). done. }
  assert (u8 (u16 val) = u8 val) as Ev by apply u8_u16.
  destruct (Z.eqb_spec dev 0) as [->|H0]; [|destruct (Z.eqb_spec dev 1) as [->|H1]].
  - destruct (Z.land (io_flag d) A_CHAN_OUT =? 0); [done|]. cbn [negb].
    pose proof (put_port VMODTTL_PORTA (u16 val) PAE d0 ltac:(done) Hf0 ltac:(done)) as Hp.
    destruct (get_mccr _ _) as [tmp d1]. destruct Hp as [_ Hp]. rewrite Ev in Hp. split; [done|]. by apply (Hdone _ [_]).
  - destruct (Z.land (io_flag d) B_CHAN_OUT =? 0); [done|]. cbn [negb].
    pose proof (put_port VMODTTL_PORTB (u16 val) PBE d0 ltac:(done) Hf0 ltac:(done)) as Hp.
    destruct (get_mccr _ _) as [tmp d1]. destruct Hp as [_ Hp]. rewrite Ev in Hp. split; [done|]. by apply (Hdone _ [_]).
  - boolp. assert (dev = 2) as -> by lia. cbn [Z.eqb Pos.eqb].
    destruct (Z.land (io_flag d) B_CHAN_OUT =? 0), (Z.land (io_flag d) A_CHAN_OUT =? 0); cbn [negb orb andb]; try done.
    pose proof (put_port VMODTTL_PORTA (Z.land (u16 val) 0xff) 0 d0 ltac:(done) Hf0 ltac:(done)) as Hp.
    destruct (get_mccr _ _) as [tmp d1]. destruct Hp as [Hp _].
    pose proof (put_port VMODTTL_PORTB (Z.land (Z.shiftr (u16 val) 8) 0xff) (Z.lor PAE PBE) d1 ltac:(done) (in_force_stays _ _ _ Hf0 Hp) ltac:(done)) as Hq.
    destruct (get_mccr _ _) as [tmp' d2]. destruct Hq as [_ Hq]. rewrite Z.lor_assoc in Hq.
    assert (u8 (Z.land (u16 val) 0xff) = u8 val) as E1 by (rewrite u8_land_ff; exact Ev).
    assert (u8 (Z.land (Z.shiftr (u16 val) 8) 0xff) = u8 (Z.shiftr val 8)) as E2.
    { apply Z.bits_inj'. intros i Hi. unfold u8. destruct (Z_lt_le_dec i 8); [|by rewrite !Z.mod_pow2_bits_high by lia].
      rewrite !Z.mod_pow2_bits_low by lia. rewrite Z.land_spec, !Z.shiftr_spec by lia. change 255 with (Z.ones 8).
      rewrite Z.ones_spec_low by lia. unfold u16. rewrite Z.mod_pow2_bits_low by lia. apply andb_true_r. }
    rewrite E1 in Hp. rewrite E2 in Hq. split; [done|]. apply (Hdone _ [_; _]); [lia|]. exact (stays_trans [_] [_] _ _ _ Hp Hq).
Qed.

(** What a read of a channel answers, and its strobe. *)
Definition read_result (t : nat) (dev : Z) : Z * Z :=
  let a := u16 (world t VMODTTL_PORTA) in
  if dev =? VMOD_TTL_CHANNEL_A then (a, 0x04)
  else if dev =? VMOD_TTL_CHANNEL_B then (u16 (world t VMODTTL_PORTB), 0x08)
  else if dev =? VMOD_TTL_CHANNELS_AB then (Z.land a 0xff + Z.shiftl (Z.land (u16 (world (S t) VMODTTL_PORTB)) 0xff) 8, 0)
  else (0, 0).

Lemma read_chan_spec d dev : in_force d ->
  let '(v, d') := vmodttl_read_chan world dev d in
  v = fst (read_result (c_time (t_chip d)) dev) /\ step_ok d d' (pulse (us_pulse d) (snd (read_result (c_time (t_chip d)) dev))).
Proof.
  intros Hf. set (d0 := ttl_log (Acq KTTL 0) d). assert (in_force d0) as Hf0 by exact Hf.
  assert (forall d1 v, 0 <= v < 256 -> stays [] d0 d1 -> step_ok d (ttl_log (Rel KTTL 0) (strobe v d1)) (pulse (us_pulse d) v)) as Hdone.
  { intros d1 v Hv Hs. apply locked_step; [done|]. apply (stays_trans [] _ _ d1); [exact Hs|].
    destruct Hs as (M & _). destruct (moves_fields _ _ _ M) as (_ & _ & E & _). replace (us_pulse d) with (us_pulse d1) by exact E. by apply strobe_stays. }
  unfold vmodttl_read_chan, read_result. cbv zeta. fold d0.
  destruct (read_port VMODTTL_PORTA d0 ltac:(done)) as (Ea & Sa & Ta). destruct (read_port VMODTTL_PORTB d0 ltac:(done)) as (Eb & Sb & _).
  destruct (dev =? VMOD_TTL_CHANNEL_A); [|destruct (dev =? VMOD_TTL_CHANNEL_B); [|destruct (dev =? VMOD_TTL_CHANNELS_AB)]].
  - destruct (vmodttl_read_word world VMODTTL_PORTA d0) as [v d1]. cbn [fst snd] in *. split; [exact Ea|]. by apply Hdone.
  - destruct (vmodttl_read_word world VMODTTL_PORTB d0) as [v d1]. cbn [fst snd] in *. split; [exact Eb|]. by apply Hdone.
  - destruct (vmodttl_read_word world VMODTTL_PORTA d0) as [v d1]. cbn [fst snd] in *.
    destruct (read_port VMODTTL_PORTB d1 ltac:(done)) as (Eb' & Sb' & _). destruct (vmodttl_read_word world VMODTTL_PORTB d1) as [v' d2]. cbn [fst snd] in *.
    rewrite Ta in Eb'. split; [by rewrite Ea, Eb'|]. apply Hdone; [cbn; lia|]. exact (stays_trans [] [] _ _ _ Sa Sb').
  - split; [done|]. apply Hdone; [cbn; lia|]. split; [apply moves_refl|]. by split.
Qed.

End Chip.

(** ** The ioctls *)

(** Data on ports A and B, and complete pulses on port C. *)
Inductive strobed : list portev -> Prop :=
  | strobed_nil : strobed []
  | strobed_data p v l : p <> VMODTTL_PORTC -> strobed l -> strobed (PortW p v :: l)
  | strobed_pulse us v l : strobed l -> strobed (pulse us v ++ l).

Lemma strobed_app l l' : strobed l -> strobed l' -> strobed (l ++ l').
Proof.
  induction 1 as [|p v l Hp _ IH|us v l _ IH]; intros Hl; [done|apply strobed_data; [done|by apply IH]|].
  rewrite <- app_assoc. apply strobed_pulse. by apply IH.
Qed.

Lemma strobed_one us v : strobed (pulse us v).
Proof. rewrite <- (app_nil_r (pulse us v)). apply strobed_pulse, strobed_nil. Qed.

Section Ioctl.
Variable world : nat -> Z -> Z.
Implicit Types (d : vmodttl_dev).

Lemma write_strobed flag us dev val : strobed (snd (write_result flag us dev val)).
Proof.
  assert (forall p v l, p <> VMODTTL_PORTC -> strobed l -> strobed (PortW p v :: l)) as Hd by exact strobed_data.
  pose proof (strobed_one us) as Hp. pose proof strobed_nil as Hn.
  unfold write_result. repeat case_goal; cbn [snd]; auto; repeat apply Hd; auto; done.
Qed.

Lemma step_ok_trans d1 d2 d3 l l' : step_ok d1 d2 l -> step_ok d2 d3 l' -> step_ok d1 d3 (l ++ l').
Proof.
  intros (_ & P1 & k1 & L1 & B1) (F & P2 & k2 & L2 & B2). split; [done|]. split; [by rewrite P2, P1, app_assoc|].
  exists (k1 ++ k2). split; [by rewrite L2, L1, app_assoc|by apply balanced_app].
Qed.

(** An in-force state whose settings changed, configured again. *)
Lemma reconfigure d : ready d -> cio_reg MICR (t_chip d) = MICR_VALUE ->
  in_force (vmodttl_def_io world d) /\ moves [] d (vmodttl_def_io world d).
Proof.
  intros Hr Hm. destruct (def_io_spec world d Hr) as (Hr' & M & Hp & E). split; [|done]. split; [done|]. split; [done|]. by rewrite E.
Qed.

Definition config_accepted (conf : vmodttlconfig) : Prop := 0 <= cf_io_flag conf <= 7.

Lemma config_step conf d : in_force d ->
  let '(rc, d') := vmodttl_config world conf d in
  step_ok d d' [] /\ ioconfig d' = ioconfig d /\
  (config_accepted conf -> rc = 0 /\ open_collector d' = cf_open_collector conf /\ us_pulse d' = Z.max 1 (cf_us_pulse conf) /\
     io_flag d' = if truthy (cf_invert conf) then Z.lor (cf_io_flag conf) VMODTTL_O else cf_io_flag conf) /\
  (~ config_accepted conf -> rc = - EINVAL /\ open_collector d' = open_collector d /\ us_pulse d' = us_pulse d /\ io_flag d' = io_flag d).
Proof.
  intros (Hr & Hp & Hm). unfold vmodttl_config, config_accepted. change (A_CHAN_OUT + B_CHAN_OUT + C_CHAN_OUT) with 7. change DEFAULT_DELAY with 1.
  destruct ((7 <? cf_io_flag conf) || (cf_io_flag conf <? 0)) eqn:E.
  - split; [|split; [done|]; split; [apply orb_true_iff in E as [E|E]; boolp; lia|done]].
    split; [by split_and!|]. rewrite app_nil_r. split; [done|]. exists [Acq KTTL 0; Rel KTTL 0]. split; [by cbn; rewrite <- app_assoc|apply balanced_pair].
  - boolp. cbv zeta. set (d1 := set_modes _ _ _ _).
    assert (t_log d1 = t_log d ++ [Acq KTTL 0] /\ c_ports (t_chip d1) = c_ports (t_chip d) /\ ioconfig d1 = ioconfig d) as (D1 & D2 & D3) by done.
    assert (us_pulse d1 = Z.max 1 (cf_us_pulse conf)) as D4 by (cbn; destruct (Z.ltb_spec (cf_us_pulse conf) 1); lia).
    assert (open_collector d1 = cf_open_collector conf /\ io_flag d1 = if truthy (cf_invert conf) then Z.lor (cf_io_flag conf) VMODTTL_O else cf_io_flag conf) as (D5 & D6) by done.
    destruct (reconfigure d1 Hr Hm) as [Hf M]. destruct (moves_fields _ _ _ M) as (E1 & E2 & E3 & E4 & E5 & E6). clearbody d1.
    set (d2 := vmodttl_def_io world d1) in *. clearbody d2. split; [|split; [cbn; congruence|split; [intros _; cbn; split_and!; congruence|lia]]].
    split; [exact Hf|]. split; [cbn; by rewrite E6, D2|]. exists [Acq KTTL 0; Rel KTTL 0].
    split; [cbn; by rewrite E4, D1, <- app_assoc|apply balanced_pair].
Qed.

Lemma ttl_ioctl_step from to cm d rc out d' : in_force d -> vmodttl_dev_ioctl world from to cm d = Some (rc, out, d') ->
  exists l, step_ok d d' l /\ strobed l.
Proof.
  intros Hf E. assert (forall c, step_ok d (set_ioconfig c d) []) as Hset.
  { intros c. split; [exact Hf|]. rewrite app_nil_r. split; [done|]. exists []. by rewrite app_nil_r. }
  assert (step_ok d d []) as Hid by (destruct (Hset (ioconfig d)) as (_ & P & L); split; [done|by split]).
  unfold vmodttl_dev_ioctl in E. destruct cm as [conf| | |buf|dev|dev val|].
  - destruct from; cbn [negb] in E; [|injection E as E1 E2 E3; subst; exists []; split; [exact Hid|constructor]].
    pose proof (config_step conf (set_ioconfig conf d) (proj1 (Hset conf))) as Hc. destruct (vmodttl_config world conf _) as [ret d1].
    destruct Hc as (Hc & _). injection E as E1 E2 E3. subst. exists ([] ++ []). split; [exact (step_ok_trans _ _ _ [] [] (Hset conf) Hc)|constructor].
  - destruct to; cbn [negb] in E; injection E as E1 E2 E3; subst; exists []; split; done || constructor.
  - injection E as E1 E2 E3; subst. destruct Hf as (Hr & Hp & Hm). destruct (reconfigure d Hr Hm) as [Hf M].
    destruct (moves_fields _ _ _ M) as (_ & _ & _ & E4 & _ & E6). exists []. split; [|constructor]. split; [done|]. split; [done|].
    exists []. by rewrite app_nil_r.
  - destruct from; cbn [negb] in E; [|injection E as E1 E2 E3; subst; exists []; split; [done|constructor]].
    destruct (Z.of_nat NR_BITS <=? u8 (p_pos buf)); [done|]. injection E as E1 E2 E3; subst. exists []. split; [apply Hset|constructor].
  - destruct from; cbn [negb] in E; [|injection E as E1 E2 E3; subst; exists []; split; [done|constructor]].
    destruct (_ <? _); [injection E as E1 E2 E3; subst; exists []; split; [done|constructor]|].
    pose proof (read_chan_spec world d dev Hf) as Hr. destruct (vmodttl_read_chan world dev d) as [v d1]. destruct Hr as [_ Hr].
    destruct to; cbn [negb] in E; injection E as E1 E2 E3; subst; eexists; (split; [exact Hr|apply strobed_one]).
  - destruct from; cbn [negb] in E; [|injection E as E1 E2 E3; subst; exists []; split; [done|constructor]].
    pose proof (write_chan_spec world d dev val Hf) as Hw. destruct (vmodttl_write_chan world dev val d) as [ret d1]. destruct Hw as [_ Hw].
    injection E as E1 E2 E3; subst. eexists. split; [exact Hw|apply write_strobed].
  - injection E as E1 E2 E3; subst. exists []. split; [done|constructor].
Qed.

Fixpoint ttl_run (ops : list (bool * bool * ttlcmd)) (d : vmodttl_dev) : option vmodttl_dev :=
  match ops with
  | [] => Some d
  | (from, to, cm) :: ops => '(_, _, d) ← vmodttl_dev_ioctl world from to cm d; ttl_run ops d
  end.

Lemma run_step ops : forall d d', in_force d -> ttl_run ops d = Some d' -> exists l, step_ok d d' l /\ strobed l.
Proof.
  induction ops as [|[[from to] cm] ops IH]; intros d d' Hf E; cbn [ttl_run] in E.
  - injection E as <-. exists []. split; [|constructor]. split; [done|]. rewrite app_nil_r. split; [done|]. exists []. by rewrite app_nil_r.
  - destruct (vmodttl_dev_ioctl world from to cm d) as [[[rc out] d1]|] eqn:Ei; [|done]. cbn [mbind option_bind] in E.
    destruct (ttl_ioctl_step _ _ _ _ _ _ _ Hf Ei) as (l1 & H1 & S1). destruct (IH d1 d' (proj1 H1) E) as (l2 & H2 & S2).
    exists (l1 ++ l2). split; [by eapply step_ok_trans|by apply strobed_app].
Qed.

End Ioctl.

(** C40: whatever state the Z8536 is found in and whatever its lines answer, after
    the initialisation of a board and any ioctls (patterns outside port A
    excluded) the chip waits for a register number, its direction, polarity and
    enable registers hold what the driver's flags say, the lock is given back and
    every strobe on port C has ended; and then a write reaches exactly the ports
    that are outputs, followed by its strobe, and is refused for the others, and
    a read gives what the lines are. *)
Theorem ttl_config_in_force world d0 ops d : ttl_run world ops (vmodttl_default world d0) = Some d ->
  in_force d /\ (exists k, t_log d = t_log d0 ++ k /\ balanced k) /\
  (exists l, c_ports (t_chip d) = c_ports (t_chip d0) ++ l /\ strobed l) /\
  (forall dev val, let '(rc, d') := vmodttl_write_chan world dev val d in
     rc = fst (write_result (io_flag d) (us_pulse d) dev val) /\
     c_ports (t_chip d') = c_ports (t_chip d) ++ snd (write_result (io_flag d) (us_pulse d) dev val)) /\
  forall dev, let '(v, d') := vmodttl_read_chan world dev d in
     v = fst (read_result world (c_time (t_chip d)) dev) /\
     c_ports (t_chip d') = c_ports (t_chip d) ++ pulse (us_pulse d) (snd (read_result world (c_time (t_chip d)) dev)).
Proof.
  intros E. destruct (default_spec world d0) as (Hf0 & L0 & P0 & _).
  destruct (run_step world ops _ _ Hf0 E) as (l & (Hf & P & k & L & B) & S). split; [done|]. split.
  { exists ([Acq KTTL 0; Rel KTTL 0] ++ k). split; [by rewrite L, L0, app_assoc|]. apply balanced_app; [apply balanced_pair|done]. }
  split; [exists l; by rewrite P, P0|]. split.
  - intros dev val. pose proof (write_chan_spec world d dev val Hf) as H. destruct (vmodttl_write_chan world dev val d) as [rc d'].
    destruct H as (H1 & _ & H2 & _). by split.
  - intros dev. pose proof (read_chan_spec world d dev Hf) as H. destruct (vmodttl_read_chan world dev d) as [v d'].
    destruct H as (H1 & _ & H2 & _). by split.
Qed.

(** ** The library *)

Lemma pattern_roundtrip p : 0 <= p <= 5 ->
  let '(pmr, ptr, ppr) := vmodttl_get_bit_pattern p in vmodttl_get_from_bit_pattern pmr ptr ppr = p.
Proof. intros Hp. assert (p = 0 \/ p = 1 \/ p = 2 \/ p = 3 \/ p = 4 \/ p = 5) as [->|[->|[->|[->|[->| ->]]]]] by lia; reflexivity. Qed.

Section Library.
Variable world : nat -> Z -> Z.
Implicit Types (d : vmodttl_dev) (s : ttllib).

(** The board [l] is open as [fd]. *)
Definition opened s (l fd : Z) d : Prop :=
  0 <= l < 64 /\ fd_of l s = Some fd /\ k_files s !! fd = Some l /\ ttl_at (k_ttls s) l = Some d.

Lemma ttl_at_set t l d d' : 0 <= l -> ttl_at t l = Some d -> ttl_at (ttl_set l d' t) l = Some d'.
Proof.
  unfold ttl_at, ttl_set. intros Hl E. destruct (t !! Z.to_nat l) eqn:El; [|done].
  rewrite list_lookup_insert_eq; [done|]. by apply lookup_lt_Some in El.
Qed.

Lemma sys_ioctl_ok s l fd d cm ret out d' : opened s l fd d -> vmodttl_dev_ioctl world true true cm d = Some (ret, out, d') ->
  exists s', sys_ioctl world fd cm s = Some (if ret <? 0 then -1 else ret, out, s') /\ opened s' l fd d'.
Proof.
  intros (Hl & Hfd & Hk & Ht) E. unfold sys_ioctl, vmodttl_ioctl. rewrite Hk, Ht. cbn [mbind option_bind]. rewrite E. cbn [mbind option_bind].
  eexists. split; [reflexivity|]. split; [done|]. split; [exact Hfd|]. split; [exact Hk|]. apply (ttl_at_set _ _ d); [lia|exact Ht].
Qed.

(** The pattern of port A that both ports are given. *)
Definition with_patterns (pa : list vmodttl_pattern) (c : vmodttlconfig) : vmodttlconfig :=
  Ttlconfig (cf_io_flag c) (cf_us_pulse c) (cf_open_collector c) (cf_invert c) (cf_pattern_mode_a c) (cf_pattern_mode_b c) pa (cf_bit_pattern_b c).

Lemma set_pattern_ok s l fd d port i p : opened s l fd d -> port = 0 \/ port = 1 -> (i < 8)%nat -> 0 <= p <= 5 ->
  exists s' x, vmodttl_set_pattern world l port (Z.of_nat i) p s = Some (0, s') /\ decode_pattern x = p /\
    opened s' l fd (set_ioconfig (with_patterns (<[i := x]> (cf_bit_pattern_a (ioconfig d))) (ioconfig d)) d).
Proof.
  intros Ho Hport Hi Hp. pose proof (pattern_roundtrip p Hp) as Hrt. unfold vmodttl_set_pattern.
  destruct ((port <? VMOD_TTL_CHANNEL_A) || (VMOD_TTL_CHANNEL_B <? port)) eqn:E1; [by destruct Hport as [-> | ->]; vm_compute in E1|].
  change NUM_BITS with 8. destruct ((Z.of_nat i <? 0) || (8 <=? Z.of_nat i)) eqn:E2; [apply orb_true_iff in E2 as [?|?]; boolp; lia|].
  destruct (vmodttl_get_bit_pattern p) as [[pmr ptr] ppr]. set (x := Pattern port (Z.of_nat i) ptr pmr ppr).
  destruct (sys_ioctl_ok s l fd d (VMODTTL_PATTERN x) 0 TNone (set_ioconfig (with_patterns (<[i := x]> (cf_bit_pattern_a (ioconfig d))) (ioconfig d)) d) Ho) as (s' & Es & Ho').
  { unfold vmodttl_dev_ioctl. cbn [negb p_pos x]. change (Z.of_nat NR_BITS) with 8. rewrite u8_id by lia.
    destruct (Z.leb_spec 8 (Z.of_nat i)); [lia|]. rewrite Nat2Z.id. reflexivity. }
  destruct Ho as (_ & -> & _). cbn [mbind option_bind]. rewrite Es. cbn. exists s', x. split; [done|]. split; [exact Hrt|exact Ho'].
Qed.

Lemma patterns_loop_ok l fd conf idx : (forall i, i ∈ idx -> (i < 8)%nat) -> Forall (fun p => 0 <= p <= 5) (conf_pattern_a conf) -> forall s d,
  opened s l fd d -> length (cf_bit_pattern_a (ioconfig d)) = 8%nat ->
  exists s' pa, patterns_loop world l conf idx s = Some s' /\ opened s' l fd (set_ioconfig (with_patterns pa (ioconfig d)) d) /\ length pa = 8%nat /\
    forall j, decode_pattern <$> pa !! j =
      if bool_decide (j ∈ idx) && ((dir_a conf =? CHAN_IN) || (dir_b conf =? CHAN_IN)) then Some (nth j (conf_pattern_a conf) 0)
      else decode_pattern <$> cf_bit_pattern_a (ioconfig d) !! j.
Proof.
  intros Hidx Hp. induction idx as [|i idx IH]; intros s d Ho Hlen.
  { exists s, (cf_bit_pattern_a (ioconfig d)). split; [done|]. split; [by destruct d as [? ? ? ? [] ? ? ?]|]. split; [done|]. intros j. by rewrite bool_decide_false by apply not_elem_of_nil. }
  assert (i < 8)%nat as Hi by (apply Hidx; left). set (p := nth i (conf_pattern_a conf) 0).
  assert (0 <= p <= 5) as Hpi.
  { unfold p. rewrite nth_lookup. destruct (conf_pattern_a conf !! i) as [x|] eqn:E; [|cbn; lia]. exact (Forall_lookup_1 _ _ _ _ Hp E). }
  assert (forall port (b : bool) s d, port = 0 \/ port = 1 -> opened s l fd d -> length (cf_bit_pattern_a (ioconfig d)) = 8%nat ->
    exists s' r pa, (if b then vmodttl_set_pattern world l port (Z.of_nat i) p s else Some (0, s)) = Some (r, s') /\
      opened s' l fd (set_ioconfig (with_patterns pa (ioconfig d)) d) /\ length pa = 8%nat /\
      forall j, decode_pattern <$> pa !! j = if b && bool_decide (j = i) then Some p else decode_pattern <$> cf_bit_pattern_a (ioconfig d) !! j) as Hone.
  { intros port b s0 d0 Hport Ho0 Hl0. destruct b.
    - destruct (set_pattern_ok s0 l fd d0 port i p Ho0 Hport Hi Hpi) as (s1 & x & E1 & Ex & Ho1).
      exists s1, 0, (<[i := x]> (cf_bit_pattern_a (ioconfig d0))). split; [done|]. split; [done|]. split; [by rewrite length_insert|].
      intros j. cbn [andb]. case_bool_decide as Ej; [subst j; rewrite list_lookup_insert_eq by lia; cbn; by rewrite Ex|by rewrite list_lookup_insert_ne by congruence].
    - exists s0, 0, (cf_bit_pattern_a (ioconfig d0)). split; [done|]. split; [by destruct d0 as [? ? ? ? [] ? ? ?]|]. by split. }
  cbn [patterns_loop]. fold p.
  destruct (Hone CHAN_A (dir_a conf =? CHAN_IN) s d ltac:(by left) Ho Hlen) as (s1 & r1 & pa1 & E1 & Ho1 & Hl1 & G1). rewrite E1. cbn [mbind option_bind].
  set (d1 := set_ioconfig (with_patterns pa1 (ioconfig d)) d) in *.
  destruct (Hone CHAN_B (dir_b conf =? CHAN_IN) s1 d1 ltac:(by right) Ho1 Hl1) as (s2 & r2 & pa2 & E2 & Ho2 & Hl2 & G2). rewrite E2. cbn [mbind option_bind].
  destruct (IH ltac:(intros j Hj; apply Hidx; by right) s2 _ Ho2 Hl2) as (s3 & pa3 & E3 & Ho3 & Hl3 & G3). rewrite E3.
  exists s3, pa3. split; [done|]. split; [exact Ho3|]. split; [done|]. intros j. rewrite G3. cbn [ioconfig set_ioconfig with_patterns cf_bit_pattern_a].
  rewrite G2. change (cf_bit_pattern_a (ioconfig d1)) with pa1. rewrite G1.
  destruct (decide (j = i)) as [->|Hne].
  - rewrite (bool_decide_true (i ∈ i :: idx)) by left. rewrite !(bool_decide_true (i = i)) by done.
    destruct (bool_decide (i ∈ idx)), (dir_a conf =? CHAN_IN), (dir_b conf =? CHAN_IN); done.
  - rewrite !(bool_decide_false (j = i)), !andb_false_r by done.
    assert (bool_decide (j ∈ i :: idx) = bool_decide (j ∈ idx)) as -> by (apply bool_decide_ext; rewrite elem_of_cons; tauto). done.
Qed.

Definition conf_ok (c : ttl_conf) : Prop :=
  Forall (fun x => x = 0 \/ x = 1) [dir_a c; dir_b c; mode_a c; mode_b c; mode_c c] /\
  length (conf_pattern_a c) = 8%nat /\ Forall (fun p => 0 <= p <= 5) (conf_pattern_a c).

Definition out_flag (dir : Z) (b : Z) : Z := if dir =? CHAN_IN then 0 else b.

(** A configuration of the library is accepted, put in force, and read back as
    it was written, except for the patterns of port B, which stay what the stack
    held, as do those of port A when no port is an input. *)
Lemma config_reads_back s l fd d conf junk junk2 : opened s l fd d -> in_force d -> conf_ok conf -> length (cf_bit_pattern_a junk) = 8%nat ->
  exists s' d', vmodttl_io_config world l conf junk s = Some (0, s') /\ opened s' l fd d' /\ in_force d' /\
    (cio_reg DDR_A (t_chip d') = (if dir_a conf =? CHAN_IN then 0xff else 0) /\ cio_reg DDR_B (t_chip d') = (if dir_b conf =? CHAN_IN then 0xff else 0)) /\
    vmodttl_read_config world l junk2 s' = Some (0, Ttl_conf (dir_a conf) (dir_b conf) (inverting_logic conf) (conf_us_pulse conf)
      (mode_a conf) (mode_b conf) (mode_c conf) (pattern_mode_a conf) (pattern_mode_b conf)
      (if (dir_a conf =? CHAN_IN) || (dir_b conf =? CHAN_IN) then conf_pattern_a conf else decode_pattern <$> cf_bit_pattern_a junk)
      (decode_pattern <$> cf_bit_pattern_b junk), s').
Proof.
  intros Ho Hf (Hb & Hlen & Hp) Hj. unfold vmodttl_io_config. pose proof Ho as (_ & -> & _). cbn [mbind option_bind].
  set (io := Z.land (dir_a conf) 1 + _). set (oc := mode_a conf + _ + _). set (c := Ttlconfig _ _ _ _ _ _ _ _).
  assert (0 <= io <= 3 /\ Z.land io 1 = dir_a conf /\ Z.land (Z.shiftr io 1) 1 = dir_b conf /\
    (truthy (Z.land io A_CHAN_OUT) = negb (dir_a conf =? CHAN_IN)) /\ (truthy (Z.land io B_CHAN_OUT) = negb (dir_b conf =? CHAN_IN)) /\
    (truthy (Z.land (Z.lor io VMODTTL_O) A_CHAN_OUT) = negb (dir_a conf =? CHAN_IN)) /\ (truthy (Z.land (Z.lor io VMODTTL_O) B_CHAN_OUT) = negb (dir_b conf =? CHAN_IN)) /\
    Z.land oc 1 = mode_a conf /\ Z.land (Z.shiftr oc 1) 1 = mode_b conf /\ Z.land (Z.shiftr oc 2) 1 = mode_c conf) as (Hio & Ia & Ib & Ta & Tb & Ta' & Tb' & Oa & Ob & Oc).
  { unfold io, oc. repeat (apply Forall_cons in Hb as [Hx Hb]; destruct Hx as [-> | ->]); vm_compute; split_and!; done. }
  pose proof (config_step world c (set_ioconfig c d) Hf) as Hc.
  destruct (vmodttl_config world c (set_ioconfig c d)) as [rc d1] eqn:Ec. destruct Hc as ((Hf1 & _) & Ei & Hacc & _).
  destruct Hacc as (-> & _ & _ & Efl); [unfold config_accepted; cbn; lia|].
  destruct (sys_ioctl_ok s l fd d (VMODTTL_CONFIG c) 0 TNone d1 Ho) as (s1 & Es & Ho1); [cbn; by rewrite Ec|].
  rewrite Es. cbn [mbind option_bind Z.ltb Z.compare]. change (ioconfig (set_ioconfig c d)) with c in Ei.
  destruct (patterns_loop_ok l fd conf (seq 0 NR_BITS)) with (s := s1) (d := d1) as (s2 & pa & E2 & Ho2 & Hl2 & G2); try done.
  { intros i Hi%elem_of_seq. unfold NR_BITS in Hi. lia. }
  { by rewrite Ei. }
  rewrite E2. cbn [mbind option_bind]. set (d2 := set_ioconfig _ d1) in *. exists s2, d2. split; [done|]. split; [done|].
  assert (in_force d2) as Hf2 by exact Hf1. split; [done|]. split.
  { destruct Hf1 as (_ & [Hv _] & _). change (t_chip d2) with (t_chip d1).
    assert (cio_reg DDR_A (t_chip d1) = direction (io_flag d1) A_CHAN_OUT) as -> by (apply (Hv (DDR_A, _)); left).
    assert (cio_reg DDR_B (t_chip d1) = direction (io_flag d1) B_CHAN_OUT) as -> by (apply (Hv (DDR_B, _)); do 4 right; left).
    unfold direction. rewrite Efl. cbn [cf_invert cf_io_flag c]. destruct (truthy (inverting_logic conf)); rewrite ?Ta, ?Tb, ?Ta', ?Tb'; by destruct (dir_a conf =? CHAN_IN), (dir_b conf =? CHAN_IN). }
  unfold vmodttl_read_config. pose proof Ho2 as (_ & -> & _). cbn [mbind option_bind].
  destruct (sys_ioctl_ok s2 l fd d2 VMODTTL_READ_CONFIG 0 (TConfig (ioconfig d2)) d2 Ho2) as (s3 & Es3 & Ho3); [done|].
  assert (s3 = s2) as ->.
  { unfold sys_ioctl, vmodttl_ioctl in Es3. destruct Ho2 as (Hl & _ & Hk & Ht). rewrite Hk, Ht in Es3. cbn in Es3. injection Es3 as <-.
    unfold set_ttls, ttl_set. destruct s2 as [a b t]. cbn in *. f_equal. apply list_insert_id. unfold ttl_at in Ht. by destruct (t !! Z.to_nat l) as [[]|]; cbn in Ht; simplify_eq. }
  rewrite Es3. cbn [mbind option_bind Z.ltb Z.compare]. change (ioconfig d2) with (with_patterns pa (ioconfig d1)). rewrite Ei.
  cbn [with_patterns cf_io_flag cf_us_pulse cf_open_collector cf_invert cf_pattern_mode_a cf_pattern_mode_b cf_bit_pattern_a cf_bit_pattern_b c].
  rewrite Ia, Ib, Oa, Ob, Oc. do 4 f_equal. apply list_eq. intros j. rewrite list_lookup_fmap, G2, Ei. cbn [cf_bit_pattern_a c].
  destruct ((dir_a conf =? CHAN_IN) || (dir_b conf =? CHAN_IN)); [|by rewrite andb_false_r, list_lookup_fmap].
  rewrite andb_true_r. case_bool_decide as Hjn.
  - apply elem_of_seq in Hjn. unfold NR_BITS in Hjn. by rewrite (nth_in _ _ 0) by lia.
  - rewrite elem_of_seq in Hjn. unfold NR_BITS in Hjn. rewrite !lookup_ge_None_2 by lia. done.
Qed.

End Library.
