(* ===== verification/ModPci.v ===== *)
(** * The MOD-PCI carrier ([vmod/driver/mod-pci.c])

    A PCI board with two slots.  What the driver takes from the PCI layer is a
    set of objects, so that an exit that gives back too little shows. *)

From stdpp Require Import strings.
From S2P Require Import Prelude Modulbus Vmod Vmodio.

Definition MOD_PCI_BIG_BAR : Z := 3.
Definition MOD_PCI_ONBOARD_REGS_BAR : Z := 4.
Definition MOD_PCI_BIG_BAR_SIZE : Z := 4096.
Definition MOD_PCI_ONBOARD_REGS_BAR_SIZE : Z := 4096.
Definition MOD_PCI_SLOTS : Z := 2.
Definition MOD_PCI_SLOT0_OFFSET : Z := 0x000.
Definition MOD_PCI_SLOT1_OFFSET : Z := 0x200.
Definition MOD_PCI_WIDTH : Z := 16.
Definition MOD_PCI_WINDOW_SIZE : Z := 2048.
Definition MODPCI_NAME : string := "mod-pci".

(** The registers of [struct onboard]. *)
Definition INT_STAT : Z := 0x1.
Definition INT_DISABLE : Z := 0x1.
Definition INT_ENABLE : Z := 0x3.
Definition RESET_ASSERT : Z := 0x5.
Definition RESET_DEASSERT : Z := 0x7.

Record mod_pci := Mod_pci { mp_lun : Z; mp_bus_number : Z; mp_slot_number : Z; mp_vaddr : Z; mp_onboard : Z }.

Definition no_modpci : mod_pci := Mod_pci 0 0 0 0 0.

Record modpci_st := Modpci_st {
  mp_table : list mod_pci;
  mp_devices : Z;
  modpci_callbacks : list (list mz_callback);
  mp_held : gset (Z * Z);
  mp_io : list ioev;
}.

Definition modpci_boot : modpci_st :=
  Modpci_st (replicate 16 no_modpci) 0 (replicate 16 (replicate 2 (Mz_callback 0 0))) ∅ [].

Definition set_entry (i : nat) (x : mod_pci) (s : modpci_st) : modpci_st :=
  Modpci_st (<[i := x]> (mp_table s)) (mp_devices s) (modpci_callbacks s) (mp_held s) (mp_io s).
Definition set_mp_devices (n : Z) (s : modpci_st) : modpci_st :=
  Modpci_st (mp_table s) n (modpci_callbacks s) (mp_held s) (mp_io s).
Definition set_mp_callback (b i : Z) (c : mz_callback) (s : modpci_st) : modpci_st :=
  Modpci_st (mp_table s) (mp_devices s) (alter <[Z.to_nat i := c]> (Z.to_nat b) (modpci_callbacks s)) (mp_held s) (mp_io s).
Definition on_held (f : gset (Z * Z) -> gset (Z * Z)) (s : modpci_st) : modpci_st :=
  Modpci_st (mp_table s) (mp_devices s) (modpci_callbacks s) (f (mp_held s)) (mp_io s).
Definition mp_write8 (a v : Z) (s : modpci_st) : modpci_st :=
  Modpci_st (mp_table s) (mp_devices s) (modpci_callbacks s) (mp_held s) (mp_io s ++ [W8 (u32 a) v]).

Definition KENABLED : Z := 0.     (* pci_enable_device() *)
Definition KBAR : Z := 1.         (* a region *)
Definition KMAPPED : Z := 2.      (* an I/O mapping of a BAR *)
Definition KIRQ : Z := 3.

Definition mp_take (k i : Z) : modpci_st -> modpci_st := on_held (fun h => {[ (k, i) ]} ∪ h).
Definition mp_give (k i : Z) : modpci_st -> modpci_st := on_held (fun h => h ∖ {[ (k, i) ]}).

(** ** Devices *)

Definition mp_entries (s : modpci_st) : list mod_pci := firstn (Z.to_nat (mp_devices s)) (mp_table s).

Definition find_device_by_lun (l : Z) (s : modpci_st) : option mod_pci := find (fun d => mp_lun d =? l) (mp_entries s).

Definition modpci_offsets : list Z := [MOD_PCI_SLOT0_OFFSET; MOD_PCI_SLOT1_OFFSET].

Definition modpci_get_address_space (s : modpci_st) (board_number board_position address_space_number : Z) : option carrier_as :=
  dev ← find_device_by_lun board_number s;
  if negb (Z.land board_position (Z.lnot 0x1) =? 0) then None else
  Some (Carrier_as (u32 (mp_vaddr dev + nth (Z.to_nat board_position) modpci_offsets 0)) MOD_PCI_WIDTH (MOD_PCI_WINDOW_SIZE / 4) 1).

(** [struct pci_dev] and what the PCI layer answers for it. *)
Record pci_dev := Pci_dev {
  pci_bus : Z;
  pci_slot : Z;
  pci_enable : bool;
  pci_bar_is_mem : Z -> bool;
  pci_bar_len : Z -> Z;
  pci_request : Z -> bool;
  pci_ioremap : Z -> Z;
  pci_request_irq : Z;
}.

(** The index of the entry for a device. *)
Definition find_device_config (dev : pci_dev) (s : modpci_st) : option nat :=
  fst <$> list_find (fun e => mp_bus_number e = pci_bus dev /\ mp_slot_number e = pci_slot dev) (mp_entries s).

(** [pci_release_regions()] gives back every region of the device. *)
Definition pci_release_regions : modpci_st -> modpci_st := on_held (filter (fun x => x.1 <> KBAR)).

Definition map_bar (dev : pci_dev) (bar bar_size : Z) (s : modpci_st) : Z * modpci_st :=
  if negb (pci_bar_is_mem dev bar) then (0, s) else
  if pci_bar_len dev bar <? bar_size then (0, s) else
  if negb (pci_request dev bar) then (0, s) else
  let s := mp_take KBAR bar s in
  let ret := pci_ioremap dev bar in
  if ret =? 0 then (0, pci_release_regions s) else (ret, mp_take KMAPPED bar s).

Definition modpci_enable_irq (e : mod_pci) : modpci_st -> modpci_st := mp_write8 (mp_onboard e + INT_ENABLE) 0x3.
Definition modpci_disable_irq (e : mod_pci) : modpci_st -> modpci_st := mp_write8 (mp_onboard e + INT_DISABLE) 0x3.
Definition modpci_reset (e : mod_pci) (s : modpci_st) : modpci_st :=
  mp_write8 (mp_onboard e + RESET_DEASSERT) 0x3 (mp_write8 (mp_onboard e + RESET_ASSERT) 0x3 s).

Definition unmap_both (s : modpci_st) : modpci_st :=
  mp_give KBAR MOD_PCI_BIG_BAR (mp_give KBAR MOD_PCI_ONBOARD_REGS_BAR (mp_give KMAPPED MOD_PCI_BIG_BAR (mp_give KMAPPED MOD_PCI_ONBOARD_REGS_BAR s))).

Definition probe (dev : pci_dev) (s : modpci_st) : Z * modpci_st :=
  match find_device_config dev s with
  | None => (- ENODEV, s)
  | Some i =>
      if negb (pci_enable dev) then (- ENODEV, s) else
      let s := mp_take KENABLED 0 s in
      let '(vaddr, s) := map_bar dev MOD_PCI_BIG_BAR MOD_PCI_BIG_BAR_SIZE s in
      let '(onboard, s) := map_bar dev MOD_PCI_ONBOARD_REGS_BAR MOD_PCI_ONBOARD_REGS_BAR_SIZE s in
      let old := nth i (mp_table s) no_modpci in
      let e := Mod_pci (mp_lun old) (mp_bus_number old) (mp_slot_number old) vaddr onboard in
      let s := set_entry i e s in
      if (vaddr =? 0) || (onboard =? 0) then (- ENODEV, mp_give KENABLED 0 s) else
      if truthy (pci_request_irq dev) then (- ENODEV, mp_give KENABLED 0 (unmap_both (modpci_disable_irq e s))) else
      let s := mp_take KIRQ 0 s in
      (0, modpci_enable_irq e (modpci_reset e s))
  end.

(** [None]: the entry is used without a test for NULL. *)
Definition remove (dev : pci_dev) (s : modpci_st) : option modpci_st :=
  i ← find_device_config dev s;
  e ← mp_table s !! i;
  Some (mp_give KENABLED 0 (unmap_both (mp_give KIRQ 0 (modpci_disable_irq e s)))).

(** ** Interrupts *)

Definition within_range (board slot : Z) : bool := (0 <=? board) && (board <? MAX_DEVICES) && (0 <=? slot) && (slot <? MOD_PCI_SLOTS).

Definition modpci_register_isr (callback source board_number board_position : Z) (s : modpci_st) : Z * modpci_st :=
  if negb (within_range board_number board_position) then (-1, s)
  else (0, set_mp_callback board_number board_position (Mz_callback callback source) s).

(** The loop over the slots; [None] is an access outside the callbacks. *)
Fixpoint modpci_serve (cb : Z -> Z -> Z) (l : Z) (int_stat : Z) (idx : list Z) (calls : list (Z * Z)) (s : modpci_st) : option (Z * list (Z * Z)) :=
  match idx with
  | [] => Some (1, calls)
  | i :: idx =>
      if Z.testbit int_stat i then modpci_serve cb l int_stat idx calls s else
      if (l <? 0) || (MAX_DEVICES <=? l) then None else
      let c := nth (Z.to_nat i) (nth (Z.to_nat l) (modpci_callbacks s) []) (Mz_callback 0 0) in
      if mz_call c =? 0 then Some (0, calls) else
      let calls := calls ++ [(mz_call c, mz_dev c)] in
      if cb (mz_call c) (mz_dev c) <? 0 then Some (0, calls) else modpci_serve cb l int_stat idx calls s
  end.

(** The bits of [int_stat] are low for the slots that interrupt. *)
Definition modpci_interrupt (cb : Z -> Z -> Z) (e : mod_pci) (int_stat : Z) (s : modpci_st) : option (Z * list (Z * Z)) :=
  if Z.testbit int_stat 0 && Z.testbit int_stat 1 then Some (0, []) else
  modpci_serve cb (mp_lun e) int_stat [0; 1] [] s.

(** ** The module *)

Record modpci_params := Modpci_params { pp_lun : list Z; pp_bus_number : list Z; pp_slot_number : list Z }.

Definition fill_entries (p : modpci_params) (s : modpci_st) : modpci_st :=
  fold_left (fun s i => let old := nth i (mp_table s) no_modpci in
    set_entry i (Mod_pci (nth i (pp_lun p) 0) (nth i (pp_bus_number p) 0) (nth i (pp_slot_number p) 0) (mp_vaddr old) (mp_onboard old)) s)
    (seq 0 (length (pp_lun p))) s.

(** [rc]: the answer of [pci_register_driver()]. *)
Definition modpci_init (gas risr rc : Z) (p : modpci_params) (r : registry) (s : modpci_st) : Z * registry * modpci_st :=
  let '(err, r) := modulbus_carrier_register MODPCI_NAME gas risr r in
  if truthy err then (-1, r, s) else
  let nlun := Z.of_nat (length (pp_lun p)) in
  if MAX_DEVICES <=? nlun then (-1, r, s) else
  if negb (length (pp_bus_number p) =? length (pp_lun p))%nat || negb (length (pp_slot_number p) =? length (pp_lun p))%nat then (-1, r, s) else
  (rc, r, set_mp_devices nlun (fill_entries p s)).

(** After [pci_unregister_driver()] has removed the devices. *)
Definition modpci_exit (r : registry) : Z * registry := modulbus_carrier_unregister MODPCI_NAME r.

(** ** What a probe takes is what a removal gives back *)

Lemma map_bar_spec dev bar size s : (forall i, (KBAR, i) ∉ mp_held s) \/ pci_ioremap dev bar <> 0 ->
  let '(a, s') := map_bar dev bar size s in
  mp_table s' = mp_table s /\ mp_devices s' = mp_devices s /\ mp_io s' = mp_io s /\
  if a =? 0 then mp_held s' = mp_held s else mp_held s' = {[ (KMAPPED, bar) ]} ∪ ({[ (KBAR, bar) ]} ∪ mp_held s).
Proof.
  intros Hc. unfold map_bar. destruct (negb _); [done|]. destruct (_ <? _); [done|]. destruct (negb _); [done|].
  destruct (pci_ioremap dev bar =? 0) eqn:E; [|by rewrite E]. split_and!; try done. cbn. destruct Hc as [Hc|Hc]; [|boolp; lia].
  apply set_eq. intros [k i]. rewrite elem_of_filter, elem_of_union, elem_of_singleton. cbn. split; [intros [Hk [[= -> ->]|Hin]]; done|].
  intros Hin. split; [|by right]. intros ->. by apply (Hc i).
Qed.

Definition idle (h : gset (Z * Z)) : Prop := forall x, x ∈ h -> x.1 <> KENABLED /\ x.1 <> KBAR /\ x.1 <> KMAPPED /\ x.1 <> KIRQ.

(** A probe that maps both areas, or neither, leaves nothing behind when it
    fails; when it succeeds a removal undoes it. *)
Lemma probe_remove dev s : idle (mp_held s) ->
  let '(rc, s') := probe dev s in
  (rc = 0 -> exists s'', remove dev s' = Some s'' /\ mp_held s'' = mp_held s) /\
  (rc <> 0 -> mp_held s' = mp_held s \/
     (fst (map_bar dev MOD_PCI_BIG_BAR MOD_PCI_BIG_BAR_SIZE s) = 0 <-> fst (map_bar dev MOD_PCI_ONBOARD_REGS_BAR MOD_PCI_ONBOARD_REGS_BAR_SIZE s) <> 0)).
Proof.
  intros Hidle. unfold probe. destruct (find_device_config dev s) as [i|] eqn:Ef; [|split; [done|by left]].
  destruct (pci_enable dev); cbn [negb]; [|split; [done|by left]].
  assert (forall bar size s1 s2, fst (map_bar dev bar size s1) = fst (map_bar dev bar size s2)) as Hfst.
  { intros. unfold map_bar. repeat case_goal; done. }
  set (s1 := mp_take KENABLED 0 s). pose proof (map_bar_spec dev MOD_PCI_BIG_BAR MOD_PCI_BIG_BAR_SIZE s1) as H1.
  pose proof (Hfst MOD_PCI_BIG_BAR MOD_PCI_BIG_BAR_SIZE s1 s) as F1. destruct (map_bar dev MOD_PCI_BIG_BAR _ s1) as [va s2].
  pose proof (map_bar_spec dev MOD_PCI_ONBOARD_REGS_BAR MOD_PCI_ONBOARD_REGS_BAR_SIZE s2) as H2.
  pose proof (Hfst MOD_PCI_ONBOARD_REGS_BAR MOD_PCI_ONBOARD_REGS_BAR_SIZE s2 s) as F2.
  destruct (map_bar dev MOD_PCI_ONBOARD_REGS_BAR _ s2) as [ob s3] eqn:E3. cbn [fst] in F1, F2. rewrite <- F1, <- F2.
  destruct H1 as (T1 & D1 & I1 & G1).
  { left. intros j. change (mp_held s1) with ({[(KENABLED, 0)]} ∪ mp_held s). rewrite elem_of_union, elem_of_singleton. intros [[=]|Hj]. by destruct (Hidle _ Hj) as (_ & Hb & _). }
  change (mp_held s1) with ({[(KENABLED, 0)]} ∪ mp_held s) in *.
  destruct (Z.eqb_spec va 0) as [->|Hva]; cbn [orb].
  - destruct H2 as (T2 & D2 & I2 & G2).
    { left. intros j. rewrite G1, elem_of_union, elem_of_singleton. intros [[=]|Hj]. by destruct (Hidle _ Hj) as (_ & Hb & _). }
    split; [done|]. intros _. destruct (Z.eqb_spec ob 0) as [->|Hob]; [left|right; tauto].
    cbn. rewrite G2, G1. apply set_eq. intros x. rewrite elem_of_difference, elem_of_union, elem_of_singleton. split; [tauto|].
    intros Hx. split; [by right|]. intros ->. by destruct (Hidle _ Hx) as (Hn & _).
  - destruct (Z.eqb_spec ob 0) as [->|Hob]; [split; [done|right; tauto]|].
    destruct H2 as (T2 & D2 & I2 & G2).
    { right. intros Hz. unfold map_bar in E3. rewrite Hz in E3. repeat case_hyp E3; by injection E3. }
    destruct (truthy (pci_request_irq dev)).
    + split; [done|]. intros _. left. cbn. rewrite G2, G1. apply set_eq. intros x. rewrite !elem_of_difference, !elem_of_union, !elem_of_singleton. split; [tauto|].
      intros Hx. destruct (Hidle _ Hx) as (N1 & N2 & N3 & N4). split_and!; [tauto|intros ->; done..].
    + split; [|done]. intros _. set (s4 := modpci_enable_irq _ _). unfold remove.
      assert (find_device_config dev s4 = Some i) as ->.
      { unfold find_device_config in *. apply fmap_Some in Ef as ([i' e0] & Ef & ->). cbn [fst] in *. unfold mp_entries in *. cbn. rewrite D2, D1. change (mp_devices s1) with (mp_devices s).
        apply list_find_Some in Ef as (El & Hm & Hno). pose proof El as El'. apply lookup_take_Some in El as [El Hlt].
        apply fmap_Some. exists (i', Mod_pci (mp_lun e0) (mp_bus_number e0) (mp_slot_number e0) va ob). split; [|done].
        assert (nth i' (mp_table s3) no_modpci = e0) as Enth by (rewrite T2, T1; by apply nth_lookup_Some).
        apply list_find_Some. split; [|split; [exact Hm|]].
        - rewrite lookup_take_lt by done. rewrite Enth. apply list_lookup_insert_eq. rewrite T2, T1. by apply lookup_lt_Some in El.
        - intros j y Hy Hj. apply (Hno j y); [|done]. apply lookup_take_Some in Hy as [Hy Hyl]. rewrite list_lookup_insert_ne, T2, T1 in Hy by lia.
          by rewrite lookup_take_lt. }
      cbn [mbind option_bind]. assert (exists e, mp_table s4 !! i = Some e) as [e ->].
      { unfold find_device_config in Ef. apply fmap_Some in Ef as ([i' e0] & Ef & ->). apply list_find_Some in Ef as (El & _). apply lookup_take_Some in El as [El _].
        cbn. apply lookup_lt_is_Some_2. rewrite length_insert, T2, T1. by apply lookup_lt_Some in El. }
      cbn [mbind option_bind]. eexists. split; [reflexivity|]. cbn. rewrite G2, G1. apply set_eq. intros x.
      rewrite !elem_of_difference, !elem_of_union, !elem_of_singleton. split; [tauto|].
      intros Hx. destruct (Hidle _ Hx) as (N1 & N2 & N3 & N4). split_and!; [tauto|intros ->; done..].
Qed.

(** ** Runs *)

Module ModPciRuns.

Definition one : modpci_params := Modpci_params [0] [1] [2].
Definition configured : modpci_st := snd (modpci_init 0x10 0x20 0 one empty_registry modpci_boot).
Definition board (remap : Z -> Z) : pci_dev := Pci_dev 1 2 true (fun _ => true) (fun _ => 4096) (fun _ => true) remap 0.

(** When only the on-board registers cannot be mapped, the mapping of the slots
    is kept, with nobody to give it back. *)
Lemma failed_probe_leaks :
  let '(rc, s) := probe (board (fun b => if b =? 3 then 0x1000 else 0)) configured in rc = - ENODEV /\ bool_decide ((KMAPPED, 3) ∈ mp_held s) = true.
Proof. vm_compute. split; reflexivity. Qed.

(** A module that fails to load stays registered as a carrier. *)
Lemma failed_init_stays_registered :
  let '(rc, r, _) := modpci_init 0x10 0x20 0 (Modpci_params [0] [] []) empty_registry modpci_boot in
  rc = -1 /\ modulbus_carrier_as_entry MODPCI_NAME r = 0x10.
Proof. vm_compute. split; reflexivity. Qed.

(** A slot without a handler hides the interrupt of the slot after it. *)
Lemma second_slot_unserved cb :
  modpci_interrupt cb (Mod_pci 0 1 2 0x1000 0x2000) 0 (snd (modpci_register_isr 0x99 7 0 1 configured)) = Some (0, []).
Proof. vm_compute. reflexivity. Qed.

End ModPciRuns.
