(* ===== verification/VmodRuns.v ===== *)
(** * VMOD: concrete runs

    Two carriers in four slots each, analog outputs and a digital card behind
    them, and the inputs on which the drivers do something else than they say. *)

From stdpp Require Import strings.
From S2P Require Import Prelude VmeBus Tsi148 Tsi148Window VmeWindow VmeWindowInv VmeWindowMap VmeIrq VmeIrqInv VmeUser Modulbus Vmodio VmodioInv Vmod VmodInv VmodTtl VmodTtlInv.

Module VmodRuns.

Definition good : venv := Venv (fun _ => true) (fun _ => kenv_pci) (fun _ => kenv_pci) (fun _ _ => 0).

Definition vectors : istate := (vme_bridge_init_interrupts 0 1 (istate_boot ∅)).2.

Definition start : vsys chip := Vsys vmodio_boot empty_registry (wstate_boot (∅ : chip)) vectors.

(** [&device_table], [vmodio_interrupt()] and the two entry points. *)
Definition table : Z := 0x5000.
Definition isr : Z := 0x100.
Definition gas : Z := 0x200.
Definition risr : Z := 0x300.

Definition init_run (p : vmodio_params) : option (Z * vsys chip) := vmodio_init table isr gas risr good p start.
Definition state_of (r : option (Z * vsys chip)) : vsys chip := match r with Some (_, s) => s | None => start end.

Definition two_boards : vmodio_params := Vmodio_params [0; 1] [0x1200; 0xa800] [126; 142].

Lemma two_boards_ok : params_ok two_boards.
Proof.
  split_and!; try reflexivity.
  - repeat apply Forall_cons_2; try apply Forall_nil_2; unfold base_ok, VMODIO_WINDOW_LENGTH; lia.
  - repeat apply Forall_cons_2; try apply Forall_nil_2; (split; [lia|reflexivity]).
  - apply (bool_decide_unpack _). vm_compute. exact I.
  - apply (bool_decide_unpack _). vm_compute. exact I.
Qed.

Lemma start_sane : sane start.
Proof.
  split; [|split; [reflexivity|apply reach_ok_boot, no_window_translates]].
  split_and!; try reflexivity; try apply grid_replicate. cbn. repeat constructor.
Qed.

Definition running : vsys chip := state_of (init_run two_boards).

Lemma two_boards_run : vmodio_init table isr gas risr good two_boards start = Some (0, running).
Proof. vm_compute. reflexivity. Qed.

(** A handler is registered for slot 2 of board 1. *)
Lemma vmodio_interrupt_routed_witness :
  vec_lookup (vs_i running) 139 = Some (isr, irq_cell table 1 2) /\
  vmodio_interrupt table (fun _ _ => 0) (irq_cell table 1 2)
    (fold_left register_one [(0x77, 5, 1, 2)] (vs_v running)) = Some (IRQ_HANDLED, [(0x77, 5)]).
Proof.
  destruct (vmodio_interrupt_routed table isr gas risr good two_boards start running [(0x77, 5, 1, 2)]
              (fun _ _ => 0) 1 2) as [H1 H2].
  - discriminate.
  - intros ?. exact kenv_pci_ok.
  - intros ? ?. discriminate.
  - exact two_boards_ok.
  - repeat constructor; cbn; lia.
  - exact start_sane.
  - exact two_boards_run.
  - cbn. lia.
  - unfold VMODIO_SLOTS. lia.
  - split; [exact H1|exact H2].
Defined.

(** An output module in slot 3 of the second board. *)
Definition one_output : vmod_params := Vmod_params [6] [VMODIO_NAME] [1] [3].
Definition no_other : Z -> Z -> Z -> Z -> option carrier_as := fun _ _ _ _ => None.
Definition output_devs : vmod_devices :=
  snd (read_params (call_gas gas running no_other) (vs_r running) one_output no_vmods).

Lemma vmod_output_reaches_slot_witness :
  exists a, vmod12a2_ioctl true (VMOD12A2_IOCPUT 1 0x7ff) output_devs 0 = Some (0, [W16 a 0x7ff true]) /\
    reaches (vs_w running) a 0xae02.
Proof.
  destruct (vmod_output_reaches_slot table isr gas risr good two_boards start running no_other one_output output_devs 0 1)
    as (_ & _ & Hio).
  - discriminate.
  - intros ?. exact kenv_pci_ok.
  - intros ? ?. discriminate.
  - exact two_boards_ok.
  - exact start_sane.
  - exact empty_registry_ok.
  - exact two_boards_run.
  - vm_compute. reflexivity.
  - apply NoDup_singleton.
  - cbn. lia.
  - reflexivity.
  - cbn. lia.
  - reflexivity.
  - destruct (Hio 1 0x7ff) as [Ha _]; [by right|]. exact Ha.
Defined.

(** ** Departures *)

(** The invocation the source gives: bases 126 and 130 both take vector 123 (slot
    2 of the first board, slot 3 of the second), so the driver does not load, and
    the vectors of the first board keep the handler of a driver that is not
    there. *)
Definition documented : vmodio_params := Vmodio_params [0; 1; 4] [0x1200; 0xa800; 0x6000] [126; 130; 142].

Lemma documented_init_fails :
  let r := init_run documented in
  option_map fst r = Some (-1) /\ vec_lookup (vs_i (state_of r)) 126 = Some (isr, irq_cell table 0 0) /\
  modulbus_carrier_as_entry VMODIO_NAME (vs_r (state_of r)) = 0.
Proof. vm_compute. split_and!; reflexivity. Qed.

(** The first and the last board of it: number 4 is not below the number of
    boards, so its slots have addresses, and no handler can be registered. *)
Definition sparse : vmodio_params := Vmodio_params [0; 4] [0x1200; 0x6000] [126; 142].

Lemma sparse_board_unserved :
  let r := init_run sparse in
  option_map fst r = Some 0 /\ vmodio_get_address_space (vs_v (state_of r)) 4 0 1 <> None /\
  fst (vmodio_register_isr 0x77 5 4 0 (vs_v (state_of r))) = -1.
Proof. vm_compute. split_and!; try reflexivity; discriminate. Qed.

(** A base that does not end in 14: its vectors are granted, and no slot is
    found for the first. *)
Definition odd_base : vmodio_params := Vmodio_params [0] [0x1200] [130].

Lemma odd_base_unserved :
  let r := init_run odd_base in
  option_map fst r = Some 0 /\ vec_lookup (vs_i (state_of r)) 130 = Some (isr, irq_cell table 0 0) /\
  vmodio_interrupt table (fun _ _ => 0) (irq_cell table 0 0) (register_one (vs_v (state_of r)) (0x77, 5, 0, 0)) = Some (IRQ_NONE, []).
Proof. vm_compute. split_and!; reflexivity. Qed.

(** The exit gives the vectors back, and keeps the mappings. *)
Lemma exit_keeps_windows :
  let s := running in
  let s' := vmodio_exit (fun _ _ => 0) s in
  vec_lookup (vs_i s') 142 = None /\ vs_w s' = vs_w s /\ reachable_ok (vs_w s) /\
  existsb (fun i => w_active (get_win (vs_w s') i)) window_indices = true.
Proof.
  split; [vm_compute; reflexivity|]. split; [reflexivity|]. split; [|vm_compute; reflexivity].
  apply (init_spec table isr gas risr ltac:(discriminate) good ltac:(intros ?; exact kenv_pci_ok) ltac:(intros ? ?; discriminate)
           two_boards start _ two_boards_ok start_sane two_boards_run).
Qed.

(** A number that no module has opens, and the output then uses memory outside
    the table. *)
Lemma unknown_module_crashes :
  vmod12a2_open output_devs 7 = (0, Some (2 ^ 32 - 1)) /\
  vmod12a2_ioctl true (VMOD12A2_IOCPUT 0 1) output_devs (2 ^ 32 - 1) = None.
Proof. vm_compute. split; reflexivity. Qed.

(** Seventeen digital cards are accepted by the parameters and overrun the table
    of the driver. *)
Lemma vmoddor_table_overrun : vmoddor_init (0, Vmod_devices 17 (replicate 64 no_vmod)) true true true = None.
Proof. vm_compute. reflexivity. Qed.

(** The device file of the card with number 6 reaches an entry that is not its
    own. *)
Definition dor_table : list vmoddor_dev := match vmoddor_init (0, output_devs) true true true with Some (_, t) => t | None => [] end.

Lemma vmoddor_minor_is_index :
  (dor_lun <$> dor_table !! 0%nat) = Some 6 /\
  vmoddor_ioctl true (VMODDOR_WRITE (Vmoddor_arg 1 16 0)) dor_table 6 = Some (0, [W16 0 1 false]).
Proof. vm_compute. split; reflexivity. Qed.

End VmodRuns.

Module VmodTtlRuns.

(** Lines that show their port number. *)
Definition lines : nat -> Z -> Z := fun _ off => off.

Definition found (st : cio_state) : vmodttl_dev := Vmodttl_dev 0 0 0 0 no_config no_vmod (Cio st 0x15 ∅ [] 0) [].

Definition outputs : vmodttlconfig := Ttlconfig 3 5 0 0 0 0 (replicate NR_BITS no_pattern) (replicate NR_BITS no_pattern).

Definition demo_ops : list (bool * bool * ttlcmd) :=
  [(true, true, VMODTTL_CONFIG outputs); (true, true, VMODTTL_READ_CHAN 1); (true, false, VMODTTL_READ_CONFIG)].

Definition ttl_end : vmodttl_dev := match ttl_run lines demo_ops (vmodttl_default lines (found State1)) with Some d => d | None => found State0 end.

Lemma ttl_config_in_force_witness :
  in_force ttl_end /\ fst (vmodttl_write_chan lines 2 0x1234 ttl_end) = 0 /\
  c_ports (t_chip (snd (vmodttl_write_chan lines 2 0x1234 ttl_end))) =
    c_ports (t_chip ttl_end) ++ [PortW VMODTTL_PORTA 0x34; PortW VMODTTL_PORTB 0x12; PortW VMODTTL_PORTC 3; Delay 5; PortW VMODTTL_PORTC 0].
Proof.
  destruct (ttl_config_in_force lines (found State1) demo_ops ttl_end) as (H1 & _ & _ & Hw & _); [vm_compute; reflexivity|].
  split; [exact H1|]. specialize (Hw 2 0x1234). destruct (vmodttl_write_chan lines 2 0x1234 ttl_end) as [rc d']. exact Hw.
Defined.

(** ** Departures *)

(** A pattern is stored at the position the caller gives, past the table. *)
Lemma pattern_overruns d : vmodttl_dev_ioctl lines true true (VMODTTL_PATTERN (Pattern 0 8 0 0 0)) d = None.
Proof. reflexivity. Qed.

(** The patterns of port B replace those of port A. *)
Lemma pattern_b_goes_to_a :
  let x := Pattern 1 3 1 1 0 in
  option_map (fun r => let c := ioconfig (snd r) in (cf_bit_pattern_a c !! 3%nat, cf_bit_pattern_b c !! 3%nat))
    (vmodttl_dev_ioctl lines true true (VMODTTL_PATTERN x) (found State0)) = Some (Some x, Some no_pattern).
Proof. reflexivity. Qed.

(** A configuration that is refused is the one that is read back. *)
Lemma refused_config_read_back :
  let bad := Ttlconfig 8 5 0 0 0 0 [] [] in
  exists d, vmodttl_dev_ioctl lines true true (VMODTTL_CONFIG bad) ttl_end = Some (- EINVAL, TNone, d) /\
    vmodttl_dev_ioctl lines true true VMODTTL_READ_CONFIG d = Some (0, TConfig bad, d) /\ io_flag d = 3.
Proof. eexists. split_and!; [reflexivity|reflexivity|vm_compute; reflexivity]. Qed.

(** The range check looks at the low byte of a channel, the read at all of it:
    channel 256 is none, and gives 0 where the lines are not. *)
Lemma channel_256_read :
  option_map fst (vmodttl_dev_ioctl lines true true (VMODTTL_READ_CHAN 256) ttl_end) = Some (0, TVal 0) /\
  option_map fst (vmodttl_dev_ioctl lines true true (VMODTTL_READ_CHAN 0) ttl_end) = Some (0, TVal 4).
Proof. vm_compute. split; reflexivity. Qed.

(** The SIMPIO ioctl programs the chip without the lock. *)
Lemma simpio_unlocked d : exists d', vmodttl_dev_ioctl lines true true VMODTTL_SIMPIO d = Some (0, TNone, d') /\ t_log d' = t_log d.
Proof.
  eexists. split; [reflexivity|]. unfold vmodttl_def_io.
  assert (forall l d, t_log (fold_left put_reg l d) = t_log d) as Hl by (intros l; induction l as [|x l IH]; intros d0; [done|]; cbn; by rewrite IH).
  set (d1 := fold_left _ _ _). assert (t_log d1 = t_log d) as <- by apply Hl. clearbody d1.
  unfold vmodttl_read_word. by destruct (cio_read _ _ _).
Qed.

(** The device of the second module is not allocated: the first stays. *)
Lemma ttl_init_leaks :
  option_map snd (vmodttl_init lines (0, Vmod_devices 2 (Vmod_dev 0 EmptyString 0 0 0 0 :: replicate 63 (Vmod_dev 1 EmptyString 0 1 0 0)))
    true true (fun i => ((i =? 0)%nat, true)) (fun _ => Cio State0 0 ∅ [] 0)) =
  Some [Acq KREGION 0; Acq KCDEV 0; Acq KPD 0; Acq KMESSAGES 0; Rel KCDEV 0; Rel KREGION 0].
Proof. vm_compute. reflexivity. Qed.

(** One module with number 5: at the exit entry 0 is looked at, and nothing is
    freed. *)
Lemma exit_frees_nothing :
  option_map (fun r => let '(_, devs, t, _) := r in vmodttl_exit empty_registry devs t)
    (vmodttl_init lines (0, Vmod_devices 1 (replicate 64 (Vmod_dev 5 EmptyString 0 0 0 0))) true true (fun _ => (true, true)) (fun _ => Cio State0 0 ∅ [] 0)) =
  Some ([Rel KCDEV 0; Rel KREGION 0], []).
Proof. vm_compute. reflexivity. Qed.

(** A board that is open is opened again with its descriptor as the answer. *)
Lemma second_open_gives_fd :
  option_map fst (vmodttl_open 2 (Some 9) (Ttllib (<[2%nat := 7]> (replicate 64 0)) {[ 7 := 2 ]} (replicate 64 (Some (found State0))))) = Some 7.
Proof. reflexivity. Qed.

End VmodTtlRuns.
