(* ===== verification/VmeLib.v ===== *)
(** * The user library of the bridge ([vmebridge/lib/libvmebus.c])

    A process with open files, a page table and a heap, on top of the ioctls and
    the [mmap] method of the window device.  [vme_map()] and [vme_unmap()], the
    CES calls for user programs, bus errors and DMA. *)

From stdpp Require Import strings.
From S2P Require Import Prelude VmeBus Tsi148 Tsi148Window VmeWindow VmeIrq Tsi148Dma VmeDma VmeUser.

Definition set_user_va (v : Z) (d : vme_mapping) : vme_mapping :=
  Vme_mapping (window_num d) (kernel_va d) v (fd d) (window_enabled d) (data_width d) (am d) (read_prefetch_enabled d)
    (read_prefetch_size d) (v2esst_mode d) (bcast_select d) (pci_addru d) (pci_addrl d) (sizeu d) (sizel d) (vme_addru d) (vme_addrl d).
Definition set_desc_fd (v : Z) (d : vme_mapping) : vme_mapping :=
  Vme_mapping (window_num d) (kernel_va d) (user_va d) v (window_enabled d) (data_width d) (am d) (read_prefetch_enabled d)
    (read_prefetch_size d) (v2esst_mode d) (bcast_select d) (pci_addru d) (pci_addrl d) (sizeu d) (sizel d) (vme_addru d) (vme_addrl d).

(** ** The process

    A file is alive while a descriptor or a page refers to it; the release
    method of the device is called when the last reference goes. *)

Section Lib.
Context {H : Type} `{!WindowHw H}.

Record proc := Proc {
  pr_s : ustate H;                   (* the driver *)
  pr_fds : gmap Z Z;                 (* descriptors: the [struct file] *)
  pr_pages : gmap Z (Z * Z);         (* pages: the file, the PCI page *)
  pr_heap : gmap Z vme_mapping;      (* descriptors allocated by [calloc()] *)
}.

Definition with_s (u : ustate H) (s : proc) : proc := Proc u (pr_fds s) (pr_pages s) (pr_heap s).
Definition with_wins (w : wstate H) (s : proc) : proc := with_s (Ustate w (us_i (pr_s s))) s.
Definition with_fds (f : gmap Z Z) (s : proc) : proc := Proc (pr_s s) f (pr_pages s) (pr_heap s).
Definition with_pages (p : gmap Z (Z * Z)) (s : proc) : proc := Proc (pr_s s) (pr_fds s) p (pr_heap s).
Definition with_heap (h : gmap Z vme_mapping) (s : proc) : proc := Proc (pr_s s) (pr_fds s) (pr_pages s) h.

(** What the kernel answers in one call of the library: [open()]; the ioctl that
    finds a mapping and the window it may create; [mmap()] of a number
    of pages ([None]: no free address); the ioctl that releases a mapping and the window it may destroy;
    the release method; [calloc()]. *)
Record lenv := Lenv {
  le_open : option (Z * Z);
  le_find : kenv;
  le_create : kenv;
  le_mmap : kenv;
  le_remap : Z;
  le_va : Z -> option Z;
  le_release : kenv;
  le_destroy : kenv;
  le_close : kenv;
  le_calloc : Z;
}.

Definition in_use (f : Z) (s : proc) : bool :=
  bool_decide (map_Exists (fun _ g => g = f) (pr_fds s)) || bool_decide (map_Exists (fun _ g => g.1 = f) (pr_pages s)).

Definition drop_file (k : kenv) (f : Z) (s : proc) : proc :=
  if in_use f s then s else with_wins (vme_window_release k f (us_w (pr_s s))).2 s.

Definition sys_open (e : lenv) (s : proc) : option (Z * proc) :=
  match le_open e with
  | None => None
  | Some (n, f) => Some (n, with_fds (<[n := f]> (pr_fds s)) s)
  end.

Definition sys_close (k : kenv) (n : Z) (s : proc) : Z * proc :=
  match pr_fds s !! n with
  | None => (-1, s)
  | Some f => (0, drop_file k f (with_fds (delete n (pr_fds s)) s))
  end.

Definition no_berr : vme_bus_error_desc := Vme_bus_error_desc (Vme_bus_error 0 0) 0.

Definition sys_ioctl (k k2 : kenv) (n : Z) (cmd : wcmd) (d : vme_mapping) (v : Z) (b : vme_bus_error_desc) (s : proc) : Z * uout * proc :=
  match pr_fds s !! n with
  | None => (-1, OutNone, s)
  | Some f =>
      let '(rc, out, u) := vme_window_ioctl (Uenv true true d v b) k k2 f cmd (pr_s s) in
      (if rc <? 0 then -1 else rc, out, with_s u s)
  end.

Definition pages_of (len : Z) : Z := Z.shiftr (u32 (len + 0xfff)) PAGE_SHIFT.

Definition area (f va pa n : Z) : gmap Z (Z * Z) := list_to_map ((fun i => (va + i, (f, pa + i))) <$> seqZ 0 n).

(** [mmap()] of a file of the window device; [None] is [MAP_FAILED]. *)
Definition sys_mmap (e : lenv) (size n page_addr : Z) (s : proc) : option Z * proc :=
  let np := pages_of size in
  if np =? 0 then (None, s) else
  match pr_fds s !! n, le_va e np with
  | Some f, Some va =>
      let '(rc, w) := vme_window_mmap (le_mmap e) f (Z.shiftr page_addr PAGE_SHIFT) va (va + np * PAGE_SIZE) (le_remap e) (us_w (pr_s s)) in
      let s := with_wins w s in
      if truthy rc then (None, s)
      else (Some va, with_pages (area f (Z.shiftr va PAGE_SHIFT) (Z.shiftr page_addr PAGE_SHIFT) np ∪ pr_pages s) s)
  | _, _ => (None, s)
  end.

Definition sys_munmap (k : kenv) (addr size : Z) (s : proc) : Z * proc :=
  let np := pages_of size in
  if truthy (Z.land addr 0xfff) || (np =? 0) then (-1, s) else
  let p := Z.shiftr addr PAGE_SHIFT in
  let out := filter (fun x => p <= x.1 < p + np) (pr_pages s) in
  let s := with_pages (filter (fun x => ~ p <= x.1 < p + np) (pr_pages s)) s in
  (0, foldr (fun f s => drop_file k f s) s (remove_dups ((fun x => x.2.1) <$> map_to_list out))).

(** ** Mapping *)

Definition __page_addr (address : Z) : Z := Z.land address (Z.lnot 0xfff).
Definition __page_aligned_size (d : vme_mapping) : Z := u32 (u32 (pci_addrl d + sizel d) - __page_addr (pci_addrl d)).
Definition __page_aligned_size_incr (d : vme_mapping) : Z := u32 (pci_addrl d - __page_addr (pci_addrl d)).

Definition vme_mmap (e : lenv) (d : vme_mapping) (s : proc) : Z * vme_mapping * proc :=
  match sys_mmap e (__page_aligned_size d) (fd d) (__page_addr (pci_addrl d)) s with
  | (None, s) => (-1, d, s)
  | (Some addr, s) => (0, set_user_va (u32 (addr + __page_aligned_size_incr d)) d, s)
  end.

Definition vme_munmap (k : kenv) (d : vme_mapping) (s : proc) : Z * proc :=
  sys_munmap k (u32 (user_va d - __page_aligned_size_incr d)) (__page_aligned_size d) s.

(** What an ioctl copies back. *)
Definition out_int (o : uout) : Z := match o with OutInt v => v | _ => 0 end.
Definition out_desc (o : uout) (d : vme_mapping) : vme_mapping := match o with OutDesc d => d | _ => d end.

Definition flag_ioctl (e : lenv) (n : Z) (cmd : wcmd) (v : Z) (s : proc) : Z * uout * proc :=
  sys_ioctl (le_find e) (le_find e) n cmd vme_mapping_zero v no_berr s.

(** The steps that [vme_map()] and [find_controller()] share once the flag is
    set: a mapping, its pages, and the flag as it was. *)
Definition mmap_found (e : lenv) (n : Z) (rc : Z) (d : vme_mapping) (org : Z) (s : proc) : option Z * vme_mapping * proc :=
  let restore s := (flag_ioctl e n VME_IOCTL_SET_CREATE_ON_FIND_FAIL org s).2 in
  if rc <? 0 then (None, d, restore s) else
  let '(rc, d, s) := vme_mmap e d s in
  if truthy rc then (None, d, restore s) else (Some (user_va d), d, restore s).

Definition find_and_mmap (e : lenv) (n : Z) (d : vme_mapping) (org : Z) (s : proc) : option Z * vme_mapping * proc :=
  let '(rc, out, s) := sys_ioctl (le_find e) (le_create e) n VME_IOCTL_FIND_MAPPING d 0 no_berr s in
  mmap_found e n rc (out_desc out d) org s.

Definition vme_map (e : lenv) (d : vme_mapping) (force : Z) (s : proc) : Z * vme_mapping * proc :=
  match sys_open e s with
  | None => (0, d, s)
  | Some (n, s) =>
      let d := set_desc_fd n d in
      let out_close d s := (0, d, (sys_close (le_close e) n s).2) in
      let '(rc, out, s) := flag_ioctl e n VME_IOCTL_GET_CREATE_ON_FIND_FAIL 0 s in
      if rc <? 0 then out_close d s else
      let org_force_create := out_int out in
      let '(rc, _, s) := flag_ioctl e n VME_IOCTL_SET_CREATE_ON_FIND_FAIL force s in
      if rc <? 0 then out_close d s else
      match find_and_mmap e n d org_force_create s with
      | (None, d, s) => out_close d s
      | (Some va, d, s) => (va, d, s)
      end
  end.

(** When the flag cannot be read it cannot be set either: the file is closed. *)
Definition release_with (e : lenv) (d : vme_mapping) (force : option Z) (s : proc) : Z * proc :=
  let '(org, s) :=
    match force with
    | None => (0, s)
    | Some f =>
        let '(_, out, s) := flag_ioctl e (fd d) VME_IOCTL_GET_DESTROY_ON_REMOVE 0 s in
        let '(_, _, s) := flag_ioctl e (fd d) VME_IOCTL_SET_DESTROY_ON_REMOVE f s in
        (out_int out, s)
    end in
  let '(rc, _, s) := sys_ioctl (le_release e) (le_destroy e) (fd d) VME_IOCTL_RELEASE_MAPPING d 0 no_berr s in
  let s := match force with None => s | Some _ => (flag_ioctl e (fd d) VME_IOCTL_SET_DESTROY_ON_REMOVE org s).2 end in
  (rc, (sys_close (le_close e) (fd d) s).2).

Definition vme_unmap (e : lenv) (desc : option vme_mapping) (force : Z) (s : proc) : Z * proc :=
  match desc with
  | None => (-1, s)
  | Some d =>
      let '(rc1, s) := vme_munmap (le_close e) d s in
      let '(rc2, s) := release_with e d (if truthy force then Some force else None) s in
      (if truthy rc1 || (rc2 <? 0) then -1 else 0, s)
  end.

(** ** The CES calls *)

(** The second result is stored in [param->sgmin]. *)
Definition user_find_controller (e : lenv) (vmeaddr len a size rdpref : Z) (s : proc) : Z * option Z * proc :=
  let p := le_calloc e in
  if p =? 0 then (0, None, s) else
  let free s := with_heap (delete p (pr_heap s)) s in
  let d := set_am a vme_mapping_zero in
  let d := if truthy rdpref then set_read_prefetch_size VME_PREFETCH_2 (set_read_prefetch_enabled 1 d) else d in
  let s := with_heap (<[p := d]> (pr_heap s)) s in
  if negb ((size =? 2) || (size =? 4)) then (0, None, free s) else
  let d := set_bcast_select 0 (set_data_width (if size =? 2 then VME_D16 else VME_D32) d) in
  let d := set_sizeu 0 (set_sizel (Z.land len (not32 0xffff)) d) in
  let d := set_vme_addru 0 (set_vme_addrl (Z.land vmeaddr (not32 0xffff)) d) in
  match sys_open e s with
  | None => (0, None, free s)
  | Some (n, s) =>
      let d := set_desc_fd n d in
      let '(rc, out, s) := flag_ioctl e n VME_IOCTL_GET_CREATE_ON_FIND_FAIL 0 s in
      if rc <? 0 then (0, None, free s) else
      let org_force_create := out_int out in
      let '(rc, _, s) := flag_ioctl e n VME_IOCTL_SET_CREATE_ON_FIND_FAIL 1 s in
      if rc <? 0 then (0, None, free s) else
      match find_and_mmap e n d org_force_create s with
      | (None, _, s) => (0, None, free s)
      | (Some va, d, s) => (va, Some p, with_heap (<[p := d]> (pr_heap s)) s)
      end
  end.

(** [None]: the descriptor was freed. *)
Definition user_return_controller (e : lenv) (desc : Z) (s : proc) : option (Z * proc) :=
  if desc =? 0 then Some (-1, s) else
  d ← pr_heap s !! desc;
  let '(rc1, s) := vme_munmap (le_close e) d s in
  let '(rc2, s) := release_with e d (Some 1) s in
  Some (if truthy rc1 || (rc2 <? 0) then -1 else 0, with_heap (delete desc (pr_heap s)) s).

(** ** Bus errors *)

Definition user_bus_error_check (e : lenv) (d : vme_mapping) (s : proc) : Z * proc :=
  let '(rc, out, s) := flag_ioctl e (fd d) VME_IOCTL_GET_BUS_ERROR 0 s in
  (if rc <? 0 then -1 else out_int out, s).

Definition user_bus_error_check_clear (e : lenv) (d : vme_mapping) (address : Z) (s : proc) : Z * proc :=
  let '(rc, out, s) := sys_ioctl (le_find e) (le_find e) (fd d) VME_IOCTL_CHECK_CLEAR_BUS_ERROR vme_mapping_zero 0
                         (Vme_bus_error_desc (Vme_bus_error address (am d)) 0) s in
  (if rc <? 0 then -1 else match out with OutBerr b => bed_valid b | _ => 0 end, s).

End Lib.

Arguments proc : clear implicits.

(** ** DMA

    [vme_dma_read()] and [vme_dma_write()] differ in the mode of the file, which
    the driver does not look at: the direction is a field of the descriptor. *)
Definition user_dma (opened : bool) (e : denv) (ch : dma_channel) (d : vme_dma) (x : xstate)
  : outcome (Z * option Z * dma_channel * xstate) :=
  if negb opened then Done (-1, None, ch, x) else
  match vme_dma_ioctl true true true e ch d x with
  | Done (rc, status, ch, x) => Done (if rc <? 0 then -1 else 0, status, ch, x)
  | Bug => Bug
  | OutOfFuel => OutOfFuel
  end.

(** ** Byte order *)

Definition swapbe16 (val : Z) : Z := u16 (Z.lor (Z.shiftr (Z.land val 0xff00) 8) (Z.shiftl (Z.land val 0xff) 8)).
Definition swapbe32 (val : Z) : Z :=
  u32 (Z.lor (Z.lor (Z.shiftr (Z.land val 0xff000000) 24) (Z.shiftr (Z.land val 0xff0000) 8))
             (Z.lor (Z.shiftl (Z.land val 0xff00) 8) (Z.shiftl (Z.land val 0xff) 24))).
