(* ===== verification/VmeLibInv.v ===== *)
(** * The user library: what is mapped is reached, what is unmapped is gone

    Through the pages of the process, the window of the mapping and the bridge,
    every byte at the address that [vme_map()] returns is the byte of the VME bus
    asked for; [vme_unmap()] puts the process and the table back. *)

From stdpp Require Import strings.
From S2P Require Import Prelude VmeBus Tsi148 Tsi148Window VmeWindow VmeWindowInv VmeWindowMap VmeIrq VmeUser VmeLib.

(** ** Windows under a search *)

Section Windows.
Context {H : Type} `{!WindowHw H} `{!WindowHwOk H}.
Implicit Types (st : wstate H) (d : vme_mapping).

Lemma find_rc_nonpos k kc d force file st : winv st -> (forall size, (k_pci kc size).1 <= 0) ->
  (forall d h, (hw_create_window d h).1.1 <= 0) -> (__vme_find_mapping k kc d force file st).1.1 <= 0.
Proof.
  intros Hi Hpci Hhw. unfold __vme_find_mapping.
  assert (vme_mapping_sanity_check d <= 0) by (unfold vme_mapping_sanity_check; cbv zeta; destruct (truthy _); unfold EINVAL; lia).
  case_goal; [done|].
  destruct (find_loop k d window_indices st) as [r st1] eqn:El. destruct (find_loop_spec _ _ _ _ _ _ El Hi) as [_ Hr].
  assert (forall w d, (add_mapping k w d file).1 <= 0) as Hadd by (intros; unfold add_mapping; case_goal; cbn; unfold ENOMEM; lia).
  destruct r as [rc|[i|]].
  - cbn. destruct Hr as [_ ->]. unfold ERESTARTSYS. lia.
  - specialize (Hadd (get_win st1 i) (place_mapping (get_win st1 i) i d)). by destruct (add_mapping _ _ _ _).
  - case_goal; [cbn; unfold EBUSY; lia|]. destruct (first_unused st1) as [j|]; [|cbn; unfold EBUSY; lia].
    set (e := vme_optimize_window_size _). assert ((vme_create_window kc e st1).1.1 <= 0) as Hc.
    { unfold vme_create_window. case_goal; [cbn; unfold EINVAL; lia|]. case_goal; [cbn; unfold EINVAL; lia|]. case_goal; [cbn; unfold ERESTARTSYS; lia|].
      cbv zeta. case_goal; [cbn; unfold EBUSY; lia|]. pose proof (Hpci (sizel (create_align e))) as Hp. destruct (k_pci kc _) as [rc start]. cbn in Hp.
      case_goal; [done|]. case_goal; [cbn; unfold ENOMEM; lia|].
      match goal with |- context [hw_create_window ?a ?b] => pose proof (Hhw a b) as Hh; destruct (hw_create_window a b) as [[rc1 d1] h] end. cbn in Hh.
      case_goal; [done|cbn; lia]. }
    destruct (vme_create_window kc e st1) as [[rc wnd] st2]. cbn in Hc. case_goal; [done|].
    specialize (Hadd (get_win st2 (window_num wnd)) (place_mapping (get_win st2 (window_num wnd)) (window_num wnd) d)). by destruct (add_mapping _ _ _ _).
Qed.

(** Flags of the driver. *)
Definition same_flags st st' : Prop :=
  vme_create_on_find_fail st' = vme_create_on_find_fail st /\ vme_destroy_on_remove st' = vme_destroy_on_remove st.

Lemma free_rsrc_flags i st : same_flags st (free_rsrc i st).
Proof. unfold free_rsrc. by case_goal. Qed.

Lemma create_flags k d st : same_flags st (vme_create_window k d st).2.
Proof.
  assert (forall n st', same_flags st st' -> same_flags st (unlock n (free_rsrc n st'))) as Hfree.
  { intros n st' [E1 E2]. destruct (free_rsrc_flags n st') as [F1 F2]. split; [exact (eq_trans F1 E1)|exact (eq_trans F2 E2)]. }
  unfold vme_create_window. destruct (bad_window _); [done|]. destruct (sizel d =? 0); [done|]. destruct (k_intr _ _); [done|]. cbv zeta. destruct (w_active _); [done|].
  set (st2 := if k_name k then _ else _). assert (same_flags st st2) as H2 by (subst st2; by destruct (k_name k)). clearbody st2.
  destruct (k_pci k _) as [rc start]. destruct (truthy rc); [apply Hfree; exact H2|].
  destruct (kernel_va _ =? 0); [apply Hfree; exact H2|].
  destruct (hw_create_window _ _) as [[rc1 d1] h]. destruct (truthy rc1); [apply Hfree; exact H2|exact H2].
Qed.

Lemma find_flags k kc d force file st : winv st -> same_flags st (__vme_find_mapping k kc d force file st).2.
Proof.
  intros Hi. unfold __vme_find_mapping. case_goal; [done|].
  destruct (find_loop k d window_indices st) as [r st1] eqn:El. destruct (find_loop_spec _ _ _ _ _ _ El Hi) as [(_ & _ & Hs) _].
  destruct r as [rc|[i|]]; [exact Hs|by destruct (add_mapping _ _ _ _)|].
  case_goal; [exact Hs|]. destruct (first_unused st1); [|exact Hs].
  match goal with |- context [vme_create_window ?k ?d ?s] => pose proof (create_flags k d s) as Hc; destruct (vme_create_window k d s) as [[rc wnd] st2] end.
  cbn in Hc. unfold same_flags in *. destruct Hs as [S1 S2], Hc as [C1 C2].
  case_goal; [cbn; by rewrite C1, C2|]. destruct (add_mapping _ _ _ _). cbn. by rewrite C1, C2.
Qed.

(** A window in use stays as it is. *)
Lemma find_keeps_active k kc d force file st i : winv st -> in_table i -> w_active (get_win st i) = true ->
  let st' := (__vme_find_mapping k kc d force file st).2 in
  w_active (get_win st' i) = true /\ w_desc (get_win st' i) = w_desc (get_win st i).
Proof.
  intros Hi Hin Hact. unfold __vme_find_mapping. case_goal; [done|].
  destruct (find_loop k d window_indices st) as [r st1] eqn:El. destruct (find_loop_spec _ _ _ _ _ _ El Hi) as [Hst Hr].
  pose proof (same_table_get _ _ i Hst) as Hg. destruct r as [rc|[j|]]; [cbn [snd]; by rewrite Hg| |].
  - destruct Hr as (Hj & _ & Hs & _). apply window_indices_in in Hj. destruct (add_mapping k _ _ file) as [rc w] eqn:Ea.
    apply add_mapping_inv in Ea as (E1 & E2 & _). cbn [snd]. unfold unlock. rewrite get_win_klog.
    destruct (decide (j = i)) as [->|Hne]; [rewrite get_set_win_eq by (done || apply Hs); by rewrite E1, E2, Hg|by rewrite get_set_win_ne, Hg by done].
  - destruct Hr as [Hi1 _]. destruct (negb (truthy force)); [cbn [snd]; by rewrite Hg|].
    destruct (first_unused st1) as [j|] eqn:Ef; [|cbn [snd]; by rewrite Hg]. apply first_unused_spec in Ef as [Hj Hja].
    assert (i <> j) as Hne by (intros ->; congruence).
    set (e := vme_optimize_window_size _). assert (window_num e = j) as Hnum by (unfold e, vme_optimize_window_size; by destruct (_ =? 0)).
    assert (forall rc wnd st2, vme_create_window kc e st1 = (rc, wnd, st2) ->
      w_active (get_win st2 i) = true /\ w_desc (get_win st2 i) = w_desc (get_win st i)) as Hc.
    { intros rc wnd st2 Ec. rewrite <- Hg in Hact |- *. destruct (decide (rc = 0)) as [->|Hrc].
      - apply vme_create_window_ok in Ec as (_ & _ & _ & _ & Ho & _); [|apply Hi1]. by rewrite Ho by (done || congruence).
      - destruct (create_fail_keeps _ _ _ _ _ _ Ec Hrc (proj1 Hi1)) as (_ & _ & Hk). destruct (Hk i Hin) as [-> ->]. done. }
    destruct (vme_create_window kc e st1) as [[rc wnd] st2] eqn:Ec. specialize (Hc _ _ _ eq_refl).
    destruct (truthy rc) eqn:Er; [done|]. assert (rc = 0) as -> by (unfold truthy in Er; boolp; done).
    apply vme_create_window_ok in Ec as (_ & _ & _ & Hwn & _); [|apply Hi1]. rewrite Hwn, Hnum.
    destruct (add_mapping k _ _ file) as [rc w]. cbn [snd]. by rewrite get_set_win_ne by done.
Qed.

Lemma find_translates_more k kc d force file st i a v : reachable_ok st -> req_ok d -> kenv_ok kc -> in_table i ->
  hw_translate (whw st) i a = Some v -> hw_translate (whw (__vme_find_mapping k kc d force file st).2) i a = Some v.
Proof.
  intros Hr Hd Hk Hin Ht. pose proof (reachable_inv _ (reachable_ok_reachable _ Hr)) as Hi.
  pose proof (reachable_ok_agree _ Hr i Hin) as H1.
  pose proof (reachable_ok_agree _ (reach_ok_step (OpFind k kc d force file) st Hr (conj Hd Hk)) i Hin) as H2.
  change (run_op _ st) with (__vme_find_mapping k kc d force file st).2 in H2.
  destruct (w_active (get_win st i)) eqn:Ea; unfold win_agree in H1; rewrite Ea in H1; [|by rewrite H1 in Ht].
  destruct (find_keeps_active k kc d force file st i Hi Hin Ea) as [E1 E2].
  unfold win_agree in H2. rewrite E1, E2 in H2. destruct H1 as (_ & _ & H1), H2 as (_ & _ & H2). by rewrite H2, <- H1.
Qed.

(** A mapping that is granted is the last of its window; nothing else is
    changed. *)
Lemma find_frame k kc d force file st d' st' : winv st -> __vme_find_mapping k kc d force file st = (0, d', st') ->
  let n := window_num d' in
  in_table n /\ only_window n st st' /\ w_active (get_win st' n) = true /\
  (exists m, w_mappings (get_win st' n) = w_mappings (get_win st n) ++ [m] /\ m_desc m = d' /\ m_file m = file) /\
  w_users (get_win st' n) = w_users (get_win st n) + 1 /\
  (exists va pa, d' = set_window_num n (set_pci_addrl pa (set_kernel_va va d))).
Proof.
  intros Hi E. unfold __vme_find_mapping in E.
  assert (forall w i file rc w', add_mapping k w (place_mapping w i d) file = (rc, w') -> rc = 0 ->
    w_active w' = w_active w /\ (exists m, w_mappings w' = w_mappings w ++ [m] /\ m_desc m = place_mapping w i d /\ m_file m = file) /\ w_users w' = w_users w + 1) as Hadd.
  { intros w i g rc w' Ea ->. pose proof Ea as Ea'. apply add_mapping_inv in Ea as (E1 & _ & E3). split; [done|]. split; [by apply E3|].
    unfold add_mapping in Ea'. destruct (k_kzalloc k); [|done]. by injection Ea' as <-. }
  destruct (truthy (vme_mapping_sanity_check d)) eqn:Es; [injection E as E0 _ _; by rewrite E0 in Es|].
  destruct (find_loop k d window_indices st) as [r st1] eqn:El. destruct (find_loop_spec _ _ _ _ _ _ El Hi) as [Hst Hr].
  destruct r as [rc|[i|]].
  - destruct Hr as [_ ->]. unfold ERESTARTSYS in E. simplify_eq.
  - destruct Hr as (Hin & Hm & Hs & _). apply window_indices_in in Hin.
    destruct (add_mapping _ _ _ _) as [rc w] eqn:Ea. injection E as -> <- <-. destruct (Hadd _ _ _ _ _ Ea eq_refl) as (E1 & E2 & E3).
    rewrite (same_table_get _ _ i Hst) in E1, E2, E3. cbv zeta. cbn [window_num place_mapping set_window_num].
    unfold unlock. rewrite get_win_klog, get_set_win_eq by (done || apply Hs). apply window_matches_active in Hm. split; [done|]. split.
    { intros j Hj Hne. rewrite get_win_klog, get_set_win_ne by done. by apply same_table_get. }
    split; [by rewrite E1|]. split; [by rewrite (same_table_get _ _ i Hst)|]. split; [done|]. by eexists _, _.
  - destruct Hr as [Hi1 _]. destruct (negb (truthy force)); [simplify_eq|].
    destruct (first_unused st1) as [i|] eqn:Ef; [|simplify_eq]. apply first_unused_spec in Ef as [Hin Hina].
    destruct (vme_create_window _ _ _) as [[rc wnd] st2] eqn:Ec.
    destruct (truthy rc) eqn:Er; [injection E as -> _ _; done|]. assert (rc = 0) as -> by (unfold truthy in Er; boolp; done).
    assert (window_num (vme_optimize_window_size (set_window_num i d)) = i) as Hnum by (unfold vme_optimize_window_size; by destruct (_ =? 0)).
    pose proof (vme_create_window_inv kc (vme_optimize_window_size (set_window_num i d)) st1 Hi1) as Hi2. rewrite Ec in Hi2. cbn in Hi2.
    pose proof (vme_create_window_ok _ _ _ _ _ Ec (proj1 Hi1)) as (_ & _ & _ & Hwn & Ho & Hact & _ & Hmp & Hus & _). rewrite Hnum in *. rewrite Hwn in E.
    destruct (add_mapping _ _ _ _) as [rc w] eqn:Ea. injection E as -> <- <-. destruct (Hadd _ _ _ _ _ Ea eq_refl) as (E1 & E2 & E3).
    rewrite Hmp, (same_table_get _ _ i Hst) in E2. rewrite Hus, (same_table_get _ _ i Hst) in E3. cbv zeta. cbn [window_num place_mapping set_window_num].
    rewrite get_set_win_eq by (done || apply Hi2). split; [done|]. split.
    { intros j Hj Hne. rewrite get_set_win_ne, Ho by done. by apply same_table_get. }
    split; [by rewrite E1|]. split; [exact E2|]. split; [done|]. by eexists _, _.
Qed.

(** ** Windows under [mmap] and close *)

Lemma mmap_same_table k file a sz r idx : forall st, same_table st (mmap_loop k file a sz r idx st).2.
Proof.
  induction idx as [|i idx IH]; intros st; [done|]. cbn [mmap_loop]. destruct (k_intr k i); [done|]. cbv zeta. destruct (w_active _ && _); [done|].
  exact (IH (unlock i (lock i st))).
Qed.

(** No mapping belongs to [file]. *)
Definition owns_none (file : Z) st : Prop := forall i m, in_table i -> m ∈ w_mappings (get_win st i) -> m_file m <> file.

Lemma release_window_none file w : (forall m, m ∈ w_mappings w -> m_file m <> file) -> release_window file w = w.
Proof.
  intros Hm. unfold release_window. destruct (negb (w_active w) || _); [done|].
  assert (filter (fun m => m_file m <> file) (w_mappings w) = w_mappings w) as ->.
  { generalize dependent (w_mappings w). intros l Hm. induction l as [|m l IH]; [done|]. rewrite filter_cons_True by (apply Hm; by left).
    f_equal. apply IH. intros x Hx. apply Hm. by right. }
  unfold set_mappings. destruct w. cbn. f_equal. lia.
Qed.

Lemma set_win_get st i : in_table i -> length (wins st) = 8%nat -> wins (set_win i (get_win st i) st) = wins st.
Proof.
  intros Hi Hl. unfold in_table in Hi. cbn. destruct (lookup_lt_is_Some_2 (wins st) (Z.to_nat i)) as [w Hw]; [lia|].
  unfold get_win. rewrite Hw. by apply list_insert_id.
Qed.

Lemma release_loop_none k file idx : Forall in_table idx -> forall st, length (wins st) = 8%nat -> owns_none file st ->
  same_table st (release_loop k file idx st).2.
Proof.
  intros Hidx. induction idx as [|i idx IH]; intros st Hl Ho; [done|]. apply Forall_cons in Hidx as [Hi Hidx]. cbn [release_loop].
  case_goal; [done|]. cbv zeta. rewrite get_win_lock, release_window_none by (intros m Hm; by apply (Ho i)).
  set (st1 := unlock i _). assert (same_table st st1) as H1.
  { split; [|done]. change (wins (set_win i (get_win st i) st) = wins st). by apply set_win_get. }
  destruct (IH Hidx st1) as (S1 & S2 & S3 & S4).
  - destruct H1 as [-> _]. done.
  - intros j m Hj. rewrite (same_table_get _ _ j H1). by apply Ho.
  - destruct H1 as (T1 & T2 & T3 & T4). split_and!; congruence.
Qed.

Lemma same_table_trans st1 st2 st3 : same_table st1 st2 -> same_table st2 st3 -> same_table st1 st3.
Proof. intros (A1 & A2 & A3 & A4) (B1 & B2 & B3 & B4). split_and!; congruence. Qed.

End Windows.

(** ** The process *)

Section Process.
Context {H : Type} `{!WindowHw H} `{!WindowHwOk H}.
Implicit Types (s : proc H) (d : vme_mapping) (e : lenv).

Notation wst s := (us_w (pr_s s)).

Lemma with_s_id s : with_s (pr_s s) s = s.
Proof. by destruct s. Qed.

(** What the flag ioctls do on an open file. *)
Definition on_flags (f : wstate H -> wstate H) s : proc H := with_wins (f (wst s)) s.

Lemma flag_ioctls e n f v s : pr_fds s !! n = Some f ->
  flag_ioctl e n VME_IOCTL_GET_CREATE_ON_FIND_FAIL v s = (0, OutInt (vme_create_on_find_fail (wst s)), s) /\
  flag_ioctl e n VME_IOCTL_SET_CREATE_ON_FIND_FAIL v s = (0, OutNone, on_flags (set_create_flag v) s) /\
  flag_ioctl e n VME_IOCTL_GET_DESTROY_ON_REMOVE v s = (0, OutInt (vme_destroy_on_remove (wst s)), s) /\
  flag_ioctl e n VME_IOCTL_SET_DESTROY_ON_REMOVE v s = (0, OutNone, on_flags (set_destroy_flag v) s).
Proof.
  intros Hf. unfold flag_ioctl, sys_ioctl. rewrite Hf. cbn. rewrite with_s_id. by split_and!.
Qed.

(** The answers of the kernel: a fresh file and descriptor, PCI resources, errors
    that are negative, and free pages for [mmap()]. *)
Record env_good e s : Prop := {
  eg_open n f : le_open e = Some (n, f) -> pr_fds s !! n = None /\ in_use f s = false /\ f <> 0 /\ owns_none f (wst s);
  eg_create : kenv_ok (le_create e);
  eg_pci size : (k_pci (le_create e) size).1 <= 0;
  eg_va np va : le_va e np = Some va -> 0 < va /\ va mod PAGE_SIZE = 0 /\ va + np * PAGE_SIZE <= 2 ^ 32 /\
    forall i, 0 <= i < np -> pr_pages s !! (Z.shiftr va PAGE_SHIFT + i) = None;
}.

(** What a chip that refuses a window answers. *)
Variable hw_errno : forall d h, (hw_create_window d h).1.1 <= 0.

Lemma sys_mmap_spec e size n pa s : 
  let '(r, s') := sys_mmap e size n pa s in
  pr_fds s' = pr_fds s /\ pr_heap s' = pr_heap s /\ us_i (pr_s s') = us_i (pr_s s) /\ same_table (wst s) (wst s') /\
  match r with
  | None => pr_pages s' = pr_pages s
  | Some va => exists f, pr_fds s !! n = Some f /\ le_va e (pages_of size) = Some va /\
      pr_pages s' = area f (Z.shiftr va PAGE_SHIFT) (Z.shiftr pa PAGE_SHIFT) (pages_of size) ∪ pr_pages s
  end.
Proof.
  unfold sys_mmap. cbv zeta. destruct (pages_of size =? 0); [done|].
  destruct (pr_fds s !! n) as [f|] eqn:Ef; [|done]. destruct (le_va e (pages_of size)) as [va|] eqn:Ev; [|done].
  unfold vme_window_mmap. match goal with |- context [mmap_loop ?k ?f ?a ?z ?r ?i ?st] => pose proof (mmap_same_table k f a z r i st) as Hs; destruct (mmap_loop k f a z r i st) as [rc w] end.
  cbn [snd] in Hs. destruct (truthy rc); [by split_and!|]. split; [done|]. split; [done|]. split; [done|]. split; [exact Hs|]. by exists f.
Qed.

Lemma find_and_mmap_spec e n f d org s : winv (wst s) -> pr_fds s !! n = Some f -> fd d = n -> (forall size, (k_pci (le_create e) size).1 <= 0) ->
  let '(rc, d1, w1) := __vme_find_mapping (le_find e) (le_create e) d (vme_create_on_find_fail (wst s)) f (wst s) in
  let '(r, d', s') := find_and_mmap e n d org s in
  pr_fds s' = pr_fds s /\ pr_heap s' = pr_heap s /\ us_i (pr_s s') = us_i (pr_s s) /\
  wins (wst s') = wins w1 /\ whw (wst s') = whw w1 /\
  vme_create_on_find_fail (wst s') = org /\ vme_destroy_on_remove (wst s') = vme_destroy_on_remove (wst s) /\
  match r with
  | None => pr_pages s' = pr_pages s
  | Some va => rc = 0 /\ d' = set_user_va va d1 /\ exists base,
      let np := pages_of (__page_aligned_size d1) in
      le_va e np = Some base /\ va = u32 (base + __page_aligned_size_incr d1) /\
      pr_pages s' = area f (Z.shiftr base PAGE_SHIFT) (Z.shiftr (__page_addr (pci_addrl d1)) PAGE_SHIFT) np ∪ pr_pages s
  end.
Proof.
  intros Hi Hf Hfd Hpci. pose proof (find_rc_nonpos (le_find e) (le_create e) d (vme_create_on_find_fail (wst s)) f _ Hi Hpci hw_errno) as Hrc.
  pose proof (find_flags (le_find e) (le_create e) d (vme_create_on_find_fail (wst s)) f _ Hi) as [F1 F2].
  pose proof (find_frame (le_find e) (le_create e) d (vme_create_on_find_fail (wst s)) f (wst s)) as Hfr.
  unfold find_and_mmap, sys_ioctl. rewrite Hf. cbn [vme_window_ioctl u_from u_desc negb].
  destruct (__vme_find_mapping _ _ _ _ _ _) as [[rc d1] w1]. cbn [fst snd] in *. unfold copy_back, mmap_found. cbn [u_to negb].
  assert (forall s' : proc H, pr_fds s' !! n = Some f -> (flag_ioctl e n VME_IOCTL_SET_CREATE_ON_FIND_FAIL org s').2 = on_flags (set_create_flag org) s') as Hset.
  { intros s' Hs'. by destruct (flag_ioctls e n f org s' Hs') as (_ & -> & _). }
  destruct (truthy rc) eqn:Er.
  - assert (rc < 0) by (unfold truthy in Er; boolp; lia). rewrite (proj2 (Z.ltb_lt rc 0)) by done. cbn [Z.ltb Z.compare].
    rewrite Hset by done. by split_and!.
  - assert (rc = 0) as -> by (unfold truthy in Er; boolp; done). cbn [Z.ltb Z.compare out_desc].
    destruct (Hfr d1 w1 Hi eq_refl) as (_ & _ & _ & _ & _ & (va1 & pa1 & Ed)).
    assert (fd d1 = n) as Hfd1 by (rewrite Ed; exact Hfd).
    unfold vme_mmap. rewrite Hfd1. set (s1 := with_s _ _).
    pose proof (sys_mmap_spec e (__page_aligned_size d1) n (__page_addr (pci_addrl d1)) s1) as Hm.
    destruct (sys_mmap _ _ _ _ _) as [[base|] s2]; destruct Hm as (M1 & M2 & M3 & (M4 & M5 & M6 & M7) & M8).
    + destruct M8 as (f' & E1 & E2 & E3). change (pr_fds s1) with (pr_fds s) in E1. rewrite Hf in E1. injection E1 as <-.
      cbn [truthy Z.eqb negb]. rewrite Hset by (by rewrite M1). cbn [fst snd].
      split; [exact M1|]. split; [exact M2|]. split; [exact M3|]. split; [exact M4|]. split; [exact M5|]. split; [done|]. split; [exact (eq_trans M7 F2)|].
      split; [done|]. split; [done|]. exists base. by split_and!.
    + change (truthy (-1)) with true. cbv iota. rewrite Hset by (by rewrite M1). cbn [fst snd].
      split; [exact M1|]. split; [exact M2|]. split; [exact M3|]. split; [exact M4|]. split; [exact M5|]. split; [done|]. split; [exact (eq_trans M7 F2)|exact M8].
Qed.

(** ** Pages *)

Lemma area_lookup f va pa n i : 0 <= i < n -> area f va pa n !! (va + i) = Some (f, pa + i).
Proof.
  intros Hi. unfold area. apply elem_of_list_to_map_1.
  - rewrite <- list_fmap_compose. apply NoDup_fmap_2; [|apply NoDup_seqZ]. intros x y E. cbn in E. lia.
  - apply list_elem_of_fmap. exists i. split; [done|]. by apply elem_of_seqZ.
Qed.

Lemma area_lookup_none f va pa n p : ~ va <= p < va + n -> area f va pa n !! p = None.
Proof.
  intros Hp. apply not_elem_of_list_to_map_1. rewrite <- list_fmap_compose, list_elem_of_fmap. intros (i & -> & Hi%elem_of_seqZ). cbn in Hp. lia.
Qed.

Lemma area_file f va pa n p x : area f va pa n !! p = Some x -> x.1 = f.
Proof. unfold area. intros E%elem_of_list_to_map_2. apply list_elem_of_fmap in E as (i & [= -> ->] & _). done. Qed.

Lemma page_addr_val a : __page_addr a = a - a mod PAGE_SIZE.
Proof.
  unfold __page_addr. change 0xfff with (Z.ones 12). rewrite <- Z.ldiff_land, Z.ldiff_ones_r, Z.shiftl_mul_pow2, Z.shiftr_div_pow2 by lia.
  change PAGE_SIZE with (2 ^ 12). pose proof (Z.div_mod a (2 ^ 12)). lia.
Qed.

(** The page and the offset of a byte of a mapping. *)
Lemma page_split d base o : base mod PAGE_SIZE = 0 -> 0 <= pci_addrl d -> 0 <= sizel d <= 0xffff0000 -> pci_addrl d + sizel d < 2 ^ 32 -> 0 <= o < sizel d ->
  let incr := __page_aligned_size_incr d in
  let j := (incr + o) / PAGE_SIZE in
  0 <= incr < PAGE_SIZE /\ 0 <= j < pages_of (__page_aligned_size d) /\
  Z.shiftr (base + incr + o) PAGE_SHIFT = Z.shiftr base PAGE_SHIFT + j /\
  (Z.shiftr (__page_addr (pci_addrl d)) PAGE_SHIFT + j) * PAGE_SIZE + (base + incr + o) mod PAGE_SIZE = pci_addrl d + o.
Proof.
  intros Hb Hp Hs Hlt Ho. unfold __page_aligned_size_incr, __page_aligned_size, pages_of. rewrite page_addr_val.
  change PAGE_SIZE with 4096 in *. change PAGE_SHIFT with 12. rewrite !Z.shiftr_div_pow2 by lia. change (2 ^ 12) with 4096.
  pose proof (Z.mod_pos_bound (pci_addrl d) 4096 ltac:(lia)) as Hm.
  assert (pci_addrl d mod 4096 <= pci_addrl d) by (apply Z.mod_le; lia).
  rewrite (u32_id (pci_addrl d - _)) by (unfold is_u32; lia). rewrite (u32_id (pci_addrl d + _)) by (unfold is_u32; lia).
  rewrite (u32_id (pci_addrl d + sizel d - _)) by (unfold is_u32; lia). rewrite u32_id by (unfold is_u32; lia).
  replace (pci_addrl d - (pci_addrl d - pci_addrl d mod 4096)) with (pci_addrl d mod 4096) by lia. clear Hlt.
  split; [done|]. split; [Z.to_euclidean_division_equations; lia|]. split; Z.to_euclidean_division_equations; lia.
Qed.

(** ** What a process reaches *)

Definition user_reaches s (a v : Z) : Prop :=
  exists f pg i, pr_pages s !! Z.shiftr a PAGE_SHIFT = Some (f, pg) /\ in_table i /\
  hw_translate (whw (wst s)) i (pg * PAGE_SIZE + a mod PAGE_SIZE) = Some v.

(** Where the addresses of a window are. *)
Lemma translated_bounds st i a v : reachable_ok st -> in_table i -> hw_translate (whw st) i a = Some v -> 0 <= a < 2 ^ 32 - 1.
Proof.
  intros Hr Hi Ht. pose proof (reachable_ok_agree _ Hr i Hi) as Ha. unfold win_agree in Ha. destruct (w_active (get_win st i)); [|by rewrite Ha in Ht].
  destruct Ha as (_ & (_ & _ & _ & _ & _ & _ & Hp & Hlt & _) & Htr). rewrite Htr in Ht. unfold window_translation in Ht.
  destruct (decide _) as [Hd|]; [lia|done].
Qed.

(** ** States reached by the library *)

Lemma sys_mmap_reachable e size n pa s : reachable_ok (wst s) -> reachable_ok (wst (sys_mmap e size n pa s).2).
Proof.
  intros Hr. unfold sys_mmap. cbv zeta. destruct (pages_of size =? 0); [done|].
  destruct (pr_fds s !! n) as [f|]; [|done]. destruct (le_va e _) as [va|]; [|done].
  set (pg := Z.shiftr pa PAGE_SHIFT). set (vend := va + _).
  pose proof (reach_ok_step (OpMmap (le_mmap e) f pg va vend (le_remap e)) _ Hr I) as Hr'. cbn [run_op] in Hr'.
  destruct (vme_window_mmap _ _ _ _ _ _ _) as [rc w]. by destruct (truthy rc).
Qed.

Lemma set_create_reachable v s : reachable_ok (wst s) -> reachable_ok (wst (on_flags (set_create_flag v) s)).
Proof. intros Hr. exact (reach_ok_step (OpSetCreate v) _ Hr I). Qed.

Lemma set_destroy_reachable v s : reachable_ok (wst s) -> reachable_ok (wst (on_flags (set_destroy_flag v) s)).
Proof. intros Hr. exact (reach_ok_step (OpSetDestroy v) _ Hr I). Qed.

Lemma flag_set_reachable e n org s : reachable_ok (wst s) -> reachable_ok (wst (flag_ioctl e n VME_IOCTL_SET_CREATE_ON_FIND_FAIL org s).2).
Proof.
  intros Hr. destruct (pr_fds s !! n) as [f|] eqn:Ef.
  - destruct (flag_ioctls e n f org s Ef) as (_ & -> & _). by apply set_create_reachable.
  - unfold flag_ioctl, sys_ioctl. by rewrite Ef.
Qed.

Lemma mmap_found_reachable e n rc d org s : reachable_ok (wst s) -> reachable_ok (wst (mmap_found e n rc d org s).2).
Proof.
  intros Hr. unfold mmap_found. cbv zeta. destruct (rc <? 0); [by apply flag_set_reachable|]. unfold vme_mmap.
  pose proof (sys_mmap_reachable e (__page_aligned_size d) (fd d) (__page_addr (pci_addrl d)) s Hr) as Hm.
  destruct (sys_mmap _ _ _ _ _) as [[a|] s2]; cbn [snd] in Hm; [change (truthy 0) with false|change (truthy (-1)) with true]; cbv iota; by apply flag_set_reachable.
Qed.

Lemma find_and_mmap_reachable e n f d org s : pr_fds s !! n = Some f -> reachable_ok (wst s) -> req_ok d -> kenv_ok (le_create e) ->
  reachable_ok (wst (find_and_mmap e n d org s).2).
Proof.
  intros Hf Hr Hd Hk. unfold find_and_mmap, sys_ioctl. rewrite Hf. cbn [vme_window_ioctl u_from u_desc negb].
  pose proof (reach_ok_step (OpFind (le_find e) (le_create e) d (vme_create_on_find_fail (wst s)) f) _ Hr (conj Hd Hk)) as Hr'. cbn [run_op] in Hr'.
  destruct (__vme_find_mapping _ _ _ _ _ _) as [[rc d1] w1]. cbn [snd] in Hr'. unfold copy_back. cbn [u_to negb].
  destruct (truthy rc); by apply mmap_found_reachable.
Qed.

Lemma sys_close_spec k n s : 
  let '(rc, s') := sys_close k n s in
  pr_fds s' = delete n (pr_fds s) /\ pr_pages s' = pr_pages s /\ pr_heap s' = pr_heap s /\
  whw (wst s') = whw (wst s) /\ same_flags (wst s) (wst s') /\ (reachable_ok (wst s) -> reachable_ok (wst s')).
Proof.
  unfold sys_close. destruct (pr_fds s !! n) as [f|] eqn:Ef.
  2:{ rewrite delete_id by done. by split_and!. }
  unfold drop_file. destruct (in_use f _); [by split_and!|]. cbn.
  assert (forall (idx : list Z) (st : wstate H), whw (release_loop k f idx st).2 = whw st /\ same_flags st (release_loop k f idx st).2) as Hl.
  { induction idx as [|i idx IH]; intros st; [done|]. cbn [release_loop]. destruct (k_intr k i); [done|]. cbv zeta.
    exact (IH (unlock i (set_win i (release_window f (get_win (lock i st) i)) (lock i st)))). }
  destruct (Hl window_indices (wst s)) as [E1 E2]. split_and!; try done. intros Hr. exact (reach_ok_step (OpClose k f) _ Hr I).
Qed.

(** ** [vme_map()] *)

(** The state in which [vme_map()] asks for the mapping. *)
Definition asking (n f force : Z) s : proc H := on_flags (set_create_flag force) (with_fds (<[n := f]> (pr_fds s)) s).

Lemma vme_map_eq e d force s n f : le_open e = Some (n, f) ->
  vme_map e d force s =
    match find_and_mmap e n (set_desc_fd n d) (vme_create_on_find_fail (wst s)) (asking n f force s) with
    | (None, d, s) => (0, d, (sys_close (le_close e) n s).2)
    | (Some va, d, s) => (va, d, s)
    end.
Proof.
  intros Eo. unfold vme_map, sys_open. rewrite Eo. set (s0 := with_fds _ s).
  assert (pr_fds s0 !! n = Some f) as Hf by (apply lookup_insert_eq).
  destruct (flag_ioctls e n f 0 s0 Hf) as (-> & _). cbn [Z.ltb Z.compare out_int].
  by destruct (flag_ioctls e n f force s0 Hf) as (_ & -> & _).
Qed.

(** Everything a successful call does. *)
Record mapped (n f force : Z) e d s (va : Z) d' s' : Prop := {
  mp_desc : exists d1 w1, d' = set_user_va va d1 /\
    __vme_find_mapping (le_find e) (le_create e) (set_desc_fd n d) force f (set_create_flag force (wst s)) = (0, d1, w1) /\
    wins (wst s') = wins w1 /\ whw (wst s') = whw w1;
  mp_flags : same_flags (wst s) (wst s');
  mp_reachable : reachable_ok (wst s');
  mp_fds : pr_fds s' = <[n := f]> (pr_fds s);
  mp_pages : exists base, let np := pages_of (__page_aligned_size d') in
    le_va e np = Some base /\ va = u32 (base + __page_aligned_size_incr d') /\
    pr_pages s' = area f (Z.shiftr base PAGE_SHIFT) (Z.shiftr (__page_addr (pci_addrl d')) PAGE_SHIFT) np ∪ pr_pages s;
  mp_heap : pr_heap s' = pr_heap s /\ us_i (pr_s s') = us_i (pr_s s);
}.

Lemma find_and_mmap_mapped e n f d force s : reachable_ok (wst s) -> env_good e s -> req_ok d -> le_open e = Some (n, f) ->
  match find_and_mmap e n (set_desc_fd n d) (vme_create_on_find_fail (wst s)) (asking n f force s) with
  | (Some va, d', s') => mapped n f force e d s va d' s'
  | _ => True
  end.
Proof.
  intros Hr He Hd Eo. set (s1 := asking n f force s). assert (pr_fds s1 !! n = Some f) as Hf by (apply lookup_insert_eq).
  assert (reachable_ok (wst s1)) as Hr1 by (by apply set_create_reachable).
  assert (req_ok (set_desc_fd n d)) as Hd1 by exact Hd.
  pose proof (find_and_mmap_spec e n f (set_desc_fd n d) (vme_create_on_find_fail (wst s)) s1
    (reachable_inv _ (reachable_ok_reachable _ Hr1)) Hf eq_refl (eg_pci e s He)) as Hsp.
  pose proof (find_and_mmap_reachable e n f (set_desc_fd n d) (vme_create_on_find_fail (wst s)) s1 Hf Hr1 Hd1 (eg_create e s He)) as Hr2.
  change (vme_create_on_find_fail (wst s1)) with force in *. change (wst s1) with (set_create_flag force (wst s)) in *.
  destruct (__vme_find_mapping _ _ _ _ _ _) as [[rc d1] w1] eqn:Efm.
  destruct (find_and_mmap _ _ _ _ _) as [[[va|] d2] s2]; [|done]. destruct Hsp as (S1 & S2 & S3 & S4 & S5 & S6 & S7 & S8); cbn [snd] in Hr2.
  destruct S8 as (-> & -> & base & B1 & B2 & B3). constructor; try done.
  - by exists d1, w1.
  - by exists base.
Qed.

Lemma vme_map_spec e d force s : reachable_ok (wst s) -> env_good e s -> req_ok d ->
  let '(va, d', s') := vme_map e d force s in
  (exists n f, le_open e = Some (n, f) /\ mapped n f force e d s va d' s') \/
  (va = 0 /\ reachable_ok (wst s') /\ same_flags (wst s) (wst s') /\ pr_fds s' = pr_fds s /\ pr_pages s' = pr_pages s /\
   forall a v, user_reaches s a v -> user_reaches s' a v).
Proof.
  intros Hr He Hd. destruct (le_open e) as [[n f]|] eqn:Eo.
  2:{ unfold vme_map, sys_open. rewrite Eo. right. by split_and!. }
  rewrite (vme_map_eq _ _ _ _ n f Eo). destruct (eg_open e s He n f Eo) as (Hn & _).
  pose proof (find_and_mmap_mapped e n f d force s Hr He Hd Eo) as Hmapped.
  set (s1 := asking n f force s) in *. assert (pr_fds s1 !! n = Some f) as Hf by (apply lookup_insert_eq).
  assert (reachable_ok (wst s1)) as Hr1 by (by apply set_create_reachable).
  assert (req_ok (set_desc_fd n d)) as Hd1 by exact Hd.
  pose proof (find_and_mmap_spec e n f (set_desc_fd n d) (vme_create_on_find_fail (wst s)) s1
    (reachable_inv _ (reachable_ok_reachable _ Hr1)) Hf eq_refl (eg_pci e s He)) as Hsp.
  pose proof (find_and_mmap_reachable e n f (set_desc_fd n d) (vme_create_on_find_fail (wst s)) s1 Hf Hr1 Hd1 (eg_create e s He)) as Hr2.
  pose proof (fun i a v => find_translates_more (le_find e) (le_create e) (set_desc_fd n d) (vme_create_on_find_fail (wst s1)) f (wst s1) i a v Hr1 Hd1 (eg_create e s He)) as Hmore.
  change (vme_create_on_find_fail (wst s1)) with force in *. change (wst s1) with (set_create_flag force (wst s)) in *.
  destruct (__vme_find_mapping _ _ _ _ _ _) as [[rc d1] w1] eqn:Efm. cbn [snd] in Hmore.
  destruct (find_and_mmap _ _ _ _ _) as [[[va|] d2] s2]; destruct Hsp as (S1 & S2 & S3 & S4 & S5 & S6 & S7 & S8); cbn [snd] in Hr2.
  - left. by exists n, f.
  - right. split; [done|]. pose proof (sys_close_spec (le_close e) n s2) as Hc. destruct (sys_close _ _ _) as [rc' s3]. cbn [snd].
    destruct Hc as (C1 & C2 & C3 & C4 & (C5 & C6) & C7). split; [by apply C7|]. split; [split; [exact (eq_trans C5 S6)|exact (eq_trans C6 S7)]|].
    split; [rewrite C1, S1; by apply delete_insert_id|]. split; [by rewrite C2, S8|].
    intros a v (g & pg & i & Hp & Hi & Ht). exists g, pg, i. split; [by rewrite C2, S8|]. split; [done|]. rewrite C4, S5. by apply Hmore.
Qed.

Lemma mapped_keeps n f force e d s va d' s' a v : reachable_ok (wst s) -> env_good e s -> req_ok d -> mapped n f force e d s va d' s' ->
  user_reaches s a v -> user_reaches s' a v.
Proof.
  intros Hr He Hd [(d1 & w1 & _ & Efm & _ & Ew) _ _ _ (base & B1 & _ & B3) _] (g & pg & i & Hp & Hi & Ht).
  exists g, pg, i. split; [|split; [done|]].
  - rewrite B3. rewrite lookup_union_r; [done|]. apply area_lookup_none. intros Hin.
    destruct (eg_va e s He _ _ B1) as (_ & _ & _ & Hfree). specialize (Hfree (Z.shiftr a PAGE_SHIFT - Z.shiftr base PAGE_SHIFT) ltac:(lia)).
    replace (Z.shiftr base PAGE_SHIFT + _) with (Z.shiftr a PAGE_SHIFT) in Hfree by lia. congruence.
  - rewrite Ew. pose proof (find_translates_more (le_find e) (le_create e) (set_desc_fd n d) force f (set_create_flag force (wst s)) i
      (pg * PAGE_SIZE + a mod PAGE_SIZE) v (set_create_reachable force s Hr) Hd (eg_create e s He) Hi Ht) as Hm.
    by rewrite Efm in Hm.
Qed.

(** Where the pages of the mapping are, and what they show. *)
Lemma mapped_base n f force e d s va d' s' : reachable_ok (wst s) -> env_good e s -> req_ok d -> vme_addru d = 0 -> 0 < sizel d ->
  vme_addrl d + sizel d < 2 ^ 32 -> req_fits d -> mapped n f force e d s va d' s' ->
  exists base, let np := pages_of (__page_aligned_size d') in let incr := __page_aligned_size_incr d' in
    let pg := Z.shiftr (__page_addr (pci_addrl d')) PAGE_SHIFT in
    0 < np /\ (base mod PAGE_SIZE = 0 /\ 0 < base) /\ va = base + incr /\ u32 (va - incr) = base /\ 0 <= incr /\
    pr_pages s' = area f (Z.shiftr base PAGE_SHIFT) pg np ∪ pr_pages s /\
    (forall i, 0 <= i < np -> pr_pages s !! (Z.shiftr base PAGE_SHIFT + i) = None) /\
    forall o, 0 <= o < sizel d -> let j := (incr + o) / PAGE_SIZE in
      0 <= j < np /\ Z.shiftr (base + incr + o) PAGE_SHIFT = Z.shiftr base PAGE_SHIFT + j /\
      hw_translate (whw (wst s')) (window_num d') ((pg + j) * PAGE_SIZE + (base + incr + o) mod PAGE_SIZE) = Some (vme_addrl d + o).
Proof.
  intros Hr He Hd Hu Hsz Hlt Hfit [(d1 & w1 & -> & Efm & _ & Ew) _ Hr' _ (base & B1 & Bva & B3) _].
  pose proof (set_create_reachable force s Hr) as Hr1. change (wst (on_flags _ s)) with (set_create_flag force (wst s)) in Hr1.
  destruct (find_mapping_ok _ _ _ (set_desc_fd n d) _ _ _ _ Hr1 Hd (eg_create e s He) Hu Hlt Efm (or_intror Hfit)) as (Hin & _ & Ht).
  change (vme_addrl (set_desc_fd n d)) with (vme_addrl d) in Ht. change (sizel (set_desc_fd n d)) with (sizel d) in Ht.
  destruct (find_frame _ _ _ _ _ _ _ _ (reachable_inv _ (reachable_ok_reachable _ Hr1)) Efm) as (_ & _ & _ & _ & _ & (kv & pa & Ed1)).
  rewrite <- Ew in Ht. set (d2 := set_user_va va d1) in *. change (pci_addrl d1) with (pci_addrl d2) in Ht.
  assert (sizel d2 = sizel d) as Es by (unfold d2; rewrite Ed1; done).
  pose proof (translated_bounds _ _ _ _ Hr' Hin (Ht 0 ltac:(lia))) as Hb0. pose proof (translated_bounds _ _ _ _ Hr' Hin (Ht (sizel d - 1) ltac:(lia))) as Hb1.
  destruct (eg_va e s He _ _ B1) as (Hbase & Hmod & Hend & Hfree). destruct Hd as (_ & _ & Hs & _).
  assert (forall o, 0 <= o < sizel d -> _) as Hsplit by (intros o Ho; exact (page_split d2 base o Hmod ltac:(lia) ltac:(lia) ltac:(lia) ltac:(lia))).
  cbv zeta in Hsplit. destruct (Hsplit 0 ltac:(lia)) as (Hincr & Hj & _).
  assert (va = base + __page_aligned_size_incr d2) as Eva.
  { rewrite Bva. apply u32_id. unfold is_u32. change PAGE_SIZE with 4096 in *. nia. }
  exists base. cbv zeta. split; [lia|]. split; [done|]. split; [done|].
  split; [rewrite Eva; replace (base + _ - _) with base by lia; apply u32_id; unfold is_u32; change PAGE_SIZE with 4096 in *; nia|]. split; [apply Hincr|].
  split; [done|]. split; [done|]. intros o Ho. destruct (Hsplit o Ho) as (_ & Hjo & E1 & E2). rewrite E2. split; [done|]. split; [done|]. by apply Ht.
Qed.

Lemma mapped_reaches n f force e d s va d' s' : reachable_ok (wst s) -> env_good e s -> req_ok d -> vme_addru d = 0 -> 0 < sizel d ->
  vme_addrl d + sizel d < 2 ^ 32 -> req_fits d -> mapped n f force e d s va d' s' ->
  0 < va /\ fd d' = n /\ user_va d' = va /\ forall o, 0 <= o < sizel d -> user_reaches s' (va + o) (vme_addrl d + o).
Proof.
  intros Hr He Hd Hu Hsz Hlt Hfit Hm. destruct (mapped_base n f force e d s va d' s' Hr He Hd Hu Hsz Hlt Hfit Hm) as (base & B1 & B2 & B3 & _ & B5 & B6 & _ & B8).
  destruct Hm as [(d1 & w1 & -> & Efm & _) _ _ _ _ _].
  destruct (find_frame _ _ _ _ _ _ _ _ (reachable_inv _ (reachable_ok_reachable _ (set_create_reachable force s Hr))) Efm) as (Hin & _ & _ & _ & _ & (kv & pa & Ed1)).
  split; [lia|]. split; [by rewrite Ed1|]. split; [done|]. intros o Ho. destruct (B8 o Ho) as (Hjo & E1 & E2).
  replace (va + o) with (base + __page_aligned_size_incr (set_user_va va d1) + o) by lia.
  refine (ex_intro _ f (ex_intro _ _ (ex_intro _ (window_num d1) (conj _ (conj Hin E2))))).
  rewrite E1, B6. apply lookup_union_Some_l, area_lookup. exact Hjo.
Qed.

(** ** Releasing the last mapping made *)

Lemma destroy_flags k n st : same_flags st (vme_destroy_window k n st).2.
Proof.
  unfold vme_destroy_window. destruct (bad_window n); [done|]. destruct (k_intr k n); [done|]. cbv zeta. destruct (negb _); [done|].
  destruct (hw_remove_window _ _) as [d h]. cbn. match goal with |- context [free_rsrc ?i ?x] => destruct (free_rsrc_flags i x) as [E1 E2] end.
  unfold same_flags. split; [exact E1|exact E2].
Qed.

Lemma remove_first_last p (l : list mapping) m : (forall x, x ∈ l -> p x = false) -> p m = true -> remove_first p (l ++ [m]) = Some l.
Proof.
  intros Hl Hm. induction l as [|x l IH]; cbn; [by rewrite Hm|]. rewrite Hl by left. rewrite IH; [done|]. intros y Hy. apply Hl. by right.
Qed.

Lemma release_last k kd d fl f st l m : struct_ok st -> no_signal k -> no_signal kd -> in_table (window_num d) ->
  let n := window_num d in
  w_active (get_win st n) = true -> w_mappings (get_win st n) = l ++ [m] -> (forall x, x ∈ l -> m_file x <> f) ->
  m_file m = f -> f <> 0 -> mapping_match d 0 m = true ->
  let '(rc, st') := __vme_release_mapping k kd d fl f st in
  rc = 0 /\ only_window n st st' /\ struct_ok st' /\ same_flags st st' /\ w_mappings (get_win st' n) = l /\
  (w_active (get_win st' n) = true <-> ~ (l = [] /\ fl <> 0)).
Proof.
  intros Hs Hk Hkd Hn n Ha Hm Hl Hf Hf0 Hmatch. unfold __vme_release_mapping. fold n. rewrite bad_window_in, Hk by done. cbv zeta.
  rewrite get_win_lock, Ha. cbn [negb]. unfold remove_mapping. rewrite Hm, (remove_first_last _ l m).
  2:{ intros x Hx. unfold mapping_match. rewrite (proj2 (Z.eqb_neq (m_file x) f)) by (by apply Hl).
      assert (truthy f = true) as -> by (unfold truthy; by rewrite (proj2 (Z.eqb_neq f 0))). by rewrite andb_false_r. }
  2:{ unfold mapping_match in *. rewrite Hf, Z.eqb_refl, orb_true_r, andb_true_r. by rewrite andb_true_r in Hmatch. }
  cbn [truthy Z.eqb negb w_users set_mappings]. destruct (proj2 Hs n Hn) as [Hu _]. rewrite Hm, length_app in Hu. cbn in Hu.
  set (w' := set_mappings l _ _). set (st1 := set_win n w' (lock n st)).
  assert (struct_ok st1) as Hs1.
  { apply struct_set_win; [exact Hs|done|]. split; [cbn; lia|]. cbn. by rewrite Ha. }
  assert (get_win st1 n = w') as Hg1 by (apply get_set_win_eq; (done || apply Hs)).
  assert (only_window n st st1) as Ho1 by (by apply only_window_set).
  destruct (Z.eqb_spec (w_users (get_win st n) - 1) 0) as [E0|E0]; cbn [andb].
  - assert (l = []) as -> by (destruct l; [done|cbn in *; lia]). destruct (truthy fl) eqn:Efl; unfold truthy in Efl; boolp.
    + assert (w_active (get_win (unlock n st1) n) = true) as Ha1 by (unfold unlock; rewrite get_win_klog, Hg1; done).
      destruct (destroy_window_inactive kd n (unlock n st1) Hs1 Hn (Hkd n)) as (Hd1 & Hd2 & Hd3).
      pose proof (destroy_ok kd n (unlock n st1) Hn (Hkd n) Ha1) as Hrc. pose proof (destroy_flags kd n (unlock n st1)) as Hfl.
      destruct (vme_destroy_window kd n (unlock n st1)) as [rc st2]. cbn [fst snd] in *.
      split; [done|]. split; [intros j Hj Hne; rewrite (Hd2 j Hj Hne); exact (Ho1 j Hj Hne)|]. split; [done|]. split; [exact Hfl|].
      split; [exact (proj2 (proj2 Hd3 n Hn) Hd1)|]. rewrite Hd1. split; [done|]. intros Hno. exfalso. by apply Hno.
    + split; [done|]. split; [exact Ho1|]. split; [exact Hs1|]. split; [done|]. unfold unlock. rewrite get_win_klog, Hg1. split; [done|]. cbn. rewrite Ha. split; [tauto|done].
  - split; [done|]. split; [exact Ho1|]. split; [exact Hs1|]. split; [done|]. unfold unlock. rewrite get_win_klog, Hg1. split; [done|]. cbn. rewrite Ha. split; [|done].
    intros _ [-> _]. cbn in Hu. lia.
Qed.

(** Giving the pages of a mapping back, while its file is open. *)
Lemma munmap_area k f base pa np pages s : 0 < np -> base mod PAGE_SIZE = 0 -> 0 <= base ->
  pr_pages s = area f (Z.shiftr base PAGE_SHIFT) pa np ∪ pages -> in_use f (with_pages pages s) = true ->
  (forall i, 0 <= i < np -> pages !! (Z.shiftr base PAGE_SHIFT + i) = None) ->
  forall size, pages_of size = np -> sys_munmap k base size s = (0, with_pages pages s).
Proof.
  intros Hnp Hb Hb0 Hp Huse Hfree size <-. unfold sys_munmap. cbv zeta.
  assert (Z.land base 0xfff = 0) as ->.
  { change 0xfff with (Z.ones 12). rewrite Z.land_ones by lia. exact Hb. }
  rewrite (proj2 (Z.eqb_neq (pages_of size) 0)) by lia. cbn [truthy Z.eqb negb orb]. set (p0 := Z.shiftr base PAGE_SHIFT) in *.
  assert (filter (fun x => ~ p0 <= x.1 < p0 + pages_of size) (pr_pages s) = pages) as ->.
  { apply map_eq. intros p. rewrite Hp. destruct (decide (p0 <= p < p0 + pages_of size)) as [Hin|Hout].
    - rewrite map_lookup_filter_None_2; [symmetry; replace p with (p0 + (p - p0)) by lia; apply Hfree; lia|]. right. intros x _ Hx. by apply Hx.
    - destruct (pages !! p) as [x|] eqn:Ex.
      + apply map_lookup_filter_Some_2; [|done]. rewrite lookup_union_r; [done|]. by apply area_lookup_none.
      + apply map_lookup_filter_None_2. left. apply lookup_union_None. split; [by apply area_lookup_none|done]. }
  f_equal.
  assert (forall fs, Forall (fun g => g = f) fs -> foldr (fun g s => drop_file k g s) (with_pages pages s) fs = with_pages pages s) as Hfold.
  { induction fs as [|g fs IH]; intros Hg; [done|]. apply Forall_cons in Hg as [-> Hg]. cbn [foldr]. rewrite IH by done. unfold drop_file. by rewrite Huse. }
  apply Hfold, Forall_forall. intros g Hg. rewrite elem_of_remove_dups in Hg. apply list_elem_of_fmap in Hg as ([p x] & -> & Hx%elem_of_map_to_list).
  apply map_lookup_filter_Some in Hx as [Hx Hin]. cbn in *. rewrite Hp in Hx. apply lookup_union_Some_raw in Hx as [Hx|[_ Hx]]; [by apply area_file in Hx|].
  specialize (Hfree (p - p0) ltac:(lia)). replace (p0 + (p - p0)) with p in Hfree by lia. congruence.
Qed.

(** Closing a file that owns nothing any more. *)
Lemma close_idle k n f s : pr_fds s !! n = Some f -> length (wins (wst s)) = 8%nat -> owns_none f (wst s) ->
  let s' := (sys_close k n s).2 in
  pr_fds s' = delete n (pr_fds s) /\ pr_pages s' = pr_pages s /\ pr_heap s' = pr_heap s /\ us_i (pr_s s') = us_i (pr_s s) /\ same_table (wst s) (wst s').
Proof.
  intros Hf Hl Ho. unfold sys_close. rewrite Hf. cbn [snd]. unfold drop_file. destruct (in_use f _); [by split_and!|].
  split; [done|]. split; [done|]. split; [done|]. split; [done|]. exact (release_loop_none k f window_indices window_indices_all (wst s) Hl Ho).
Qed.

(** [release_with()] on the window of the mapping. *)
Lemma release_with_spec e d force f s l m : pr_fds s !! fd d = Some f -> f <> 0 -> winv (wst s) ->
  no_signal (le_release e) -> no_signal (le_destroy e) -> in_table (window_num d) ->
  let n := window_num d in
  w_active (get_win (wst s) n) = true -> w_mappings (get_win (wst s) n) = l ++ [m] -> (forall x, x ∈ l -> m_file x <> f) ->
  (forall i x, in_table i -> i <> n -> x ∈ w_mappings (get_win (wst s) i) -> m_file x <> f) ->
  m_file m = f -> mapping_match d 0 m = true ->
  let '(rc, s') := release_with e d force s in
  rc = 0 /\ pr_fds s' = delete (fd d) (pr_fds s) /\ pr_pages s' = pr_pages s /\ same_flags (wst s) (wst s') /\
  only_window n (wst s) (wst s') /\ w_mappings (get_win (wst s') n) = l /\
  (w_active (get_win (wst s') n) = true <-> ~ (l = [] /\ default (vme_destroy_on_remove (wst s)) force <> 0)).
Proof.
  intros Hf Hf0 Hi Hk Hkd Hn n Ha Hm Hl Hother Hmf Hmatch. unfold release_with.
  set (s0 := match force with None => s | Some v => on_flags (set_destroy_flag v) s end).
  assert (forall A (K : Z -> proc H -> A), (let '(org, s) := match force with None => (0, s) | Some v =>
     let '(_, out, s) := flag_ioctl e (fd d) VME_IOCTL_GET_DESTROY_ON_REMOVE 0 s in
     let '(_, _, s) := flag_ioctl e (fd d) VME_IOCTL_SET_DESTROY_ON_REMOVE v s in (out_int out, s) end in K org s) =
     K (match force with None => 0 | Some _ => vme_destroy_on_remove (wst s) end) s0) as Hset.
  { intros A K. destruct force as [v|]; [|done]. destruct (flag_ioctls e (fd d) f 0 s Hf) as (_ & _ & -> & _). by destruct (flag_ioctls e (fd d) f v s Hf) as (_ & _ & _ & ->). }
  rewrite Hset. clear Hset.
  assert (pr_fds s0 !! fd d = Some f) as Hf1 by (by destruct force).
  assert (get_win (wst s0) = get_win (wst s)) as Hg by (by destruct force).
  assert (vme_destroy_on_remove (wst s0) = default (vme_destroy_on_remove (wst s)) force) as Hfl by (by destruct force).
  unfold sys_ioctl. rewrite Hf1. cbn [vme_window_ioctl u_from u_desc negb]. rewrite Hfl.
  assert (struct_ok (wst s0)) as Hs0 by (destruct force; exact (proj1 Hi)).
  pose proof (release_last (le_release e) (le_destroy e) d (default (vme_destroy_on_remove (wst s)) force) f (wst s0) l m Hs0 Hk Hkd Hn) as Hrel.
  cbv zeta in Hrel. rewrite Hg in Hrel. specialize (Hrel Ha Hm Hl Hmf Hf0 Hmatch).
  destruct (__vme_release_mapping _ _ _ _ _ _) as [rc w1]. destruct Hrel as (-> & Ho & Hs1 & Hfl1 & Hmp & Hact). cbn [Z.ltb Z.compare].
  set (s2 := with_s (Ustate w1 (us_i (pr_s s0))) s0).
  set (s3 := match force with None => s2 | Some _ => (flag_ioctl e (fd d) VME_IOCTL_SET_DESTROY_ON_REMOVE _ s2).2 end).
  assert (s3 = match force with None => s2 | Some _ => on_flags (set_destroy_flag (vme_destroy_on_remove (wst s))) s2 end) as E3.
  { unfold s3. destruct force as [v|]; [|done]. by destruct (flag_ioctls e (fd d) f (vme_destroy_on_remove (wst s)) s2 Hf1) as (_ & _ & _ & ->). }
  clearbody s3. 
  assert (pr_fds s3 = pr_fds s /\ pr_pages s3 = pr_pages s /\ get_win (wst s3) = get_win w1 /\ length (wins (wst s3)) = 8%nat /\ same_flags (wst s) (wst s3)) as (F1 & F2 & F3 & F4 & F5).
  { rewrite E3. destruct Hfl1 as [L1 L2]. destruct force as [v|]; (split; [done|]; split; [done|]; split; [done|]; split; [apply Hs1|]); split; try done; exact L1. }
  destruct (close_idle (le_close e) (fd d) f s3) as (C1 & C2 & _ & _ & C5); [by rewrite F1|done| |].
  { intros i x Hin. rewrite F3. destruct (decide (i = n)) as [->|Hne]; [rewrite (Hmp : w_mappings (get_win w1 n) = l); apply Hl|]. rewrite (Ho i Hin Hne), Hg. by apply Hother. }
  destruct (sys_close _ _ _) as [rc' s4]. cbn [snd] in *. split; [done|]. split; [by rewrite C1, F1|]. split; [by rewrite C2|].
  split; [destruct C5 as (_ & _ & P1 & P2), F5 as [P3 P4]; split; [exact (eq_trans P1 P3)|exact (eq_trans P2 P4)]|].
  rewrite (same_table_get _ _ n C5), F3. split; [|by split]. intros j Hj Hne. by rewrite (same_table_get _ _ j C5), F3, (Ho j Hj Hne), Hg.
Qed.

Lemma unmap_mapped n f e e2 d force force2 s va d' s1 : reachable_ok (wst s) -> env_good e s ->
  req_ok d -> vme_addru d = 0 -> 0 < sizel d -> vme_addrl d + sizel d < 2 ^ 32 -> req_fits d ->
  no_signal (le_release e2) -> no_signal (le_destroy e2) -> le_open e = Some (n, f) -> mapped n f force e d s va d' s1 ->
  let '(rc, s2) := vme_unmap e2 (Some d') force2 s1 in
  let n := window_num d' in
  rc = 0 /\ pr_fds s2 = pr_fds s /\ pr_pages s2 = pr_pages s /\ same_flags (wst s) (wst s2) /\
  only_window n (wst s) (wst s2) /\ w_mappings (get_win (wst s2) n) = w_mappings (get_win (wst s) n) /\
  (w_active (get_win (wst s2) n) = true <->
     ~ (w_mappings (get_win (wst s) n) = [] /\ (if truthy force2 then force2 else vme_destroy_on_remove (wst s)) <> 0)).
Proof.
  intros Hr He Hd Hu Hsz Hlt Hfit Hk Hkd Eo Hm. destruct (eg_open e s He n f Eo) as (Hn & Huse & Hf0 & Hown).
  destruct (mapped_reaches n f force e d s va d' s1 Hr He Hd Hu Hsz Hlt Hfit Hm) as (Hva & Hfd & Huv & Hreach).
  destruct (mapped_base n f force e d s va d' s1 Hr He Hd Hu Hsz Hlt Hfit Hm) as (base & B0 & B1 & B2 & B5 & _ & B3 & B4 & _).
  destruct Hm as [(d1 & w1 & -> & Efm & Ew & Ehw) Hfl Hr' Hfds _ _].
  pose proof (reachable_inv _ (reachable_ok_reachable _ (set_create_reachable force s Hr))) as Hi.
  destruct (find_frame _ _ _ _ _ _ _ _ Hi Efm) as (Hin & Ho & Hact & (m & Hmp & Hmd & Hmf) & _ & _).
  assert (get_win (wst s1) = get_win w1) as Hg by (unfold get_win; by rewrite Ew).
  set (d' := set_user_va va d1) in *. unfold vme_unmap, vme_munmap.
  assert (in_use f (with_pages (pr_pages s) s1) = true) as Hlive.
  { unfold in_use. rewrite bool_decide_true; [done|]. exists n, f. cbn. rewrite Hfds. split; [by rewrite lookup_insert_eq|done]. }
  rewrite Huv, B5. erewrite (munmap_area (le_close e2) f base); [|exact B0|apply B1|lia|exact B3|exact Hlive|exact B4|done].
  set (s2 := with_pages (pr_pages s) s1).
  assert (pr_fds s2 !! fd d' = Some f) as Hf2 by (change (pr_fds s2) with (pr_fds s1); rewrite Hfds, Hfd; apply lookup_insert_eq).
  pose proof (release_with_spec e2 d' (if truthy force2 then Some force2 else None) f s2 (w_mappings (get_win (wst s) (window_num d1))) m Hf2 Hf0
    (reachable_inv _ (reachable_ok_reachable _ Hr')) Hk Hkd Hin) as Hrel.
  cbv zeta in Hrel. change (wst s2) with (wst s1) in Hrel. rewrite Hg in Hrel. change (window_num d') with (window_num d1) in *.
  destruct (release_with e2 d' _ s2) as [rc s3]. destruct Hrel as (-> & R1 & R2 & R3 & R4 & R5 & R6); try done.
  - intros x Hx. by apply (Hown (window_num d1)).
  - intros i x Hi' Hne. rewrite (Ho i Hi' Hne). by apply Hown.
  - unfold mapping_match. rewrite Hmd. cbn. by rewrite !Z.eqb_refl.
  - cbn [truthy Z.eqb negb orb Z.ltb Z.compare]. split; [done|]. split; [rewrite R1; change (pr_fds s2) with (pr_fds s1); rewrite Hfds, Hfd; by apply delete_insert_id|].
    split; [exact R2|]. split; [destruct Hfl as [L1 L2], R3 as [L3 L4]; split; [exact (eq_trans L3 L1)|exact (eq_trans L4 L2)]|].
    split; [intros j Hj Hne; rewrite (R4 j Hj Hne); change (wst s2) with (wst s1); rewrite Hg; by apply Ho|]. split; [exact R5|].
    rewrite R6. destruct Hfl as [_ L2]. destruct (truthy force2); cbn [default]; [done|]. by rewrite L2.
Qed.

End Process.

Notation wst s := (us_w (pr_s s)) (only parsing).

(** C3: [vme_map()] of a range that its window covers, whatever the kernel
    answers, either fails and leaves the descriptors and the pages of the process
    as they were, or gives an address at which every byte of the range reaches
    the byte of VME asked for, in a file that stays open; either way the flag of
    the driver is restored, and what the process reached before it still
    reaches. *)
Theorem vme_map_reaches {H : Type} `{!WindowHw H} `{!WindowHwOk H} (e : lenv) (d : vme_mapping) (force : Z) (s : proc H) :
  (forall d h, (hw_create_window d h).1.1 <= 0) -> reachable_ok (wst s) -> env_good e s ->
  req_ok d -> vme_addru d = 0 -> 0 < sizel d -> vme_addrl d + sizel d < 2 ^ 32 -> req_fits d ->
  let '(va, d', s') := vme_map e d force s in
  reachable_ok (wst s') /\ same_flags (wst s) (wst s') /\
  (forall a v, user_reaches s a v -> user_reaches s' a v) /\
  (va = 0 -> pr_fds s' = pr_fds s /\ pr_pages s' = pr_pages s) /\
  (va <> 0 -> is_Some (pr_fds s' !! fd d') /\ user_va d' = va /\ forall o, 0 <= o < sizel d -> user_reaches s' (va + o) (vme_addrl d + o)).
Proof.
  intros Hhw Hr He Hd Hu Hsz Hlt Hfit. pose proof (vme_map_spec Hhw e d force s Hr He Hd) as Hs.
  destruct (vme_map e d force s) as [[va d'] s']. destruct Hs as [(n & f & _ & Hm)|(-> & Hr' & Hfl & Hfd & Hpg & Hk)]; [|by split_and!].
  destruct (mapped_reaches n f force e d s va d' s' Hr He Hd Hu Hsz Hlt Hfit Hm) as (Hva & Hn & Huv & Hreach).
  split; [apply Hm|]. split; [apply Hm|]. split; [intros a v; by apply (mapped_keeps n f force e d s va d' s')|].
  split; [lia|]. intros _. rewrite (mp_fds _ _ _ _ _ _ _ _ _ Hm), Hn, lookup_insert_eq. by split_and!.
Qed.

(** C19: [vme_unmap()] after a successful [vme_map()], with no signal while the
    mapping is released, gives the pages and the file back and restores the flags
    of the driver; the mapping is gone, no other window has changed, and the
    window is destroyed exactly when it is left without mappings and the caller or
    the flag asks for it. *)
Theorem map_unmap_restores {H : Type} `{!WindowHw H} `{!WindowHwOk H} (e e2 : lenv) (d : vme_mapping) (force force2 : Z) (s : proc H) :
  (forall d h, (hw_create_window d h).1.1 <= 0) -> reachable_ok (wst s) -> env_good e s ->
  req_ok d -> vme_addru d = 0 -> 0 < sizel d -> vme_addrl d + sizel d < 2 ^ 32 -> req_fits d ->
  no_signal (le_release e2) -> no_signal (le_destroy e2) ->
  let '(va, d', s1) := vme_map e d force s in
  va <> 0 ->
  let '(rc, s2) := vme_unmap e2 (Some d') force2 s1 in
  let n := window_num d' in
  rc = 0 /\ pr_fds s2 = pr_fds s /\ pr_pages s2 = pr_pages s /\ same_flags (wst s) (wst s2) /\
  only_window n (wst s) (wst s2) /\ w_mappings (get_win (wst s2) n) = w_mappings (get_win (wst s) n) /\
  (w_active (get_win (wst s2) n) = true <->
     ~ (w_mappings (get_win (wst s) n) = [] /\ (if truthy force2 then force2 else vme_destroy_on_remove (wst s)) <> 0)).
Proof.
  intros Hhw Hr He Hd Hu Hsz Hlt Hfit Hk Hkd. pose proof (vme_map_spec Hhw e d force s Hr He Hd) as Hs.
  destruct (vme_map e d force s) as [[va d'] s1]. intros Hva. destruct Hs as [(n & f & Eo & Hm)|(-> & _)]; [|done].
  exact (unmap_mapped n f e e2 d force force2 s va d' s1 Hr He Hd Hu Hsz Hlt Hfit Hk Hkd Eo Hm).
Qed.
