(* ===== verification/VmeLibCes.v ===== *)
(** * The user library: the CES calls

    [find_controller()] maps the 64 KiB aligned range and leaves its descriptor on
    the heap; [return_controller()] undoes it. *)

From stdpp Require Import strings.
From S2P Require Import Prelude VmeBus Tsi148 Tsi148Window VmeWindow VmeWindowInv VmeWindowMap VmeIrq VmeUser VmeLib VmeLibInv.

Section Ces.
Context {H : Type} `{!WindowHw H} `{!WindowHwOk H}.
Implicit Types (s : proc H) (d : vme_mapping) (e : lenv).

Notation wst s := (us_w (pr_s s)).

(** The descriptor that [find_controller()] fills. *)
Definition ces_start (a rdpref : Z) : vme_mapping :=
  let d := set_am a vme_mapping_zero in
  if truthy rdpref then set_read_prefetch_size VME_PREFETCH_2 (set_read_prefetch_enabled 1 d) else d.

Definition ces_desc (vmeaddr len a size rdpref : Z) : vme_mapping :=
  let d := ces_start a rdpref in
  let d := set_bcast_select 0 (set_data_width (if size =? 2 then VME_D16 else VME_D32) d) in
  let d := set_sizeu 0 (set_sizel (Z.land len (not32 0xffff)) d) in
  set_vme_addru 0 (set_vme_addrl (Z.land vmeaddr (not32 0xffff)) d).

Lemma ces_desc_fields vmeaddr len a size rdpref : let d := ces_desc vmeaddr len a size rdpref in
  vme_addrl d = Z.land vmeaddr (not32 0xffff) /\ sizel d = Z.land len (not32 0xffff) /\ am d = a /\
  vme_addru d = 0 /\ sizeu d = 0 /\ pci_addru d = 0.
Proof. unfold ces_desc, ces_start. cbv zeta. by destruct (truthy rdpref). Qed.

(** The heap with the descriptor, before the file is opened. *)
Definition with_desc (p : Z) d s : proc H := with_heap (<[p := d]> (pr_heap s)) s.

Lemma user_find_controller_eq e vmeaddr len a size rdpref s n f : size = 2 \/ size = 4 -> le_calloc e <> 0 -> le_open e = Some (n, f) ->
  let p := le_calloc e in
  user_find_controller e vmeaddr len a size rdpref s =
    match find_and_mmap e n (set_desc_fd n (ces_desc vmeaddr len a size rdpref)) (vme_create_on_find_fail (wst s))
            (asking n f 1 (with_desc p (ces_start a rdpref) s)) with
    | (None, _, s) => (0, None, with_heap (delete p (pr_heap s)) s)
    | (Some va, d, s) => (va, Some p, with_desc p d s)
    end.
Proof.
  intros Hsz Hp Eo. unfold user_find_controller. rewrite (proj2 (Z.eqb_neq _ _) Hp). cbv zeta. fold (ces_start a rdpref).
  assert ((size =? 2) || (size =? 4) = true) as -> by (destruct Hsz as [-> | ->]; done). cbn [negb].
  unfold sys_open. rewrite Eo. fold (with_desc (le_calloc e) (ces_start a rdpref) s). set (s1 := with_desc _ _ s).
  set (s0 := with_fds (<[n := f]> (pr_fds s1)) s1). assert (pr_fds s0 !! n = Some f) as Hf by (apply lookup_insert_eq).
  destruct (flag_ioctls e n f 0 s0 Hf) as (-> & _). cbn [Z.ltb Z.compare out_int].
  by destruct (flag_ioctls e n f 1 s0 Hf) as (_ & -> & _).
Qed.

(** A call that fails has freed the descriptor and left the file open. *)
Lemma user_find_controller_leaks e vmeaddr len a size rdpref s n f : 
  (forall d h, (hw_create_window d h).1.1 <= 0) -> winv (wst s) -> (forall sz, (k_pci (le_create e) sz).1 <= 0) ->
  size = 2 \/ size = 4 -> le_calloc e <> 0 -> le_open e = Some (n, f) ->
  let '(va, q, s') := user_find_controller e vmeaddr len a size rdpref s in
  q = None -> pr_fds s' = <[n := f]> (pr_fds s) /\ pr_heap s' = delete (le_calloc e) (pr_heap s).
Proof.
  intros Hhw Hi Hpci Hsz Hp Eo. rewrite (user_find_controller_eq _ _ _ _ _ _ _ n f Hsz Hp Eo). cbv zeta. set (s1 := asking _ _ _ _).
  assert (pr_fds s1 !! n = Some f) as Hf by (apply lookup_insert_eq).
  assert (winv (wst s1)) as Hi1 by exact Hi.
  pose proof (find_and_mmap_spec Hhw e n f (set_desc_fd n (ces_desc vmeaddr len a size rdpref)) (vme_create_on_find_fail (wst s)) s1 Hi1 Hf eq_refl Hpci) as Hsp.
  destruct (__vme_find_mapping _ _ _ _ _ _) as [[rc d1] w1]. destruct (find_and_mmap _ _ _ _ _) as [[[va|] d2] s2]; [done|].
  destruct Hsp as (S1 & S2 & _). intros _. cbn. split; [by rewrite S1|]. rewrite S2. cbn. by rewrite delete_insert_eq.
Qed.

(** The heap is not looked at while a mapping is made. *)
Lemma env_good_desc e p d s : env_good e s -> env_good e (with_desc p d s).
Proof. intros [H1 H2 H3 H4]. by constructor. Qed.

Lemma mapped_heap n f force e d s va d' s' h : mapped n f force e d s va d' s' -> mapped n f force e d (with_heap h s) va d' (with_heap h s').
Proof. intros [M1 M2 M3 M4 M5 [_ M6]]. by constructor. Qed.

(** A call that succeeds leaves its descriptor on the heap, as [vme_map()] would
    have filled it. *)
Lemma user_find_controller_mapped e vmeaddr len a size rdpref s :
  (forall d h, (hw_create_window d h).1.1 <= 0) -> reachable_ok (wst s) -> env_good e s -> req_ok (ces_desc vmeaddr len a size rdpref) ->
  let '(va, q, s') := user_find_controller e vmeaddr len a size rdpref s in
  match q with
  | None => va = 0
  | Some p => p <> 0 /\ exists n f d', le_open e = Some (n, f) /\ pr_heap s' !! p = Some d' /\
      mapped n f 1 e (ces_desc vmeaddr len a size rdpref) (with_heap (pr_heap s') s) va d' s'
  end.
Proof.
  intros Hhw Hr He Hd.
  destruct (decide (size = 2 \/ size = 4)) as [Hsz|Hsz].
  2:{ unfold user_find_controller. destruct (le_calloc e =? 0); [done|]. cbv zeta.
      by rewrite (proj2 (Z.eqb_neq size 2)), (proj2 (Z.eqb_neq size 4)) by tauto. }
  destruct (decide (le_calloc e = 0)) as [Hp|Hp]; [unfold user_find_controller; by rewrite Hp|].
  destruct (le_open e) as [[n f]|] eqn:Eo.
  2:{ unfold user_find_controller, sys_open. rewrite (proj2 (Z.eqb_neq _ _) Hp), Eo. cbv zeta.
      by destruct (negb _). }
  rewrite (user_find_controller_eq _ _ _ _ _ _ _ n f Hsz Hp Eo). cbv zeta.
  pose proof (find_and_mmap_mapped Hhw e n f (ces_desc vmeaddr len a size rdpref) 1 (with_desc (le_calloc e) (ces_start a rdpref) s)
    Hr (env_good_desc _ _ _ _ He) Hd Eo) as Hm.
  change (wst (with_desc (le_calloc e) (ces_start a rdpref) s)) with (wst s) in Hm.
  destruct (find_and_mmap _ _ _ _ _) as [[[va|] d2] s2]; [|done]. split; [done|]. exists n, f, d2. split; [done|].
  split; [cbn; apply lookup_insert_eq|]. exact (mapped_heap _ _ _ _ _ _ _ _ _ _ Hm).
Qed.

(** [return_controller()] is [vme_unmap()] with the flag set, and the descriptor
    is gone. *)
Lemma user_return_controller_eq e p d s : p <> 0 -> pr_heap s !! p = Some d ->
  user_return_controller e p s =
    let '(rc, s') := vme_unmap e (Some d) 1 s in Some (rc, with_heap (delete p (pr_heap s')) s').
Proof.
  intros Hp Hd. unfold user_return_controller, vme_unmap. rewrite (proj2 (Z.eqb_neq p 0) Hp), Hd. cbn [mbind option_bind truthy Z.eqb negb].
  destruct (vme_munmap _ _ _) as [rc1 s1]. change (truthy 1) with true. cbv iota. by destruct (release_with _ _ _ _) as [rc2 s2].
Qed.

Lemma ces_desc_req vmeaddr len a size rdpref : is_u32 vmeaddr -> is_u32 len -> req_ok (ces_desc vmeaddr len a size rdpref).
Proof.
  intros Hv Hl. destruct (ces_desc_fields vmeaddr len a size rdpref) as (E1 & E2 & _ & E4 & E5 & E6).
  unfold req_ok. rewrite E1, E2, E4, E5, E6. change (not32 0xffff) with 0xffff0000. rewrite !land_hi16 by done.
  unfold is_u32 in *. Z.to_euclidean_division_equations. lia.
Qed.

End Ces.


(** ** Byte order *)

(** The bits that the masks of a swap keep. *)
Ltac swap_bits x i Hi :=
  repeat first [rewrite Z.lor_spec | rewrite Z.shiftr_spec by lia | rewrite Z.shiftl_spec by lia | rewrite Z.land_spec];
  destruct i as [|p|p]; [|do 5 (try destruct p as [p|p|])|]; try (exfalso; lia);
  repeat match goal with |- context [Z.testbit ?t ?k] =>
    let k' := eval vm_compute in k in progress (change (Z.testbit t k) with (Z.testbit t k')) end;
  rewrite ?(Z.testbit_neg_r x) by lia;
  repeat match goal with |- context [Z.testbit (Zpos ?p) ?k] =>
    let b := eval vm_compute in (Z.testbit (Zpos p) k) in change (Z.testbit (Zpos p) k) with b end;
  repeat match goal with |- context [Z.testbit x ?k] => destruct (Z.testbit x k) end; reflexivity.

Lemma swapbe16_bit x i : 0 <= i < 16 -> Z.testbit (swapbe16 x) i = Z.testbit x (Z.lxor i 8).
Proof. intros Hi. unfold swapbe16, u16. rewrite Z.mod_pow2_bits_low by lia. swap_bits x i Hi. Qed.

Lemma swapbe32_bit x i : 0 <= i < 32 -> Z.testbit (swapbe32 x) i = Z.testbit x (Z.lxor i 24).
Proof. intros Hi. unfold swapbe32, u32. rewrite Z.mod_pow2_bits_low by lia. swap_bits x i Hi. Qed.

Lemma lxor_small i n k : 0 <= k -> 0 <= i < 2 ^ k -> 0 <= n < 2 ^ k -> 0 <= Z.lxor i n < 2 ^ k.
Proof.
  intros Hk Hi Hn. assert (Z.lxor i n = Z.lxor i n mod 2 ^ k) as ->; [|apply Z.mod_pos_bound; lia].
  apply Z.bits_inj'. intros j Hj. destruct (Z_lt_le_dec j k); [by rewrite Z.mod_pow2_bits_low|].
  by rewrite Z.mod_pow2_bits_high, Z.lxor_spec, !(testbit_above _ k j).
Qed.

(** Swapping twice is the identity. *)
Lemma swapbe16_twice x : 0 <= x < 2 ^ 16 -> swapbe16 (swapbe16 x) = x.
Proof.
  intros Hx. apply Z.bits_inj'. intros i Hi. destruct (Z_lt_le_dec i 16).
  - rewrite !swapbe16_bit by (try apply (lxor_small _ _ 4); lia). by rewrite Z.lxor_assoc, Z.lxor_nilpotent, Z.lxor_0_r.
  - rewrite (testbit_above x 16 i) by lia. apply (testbit_above _ 16); [|done]. apply Z.mod_pos_bound. lia.
Qed.

Lemma swapbe32_twice x : is_u32 x -> swapbe32 (swapbe32 x) = x.
Proof.
  intros Hx. apply Z.bits_inj'. intros i Hi. destruct (Z_lt_le_dec i 32).
  - rewrite !swapbe32_bit by (try apply (lxor_small _ _ 5); lia). by rewrite Z.lxor_assoc, Z.lxor_nilpotent, Z.lxor_0_r.
  - rewrite (testbit_above x 32 i) by (exact Hx || lia). apply (testbit_above _ 32); [|done]. apply u32_range.
Qed.
