(* ===== verification/VmeLibRuns.v ===== *)
(** * The user library on the bridge: concrete runs, and where it departs from its
    documentation *)

From stdpp Require Import strings.
From S2P Require Import Prelude VmeBus Tsi148 Tsi148Window VmeWindow VmeWindowInv VmeWindowMap VmeIrq VmeUser VmeLib VmeLibInv VmeLibCes.

Module LibRuns.

Lemma chip_errno (d : vme_mapping) (h : chip) : (hw_create_window d h).1.1 <= 0.
Proof.
  cbn. unfold tsi148_create_window. cbv zeta. destruct (truthy _); [unfold EINVAL; cbn; lia|].
  destruct (Z.ltb_spec (tsi148_setup_window_attributes (v2esst_mode (window_align d)) (data_width (window_align d)) (am (window_align d))) 0); cbn [fst]; lia.
Qed.

(** Descriptor 3, file 0x55, free pages at 1 GB, the heap at 0x8000000. *)
Definition good : lenv :=
  Lenv (Some (3, 0x55)) kenv_pci kenv_pci kenv_pci 0 (fun np => if np <=? 0xc0000 then Some 0x40000000 else None) kenv_pci kenv_pci kenv_pci 0x8000000.

Definition fresh : proc chip :=
  Proc (Ustate (wstate_boot (∅ : chip)) (Istate [] [] 0 ∅ (Vme_bus_error_desc (Vme_bus_error 0 0) 0) [] [])) ∅ ∅ ∅.

Lemma fresh_reachable : reachable_ok (us_w (pr_s fresh)).
Proof. apply (reach_ok_boot ∅ no_window_translates). Qed.

Lemma good_env : env_good good fresh.
Proof.
  constructor.
  - intros n f [= <- <-]. split; [done|]. split; [done|]. split; [done|]. intros i m Hi Hm.
    assert (w_mappings (get_win (wstate_boot (∅ : chip)) i) = []) as E.
    { unfold in_table in Hi. assert (i = 0 \/ i = 1 \/ i = 2 \/ i = 3 \/ i = 4 \/ i = 5 \/ i = 6 \/ i = 7) as Hc by lia. by repeat (destruct Hc as [->|Hc] || subst i). }
    change (us_w (pr_s fresh)) with (wstate_boot (∅ : chip)) in Hm. rewrite E in Hm. by apply elem_of_nil in Hm.
  - exact kenv_pci_ok.
  - intros size. change ((if size <=? 0x10000000 then (0, 0x80000000) else (- EBUSY, 0)).1 <= 0). unfold EBUSY. destruct (size <=? _); cbn [fst]; lia.
  - intros np va Ev. cbn in Ev. destruct (Z.leb_spec np 0xc0000); [|done]. injection Ev as <-. split_and!; try done; change PAGE_SIZE with 4096 in *. lia.
Qed.


Definition mapped_run := vme_map good demo_request 1 fresh.

Lemma vme_map_reaches_witness :
  mapped_run.1.1 = 0x40000000 /\ user_reaches mapped_run.2 0x40000123 0x20123.
Proof.
  assert (mapped_run.1.1 = 0x40000000) as E by (vm_compute; reflexivity). split; [exact E|].
  pose proof (vme_map_reaches good demo_request 1 fresh chip_errno fresh_reachable good_env demo_request_ok eq_refl
    ltac:(reflexivity) ltac:(reflexivity) ltac:(reflexivity)) as Hx.
  change (vme_map good demo_request 1 fresh) with mapped_run in Hx. destruct mapped_run as [[va d'] s']. cbn in E. subst va.
  destruct Hx as (_ & _ & _ & _ & Hx). destruct (Hx ltac:(discriminate)) as (_ & _ & Ht). exact (Ht 0x123 ltac:(cbn; lia)).
Defined.

Definition unmapped_run := vme_unmap good (Some mapped_run.1.2) 1 mapped_run.2.

Lemma map_unmap_restores_witness :
  unmapped_run.1 = 0 /\ pr_fds unmapped_run.2 = ∅ /\ pr_pages unmapped_run.2 = ∅ /\
  w_active (get_win (us_w (pr_s mapped_run.2)) 0) = true /\ w_active (get_win (us_w (pr_s unmapped_run.2)) 0) <> true.
Proof.
  assert (mapped_run.1.1 = 0x40000000 /\ window_num mapped_run.1.2 = 0 /\ w_active (get_win (us_w (pr_s mapped_run.2)) 0) = true) as (E & En & Ea)
    by (split_and!; vm_compute; reflexivity).
  pose proof (map_unmap_restores good good demo_request 1 1 fresh chip_errno fresh_reachable good_env demo_request_ok eq_refl
    ltac:(reflexivity) ltac:(reflexivity) ltac:(reflexivity) (fun _ => eq_refl) (fun _ => eq_refl)) as Hx.
  change (vme_map good demo_request 1 fresh) with mapped_run in Hx. unfold unmapped_run.
  destruct mapped_run as [[va d'] s']. cbn [fst snd] in *. subst va. specialize (Hx ltac:(discriminate)).
  destruct (vme_unmap good (Some d') 1 s') as [rc s2]. cbv zeta in Hx. rewrite En in Hx. destruct Hx as (-> & Hf & Hp & _ & _ & _ & Hact).
  cbn [fst snd]. split; [reflexivity|]. split; [exact Hf|]. split; [exact Hp|]. split; [exact Ea|]. intros Hw. apply Hact in Hw. apply Hw.
  split; [reflexivity|discriminate].
Defined.

(** ** The CES calls *)

Definition ces_found := user_find_controller good 0x20000 0x10000 VME_A32_USER_DATA_SCT 4 0 fresh.


(** ** Where the library departs from what it says *)

Definition ask (vmeaddr len : Z) : Z * option Z * proc chip :=
  user_find_controller good vmeaddr len VME_A32_USER_DATA_SCT 4 0 fresh.

(** A length below 64 KiB is aligned down to 0 and refused, though the message
    says that it is aligned up; the file that the call opened stays open. *)
Lemma find_controller_short_length :
  let '(va, q, s) := ask 0x20000 0x1000 in
  va = 0 /\ q = None /\ pr_fds s = <[3 := 0x55]> ∅ /\ pr_heap s = ∅.
Proof. vm_compute. split_and!; reflexivity. Qed.

(** The end of a longer length that is not a multiple of 64 KiB is not mapped. *)
Lemma find_controller_cuts_length :
  let '(va, _, s) := ask 0x20000 0x18000 in
  va = 0x40000000 /\ pr_pages s !! Z.shiftr (va + 0xffff) PAGE_SHIFT = Some (0x55, 0x8000f) /\
  pr_pages s !! Z.shiftr (va + 0x10000) PAGE_SHIFT = None.
Proof. vm_compute. split_and!; reflexivity. Qed.

(** The address returned for a VME address that is not aligned shows the aligned
    address: here 0x20000 instead of 0x21234. *)
Lemma find_controller_unaligned_address :
  let '(va, _, s) := ask 0x21234 0x10000 in
  va = 0x40000000 /\ pr_pages s !! Z.shiftr va PAGE_SHIFT = Some (0x55, 0x80000) /\
  hw_translate (whw (us_w (pr_s s))) 0 (0x80000 * PAGE_SIZE + va mod PAGE_SIZE) = Some 0x20000.
Proof. vm_compute. split_and!; reflexivity. Qed.

(** A second [return_controller()] uses the descriptor that the first one freed. *)
Lemma return_controller_twice :
  match user_return_controller good 0x8000000 ces_found.2 with
  | Some (rc, s) => rc = 0 /\ user_return_controller good 0x8000000 s = None
  | None => False
  end.
Proof. vm_compute. split; reflexivity. Qed.

(** [vme_unmap()] twice: the second call closes nothing, but it reports the error. *)
Lemma vme_unmap_twice : (vme_unmap good (Some mapped_run.1.2) 1 unmapped_run.2).1 = -1.
Proof. vm_compute. reflexivity. Qed.

End LibRuns.
