(* ===== verification/CtrHw.v ===== *)
(** * The timing receiver: its registers ([ctr/driver_vme/ctrdrvr.c], [ctr/common_pci_vme])

    The memory map of a VME timing receiver (CTRV), the accesses of the driver to
    it with their count of bus errors, and the packed forms of triggers and
    counter configurations. *)

From stdpp Require Import gmap.
From S2P Require Import Prelude.

(** ** Arrays of a structure cleared at installation *)

Definition arr (A : Type) : Type := gmap Z A.
Definition aget {A} (z : A) (a : arr A) (i : Z) : A := default z (a !! i).

Lemma aget_insert {A} (z : A) (a : arr A) i v j : aget z (<[i := v]> a) j = if decide (j = i) then v else aget z a j.
Proof.
  unfold aget, arr in *. destruct (decide (j = i)) as [->|Hne]; [by rewrite (lookup_insert_eq (M := gmap Z))|].
  by rewrite (lookup_insert_ne (M := gmap Z)).
Qed.

(** [for (i = 0; i < n; i++)] *)
Definition for_range {A} (n : Z) (f : Z -> A -> A) (x : A) : A := foldl (fun x i => f i x) x (seqZ 0 n).

Lemma for_range_ind {A} (P : Z -> A -> Prop) n f x : 0 <= n -> P 0 x ->
  (forall i x, 0 <= i < n -> P i x -> P (i + 1) (f i x)) -> P n (for_range n f x).
Proof.
  intros Hn H0 Hs. unfold for_range. assert (forall k, Z.of_nat k <= n -> P (Z.of_nat k) (foldl (fun x i => f i x) x (seqZ 0 (Z.of_nat k)))) as H.
  { induction k as [|k IH]; intros Hk; [exact H0|]. rewrite seqZ_S, foldl_app. cbn [foldl]. rewrite Nat2Z.inj_succ, <- Z.add_1_r.
    apply Hs; [lia|]. apply IH. lia. }
  rewrite <- (Z2Nat.id n) by done. apply H. lia.
Qed.

(** The first index that satisfies a test. *)
Definition find_first (n : Z) (p : Z -> bool) : option Z := snd <$> list_find (fun i => p i = true) (seqZ 0 n).

Lemma find_first_spec n p i : find_first n p = Some i -> 0 <= i < n /\ p i = true.
Proof.
  unfold find_first. destruct (list_find _ _) as [[k x]|] eqn:E; [|done]. intros [= ->]. apply list_find_Some in E as (E & Hp & _).
  apply lookup_seqZ in E as [-> H]. split; [lia|done].
Qed.

(** ** Hardware types ([ctrhard.h]) *)

Definition CtrDrvrCounter0 : Z := 0.
Definition CtrDrvrCounter1 : Z := 1.
Definition CtrDrvrCounter8 : Z := 8.
Definition CtrDrvrCOUNTERS : Z := 9.
Definition CtrDrvrInterruptSOURCES : Z := 14.
Definition CtrDrvrInterruptMaskCOUNTER_0 : Z := 0x01.
Definition CtrDrvrRamTableSIZE : Z := 2048.

Definition CtrDrvrCounterStartNORMAL : Z := 0.
Definition CtrDrvrCounterSTARTS : Z := 8.
Definition CtrDrvrCounterModeNORMAL : Z := 0.
Definition CtrDrvrCounterMODES : Z := 4.
Definition CtrDrvrCounterClock1KHZ : Z := 0.
Definition CtrDrvrCounterCLOCKS : Z := 6.
Definition CtrDrvrCounterOnZeroBUS : Z := 0x01.
Definition CtrDrvrCounterOnZeroOUT : Z := 0x02.

Record CtrDrvrCounterConfiguration := Conf { OnZero : Z; Start : Z; Mode : Z; Clock : Z; PulsWidth : Z; Delay : Z }.
Definition conf_zero : CtrDrvrCounterConfiguration := Conf 0 0 0 0 0 0.

Definition CtrDrvrCounterConfigON_ZERO_MASK : Z := 0xC0000000.
Definition CtrDrvrCounterConfigSTART_MASK : Z := 0x38000000.
Definition CtrDrvrCounterConfigMODE_MASK : Z := 0x06000000.
Definition CtrDrvrCounterConfigCLOCK_MASK : Z := 0x01C00000.
Definition CtrDrvrCounterConfigPULSE_WIDTH_MASK : Z := 0x003FFFFF.

Definition CtrDrvrRemoteEXEC : Z := 0x20.
Definition CtrDrvrCntrCntrlREMOTE_MASK : Z := 0x3F.
Definition CtrDrvrCntrCntrlOUT_MASK : Z := 0x3FFC0.
Definition CtrDrvrCntrCntrlTTL_BAR : Z := 0x80000000.

(** An event frame: the union of a word and its fields, value in the low half. *)
Definition frame_Header (f : Z) : Z := Z.land (Z.shiftr f 24) 0xff.
Definition set_frame_Value (v f : Z) : Z := Z.lor (Z.land f 0xffff0000) (u16 v).

Definition CtrDrvrMachineNONE : Z := 0.
Definition CtrDrvrMachineMACHINES : Z := 7.
Definition CtrDrvrTriggerConditionNO_CHECK : Z := 0.

Record CtrDrvrTrigger := Trig {
  Ctim : Z;
  Frame : Z;
  TriggerCondition : Z;
  Machine : Z;
  Counter : Z;
  GroupNumber : Z;
  GroupValue : Z;
}.
Definition trig_zero : CtrDrvrTrigger := Trig 0 0 0 0 0 0 0.

Definition CtrDrvrTrigCONDITION_MASK : Z := 0xC0000000.
Definition CtrDrvrTrigMACHINE_MASK : Z := 0x38000000.
Definition CtrDrvrTrigCOUNTER_MASK : Z := 0x07800000.
Definition CtrDrvrTrigGROUP_NUMBER_MASK : Z := 0x007F0000.
Definition CtrDrvrTrigGROUP_VALUE_MASK : Z := 0x0000FFFF.

Record CtrDrvrCTime := CTime { CTrain : Z; Second : Z; TicksHPTDC : Z }.
Definition ctime_zero : CtrDrvrCTime := CTime 0 0 0.

Definition CtrDrvrHwStatusMASK : Z := 0x3FF.
Definition CtrDrvrTypeStatusMask : Z := 0x380.
Definition CtrDrvrStatusCTRI : Z := 0x80.
Definition CtrDrvrStatusCTRP : Z := 0x100.
Definition CtrDrvrStatusCTRV : Z := 0x200.
Definition CtrDrvrStatusNO_LOST_INTERRUPTS : Z := 0x400.
Definition CtrDrvrStatusNO_BUS_ERROR : Z := 0x800.

Definition CtrDrvrCommandRESET : Z := 0x01.
Definition CtrDrvrCommandENABLE : Z := 0x02.
Definition CtrDrvrCommandDISABLE : Z := 0x04.
Definition CtrDrvrCommandLATCH_UTC : Z := 0x08.
Definition CtrDrvrCommandSET_UTC : Z := 0x10.
Definition CtrDrvrCommandSET_HPTDC : Z := 0x20.
Definition CtrDrvrCommandDebugHisOn : Z := 0x80.
Definition CtrDrvrCommandDebugHisOff : Z := 0x100.
Definition CtrDrvrCommandUtcPllOff : Z := 0x200.
Definition CtrDrvrCommandUtcPllOn : Z := 0x400.

(** ** The memory map, in 32-bit words *)

Definition InterruptSource : Z := 0.
Definition InterruptEnable_w : Z := 1.
Definition HptdcJtag : Z := 2.
Definition InputDelay_w : Z := 3.
Definition CableId_w : Z := 4.
Definition VhdlVersion_w : Z := 5.
Definition OutputByte_w : Z := 6.
Definition Status_w : Z := 7.
Definition Command_w : Z := 8.
Definition Pll_w : Z := 9.
Definition ReadTime_w : Z := 17.
Definition SetTime_w : Z := 20.
Definition Counters_w : Z := 21.
Definition Telegrams_w : Z := 165.
Definition Trigs_w : Z := 389.
Definition Configs_w : Z := 4485.
Definition EventHistory_w : Z := 8581.
Definition Setup_w : Z := 12678.
Definition LastReset_w : Z := 12679.
Definition PartityErrs_w : Z := 12680.
Definition SyncErrs_w : Z := 12681.
Definition TotalErrs_w : Z := 12682.
Definition CodeViolErrs_w : Z := 12683.
Definition QueueErrs_w : Z := 12684.
Definition IoStat_w : Z := 12685.
Definition IdLSL_w : Z := 12686.
Definition IdMSL_w : Z := 12687.
Definition ModStats_w : Z := 12688.

(** A counter: its control (3 words), its history (11), its configuration (2). *)
Definition counter_at (i : Z) : Z := Counters_w + 16 * i.
Definition LockConfig_w (i : Z) : Z := counter_at i.
Definition LockHistory_w (i : Z) : Z := counter_at i + 1.
Definition RemOutMask_w (i : Z) : Z := counter_at i + 2.
Definition History_w (i : Z) : Z := counter_at i + 3.
Definition Config_w (i : Z) : Z := counter_at i + 14.
Definition trig_at (i : Z) : Z := Trigs_w + 2 * i.
Definition conf_at (i : Z) : Z := Configs_w + 2 * i.

(** The window that the driver maps. *)
Definition map_words : Z := 0x10000 / 4.

(** ** Packed forms *)

Fixpoint shift_loop (n : nat) (i m : Z) : Z * Z :=
  match n with
  | O => (i, m)
  | S n => if truthy (Z.land m 1) then (i, m) else shift_loop n (i + 1) (Z.shiftr m 1)
  end.

Definition AutoShiftLeft (mask value : Z) : Z :=
  let '(i, _) := shift_loop 32 0 (s32 mask) in Z.land (u32 (Z.shiftl value i)) mask.

Definition AutoShiftRight (mask value : Z) : Z :=
  let '(i, m) := shift_loop 32 0 (s32 mask) in u32 (Z.land (Z.shiftr value i) m).

(** [CtrDrvrHwTrigger]: the frame and the packed word. *)
Definition TriggerToHard (strg : CtrDrvrTrigger) : Z * Z :=
  let trigger := AutoShiftLeft CtrDrvrTrigGROUP_VALUE_MASK (GroupValue strg) in
  let trigger := Z.lor trigger (AutoShiftLeft CtrDrvrTrigCONDITION_MASK (TriggerCondition strg)) in
  let trigger := Z.lor trigger (AutoShiftLeft CtrDrvrTrigMACHINE_MASK (Machine strg)) in
  let trigger := Z.lor trigger (AutoShiftLeft CtrDrvrTrigCOUNTER_MASK (Counter strg)) in
  let trigger := Z.lor trigger (AutoShiftLeft CtrDrvrTrigGROUP_NUMBER_MASK (GroupNumber strg)) in
  (Frame strg, trigger).

(** [CtrDrvrHwCounterConfiguration]: the packed word and the delay. *)
Definition ConfigToHard (scnf : CtrDrvrCounterConfiguration) : Z * Z :=
  let config := AutoShiftLeft CtrDrvrCounterConfigPULSE_WIDTH_MASK (PulsWidth scnf) in
  let config := Z.lor config (AutoShiftLeft CtrDrvrCounterConfigCLOCK_MASK (Clock scnf)) in
  let config := Z.lor config (AutoShiftLeft CtrDrvrCounterConfigMODE_MASK (Mode scnf)) in
  let config := Z.lor config (AutoShiftLeft CtrDrvrCounterConfigSTART_MASK (Start scnf)) in
  let config := Z.lor config (AutoShiftLeft CtrDrvrCounterConfigON_ZERO_MASK (OnZero scnf)) in
  (config, Delay scnf).

(** What the two conversions make of the words they read. *)
Definition unpack_trigger (frame trigger : Z) : CtrDrvrTrigger :=
  Trig 0 frame (AutoShiftRight CtrDrvrTrigCONDITION_MASK trigger) (AutoShiftRight CtrDrvrTrigMACHINE_MASK trigger)
    (AutoShiftRight CtrDrvrTrigCOUNTER_MASK trigger) (AutoShiftRight CtrDrvrTrigGROUP_NUMBER_MASK trigger)
    (AutoShiftRight CtrDrvrTrigGROUP_VALUE_MASK trigger).

Definition unpack_config (config delay : Z) : CtrDrvrCounterConfiguration :=
  Conf (AutoShiftRight CtrDrvrCounterConfigON_ZERO_MASK config) (AutoShiftRight CtrDrvrCounterConfigSTART_MASK config)
    (AutoShiftRight CtrDrvrCounterConfigMODE_MASK config) (AutoShiftRight CtrDrvrCounterConfigCLOCK_MASK config)
    (AutoShiftRight CtrDrvrCounterConfigPULSE_WIDTH_MASK config) delay.

(** The bits that the fields of a trigger and of a configuration have room for. *)
Definition trig_fits (t : CtrDrvrTrigger) : Prop :=
  Ctim t = 0 /\ 0 <= TriggerCondition t < 4 /\ 0 <= Machine t < 8 /\ 0 <= Counter t < 16 /\ 0 <= GroupNumber t < 128 /\ 0 <= GroupValue t < 2 ^ 16.
Definition conf_fits (c : CtrDrvrCounterConfiguration) : Prop :=
  0 <= OnZero c < 4 /\ 0 <= Start c < 8 /\ 0 <= Mode c < 4 /\ 0 <= Clock c < 8 /\ 0 <= PulsWidth c < 2 ^ 22.

(** ** Fields of a packed word *)

Definition is_field (mask p k : Z) : Prop :=
  0 <= p /\ 0 <= k /\ p + k <= 32 /\ mask = Z.shiftl (Z.ones k) p /\
  let '(i, m) := shift_loop 32 0 (s32 mask) in i = p /\ (m = Z.ones k \/ m = -1 /\ p + k = 32).

Lemma field_left_bit mask p k v j : is_field mask p k -> 0 <= j ->
  Z.testbit (AutoShiftLeft mask v) j = (p <=? j) && (j <? p + k) && Z.testbit v (j - p).
Proof.
  intros (Hp & Hk & Hpk & -> & Hl) Hj. unfold AutoShiftLeft. destruct (shift_loop _ _ _) as [i m]. destruct Hl as [-> _].
  rewrite Z.land_spec, Z.shiftl_spec by done. unfold u32.
  destruct (Z.leb_spec p j); cbn [andb]; [|rewrite (Z.testbit_neg_r _ (j - p)) by lia; by rewrite andb_false_r].
  destruct (Z.ltb_spec j (p + k)); cbn [andb].
  - rewrite Z.ones_spec_low, andb_true_r, Z.mod_pow2_bits_low, Z.shiftl_spec by lia. done.
  - rewrite Z.ones_spec_high, andb_false_r by lia. done.
Qed.

Lemma field_right_bit mask p k w j : is_field mask p k -> is_u32 w -> 0 <= j ->
  Z.testbit (AutoShiftRight mask w) j = (j <? k) && Z.testbit w (j + p).
Proof.
  intros (Hp & Hk & Hpk & _ & Hl) Hw Hj. unfold AutoShiftRight. destruct (shift_loop _ _ _) as [i m]. destruct Hl as [-> Hm]. unfold u32.
  assert (forall l, 32 <= l -> Z.testbit w l = false) as Hhi by (intros l Hl; apply (testbit_above w 32); (exact Hw || done)).
  destruct (Z_lt_le_dec j 32).
  - rewrite Z.mod_pow2_bits_low, Z.land_spec, Z.shiftr_spec by lia. destruct Hm as [-> | [-> E]].
    + destruct (Z.ltb_spec j k); [rewrite Z.ones_spec_low by lia; by rewrite andb_true_r|rewrite Z.ones_spec_high by lia; by rewrite andb_false_r].
    + rewrite Z.bits_m1 by done. rewrite andb_true_r. destruct (Z.ltb_spec j k); [done|]. apply Hhi. lia.
  - rewrite Z.mod_pow2_bits_high by lia. rewrite Hhi by lia. by rewrite andb_false_r.
Qed.

Lemma field_left_u32 mask p k v : is_field mask p k -> is_u32 (AutoShiftLeft mask v).
Proof.
  intros (Hp & Hk & Hpk & E & Hl). unfold AutoShiftLeft. destruct (shift_loop _ _ _) as [i m]. pose proof (u32_range (Z.shiftl v i)) as [Hu _].
  assert (0 <= mask < 2 ^ 32) as [Hm1 Hm2].
  { rewrite E, Z.shiftl_mul_pow2, Z.ones_equiv by done. pose proof (Z.pow_pos_nonneg 2 p ltac:(lia) Hp). pose proof (Z.pow_pos_nonneg 2 k ltac:(lia) Hk).
    pose proof (Z.pow_le_mono_r 2 (p + k) 32 ltac:(lia) Hpk). rewrite Z.pow_add_r in * by done. nia. }
  pose proof (land_bound_r (u32 (Z.shiftl v i)) mask Hm1). unfold is_u32. lia.
Qed.

Ltac field := unfold is_field; vm_compute; repeat split; first [discriminate | (left; reflexivity) | (right; split; reflexivity)].

Lemma trig_condition : is_field CtrDrvrTrigCONDITION_MASK 30 2. Proof. field. Qed.
Lemma trig_machine : is_field CtrDrvrTrigMACHINE_MASK 27 3. Proof. field. Qed.
Lemma trig_counter : is_field CtrDrvrTrigCOUNTER_MASK 23 4. Proof. field. Qed.
Lemma trig_group : is_field CtrDrvrTrigGROUP_NUMBER_MASK 16 7. Proof. field. Qed.
Lemma trig_value : is_field CtrDrvrTrigGROUP_VALUE_MASK 0 16. Proof. field. Qed.
Lemma conf_onzero : is_field CtrDrvrCounterConfigON_ZERO_MASK 30 2. Proof. field. Qed.
Lemma conf_start : is_field CtrDrvrCounterConfigSTART_MASK 27 3. Proof. field. Qed.
Lemma conf_mode : is_field CtrDrvrCounterConfigMODE_MASK 25 2. Proof. field. Qed.
Lemma conf_clock : is_field CtrDrvrCounterConfigCLOCK_MASK 22 3. Proof. field. Qed.
Lemma conf_width : is_field CtrDrvrCounterConfigPULSE_WIDTH_MASK 0 22. Proof. field. Qed.

#[export] Hint Resolve trig_condition trig_machine trig_counter trig_group trig_value conf_onzero conf_start conf_mode conf_clock conf_width : fields.

Lemma packed_lor_u32 a b : is_u32 a -> is_u32 b -> is_u32 (Z.lor a b).
Proof.
  intros Ha Hb. unfold is_u32 in *. split; [apply Z.lor_nonneg; lia|]. destruct (Z_lt_le_dec (Z.lor a b) (2 ^ 32)) as [|Hl]; [done|exfalso].
  assert (0 < Z.lor a b) by lia. pose proof (Z.log2_le_mono _ _ Hl) as H1. rewrite Z.log2_pow2 in H1 by lia.
  assert (Z.testbit (Z.lor a b) (Z.log2 (Z.lor a b)) = true) as Hb1 by (by apply Z.bit_log2).
  rewrite Z.lor_spec in Hb1. rewrite (testbit_above a 32), (testbit_above b 32) in Hb1 by lia. done.
Qed.

(** Reading back a field of a word built from several. *)
Ltac read_back :=
  apply Z.bits_inj'; intros j Hj; erewrite field_right_bit; [|eauto with fields| |done];
  [repeat rewrite Z.lor_spec;
   repeat match goal with |- context [Z.testbit (AutoShiftLeft ?m ?v) ?i] => erewrite (field_left_bit m _ _ v i); [|eauto with fields|lia] end;
   match goal with |- (?a <? ?b) && _ = Z.testbit ?v _ =>
     destruct (Z.ltb_spec a b) as [Hlt|Hge]; cbn [andb];
     [|symmetry; apply (testbit_above v b); lia] end;
   repeat match goal with |- context [?a <=? ?b] => first [rewrite (proj2 (Z.leb_le a b)) by lia | rewrite (proj2 (Z.leb_gt a b)) by lia] end;
   repeat match goal with |- context [?a <? ?b] => first [rewrite (proj2 (Z.ltb_lt a b)) by lia | rewrite (proj2 (Z.ltb_ge a b)) by lia] end;
   cbn [andb orb]; rewrite ?orb_false_r; f_equal; lia
  |repeat simple apply packed_lor_u32; simple eapply field_left_u32; typeclasses eauto with fields].

Lemma trigger_roundtrip t : trig_fits t -> let '(f, w) := TriggerToHard t in is_u32 w /\ unpack_trigger f w = t.
Proof.
  intros (H1 & H2 & H3 & H4 & H5 & H6). unfold TriggerToHard. cbv zeta. split; [repeat simple apply packed_lor_u32; simple eapply field_left_u32; typeclasses eauto with fields|].
  destruct t as [ct fr tc ma co gn gv]. cbn in *. subst ct. unfold unpack_trigger. f_equal; read_back.
Qed.

Lemma config_roundtrip c : conf_fits c -> let '(w, d) := ConfigToHard c in is_u32 w /\ unpack_config w d = c.
Proof.
  intros (H1 & H2 & H3 & H4 & H5). unfold ConfigToHard. cbv zeta. split; [repeat simple apply packed_lor_u32; simple eapply field_left_u32; typeclasses eauto with fields|].
  destruct c as [oz st mo cl pw de]. cbn in *. unfold unpack_config. f_equal; read_back.
Qed.
