(* ===== verification/CtrMod.v ===== *)
(** * The timing receiver: a module ([ctr/driver_vme/ctrdrvr.c])

    What the driver keeps of a module, the card behind it, and the operations on
    one module: reset, time, status, interrupts, raw access. *)

From stdpp Require Import gmap.
From S2P Require Import Prelude CtrHw.

(** ** The context of a module ([ctrdrvrP.h]) *)

Record CtrDrvrModuleAddress := Maddr {
  a_VMEAddress : Z;
  a_JTGAddress : Z;
  a_InterruptVector : Z;
  a_InterruptLevel : Z;
  a_CopyAddress : Z;
}.

Definition set_a_VMEAddress (v : Z) (m : CtrDrvrModuleAddress) : CtrDrvrModuleAddress := Maddr v (a_JTGAddress m) (a_InterruptVector m) (a_InterruptLevel m) (a_CopyAddress m).
Definition set_a_JTGAddress (v : Z) (m : CtrDrvrModuleAddress) : CtrDrvrModuleAddress := Maddr (a_VMEAddress m) v (a_InterruptVector m) (a_InterruptLevel m) (a_CopyAddress m).
Definition set_a_InterruptVector (v : Z) (m : CtrDrvrModuleAddress) : CtrDrvrModuleAddress := Maddr (a_VMEAddress m) (a_JTGAddress m) v (a_InterruptLevel m) (a_CopyAddress m).
Definition set_a_InterruptLevel (v : Z) (m : CtrDrvrModuleAddress) : CtrDrvrModuleAddress := Maddr (a_VMEAddress m) (a_JTGAddress m) (a_InterruptVector m) v (a_CopyAddress m).
Definition set_a_CopyAddress (v : Z) (m : CtrDrvrModuleAddress) : CtrDrvrModuleAddress := Maddr (a_VMEAddress m) (a_JTGAddress m) (a_InterruptVector m) (a_InterruptLevel m) v.

Definition maddr_zero : CtrDrvrModuleAddress := Maddr 0 0 0 0 0.

Record CtrDrvrModuleContext := Mcon {
  mc_Address : CtrDrvrModuleAddress;
  mc_OutputByte : Z;
  mc_BerrHandler : option Z;  (* [None]: an error pointer *)
  mc_IrqBalance : Z;
  mc_IVector : Z;
  mc_Map : Z;  (* 0: NULL *)
  mc_FlashOpen : Z;
  mc_HptdcOpen : Z;
  mc_ModuleIndex : Z;
  mc_Command : Z;
  mc_InterruptEnable : Z;
  mc_PllAsyncPeriodNs : Z;  (* the bits of a float *)
  mc_InputDelay : Z;
  mc_Pll : list Z;  (* eight words *)
  mc_Status : Z;
  mc_InUse : Z;
  mc_BusErrorCount : Z;
  mc_CableId : Z;
  mc_Configs : arr CtrDrvrCounterConfiguration;
  mc_Clients : arr Z;  (* clients of each trigger *)
  mc_Trigs : arr CtrDrvrTrigger;
  mc_EqpNum : arr Z;
  mc_EqpClass : arr Z;
  mc_HardClients : arr Z;  (* clients of each source *)
}.

Definition set_mc_Address (v : CtrDrvrModuleAddress) (m : CtrDrvrModuleContext) : CtrDrvrModuleContext := Mcon v (mc_OutputByte m) (mc_BerrHandler m) (mc_IrqBalance m) (mc_IVector m) (mc_Map m) (mc_FlashOpen m) (mc_HptdcOpen m) (mc_ModuleIndex m) (mc_Command m) (mc_InterruptEnable m) (mc_PllAsyncPeriodNs m) (mc_InputDelay m) (mc_Pll m) (mc_Status m) (mc_InUse m) (mc_BusErrorCount m) (mc_CableId m) (mc_Configs m) (mc_Clients m) (mc_Trigs m) (mc_EqpNum m) (mc_EqpClass m) (mc_HardClients m).
Definition set_mc_OutputByte (v : Z) (m : CtrDrvrModuleContext) : CtrDrvrModuleContext := Mcon (mc_Address m) v (mc_BerrHandler m) (mc_IrqBalance m) (mc_IVector m) (mc_Map m) (mc_FlashOpen m) (mc_HptdcOpen m) (mc_ModuleIndex m) (mc_Command m) (mc_InterruptEnable m) (mc_PllAsyncPeriodNs m) (mc_InputDelay m) (mc_Pll m) (mc_Status m) (mc_InUse m) (mc_BusErrorCount m) (mc_CableId m) (mc_Configs m) (mc_Clients m) (mc_Trigs m) (mc_EqpNum m) (mc_EqpClass m) (mc_HardClients m).
Definition set_mc_BerrHandler (v : option Z) (m : CtrDrvrModuleContext) : CtrDrvrModuleContext := Mcon (mc_Address m) (mc_OutputByte m) v (mc_IrqBalance m) (mc_IVector m) (mc_Map m) (mc_FlashOpen m) (mc_HptdcOpen m) (mc_ModuleIndex m) (mc_Command m) (mc_InterruptEnable m) (mc_PllAsyncPeriodNs m) (mc_InputDelay m) (mc_Pll m) (mc_Status m) (mc_InUse m) (mc_BusErrorCount m) (mc_CableId m) (mc_Configs m) (mc_Clients m) (mc_Trigs m) (mc_EqpNum m) (mc_EqpClass m) (mc_HardClients m).
Definition set_mc_IrqBalance (v : Z) (m : CtrDrvrModuleContext) : CtrDrvrModuleContext := Mcon (mc_Address m) (mc_OutputByte m) (mc_BerrHandler m) v (mc_IVector m) (mc_Map m) (mc_FlashOpen m) (mc_HptdcOpen m) (mc_ModuleIndex m) (mc_Command m) (mc_InterruptEnable m) (mc_PllAsyncPeriodNs m) (mc_InputDelay m) (mc_Pll m) (mc_Status m) (mc_InUse m) (mc_BusErrorCount m) (mc_CableId m) (mc_Configs m) (mc_Clients m) (mc_Trigs m) (mc_EqpNum m) (mc_EqpClass m) (mc_HardClients m).
Definition set_mc_IVector (v : Z) (m : CtrDrvrModuleContext) : CtrDrvrModuleContext := Mcon (mc_Address m) (mc_OutputByte m) (mc_BerrHandler m) (mc_IrqBalance m) v (mc_Map m) (mc_FlashOpen m) (mc_HptdcOpen m) (mc_ModuleIndex m) (mc_Command m) (mc_InterruptEnable m) (mc_PllAsyncPeriodNs m) (mc_InputDelay m) (mc_Pll m) (mc_Status m) (mc_InUse m) (mc_BusErrorCount m) (mc_CableId m) (mc_Configs m) (mc_Clients m) (mc_Trigs m) (mc_EqpNum m) (mc_EqpClass m) (mc_HardClients m).
Definition set_mc_Map (v : Z) (m : CtrDrvrModuleContext) : CtrDrvrModuleContext := Mcon (mc_Address m) (mc_OutputByte m) (mc_BerrHandler m) (mc_IrqBalance m) (mc_IVector m) v (mc_FlashOpen m) (mc_HptdcOpen m) (mc_ModuleIndex m) (mc_Command m) (mc_InterruptEnable m) (mc_PllAsyncPeriodNs m) (mc_InputDelay m) (mc_Pll m) (mc_Status m) (mc_InUse m) (mc_BusErrorCount m) (mc_CableId m) (mc_Configs m) (mc_Clients m) (mc_Trigs m) (mc_EqpNum m) (mc_EqpClass m) (mc_HardClients m).
Definition set_mc_FlashOpen (v : Z) (m : CtrDrvrModuleContext) : CtrDrvrModuleContext := Mcon (mc_Address m) (mc_OutputByte m) (mc_BerrHandler m) (mc_IrqBalance m) (mc_IVector m) (mc_Map m) v (mc_HptdcOpen m) (mc_ModuleIndex m) (mc_Command m) (mc_InterruptEnable m) (mc_PllAsyncPeriodNs m) (mc_InputDelay m) (mc_Pll m) (mc_Status m) (mc_InUse m) (mc_BusErrorCount m) (mc_CableId m) (mc_Configs m) (mc_Clients m) (mc_Trigs m) (mc_EqpNum m) (mc_EqpClass m) (mc_HardClients m).
Definition set_mc_HptdcOpen (v : Z) (m : CtrDrvrModuleContext) : CtrDrvrModuleContext := Mcon (mc_Address m) (mc_OutputByte m) (mc_BerrHandler m) (mc_IrqBalance m) (mc_IVector m) (mc_Map m) (mc_FlashOpen m) v (mc_ModuleIndex m) (mc_Command m) (mc_InterruptEnable m) (mc_PllAsyncPeriodNs m) (mc_InputDelay m) (mc_Pll m) (mc_Status m) (mc_InUse m) (mc_BusErrorCount m) (mc_CableId m) (mc_Configs m) (mc_Clients m) (mc_Trigs m) (mc_EqpNum m) (mc_EqpClass m) (mc_HardClients m).
Definition set_mc_ModuleIndex (v : Z) (m : CtrDrvrModuleContext) : CtrDrvrModuleContext := Mcon (mc_Address m) (mc_OutputByte m) (mc_BerrHandler m) (mc_IrqBalance m) (mc_IVector m) (mc_Map m) (mc_FlashOpen m) (mc_HptdcOpen m) v (mc_Command m) (mc_InterruptEnable m) (mc_PllAsyncPeriodNs m) (mc_InputDelay m) (mc_Pll m) (mc_Status m) (mc_InUse m) (mc_BusErrorCount m) (mc_CableId m) (mc_Configs m) (mc_Clients m) (mc_Trigs m) (mc_EqpNum m) (mc_EqpClass m) (mc_HardClients m).
Definition set_mc_Command (v : Z) (m : CtrDrvrModuleContext) : CtrDrvrModuleContext := Mcon (mc_Address m) (mc_OutputByte m) (mc_BerrHandler m) (mc_IrqBalance m) (mc_IVector m) (mc_Map m) (mc_FlashOpen m) (mc_HptdcOpen m) (mc_ModuleIndex m) v (mc_InterruptEnable m) (mc_PllAsyncPeriodNs m) (mc_InputDelay m) (mc_Pll m) (mc_Status m) (mc_InUse m) (mc_BusErrorCount m) (mc_CableId m) (mc_Configs m) (mc_Clients m) (mc_Trigs m) (mc_EqpNum m) (mc_EqpClass m) (mc_HardClients m).
Definition set_mc_InterruptEnable (v : Z) (m : CtrDrvrModuleContext) : CtrDrvrModuleContext := Mcon (mc_Address m) (mc_OutputByte m) (mc_BerrHandler m) (mc_IrqBalance m) (mc_IVector m) (mc_Map m) (mc_FlashOpen m) (mc_HptdcOpen m) (mc_ModuleIndex m) (mc_Command m) v (mc_PllAsyncPeriodNs m) (mc_InputDelay m) (mc_Pll m) (mc_Status m) (mc_InUse m) (mc_BusErrorCount m) (mc_CableId m) (mc_Configs m) (mc_Clients m) (mc_Trigs m) (mc_EqpNum m) (mc_EqpClass m) (mc_HardClients m).
Definition set_mc_PllAsyncPeriodNs (v : Z) (m : CtrDrvrModuleContext) : CtrDrvrModuleContext := Mcon (mc_Address m) (mc_OutputByte m) (mc_BerrHandler m) (mc_IrqBalance m) (mc_IVector m) (mc_Map m) (mc_FlashOpen m) (mc_HptdcOpen m) (mc_ModuleIndex m) (mc_Command m) (mc_InterruptEnable m) v (mc_InputDelay m) (mc_Pll m) (mc_Status m) (mc_InUse m) (mc_BusErrorCount m) (mc_CableId m) (mc_Configs m) (mc_Clients m) (mc_Trigs m) (mc_EqpNum m) (mc_EqpClass m) (mc_HardClients m).
Definition set_mc_InputDelay (v : Z) (m : CtrDrvrModuleContext) : CtrDrvrModuleContext := Mcon (mc_Address m) (mc_OutputByte m) (mc_BerrHandler m) (mc_IrqBalance m) (mc_IVector m) (mc_Map m) (mc_FlashOpen m) (mc_HptdcOpen m) (mc_ModuleIndex m) (mc_Command m) (mc_InterruptEnable m) (mc_PllAsyncPeriodNs m) v (mc_Pll m) (mc_Status m) (mc_InUse m) (mc_BusErrorCount m) (mc_CableId m) (mc_Configs m) (mc_Clients m) (mc_Trigs m) (mc_EqpNum m) (mc_EqpClass m) (mc_HardClients m).
Definition set_mc_Pll (v : list Z) (m : CtrDrvrModuleContext) : CtrDrvrModuleContext := Mcon (mc_Address m) (mc_OutputByte m) (mc_BerrHandler m) (mc_IrqBalance m) (mc_IVector m) (mc_Map m) (mc_FlashOpen m) (mc_HptdcOpen m) (mc_ModuleIndex m) (mc_Command m) (mc_InterruptEnable m) (mc_PllAsyncPeriodNs m) (mc_InputDelay m) v (mc_Status m) (mc_InUse m) (mc_BusErrorCount m) (mc_CableId m) (mc_Configs m) (mc_Clients m) (mc_Trigs m) (mc_EqpNum m) (mc_EqpClass m) (mc_HardClients m).
Definition set_mc_Status (v : Z) (m : CtrDrvrModuleContext) : CtrDrvrModuleContext := Mcon (mc_Address m) (mc_OutputByte m) (mc_BerrHandler m) (mc_IrqBalance m) (mc_IVector m) (mc_Map m) (mc_FlashOpen m) (mc_HptdcOpen m) (mc_ModuleIndex m) (mc_Command m) (mc_InterruptEnable m) (mc_PllAsyncPeriodNs m) (mc_InputDelay m) (mc_Pll m) v (mc_InUse m) (mc_BusErrorCount m) (mc_CableId m) (mc_Configs m) (mc_Clients m) (mc_Trigs m) (mc_EqpNum m) (mc_EqpClass m) (mc_HardClients m).
Definition set_mc_InUse (v : Z) (m : CtrDrvrModuleContext) : CtrDrvrModuleContext := Mcon (mc_Address m) (mc_OutputByte m) (mc_BerrHandler m) (mc_IrqBalance m) (mc_IVector m) (mc_Map m) (mc_FlashOpen m) (mc_HptdcOpen m) (mc_ModuleIndex m) (mc_Command m) (mc_InterruptEnable m) (mc_PllAsyncPeriodNs m) (mc_InputDelay m) (mc_Pll m) (mc_Status m) v (mc_BusErrorCount m) (mc_CableId m) (mc_Configs m) (mc_Clients m) (mc_Trigs m) (mc_EqpNum m) (mc_EqpClass m) (mc_HardClients m).
Definition set_mc_BusErrorCount (v : Z) (m : CtrDrvrModuleContext) : CtrDrvrModuleContext := Mcon (mc_Address m) (mc_OutputByte m) (mc_BerrHandler m) (mc_IrqBalance m) (mc_IVector m) (mc_Map m) (mc_FlashOpen m) (mc_HptdcOpen m) (mc_ModuleIndex m) (mc_Command m) (mc_InterruptEnable m) (mc_PllAsyncPeriodNs m) (mc_InputDelay m) (mc_Pll m) (mc_Status m) (mc_InUse m) v (mc_CableId m) (mc_Configs m) (mc_Clients m) (mc_Trigs m) (mc_EqpNum m) (mc_EqpClass m) (mc_HardClients m).
Definition set_mc_CableId (v : Z) (m : CtrDrvrModuleContext) : CtrDrvrModuleContext := Mcon (mc_Address m) (mc_OutputByte m) (mc_BerrHandler m) (mc_IrqBalance m) (mc_IVector m) (mc_Map m) (mc_FlashOpen m) (mc_HptdcOpen m) (mc_ModuleIndex m) (mc_Command m) (mc_InterruptEnable m) (mc_PllAsyncPeriodNs m) (mc_InputDelay m) (mc_Pll m) (mc_Status m) (mc_InUse m) (mc_BusErrorCount m) v (mc_Configs m) (mc_Clients m) (mc_Trigs m) (mc_EqpNum m) (mc_EqpClass m) (mc_HardClients m).
Definition set_mc_Configs (v : arr CtrDrvrCounterConfiguration) (m : CtrDrvrModuleContext) : CtrDrvrModuleContext := Mcon (mc_Address m) (mc_OutputByte m) (mc_BerrHandler m) (mc_IrqBalance m) (mc_IVector m) (mc_Map m) (mc_FlashOpen m) (mc_HptdcOpen m) (mc_ModuleIndex m) (mc_Command m) (mc_InterruptEnable m) (mc_PllAsyncPeriodNs m) (mc_InputDelay m) (mc_Pll m) (mc_Status m) (mc_InUse m) (mc_BusErrorCount m) (mc_CableId m) v (mc_Clients m) (mc_Trigs m) (mc_EqpNum m) (mc_EqpClass m) (mc_HardClients m).
Definition set_mc_Clients (v : arr Z) (m : CtrDrvrModuleContext) : CtrDrvrModuleContext := Mcon (mc_Address m) (mc_OutputByte m) (mc_BerrHandler m) (mc_IrqBalance m) (mc_IVector m) (mc_Map m) (mc_FlashOpen m) (mc_HptdcOpen m) (mc_ModuleIndex m) (mc_Command m) (mc_InterruptEnable m) (mc_PllAsyncPeriodNs m) (mc_InputDelay m) (mc_Pll m) (mc_Status m) (mc_InUse m) (mc_BusErrorCount m) (mc_CableId m) (mc_Configs m) v (mc_Trigs m) (mc_EqpNum m) (mc_EqpClass m) (mc_HardClients m).
Definition set_mc_Trigs (v : arr CtrDrvrTrigger) (m : CtrDrvrModuleContext) : CtrDrvrModuleContext := Mcon (mc_Address m) (mc_OutputByte m) (mc_BerrHandler m) (mc_IrqBalance m) (mc_IVector m) (mc_Map m) (mc_FlashOpen m) (mc_HptdcOpen m) (mc_ModuleIndex m) (mc_Command m) (mc_InterruptEnable m) (mc_PllAsyncPeriodNs m) (mc_InputDelay m) (mc_Pll m) (mc_Status m) (mc_InUse m) (mc_BusErrorCount m) (mc_CableId m) (mc_Configs m) (mc_Clients m) v (mc_EqpNum m) (mc_EqpClass m) (mc_HardClients m).
Definition set_mc_EqpNum (v : arr Z) (m : CtrDrvrModuleContext) : CtrDrvrModuleContext := Mcon (mc_Address m) (mc_OutputByte m) (mc_BerrHandler m) (mc_IrqBalance m) (mc_IVector m) (mc_Map m) (mc_FlashOpen m) (mc_HptdcOpen m) (mc_ModuleIndex m) (mc_Command m) (mc_InterruptEnable m) (mc_PllAsyncPeriodNs m) (mc_InputDelay m) (mc_Pll m) (mc_Status m) (mc_InUse m) (mc_BusErrorCount m) (mc_CableId m) (mc_Configs m) (mc_Clients m) (mc_Trigs m) v (mc_EqpClass m) (mc_HardClients m).
Definition set_mc_EqpClass (v : arr Z) (m : CtrDrvrModuleContext) : CtrDrvrModuleContext := Mcon (mc_Address m) (mc_OutputByte m) (mc_BerrHandler m) (mc_IrqBalance m) (mc_IVector m) (mc_Map m) (mc_FlashOpen m) (mc_HptdcOpen m) (mc_ModuleIndex m) (mc_Command m) (mc_InterruptEnable m) (mc_PllAsyncPeriodNs m) (mc_InputDelay m) (mc_Pll m) (mc_Status m) (mc_InUse m) (mc_BusErrorCount m) (mc_CableId m) (mc_Configs m) (mc_Clients m) (mc_Trigs m) (mc_EqpNum m) v (mc_HardClients m).
Definition set_mc_HardClients (v : arr Z) (m : CtrDrvrModuleContext) : CtrDrvrModuleContext := Mcon (mc_Address m) (mc_OutputByte m) (mc_BerrHandler m) (mc_IrqBalance m) (mc_IVector m) (mc_Map m) (mc_FlashOpen m) (mc_HptdcOpen m) (mc_ModuleIndex m) (mc_Command m) (mc_InterruptEnable m) (mc_PllAsyncPeriodNs m) (mc_InputDelay m) (mc_Pll m) (mc_Status m) (mc_InUse m) (mc_BusErrorCount m) (mc_CableId m) (mc_Configs m) (mc_Clients m) (mc_Trigs m) (mc_EqpNum m) (mc_EqpClass m) v.

(** A cleared context. *)
Definition mcon_zero : CtrDrvrModuleContext :=
  Mcon maddr_zero 0 (Some 0) 0 0 0 0 0 0 0 0 0 0 [0; 0; 0; 0; 0; 0; 0; 0] 0 0 0 0 ∅ ∅ ∅ ∅ ∅ ∅.

Definition Clients (m : CtrDrvrModuleContext) : Z -> Z := aget 0 (mc_Clients m).
Definition Trigs (m : CtrDrvrModuleContext) : Z -> CtrDrvrTrigger := aget trig_zero (mc_Trigs m).
Definition Configs (m : CtrDrvrModuleContext) : Z -> CtrDrvrCounterConfiguration := aget conf_zero (mc_Configs m).
Definition EqpNum (m : CtrDrvrModuleContext) : Z -> Z := aget 0 (mc_EqpNum m).
Definition EqpClass (m : CtrDrvrModuleContext) : Z -> Z := aget 0 (mc_EqpClass m).
Definition HardClients (m : CtrDrvrModuleContext) : Z -> Z := aget 0 (mc_HardClients m).

(** ** The card

    Its words; the words at which an access is a bus error; what was written to
    the register of the HPTDC and what the chip answers then; the JTAG port. *)
Record card := Card {
  cd_mem : gmap Z Z;
  cd_fault : Z -> bool;
  cd_hptdc : list Z;
  cd_chip : list Z -> Z;
  cd_jport : Z;
  cd_jfault : bool;
  cd_jlog : list Z;
}.

Definition cd_word (w : Z) (c : card) : Z := default 0 (cd_mem c !! w).
Definition set_mem (x : gmap Z Z) (c : card) : card := Card x (cd_fault c) (cd_hptdc c) (cd_chip c) (cd_jport c) (cd_jfault c) (cd_jlog c).
Definition put_word (w v : Z) (c : card) : card := set_mem (<[w := v]> (cd_mem c)) c.

(** The sources and the history locks are cleared when they are read. *)
Definition clear_on_read (w : Z) : bool :=
  (w =? InterruptSource) || existsb (fun i => w =? LockHistory_w i) (seqZ 0 CtrDrvrCOUNTERS).

Definition card_read (w : Z) (c : card) : Z * card :=
  if w =? HptdcJtag then (cd_chip c (cd_hptdc c), c)
  else (cd_word w c, if clear_on_read w then put_word w 0 c else c).

Definition card_write (v w : Z) (c : card) : card :=
  if w =? HptdcJtag then Card (cd_mem c) (cd_fault c) (cd_hptdc c ++ [v]) (cd_chip c) (cd_jport c) (cd_jfault c) (cd_jlog c)
  else put_word w v c.

(** ** Variables of the driver that accesses change

    [g_oops]: a NULL pointer was used, or an index left its array; what follows
    means nothing. *)
Record glob := Glob { bus_error_count : Z; isr_bus_error : Z; last_bus_error : Z; g_oops : bool }.

Definition oops_g (g : glob) : glob := Glob (bus_error_count g) (isr_bus_error g) (last_bus_error g) true.

(** A module, its card and these variables. *)
Record mst := Mst { ms_con : CtrDrvrModuleContext; ms_card : card; ms_glob : glob }.

Definition on_con (f : CtrDrvrModuleContext -> CtrDrvrModuleContext) (m : mst) : mst := Mst (f (ms_con m)) (ms_card m) (ms_glob m).
Definition with_card (c : card) (m : mst) : mst := Mst (ms_con m) c (ms_glob m).
Definition on_glob (f : glob -> glob) (m : mst) : mst := Mst (ms_con m) (ms_card m) (f (ms_glob m)).
Definition oops (m : mst) : mst := on_glob oops_g m.

(** ** Access to the registers

    The handler of the bridge counts a bus error during the access. *)

Definition BUS_ERR_PRINT_THRESHOLD : Z := 10.

Definition BusErrorHandler (g : glob) : glob := Glob (s32 (bus_error_count g + 1)) (isr_bus_error g) (last_bus_error g) (g_oops g).

Definition GetClrBusErrCnt (m : mst) : Z * mst :=
  (bus_error_count (ms_glob m), on_glob (fun g => Glob 0 0 0 (g_oops g)) m).

Definition ioread32be (w : Z) (m : mst) : Z * mst :=
  if (mc_Map (ms_con m) =? 0) || negb ((0 <=? w) && (w <? map_words)) then (0, oops m) else
  let '(v, c) := card_read w (ms_card m) in
  let m := with_card c m in
  (v, if cd_fault (ms_card m) w then on_glob BusErrorHandler m else m).

Definition iowrite32be (v w : Z) (m : mst) : mst :=
  if (mc_Map (ms_con m) =? 0) || negb ((0 <=? w) && (w <? map_words)) then oops m else
  let m := with_card (card_write v w (ms_card m)) m in
  if cd_fault (ms_card m) w then on_glob BusErrorHandler m else m.

(** What [HRd()] and [HWr()] do after an access; a read forgets an error in the
    handler as well. *)
Definition check_bus_error (rd : bool) (g : glob) : glob :=
  if (last_bus_error g <? bus_error_count g) && (bus_error_count g <=? BUS_ERR_PRINT_THRESHOLD)
  then Glob (bus_error_count g) (if rd then 0 else isr_bus_error g) (bus_error_count g) (g_oops g) else g.

Definition HRd (w : Z) (m : mst) : Z * mst :=
  let '(v, m) := ioread32be w m in (v, on_glob (check_bus_error true) m).

Definition HWr (v w : Z) (m : mst) : mst := on_glob (check_bus_error false) (iowrite32be v w m).

Definition set_isr_bus_error (v : Z) (g : glob) : glob := Glob (bus_error_count g) v (last_bus_error g) (g_oops g).

Definition IHRd (w : Z) (m : mst) : Z * mst :=
  let m := on_glob (set_isr_bus_error 0) m in
  let '(v, m) := ioread32be w m in
  (v, on_glob (fun g => if last_bus_error g <? bus_error_count g then set_isr_bus_error 1 g else g) m).

(** The JTAG port, in its own window. *)
Definition jtag_error (m : mst) : mst := if cd_jfault (ms_card m) then on_glob BusErrorHandler m else m.

Definition HRdJtag (m : mst) : Z * mst :=
  if a_JTGAddress (mc_Address (ms_con m)) =? 0 then (0, oops m) else (cd_jport (ms_card m), jtag_error m).

Definition HWrJtag (v : Z) (m : mst) : mst :=
  if a_JTGAddress (mc_Address (ms_con m)) =? 0 then oops m else
  let c := ms_card m in
  jtag_error (with_card (Card (cd_mem c) (cd_fault c) (cd_hptdc c) (cd_chip c) (cd_jport c) (cd_jfault c) (cd_jlog c ++ [v])) m).

(** [size] is in words here. *)
Fixpoint Io32Write (dst : Z) (src : list Z) (m : mst) : mst :=
  match src with
  | [] => m
  | v :: src => Io32Write (dst + 1) src (HWr v dst m)
  end.

Fixpoint Io32Read (n : nat) (src : Z) (m : mst) : list Z * mst :=
  match n with
  | O => ([], m)
  | S n => let '(v, m) := HRd src m in let '(l, m) := Io32Read n (src + 1) m in (v :: l, m)
  end.

Definition SwapWords (l : list Z) : list Z :=
  (fun x => Z.lor (u32 (Z.shiftl (Z.land x 0x0000FFFF) 16)) (Z.shiftr (Z.land x 0xFFFF0000) 16)) <$> l.

Definition HardToTrigger (i : Z) (m : mst) : CtrDrvrTrigger * mst :=
  let '(f, m) := HRd (trig_at i) m in
  let '(t, m) := HRd (trig_at i + 1) m in
  (unpack_trigger f t, m).

(** [at]: the configuration of a trigger or of a counter. *)
Definition HardToConfig (at_ : Z) (m : mst) : CtrDrvrCounterConfiguration * mst :=
  let '(c, m) := HRd at_ m in
  let '(d, m) := HRd (at_ + 1) m in
  (unpack_config c d, m).

Definition pair_words (x : Z * Z) : list Z := [x.1; x.2].

