(* ===== verification/CtrHptdc.v ===== *)
(** * The timing receiver: the HPTDC behind its JTAG register

    The driver drives the test access port of the time-to-digital converter by
    writing pins.  The port is the state machine of IEEE 1149.1; a command puts
    the instruction and the registers into it and brings it back to idle. *)

From stdpp Require Import gmap.
From S2P Require Import Prelude CtrHw CtrMod.

(** ** Pins and commands ([hptdc.h]) *)

Definition HptdcJTAG_TRST : Z := 0x01.
Definition HptdcJTAG_TCK : Z := 0x02.
Definition HptdcJTAG_TDI : Z := 0x04.
Definition HptdcJTAG_TDO : Z := 0x08.
Definition HptdcJTAG_TMS : Z := 0x10.
Definition HptdcCmdBITS : Z := 4.

Record HptdcRegisterVlaue := Hreg { h_Value : Z; h_EndBit : Z; h_StartBit : Z }.

(** [1 << i] on 32 bits. *)
Definition shl1 (i : Z) : Z := Z.shiftl 1 (Z.land i 31).

Definition HptdcBitTransfer (tdi tms : Z) (m : mst) : Z * mst :=
  let m := HWr (Z.lor (Z.lor HptdcJTAG_TRST tdi) tms) HptdcJtag m in
  let m := HWr (Z.lor (Z.lor (Z.lor HptdcJTAG_TRST HptdcJTAG_TCK) tdi) tms) HptdcJtag m in
  let '(tdo, m) := HRd HptdcJtag m in
  let m := HWr (Z.lor (Z.lor HptdcJTAG_TRST tdi) tms) HptdcJtag m in
  (if truthy (Z.land tdo HptdcJTAG_TDO) then 1 else 0, m).

Definition HptdcStateReset (m : mst) : mst :=
  let m := HWr HptdcJTAG_TRST HptdcJtag m in
  let m := HWr 0 HptdcJtag m in
  let m := HWr HptdcJTAG_TCK HptdcJtag m in
  let m := HWr (Z.lor HptdcJTAG_TRST HptdcJTAG_TCK) HptdcJtag m in
  let m := HWr HptdcJTAG_TRST HptdcJtag m in
  (HptdcBitTransfer 0 0 m).2.

(** The transfers of a command: a step without data, and the bits of a value
    from bit [i], with the count of ones and the value read. *)
Definition tms_step (tms : Z) (m : mst) : mst := (HptdcBitTransfer 0 tms m).2.

Fixpoint shift_bits (n : nat) (i bits val : Z) (pflg : bool) (parity rval : Z) (m : mst) : Z * Z * mst :=
  match n with
  | O => (parity, rval, m)
  | S n =>
      let msk := shl1 i in
      let one := truthy (Z.land msk val) in
      let tms := if pflg then 0 else if i =? bits - 1 then HptdcJTAG_TMS else 0 in
      let '(b, m) := HptdcBitTransfer (if one then HptdcJTAG_TDI else 0) tms m in
      shift_bits n (i + 1) bits val pflg (if one then parity + 1 else parity) (if truthy b then Z.lor rval msk else rval) m
  end.

(** A parity bit that ends a scan. *)
Definition parity_bit (parity : Z) (m : mst) : mst :=
  (HptdcBitTransfer (if truthy (Z.land parity 1) then HptdcJTAG_TDI else 0) HptdcJTAG_TMS m).2.

Fixpoint shift_registers (wreg : list HptdcRegisterVlaue) (pflg : bool) (parity : Z) (m : mst) : Z * list HptdcRegisterVlaue * mst :=
  match wreg with
  | [] => (parity, [], m)
  | r :: wreg =>
      let bits := u32 (h_EndBit r - h_StartBit r + 1) in
      let '(parity, rval, m) := shift_bits (Z.to_nat bits) 0 bits (h_Value r) pflg parity 0 m in
      let '(parity, l, m) := shift_registers wreg pflg parity m in
      (parity, Hreg rval (h_EndBit r) (h_StartBit r) :: l, m)
  end.

(** [GetVersion()] of [PingModule()] reads two words and returns OK. *)
Definition PingModule (m : mst) : mst := (HRd Status_w (HRd VhdlVersion_w m).2).2.

Definition HptdcCommand (cmd : Z) (wreg : list HptdcRegisterVlaue) (pflg rflg : bool) (m : mst) : list HptdcRegisterVlaue * mst :=
  let m := PingModule m in
  let m := if rflg then HptdcStateReset m else m in
  let m := tms_step HptdcJTAG_TMS m in
  let m := tms_step HptdcJTAG_TMS m in
  let m := tms_step 0 m in
  let m := tms_step 0 m in
  let '(parity, _, m) := shift_bits (Z.to_nat HptdcCmdBITS) 0 HptdcCmdBITS cmd true 0 0 m in
  let m := parity_bit parity m in
  let m := tms_step HptdcJTAG_TMS m in
  let m := tms_step HptdcJTAG_TMS m in
  let m := tms_step 0 m in
  let m := tms_step 0 m in
  let '(parity, rreg, m) := shift_registers wreg pflg 0 m in
  let m := if pflg then parity_bit parity m else m in
  let m := tms_step HptdcJTAG_TMS m in
  (rreg, tms_step 0 m).

(** ** The test access port *)

Inductive tap_state :=
  | TestLogicReset | RunTestIdle
  | SelectDR | CaptureDR | ShiftDR | Exit1DR | PauseDR | Exit2DR | UpdateDR
  | SelectIR | CaptureIR | ShiftIR | Exit1IR | PauseIR | Exit2IR | UpdateIR.

Definition tap_next (s : tap_state) (tms : bool) : tap_state :=
  match s, tms with
  | TestLogicReset, false => RunTestIdle | TestLogicReset, true => TestLogicReset
  | RunTestIdle, false => RunTestIdle | RunTestIdle, true => SelectDR
  | SelectDR, false => CaptureDR | SelectDR, true => SelectIR
  | CaptureDR, false => ShiftDR | CaptureDR, true => Exit1DR
  | ShiftDR, false => ShiftDR | ShiftDR, true => Exit1DR
  | Exit1DR, false => PauseDR | Exit1DR, true => UpdateDR
  | PauseDR, false => PauseDR | PauseDR, true => Exit2DR
  | Exit2DR, false => ShiftDR | Exit2DR, true => UpdateDR
  | UpdateDR, false => RunTestIdle | UpdateDR, true => SelectDR
  | SelectIR, false => CaptureIR | SelectIR, true => TestLogicReset
  | CaptureIR, false => ShiftIR | CaptureIR, true => Exit1IR
  | ShiftIR, false => ShiftIR | ShiftIR, true => Exit1IR
  | Exit1IR, false => PauseIR | Exit1IR, true => UpdateIR
  | PauseIR, false => PauseIR | PauseIR, true => Exit2IR
  | Exit2IR, false => ShiftIR | Exit2IR, true => UpdateIR
  | UpdateIR, false => RunTestIdle | UpdateIR, true => SelectDR
  end.

(** The clock pin, the state, the bits shifted in since the last capture, and
    the registers as last updated. *)
Record tap := Tap { tp_tck : bool; tp_state : tap_state; tp_shift : list bool; tp_ir : list bool; tp_dr : list bool }.

Definition tap_init : tap := Tap false TestLogicReset [] [] [].

(** A rising edge of the clock. *)
Definition tap_clock (tdi tms : bool) (t : tap) : tap :=
  let shift := match tp_state t with
               | ShiftDR | ShiftIR => tp_shift t ++ [tdi]
               | CaptureDR | CaptureIR => []
               | _ => tp_shift t
               end in
  let s := tap_next (tp_state t) tms in
  Tap true s shift (match s with UpdateIR => shift | _ => tp_ir t end) (match s with UpdateDR => shift | _ => tp_dr t end).

Definition pin (p w : Z) : bool := truthy (Z.land w p).

Definition tap_write (t : tap) (w : Z) : tap :=
  if negb (pin HptdcJTAG_TRST w) then Tap (pin HptdcJTAG_TCK w) TestLogicReset (tp_shift t) (tp_ir t) (tp_dr t)
  else if negb (tp_tck t) && pin HptdcJTAG_TCK w then tap_clock (pin HptdcJTAG_TDI w) (pin HptdcJTAG_TMS w) t
  else Tap (pin HptdcJTAG_TCK w) (tp_state t) (tp_shift t) (tp_ir t) (tp_dr t).

Definition tap_run (log : list Z) : tap := foldl tap_write tap_init log.

(** The port of a module. *)
Definition port (m : mst) : tap := tap_run (cd_hptdc (ms_card m)).

(** ** Transfers *)

(** The words [l] were written to the register, and nothing else changed but the
    count of bus errors. *)
Definition wrote (l : list Z) (m m' : mst) : Prop :=
  ms_con m' = ms_con m /\
  ms_card m' = (let c := ms_card m in Card (cd_mem c) (cd_fault c) (cd_hptdc c ++ l) (cd_chip c) (cd_jport c) (cd_jfault c) (cd_jlog c)) /\
  g_oops (ms_glob m') = g_oops (ms_glob m).

Lemma wrote_nil m : wrote [] m m.
Proof. unfold wrote. rewrite app_nil_r. by destruct m as [? []]. Qed.

Lemma wrote_trans l1 l2 m1 m2 m3 : wrote l1 m1 m2 -> wrote l2 m2 m3 -> wrote (l1 ++ l2) m1 m3.
Proof.
  intros (A1 & A2 & A3) (B1 & B2 & B3). split; [congruence|]. split; [|congruence]. rewrite B2, A2. cbn. by rewrite app_assoc.
Qed.

Lemma check_oops rd g : g_oops (check_bus_error rd g) = g_oops g.
Proof. unfold check_bus_error. by destruct (_ && _). Qed.

Lemma HWr_jtag v m : mc_Map (ms_con m) <> 0 -> wrote [v] m (HWr v HptdcJtag m).
Proof.
  intros Hm. unfold HWr, iowrite32be. rewrite (proj2 (Z.eqb_neq _ _) Hm). change (negb ((0 <=? HptdcJtag) && (HptdcJtag <? map_words))) with false. cbn [orb].
  unfold card_write. rewrite Z.eqb_refl. unfold wrote. cbn. rewrite check_oops.
  match goal with |- context [if ?x then _ else _] => destruct x end; by split_and!.
Qed.

Lemma HRd_jtag m : mc_Map (ms_con m) <> 0 -> let '(v, m') := HRd HptdcJtag m in wrote [] m m' /\ v = cd_chip (ms_card m) (cd_hptdc (ms_card m)).
Proof.
  intros Hm. unfold HRd, ioread32be. rewrite (proj2 (Z.eqb_neq _ _) Hm). change (negb ((0 <=? HptdcJtag) && (HptdcJtag <? map_words))) with false. cbn [orb].
  unfold card_read. rewrite Z.eqb_refl. split; [|done]. destruct m as [cn [] g]. unfold wrote. cbn. rewrite app_nil_r.
  match goal with |- context [if ?x then _ else _] => destruct x end; cbn; rewrite check_oops; by split_and!.
Qed.

Definition tdi_of (b : bool) : Z := if b then HptdcJTAG_TDI else 0.
Definition tms_of (b : bool) : Z := if b then HptdcJTAG_TMS else 0.
Definition low (t : tap) : tap := Tap false (tp_state t) (tp_shift t) (tp_ir t) (tp_dr t).

(** The reach of a sequence of transfers. *)
Definition quiet (m m' : mst) : Prop := exists l, wrote l m m'.

Lemma wrote_quiet l m m' : wrote l m m' -> quiet m m'.
Proof. by exists l. Qed.

Lemma silent_trans m1 m2 m3 : quiet m1 m2 -> quiet m2 m3 -> quiet m1 m3.
Proof. intros [l1 H1] [l2 H2]. exists (l1 ++ l2). by eapply wrote_trans. Qed.

Lemma transfer_spec d s m : mc_Map (ms_con m) <> 0 -> tp_tck (port m) = false ->
  let '(b, m') := HptdcBitTransfer (tdi_of d) (tms_of s) m in
  quiet m m' /\ port m' = low (tap_clock d s (port m)) /\
  exists log, tap_run log = tap_clock d s (port m) /\ b = Z.b2z (pin HptdcJTAG_TDO (cd_chip (ms_card m) log)).
Proof.
  intros Hm Ht. unfold HptdcBitTransfer.
  set (w1 := Z.lor (Z.lor HptdcJTAG_TRST (tdi_of d)) (tms_of s)). set (w2 := Z.lor (Z.lor (Z.lor HptdcJTAG_TRST HptdcJTAG_TCK) (tdi_of d)) (tms_of s)).
  pose proof (HWr_jtag w1 m Hm) as W1. set (m1 := HWr w1 _ m) in *. assert (mc_Map (ms_con m1) <> 0) as Hm1 by (destruct W1 as [-> _]; done).
  pose proof (HWr_jtag w2 m1 Hm1) as W2. set (m2 := HWr w2 _ m1) in *. assert (mc_Map (ms_con m2) <> 0) as Hm2 by (destruct W2 as [-> _]; done).
  pose proof (HRd_jtag m2 Hm2) as W3. destruct (HRd HptdcJtag m2) as [tdo m3]. destruct W3 as [W3 Hv].
  assert (mc_Map (ms_con m3) <> 0) as Hm3 by (destruct W3 as [-> _]; done).
  pose proof (HWr_jtag w1 m3 Hm3) as W4. set (m4 := HWr w1 _ m3) in *.
  pose proof (wrote_trans _ _ _ _ _ W1 W2) as W12. pose proof (wrote_trans _ _ _ _ _ (wrote_trans _ _ _ _ _ W12 W3) W4) as W.
  split; [by exists (([w1] ++ [w2]) ++ [] ++ [w1]); rewrite app_nil_l; rewrite app_nil_r in W|].
  destruct W as (_ & EW & _). destruct W12 as (_ & E2 & _).
  assert (forall log, tap_run (log ++ [w1; w2]) = foldl tap_write (tap_run log) [w1; w2]) as Hr by (intros log; apply foldl_app).
  assert (forall t, tp_tck t = false -> foldl tap_write t [w1; w2] = tap_clock d s t) as Hedge.
  { intros [[] ts tsh ti td] E; [done|]. by destruct d, s. }
  assert (forall t, tap_write (tap_clock d s t) w1 = low (tap_clock d s t)) as Hlow by (intros t; by destruct d, s).
  split.
  - unfold port at 1. rewrite EW. cbn [cd_hptdc]. rewrite app_nil_r. 
    change (([w1] ++ [w2]) ++ [w1]) with ([w1; w2] ++ [w1]). rewrite app_assoc. unfold tap_run. rewrite foldl_app. cbn [foldl].
    change (foldl tap_write tap_init (cd_hptdc (ms_card m) ++ [w1; w2])) with (tap_run (cd_hptdc (ms_card m) ++ [w1; w2])).
    rewrite Hr, Hedge by exact Ht. by rewrite Hlow.
  - exists (cd_hptdc (ms_card m) ++ [w1; w2]). rewrite Hr, Hedge by exact Ht. split; [done|]. rewrite Hv, E2. cbn [cd_chip cd_hptdc].
    unfold pin. by destruct (truthy _).
Qed.

(** A step without data. *)
Lemma tms_step_spec s m : mc_Map (ms_con m) <> 0 -> tp_tck (port m) = false ->
  let m' := tms_step (tms_of s) m in quiet m m' /\ port m' = low (tap_clock false s (port m)).
Proof.
  intros Hm Ht. pose proof (transfer_spec false s m Hm Ht) as Hs. unfold tms_step. change (HptdcBitTransfer 0 (tms_of s) m) with (HptdcBitTransfer (tdi_of false) (tms_of s) m).
  destruct (HptdcBitTransfer _ _ _) as [b m']. cbn. tauto.
Qed.

Lemma quiet_map m m' : quiet m m' -> mc_Map (ms_con m) <> 0 -> mc_Map (ms_con m') <> 0.
Proof. by intros (l & -> & _). Qed.

(** Several steps from a known state. *)
Definition go (l : list bool) (m : mst) : mst := foldl (fun m s => tms_step (tms_of s) m) m l.

Lemma go_to_ir m : tms_step 0 (tms_step 0 (tms_step HptdcJTAG_TMS (tms_step HptdcJTAG_TMS m))) = go [true; true; false; false] m.
Proof. unfold go. cbn [foldl tms_of]. reflexivity. Qed.
Lemma go_idle m : tms_step 0 (tms_step HptdcJTAG_TMS m) = go [true; false] m.
Proof. unfold go. cbn [foldl tms_of]. reflexivity. Qed.

Lemma tms_steps (l : list bool) : forall m, mc_Map (ms_con m) <> 0 -> tp_tck (port m) = false ->
  let m' := go l m in
  quiet m m' /\ port m' = foldl (fun t s => low (tap_clock false s t)) (port m) l.
Proof.
  unfold go. induction l as [|s l IH]; intros m Hm Ht; cbn [foldl]; [split; [exists []; apply wrote_nil|done]|].
  destruct (tms_step_spec s m Hm Ht) as [Q P]. destruct (IH _ (quiet_map _ _ Q Hm)) as [Q' P']; [by rewrite P|].
  split; [by eapply silent_trans|]. by rewrite P', P.
Qed.

(** ** Bits *)

Fixpoint bit_list (n : nat) (i val : Z) : list bool :=
  match n with O => [] | S n => Z.testbit val i :: bit_list n (i + 1) val end.

(** A value read: bit [i + k] is the bit [off + k] that the chip has captured. *)
Fixpoint read_bits (cap : list bool) (n off : nat) (i rval : Z) : Z :=
  match n with
  | O => rval
  | S n => read_bits cap n (S off) (i + 1) (if nth off cap false then Z.lor rval (2 ^ i) else rval)
  end.

Definition ones (l : list bool) : Z := Z.of_nat (length (filter (fun b => b = true) l)).

Lemma ones_cons b l : ones (b :: l) = (if b then 1 else 0) + ones l.
Proof. unfold ones. rewrite filter_cons. destruct b; case_decide; try done; cbn [length]; lia. Qed.

Lemma bit_list_length n i v : length (bit_list n i v) = n.
Proof. revert i. induction n as [|n IH]; intros i; cbn; [done|]. by rewrite IH. Qed.

Lemma shl1_pow i : 0 <= i < 32 -> shl1 i = 2 ^ i.
Proof.
  intros Hi. unfold shl1. change 31 with (Z.ones 5). rewrite Z.land_ones, Z.mod_small by lia. rewrite Z.shiftl_mul_pow2 by lia. lia.
Qed.

(** In a register scan the chip shows the bits it captured, one for each bit
    shifted. *)
Definition answers (cap : list bool) (chip : list Z -> Z) : Prop :=
  forall log, let t := tap_run log in
  tp_state t = ShiftDR \/ tp_state t = Exit1DR -> pin HptdcJTAG_TDO (chip log) = nth (length (tp_shift t) - 1) cap false.

Lemma shift_bits_spec cap bits val pflg S : S = ShiftIR /\ pflg = true \/ S = ShiftDR -> forall n i parity rval m,
  mc_Map (ms_con m) <> 0 -> tp_tck (port m) = false -> tp_state (port m) = S -> 0 <= i -> i + Z.of_nat n <= 32 -> i + Z.of_nat n <= bits ->
  let '(p', r', m') := shift_bits n i bits val pflg parity rval m in
  quiet m m' /\
  port m' = Tap false (if pflg then S else if (0 <? Z.of_nat n) && (i + Z.of_nat n =? bits) then Exit1DR else S)
              (tp_shift (port m) ++ bit_list n i val) (tp_ir (port m)) (tp_dr (port m)) /\
  p' = parity + ones (bit_list n i val) /\
  (S = ShiftDR -> answers cap (cd_chip (ms_card m)) -> r' = read_bits cap n (length (tp_shift (port m))) i rval).
Proof.
  intros HS n. induction n as [|n IH]; intros i parity rval m Hm Ht Hst Hi Hn Hb; cbn [shift_bits bit_list read_bits].
  { split; [exists []; apply wrote_nil|]. rewrite app_nil_r. cbn. rewrite andb_false_l. split; [|split; [unfold ones; cbn; lia|done]].
    destruct (port m) as [k st sh ir dr]. cbn in *. subst. by destruct pflg. }
  rewrite (shl1_pow i) by lia. rewrite Z.land_comm, truthy_land_pow2 by lia. set (d := Z.testbit val i).
  set (last := negb pflg && (i =? bits - 1)).
  assert ((if pflg then 0 else if i =? bits - 1 then HptdcJTAG_TMS else 0) = tms_of last) as -> by (unfold last; by destruct pflg, (i =? bits - 1)).
  pose proof (transfer_spec d last m Hm Ht) as Hs. change (if d then HptdcJTAG_TDI else 0) with (tdi_of d).
  destruct (HptdcBitTransfer _ _ _) as [b m1]. destruct Hs as (Q & P & log & Hlog & Eb).
  destruct (decide (last = true)) as [El|El].
  - assert (n = O) as ->.
    { unfold last in El. destruct pflg; [done|]. cbn in El. apply Z.eqb_eq in El. lia. }
    assert (pflg = false /\ i = bits - 1) as [Ep Ei] by (unfold last in El; destruct pflg; [done|]; cbn in El; split; [done|by apply Z.eqb_eq]).
    destruct HS as [[_ HS]|HS]; [congruence|]. cbn [shift_bits bit_list read_bits]. split; [done|].
    rewrite P, El, Ep. unfold low, tap_clock. rewrite Hst, HS. change (Z.of_nat 1) with 1. rewrite (proj2 (Z.eqb_eq (i + 1) bits)) by lia. split; [done|].
    split; [rewrite ones_cons; change (ones []) with 0; fold d; destruct d; lia|]. intros _ Ha.
    assert (pin HptdcJTAG_TDO (cd_chip (ms_card m) log) = nth (length (tp_shift (port m))) cap false) as <-.
    { rewrite Ha by (right; rewrite Hlog, El; unfold tap_clock; by rewrite Hst, HS). f_equal. rewrite Hlog. unfold tap_clock. rewrite Hst, HS. cbn. rewrite length_app. cbn. lia. }
    rewrite Eb. by destruct (pin _ _).
  - apply not_true_is_false in El. rewrite El in *. pose proof (quiet_map _ _ Q Hm) as Hm1.
    assert (port m1 = Tap false S (tp_shift (port m) ++ [d]) (tp_ir (port m)) (tp_dr (port m))) as P1.
    { rewrite P. unfold low, tap_clock. rewrite Hst. destruct HS as [[-> _]| ->]; done. }
    specialize (IH (i + 1) (if d then parity + 1 else parity) (if truthy b then Z.lor rval (2 ^ i) else rval) m1 Hm1).
    rewrite P1 in IH. specialize (IH eq_refl eq_refl ltac:(lia) ltac:(lia) ltac:(lia)).
    destruct (shift_bits n (i + 1) bits val pflg _ _ m1) as [[p' r'] m']. destruct IH as (Q' & P' & Ep & Er). cbn [tp_shift tp_ir tp_dr] in *.
    split; [by eapply silent_trans|]. split; [|split].
    + rewrite P'. rewrite <- app_assoc. cbn [app]. f_equal. destruct pflg; [done|]. unfold last in El. cbn in El. apply Z.eqb_neq in El.
      replace (i + 1 + Z.of_nat n) with (i + Z.of_nat (Datatypes.S n)) by lia.
      destruct (Z.eqb_spec (i + Z.of_nat (Datatypes.S n)) bits) as [E|E]; [|by rewrite !andb_false_r].
      by rewrite (proj2 (Z.ltb_lt 0 (Z.of_nat n))), (proj2 (Z.ltb_lt 0 (Z.of_nat (Datatypes.S n)))) by lia.
    + rewrite Ep, ones_cons. destruct d; lia.
    + intros E Ha. assert (cd_chip (ms_card m1) = cd_chip (ms_card m)) as Ec by (destruct Q as (l & _ & -> & _); done).
      rewrite Er by (done || by rewrite Ec). rewrite length_app. cbn [length]. rewrite Nat.add_1_r. f_equal.
      assert (pin HptdcJTAG_TDO (cd_chip (ms_card m) log) = nth (length (tp_shift (port m))) cap false) as <-.
      { rewrite Ha by (left; rewrite Hlog; unfold tap_clock; by rewrite Hst, E). f_equal. rewrite Hlog. unfold tap_clock. rewrite Hst, E. cbn. rewrite length_app. cbn. lia. }
      rewrite Eb. by destruct (pin _ _).
Qed.

Lemma odd_land p : truthy (Z.land p 1) = Z.odd p.
Proof. change 1 with (2 ^ 0). rewrite truthy_land_pow2 by lia. apply Z.bit0_odd. Qed.

Lemma parity_bit_spec p m : mc_Map (ms_con m) <> 0 -> tp_tck (port m) = false ->
  let m' := parity_bit p m in quiet m m' /\ port m' = low (tap_clock (Z.odd p) true (port m)).
Proof.
  intros Hm Ht. unfold parity_bit. rewrite odd_land. pose proof (transfer_spec (Z.odd p) true m Hm Ht) as Hs.
  change (if Z.odd p then HptdcJTAG_TDI else 0) with (tdi_of (Z.odd p)). change HptdcJTAG_TMS with (tms_of true).
  destruct (HptdcBitTransfer _ _ _) as [b m']. cbn. tauto.
Qed.

Lemma HRd_plain w m : mc_Map (ms_con m) <> 0 -> 0 <= w < map_words -> clear_on_read w = false -> w <> HptdcJtag ->
  let '(v, m') := HRd w m in wrote [] m m' /\ v = cd_word w (ms_card m).
Proof.
  intros Hm Hw Hc Hj. unfold HRd, ioread32be. rewrite (proj2 (Z.eqb_neq _ _) Hm), (proj2 (Z.leb_le 0 w)), (proj2 (Z.ltb_lt w map_words)) by lia.
  cbn [negb orb andb]. unfold card_read. rewrite (proj2 (Z.eqb_neq _ _) Hj), Hc. split; [|done]. destruct m as [cn [] g]. unfold wrote. cbn. rewrite app_nil_r.
  match goal with |- context [if ?x then _ else _] => destruct x end; cbn; rewrite check_oops; by split_and!.
Qed.

Lemma ping_spec m : mc_Map (ms_con m) <> 0 -> let m' := PingModule m in wrote [] m m'.
Proof.
  intros Hm. unfold PingModule. pose proof (HRd_plain VhdlVersion_w m Hm ltac:(done) eq_refl ltac:(done)) as H1.
  destruct (HRd VhdlVersion_w m) as [v m1]. destruct H1 as [W1 _].
  pose proof (HRd_plain Status_w m1 (quiet_map _ _ (wrote_quiet _ _ _ W1) Hm) ltac:(done) eq_refl ltac:(done)) as H2.
  cbn [snd]. destruct (HRd Status_w m1) as [v2 m2]. destruct H2 as [W2 _]. exact (wrote_trans _ _ _ _ _ W1 W2).
Qed.

(** Whatever the pins and the port were, the reset ends idle. *)
Lemma state_reset_spec m : mc_Map (ms_con m) <> 0 ->
  let m' := HptdcStateReset m in quiet m m' /\ tp_state (port m') = RunTestIdle /\ tp_tck (port m') = false.
Proof.
  intros Hm. unfold HptdcStateReset.
  assert (forall l m, mc_Map (ms_con m) <> 0 -> let m' := foldl (fun m v => HWr v HptdcJtag m) m l in wrote l m m') as Hw.
  { induction l as [|v l IH]; intros m0 H0; [apply wrote_nil|]. cbn [foldl]. pose proof (HWr_jtag v m0 H0) as W.
    assert (mc_Map (ms_con (HWr v HptdcJtag m0)) <> 0) as H1 by (destruct W as [-> _]; done). exact (wrote_trans _ _ _ _ _ W (IH _ H1)). }
  specialize (Hw [HptdcJTAG_TRST; 0; HptdcJTAG_TCK; Z.lor HptdcJTAG_TRST HptdcJTAG_TCK; HptdcJTAG_TRST] m Hm). cbn [foldl] in Hw.
  set (m1 := HWr HptdcJTAG_TRST HptdcJtag (HWr (Z.lor _ _) _ _)) in *. cbv zeta in Hw.
  assert (port m1 = Tap false TestLogicReset (tp_shift (port m)) (tp_ir (port m)) (tp_dr (port m))) as P1.
  { destruct Hw as (_ & E & _). unfold port at 1. rewrite E. cbn [cd_hptdc]. unfold tap_run. rewrite foldl_app. fold (tap_run (cd_hptdc (ms_card m))). fold (port m).
    by destruct (port m) as [[] ? ? ? ?]. }
  pose proof (transfer_spec false false m1 (quiet_map _ _ (wrote_quiet _ _ _ Hw) Hm)) as Hs. rewrite P1 in Hs. specialize (Hs eq_refl).
  change (HptdcBitTransfer 0 0 m1) with (HptdcBitTransfer (tdi_of false) (tms_of false) m1). destruct (HptdcBitTransfer _ _ _) as [b m2]. cbn [snd].
  destruct Hs as (Q & P & _). split; [exact (silent_trans _ _ _ (wrote_quiet _ _ _ Hw) Q)|]. by rewrite P.
Qed.

(** ** Registers *)

Definition reg_ok (r : HptdcRegisterVlaue) : Prop := 0 <= h_EndBit r - h_StartBit r < 32.
Definition width (r : HptdcRegisterVlaue) : nat := Z.to_nat (h_EndBit r - h_StartBit r + 1).
Definition reg_bits (wreg : list HptdcRegisterVlaue) : list bool := concat ((fun r => bit_list (width r) 0 (h_Value r)) <$> wreg).

Fixpoint read_regs (cap : list bool) (off : nat) (wreg : list HptdcRegisterVlaue) : list HptdcRegisterVlaue :=
  match wreg with
  | [] => []
  | r :: l => Hreg (read_bits cap (width r) off 0 0) (h_EndBit r) (h_StartBit r) :: read_regs cap (off + width r) l
  end.

Lemma ones_app l1 l2 : ones (l1 ++ l2) = ones l1 + ones l2.
Proof. unfold ones. rewrite filter_app, length_app. lia. Qed.

Lemma quiet_chip m m' : quiet m m' -> cd_chip (ms_card m') = cd_chip (ms_card m).
Proof. by intros (l & _ & -> & _). Qed.

Lemma shift_registers_spec cap pflg wreg : Forall reg_ok wreg -> (pflg = true \/ length wreg = 1%nat) -> forall parity m,
  mc_Map (ms_con m) <> 0 -> tp_tck (port m) = false -> tp_state (port m) = ShiftDR ->
  let '(p', rreg, m') := shift_registers wreg pflg parity m in
  quiet m m' /\
  port m' = Tap false (if pflg then ShiftDR else Exit1DR) (tp_shift (port m) ++ reg_bits wreg) (tp_ir (port m)) (tp_dr (port m)) /\
  p' = parity + ones (reg_bits wreg) /\
  (answers cap (cd_chip (ms_card m)) -> rreg = read_regs cap (length (tp_shift (port m))) wreg).
Proof.
  induction wreg as [|r wreg IH]; intros Hok Hp parity m Hm Ht Hst; cbn [shift_registers].
  { destruct Hp as [-> |Hp]; [|done]. split; [exists []; apply wrote_nil|]. unfold reg_bits. cbn. rewrite app_nil_r. split; [|split; [unfold ones; cbn; lia|done]].
    destruct (port m) as [k st sh ir dr]. cbn in *. by subst. }
  apply Forall_cons in Hok as [Hr Hok]. unfold reg_ok in Hr. set (bits := u32 _). assert (bits = h_EndBit r - h_StartBit r + 1) as Eb by (apply u32_id; unfold is_u32; lia).
  assert (Z.to_nat bits = width r) as En by (unfold width; by rewrite Eb). rewrite En.
  assert (Z.of_nat (width r) = bits) as Ew by (unfold width; lia).
  pose proof (shift_bits_spec cap bits (h_Value r) pflg ShiftDR (or_intror eq_refl) (width r) 0 parity 0 m Hm Ht Hst ltac:(lia) ltac:(lia) ltac:(lia)) as Hs.
  destruct (shift_bits _ _ _ _ _ _ _ m) as [[p1 v1] m1]. destruct Hs as (Q1 & P1 & Ep & Er). cbv zeta.
  destruct (shift_registers wreg pflg p1 m1) as [[p2 l2] m2] eqn:E2.
  assert (reg_bits (r :: wreg) = bit_list (width r) 0 (h_Value r) ++ reg_bits wreg) as -> by done. rewrite ones_app.
  destruct (decide (pflg = true)) as [Epf|Epf].
  - specialize (IH Hok (or_introl Epf) p1 m1 (quiet_map _ _ Q1 Hm)). rewrite P1, Epf in IH. specialize (IH eq_refl eq_refl). rewrite <- Epf, E2 in IH.
    destruct IH as (Q2 & P2 & Ep2 & Er2). cbn [tp_shift tp_ir tp_dr] in *. split; [by eapply silent_trans|]. split; [by rewrite P2, Epf, app_assoc|].
    split; [lia|]. intros Ha. cbn [read_regs]. rewrite Er by done. rewrite Er2 by (by rewrite (quiet_chip _ _ Q1)). by rewrite length_app, bit_list_length.
  - destruct Hp as [Hp|Hp]; [done|]. destruct wreg; [|done]. apply not_true_is_false in Epf. injection E2 as <- <- <-.
    split; [done|]. rewrite P1, Epf. unfold reg_bits. cbn [fmap list_fmap concat]. rewrite app_nil_r.
    rewrite (proj2 (Z.ltb_lt 0 _)) by lia. rewrite (proj2 (Z.eqb_eq (0 + _) bits)) by lia. split; [done|].
    split; [change (ones []) with 0; lia|]. intros Ha. cbn [read_regs]. by rewrite Er.
Qed.

(** What a command exchanges with the chip. *)
Definition parity_of (l : list bool) : bool := Z.odd (ones l).

(** The port goes to the instruction register. *)
Lemma go_ir_spec m : mc_Map (ms_con m) <> 0 -> tp_state (port m) = RunTestIdle -> tp_tck (port m) = false ->
  let m' := go [true; true; false; false] m in
  quiet m m' /\ port m' = Tap false ShiftIR [] (tp_ir (port m)) (tp_dr (port m)).
Proof.
  intros Hm Hs Ht. destruct (tms_steps [true; true; false; false] m Hm Ht) as [Q P]. split; [exact Q|]. rewrite P.
  destruct (port m) as [k st sh ir dr]. cbn in Hs, Ht. subst. reflexivity.
Qed.

(** The instruction scan, up to the data register. *)
Lemma scan_ir cmd m ir dr : mc_Map (ms_con m) <> 0 -> port m = Tap false ShiftIR [] ir dr ->
  let '(parity, _, m1) := shift_bits (Z.to_nat HptdcCmdBITS) 0 HptdcCmdBITS cmd true 0 0 m in
  let m' := go [true; true; false; false] (parity_bit parity m1) in
  quiet m m' /\ port m' = Tap false ShiftDR [] (bit_list 4 0 cmd ++ [parity_of (bit_list 4 0 cmd)]) dr.
Proof.
  intros Hm P0. change (Z.to_nat HptdcCmdBITS) with 4%nat.
  pose proof (shift_bits_spec [] HptdcCmdBITS cmd true ShiftIR (or_introl (conj eq_refl eq_refl)) 4 0 0 0 m Hm) as H3. rewrite P0 in H3.
  specialize (H3 eq_refl eq_refl ltac:(lia) ltac:(lia) ltac:(discriminate)).
  destruct (shift_bits 4 0 HptdcCmdBITS cmd true 0 0 m) as [[p3 r3] m3]. destruct H3 as (Q3 & P3 & Ep3 & _). cbn [tp_shift tp_ir tp_dr app] in P3.
  pose proof (quiet_map _ _ Q3 Hm) as Hm3. destruct (parity_bit_spec p3 m3 Hm3) as [Q4 P4]; [by rewrite P3|]. cbv zeta. cbv zeta in Q4, P4.
  generalize dependent (parity_bit p3 m3). intros m4 Q4 P4. pose proof (quiet_map _ _ Q4 Hm3) as Hm4.
  rewrite P3, Ep3, Z.add_0_l in P4. unfold parity_of. generalize dependent (bit_list 4 0 cmd). intros l P3 Ep3 P4.
  destruct (tms_steps [true; true; false; false] m4 Hm4) as [Q5 P5]; [by rewrite P4|].
  split; [exact (silent_trans _ _ _ (silent_trans _ _ _ Q3 Q4) Q5)|]. rewrite P5, P4. reflexivity.
Qed.

(** The data scan, back to idle. *)
Lemma scan_dr cap wreg pflg m ir dr : Forall reg_ok wreg -> (pflg = true \/ length wreg = 1%nat) -> answers cap (cd_chip (ms_card m)) ->
  mc_Map (ms_con m) <> 0 -> port m = Tap false ShiftDR [] ir dr ->
  let '(parity, rreg, m1) := shift_registers wreg pflg 0 m in
  let m' := go [true; false] (if pflg then parity_bit parity m1 else m1) in
  quiet m m' /\ rreg = read_regs cap 0 wreg /\ exists sh,
  port m' = Tap false RunTestIdle sh ir (reg_bits wreg ++ (if pflg then [parity_of (reg_bits wreg)] else [])).
Proof.
  intros Hok Hp Ha Hm P0. pose proof (shift_registers_spec cap pflg wreg Hok Hp 0 m Hm) as H6. rewrite P0 in H6. specialize (H6 eq_refl eq_refl).
  destruct (shift_registers wreg pflg 0 m) as [[p6 rreg] m6]. destruct H6 as (Q6 & P6 & Ep6 & Er6). cbn [tp_shift tp_ir tp_dr app length] in P6, Er6.
  pose proof (quiet_map _ _ Q6 Hm) as Hm6. rewrite Z.add_0_l in Ep6. unfold parity_of. generalize dependent (reg_bits wreg). intros l P6 Ep6.
  assert (forall m7, quiet m6 m7 -> port m7 = Tap false Exit1DR (l ++ (if pflg then [Z.odd (ones l)] else [])) ir dr ->
    quiet m (go [true; false] m7) /\ rreg = read_regs cap 0 wreg /\ exists sh, port (go [true; false] m7) = Tap false RunTestIdle sh ir (l ++ (if pflg then [Z.odd (ones l)] else []))) as Hend.
  { intros m7 Q7 P7. destruct (tms_steps [true; false] m7 (quiet_map _ _ Q7 Hm6)) as [Q8 P8]; [by rewrite P7|].
    split; [exact (silent_trans _ _ _ (silent_trans _ _ _ Q6 Q7) Q8)|]. split; [by apply Er6|]. rewrite P8, P7. by eexists. }
  destruct pflg; cbv zeta.
  - destruct (parity_bit_spec p6 m6 Hm6) as [Q7 P7]; [by rewrite P6|]. apply Hend; [exact Q7|]. rewrite P7, P6, Ep6. reflexivity.
  - apply Hend; [exists []; apply wrote_nil|]. by rewrite P6, app_nil_r.
Qed.

