(* ===== verification/Ctr.v ===== *)
(** * The timing receiver: clients, connections and interrupts ([ctr/driver_vme/ctrdrvr.c])

    The operations on one module, the working area with its clients and modules,
    connecting and disconnecting, the interrupt handler, open, close, read and
    write. *)

From stdpp Require Import gmap.
From S2P Require Import Prelude CdcmSem CtrHw CtrMod CtrHptdc.


(** ** One module *)

Record CtrDrvrVersion := Ver { VhdlVersion : Z; DrvrVersion : Z; HardwareType : Z }.
Definition CtrDrvrHardwareTypeNONE : Z := 0.
Definition CtrDrvrHardwareTypeCTRP : Z := 1.
Definition CtrDrvrHardwareTypeCTRI : Z := 2.
Definition CtrDrvrHardwareTypeCTRV : Z := 3.

(** [COMPILE_TIME] is not defined. *)
Definition GetVersion (m : mst) : CtrDrvrVersion * mst :=
  let '(vhdl, m) := HRd VhdlVersion_w m in
  let '(stat, m) := HRd Status_w m in
  let stat := Z.land stat CtrDrvrTypeStatusMask in
  let t := CtrDrvrHardwareTypeNONE in
  let t := if stat =? CtrDrvrTypeStatusMask then t else
    let t := if truthy (Z.land stat CtrDrvrStatusCTRI) then CtrDrvrHardwareTypeCTRI else t in
    let t := if truthy (Z.land stat CtrDrvrStatusCTRP) then CtrDrvrHardwareTypeCTRP else t in
    if truthy (Z.land stat CtrDrvrStatusCTRV) then CtrDrvrHardwareTypeCTRV else t in
  (Ver vhdl 0 t, m).

Definition EnableInterrupts (msk : Z) (m : mst) : mst :=
  let e := Z.lor (mc_InterruptEnable (ms_con m)) msk in
  HWr e InterruptEnable_w (on_con (set_mc_InterruptEnable e) m).

Definition Reset (m : mst) : mst :=
  let m := HWr CtrDrvrCommandRESET Command_w m in
  let m := on_con (set_mc_Status (Z.lor CtrDrvrStatusNO_LOST_INTERRUPTS CtrDrvrStatusNO_BUS_ERROR)) m in
  let m := on_con (set_mc_BusErrorCount 0) m in
  let m := on_con (fun c => set_mc_Command (Z.land (mc_Command c) (not32 CtrDrvrCommandSET_HPTDC)) c) m in
  let m := HWr (mc_Command (ms_con m)) Command_w m in
  let m := foldl (fun m i => let '(v, m) := HRd (RemOutMask_w i) m in
                             if v =? 0 then HWr (AutoShiftLeft CtrDrvrCntrCntrlOUT_MASK (shl1 i)) (RemOutMask_w i) m else m)
                 m (seqZ CtrDrvrCounter1 8) in
  let ob := mc_OutputByte (ms_con m) in
  let m := HWr (if truthy ob then Z.lor 0x100 (shl1 (ob - 1)) else 0x100) OutputByte_w m in
  let moad := mc_Address (ms_con m) in
  let m := HWr (Z.lor (u32 (Z.shiftl (a_InterruptLevel moad) 8)) (Z.land (a_InterruptVector moad) 0xff)) Setup_w m in
  let m := if nth 6 (mc_Pll (ms_con m)) 0 =? 0 then
             on_con (fun c => set_mc_Pll (<[6%nat := 337326]> (<[7%nat := 901]> (<[5%nat := 100]> (<[4%nat := 1950]> (mc_Pll c))))) c) m
           else m in
  let m := Io32Write Pll_w (mc_Pll (ms_con m)) m in
  let m := EnableInterrupts (mc_InterruptEnable (ms_con m)) m in
  HptdcStateReset m.

Definition GetStatus (m : mst) : Z * mst :=
  let m := PingModule m in
  let '(stat, m) := HRd Status_w m in
  let stat := Z.land stat CtrDrvrHwStatusMASK in
  let '(n, m) := GetClrBusErrCnt m in
  let errs := u32 (mc_BusErrorCount (ms_con m) + n) in
  let m := on_con (fun c => set_mc_Status (if truthy errs then Z.land (mc_Status c) (not32 CtrDrvrStatusNO_BUS_ERROR)
                                             else Z.lor (mc_Status c) CtrDrvrStatusNO_BUS_ERROR) c) m in
  let m := on_con (set_mc_BusErrorCount 0) m in
  (Z.lor stat (Z.land (mc_Status (ms_con m)) (not32 CtrDrvrHwStatusMASK)), m).

Definition GetTime (m : mst) : CtrDrvrCTime * mst :=
  let m := HWr CtrDrvrCommandLATCH_UTC Command_w m in
  let '(c, m) := HRd ReadTime_w m in
  let '(s, m) := HRd (ReadTime_w + 1) m in
  let '(t, m) := HRd (ReadTime_w + 2) m in
  (CTime c s t, m).

Definition SetTime (tod : Z) (m : mst) : mst :=
  HWr CtrDrvrCommandSET_UTC Command_w (HWr tod SetTime_w (PingModule m)).

(** [None]: a bus error; the words read, or written, and the size returned. *)
Fixpoint RawIo_loop (flag : bool) (j : Z) (uary : list Z) (m : mst) : option (list Z) * mst :=
  match uary with
  | [] => (Some [], m)
  | x :: uary =>
      let '(x, m) := if flag then (x, HWr x (s32 j) m) else HRd (s32 j) m in
      let '(n, m) := GetClrBusErrCnt m in
      if truthy n then (None, m) else
      let '(l, m) := RawIo_loop flag (j + 1) uary m in (cons x <$> l, m)
  end.

(** [uary] holds [riob->Size] words. *)
Definition RawIo (offset : Z) (uary : list Z) (flag : bool) (m : mst) : option (list Z * Z) * mst :=
  let '(l, m) := RawIo_loop flag offset uary m in ((fun l => (l, u32 (Z.of_nat (length uary) + 1))) <$> l, m).

(** ** Clients ([ctrdrvr.h], [ctrdrvrP.h]) *)

Definition CtrDrvrCLIENT_CONTEXTS : Z := 16.
Definition CtrDrvrMODULE_CONTEXTS : Z := 16.
Definition CtrDrvrDEFAULT_TIMEOUT : Z := 2000.
Definition CtrDrvrQUEUE_SIZE : Z := 64.
Definition CtrDrvrConnectionClassHARD : Z := 0.
Definition CtrDrvrConnectionClassCTIM : Z := 1.
Definition CtrDrvrConnectionClassPTIM : Z := 2.

Record CtrDrvrConnection := Cconn { cn_Module : Z; cn_EqpClass : Z; cn_EqpNum : Z }.

Record CtrDrvrReadBuf := Crb {
  rb_Connection : CtrDrvrConnection;
  rb_TriggerNumber : Z;
  rb_InterruptNumber : Z;
  rb_Ctim : Z;
  rb_Frame : Z;
  rb_TriggerTime : CtrDrvrCTime;
  rb_StartTime : CtrDrvrCTime;
  rb_OnZeroTime : CtrDrvrCTime;
}.
Definition crb_zero : CtrDrvrReadBuf := Crb (Cconn 0 0 0) 0 0 0 0 ctime_zero ctime_zero ctime_zero.

Record CtrDrvrWriteBuf := Cwb { wb_TriggerNumber : Z; wb_Connection : CtrDrvrConnection; wb_Payload : Z }.

Record CtrDrvrQueue := Cqueue { q_QueueOff : Z; q_Missed : Z; q_Size : Z; q_RdPntr : Z; q_WrPntr : Z; q_Entries : arr CtrDrvrReadBuf }.
Definition cqueue_zero : CtrDrvrQueue := Cqueue 0 0 0 0 0 ∅.

Record CtrDrvrClientContext := Ccon {
  cc_InUse : Z;
  cc_DebugOn : Z;
  cc_Pid : Z;
  cc_ClientIndex : Z;
  cc_ModuleIndex : Z;
  cc_Timeout : Z;
  cc_Timer : Z;
  cc_Semaphore : cdcm_sem;
  cc_Queue : CtrDrvrQueue;
}.

Definition set_cc_InUse (v : Z) (m : CtrDrvrClientContext) : CtrDrvrClientContext := Ccon v (cc_DebugOn m) (cc_Pid m) (cc_ClientIndex m) (cc_ModuleIndex m) (cc_Timeout m) (cc_Timer m) (cc_Semaphore m) (cc_Queue m).
Definition set_cc_DebugOn (v : Z) (m : CtrDrvrClientContext) : CtrDrvrClientContext := Ccon (cc_InUse m) v (cc_Pid m) (cc_ClientIndex m) (cc_ModuleIndex m) (cc_Timeout m) (cc_Timer m) (cc_Semaphore m) (cc_Queue m).
Definition set_cc_Pid (v : Z) (m : CtrDrvrClientContext) : CtrDrvrClientContext := Ccon (cc_InUse m) (cc_DebugOn m) v (cc_ClientIndex m) (cc_ModuleIndex m) (cc_Timeout m) (cc_Timer m) (cc_Semaphore m) (cc_Queue m).
Definition set_cc_ClientIndex (v : Z) (m : CtrDrvrClientContext) : CtrDrvrClientContext := Ccon (cc_InUse m) (cc_DebugOn m) (cc_Pid m) v (cc_ModuleIndex m) (cc_Timeout m) (cc_Timer m) (cc_Semaphore m) (cc_Queue m).
Definition set_cc_ModuleIndex (v : Z) (m : CtrDrvrClientContext) : CtrDrvrClientContext := Ccon (cc_InUse m) (cc_DebugOn m) (cc_Pid m) (cc_ClientIndex m) v (cc_Timeout m) (cc_Timer m) (cc_Semaphore m) (cc_Queue m).
Definition set_cc_Timeout (v : Z) (m : CtrDrvrClientContext) : CtrDrvrClientContext := Ccon (cc_InUse m) (cc_DebugOn m) (cc_Pid m) (cc_ClientIndex m) (cc_ModuleIndex m) v (cc_Timer m) (cc_Semaphore m) (cc_Queue m).
Definition set_cc_Timer (v : Z) (m : CtrDrvrClientContext) : CtrDrvrClientContext := Ccon (cc_InUse m) (cc_DebugOn m) (cc_Pid m) (cc_ClientIndex m) (cc_ModuleIndex m) (cc_Timeout m) v (cc_Semaphore m) (cc_Queue m).
Definition set_cc_Semaphore (v : cdcm_sem) (m : CtrDrvrClientContext) : CtrDrvrClientContext := Ccon (cc_InUse m) (cc_DebugOn m) (cc_Pid m) (cc_ClientIndex m) (cc_ModuleIndex m) (cc_Timeout m) (cc_Timer m) v (cc_Queue m).
Definition set_cc_Queue (v : CtrDrvrQueue) (m : CtrDrvrClientContext) : CtrDrvrClientContext := Ccon (cc_InUse m) (cc_DebugOn m) (cc_Pid m) (cc_ClientIndex m) (cc_ModuleIndex m) (cc_Timeout m) (cc_Timer m) (cc_Semaphore m) v.

Definition ccon_zero : CtrDrvrClientContext := Ccon 0 0 0 0 0 0 0 (cdcm_sem_init 0) cqueue_zero.

(** An event on the queue of a client. *)
Definition queue_event (rb : CtrDrvrReadBuf) (c : CtrDrvrClientContext) : CtrDrvrClientContext :=
  let q := cc_Queue c in
  let entries := <[q_WrPntr q := rb]> (q_Entries q) in
  let wr := (q_WrPntr q + 1) mod CtrDrvrQUEUE_SIZE in
  if q_Size q <? CtrDrvrQUEUE_SIZE then
    set_cc_Semaphore (ssignal (cc_Semaphore c)).2
      (set_cc_Queue (Cqueue (q_QueueOff q) (q_Missed q) (q_Size q + 1) (q_RdPntr q) wr entries) c)
  else
    set_cc_Queue (Cqueue (q_QueueOff q) (u16 (q_Missed q + 1)) (q_Size q) ((q_RdPntr q + 1) mod CtrDrvrQUEUE_SIZE) wr entries) c.

(** ** The working area *)

Record CtrDrvrPtimBinding := Ptim { p_EqpNum : Z; p_ModuleIndex : Z; p_Counter : Z; p_Size : Z; p_StartIndex : Z }.

Record ctr := Ctr {
  w_Ctim : list (Z * Z);  (* objects: number, frame *)
  w_Ptim : list CtrDrvrPtimBinding;
  w_Modules : Z;
  w_cons : list CtrDrvrModuleContext;
  w_cards : list card;  (* the hardware of each module *)
  w_clients : list CtrDrvrClientContext;
  w_glob : glob;
}.

Definition set_w_Ctim (v : list (Z * Z)) (m : ctr) : ctr := Ctr v (w_Ptim m) (w_Modules m) (w_cons m) (w_cards m) (w_clients m) (w_glob m).
Definition set_w_Ptim (v : list CtrDrvrPtimBinding) (m : ctr) : ctr := Ctr (w_Ctim m) v (w_Modules m) (w_cons m) (w_cards m) (w_clients m) (w_glob m).
Definition set_w_Modules (v : Z) (m : ctr) : ctr := Ctr (w_Ctim m) (w_Ptim m) v (w_cons m) (w_cards m) (w_clients m) (w_glob m).
Definition set_w_cons (v : list CtrDrvrModuleContext) (m : ctr) : ctr := Ctr (w_Ctim m) (w_Ptim m) (w_Modules m) v (w_cards m) (w_clients m) (w_glob m).
Definition set_w_cards (v : list card) (m : ctr) : ctr := Ctr (w_Ctim m) (w_Ptim m) (w_Modules m) (w_cons m) v (w_clients m) (w_glob m).
Definition set_w_clients (v : list CtrDrvrClientContext) (m : ctr) : ctr := Ctr (w_Ctim m) (w_Ptim m) (w_Modules m) (w_cons m) (w_cards m) v (w_glob m).
Definition set_w_glob (v : glob) (m : ctr) : ctr := Ctr (w_Ctim m) (w_Ptim m) (w_Modules m) (w_cons m) (w_cards m) (w_clients m) v.

Definition card_zero : card := Card ∅ (fun _ => false) [] (fun _ => 0) 0 false [].

Definition con_at (mi : Z) (s : ctr) : CtrDrvrModuleContext := nth (Z.to_nat mi) (w_cons s) mcon_zero.
Definition get_mst (mi : Z) (s : ctr) : mst := Mst (con_at mi s) (nth (Z.to_nat mi) (w_cards s) card_zero) (w_glob s).
Definition put_mst (mi : Z) (m : mst) (s : ctr) : ctr :=
  Ctr (w_Ctim s) (w_Ptim s) (w_Modules s) (<[Z.to_nat mi := ms_con m]> (w_cons s)) (<[Z.to_nat mi := ms_card m]> (w_cards s)) (w_clients s) (ms_glob m).

Definition module_index (mi : Z) : bool := (0 <=? mi) && (mi <? CtrDrvrMODULE_CONTEXTS).
Definition oops_s (s : ctr) : ctr := set_w_glob (oops_g (w_glob s)) s.

(** An operation on [ModuleContexts[mi]]. *)
Definition run_module {A} (mi : Z) (f : mst -> A * mst) (s : ctr) : A * ctr :=
  let '(a, m) := f (get_mst mi s) in (a, if module_index mi then put_mst mi m s else oops_s s).
Definition on_module (mi : Z) (f : mst -> mst) (s : ctr) : ctr := (run_module mi (fun m => (tt, f m)) s).2.

Definition client_at (ci : Z) (s : ctr) : CtrDrvrClientContext := nth (Z.to_nat ci) (w_clients s) ccon_zero.
Definition on_client (ci : Z) (f : CtrDrvrClientContext -> CtrDrvrClientContext) (s : ctr) : ctr :=
  set_w_clients (alter f (Z.to_nat ci) (w_clients s)) s.

(** ** Connections *)

Definition GetPtimModule (eqpnum : Z) (s : ctr) : Z :=
  match list_find (fun p => p_EqpNum p = eqpnum) (w_Ptim s) with
  | Some (_, p) => p_ModuleIndex p + 1
  | None => 0
  end.

Definition bus_bit : Z := AutoShiftLeft CtrDrvrCounterConfigON_ZERO_MASK CtrDrvrCounterOnZeroBUS.

Definition matches (num clss : Z) (c : CtrDrvrModuleContext) (i : Z) : bool := (EqpNum c i =? num) && (EqpClass c i =? clss).

(** One slot of the tables gets a client, its interrupt and the bus bit. *)
Definition add_client (i cmsk hmsk : Z) (c : CtrDrvrModuleContext) : CtrDrvrModuleContext :=
  set_mc_InterruptEnable (Z.lor (mc_InterruptEnable c) hmsk) (set_mc_Clients (<[i := Z.lor (Clients c i) cmsk]> (mc_Clients c)) c).

Definition connect_slot (i cmsk hmsk : Z) (m : mst) : mst :=
  let m := on_con (add_client i cmsk hmsk) m in
  let '(valu, m) := HRd (conf_at i) m in
  HWr (Z.lor valu bus_bit) (conf_at i) m.

Definition connect_ptim (num cmsk : Z) (m : mst) : Z * mst :=
  for_range CtrDrvrRamTableSIZE (fun i '(count, m) =>
    if matches num CtrDrvrConnectionClassPTIM (ms_con m) i
    then (count + 1, connect_slot i cmsk (shl1 (Counter (Trigs (ms_con m) i))) m) else (count, m)) (0, m).

Definition ctim_trigger (num frame : Z) : CtrDrvrTrigger :=
  Trig num frame CtrDrvrTriggerConditionNO_CHECK CtrDrvrMachineNONE CtrDrvrCounter0 0 0.
Definition ctim_config : CtrDrvrCounterConfiguration :=
  Conf CtrDrvrCounterOnZeroBUS CtrDrvrCounterStartNORMAL CtrDrvrCounterModeNORMAL CtrDrvrCounterClock1KHZ 0 0.

(** A new instance of a CTIM object in an empty slot. *)
Definition create_instance (i num frame cmsk : Z) (m : mst) : mst :=
  let trig := ctim_trigger num frame in
  let m := on_con (fun c => set_mc_EqpClass (<[i := CtrDrvrConnectionClassCTIM]> (mc_EqpClass c)) (set_mc_EqpNum (<[i := num]> (mc_EqpNum c)) c)) m in
  let m := on_con (fun c => set_mc_Configs (<[i := ctim_config]> (mc_Configs c)) (set_mc_Trigs (<[i := trig]> (mc_Trigs c)) c)) m in
  let m := Io32Write (trig_at i) (pair_words (TriggerToHard trig)) m in
  let m := Io32Write (conf_at i) (pair_words (ConfigToHard ctim_config)) m in
  on_con (add_client i cmsk CtrDrvrInterruptMaskCOUNTER_0) m.

Definition ctim_frame (num : Z) (s : ctr) : Z :=
  match list_find (fun o => o.1 = num) (w_Ctim s) with Some (_, o) => o.2 | None => 0 end.

Definition ENXIO : Z := 6.

(** The count of connections, or an error. *)
Definition connect_ctim (num frame cmsk : Z) (m : mst) : Z * mst :=
  match find_first CtrDrvrRamTableSIZE (matches num CtrDrvrConnectionClassCTIM (ms_con m)) with
  | Some i => (1, connect_slot i cmsk CtrDrvrInterruptMaskCOUNTER_0 m)
  | None =>
      if truthy (frame_Header frame) then
        match find_first CtrDrvrRamTableSIZE (fun i => EqpNum (ms_con m) i =? 0) with
        | Some i => (1, create_instance i num frame cmsk m)
        | None => (- ENOMEM, m)
        end
      else (0, m)
  end.

Definition connect_hard (mask cmsk : Z) (m : mst) : Z * mst :=
  for_range CtrDrvrInterruptSOURCES (fun i '(count, m) =>
    if truthy (Z.land mask (shl1 i)) then
      (count + 1, on_con (fun c => set_mc_HardClients (<[i := Z.lor (HardClients c i) cmsk]> (mc_HardClients c))
                                     (set_mc_InterruptEnable (Z.lor (mc_InterruptEnable c) (shl1 i)) c)) m)
    else (count, m)) (0, m).

Definition Connect (conx : CtrDrvrConnection) (ci : Z) (s : ctr) : Z * ctr :=
  let ccon := client_at ci s in
  let midx := s32 (cn_Module conx - 1) in
  let midx := if module_index midx then midx else cc_ModuleIndex ccon in
  let cmsk := shl1 (cc_ClientIndex ccon) in
  let enable f m := let '(count, m) := f m in
    if 0 <? count then (0, EnableInterrupts (mc_InterruptEnable (ms_con m)) m) else (if count <? 0 then count else - ENXIO, m) in
  if cn_EqpClass conx =? CtrDrvrConnectionClassPTIM then
    let midx := GetPtimModule (cn_EqpNum conx) s - 1 in
    if 0 <=? midx then run_module midx (enable (connect_ptim (cn_EqpNum conx) cmsk)) s else (- ENXIO, s)
  else if cn_EqpClass conx =? CtrDrvrConnectionClassCTIM then
    run_module midx (enable (connect_ctim (cn_EqpNum conx) (ctim_frame (cn_EqpNum conx) s) cmsk)) s
  else run_module midx (enable (connect_hard (cn_EqpNum conx) cmsk)) s.

Section Disconnect.
(** What lies in memory around [HardClients[]] of a module. *)
Variable beyond : Z -> Z.

Definition hard_clients (c : CtrDrvrModuleContext) (i : Z) : Z :=
  if (0 <=? i) && (i <? CtrDrvrInterruptSOURCES) then HardClients c i else beyond i.

Definition others (cmsk clients : Z) : bool := truthy (Z.land clients (not32 cmsk)).

Definition DisableInterrupts (tndx clss ci : Z) (m : mst) : mst :=
  let c := ms_con m in
  let cmsk := shl1 ci in
  let cntr := if negb (clss =? CtrDrvrConnectionClassHARD) then s32 (Counter (Trigs c tndx))
              else if tndx <=? CtrDrvrCOUNTERS then tndx else -1 in
  if negb (cntr =? -1) &&
     (others cmsk (hard_clients c cntr) ||
      existsb (fun i => (Counter (Trigs c i) =? u32 cntr) && others cmsk (Clients c i)) (seqZ 0 CtrDrvrRamTableSIZE)) then m else
  let hmsk := shl1 (if cntr =? -1 then tndx else cntr) in
  if others cmsk (hard_clients c tndx) then m else
  let e := Z.land (mc_InterruptEnable c) (not32 hmsk) in
  HWr e InterruptEnable_w (on_con (set_mc_InterruptEnable e) m).

(** A slot that has lost its last client. *)
Definition free_slot (i clss ci : Z) (m : mst) : mst :=
  let m := DisableInterrupts i clss ci m in
  if EqpClass (ms_con m) i =? CtrDrvrConnectionClassCTIM then
    let m := Io32Write (trig_at i) (pair_words (TriggerToHard trig_zero)) m in
    let m := Io32Write (conf_at i) (pair_words (ConfigToHard conf_zero)) m in
    on_con (fun c => set_mc_EqpClass (<[i := 0]> (mc_EqpClass c)) (set_mc_EqpNum (<[i := 0]> (mc_EqpNum c)) c)) m
  else
    let '(valu, m) := HRd (conf_at i) m in
    HWr (Z.land valu (not32 bus_bit)) (conf_at i) m.

Definition DisConnectOne (tndx clss ci : Z) (m : mst) : mst :=
  let cmsk := shl1 ci in
  let m :=
    if ((clss =? CtrDrvrConnectionClassCTIM) || (clss =? CtrDrvrConnectionClassPTIM)) && truthy (Z.land cmsk (Clients (ms_con m) tndx)) then
      let m := on_con (fun c => set_mc_Clients (<[tndx := Z.land (Clients c tndx) (not32 cmsk)]> (mc_Clients c)) c) m in
      if Clients (ms_con m) tndx =? 0 then free_slot tndx clss ci m else m
    else m in
  if (clss =? CtrDrvrConnectionClassHARD) && truthy (HardClients (ms_con m) tndx) then
    let m := on_con (fun c => set_mc_HardClients (<[tndx := Z.land (HardClients c tndx) (not32 cmsk)]> (mc_HardClients c)) c) m in
    if HardClients (ms_con m) tndx =? 0 then DisableInterrupts tndx clss ci m else m
  else m.

Definition disconnect_hard (ci : Z) (m : mst) : mst :=
  for_range CtrDrvrInterruptSOURCES (fun i m => DisConnectOne i CtrDrvrConnectionClassHARD ci m) m.

Definition DisConnect (conx : CtrDrvrConnection) (ci : Z) (s : ctr) : ctr :=
  let midx := s32 (cn_Module conx - 1) in
  let ci := cc_ClientIndex (client_at ci s) in
  on_module midx (fun m =>
    if negb (cn_EqpClass conx =? CtrDrvrConnectionClassHARD) then
      for_range CtrDrvrRamTableSIZE (fun i m =>
        if matches (cn_EqpNum conx) (cn_EqpClass conx) (ms_con m) i then DisConnectOne i (cn_EqpClass conx) ci m else m) m
    else disconnect_hard ci m) s.

Definition disconnect_module (ci : Z) (m : mst) : mst :=
  let m := for_range CtrDrvrRamTableSIZE (fun i m =>
    if truthy (EqpNum (ms_con m) i) then DisConnectOne i (EqpClass (ms_con m) i) ci m else m) m in
  disconnect_hard ci m.

Definition DisConnectAll (ci : Z) (s : ctr) : ctr :=
  let ci := cc_ClientIndex (client_at ci s) in
  for_range (w_Modules s) (fun midx s => on_module midx (disconnect_module ci) s) s.
End Disconnect.

(** ** Interrupts *)

Definition read_ctime (w : Z) (m : mst) : CtrDrvrCTime * mst :=
  let '(s, m) := IHRd (w + 1) m in
  let '(t, m) := IHRd (w + 2) m in
  let '(c, m) := IHRd w m in
  (CTime c s t, m).

(** What the history of counter [inum] says, for the clients of trigger [tndx]. *)
Definition history_event (inum tndx : Z) (m : mst) : CtrDrvrReadBuf * mst :=
  let h := History_w inum in
  let '(frame, m) := IHRd (h + 1) m in
  let '(tt_, m) := read_ctime (h + 2) m in
  let '(st, m) := read_ctime (h + 5) m in
  let '(oz, m) := read_ctime (h + 8) m in
  let '(hlock, m) := IHRd (LockHistory_w inum) m in
  let m := if 1 <? hlock then on_con (fun c => set_mc_Status (Z.land (mc_Status c) (not32 CtrDrvrStatusNO_LOST_INTERRUPTS)) c) m else m in
  let c := ms_con m in
  (Crb (Cconn (mc_ModuleIndex c + 1) (EqpClass c tndx) (EqpNum c tndx)) (tndx + 1) 0 (Ctim (Trigs c tndx)) frame tt_ st oz, m).

(** The event of a raised source and the clients of its object, if any. *)
Definition object_event (inum : Z) (m : mst) : Z * CtrDrvrReadBuf * mst :=
  if inum <? CtrDrvrCOUNTERS then
    let '(lock, m) := IHRd (LockConfig_w inum) m in
    if lock =? 0 then
      let '(tndx, m) := IHRd (History_w inum) m in
      if tndx <? CtrDrvrRamTableSIZE then
        let clients := Clients (ms_con m) tndx in
        if truthy clients then let '(rbf, m) := history_event inum tndx m in (clients, rbf, m)
        else (0, crb_zero, m)
      else (0, crb_zero, m)
    else (0, crb_zero, m)
  else (0, crb_zero, m).

(** The event of a source for the clients connected to the hardware only. *)
Definition hard_event (inum : Z) (m : mst) : CtrDrvrReadBuf * mst :=
  let '(oz, m) := if inum <? CtrDrvrCOUNTERS then read_ctime (History_w inum + 8) m else GetTime m in
  (Crb (Cconn (mc_ModuleIndex (ms_con m) + 1) CtrDrvrConnectionClassHARD (shl1 inum)) 0 0 0 0 ctime_zero ctime_zero oz, m).

Definition set_rb_InterruptNumber (v : Z) (r : CtrDrvrReadBuf) : CtrDrvrReadBuf :=
  Crb (rb_Connection r) (rb_TriggerNumber r) v (rb_Ctim r) (rb_Frame r) (rb_TriggerTime r) (rb_StartTime r) (rb_OnZeroTime r).

Definition source_event (inum : Z) (m : mst) : Z * CtrDrvrReadBuf * mst :=
  let '(clients, rbf, m) := object_event inum m in
  let '(clients, rbf, m) :=
    if clients =? 0 then
      let hard := HardClients (ms_con m) inum in
      if truthy hard then let '(r, m) := hard_event inum m in (hard, r, m) else (hard, rbf, m)
    else (clients, rbf, m) in
  (Z.lor clients (HardClients (ms_con m) inum), set_rb_InterruptNumber inum rbf, m).

(** One event for each client of a mask. *)
Definition deliver (clients : Z) (rb : CtrDrvrReadBuf) (l : list CtrDrvrClientContext) : list CtrDrvrClientContext :=
  imap (fun i c => if Z.testbit clients (Z.of_nat i) then queue_event rb c else c) l.

Definition IntrHandler (mi : Z) (s : ctr) : bool * ctr :=
  let m := get_mst mi s in
  let '(isrc, m) := IHRd InterruptSource m in
  let '(isrc, m) :=
    if truthy (isr_bus_error (ms_glob m)) then
      let '(isrc, m) := IHRd InterruptSource m in (if truthy (isr_bus_error (ms_glob m)) then 0 else isrc, m)
    else (isrc, m) in
  let '(m, clients) := for_range CtrDrvrInterruptSOURCES (fun inum '(m, l) =>
    if truthy (Z.land (shl1 inum) isrc) then
      let '(clients, rbf, m) := source_event inum m in (m, deliver clients rbf l)
    else (m, l)) (m, w_clients s) in
  (truthy isrc, set_w_clients clients (put_mst mi m s)).

(** ** Open, close, read, write *)

Definition client_index (cnum : Z) : bool := (0 <=? cnum) && (cnum <? CtrDrvrCLIENT_CONTEXTS).

Definition CtrDrvrOpen (minor pid : Z) (s : ctr) : Z * ctr :=
  let cnum := minor - 1 in
  if negb (client_index cnum) then (- EFAULT, s) else
  if truthy (cc_InUse (client_at cnum s)) then (- EBUSY, s) else
  (0, on_client cnum (fun _ => Ccon 1 0 pid cnum 0 CtrDrvrDEFAULT_TIMEOUT 0 (cdcm_sem_init 0) cqueue_zero) s).

Definition CtrDrvrClose (beyond : Z -> Z) (minor : Z) (s : ctr) : Z * ctr :=
  let cnum := minor - 1 in
  if negb (client_index cnum) then (- EFAULT, s) else
  let s := on_client cnum (fun c => set_cc_Timer 0 (set_cc_InUse 0 c)) s in
  (0, DisConnectAll beyond cnum s).

Definition ReadTimeout (c : CtrDrvrClientContext) : CtrDrvrClientContext :=
  set_cc_Semaphore (sreset (cc_Semaphore c)).2 (set_cc_Timer 0 c).

(** Up to the wait on the semaphore: [Some true] has it, [Some false] waits,
    [None] has failed. [t]: what [timeout()] returned. *)
Definition read_start (t : Z) (task : nat) (c : CtrDrvrClientContext) : option bool * CtrDrvrClientContext :=
  let q := cc_Queue c in
  let c := if truthy (q_QueueOff q) then
             set_cc_Semaphore (sreset (cc_Semaphore c)).2 (set_cc_Queue (Cqueue (q_QueueOff q) 0 0 0 0 (q_Entries q)) c)
           else c in
  if truthy (cc_Timeout c) && (t <? 0) then (None, set_cc_Timer 0 c) else
  let c := if truthy (cc_Timeout c) then set_cc_Timer t c else c in
  let '(got, sem) := cdcm_down task (cc_Semaphore c) in
  (Some got, set_cc_Semaphore sem c).

(** After the wait. *)
Definition read_finish (aborted : bool) (c : CtrDrvrClientContext) : (Z + CtrDrvrReadBuf) * CtrDrvrClientContext :=
  if aborted then (inl (- EINTR), c) else
  if truthy (cc_Timeout c) && (cc_Timer c =? 0) then (inl (- ETIME), c) else
  let c := if truthy (cc_Timeout c) then set_cc_Timer 0 c else c in
  let q := cc_Queue c in
  if truthy (q_Size q) then
    (inr (aget crb_zero (q_Entries q) (q_RdPntr q)),
     set_cc_Queue (Cqueue (q_QueueOff q) (q_Missed q) (q_Size q - 1) ((q_RdPntr q + 1) mod CtrDrvrQUEUE_SIZE) (q_WrPntr q) (q_Entries q)) c)
  else (inl (- EINTR), c).

(** [CtrDrvrWrite()]: the event of a simulated trigger, and its clients. *)
Definition write_event (wb : CtrDrvrWriteBuf) (c : CtrDrvrModuleContext) : Z * CtrDrvrReadBuf :=
  let conx := wb_Connection wb in
  let trigger tndx (payload : bool) :=
    let t := Trigs c tndx in
    (Clients c tndx, Crb (Cconn 0 0 0) (tndx + 1) (Counter t) (Ctim t) (if payload then set_frame_Value (wb_Payload wb) (Frame t) else Frame t)
                       ctime_zero ctime_zero ctime_zero) in
  if negb (cn_EqpClass conx =? CtrDrvrConnectionClassHARD) then
    if wb_TriggerNumber wb =? 0 then
      match find_first CtrDrvrRamTableSIZE (matches (cn_EqpNum conx) (cn_EqpClass conx) c) with
      | Some tndx => trigger tndx true
      | None => (0, crb_zero)
      end
    else trigger (wb_TriggerNumber wb - 1) false
  else
    for_range CtrDrvrInterruptSOURCES (fun i '(clients, rb) =>
      if truthy (Z.land (cn_EqpNum conx) (shl1 i)) then (Z.lor clients (HardClients c i), set_rb_InterruptNumber (i + 1) rb) else (clients, rb)) (0, crb_zero).

Definition sizeof_CtrDrvrConnection : Z := 12.

Definition CtrDrvrWrite (wb : CtrDrvrWriteBuf) (s : ctr) : Z * ctr :=
  let conx := wb_Connection wb in
  let midx := s32 (cn_Module conx - 1) in
  if negb (module_index midx) then (- EINVAL, s) else
  let s := if negb (cn_EqpClass conx =? CtrDrvrConnectionClassHARD) && (CtrDrvrRamTableSIZE <? wb_TriggerNumber wb) then oops_s s else s in
  let '(clients, rb) := write_event wb (con_at midx s) in
  if truthy clients then
    let '(t, s) := run_module midx GetTime s in
    let rb := Crb conx (rb_TriggerNumber rb) (rb_InterruptNumber rb) (rb_Ctim rb) (rb_Frame rb) t t t in
    (sizeof_CtrDrvrConnection, set_w_clients (deliver clients rb (w_clients s)) s)
  else (sizeof_CtrDrvrConnection, s).
