(* ===== verification/CtrIoctl.v ===== *)
(** * The timing receiver: ioctls ([ctr/driver_vme/ctrdrvr.c])

    Every ioctl of the driver, on a buffer of the size that the emulation of
    LynxOS allocates for it. *)

From stdpp Require Import gmap.
From S2P Require Import Prelude CdcmSem CtrHw CtrMod CtrHptdc Ctr.

(** ** Ioctls ([ctrdrvr.h]) *)

Definition CtrDrvrCtimOBJECTS : Z := 2048.
Definition CtrDrvrPtimOBJECTS : Z := 2048.
Definition CtrDrvrCONNECTIONS : Z := 512.
Definition CtrDrvrDEBUG_ISR : Z := 0xFFFF.
Definition CtrDrvrPolarityTTL : Z := 0.
Definition CtrDrvrPolarityTTL_BAR : Z := 1.

Record CtrDrvrAction := Act {
  ac_TriggerNumber : Z;
  ac_EqpNum : Z;
  ac_EqpClass : Z;
  ac_Trigger : CtrDrvrTrigger;
  ac_Config : CtrDrvrCounterConfiguration;
}.

(** A command with its argument. *)
Inductive CtrDrvrControlFunction :=
  | SET_SW_DEBUG (lav : Z) | GET_SW_DEBUG | GET_VERSION | SET_TIMEOUT (lav : Z) | GET_TIMEOUT
  | SET_QUEUE_FLAG (lav : Z) | GET_QUEUE_FLAG | GET_QUEUE_SIZE | GET_QUEUE_OVERFLOW
  | GET_MODULE_DESCRIPTOR | SET_MODULE (lav : Z) | GET_MODULE | GET_MODULE_COUNT | RESET | ENABLE (lav : Z)
  | GET_STATUS | GET_INPUT_DELAY | SET_INPUT_DELAY (lav : Z) | GET_CLIENT_LIST
  | CONNECT (conx : CtrDrvrConnection) | DISCONNECT (conx : CtrDrvrConnection) | GET_CLIENT_CONNECTIONS (pid : Z)
  | SET_UTC (lav : Z) | GET_UTC | GET_CABLE_ID | SET_CABLE_ID (lav : Z)
  | GET_ACTION (tnum : Z) | SET_ACTION (act : CtrDrvrAction)
  | CREATE_CTIM_OBJECT (num frame : Z) | DESTROY_CTIM_OBJECT (num : Z) | CHANGE_CTIM_FRAME (num frame : Z) | LIST_CTIM_OBJECTS
  | CREATE_PTIM_OBJECT (p : CtrDrvrPtimBinding) | DESTROY_PTIM_OBJECT (p : CtrDrvrPtimBinding) | LIST_PTIM_OBJECTS | GET_PTIM_BINDING (num : Z)
  | GET_OUT_MASK (cntr : Z) | SET_OUT_MASK (cntr mask polarity : Z) | GET_COUNTER_HISTORY (cntr : Z)
  | GET_REMOTE (cntr : Z) | SET_REMOTE (cntr remote : Z) | REMOTE (cntr remote : Z)
  | GET_CONFIG (cntr : Z) | SET_CONFIG (cntr : Z) (conf : CtrDrvrCounterConfiguration)
  | GET_PLL | SET_PLL (pll : list Z) | SET_PLL_ASYNC_PERIOD (period : Z) | GET_PLL_ASYNC_PERIOD
  | READ_TELEGRAM (machine : Z) | READ_EVENT_HISTORY
  | JTAG_OPEN | JTAG_READ_BYTE | JTAG_WRITE_BYTE (lav : Z) | JTAG_CLOSE
  | HPTDC_OPEN | HPTDC_IO (cmd : Z) (wreg : list HptdcRegisterVlaue) (pflg rflg : bool) | HPTDC_CLOSE
  | RAW_READ (size offset : Z) | RAW_WRITE (size offset : Z) (uary : list Z)
  | GET_RECEPTION_ERRORS | GET_IO_STATUS | GET_IDENTITY | SET_DEBUG_HISTORY (lav : Z) | SET_BRUTAL_PLL (lav : Z)
  | GET_MODULE_STATS | GET_OUTPUT_BYTE | SET_OUTPUT_BYTE (lav : Z).

(** What is copied back. *)
Inductive ctr_out :=
  | CoNone | CoInt (v : Z) | CoVersion (v : CtrDrvrVersion) | CoAddress (a : CtrDrvrModuleAddress) | CoWords (l : list Z)
  | CoConnections (l : list CtrDrvrConnection) | CoTime (t : CtrDrvrCTime) | CoAction (a : CtrDrvrAction)
  | CoConfig (c : CtrDrvrCounterConfiguration) | CoCtims (l : list (Z * Z)) | CoPtims (l : list CtrDrvrPtimBinding)
  | CoRegisters (l : list HptdcRegisterVlaue).

(** ** Objects *)

Definition swap_remove {A} (i : nat) (l : list A) : list A :=
  match last l with Some x => take (length l - 1) (<[i := x]> l) | None => l end.

(** A trigger of the module names the object. *)
Definition ctim_in_use (num : Z) (c : CtrDrvrModuleContext) : bool :=
  existsb (fun j => Ctim (Trigs c j) =? num) (seqZ 0 CtrDrvrRamTableSIZE).

(** The search for [size] free slots in a row. *)
Fixpoint free_run (l : list Z) (c : CtrDrvrModuleContext) (want size start : Z) : option Z :=
  match l with
  | [] => None
  | i :: l =>
      if EqpNum c i =? 0 then
        let start := if size =? 0 then i else start in
        if want <=? size + 1 then Some start else free_run l c want (size + 1) start
      else free_run l c want 0 start
  end.

Definition set_Counter (v : Z) (t : CtrDrvrTrigger) : CtrDrvrTrigger :=
  Trig (Ctim t) (Frame t) (TriggerCondition t) (Machine t) v (GroupNumber t) (GroupValue t).
Definition set_Ctim (v : Z) (t : CtrDrvrTrigger) : CtrDrvrTrigger :=
  Trig v (Frame t) (TriggerCondition t) (Machine t) (Counter t) (GroupNumber t) (GroupValue t).
Definition set_OnZero (v : Z) (c : CtrDrvrCounterConfiguration) : CtrDrvrCounterConfiguration :=
  Conf v (Start c) (Mode c) (Clock c) (PulsWidth c) (Delay c).

(** The slots [start ..] get the object. *)
Definition take_slots (start n num clss cntr : Z) (c : CtrDrvrModuleContext) : CtrDrvrModuleContext :=
  foldl (fun c i => set_mc_Trigs (<[i := set_Counter cntr (Trigs c i)]> (mc_Trigs c))
                      (set_mc_EqpClass (<[i := clss]> (mc_EqpClass c)) (set_mc_EqpNum (<[i := num]> (mc_EqpNum c)) c)))
    c (seqZ start n).

Definition create_ptim (p : CtrDrvrPtimBinding) (s : ctr) : Z * ctr :=
  if existsb (fun o => p_EqpNum p =? p_EqpNum o) (w_Ptim s) then (- EBUSY, s) else
  if CtrDrvrPtimOBJECTS <=? Z.of_nat (length (w_Ptim s)) then (- ENOMEM, s) else
  if p_ModuleIndex p <? w_Modules s then
    match free_run (seqZ 0 CtrDrvrRamTableSIZE) (con_at (p_ModuleIndex p) s) (p_Size p) 0 0 with
    | Some start =>
        let s := on_module (p_ModuleIndex p) (on_con (take_slots start (p_Size p) (p_EqpNum p) CtrDrvrConnectionClassPTIM (p_Counter p))) s in
        (0, set_w_Ptim (w_Ptim s ++ [Ptim (p_EqpNum p) (p_ModuleIndex p) (p_Counter p) (p_Size p) start]) s)
    | None => (- EINVAL, s)
    end
  else (- EINVAL, s).

Definition release_slot (i : Z) (m : mst) : mst :=
  let m := Io32Write (trig_at i) [0; 0] m in
  let m := on_con (fun c => set_mc_EqpClass (<[i := 0]> (mc_EqpClass c)) (set_mc_EqpNum (<[i := 0]> (mc_EqpNum c)) c)) m in
  let m := on_con (fun c => set_mc_Configs (<[i := conf_zero]> (mc_Configs c)) (set_mc_Trigs (<[i := trig_zero]> (mc_Trigs c)) c)) m in
  Io32Write (conf_at i) (pair_words (ConfigToHard conf_zero)) m.

Definition ptim_slot (num : Z) (c : CtrDrvrModuleContext) (i : Z) : bool := matches num CtrDrvrConnectionClassPTIM c i.

(** The clients are looked at slot by slot; what is found is not changed on the way. *)
Definition destroy_ptim (p : CtrDrvrPtimBinding) (s : ctr) : Z * ctr :=
  if negb ((0 <=? p_ModuleIndex p) && (p_ModuleIndex p <? w_Modules s)) then (- EINVAL, s) else
  let c := con_at (p_ModuleIndex p) s in
  let slots := filter (fun i => ptim_slot (p_EqpNum p) c i = true) (seqZ 0 CtrDrvrRamTableSIZE) in
  if existsb (fun i => truthy (Clients c i)) slots then (- EBUSY, s) else
  if (length slots =? 0)%nat then (- EINVAL, s) else
  let s := on_module (p_ModuleIndex p) (for_range CtrDrvrRamTableSIZE (fun i m =>
             if ptim_slot (p_EqpNum p) (ms_con m) i then release_slot i m else m)) s in
  (0, match list_find (fun o => p_EqpNum p = p_EqpNum o) (w_Ptim s) with
      | Some (i, _) => set_w_Ptim (swap_remove i (w_Ptim s)) s
      | None => s
      end).

(** ** Triggers and counters *)

Definition get_action (i : Z) (m : mst) : CtrDrvrAction * mst :=
  let '(t, m) := HardToTrigger i m in
  let '(f, m) := HardToConfig (conf_at i) m in
  let c := ms_con m in
  (Act (i + 1) (EqpNum c i) (EqpClass c i) (set_Ctim (Ctim (Trigs c i)) t) f, m).

(** [None]: refused. *)
Definition set_action (act : CtrDrvrAction) (m : mst) : option CtrDrvrAction * mst :=
  let i := ac_TriggerNumber act - 1 in
  let c := ms_con m in
  if EqpClass c i =? CtrDrvrConnectionClassHARD then (None, m) else
  if negb (EqpNum c i =? 0) &&
     (negb (EqpNum c i =? ac_EqpNum act) || negb (EqpClass c i =? ac_EqpClass act) || negb (Counter (Trigs c i) =? Counter (ac_Trigger act))) then (None, m) else
  let m := if negb (EqpNum c i =? 0) then m else
           on_con (take_slots i 1 (ac_EqpNum act) (ac_EqpClass act) (Counter (ac_Trigger act))) m in
  let m := Io32Write (trig_at i) (pair_words (TriggerToHard (ac_Trigger act))) m in
  let m := on_con (fun c => set_mc_Trigs (<[i := ac_Trigger act]> (mc_Trigs c)) c) m in
  let z := OnZero (ac_Config act) in
  let conf := set_OnZero (if truthy (Clients (ms_con m) i) then Z.lor z CtrDrvrCounterOnZeroBUS else Z.land z (not32 CtrDrvrCounterOnZeroBUS)) (ac_Config act) in
  let m := Io32Write (conf_at i) (pair_words (ConfigToHard conf)) m in
  let m := on_con (fun c => set_mc_Configs (<[i := conf]> (mc_Configs c)) c) m in
  (Some (Act (ac_TriggerNumber act) (ac_EqpNum act) (ac_EqpClass act) (ac_Trigger act) conf), m).

Definition real_counter (i : Z) : bool := (CtrDrvrCounter1 <=? i) && (i <=? CtrDrvrCounter8).

Definition command (f : Z -> Z) (m : mst) : mst :=
  let m := on_con (fun c => set_mc_Command (f (mc_Command c)) c) m in
  HWr (mc_Command (ms_con m)) Command_w m.

Definition bits_on (b : Z) (x : Z) : Z := Z.lor x b.
Definition bits_off (b : Z) (x : Z) : Z := Z.land x (not32 b).

Definition enable_ioctl (lav : Z) : mst -> mst :=
  if lav =? CtrDrvrCommandSET_HPTDC then command (bits_on CtrDrvrCommandSET_HPTDC)
  else if lav =? Z.lnot CtrDrvrCommandSET_HPTDC then command (bits_off CtrDrvrCommandSET_HPTDC)
  else if truthy lav then command (fun x => bits_off CtrDrvrCommandDISABLE (bits_on CtrDrvrCommandENABLE x))
  else command (fun x => bits_on CtrDrvrCommandDISABLE (bits_off CtrDrvrCommandENABLE x)).

(** The period in the bits of a float; the default is [1000.00/44.736]. *)
Definition default_period : Z := 0x41b2d3af.

(** ** What a client is connected to

    [None]: the list is complete, or has overflowed ([true]). *)
Definition add_connection (cn : CtrDrvrConnection) (a : list CtrDrvrConnection * option bool) : list CtrDrvrConnection * option bool :=
  match a with
  | (l, None) => if CtrDrvrCONNECTIONS <=? Z.of_nat (length l) then (l ++ [cn], Some true) else (l ++ [cn], None)
  | _ => a
  end.

Definition module_connections (msk : Z) (c : CtrDrvrModuleContext) (a : list CtrDrvrConnection * option bool) :=
  let a := for_range CtrDrvrRamTableSIZE (fun k a =>
    if truthy (Z.land msk (Clients c k)) && negb (existsb (fun cn => (EqpNum c k =? cn_EqpNum cn) && (EqpClass c k =? cn_EqpClass cn)) a.1)
    then add_connection (Cconn (mc_ModuleIndex c + 1) (EqpClass c k) (EqpNum c k)) a else a) a in
  let hmsk := for_range CtrDrvrInterruptSOURCES (fun k h => if truthy (Z.land msk (HardClients c k)) then Z.lor h (shl1 k) else h) 0 in
  if truthy hmsk then add_connection (Cconn (mc_ModuleIndex c + 1) CtrDrvrConnectionClassHARD hmsk) a else a.

Definition client_connections (pid : Z) (s : ctr) : list CtrDrvrConnection * option bool :=
  foldl (fun a ccon => if truthy (cc_InUse ccon) && (cc_Pid ccon =? pid)
                       then foldl (fun a c => module_connections (shl1 (cc_ClientIndex ccon)) c a) a (w_cons s) else a) ([], None) (w_clients s).

(** ** The dispatcher *)

Section Ioctl.
Variable beyond : Z -> Z.

Definition ok (o : ctr_out) (s : ctr) : Z * ctr_out * ctr := (0, o, s).
Definition fail (e : Z) (s : ctr) : Z * ctr_out * ctr := (- e, CoNone, s).
Definition client_set (ci : Z) (f : CtrDrvrClientContext -> CtrDrvrClientContext) (s : ctr) := ok CoNone (on_client ci f s).
Definition reply {A} (mi : Z) (k : A -> ctr_out) (f : mst -> A * mst) (s : ctr) : Z * ctr_out * ctr :=
  let '(a, s) := run_module mi f s in ok (k a) s.
Definition act_on (mi : Z) (f : mst -> mst) (s : ctr) : Z * ctr_out * ctr := ok CoNone (on_module mi f s).

(** The size of the block of a raw access: the test that lets it pass. *)
Definition sizeof_CtrDrvrRawIoBlock : Z := 12.
Definition raw_fits (size : Z) : bool := u32 (size * 4) <? sizeof_CtrDrvrRawIoBlock.

Definition set_queue (f : CtrDrvrQueue -> CtrDrvrQueue) (c : CtrDrvrClientContext) : CtrDrvrClientContext := set_cc_Queue (f (cc_Queue c)) c.

(** The PLL, telegrams, histories and errors. Another command is refused. *)
Definition status_command (cm : CtrDrvrControlFunction) (ci mi : Z) (s : ctr) : Z * ctr_out * ctr :=
  let mcon := con_at mi s in
  match cm with
  | GET_PLL => reply mi CoWords (Io32Read 8 Pll_w) s
  | SET_PLL pll => act_on mi (fun m => on_con (set_mc_Pll pll) (Io32Write Pll_w pll m)) s
  | GET_PLL_ASYNC_PERIOD =>
      let p := if truthy (mc_PllAsyncPeriodNs mcon) then mc_PllAsyncPeriodNs mcon else default_period in
      ok (CoInt p) (on_module mi (on_con (set_mc_PllAsyncPeriodNs p)) s)
  | SET_PLL_ASYNC_PERIOD _ => ok (CoInt (mc_PllAsyncPeriodNs mcon)) s
  | READ_TELEGRAM machine =>
      if (CtrDrvrMachineNONE <? machine) && (machine <=? CtrDrvrMachineMACHINES) then
        reply mi (fun l => CoWords (SwapWords l)) (Io32Read 32 (Telegrams_w + 32 * (machine - 1))) s
      else fail EINVAL s
  | READ_EVENT_HISTORY => reply mi CoWords (Io32Read 4097 EventHistory_w) s
  | GET_RECEPTION_ERRORS => reply mi CoWords (Io32Read 6 LastReset_w) s
  | GET_IO_STATUS => reply mi CoInt (HRd IoStat_w) s
  | GET_IDENTITY => reply mi CoWords (Io32Read 2 IdLSL_w) s
  | _ => fail EINVAL s
  end.

(** The module and its counters. *)
Definition counter_command (cm : CtrDrvrControlFunction) (ci mi : Z) (s : ctr) : Z * ctr_out * ctr :=
  match cm with
  | GET_OUTPUT_BYTE => reply mi (fun v => CoInt (Z.land v 0xff)) (HRd OutputByte_w) s
  | SET_OUTPUT_BYTE lav =>
      if (0 <=? lav) && (lav <=? 8) then
        act_on mi (fun m => HWr (Z.lor (if truthy lav then shl1 (lav - 1) else lav) 0x100) OutputByte_w (on_con (set_mc_OutputByte lav) m)) s
      else fail EINVAL s
  | ENABLE lav => act_on mi (enable_ioctl lav) s
  | SET_DEBUG_HISTORY lav =>
      act_on mi (command (if truthy lav then fun x => bits_off CtrDrvrCommandDebugHisOff (bits_on CtrDrvrCommandDebugHisOn x)
                          else fun x => bits_on CtrDrvrCommandDebugHisOff (bits_off CtrDrvrCommandDebugHisOn x))) s
  | SET_BRUTAL_PLL lav =>
      act_on mi (command (if truthy lav then fun x => bits_off CtrDrvrCommandUtcPllOn (bits_on CtrDrvrCommandUtcPllOff x)
                          else fun x => bits_on CtrDrvrCommandUtcPllOn (bits_off CtrDrvrCommandUtcPllOff x))) s
  | GET_INPUT_DELAY => reply mi CoInt (HRd InputDelay_w) s
  | SET_INPUT_DELAY lav => act_on mi (fun m => on_con (set_mc_InputDelay (u32 lav)) (HWr (u32 lav) InputDelay_w m)) s
  | GET_REMOTE cntr => if real_counter cntr then reply mi CoInt (HRd (LockConfig_w cntr)) s else fail EINVAL s
  | SET_REMOTE cntr remote => if real_counter cntr then act_on mi (HWr (if truthy remote then 1 else 0) (LockConfig_w cntr)) s else fail EINVAL s
  | REMOTE cntr remote =>
      if real_counter cntr then
        let '(lock, s) := run_module mi (HRd (LockConfig_w cntr)) s in
        if truthy lock then act_on mi (HWr (Z.lor CtrDrvrRemoteEXEC (Z.land CtrDrvrCntrCntrlREMOTE_MASK remote)) (RemOutMask_w cntr)) s else fail EINVAL s
      else fail EINVAL s
  | GET_MODULE_STATS => reply mi CoWords (Io32Read 22 ModStats_w) s
  | GET_OUT_MASK cntr =>
      if real_counter cntr then
        reply mi (fun v => CoWords [AutoShiftRight CtrDrvrCntrCntrlOUT_MASK (Z.land v (not32 CtrDrvrCntrCntrlTTL_BAR));
                                    if truthy (Z.land CtrDrvrCntrCntrlTTL_BAR v) then CtrDrvrPolarityTTL_BAR else CtrDrvrPolarityTTL]) (HRd (RemOutMask_w cntr)) s
      else fail EINVAL s
  | SET_OUT_MASK cntr mask polarity =>
      if real_counter cntr then
        let mask := if mask =? 0 then shl1 cntr else mask in
        act_on mi (HWr (Z.lor (AutoShiftLeft CtrDrvrCntrCntrlOUT_MASK mask) (if polarity =? CtrDrvrPolarityTTL_BAR then CtrDrvrCntrCntrlTTL_BAR else 0)) (RemOutMask_w cntr)) s
      else fail EINVAL s
  | GET_CONFIG cntr =>
      if (CtrDrvrCounter0 <=? cntr) && (cntr <=? CtrDrvrCounter8) then
        let '(c, s) := run_module mi (HardToConfig (Config_w cntr)) s in
        if (Z.lor CtrDrvrCounterOnZeroBUS CtrDrvrCounterOnZeroOUT <? OnZero c) || (CtrDrvrCounterSTARTS <? Start c)
           || (CtrDrvrCounterMODES <? Mode c) || (CtrDrvrCounterCLOCKS <? Clock c) then fail EFAULT s else ok (CoConfig c) s
      else fail EINVAL s
  | SET_CONFIG cntr conf =>
      (* the lock is read before the counter is looked at *)
      let '(lock, s) := run_module mi (ioread32be (LockConfig_w cntr)) s in
      if truthy lock && ((CtrDrvrCounter0 <=? cntr) && (cntr <=? CtrDrvrCounter8)) then act_on mi (Io32Write (Config_w cntr) (pair_words (ConfigToHard conf))) s
      else fail EINVAL s
  | GET_COUNTER_HISTORY cntr => if real_counter cntr then reply mi CoWords (Io32Read 11 (History_w cntr)) s else fail EINVAL s
  | _ => status_command cm ci mi s
  end.

(** Triggers and timing objects. *)
Definition object_command (cm : CtrDrvrControlFunction) (ci mi : Z) (s : ctr) : Z * ctr_out * ctr :=
  let mcon := con_at mi s in
  match cm with
  | GET_ACTION tnum =>
      if (0 <? tnum) && (tnum <=? CtrDrvrRamTableSIZE) then reply mi CoAction (get_action (tnum - 1)) s else fail EINVAL s
  | SET_ACTION act =>
      if (0 <? ac_TriggerNumber act) && (ac_TriggerNumber act <=? CtrDrvrRamTableSIZE) then
        let '(r, s) := run_module mi (set_action act) s in match r with Some a => ok (CoAction a) s | None => fail EINVAL s end
      else fail EINVAL s
  | CREATE_CTIM_OBJECT num frame =>
      if existsb (fun o => num =? o.1) (w_Ctim s) then fail EBUSY s
      else if Z.of_nat (length (w_Ctim s)) <? CtrDrvrCtimOBJECTS then ok CoNone (set_w_Ctim (w_Ctim s ++ [(num, frame)]) s) else fail ENOMEM s
  | DESTROY_CTIM_OBJECT num =>
      match list_find (fun o => num = o.1) (w_Ctim s) with
      | Some (i, _) => if ctim_in_use num mcon then fail EBUSY s else ok CoNone (set_w_Ctim (swap_remove i (w_Ctim s)) s)
      | None => fail EINVAL s
      end
  | CHANGE_CTIM_FRAME num frame =>
      match list_find (fun o => num = o.1) (w_Ctim s) with
      | Some (i, o) => if ctim_in_use num mcon then fail EBUSY s else ok CoNone (set_w_Ctim (<[i := (o.1, frame)]> (w_Ctim s)) s)
      | None => fail EINVAL s
      end
  | LIST_CTIM_OBJECTS => ok (CoCtims (w_Ctim s)) s
  | CREATE_PTIM_OBJECT p => let '(rc, s) := create_ptim p s in (rc, CoNone, s)
  | GET_PTIM_BINDING num =>
      match list_find (fun o => num = p_EqpNum o) (w_Ptim s) with Some (_, o) => ok (CoPtims [o]) s | None => fail EINVAL s end
  | DESTROY_PTIM_OBJECT p => let '(rc, s) := destroy_ptim p s in (rc, CoNone, s)
  | LIST_PTIM_OBJECTS => ok (CoPtims (w_Ptim s)) s
  | _ => counter_command cm ci mi s
  end.

(** The JTAG port, the HPTDC and raw accesses. *)
Definition chip_command (cm : CtrDrvrControlFunction) (ci mi : Z) (s : ctr) : Z * ctr_out * ctr :=
  let mcon := con_at mi s in
  match cm with
  | JTAG_OPEN =>
      let s := on_module mi (on_con (set_mc_IrqBalance 0)) s in
      if truthy (a_JTGAddress (mc_Address mcon)) then ok CoNone (on_module mi (on_con (set_mc_FlashOpen 1)) s)
      else fail EINVAL (on_module mi (on_con (set_mc_FlashOpen 0)) s)
  | JTAG_READ_BYTE => if truthy (mc_FlashOpen mcon) then reply mi (fun v => CoInt (Z.land 0xff v)) HRdJtag s else fail EBUSY s
  | JTAG_WRITE_BYTE lav => if truthy (mc_FlashOpen mcon) then act_on mi (HWrJtag (u16 lav)) s else fail EBUSY s
  | JTAG_CLOSE => act_on mi (fun m => on_con (fun c => set_mc_IrqBalance 1 (set_mc_FlashOpen 0 c)) (EnableInterrupts 0 m)) s
  | HPTDC_OPEN => act_on mi (on_con (set_mc_HptdcOpen 1)) s
  | HPTDC_IO cmd wreg pflg rflg => if truthy (mc_HptdcOpen mcon) then reply mi CoRegisters (HptdcCommand cmd wreg pflg rflg) s else fail EINVAL s
  | HPTDC_CLOSE => act_on mi (on_con (set_mc_HptdcOpen 0)) s
  | RAW_READ size offset =>
      if raw_fits size then
        let '(r, s) := run_module mi (RawIo offset (replicate (Z.to_nat size) 0) false) s in
        match r with Some (l, n) => ok (CoWords (n :: l)) s | None => fail ENXIO s end
      else fail EINVAL s
  | RAW_WRITE size offset uary =>
      if raw_fits size then
        let '(r, s) := run_module mi (RawIo offset uary true) s in
        match r with Some (l, n) => ok (CoWords [n]) s | None => fail ENXIO s end
      else fail EINVAL s
  | _ => object_command cm ci mi s
  end.

(** The cases of the dispatcher, group by group. Clients, modules, connections, the date. *)
Definition client_command (cm : CtrDrvrControlFunction) (ci mi : Z) (s : ctr) : Z * ctr_out * ctr :=
  let ccon := client_at ci s in
  let mcon := con_at mi s in
  match cm with
  | SET_SW_DEBUG lav => client_set ci (set_cc_DebugOn (if lav =? CtrDrvrDEBUG_ISR then 0 else lav)) s
  | GET_SW_DEBUG => ok (CoInt (cc_DebugOn ccon)) s
  | GET_VERSION => reply mi CoVersion GetVersion s
  | SET_TIMEOUT lav => client_set ci (set_cc_Timeout (u32 lav)) s
  | GET_TIMEOUT => ok (CoInt (cc_Timeout ccon)) s
  | SET_QUEUE_FLAG lav =>
      client_set ci (set_queue (fun q => Cqueue (if truthy lav then 1 else 0) (q_Missed q) (q_Size q) (q_RdPntr q) (q_WrPntr q) (q_Entries q))) s
  | GET_QUEUE_FLAG => ok (CoInt (q_QueueOff (cc_Queue ccon))) s
  | GET_QUEUE_SIZE => ok (CoInt (q_Size (cc_Queue ccon))) s
  | GET_QUEUE_OVERFLOW =>
      ok (CoInt (q_Missed (cc_Queue ccon)))
        (on_client ci (set_queue (fun q => Cqueue (q_QueueOff q) 0 (q_Size q) (q_RdPntr q) (q_WrPntr q) (q_Entries q))) s)
  | GET_MODULE_DESCRIPTOR => ok (CoAddress (mc_Address mcon)) s
  | SET_MODULE lav =>
      if (1 <=? lav) && (lav <=? w_Modules s) then
        ok CoNone (on_module (lav - 1) (on_con (set_mc_ModuleIndex (lav - 1))) (on_client ci (set_cc_ModuleIndex (lav - 1)) s))
      else fail EINVAL s
  | GET_MODULE => ok (CoInt (cc_ModuleIndex ccon + 1)) s
  | GET_MODULE_COUNT => ok (CoInt (w_Modules s)) s
  | RESET => act_on mi Reset s
  | GET_STATUS => reply mi CoInt GetStatus s
  | GET_CLIENT_LIST => ok (CoWords (cc_Pid <$> filter (fun c => truthy (cc_InUse c) = true) (w_clients s))) s
  | CONNECT conx => let '(rc, s) := Connect conx ci s in (rc, CoNone, s)
  | DISCONNECT conx =>
      ok CoNone (if truthy (cn_EqpNum conx) then DisConnect beyond conx ci s else DisConnectAll beyond ci s)
  | GET_CLIENT_CONNECTIONS pid =>
      let '(l, over) := client_connections pid s in ok (CoConnections l) (match over with Some true => oops_s s | _ => s end)
  | SET_UTC lav => act_on mi (SetTime (u32 lav)) s
  | GET_UTC => reply mi CoTime GetTime s
  | GET_CABLE_ID => if truthy (mc_CableId mcon) then ok (CoInt (mc_CableId mcon)) s else reply mi CoInt (HRd CableId_w) s
  | SET_CABLE_ID lav => act_on mi (on_con (set_mc_CableId (u32 lav))) s
  | _ => chip_command cm ci mi s
  end.

Definition EBADF : Z := 9.

Definition CtrDrvrIoctl (cm : CtrDrvrControlFunction) (minor : Z) (s : ctr) : Z * ctr_out * ctr :=
  let cnum := minor - 1 in
  if negb (client_index cnum) then fail ENODEV s else
  let ccon := client_at cnum s in
  if cc_InUse ccon =? 0 then fail EBADF s else
  let mi := cc_ModuleIndex ccon in
  if mc_InUse (con_at mi s) =? 0 then fail ENODEV s else
  let s := on_module mi (fun m => let '(n, m) := GetClrBusErrCnt m in
                                  on_con (fun c => set_mc_BusErrorCount (u32 (mc_BusErrorCount c + n)) c) m) s in
  client_command cm cnum mi s.
End Ioctl.
