(* ===== verification/CtrIsr.v ===== *)
(** * The timing receiver: the delivery of interrupts

    What the interrupt handler puts on the queues of the clients, from the words
    of the card and the tables of the module as they are when it is entered. *)

From stdpp Require Import gmap.
From S2P Require Import Prelude CdcmSem CtrHw CtrMod CtrHptdc Ctr.

(** ** Queues *)

Record ring_ok (q : CtrDrvrQueue) : Prop := {
  ro_size : 0 <= q_Size q <= CtrDrvrQUEUE_SIZE;
  ro_rd : 0 <= q_RdPntr q < CtrDrvrQUEUE_SIZE;
  ro_wr : q_WrPntr q = (q_RdPntr q + q_Size q) mod CtrDrvrQUEUE_SIZE;
}.

(** The event [k] places behind the oldest, and all that wait. *)
Definition waiting (q : CtrDrvrQueue) (k : Z) : CtrDrvrReadBuf := aget crb_zero (q_Entries q) ((q_RdPntr q + k) mod CtrDrvrQUEUE_SIZE).
Definition queue_list (q : CtrDrvrQueue) : list CtrDrvrReadBuf := waiting q <$> seqZ 0 (q_Size q).

(** A bounded list that loses its oldest elements. *)
Definition newest (l : list CtrDrvrReadBuf) : list CtrDrvrReadBuf := drop (length l - 64) l.

Lemma newest_app l1 l2 : newest (newest l1 ++ l2) = newest (l1 ++ l2).
Proof.
  unfold newest. rewrite !length_app, length_drop, <- drop_app_le by lia. rewrite drop_drop. f_equal. lia.
Qed.

Lemma newest_short l : (length l <= 64)%nat -> newest l = l.
Proof. intros H. unfold newest. by replace (length l - 64)%nat with 0%nat by lia. Qed.

Lemma ring_zero : ring_ok cqueue_zero.
Proof. by split. Qed.

Lemma queue_list_length q : ring_ok q -> length (queue_list q) = Z.to_nat (q_Size q).
Proof. intros [H _ _]. unfold queue_list. by rewrite length_fmap, length_seqZ. Qed.

Lemma waiting_put q rb rd k j wr sz off ms : 0 <= k < 64 -> 0 <= j < 64 -> q_RdPntr q = rd ->
  aget crb_zero (<[(rd + k) mod 64 := rb]> (q_Entries q)) ((rd + j) mod 64) = (if decide (j = k) then rb else waiting q j) /\
  waiting (Cqueue off ms sz rd wr (<[(rd + k) mod 64 := rb]> (q_Entries q))) j = (if decide (j = k) then rb else waiting q j).
Proof.
  intros Hk Hj <-. assert (aget crb_zero (<[(q_RdPntr q + k) mod 64 := rb]> (q_Entries q)) ((q_RdPntr q + j) mod 64) = (if decide (j = k) then rb else waiting q j)) as H.
  { rewrite aget_insert. destruct (decide (j = k)) as [->|Hne]; [by rewrite decide_True|]. rewrite decide_False; [done|].
    intros E. apply Hne. pose proof (Z.div_mod (q_RdPntr q + k) 64 ltac:(lia)). pose proof (Z.div_mod (q_RdPntr q + j) 64 ltac:(lia)). lia. }
  split; exact H.
Qed.

(** One event more. *)
Lemma queue_event_refines rb c : ring_ok (cc_Queue c) ->
  ring_ok (cc_Queue (queue_event rb c)) /\ queue_list (cc_Queue (queue_event rb c)) = newest (queue_list (cc_Queue c) ++ [rb]).
Proof.
  intros Hq. pose proof Hq as [Hs Hr Hw]. unfold queue_event. set (q := cc_Queue c) in *. change CtrDrvrQUEUE_SIZE with 64 in *.
  pose proof (Z.mod_pos_bound (q_RdPntr q + 1) 64 ltac:(lia)).
  destruct (Z.ltb_spec (q_Size q) 64) as [Hlt|Hge]; cbn [cc_Queue set_cc_Queue set_cc_Semaphore]; split.
  - split; cbn; [change CtrDrvrQUEUE_SIZE with 64; lia|done|]. change CtrDrvrQUEUE_SIZE with 64. rewrite Hw, Zplus_mod_idemp_l. f_equal. lia.
  - rewrite newest_short by (rewrite length_app, queue_list_length by done; cbn; lia).
    unfold queue_list. cbn [q_Size]. replace (seqZ 0 (q_Size q + 1)) with (seqZ 0 (q_Size q) ++ [q_Size q])
      by (rewrite seqZ_app by lia; by rewrite Z.add_0_l).
    rewrite fmap_app. cbn [fmap list_fmap]. rewrite Hw. f_equal; [|f_equal].
    + apply list_fmap_ext. intros i k Hi. apply lookup_seqZ in Hi as [-> Hi]. destruct (waiting_put q rb (q_RdPntr q) (q_Size q) (0 + Z.of_nat i) ((q_WrPntr q + 1) mod 64) (q_Size q + 1) (q_QueueOff q) (q_Missed q) ltac:(lia) ltac:(lia) eq_refl) as [_ E].
      rewrite Hw in E. rewrite E. by rewrite decide_False by lia.
    + destruct (waiting_put q rb (q_RdPntr q) (q_Size q) (q_Size q) ((q_WrPntr q + 1) mod 64) (q_Size q + 1) (q_QueueOff q) (q_Missed q) ltac:(lia) ltac:(lia) eq_refl) as [_ E].
      rewrite Hw in E. rewrite E. by rewrite decide_True.
  - assert (q_Size q = 64) as E by lia. rewrite E in *. split; cbn; change CtrDrvrQUEUE_SIZE with 64; [lia|lia|].
    rewrite Hw, !Zplus_mod_idemp_l. f_equal. lia.
  - assert (q_Size q = 64) as E by lia. unfold newest. rewrite length_app, queue_list_length by done. rewrite E. cbn [length Nat.add].
    change (Z.to_nat 64 + 1 - 64)%nat with 1%nat. unfold queue_list. cbn [q_Size]. rewrite E. 
    assert (seqZ 0 64 = seqZ 0 63 ++ [63]) as E1 by reflexivity. assert (seqZ 0 64 = 0 :: seqZ 1 63) as E2 by reflexivity.
    rewrite E1 at 1. rewrite E2, fmap_app. cbn [fmap list_fmap app drop]. rewrite drop_0.
    assert (q_WrPntr q = (q_RdPntr q + 0) mod 64) as Hw' by (rewrite Hw, E; replace (q_RdPntr q + 64) with (q_RdPntr q + 0 + 1 * 64) by lia; apply Z.mod_add; lia).
    assert (forall j, waiting (Cqueue (q_QueueOff q) (u16 (q_Missed q + 1)) 64 ((q_RdPntr q + 1) mod 64) ((q_WrPntr q + 1) mod 64) (<[q_WrPntr q := rb]> (q_Entries q))) j =
      aget crb_zero (<[(q_RdPntr q + 0) mod 64 := rb]> (q_Entries q)) ((q_RdPntr q + (j + 1)) mod 64)) as Hsh.
    { intros j. unfold waiting. cbn [q_RdPntr q_Entries]. change CtrDrvrQUEUE_SIZE with 64. rewrite Zplus_mod_idemp_l, Hw'. do 2 f_equal. lia. }
    f_equal; [|f_equal].
    + replace (seqZ 1 63) with (Z.add 1 <$> seqZ 0 63) by apply (fmap_add_seqZ 1 0 63). rewrite <- list_fmap_compose. apply list_fmap_ext. intros i k Hi. apply lookup_seqZ in Hi as [-> Hi]. rewrite Hsh. cbn [compose].
      destruct (waiting_put q rb (q_RdPntr q) 0 (0 + Z.of_nat i + 1) 0 0 0 0 ltac:(lia) ltac:(lia) eq_refl) as [E' _]. rewrite E', decide_False by lia. f_equal. lia.
    + rewrite Hsh. replace (q_RdPntr q + (63 + 1)) with (q_RdPntr q + 0 + 1 * 64) by lia. rewrite Z.mod_add by lia.
      destruct (waiting_put q rb (q_RdPntr q) 0 0 0 0 0 0 ltac:(lia) ltac:(lia) eq_refl) as [E' _]. by rewrite E', decide_True.
Qed.

Definition queue_events (evs : list CtrDrvrReadBuf) (c : CtrDrvrClientContext) : CtrDrvrClientContext := foldl (fun c rb => queue_event rb c) c evs.

Lemma queue_events_refine evs : forall c, ring_ok (cc_Queue c) ->
  ring_ok (cc_Queue (queue_events evs c)) /\ queue_list (cc_Queue (queue_events evs c)) = newest (queue_list (cc_Queue c) ++ evs).
Proof.
  induction evs as [|rb evs IH]; intros c Hq.
  - cbn. split; [done|]. rewrite app_nil_r, newest_short; [done|]. rewrite queue_list_length by done. destruct Hq as [H _ _]. change CtrDrvrQUEUE_SIZE with 64 in H. lia.
  - destruct (queue_event_refines rb c Hq) as [H1 H2]. destruct (IH _ H1) as [H3 H4]. split; [exact H3|].
    change (queue_events (rb :: evs) c) with (queue_events evs (queue_event rb c)). rewrite H4, H2, newest_app. by rewrite <- app_assoc.
Qed.

(** ** The events of an interrupt *)

Section Events.
Variable m : mst.

Definition word_of (w : Z) : Z := cd_word w (ms_card m).
Definition ctime_of (w : Z) : CtrDrvrCTime := CTime (word_of w) (word_of (w + 1)) (word_of (w + 2)).

(** The trigger that loaded counter [inum], when it has clients: the counter is
    not in remote and the index is one of the table. *)
Definition loaded_by (inum : Z) : option Z :=
  let t := word_of (History_w inum) in
  if (inum <? CtrDrvrCOUNTERS) && (word_of (LockConfig_w inum) =? 0) && (t <? CtrDrvrRamTableSIZE) && truthy (Clients (ms_con m) t)
  then Some t else None.

Definition clients_of (inum : Z) : Z :=
  Z.lor (match loaded_by inum with Some t => Clients (ms_con m) t | None => 0 end) (HardClients (ms_con m) inum).

Definition event_of (inum : Z) : CtrDrvrReadBuf :=
  let c := ms_con m in
  let h := History_w inum in
  match loaded_by inum with
  | Some t => Crb (Cconn (mc_ModuleIndex c + 1) (EqpClass c t) (EqpNum c t)) (t + 1) inum (Ctim (Trigs c t)) (word_of (h + 1))
                (ctime_of (h + 2)) (ctime_of (h + 5)) (ctime_of (h + 8))
  | None => Crb (Cconn (mc_ModuleIndex c + 1) CtrDrvrConnectionClassHARD (shl1 inum)) 0 inum 0 0 ctime_zero ctime_zero
              (if inum <? CtrDrvrCOUNTERS then ctime_of (h + 8) else ctime_of ReadTime_w)
  end.

(** The history of the counter was written more than once. *)
Definition overrun (inum : Z) : bool :=
  match loaded_by inum with Some _ => 1 <? word_of (LockHistory_w inum) | None => false end.

Definition raised (inum : Z) : bool := truthy (Z.land (shl1 inum) (word_of InterruptSource)).

(** The events for client [i], in the order of the sources. *)
Definition client_events (i : nat) : list CtrDrvrReadBuf :=
  event_of <$> filter (fun k => raised k && Z.testbit (clients_of k) (Z.of_nat i) = true) (seqZ 0 CtrDrvrInterruptSOURCES).
End Events.

Definition lose (c : CtrDrvrModuleContext) : CtrDrvrModuleContext :=
  set_mc_Status (Z.land (mc_Status c) (not32 CtrDrvrStatusNO_LOST_INTERRUPTS)) c.

(** ** Reads in the handler *)

(** No access is a bus error, and none is left to report. *)
Record calm (m : mst) : Prop := {
  ca_map : mc_Map (ms_con m) <> 0;
  ca_fault : forall w, cd_fault (ms_card m) w = false;
  ca_glob : bus_error_count (ms_glob m) <= last_bus_error (ms_glob m);
}.

(** A word that a read leaves alone. *)
Definition plain (w : Z) : Prop := 0 <= w < map_words /\ w <> HptdcJtag /\ clear_on_read w = false.

Definition silent (m : mst) : mst := on_glob (set_isr_bus_error 0) m.

Lemma silent_calm m : calm m -> calm (silent m).
Proof. intros [H1 H2 H3]. by split. Qed.

Lemma IHRd_calm w m : calm m -> 0 <= w < map_words -> w <> HptdcJtag ->
  IHRd w m = (cd_word w (ms_card m), with_card (if clear_on_read w then put_word w 0 (ms_card m) else ms_card m) (silent m)).
Proof.
  intros [Hm Hf Hg] Hw Hj. unfold IHRd, ioread32be. cbn [ms_con ms_card ms_glob on_glob silent].
  rewrite (proj2 (Z.eqb_neq _ _) Hm), (proj2 (Z.leb_le 0 w)), (proj2 (Z.ltb_lt w map_words)) by lia. cbn [orb negb andb].
  unfold card_read. rewrite (proj2 (Z.eqb_neq _ _) Hj). destruct m as [cn cd g]. cbn in *.
  assert (cd_fault (if clear_on_read w then put_word w 0 cd else cd) w = false) as -> by (destruct (clear_on_read w); apply Hf).
  unfold silent, on_glob, with_card, set_isr_bus_error. cbn.
  by rewrite (proj2 (Z.ltb_ge _ _)).
Qed.

Lemma IHRd_plain w m : calm m -> plain w -> IHRd w m = (cd_word w (ms_card m), silent m).
Proof. intros Hc (Hw & Hj & Hr). rewrite IHRd_calm, Hr by done. by destruct m. Qed.

Lemma read_ctime_plain w m : calm m -> plain w -> plain (w + 1) -> plain (w + 2) -> read_ctime w m = (ctime_of m w, silent m).
Proof.
  intros Hc H0 H1 H2. unfold read_ctime. rewrite IHRd_plain by done. rewrite IHRd_plain by (done || by apply silent_calm).
  rewrite IHRd_plain by (done || by repeat apply silent_calm). by destruct m.
Qed.

(** The history and the configuration lock of a counter are plain. *)
Lemma counter_plain inum k : 0 <= inum < CtrDrvrCOUNTERS -> 0 <= k < 16 -> k <> 1 -> plain (counter_at inum + k).
Proof.
  intros Hi Hk Hk1. unfold plain, clear_on_read, counter_at, Counters_w, CtrDrvrCOUNTERS, map_words, HptdcJtag, InterruptSource in *.
  change (0x10000 / 4) with 16384. split; [lia|]. split; [lia|]. rewrite (proj2 (Z.eqb_neq _ _)) by lia. cbn [orb].
  apply not_true_iff_false. intros E. apply existsb_exists in E as (j & Hj & E). apply Z.eqb_eq in E. unfold LockHistory_w, counter_at, Counters_w in E. lia.
Qed.

Lemma lock_clears inum : 0 <= inum < CtrDrvrCOUNTERS -> 0 <= LockHistory_w inum < map_words /\ LockHistory_w inum <> HptdcJtag /\ clear_on_read (LockHistory_w inum) = true.
Proof.
  intros Hi. unfold clear_on_read, LockHistory_w, counter_at, Counters_w, CtrDrvrCOUNTERS, map_words, HptdcJtag in *. change (0x10000 / 4) with 16384. split; [lia|]. split; [lia|].
  apply orb_true_iff. right. apply existsb_exists. exists inum. split; [|apply Z.eqb_refl].
  apply list_elem_of_In, elem_of_seqZ. lia.
Qed.

Lemma HRd_calm w m : calm m -> plain w -> HRd w m = (cd_word w (ms_card m), m).
Proof.
  intros [Hm Hf Hg] (Hw & Hj & Hr). unfold HRd, ioread32be.
  rewrite (proj2 (Z.eqb_neq _ _) Hm), (proj2 (Z.leb_le 0 w)), (proj2 (Z.ltb_lt w map_words)) by lia. cbn [orb negb andb].
  unfold card_read. rewrite (proj2 (Z.eqb_neq _ _) Hj), Hr. destruct m as [cn cd g]. cbn in *. rewrite Hf. unfold on_glob, with_card, check_bus_error. cbn.
  by rewrite (proj2 (Z.ltb_ge _ _)).
Qed.

Lemma HWr_calm v w m : calm m -> 0 <= w < map_words -> w <> HptdcJtag -> HWr v w m = with_card (put_word w v (ms_card m)) m.
Proof.
  intros [Hm Hf Hg] Hw Hj. unfold HWr, iowrite32be.
  rewrite (proj2 (Z.eqb_neq _ _) Hm), (proj2 (Z.leb_le 0 w)), (proj2 (Z.ltb_lt w map_words)) by lia. cbn [orb negb andb].
  unfold card_write. rewrite (proj2 (Z.eqb_neq _ _) Hj). destruct m as [cn cd g]. cbn in *. rewrite Hf. unfold on_glob, with_card, check_bus_error. cbn.
  by rewrite (proj2 (Z.ltb_ge _ _)).
Qed.

Lemma cd_word_put w v k c : cd_word k (put_word w v c) = if decide (k = w) then v else cd_word k c.
Proof. exact (aget_insert 0 (cd_mem c) w v k). Qed.

Lemma GetTime_calm m : calm m -> exists c, GetTime m = (ctime_of m ReadTime_w, with_card c m) /\ cd_fault c = cd_fault (ms_card m) /\
  forall w, w <> Command_w -> cd_word w c = cd_word w (ms_card m).
Proof.
  intros Hc. unfold GetTime. rewrite HWr_calm by done. set (c := put_word _ _ _).
  assert (calm (with_card c m)) as Hc' by (destruct Hc; by split).
  assert (plain ReadTime_w /\ plain (ReadTime_w + 1) /\ plain (ReadTime_w + 2)) as (P0 & P1 & P2) by (by repeat split).
  rewrite !HRd_calm by done. exists c. split; [|split; [done|]].
  - unfold ctime_of, word_of. cbn [ms_card with_card]. unfold c. by rewrite !cd_word_put.
  - intros w Hw. unfold c. rewrite cd_word_put. by rewrite decide_False.
Qed.

(** ** One source *)

(** What handling source [inum] changes of the module. *)
Record after (lost : bool) (inum : Z) (m m' : mst) : Prop := {
  af_calm : calm m';
  af_con : ms_con m' = if lost then lose (ms_con m) else ms_con m;
  af_word : forall w, w <> Command_w -> w <> LockHistory_w inum -> cd_word w (ms_card m') = cd_word w (ms_card m);
  af_oops : g_oops (ms_glob m') = g_oops (ms_glob m);
}.

Lemma after_silent inum m : calm m -> after false inum m (silent m).
Proof. intros H. split; [by apply silent_calm|done..]. Qed.

Lemma after_trans lost inum m1 m2 m3 : after lost inum m1 m2 -> after false inum m2 m3 -> after lost inum m1 m3.
Proof.
  intros [C1 E1 W1 O1] [C2 E2 W2 O2]. split; [done|by rewrite E2| |by rewrite O2].
  intros w Hw Hl. by rewrite W2, W1.
Qed.

Lemma history_event_calm inum t m : calm m -> 0 <= inum < CtrDrvrCOUNTERS ->
  let '(rb, m') := history_event inum t m in let c := ms_con m in let h := History_w inum in
  rb = Crb (Cconn (mc_ModuleIndex c + 1) (EqpClass c t) (EqpNum c t)) (t + 1) 0 (Ctim (Trigs c t)) (word_of m (h + 1))
         (ctime_of m (h + 2)) (ctime_of m (h + 5)) (ctime_of m (h + 8)) /\
  after (1 <? word_of m (LockHistory_w inum)) inum m m'.
Proof.
  intros Hc Hi. destruct (lock_clears inum Hi) as (L1 & L2 & L3). pose proof (silent_calm m Hc) as Hs.
  assert (forall k, 1 <= k < 13 -> plain (History_w inum + k)) as Hp by (intros k Hk; unfold History_w; rewrite <- Z.add_assoc; apply counter_plain; lia).
  assert (silent (silent m) = silent m) as Hss by done.
  unfold history_event. rewrite IHRd_plain by (done || apply Hp; lia).
  rewrite !read_ctime_plain by (repeat apply silent_calm; done) || (rewrite <- ?Z.add_assoc; apply Hp; lia). rewrite !Hss.
  rewrite IHRd_calm, L3 by done. cbn [ms_card silent on_glob]. change (cd_word (LockHistory_w inum) (ms_card m)) with (word_of m (LockHistory_w inum)).
  set (m1 := with_card _ _).
  assert (after false inum m m1) as A1.
  { split; [destruct Hc; by split|done| |done]. intros w _ Hw. unfold m1. cbn. rewrite cd_word_put. by rewrite decide_False. }
  destruct (1 <? word_of m (LockHistory_w inum)); (split; [done|]).
  - destruct A1 as [[C1 C2 C3] E1 W1 O1]. split; [by split|done|done|done].
  - exact A1.
Qed.

Lemma object_event_calm inum m : calm m -> 0 <= inum < CtrDrvrInterruptSOURCES ->
  let '(cl, rb, m') := object_event inum m in
  match loaded_by m inum with
  | Some t => cl = Clients (ms_con m) t /\ cl <> 0 /\ set_rb_InterruptNumber inum rb = event_of m inum
  | None => cl = 0 /\ rb = crb_zero
  end /\ after (overrun m inum) inum m m'.
Proof.
  intros Hc Hi. unfold object_event, overrun, event_of. destruct (loaded_by m inum) as [t|] eqn:El.
  - unfold loaded_by in El. destruct (Z.ltb_spec inum CtrDrvrCOUNTERS) as [Hlt|]; [|done]. cbn [andb] in El.
    assert (0 <= inum < CtrDrvrCOUNTERS) as Hi' by lia.
    assert (plain (LockConfig_w inum)) as P0 by (unfold LockConfig_w; rewrite <- (Z.add_0_r (counter_at inum)); by apply counter_plain).
    assert (plain (History_w inum)) as P3 by (by apply counter_plain).
    rewrite IHRd_plain by done. unfold word_of in El. destruct (cd_word (LockConfig_w inum) (ms_card m) =? 0); [|done]. cbn [andb] in El.
    rewrite IHRd_plain by (done || by apply silent_calm). change (silent (silent m)) with (silent m). change (ms_card (silent m)) with (ms_card m). change (ms_con (silent m)) with (ms_con m).
    destruct (cd_word (History_w inum) (ms_card m) <? CtrDrvrRamTableSIZE); [|done]. cbn [andb] in El.
    destruct (truthy (Clients (ms_con m) _)) eqn:Et; [|done]. injection El as <-.
    set (t := cd_word (History_w inum) (ms_card m)) in *.
    pose proof (history_event_calm inum t (silent m) (silent_calm m Hc) Hi') as Hh. destruct (history_event inum t (silent m)) as [rb m'].
    cbv zeta in Hh. destruct Hh as [-> A]. cbn beta iota zeta.
    split; [split; [done|split; [unfold truthy in Et; by apply negb_true_iff, Z.eqb_neq in Et|done]]|]. destruct A as [C E W O]. by split.
  - assert (after false inum m (silent m)) as A by (by apply after_silent).
    unfold loaded_by in El. destruct (Z.ltb_spec inum CtrDrvrCOUNTERS) as [Hlt|]; [|split; [done|]; by split].
    assert (0 <= inum < CtrDrvrCOUNTERS) as Hi' by lia. cbn [andb] in El.
    assert (plain (LockConfig_w inum)) as P0 by (unfold LockConfig_w; rewrite <- (Z.add_0_r (counter_at inum)); by apply counter_plain).
    assert (plain (History_w inum)) as P3 by (by apply counter_plain).
    rewrite IHRd_plain by done. unfold word_of in El. destruct (cd_word (LockConfig_w inum) (ms_card m) =? 0); [|split; [done|exact A]]. cbn [andb] in El.
    rewrite IHRd_plain by (done || by apply silent_calm). change (silent (silent m)) with (silent m). change (ms_card (silent m)) with (ms_card m). change (ms_con (silent m)) with (ms_con m).
    destruct (cd_word (History_w inum) (ms_card m) <? CtrDrvrRamTableSIZE); [|split; [done|exact A]]. cbn [andb] in El.
    destruct (truthy (Clients (ms_con m) _)) eqn:Et; [done|]. split; [done|exact A].
Qed.

Lemma hard_event_calm inum m : calm m -> 0 <= inum < CtrDrvrInterruptSOURCES -> loaded_by m inum = None ->
  let '(rb, m') := hard_event inum m in set_rb_InterruptNumber inum rb = event_of m inum /\ after false inum m m'.
Proof.
  intros Hc Hi El. unfold hard_event, event_of. rewrite El. destruct (Z.ltb_spec inum CtrDrvrCOUNTERS) as [Hlt|].
  - rewrite read_ctime_plain; [|done|unfold History_w; rewrite <- ?Z.add_assoc; apply counter_plain; lia..].
    split; [done|by apply after_silent].
  - destruct (GetTime_calm m Hc) as (c & -> & Hf & Hw). split; [done|]. destruct Hc as [C1 C2 C3]. split; [|done|by intros w Hne _; apply Hw|done].
    split; [done| |done]. intros w. cbn. by rewrite Hf.
Qed.

(** Modules that agree on what source [inum] needs. *)
Definition same_tables (c c' : CtrDrvrModuleContext) : Prop :=
  mc_ModuleIndex c' = mc_ModuleIndex c /\ mc_EqpClass c' = mc_EqpClass c /\ mc_EqpNum c' = mc_EqpNum c /\ mc_Trigs c' = mc_Trigs c /\
  mc_Clients c' = mc_Clients c /\ mc_HardClients c' = mc_HardClients c.

Lemma same_view inum m m' : 0 <= inum -> same_tables (ms_con m) (ms_con m') ->
  (forall w, w <> Command_w -> w <> InterruptSource -> (forall j, 0 <= j < inum -> w <> LockHistory_w j) -> w <> LockHistory_w inum ->
    cd_word w (ms_card m') = cd_word w (ms_card m)) ->
  loaded_by m' inum = loaded_by m inum /\ clients_of m' inum = clients_of m inum /\ event_of m' inum = event_of m inum.
Proof.
  intros Hi (E1 & E2 & E3 & E4 & E5 & E6) Hw.
  assert (forall k, 0 <= k < 16 -> k <> 1 -> word_of m' (counter_at inum + k) = word_of m (counter_at inum + k)) as Hk.
  { intros k Hk Hk1. apply Hw; unfold LockHistory_w, counter_at, Counters_w, Command_w, InterruptSource; [lia..|]. lia. }
  assert (forall k, 0 <= k < 3 -> word_of m' (ReadTime_w + k) = word_of m (ReadTime_w + k)) as Ht.
  { intros k Hk0. apply Hw; unfold LockHistory_w, counter_at, Counters_w, Command_w, InterruptSource, ReadTime_w; [lia..|]. lia. }
  assert (word_of m' (LockConfig_w inum) = word_of m (LockConfig_w inum)) as H0 by (unfold LockConfig_w; rewrite <- (Z.add_0_r (counter_at inum)); by apply Hk).
  assert (forall k, 0 <= k < 13 -> word_of m' (History_w inum + k) = word_of m (History_w inum + k)) as Hh
    by (intros k Hk0; unfold History_w; rewrite <- Z.add_assoc; apply Hk; lia).
  assert (word_of m' (History_w inum) = word_of m (History_w inum)) as Hh0 by (rewrite <- (Z.add_0_r (History_w inum)); by apply Hh).
  assert (word_of m' ReadTime_w = word_of m ReadTime_w) as Ht0 by (rewrite <- (Z.add_0_r ReadTime_w); by apply Ht).
  assert (forall k, 0 <= k < 11 -> ctime_of m' (History_w inum + k) = ctime_of m (History_w inum + k)) as Hc
    by (intros k Hk0; unfold ctime_of; rewrite <- !Z.add_assoc, !Hh by lia; done).
  assert (ctime_of m' ReadTime_w = ctime_of m ReadTime_w) as Hct by (unfold ctime_of; by rewrite Ht0, !Ht by lia).
  assert (loaded_by m' inum = loaded_by m inum) as El by (unfold loaded_by, Clients; by rewrite H0, Hh0, E5).
  split; [done|]. unfold clients_of, event_of, Clients, HardClients, EqpClass, EqpNum, Trigs. rewrite El, E1, E2, E3, E4, E5, E6, Hct. split; [done|].
  by rewrite !Hc, Hh by lia.
Qed.

Lemma source_event_calm inum m : calm m -> 0 <= inum < CtrDrvrInterruptSOURCES ->
  let '(cl, rb, m') := source_event inum m in
  cl = clients_of m inum /\ (cl <> 0 -> rb = event_of m inum) /\ after (overrun m inum) inum m m'.
Proof.
  intros Hc Hi. unfold source_event. pose proof (object_event_calm inum m Hc Hi) as Ho. destruct (object_event inum m) as [[cl rb] m1].
  destruct Ho as [Ho A]. unfold clients_of. destruct (loaded_by m inum) as [t|] eqn:El.
  - destruct Ho as (-> & Hne & Er). rewrite (proj2 (Z.eqb_neq _ _) Hne). pose proof (af_con _ _ _ _ A) as Ec.
    assert (HardClients (ms_con m1) inum = HardClients (ms_con m) inum) as -> by (rewrite Ec; by destruct (overrun m inum)). by split_and!.
  - destruct Ho as [-> ->]. rewrite Z.eqb_refl. unfold overrun in A |- *. rewrite El in A |- *. pose proof (af_con _ _ _ _ A) as Ec. rewrite Ec.
    destruct (truthy (HardClients (ms_con m) inum)) eqn:Eh.
    + assert (loaded_by m1 inum = loaded_by m inum /\ event_of m1 inum = event_of m inum) as [L1 V1].
      { destruct (same_view inum m m1) as (L & _ & V); [lia|by rewrite Ec| |done]. intros w H _ _. by apply (af_word _ _ _ _ A). }
      pose proof (hard_event_calm inum m1 (af_calm _ _ _ _ A) Hi ltac:(by rewrite L1)) as Hh. destruct (hard_event inum m1) as [r m2]. destruct Hh as [Er A2].
      rewrite (af_con _ _ _ _ A2), Ec. split; [apply Z.bits_inj'; intros k _; rewrite !Z.lor_spec, Z.bits_0; by destruct (Z.testbit _ _)|].
      split; [by rewrite Er|exact (after_trans _ _ _ _ _ A A2)].
    + rewrite Ec. split; [apply Z.bits_inj'; intros k _; rewrite !Z.lor_spec, Z.bits_0; by destruct (Z.testbit _ _)|].
      split; [|exact A]. intros Hcl. exfalso. apply Hcl. unfold truthy in Eh. apply negb_false_iff, Z.eqb_eq in Eh. by rewrite Eh.
Qed.

(** ** All sources *)

(** The sources below [k] have been handled. *)
Record tracks (k : Z) (m0 m : mst) : Prop := {
  tr_calm : calm m;
  tr_con : ms_con m = if existsb (fun j => raised m0 j && overrun m0 j) (seqZ 0 k) then lose (ms_con m0) else ms_con m0;
  tr_word : forall w, w <> Command_w -> w <> InterruptSource -> (forall j, 0 <= j < k -> w <> LockHistory_w j) ->
    cd_word w (ms_card m) = cd_word w (ms_card m0);
  tr_src : cd_word InterruptSource (ms_card m) = 0;
  tr_oops : g_oops (ms_glob m) = g_oops (ms_glob m0);
}.

Lemma lose_tables (b : bool) c : same_tables c (if b then lose c else c).
Proof. by destruct b. Qed.

Lemma lose_lose c : lose (lose c) = lose c.
Proof. destruct c. unfold lose, set_mc_Status. simpl. rewrite <- Z.land_assoc, Z.land_diag. reflexivity. Qed.

Lemma seqZ_snoc k : 0 <= k -> seqZ 0 (k + 1) = seqZ 0 k ++ [k].
Proof. intros H. rewrite (seqZ_app 0 k 1) by lia. by rewrite Z.add_0_l. Qed.

Lemma tracks_next k m0 m m' : 0 <= k -> tracks k m0 m -> raised m0 k = true ->
  after (overrun m k) k m m' -> loaded_by m k = loaded_by m0 k -> tracks (k + 1) m0 m'.
Proof.
  intros Hk [C E W S O] Hr [C' E' W' O'] El.
  assert (overrun m k = overrun m0 k) as Eo.
  { unfold overrun. rewrite El. destruct (loaded_by m0 k); [|done]. f_equal. apply W; unfold LockHistory_w, counter_at, Counters_w, Command_w, InterruptSource; lia. }
  split; [done| | |rewrite W'; [done|by vm_compute|unfold LockHistory_w, counter_at, Counters_w, InterruptSource; lia]|by rewrite O'].
  - rewrite seqZ_snoc, existsb_app by done. cbn [existsb]. rewrite Hr, E', E, Eo, orb_false_r. cbn [andb].
    destruct (existsb _ _), (overrun m0 k); cbn [orb]; by rewrite ?lose_lose.
  - intros w H1 H2 H3. rewrite W'; [|done|apply H3; lia]. apply W; [done..|]. intros j Hj. apply H3. lia.
Qed.

Lemma tracks_skip k m0 m : 0 <= k -> tracks k m0 m -> raised m0 k = false -> tracks (k + 1) m0 m.
Proof.
  intros Hk [C E W S O] Hr. split; [done| | |done..].
  - rewrite seqZ_snoc, existsb_app by done. cbn [existsb]. by rewrite Hr, !orb_false_r.
  - intros w H1 H2 H3. apply W; [done..|]. intros j Hj. apply H3. lia.
Qed.

(** The events of the sources below [k] for client [i]. *)
Definition events_below (m : mst) (k : Z) (i : nat) : list CtrDrvrReadBuf :=
  event_of m <$> filter (fun k => raised m k && Z.testbit (clients_of m k) (Z.of_nat i) = true) (seqZ 0 k).

Lemma events_below_next m k i : 0 <= k ->
  events_below m (k + 1) i = events_below m k i ++ if raised m k && Z.testbit (clients_of m k) (Z.of_nat i) then [event_of m k] else [].
Proof.
  intros Hk. unfold events_below. rewrite seqZ_snoc, filter_app, fmap_app by done. f_equal. rewrite filter_cons. case_decide as H.
  - by rewrite H.
  - apply not_true_is_false in H. by rewrite H.
Qed.

Definition delivered (m : mst) (k : Z) (l : list CtrDrvrClientContext) : list CtrDrvrClientContext :=
  imap (fun i c => queue_events (events_below m k i) c) l.

Lemma delivered_zero m l : delivered m 0 l = l.
Proof. unfold delivered. apply list_eq. intros i. rewrite list_lookup_imap. by destruct (l !! i). Qed.

Lemma delivered_skip m k l : 0 <= k -> raised m k = false -> delivered m (k + 1) l = delivered m k l.
Proof. intros Hk Hr. unfold delivered. apply list_eq. intros i. rewrite !list_lookup_imap. destruct (l !! i); [|done]. cbn. rewrite events_below_next, Hr by done. by rewrite app_nil_r. Qed.

Lemma delivered_next m k l : 0 <= k -> raised m k = true ->
  deliver (clients_of m k) (event_of m k) (delivered m k l) = delivered m (k + 1) l.
Proof.
  intros Hk Hr. unfold delivered, deliver. apply list_eq. intros i. rewrite !list_lookup_imap. destruct (l !! i) as [c|]; [|done]. cbn.
  rewrite events_below_next, Hr by done. cbn [andb]. unfold queue_events. rewrite foldl_app. by destruct (Z.testbit _ _).
Qed.

Lemma deliver_none rb l : deliver 0 rb l = l.
Proof. unfold deliver. apply list_eq. intros i. rewrite list_lookup_imap. destruct (l !! i); [|done]. cbn. by rewrite Z.bits_0. Qed.

Lemma sources_handled m0 m l0 : tracks 0 m0 m ->
  let '(m', l) := for_range CtrDrvrInterruptSOURCES (fun inum '(m, l) =>
    if raised m0 inum then let '(clients, rbf, m) := source_event inum m in (m, deliver clients rbf l) else (m, l)) (m, l0) in
  tracks CtrDrvrInterruptSOURCES m0 m' /\ l = delivered m0 CtrDrvrInterruptSOURCES l0.
Proof.
  intros H0. apply (for_range_ind (fun k '(m', l) => tracks k m0 m' /\ l = delivered m0 k l0)); [done|split; [done|by rewrite delivered_zero]|].
  intros k [m' l] Hk [T ->]. destruct (raised m0 k) eqn:Hr; [|split; [apply tracks_skip; by (done || lia)|by rewrite delivered_skip by (done || lia)]].
  pose proof (source_event_calm k m' (tr_calm _ _ _ T) Hk) as Hs. destruct (source_event k m') as [[cl rb] m'']. destruct Hs as (-> & Hrb & A).
  destruct (same_view k m0 m') as (L & V & Ev); [lia|rewrite (tr_con _ _ _ T); apply lose_tables|intros w H1 H2 H3 _; by apply (tr_word _ _ _ T)|].
  rewrite V, Ev in Hrb. rewrite V. split; [apply (tracks_next k m0 m' m''); by (done || lia)|].
  rewrite <- delivered_next by (done || lia). destruct (Z.eq_dec (clients_of m0 k) 0) as [E|Hne]; [rewrite E; by rewrite !deliver_none|]. by rewrite Hrb.
Qed.

(** C9: an interrupt of a module whose registers answer puts on the queue of each
    client, in the order of the sources, one event for each raised source whose
    trigger or hardware line it is connected to, with what the history of the
    counter says, and loses the oldest events beyond 64; a history that was
    written twice is remembered in the status; the source is cleared, and nothing
    else changes but the histories' locks and the command word. *)
Theorem ctr_interrupt_delivers (mi : Z) (s : ctr) :
  let m := get_mst mi s in
  calm m -> 0 <= mi < Z.of_nat (length (w_cons s)) -> length (w_cards s) = length (w_cons s) ->
  let '(handled, s') := IntrHandler mi s in
  handled = truthy (word_of m InterruptSource) /\
  (forall i c, w_clients s !! i = Some c -> ring_ok (cc_Queue c) -> exists c', w_clients s' !! i = Some c' /\
     c' = queue_events (client_events m i) c /\ queue_list (cc_Queue c') = newest (queue_list (cc_Queue c) ++ client_events m i)) /\
  con_at mi s' = (if existsb (fun j => raised m j && overrun m j) (seqZ 0 CtrDrvrInterruptSOURCES) then lose (con_at mi s) else con_at mi s) /\
  word_of (get_mst mi s') InterruptSource = 0 /\
  (forall w, w <> Command_w -> w <> InterruptSource -> (forall j, 0 <= j < CtrDrvrInterruptSOURCES -> w <> LockHistory_w j) ->
     word_of (get_mst mi s') w = word_of m w) /\
  (forall mj, 0 <= mj -> mj <> mi -> con_at mj s' = con_at mj s) /\
  w_Ctim s' = w_Ctim s /\ w_Ptim s' = w_Ptim s /\ w_Modules s' = w_Modules s.
Proof.
  intros m Hc Hmi Hl. unfold IntrHandler. fold m. rewrite IHRd_calm by done. change (clear_on_read InterruptSource) with true. cbv iota.
  set (m1 := with_card _ _). change (isr_bus_error (ms_glob m1)) with 0. change (truthy 0) with false. cbv iota.
  assert (tracks 0 m m1) as T0.
  { split; [destruct Hc; by split|done| |unfold m1; cbn [ms_card with_card]; by rewrite cd_word_put|done].
    intros w _ Hw _. unfold m1. cbn [ms_card with_card]. rewrite cd_word_put. by rewrite decide_False. }
  pose proof (sources_handled m m1 (w_clients s) T0) as Hs. unfold raised, word_of in Hs. destruct (for_range _ _ (m1, w_clients s)) as [m2 l].
  destruct Hs as [[C E W S O] ->]. split; [done|]. assert (Z.to_nat mi < length (w_cons s))%nat by lia.
  assert (get_mst mi (set_w_clients (delivered m CtrDrvrInterruptSOURCES (w_clients s)) (put_mst mi m2 s)) = m2) as Eg.
  { unfold get_mst, con_at, put_mst, set_w_clients. cbn [w_cons w_cards w_glob]. rewrite !nth_lookup, !list_lookup_insert_eq by lia. by destruct m2. }
  rewrite Eg. split; [|split; [|split; [exact S|split; [exact W|split; [|done]]]]].
  - intros i c Hi Hq. exists (queue_events (client_events m i) c). split; [|split; [done|by apply queue_events_refine]].
    cbn [w_clients set_w_clients]. unfold delivered. by rewrite list_lookup_imap, Hi.
  - change (con_at mi ?x) with (ms_con (get_mst mi x)). rewrite Eg. exact E.
  - intros mj Hj Hne. unfold con_at. cbn [w_cons set_w_clients put_mst]. rewrite !nth_lookup. rewrite list_lookup_insert_ne by lia. done.
Qed.
