(* ===== verification/CtrInv.v ===== *)
(** * The timing receiver: connections in every reachable state

    Whatever is opened, closed, connected, disconnected, created, configured or
    interrupted, the masks of a module name clients that are open, and the
    hardware has the bus interrupt of each connected slot on. *)

From stdpp Require Import gmap.
From S2P Require Import Prelude CdcmSem CtrHw CtrMod CtrHptdc Ctr CtrIoctl CtrIsr.

(** ** Slots and lines *)

Definition is_slot (i : Z) : Prop := 0 <= i < CtrDrvrRamTableSIZE.
Definition is_line (j : Z) : Prop := 0 <= j < CtrDrvrInterruptSOURCES.

(** The hardware configuration of a slot has the bus interrupt on. *)
Definition bus_on (c : card) (i : Z) : Prop := Z.testbit (cd_word (conf_at i) c) 30 = true.

(** Every client of a mask is live. *)
Definition all_live (live : Z -> Prop) (mask : Z) : Prop := forall k, 0 <= k -> Z.testbit mask k = true -> live k.

Record slot_ok (live : Z -> Prop) (c : CtrDrvrModuleContext) (cd : card) (i : Z) : Prop := {
  so_free : EqpNum c i = 0 -> EqpClass c i = CtrDrvrConnectionClassHARD /\ Clients c i = 0;
  so_class : EqpNum c i <> 0 -> EqpClass c i = CtrDrvrConnectionClassCTIM \/ EqpClass c i = CtrDrvrConnectionClassPTIM;
  so_bus : Clients c i <> 0 -> bus_on cd i;
  so_live : all_live live (Clients c i);
}.

(** A module without registers has no clients. *)
Definition unmapped_free (c : CtrDrvrModuleContext) : Prop :=
  mc_Map c = 0 -> (forall i, is_slot i -> Clients c i = 0) /\ (forall j, is_line j -> HardClients c j = 0).

Record tables_ok (live : Z -> Prop) (m : mst) : Prop := {
  to_slot : forall i, is_slot i -> slot_ok live (ms_con m) (ms_card m) i;
  to_hard : forall j, is_line j -> all_live live (HardClients (ms_con m) j);
  to_map : unmapped_free (ms_con m);
  to_pll : length (mc_Pll (ms_con m)) = 8%nat;
}.

Definition failed (m : mst) : Prop := g_oops (ms_glob m) = true.
Definition fine (live : Z -> Prop) (m : mst) : Prop := failed m \/ tables_ok live m.

(** ** Steps that leave the tables alone *)

Definition same_maps (c c' : CtrDrvrModuleContext) : Prop :=
  mc_EqpNum c' = mc_EqpNum c /\ mc_EqpClass c' = mc_EqpClass c /\ mc_Clients c' = mc_Clients c /\ mc_HardClients c' = mc_HardClients c /\ mc_Map c' = mc_Map c /\
  length (mc_Pll c') = length (mc_Pll c).

Record keeps (m m' : mst) : Prop := {
  kp_failed : failed m -> failed m';
  kp_maps : same_maps (ms_con m) (ms_con m');
  kp_word : forall i, is_slot i -> cd_word (conf_at i) (ms_card m') = cd_word (conf_at i) (ms_card m);
}.

#[export] Instance keeps_preorder : PreOrder keeps.
Proof.
  split.
  - intros m. by split.
  - intros m1 m2 m3 [F1 (A1 & A2 & A3 & A4 & A5 & A6) W1] [F2 (B1 & B2 & B3 & B4 & B5 & B6) W2]. split; [auto| |intros i Hi; by rewrite W2, W1].
    split_and!; congruence.
Qed.

Lemma keeps_fine live m m' : keeps m m' -> fine live m -> fine live m'.
Proof.
  intros [F (E1 & E2 & E3 & E4 & E5 & E6) W] [H|[Hs Hh Hm Hp]]; [left; by apply F|right].
  assert (forall i, EqpNum (ms_con m') i = EqpNum (ms_con m) i) as N by (intros i; unfold EqpNum; by rewrite E1).
  assert (forall i, EqpClass (ms_con m') i = EqpClass (ms_con m) i) as K by (intros i; unfold EqpClass; by rewrite E2).
  assert (forall i, Clients (ms_con m') i = Clients (ms_con m) i) as C by (intros i; unfold Clients; by rewrite E3).
  assert (forall i, HardClients (ms_con m') i = HardClients (ms_con m) i) as H by (intros i; unfold HardClients; by rewrite E4).
  split.
  - intros i Hi. destruct (Hs i Hi) as [S1 S2 S3 S4]. split; rewrite ?N, ?K, ?C; try done. unfold bus_on. by rewrite W.
  - intros j Hj. rewrite H. by apply Hh.
  - intros Hm0. rewrite E5 in Hm0. destruct (Hm Hm0) as [M1 M2]. split; intros i Hi; rewrite ?C, ?H; auto.
  - by rewrite E6.
Qed.

(** A word that configures no slot. *)
Definition off_conf (w : Z) : Prop := forall i, is_slot i -> w <> conf_at i.

Lemma off_conf_low w : w < Configs_w -> off_conf w.
Proof. intros Hw i Hi. unfold is_slot, conf_at, Configs_w in *. lia. Qed.
Lemma off_conf_high w : EventHistory_w <= w -> off_conf w.
Proof. intros Hw i Hi. unfold is_slot, conf_at, Configs_w, EventHistory_w, CtrDrvrRamTableSIZE in *. lia. Qed.
Lemma off_conf_delay i : off_conf (conf_at i + 1).
Proof. intros j Hj. unfold conf_at. lia. Qed.

Lemma put_word_off w v c i : off_conf w -> is_slot i -> cd_word (conf_at i) (put_word w v c) = cd_word (conf_at i) c.
Proof. intros Hw Hi. rewrite cd_word_put. rewrite decide_False; [done|]. intros E. by apply (Hw i). Qed.

Lemma check_failed rd g : g_oops g = true -> g_oops (check_bus_error rd g) = true.
Proof. unfold check_bus_error. by case_match. Qed.

Lemma clears_off w : clear_on_read w = true -> off_conf w.
Proof.
  unfold clear_on_read. intros [E|E]%orb_true_iff.
  - apply Z.eqb_eq in E. subst. by apply off_conf_low.
  - apply existsb_exists in E as (j & Hj & E). apply list_elem_of_In, elem_of_seqZ in Hj. apply Z.eqb_eq in E. subst. apply off_conf_low.
    unfold LockHistory_w, counter_at, Counters_w, Configs_w, CtrDrvrCOUNTERS in *. lia.
Qed.

Lemma read_keeps w m : keeps m (ioread32be w m).2.
Proof.
  unfold ioread32be. destruct (_ || _); [by split|]. unfold card_read.
  assert (keeps m (with_card (if clear_on_read w then put_word w 0 (ms_card m) else ms_card m) m)) as H.
  { split; [done|done|]. intros i Hi. cbn. destruct (clear_on_read w) eqn:E; [|done]. apply put_word_off; [by apply clears_off|done]. }
  destruct (w =? HptdcJtag); cbn [snd]; (destruct (cd_fault _ w); [|first [exact H|by destruct m]]).
  - by split.
  - transitivity (with_card (if clear_on_read w then put_word w 0 (ms_card m) else ms_card m) m); [exact H|by split].
Qed.

Lemma write_keeps v w m : off_conf w -> keeps m (iowrite32be v w m).
Proof.
  intros Hw. unfold iowrite32be. destruct (_ || _); [by split|].
  assert (keeps m (with_card (card_write v w (ms_card m)) m)) as H.
  { split; [done|done|]. intros i Hi. cbn. unfold card_write. destruct (w =? HptdcJtag); [done|]. by apply put_word_off. }
  destruct (cd_fault _ w); [|exact H]. transitivity (with_card (card_write v w (ms_card m)) m); [exact H|by split].
Qed.

Lemma glob_keeps f m : (forall g, g_oops g = true -> g_oops (f g) = true) -> keeps m (on_glob f m).
Proof. intros Hf. split; [apply Hf|done|done]. Qed.

Lemma HRd_keeps w m : keeps m (HRd w m).2.
Proof. unfold HRd. pose proof (read_keeps w m) as H. destruct (ioread32be w m) as [v m']. cbn in *. etransitivity; [exact H|]. apply glob_keeps, check_failed. Qed.

Lemma IHRd_keeps w m : keeps m (IHRd w m).2.
Proof.
  unfold IHRd. pose proof (read_keeps w (on_glob (set_isr_bus_error 0) m)) as H. destruct (ioread32be w _) as [v m']. cbn in *.
  etransitivity; [|etransitivity; [exact H|]]; apply glob_keeps; [done|]. intros g Hg. by case_match.
Qed.

Lemma HWr_keeps v w m : off_conf w -> keeps m (HWr v w m).
Proof. intros Hw. unfold HWr. etransitivity; [by apply write_keeps|]. apply glob_keeps, check_failed. Qed.

Lemma con_keeps f m : same_maps (ms_con m) (f (ms_con m)) -> keeps m (on_con f m).
Proof. intros H. by split. Qed.

Lemma clr_keeps m : keeps m (GetClrBusErrCnt m).2.
Proof. by apply glob_keeps. Qed.

Lemma Io32Read_keeps n : forall w m, keeps m (Io32Read n w m).2.
Proof.
  induction n as [|n IH]; intros w m; [done|]. cbn [Io32Read]. pose proof (HRd_keeps w m) as H. destruct (HRd w m) as [v m1].
  pose proof (IH (w + 1) m1) as H'. destruct (Io32Read n (w + 1) m1) as [l m2]. cbn in *. by transitivity m1.
Qed.

Lemma Io32Write_keeps src : forall w m, (forall k, 0 <= k < Z.of_nat (length src) -> off_conf (w + k)) -> keeps m (Io32Write w src m).
Proof.
  induction src as [|v src IH]; intros w m Hw; [done|]. cbn [Io32Write]. transitivity (HWr v w m).
  - apply HWr_keeps. rewrite <- (Z.add_0_r w). apply Hw. cbn. lia.
  - apply IH. intros k Hk. rewrite <- Z.add_assoc. apply Hw. cbn. lia.
Qed.

(** One access after another, up to the state before them. *)
Ltac off := first [done | apply off_conf_low; unfold Configs_w; (lia || (vm_compute; done)) | apply off_conf_high; unfold EventHistory_w; (lia || (vm_compute; done)) | apply off_conf_delay].

Ltac keep_read :=
  match goal with
  | |- context [HRd ?w ?m] => let H := fresh "K" in pose proof (HRd_keeps w m) as H; destruct (HRd w m) as [? ?]; cbn [snd] in H
  | |- context [IHRd ?w ?m] => let H := fresh "K" in pose proof (IHRd_keeps w m) as H; destruct (IHRd w m) as [? ?]; cbn [snd] in H
  | |- context [ioread32be ?w ?m] => let H := fresh "K" in pose proof (read_keeps w m) as H; destruct (ioread32be w m) as [? ?]; cbn [snd] in H
  end.

Ltac keep_step :=
  match goal with
  | |- keeps ?m ?m => reflexivity
  | H : keeps ?x ?b |- keeps ?a ?b => transitivity x; [clear H|exact H]
  | |- keeps ?a (HWr ?v ?w ?b) => transitivity b; [|apply HWr_keeps; off]
  | |- keeps ?a (on_con ?f ?b) => transitivity b; [|apply con_keeps; by split_and!]
  | |- keeps ?a (with_card ?c ?b) => fail 1
  | |- keeps ?a (if ?c then _ else _) => destruct c
  | |- keeps ?a (let '(_, _) := _ in _) => keep_read
  | |- keeps ?a (let '(_, _) := _ in _).2 => keep_read
  | |- keeps ?a ((if ?c then _ else _).2) => destruct c
  end.

(** A state that is bound is named, and only the steps up to it count; the name of
    a value says nothing. *)
Lemma keeps_state a e (b : mst -> mst) : keeps a e -> (forall y, keeps a y -> keeps a (b y)) -> keeps a (let x := e in b x).
Proof. intros H1 H2. by apply H2. Qed.
Lemma keeps_value {A} a (e : A) (b : A -> mst) : (forall y, keeps a (b y)) -> keeps a (let x := e in b x).
Proof. intros H. apply H. Qed.

Ltac keep_let tac :=
  match goal with
  | |- keeps ?a (let x := ?e in @?b x) =>
      first [refine (keeps_state a e b _ _); [tac|intros ? ?; cbv beta] | refine (keeps_value a e b _); intros ?; cbv beta]
  end.

Ltac keep_core := repeat (cbn [fst snd]; keep_step).
Ltac keep := repeat first [keep_let keep_core | progress (cbn [fst snd]) | keep_step].

Lemma GetVersion_keeps m : keeps m (GetVersion m).2.
Proof. unfold GetVersion. keep. Qed.

Lemma EnableInterrupts_keeps msk m : keeps m (EnableInterrupts msk m).
Proof. unfold EnableInterrupts. keep. Qed.

Lemma PingModule_keeps m : keeps m (PingModule m).
Proof. unfold PingModule. keep. etransitivity; [|apply HRd_keeps]. apply HRd_keeps. Qed.

Lemma transfer_keeps tdi tms m : keeps m (HptdcBitTransfer tdi tms m).2.
Proof. unfold HptdcBitTransfer. keep. Qed.

Lemma tms_step_keeps tms m : keeps m (tms_step tms m).
Proof. apply transfer_keeps. Qed.

Lemma state_reset_keeps m : keeps m (HptdcStateReset m).
Proof. unfold HptdcStateReset. cbv zeta. etransitivity; [|apply transfer_keeps]. keep. Qed.

Lemma shift_bits_keeps n : forall i bits val pflg parity rval m, keeps m (shift_bits n i bits val pflg parity rval m).2.
Proof.
  induction n as [|n IH]; intros i bits val pflg parity rval m; [done|]. cbn [shift_bits]. cbv zeta.
  match goal with |- context [HptdcBitTransfer ?d ?t m] => pose proof (transfer_keeps d t m) as H; destruct (HptdcBitTransfer d t m) as [b m1] end.
  cbn [snd] in H. transitivity m1; [exact H|apply IH].
Qed.

Lemma parity_bit_keeps p m : keeps m (parity_bit p m).
Proof. apply transfer_keeps. Qed.

Lemma shift_registers_keeps l : forall pflg parity m, keeps m (shift_registers l pflg parity m).2.
Proof.
  induction l as [|r l IH]; intros pflg parity m; [done|]. cbn [shift_registers]. cbv zeta.
  match goal with |- context [shift_bits ?a ?b ?c ?d ?e ?f ?g m] => pose proof (shift_bits_keeps a b c d e f g m) as H; destruct (shift_bits a b c d e f g m) as [[p r'] m1] end.
  cbn [snd] in H. pose proof (IH pflg p m1) as H'. destruct (shift_registers l pflg p m1) as [[p' l'] m2]. cbn [snd] in *. by transitivity m1.
Qed.

Lemma HptdcCommand_keeps cmd wreg pflg rflg m : keeps m (HptdcCommand cmd wreg pflg rflg m).2.
Proof.
  unfold HptdcCommand. cbv zeta. set (m1 := if rflg then _ else _).
  assert (keeps m m1) as K1 by (unfold m1; destruct rflg; [etransitivity; [|apply state_reset_keeps]|]; apply PingModule_keeps).
  clearbody m1. match goal with |- context [shift_bits ?a ?b ?c ?d ?e ?f ?g ?x] => set (m2 := x); pose proof (shift_bits_keeps a b c d e f g m2) as H; destruct (shift_bits a b c d e f g m2) as [[p r'] m3] end.
  assert (keeps m1 m2) as K2 by (unfold m2; repeat (etransitivity; [|apply tms_step_keeps]); reflexivity). clearbody m2. cbn [snd] in H.
  match goal with |- context [shift_registers ?a ?b ?c ?x] => set (m4 := x); pose proof (shift_registers_keeps a b c m4) as H'; destruct (shift_registers a b c m4) as [[p' l'] m5] end.
  assert (keeps m3 m4) as K3 by (unfold m4; do 4 (etransitivity; [|apply tms_step_keeps]); apply parity_bit_keeps). clearbody m4. cbn [snd] in *.
  transitivity m1; [done|]. transitivity m2; [done|]. transitivity m3; [done|]. transitivity m4; [done|]. transitivity m5; [done|].
  do 2 (etransitivity; [|apply tms_step_keeps]). destruct pflg; [apply parity_bit_keeps|done].
Qed.

Lemma Io32Write_low l w m : w + Z.of_nat (length l) <= Configs_w -> keeps m (Io32Write w l m).
Proof. intros H. apply Io32Write_keeps. intros k Hk. apply off_conf_low. lia. Qed.

Lemma RemOutMask_low i : i < 16 -> RemOutMask_w i < Configs_w.
Proof. unfold RemOutMask_w, counter_at, Counters_w, Configs_w. lia. Qed.

Lemma keeps_pll m m' : keeps m m' -> length (mc_Pll (ms_con m')) = length (mc_Pll (ms_con m)).
Proof. by intros [_ (_ & _ & _ & _ & _ & H) _]. Qed.

Lemma fold_keeps {A} (f : mst -> A -> mst) (l : list A) : (forall m x, x ∈ l -> keeps m (f m x)) -> forall m, keeps m (foldl f m l).
Proof.
  intros Hf. induction l as [|x l IH]; intros m; [done|]. cbn [foldl]. transitivity (f m x).
  - apply Hf. left.
  - apply IH. intros m' y Hy. apply Hf. by right.
Qed.

(** The counters that drive no output get their own. *)
Lemma outputs_keeps m : keeps m (foldl (fun m i => let '(v, m) := HRd (RemOutMask_w i) m in
    if v =? 0 then HWr (AutoShiftLeft CtrDrvrCntrCntrlOUT_MASK (shl1 i)) (RemOutMask_w i) m else m) m (seqZ CtrDrvrCounter1 8)).
Proof.
  apply fold_keeps. intros m1 i Hi. apply elem_of_seqZ in Hi. unfold CtrDrvrCounter1 in Hi.
  keep_read. destruct (_ =? 0); [|done]. etransitivity; [exact K|]. apply HWr_keeps, off_conf_low, RemOutMask_low. lia.
Qed.

Lemma Reset_keeps m : length (mc_Pll (ms_con m)) = 8%nat -> keeps m (Reset m).
Proof.
  intros Hl. cbv beta delta [Reset]. do 5 keep_let keep_core.
  keep_let ltac:(etransitivity; [|apply outputs_keeps]; keep_core). do 4 keep_let keep_core.
  keep_let ltac:(match goal with |- keeps _ (if ?x then on_con _ ?b else _) => destruct x; [transitivity b; [keep_core|]|keep_core] end;
    apply con_keeps; split_and!; try done; cbn; by rewrite !length_insert).
  keep_let ltac:(idtac; match goal with K : keeps ?x ?b |- keeps ?a (Io32Write _ _ ?b) => transitivity b; [keep_core|]; apply Io32Write_low; rewrite (keeps_pll a b) by keep_core; rewrite Hl; by vm_compute end).
  keep_let ltac:(etransitivity; [|apply EnableInterrupts_keeps]; keep_core).
  etransitivity; [|apply state_reset_keeps]. keep_core.
Qed.

Lemma GetStatus_keeps m : keeps m (GetStatus m).2.
Proof.
  unfold GetStatus. pose proof (PingModule_keeps m) as K0. destruct (HRd Status_w (PingModule m)) as [st m1] eqn:E.
  assert (keeps m m1) as K1 by (transitivity (PingModule m); [done|]; pose proof (HRd_keeps Status_w (PingModule m)) as H; by rewrite E in H).
  pose proof (clr_keeps m1) as K2. destruct (GetClrBusErrCnt m1) as [n m2]. cbn [fst snd] in *. keep.
Qed.

Lemma GetTime_keeps m : keeps m (GetTime m).2.
Proof. unfold GetTime. keep. Qed.

Lemma SetTime_keeps tod m : keeps m (SetTime tod m).
Proof. unfold SetTime. keep. apply PingModule_keeps. Qed.

Lemma HardToTrigger_keeps i m : keeps m (HardToTrigger i m).2.
Proof. unfold HardToTrigger. keep. Qed.
Lemma HardToConfig_keeps w m : keeps m (HardToConfig w m).2.
Proof. unfold HardToConfig. keep. Qed.

Lemma get_action_keeps i m : keeps m (get_action i m).2.
Proof.
  unfold get_action. pose proof (HardToTrigger_keeps i m) as K1. destruct (HardToTrigger i m) as [t m1].
  pose proof (HardToConfig_keeps (conf_at i) m1) as K2. destruct (HardToConfig (conf_at i) m1) as [f m2]. cbn [snd] in *. keep.
Qed.

Lemma DisableInterrupts_keeps beyond tndx clss ci m : keeps m (DisableInterrupts beyond tndx clss ci m).
Proof. unfold DisableInterrupts. keep. Qed.

Lemma read_ctime_keeps w m : keeps m (read_ctime w m).2.
Proof. unfold read_ctime. keep. Qed.

Ltac keep_ctime :=
  match goal with |- context [read_ctime ?w ?m] => let H := fresh "K" in pose proof (read_ctime_keeps w m) as H; destruct (read_ctime w m) as [? ?]; cbn [snd] in H end.

Lemma history_event_keeps inum t m : keeps m (history_event inum t m).2.
Proof. unfold history_event. keep_read. do 3 keep_ctime. keep_read. keep. Qed.

Lemma object_event_keeps inum m : keeps m (object_event inum m).2.
Proof.
  unfold object_event. destruct (inum <? CtrDrvrCOUNTERS); [|done]. keep_read. destruct (_ =? 0); [|done]. keep_read. destruct (_ <? CtrDrvrRamTableSIZE); [|keep].
  destruct (truthy _); [|keep]. match goal with |- context [history_event ?i ?t ?m] => pose proof (history_event_keeps i t m) as K2; destruct (history_event i t m) as [? ?]; cbn [snd] in * end. keep.
Qed.

Lemma hard_event_keeps inum m : keeps m (hard_event inum m).2.
Proof.
  unfold hard_event. destruct (inum <? CtrDrvrCOUNTERS); [by keep_ctime|]. pose proof (GetTime_keeps m) as K. by destruct (GetTime m).
Qed.

Lemma source_event_keeps inum m : keeps m (source_event inum m).2.
Proof.
  unfold source_event. pose proof (object_event_keeps inum m) as K. destruct (object_event inum m) as [[cl rb] m1]. cbn [snd] in K.
  destruct (cl =? 0); [|done]. destruct (truthy _); [|done]. pose proof (hard_event_keeps inum m1) as K1. destruct (hard_event inum m1) as [r m2]. cbn [snd] in *. keep.
Qed.

Lemma command_keeps f m : keeps m (command f m).
Proof. unfold command. keep. Qed.

Lemma enable_keeps lav m : keeps m (enable_ioctl lav m).
Proof. unfold enable_ioctl. repeat (case_match; [apply command_keeps|]). apply command_keeps. Qed.

Lemma jtag_keeps m : keeps m (HRdJtag m).2 /\ forall v, keeps m (HWrJtag v m).
Proof.
  split; [|intros v]; unfold HRdJtag, HWrJtag, jtag_error; (destruct (_ =? 0); [by split|]); cbn [snd]; (destruct (cd_jfault _); by split).
Qed.

Lemma RawIo_keeps flag uary : forall j m, (flag = true -> forall k, 0 <= k < Z.of_nat (length uary) -> off_conf (s32 (j + k))) -> keeps m (RawIo_loop flag j uary m).2.
Proof.
  induction uary as [|x l IH]; intros j m Hj; [done|]. cbn [RawIo_loop].
  assert (keeps m (if flag then (x, HWr x (s32 j) m) else HRd (s32 j) m).2) as K.
  { destruct flag; [|apply HRd_keeps]. apply HWr_keeps. rewrite <- (Z.add_0_r j). apply Hj; [done|]. cbn. lia. }
  destruct (if flag then _ else _) as [y m1]. cbn [snd] in K. pose proof (clr_keeps m1) as K1. destruct (GetClrBusErrCnt m1) as [n m2]. cbn [snd] in K1.
  destruct (truthy n); [by transitivity m1|]. assert (keeps m2 (RawIo_loop flag (j + 1) l m2).2) as K2.
  { apply IH. intros Hf k Hk. rewrite <- Z.add_assoc. apply Hj; [done|]. cbn. lia. }
  destruct (RawIo_loop flag (j + 1) l m2) as [o m3]. cbn [snd] in *. transitivity m1; [done|]. by transitivity m2.
Qed.

(** ** Steps on one slot *)

Record only (i : Z) (m m' : mst) : Prop := {
  on_failed : failed m -> failed m';
  on_maps : forall j, j <> i -> EqpNum (ms_con m') j = EqpNum (ms_con m) j /\ EqpClass (ms_con m') j = EqpClass (ms_con m) j /\ Clients (ms_con m') j = Clients (ms_con m) j;
  on_rest : mc_HardClients (ms_con m') = mc_HardClients (ms_con m) /\ mc_Map (ms_con m') = mc_Map (ms_con m) /\ length (mc_Pll (ms_con m')) = length (mc_Pll (ms_con m));
  on_word : forall j, is_slot j -> j <> i -> cd_word (conf_at j) (ms_card m') = cd_word (conf_at j) (ms_card m);
}.

Lemma only_trans i m1 m2 m3 : only i m1 m2 -> only i m2 m3 -> only i m1 m3.
Proof.
  intros [F1 M1 (H1 & P1 & L1) W1] [F2 M2 (H2 & P2 & L2) W2]. split; [auto| |split_and!; congruence|intros j Hj Hne; by rewrite W2, W1].
  intros j Hne. destruct (M1 j Hne) as (A & B & C). destruct (M2 j Hne) as (A' & B' & C'). split_and!; congruence.
Qed.

Lemma keeps_only i m m' : keeps m m' -> only i m m'.
Proof. intros [F (E1 & E2 & E3 & E4 & E5 & E6) W]. split; [done| |done|auto]. intros j _. unfold EqpNum, EqpClass, Clients. by rewrite E1, E2, E3. Qed.

Lemma only_fine live i m m' : only i m m' -> (mc_Map (ms_con m) = 0 -> failed m') ->
  (tables_ok live m -> mc_Map (ms_con m) <> 0 -> is_slot i -> slot_ok live (ms_con m') (ms_card m') i) -> fine live m -> fine live m'.
Proof.
  intros [F M (H & P & L) W] H0 Hi [Hf|T]; [left; by apply F|]. destruct (Z.eq_dec (mc_Map (ms_con m)) 0) as [E|E]; [left; by apply H0|right].
  pose proof T as [Ts Th Tm Tp]. split.
  - intros j Hj. destruct (Z.eq_dec j i) as [->|Hne]; [by apply Hi|]. destruct (Ts j Hj) as [S1 S2 S3 S4]. destruct (M j Hne) as (E1 & E2 & E3).
    split; rewrite ?E1, ?E2, ?E3; try done. unfold bus_on. by rewrite W.
  - intros j Hj. unfold HardClients. rewrite H. by apply Th.
  - intros Hm. congruence.
  - congruence.
Qed.

Lemma read_unmapped w m : mc_Map (ms_con m) = 0 -> failed (HRd w m).2.
Proof. intros H. unfold HRd, ioread32be. rewrite H. cbn. by apply check_failed. Qed.
Lemma write_unmapped v w m : mc_Map (ms_con m) = 0 -> failed (HWr v w m).
Proof. intros H. unfold HWr, iowrite32be. rewrite H. cbn. by apply check_failed. Qed.

Lemma HWr_con v w m : ms_con (HWr v w m) = ms_con m.
Proof. unfold HWr, iowrite32be. destruct (_ || _); [done|]. by destruct (cd_fault _ _). Qed.

Lemma HRd_con w m : ms_con (HRd w m).2 = ms_con m.
Proof. unfold HRd, ioread32be. destruct (_ || _); [done|]. destruct (card_read w (ms_card m)) as [v c]. by destruct (cd_fault _ _). Qed.

Lemma conf_in_map i : is_slot i -> 0 <= conf_at i < map_words /\ 0 <= conf_at i + 1 < map_words /\ conf_at i <> HptdcJtag /\ conf_at i + 1 <> HptdcJtag.
Proof. unfold is_slot, CtrDrvrRamTableSIZE, conf_at, Configs_w, map_words, HptdcJtag. change (0x10000 / 4) with 16384. lia. Qed.

Lemma HWr_failed v w m : failed m -> failed (HWr v w m).
Proof. intros H. unfold HWr, iowrite32be. destruct (_ || _); [by apply check_failed|]. destruct (cd_fault _ _); by apply check_failed. Qed.

Lemma HWr_card v w m : mc_Map (ms_con m) <> 0 -> 0 <= w < map_words -> w <> HptdcJtag -> ms_card (HWr v w m) = put_word w v (ms_card m).
Proof.
  intros Hm Hw Hj. unfold HWr, iowrite32be. rewrite (proj2 (Z.eqb_neq _ _) Hm), (proj2 (Z.leb_le 0 w)), (proj2 (Z.ltb_lt w map_words)) by lia. cbn [orb negb andb].
  unfold card_write. rewrite (proj2 (Z.eqb_neq _ _) Hj). by destruct (cd_fault _ _).
Qed.

Lemma HWr_only v i m : only i m (HWr v (conf_at i) m).
Proof.
  split; [apply HWr_failed|by rewrite HWr_con|by rewrite HWr_con|].
  intros j Hj Hne. unfold HWr, iowrite32be. destruct (_ || _); [done|].
  assert (cd_word (conf_at j) (card_write v (conf_at i) (ms_card m)) = cd_word (conf_at j) (ms_card m)) as H.
  { unfold card_write. destruct (_ =? HptdcJtag); [done|]. rewrite cd_word_put, decide_False; [done|]. unfold conf_at. lia. }
  destruct (cd_fault _ _); exact H.
Qed.

Lemma con_only i f m : (forall j, j <> i -> EqpNum (f (ms_con m)) j = EqpNum (ms_con m) j /\ EqpClass (f (ms_con m)) j = EqpClass (ms_con m) j /\ Clients (f (ms_con m)) j = Clients (ms_con m) j) ->
  mc_HardClients (f (ms_con m)) = mc_HardClients (ms_con m) /\ mc_Map (f (ms_con m)) = mc_Map (ms_con m) /\ mc_Pll (f (ms_con m)) = mc_Pll (ms_con m) -> only i m (on_con f m).
Proof. intros H (E1 & E2 & E3). split; [done|exact H|split_and!; cbn; congruence|done]. Qed.

(** A configuration written to its slot. *)
Lemma write_conf_only i x m : only i m (Io32Write (conf_at i) (pair_words x) m).
Proof.
  unfold pair_words. cbn [Io32Write]. eapply only_trans; [apply HWr_only|]. apply keeps_only, HWr_keeps, off_conf_delay.
Qed.

Lemma write_conf_con i x m : ms_con (Io32Write (conf_at i) (pair_words x) m) = ms_con m.
Proof. unfold pair_words. cbn [Io32Write]. by rewrite !HWr_con. Qed.

Lemma write_conf_word i x m : mc_Map (ms_con m) <> 0 -> is_slot i -> cd_word (conf_at i) (ms_card (Io32Write (conf_at i) (pair_words x) m)) = x.1.
Proof.
  intros Hm Hi. destruct (conf_in_map i Hi) as (H1 & H2 & H3 & H4). unfold pair_words. cbn [Io32Write].
  rewrite HWr_card by (done || by rewrite HWr_con). rewrite cd_word_put, decide_False by lia. rewrite HWr_card by done. by rewrite cd_word_put, decide_True.
Qed.

Lemma write_conf_unmapped i x m : mc_Map (ms_con m) = 0 -> failed (Io32Write (conf_at i) (pair_words x) m).
Proof. intros H. unfold pair_words. cbn [Io32Write]. apply write_unmapped. by rewrite HWr_con. Qed.

(** The bus bit of a packed configuration. *)
Lemma packed_bus c : Z.testbit (ConfigToHard c).1 30 = Z.testbit (OnZero c) 0.
Proof.
  unfold ConfigToHard. cbn [fst]. rewrite !Z.lor_spec. 
  repeat match goal with |- context [Z.testbit (AutoShiftLeft ?m ?v) 30] => erewrite (field_left_bit m _ _ v 30); [|typeclasses eauto with fields|lia] end.
  reflexivity.
Qed.

Lemma bus_bit_spec : bus_bit = 2 ^ 30.
Proof. reflexivity. Qed.

(** ** Masks of clients *)

Lemma shl1_bit ci k : 0 <= ci < 32 -> 0 <= k -> Z.testbit (shl1 ci) k = (k =? ci).
Proof. intros Hc Hk. rewrite shl1_pow by done. rewrite Z.pow2_bits_eqb by lia. apply Z.eqb_sym. Qed.

Lemma live_add live mask ci : 0 <= ci < 32 -> live ci -> all_live live mask -> all_live live (Z.lor mask (shl1 ci)).
Proof.
  intros Hc Hl Ha k Hk. rewrite Z.lor_spec, shl1_bit by done. intros [H|H]%orb_true_iff; [by apply Ha|]. by apply Z.eqb_eq in H as ->.
Qed.

Lemma not32_bit x k : 0 <= k -> Z.testbit (not32 x) k = (k <? 32) && negb (Z.testbit x k).
Proof.
  intros Hk. unfold not32, u32. destruct (Z.ltb_spec k 32).
  - rewrite Z.mod_pow2_bits_low by lia. by rewrite Z.lnot_spec.
  - by rewrite Z.mod_pow2_bits_high by lia.
Qed.

Lemma live_drop live mask ci : all_live live mask -> all_live live (Z.land mask (not32 (shl1 ci))).
Proof. intros Ha k Hk. rewrite Z.land_spec. intros [H _]%andb_true_iff. by apply Ha. Qed.

Lemma drop_bit mask ci : 0 <= ci < 32 -> Z.testbit (Z.land mask (not32 (shl1 ci))) ci = false.
Proof. intros Hc. rewrite Z.land_spec, not32_bit, shl1_bit, Z.eqb_refl by lia. by rewrite andb_false_r, andb_false_r. Qed.

Lemma lor_nonzero a ci : 0 <= ci < 32 -> Z.lor a (shl1 ci) <> 0.
Proof.
  intros Hc E. assert (Z.testbit (Z.lor a (shl1 ci)) ci = true) as H by (rewrite Z.lor_spec, shl1_bit, Z.eqb_refl by lia; apply orb_true_r).
  rewrite E, Z.bits_0 in H. done.
Qed.

Lemma trig_write_keeps i x m : is_slot i -> keeps m (Io32Write (trig_at i) (pair_words x) m).
Proof. intros Hi. apply Io32Write_low. unfold is_slot, trig_at, Trigs_w, Configs_w, CtrDrvrRamTableSIZE in *. cbn. lia. Qed.

(** ** Connecting *)

Section Connecting.
Context (live : Z -> Prop) (ci : Z).
Hypothesis Hci : 0 <= ci < 32.
Hypothesis Hlive : live ci.

Lemma connect_slot_fine i hmsk m : (tables_ok live m -> EqpNum (ms_con m) i <> 0) -> fine live m -> fine live (connect_slot i (shl1 ci) hmsk m).
Proof.
  intros Hn. unfold connect_slot. set (m1 := on_con _ m). pose proof (HRd_keeps (conf_at i) m1) as K. pose proof (HRd_con (conf_at i) m1) as Ec.
  destruct (HRd (conf_at i) m1) as [valu m2] eqn:E2. cbn [snd] in *.
  assert (only i m m1) as O1.
  { apply con_only; [|done]. intros j Hne. split; [done|split; [done|]]. unfold Clients, add_client. cbn. rewrite aget_insert. by rewrite decide_False. }
  apply (only_fine live i).
  - eapply only_trans; [exact O1|]. eapply only_trans; [apply keeps_only, K|]. apply HWr_only.
  - intros H. apply write_unmapped. by rewrite Ec.
  - intros T Hm Hi. destruct (to_slot _ _ T i Hi) as [S1 S2 S3 S4]. specialize (Hn T). rewrite HWr_con, Ec.
    assert (Clients (ms_con m1) i = Z.lor (Clients (ms_con m) i) (shl1 ci)) as Ecl.
    { unfold m1, Clients, add_client. cbn. rewrite aget_insert. by rewrite decide_True. }
    split; [done|done| |rewrite Ecl; by apply live_add].
    intros _. unfold bus_on. destruct (conf_in_map i Hi) as (H1 & _ & H2 & _). rewrite HWr_card by (done || by rewrite Ec).
    rewrite cd_word_put, decide_True, bus_bit_spec, Z.lor_spec, Z.pow2_bits_true by done. apply orb_true_r.
Qed.

Lemma slot_named clss m i num : clss <> CtrDrvrConnectionClassHARD -> is_slot i -> matches num clss (ms_con m) i = true -> tables_ok live m -> EqpNum (ms_con m) i <> 0.
Proof.
  intros Hc Hi [_ E2]%andb_true_iff T E. apply Z.eqb_eq in E2. destruct (to_slot _ _ T i Hi) as [S1 _ _ _]. destruct (S1 E) as [H _]. congruence.
Qed.

Lemma connect_ptim_fine num m : fine live m -> fine live (connect_ptim num (shl1 ci) m).2.
Proof.
  intros H. unfold connect_ptim. apply (for_range_ind (fun _ x => fine live x.2)); [done|exact H|].
  intros i [count m1] Hi F. cbn [snd] in *. destruct (matches _ _ _ i) eqn:E; [|exact F]. cbn [snd]. apply connect_slot_fine; [|exact F].
  apply (slot_named CtrDrvrConnectionClassPTIM _ _ num); done.
Qed.

Lemma create_instance_fine i num frame m : is_slot i -> num <> 0 -> EqpNum (ms_con m) i = 0 -> fine live m -> fine live (create_instance i num frame (shl1 ci) m).
Proof.
  intros Hi Hn He. unfold create_instance. cbv zeta.
  set (m1 := on_con _ m). set (m2 := on_con _ m1). set (m3 := Io32Write (trig_at i) _ m2). set (m4 := Io32Write (conf_at i) _ m3).
  assert (keeps m2 m3) as K3 by (by apply trig_write_keeps).
  assert (ms_con m3 = ms_con m2) as E3 by (unfold m3, pair_words; cbn [Io32Write]; by rewrite !HWr_con).
  assert (ms_con m4 = ms_con m2) as E4 by (unfold m4; by rewrite write_conf_con).
  assert (only i m m2) as O2.
  { unfold m2, m1. apply (only_trans i m (on_con (fun c => set_mc_EqpClass (<[i := CtrDrvrConnectionClassCTIM]> (mc_EqpClass c)) (set_mc_EqpNum (<[i := num]> (mc_EqpNum c)) c)) m)).
    - apply con_only; [|done]. intros j Hne. unfold EqpNum, EqpClass, Clients. cbn. rewrite !aget_insert. by rewrite !decide_False.
    - apply keeps_only, con_keeps. by split_and!. }
  apply (only_fine live i).
  - eapply only_trans; [exact O2|]. eapply only_trans; [apply keeps_only, K3|]. eapply only_trans; [apply write_conf_only|].
    apply con_only; [|done]. intros j Hne. unfold EqpNum, EqpClass, Clients, add_client. cbn. rewrite aget_insert. by rewrite decide_False.
  - intros H. change (failed m4). unfold m4. apply write_conf_unmapped. rewrite E3. exact H.
  - intros T Hm _. destruct (to_slot _ _ T i Hi) as [S1 _ _ _]. destruct (S1 He) as [_ Hcl].
    assert (EqpNum (ms_con m2) i = num /\ EqpClass (ms_con m2) i = CtrDrvrConnectionClassCTIM /\ Clients (ms_con m2) i = 0) as (N & C & L).
    { unfold m2, m1, EqpNum, EqpClass. cbn. rewrite !aget_insert, !decide_True by done. done. }
    cbn [ms_con on_con ms_card]. rewrite E4.
    assert (Clients (add_client i (shl1 ci) CtrDrvrInterruptMaskCOUNTER_0 (ms_con m2)) i = Z.lor 0 (shl1 ci)) as Ecl.
    { rewrite <- L. unfold Clients, add_client. cbn. rewrite aget_insert. by rewrite decide_True. }
    split.
    + change (EqpNum (add_client i (shl1 ci) CtrDrvrInterruptMaskCOUNTER_0 (ms_con m2)) i) with (EqpNum (ms_con m2) i). rewrite N. done.
    + intros _. left. exact C.
    + intros _. unfold bus_on, m4. rewrite write_conf_word; [|by rewrite E3|done]. rewrite packed_bus. done.
    + rewrite Ecl. apply live_add; [done..|]. intros k _. by rewrite Z.bits_0.
Qed.

Lemma connect_ctim_fine num frame m : (num = 0 -> frame = 0) -> fine live m -> fine live (connect_ctim num frame (shl1 ci) m).2.
Proof.
  intros Hn H. unfold connect_ctim. destruct (find_first _ (matches _ _ _)) as [i|] eqn:E.
  - apply find_first_spec in E as [Hi Hm]. cbn [snd]. apply connect_slot_fine; [|exact H]. by apply (slot_named CtrDrvrConnectionClassCTIM _ _ num).
  - destruct (truthy (frame_Header frame)) eqn:Ef; [|exact H]. destruct (find_first _ (fun i => EqpNum (ms_con m) i =? 0)) as [i|] eqn:E0; [|exact H].
    apply find_first_spec in E0 as [Hi Hz]. cbn [snd]. apply create_instance_fine; [exact Hi| |by apply Z.eqb_eq|exact H].
    intros E1. rewrite (Hn E1) in Ef. done.
Qed.

(** The lines of a mask. *)
Lemma connect_hard_fine mask m : fine live m -> mc_Map (ms_con m) <> 0 -> fine live (connect_hard mask (shl1 ci) m).2.
Proof.
  intros H Hm. unfold connect_hard. apply (for_range_ind (fun _ x => fine live x.2 /\ mc_Map (ms_con x.2) <> 0)); [done|by split|].
  intros i [count m1] Hi [F Hm1]. cbn [snd] in *. destruct (truthy _); [|done]. cbn [snd]. split; [|exact Hm1].
  destruct F as [F|[Ts Th Tm Tp]]; [by left|right]. split; [intros j Hj; by destruct (Ts j Hj)| |intros E; by destruct Hm1|exact Tp].
  intros j Hj. unfold HardClients. cbn. rewrite aget_insert. destruct (decide (j = i)) as [->|Hne]; [|by apply Th]. apply live_add; [done..|]. by apply Th.
Qed.

End Connecting.

Definition enabled (f : mst -> Z * mst) (m : mst) : Z * mst :=
  let '(count, m) := f m in
  if 0 <? count then (0, EnableInterrupts (mc_InterruptEnable (ms_con m)) m) else (if count <? 0 then count else - ENXIO, m).

Lemma enabled_fine live f m : fine live (f m).2 -> fine live (enabled f m).2.
Proof.
  intros H. unfold enabled. destruct (f m) as [count m']. cbn [snd] in *. destruct (0 <? count); [|exact H]. cbn [snd].
  by apply (keeps_fine _ m'); [apply EnableInterrupts_keeps|].
Qed.

Lemma enabled_hard_fine live ci mask m : 0 <= ci < 32 -> live ci -> fine live m -> fine live (enabled (connect_hard mask (shl1 ci)) m).2.
Proof.
  intros Hc Hl H. destruct (Z.eq_dec (mc_Map (ms_con m)) 0) as [E|E]; [|by apply enabled_fine, connect_hard_fine].
  unfold enabled. pose proof (for_range_ind (fun _ (x : Z * mst) => 0 <= x.1 /\ mc_Map (ms_con x.2) = 0 /\ (x.1 = 0 -> x.2 = m)) CtrDrvrInterruptSOURCES
    (fun i '(count, m) => if truthy (Z.land mask (shl1 i)) then
      (count + 1, on_con (fun c => set_mc_HardClients (<[i := Z.lor (HardClients c i) (shl1 ci)]> (mc_HardClients c))
                                     (set_mc_InterruptEnable (Z.lor (mc_InterruptEnable c) (shl1 i)) c)) m) else (count, m)) (0, m)) as Hr.
  unfold connect_hard. destruct (for_range _ _ _) as [count m']. destruct Hr as (H0 & Hm & Hz); [done|by split_and!| |].
  - intros i [n m1] _ (A & B & C). cbn [fst snd] in *. destruct (truthy _); cbn [fst snd]; split_and!; try done; lia.
  - cbn [fst snd] in *. destruct (Z.ltb_spec 0 count) as [Hp|Hp]; cbn [snd].
    + left. unfold EnableInterrupts. apply write_unmapped. exact Hm.
    + rewrite Hz by lia. exact H.
Qed.

(** ** Disconnecting *)

Section Disconnecting.
Context (beyond : Z -> Z) (ci : Z).
Hypothesis Hci : 0 <= ci < 32.

Definition unlink (i : Z) (c : CtrDrvrModuleContext) : CtrDrvrModuleContext :=
  set_mc_Clients (<[i := Z.land (Clients c i) (not32 (shl1 ci))]> (mc_Clients c)) c.

Lemma unlink_only i m : only i m (on_con (unlink i) m).
Proof.
  apply con_only; [|done]. intros j Hne. unfold EqpNum, EqpClass, Clients, unlink. cbn. rewrite aget_insert. by rewrite decide_False.
Qed.

Lemma unlink_clients i m : Clients (ms_con (on_con (unlink i) m)) i = Z.land (Clients (ms_con m) i) (not32 (shl1 ci)).
Proof. unfold Clients at 1, unlink. cbn. rewrite aget_insert. by rewrite decide_True. Qed.

Definition forget (i : Z) (c : CtrDrvrModuleContext) : CtrDrvrModuleContext :=
  set_mc_EqpClass (<[i := 0]> (mc_EqpClass c)) (set_mc_EqpNum (<[i := 0]> (mc_EqpNum c)) c).

Lemma forget_only i m : only i m (on_con (forget i) m).
Proof.
  apply con_only; [|done]. intros j Hne. unfold EqpNum, EqpClass, Clients, forget. cbn. rewrite !aget_insert. by rewrite !decide_False.
Qed.

Lemma forget_slot i c : EqpNum (forget i c) i = 0 /\ EqpClass (forget i c) i = 0 /\ Clients (forget i c) i = Clients c i.
Proof. unfold EqpNum, EqpClass, forget. cbn. rewrite !aget_insert. by rewrite !decide_True. Qed.

Lemma same_maps_slot c c' i : same_maps c c' -> EqpNum c' i = EqpNum c i /\ EqpClass c' i = EqpClass c i /\ Clients c' i = Clients c i /\ mc_Map c' = mc_Map c.
Proof. intros (E1 & E2 & E3 & E4 & E5 & E6). unfold EqpNum, EqpClass, Clients. by rewrite E1, E2, E3. Qed.

(** A slot without clients is given up, or loses its bus interrupt. *)
Lemma free_slot_spec i clss m : is_slot i ->
  let m' := free_slot beyond i clss ci m in
  only i m m' /\ Clients (ms_con m') i = Clients (ms_con m) i /\ (mc_Map (ms_con m) = 0 -> failed m') /\
  (EqpNum (ms_con m') i = 0 /\ EqpClass (ms_con m') i = 0 \/
   EqpNum (ms_con m') i = EqpNum (ms_con m) i /\ EqpClass (ms_con m') i = EqpClass (ms_con m) i).
Proof.
  intros Hi. cbv zeta. unfold free_slot. pose proof (DisableInterrupts_keeps beyond i clss ci m) as K. generalize dependent (DisableInterrupts beyond i clss ci m). intros m1 K.
  destruct (same_maps_slot _ _ i (kp_maps _ _ K)) as (N & C & L & P). destruct (EqpClass (ms_con m1) i =? CtrDrvrConnectionClassCTIM).
  - set (m2 := Io32Write (trig_at i) _ m1). assert (keeps m1 m2) as K2 by (by apply trig_write_keeps). destruct (same_maps_slot _ _ i (kp_maps _ _ K2)) as (_ & _ & L2 & P2). clearbody m2.
    set (m3 := Io32Write (conf_at i) _ m2). assert (ms_con m3 = ms_con m2) as E3 by (apply write_conf_con).
    assert (only i m2 m3) as O3 by apply write_conf_only. assert (mc_Map (ms_con m2) = 0 -> failed m3) as F3 by apply write_conf_unmapped. clearbody m3.
    change (on_con _ m3) with (on_con (forget i) m3). destruct (forget_slot i (ms_con m3)) as (A & B & D). split_and!.
    + eapply only_trans; [apply keeps_only, K|]. eapply only_trans; [apply keeps_only, K2|]. eapply only_trans; [exact O3|apply forget_only].
    + cbn [ms_con on_con]. rewrite D, E3. congruence.
    + intros H. change (failed m3). apply F3. congruence.
    + left. by split.
  - pose proof (HRd_keeps (conf_at i) m1) as K2. pose proof (HRd_con (conf_at i) m1) as Ec. destruct (HRd (conf_at i) m1) as [v m2]. cbn [snd] in *. rewrite !HWr_con, Ec. split_and!.
    + eapply only_trans; [apply keeps_only, K|]. eapply only_trans; [apply keeps_only, K2|]. apply HWr_only.
    + exact L.
    + intros H. apply write_unmapped. by rewrite Ec, P.
    + by right.
Qed.

Definition object_class (clss : Z) : Prop := clss = CtrDrvrConnectionClassCTIM \/ clss = CtrDrvrConnectionClassPTIM.

(** A client leaves a slot. *)
Lemma leave_slot live i clss m : is_slot i -> object_class clss ->
  let m' := DisConnectOne beyond i clss ci m in
  (fine live m -> fine live m') /\ only i m m' /\ Z.testbit (Clients (ms_con m') i) ci = false.
Proof.
  intros Hi Hc m'. assert (m' = if truthy (Z.land (shl1 ci) (Clients (ms_con m) i)) then
      let m1 := on_con (unlink i) m in if Clients (ms_con m1) i =? 0 then free_slot beyond i clss ci m1 else m1 else m) as ->.
  { unfold m', DisConnectOne. destruct Hc as [-> | ->]; reflexivity. }
  rewrite shl1_pow, Z.land_comm, truthy_land_pow2 by lia. destruct (Z.testbit (Clients (ms_con m) i) ci) eqn:Eb; [|split_and!; [done|by apply keeps_only|exact Eb]].
  cbv zeta. pose proof (unlink_only i m) as O1. pose proof (unlink_clients i m) as L1. 
  assert (ms_card (on_con (unlink i) m) = ms_card m) as Ecd by done. assert (EqpNum (ms_con (on_con (unlink i) m)) = EqpNum (ms_con m)) as En by done.
  assert (EqpClass (ms_con (on_con (unlink i) m)) = EqpClass (ms_con m)) as Ek by done.
  generalize dependent (on_con (unlink i) m). intros m1 O1 L1 Ecd En Ek.
  assert (fine live m -> mc_Map (ms_con m) = 0 -> failed m) as Hun.
  { intros [F|T] E; [done|]. destruct (to_map _ _ T E) as [Z0 _]. rewrite (Z0 i Hi), Z.bits_0 in Eb. done. }
  destruct (Z.eqb_spec (Clients (ms_con m1) i) 0) as [E0|E0].
  - destruct (free_slot_spec i clss m1 Hi) as (O2 & L2 & F2 & Hs). cbv zeta in *. generalize dependent (free_slot beyond i clss ci m1). intros m2 O2 L2 F2 Hs.
    split_and!; [|by eapply only_trans|rewrite L2, L1; by apply drop_bit].
    apply (only_fine live i); [by eapply only_trans|intros H; apply F2; destruct O1 as [_ _ (_ & P & _) _]; congruence|].
    intros T Hm _. destruct (to_slot _ _ T i Hi) as [S1 S2 _ _]. rewrite En, Ek in Hs.
    split; [intros H|intros H| |]; rewrite ?L2, ?E0; [|destruct Hs as [[A B]|[A B]]; [congruence|rewrite B; apply S2; congruence]|done|intros k _; by rewrite Z.bits_0].
    split; [|done]. destruct Hs as [[A B]|[A B]]; [by rewrite B|]. rewrite B. apply S1. congruence.
  - split_and!; [|exact O1|rewrite L1; by apply drop_bit]. intros H. destruct (Z.eq_dec (mc_Map (ms_con m)) 0) as [E|E]; [left; by apply (on_failed _ _ _ O1), Hun|].
    apply (only_fine live i m); [exact O1|done| |exact H]. intros T _ _. destruct (to_slot _ _ T i Hi) as [S1 S2 S3 S4]. split; rewrite ?En, ?Ek.
    + intros H0. destruct (S1 H0) as [A B]. split; [exact A|]. rewrite L1, B. apply Z.land_0_l.
    + exact S2.
    + intros _. unfold bus_on. rewrite Ecd. apply S3. intros Hz. rewrite Hz, Z.bits_0 in Eb. done.
    + rewrite L1. by apply live_drop.
Qed.

(** A client leaves a line. *)
Lemma leave_line live j m : is_line j ->
  let m' := DisConnectOne beyond j CtrDrvrConnectionClassHARD ci m in
  (fine live m -> fine live m') /\ (failed m -> failed m') /\ mc_Clients (ms_con m') = mc_Clients (ms_con m) /\
  Z.testbit (HardClients (ms_con m') j) ci = false /\ (forall k, k <> j -> HardClients (ms_con m') k = HardClients (ms_con m) k).
Proof.
  intros Hj m'. assert (m' = if truthy (HardClients (ms_con m) j) then
      let m1 := on_con (fun c => set_mc_HardClients (<[j := Z.land (HardClients c j) (not32 (shl1 ci))]> (mc_HardClients c)) c) m in
      if HardClients (ms_con m1) j =? 0 then DisableInterrupts beyond j CtrDrvrConnectionClassHARD ci m1 else m1 else m) as -> by reflexivity.
  destruct (truthy (HardClients (ms_con m) j)) eqn:Et.
  - cbv zeta. set (m1 := on_con _ m).
    assert (HardClients (ms_con m1) j = Z.land (HardClients (ms_con m) j) (not32 (shl1 ci))) as L1 by (unfold m1, HardClients at 1; cbn; rewrite aget_insert; by rewrite decide_True).
    assert (forall k, k <> j -> HardClients (ms_con m1) k = HardClients (ms_con m) k) as L2 by (intros k Hk; unfold m1, HardClients; cbn; rewrite aget_insert; by rewrite decide_False).
    assert (fine live m -> fine live m1) as F1.
    { intros [F|[Ts Th Tm Tp]]; [by left|right]. split; [intros i Hi; by destruct (Ts i Hi)| | |exact Tp].
      - intros k Hk. destruct (Z.eq_dec k j) as [->|Hne]; [rewrite L1; by apply live_drop, Th|rewrite L2 by done; by apply Th].
      - intros E. destruct (Tm E) as [Z1 Z2]. split; [exact Z1|]. intros k Hk. destruct (Z.eq_dec k j) as [->|Hne]; [|rewrite L2 by done; by apply Z2].
        rewrite L1, Z2 by done. apply Z.land_0_l. }
    assert (failed m -> failed m1) as X1 by done. assert (mc_Clients (ms_con m1) = mc_Clients (ms_con m)) as C1 by done.
    assert (keeps m1 (if HardClients (ms_con m1) j =? 0 then DisableInterrupts beyond j CtrDrvrConnectionClassHARD ci m1 else m1)) as K
      by (destruct (_ =? 0); [apply DisableInterrupts_keeps|done]).
    clearbody m1. generalize dependent (if HardClients (ms_con m1) j =? 0 then DisableInterrupts beyond j CtrDrvrConnectionClassHARD ci m1 else m1). intros m2 K.
    pose proof (kp_maps _ _ K) as (_ & _ & E3 & E4 & _ & _).
    assert (forall k, HardClients (ms_con m2) k = HardClients (ms_con m1) k) as E5 by (intros k; unfold HardClients; by rewrite E4). split_and!.
    + intros H. by apply (keeps_fine _ m1), F1.
    + intros H. by apply (kp_failed _ _ K), X1.
    + congruence.
    + rewrite E5, L1. by apply drop_bit.
    + intros k Hk. rewrite E5. by apply L2.
  - split_and!; try done. unfold truthy in Et. apply negb_false_iff, Z.eqb_eq in Et. rewrite Et. apply Z.bits_0.
Qed.

Lemma disconnect_one_failed i clss m : is_slot i -> failed m -> failed (DisConnectOne beyond i clss ci m).
Proof.
  intros Hi F. destruct (decide (clss = CtrDrvrConnectionClassCTIM)) as [->|N1]; [by apply (leave_slot (fun _ => True) i _ m Hi (or_introl eq_refl))|].
  destruct (decide (clss = CtrDrvrConnectionClassPTIM)) as [->|N2]; [by apply (leave_slot (fun _ => True) i _ m Hi (or_intror eq_refl))|].
  unfold DisConnectOne. rewrite (proj2 (Z.eqb_neq _ _) N1), (proj2 (Z.eqb_neq _ _) N2). cbn [orb andb].
  destruct (_ && _); [|exact F]. destruct (_ =? 0); [|exact F]. apply (kp_failed _ _ (DisableInterrupts_keeps _ _ _ _ _)). exact F.
Qed.

Lemma disconnect_hard_spec live m : let m' := disconnect_hard beyond ci m in
  (fine live m -> fine live m') /\ (failed m -> failed m') /\ mc_Clients (ms_con m') = mc_Clients (ms_con m) /\
  (forall j, is_line j -> Z.testbit (HardClients (ms_con m') j) ci = false).
Proof.
  cbv zeta. unfold disconnect_hard.
  apply (for_range_ind (fun k m' => (fine live m -> fine live m') /\ (failed m -> failed m') /\ mc_Clients (ms_con m') = mc_Clients (ms_con m) /\
    (forall j, 0 <= j < k -> Z.testbit (HardClients (ms_con m') j) ci = false))); [done|split_and!; try done; lia|].
  intros k m1 Hk (F & X & C & H). destruct (leave_line live k m1 Hk) as (F1 & X1 & C1 & B1 & R1). cbv zeta in *.
  split_and!; [auto|auto|congruence|]. intros j Hj. destruct (Z.eq_dec j k) as [->|Hne]; [exact B1|]. rewrite R1 by done. apply H. lia.
Qed.

Definition gone (m : mst) : Prop :=
  (forall i, is_slot i -> Z.testbit (Clients (ms_con m) i) ci = false) /\ (forall j, is_line j -> Z.testbit (HardClients (ms_con m) j) ci = false).

Definition slots_gone (k : Z) (m : mst) : Prop := forall i, 0 <= i < k -> Z.testbit (Clients (ms_con m) i) ci = false.

Lemma leave_next live k m : is_slot k -> failed m \/ tables_ok live m /\ slots_gone k m ->
  let m' := if truthy (EqpNum (ms_con m) k) then DisConnectOne beyond k (EqpClass (ms_con m) k) ci m else m in
  failed m' \/ tables_ok live m' /\ slots_gone (k + 1) m'.
Proof.
  intros Hk [F|[T B]]; cbv zeta.
  - left. destruct (truthy _); [by apply disconnect_one_failed|exact F].
  - destruct (to_slot _ _ T k Hk) as [S1 S2 _ _]. destruct (truthy (EqpNum (ms_con m) k)) eqn:Et; unfold truthy in Et.
    + apply negb_true_iff, Z.eqb_neq in Et. destruct (leave_slot live k (EqpClass (ms_con m) k) m Hk (S2 Et)) as (F1 & O1 & B1). cbv zeta in *.
      destruct (F1 (or_intror T)) as [F|T1]; [by left|right]. split; [exact T1|]. intros i Hi. destruct (Z.eq_dec i k) as [->|Hne]; [exact B1|].
      destruct (on_maps _ _ _ O1 i Hne) as (_ & _ & ->). apply B. lia.
    + apply negb_false_iff, Z.eqb_eq in Et. destruct (S1 Et) as [_ Hz]. right. split; [exact T|]. intros i Hi. destruct (Z.eq_dec i k) as [->|Hne]; [|apply B; lia].
      rewrite Hz. apply Z.bits_0.
Qed.

Lemma leave_slots live m : fine live m ->
  let m' := for_range CtrDrvrRamTableSIZE (fun i m => if truthy (EqpNum (ms_con m) i) then DisConnectOne beyond i (EqpClass (ms_con m) i) ci m else m) m in
  failed m' \/ tables_ok live m' /\ slots_gone CtrDrvrRamTableSIZE m'.
Proof.
  intros H. apply (for_range_ind (fun k m' => failed m' \/ tables_ok live m' /\ slots_gone k m')); [done| |].
  - destruct H as [F|T]; [by left|right]. split; [exact T|]. intros i Hi. lia.
  - intros k m2 Hk P. exact (leave_next live k m2 Hk P).
Qed.

(** Whoever leaves the module is nowhere in its tables. *)
Lemma disconnect_module_spec live m : fine live m ->
  failed (disconnect_module beyond ci m) \/ tables_ok live (disconnect_module beyond ci m) /\ gone (disconnect_module beyond ci m).
Proof.
  intros H. pose proof (leave_slots live m H) as H1. cbv zeta in H1. cbv beta delta [disconnect_module] zeta.
  generalize dependent (for_range CtrDrvrRamTableSIZE (fun i m => if truthy (EqpNum (ms_con m) i) then DisConnectOne beyond i (EqpClass (ms_con m) i) ci m else m) m).
  intros m1 H1. destruct (disconnect_hard_spec live m1) as (F & X & C & B). cbv zeta in *.
  destruct H1 as [F1|[T1 B1]]; [left; by apply X|].
  destruct (F (or_intror T1)) as [F2|T2]; [by left|right]. split; [exact T2|]. split; [|exact B]. intros i Hi. unfold Clients. rewrite C. by apply B1.
Qed.

Lemma disconnect_objects_fine live num clss m : clss <> CtrDrvrConnectionClassHARD -> fine live m ->
  fine live (for_range CtrDrvrRamTableSIZE (fun i m => if matches num clss (ms_con m) i then DisConnectOne beyond i clss ci m else m) m).
Proof.
  intros Hc H. apply (for_range_ind (fun _ m => fine live m)); [done|exact H|]. intros i m1 Hi F. destruct (matches _ _ _ i) eqn:E; [|exact F].
  destruct F as [F|T]; [left; by apply disconnect_one_failed|].
  pose proof (slot_named live clss m1 i num Hc Hi E T) as Hn. destruct (to_slot _ _ T i Hi) as [_ S2 _ _]. apply andb_true_iff in E as [_ E]. apply Z.eqb_eq in E.
  specialize (S2 Hn). rewrite E in S2. apply (leave_slot live i clss m1 Hi S2). by right.
Qed.
End Disconnecting.

(** ** Objects and triggers *)

Section Objects.
Context (live : Z -> Prop).

Definition take_slot (i num clss cntr : Z) (c : CtrDrvrModuleContext) : CtrDrvrModuleContext := take_slots i 1 num clss cntr c.

Lemma take_one i num clss cntr c : take_slot i num clss cntr c =
  set_mc_Trigs (<[i := set_Counter cntr (Trigs c i)]> (mc_Trigs c)) (set_mc_EqpClass (<[i := clss]> (mc_EqpClass c)) (set_mc_EqpNum (<[i := num]> (mc_EqpNum c)) c)).
Proof. reflexivity. Qed.

Lemma take_only i num clss cntr m : only i m (on_con (take_slot i num clss cntr) m).
Proof.
  apply con_only; rewrite take_one; [|done]. intros j Hne. unfold EqpNum, EqpClass, Clients. cbn. rewrite !aget_insert. by rewrite !decide_False.
Qed.

Lemma take_fine i num clss cntr m : num <> 0 -> object_class clss -> fine live m -> fine live (on_con (take_slot i num clss cntr) m).
Proof.
  intros Hn Hc [F|T]; [by left|right]. pose proof T as [Ts Th Tm Tp]. destruct (take_only i num clss cntr m) as [_ M _ _].
  assert (EqpNum (take_slot i num clss cntr (ms_con m)) i = num /\ EqpClass (take_slot i num clss cntr (ms_con m)) i = clss) as [E1 E2]
    by (rewrite take_one; unfold EqpNum, EqpClass; cbn; rewrite !aget_insert; by rewrite !decide_True).
  split; [|exact Th|exact Tm|exact Tp]. intros j Hj. destruct (Ts j Hj) as [S1 S2 S3 S4]. destruct (Z.eq_dec j i) as [->|Hne].
  - split; [cbn [ms_con on_con]; rewrite E1; done|intros _; cbn [ms_con on_con]; rewrite E2; exact Hc|exact S3|exact S4].
  - destruct (M j Hne) as (A & B & C). split; rewrite ?A, ?B, ?C; done.
Qed.

Lemma on_con_con f g m : on_con f (on_con g m) = on_con (fun c => f (g c)) m.
Proof. done. Qed.

Lemma take_slots_fine start n num clss cntr m : num <> 0 -> object_class clss -> fine live m -> fine live (on_con (take_slots start n num clss cntr) m).
Proof.
  intros Hn Hc. unfold take_slots. generalize (seqZ start n). intros l. revert m. induction l as [|i l IH]; intros m H; [by destruct m|].
  apply (IH (on_con (take_slot i num clss cntr) m)). by apply take_fine.
Qed.

Lemma release_spec i m : is_slot i ->
  let m' := release_slot i m in only i m m' /\ (mc_Map (ms_con m) = 0 -> failed m') /\
  EqpNum (ms_con m') i = 0 /\ EqpClass (ms_con m') i = 0 /\ Clients (ms_con m') i = Clients (ms_con m) i.
Proof.
  intros Hi m'. unfold m', release_slot. cbv zeta. set (m1 := Io32Write (trig_at i) [0; 0] m).
  assert (keeps m m1) as K1 by (exact (trig_write_keeps i (0, 0) m Hi)). destruct (same_maps_slot _ _ i (kp_maps _ _ K1)) as (N1 & C1 & L1 & P1). clearbody m1.
  change (on_con _ m1) with (on_con (forget i) m1). destruct (forget_slot i (ms_con m1)) as (N2 & C2 & L2). pose proof (forget_only i m1) as O2.
  assert (mc_Map (ms_con (on_con (forget i) m1)) = mc_Map (ms_con m1)) as P2 by done.
  change (forget i (ms_con m1)) with (ms_con (on_con (forget i) m1)) in *. generalize dependent (on_con (forget i) m1). intros m2 N2 C2 L2 O2 P2.
  set (m3 := on_con _ m2). assert (keeps m2 m3) as K3 by (apply con_keeps; by split_and!). destruct (same_maps_slot _ _ i (kp_maps _ _ K3)) as (N3 & C3 & L3 & P3).
  clearbody m3. rewrite write_conf_con. split_and!; try congruence.
  - eapply only_trans; [apply keeps_only, K1|]. eapply only_trans; [exact O2|]. eapply only_trans; [apply keeps_only, K3|]. apply write_conf_only.
  - intros H. apply write_conf_unmapped. congruence.
Qed.

Lemma release_fine i m : is_slot i -> Clients (ms_con m) i = 0 -> fine live m -> fine live (release_slot i m).
Proof.
  intros Hi Hz. destruct (release_spec i m Hi) as (O & F & N & C & L). cbv zeta in *. apply (only_fine live i); [exact O|exact F|].
  intros T Hm _. split; rewrite ?N, ?C, ?L, ?Hz; [done..|]. intros k _. by rewrite Z.bits_0.
Qed.

(** The slots of an object that nobody is connected to. *)
Lemma release_all_fine num m : (forall i, is_slot i -> ptim_slot num (ms_con m) i = true -> Clients (ms_con m) i = 0) -> fine live m ->
  fine live (for_range CtrDrvrRamTableSIZE (fun i m => if ptim_slot num (ms_con m) i then release_slot i m else m) m).
Proof.
  intros Hz H. apply (for_range_ind (fun k m' => fine live m' /\ forall j, k <= j -> is_slot j ->
    EqpNum (ms_con m') j = EqpNum (ms_con m) j /\ EqpClass (ms_con m') j = EqpClass (ms_con m) j /\ Clients (ms_con m') j = Clients (ms_con m) j)); [done|done|].
  intros k m1 Hk [F E]. destruct (E k ltac:(lia) Hk) as (E1 & E2 & E3). destruct (ptim_slot num (ms_con m1) k) eqn:Ep.
  - assert (Clients (ms_con m) k = 0) as Hck by (apply Hz; [done|]; unfold ptim_slot, matches in *; by rewrite <- E1, <- E2).
    split; [apply release_fine; [done|congruence|exact F]|]. destruct (release_spec k m1 Hk) as (O & _). intros j Hj Hs.
    destruct (on_maps _ _ _ O j ltac:(lia)) as (A & B & C). destruct (E j ltac:(lia) Hs) as (A' & B' & C'). split_and!; congruence.
  - split; [exact F|]. intros j Hj. apply E. lia.
Qed.

(** A trigger is given to a slot; its bus interrupt follows its clients. *)
Lemma set_action_fine act m : is_slot (ac_TriggerNumber act - 1) -> fine live m -> fine live (set_action act m).2.
Proof.
  intros Hi H. unfold set_action. set (i := ac_TriggerNumber act - 1) in *. destruct (Z.eqb_spec (EqpClass (ms_con m) i) CtrDrvrConnectionClassHARD) as [|Hc]; [exact H|].
  destruct (_ && _); [exact H|]. cbv zeta. cbn [snd].
  match goal with |- context [Io32Write (trig_at i) _ ?x] => set (m1 := x) end. assert (only i m m1) as O1 by (unfold m1; destruct (negb _); [by apply keeps_only|apply take_only]).
  assert (EqpNum (ms_con m) i <> 0 -> m1 = m) as E1 by (intros E; unfold m1; by rewrite (proj2 (Z.eqb_neq _ _) E)). clearbody m1.
  set (m2 := Io32Write (trig_at i) _ m1). assert (keeps m1 m2) as K2 by (by apply trig_write_keeps). clearbody m2.
  set (m3 := on_con _ m2). assert (keeps m2 m3) as K3 by (apply con_keeps; by split_and!). clearbody m3.
  set (conf := set_OnZero _ _). set (m4 := Io32Write (conf_at i) _ m3).
  assert (only i m3 m4) as O4 by apply write_conf_only. assert (ms_con m4 = ms_con m3) as E4 by apply write_conf_con.
  assert (mc_Map (ms_con m3) <> 0 -> cd_word (conf_at i) (ms_card m4) = (ConfigToHard conf).1) as W4 by (intros Hm; by apply write_conf_word).
  assert (mc_Map (ms_con m3) = 0 -> failed m4) as F4 by apply write_conf_unmapped. clearbody m4.
  assert (keeps m1 m3) as K by (by transitivity m2). destruct (same_maps_slot _ _ i (kp_maps _ _ K)) as (N & C & L & P).
  match goal with |- fine live (on_con ?f m4) => set (m5 := on_con f m4) end.
  assert (keeps m4 m5) as K5 by (apply con_keeps; by split_and!). destruct (same_maps_slot _ _ i (kp_maps _ _ K5)) as (N5 & C5 & L5 & P5).
  assert (ms_card m5 = ms_card m4) as E5 by done. clearbody m5. pose proof (on_rest _ _ _ O1) as (_ & P1 & _).
  apply (only_fine live i m).
  - eapply only_trans; [exact O1|]. eapply only_trans; [apply keeps_only, K|]. eapply only_trans; [exact O4|by apply keeps_only].
  - intros Hm. apply (kp_failed _ _ K5), F4. congruence.
  - intros T Hm _. destruct (to_slot _ _ T i Hi) as [S1 S2 S3 S4].
    assert (EqpNum (ms_con m) i <> 0) as En by (intros E; by destruct (S1 E)). specialize (E1 En). subst m1.
    rewrite E4 in *. split; rewrite ?N5, ?C5, ?L5, ?N, ?C, ?L; [done|exact S2| |exact S4].
    intros Hcl. unfold bus_on. rewrite E5, W4 by congruence. rewrite packed_bus. unfold conf, set_OnZero. cbn [OnZero]. rewrite L.
    unfold truthy. rewrite (proj2 (Z.eqb_neq _ _) Hcl). cbn [negb]. rewrite Z.lor_spec. apply orb_true_r.
  - exact H.
Qed.
End Objects.
