(* ===== verification/CtrReach.v ===== *)
(** * The timing receiver: every run of its entry points

    The invariant of [CtrInv] for all modules and clients, kept by open, close,
    every ioctl, write, the interrupts and whatever a reader does to its own
    client. *)

From stdpp Require Import gmap.
From S2P Require Import Prelude CdcmSem CtrHw CtrMod CtrHptdc Ctr CtrIoctl CtrIsr CtrInv.

(** ** Failures stay, modules stay mapped *)

Record mono (m m' : mst) : Prop := {
  mo_failed : failed m -> failed m';
  mo_map : mc_Map (ms_con m') = mc_Map (ms_con m);
}.

#[export] Instance mono_preorder : PreOrder mono.
Proof.
  split.
  - intros m. by split.
  - intros m1 m2 m3 [F1 E1] [F2 E2]. split; [auto|congruence].
Qed.

Lemma keeps_mono m m' : keeps m m' -> mono m m'.
Proof. intros [F (_ & _ & _ & _ & E & _) _]. by split. Qed.

Lemma only_mono i m m' : only i m m' -> mono m m'.
Proof. intros [F _ (_ & E & _) _]. by split. Qed.

Lemma HWr_mono v w m : mono m (HWr v w m).
Proof. split; [apply HWr_failed|by rewrite HWr_con]. Qed.

Lemma con_mono f m : mc_Map (f (ms_con m)) = mc_Map (ms_con m) -> mono m (on_con f m).
Proof. by split. Qed.

Lemma Io32Write_mono l : forall w m, mono m (Io32Write w l m).
Proof. induction l as [|v l IH]; intros w m; [done|]. cbn [Io32Write]. transitivity (HWr v w m); [apply HWr_mono|apply IH]. Qed.

Lemma mono_state a e (b : mst -> mst) : mono a e -> (forall y, mono a y -> mono a (b y)) -> mono a (let x := e in b x).
Proof. intros H1 H2. by apply H2. Qed.
Lemma mono_value {A} a (e : A) (b : A -> mst) : (forall y, mono a (b y)) -> mono a (let x := e in b x).
Proof. intros H. apply H. Qed.

(** A run of writes and of changes to the context. *)
Ltac mono_step := first [reflexivity | eassumption | etransitivity; [|apply Io32Write_mono]; eassumption || reflexivity | etransitivity; [|apply HWr_mono]; eassumption || reflexivity | etransitivity; [|apply con_mono; reflexivity]; eassumption || reflexivity].
Ltac mono :=
  repeat match goal with
  | |- mono ?a (let x := ?e in @?b x) => first [refine (mono_state a e b _ _); [mono_step|intros ? ?; cbv beta] | refine (mono_value a e b _); intros ?; cbv beta]
  end; try mono_step.

Lemma for_range_mono n f m : 0 <= n -> (forall i m, mono m (f i m)) -> mono m (for_range n f m).
Proof. intros Hn Hf. apply (for_range_ind (fun _ m' => mono m m')); [done..|]. intros i m1 _ H. by transitivity m1. Qed.

Lemma connect_slot_mono i cmsk hmsk m : mono m (connect_slot i cmsk hmsk m).
Proof.
  unfold connect_slot. set (m1 := on_con _ m). assert (mono m m1) as M by (by apply con_mono). pose proof (HRd_keeps (conf_at i) m1) as K.
  destruct (HRd (conf_at i) m1) as [v m2]. cbn [snd] in K. transitivity m1; [done|]. transitivity m2; [by apply keeps_mono|apply HWr_mono].
Qed.

Lemma connect_ptim_mono num cmsk m : mono m (connect_ptim num cmsk m).2.
Proof.
  unfold connect_ptim. apply (for_range_ind (fun _ x => mono m x.2)); [done..|]. intros i [n m1] _ H. cbn [snd] in *.
  destruct (matches _ _ _ i); [|exact H]. cbn [snd]. transitivity m1; [exact H|apply connect_slot_mono].
Qed.

Lemma create_instance_mono i num frame cmsk m : mono m (create_instance i num frame cmsk m).
Proof.
  cbv beta delta [create_instance]. mono.
Qed.

Lemma connect_ctim_mono num frame cmsk m : mono m (connect_ctim num frame cmsk m).2.
Proof.
  unfold connect_ctim. destruct (find_first _ (matches _ _ _)); [apply connect_slot_mono|]. destruct (truthy _); [|done].
  destruct (find_first _ (fun i => EqpNum (ms_con m) i =? 0)); [apply create_instance_mono|done].
Qed.

Lemma connect_hard_mono mask cmsk m : mono m (connect_hard mask cmsk m).2.
Proof.
  unfold connect_hard. apply (for_range_ind (fun _ x => mono m x.2)); [done..|]. intros i [n m1] _ H. cbn [snd] in *.
  destruct (truthy _); [|exact H]. cbn [snd]. transitivity m1; [exact H|by apply con_mono].
Qed.

Lemma enabled_mono f m : mono m (f m).2 -> mono m (enabled f m).2.
Proof.
  unfold enabled. destruct (f m) as [n m']. cbn [snd]. intros H. destruct (0 <? n); [|exact H]. cbn [snd].
  transitivity m'; [exact H|apply keeps_mono, EnableInterrupts_keeps].
Qed.

Lemma free_slot_mono beyond i clss ci m : mono m (free_slot beyond i clss ci m).
Proof.
  unfold free_slot. pose proof (keeps_mono _ _ (DisableInterrupts_keeps beyond i clss ci m)) as K. generalize dependent (DisableInterrupts beyond i clss ci m). intros m1 K.
  transitivity m1; [exact K|]. destruct (_ =? _).
  - etransitivity; [|by apply con_mono]. etransitivity; [|apply Io32Write_mono]. apply Io32Write_mono.
  - pose proof (HRd_keeps (conf_at i) m1) as K2. destruct (HRd (conf_at i) m1) as [v m2]. cbn [snd] in K2. transitivity m2; [by apply keeps_mono|apply HWr_mono].
Qed.

Lemma disconnect_one_mono beyond i clss ci m : mono m (DisConnectOne beyond i clss ci m).
Proof.
  unfold DisConnectOne. match goal with |- context [if (clss =? CtrDrvrConnectionClassHARD) && truthy (HardClients (ms_con ?x) i) then _ else _] => set (m1 := x) end.
  assert (mono m m1) as M1.
  { unfold m1. destruct (_ && _); [|done]. cbv zeta. destruct (_ =? 0); [etransitivity; [|apply free_slot_mono]|]; by apply con_mono. }
  clearbody m1. transitivity m1; [exact M1|]. destruct (_ && _); [|done]. cbv zeta.
  destruct (_ =? 0); [etransitivity; [|apply keeps_mono, DisableInterrupts_keeps]|]; by apply con_mono.
Qed.

Lemma disconnect_hard_mono beyond ci m : mono m (disconnect_hard beyond ci m).
Proof. apply for_range_mono; [done|]. intros i m1. apply disconnect_one_mono. Qed.

Lemma disconnect_module_mono beyond ci m : mono m (disconnect_module beyond ci m).
Proof.
  unfold disconnect_module. cbv zeta. etransitivity; [|apply disconnect_hard_mono]. apply for_range_mono; [done|].
  intros i m1. destruct (truthy _); [apply disconnect_one_mono|done].
Qed.

Lemma take_slots_mono start n num clss cntr m : mono m (on_con (take_slots start n num clss cntr) m).
Proof.
  apply con_mono. unfold take_slots. generalize (seqZ start n). intros l. generalize (ms_con m). induction l as [|i l IH]; intros c; [done|]. cbn [foldl]. by rewrite IH.
Qed.

Lemma release_all_mono num m :
  mono m (for_range CtrDrvrRamTableSIZE (fun i m => if ptim_slot num (ms_con m) i then release_slot i m else m) m).
Proof.
  apply for_range_mono; [done|]. intros i m1. destruct (ptim_slot _ _ _); [|done]. cbv beta delta [release_slot]. mono.
Qed.

Lemma set_action_mono act m : mono m (set_action act m).2.
Proof.
  unfold set_action. destruct (_ =? CtrDrvrConnectionClassHARD); [done|]. destruct (_ && _); [done|]. cbv zeta. cbn [snd].
  match goal with |- context [Io32Write (trig_at ?i) _ ?x] => set (m1 := x) end. assert (mono m m1) as M1 by (unfold m1; destruct (negb _); [done|apply take_slots_mono]). clearbody m1.
  match goal with |- context [Io32Write (trig_at ?i) ?w m1] => pose proof (Io32Write_mono w (trig_at i) m1) as M2; generalize dependent (Io32Write (trig_at i) w m1) end. intros m2 M2.
  match goal with |- context [Io32Write (conf_at ?i) ?w ?x] => pose proof (Io32Write_mono w (conf_at i) x) as M3; generalize dependent (Io32Write (conf_at i) w x) end. intros m3 M3.
  transitivity m1; [exact M1|]. transitivity m2; [exact M2|].
  transitivity m3; [etransitivity; [|exact M3]|]; by apply con_mono.
Qed.

(** ** The working area *)

(** The clients that are open. *)
Definition open_client (s : ctr) (k : Z) : Prop := 0 <= k < CtrDrvrCLIENT_CONTEXTS /\ cc_InUse (client_at k s) <> 0.

(** The tables of all modules, for the clients [live]. *)
Record tables_all (live : Z -> Prop) (s : ctr) : Prop := {
  ta_len : length (w_cons s) = 16%nat /\ length (w_cards s) = 16%nat /\ length (w_clients s) = 16%nat;
  ta_modules : 0 <= w_Modules s <= 16;
  ta_tables : forall mi, module_index mi = true -> tables_ok live (get_mst mi s);
  ta_unmapped : forall mi, w_Modules s <= mi < 16 -> mc_Map (con_at mi s) = 0;
}.

Record conn_ok (s : ctr) : Prop := {
  co_all : tables_all (open_client s) s;
  co_index : forall k, open_client s k -> cc_ClientIndex (client_at k s) = k;
  co_ctim : Forall (fun o => o.1 <> 0) (w_Ctim s);
}.

(** The run has gone outside of what the driver's memory means, or the tables
    agree. *)
Definition crashed (s : ctr) : Prop := g_oops (w_glob s) = true.
Definition sane (s : ctr) : Prop := crashed s \/ conn_ok s.

Lemma module_index_spec mi : module_index mi = true <-> 0 <= mi < 16.
Proof. unfold module_index, CtrDrvrMODULE_CONTEXTS. rewrite andb_true_iff, Z.leb_le, Z.ltb_lt. done. Qed.

Lemma get_put mi m s : 0 <= mi < 16 -> length (w_cons s) = 16%nat -> length (w_cards s) = 16%nat -> get_mst mi (put_mst mi m s) = m.
Proof.
  intros Hi H1 H2. unfold get_mst, con_at, put_mst. cbn [w_cons w_cards w_glob]. rewrite !nth_lookup, !list_lookup_insert_eq by lia. by destruct m.
Qed.

Lemma get_put_ne mi mj m s : 0 <= mi -> 0 <= mj -> mj <> mi ->
  ms_con (get_mst mj (put_mst mi m s)) = ms_con (get_mst mj s) /\ ms_card (get_mst mj (put_mst mi m s)) = ms_card (get_mst mj s).
Proof.
  intros Hi Hj Hne. unfold get_mst, con_at, put_mst. cbn. rewrite !nth_lookup, !list_lookup_insert_ne by lia. done.
Qed.

Lemma tables_ext live m m' : ms_con m' = ms_con m -> ms_card m' = ms_card m -> tables_ok live m -> tables_ok live m'.
Proof. intros E1 E2 [A B C D]. split; rewrite ?E1, ?E2; auto. Qed.

Lemma tables_weaken (live live' : Z -> Prop) m : (forall k, live k -> live' k) -> tables_ok live m -> tables_ok live' m.
Proof.
  intros H [A B C D]. split; [|intros j Hj k Hk Hb; by apply H, (B j Hj)|done|done].
  intros i Hi. destruct (A i Hi) as [S1 S2 S3 S4]. split; try done. intros k Hk Hb. by apply H, S4.
Qed.

(** An operation on one module, of those that keep its tables. *)
Definition proper (live : Z -> Prop) (f : mst -> mst) : Prop := forall m, mono m (f m) /\ (fine live m -> fine live (f m)).

Lemma proper_keeps live f : (forall m, keeps m (f m)) -> proper live f.
Proof. intros H m. split; [by apply keeps_mono|by apply keeps_fine]. Qed.

Lemma all_put live mi m s : 0 <= mi < 16 -> tables_all live s -> mono (get_mst mi s) m -> tables_ok live m -> tables_all live (put_mst mi m s).
Proof.
  intros Hi [(L1 & L2 & L3) M T U] [_ Em] Tm. split.
  - cbn. by rewrite !length_insert.
  - exact M.
  - intros mj Hj. apply module_index_spec in Hj as Hj'. destruct (Z.eq_dec mj mi) as [->|Hne]; [by rewrite get_put|].
    destruct (get_put_ne mi mj m s) as [E1 E2]; [lia..|]. apply (tables_ext _ (get_mst mj s)); [done..|]. by apply T.
  - intros mj Hj. change (con_at mj (put_mst mi m s)) with (ms_con (get_mst mj (put_mst mi m s))). cbn [w_Modules put_mst] in Hj. destruct (Z.eq_dec mj mi) as [->|Hne].
    + rewrite get_put by done. rewrite Em. by apply U.
    + destruct (get_put_ne mi mj m s) as [-> _]; [lia..|]. by apply U.
Qed.

Lemma conn_put mi m s : 0 <= mi < 16 -> conn_ok s -> mono (get_mst mi s) m -> tables_ok (open_client s) m -> conn_ok (put_mst mi m s).
Proof. intros Hi [A I C] M T. split; [by apply (all_put (open_client s))|exact I|exact C]. Qed.

Lemma run_sane {A} mi (f : mst -> A * mst) s : proper (open_client s) (fun m => (f m).2) -> sane s -> sane (run_module mi f s).2.
Proof.
  intros Hf H. unfold run_module. destruct (Hf (get_mst mi s)) as [M F]. destruct (f (get_mst mi s)) as [a m]. cbn [snd] in *.
  destruct (module_index mi) eqn:Ei; [|by left]. apply module_index_spec in Ei as Hi. destruct H as [H|H]; [left; by apply (mo_failed _ _ M)|].
  destruct F as [F|T]; [right; by apply (ta_tables _ _ (co_all _ H))|by left|]. right. by apply conn_put.
Qed.

Lemma on_module_sane mi f s : proper (open_client s) f -> sane s -> sane (on_module mi f s).
Proof. intros Hf. by apply run_sane. Qed.

Lemma run_open {A} mi (f : mst -> A * mst) s : open_client (run_module mi f s).2 = open_client s.
Proof. unfold run_module. destruct (f (get_mst mi s)) as [a m]. by destruct (module_index mi). Qed.

(** What a client does to itself. *)
Definition own_step (f : CtrDrvrClientContext -> CtrDrvrClientContext) : Prop := forall c, cc_InUse (f c) = cc_InUse c /\ cc_ClientIndex (f c) = cc_ClientIndex c.

Lemma client_at_on ci k f s : 0 <= k -> 0 <= ci -> client_at k (on_client ci f s) = (if decide (k = ci) then if decide (k < Z.of_nat (length (w_clients s))) then f (client_at k s) else ccon_zero else client_at k s).
Proof.
  intros Hk Hc. unfold client_at, on_client. cbn [w_clients set_w_clients]. rewrite !nth_lookup. destruct (decide (k = ci)) as [->|Hne].
  - rewrite list_lookup_alter_eq. destruct (decide _) as [Hl|Hl]; [|by rewrite lookup_ge_None_2 by lia].
    destruct (lookup_lt_is_Some_2 (w_clients s) (Z.to_nat ci) ltac:(lia)) as [c E]. by rewrite E.
  - by rewrite list_lookup_alter_ne by lia.
Qed.

Lemma clients_sane l s : length l = length (w_clients s) ->
  (forall k, 0 <= k < 16 -> cc_InUse (nth (Z.to_nat k) l ccon_zero) = cc_InUse (client_at k s) /\ cc_ClientIndex (nth (Z.to_nat k) l ccon_zero) = cc_ClientIndex (client_at k s)) ->
  sane s -> sane (set_w_clients l s).
Proof.
  intros Hl Hk [H|[[(L1 & L2 & L3) M T U] I C]]; [by left|right].
  assert (forall k, open_client s k <-> open_client (set_w_clients l s) k) as Ho.
  { intros k. unfold open_client. change CtrDrvrCLIENT_CONTEXTS with 16. split; intros [Hr Hu]; (split; [done|]); destruct (Hk k Hr) as [E _]; unfold client_at in *; cbn [w_clients set_w_clients] in *; congruence. }
  split; [split; [cbn; by rewrite Hl|exact M| |exact U]| |exact C].
  - intros mi Hi. apply (tables_weaken (open_client s)); [apply Ho|]. by apply T.
  - intros k Ok. apply Ho in Ok. pose proof (I k Ok) as Ek. destruct Ok as [Hr _]. destruct (Hk k Hr) as [_ E]. exact (eq_trans E Ek).
Qed.

Lemma own_sane ci f s : 0 <= ci < 16 -> own_step f -> sane s -> sane (on_client ci f s).
Proof.
  intros Hc Hf H. apply clients_sane; [by rewrite length_alter| |exact H].
  intros k Hk. pose proof (client_at_on ci k f s ltac:(lia) ltac:(lia)) as E. unfold client_at at 1, on_client in E. cbn [w_clients set_w_clients] in E. rewrite E.
  destruct (decide (k = ci)) as [->|]; [|done]. destruct (decide _) as [Hl|Hl]; [apply Hf|].
  unfold client_at. rewrite nth_overflow by lia. done.
Qed.

(** ** Open, close, connect, disconnect *)

Lemma open_sane minor pid s : sane s -> sane (CtrDrvrOpen minor pid s).2.
Proof.
  intros H. unfold CtrDrvrOpen. destruct (client_index (minor - 1)) eqn:Ei; cbn [negb]; [|exact H]. unfold client_index, CtrDrvrCLIENT_CONTEXTS in Ei.
  apply andb_true_iff in Ei as [E1%Z.leb_le E2%Z.ltb_lt]. set (n := minor - 1) in *. destruct (truthy _); [exact H|]. cbn [snd].
  destruct H as [H|[[(L1 & L2 & L3) M T U] I C]]; [by left|right].
  set (new := Ccon 1 0 pid n 0 CtrDrvrDEFAULT_TIMEOUT 0 (cdcm_sem_init 0) cqueue_zero).
  assert (forall k, 0 <= k -> client_at k (on_client n (fun _ => new) s) = if decide (k = n) then new else client_at k s) as Ea.
  { intros k Hk. rewrite client_at_on by lia. destruct (decide (k = n)); [|done]. by rewrite decide_True by lia. }
  split; [split; [cbn; by rewrite length_alter|exact M| |exact U]| |exact C].
  - intros mi Hi. apply (tables_weaken (open_client s)); [|by apply T]. intros k [Hr Hu]. split; [exact Hr|]. rewrite Ea by lia. destruct (decide (k = n)); [discriminate|exact Hu].
  - intros k [Hr Hu]. rewrite Ea in Hu |- * by lia. destruct (decide (k = n)) as [->|]; [done|]. by apply I.
Qed.

Section All.
Context (beyond : Z -> Z).

(** Every module, one after the other. *)
Lemma disconnect_all_spec live ci s : 0 <= ci < 32 -> crashed s \/ tables_all live s ->
  let s' := for_range (w_Modules s) (fun midx s => on_module midx (disconnect_module beyond ci) s) s in
  (crashed s' \/ tables_all live s' /\ forall mi, 0 <= mi < 16 -> gone ci (get_mst mi s')) /\
  w_clients s' = w_clients s /\ w_Ctim s' = w_Ctim s.
Proof.
  intros Hc H. cbv zeta. destruct (Z_le_gt_dec 0 (w_Modules s)) as [Hm|Hm].
  2: { assert (for_range (w_Modules s) (fun midx s => on_module midx (disconnect_module beyond ci) s) s = s) as ->.
       { unfold for_range, seqZ. by replace (Z.to_nat (w_Modules s)) with 0%nat by lia. }
       destruct H as [H|[_ M _ _]]; [|lia]. split; [by left|done]. }
  assert ((crashed (for_range (w_Modules s) (fun midx s => on_module midx (disconnect_module beyond ci) s) s) \/
     tables_all live (for_range (w_Modules s) (fun midx s => on_module midx (disconnect_module beyond ci) s) s) /\
     forall mi, 0 <= mi < w_Modules s -> gone ci (get_mst mi (for_range (w_Modules s) (fun midx s => on_module midx (disconnect_module beyond ci) s) s))) /\
     w_clients (for_range (w_Modules s) (fun midx s => on_module midx (disconnect_module beyond ci) s) s) = w_clients s /\
     w_Ctim (for_range (w_Modules s) (fun midx s => on_module midx (disconnect_module beyond ci) s) s) = w_Ctim s /\
     w_Modules (for_range (w_Modules s) (fun midx s => on_module midx (disconnect_module beyond ci) s) s) = w_Modules s) as (F & Ec & Et & Em).
  { apply (for_range_ind (fun k s' => (crashed s' \/ tables_all live s' /\ forall mi, 0 <= mi < k -> gone ci (get_mst mi s')) /\
      w_clients s' = w_clients s /\ w_Ctim s' = w_Ctim s /\ w_Modules s' = w_Modules s)); [exact Hm| |].
    - split; [|done]. destruct H as [H|H]; [by left|right]. split; [exact H|lia].
    - intros k s1 Hk (F & Ec & Et & Em). unfold on_module, run_module. cbn [snd].
      pose proof (disconnect_module_mono beyond ci (get_mst k s1)) as Mo. pose proof (disconnect_module_spec beyond ci Hc live (get_mst k s1)) as Sp.
      generalize dependent (disconnect_module beyond ci (get_mst k s1)). intros m1 Mo Sp. destruct (module_index k) eqn:Ei; [|split; [by left|done]].
      apply module_index_spec in Ei as Hi. split; [|done]. destruct F as [F|[T B]]; [left; by apply (mo_failed _ _ Mo)|].
      destruct Sp as [Fm|[Tm Bm]]; [right; by apply (ta_tables _ _ T)|by left|right]. pose proof (ta_len _ _ T) as (L1 & L2 & _).
      split; [by apply all_put|]. intros mi Hmi. destruct (Z.eq_dec mi k) as [->|Hne]; [by rewrite get_put|].
      destruct (get_put_ne k mi m1 s1) as [E1 E2]; [lia..|]. unfold gone. rewrite E1. apply B. lia. }
  generalize dependent (for_range (w_Modules s) (fun midx s => on_module midx (disconnect_module beyond ci) s) s). intros s' F Ec Et Em.
  split; [|done]. destruct F as [F|[T B]]; [by left|right]. split; [exact T|]. intros mi Hmi. destruct (Z_lt_le_dec mi (w_Modules s)) as [Hlt|Hge]; [apply B; lia|].
  pose proof (ta_unmapped _ _ T mi ltac:(lia)) as Hu. pose proof (ta_tables _ _ T mi (proj2 (module_index_spec mi) Hmi)) as [_ _ Hf _].
  destruct (Hf Hu) as [Z1 Z2]. split; [intros i Hi; rewrite Z1 by done|intros j Hj; rewrite Z2 by done]; apply Z.bits_0.
Qed.

Lemma tables_remove (live live' : Z -> Prop) ci m : gone ci m -> (forall k, live k -> k <> ci -> live' k) -> tables_ok live m -> tables_ok live' m.
Proof.
  intros [G1 G2] H [A B C D]. split; [| |done|done].
  - intros i Hi. destruct (A i Hi) as [S1 S2 S3 S4]. split; try done. intros k Hk Hb. apply H; [by apply S4|]. intros ->. by rewrite G1 in Hb.
  - intros j Hj k Hk Hb. apply H; [by apply (B j)|]. intros ->. by rewrite G2 in Hb.
Qed.

Lemma on_module_crashed mi f s : (forall m, mono m (f m)) -> crashed s -> crashed (on_module mi f s).
Proof.
  intros Hf H. unfold on_module, run_module. cbn [snd]. destruct (module_index mi); [|done]. by apply (mo_failed _ _ (Hf (get_mst mi s))).
Qed.

Lemma disconnect_all_crashed n s : crashed s -> crashed (DisConnectAll beyond n s).
Proof.
  intros H. unfold DisConnectAll. cbv zeta. generalize (cc_ClientIndex (client_at n s)). intros ci.
  destruct (Z_le_gt_dec 0 (w_Modules s)) as [Hm|Hm].
  - apply (for_range_ind (fun _ s' => crashed s')); [done..|]. intros k s1 _. apply on_module_crashed. intros m. apply disconnect_module_mono.
  - unfold for_range, seqZ. by replace (Z.to_nat (w_Modules s)) with 0%nat by lia.
Qed.

(** A client that is open stays open and is connected nowhere. *)
Lemma disconnect_all_sane n s : open_client s n -> sane s -> sane (DisConnectAll beyond n s).
Proof.
  intros Ho [H|[A I C]]; [left; by apply disconnect_all_crashed|]. unfold DisConnectAll. cbv zeta. rewrite (I n Ho).
  destruct (disconnect_all_spec (open_client s) n s) as (F & Ec & Et); [destruct Ho as [Hr _]; change CtrDrvrCLIENT_CONTEXTS with 16 in Hr; lia|by right|]. cbv zeta in *.
  generalize dependent (for_range (w_Modules s) (fun midx s => on_module midx (disconnect_module beyond n) s) s). intros s' F Ec Et.
  destruct F as [F|[T _]]; [by left|right]. assert (open_client s' = open_client s) as Eo by (unfold open_client, client_at; by rewrite Ec).
  split; [by rewrite Eo|rewrite Eo; unfold client_at; rewrite Ec; exact I|by rewrite Et].
Qed.

(** Closing: the client is nowhere any more. *)
Lemma close_sane minor s : open_client s (minor - 1) -> sane s -> sane (CtrDrvrClose beyond minor s).2.
Proof.
  intros Ho H. unfold CtrDrvrClose. set (n := minor - 1) in *. pose proof Ho as [Hr _]. change CtrDrvrCLIENT_CONTEXTS with 16 in Hr.
  destruct (client_index n); cbn [negb]; [|exact H]. cbn [snd]. set (s1 := on_client n _ s).
  destruct H as [H|[A I C]]; [left; by apply disconnect_all_crashed|]. pose proof A as [(L1 & L2 & L3) M T U].
  assert (forall k, 0 <= k -> client_at k s1 = if decide (k = n) then set_cc_Timer 0 (set_cc_InUse 0 (client_at k s)) else client_at k s) as Ea.
  { intros k Hk. unfold s1. rewrite client_at_on by lia. destruct (decide (k = n)); [|done]. by rewrite decide_True by lia. }
  assert (tables_all (open_client s) s1) as A1 by (split; [unfold s1; cbn; by rewrite length_alter|exact M|exact T|exact U]).
  unfold DisConnectAll. cbv zeta. rewrite Ea by lia. rewrite decide_True by done. cbn [cc_ClientIndex set_cc_Timer set_cc_InUse]. rewrite (I n Ho).
  destruct (disconnect_all_spec (open_client s) n s1) as (F & Ec & Et); [lia|by right|]. cbv zeta in *.
  generalize dependent (for_range (w_Modules s1) (fun midx s => on_module midx (disconnect_module beyond n) s) s1). intros s' F Ec Et.
  assert (forall k, open_client s' k <-> open_client s k /\ k <> n) as Eo.
  { intros k. unfold open_client, client_at at 1. rewrite Ec. change (nth (Z.to_nat k) (w_clients s1) ccon_zero) with (client_at k s1). split.
    - intros [Hk Hu]. rewrite Ea in Hu by lia. destruct (decide (k = n)); [done|]. done.
    - intros [[Hk Hu] Hne]. rewrite Ea by lia. by rewrite decide_False. }
  destruct F as [F|[Ta G]]; [by left|right]. split.
  - destruct Ta as [L' M' T' U']. split; [exact L'|exact M'| |exact U'].
    intros mi Hi. apply (tables_remove (open_client s) _ n); [by apply G, module_index_spec| |by apply T']. intros k Hk Hne. apply Eo. by split.
  - intros k Hk. apply Eo in Hk as [Hk Hne]. unfold client_at. rewrite Ec. change (nth (Z.to_nat k) (w_clients s1) ccon_zero) with (client_at k s1).
    rewrite Ea by (destruct Hk; lia). rewrite decide_False by done. by apply I.
  - by rewrite Et.
Qed.

Lemma ctim_frame_zero s : Forall (fun o => o.1 <> 0) (w_Ctim s) -> ctim_frame 0 s = 0.
Proof.
  intros H. unfold ctim_frame. destruct (list_find _ _) as [[k o]|] eqn:E; [|done]. apply list_find_Some in E as (E & Ho & _).
  exfalso. rewrite Forall_lookup in H. by apply (H k o E).
Qed.

Lemma client_shift n : 0 <= n < 16 -> 0 <= n < 32.
Proof. lia. Qed.

Lemma connect_sane conx n s : open_client s n -> sane s -> sane (Connect conx n s).2.
Proof.
  intros Ho H. assert (crashed s \/ cc_ClientIndex (client_at n s) = n /\ Forall (fun o => o.1 <> 0) (w_Ctim s)) as Hi
    by (destruct H as [H|H]; [by left|right; split; [by apply (co_index _ H)|exact (co_ctim _ H)]]).
  pose proof Ho as [Hr _]. change CtrDrvrCLIENT_CONTEXTS with 16 in Hr.
  assert (forall (f : Z -> mst -> Z * mst) mi, (forall c m, mono m (f c m).2) -> ((forall c m, fine (open_client s) m -> 0 <= c < 32 -> open_client s c -> Forall (fun o => o.1 <> 0) (w_Ctim s) -> fine (open_client s) (f c m).2)) ->
     sane (run_module mi (f (cc_ClientIndex (client_at n s))) s).2) as Hgo.
  { intros f mi Hm Hf. destruct Hi as [Hcr|[Ei Hct]].
    - left. pose proof (on_module_crashed mi (fun m => (f (cc_ClientIndex (client_at n s)) m).2) s (fun m => Hm _ m) Hcr) as Hx.
      unfold on_module, run_module in Hx |- *. cbn [snd] in Hx. by destruct (f _ _).
    - rewrite Ei. apply run_sane; [|exact H]. intros m. split; [apply Hm|]. intros F. apply Hf; [exact F|lia|exact Ho|exact Hct]. }
  unfold Connect. cbv zeta. set (mi := if module_index _ then _ else _).
  destruct (cn_EqpClass conx =? CtrDrvrConnectionClassPTIM).
  - destruct (0 <=? _); [|exact H]. apply (Hgo (fun c => enabled (connect_ptim (cn_EqpNum conx) (shl1 c)))).
    + intros c m. apply enabled_mono, connect_ptim_mono.
    + intros c m F Hc Hl _. by apply enabled_fine, connect_ptim_fine.
  - destruct (cn_EqpClass conx =? CtrDrvrConnectionClassCTIM).
    + apply (Hgo (fun c => enabled (connect_ctim (cn_EqpNum conx) (ctim_frame (cn_EqpNum conx) s) (shl1 c)))).
      * intros c m. apply enabled_mono, connect_ctim_mono.
      * intros c m F Hc Hl Hct. apply enabled_fine, connect_ctim_fine; [done..| |exact F]. intros ->. by apply ctim_frame_zero.
    + apply (Hgo (fun c => enabled (connect_hard (cn_EqpNum conx) (shl1 c)))).
      * intros c m. apply enabled_mono, connect_hard_mono.
      * intros c m F Hc Hl _. by apply enabled_hard_fine.
Qed.

Lemma disconnect_sane conx n s : open_client s n -> sane s -> sane (DisConnect beyond conx n s).
Proof.
  intros Ho H. unfold DisConnect. cbv zeta.
  assert (crashed s \/ 0 <= cc_ClientIndex (client_at n s) < 32) as Hi.
  { destruct H as [H|H]; [by left|right]. rewrite (co_index _ H n Ho). destruct Ho as [Hr _]. change CtrDrvrCLIENT_CONTEXTS with 16 in Hr. lia. }
  assert (forall m, mono m (if negb (cn_EqpClass conx =? CtrDrvrConnectionClassHARD) then
      for_range CtrDrvrRamTableSIZE (fun i m => if matches (cn_EqpNum conx) (cn_EqpClass conx) (ms_con m) i then DisConnectOne beyond i (cn_EqpClass conx) (cc_ClientIndex (client_at n s)) m else m) m
    else disconnect_hard beyond (cc_ClientIndex (client_at n s)) m)) as Hm.
  { intros m. destruct (negb _); [|apply disconnect_hard_mono]. apply for_range_mono; [done|]. intros i m1. destruct (matches _ _ _ i); [apply disconnect_one_mono|done]. }
  destruct Hi as [Hi|Hi]; [left; by apply on_module_crashed|].
  apply on_module_sane; [|exact H]. intros m. split; [apply Hm|]. intros F. destruct (Z.eqb_spec (cn_EqpClass conx) CtrDrvrConnectionClassHARD) as [E|E]; cbn [negb].
  - by apply (disconnect_hard_spec beyond _ Hi (open_client s) m).
  - by apply disconnect_objects_fine.
Qed.
End All.

(** ** Ioctls *)

(** The ioctls that the theorem is about: no object has the number 0, which the
    driver uses for an empty slot; a PLL configuration is eight words; a raw
    write leaves the configurations of the slots alone. *)
Definition legal (cm : CtrDrvrControlFunction) : Prop :=
  match cm with
  | CREATE_CTIM_OBJECT num _ => num <> 0
  | CREATE_PTIM_OBJECT p => p_EqpNum p <> 0
  | SET_PLL pll => length pll = 8%nat
  | RAW_WRITE _ offset uary => forall k, 0 <= k < Z.of_nat (length uary) -> off_conf (s32 (offset + k))
  | _ => True
  end.

Lemma outputs_mono m : mono m (foldl (fun m i => let '(v, m) := HRd (RemOutMask_w i) m in
    if v =? 0 then HWr (AutoShiftLeft CtrDrvrCntrCntrlOUT_MASK (shl1 i)) (RemOutMask_w i) m else m) m (seqZ CtrDrvrCounter1 8)).
Proof. apply keeps_mono, outputs_keeps. Qed.

Lemma Reset_mono m : mono m (Reset m).
Proof.
  cbv beta delta [Reset].
  repeat match goal with
  | |- mono ?a (let x := ?e in @?b x) =>
      first [refine (mono_state a e b _ _);
             [first [mono_step | etransitivity; [|apply outputs_mono]; eassumption | etransitivity; [|apply keeps_mono, EnableInterrupts_keeps]; eassumption
                    | match goal with |- mono _ (if ?x then _ else _) => destruct x end; mono_step]|intros ? ?; cbv beta]
            | refine (mono_value a e b _); intros ?; cbv beta]
  end.
  etransitivity; [|apply keeps_mono, state_reset_keeps]. eassumption.
Qed.

Lemma proper_fine live f : (forall m, mono m (f m)) -> (forall m, tables_ok live m -> fine live (f m)) -> proper live f.
Proof. intros Hm Hf m. split; [apply Hm|]. intros [F|T]; [left; by apply (mo_failed _ _ (Hm m))|by apply Hf]. Qed.

Lemma Reset_proper live : proper live Reset.
Proof.
  apply proper_fine; [apply Reset_mono|]. intros m T. apply (keeps_fine _ m); [|by right]. apply Reset_keeps. exact (to_pll _ _ T).
Qed.

Lemma SetPll_proper live pll : length pll = 8%nat -> proper live (fun m => on_con (set_mc_Pll pll) (Io32Write Pll_w pll m)).
Proof.
  intros Hl. apply proper_fine.
  - intros m. etransitivity; [apply Io32Write_mono|by apply con_mono].
  - intros m T. assert (keeps m (Io32Write Pll_w pll m)) as K by (apply Io32Write_low; rewrite Hl; by vm_compute).
    destruct (keeps_fine live _ _ K (or_intror T)) as [F|[A B C D]]; [by left|right]. split; [|exact B|exact C|exact Hl].
    intros i Hi. by destruct (A i Hi).
Qed.

Lemma take_slots_proper live start n num clss cntr : num <> 0 -> object_class clss -> proper live (on_con (take_slots start n num clss cntr)).
Proof. intros Hn Hc m. split; [apply take_slots_mono|by apply take_slots_fine]. Qed.

Lemma set_action_proper live act : is_slot (ac_TriggerNumber act - 1) -> proper live (fun m => (set_action act m).2).
Proof. intros Hi m. split; [apply set_action_mono|by apply set_action_fine]. Qed.

Lemma swap_remove_sub {A} (P : A -> Prop) i (l : list A) : Forall P l -> Forall P (swap_remove i l).
Proof.
  intros H. unfold swap_remove. destruct (last l) as [x|] eqn:E; [|exact H]. apply last_Some_elem_of in E.
  apply Forall_take, Forall_insert; [exact H|]. rewrite Forall_forall in H. by apply H.
Qed.

Lemma ptim_sane l s : sane s -> sane (set_w_Ptim l s).
Proof. intros [H|[[A B C D] I J]]; [by left|right]. split; [by split|exact I|exact J]. Qed.

Lemma ctim_sane l s : (Forall (fun o => o.1 <> 0) (w_Ctim s) -> Forall (fun o => o.1 <> 0) l) -> sane s -> sane (set_w_Ctim l s).
Proof. intros Hl [H|[[A B C D] I J]]; [by left|right]. split; [by split|exact I|by apply Hl]. Qed.

Lemma create_ptim_sane p s : p_EqpNum p <> 0 -> sane s -> sane (create_ptim p s).2.
Proof.
  intros Hn H. unfold create_ptim. destruct (existsb _ _); [exact H|]. destruct (_ <=? _); [exact H|]. destruct (_ <? _); [|exact H].
  destruct (free_run _ _ _ _ _) as [start|]; [|exact H]. cbn [snd]. apply ptim_sane. apply on_module_sane; [|exact H].
  apply take_slots_proper; [exact Hn|by right].
Qed.

Lemma destroy_ptim_sane p s : sane s -> sane (destroy_ptim p s).2.
Proof.
  intros H. unfold destroy_ptim. destruct (negb _); [exact H|]. cbv zeta. destruct (existsb _ _) eqn:Ex; [exact H|]. destruct (_ =? _)%nat; [exact H|]. cbn [snd].
  assert (sane (on_module (p_ModuleIndex p) (for_range CtrDrvrRamTableSIZE (fun i m => if ptim_slot (p_EqpNum p) (ms_con m) i then release_slot i m else m)) s)) as H1.
  { pose proof (release_all_mono (p_EqpNum p) (get_mst (p_ModuleIndex p) s)) as Mo. unfold on_module, run_module. cbn [snd].
    destruct (module_index (p_ModuleIndex p)) eqn:Ei; [|by left]. destruct H as [H|H]; [left; by apply (mo_failed _ _ Mo)|].
    pose proof (ta_tables _ _ (co_all _ H) _ Ei) as T. destruct (release_all_fine (open_client s) (p_EqpNum p) (get_mst (p_ModuleIndex p) s)) as [F|T']; [|by right|by left|].
    - intros i Hi Hs. destruct (Z.eq_dec (Clients (ms_con (get_mst (p_ModuleIndex p) s)) i) 0) as [E|E]; [exact E|exfalso].
      apply not_true_iff_false in Ex. apply Ex. apply existsb_exists. exists i. split.
      + apply list_elem_of_In, list_elem_of_filter. split; [exact Hs|]. apply elem_of_seqZ. unfold is_slot in Hi. lia.
      + unfold truthy. apply negb_true_iff, Z.eqb_neq. exact E.
    - right. apply conn_put; [by apply module_index_spec|done..]. }
  destruct (list_find _ _) as [[i o]|]; [by apply ptim_sane|exact H1].
Qed.

Lemma reply_sane {A} mi (k : A -> ctr_out) f s : proper (open_client s) (fun m => (f m).2) -> sane s -> sane (reply mi k f s).2.
Proof.
  intros Hf H. unfold reply. pose proof (run_sane mi f s Hf H) as H1. by destruct (run_module mi f s) as [a s1].
Qed.

Lemma real_counter_low i : real_counter i = true -> RemOutMask_w i < Configs_w /\ LockConfig_w i < Configs_w.
Proof.
  unfold real_counter, CtrDrvrCounter1, CtrDrvrCounter8, RemOutMask_w, LockConfig_w, counter_at, Counters_w, Configs_w.
  intros [H1%Z.leb_le H2%Z.leb_le]%andb_true_iff. lia.
Qed.

Lemma act_sane mi f s : proper (open_client s) f -> sane s -> sane (act_on mi f s).2.
Proof. apply on_module_sane. Qed.

Lemma own_client_sane ci f s : open_client s ci -> own_step f -> sane s -> sane (on_client ci f s).
Proof. intros [Hr _] Hf H. by apply own_sane. Qed.

#[export] Hint Resolve GetVersion_keeps GetStatus_keeps GetTime_keeps HRd_keeps Io32Read_keeps get_action_keeps HptdcCommand_keeps SetTime_keeps
  EnableInterrupts_keeps command_keeps enable_keeps HardToConfig_keeps read_keeps : ctr_keeps.
#[export] Hint Resolve reply_sane act_sane own_client_sane ptim_sane : ctr_sane.

(** A command that leaves the tables of its module alone. *)
Ltac keeps_all := apply proper_keeps; intros ?; first [solve [auto with ctr_keeps] | solve [by apply con_keeps; split_and!] | solve [apply jtag_keeps]
  | solve [keep; auto with ctr_keeps]].
Ltac plain_case := first [assumption | solve [apply own_client_sane; [assumption|by intros ?|assumption]] | solve [apply reply_sane; [keeps_all|assumption]] | solve [apply act_sane; [keeps_all|assumption]]].

Section Commands.
Context (beyond : Z -> Z).

Lemma status_sane cm ci mi s : legal cm -> sane s -> sane (status_command cm ci mi s).2.
Proof.
  intros Hl H. destruct cm; cbn [status_command]; try plain_case.
  { apply act_sane; [by apply SetPll_proper|exact H]. }
  destruct (_ && _); plain_case.
Qed.

(** A read whose value decides what follows. *)
Lemma after_read_sane {A} mi (f : mst -> A * mst) (k : A -> ctr -> Z * ctr_out * ctr) s : (forall m, keeps m (f m).2) ->
  (forall a s, sane s -> sane (k a s).2) -> sane s -> sane (let '(a, s) := run_module mi f s in k a s).2.
Proof.
  intros Hf Hk H. assert (sane (run_module mi f s).2) as H1 by (apply run_sane; [by apply proper_keeps|exact H]).
  destruct (run_module mi f s) as [a s1]. by apply Hk.
Qed.

Lemma counter_sane cm ci mi s : legal cm -> sane s -> sane (counter_command cm ci mi s).2.
Proof.
  intros Hl H. destruct cm; cbn [counter_command]; try exact (status_sane _ ci mi s Hl H); try plain_case.
  - (* GET_OUT_MASK *) destruct (real_counter cntr); plain_case.
  - (* SET_OUT_MASK *) destruct (real_counter cntr) eqn:E; [|exact H]. apply real_counter_low in E as [E1 E2].
    cbv zeta. apply act_sane; [|exact H]. apply proper_keeps. intros m. apply HWr_keeps, off_conf_low, E1.
  - destruct (real_counter cntr); plain_case.
  - destruct (real_counter cntr); plain_case.
  - (* SET_REMOTE *) destruct (real_counter cntr) eqn:E; [|exact H]. apply real_counter_low in E as [E1 E2].
    apply act_sane; [|exact H]. apply proper_keeps. intros m. apply HWr_keeps, off_conf_low, E2.
  - (* REMOTE *) destruct (real_counter cntr) eqn:E; [|exact H]. apply real_counter_low in E as [E1 E2].
    apply after_read_sane; [apply HRd_keeps| |exact H]. intros lock s1 H1. destruct (truthy lock); [|exact H1].
    apply act_sane; [|exact H1]. apply proper_keeps. intros m. apply HWr_keeps, off_conf_low, E1.
  - (* GET_CONFIG *) destruct (_ && _); [|exact H]. apply after_read_sane; [apply HardToConfig_keeps| |exact H]. intros c s1 H1. by destruct (_ || _).
  - (* SET_CONFIG *) apply after_read_sane; [apply read_keeps| |exact H]. intros lock s1 H1. destruct (truthy lock); cbn [andb]; [|exact H1].
    destruct (_ && _) eqn:E; [|exact H1]. apply act_sane; [|exact H1]. apply proper_keeps. intros m. apply Io32Write_low.
    unfold CtrDrvrCounter0, CtrDrvrCounter8 in E. apply andb_true_iff in E as [E1%Z.leb_le E2%Z.leb_le].
    unfold Config_w, counter_at, Counters_w, Configs_w. cbn. lia.
  - (* SET_OUTPUT_BYTE *) destruct (_ && _); plain_case.
Qed.

Lemma object_sane cm ci mi s : legal cm -> sane s -> sane (object_command cm ci mi s).2.
Proof.
  intros Hl H. destruct cm; cbn [object_command]; try exact (counter_sane _ ci mi s Hl H); try plain_case.
  - destruct (_ && _); plain_case.
  - (* SET_ACTION *) destruct (_ && _) eqn:E; [|exact H]. apply andb_true_iff in E as [E1%Z.ltb_lt E2%Z.leb_le].
    assert (sane (run_module mi (set_action act) s).2) as H1.
    { apply run_sane; [|exact H]. apply set_action_proper. unfold is_slot. lia. }
    destruct (run_module mi (set_action act) s) as [[a|] s1]; exact H1.
  - (* CREATE_CTIM_OBJECT *) destruct (existsb _ _); [exact H|]. destruct (_ <? _); [|exact H]. cbn [ok snd]. apply ctim_sane; [|exact H].
    intros Hf. apply Forall_app. split; [exact Hf|]. by constructor.
  - (* DESTROY_CTIM_OBJECT *) destruct (list_find _ _) as [[i o]|]; [|exact H]. destruct (ctim_in_use _ _); [exact H|]. cbn [ok snd].
    apply ctim_sane; [|exact H]. apply swap_remove_sub.
  - (* CHANGE_CTIM_FRAME *) destruct (list_find _ _) as [[i o]|] eqn:E; [|exact H]. destruct (ctim_in_use _ _); [exact H|]. cbn [ok snd].
    apply list_find_Some in E as (E & _). apply ctim_sane; [|exact H]. intros Hf. apply Forall_insert; [exact Hf|]. rewrite Forall_lookup in Hf. exact (Hf i o E).
  - pose proof (create_ptim_sane p s Hl H) as H1. by destruct (create_ptim p s).
  - pose proof (destroy_ptim_sane p s H) as H1. by destruct (destroy_ptim p s).
  - destruct (list_find _ _) as [[i o]|]; exact H.
Qed.

Lemma RawIo_proper live offset uary flag : (flag = true -> forall k, 0 <= k < Z.of_nat (length uary) -> off_conf (s32 (offset + k))) ->
  proper live (fun m => (RawIo offset uary flag m).2).
Proof.
  intros Hf. apply proper_keeps. intros m. unfold RawIo. pose proof (RawIo_keeps flag uary offset m Hf) as K. by destruct (RawIo_loop flag offset uary m).
Qed.

Lemma chip_sane cm ci mi s : legal cm -> sane s -> sane (chip_command cm ci mi s).2.
Proof.
  intros Hl H. destruct cm; cbn [chip_command]; try exact (object_sane _ ci mi s Hl H); try plain_case.
  - (* JTAG_OPEN *) cbv zeta. assert (sane (on_module mi (on_con (set_mc_IrqBalance 0)) s)) as H1 by (apply on_module_sane; [keeps_all|exact H]).
    destruct (truthy _); cbn [ok fail snd]; (apply on_module_sane; [keeps_all|exact H1]).
  - destruct (truthy _); plain_case.
  - destruct (truthy _); plain_case.
  - destruct (truthy _); plain_case.
  - (* RAW_READ *) destruct (raw_fits size); [|exact H].
    assert (sane (run_module mi (RawIo offset (replicate (Z.to_nat size) 0) false) s).2) as H1 by (apply run_sane; [by apply RawIo_proper|exact H]).
    destruct (run_module _ _ s) as [[[l n]|] s1]; exact H1.
  - (* RAW_WRITE *) destruct (raw_fits size); [|exact H].
    assert (sane (run_module mi (RawIo offset uary true) s).2) as H1 by (apply run_sane; [by apply RawIo_proper|exact H]).
    destruct (run_module _ _ s) as [[[l n]|] s1]; exact H1.
Qed.

Lemma client_sane cm ci mi s : legal cm -> open_client s ci -> sane s -> sane (client_command beyond cm ci mi s).2.
Proof.
  intros Hl Ho H. destruct cm; cbn [client_command]; try exact (chip_sane _ ci mi s Hl H); try plain_case.
  - (* SET_MODULE *) destruct (_ && _); [|exact H]. cbn [ok snd]. apply on_module_sane; [keeps_all|]. by apply own_client_sane.
  - (* RESET *) apply act_sane; [apply Reset_proper|exact H].
  - (* CONNECT *) pose proof (connect_sane conx ci s Ho H) as H1. by destruct (Connect conx ci s).
  - (* DISCONNECT *) cbn [ok snd]. destruct (truthy _); [by apply disconnect_sane|by apply disconnect_all_sane].
  - (* GET_CLIENT_CONNECTIONS *) destruct (client_connections pid s) as [l [[|]|]]; [by left|exact H..].
  - destruct (truthy _); plain_case.
Qed.

Lemma ioctl_sane cm minor s : legal cm -> sane s -> sane (CtrDrvrIoctl beyond cm minor s).2.
Proof.
  intros Hl H. unfold CtrDrvrIoctl. set (n := minor - 1). destruct (client_index n) eqn:Ei; cbn [negb]; [|exact H]. cbv zeta.
  destruct (Z.eqb_spec (cc_InUse (client_at n s)) 0) as [E|E]; [exact H|]. destruct (_ =? 0); [exact H|].
  unfold client_index, CtrDrvrCLIENT_CONTEXTS in Ei. apply andb_true_iff in Ei as [E1%Z.leb_le E2%Z.ltb_lt].
  set (f := fun m => let '(k, m) := GetClrBusErrCnt m in _). assert (sane (on_module (cc_ModuleIndex (client_at n s)) f s)) as H1.
  { apply on_module_sane; [|exact H]. apply proper_keeps. intros m. unfold f. pose proof (clr_keeps m) as K. destruct (GetClrBusErrCnt m) as [k m1]. cbn [snd] in K. keep. }
  apply client_sane; [exact Hl| |exact H1]. unfold on_module. rewrite run_open. by split.
Qed.
End Commands.

(** ** Interrupts, writes and readers *)

Lemma queue_own rb : own_step (queue_event rb).
Proof. intros c. unfold queue_event. by destruct (_ <? _). Qed.

Lemma deliver_same clients rb l : length (deliver clients rb l) = length l /\
  forall k, cc_InUse (nth k (deliver clients rb l) ccon_zero) = cc_InUse (nth k l ccon_zero) /\ cc_ClientIndex (nth k (deliver clients rb l) ccon_zero) = cc_ClientIndex (nth k l ccon_zero).
Proof.
  unfold deliver. split; [by rewrite length_imap|]. intros k. rewrite !nth_lookup, list_lookup_imap. destruct (l !! k) as [c|]; [|done]. cbn.
  destruct (Z.testbit _ _); [apply queue_own|done].
Qed.

Lemma deliver_sane clients rb s : sane s -> sane (set_w_clients (deliver clients rb (w_clients s)) s).
Proof.
  intros H. destruct (deliver_same clients rb (w_clients s)) as [L E]. apply clients_sane; [exact L| |exact H]. intros k _. apply E.
Qed.

Lemma interrupt_sane mi s : module_index mi = true -> sane s -> sane (IntrHandler mi s).2.
Proof.
  intros Hi H. unfold IntrHandler.
  assert (exists isrc m, keeps (get_mst mi s) m /\ (let '(isrc, m) := IHRd InterruptSource (get_mst mi s) in
    if truthy (isr_bus_error (ms_glob m)) then let '(isrc, m) := IHRd InterruptSource m in (if truthy (isr_bus_error (ms_glob m)) then 0 else isrc, m) else (isrc, m)) = (isrc, m)) as (isrc & m & K & E).
  { pose proof (IHRd_keeps InterruptSource (get_mst mi s)) as K1. destruct (IHRd InterruptSource (get_mst mi s)) as [v1 m1]. cbn [snd] in K1.
    destruct (truthy _); [|by exists v1, m1]. pose proof (IHRd_keeps InterruptSource m1) as K2. destruct (IHRd InterruptSource m1) as [v2 m2]. cbn [snd] in K2.
    eexists _, m2. split; [by transitivity m1|reflexivity]. }
  destruct (IHRd InterruptSource (get_mst mi s)) as [v1 m1]. rewrite E.
  match goal with |- sane (let '(_, _) := for_range ?n ?f ?x in _).2 =>
    assert (keeps (get_mst mi s) (for_range n f x).1 /\ length (for_range n f x).2 = length (w_clients s) /\
      forall k, cc_InUse (nth k (for_range n f x).2 ccon_zero) = cc_InUse (nth k (w_clients s) ccon_zero) /\ cc_ClientIndex (nth k (for_range n f x).2 ccon_zero) = cc_ClientIndex (nth k (w_clients s) ccon_zero)) as (K' & L & Ec) end.
  { apply (for_range_ind (fun _ (x : mst * list CtrDrvrClientContext) => keeps (get_mst mi s) x.1 /\ length x.2 = length (w_clients s) /\
      forall k, cc_InUse (nth k x.2 ccon_zero) = cc_InUse (nth k (w_clients s) ccon_zero) /\ cc_ClientIndex (nth k x.2 ccon_zero) = cc_ClientIndex (nth k (w_clients s) ccon_zero))); [done|done|].
    intros i [m2 l] _ (K2 & L & Ec). cbn [fst snd] in *. destruct (truthy (Z.land (shl1 i) isrc)); [|by split_and!]. pose proof (source_event_keeps i m2) as K3.
    destruct (source_event i m2) as [[cl rb] m3]. cbn [fst snd] in *. destruct (deliver_same cl rb l) as [L' E']. split_and!; [by transitivity m2|congruence|].
    intros k. destruct (E' k) as [-> ->]. apply Ec. }
  destruct (for_range _ _ _) as [m2 l]. cbn [fst snd] in *.
  apply clients_sane; [exact L|intros k _; apply Ec|].
  apply module_index_spec in Hi as Hi'. destruct H as [H|H]; [left; by apply (kp_failed _ _ K')|].
  destruct (keeps_fine (open_client s) _ _ K' (or_intror (ta_tables _ _ (co_all _ H) mi Hi))) as [F|T]; [by left|right].
  apply conn_put; [done|done|by apply keeps_mono|done].
Qed.

Lemma write_sane wb s : sane s -> sane (CtrDrvrWrite wb s).2.
Proof.
  intros H. unfold CtrDrvrWrite. destruct (negb (module_index _)); [exact H|]. cbv zeta.
  match goal with |- context [write_event wb (con_at ?i ?x)] => assert (sane x) as H1 by (destruct (_ && _); [by left|exact H]); generalize dependent x end.
  intros s1 H1. destruct (write_event wb _) as [clients rb]. destruct (truthy clients); [|exact H1].
  match goal with |- context [run_module ?i GetTime s1] => pose proof (run_sane i GetTime s1 (proper_keeps _ _ GetTime_keeps) H1) as H2; destruct (run_module i GetTime s1) as [t s2] end.
  cbn [snd] in *. by apply deliver_sane.
Qed.

(** A run of the driver: any client may be opened; a client that is open may be
    closed, send an ioctl, or do what a read does to its queue, its timer and
    its semaphore; any process may write; any module may interrupt. *)
Inductive ctr_step (beyond : Z -> Z) : ctr -> ctr -> Prop :=
  | st_open minor pid s : ctr_step beyond s (CtrDrvrOpen minor pid s).2
  | st_close minor s : open_client s (minor - 1) -> ctr_step beyond s (CtrDrvrClose beyond minor s).2
  | st_ioctl cm minor s : legal cm -> ctr_step beyond s (CtrDrvrIoctl beyond cm minor s).2
  | st_write wb s : ctr_step beyond s (CtrDrvrWrite wb s).2
  | st_interrupt mi s : module_index mi = true -> ctr_step beyond s (IntrHandler mi s).2
  | st_read_start n t task s : open_client s n -> ctr_step beyond s (on_client n (fun c => (read_start t task c).2) s)
  | st_read_finish n aborted s : open_client s n -> ctr_step beyond s (on_client n (fun c => (read_finish aborted c).2) s)
  | st_timeout n s : open_client s n -> ctr_step beyond s (on_client n ReadTimeout s).

Lemma step_sane beyond s s' : ctr_step beyond s s' -> sane s -> sane s'.
Proof.
  intros [minor pid s0|minor s0 Ho|cm minor s0 Hl|wb s0|mi s0 Hi|n t task s0 Ho|n aborted s0 Ho|n s0 Ho] H.
  - by apply open_sane.
  - by apply close_sane.
  - by apply ioctl_sane.
  - by apply write_sane.
  - by apply interrupt_sane.
  - apply own_client_sane; [exact Ho| |exact H]. intros c. unfold read_start. cbv zeta. repeat case_match; done.
  - apply own_client_sane; [exact Ho| |exact H]. intros c. unfold read_finish. repeat case_match; done.
  - by apply own_client_sane.
Qed.

(** The working area as it is installed: cleared, with [w_Modules] modules. *)
Record installed (s : ctr) : Prop := {
  in_len : length (w_cons s) = 16%nat /\ length (w_cards s) = 16%nat /\ length (w_clients s) = 16%nat;
  in_modules : 0 <= w_Modules s <= 16;
  in_tables : Forall (fun c => mc_EqpNum c = ∅ /\ mc_EqpClass c = ∅ /\ mc_Clients c = ∅ /\ mc_HardClients c = ∅ /\ length (mc_Pll c) = 8%nat) (w_cons s);
  in_unmapped : forall mi, w_Modules s <= mi < 16 -> mc_Map (con_at mi s) = 0;
  in_clients : Forall (fun c => cc_InUse c = 0) (w_clients s);
  in_ctim : w_Ctim s = [];
}.

Lemma receiver_installed_ok s : installed s -> conn_ok s.
Proof.
  intros [(L1 & L2 & L3) M T U C O].
  assert (forall k, ~ open_client s k) as No.
  { intros k [_ Hu]. apply Hu. unfold client_at. rewrite nth_lookup. destruct (w_clients s !! Z.to_nat k) as [c|] eqn:E; [|done].
    rewrite Forall_lookup in C. exact (C _ c E). }
  split; [|intros k Hk; by destruct (No k)|by rewrite O].
  split; [done|exact M| |exact U]. intros mi Hi. apply module_index_spec in Hi.
  assert (exists c, w_cons s !! Z.to_nat mi = Some c) as [c Ec] by (apply lookup_lt_is_Some_2; lia).
  assert (ms_con (get_mst mi s) = c) as Ecn by (unfold get_mst, con_at; cbn; by rewrite nth_lookup, Ec).
  rewrite Forall_lookup in T. destruct (T _ c Ec) as (E1 & E2 & E3 & E4 & E5). split; rewrite ?Ecn.
  - intros i Hs. split; unfold EqpNum, EqpClass, Clients; rewrite ?E1, ?E2, ?E3; try done. intros k _. cbn. by rewrite Z.bits_0.
  - intros j _ k _. unfold HardClients. rewrite E4. cbn. by rewrite Z.bits_0.
  - intros _. unfold Clients, HardClients. by rewrite E3, E4.
  - exact E5.
Qed.

