(* ===== verification/CtrRuns.v ===== *)
(** * The timing receiver: concrete runs

    The witnesses of the theorems, and runs in which the driver departs from what
    it means to do. *)

From stdpp Require Import gmap.
From S2P Require Import Prelude CdcmSem CtrHw CtrMod CtrHptdc Ctr CtrIoctl CtrIsr CtrInv CtrReach.

(** ** A chip that answers its identification *)

Definition chip_of (cap : list bool) (log : list Z) : Z :=
  if nth (length (tp_shift (tap_run log)) - 1) cap false then HptdcJTAG_TDO else 0.

Lemma chip_answers cap : answers cap (chip_of cap).
Proof. intros log t _. unfold chip_of, pin, t. by destruct (nth _ cap false). Qed.

(** HPTDC 1.1 and 1.2. *)
Definition idcode : list bool := bit_list 32 0 0x8470DACE.

Definition hptdc_module : mst :=
  Mst (set_mc_Map 1 mcon_zero) (Card ∅ (fun _ => false) [] (chip_of idcode) 0 false []) (Glob 0 0 0 false).


(** ** Two clients of a timing event

    Module 1 of two is there; clients 0 and 1 connect to the CTIM 911, client 1
    to the pulse per second as well. *)

Definition no_memory (_ : Z) : Z := 0.
Definition pll_zero : list Z := [0; 0; 0; 0; 0; 0; 0; 0].

Definition run0 : ctr :=
  Ctr [] [] 2 (set_mc_InUse 1 (set_mc_Map 1 mcon_zero) :: replicate 15 mcon_zero) (replicate 16 card_zero) (replicate 16 ccon_zero) (Glob 0 0 0 false).

Definition do_ioctl (minor : Z) (cm : CtrDrvrControlFunction) (s : ctr) : ctr := (CtrDrvrIoctl no_memory cm minor s).2.
Definition result (minor : Z) (cm : CtrDrvrControlFunction) (s : ctr) : Z := (CtrDrvrIoctl no_memory cm minor s).1.1.

Definition ctim (num : Z) : CtrDrvrConnection := Cconn 1 CtrDrvrConnectionClassCTIM num.
Definition hard (mask : Z) : CtrDrvrConnection := Cconn 1 CtrDrvrConnectionClassHARD mask.

Definition run1 : ctr := (CtrDrvrOpen 1 100 run0).2.
Definition run2 : ctr := (CtrDrvrOpen 2 200 run1).2.
Definition run3 : ctr := do_ioctl 1 (CREATE_CTIM_OBJECT 911 0x34020000) run2.
Definition run4 : ctr := do_ioctl 1 (CONNECT (ctim 911)) run3.
Definition run5 : ctr := do_ioctl 2 (CONNECT (ctim 911)) run4.
Definition run6 : ctr := do_ioctl 2 (CONNECT (hard 0x800)) run5.
Definition run7 : ctr := (CtrDrvrClose no_memory 1 run6).2.

Lemma run0_installed : installed run0.
Proof.
  split; [by vm_compute|by vm_compute| | |by vm_compute; repeat constructor|done].
  - repeat constructor.
  - intros mi Hi. assert (mi = 2 \/ mi = 3 \/ mi = 4 \/ mi = 5 \/ mi = 6 \/ mi = 7 \/ mi = 8 \/ mi = 9 \/ mi = 10 \/ mi = 11 \/ mi = 12 \/ mi = 13 \/ mi = 14 \/ mi = 15) as H
      by (change (w_Modules run0) with 2 in Hi; lia).
    by repeat destruct H as [-> |H]; [..|subst].
Qed.

Lemma run7_reached : rtc (ctr_step no_memory) run0 run7.
Proof.
  apply (rtc_l _ _ run1); [apply st_open|]. apply (rtc_l _ _ run2); [apply st_open|]. apply (rtc_l _ _ run3); [by apply st_ioctl|].
  apply (rtc_l _ _ run4); [by apply st_ioctl|]. apply (rtc_l _ _ run5); [by apply st_ioctl|]. apply (rtc_l _ _ run6); [by apply st_ioctl|].
  apply rtc_once, st_close. split; [by vm_compute|]. intros E. vm_compute in E. discriminate.
Qed.


(** ** An interrupt for both

    Counter 0 has fired twice since its history was read, and the second has
    begun. *)

Definition words (l : list (Z * Z)) (c : card) : card := foldl (fun c x => put_word x.1 x.2 c) c l.

Definition history : list (Z * Z) :=
  [(InterruptSource, 0x801); (LockHistory_w 0, 2); (History_w 0, 0); (History_w 0 + 1, 0x34020007);
   (History_w 0 + 2, 10); (History_w 0 + 3, 1000); (History_w 0 + 4, 5);
   (History_w 0 + 8, 11); (History_w 0 + 9, 1001); (History_w 0 + 10, 6); (ReadTime_w, 12); (ReadTime_w + 1, 1002); (ReadTime_w + 2, 7)].

Definition raised_run : ctr := set_w_cards (alter (words history) 0%nat (w_cards run6)) run6.

Definition timing_event : CtrDrvrReadBuf :=
  Crb (Cconn 1 CtrDrvrConnectionClassCTIM 911) 1 0 911 0x34020007 (CTime 10 1000 5) ctime_zero (CTime 11 1001 6).
Definition second_event : CtrDrvrReadBuf := Crb (Cconn 1 CtrDrvrConnectionClassHARD 0x800) 0 11 0 0 ctime_zero ctime_zero (CTime 12 1002 7).

Lemma ctr_interrupt_delivers_witness :
  let '(handled, s') := IntrHandler 0 raised_run in
  handled = true /\ queue_list (cc_Queue (client_at 0 s')) = [timing_event] /\ queue_list (cc_Queue (client_at 1 s')) = [timing_event; second_event] /\
  con_at 0 s' = lose (con_at 0 raised_run).
Proof.
  assert (calm (get_mst 0 raised_run)) as Hc.
  { assert (mc_Map (ms_con (get_mst 0 raised_run)) = 1) as Em by (vm_compute; reflexivity).
    assert (cd_fault (ms_card (get_mst 0 raised_run)) = fun _ => false) as Ef by (vm_compute; reflexivity).
    assert (bus_error_count (ms_glob (get_mst 0 raised_run)) = 0) as Eb by (vm_compute; reflexivity).
    assert (last_bus_error (ms_glob (get_mst 0 raised_run)) = 0) as El by (vm_compute; reflexivity).
    split; [by rewrite Em|by intros w; rewrite Ef|by rewrite Eb, El]. }
  pose proof (ctr_interrupt_delivers 0 raised_run Hc ltac:(vm_compute; split; [discriminate|reflexivity]) ltac:(vm_compute; reflexivity)) as H.
  destruct (IntrHandler 0 raised_run) as [handled s'] eqn:E. destruct H as (Hh & Hq & Hcon & _).
  assert (w_clients raised_run !! 0%nat = Some (client_at 0 raised_run)) as E0 by (vm_compute; reflexivity).
  assert (w_clients raised_run !! 1%nat = Some (client_at 1 raised_run)) as E1 by (vm_compute; reflexivity).
  assert (cc_Queue (client_at 0 raised_run) = cqueue_zero /\ cc_Queue (client_at 1 raised_run) = cqueue_zero) as [Q0 Q1]
    by (split; vm_compute; reflexivity).
  destruct (Hq 0%nat _ E0 ltac:(rewrite Q0; exact ring_zero)) as (c0' & E0' & _ & L0).
  destruct (Hq 1%nat _ E1 ltac:(rewrite Q1; exact ring_zero)) as (c1' & E1' & _ & L1).
  split; [rewrite Hh; vm_compute; reflexivity|]. unfold client_at. rewrite !nth_lookup. change (Z.to_nat 0) with 0%nat. change (Z.to_nat 1) with 1%nat. rewrite E0', E1'. cbn [default from_option]. rewrite Q0 in L0. rewrite Q1 in L1.
  split; [etransitivity; [exact L0|vm_compute; reflexivity]|]. split; [etransitivity; [exact L1|vm_compute; reflexivity]|].
  rewrite Hcon. assert (existsb (fun j => raised (get_mst 0 raised_run) j && overrun (get_mst 0 raised_run) j) (seqZ 0 CtrDrvrInterruptSOURCES) = true) as -> by (vm_compute; reflexivity).
  reflexivity.
Defined.

(** ** Departures *)

(** A bus error that the handler itself sees is remembered until another access
    or an ioctl: the second read of the sources is given up as well, whatever it
    says, and so is every later interrupt. *)
Lemma retry_given_up mi s : last_bus_error (w_glob s) < bus_error_count (w_glob s) -> mc_Map (con_at mi s) <> 0 ->
  (forall w, cd_fault (ms_card (get_mst mi s)) w = false) -> (IntrHandler mi s).1 = false /\ w_clients (IntrHandler mi s).2 = w_clients s.
Proof.
  intros Hg Hm Hf.
  assert (forall m, last_bus_error (ms_glob m) < bus_error_count (ms_glob m) -> mc_Map (ms_con m) <> 0 -> (forall w, cd_fault (ms_card m) w = false) ->
    exists v m', IHRd InterruptSource m = (v, m') /\ isr_bus_error (ms_glob m') = 1 /\ last_bus_error (ms_glob m') < bus_error_count (ms_glob m') /\
      mc_Map (ms_con m') <> 0 /\ (forall w, cd_fault (ms_card m') w = false)) as Hr.
  { intros m Hl Hmm Hff. unfold IHRd, ioread32be. cbn [ms_con on_glob]. rewrite (proj2 (Z.eqb_neq _ _) Hmm). destruct m as [cn cd g]. cbn in *. rewrite !Hff. unfold on_glob, with_card, set_isr_bus_error. cbn.
    change (InterruptSource <? map_words) with true. cbn. rewrite (proj2 (Z.ltb_lt _ _) Hl). cbn. eexists _, _. split; [reflexivity|]. split_and!; try done. }
  unfold IntrHandler. destruct (Hr (get_mst mi s) Hg Hm Hf) as (v & m1 & -> & I1 & L1 & M1 & F1). rewrite I1. change (truthy 1) with true. cbv iota.
  destruct (Hr m1 L1 M1 F1) as (v2 & m2 & -> & I2 & L2 & M2 & F2). rewrite I2. change (truthy 1) with true. cbv iota.
  match goal with |- context [for_range ?n ?f ?x] => assert (for_range n f x = x) as -> end.
  { apply (for_range_ind (fun _ x => x = (m2, w_clients s))); [done..|]. intros i x _ ->. by rewrite Z.land_0_r. }
  done.
Qed.

Definition run6b : ctr := do_ioctl 1 (CONNECT (ctim 912)) (do_ioctl 1 (CREATE_CTIM_OBJECT 912 0x34030000) run6).
Definition run6c : ctr := do_ioctl 2 (DISCONNECT (ctim 911)) (do_ioctl 2 (DISCONNECT (hard 0x800)) run6b).

(** Client 0 is connected to two events; leaving one turns off the interrupt of
    the other. *)
Lemma interrupt_lost : let s := do_ioctl 1 (DISCONNECT (ctim 912)) run6c in
  Clients (con_at 0 run6c) 0 = 1 /\ Clients (con_at 0 run6c) 1 = 1 /\ mc_InterruptEnable (con_at 0 run6c) = 1 /\
  Clients (con_at 0 s) 0 = 1 /\ Clients (con_at 0 s) 1 = 0 /\ mc_InterruptEnable (con_at 0 s) = 0.
Proof. vm_compute. by repeat split. Qed.

(** The event that was left cannot be destroyed: its trigger keeps the number. *)
Lemma object_stays : let s := do_ioctl 1 (DISCONNECT (ctim 912)) run6c in
  EqpNum (con_at 0 s) 1 = 0 /\ result 1 (DESTROY_CTIM_OBJECT 912) s = - EBUSY.
Proof. vm_compute. by split. Qed.

(** Leaving one line leaves all. *)
Lemma lines_left : let s := do_ioctl 1 (CONNECT (hard 0x3)) run2 in let s' := do_ioctl 1 (DISCONNECT (hard 0x1)) s in
  HardClients (con_at 0 s) 1 = 1 /\ HardClients (con_at 0 s') 1 = 0.
Proof. vm_compute. by split. Qed.

(** A trigger cannot be given to an empty slot. *)
Lemma empty_slot_refused : result 1 (SET_ACTION (Act 5 7 CtrDrvrConnectionClassPTIM trig_zero conf_zero)) run3 = - EINVAL.
Proof. vm_compute. reflexivity. Qed.

(** A client of object 0 is still in the tables after it was closed. *)
Lemma object_zero_stays : let s := do_ioctl 1 (CONNECT (ctim 0)) (do_ioctl 1 (CREATE_CTIM_OBJECT 0 0x34030000) run2) in
  let s' := (CtrDrvrClose no_memory 1 s).2 in Clients (con_at 0 s') 0 = 1 /\ cc_InUse (client_at 0 s') = 0.
Proof. vm_compute. by split. Qed.

(** A module that is not there is used through a NULL pointer. *)
Lemma absent_module_used : crashed (do_ioctl 1 (CONNECT (Cconn 5 CtrDrvrConnectionClassHARD 1)) run2).
Proof. vm_compute. reflexivity. Qed.
